(* ===== verification/_CoqProject ===== *)
-Q . S2P
Prelude.v
CAbi.v
CEnum.v
SmiEnums.v
SmiTypes.v
GimEnums.v
GimTypes.v
SmiLayouts.v
SmiAbi.v
SmiCompat.v
SmiMasks.v
CProto.v
SmiApi.v
GimApi.v
ApiCompat.v
AgentClock.v
RocpSdk.v
Format.v
FormatProofs.v
Sampler.v
Packing.v
MockSdk.v
PackingProofs.v
SamplerProofs.v
SamplerTheorems.v
Json.v
RunSample.v
Document.v
RunSampleProofs.v
Rocpctl.v
RocpctlProofs.v
RocpClient.v
RocpClientProofs.v
ProfilerMetrics.v
GoStd.v
NodeLabeller.v
ExporterUtils.v
Scheduler.v
GpuMessages.v
GpuAgent.v
GoTime.v
Config.v
Selector.v
GpuHealth.v
GpuHealthProofs.v
GpuHealthTheorems.v
Monitor.v
FieldLogger.v
WorkerPool.v
LabelConfig.v
LabelProofs.v
MetricFields.v
FieldConfig.v
GpuReadings.v
GpuTable.v
GpuTableProofs.v
GpuRun.v
GpuKeys.v
GpuFields.v
GpuScrape.v
GpuScrapeProofs.v
GpuLoad.v
GpuScrapeTheorems.v
GpuLoadTheorems.v
Exporter.v
Reload.v
Events.v
TestResults.v
TestHandler.v
TestHandlerTheorems.v
TestStatus.v
TestStatusProofs.v
TestStatusTheorems.v
TestConfig.v
HealthService.v
NicAgent.v
NicTheorems.v
NicLabels.v
NicLabelProofs.v
NicLabelTheorems.v
