(* ===== verification/Prelude.v ===== *)
(** * Verification of the device metrics exporter

    This development models the C and C++ code of the repository, and of the
    Go exporter the parts that decide: the client of the counter command, the
    health monitor of the GPUs with the labels it writes, the metrics of the
    GPUs from the answer of the agent to the series of Prometheus, the
    requests and reloads around them, the schedulers, the configuration, the
    health service, the test runner that tests the GPUs it reports, and the
    health and the labels of the network cards.

    ** The program

    The exporter publishes metrics of AMD GPUs.  Most metrics come from the
    GPU agent, which is compiled against one of two SMI headers under
    [src/assets/]: [amd_smi_lib] for bare metal, [gim_smi_lib] for the host of
    virtual GPUs.  The performance counters come from [rocpctl]
    ([src/rocprofilerclient/rocpctl.cpp]), a command that samples the counters
    of every GPU through the rocprofiler SDK ([rocpclient.cpp],
    [RocpCounterSampler.h]) and prints one JSON document.  The exporter runs
    the command through [ROCProfilerClient]
    ([src/pkg/amdgpu/rocprofiler/rocpclient.go]), which caches the metrics and
    stops running the command after repeated failures or a crash.

    The exporter asks the GPU agent over gRPC ([src/pkg/amdgpu/gpuagent/]).  On
    every tick of a timer the monitor ([gpuagent.go], [StartMonitor]) polls
    the agent, decides from error counters, events and error records which
    GPUs are healthy ([gpuagent_health.go]), writes labels of the node
    through the Kubernetes API ([src/pkg/client/k8s.go],
    [src/pkg/exporter/utils/node_labeller.go]), and ends the process after
    three failures in a row if asked to.  Pods and Slurm jobs come from
    [src/pkg/exporter/scheduler/], settings from
    [src/pkg/exporter/config/].

    Prometheus asks for the metrics over HTTP
    ([src/pkg/exporter/exporter.go]).  A request empties the gauges of the
    GPU client, asks the agent, and sets the gauges of every exported GPU
    ([gpuagent_gpu.go], [gpuagent_gpu_metrics.go]); then the registered gauges
    are sent.  A change of the configuration stops the server, loads the
    configuration, and starts it again; the load finds out which fields a GPU
    does not support.

    The exporter of a node with network cards asks the tools [nicctl],
    [rdma] and [ethtool] instead of an agent ([src/pkg/amdnic/nicagent/]): it
    collects the cards with their ports and logical interfaces (LIFs) once,
    copies the counters of the tools to gauges on every request, and answers
    queries for the health of the LIFs.

    A second program, the test runner ([src/pkg/testrunner/]), asks the
    health service of the exporter ([src/pkg/amdgpu/metricsserver/]) every 30
    seconds for the health of the GPUs, and tests the unhealthy ones that no
    workload uses with RVS or AGFHC.  A status file tells it which GPUs have
    a test ([testrunner.go], [utils.go]); each test runs its iterations in
    processes with a timeout ([interface/types.go]).  It can also run one
    test and exit.

    ** The files

    - [Prelude]: machine integers, alignment, lists, strings, tactics, the
      hint database [smi].
    - [CAbi], [CEnum]: C types with the layout of the x86-64 System V ABI
      (bit-fields, packing, unions), loads and stores by path; enumerations
      with the values the language gives them, as a class.
    - [SmiEnums], [SmiTypes], [GimEnums], [GimTypes]: every constant,
      enumeration, structure and union of the two headers, in the order of
      the headers (modules [Smi], [SmiT], [Gim], [GimT]).
    - [SmiLayouts]: the members of a type with their places ([layout]), and
      the places GCC gives all members of both headers, as tables.  [SmiAbi]:
      that the types have these layouts, field access, the members the two
      headers put at different places; PCI addresses; the CPER record header.  [SmiCompat]: codes of the same name in both
      headers.  [SmiMasks]: the event mask macros.
      [CProto], [SmiApi], [GimApi], [ApiCompat]: all function prototypes with
      what their comments say about the parameters, the places of arguments
      in a call, and callers of one header against the library of the other.  [AgentClock]: the clock
      readings of [src/patch/gpuagent/], on arbitrary contents of
      [amdsmi_frequencies_t].
    - [RocpSdk]: the rocprofiler SDK as the client uses it: the class [Sdk] of
      its functions over an abstract state, the class [SdkLaws] of what the
      client relies on, the exceptions, and the monad of the client's methods
      (state that survives exceptions).  [MockSdk]: an SDK that satisfies the
      laws, for instances.
    - [Sampler], [Packing]: the class [CounterSampler]: object state, every
      method, the greedy packing loops.  [PackingProofs]: the specification of
      a split ([split_ok]) and that the packing meets it.  [SamplerProofs]:
      what the methods keep ([sampler_ok]), the refinement of sampling to
      sums over the records of all windows ([windows], [total]).
      [SamplerTheorems]: the resulting theorems.
    - [Format], [FormatProofs]: decimal integers and doubles as streams print
      them.  [Json]: a JSON parser.  [RunSample], [Document],
      [RunSampleProofs]: the process (samplers, registration, [runSample]) and
      its document.
    - [Rocpctl], [RocpctlProofs]: [main] of [rocpctl] with its arguments, exit
      status and output; the mock.
    - [RocpClient], [RocpClientProofs]: the Go client; its locked operations
      under every interleaving, its life under polling, its cache, and the
      command line it hands to [rocpctl].
    - [ProfilerMetrics]: the decoding of the document and
      [getProfilerMetrics] of the exporter, up to the published floats.
    - [GoStd], [GoTime]: the functions of Go's [strings], [strconv] and [time]
      the exporter calls, translated from their documented behaviour, with
      the inverses of [Split] and of [ParseDuration] that are used.
    - [NodeLabeller]: the labels of the node and [UpdateHealthLabel].
      [ExporterUtils]: which readings are published, as which numbers.
      [Scheduler]: workloads of Slurm and Kubernetes, pod labels.
    - [GpuMessages]: the messages of the agent.  [GpuAgent]: its cached
      answers, identifiers, workloads of a GPU, the latest error record.  [Config]: the settings.
      [Selector]: the list of GPUs to monitor.
    - [GpuHealth]: everything [gpuagent_health.go] does to the state of the
      GPU client, with [UpdateStaticMetrics] and [sendNodeLabelUpdate].
      [GpuHealthProofs]: which GPUs a poll finds unhealthy, as a predicate
      of the answers ([verdict]).  [GpuHealthTheorems]: the abstract
      [board] of lamps that the client refines, and its invariant.
    - [Monitor]: the ticks of [StartMonitor] with reconnection, counting and
      labels; what other goroutines do to the client between two ticks is an
      argument.  [FieldLogger]: the filter of fields a GPU does not support.
      [WorkerPool]: the goroutines of [worker.go] as a transition system.
    - [LabelConfig], [LabelProofs]: the labels of the GPU metrics, from the
      configuration to what a Prometheus gauge accepts.  [MetricFields],
      [FieldConfig]: the tables of fields, gauges and counters, and which of
      them a configuration exports.
    - [GpuReadings]: [updateGPUInfoToMetrics] as the list of its calls, in a
      small language that shares one map of labels with an index, and what a
      call does to gauges and filter.  [GpuTable]: the specification, a table
      of series with their values, without that map and without the state of
      the filter.  [GpuTableProofs], [GpuRun]: the calls write the table.
      [GpuKeys]: the series of a table are distinct and fit their gauges.
      [GpuFields]: the calls against the table of fields.
    - [GpuScrape]: the whole client, a scrape and a load.
      [GpuScrapeProofs], [GpuScrapeTheorems]: what a scrape publishes.
      [GpuLoad], [GpuLoadTheorems]: what a load does to the filter.
    - [Exporter]: requests and reloads as a transition system of threads.
      [Reload]: the watcher of the configuration, in time.  [Events]: the
      service that emits Kubernetes events; the check, the call and its
      answer are steps of each delivery.
    - [TestResults]: the results of a test and the verdict over them, what
      RVS and AGFHC say of each GPU.  [TestHandler], [TestHandlerTheorems]:
      one test, the goroutines of [types.go] as a transition system with
      [StopTest]; each unlocked read of the cancel function is a step.  [TestStatus]: the status file, the goroutines that load
      and save it, and the tests that are run once; [TestStatusProofs]: the
      invariant of the file and the tests, [TestStatusTheorems]: what
      follows.  [TestConfig]: the configuration of the tests.
    - [HealthService]: the health service, its clients as the class
      [HealthInterface] with the GPU client as an instance, and what the test
      runner is told.
    - [NicAgent], [NicTheorems]: the network cards of
      [src/pkg/amdnic/nicagent/]: what the tools say of cards, ports and LIFs
      ([getNICs]), the health of the LIFs and the labels of the node.
      [NicLabels], [NicLabelProofs], [NicLabelTheorems]: the labels of the
      NIC metrics, from the configuration to what the gauges accept, on the
      lemmas of [LabelProofs].

    ** Correspondence

    Definitions have the names of the functions they translate; loops of a
    function that are definitions of their own ([try_counter], [pack_round],
    [pack_loop], [print_entries], [sample_agents], ...) say which loop they
    are.  Objects are records, [std::map] and [unordered_map] are finite maps
    (with the order of the keys where the code iterates and it shows), a
    [throw] is a value of [exn], an out-of-range subscript of a [vector] is
    the separate value [OutOfBounds], which no handler catches.  64-bit and
    32-bit arithmetic wraps where the code's does ([u64], [u32]).  A loop over
    a Go map is a fold where the order of its entries cannot matter, and a
    list in the order of the visits where it can.  Doubles are
    the binary64 numbers of the standard library ([SpecFloat]), added in the
    order of the code.

    ** What is shown

    - Headers: size, alignment and the place of every member of all 139 types
      are those GCC gives them; reads after writes, disjointness, bounds;
      round trips; where members and codes of the two headers differ.
    - Functions of the headers: comments and prototypes agree, with one
      exception; every argument has a place of its own; which calls and objects differ
      between the headers.
    - Clock readings: no content of the structure leads outside the array.
    - Packing and sampling: every supported counter is placed exactly once in
      an accepted profile of at most ten; optimality for a permissive SDK;
      the invariant of a sampler under all call sequences, exceptions
      included; requests return the sums of the records; caching; what the
      destructor does not release.
    - Process and command: a registered process never leaves the vector of
      samplers, and its exit status tells whether a whole document was
      printed; the document parses back to what was sampled; how numbers and
      waits are cut.
    - Go client: the threshold is exactly three, a disabled profiler stays
      off, one event per disabling, the reason agrees with the state under
      every interleaving, the ten-second cache, and the round trip of the
      command line.
    - End to end: the exporter publishes exactly the GPUs and counters the
      document was printed from.
    - Health: for every sequence of polls, configuration loads, node failures
      and injected errors the published states are those of the [board];
      states are well formed in every reachable state; labels of the node
      show exactly the unhealthy GPUs, and when they are written.
    - Monitor: with [exitOnAgentDown] it ends the process exactly after three
      failing ticks in a row, with [exitOnRocpctlError] when it finds the
      profiler disabled, and never otherwise; a dead agent ends it at the
      third tick if the first option is set, and never if it is not; what a
      reconnection and an unanswered poll lose.
    - Worker pool: every run ends, or blocks only when all workers failed;
      without a failure every GPU has its answer.
    - Agent and schedulers: at most one call in fifteen seconds; the error
      record chosen is the latest; the job of a GPU is that of the last
      event; devices and claims of one kind only; pod labels.
    - Configuration and metrics: selector and interval as written; which
      readings are published; which gauges are registered; that the labels
      of a GPU always fit its gauges, and where their values come from; that
      the tables of the exporter and of [rocpctl] agree.
    - Scrapes: a scrape publishes exactly the readings of the answer, each
      under its own labels and in the gauge of its own field, and nothing
      when it fails; the gauge of the health shows the board; a load fixes
      the filter for all scrapes until the next one.
    - Requests and reloads: every response shows one scrape, under every
      interleaving; every request ends; the running configuration becomes
      that of the file, and reloads are three seconds apart.
    - Events: they are handled in order, none lost before the stop, which
      ends; which calls of the API may still begin after it was forbidden.
    - Tests: every test ends or panics, and where it can panic; its results are those of the iterations that
      could be started; what makes a timeout; the verdict.  One test for each
      GPU, what is recorded when, and what a restart runs again, as long as
      nobody loads the status file between another's load and save; what is
      lost otherwise.  The contract of a test that is run once.
    - Health service: the test runner sees the [board] of the monitor;
      injected errors never end the process.
    - Network cards: which LIFs have a health state and which one; which
      settings make the export of a metric panic; which labels of a LIF are
      left over from another.

    ** Fuel

    [RangeStrToIntIndices] counts a range up with fuel; the size of the
    largest range is enough for every range that does not end at the largest
    [int], where the code itself does not end.  [ParseDuration] has one step
    per byte of its text.  The worker pool needs none: a measure decreases.

    The packing loop has as much fuel as counters: every round that does not
    end the loop places one ([pack_loop_total]).  Decimal printing has one
    step per binary digit, more than one per decimal digit.  The JSON parser
    has one step per token; every call consumes one.

    ** Not modelled

    The SDK, HIP, the shell, the clock and the generated message decoder are
    parameters; so are the answers of the GPU agent and of the Kubernetes
    API.  Logging is left out, and so is the text of events.  Go's goroutines
    are modelled where they share state that matters (the worker pool, the
    locked operations of the counter client, the refresh of the error
    records, the requests, the events); the locks of the health state make its operations
    atomic, and the mutex of the requests those of a scrape.  A request that
    outlives a forced close can meet a load in the same memory; a step of
    [Exporter] is atomic, so such a collision inside a step is not seen.
    Conversions of floats that do not fit an integer are left open by Go and
    are a parameter ([imp]).  Direct queries of the agent's answers, the
    client of fabrics, the counters of the network cards (several hundred,
    copied to gauges of the same names), the caches of their devices, the
    options of the command line and the
    transport of gRPC are not modelled; nor are, of the test runner, the
    export of logs, its events and labels, the files the frameworks write,
    and the tools that name GPUs and their model.  The GPU agent itself is a
    git submodule. *)


From stdpp Require Export base list strings gmap sorting.
From Stdlib Require Export ZArith Lia.

#[export] Set Default Goal Selector "!".

Create HintDb smi.

(** ** Machine integers

    A [w]-bit unsigned quantity is a [Z]; [wrap w] is the reduction the
    hardware performs on overflow and on narrowing conversions. *)

Definition wrap (w z : Z) : Z := z `mod` 2 ^ w.

Definition u8 : Z → Z := wrap 8.
Definition u16 : Z → Z := wrap 16.
Definition u32 : Z → Z := wrap 32.
Definition u64 : Z → Z := wrap 64.

Lemma wrap_range w z : (0 <= w)%Z → (0 <= wrap w z < 2 ^ w)%Z.
Proof. intros. apply Z.mod_pos_bound, Z.pow_pos_nonneg; lia. Qed.

Lemma wrap_id w z : (0 <= z < 2 ^ w)%Z → wrap w z = z.
Proof. apply Z.mod_small. Qed.

Lemma wrap_wrap w z : wrap w (wrap w z) = wrap w z.
Proof. apply Zmod_mod. Qed.

Lemma wrap_land w z : (0 <= w)%Z → wrap w z = Z.land z (Z.ones w).
Proof. intros. symmetry. by apply Z.land_ones. Qed.

#[export] Hint Resolve wrap_range : smi.


(** ** Alignment *)

(** [align_up o a] is the least multiple of [a] that is at least [o]. *)
Definition align_up (o a : Z) : Z := (o + a - 1) / a * a.

Lemma align_up_ge o a : (0 < a)%Z → (o <= align_up o a)%Z.
Proof.
  intros. unfold align_up.
  pose proof (Z.mod_pos_bound (o + a - 1) a).
  pose proof (Z.div_mod (o + a - 1) a). lia.
Qed.

Lemma align_up_lt o a : (0 < a)%Z → (align_up o a < o + a)%Z.
Proof.
  intros. unfold align_up.
  pose proof (Z.mod_pos_bound (o + a - 1) a).
  pose proof (Z.div_mod (o + a - 1) a). lia.
Qed.

Lemma align_up_divide o a : (a | align_up o a)%Z.
Proof. unfold align_up. apply Z.divide_factor_r. Qed.

#[export] Hint Resolve align_up_ge align_up_divide : smi.

(** ** Lists *)

Lemma filter_id {A} (P : A → Prop) `{∀ x, Decision (P x)} l :
  Forall P l → filter P l = l.
Proof. induction 1; [done|]. rewrite filter_cons_True by done. by f_equal. Qed.

Lemma existsb_ext {A} (f g : A → bool) l : (∀ x, f x = g x) → existsb f l = existsb g l.
Proof. intros Hfg. induction l as [|x l IH]; [done|]. cbn [existsb]. by rewrite Hfg, IH. Qed.

Lemma existsb_none {A} (l : list A) : existsb (λ _, false) l = false.
Proof. by induction l. Qed.

Lemma concat_imap_single {A B} (h : nat → A → B) l : concat (imap (λ i x, [h i x]) l) = imap h l.
Proof.
  revert h. induction l as [|x l IH]; intros h; [done|]. cbn [imap concat app]. f_equal. exact (IH (h ∘ S)).
Qed.

(** A loop whose body may end the program. *)
Fixpoint foldM {A B} (f : B → A → option B) (b : B) (l : list A) : option B :=
  match l with
  | [] => Some b
  | a :: l => b ← f b a; foldM f b l
  end.

(** For values too large to be shown: evaluate only that there is one. *)
Definition present {A} (o : option A) : bool := match o with Some _ => true | None => false end.

Lemma present_some {A} (d : A) o : present o = true → o = Some (default d o).
Proof. by destruct o. Qed.

Lemma foldM_app {A B} (f : B → A → option B) b l1 l2 : foldM f b (l1 ++ l2) = foldM f b l1 ≫= λ b, foldM f b l2.
Proof.
  revert b. induction l1 as [|a l1 IH]; intros b; [done|]. cbn [foldM app].
  destruct (f b a); [apply IH|done].
Qed.

Lemma foldM_total {A B} (f : B → A → option B) (g : B → A → B) (P : A → Prop) b l :
  (∀ b a, P a → f b a = Some (g b a)) → Forall P l → foldM f b l = Some (foldl g b l).
Proof.
  intros Hf Hl. revert b. induction Hl as [|a l Ha Hl IH]; intros b; [done|].
  cbn [foldM foldl]. rewrite Hf by done. apply IH.
Qed.

(** The last element of a list that writes a key decides its value. *)
Lemma foldl_last_write {A K V} `{Countable K} (f : gmap K V → A → gmap K V)
    (eff : A → option (option V)) k l m :
  (∀ m a, f m a !! k = default (m !! k) (eff a)) →
  foldl f m l !! k = default (m !! k) (last (omap eff l)).
Proof.
  intros Hf. induction l as [|a l IH] using rev_ind; [done|].
  rewrite foldl_app, omap_app. cbn [foldl]. rewrite Hf. cbn [omap list_omap].
  destruct (eff a) as [r|]; [by rewrite last_snoc|]. by rewrite app_nil_r.
Qed.

(** A map built by insertions with distinct keys. *)
Section foldl_insert.
Context {A K V : Type} `{Countable K} (key : A → K) (val : A → V).

Abbreviation build := (foldl (λ m a, <[key a := val a]> m)).

Lemma foldl_insert_None l (m : gmap K V) k : k ∉ key <$> l → build m l !! k = m !! k.
Proof.
  revert m. induction l as [|a l IH]; intros m Hk; [done|]. cbn [foldl].
  rewrite fmap_cons, not_elem_of_cons in Hk. destruct Hk as [Ha Hk].
  rewrite IH by done. by rewrite lookup_insert_ne.
Qed.

Lemma foldl_insert_Some l (m : gmap K V) a : NoDup (key <$> l) → a ∈ l →
  build m l !! key a = Some (val a).
Proof.
  revert m. induction l as [|b l IH]; intros m; [by intros _ ?%elem_of_nil|].
  rewrite fmap_cons, NoDup_cons. intros [Hb Hl] [->|Ha]%elem_of_cons; cbn [foldl].
  - by rewrite foldl_insert_None, lookup_insert_eq.
  - by apply IH.
Qed.

Lemma foldl_insert_inv l k v : build (∅ : gmap K V) l !! k = Some v →
  ∃ a, a ∈ l ∧ key a = k ∧ val a = v.
Proof.
  induction l as [|a l IH] using rev_ind; [cbn [foldl]; by rewrite lookup_empty|].
  rewrite foldl_app. cbn [foldl]. destruct (decide (key a = k)) as [<-|Hne].
  - rewrite lookup_insert_eq. intros [= <-]. exists a. split; [|done]. apply elem_of_app. right. by left.
  - rewrite lookup_insert_ne by done. intros (b & Hb & Hk & Hv)%IH. exists b.
    split; [|done]. apply elem_of_app. by left.
Qed.
End foldl_insert.

(** ** Strings *)

Lemma string_app_assoc (a b c : string) : (a +:+ b) +:+ c = a +:+ (b +:+ c).
Proof. induction a as [|x a IH]; [done|]. exact (f_equal (String x) IH). Qed.

Lemma string_app_nil_r (a : string) : a +:+ "" = a.
Proof. induction a as [|x a IH]; [done|]. exact (f_equal (String x) IH). Qed.

Lemma string_app_length (a b : string) :
  String.length (a +:+ b) = (String.length a + String.length b)%nat.
Proof. induction a as [|x a IH]; [done|]. exact (f_equal S IH). Qed.

(** ** Case analysis on the tests of the source

    [bool_cases] turns every comparison the code branches on into the
    proposition it decides. *)

Ltac bool_cases :=
  repeat match goal with
  | |- context [Z.leb ?a ?b] => destruct (Z.leb_spec a b)
  | |- context [Z.ltb ?a ?b] => destruct (Z.ltb_spec a b)
  | |- context [Z.eqb ?a ?b] => destruct (Z.eqb_spec a b)
  | H : context [Z.leb ?a ?b] |- _ => destruct (Z.leb_spec a b)
  | H : context [Z.ltb ?a ?b] |- _ => destruct (Z.ltb_spec a b)
  | H : context [Z.eqb ?a ?b] |- _ => destruct (Z.eqb_spec a b)
  end.

(** Split every boolean conjunction, disjunction and negation among the
    hypotheses into propositions. *)
Ltac bool_hyps :=
  repeat match goal with
  | H : andb _ _ = true |- _ => apply andb_prop in H; destruct H
  | H : negb _ = true |- _ => apply negb_true_iff in H
  | H : negb _ = false |- _ => apply negb_false_iff in H
  | H : Z.leb _ _ = true |- _ => apply Z.leb_le in H
  | H : Z.ltb _ _ = true |- _ => apply Z.ltb_lt in H
  | H : Z.eqb _ _ = true |- _ => apply Z.eqb_eq in H
  | H : Z.eqb _ _ = false |- _ => apply Z.eqb_neq in H
  | H : bool_decide _ = true |- _ => apply bool_decide_eq_true in H
  | H : bool_decide _ = false |- _ => apply bool_decide_eq_false in H
  end.

(** Evaluate a closed decidable goal by the virtual machine. *)
Ltac by_decide := apply (bool_decide_unpack _); vm_compute; reflexivity.
Ltac by_compute := vm_compute; first [reflexivity | exact I | discriminate].
