(* ===== verification/CAbi.v ===== *)
(** C types and their layout on x86-64 (System V ABI, as GCC implements it):
    sizes, alignments, member offsets with bit-fields and packing, and loads
    and stores of the part of an object a path of members and indices names.
    An object is the integer its bytes encode in little-endian order. *)

From S2P Require Import Prelude.
Local Open Scope Z_scope.

Inductive cty : Type :=
  | TInt (bits : Z) (signed : bool)
  | TBool
  | TFloat
  | TDouble
  | TPtr
  | TEnum (vals : list Z)
  | TArr (t : cty) (n : Z)
  | TStruct (packed : bool) (ms : list (string * (cty * option Z)))
  | TUnion (packed : bool) (ms : list (string * (cty * option Z))).

(** A member: its name, its type and, for a bit-field, its width. *)
Abbreviation member := (string * (cty * option Z))%type.

Definition m_ty (m : member) : cty := m.2.1.
Definition m_bits (m : member) : option Z := m.2.2.

(** The spellings of the headers. *)
Definition fld (f : string) (t : cty) : member := (f, (t, None)).
Definition bfld (f : string) (t : cty) (w : Z) : member := (f, (t, Some w)).

Definition uint8_t : cty := TInt 8 false.
Definition uint16_t : cty := TInt 16 false.
Definition uint32_t : cty := TInt 32 false.
Definition uint64_t : cty := TInt 64 false.
Definition uintptr_t : cty := TInt 64 false.
Definition char_t : cty := TInt 8 true.
Definition unsigned_char_t : cty := TInt 8 false.

(** Underlying size of an enumeration as gcc chooses it: four bytes when
    every value is representable as [int] or every value as [unsigned],
    eight bytes otherwise. *)
Definition enum_size (vals : list Z) : Z :=
  if forallb (λ v, (- 2 ^ 31 <=? v) && (v <? 2 ^ 31)) vals
     || forallb (λ v, (0 <=? v) && (v <? 2 ^ 32)) vals
  then 4 else 8.

Fixpoint alignof (t : cty) : Z :=
  match t with
  | TInt w _ => w / 8
  | TBool => 1
  | TFloat => 4
  | TDouble | TPtr => 8
  | TEnum vs => enum_size vs
  | TArr t _ => alignof t
  | TStruct pk ms | TUnion pk ms =>
      if pk then 1 else foldr (λ m, Z.max (alignof m.2.1)) 1 ms
  end.

Record slot := Slot { s_size : Z; s_align : Z; s_bits : option Z }.

Definition s_width (s : slot) : Z := default (s_size s) (s_bits s).

Definition place (pk : bool) (pos : Z) (s : slot) : Z :=
  match s_bits s with
  | None => align_up pos (if pk then 8 else s_align s)
  | Some w =>
      if pk then pos
      else if pos `mod` s_size s + w <=? s_size s then pos
      else align_up pos (s_size s)
  end.

Fixpoint offsets (pk : bool) (pos : Z) (ss : list slot) : list Z :=
  match ss with
  | [] => []
  | s :: ss => let o := place pk pos s in o :: offsets pk (o + s_width s) ss
  end.

Fixpoint end_pos (pk : bool) (pos : Z) (ss : list slot) : Z :=
  match ss with
  | [] => pos
  | s :: ss => end_pos pk (place pk pos s + s_width s) ss
  end.

Definition struct_bits (pk : bool) (al : Z) (ss : list slot) : Z :=
  align_up (end_pos pk 0 ss) al.

Definition union_bits (al : Z) (ss : list slot) : Z :=
  align_up (foldr (λ s, Z.max (s_width s)) 0 ss) al.

Fixpoint sizeof (t : cty) : Z :=
  match t with
  | TInt w _ => w / 8
  | TBool => 1
  | TFloat => 4
  | TDouble | TPtr => 8
  | TEnum vs => enum_size vs
  | TArr t n => n * sizeof t
  | TStruct pk ms =>
      struct_bits pk (8 * alignof (TStruct pk ms))
        (map (λ m, Slot (8 * sizeof m.2.1) (8 * alignof m.2.1) m.2.2) ms) / 8
  | TUnion pk ms =>
      union_bits (8 * alignof (TUnion pk ms))
        (map (λ m, Slot (8 * sizeof m.2.1) (8 * alignof m.2.1) m.2.2) ms) / 8
  end.

(** ** Paths into an object *)

Inductive acc : Type :=
  | AField (f : string)
  | AIndex (i : Z).

Definition mslot (m : member) : slot :=
  Slot (8 * sizeof (m_ty m)) (8 * alignof (m_ty m)) (m_bits m).

Fixpoint find_member (f : string) (ms : list member) (os : list Z)
    : option (Z * member) :=
  match ms, os with
  | m :: ms, o :: os =>
      if decide (m.1 = f) then Some (o, m) else find_member f ms os
  | _, _ => None
  end.

(** Offset (in bits) and declaration of the member [f] of a compound. *)
Definition member_at (t : cty) (f : string) : option (Z * member) :=
  match t with
  | TStruct pk ms => find_member f ms (offsets pk 0 (map mslot ms))
  | TUnion _ ms => find_member f ms (map (λ _, 0) ms)
  | _ => None
  end.

(** A reference to a part of an object: first bit, width in bits, type, and
    whether it is a bit-field. *)
Record lref := LRef { l_off : Z; l_width : Z; l_ty : cty; l_bf : bool }.

Definition shift_ref (d : Z) (r : lref) : lref :=
  LRef (d + l_off r) (l_width r) (l_ty r) (l_bf r).

Fixpoint resolve (t : cty) (p : list acc) : option lref :=
  match p with
  | [] => Some (LRef 0 (8 * sizeof t) t false)
  | AField f :: p =>
      '(o, m) ← member_at t f;
      match m_bits m with
      | None => shift_ref o <$> resolve (m_ty m) p
      | Some w => if decide (p = []) then Some (LRef o w (m_ty m) true) else None
      end
  | AIndex i :: p =>
      match t with
      | TArr t' n =>
          if (0 <=? i) && (i <? n)
          then shift_ref (i * (8 * sizeof t')) <$> resolve t' p else None
      | _ => None
      end
  end.

Definition is_struct (t : cty) : bool :=
  match t with TStruct _ _ => true | _ => false end.

(** Two paths that part at a structure member or at an array element. *)
Fixpoint diverge (t : cty) (p q : list acc) : bool :=
  match p, q with
  | AField f :: p, AField g :: q =>
      if decide (f = g) then
        match member_at t f with
        | Some (_, m) => diverge (m_ty m) p q
        | None => false
        end
      else is_struct t
  | AIndex i :: p, AIndex j :: q =>
      match t with
      | TArr t' _ => if decide (i = j) then diverge t' p q else true
      | _ => false
      end
  | _, _ => false
  end.

(** ** Object representations

    An object of type [t] is the integer in [0, 2^(8 * sizeof t)) whose
    little-endian bytes are the bytes of the object; on x86-64 the bits of
    a bit-field are contiguous in this integer. *)

Definition read_bits (ob o w : Z) : Z := Z.land (Z.shiftr ob o) (Z.ones w).

Definition write_bits (ob o w v : Z) : Z :=
  Z.lor (Z.ldiff ob (Z.shiftl (Z.ones w) o)) (Z.shiftl (wrap w v) o).

Definition load (t : cty) (p : list acc) (ob : Z) : option Z :=
  r ← resolve t p; Some (read_bits ob (l_off r) (l_width r)).

Definition store (t : cty) (p : list acc) (v ob : Z) : option Z :=
  r ← resolve t p; Some (write_bits ob (l_off r) (l_width r) v).

(** ** Well-formed declarations *)

Definition wf_bits (t : cty) (bf : option Z) : bool :=
  match bf, t with
  | None, _ => true
  | Some w, TInt b _ => (0 <? w) && (w <=? b)
  | Some _, _ => false
  end.

Fixpoint wf_cty (t : cty) : bool :=
  match t with
  | TInt w _ => bool_decide (w = 8 ∨ w = 16 ∨ w = 32 ∨ w = 64)
  | TBool | TFloat | TDouble | TPtr | TEnum _ => true
  | TArr t n => wf_cty t && (0 <? n)
  | TStruct _ ms | TUnion _ ms =>
      bool_decide (ms ≠ [] ∧ NoDup ms.*1)
      && forallb (λ m, wf_cty m.2.1 && wf_bits m.2.1 m.2.2) ms
  end.

(** No packing anywhere in the type. *)
Fixpoint natural (t : cty) : bool :=
  match t with
  | TArr t _ => natural t
  | TStruct pk ms | TUnion pk ms => negb pk && forallb (λ m, natural m.2.1) ms
  | _ => true
  end.

(** ** Induction over C types *)

Section cty_ind'.
  Context (P : cty → Prop).
  Context (HInt : ∀ w s, P (TInt w s)) (HBool : P TBool) (HFloat : P TFloat)
    (HDouble : P TDouble) (HPtr : P TPtr) (HEnum : ∀ vs, P (TEnum vs))
    (HArr : ∀ t n, P t → P (TArr t n))
    (HStruct : ∀ pk ms, Forall (λ m, P (m_ty m)) ms → P (TStruct pk ms))
    (HUnion : ∀ pk ms, Forall (λ m, P (m_ty m)) ms → P (TUnion pk ms)).

Fixpoint cty_ind' (t : cty) : P t :=
  let all ms : Forall (λ m, P (m_ty m)) ms :=
    (fix go (ms : list member) : Forall (λ m, P (m_ty m)) ms :=
     match ms with
     | [] => Forall_nil_2 _
     | m :: ms => Forall_cons_2 _ m ms (cty_ind' (m_ty m)) (go ms)
     end) ms in
  match t with
  | TInt w s => HInt w s
  | TBool => HBool
  | TFloat => HFloat
  | TDouble => HDouble
  | TPtr => HPtr
  | TEnum vs => HEnum vs
  | TArr t n => HArr t n (cty_ind' t)
  | TStruct pk ms => HStruct pk ms (all ms)
  | TUnion pk ms => HUnion pk ms (all ms)
  end.
End cty_ind'.

(** ** Alignments are 1, 2, 4 or 8 *)

Definition al_ok (a : Z) : Prop := a = 1 ∨ a = 2 ∨ a = 4 ∨ a = 8.

Lemma al_ok_pos a : al_ok a → 0 < a.
Proof. unfold al_ok. lia. Qed.

Lemma al_ok_max a b : al_ok a → al_ok b → al_ok (a `max` b).
Proof. unfold al_ok. lia. Qed.

Lemma al_ok_divide a b : al_ok a → al_ok b → a <= b → (a | b).
Proof.
  unfold al_ok. intros Ha Hb ?. exists (b / a).
  destruct_or! Ha; destruct_or! Hb; subst; try lia; reflexivity.
Qed.

Lemma enum_size_cases vs : enum_size vs = 4 ∨ enum_size vs = 8.
Proof. unfold enum_size. case_match; auto. Qed.

Lemma wf_members pk ms :
  wf_cty (TStruct pk ms) = true →
  ms ≠ [] ∧ Forall (λ m, wf_cty (m_ty m) = true ∧ wf_bits (m_ty m) (m_bits m) = true) ms.
Proof.
  cbn. intros H. bool_hyps. destruct_and!. split; [done|].
  rewrite Forall_forall. intros m Hm. rewrite forallb_forall in H0.
  apply list_elem_of_In in Hm. specialize (H0 _ Hm). by bool_hyps.
Qed.

Lemma foldr_max_al ms :
  Forall (λ m, al_ok (alignof (m_ty m))) ms →
  al_ok (foldr (λ m : member, Z.max (alignof m.2.1)) 1 ms) ∧
  Forall (λ m, alignof (m_ty m) <= foldr (λ m : member, Z.max (alignof m.2.1)) 1 ms) ms.
Proof.
  induction 1 as [|m ms Hm _ [IH1 IH2]]; cbn.
  - split; [unfold al_ok; auto|constructor].
  - split; [by apply al_ok_max|].
    constructor; [unfold m_ty; lia|].
    eapply Forall_impl; [done|]. cbn. lia.
Qed.

Lemma alignof_ok t : wf_cty t = true → al_ok (alignof t).
Proof.
  induction t as [w s| | | | |vs|t n IH|pk ms IH|pk ms IH] using cty_ind'; intros Hwf.
  - cbn in *. bool_hyps. unfold al_ok. destruct_or! Hwf; subst; auto.
  - cbn. unfold al_ok; auto.
  - cbn. unfold al_ok; auto.
  - cbn. unfold al_ok; auto.
  - cbn. unfold al_ok; auto.
  - cbn. unfold al_ok. destruct (enum_size_cases vs); auto.
  - cbn in *. bool_hyps. auto.
  - apply wf_members in Hwf as [_ Hwf]. cbn. destruct pk; [unfold al_ok; auto|].
    apply foldr_max_al. rewrite !Forall_forall in IH, Hwf |- *.
    intros m Hm. destruct (Hwf m Hm). auto.
  - change (wf_cty (TStruct pk ms) = true) in Hwf.
    apply wf_members in Hwf as [_ Hwf]. cbn. destruct pk; [unfold al_ok; auto|].
    apply foldr_max_al. rewrite !Forall_forall in IH, Hwf |- *.
    intros m Hm. destruct (Hwf m Hm). auto.
Qed.

(** ** Layout of a list of slots *)

Definition slot_ok (s : slot) : Prop :=
  (∃ a, al_ok a ∧ s_align s = 8 * a) ∧ 0 < s_size s ∧ (s_align s | s_size s) ∧
  match s_bits s with
  | None => True
  | Some w => 0 < w <= s_size s ∧ s_size s = s_align s
  end.

Lemma slot_width_pos s : slot_ok s → 0 < s_width s <= s_size s.
Proof. unfold slot_ok, s_width. destruct (s_bits s); cbn; lia. Qed.

Lemma place_ge pk pos s : slot_ok s → pos <= place pk pos s.
Proof.
  intros ((a & Ha & Hal) & Hsz & _ & _). apply al_ok_pos in Ha. unfold place.
  repeat case_match; try lia; apply align_up_ge; lia.
Qed.

Lemma end_pos_ge pk pos ss : Forall slot_ok ss → pos <= end_pos pk pos ss.
Proof.
  intros H. revert pos. induction H as [|s ss Hs _ IH]; intros pos; cbn; [lia|].
  specialize (IH (place pk pos s + s_width s)).
  pose proof (place_ge pk pos s Hs). pose proof (slot_width_pos s Hs). lia.
Qed.

Lemma length_offsets pk pos ss : length (offsets pk pos ss) = length ss.
Proof. revert pos. induction ss; intros; cbn; auto. Qed.

(** Every slot lies between the start position and the end position. *)
Lemma offsets_bounds pk pos ss i o s :
  Forall slot_ok ss → offsets pk pos ss !! i = Some o → ss !! i = Some s →
  pos <= o ∧ o + s_width s <= end_pos pk pos ss.
Proof.
  intros H. revert pos i. induction H as [|s' ss Hs Hss IH]; intros pos [|i] Ho Hi;
    cbn in *; simplify_eq.
  - pose proof (place_ge pk pos s Hs). split; [done|].
    apply end_pos_ge; auto.
  - destruct (IH _ _ Ho Hi). pose proof (place_ge pk pos s' Hs).
    pose proof (slot_width_pos s' Hs). lia.
Qed.

(** Slots are laid out in declaration order, without overlap. *)
Lemma offsets_order pk pos ss i j o o' s :
  Forall slot_ok ss → (i < j)%nat → offsets pk pos ss !! i = Some o →
  ss !! i = Some s → offsets pk pos ss !! j = Some o' → o + s_width s <= o'.
Proof.
  intros H. revert pos i j.
  induction H as [|s' ss Hs Hss IH]; intros pos [|i] [|j] Hij Ho Hi Hj;
    cbn in *; simplify_eq; try lia.
  - assert (∃ sj, ss !! j = Some sj) as [sj Hsj].
    { apply lookup_lt_is_Some. apply lookup_lt_Some in Hj.
      by rewrite length_offsets in Hj. }
    by destruct (offsets_bounds _ _ _ _ _ _ Hss Hj Hsj).
  - eapply IH; [|done..]. lia.
Qed.

(** Without packing, an ordinary member is aligned. *)
Lemma offsets_aligned pos ss i o s :
  offsets false pos ss !! i = Some o → ss !! i = Some s → s_bits s = None →
  (s_align s | o).
Proof.
  revert pos i. induction ss as [|s' ss IH]; intros pos [|i] Ho Hi Hb;
    cbn in *; simplify_eq; eauto.
  unfold place. rewrite Hb. apply align_up_divide.
Qed.

(** Without packing, a bit-field lies inside one storage unit of its type. *)
Lemma offsets_unit pos ss i o s w :
  0 <= pos → Forall slot_ok ss → offsets false pos ss !! i = Some o →
  ss !! i = Some s → s_bits s = Some w →
  o / s_size s = (o + w - 1) / s_size s.
Proof.
  intros Hpos H. revert pos i Hpos.
  induction H as [|s' ss Hs Hss IH]; intros pos [|i] Hpos Ho Hi Hb;
    cbn in *; simplify_eq.
  - destruct Hs as (_ & Hsz & _ & Hw). rewrite Hb in Hw. unfold place. rewrite Hb.
    set (sz := s_size s) in *.
    destruct (Z.leb_spec (pos `mod` sz + w) sz).
    + pose proof (Z.div_mod pos sz). pose proof (Z.mod_pos_bound pos sz).
      apply (Z.div_unique_pos _ _ _ (pos `mod` sz + w - 1)); lia.
    + unfold align_up. set (q := (pos + sz - 1) / sz).
      rewrite Z.div_mul by lia.
      apply (Z.div_unique_pos _ _ _ (w - 1)); lia.
  - eapply (IH (place false pos s' + s_width s')); eauto.
    pose proof (place_ge false pos s' Hs). pose proof (slot_width_pos s' Hs). lia.
Qed.

(** ** Sizes *)

Definition size_ok (t : cty) : Prop := 0 < sizeof t ∧ (alignof t | sizeof t).

Lemma div8_exact a x : 0 < a → (8 * a | x) → 8 * (x / 8) = x ∧ (a | x / 8).
Proof.
  intros Ha [k ->]. replace (k * (8 * a)) with (k * a * 8) by lia.
  rewrite Z.div_mul by lia. split; [lia|]. apply Z.divide_factor_r.
Qed.

Lemma mslot_ok m :
  wf_cty (m_ty m) = true → wf_bits (m_ty m) (m_bits m) = true →
  size_ok (m_ty m) → slot_ok (mslot m).
Proof.
  intros Hwf Hb [Hpos Hdiv]. unfold slot_ok, mslot; cbn.
  split; [by eauto using alignof_ok|]. split; [lia|].
  split; [by apply Z.mul_divide_mono_l|].
  destruct (m_bits m) as [w|]; [|done]. unfold wf_bits in Hb.
  destruct (m_ty m); try done. cbn in *. bool_hyps.
  assert (8 * (bits / 8) = bits) as -> by (destruct_or! Hwf; by subst). lia.
Qed.

(** The bit size of a structure and of a union, before the division by 8
    in [sizeof]. *)
Lemma struct_bits_size pk ms :
  wf_cty (TStruct pk ms) = true →
  8 * sizeof (TStruct pk ms) =
    struct_bits pk (8 * alignof (TStruct pk ms)) (map mslot ms) ∧
  (alignof (TStruct pk ms) | sizeof (TStruct pk ms)).
Proof.
  intros Hwf. apply (div8_exact (alignof (TStruct pk ms))
    (struct_bits pk (8 * alignof (TStruct pk ms)) (map mslot ms))).
  - by apply al_ok_pos, alignof_ok.
  - apply align_up_divide.
Qed.

Lemma union_bits_size pk ms :
  wf_cty (TUnion pk ms) = true →
  8 * sizeof (TUnion pk ms) =
    union_bits (8 * alignof (TUnion pk ms)) (map mslot ms) ∧
  (alignof (TUnion pk ms) | sizeof (TUnion pk ms)).
Proof.
  intros Hwf. apply (div8_exact (alignof (TUnion pk ms))
    (union_bits (8 * alignof (TUnion pk ms)) (map mslot ms))).
  - by apply al_ok_pos, alignof_ok.
  - apply align_up_divide.
Qed.

Lemma foldr_width_ge ss i s :
  ss !! i = Some s → s_width s <= foldr (λ s, Z.max (s_width s)) 0 ss.
Proof.
  revert i. induction ss as [|s' ss IH]; intros [|i] Hi; simplify_eq/=; [lia|].
  specialize (IH _ Hi). lia.
Qed.

Lemma sizeof_ok t : wf_cty t = true → size_ok t.
Proof.
  induction t as [w s| | | | |vs|t n IH|pk ms IH|pk ms IH] using cty_ind';
    intros Hwf; unfold size_ok; cbn [sizeof alignof];
    try (split; [lia|apply Z.divide_refl]).
  - cbn in Hwf. bool_hyps. split; [|apply Z.divide_refl].
    destruct_or! Hwf; subst; reflexivity.
  - split; [|apply Z.divide_refl]. destruct (enum_size_cases vs); lia.
  - cbn in Hwf. bool_hyps. destruct IH; [done|]. split; [lia|].
    by apply Z.divide_mul_r.
  - destruct (struct_bits_size pk ms Hwf) as [Hbits Hdiv]. split; [|exact Hdiv].
    pose proof (alignof_ok _ Hwf) as Hal%al_ok_pos.
    apply wf_members in Hwf as [Hne Hms].
    assert (Forall slot_ok (map mslot ms)) as Hss.
    { apply Forall_map. rewrite Forall_forall in *. intros m Hm.
      destruct (Hms m Hm). cbn. apply mslot_ok; auto. }
    change (0 < sizeof (TStruct pk ms)).
    enough (0 < 8 * sizeof (TStruct pk ms)) by lia.
    rewrite Hbits. unfold struct_bits.
    destruct ms as [|m ms]; [done|]. cbn [map] in Hss. apply Forall_cons in Hss as [Hs Hss].
    pose proof (end_pos_ge pk (place pk 0 (mslot m) + s_width (mslot m)) _ Hss).
    pose proof (place_ge pk 0 _ Hs). pose proof (slot_width_pos _ Hs).
    pose proof (align_up_ge (end_pos pk 0 (map mslot (m :: ms)))
      (8 * alignof (TStruct pk (m :: ms)))).
    cbn [map end_pos] in *. lia.
  - destruct (union_bits_size pk ms Hwf) as [Hbits Hdiv]. split; [|exact Hdiv].
    pose proof (alignof_ok _ Hwf) as Hal%al_ok_pos.
    change (wf_cty (TStruct pk ms) = true) in Hwf.
    apply wf_members in Hwf as [Hne Hms].
    change (0 < sizeof (TUnion pk ms)).
    enough (0 < 8 * sizeof (TUnion pk ms)) by lia.
    rewrite Hbits. unfold union_bits.
    destruct ms as [|m ms]; [done|]. apply Forall_cons in Hms as [[Hw Hb] _].
    apply Forall_cons in IH as [IH _].
    pose proof (slot_width_pos _ (mslot_ok m Hw Hb (IH Hw))).
    pose proof (foldr_width_ge (map mslot (m :: ms)) 0 (mslot m) eq_refl).
    pose proof (align_up_ge (foldr (λ s, Z.max (s_width s)) 0 (map mslot (m :: ms)))
      (8 * alignof (TUnion pk (m :: ms)))). lia.
Qed.

Lemma members_slots_ok pk ms :
  wf_cty (TStruct pk ms) = true → Forall slot_ok (map mslot ms).
Proof.
  intros [_ Hms]%wf_members. apply Forall_map. rewrite Forall_forall in *.
  intros m Hm. destruct (Hms m Hm). cbn. apply mslot_ok; auto using sizeof_ok.
Qed.

(** ** Members *)

Lemma find_member_spec f ms os o m :
  find_member f ms os = Some (o, m) →
  ∃ i, ms !! i = Some m ∧ os !! i = Some o ∧ m.1 = f.
Proof.
  revert os. induction ms as [|m' ms IH]; intros [|o' os] H; simplify_eq/=.
  case_decide; simplify_eq/=.
  - by exists 0%nat.
  - destruct (IH _ H) as (i & ? & ? & ?). by exists (S i).
Qed.

Lemma wf_union_struct pk ms : wf_cty (TUnion pk ms) = wf_cty (TStruct pk ms).
Proof. done. Qed.

Lemma wf_member pk ms i m :
  wf_cty (TStruct pk ms) = true → ms !! i = Some m →
  wf_cty (m_ty m) = true ∧ wf_bits (m_ty m) (m_bits m) = true.
Proof. intros [_ Hms]%wf_members Hi. by apply (Forall_lookup_1 _ _ _ _ Hms Hi). Qed.

(** A member of a well-formed compound is well-formed and lies inside it. *)
Lemma member_at_bounds t f o m :
  wf_cty t = true → member_at t f = Some (o, m) →
  (wf_cty (m_ty m) = true ∧ wf_bits (m_ty m) (m_bits m) = true) ∧
  0 <= o ∧ o + s_width (mslot m) <= 8 * sizeof t.
Proof.
  intros Hwf Hm. destruct t as [| | | | | | |pk ms|pk ms]; try done; cbn in Hm.
  - apply find_member_spec in Hm as (i & Hi & Ho & _).
    split; [by eapply wf_member|].
    assert (map mslot ms !! i = Some (mslot m)) as Hs by by rewrite list_lookup_fmap, Hi.
    pose proof (members_slots_ok _ _ Hwf) as Hok.
    destruct (offsets_bounds _ _ _ _ _ _ Hok Ho Hs) as [? ?].
    destruct (struct_bits_size _ _ Hwf) as [-> _]. unfold struct_bits.
    pose proof (align_up_ge (end_pos pk 0 (map mslot ms)) (8 * alignof (TStruct pk ms))).
    pose proof (al_ok_pos _ (alignof_ok _ Hwf)). lia.
  - apply find_member_spec in Hm as (i & Hi & Ho & _).
    assert (o = 0) as ->.
    { apply list_lookup_fmap_Some in Ho as (? & ? & ?). congruence. }
    split; [rewrite wf_union_struct in Hwf; by eapply wf_member|].
    assert (map mslot ms !! i = Some (mslot m)) as Hs by by rewrite list_lookup_fmap, Hi.
    pose proof (foldr_width_ge _ _ _ Hs).
    destruct (union_bits_size _ _ Hwf) as [-> _]. unfold union_bits.
    pose proof (align_up_ge (foldr (λ s, Z.max (s_width s)) 0 (map mslot ms))
      (8 * alignof (TUnion pk ms))).
    pose proof (al_ok_pos _ (alignof_ok _ Hwf)). lia.
Qed.

Lemma s_width_field m : m_bits m = None → s_width (mslot m) = 8 * sizeof (m_ty m).
Proof. unfold s_width, mslot; cbn. by intros ->. Qed.

Lemma s_width_bits m w : m_bits m = Some w → s_width (mslot m) = w.
Proof. unfold s_width, mslot; cbn. by intros ->. Qed.

Lemma wf_bits_pos t w : wf_bits t (Some w) = true → 0 < w.
Proof. cbn. destruct t; try done. intros. bool_hyps. lia. Qed.

(** Inversion of one step of [resolve], shared by the theorems on paths. *)
Lemma resolve_field_inv t f p r :
  resolve t (AField f :: p) = Some r →
  ∃ o m, member_at t f = Some (o, m) ∧
    ((m_bits m = None ∧ ∃ r', resolve (m_ty m) p = Some r' ∧ r = shift_ref o r') ∨
     (∃ w, m_bits m = Some w ∧ p = [] ∧ r = LRef o w (m_ty m) true)).
Proof.
  cbn. intros H. apply bind_Some in H as ([o m] & Hm & H). exists o, m. split; [done|].
  destruct (m_bits m) as [w|] eqn:Hb.
  - case_decide; simplify_eq. right. eauto.
  - apply fmap_Some in H as (r' & ? & ->). left. eauto.
Qed.

Lemma resolve_index_inv t i p r :
  resolve t (AIndex i :: p) = Some r →
  ∃ t' n r', t = TArr t' n ∧ 0 <= i < n ∧ resolve t' p = Some r' ∧
    r = shift_ref (i * (8 * sizeof t')) r'.
Proof.
  cbn. destruct t as [| | | | | |t' n| |]; try done. case_match; [|done].
  intros (r' & ? & ->)%fmap_Some. bool_hyps. eauto 10 with lia.
Qed.

(** A part of an object lies inside the object. *)
Theorem resolve_bounds t p r :
  wf_cty t = true → resolve t p = Some r →
  0 <= l_off r ∧ 0 < l_width r ∧ l_off r + l_width r <= 8 * sizeof t.
Proof.
  revert t r. induction p as [|[f|i] p IH]; intros t r Hwf Hr.
  - injection Hr as <-. cbn. destruct (sizeof_ok _ Hwf). lia.
  - apply resolve_field_inv in Hr
      as (o & m & Hm & [(Hb & r' & Hr' & ->) | (w & Hb & -> & ->)]);
      destruct (member_at_bounds _ _ _ _ Hwf Hm) as ([Hw Hbf] & ? & ?); cbn.
    + rewrite s_width_field in * by done. specialize (IH _ _ Hw Hr'). lia.
    + rewrite (s_width_bits _ _ Hb) in *. rewrite Hb in Hbf.
      apply wf_bits_pos in Hbf. lia.
  - apply resolve_index_inv in Hr as (t' & n & r' & -> & Hi & Hr' & ->). cbn in *.
    bool_hyps. specialize (IH _ _ ltac:(done) Hr'). nia.
Qed.

(** Two members of one structure do not overlap. *)
Lemma member_at_disjoint pk ms f g o1 m1 o2 m2 :
  wf_cty (TStruct pk ms) = true → f ≠ g →
  member_at (TStruct pk ms) f = Some (o1, m1) →
  member_at (TStruct pk ms) g = Some (o2, m2) →
  o1 + s_width (mslot m1) <= o2 ∨ o2 + s_width (mslot m2) <= o1.
Proof.
  intros Hwf Hne H1 H2. cbn in H1, H2.
  apply find_member_spec in H1 as (i & Hi & Ho1 & <-).
  apply find_member_spec in H2 as (j & Hj & Ho2 & <-).
  pose proof (members_slots_ok _ _ Hwf) as Hok.
  assert (map mslot ms !! i = Some (mslot m1)) by by rewrite list_lookup_fmap, Hi.
  assert (map mslot ms !! j = Some (mslot m2)) by by rewrite list_lookup_fmap, Hj.
  assert (i ≠ j) by naive_solver.
  destruct (decide (i < j)%nat).
  - left. by eapply offsets_order.
  - right. eapply (offsets_order pk 0 _ j i); eauto with lia.
Qed.

(** What the first step of a path reaches. *)
Lemma resolve_field_in t f p r :
  wf_cty t = true → resolve t (AField f :: p) = Some r →
  ∃ o m, member_at t f = Some (o, m) ∧ o <= l_off r ∧
    l_off r + l_width r <= o + s_width (mslot m).
Proof.
  intros Hwf Hr. apply resolve_field_inv in Hr
    as (o & m & Hm & [(Hb & r' & Hr' & ->) | (w & Hb & -> & ->)]);
    exists o, m; (split; [done|]);
    destruct (member_at_bounds _ _ _ _ Hwf Hm) as ([Hw Hbf] & ? & ?);
    cbn [l_off l_width shift_ref].
  - rewrite s_width_field by done. pose proof (resolve_bounds _ _ _ Hw Hr'). lia.
  - rewrite (s_width_bits _ _ Hb). lia.
Qed.

(** Parts reached by diverging paths do not overlap. *)
Theorem resolve_disjoint t p q r1 r2 :
  wf_cty t = true → diverge t p q = true →
  resolve t p = Some r1 → resolve t q = Some r2 →
  l_off r1 + l_width r1 <= l_off r2 ∨ l_off r2 + l_width r2 <= l_off r1.
Proof.
  revert t q r1 r2. induction p as [|[f|i] p IH]; intros t [|[g|j] q] r1 r2 Hwf Hd H1 H2;
    try done.
  - cbn in Hd. case_decide as Hfg; [subst g|].
    + apply resolve_field_inv in H1 as (o & m & Hm & H1).
      apply resolve_field_inv in H2 as (o' & m' & Hm' & H2).
      rewrite Hm in Hm', Hd. simplify_eq.
      destruct (member_at_bounds _ _ _ _ Hwf Hm) as ([Hw _] & _).
      destruct H1 as [(Hb & r1' & H1 & ->)|(w & Hb & -> & ->)];
        [|by destruct q as [|[]]].
      destruct H2 as [(_ & r2' & H2 & ->)|(w & Hb' & -> & ->)];
        [|by destruct p as [|[]]].
      cbn. destruct (IH _ _ _ _ Hw Hd H1 H2); lia.
    + destruct t as [| | | | | | |pk ms|]; try done.
      apply resolve_field_in in H1 as (o1 & m1 & Hm1 & ? & ?); [|done].
      apply resolve_field_in in H2 as (o2 & m2 & Hm2 & ? & ?); [|done].
      destruct (member_at_disjoint _ _ _ _ _ _ _ _ Hwf Hfg Hm1 Hm2); lia.
  - apply resolve_index_inv in H1 as (t' & n & r1' & -> & Hi & H1 & ->).
    apply resolve_index_inv in H2 as (t'' & n' & r2' & [= <- <-] & Hj & H2 & ->).
    cbn in Hd, Hwf |- *. bool_hyps. case_decide as Hij.
    + subst j. destruct (IH _ _ _ _ H Hd H1 H2); lia.
    + pose proof (resolve_bounds _ _ _ H H1). pose proof (resolve_bounds _ _ _ H H2).
      nia.
Qed.

(** A member of an unpacked compound that is not a bit-field is aligned. *)
Lemma member_at_aligned t f o m :
  natural t = true → wf_cty t = true → member_at t f = Some (o, m) →
  m_bits m = None →
  natural (m_ty m) = true ∧ (8 * alignof (m_ty m) | o) ∧
  (alignof (m_ty m) | alignof t).
Proof.
  intros Hnat Hwf Hm Hb.
  assert (∃ ms i, ms !! i = Some m ∧ forallb (λ m, natural m.2.1) ms = true ∧
    wf_cty (TStruct false ms) = true ∧ alignof t = alignof (TStruct false ms) ∧
    (8 * alignof (m_ty m) | o)) as (ms & i & Hi & Hall & Hwf' & Hal & Hdiv).
  { destruct t as [| | | | | | |[] ms|[] ms]; try done; cbn in Hnat, Hm;
      apply find_member_spec in Hm as (i & Hi & Ho & _); exists ms, i;
      (do 4 (split; [done|])).
    - eapply (offsets_aligned 0 (map mslot ms) i o (mslot m)); [done| |done].
      by rewrite list_lookup_fmap, Hi.
    - apply list_lookup_fmap_Some in Ho as (? & -> & _). apply Z.divide_0_r. }
  rewrite forallb_forall in Hall. apply list_elem_of_lookup_2 in Hi as Hin.
  split; [by apply Hall, list_elem_of_In|]. split; [done|]. rewrite Hal.
  apply wf_members in Hwf' as [_ Hms].
  assert (Forall (λ m, al_ok (alignof (m_ty m))) ms) as Hok.
  { eapply Forall_impl; [exact Hms|]. intros ? []. by apply alignof_ok. }
  destruct (foldr_max_al ms Hok) as [H1 H2].
  rewrite Forall_forall in Hok, H2. by apply al_ok_divide; auto.
Qed.

(** In a type without packing every part that is not a bit-field is aligned
    to its natural alignment, and no part is aligned more strictly than the
    whole. *)
Theorem resolve_aligned t p r :
  natural t = true → wf_cty t = true → resolve t p = Some r → l_bf r = false →
  (8 * alignof (l_ty r) | l_off r) ∧ (alignof (l_ty r) | alignof t).
Proof.
  revert t r. induction p as [|[f|i] p IH]; intros t r Hnat Hwf Hr Hbf.
  - injection Hr as <-. cbn. split; [apply Z.divide_0_r|apply Z.divide_refl].
  - apply resolve_field_inv in Hr
      as (o & m & Hm & [(Hb & r' & Hr' & ->) | (w & Hb & -> & ->)]); [|done].
    destruct (member_at_bounds _ _ _ _ Hwf Hm) as ([Hwm _] & _).
    destruct (member_at_aligned _ _ _ _ Hnat Hwf Hm Hb) as (Hn & Ho & Hal).
    destruct (IH _ _ Hn Hwm Hr' Hbf) as [H1 H2]. cbn.
    split; [|by etrans]. apply Z.divide_add_r; [|done]. etrans; [|exact Ho].
    by apply Z.mul_divide_mono_l.
  - apply resolve_index_inv in Hr as (t' & n & r' & -> & Hi & Hr' & ->). cbn in *.
    bool_hyps. destruct (IH _ _ Hnat H Hr' Hbf) as [H1 H2]. split; [|done].
    apply Z.divide_add_r; [|done]. apply Z.divide_mul_r, Z.mul_divide_mono_l.
    etrans; [done|]. by apply sizeof_ok.
Qed.

(** ** Bits of an object *)

Lemma read_write_same ob o w v :
  0 <= o → 0 <= w → read_bits (write_bits ob o w v) o w = wrap w v.
Proof.
  intros Ho Hw. apply Z.bits_inj'. intros n Hn. unfold read_bits, write_bits.
  rewrite (wrap_land w v) by lia.
  rewrite Z.land_spec, Z.shiftr_spec, Z.lor_spec, Z.ldiff_spec, !Z.shiftl_spec,
    !Z.land_spec, !Z.testbit_ones by lia.
  replace (n + o - o) with n by lia.
  destruct (Z.testbit ob (n + o)), (Z.testbit v n); bool_cases; cbn; lia || done.
Qed.

Lemma read_write_other ob o1 w1 o2 w2 v :
  0 <= o1 → 0 <= w1 → 0 <= o2 → 0 <= w2 →
  o1 + w1 <= o2 ∨ o2 + w2 <= o1 →
  read_bits (write_bits ob o1 w1 v) o2 w2 = read_bits ob o2 w2.
Proof.
  intros. apply Z.bits_inj'. intros n Hn. unfold read_bits, write_bits.
  rewrite (wrap_land w1 v) by lia.
  rewrite !Z.land_spec, !Z.shiftr_spec, Z.lor_spec, Z.ldiff_spec, !Z.shiftl_spec by lia.
  rewrite (Z.testbit_ones w2 n) by lia.
  destruct (decide (n < w2)) as [Hn2|Hn2].
  2:{ destruct (Z.ltb_spec n w2); [lia|]. by rewrite !andb_false_r. }
  destruct (decide (n + o2 - o1 < 0)).
  - rewrite !(Z.testbit_neg_r _ (n + o2 - o1)) by lia.
    by rewrite andb_true_r, orb_false_r.
  - rewrite Z.land_spec, !Z.testbit_ones by lia.
    destruct (Z.ltb_spec (n + o2 - o1) w1); [lia|].
    by rewrite !andb_false_r, andb_true_r, orb_false_r.
Qed.

Lemma read_bits_range ob o w : 0 <= w → 0 <= read_bits ob o w < 2 ^ w.
Proof.
  intros. unfold read_bits. rewrite Z.land_ones by lia.
  apply Z.mod_pos_bound, Z.pow_pos_nonneg; lia.
Qed.

Lemma write_bits_range ob o w v k :
  0 <= o → 0 <= w → o + w <= k → 0 <= ob < 2 ^ k → 0 <= write_bits ob o w v < 2 ^ k.
Proof.
  intros Ho Hw Hk Hob.
  assert (0 <= write_bits ob o w v) as Hpos.
  { unfold write_bits. rewrite Z.lor_nonneg, Z.ldiff_nonneg, Z.shiftl_nonneg.
    pose proof (wrap_range w v Hw). lia. }
  split; [done|].
  destruct (Z.eq_dec (write_bits ob o w v) 0) as [->|Hne]; [apply Z.pow_pos_nonneg; lia|].
  apply Z.log2_lt_pow2; [lia|].
  destruct (Z.lt_ge_cases (Z.log2 (write_bits ob o w v)) k) as [|Hge]; [done|exfalso].
  pose proof (Z.bit_log2 (write_bits ob o w v) ltac:(lia)) as Hbit.
  set (n := Z.log2 _) in *. revert Hbit. unfold write_bits.
  rewrite Z.lor_spec, Z.ldiff_spec, !Z.shiftl_spec, wrap_land, Z.land_spec,
    Z.testbit_ones by lia.
  assert (Z.testbit ob n = false) as ->.
  { destruct (Z.eq_dec ob 0) as [->|]; [apply Z.bits_0|].
    apply Z.bits_above_log2; [lia|].
    assert (Z.log2 ob < k) by (apply Z.log2_lt_pow2; lia). lia. }
  destruct (Z.ltb_spec (n - o) w); [lia|]. by rewrite !andb_false_r.
Qed.

(** ** Loads and stores *)

(** A value stored in a part is what a load of that part returns, reduced to
    the width of the part. *)
Theorem load_store_same t p v ob ob' :
  wf_cty t = true → store t p v ob = Some ob' →
  ∃ r, resolve t p = Some r ∧ load t p ob' = Some (wrap (l_width r) v).
Proof.
  unfold load, store. intros Hwf (r & Hr & [= <-])%bind_Some. exists r.
  split; [done|]. rewrite Hr. cbn. destruct (resolve_bounds _ _ _ Hwf Hr) as (? & ? & ?).
  by rewrite read_write_same by lia.
Qed.

(** A store leaves every part on a diverging path unchanged. *)
Theorem load_store_other t p q v ob ob' :
  wf_cty t = true → diverge t p q = true → store t p v ob = Some ob' →
  load t q ob' = load t q ob.
Proof.
  unfold load, store. intros Hwf Hd (r & Hr & [= <-])%bind_Some.
  destruct (resolve t q) as [r'|] eqn:Hr'; [|done]. cbn. f_equal.
  destruct (resolve_bounds _ _ _ Hwf Hr) as (? & ? & ?).
  destruct (resolve_bounds _ _ _ Hwf Hr') as (? & ? & ?).
  apply read_write_other; try lia. by eapply resolve_disjoint.
Qed.

(** A store yields an object of the same type again. *)
Theorem store_range t p v ob ob' :
  wf_cty t = true → 0 <= ob < 2 ^ (8 * sizeof t) → store t p v ob = Some ob' →
  0 <= ob' < 2 ^ (8 * sizeof t).
Proof.
  unfold store. intros Hwf Hob (r & Hr & [= <-])%bind_Some.
  destruct (resolve_bounds _ _ _ Hwf Hr) as (? & ? & ?).
  apply write_bits_range; lia.
Qed.

(** A union's members share their storage: a load through one member reads
    the bits stored through another. *)
Theorem union_overlay pk ms f g v ob ob' o1 o2 m1 m2 :
  member_at (TUnion pk ms) f = Some (o1, m1) →
  member_at (TUnion pk ms) g = Some (o2, m2) →
  wf_cty (TUnion pk ms) = true →
  m_bits m1 = None → m_bits m2 = None → sizeof (m_ty m1) = sizeof (m_ty m2) →
  store (TUnion pk ms) [AField f] v ob = Some ob' →
  load (TUnion pk ms) [AField g] ob' = Some (wrap (8 * sizeof (m_ty m1)) v).
Proof.
  intros H1 H2 Hwf Hb1 Hb2 Hsz. unfold store, load. cbn [resolve].
  destruct (member_at_bounds _ _ _ _ Hwf H1) as ([Hw _] & _).
  destruct (sizeof_ok _ Hw) as [Hpos _].
  rewrite H1, H2. cbn [mbind option_bind]. rewrite Hb1, Hb2. cbn.
  intros [= <-]. unfold shift_ref; cbn.
  cbn in H1, H2. apply find_member_spec in H1 as (? & _ & H1 & _).
  apply find_member_spec in H2 as (? & _ & H2 & _).
  apply list_lookup_fmap_Some in H1 as (? & -> & _).
  apply list_lookup_fmap_Some in H2 as (? & -> & _).
  rewrite <- Hsz. f_equal. apply read_write_same; lia.
Qed.
