(* ===== verification/CEnum.v ===== *)
(** C enumerations: the values the language gives to the enumerators of a
    declaration, the class of the enumerations of a header, and the laws of
    encoding an enumerator as its value and decoding it again. *)

From S2P Require Import Prelude.
Local Open Scope Z_scope.

(** An enumerator's initializer, in the forms the headers use. *)
Inductive einit (A : Type) : Type :=
  | Next                     (* no initializer *)
  | Lit (z : Z)              (* an integer constant *)
  | Shl (a n : Z)            (* [(a << n)] *)
  | Ref (e : A)              (* an earlier enumerator *)
  | OrE (e1 e2 : A).         (* [(e1 | e2)] *)
Arguments Next {A}.
Arguments Lit {A} z.
Arguments Shl {A} a n.
Arguments Ref {A} e.
Arguments OrE {A} e1 e2.

Section eval.
Context {A : Type} `{EqDecision A}.

Fixpoint val_of (env : list (A * Z)) (e : A) : option Z :=
  match env with
  | [] => None
  | (e', v) :: env => if decide (e' = e) then Some v else val_of env e
  end.

(** The value of an enumerator after [prev], with [env] the enumerators
    already declared: without an initializer, the previous value plus one,
    or 0 for the first one. *)
Definition eval_init (prev : option Z) (env : list (A * Z)) (i : einit A) : option Z :=
  match i with
  | Next => Some (from_option (λ v, v + 1) 0 prev)
  | Lit z => Some z
  | Shl a n => Some (Z.shiftl a n)
  | Ref e => val_of env e
  | OrE e1 e2 => v1 ← val_of env e1; v2 ← val_of env e2; Some (Z.lor v1 v2)
  end.

Fixpoint eval_decl (prev : option Z) (env : list (A * Z)) (d : list (A * einit A))
    : option (list (A * Z)) :=
  match d with
  | [] => Some []
  | (e, i) :: d =>
      v ← eval_init prev env i;
      rest ← eval_decl (Some v) ((e, v) :: env) d;
      Some ((e, v) :: rest)
  end.

Lemma eval_decl_fst prev env d t : eval_decl prev env d = Some t → t.*1 = d.*1.
Proof.
  revert prev env t. induction d as [|[e i] d IH]; intros prev env t H; cbn in H.
  - by simplify_eq.
  - apply bind_Some in H as (v & _ & H). apply bind_Some in H as (r & Hr & [= <-]).
    cbn. f_equal. by eapply IH.
Qed.

Lemma val_of_Some env e v : val_of env e = Some v → (e, v) ∈ env.
Proof.
  induction env as [|[e' v'] env IH]; cbn; [done|]. case_decide; intros; simplify_eq.
  - by left.
  - right. auto.
Qed.

Lemma val_of_elem env e : e ∈ env.*1 → is_Some (val_of env e).
Proof.
  induction env as [|[e' v'] env IH]; cbn; [by intros ?%elem_of_nil|].
  rewrite elem_of_cons. intros [->|?]; case_decide; eauto; done.
Qed.

Fixpoint first_with (env : list (A * Z)) (v : Z) : option A :=
  match env with
  | [] => None
  | (e, v') :: env => if v' =? v then Some e else first_with env v
  end.

Lemma first_with_Some env v e : first_with env v = Some e → (e, v) ∈ env.
Proof.
  induction env as [|[e' v'] env IH]; cbn; [done|].
  destruct (Z.eqb_spec v' v); intros; simplify_eq; [by left|right; auto].
Qed.

Lemma first_with_elem env e v : (e, v) ∈ env → is_Some (first_with env v).
Proof.
  induction env as [|[e' v'] env IH]; cbn; [by intros ?%elem_of_nil|].
  rewrite elem_of_cons. destruct (Z.eqb_spec v' v); [eauto|].
  intros [?|?]; simplify_eq; auto.
Qed.

Lemma val_of_unique env e v : NoDup env.*1 → (e, v) ∈ env → val_of env e = Some v.
Proof.
  induction env as [|[e' v'] env IH]; cbn; [by intros _ ?%elem_of_nil|].
  rewrite NoDup_cons, elem_of_cons. intros [Hn Hnd] [?|Hin]; simplify_eq.
  - by rewrite decide_True.
  - rewrite decide_False; [auto|]. intros ->. apply Hn.
    apply list_elem_of_fmap. by exists (e, v).
Qed.
End eval.

(** An enumeration type of a header: its declaration, and the position of
    each enumerator in it. *)
Class CEnum (A : Type) : Type := {
  enum_decl : list (A * einit A);
  enum_index : ∀ x : A, {n : nat | enum_decl.*1 !! n = Some x};
  enum_index_unique :
    forallb (λ p, Nat.eqb p.1 (proj1_sig (enum_index p.2)))
      (imap pair enum_decl.*1) = true;
}.
#[export] Hint Mode CEnum ! : typeclass_instances.
Arguments enum_decl A {_}.

Definition enum_tag `{CEnum A} (x : A) : nat := proj1_sig (enum_index x).

Lemma enum_tag_spec `{CEnum A} (x : A) : (enum_decl A).*1 !! enum_tag x = Some x.
Proof. unfold enum_tag. by destruct (enum_index x). Qed.

(** The position of an enumerator in a declaration, by search. *)
Ltac index_in x d :=
  lazymatch d with
  | (x, _) :: _ => constr:(0%nat)
  | _ :: ?d' => let k := index_in x d' in constr:(S k)
  end.

(** Build the instance of a declaration [d]. *)
Ltac derive_enum d :=
  let idx := fresh "idx" in
  let e := eval unfold d in d in
  unshelve eexists d _;
  [ intros idx; destruct idx;
    lazymatch goal with
    | |- {n | _ !! n = Some ?x} => let k := index_in x e in exists k; reflexivity
    end
  | vm_compute; reflexivity ].

#[export] Instance enum_eq_dec `{CEnum A} : EqDecision A.
Proof.
  refine (λ x y, cast_if (decide (enum_tag x = enum_tag y))).
  - abstract (pose proof (enum_tag_spec x) as Hx; pose proof (enum_tag_spec y) as Hy;
      congruence).
  - abstract congruence.
Defined.

(** The table of values of an enumeration; [None] when an initializer refers
    to an enumerator that is not declared before it. *)
Definition enum_table (A : Type) `{CEnum A} : option (list (A * Z)) :=
  eval_decl None [] (enum_decl A).

Definition enum_val `{CEnum A} (x : A) : Z :=
  default 0 (t ← enum_table A; val_of t x).

Definition enum_values (A : Type) `{CEnum A} : list Z :=
  (default [] (enum_table A)).*2.

Definition enum_of (A : Type) `{CEnum A} (v : Z) : option A :=
  t ← enum_table A; first_with t v.

(** A declaration whose initializers are all defined. *)
Definition enum_defined (A : Type) `{CEnum A} : bool :=
  match enum_table A with Some _ => true | None => false end.

Section laws.
Context (A : Type) `{CEnum A}.
Implicit Types x y : A.

Lemma enum_decl_NoDup : NoDup (enum_decl A).*1.
Proof.
  apply NoDup_alt. intros i j x Hi Hj. pose proof (enum_index_unique (A:=A)) as Hck.
  rewrite forallb_forall in Hck.
  assert (∀ k, (enum_decl A).*1 !! k = Some x → k = enum_tag x) as Hk.
  { intros k Hk. assert (imap pair (enum_decl A).*1 !! k = Some (k, x)) as Hin
      by by rewrite list_lookup_imap, Hk.
    apply list_elem_of_lookup_2, list_elem_of_In, Hck in Hin. by apply Nat.eqb_eq in Hin. }
  by rewrite (Hk i Hi), (Hk j Hj).
Qed.

Lemma enum_table_elem t x :
  enum_table A = Some t → (x, enum_val x) ∈ t.
Proof.
  intros Ht. unfold enum_val. rewrite Ht. cbn. pose proof (eval_decl_fst _ _ _ _ Ht) as Hf.
  assert (x ∈ t.*1) as [v Hv]%val_of_elem.
  { rewrite Hf. by apply list_elem_of_lookup_2 with (enum_tag x), enum_tag_spec. }
  rewrite Hv. by apply val_of_Some.
Qed.

(** Every enumerator's value is one of the values of the enumeration. *)
Lemma enum_val_in x : enum_defined A = true → enum_val x ∈ enum_values A.
Proof.
  unfold enum_defined, enum_values. destruct (enum_table A) as [t|] eqn:Ht; [|done].
  intros _. cbn. apply list_elem_of_fmap. exists (x, enum_val x).
  split; [done|]. by apply enum_table_elem.
Qed.

(** A property of all values is a property of every enumerator's value. *)
Lemma enum_val_forall (P : Z → bool) x :
  enum_defined A = true → forallb P (enum_values A) = true → P (enum_val x) = true.
Proof.
  intros Hd Hall. rewrite forallb_forall in Hall.
  by apply Hall, list_elem_of_In, enum_val_in.
Qed.

(** Decoding the value of an enumerator finds an enumerator with that value. *)
Theorem enum_of_val x :
  enum_defined A = true → ∃ y, enum_of A (enum_val x) = Some y ∧ enum_val y = enum_val x.
Proof.
  unfold enum_defined, enum_of. destruct (enum_table A) as [t|] eqn:Ht; [|done].
  intros _. cbn. pose proof (enum_table_elem t x Ht) as Hin.
  destruct (first_with_elem _ _ _ Hin) as [y Hy]. exists y. split; [done|].
  apply first_with_Some in Hy. unfold enum_val at 1. rewrite Ht. cbn.
  rewrite (val_of_unique _ _ _ ltac:(rewrite (eval_decl_fst _ _ _ _ Ht);
    apply enum_decl_NoDup) Hy). done.
Qed.

Definition enum_distinct : bool := bool_decide (NoDup (enum_values A)).

Lemma enum_val_inj x y :
  enum_defined A = true → enum_distinct = true → enum_val x = enum_val y → x = y.
Proof.
  unfold enum_defined, enum_distinct, enum_values.
  destruct (enum_table A) as [t|] eqn:Ht; [|done]. cbn. intros _ Hd Hxy. bool_hyps.
  pose proof (enum_table_elem t x Ht) as [i Hi]%list_elem_of_lookup_1.
  pose proof (enum_table_elem t y Ht) as [j Hj]%list_elem_of_lookup_1.
  rewrite NoDup_alt in Hd. assert (i = j) as ->.
  { apply (Hd i j (enum_val x)); rewrite list_lookup_fmap, ?Hi, ?Hj; cbn; congruence. }
  congruence.
Qed.

(** Encoding and decoding are inverse when no two enumerators share a value. *)
Theorem enum_roundtrip x :
  enum_defined A = true → enum_distinct = true → enum_of A (enum_val x) = Some x.
Proof.
  intros Hd Hn. destruct (enum_of_val x Hd) as (y & Hy & Hv).
  by rewrite Hy, (enum_val_inj _ _ Hd Hn Hv).
Qed.
End laws.
