(* ===== verification/SmiEnums.v ===== *)
(** The constants and enumerations of
    [src/assets/amd_smi_lib/x86_64/UBUNTU22/lib/amdsmi.h], the interface of the
    bare-metal AMD SMI library the GPU agent is built against (the RHEL9 and
    UBUNTU24 copies of the header are byte for byte the same).  Each C
    enumeration is an inductive type with the enumerators of the source as
    constructors and an instance of [CEnum] that lists the initializers in
    declaration order; the values follow by the rule of the language
    ([CEnum.eval_decl]).  The part under [ENABLE_ESMI_LIB] is included. *)

From S2P Require Import Prelude CEnum.
Local Open Scope Z_scope.

Module Smi.

Definition AMDSMI_MAX_MM_IP_COUNT : Z := 8.
Definition AMDSMI_MAX_STRING_LENGTH : Z := 256.
Definition AMDSMI_MAX_DEVICES : Z := 32.
Definition AMDSMI_MAX_CACHE_TYPES : Z := 10.
Definition AMDSMI_MAX_ACCELERATOR_PROFILE : Z := 32.
Definition AMDSMI_MAX_CP_PROFILE_RESOURCES : Z := 32.
Definition AMDSMI_MAX_ACCELERATOR_PARTITIONS : Z := 8.
Definition AMDSMI_MAX_NUM_NUMA_NODES : Z := 32.
Definition AMDSMI_GPU_UUID_SIZE : Z := 38.
Definition AMDSMI_MAX_NUM_XGMI_PHYSICAL_LINK : Z := 64.
Definition AMDSMI_MAX_CONTAINER_TYPE : Z := 2.
Definition CENTRIGRADE_TO_MILLI_CENTIGRADE : Z := 1000.
Definition AMDSMI_NUM_HBM_INSTANCES : Z := 4.
Definition AMDSMI_MAX_NUM_VCN : Z := 4.
Definition AMDSMI_MAX_NUM_CLKS : Z := 4.
Definition AMDSMI_MAX_NUM_XGMI_LINKS : Z := 8.
Definition AMDSMI_MAX_NUM_GFX_CLKS : Z := 8.
Definition AMDSMI_MAX_AID : Z := 4.
Definition AMDSMI_MAX_ENGINES : Z := 8.
Definition AMDSMI_MAX_NUM_JPEG : Z := 32.
Definition AMDSMI_MAX_NUM_JPEG_ENG_V1 : Z := 40.
Definition AMDSMI_MAX_NUM_XCC : Z := 8.
Definition AMDSMI_MAX_NUM_XCP : Z := 8.
Definition AMDSMI_APU_MAX_CORES : Z := 16.
Definition AMDSMI_APU_V24_CORES : Z := 8.
Definition AMDSMI_APU_MAX_L3 : Z := 2.
Definition AMDSMI_APU_MAX_IPU : Z := 8.
Definition MAX_NUMBER_OF_AFIDS_PER_RECORD : Z := 12.
Definition AMDSMI_MAX_VF_COUNT : Z := 32.
Definition AMDSMI_MAX_DRIVER_NUM : Z := 2.
Definition AMDSMI_DFC_FW_NUMBER_OF_ENTRIES : Z := 9.
Definition AMDSMI_MAX_WHITE_LIST_ELEMENTS : Z := 16.
Definition AMDSMI_MAX_BLACK_LIST_ELEMENTS : Z := 64.
Definition AMDSMI_MAX_UUID_ELEMENTS : Z := 16.
Definition AMDSMI_MAX_TA_WHITE_LIST_ELEMENTS : Z := 8.
Definition AMDSMI_MAX_ERR_RECORDS : Z := 10.
Definition AMDSMI_MAX_PROFILE_COUNT : Z := 16.
Definition AMDSMI_MAX_NUM_HBM_STACKS : Z := 12.
Definition AMDSMI_MAX_NUM_AID : Z := 2.
Definition AMDSMI_MAX_NUM_MID : Z := 2.
Definition AMDSMI_MAX_NUM_CLKS_PER_AID : Z := 2.
Definition AMDSMI_MAX_NUM_CLKS_PER_MID : Z := 2.
Definition AMDSMI_LIB_VERSION_MAJOR : Z := 26.
Definition AMDSMI_LIB_VERSION_MINOR : Z := 4.
Definition AMDSMI_LIB_VERSION_RELEASE : Z := 0.
Definition AMDSMI_PF_INDEX : Z := AMDSMI_MAX_VF_COUNT - 1.
Definition AMDSMI_MAX_DRIVER_INFO_RSVD : Z := 64.
Definition AMDSMI_MAX_SPD_DIMM_ADDRESS : Z := 255.
Definition AMDSMI_MAX_SPD_LID : Z := 15.
Definition AMDSMI_MAX_SPD_REG_OFFSET : Z := 2047.
Definition AMDSMI_MAX_SPD_REG_SPACE : Z := 1.
Definition AMDSMI_MAX_SPD_WRITE_DATA : Z := 255.
Definition MAX_SVI3_RAIL_INDEX : Z := 4.
Definition MAX_SVI3_RAIL_SELECTION : Z := 1.
Definition POWER_EFFICIENCY_MODE_4 : Z := 4.
Definition POWER_EFFICIENCY_MODE_5 : Z := 5.
Definition AMDSMI_MAX_POWER_EFFICIENCY_UTIL : Z := 127.
Definition AMDSMI_MAX_POWER_EFFICIENCY_PPTLIMIT : Z := 2097151.
Definition AMDSMI_RAIL_INDEX_NONE : Z := 4294967295.
Definition AMDSMI_MAX_NUM_FREQUENCIES : Z := 33.
Definition AMDSMI_MAX_FAN_SPEED : Z := 255.
Definition AMDSMI_NUM_VOLTAGE_CURVE_POINTS : Z := 3.
Definition AMDSMI_MAX_UTILIZATION_VALUES : Z := 4.
Definition AMDSMI_MAX_NUM_PM_POLICIES : Z := 32.
Definition AMDSMI_MAX_NIC_PORTS : Z := 32.
Definition AMDSMI_MAX_NIC_RDMA_DEV : Z := 32.
Definition AMDSMI_MAX_NIC_FW : Z := 16.
Definition AMDSMI_MAX_CARVEOUT_OPTIONS : Z := 16.

(** [amdsmi_init_flags_t], lines 48-57: Initialization flags *)
Inductive amdsmi_init_flags_t : Set :=
  | AMDSMI_INIT_ALL_PROCESSORS
  | AMDSMI_INIT_AMD_CPUS
  | AMDSMI_INIT_AMD_GPUS
  | AMDSMI_INIT_NON_AMD_CPUS
  | AMDSMI_INIT_NON_AMD_GPUS
  | AMDSMI_INIT_AMD_APUS
  | AMDSMI_INIT_AMD_NICS.

Definition amdsmi_init_flags_t_decl : list (amdsmi_init_flags_t * einit amdsmi_init_flags_t) :=
  [ (AMDSMI_INIT_ALL_PROCESSORS, Lit 4294967295);
    (AMDSMI_INIT_AMD_CPUS, Shl 1 0);
    (AMDSMI_INIT_AMD_GPUS, Shl 1 1);
    (AMDSMI_INIT_NON_AMD_CPUS, Shl 1 2);
    (AMDSMI_INIT_NON_AMD_GPUS, Shl 1 3);
    (AMDSMI_INIT_AMD_APUS, OrE AMDSMI_INIT_AMD_CPUS AMDSMI_INIT_AMD_GPUS);
    (AMDSMI_INIT_AMD_NICS, Shl 1 4) ].

#[global] Instance amdsmi_init_flags_t_enum : CEnum amdsmi_init_flags_t.
Proof. derive_enum amdsmi_init_flags_t_decl. Defined.

(** [amdsmi_mm_ip_t], lines 272-277: GPU Capability info *)
Inductive amdsmi_mm_ip_t : Set :=
  | AMDSMI_MM_UVD
  | AMDSMI_MM_VCE
  | AMDSMI_MM_VCN
  | AMDSMI_MM__MAX.

Definition amdsmi_mm_ip_t_decl : list (amdsmi_mm_ip_t * einit amdsmi_mm_ip_t) :=
  [ (AMDSMI_MM_UVD, Next);
    (AMDSMI_MM_VCE, Next);
    (AMDSMI_MM_VCN, Next);
    (AMDSMI_MM__MAX, Next) ].

#[global] Instance amdsmi_mm_ip_t_enum : CEnum amdsmi_mm_ip_t.
Proof. derive_enum amdsmi_mm_ip_t_decl. Defined.

(** [amdsmi_container_types_t], lines 284-287: Container *)
Inductive amdsmi_container_types_t : Set :=
  | AMDSMI_CONTAINER_LXC
  | AMDSMI_CONTAINER_DOCKER.

Definition amdsmi_container_types_t_decl : list (amdsmi_container_types_t * einit amdsmi_container_types_t) :=
  [ (AMDSMI_CONTAINER_LXC, Next);
    (AMDSMI_CONTAINER_DOCKER, Next) ].

#[global] Instance amdsmi_container_types_t_enum : CEnum amdsmi_container_types_t.
Proof. derive_enum amdsmi_container_types_t_decl. Defined.

(** [amdsmi_processor_type_t], lines 348-360: Processor types detectable by
    AMD SMI *)
Inductive amdsmi_processor_type_t : Set :=
  | AMDSMI_PROCESSOR_TYPE_UNKNOWN
  | AMDSMI_PROCESSOR_TYPE_AMD_GPU
  | AMDSMI_PROCESSOR_TYPE_AMD_CPU
  | AMDSMI_PROCESSOR_TYPE_NON_AMD_GPU
  | AMDSMI_PROCESSOR_TYPE_NON_AMD_CPU
  | AMDSMI_PROCESSOR_TYPE_AMD_CPU_CORE
  | AMDSMI_PROCESSOR_TYPE_AMD_APU
  | AMDSMI_PROCESSOR_TYPE_AMD_NIC
  | AMDSMI_PROCESSOR_TYPE_BRCM_NIC
  | AMDSMI_PROCESSOR_TYPE_BRCM_SWITCH.

Definition amdsmi_processor_type_t_decl : list (amdsmi_processor_type_t * einit amdsmi_processor_type_t) :=
  [ (AMDSMI_PROCESSOR_TYPE_UNKNOWN, Lit 0);
    (AMDSMI_PROCESSOR_TYPE_AMD_GPU, Next);
    (AMDSMI_PROCESSOR_TYPE_AMD_CPU, Next);
    (AMDSMI_PROCESSOR_TYPE_NON_AMD_GPU, Next);
    (AMDSMI_PROCESSOR_TYPE_NON_AMD_CPU, Next);
    (AMDSMI_PROCESSOR_TYPE_AMD_CPU_CORE, Next);
    (AMDSMI_PROCESSOR_TYPE_AMD_APU, Next);
    (AMDSMI_PROCESSOR_TYPE_AMD_NIC, Next);
    (AMDSMI_PROCESSOR_TYPE_BRCM_NIC, Next);
    (AMDSMI_PROCESSOR_TYPE_BRCM_SWITCH, Next) ].

#[global] Instance amdsmi_processor_type_t_enum : CEnum amdsmi_processor_type_t.
Proof. derive_enum amdsmi_processor_type_t_decl. Defined.

(** [amdsmi_status_t], lines 381-434: Error codes returned by amdsmi
    functions *)
Inductive amdsmi_status_t : Set :=
  | AMDSMI_STATUS_SUCCESS
  | AMDSMI_STATUS_INVAL
  | AMDSMI_STATUS_NOT_SUPPORTED
  | AMDSMI_STATUS_NOT_YET_IMPLEMENTED
  | AMDSMI_STATUS_FAIL_LOAD_MODULE
  | AMDSMI_STATUS_FAIL_LOAD_SYMBOL
  | AMDSMI_STATUS_DRM_ERROR
  | AMDSMI_STATUS_API_FAILED
  | AMDSMI_STATUS_TIMEOUT
  | AMDSMI_STATUS_RETRY
  | AMDSMI_STATUS_NO_PERM
  | AMDSMI_STATUS_INTERRUPT
  | AMDSMI_STATUS_IO
  | AMDSMI_STATUS_ADDRESS_FAULT
  | AMDSMI_STATUS_FILE_ERROR
  | AMDSMI_STATUS_OUT_OF_RESOURCES
  | AMDSMI_STATUS_INTERNAL_EXCEPTION
  | AMDSMI_STATUS_INPUT_OUT_OF_BOUNDS
  | AMDSMI_STATUS_INIT_ERROR
  | AMDSMI_STATUS_REFCOUNT_OVERFLOW
  | AMDSMI_STATUS_DIRECTORY_NOT_FOUND
  | AMDSMI_STATUS_IPC_ERROR
  | AMDSMI_STATUS_BUSY
  | AMDSMI_STATUS_NOT_FOUND
  | AMDSMI_STATUS_NOT_INIT
  | AMDSMI_STATUS_NO_SLOT
  | AMDSMI_STATUS_DRIVER_NOT_LOADED
  | AMDSMI_STATUS_MORE_DATA
  | AMDSMI_STATUS_NO_DATA
  | AMDSMI_STATUS_INSUFFICIENT_SIZE
  | AMDSMI_STATUS_UNEXPECTED_SIZE
  | AMDSMI_STATUS_UNEXPECTED_DATA
  | AMDSMI_STATUS_NON_AMD_CPU
  | AMDSMI_STATUS_NO_ENERGY_DRV
  | AMDSMI_STATUS_NO_MSR_DRV
  | AMDSMI_STATUS_NO_HSMP_DRV
  | AMDSMI_STATUS_NO_HSMP_SUP
  | AMDSMI_STATUS_NO_HSMP_MSG_SUP
  | AMDSMI_STATUS_HSMP_TIMEOUT
  | AMDSMI_STATUS_NO_DRV
  | AMDSMI_STATUS_FILE_NOT_FOUND
  | AMDSMI_STATUS_ARG_PTR_NULL
  | AMDSMI_STATUS_AMDGPU_RESTART_ERR
  | AMDSMI_STATUS_SETTING_UNAVAILABLE
  | AMDSMI_STATUS_CORRUPTED_EEPROM
  | AMDSMI_STATUS_MAP_ERROR
  | AMDSMI_STATUS_UNKNOWN_ERROR.

Definition amdsmi_status_t_decl : list (amdsmi_status_t * einit amdsmi_status_t) :=
  [ (AMDSMI_STATUS_SUCCESS, Lit 0);
    (AMDSMI_STATUS_INVAL, Lit 1);
    (AMDSMI_STATUS_NOT_SUPPORTED, Lit 2);
    (AMDSMI_STATUS_NOT_YET_IMPLEMENTED, Lit 3);
    (AMDSMI_STATUS_FAIL_LOAD_MODULE, Lit 4);
    (AMDSMI_STATUS_FAIL_LOAD_SYMBOL, Lit 5);
    (AMDSMI_STATUS_DRM_ERROR, Lit 6);
    (AMDSMI_STATUS_API_FAILED, Lit 7);
    (AMDSMI_STATUS_TIMEOUT, Lit 8);
    (AMDSMI_STATUS_RETRY, Lit 9);
    (AMDSMI_STATUS_NO_PERM, Lit 10);
    (AMDSMI_STATUS_INTERRUPT, Lit 11);
    (AMDSMI_STATUS_IO, Lit 12);
    (AMDSMI_STATUS_ADDRESS_FAULT, Lit 13);
    (AMDSMI_STATUS_FILE_ERROR, Lit 14);
    (AMDSMI_STATUS_OUT_OF_RESOURCES, Lit 15);
    (AMDSMI_STATUS_INTERNAL_EXCEPTION, Lit 16);
    (AMDSMI_STATUS_INPUT_OUT_OF_BOUNDS, Lit 17);
    (AMDSMI_STATUS_INIT_ERROR, Lit 18);
    (AMDSMI_STATUS_REFCOUNT_OVERFLOW, Lit 19);
    (AMDSMI_STATUS_DIRECTORY_NOT_FOUND, Lit 20);
    (AMDSMI_STATUS_IPC_ERROR, Lit 21);
    (AMDSMI_STATUS_BUSY, Lit 30);
    (AMDSMI_STATUS_NOT_FOUND, Lit 31);
    (AMDSMI_STATUS_NOT_INIT, Lit 32);
    (AMDSMI_STATUS_NO_SLOT, Lit 33);
    (AMDSMI_STATUS_DRIVER_NOT_LOADED, Lit 34);
    (AMDSMI_STATUS_MORE_DATA, Lit 39);
    (AMDSMI_STATUS_NO_DATA, Lit 40);
    (AMDSMI_STATUS_INSUFFICIENT_SIZE, Lit 41);
    (AMDSMI_STATUS_UNEXPECTED_SIZE, Lit 42);
    (AMDSMI_STATUS_UNEXPECTED_DATA, Lit 43);
    (AMDSMI_STATUS_NON_AMD_CPU, Lit 44);
    (AMDSMI_STATUS_NO_ENERGY_DRV, Lit 45);
    (AMDSMI_STATUS_NO_MSR_DRV, Lit 46);
    (AMDSMI_STATUS_NO_HSMP_DRV, Lit 47);
    (AMDSMI_STATUS_NO_HSMP_SUP, Lit 48);
    (AMDSMI_STATUS_NO_HSMP_MSG_SUP, Lit 49);
    (AMDSMI_STATUS_HSMP_TIMEOUT, Lit 50);
    (AMDSMI_STATUS_NO_DRV, Lit 51);
    (AMDSMI_STATUS_FILE_NOT_FOUND, Lit 52);
    (AMDSMI_STATUS_ARG_PTR_NULL, Lit 53);
    (AMDSMI_STATUS_AMDGPU_RESTART_ERR, Lit 54);
    (AMDSMI_STATUS_SETTING_UNAVAILABLE, Lit 55);
    (AMDSMI_STATUS_CORRUPTED_EEPROM, Lit 56);
    (AMDSMI_STATUS_MAP_ERROR, Lit 4294967294);
    (AMDSMI_STATUS_UNKNOWN_ERROR, Lit 4294967295) ].

#[global] Instance amdsmi_status_t_enum : CEnum amdsmi_status_t.
Proof. derive_enum amdsmi_status_t_decl. Defined.

(** [amdsmi_clk_type_t], lines 441-457: Clock types *)
Inductive amdsmi_clk_type_t : Set :=
  | AMDSMI_CLK_TYPE_SYS
  | AMDSMI_CLK_TYPE_FIRST
  | AMDSMI_CLK_TYPE_GFX
  | AMDSMI_CLK_TYPE_DF
  | AMDSMI_CLK_TYPE_DCEF
  | AMDSMI_CLK_TYPE_SOC
  | AMDSMI_CLK_TYPE_MEM
  | AMDSMI_CLK_TYPE_PCIE
  | AMDSMI_CLK_TYPE_VCLK0
  | AMDSMI_CLK_TYPE_VCLK1
  | AMDSMI_CLK_TYPE_DCLK0
  | AMDSMI_CLK_TYPE_DCLK1
  | AMDSMI_CLK_TYPE__MAX.

Definition amdsmi_clk_type_t_decl : list (amdsmi_clk_type_t * einit amdsmi_clk_type_t) :=
  [ (AMDSMI_CLK_TYPE_SYS, Lit 0);
    (AMDSMI_CLK_TYPE_FIRST, Ref AMDSMI_CLK_TYPE_SYS);
    (AMDSMI_CLK_TYPE_GFX, Ref AMDSMI_CLK_TYPE_SYS);
    (AMDSMI_CLK_TYPE_DF, Next);
    (AMDSMI_CLK_TYPE_DCEF, Next);
    (AMDSMI_CLK_TYPE_SOC, Next);
    (AMDSMI_CLK_TYPE_MEM, Next);
    (AMDSMI_CLK_TYPE_PCIE, Next);
    (AMDSMI_CLK_TYPE_VCLK0, Next);
    (AMDSMI_CLK_TYPE_VCLK1, Next);
    (AMDSMI_CLK_TYPE_DCLK0, Next);
    (AMDSMI_CLK_TYPE_DCLK1, Next);
    (AMDSMI_CLK_TYPE__MAX, Ref AMDSMI_CLK_TYPE_DCLK1) ].

#[global] Instance amdsmi_clk_type_t_enum : CEnum amdsmi_clk_type_t.
Proof. derive_enum amdsmi_clk_type_t_decl. Defined.

(** [amdsmi_accelerator_partition_type_t], lines 464-477: Accelerator
    Partition *)
Inductive amdsmi_accelerator_partition_type_t : Set :=
  | AMDSMI_ACCELERATOR_PARTITION_INVALID
  | AMDSMI_ACCELERATOR_PARTITION_SPX
  | AMDSMI_ACCELERATOR_PARTITION_DPX
  | AMDSMI_ACCELERATOR_PARTITION_TPX
  | AMDSMI_ACCELERATOR_PARTITION_QPX
  | AMDSMI_ACCELERATOR_PARTITION_CPX
  | AMDSMI_ACCELERATOR_PARTITION_MAX.

Definition amdsmi_accelerator_partition_type_t_decl : list (amdsmi_accelerator_partition_type_t * einit amdsmi_accelerator_partition_type_t) :=
  [ (AMDSMI_ACCELERATOR_PARTITION_INVALID, Lit 0);
    (AMDSMI_ACCELERATOR_PARTITION_SPX, Next);
    (AMDSMI_ACCELERATOR_PARTITION_DPX, Next);
    (AMDSMI_ACCELERATOR_PARTITION_TPX, Next);
    (AMDSMI_ACCELERATOR_PARTITION_QPX, Next);
    (AMDSMI_ACCELERATOR_PARTITION_CPX, Next);
    (AMDSMI_ACCELERATOR_PARTITION_MAX, Next) ].

#[global] Instance amdsmi_accelerator_partition_type_t_enum : CEnum amdsmi_accelerator_partition_type_t.
Proof. derive_enum amdsmi_accelerator_partition_type_t_decl. Defined.

(** [amdsmi_accelerator_partition_resource_type_t], lines 484-491:
    Accelerator Partition Resource Types *)
Inductive amdsmi_accelerator_partition_resource_type_t : Set :=
  | AMDSMI_ACCELERATOR_XCC
  | AMDSMI_ACCELERATOR_ENCODER
  | AMDSMI_ACCELERATOR_DECODER
  | AMDSMI_ACCELERATOR_DMA
  | AMDSMI_ACCELERATOR_JPEG
  | AMDSMI_ACCELERATOR_MAX.

Definition amdsmi_accelerator_partition_resource_type_t_decl : list (amdsmi_accelerator_partition_resource_type_t * einit amdsmi_accelerator_partition_resource_type_t) :=
  [ (AMDSMI_ACCELERATOR_XCC, Next);
    (AMDSMI_ACCELERATOR_ENCODER, Next);
    (AMDSMI_ACCELERATOR_DECODER, Next);
    (AMDSMI_ACCELERATOR_DMA, Next);
    (AMDSMI_ACCELERATOR_JPEG, Next);
    (AMDSMI_ACCELERATOR_MAX, Next) ].

#[global] Instance amdsmi_accelerator_partition_resource_type_t_enum : CEnum amdsmi_accelerator_partition_resource_type_t.
Proof. derive_enum amdsmi_accelerator_partition_resource_type_t_decl. Defined.

(** [amdsmi_compute_partition_type_t], lines 499-511: Compute Partition.
    This enum is used to identify various compute partitioning settings. *)
Inductive amdsmi_compute_partition_type_t : Set :=
  | AMDSMI_COMPUTE_PARTITION_INVALID
  | AMDSMI_COMPUTE_PARTITION_SPX
  | AMDSMI_COMPUTE_PARTITION_DPX
  | AMDSMI_COMPUTE_PARTITION_TPX
  | AMDSMI_COMPUTE_PARTITION_QPX
  | AMDSMI_COMPUTE_PARTITION_CPX.

Definition amdsmi_compute_partition_type_t_decl : list (amdsmi_compute_partition_type_t * einit amdsmi_compute_partition_type_t) :=
  [ (AMDSMI_COMPUTE_PARTITION_INVALID, Lit 0);
    (AMDSMI_COMPUTE_PARTITION_SPX, Next);
    (AMDSMI_COMPUTE_PARTITION_DPX, Next);
    (AMDSMI_COMPUTE_PARTITION_TPX, Next);
    (AMDSMI_COMPUTE_PARTITION_QPX, Next);
    (AMDSMI_COMPUTE_PARTITION_CPX, Next) ].

#[global] Instance amdsmi_compute_partition_type_t_enum : CEnum amdsmi_compute_partition_type_t.
Proof. derive_enum amdsmi_compute_partition_type_t_decl. Defined.

(** [amdsmi_memory_partition_type_t], lines 518-533: Memory Partitions *)
Inductive amdsmi_memory_partition_type_t : Set :=
  | AMDSMI_MEMORY_PARTITION_UNKNOWN
  | AMDSMI_MEMORY_PARTITION_NPS1
  | AMDSMI_MEMORY_PARTITION_NPS2
  | AMDSMI_MEMORY_PARTITION_NPS4
  | AMDSMI_MEMORY_PARTITION_NPS8.

Definition amdsmi_memory_partition_type_t_decl : list (amdsmi_memory_partition_type_t * einit amdsmi_memory_partition_type_t) :=
  [ (AMDSMI_MEMORY_PARTITION_UNKNOWN, Lit 0);
    (AMDSMI_MEMORY_PARTITION_NPS1, Lit 1);
    (AMDSMI_MEMORY_PARTITION_NPS2, Lit 2);
    (AMDSMI_MEMORY_PARTITION_NPS4, Lit 4);
    (AMDSMI_MEMORY_PARTITION_NPS8, Lit 8) ].

#[global] Instance amdsmi_memory_partition_type_t_enum : CEnum amdsmi_memory_partition_type_t.
Proof. derive_enum amdsmi_memory_partition_type_t_decl. Defined.

(** [amdsmi_temperature_type_t], lines 541-626: This enumeration is used to
    indicate from which part of the processor a temperature reading should
    be obtained. *)
Inductive amdsmi_temperature_type_t : Set :=
  | AMDSMI_TEMPERATURE_TYPE_EDGE
  | AMDSMI_TEMPERATURE_TYPE_FIRST
  | AMDSMI_TEMPERATURE_TYPE_HOTSPOT
  | AMDSMI_TEMPERATURE_TYPE_JUNCTION
  | AMDSMI_TEMPERATURE_TYPE_VRAM
  | AMDSMI_TEMPERATURE_TYPE_HBM_0
  | AMDSMI_TEMPERATURE_TYPE_HBM_1
  | AMDSMI_TEMPERATURE_TYPE_HBM_2
  | AMDSMI_TEMPERATURE_TYPE_HBM_3
  | AMDSMI_TEMPERATURE_TYPE_PLX
  | AMDSMI_TEMPERATURE_TYPE_GPUBOARD_NODE_FIRST
  | AMDSMI_TEMPERATURE_TYPE_GPUBOARD_NODE_RETIMER_X
  | AMDSMI_TEMPERATURE_TYPE_GPUBOARD_NODE_OAM_X_IBC
  | AMDSMI_TEMPERATURE_TYPE_GPUBOARD_NODE_OAM_X_IBC_2
  | AMDSMI_TEMPERATURE_TYPE_GPUBOARD_NODE_OAM_X_VDD18_VR
  | AMDSMI_TEMPERATURE_TYPE_GPUBOARD_NODE_OAM_X_04_HBM_B_VR
  | AMDSMI_TEMPERATURE_TYPE_GPUBOARD_NODE_OAM_X_04_HBM_D_VR
  | AMDSMI_TEMPERATURE_TYPE_GPUBOARD_NODE_LAST
  | AMDSMI_TEMPERATURE_TYPE_GPUBOARD_VR_FIRST
  | AMDSMI_TEMPERATURE_TYPE_GPUBOARD_VDDCR_VDD0
  | AMDSMI_TEMPERATURE_TYPE_GPUBOARD_VDDCR_VDD1
  | AMDSMI_TEMPERATURE_TYPE_GPUBOARD_VDDCR_VDD2
  | AMDSMI_TEMPERATURE_TYPE_GPUBOARD_VDDCR_VDD3
  | AMDSMI_TEMPERATURE_TYPE_GPUBOARD_VDDCR_SOC_A
  | AMDSMI_TEMPERATURE_TYPE_GPUBOARD_VDDCR_SOC_C
  | AMDSMI_TEMPERATURE_TYPE_GPUBOARD_VDDCR_SOCIO_A
  | AMDSMI_TEMPERATURE_TYPE_GPUBOARD_VDDCR_SOCIO_C
  | AMDSMI_TEMPERATURE_TYPE_GPUBOARD_VDD_085_HBM
  | AMDSMI_TEMPERATURE_TYPE_GPUBOARD_VDDCR_11_HBM_B
  | AMDSMI_TEMPERATURE_TYPE_GPUBOARD_VDDCR_11_HBM_D
  | AMDSMI_TEMPERATURE_TYPE_GPUBOARD_VDD_USR
  | AMDSMI_TEMPERATURE_TYPE_GPUBOARD_VDDIO_11_E32
  | AMDSMI_TEMPERATURE_TYPE_GPUBOARD_VR_LAST
  | AMDSMI_TEMPERATURE_TYPE_BASEBOARD_FIRST
  | AMDSMI_TEMPERATURE_TYPE_BASEBOARD_UBB_FPGA
  | AMDSMI_TEMPERATURE_TYPE_BASEBOARD_UBB_FRONT
  | AMDSMI_TEMPERATURE_TYPE_BASEBOARD_UBB_BACK
  | AMDSMI_TEMPERATURE_TYPE_BASEBOARD_UBB_OAM7
  | AMDSMI_TEMPERATURE_TYPE_BASEBOARD_UBB_IBC
  | AMDSMI_TEMPERATURE_TYPE_BASEBOARD_UBB_UFPGA
  | AMDSMI_TEMPERATURE_TYPE_BASEBOARD_UBB_OAM1
  | AMDSMI_TEMPERATURE_TYPE_BASEBOARD_OAM_0_1_HSC
  | AMDSMI_TEMPERATURE_TYPE_BASEBOARD_OAM_2_3_HSC
  | AMDSMI_TEMPERATURE_TYPE_BASEBOARD_OAM_4_5_HSC
  | AMDSMI_TEMPERATURE_TYPE_BASEBOARD_OAM_6_7_HSC
  | AMDSMI_TEMPERATURE_TYPE_BASEBOARD_UBB_FPGA_0V72_VR
  | AMDSMI_TEMPERATURE_TYPE_BASEBOARD_UBB_FPGA_3V3_VR
  | AMDSMI_TEMPERATURE_TYPE_BASEBOARD_RETIMER_0_1_2_3_1V2_VR
  | AMDSMI_TEMPERATURE_TYPE_BASEBOARD_RETIMER_4_5_6_7_1V2_VR
  | AMDSMI_TEMPERATURE_TYPE_BASEBOARD_RETIMER_0_1_0V9_VR
  | AMDSMI_TEMPERATURE_TYPE_BASEBOARD_RETIMER_4_5_0V9_VR
  | AMDSMI_TEMPERATURE_TYPE_BASEBOARD_RETIMER_2_3_0V9_VR
  | AMDSMI_TEMPERATURE_TYPE_BASEBOARD_RETIMER_6_7_0V9_VR
  | AMDSMI_TEMPERATURE_TYPE_BASEBOARD_OAM_0_1_2_3_3V3_VR
  | AMDSMI_TEMPERATURE_TYPE_BASEBOARD_OAM_4_5_6_7_3V3_VR
  | AMDSMI_TEMPERATURE_TYPE_BASEBOARD_IBC_HSC
  | AMDSMI_TEMPERATURE_TYPE_BASEBOARD_IBC
  | AMDSMI_TEMPERATURE_TYPE_BASEBOARD_LAST
  | AMDSMI_TEMPERATURE_TYPE__MAX.

Definition amdsmi_temperature_type_t_decl : list (amdsmi_temperature_type_t * einit amdsmi_temperature_type_t) :=
  [ (AMDSMI_TEMPERATURE_TYPE_EDGE, Next);
    (AMDSMI_TEMPERATURE_TYPE_FIRST, Ref AMDSMI_TEMPERATURE_TYPE_EDGE);
    (AMDSMI_TEMPERATURE_TYPE_HOTSPOT, Next);
    (AMDSMI_TEMPERATURE_TYPE_JUNCTION, Ref AMDSMI_TEMPERATURE_TYPE_HOTSPOT);
    (AMDSMI_TEMPERATURE_TYPE_VRAM, Next);
    (AMDSMI_TEMPERATURE_TYPE_HBM_0, Next);
    (AMDSMI_TEMPERATURE_TYPE_HBM_1, Next);
    (AMDSMI_TEMPERATURE_TYPE_HBM_2, Next);
    (AMDSMI_TEMPERATURE_TYPE_HBM_3, Next);
    (AMDSMI_TEMPERATURE_TYPE_PLX, Next);
    (AMDSMI_TEMPERATURE_TYPE_GPUBOARD_NODE_FIRST, Lit 100);
    (AMDSMI_TEMPERATURE_TYPE_GPUBOARD_NODE_RETIMER_X, Ref AMDSMI_TEMPERATURE_TYPE_GPUBOARD_NODE_FIRST);
    (AMDSMI_TEMPERATURE_TYPE_GPUBOARD_NODE_OAM_X_IBC, Next);
    (AMDSMI_TEMPERATURE_TYPE_GPUBOARD_NODE_OAM_X_IBC_2, Next);
    (AMDSMI_TEMPERATURE_TYPE_GPUBOARD_NODE_OAM_X_VDD18_VR, Next);
    (AMDSMI_TEMPERATURE_TYPE_GPUBOARD_NODE_OAM_X_04_HBM_B_VR, Next);
    (AMDSMI_TEMPERATURE_TYPE_GPUBOARD_NODE_OAM_X_04_HBM_D_VR, Next);
    (AMDSMI_TEMPERATURE_TYPE_GPUBOARD_NODE_LAST, Lit 149);
    (AMDSMI_TEMPERATURE_TYPE_GPUBOARD_VR_FIRST, Lit 150);
    (AMDSMI_TEMPERATURE_TYPE_GPUBOARD_VDDCR_VDD0, Ref AMDSMI_TEMPERATURE_TYPE_GPUBOARD_VR_FIRST);
    (AMDSMI_TEMPERATURE_TYPE_GPUBOARD_VDDCR_VDD1, Next);
    (AMDSMI_TEMPERATURE_TYPE_GPUBOARD_VDDCR_VDD2, Next);
    (AMDSMI_TEMPERATURE_TYPE_GPUBOARD_VDDCR_VDD3, Next);
    (AMDSMI_TEMPERATURE_TYPE_GPUBOARD_VDDCR_SOC_A, Next);
    (AMDSMI_TEMPERATURE_TYPE_GPUBOARD_VDDCR_SOC_C, Next);
    (AMDSMI_TEMPERATURE_TYPE_GPUBOARD_VDDCR_SOCIO_A, Next);
    (AMDSMI_TEMPERATURE_TYPE_GPUBOARD_VDDCR_SOCIO_C, Next);
    (AMDSMI_TEMPERATURE_TYPE_GPUBOARD_VDD_085_HBM, Next);
    (AMDSMI_TEMPERATURE_TYPE_GPUBOARD_VDDCR_11_HBM_B, Next);
    (AMDSMI_TEMPERATURE_TYPE_GPUBOARD_VDDCR_11_HBM_D, Next);
    (AMDSMI_TEMPERATURE_TYPE_GPUBOARD_VDD_USR, Next);
    (AMDSMI_TEMPERATURE_TYPE_GPUBOARD_VDDIO_11_E32, Next);
    (AMDSMI_TEMPERATURE_TYPE_GPUBOARD_VR_LAST, Lit 199);
    (AMDSMI_TEMPERATURE_TYPE_BASEBOARD_FIRST, Lit 200);
    (AMDSMI_TEMPERATURE_TYPE_BASEBOARD_UBB_FPGA, Ref AMDSMI_TEMPERATURE_TYPE_BASEBOARD_FIRST);
    (AMDSMI_TEMPERATURE_TYPE_BASEBOARD_UBB_FRONT, Next);
    (AMDSMI_TEMPERATURE_TYPE_BASEBOARD_UBB_BACK, Next);
    (AMDSMI_TEMPERATURE_TYPE_BASEBOARD_UBB_OAM7, Next);
    (AMDSMI_TEMPERATURE_TYPE_BASEBOARD_UBB_IBC, Next);
    (AMDSMI_TEMPERATURE_TYPE_BASEBOARD_UBB_UFPGA, Next);
    (AMDSMI_TEMPERATURE_TYPE_BASEBOARD_UBB_OAM1, Next);
    (AMDSMI_TEMPERATURE_TYPE_BASEBOARD_OAM_0_1_HSC, Next);
    (AMDSMI_TEMPERATURE_TYPE_BASEBOARD_OAM_2_3_HSC, Next);
    (AMDSMI_TEMPERATURE_TYPE_BASEBOARD_OAM_4_5_HSC, Next);
    (AMDSMI_TEMPERATURE_TYPE_BASEBOARD_OAM_6_7_HSC, Next);
    (AMDSMI_TEMPERATURE_TYPE_BASEBOARD_UBB_FPGA_0V72_VR, Next);
    (AMDSMI_TEMPERATURE_TYPE_BASEBOARD_UBB_FPGA_3V3_VR, Next);
    (AMDSMI_TEMPERATURE_TYPE_BASEBOARD_RETIMER_0_1_2_3_1V2_VR, Next);
    (AMDSMI_TEMPERATURE_TYPE_BASEBOARD_RETIMER_4_5_6_7_1V2_VR, Next);
    (AMDSMI_TEMPERATURE_TYPE_BASEBOARD_RETIMER_0_1_0V9_VR, Next);
    (AMDSMI_TEMPERATURE_TYPE_BASEBOARD_RETIMER_4_5_0V9_VR, Next);
    (AMDSMI_TEMPERATURE_TYPE_BASEBOARD_RETIMER_2_3_0V9_VR, Next);
    (AMDSMI_TEMPERATURE_TYPE_BASEBOARD_RETIMER_6_7_0V9_VR, Next);
    (AMDSMI_TEMPERATURE_TYPE_BASEBOARD_OAM_0_1_2_3_3V3_VR, Next);
    (AMDSMI_TEMPERATURE_TYPE_BASEBOARD_OAM_4_5_6_7_3V3_VR, Next);
    (AMDSMI_TEMPERATURE_TYPE_BASEBOARD_IBC_HSC, Next);
    (AMDSMI_TEMPERATURE_TYPE_BASEBOARD_IBC, Next);
    (AMDSMI_TEMPERATURE_TYPE_BASEBOARD_LAST, Lit 249);
    (AMDSMI_TEMPERATURE_TYPE__MAX, Ref AMDSMI_TEMPERATURE_TYPE_BASEBOARD_LAST) ].

#[global] Instance amdsmi_temperature_type_t_enum : CEnum amdsmi_temperature_type_t.
Proof. derive_enum amdsmi_temperature_type_t_decl. Defined.

(** [amdsmi_fw_block_t], lines 634-730: The values of this enum are used to
    identify the various firmware blocks. *)
Inductive amdsmi_fw_block_t : Set :=
  | AMDSMI_FW_ID_SMU
  | AMDSMI_FW_ID_FIRST
  | AMDSMI_FW_ID_CP_CE
  | AMDSMI_FW_ID_CP_PFP
  | AMDSMI_FW_ID_CP_ME
  | AMDSMI_FW_ID_CP_MEC_JT1
  | AMDSMI_FW_ID_CP_MEC_JT2
  | AMDSMI_FW_ID_CP_MEC1
  | AMDSMI_FW_ID_CP_MEC2
  | AMDSMI_FW_ID_RLC
  | AMDSMI_FW_ID_SDMA0
  | AMDSMI_FW_ID_SDMA1
  | AMDSMI_FW_ID_SDMA2
  | AMDSMI_FW_ID_SDMA3
  | AMDSMI_FW_ID_SDMA4
  | AMDSMI_FW_ID_SDMA5
  | AMDSMI_FW_ID_SDMA6
  | AMDSMI_FW_ID_SDMA7
  | AMDSMI_FW_ID_VCN
  | AMDSMI_FW_ID_UVD
  | AMDSMI_FW_ID_VCE
  | AMDSMI_FW_ID_ISP
  | AMDSMI_FW_ID_DMCU_ERAM
  | AMDSMI_FW_ID_DMCU_ISR
  | AMDSMI_FW_ID_RLC_RESTORE_LIST_GPM_MEM
  | AMDSMI_FW_ID_RLC_RESTORE_LIST_SRM_MEM
  | AMDSMI_FW_ID_RLC_RESTORE_LIST_CNTL
  | AMDSMI_FW_ID_RLC_V
  | AMDSMI_FW_ID_MMSCH
  | AMDSMI_FW_ID_PSP_SYSDRV
  | AMDSMI_FW_ID_PSP_SOSDRV
  | AMDSMI_FW_ID_PSP_TOC
  | AMDSMI_FW_ID_PSP_KEYDB
  | AMDSMI_FW_ID_DFC
  | AMDSMI_FW_ID_PSP_SPL
  | AMDSMI_FW_ID_DRV_CAP
  | AMDSMI_FW_ID_MC
  | AMDSMI_FW_ID_PSP_BL
  | AMDSMI_FW_ID_CP_PM4
  | AMDSMI_FW_ID_RLC_P
  | AMDSMI_FW_ID_SEC_POLICY_STAGE2
  | AMDSMI_FW_ID_REG_ACCESS_WHITELIST
  | AMDSMI_FW_ID_IMU_DRAM
  | AMDSMI_FW_ID_IMU_IRAM
  | AMDSMI_FW_ID_SDMA_TH0
  | AMDSMI_FW_ID_SDMA_TH1
  | AMDSMI_FW_ID_CP_MES
  | AMDSMI_FW_ID_MES_KIQ
  | AMDSMI_FW_ID_MES_STACK
  | AMDSMI_FW_ID_MES_THREAD1
  | AMDSMI_FW_ID_MES_THREAD1_STACK
  | AMDSMI_FW_ID_RLX6
  | AMDSMI_FW_ID_RLX6_DRAM_BOOT
  | AMDSMI_FW_ID_RS64_ME
  | AMDSMI_FW_ID_RS64_ME_P0_DATA
  | AMDSMI_FW_ID_RS64_ME_P1_DATA
  | AMDSMI_FW_ID_RS64_PFP
  | AMDSMI_FW_ID_RS64_PFP_P0_DATA
  | AMDSMI_FW_ID_RS64_PFP_P1_DATA
  | AMDSMI_FW_ID_RS64_MEC
  | AMDSMI_FW_ID_RS64_MEC_P0_DATA
  | AMDSMI_FW_ID_RS64_MEC_P1_DATA
  | AMDSMI_FW_ID_RS64_MEC_P2_DATA
  | AMDSMI_FW_ID_RS64_MEC_P3_DATA
  | AMDSMI_FW_ID_PPTABLE
  | AMDSMI_FW_ID_PSP_SOC
  | AMDSMI_FW_ID_PSP_DBG
  | AMDSMI_FW_ID_PSP_INTF
  | AMDSMI_FW_ID_RLX6_CORE1
  | AMDSMI_FW_ID_RLX6_DRAM_BOOT_CORE1
  | AMDSMI_FW_ID_RLCV_LX7
  | AMDSMI_FW_ID_RLC_SAVE_RESTORE_LIST
  | AMDSMI_FW_ID_ASD
  | AMDSMI_FW_ID_TA_RAS
  | AMDSMI_FW_ID_TA_XGMI
  | AMDSMI_FW_ID_RLC_SRLG
  | AMDSMI_FW_ID_RLC_SRLS
  | AMDSMI_FW_ID_PM
  | AMDSMI_FW_ID_DMCU
  | AMDSMI_FW_ID_PLDM_BUNDLE
  | AMDSMI_FW_ID__MAX.

Definition amdsmi_fw_block_t_decl : list (amdsmi_fw_block_t * einit amdsmi_fw_block_t) :=
  [ (AMDSMI_FW_ID_SMU, Lit 1);
    (AMDSMI_FW_ID_FIRST, Ref AMDSMI_FW_ID_SMU);
    (AMDSMI_FW_ID_CP_CE, Next);
    (AMDSMI_FW_ID_CP_PFP, Next);
    (AMDSMI_FW_ID_CP_ME, Next);
    (AMDSMI_FW_ID_CP_MEC_JT1, Next);
    (AMDSMI_FW_ID_CP_MEC_JT2, Next);
    (AMDSMI_FW_ID_CP_MEC1, Next);
    (AMDSMI_FW_ID_CP_MEC2, Next);
    (AMDSMI_FW_ID_RLC, Next);
    (AMDSMI_FW_ID_SDMA0, Next);
    (AMDSMI_FW_ID_SDMA1, Next);
    (AMDSMI_FW_ID_SDMA2, Next);
    (AMDSMI_FW_ID_SDMA3, Next);
    (AMDSMI_FW_ID_SDMA4, Next);
    (AMDSMI_FW_ID_SDMA5, Next);
    (AMDSMI_FW_ID_SDMA6, Next);
    (AMDSMI_FW_ID_SDMA7, Next);
    (AMDSMI_FW_ID_VCN, Next);
    (AMDSMI_FW_ID_UVD, Next);
    (AMDSMI_FW_ID_VCE, Next);
    (AMDSMI_FW_ID_ISP, Next);
    (AMDSMI_FW_ID_DMCU_ERAM, Next);
    (AMDSMI_FW_ID_DMCU_ISR, Next);
    (AMDSMI_FW_ID_RLC_RESTORE_LIST_GPM_MEM, Next);
    (AMDSMI_FW_ID_RLC_RESTORE_LIST_SRM_MEM, Next);
    (AMDSMI_FW_ID_RLC_RESTORE_LIST_CNTL, Next);
    (AMDSMI_FW_ID_RLC_V, Next);
    (AMDSMI_FW_ID_MMSCH, Next);
    (AMDSMI_FW_ID_PSP_SYSDRV, Next);
    (AMDSMI_FW_ID_PSP_SOSDRV, Next);
    (AMDSMI_FW_ID_PSP_TOC, Next);
    (AMDSMI_FW_ID_PSP_KEYDB, Next);
    (AMDSMI_FW_ID_DFC, Next);
    (AMDSMI_FW_ID_PSP_SPL, Next);
    (AMDSMI_FW_ID_DRV_CAP, Next);
    (AMDSMI_FW_ID_MC, Next);
    (AMDSMI_FW_ID_PSP_BL, Next);
    (AMDSMI_FW_ID_CP_PM4, Next);
    (AMDSMI_FW_ID_RLC_P, Next);
    (AMDSMI_FW_ID_SEC_POLICY_STAGE2, Next);
    (AMDSMI_FW_ID_REG_ACCESS_WHITELIST, Next);
    (AMDSMI_FW_ID_IMU_DRAM, Next);
    (AMDSMI_FW_ID_IMU_IRAM, Next);
    (AMDSMI_FW_ID_SDMA_TH0, Next);
    (AMDSMI_FW_ID_SDMA_TH1, Next);
    (AMDSMI_FW_ID_CP_MES, Next);
    (AMDSMI_FW_ID_MES_KIQ, Next);
    (AMDSMI_FW_ID_MES_STACK, Next);
    (AMDSMI_FW_ID_MES_THREAD1, Next);
    (AMDSMI_FW_ID_MES_THREAD1_STACK, Next);
    (AMDSMI_FW_ID_RLX6, Next);
    (AMDSMI_FW_ID_RLX6_DRAM_BOOT, Next);
    (AMDSMI_FW_ID_RS64_ME, Next);
    (AMDSMI_FW_ID_RS64_ME_P0_DATA, Next);
    (AMDSMI_FW_ID_RS64_ME_P1_DATA, Next);
    (AMDSMI_FW_ID_RS64_PFP, Next);
    (AMDSMI_FW_ID_RS64_PFP_P0_DATA, Next);
    (AMDSMI_FW_ID_RS64_PFP_P1_DATA, Next);
    (AMDSMI_FW_ID_RS64_MEC, Next);
    (AMDSMI_FW_ID_RS64_MEC_P0_DATA, Next);
    (AMDSMI_FW_ID_RS64_MEC_P1_DATA, Next);
    (AMDSMI_FW_ID_RS64_MEC_P2_DATA, Next);
    (AMDSMI_FW_ID_RS64_MEC_P3_DATA, Next);
    (AMDSMI_FW_ID_PPTABLE, Next);
    (AMDSMI_FW_ID_PSP_SOC, Next);
    (AMDSMI_FW_ID_PSP_DBG, Next);
    (AMDSMI_FW_ID_PSP_INTF, Next);
    (AMDSMI_FW_ID_RLX6_CORE1, Next);
    (AMDSMI_FW_ID_RLX6_DRAM_BOOT_CORE1, Next);
    (AMDSMI_FW_ID_RLCV_LX7, Next);
    (AMDSMI_FW_ID_RLC_SAVE_RESTORE_LIST, Next);
    (AMDSMI_FW_ID_ASD, Next);
    (AMDSMI_FW_ID_TA_RAS, Next);
    (AMDSMI_FW_ID_TA_XGMI, Next);
    (AMDSMI_FW_ID_RLC_SRLG, Next);
    (AMDSMI_FW_ID_RLC_SRLS, Next);
    (AMDSMI_FW_ID_PM, Next);
    (AMDSMI_FW_ID_DMCU, Next);
    (AMDSMI_FW_ID_PLDM_BUNDLE, Next);
    (AMDSMI_FW_ID__MAX, Next) ].

#[global] Instance amdsmi_fw_block_t_enum : CEnum amdsmi_fw_block_t.
Proof. derive_enum amdsmi_fw_block_t_decl. Defined.

(** [amdsmi_vram_type_t], lines 737-762: vRam Types. This enum is used to
    identify various VRam types. *)
Inductive amdsmi_vram_type_t : Set :=
  | AMDSMI_VRAM_TYPE_UNKNOWN
  | AMDSMI_VRAM_TYPE_HBM
  | AMDSMI_VRAM_TYPE_HBM2
  | AMDSMI_VRAM_TYPE_HBM2E
  | AMDSMI_VRAM_TYPE_HBM3
  | AMDSMI_VRAM_TYPE_HBM3E
  | AMDSMI_VRAM_TYPE_DDR2
  | AMDSMI_VRAM_TYPE_DDR3
  | AMDSMI_VRAM_TYPE_DDR4
  | AMDSMI_VRAM_TYPE_DDR5
  | AMDSMI_VRAM_TYPE_GDDR1
  | AMDSMI_VRAM_TYPE_GDDR2
  | AMDSMI_VRAM_TYPE_GDDR3
  | AMDSMI_VRAM_TYPE_GDDR4
  | AMDSMI_VRAM_TYPE_GDDR5
  | AMDSMI_VRAM_TYPE_GDDR6
  | AMDSMI_VRAM_TYPE_GDDR7
  | AMDSMI_VRAM_TYPE_LPDDR4
  | AMDSMI_VRAM_TYPE_LPDDR5
  | AMDSMI_VRAM_TYPE__MAX.

Definition amdsmi_vram_type_t_decl : list (amdsmi_vram_type_t * einit amdsmi_vram_type_t) :=
  [ (AMDSMI_VRAM_TYPE_UNKNOWN, Lit 0);
    (AMDSMI_VRAM_TYPE_HBM, Lit 1);
    (AMDSMI_VRAM_TYPE_HBM2, Lit 2);
    (AMDSMI_VRAM_TYPE_HBM2E, Lit 3);
    (AMDSMI_VRAM_TYPE_HBM3, Lit 4);
    (AMDSMI_VRAM_TYPE_HBM3E, Lit 5);
    (AMDSMI_VRAM_TYPE_DDR2, Lit 10);
    (AMDSMI_VRAM_TYPE_DDR3, Lit 11);
    (AMDSMI_VRAM_TYPE_DDR4, Lit 12);
    (AMDSMI_VRAM_TYPE_DDR5, Lit 13);
    (AMDSMI_VRAM_TYPE_GDDR1, Lit 17);
    (AMDSMI_VRAM_TYPE_GDDR2, Lit 18);
    (AMDSMI_VRAM_TYPE_GDDR3, Lit 19);
    (AMDSMI_VRAM_TYPE_GDDR4, Lit 20);
    (AMDSMI_VRAM_TYPE_GDDR5, Lit 21);
    (AMDSMI_VRAM_TYPE_GDDR6, Lit 22);
    (AMDSMI_VRAM_TYPE_GDDR7, Lit 23);
    (AMDSMI_VRAM_TYPE_LPDDR4, Lit 30);
    (AMDSMI_VRAM_TYPE_LPDDR5, Lit 31);
    (AMDSMI_VRAM_TYPE__MAX, Ref AMDSMI_VRAM_TYPE_LPDDR5) ].

#[global] Instance amdsmi_vram_type_t_enum : CEnum amdsmi_vram_type_t.
Proof. derive_enum amdsmi_vram_type_t_decl. Defined.

(** [amdsmi_card_form_factor_t], lines 971-976: Card Form Factor *)
Inductive amdsmi_card_form_factor_t : Set :=
  | AMDSMI_CARD_FORM_FACTOR_PCIE
  | AMDSMI_CARD_FORM_FACTOR_OAM
  | AMDSMI_CARD_FORM_FACTOR_CEM
  | AMDSMI_CARD_FORM_FACTOR_UNKNOWN.

Definition amdsmi_card_form_factor_t_decl : list (amdsmi_card_form_factor_t * einit amdsmi_card_form_factor_t) :=
  [ (AMDSMI_CARD_FORM_FACTOR_PCIE, Next);
    (AMDSMI_CARD_FORM_FACTOR_OAM, Next);
    (AMDSMI_CARD_FORM_FACTOR_CEM, Next);
    (AMDSMI_CARD_FORM_FACTOR_UNKNOWN, Next) ].

#[global] Instance amdsmi_card_form_factor_t_enum : CEnum amdsmi_card_form_factor_t.
Proof. derive_enum amdsmi_card_form_factor_t_decl. Defined.

(** [amdsmi_power_cap_type_t], lines 1029-1032: Power Cap Package Power
    Tracking (PPT) type *)
Inductive amdsmi_power_cap_type_t : Set :=
  | AMDSMI_POWER_CAP_TYPE_PPT0
  | AMDSMI_POWER_CAP_TYPE_PPT1.

Definition amdsmi_power_cap_type_t_decl : list (amdsmi_power_cap_type_t * einit amdsmi_power_cap_type_t) :=
  [ (AMDSMI_POWER_CAP_TYPE_PPT0, Next);
    (AMDSMI_POWER_CAP_TYPE_PPT1, Next) ].

#[global] Instance amdsmi_power_cap_type_t_enum : CEnum amdsmi_power_cap_type_t.
Proof. derive_enum amdsmi_power_cap_type_t_decl. Defined.

(** [amdsmi_cache_property_type_t], lines 1053-1059: cache properties *)
Inductive amdsmi_cache_property_type_t : Set :=
  | AMDSMI_CACHE_PROPERTY_ENABLED
  | AMDSMI_CACHE_PROPERTY_DATA_CACHE
  | AMDSMI_CACHE_PROPERTY_INST_CACHE
  | AMDSMI_CACHE_PROPERTY_CPU_CACHE
  | AMDSMI_CACHE_PROPERTY_SIMD_CACHE.

Definition amdsmi_cache_property_type_t_decl : list (amdsmi_cache_property_type_t * einit amdsmi_cache_property_type_t) :=
  [ (AMDSMI_CACHE_PROPERTY_ENABLED, Lit 1);
    (AMDSMI_CACHE_PROPERTY_DATA_CACHE, Lit 2);
    (AMDSMI_CACHE_PROPERTY_INST_CACHE, Lit 4);
    (AMDSMI_CACHE_PROPERTY_CPU_CACHE, Lit 8);
    (AMDSMI_CACHE_PROPERTY_SIMD_CACHE, Lit 16) ].

#[global] Instance amdsmi_cache_property_type_t_enum : CEnum amdsmi_cache_property_type_t.
Proof. derive_enum amdsmi_cache_property_type_t_decl. Defined.

(** [amdsmi_link_type_t], lines 1212-1218: Link type *)
Inductive amdsmi_link_type_t : Set :=
  | AMDSMI_LINK_TYPE_INTERNAL
  | AMDSMI_LINK_TYPE_PCIE
  | AMDSMI_LINK_TYPE_XGMI
  | AMDSMI_LINK_TYPE_NOT_APPLICABLE
  | AMDSMI_LINK_TYPE_UNKNOWN.

Definition amdsmi_link_type_t_decl : list (amdsmi_link_type_t * einit amdsmi_link_type_t) :=
  [ (AMDSMI_LINK_TYPE_INTERNAL, Lit 0);
    (AMDSMI_LINK_TYPE_PCIE, Lit 1);
    (AMDSMI_LINK_TYPE_XGMI, Lit 2);
    (AMDSMI_LINK_TYPE_NOT_APPLICABLE, Lit 3);
    (AMDSMI_LINK_TYPE_UNKNOWN, Lit 4) ].

#[global] Instance amdsmi_link_type_t_enum : CEnum amdsmi_link_type_t.
Proof. derive_enum amdsmi_link_type_t_decl. Defined.

(** [amdsmi_link_status_t], lines 1238-1243: Link Status *)
Inductive amdsmi_link_status_t : Set :=
  | AMDSMI_LINK_STATUS_ENABLED
  | AMDSMI_LINK_STATUS_DISABLED
  | AMDSMI_LINK_STATUS_INACTIVE
  | AMDSMI_LINK_STATUS_ERROR.

Definition amdsmi_link_status_t_decl : list (amdsmi_link_status_t * einit amdsmi_link_status_t) :=
  [ (AMDSMI_LINK_STATUS_ENABLED, Lit 0);
    (AMDSMI_LINK_STATUS_DISABLED, Lit 1);
    (AMDSMI_LINK_STATUS_INACTIVE, Lit 2);
    (AMDSMI_LINK_STATUS_ERROR, Lit 3) ].

#[global] Instance amdsmi_link_status_t_enum : CEnum amdsmi_link_status_t.
Proof. derive_enum amdsmi_link_status_t_decl. Defined.

(** [amdsmi_dev_perf_level_t], lines 1421-1435: PowerPlay performance levels
    *)
Inductive amdsmi_dev_perf_level_t : Set :=
  | AMDSMI_DEV_PERF_LEVEL_AUTO
  | AMDSMI_DEV_PERF_LEVEL_FIRST
  | AMDSMI_DEV_PERF_LEVEL_LOW
  | AMDSMI_DEV_PERF_LEVEL_HIGH
  | AMDSMI_DEV_PERF_LEVEL_MANUAL
  | AMDSMI_DEV_PERF_LEVEL_STABLE_STD
  | AMDSMI_DEV_PERF_LEVEL_STABLE_PEAK
  | AMDSMI_DEV_PERF_LEVEL_STABLE_MIN_MCLK
  | AMDSMI_DEV_PERF_LEVEL_STABLE_MIN_SCLK
  | AMDSMI_DEV_PERF_LEVEL_DETERMINISM
  | AMDSMI_DEV_PERF_LEVEL_LAST
  | AMDSMI_DEV_PERF_LEVEL_UNKNOWN.

Definition amdsmi_dev_perf_level_t_decl : list (amdsmi_dev_perf_level_t * einit amdsmi_dev_perf_level_t) :=
  [ (AMDSMI_DEV_PERF_LEVEL_AUTO, Lit 0);
    (AMDSMI_DEV_PERF_LEVEL_FIRST, Ref AMDSMI_DEV_PERF_LEVEL_AUTO);
    (AMDSMI_DEV_PERF_LEVEL_LOW, Next);
    (AMDSMI_DEV_PERF_LEVEL_HIGH, Next);
    (AMDSMI_DEV_PERF_LEVEL_MANUAL, Next);
    (AMDSMI_DEV_PERF_LEVEL_STABLE_STD, Next);
    (AMDSMI_DEV_PERF_LEVEL_STABLE_PEAK, Next);
    (AMDSMI_DEV_PERF_LEVEL_STABLE_MIN_MCLK, Next);
    (AMDSMI_DEV_PERF_LEVEL_STABLE_MIN_SCLK, Next);
    (AMDSMI_DEV_PERF_LEVEL_DETERMINISM, Next);
    (AMDSMI_DEV_PERF_LEVEL_LAST, Ref AMDSMI_DEV_PERF_LEVEL_DETERMINISM);
    (AMDSMI_DEV_PERF_LEVEL_UNKNOWN, Lit 256) ].

#[global] Instance amdsmi_dev_perf_level_t_enum : CEnum amdsmi_dev_perf_level_t.
Proof. derive_enum amdsmi_dev_perf_level_t_decl. Defined.

(** [amdsmi_event_group_t], lines 1451-1455: Event Groups Enum denoting an
    event group. The value of the enum is the base value for all the event
    enums in the group. *)
Inductive amdsmi_event_group_t : Set :=
  | AMDSMI_EVNT_GRP_XGMI
  | AMDSMI_EVNT_GRP_XGMI_DATA_OUT
  | AMDSMI_EVNT_GRP_INVALID.

Definition amdsmi_event_group_t_decl : list (amdsmi_event_group_t * einit amdsmi_event_group_t) :=
  [ (AMDSMI_EVNT_GRP_XGMI, Lit 0);
    (AMDSMI_EVNT_GRP_XGMI_DATA_OUT, Lit 10);
    (AMDSMI_EVNT_GRP_INVALID, Lit 4294967295) ].

#[global] Instance amdsmi_event_group_t_enum : CEnum amdsmi_event_group_t.
Proof. derive_enum amdsmi_event_group_t_decl. Defined.

(** [amdsmi_event_type_t], lines 1487-1509: Event types Event type enum.
    Events belonging to a particular event group amdsmi_event_group_t should
    begin enumerating at the amdsmi_event_group_t value for that group. *)
Inductive amdsmi_event_type_t : Set :=
  | AMDSMI_EVNT_FIRST
  | AMDSMI_EVNT_XGMI_FIRST
  | AMDSMI_EVNT_XGMI_0_NOP_TX
  | AMDSMI_EVNT_XGMI_0_REQUEST_TX
  | AMDSMI_EVNT_XGMI_0_RESPONSE_TX
  | AMDSMI_EVNT_XGMI_0_BEATS_TX
  | AMDSMI_EVNT_XGMI_1_NOP_TX
  | AMDSMI_EVNT_XGMI_1_REQUEST_TX
  | AMDSMI_EVNT_XGMI_1_RESPONSE_TX
  | AMDSMI_EVNT_XGMI_1_BEATS_TX
  | AMDSMI_EVNT_XGMI_LAST
  | AMDSMI_EVNT_XGMI_DATA_OUT_FIRST
  | AMDSMI_EVNT_XGMI_DATA_OUT_0
  | AMDSMI_EVNT_XGMI_DATA_OUT_1
  | AMDSMI_EVNT_XGMI_DATA_OUT_2
  | AMDSMI_EVNT_XGMI_DATA_OUT_3
  | AMDSMI_EVNT_XGMI_DATA_OUT_4
  | AMDSMI_EVNT_XGMI_DATA_OUT_5
  | AMDSMI_EVNT_XGMI_DATA_OUT_LAST
  | AMDSMI_EVNT_LAST.

Definition amdsmi_event_type_t_decl : list (amdsmi_event_type_t * einit amdsmi_event_type_t) :=
  [ (AMDSMI_EVNT_FIRST, Lit (enum_val AMDSMI_EVNT_GRP_XGMI));
    (AMDSMI_EVNT_XGMI_FIRST, Lit (enum_val AMDSMI_EVNT_GRP_XGMI));
    (AMDSMI_EVNT_XGMI_0_NOP_TX, Ref AMDSMI_EVNT_XGMI_FIRST);
    (AMDSMI_EVNT_XGMI_0_REQUEST_TX, Next);
    (AMDSMI_EVNT_XGMI_0_RESPONSE_TX, Next);
    (AMDSMI_EVNT_XGMI_0_BEATS_TX, Next);
    (AMDSMI_EVNT_XGMI_1_NOP_TX, Next);
    (AMDSMI_EVNT_XGMI_1_REQUEST_TX, Next);
    (AMDSMI_EVNT_XGMI_1_RESPONSE_TX, Next);
    (AMDSMI_EVNT_XGMI_1_BEATS_TX, Next);
    (AMDSMI_EVNT_XGMI_LAST, Ref AMDSMI_EVNT_XGMI_1_BEATS_TX);
    (AMDSMI_EVNT_XGMI_DATA_OUT_FIRST, Lit (enum_val AMDSMI_EVNT_GRP_XGMI_DATA_OUT));
    (AMDSMI_EVNT_XGMI_DATA_OUT_0, Ref AMDSMI_EVNT_XGMI_DATA_OUT_FIRST);
    (AMDSMI_EVNT_XGMI_DATA_OUT_1, Next);
    (AMDSMI_EVNT_XGMI_DATA_OUT_2, Next);
    (AMDSMI_EVNT_XGMI_DATA_OUT_3, Next);
    (AMDSMI_EVNT_XGMI_DATA_OUT_4, Next);
    (AMDSMI_EVNT_XGMI_DATA_OUT_5, Next);
    (AMDSMI_EVNT_XGMI_DATA_OUT_LAST, Ref AMDSMI_EVNT_XGMI_DATA_OUT_5);
    (AMDSMI_EVNT_LAST, Ref AMDSMI_EVNT_XGMI_DATA_OUT_LAST) ].

#[global] Instance amdsmi_event_type_t_enum : CEnum amdsmi_event_type_t.
Proof. derive_enum amdsmi_event_type_t_decl. Defined.

(** [amdsmi_counter_command_t], lines 1516-1520: Event counter commands *)
Inductive amdsmi_counter_command_t : Set :=
  | AMDSMI_CNTR_CMD_START
  | AMDSMI_CNTR_CMD_STOP.

Definition amdsmi_counter_command_t_decl : list (amdsmi_counter_command_t * einit amdsmi_counter_command_t) :=
  [ (AMDSMI_CNTR_CMD_START, Lit 0);
    (AMDSMI_CNTR_CMD_STOP, Next) ].

#[global] Instance amdsmi_counter_command_t_enum : CEnum amdsmi_counter_command_t.
Proof. derive_enum amdsmi_counter_command_t_decl. Defined.

(** [amdsmi_evt_notification_type_t], lines 1538-1555: Event notification
    event types *)
Inductive amdsmi_evt_notification_type_t : Set :=
  | AMDSMI_EVT_NOTIF_NONE
  | AMDSMI_EVT_NOTIF_VMFAULT
  | AMDSMI_EVT_NOTIF_FIRST
  | AMDSMI_EVT_NOTIF_THERMAL_THROTTLE
  | AMDSMI_EVT_NOTIF_GPU_PRE_RESET
  | AMDSMI_EVT_NOTIF_GPU_POST_RESET
  | AMDSMI_EVT_NOTIF_MIGRATE_START
  | AMDSMI_EVT_NOTIF_MIGRATE_END
  | AMDSMI_EVT_NOTIF_PAGE_FAULT_START
  | AMDSMI_EVT_NOTIF_PAGE_FAULT_END
  | AMDSMI_EVT_NOTIF_QUEUE_EVICTION
  | AMDSMI_EVT_NOTIF_QUEUE_RESTORE
  | AMDSMI_EVT_NOTIF_UNMAP_FROM_GPU
  | AMDSMI_EVT_NOTIF_PROCESS_START
  | AMDSMI_EVT_NOTIF_PROCESS_END
  | AMDSMI_EVT_NOTIF_LAST.

Definition amdsmi_evt_notification_type_t_decl : list (amdsmi_evt_notification_type_t * einit amdsmi_evt_notification_type_t) :=
  [ (AMDSMI_EVT_NOTIF_NONE, Lit 0);
    (AMDSMI_EVT_NOTIF_VMFAULT, Lit 1);
    (AMDSMI_EVT_NOTIF_FIRST, Ref AMDSMI_EVT_NOTIF_VMFAULT);
    (AMDSMI_EVT_NOTIF_THERMAL_THROTTLE, Lit 2);
    (AMDSMI_EVT_NOTIF_GPU_PRE_RESET, Lit 3);
    (AMDSMI_EVT_NOTIF_GPU_POST_RESET, Lit 4);
    (AMDSMI_EVT_NOTIF_MIGRATE_START, Lit 5);
    (AMDSMI_EVT_NOTIF_MIGRATE_END, Lit 6);
    (AMDSMI_EVT_NOTIF_PAGE_FAULT_START, Lit 7);
    (AMDSMI_EVT_NOTIF_PAGE_FAULT_END, Lit 8);
    (AMDSMI_EVT_NOTIF_QUEUE_EVICTION, Lit 9);
    (AMDSMI_EVT_NOTIF_QUEUE_RESTORE, Lit 10);
    (AMDSMI_EVT_NOTIF_UNMAP_FROM_GPU, Lit 11);
    (AMDSMI_EVT_NOTIF_PROCESS_START, Lit 12);
    (AMDSMI_EVT_NOTIF_PROCESS_END, Lit 13);
    (AMDSMI_EVT_NOTIF_LAST, Ref AMDSMI_EVT_NOTIF_PROCESS_END) ].

#[global] Instance amdsmi_evt_notification_type_t_enum : CEnum amdsmi_evt_notification_type_t.
Proof. derive_enum amdsmi_evt_notification_type_t_decl. Defined.

(** [amdsmi_temperature_metric_t], lines 1581-1610: Temperature Metrics.
    This enum is used to identify various temperature metrics. Corresponding
    values will be in Celsius *)
Inductive amdsmi_temperature_metric_t : Set :=
  | AMDSMI_TEMP_CURRENT
  | AMDSMI_TEMP_FIRST
  | AMDSMI_TEMP_MAX
  | AMDSMI_TEMP_MIN
  | AMDSMI_TEMP_MAX_HYST
  | AMDSMI_TEMP_MIN_HYST
  | AMDSMI_TEMP_CRITICAL
  | AMDSMI_TEMP_CRITICAL_HYST
  | AMDSMI_TEMP_EMERGENCY
  | AMDSMI_TEMP_EMERGENCY_HYST
  | AMDSMI_TEMP_CRIT_MIN
  | AMDSMI_TEMP_CRIT_MIN_HYST
  | AMDSMI_TEMP_OFFSET
  | AMDSMI_TEMP_LOWEST
  | AMDSMI_TEMP_HIGHEST
  | AMDSMI_TEMP_SHUTDOWN
  | AMDSMI_TEMP_LAST.

Definition amdsmi_temperature_metric_t_decl : list (amdsmi_temperature_metric_t * einit amdsmi_temperature_metric_t) :=
  [ (AMDSMI_TEMP_CURRENT, Lit 0);
    (AMDSMI_TEMP_FIRST, Ref AMDSMI_TEMP_CURRENT);
    (AMDSMI_TEMP_MAX, Next);
    (AMDSMI_TEMP_MIN, Next);
    (AMDSMI_TEMP_MAX_HYST, Next);
    (AMDSMI_TEMP_MIN_HYST, Next);
    (AMDSMI_TEMP_CRITICAL, Next);
    (AMDSMI_TEMP_CRITICAL_HYST, Next);
    (AMDSMI_TEMP_EMERGENCY, Next);
    (AMDSMI_TEMP_EMERGENCY_HYST, Next);
    (AMDSMI_TEMP_CRIT_MIN, Next);
    (AMDSMI_TEMP_CRIT_MIN_HYST, Next);
    (AMDSMI_TEMP_OFFSET, Next);
    (AMDSMI_TEMP_LOWEST, Next);
    (AMDSMI_TEMP_HIGHEST, Next);
    (AMDSMI_TEMP_SHUTDOWN, Next);
    (AMDSMI_TEMP_LAST, Ref AMDSMI_TEMP_SHUTDOWN) ].

#[global] Instance amdsmi_temperature_metric_t_enum : CEnum amdsmi_temperature_metric_t.
Proof. derive_enum amdsmi_temperature_metric_t_decl. Defined.

(** [amdsmi_voltage_metric_t], lines 1618-1631: Voltage Metrics.  This enum
    is used to identify various Voltage metrics. Corresponding values will
    be in millivolt. *)
Inductive amdsmi_voltage_metric_t : Set :=
  | AMDSMI_VOLT_CURRENT
  | AMDSMI_VOLT_FIRST
  | AMDSMI_VOLT_MAX
  | AMDSMI_VOLT_MIN_CRIT
  | AMDSMI_VOLT_MIN
  | AMDSMI_VOLT_MAX_CRIT
  | AMDSMI_VOLT_AVERAGE
  | AMDSMI_VOLT_LOWEST
  | AMDSMI_VOLT_HIGHEST
  | AMDSMI_VOLT_LAST.

Definition amdsmi_voltage_metric_t_decl : list (amdsmi_voltage_metric_t * einit amdsmi_voltage_metric_t) :=
  [ (AMDSMI_VOLT_CURRENT, Lit 0);
    (AMDSMI_VOLT_FIRST, Ref AMDSMI_VOLT_CURRENT);
    (AMDSMI_VOLT_MAX, Next);
    (AMDSMI_VOLT_MIN_CRIT, Next);
    (AMDSMI_VOLT_MIN, Next);
    (AMDSMI_VOLT_MAX_CRIT, Next);
    (AMDSMI_VOLT_AVERAGE, Next);
    (AMDSMI_VOLT_LOWEST, Next);
    (AMDSMI_VOLT_HIGHEST, Next);
    (AMDSMI_VOLT_LAST, Ref AMDSMI_VOLT_HIGHEST) ].

#[global] Instance amdsmi_voltage_metric_t_enum : CEnum amdsmi_voltage_metric_t.
Proof. derive_enum amdsmi_voltage_metric_t_decl. Defined.

(** [amdsmi_voltage_type_t], lines 1639-1646: This ennumeration is used to
    indicate which type of voltage reading should be obtained. *)
Inductive amdsmi_voltage_type_t : Set :=
  | AMDSMI_VOLT_TYPE_FIRST
  | AMDSMI_VOLT_TYPE_VDDGFX
  | AMDSMI_VOLT_TYPE_VDDBOARD
  | AMDSMI_VOLT_TYPE_LAST
  | AMDSMI_VOLT_TYPE_INVALID.

Definition amdsmi_voltage_type_t_decl : list (amdsmi_voltage_type_t * einit amdsmi_voltage_type_t) :=
  [ (AMDSMI_VOLT_TYPE_FIRST, Lit 0);
    (AMDSMI_VOLT_TYPE_VDDGFX, Ref AMDSMI_VOLT_TYPE_FIRST);
    (AMDSMI_VOLT_TYPE_VDDBOARD, Next);
    (AMDSMI_VOLT_TYPE_LAST, Ref AMDSMI_VOLT_TYPE_VDDBOARD);
    (AMDSMI_VOLT_TYPE_INVALID, Lit 4294967295) ].

#[global] Instance amdsmi_voltage_type_t_enum : CEnum amdsmi_voltage_type_t.
Proof. derive_enum amdsmi_voltage_type_t_decl. Defined.

(** [amdsmi_power_profile_preset_masks_t], lines 1656-1670: Pre-set Profile
    Selections. These bitmasks can be AND'd with the
    amdsmi_power_profile_status_t.available_profiles returned from
    amdsmi_get_gpu_power_profile_presets to determine which power profiles
    are supported by the system. *)
Inductive amdsmi_power_profile_preset_masks_t : Set :=
  | AMDSMI_PWR_PROF_PRST_CUSTOM_MASK
  | AMDSMI_PWR_PROF_PRST_VIDEO_MASK
  | AMDSMI_PWR_PROF_PRST_POWER_SAVING_MASK
  | AMDSMI_PWR_PROF_PRST_COMPUTE_MASK
  | AMDSMI_PWR_PROF_PRST_VR_MASK
  | AMDSMI_PWR_PROF_PRST_3D_FULL_SCR_MASK
  | AMDSMI_PWR_PROF_PRST_BOOTUP_DEFAULT
  | AMDSMI_PWR_PROF_PRST_LAST
  | AMDSMI_PWR_PROF_PRST_INVALID.

Definition amdsmi_power_profile_preset_masks_t_decl : list (amdsmi_power_profile_preset_masks_t * einit amdsmi_power_profile_preset_masks_t) :=
  [ (AMDSMI_PWR_PROF_PRST_CUSTOM_MASK, Lit 1);
    (AMDSMI_PWR_PROF_PRST_VIDEO_MASK, Lit 2);
    (AMDSMI_PWR_PROF_PRST_POWER_SAVING_MASK, Lit 4);
    (AMDSMI_PWR_PROF_PRST_COMPUTE_MASK, Lit 8);
    (AMDSMI_PWR_PROF_PRST_VR_MASK, Lit 16);
    (AMDSMI_PWR_PROF_PRST_3D_FULL_SCR_MASK, Lit 32);
    (AMDSMI_PWR_PROF_PRST_BOOTUP_DEFAULT, Lit 64);
    (AMDSMI_PWR_PROF_PRST_LAST, Ref AMDSMI_PWR_PROF_PRST_BOOTUP_DEFAULT);
    (AMDSMI_PWR_PROF_PRST_INVALID, Lit 18446744073709551615) ].

#[global] Instance amdsmi_power_profile_preset_masks_t_enum : CEnum amdsmi_power_profile_preset_masks_t.
Proof. derive_enum amdsmi_power_profile_preset_masks_t_decl. Defined.

(** [amdsmi_gpu_block_t], lines 1677-1701: This enum is used to identify
    different GPU blocks. *)
Inductive amdsmi_gpu_block_t : Set :=
  | AMDSMI_GPU_BLOCK_INVALID
  | AMDSMI_GPU_BLOCK_FIRST
  | AMDSMI_GPU_BLOCK_UMC
  | AMDSMI_GPU_BLOCK_SDMA
  | AMDSMI_GPU_BLOCK_GFX
  | AMDSMI_GPU_BLOCK_MMHUB
  | AMDSMI_GPU_BLOCK_ATHUB
  | AMDSMI_GPU_BLOCK_PCIE_BIF
  | AMDSMI_GPU_BLOCK_HDP
  | AMDSMI_GPU_BLOCK_XGMI_WAFL
  | AMDSMI_GPU_BLOCK_DF
  | AMDSMI_GPU_BLOCK_SMN
  | AMDSMI_GPU_BLOCK_SEM
  | AMDSMI_GPU_BLOCK_MP0
  | AMDSMI_GPU_BLOCK_MP1
  | AMDSMI_GPU_BLOCK_FUSE
  | AMDSMI_GPU_BLOCK_MCA
  | AMDSMI_GPU_BLOCK_VCN
  | AMDSMI_GPU_BLOCK_JPEG
  | AMDSMI_GPU_BLOCK_IH
  | AMDSMI_GPU_BLOCK_MPIO
  | AMDSMI_GPU_BLOCK_LAST
  | AMDSMI_GPU_BLOCK_RESERVED.

Definition amdsmi_gpu_block_t_decl : list (amdsmi_gpu_block_t * einit amdsmi_gpu_block_t) :=
  [ (AMDSMI_GPU_BLOCK_INVALID, Lit 0);
    (AMDSMI_GPU_BLOCK_FIRST, Shl 1 0);
    (AMDSMI_GPU_BLOCK_UMC, Ref AMDSMI_GPU_BLOCK_FIRST);
    (AMDSMI_GPU_BLOCK_SDMA, Shl 1 1);
    (AMDSMI_GPU_BLOCK_GFX, Shl 1 2);
    (AMDSMI_GPU_BLOCK_MMHUB, Shl 1 3);
    (AMDSMI_GPU_BLOCK_ATHUB, Shl 1 4);
    (AMDSMI_GPU_BLOCK_PCIE_BIF, Shl 1 5);
    (AMDSMI_GPU_BLOCK_HDP, Shl 1 6);
    (AMDSMI_GPU_BLOCK_XGMI_WAFL, Shl 1 7);
    (AMDSMI_GPU_BLOCK_DF, Shl 1 8);
    (AMDSMI_GPU_BLOCK_SMN, Shl 1 9);
    (AMDSMI_GPU_BLOCK_SEM, Shl 1 10);
    (AMDSMI_GPU_BLOCK_MP0, Shl 1 11);
    (AMDSMI_GPU_BLOCK_MP1, Shl 1 12);
    (AMDSMI_GPU_BLOCK_FUSE, Shl 1 13);
    (AMDSMI_GPU_BLOCK_MCA, Shl 1 14);
    (AMDSMI_GPU_BLOCK_VCN, Shl 1 15);
    (AMDSMI_GPU_BLOCK_JPEG, Shl 1 16);
    (AMDSMI_GPU_BLOCK_IH, Shl 1 17);
    (AMDSMI_GPU_BLOCK_MPIO, Shl 1 18);
    (AMDSMI_GPU_BLOCK_LAST, Ref AMDSMI_GPU_BLOCK_MPIO);
    (AMDSMI_GPU_BLOCK_RESERVED, Shl 1 63) ].

#[global] Instance amdsmi_gpu_block_t_enum : CEnum amdsmi_gpu_block_t.
Proof. derive_enum amdsmi_gpu_block_t_decl. Defined.

(** [amdsmi_clk_limit_type_t], lines 1708-1711: The clk limit type *)
Inductive amdsmi_clk_limit_type_t : Set :=
  | CLK_LIMIT_MIN
  | CLK_LIMIT_MAX.

Definition amdsmi_clk_limit_type_t_decl : list (amdsmi_clk_limit_type_t * einit amdsmi_clk_limit_type_t) :=
  [ (CLK_LIMIT_MIN, Next);
    (CLK_LIMIT_MAX, Next) ].

#[global] Instance amdsmi_clk_limit_type_t_enum : CEnum amdsmi_clk_limit_type_t.
Proof. derive_enum amdsmi_clk_limit_type_t_decl. Defined.

(** [amdsmi_cper_sev_t], lines 1718-1724: Cper sev *)
Inductive amdsmi_cper_sev_t : Set :=
  | AMDSMI_CPER_SEV_NON_FATAL_UNCORRECTED
  | AMDSMI_CPER_SEV_FATAL
  | AMDSMI_CPER_SEV_NON_FATAL_CORRECTED
  | AMDSMI_CPER_SEV_NUM
  | AMDSMI_CPER_SEV_UNUSED.

Definition amdsmi_cper_sev_t_decl : list (amdsmi_cper_sev_t * einit amdsmi_cper_sev_t) :=
  [ (AMDSMI_CPER_SEV_NON_FATAL_UNCORRECTED, Lit 0);
    (AMDSMI_CPER_SEV_FATAL, Lit 1);
    (AMDSMI_CPER_SEV_NON_FATAL_CORRECTED, Lit 2);
    (AMDSMI_CPER_SEV_NUM, Lit 3);
    (AMDSMI_CPER_SEV_UNUSED, Lit 10) ].

#[global] Instance amdsmi_cper_sev_t_enum : CEnum amdsmi_cper_sev_t.
Proof. derive_enum amdsmi_cper_sev_t_decl. Defined.

(** [amdsmi_cper_notify_type_t], lines 1731-1745: Cper notify *)
Inductive amdsmi_cper_notify_type_t : Set :=
  | AMDSMI_CPER_NOTIFY_TYPE_CMC
  | AMDSMI_CPER_NOTIFY_TYPE_CPE
  | AMDSMI_CPER_NOTIFY_TYPE_MCE
  | AMDSMI_CPER_NOTIFY_TYPE_PCIE
  | AMDSMI_CPER_NOTIFY_TYPE_INIT
  | AMDSMI_CPER_NOTIFY_TYPE_NMI
  | AMDSMI_CPER_NOTIFY_TYPE_BOOT
  | AMDSMI_CPER_NOTIFY_TYPE_DMAR
  | AMDSMI_CPER_NOTIFY_TYPE_SEA
  | AMDSMI_CPER_NOTIFY_TYPE_SEI
  | AMDSMI_CPER_NOTIFY_TYPE_PEI
  | AMDSMI_CPER_NOTIFY_TYPE_CXL_COMPONENT.

Definition amdsmi_cper_notify_type_t_decl : list (amdsmi_cper_notify_type_t * einit amdsmi_cper_notify_type_t) :=
  [ (AMDSMI_CPER_NOTIFY_TYPE_CMC, Lit 4976123370175105969);
    (AMDSMI_CPER_NOTIFY_TYPE_CPE, Lit 5356425115412803478);
    (AMDSMI_CPER_NOTIFY_TYPE_MCE, Lit 5531987820403847166);
    (AMDSMI_CPER_NOTIFY_TYPE_PCIE, Lit 5619395120325705759);
    (AMDSMI_CPER_NOTIFY_TYPE_INIT, Lit 4992964802890589160);
    (AMDSMI_CPER_NOTIFY_TYPE_NMI, Lit 4812579876830546431);
    (AMDSMI_CPER_NOTIFY_TYPE_BOOT, Lit 4655221457236894822);
    (AMDSMI_CPER_NOTIFY_TYPE_DMAR, Lit 5487573144795207569);
    (AMDSMI_CPER_NOTIFY_TYPE_SEA, Lit 1289362001033197706);
    (AMDSMI_CPER_NOTIFY_TYPE_SEI, Lit 5658685719731260545);
    (AMDSMI_CPER_NOTIFY_TYPE_PEI, Lit 4761520883332928940);
    (AMDSMI_CPER_NOTIFY_TYPE_CXL_COMPONENT, Lit 5306157213770398665) ].

#[global] Instance amdsmi_cper_notify_type_t_enum : CEnum amdsmi_cper_notify_type_t.
Proof. derive_enum amdsmi_cper_notify_type_t_decl. Defined.

(** [amdsmi_ras_err_state_t], lines 1777-1789: The current ECC state *)
Inductive amdsmi_ras_err_state_t : Set :=
  | AMDSMI_RAS_ERR_STATE_NONE
  | AMDSMI_RAS_ERR_STATE_DISABLED
  | AMDSMI_RAS_ERR_STATE_PARITY
  | AMDSMI_RAS_ERR_STATE_SING_C
  | AMDSMI_RAS_ERR_STATE_MULT_UC
  | AMDSMI_RAS_ERR_STATE_POISON
  | AMDSMI_RAS_ERR_STATE_ENABLED
  | AMDSMI_RAS_ERR_STATE_LAST
  | AMDSMI_RAS_ERR_STATE_INVALID.

Definition amdsmi_ras_err_state_t_decl : list (amdsmi_ras_err_state_t * einit amdsmi_ras_err_state_t) :=
  [ (AMDSMI_RAS_ERR_STATE_NONE, Lit 0);
    (AMDSMI_RAS_ERR_STATE_DISABLED, Next);
    (AMDSMI_RAS_ERR_STATE_PARITY, Next);
    (AMDSMI_RAS_ERR_STATE_SING_C, Next);
    (AMDSMI_RAS_ERR_STATE_MULT_UC, Next);
    (AMDSMI_RAS_ERR_STATE_POISON, Next);
    (AMDSMI_RAS_ERR_STATE_ENABLED, Next);
    (AMDSMI_RAS_ERR_STATE_LAST, Ref AMDSMI_RAS_ERR_STATE_ENABLED);
    (AMDSMI_RAS_ERR_STATE_INVALID, Lit 4294967295) ].

#[global] Instance amdsmi_ras_err_state_t_enum : CEnum amdsmi_ras_err_state_t.
Proof. derive_enum amdsmi_ras_err_state_t_decl. Defined.

(** [amdsmi_memory_type_t], lines 1798-1806: Types of memory *)
Inductive amdsmi_memory_type_t : Set :=
  | AMDSMI_MEM_TYPE_FIRST
  | AMDSMI_MEM_TYPE_VRAM
  | AMDSMI_MEM_TYPE_VIS_VRAM
  | AMDSMI_MEM_TYPE_GTT
  | AMDSMI_MEM_TYPE_LAST.

Definition amdsmi_memory_type_t_decl : list (amdsmi_memory_type_t * einit amdsmi_memory_type_t) :=
  [ (AMDSMI_MEM_TYPE_FIRST, Lit 0);
    (AMDSMI_MEM_TYPE_VRAM, Ref AMDSMI_MEM_TYPE_FIRST);
    (AMDSMI_MEM_TYPE_VIS_VRAM, Next);
    (AMDSMI_MEM_TYPE_GTT, Next);
    (AMDSMI_MEM_TYPE_LAST, Ref AMDSMI_MEM_TYPE_GTT) ].

#[global] Instance amdsmi_memory_type_t_enum : CEnum amdsmi_memory_type_t.
Proof. derive_enum amdsmi_memory_type_t_decl. Defined.

(** [amdsmi_freq_ind_t], lines 1813-1817: The values of this enum are used
    as frequency identifiers. *)
Inductive amdsmi_freq_ind_t : Set :=
  | AMDSMI_FREQ_IND_MIN
  | AMDSMI_FREQ_IND_MAX
  | AMDSMI_FREQ_IND_INVALID.

Definition amdsmi_freq_ind_t_decl : list (amdsmi_freq_ind_t * einit amdsmi_freq_ind_t) :=
  [ (AMDSMI_FREQ_IND_MIN, Lit 0);
    (AMDSMI_FREQ_IND_MAX, Lit 1);
    (AMDSMI_FREQ_IND_INVALID, Lit 4294967295) ].

#[global] Instance amdsmi_freq_ind_t_enum : CEnum amdsmi_freq_ind_t.
Proof. derive_enum amdsmi_freq_ind_t_decl. Defined.

(** [amdsmi_xgmi_status_t], lines 1824-1828: XGMI Status *)
Inductive amdsmi_xgmi_status_t : Set :=
  | AMDSMI_XGMI_STATUS_NO_ERRORS
  | AMDSMI_XGMI_STATUS_ERROR
  | AMDSMI_XGMI_STATUS_MULTIPLE_ERRORS.

Definition amdsmi_xgmi_status_t_decl : list (amdsmi_xgmi_status_t * einit amdsmi_xgmi_status_t) :=
  [ (AMDSMI_XGMI_STATUS_NO_ERRORS, Lit 0);
    (AMDSMI_XGMI_STATUS_ERROR, Next);
    (AMDSMI_XGMI_STATUS_MULTIPLE_ERRORS, Next) ].

#[global] Instance amdsmi_xgmi_status_t_enum : CEnum amdsmi_xgmi_status_t.
Proof. derive_enum amdsmi_xgmi_status_t_decl. Defined.

(** [amdsmi_memory_page_status_t], lines 1842-1848: Reserved Memory Page
    States *)
Inductive amdsmi_memory_page_status_t : Set :=
  | AMDSMI_MEM_PAGE_STATUS_RESERVED
  | AMDSMI_MEM_PAGE_STATUS_PENDING
  | AMDSMI_MEM_PAGE_STATUS_UNRESERVABLE.

Definition amdsmi_memory_page_status_t_decl : list (amdsmi_memory_page_status_t * einit amdsmi_memory_page_status_t) :=
  [ (AMDSMI_MEM_PAGE_STATUS_RESERVED, Lit 0);
    (AMDSMI_MEM_PAGE_STATUS_PENDING, Next);
    (AMDSMI_MEM_PAGE_STATUS_UNRESERVABLE, Next) ].

#[global] Instance amdsmi_memory_page_status_t_enum : CEnum amdsmi_memory_page_status_t.
Proof. derive_enum amdsmi_memory_page_status_t_decl. Defined.

(** [amdsmi_utilization_counter_type_t], lines 1855-1866: The utilization
    counter type *)
Inductive amdsmi_utilization_counter_type_t : Set :=
  | AMDSMI_UTILIZATION_COUNTER_FIRST
  | AMDSMI_COARSE_GRAIN_GFX_ACTIVITY
  | AMDSMI_COARSE_GRAIN_MEM_ACTIVITY
  | AMDSMI_COARSE_DECODER_ACTIVITY
  | AMDSMI_FINE_GRAIN_GFX_ACTIVITY
  | AMDSMI_FINE_GRAIN_MEM_ACTIVITY
  | AMDSMI_FINE_DECODER_ACTIVITY
  | AMDSMI_UTILIZATION_COUNTER_LAST.

Definition amdsmi_utilization_counter_type_t_decl : list (amdsmi_utilization_counter_type_t * einit amdsmi_utilization_counter_type_t) :=
  [ (AMDSMI_UTILIZATION_COUNTER_FIRST, Lit 0);
    (AMDSMI_COARSE_GRAIN_GFX_ACTIVITY, Ref AMDSMI_UTILIZATION_COUNTER_FIRST);
    (AMDSMI_COARSE_GRAIN_MEM_ACTIVITY, Next);
    (AMDSMI_COARSE_DECODER_ACTIVITY, Next);
    (AMDSMI_FINE_GRAIN_GFX_ACTIVITY, Lit 100);
    (AMDSMI_FINE_GRAIN_MEM_ACTIVITY, Lit 101);
    (AMDSMI_FINE_DECODER_ACTIVITY, Lit 102);
    (AMDSMI_UTILIZATION_COUNTER_LAST, Ref AMDSMI_FINE_DECODER_ACTIVITY) ].

#[global] Instance amdsmi_utilization_counter_type_t_enum : CEnum amdsmi_utilization_counter_type_t.
Proof. derive_enum amdsmi_utilization_counter_type_t_decl. Defined.

(** [amdsmi_xgmi_link_status_type_t], lines 2463-2467: XGMI Link Status Type
    *)
Inductive amdsmi_xgmi_link_status_type_t : Set :=
  | AMDSMI_XGMI_LINK_DOWN
  | AMDSMI_XGMI_LINK_UP
  | AMDSMI_XGMI_LINK_DISABLE.

Definition amdsmi_xgmi_link_status_type_t_decl : list (amdsmi_xgmi_link_status_type_t * einit amdsmi_xgmi_link_status_type_t) :=
  [ (AMDSMI_XGMI_LINK_DOWN, Next);
    (AMDSMI_XGMI_LINK_UP, Next);
    (AMDSMI_XGMI_LINK_DISABLE, Next) ].

#[global] Instance amdsmi_xgmi_link_status_type_t_enum : CEnum amdsmi_xgmi_link_status_type_t.
Proof. derive_enum amdsmi_xgmi_link_status_type_t_decl. Defined.

(** [amdsmi_reg_type_t], lines 2495-2501: This register type for register
    table *)
Inductive amdsmi_reg_type_t : Set :=
  | AMDSMI_REG_XGMI
  | AMDSMI_REG_WAFL
  | AMDSMI_REG_PCIE
  | AMDSMI_REG_USR
  | AMDSMI_REG_USR1.

Definition amdsmi_reg_type_t_decl : list (amdsmi_reg_type_t * einit amdsmi_reg_type_t) :=
  [ (AMDSMI_REG_XGMI, Next);
    (AMDSMI_REG_WAFL, Next);
    (AMDSMI_REG_PCIE, Next);
    (AMDSMI_REG_USR, Next);
    (AMDSMI_REG_USR1, Next) ].

#[global] Instance amdsmi_reg_type_t_enum : CEnum amdsmi_reg_type_t.
Proof. derive_enum amdsmi_reg_type_t_decl. Defined.

(** [amdsmi_virtualization_mode_t], lines 2568-2574: Variant placeholder *)
Inductive amdsmi_virtualization_mode_t : Set :=
  | AMDSMI_VIRTUALIZATION_MODE_UNKNOWN
  | AMDSMI_VIRTUALIZATION_MODE_BAREMETAL
  | AMDSMI_VIRTUALIZATION_MODE_HOST
  | AMDSMI_VIRTUALIZATION_MODE_GUEST
  | AMDSMI_VIRTUALIZATION_MODE_PASSTHROUGH.

Definition amdsmi_virtualization_mode_t_decl : list (amdsmi_virtualization_mode_t * einit amdsmi_virtualization_mode_t) :=
  [ (AMDSMI_VIRTUALIZATION_MODE_UNKNOWN, Lit 0);
    (AMDSMI_VIRTUALIZATION_MODE_BAREMETAL, Next);
    (AMDSMI_VIRTUALIZATION_MODE_HOST, Next);
    (AMDSMI_VIRTUALIZATION_MODE_GUEST, Next);
    (AMDSMI_VIRTUALIZATION_MODE_PASSTHROUGH, Next) ].

#[global] Instance amdsmi_virtualization_mode_t_enum : CEnum amdsmi_virtualization_mode_t.
Proof. derive_enum amdsmi_virtualization_mode_t_decl. Defined.

(** [amdsmi_affinity_scope_t], lines 2581-2584: Scope for Numa affinity or
    Socket affinity *)
Inductive amdsmi_affinity_scope_t : Set :=
  | AMDSMI_AFFINITY_SCOPE_NODE
  | AMDSMI_AFFINITY_SCOPE_SOCKET.

Definition amdsmi_affinity_scope_t_decl : list (amdsmi_affinity_scope_t * einit amdsmi_affinity_scope_t) :=
  [ (AMDSMI_AFFINITY_SCOPE_NODE, Next);
    (AMDSMI_AFFINITY_SCOPE_SOCKET, Next) ].

#[global] Instance amdsmi_affinity_scope_t_enum : CEnum amdsmi_affinity_scope_t.
Proof. derive_enum amdsmi_affinity_scope_t_decl. Defined.

(** [amdsmi_npm_status_t], lines 2591-2594: NPM status *)
Inductive amdsmi_npm_status_t : Set :=
  | AMDSMI_NPM_STATUS_DISABLED
  | AMDSMI_NPM_STATUS_ENABLED.

Definition amdsmi_npm_status_t_decl : list (amdsmi_npm_status_t * einit amdsmi_npm_status_t) :=
  [ (AMDSMI_NPM_STATUS_DISABLED, Next);
    (AMDSMI_NPM_STATUS_ENABLED, Next) ].

#[global] Instance amdsmi_npm_status_t_enum : CEnum amdsmi_npm_status_t.
Proof. derive_enum amdsmi_npm_status_t_decl. Defined.

(** [amdsmi_ptl_data_format_t], lines 2616-2625: PTL (Peak Tops Limiter)
    data format types These correspond to the hardware data types used in
    matrix operations. Only F8 and XF32 are always supported at full
    performance. From the remaining five types, only two can be supported at
    peak performance simultaneously. *)
Inductive amdsmi_ptl_data_format_t : Set :=
  | AMDSMI_PTL_DATA_FORMAT_I8
  | AMDSMI_PTL_DATA_FORMAT_F16
  | AMDSMI_PTL_DATA_FORMAT_BF16
  | AMDSMI_PTL_DATA_FORMAT_F32
  | AMDSMI_PTL_DATA_FORMAT_F64
  | AMDSMI_PTL_DATA_FORMAT_F8
  | AMDSMI_PTL_DATA_FORMAT_VECTOR
  | AMDSMI_PTL_DATA_FORMAT_INVALID.

Definition amdsmi_ptl_data_format_t_decl : list (amdsmi_ptl_data_format_t * einit amdsmi_ptl_data_format_t) :=
  [ (AMDSMI_PTL_DATA_FORMAT_I8, Lit 0);
    (AMDSMI_PTL_DATA_FORMAT_F16, Lit 1);
    (AMDSMI_PTL_DATA_FORMAT_BF16, Lit 2);
    (AMDSMI_PTL_DATA_FORMAT_F32, Lit 3);
    (AMDSMI_PTL_DATA_FORMAT_F64, Lit 4);
    (AMDSMI_PTL_DATA_FORMAT_F8, Lit 5);
    (AMDSMI_PTL_DATA_FORMAT_VECTOR, Lit 6);
    (AMDSMI_PTL_DATA_FORMAT_INVALID, Lit 4294967295) ].

#[global] Instance amdsmi_ptl_data_format_t_enum : CEnum amdsmi_ptl_data_format_t.
Proof. derive_enum amdsmi_ptl_data_format_t_decl. Defined.

(** [amdsmi_io_bw_encoding_t], lines 2690-2694: xGMI Bandwidth Encoding
    types *)
Inductive amdsmi_io_bw_encoding_t : Set :=
  | AGG_BW0
  | RD_BW0
  | WR_BW0.

Definition amdsmi_io_bw_encoding_t_decl : list (amdsmi_io_bw_encoding_t * einit amdsmi_io_bw_encoding_t) :=
  [ (AGG_BW0, Lit 1);
    (RD_BW0, Lit 2);
    (WR_BW0, Lit 4) ].

#[global] Instance amdsmi_io_bw_encoding_t_enum : CEnum amdsmi_io_bw_encoding_t.
Proof. derive_enum amdsmi_io_bw_encoding_t_decl. Defined.

(** [amdsmi_nic_link_type_t], lines 2877-2884: NIC Link Types. This enum is
    used to identify the link type between NIC and GPU processors based on
    their PCIe and NUMA connectivity. *)
Inductive amdsmi_nic_link_type_t : Set :=
  | AMDSMI_NIC_LINK_TYPE_UNKNOWN
  | AMDSMI_NIC_LINK_TYPE_PCIE
  | AMDSMI_NIC_LINK_TYPE_NUMA
  | AMDSMI_NIC_LINK_TYPE_X_NUMA.

Definition amdsmi_nic_link_type_t_decl : list (amdsmi_nic_link_type_t * einit amdsmi_nic_link_type_t) :=
  [ (AMDSMI_NIC_LINK_TYPE_UNKNOWN, Next);
    (AMDSMI_NIC_LINK_TYPE_PCIE, Next);
    (AMDSMI_NIC_LINK_TYPE_NUMA, Next);
    (AMDSMI_NIC_LINK_TYPE_X_NUMA, Next) ].

#[global] Instance amdsmi_nic_link_type_t_enum : CEnum amdsmi_nic_link_type_t.
Proof. derive_enum amdsmi_nic_link_type_t_decl. Defined.

End Smi.
