(* ===== verification/SmiTypes.v ===== *)
(** The structures and unions of
    [src/assets/amd_smi_lib/x86_64/UBUNTU22/lib/amdsmi.h] as C types of
    [CAbi], member by member and in declaration order.  An anonymous member
    has the empty name.  The structures between [#pragma pack(push, 1)] and
    [#pragma pack(pop)], and the one with [__attribute__((__packed__))], are
    packed. *)

From S2P Require Import Prelude CAbi CEnum SmiEnums.
Local Open Scope Z_scope.
Import SmiEnums.Smi.

Module SmiT.

Definition amdsmi_processor_handle : cty := TPtr.

Definition amdsmi_socket_handle : cty := TPtr.

Definition amdsmi_node_handle : cty := TPtr.

Definition amdsmi_cpusocket_handle : cty := TPtr.

(** [amdsmi_hsmp_driver_version_t], lines 318-321: This structure holds HSMP
    Driver version information. *)
Definition amdsmi_hsmp_driver_version_t : cty :=
  TStruct false
    [ fld "major" uint32_t;
      fld "minor" uint32_t ].

Definition processor_type_t : cty := TEnum (enum_values amdsmi_processor_type_t).

(** [amdsmi_range_t], lines 769-773: This structure represents a range
    (e.g., frequencies or voltages). *)
Definition amdsmi_range_t : cty :=
  TStruct false
    [ fld "lower_bound" uint64_t;
      fld "upper_bound" uint64_t;
      fld "reserved" (TArr uint64_t 2) ].

(** [amdsmi_xgmi_info_t], lines 780-786: XGMI Information *)
Definition amdsmi_xgmi_info_t : cty :=
  TStruct false
    [ fld "xgmi_lanes" uint8_t;
      fld "xgmi_hive_id" uint64_t;
      fld "xgmi_node_id" uint64_t;
      fld "index" uint32_t;
      fld "reserved" (TArr uint32_t 9) ].

(** [amdsmi_vram_usage_t], lines 793-797: VRam Usage *)
Definition amdsmi_vram_usage_t : cty :=
  TStruct false
    [ fld "vram_total" uint32_t;
      fld "vram_used" uint32_t;
      fld "reserved" (TArr uint32_t 2) ].

(** [amdsmi_violation_status_t], lines 805-918: This structure hold
    violation status information. Note: for MI3x asics and higher, older
    ASICs will show unsupported. *)
Definition amdsmi_violation_status_t : cty :=
  TStruct false
    [ fld "reference_timestamp" uint64_t;
      fld "violation_timestamp" uint64_t;
      fld "acc_counter" uint64_t;
      fld "acc_prochot_thrm" uint64_t;
      fld "acc_ppt_pwr" uint64_t;
      fld "acc_socket_thrm" uint64_t;
      fld "acc_vr_thrm" uint64_t;
      fld "acc_hbm_thrm" uint64_t;
      fld "acc_gfx_clk_below_host_limit" uint64_t;
      fld "per_prochot_thrm" uint64_t;
      fld "per_ppt_pwr" uint64_t;
      fld "per_socket_thrm" uint64_t;
      fld "per_vr_thrm" uint64_t;
      fld "per_hbm_thrm" uint64_t;
      fld "per_gfx_clk_below_host_limit" uint64_t;
      fld "active_prochot_thrm" uint8_t;
      fld "active_ppt_pwr" uint8_t;
      fld "active_socket_thrm" uint8_t;
      fld "active_vr_thrm" uint8_t;
      fld "active_hbm_thrm" uint8_t;
      fld "active_gfx_clk_below_host_limit" uint8_t;
      fld "acc_gfx_clk_below_host_limit_pwr" (TArr (TArr uint64_t AMDSMI_MAX_NUM_XCC) AMDSMI_MAX_NUM_XCP);
      fld "acc_gfx_clk_below_host_limit_thm" (TArr (TArr uint64_t AMDSMI_MAX_NUM_XCC) AMDSMI_MAX_NUM_XCP);
      fld "acc_low_utilization" (TArr (TArr uint64_t AMDSMI_MAX_NUM_XCC) AMDSMI_MAX_NUM_XCP);
      fld "acc_gfx_clk_below_host_limit_total" (TArr (TArr uint64_t AMDSMI_MAX_NUM_XCC) AMDSMI_MAX_NUM_XCP);
      fld "per_gfx_clk_below_host_limit_pwr" (TArr (TArr uint64_t AMDSMI_MAX_NUM_XCC) AMDSMI_MAX_NUM_XCP);
      fld "per_gfx_clk_below_host_limit_thm" (TArr (TArr uint64_t AMDSMI_MAX_NUM_XCC) AMDSMI_MAX_NUM_XCP);
      fld "per_low_utilization" (TArr (TArr uint64_t AMDSMI_MAX_NUM_XCC) AMDSMI_MAX_NUM_XCP);
      fld "per_gfx_clk_below_host_limit_total" (TArr (TArr uint64_t AMDSMI_MAX_NUM_XCC) AMDSMI_MAX_NUM_XCP);
      fld "active_gfx_clk_below_host_limit_pwr" (TArr (TArr uint8_t AMDSMI_MAX_NUM_XCC) AMDSMI_MAX_NUM_XCP);
      fld "active_gfx_clk_below_host_limit_thm" (TArr (TArr uint8_t AMDSMI_MAX_NUM_XCC) AMDSMI_MAX_NUM_XCP);
      fld "active_low_utilization" (TArr (TArr uint8_t AMDSMI_MAX_NUM_XCC) AMDSMI_MAX_NUM_XCP);
      fld "active_gfx_clk_below_host_limit_total" (TArr (TArr uint8_t AMDSMI_MAX_NUM_XCC) AMDSMI_MAX_NUM_XCP);
      fld "reserved" (TArr (TArr uint64_t AMDSMI_MAX_NUM_XCC) AMDSMI_MAX_NUM_XCP);
      fld "reserved2" (TArr (TArr uint64_t AMDSMI_MAX_NUM_XCC) AMDSMI_MAX_NUM_XCP);
      fld "reserved3" (TArr (TArr uint64_t AMDSMI_MAX_NUM_XCC) AMDSMI_MAX_NUM_XCP) ].

(** [amdsmi_frequency_range_t], lines 925-929: Frequency Range *)
Definition amdsmi_frequency_range_t : cty :=
  TStruct false
    [ fld "supported_freq_range" amdsmi_range_t;
      fld "current_freq_range" amdsmi_range_t;
      fld "reserved" (TArr uint32_t 8) ].

(** [amdsmi_bdf_t], lines 936-950: bdf types *)
Definition amdsmi_bdf_t : cty :=
  TUnion false
    [ fld "bdf" (TStruct false
      [ bfld "function_number" uint64_t 3;
        bfld "device_number" uint64_t 5;
        bfld "bus_number" uint64_t 8;
        bfld "domain_number" uint64_t 48 ]);
      fld "" (TStruct false
      [ bfld "function_number" uint64_t 3;
        bfld "device_number" uint64_t 5;
        bfld "bus_number" uint64_t 8;
        bfld "domain_number" uint64_t 48 ]);
      fld "as_uint" uint64_t ].

(** [amdsmi_enumeration_info_t], lines 957-964: Structure holds enumeration
    information *)
Definition amdsmi_enumeration_info_t : cty :=
  TStruct false
    [ fld "drm_render" uint32_t;
      fld "drm_card" uint32_t;
      fld "hsa_id" uint32_t;
      fld "hip_id" uint32_t;
      fld "hip_uuid" (TArr char_t AMDSMI_MAX_STRING_LENGTH);
      fld "oam_id" uint32_t ].

(** [amdsmi_pcie_info_t], lines 983-1008: pcie information *)
Definition amdsmi_pcie_info_t : cty :=
  TStruct false
    [ fld "pcie_static" (TStruct false
      [ fld "max_pcie_width" uint16_t;
        fld "max_pcie_speed" uint32_t;
        fld "pcie_interface_version" uint32_t;
        fld "slot_type" (TEnum (enum_values amdsmi_card_form_factor_t));
        fld "max_pcie_interface_version" uint32_t;
        fld "reserved" (TArr uint64_t 9) ]);
      fld "pcie_metric" (TStruct false
      [ fld "pcie_width" uint16_t;
        fld "pcie_speed" uint32_t;
        fld "pcie_bandwidth" uint32_t;
        fld "pcie_replay_count" uint64_t;
        fld "pcie_l0_to_recovery_count" uint64_t;
        fld "pcie_replay_roll_over_count" uint64_t;
        fld "pcie_nak_sent_count" uint64_t;
        fld "pcie_nak_received_count" uint64_t;
        fld "pcie_lc_perf_other_end_recovery_count" uint32_t;
        fld "reserved" (TArr uint64_t 12) ]);
      fld "reserved" (TArr uint64_t 32) ].

(** [amdsmi_power_cap_info_t], lines 1015-1022: Power Cap Information *)
Definition amdsmi_power_cap_info_t : cty :=
  TStruct false
    [ fld "power_cap" uint64_t;
      fld "default_power_cap" uint64_t;
      fld "dpm_cap" uint64_t;
      fld "min_power_cap" uint64_t;
      fld "max_power_cap" uint64_t;
      fld "reserved" (TArr uint64_t 3) ].

(** [amdsmi_vbios_info_t], lines 1039-1046: VBios Information *)
Definition amdsmi_vbios_info_t : cty :=
  TStruct false
    [ fld "name" (TArr char_t AMDSMI_MAX_STRING_LENGTH);
      fld "build_date" (TArr char_t AMDSMI_MAX_STRING_LENGTH);
      fld "part_number" (TArr char_t AMDSMI_MAX_STRING_LENGTH);
      fld "version" (TArr char_t AMDSMI_MAX_STRING_LENGTH);
      fld "boot_firmware" (TArr char_t AMDSMI_MAX_STRING_LENGTH);
      fld "reserved" (TArr uint64_t 36) ].

(** [amdsmi_gpu_cache_info_t], lines 1066-1077: GPU Cache Information *)
Definition amdsmi_gpu_cache_info_t : cty :=
  TStruct false
    [ fld "num_cache_types" uint32_t;
      fld "cache" (TArr (TStruct false
      [ fld "cache_properties" uint32_t;
        fld "cache_size" uint32_t;
        fld "cache_level" uint32_t;
        fld "max_num_cu_shared" uint32_t;
        fld "num_cache_instance" uint32_t;
        fld "reserved" (TArr uint32_t 3) ]) AMDSMI_MAX_CACHE_TYPES);
      fld "reserved" (TArr uint32_t 15) ].

(** [amdsmi_fw_info_t], lines 1084-1092: Firmware Information *)
Definition amdsmi_fw_info_t : cty :=
  TStruct false
    [ fld "num_fw_info" uint8_t;
      fld "fw_info_list" (TArr (TStruct false
      [ fld "fw_id" (TEnum (enum_values amdsmi_fw_block_t));
        fld "fw_version" uint64_t;
        fld "reserved" (TArr uint64_t 2) ]) (enum_val AMDSMI_FW_ID__MAX));
      fld "reserved" (TArr uint32_t 7) ].

(** [amdsmi_asic_info_t], lines 1099-1114: ASIC Information *)
Definition amdsmi_asic_info_t : cty :=
  TStruct false
    [ fld "market_name" (TArr char_t AMDSMI_MAX_STRING_LENGTH);
      fld "vendor_id" uint32_t;
      fld "vendor_name" (TArr char_t AMDSMI_MAX_STRING_LENGTH);
      fld "subvendor_id" uint32_t;
      fld "device_id" uint64_t;
      fld "rev_id" uint32_t;
      fld "asic_serial" (TArr char_t AMDSMI_MAX_STRING_LENGTH);
      fld "oam_id" uint32_t;
      fld "num_of_compute_units" uint32_t;
      fld "target_graphics_version" uint64_t;
      fld "subsystem_id" uint32_t;
      fld "flags" uint64_t;
      fld "reserved" (TArr uint32_t 18) ].

(** [amdsmi_kfd_info_t], lines 1121-1126: Structure holds kfd information *)
Definition amdsmi_kfd_info_t : cty :=
  TStruct false
    [ fld "kfd_id" uint64_t;
      fld "node_id" uint32_t;
      fld "current_partition_id" uint32_t;
      fld "reserved" (TArr uint32_t 12) ].

(** [amdsmi_nps_caps_t], lines 1133-1142: This union holds memory partition
    bitmask. *)
Definition amdsmi_nps_caps_t : cty :=
  TUnion false
    [ fld "nps_flags" (TStruct false
      [ bfld "nps1_cap" uint32_t 1;
        bfld "nps2_cap" uint32_t 1;
        bfld "nps4_cap" uint32_t 1;
        bfld "nps8_cap" uint32_t 1;
        bfld "reserved" uint32_t 28 ]);
      fld "nps_cap_mask" uint32_t ].

(** [amdsmi_memory_partition_config_t], lines 1150-1160: Memory Partition
    Configuration. This structure is used to identify various memory
    partition configurations. *)
Definition amdsmi_memory_partition_config_t : cty :=
  TStruct false
    [ fld "partition_caps" amdsmi_nps_caps_t;
      fld "mp_mode" (TEnum (enum_values amdsmi_memory_partition_type_t));
      fld "num_numa_ranges" uint32_t;
      fld "numa_range" (TArr (TStruct false
      [ fld "memory_type" (TEnum (enum_values amdsmi_vram_type_t));
        fld "start" uint64_t;
        fld "end" uint64_t ]) AMDSMI_MAX_NUM_NUMA_NODES);
      fld "reserved" (TArr uint64_t 11) ].

(** [amdsmi_accelerator_partition_profile_t], lines 1167-1176: Accelerator
    Partition Resource Profile *)
Definition amdsmi_accelerator_partition_profile_t : cty :=
  TStruct false
    [ fld "profile_type" (TEnum (enum_values amdsmi_accelerator_partition_type_t));
      fld "num_partitions" uint32_t;
      fld "memory_caps" amdsmi_nps_caps_t;
      fld "profile_index" uint32_t;
      fld "num_resources" uint32_t;
      fld "resources" (TArr (TArr uint32_t AMDSMI_MAX_CP_PROFILE_RESOURCES) AMDSMI_MAX_ACCELERATOR_PARTITIONS);
      fld "reserved" (TArr uint64_t 13) ].

(** [amdsmi_accelerator_partition_resource_profile_t], lines 1184-1190:
    Accelerator Partition Resources. This struct is used to identify various
    partition resource profiles. *)
Definition amdsmi_accelerator_partition_resource_profile_t : cty :=
  TStruct false
    [ fld "profile_index" uint32_t;
      fld "resource_type" (TEnum (enum_values amdsmi_accelerator_partition_resource_type_t));
      fld "partition_resource" uint32_t;
      fld "num_partitions_share_resource" uint32_t;
      fld "reserved" (TArr uint64_t 6) ].

(** [amdsmi_accelerator_partition_profile_config_t], lines 1197-1205:
    Accelerator Partition Profile Configurations *)
Definition amdsmi_accelerator_partition_profile_config_t : cty :=
  TStruct false
    [ fld "num_profiles" uint32_t;
      fld "num_resource_profiles" uint32_t;
      fld "resource_profiles" (TArr amdsmi_accelerator_partition_resource_profile_t AMDSMI_MAX_CP_PROFILE_RESOURCES);
      fld "default_profile_index" uint32_t;
      fld "profiles" (TArr amdsmi_accelerator_partition_profile_t AMDSMI_MAX_ACCELERATOR_PROFILE);
      fld "reserved" (TArr uint64_t 30) ].

(** [amdsmi_cpu_util_t], lines 1225-1231: This structure holds CPU
    utilization information. *)
Definition amdsmi_cpu_util_t : cty :=
  TStruct false
    [ fld "cpu_util_total" uint32_t;
      fld "cpu_util_user" uint32_t;
      fld "cpu_util_nice" uint32_t;
      fld "cpu_util_sys" uint32_t;
      fld "cpu_util_irq" uint32_t ].

(** [amdsmi_link_metrics_t], lines 1250-1263: Link Metrics *)
Definition amdsmi_link_metrics_t : cty :=
  TStruct false
    [ fld "num_links" uint32_t;
      fld "links" (TArr (TStruct false
      [ fld "bdf" amdsmi_bdf_t;
        fld "bit_rate" uint32_t;
        fld "max_bandwidth" uint32_t;
        fld "link_type" (TEnum (enum_values amdsmi_link_type_t));
        fld "read" uint64_t;
        fld "write" uint64_t;
        fld "link_status" (TEnum (enum_values amdsmi_link_status_t));
        fld "reserved" (TArr uint64_t 1) ]) AMDSMI_MAX_NUM_XGMI_PHYSICAL_LINK);
      fld "reserved" (TArr uint64_t 7) ].

(** [amdsmi_vram_info_t], lines 1270-1277: VRam Information *)
Definition amdsmi_vram_info_t : cty :=
  TStruct false
    [ fld "vram_type" (TEnum (enum_values amdsmi_vram_type_t));
      fld "vram_vendor" (TArr char_t AMDSMI_MAX_STRING_LENGTH);
      fld "vram_size" uint64_t;
      fld "vram_bit_width" uint32_t;
      fld "vram_max_bandwidth" uint64_t;
      fld "reserved" (TArr uint64_t 37) ].

(** [amdsmi_driver_info_t], lines 1284-1288: Driver Information *)
Definition amdsmi_driver_info_t : cty :=
  TStruct false
    [ fld "driver_version" (TArr char_t AMDSMI_MAX_STRING_LENGTH);
      fld "driver_date" (TArr char_t AMDSMI_MAX_STRING_LENGTH);
      fld "driver_name" (TArr char_t AMDSMI_MAX_STRING_LENGTH) ].

(** [amdsmi_board_info_t], lines 1295-1302: Board Information *)
Definition amdsmi_board_info_t : cty :=
  TStruct false
    [ fld "model_number" (TArr char_t AMDSMI_MAX_STRING_LENGTH);
      fld "product_serial" (TArr char_t AMDSMI_MAX_STRING_LENGTH);
      fld "fru_id" (TArr char_t AMDSMI_MAX_STRING_LENGTH);
      fld "product_name" (TArr char_t AMDSMI_MAX_STRING_LENGTH);
      fld "manufacturer_name" (TArr char_t AMDSMI_MAX_STRING_LENGTH);
      fld "reserved" (TArr uint64_t 64) ].

(** [amdsmi_power_info_t], lines 1311-1323: Power Information *)
Definition amdsmi_power_info_t : cty :=
  TStruct false
    [ fld "socket_power" uint64_t;
      fld "current_socket_power" uint32_t;
      fld "average_socket_power" uint32_t;
      fld "gfx_voltage" uint64_t;
      fld "soc_voltage" uint64_t;
      fld "mem_voltage" uint64_t;
      fld "power_limit" uint32_t;
      fld "ubb_power" uint32_t;
      fld "reserved" (TArr uint64_t 18) ].

(** [amdsmi_clk_info_t], lines 1330-1337: Clock Information *)
Definition amdsmi_clk_info_t : cty :=
  TStruct false
    [ fld "clk" uint32_t;
      fld "min_clk" uint32_t;
      fld "max_clk" uint32_t;
      fld "clk_locked" uint8_t;
      fld "clk_deep_sleep" uint8_t;
      fld "reserved" (TArr uint32_t 4) ].

(** [amdsmi_engine_usage_t], lines 1348-1353: Engine Usage
    amdsmi_engine_usage_t: This structure holds common GPU activity values
    seen in both BM or SRIOV *)
Definition amdsmi_engine_usage_t : cty :=
  TStruct false
    [ fld "gfx_activity" uint32_t;
      fld "umc_activity" uint32_t;
      fld "mm_activity" uint32_t;
      fld "reserved" (TArr uint32_t 13) ].

Definition amdsmi_process_handle_t : cty := uint32_t.

(** [amdsmi_proc_info_t], lines 1367-1387: Process Information *)
Definition amdsmi_proc_info_t : cty :=
  TStruct false
    [ fld "name" (TArr char_t AMDSMI_MAX_STRING_LENGTH);
      fld "pid" amdsmi_process_handle_t;
      fld "mem" uint64_t;
      fld "engine_usage" (TStruct false
      [ fld "gfx" uint64_t;
        fld "enc" uint64_t;
        fld "reserved" (TArr uint32_t 12) ]);
      fld "memory_usage" (TStruct false
      [ fld "gtt_mem" uint64_t;
        fld "cpu_mem" uint64_t;
        fld "vram_mem" uint64_t;
        fld "reserved" (TArr uint32_t 10) ]);
      fld "container_name" (TArr char_t AMDSMI_MAX_STRING_LENGTH);
      fld "cu_occupancy" uint32_t;
      fld "evicted_time" uint32_t;
      fld "sdma_usage" uint64_t;
      fld "reserved" (TArr uint32_t 8) ].

(** [amdsmi_p2p_capability_t], lines 1394-1400: IO Link P2P Capability *)
Definition amdsmi_p2p_capability_t : cty :=
  TStruct false
    [ fld "is_iolink_coherent" uint8_t;
      fld "is_iolink_atomics_32bit" uint8_t;
      fld "is_iolink_atomics_64bit" uint8_t;
      fld "is_iolink_dma" uint8_t;
      fld "is_iolink_bi_directional" uint8_t ].

Definition amdsmi_event_handle_t : cty := uintptr_t.

(** [amdsmi_counter_value_t], lines 1527-1531: Counter value *)
Definition amdsmi_counter_value_t : cty :=
  TStruct false
    [ fld "value" uint64_t;
      fld "time_enabled" uint64_t;
      fld "time_running" uint64_t ].

(** [amdsmi_evt_notification_data_t], lines 1569-1573: Event notification
    data returned from event notification API *)
Definition amdsmi_evt_notification_data_t : cty :=
  TStruct false
    [ fld "processor_handle" amdsmi_processor_handle;
      fld "event" (TEnum (enum_values amdsmi_evt_notification_type_t));
      fld "message" (TArr char_t AMDSMI_MAX_STRING_LENGTH) ].

(** [amdsmi_gpu_ras_policy_v4_0_t], lines 1752-1755: Ras policy v4.0 *)
Definition amdsmi_gpu_ras_policy_v4_0_t : cty :=
  TStruct false
    [ fld "dram_non_critical_region_threshold" uint16_t;
      fld "dram_critical_region_threshold" uint16_t ].

(** [amdsmi_gpu_ras_policy_info_t], lines 1763-1770: Ras policy info
    structure for storing version and different ras policy version
    structures *)
Definition amdsmi_gpu_ras_policy_info_t : cty :=
  TStruct false
    [ fld "major_version" uint8_t;
      fld "minor_version" uint8_t;
      fld "policy_data" (TUnion false
      [ fld "v4_0" amdsmi_gpu_ras_policy_v4_0_t;
        fld "info" (TArr uint64_t 5) ]) ].

Definition amdsmi_bit_field_t : cty := uint64_t.

(** [amdsmi_utilization_counter_t], lines 1877-1882: The utilization counter
    data *)
Definition amdsmi_utilization_counter_t : cty :=
  TStruct false
    [ fld "type" (TEnum (enum_values amdsmi_utilization_counter_type_t));
      fld "value" uint64_t;
      fld "fine_value" (TArr uint64_t AMDSMI_MAX_UTILIZATION_VALUES);
      fld "fine_value_count" uint16_t ].

(** [amdsmi_retired_page_record_t], lines 1889-1893: Reserved Memory Page
    Record *)
Definition amdsmi_retired_page_record_t : cty :=
  TStruct false
    [ fld "page_address" uint64_t;
      fld "page_size" uint64_t;
      fld "status" (TEnum (enum_values amdsmi_memory_page_status_t)) ].

(** [amdsmi_power_profile_status_t], lines 1902-1906: This structure
    contains information about which power profiles are supported by the
    system for a given device, and which power profile is currently active.
    *)
Definition amdsmi_power_profile_status_t : cty :=
  TStruct false
    [ fld "available_profiles" amdsmi_bit_field_t;
      fld "current" (TEnum (enum_values amdsmi_power_profile_preset_masks_t));
      fld "num_profiles" uint32_t ].

(** [amdsmi_frequencies_t], lines 1913-1919: This structure holds
    information about clock frequencies. *)
Definition amdsmi_frequencies_t : cty :=
  TStruct false
    [ fld "has_deep_sleep" TBool;
      fld "num_supported" uint32_t;
      fld "current" uint32_t;
      fld "frequency" (TArr uint64_t AMDSMI_MAX_NUM_FREQUENCIES) ].

(** [amdsmi_dpm_policy_entry_t], lines 1926-1929: The dpm policy. *)
Definition amdsmi_dpm_policy_entry_t : cty :=
  TStruct false
    [ fld "policy_id" uint32_t;
      fld "policy_description" (TArr char_t AMDSMI_MAX_STRING_LENGTH) ].

(** [amdsmi_dpm_policy_t], lines 1940-1944: DPM Policy *)
Definition amdsmi_dpm_policy_t : cty :=
  TStruct false
    [ fld "num_supported" uint32_t;
      fld "current" uint32_t;
      fld "policies" (TArr amdsmi_dpm_policy_entry_t AMDSMI_MAX_NUM_PM_POLICIES) ].

(** [amdsmi_pcie_bandwidth_t], lines 1955-1958: This structure holds
    information about the possible PCIe bandwidths. Specifically, the
    possible transfer rates and their associated numbers of lanes are stored
    here. *)
Definition amdsmi_pcie_bandwidth_t : cty :=
  TStruct false
    [ fld "transfer_rate" amdsmi_frequencies_t;
      fld "lanes" (TArr uint32_t AMDSMI_MAX_NUM_FREQUENCIES) ].

(** [amdsmi_version_t], lines 1965-1970: This structure holds version
    information. *)
Definition amdsmi_version_t : cty :=
  TStruct false
    [ fld "major" uint32_t;
      fld "minor" uint32_t;
      fld "release" uint32_t;
      fld "build" TPtr ].

(** [amdsmi_od_vddc_point_t], lines 1977-1980: This structure represents a
    point on the frequency-voltage plane. *)
Definition amdsmi_od_vddc_point_t : cty :=
  TStruct false
    [ fld "frequency" uint64_t;
      fld "voltage" uint64_t ].

(** [amdsmi_freq_volt_region_t], lines 1989-1992: This structure holds 2
    amdsmi_range_t's, one for frequency and one for voltage. These 2 ranges
    indicate the range of possible values for the corresponding
    amdsmi_od_vddc_point_t. *)
Definition amdsmi_freq_volt_region_t : cty :=
  TStruct false
    [ fld "freq_range" amdsmi_range_t;
      fld "volt_range" amdsmi_range_t ].

(** [amdsmi_od_volt_curve_t], lines 2000-2003: OD Vold Curve
    AMDSMI_NUM_VOLTAGE_CURVE_POINTS number of amdsmi_od_vddc_point_t's *)
Definition amdsmi_od_volt_curve_t : cty :=
  TStruct false
    [ fld "vc_points" (TArr amdsmi_od_vddc_point_t AMDSMI_NUM_VOLTAGE_CURVE_POINTS) ].

(** [amdsmi_od_volt_freq_data_t], lines 2010-2019: This structure holds the
    frequency-voltage values for a device. *)
Definition amdsmi_od_volt_freq_data_t : cty :=
  TStruct false
    [ fld "curr_sclk_range" amdsmi_range_t;
      fld "curr_mclk_range" amdsmi_range_t;
      fld "curr_fclk_range" amdsmi_range_t;
      fld "sclk_freq_limits" amdsmi_range_t;
      fld "mclk_freq_limits" amdsmi_range_t;
      fld "fclk_freq_limits" amdsmi_range_t;
      fld "curve" amdsmi_od_volt_curve_t;
      fld "num_regions" uint32_t ].

(** [amd_metrics_table_header_t], lines 2028-2036: Structure holds the gpu
    metrics table header for a device *)
Definition amd_metrics_table_header_t : cty :=
  TStruct false
    [ fld "structure_size" uint16_t;
      fld "format_revision" uint8_t;
      fld "content_revision" uint8_t ].

(** [amdsmi_gpu_xcp_metrics_t], lines 2043-2073: The following structures
    hold the gpu statistics for a device. *)
Definition amdsmi_gpu_xcp_metrics_t : cty :=
  TStruct false
    [ fld "gfx_busy_inst" (TArr uint32_t AMDSMI_MAX_NUM_XCC);
      fld "jpeg_busy" (TArr uint16_t AMDSMI_MAX_NUM_JPEG_ENG_V1);
      fld "vcn_busy" (TArr uint16_t AMDSMI_MAX_NUM_VCN);
      fld "gfx_busy_acc" (TArr uint64_t AMDSMI_MAX_NUM_XCC);
      fld "gfx_below_host_limit_acc" (TArr uint64_t AMDSMI_MAX_NUM_XCC);
      fld "gfx_below_host_limit_ppt_acc" (TArr uint64_t AMDSMI_MAX_NUM_XCC);
      fld "gfx_below_host_limit_thm_acc" (TArr uint64_t AMDSMI_MAX_NUM_XCC);
      fld "gfx_low_utilization_acc" (TArr uint64_t AMDSMI_MAX_NUM_XCC);
      fld "gfx_below_host_limit_total_acc" (TArr uint64_t AMDSMI_MAX_NUM_XCC);
      fld "temperature_xcd" (TArr uint16_t AMDSMI_MAX_NUM_XCC) ].

(** [amdsmi_apu_metrics_t], lines 2101-2212: APU metrics auxiliary data. *)
Definition amdsmi_apu_metrics_t : cty :=
  TStruct false
    [ fld "temperature_gfx" uint16_t;
      fld "temperature_soc" uint16_t;
      fld "temperature_core" (TArr uint16_t AMDSMI_APU_MAX_CORES);
      fld "temperature_l3" (TArr uint16_t AMDSMI_APU_MAX_L3);
      fld "temperature_skin" uint16_t;
      fld "average_gfx_activity" uint16_t;
      fld "average_mm_activity" uint16_t;
      fld "average_vcn_activity" uint16_t;
      fld "average_ipu_activity" (TArr uint16_t AMDSMI_APU_MAX_IPU);
      fld "average_core_c0_activity" (TArr uint16_t AMDSMI_APU_MAX_CORES);
      fld "average_dram_reads" uint16_t;
      fld "average_dram_writes" uint16_t;
      fld "average_ipu_reads" uint16_t;
      fld "average_ipu_writes" uint16_t;
      fld "average_socket_power" uint32_t;
      fld "average_cpu_power" uint16_t;
      fld "average_soc_power" uint16_t;
      fld "average_gfx_power" uint32_t;
      fld "average_core_power" (TArr uint16_t AMDSMI_APU_MAX_CORES);
      fld "average_ipu_power" uint16_t;
      fld "average_apu_power" uint32_t;
      fld "average_dgpu_power" uint32_t;
      fld "average_all_core_power" uint32_t;
      fld "average_sys_power" uint16_t;
      fld "stapm_power_limit" uint16_t;
      fld "current_stapm_power_limit" uint16_t;
      fld "average_gfxclk_frequency" uint16_t;
      fld "average_socclk_frequency" uint16_t;
      fld "average_uclk_frequency" uint16_t;
      fld "average_fclk_frequency" uint16_t;
      fld "average_vclk_frequency" uint16_t;
      fld "average_dclk_frequency" uint16_t;
      fld "average_vpeclk_frequency" uint16_t;
      fld "average_ipuclk_frequency" uint16_t;
      fld "average_mpipu_frequency" uint16_t;
      fld "current_gfxclk" uint16_t;
      fld "current_socclk" uint16_t;
      fld "current_uclk" uint16_t;
      fld "current_fclk" uint16_t;
      fld "current_vclk" uint16_t;
      fld "current_dclk" uint16_t;
      fld "current_coreclk" (TArr uint16_t AMDSMI_APU_MAX_CORES);
      fld "current_l3clk" (TArr uint16_t AMDSMI_APU_MAX_L3);
      fld "current_core_maxfreq" uint16_t;
      fld "current_gfx_maxfreq" uint16_t;
      fld "throttle_status" uint32_t;
      fld "indep_throttle_status" uint64_t;
      fld "throttle_residency_prochot" uint32_t;
      fld "throttle_residency_spl" uint32_t;
      fld "throttle_residency_fppt" uint32_t;
      fld "throttle_residency_sppt" uint32_t;
      fld "throttle_residency_thm_core" uint32_t;
      fld "throttle_residency_thm_gfx" uint32_t;
      fld "throttle_residency_thm_soc" uint32_t;
      fld "fan_pwm" uint16_t;
      fld "average_temperature_gfx" uint16_t;
      fld "average_temperature_soc" uint16_t;
      fld "average_temperature_core" (TArr uint16_t AMDSMI_APU_MAX_CORES);
      fld "average_temperature_l3" (TArr uint16_t AMDSMI_APU_MAX_L3);
      fld "average_cpu_voltage" uint16_t;
      fld "average_soc_voltage" uint16_t;
      fld "average_gfx_voltage" uint16_t;
      fld "average_cpu_current" uint16_t;
      fld "average_soc_current" uint16_t;
      fld "average_gfx_current" uint16_t;
      fld "time_filter_alphavalue" uint32_t ].

(** [amdsmi_gpu_metrics_t], lines 2230-2456: Structure holds the gpu metrics
    values for a device *)
Definition amdsmi_gpu_metrics_t : cty :=
  TStruct false
    [ fld "common_header" amd_metrics_table_header_t;
      fld "temperature_edge" uint16_t;
      fld "temperature_hotspot" uint16_t;
      fld "temperature_mem" uint16_t;
      fld "temperature_vrgfx" uint16_t;
      fld "temperature_vrsoc" uint16_t;
      fld "temperature_vrmem" uint16_t;
      fld "average_gfx_activity" uint16_t;
      fld "average_umc_activity" uint16_t;
      fld "average_mm_activity" uint16_t;
      fld "average_socket_power" uint16_t;
      fld "energy_accumulator" uint64_t;
      fld "system_clock_counter" uint64_t;
      fld "average_gfxclk_frequency" uint16_t;
      fld "average_socclk_frequency" uint16_t;
      fld "average_uclk_frequency" uint16_t;
      fld "average_vclk0_frequency" uint16_t;
      fld "average_dclk0_frequency" uint16_t;
      fld "average_vclk1_frequency" uint16_t;
      fld "average_dclk1_frequency" uint16_t;
      fld "current_gfxclk" uint16_t;
      fld "current_socclk" uint16_t;
      fld "current_uclk" uint16_t;
      fld "current_vclk0" uint16_t;
      fld "current_dclk0" uint16_t;
      fld "current_vclk1" uint16_t;
      fld "current_dclk1" uint16_t;
      fld "throttle_status" uint32_t;
      fld "current_fan_speed" uint16_t;
      fld "pcie_link_width" uint16_t;
      fld "pcie_link_speed" uint16_t;
      fld "gfx_activity_acc" uint32_t;
      fld "mem_activity_acc" uint32_t;
      fld "temperature_hbm" (TArr uint16_t AMDSMI_NUM_HBM_INSTANCES);
      fld "firmware_timestamp" uint64_t;
      fld "voltage_soc" uint16_t;
      fld "voltage_gfx" uint16_t;
      fld "voltage_mem" uint16_t;
      fld "indep_throttle_status" uint64_t;
      fld "current_socket_power" uint16_t;
      fld "vcn_activity" (TArr uint16_t AMDSMI_MAX_NUM_VCN);
      fld "gfxclk_lock_status" uint32_t;
      fld "xgmi_link_width" uint16_t;
      fld "xgmi_link_speed" uint16_t;
      fld "pcie_bandwidth_acc" uint64_t;
      fld "pcie_bandwidth_inst" uint64_t;
      fld "pcie_l0_to_recov_count_acc" uint64_t;
      fld "pcie_replay_count_acc" uint64_t;
      fld "pcie_replay_rover_count_acc" uint64_t;
      fld "xgmi_read_data_acc" (TArr uint64_t AMDSMI_MAX_NUM_XGMI_LINKS);
      fld "xgmi_write_data_acc" (TArr uint64_t AMDSMI_MAX_NUM_XGMI_LINKS);
      fld "current_gfxclks" (TArr uint16_t AMDSMI_MAX_NUM_GFX_CLKS);
      fld "current_socclks" (TArr uint16_t AMDSMI_MAX_NUM_CLKS);
      fld "current_vclk0s" (TArr uint16_t AMDSMI_MAX_NUM_CLKS);
      fld "current_dclk0s" (TArr uint16_t AMDSMI_MAX_NUM_CLKS);
      fld "jpeg_activity" (TArr uint16_t AMDSMI_MAX_NUM_JPEG);
      fld "pcie_nak_sent_count_acc" uint32_t;
      fld "pcie_nak_rcvd_count_acc" uint32_t;
      fld "accumulation_counter" uint64_t;
      fld "prochot_residency_acc" uint64_t;
      fld "ppt_residency_acc" uint64_t;
      fld "socket_thm_residency_acc" uint64_t;
      fld "vr_thm_residency_acc" uint64_t;
      fld "hbm_thm_residency_acc" uint64_t;
      fld "num_partition" uint16_t;
      fld "xcp_stats" (TArr amdsmi_gpu_xcp_metrics_t AMDSMI_MAX_NUM_XCP);
      fld "pcie_lc_perf_other_end_recovery" uint32_t;
      fld "vram_max_bandwidth" uint64_t;
      fld "xgmi_link_status" (TArr uint16_t AMDSMI_MAX_NUM_XGMI_LINKS);
      fld "temperature_hbm_stacks" (TArr uint16_t AMDSMI_MAX_NUM_HBM_STACKS);
      fld "temperature_mid" (TArr uint16_t AMDSMI_MAX_NUM_MID);
      fld "temperature_aid" (TArr uint16_t AMDSMI_MAX_NUM_AID);
      fld "current_uclk_aid" (TArr uint16_t AMDSMI_MAX_NUM_CLKS_PER_AID);
      fld "current_socclks_mid" (TArr uint16_t AMDSMI_MAX_NUM_CLKS_PER_MID);
      fld "apu_metrics" TPtr ].

(** [amdsmi_xgmi_link_status_t], lines 2474-2478: XGMI Link Status *)
Definition amdsmi_xgmi_link_status_t : cty :=
  TStruct false
    [ fld "total_links" uint32_t;
      fld "status" (TArr (TEnum (enum_values amdsmi_xgmi_link_status_type_t)) AMDSMI_MAX_NUM_XGMI_LINKS);
      fld "reserved" (TArr uint64_t 7) ].

(** [amdsmi_name_value_t], lines 2485-2488: This structure holds the name
    value pairs *)
Definition amdsmi_name_value_t : cty :=
  TStruct false
    [ fld "name" (TArr char_t AMDSMI_MAX_STRING_LENGTH);
      fld "value" uint64_t ].

(** [amdsmi_ras_feature_t], lines 2508-2521: This structure holds ras
    feature information. *)
Definition amdsmi_ras_feature_t : cty :=
  TStruct false
    [ fld "ras_eeprom_version" uint32_t;
      fld "ecc_correction_schema_flag" uint32_t;
      fld "ras_info" (TStruct false
      [ bfld "dram_ecc" uint32_t 1;
        bfld "sram_ecc" uint32_t 1;
        bfld "poisoning" uint32_t 1;
        bfld "rsvd" uint32_t 29 ]);
      fld "needs_reboot" TBool ].

(** [amdsmi_error_count_t], lines 2528-2533: This structure holds error
    counts. *)
Definition amdsmi_error_count_t : cty :=
  TStruct false
    [ fld "correctable_count" uint64_t;
      fld "uncorrectable_count" uint64_t;
      fld "deferred_count" uint64_t;
      fld "reserved" (TArr uint64_t 5) ].

(** [amdsmi_process_info_t], lines 2541-2547: This structure contains
    information specific to a process. Sum of the process memory is not
    expected to be the total memory usage. *)
Definition amdsmi_process_info_t : cty :=
  TStruct false
    [ fld "process_id" uint32_t;
      fld "vram_usage" uint64_t;
      fld "sdma_usage" uint64_t;
      fld "cu_occupancy" uint32_t;
      fld "evicted_time" uint32_t ].

(** [amdsmi_topology_nearest_t], lines 2554-2558: Topology Nearest *)
Definition amdsmi_topology_nearest_t : cty :=
  TStruct false
    [ fld "count" uint32_t;
      fld "processor_list" (TArr amdsmi_processor_handle (AMDSMI_MAX_DEVICES * AMDSMI_MAX_NUM_XCP));
      fld "reserved" (TArr uint64_t 15) ].

(** [amdsmi_npm_info_t], lines 2601-2606: NPM info *)
Definition amdsmi_npm_info_t : cty :=
  TStruct false
    [ fld "status" (TEnum (enum_values amdsmi_npm_status_t));
      fld "limit" uint64_t;
      fld "ubb_power_threshold" uint32_t;
      fld "reserved" (TArr uint64_t 5) ].

(** [amdsmi_smu_fw_version_t], lines 2634-2639: This structure holds SMU
    Firmware version information. *)
Definition amdsmi_smu_fw_version_t : cty :=
  TStruct false
    [ fld "debug" uint8_t;
      fld "minor" uint8_t;
      fld "major" uint8_t;
      fld "unused" uint8_t ].

(** [amdsmi_ddr_bw_metrics_t], lines 2646-2650: DDR bandwidth metrics. *)
Definition amdsmi_ddr_bw_metrics_t : cty :=
  TStruct false
    [ fld "max_bw" uint32_t;
      fld "utilized_bw" uint32_t;
      fld "utilized_pct" uint32_t ].

(** [amdsmi_temp_range_refresh_rate_t], lines 2657-2660: temperature range
    and refresh rate metrics of a DIMM *)
Definition amdsmi_temp_range_refresh_rate_t : cty :=
  TStruct false
    [ bfld "range" uint8_t 3;
      bfld "ref_rate" uint8_t 1 ].

(** [amdsmi_dimm_power_t], lines 2667-2671: DIMM Power(mW), power update
    rate(ms) and dimm address *)
Definition amdsmi_dimm_power_t : cty :=
  TStruct false
    [ bfld "power" uint16_t 15;
      bfld "update_rate" uint16_t 9;
      fld "dimm_addr" uint8_t ].

(** [amdsmi_dimm_thermal_t], lines 2678-2683: DIMM temperature(°C) and
    update rate(ms) and dimm address *)
Definition amdsmi_dimm_thermal_t : cty :=
  TStruct false
    [ bfld "sensor" uint16_t 11;
      bfld "update_rate" uint16_t 9;
      fld "dimm_addr" uint8_t;
      fld "temp" TFloat ].

(** [amdsmi_link_id_bw_type_t], lines 2705-2708: LINK name and Bandwidth
    type Information.It contains link names i.e valid link names are 'P0',
    'P1', 'P2', 'P3', 'P4', 'G0', 'G1', 'G2', 'G3', 'G4' 'G5', 'G6', 'G7'
    Valid bandwidth types 1(Aggregate_BW), 2 (Read BW), 4 (Write BW). *)
Definition amdsmi_link_id_bw_type_t : cty :=
  TStruct false
    [ fld "bw_type" (TEnum (enum_values amdsmi_io_bw_encoding_t));
      fld "link_name" TPtr ].

(** [amdsmi_dpm_level_t], lines 2716-2719: max and min LCLK DPM level on a
    given NBIO ID. Valid max and min DPM level values are 0 - 1. *)
Definition amdsmi_dpm_level_t : cty :=
  TStruct false
    [ fld "max_dpm_level" uint8_t;
      fld "min_dpm_level" uint8_t ].

(** [amdsmi_hsmp_metrics_table_t], lines 2726-2813: HSMP Metrics table
    (supported only with hsmp proto version 6). *)
Definition amdsmi_hsmp_metrics_table_t : cty :=
  TStruct true
    [ fld "accumulation_counter" uint32_t;
      fld "max_socket_temperature" uint32_t;
      fld "max_vr_temperature" uint32_t;
      fld "max_hbm_temperature" uint32_t;
      fld "max_socket_temperature_acc" uint64_t;
      fld "max_vr_temperature_acc" uint64_t;
      fld "max_hbm_temperature_acc" uint64_t;
      fld "socket_power_limit" uint32_t;
      fld "max_socket_power_limit" uint32_t;
      fld "socket_power" uint32_t;
      fld "timestamp" uint64_t;
      fld "socket_energy_acc" uint64_t;
      fld "ccd_energy_acc" uint64_t;
      fld "xcd_energy_acc" uint64_t;
      fld "aid_energy_acc" uint64_t;
      fld "hbm_energy_acc" uint64_t;
      fld "cclk_frequency_limit" uint32_t;
      fld "gfxclk_frequency_limit" uint32_t;
      fld "fclk_frequency" uint32_t;
      fld "uclk_frequency" uint32_t;
      fld "socclk_frequency" (TArr uint32_t 4);
      fld "vclk_frequency" (TArr uint32_t 4);
      fld "dclk_frequency" (TArr uint32_t 4);
      fld "lclk_frequency" (TArr uint32_t 4);
      fld "gfxclk_frequency_acc" (TArr uint64_t 8);
      fld "cclk_frequency_acc" (TArr uint64_t 96);
      fld "max_cclk_frequency" uint32_t;
      fld "min_cclk_frequency" uint32_t;
      fld "max_gfxclk_frequency" uint32_t;
      fld "min_gfxclk_frequency" uint32_t;
      fld "fclk_frequency_table" (TArr uint32_t 4);
      fld "uclk_frequency_table" (TArr uint32_t 4);
      fld "socclk_frequency_table" (TArr uint32_t 4);
      fld "vclk_frequency_table" (TArr uint32_t 4);
      fld "dclk_frequency_table" (TArr uint32_t 4);
      fld "lclk_frequency_table" (TArr uint32_t 4);
      fld "max_lclk_dpm_range" uint32_t;
      fld "min_lclk_dpm_range" uint32_t;
      fld "xgmi_width" uint32_t;
      fld "xgmi_bitrate" uint32_t;
      fld "xgmi_read_bandwidth_acc" (TArr uint64_t 8);
      fld "xgmi_write_bandwidth_acc" (TArr uint64_t 8);
      fld "socket_c0_residency" uint32_t;
      fld "socket_gfx_busy" uint32_t;
      fld "dram_bandwidth_utilization" uint32_t;
      fld "socket_c0_residency_acc" uint64_t;
      fld "socket_gfx_busy_acc" uint64_t;
      fld "dram_bandwidth_acc" uint64_t;
      fld "max_dram_bandwidth" uint32_t;
      fld "dram_bandwidth_utilization_acc" uint64_t;
      fld "pcie_bandwidth_acc" (TArr uint64_t 4);
      fld "prochot_residency_acc" uint32_t;
      fld "ppt_residency_acc" uint32_t;
      fld "socket_thm_residency_acc" uint32_t;
      fld "vr_thm_residency_acc" uint32_t;
      fld "hbm_thm_residency_acc" uint32_t;
      fld "spare" uint32_t;
      fld "gfxclk_frequency" (TArr uint32_t 8) ].

(** [amdsmi_cpu_info_t], lines 2829-2848: cpu info data *)
Definition amdsmi_cpu_info_t : cty :=
  TStruct false
    [ fld "model_name" (TArr char_t AMDSMI_MAX_STRING_LENGTH);
      fld "cpu_family_id" uint32_t;
      fld "model_id" uint32_t;
      fld "threads_per_core" uint32_t;
      fld "cores_per_socket" uint32_t;
      fld "frequency_boost" TBool;
      fld "vendor_id" uint32_t;
      fld "vendor_name" (TArr char_t AMDSMI_MAX_STRING_LENGTH);
      fld "subvendor_id" uint32_t;
      fld "device_id" uint64_t;
      fld "rev_id" uint32_t;
      fld "asic_serial" (TArr char_t AMDSMI_MAX_STRING_LENGTH);
      fld "socket_id" uint32_t;
      fld "core_id" uint32_t;
      fld "num_of_cpu_cores" uint32_t;
      fld "socket_count" uint32_t;
      fld "core_count" uint32_t;
      fld "reserved" (TArr uint32_t 17) ].

(** [amdsmi_sock_info_t], lines 2857-2860: cpu socket info data *)
Definition amdsmi_sock_info_t : cty :=
  TStruct false
    [ fld "socket_id" uint32_t;
      fld "cores_per_socket" uint32_t ].

(** [amdsmi_nic_stat_t], lines 2893-2896: Structure for NIC statistic name-
    value pairs *)
Definition amdsmi_nic_stat_t : cty :=
  TStruct false
    [ fld "name" (TArr char_t AMDSMI_MAX_STRING_LENGTH);
      fld "value" uint64_t ].

(** [amdsmi_nic_asic_info_t], lines 2903-2914: NIC asic information *)
Definition amdsmi_nic_asic_info_t : cty :=
  TStruct false
    [ fld "vendor_id" uint16_t;
      fld "subvendor_id" uint16_t;
      fld "device_id" uint16_t;
      fld "subsystem_id" uint16_t;
      fld "revision" uint8_t;
      fld "permanent_address" (TArr char_t AMDSMI_MAX_STRING_LENGTH);
      fld "product_name" (TArr char_t AMDSMI_MAX_STRING_LENGTH);
      fld "part_number" (TArr char_t AMDSMI_MAX_STRING_LENGTH);
      fld "serial_number" (TArr char_t AMDSMI_MAX_STRING_LENGTH);
      fld "vendor_name" (TArr char_t AMDSMI_MAX_STRING_LENGTH) ].

(** [amdsmi_nic_bus_info_t], lines 2921-2927: NIC bus information *)
Definition amdsmi_nic_bus_info_t : cty :=
  TStruct false
    [ fld "bdf" amdsmi_bdf_t;
      fld "max_pcie_width" uint8_t;
      fld "max_pcie_speed" uint32_t;
      fld "pcie_interface_version" (TArr char_t AMDSMI_MAX_STRING_LENGTH);
      fld "slot_type" (TArr char_t AMDSMI_MAX_STRING_LENGTH) ].

(** [amdsmi_nic_numa_info_t], lines 2934-2937: NIC NUMA information *)
Definition amdsmi_nic_numa_info_t : cty :=
  TStruct false
    [ fld "node" uint8_t;
      fld "affinity" (TArr char_t AMDSMI_MAX_STRING_LENGTH) ].

(** [amdsmi_nic_fw_t], lines 2944-2947: NIC firmware information *)
Definition amdsmi_nic_fw_t : cty :=
  TStruct false
    [ fld "name" (TArr char_t AMDSMI_MAX_STRING_LENGTH);
      fld "version" (TArr char_t AMDSMI_MAX_STRING_LENGTH) ].

(** [amdsmi_nic_fw_info_t], lines 2954-2957: NIC firmware information
    collection *)
Definition amdsmi_nic_fw_info_t : cty :=
  TStruct false
    [ fld "num_fw" uint32_t;
      fld "fw" (TArr amdsmi_nic_fw_t AMDSMI_MAX_NIC_FW) ].

(** [amdsmi_nic_port_t], lines 2981-2998: NIC port information *)
Definition amdsmi_nic_port_t : cty :=
  TStruct false
    [ fld "bdf" amdsmi_bdf_t;
      fld "port_num" uint32_t;
      fld "type" (TArr char_t AMDSMI_MAX_STRING_LENGTH);
      fld "flavour" (TArr char_t AMDSMI_MAX_STRING_LENGTH);
      fld "netdev" (TArr char_t AMDSMI_MAX_STRING_LENGTH);
      fld "ifindex" uint8_t;
      fld "mac_address" (TArr char_t AMDSMI_MAX_STRING_LENGTH);
      fld "carrier" uint8_t;
      fld "mtu" uint16_t;
      fld "link_state" (TArr char_t AMDSMI_MAX_STRING_LENGTH);
      fld "link_speed" uint32_t;
      fld "active_fec" uint32_t;
      fld "autoneg" (TArr char_t AMDSMI_MAX_STRING_LENGTH);
      fld "pause_autoneg" (TArr char_t AMDSMI_MAX_STRING_LENGTH);
      fld "pause_rx" (TArr char_t AMDSMI_MAX_STRING_LENGTH);
      fld "pause_tx" (TArr char_t AMDSMI_MAX_STRING_LENGTH) ].

(** [amdsmi_nic_port_info_t], lines 3005-3008: NIC port information
    collection *)
Definition amdsmi_nic_port_info_t : cty :=
  TStruct false
    [ fld "num_ports" uint32_t;
      fld "ports" (TArr amdsmi_nic_port_t AMDSMI_MAX_NIC_PORTS) ].

(** [amdsmi_nic_driver_info_t], lines 3015-3018: NIC driver information *)
Definition amdsmi_nic_driver_info_t : cty :=
  TStruct false
    [ fld "name" (TArr char_t AMDSMI_MAX_STRING_LENGTH);
      fld "version" (TArr char_t AMDSMI_MAX_STRING_LENGTH) ].

(** [amdsmi_nic_rdma_port_info_t], lines 3025-3031: NIC RDMA port
    information *)
Definition amdsmi_nic_rdma_port_info_t : cty :=
  TStruct false
    [ fld "netdev" (TArr char_t AMDSMI_MAX_STRING_LENGTH);
      fld "state" (TArr char_t AMDSMI_MAX_STRING_LENGTH);
      fld "rdma_port" uint8_t;
      fld "max_mtu" uint16_t;
      fld "active_mtu" uint16_t ].

(** [amdsmi_nic_rdma_dev_info_t], lines 3038-3046: NIC RDMA device
    information *)
Definition amdsmi_nic_rdma_dev_info_t : cty :=
  TStruct false
    [ fld "rdma_dev" (TArr char_t AMDSMI_MAX_STRING_LENGTH);
      fld "node_guid" (TArr char_t AMDSMI_MAX_STRING_LENGTH);
      fld "node_type" (TArr char_t AMDSMI_MAX_STRING_LENGTH);
      fld "sys_image_guid" (TArr char_t AMDSMI_MAX_STRING_LENGTH);
      fld "fw_ver" (TArr char_t AMDSMI_MAX_STRING_LENGTH);
      fld "num_rdma_ports" uint8_t;
      fld "rdma_port_info" (TArr amdsmi_nic_rdma_port_info_t AMDSMI_MAX_NIC_PORTS) ].

(** [amdsmi_nic_rdma_devices_info_t], lines 3053-3056: NIC RDMA devices
    information collection *)
Definition amdsmi_nic_rdma_devices_info_t : cty :=
  TStruct false
    [ fld "num_rdma_dev" uint8_t;
      fld "rdma_dev_info" (TArr amdsmi_nic_rdma_dev_info_t AMDSMI_MAX_NIC_RDMA_DEV) ].

(** [amdsmi_cper_guid_t], lines 5545-5547: Cper *)
Definition amdsmi_cper_guid_t : cty :=
  TStruct true
    [ fld "b" (TArr unsigned_char_t 16) ].

(** [amdsmi_cper_timestamp_t], lines 5549-5558. *)
Definition amdsmi_cper_timestamp_t : cty :=
  TStruct true
    [ fld "seconds" uint8_t;
      fld "minutes" uint8_t;
      fld "hours" uint8_t;
      fld "flag" uint8_t;
      fld "day" uint8_t;
      fld "month" uint8_t;
      fld "year" uint8_t;
      fld "century" uint8_t ].

(** [amdsmi_cper_valid_bits_t], lines 5560-5568. *)
Definition amdsmi_cper_valid_bits_t : cty :=
  TUnion true
    [ fld "valid_bits" (TStruct true
      [ bfld "platform_id" uint32_t 1;
        bfld "timestamp" uint32_t 1;
        bfld "partition_id" uint32_t 1;
        bfld "reserved" uint32_t 29 ]);
      fld "valid_mask" uint32_t ].

(** [amdsmi_cper_hdr_t], lines 5570-5587. *)
Definition amdsmi_cper_hdr_t : cty :=
  TStruct true
    [ fld "signature" (TArr char_t 4);
      fld "revision" uint16_t;
      fld "signature_end" uint32_t;
      fld "sec_cnt" uint16_t;
      fld "error_severity" (TEnum (enum_values amdsmi_cper_sev_t));
      fld "cper_valid_bits" amdsmi_cper_valid_bits_t;
      fld "record_length" uint32_t;
      fld "timestamp" amdsmi_cper_timestamp_t;
      fld "platform_id" (TArr char_t 16);
      fld "partition_id" amdsmi_cper_guid_t;
      fld "creator_id" (TArr char_t 16);
      fld "notify_type" amdsmi_cper_guid_t;
      fld "record_id" (TArr char_t 8);
      fld "flags" uint32_t;
      fld "persistence_info" uint64_t;
      fld "reserved" (TArr uint8_t 12) ].

(** [amdsmi_uma_carveout_option_t], lines 8985-8988: UMA carveout option
    descriptor *)
Definition amdsmi_uma_carveout_option_t : cty :=
  TStruct false
    [ fld "index" uint32_t;
      fld "description" (TArr char_t AMDSMI_MAX_STRING_LENGTH) ].

(** [amdsmi_uma_carveout_info_t], lines 8995-9000: UMA carveout
    configuration information *)
Definition amdsmi_uma_carveout_info_t : cty :=
  TStruct false
    [ fld "current_index" uint32_t;
      fld "num_options" uint32_t;
      fld "options" (TArr amdsmi_uma_carveout_option_t AMDSMI_MAX_CARVEOUT_OPTIONS) ].

(** [amdsmi_ttm_info_t], lines 9007-9009: TTM (Translation Table Manager)
    configuration information *)
Definition amdsmi_ttm_info_t : cty :=
  TStruct false
    [ fld "current_pages" uint64_t ].

(** Every structure and union the header declares, by name. *)
Definition smi_types : list (string * cty) :=
  [ ("amdsmi_hsmp_driver_version_t", amdsmi_hsmp_driver_version_t);
    ("amdsmi_range_t", amdsmi_range_t);
    ("amdsmi_xgmi_info_t", amdsmi_xgmi_info_t);
    ("amdsmi_vram_usage_t", amdsmi_vram_usage_t);
    ("amdsmi_violation_status_t", amdsmi_violation_status_t);
    ("amdsmi_frequency_range_t", amdsmi_frequency_range_t);
    ("amdsmi_bdf_t", amdsmi_bdf_t);
    ("amdsmi_enumeration_info_t", amdsmi_enumeration_info_t);
    ("amdsmi_pcie_info_t", amdsmi_pcie_info_t);
    ("amdsmi_power_cap_info_t", amdsmi_power_cap_info_t);
    ("amdsmi_vbios_info_t", amdsmi_vbios_info_t);
    ("amdsmi_gpu_cache_info_t", amdsmi_gpu_cache_info_t);
    ("amdsmi_fw_info_t", amdsmi_fw_info_t);
    ("amdsmi_asic_info_t", amdsmi_asic_info_t);
    ("amdsmi_kfd_info_t", amdsmi_kfd_info_t);
    ("amdsmi_nps_caps_t", amdsmi_nps_caps_t);
    ("amdsmi_memory_partition_config_t", amdsmi_memory_partition_config_t);
    ("amdsmi_accelerator_partition_profile_t", amdsmi_accelerator_partition_profile_t);
    ("amdsmi_accelerator_partition_resource_profile_t", amdsmi_accelerator_partition_resource_profile_t);
    ("amdsmi_accelerator_partition_profile_config_t", amdsmi_accelerator_partition_profile_config_t);
    ("amdsmi_cpu_util_t", amdsmi_cpu_util_t);
    ("amdsmi_link_metrics_t", amdsmi_link_metrics_t);
    ("amdsmi_vram_info_t", amdsmi_vram_info_t);
    ("amdsmi_driver_info_t", amdsmi_driver_info_t);
    ("amdsmi_board_info_t", amdsmi_board_info_t);
    ("amdsmi_power_info_t", amdsmi_power_info_t);
    ("amdsmi_clk_info_t", amdsmi_clk_info_t);
    ("amdsmi_engine_usage_t", amdsmi_engine_usage_t);
    ("amdsmi_proc_info_t", amdsmi_proc_info_t);
    ("amdsmi_p2p_capability_t", amdsmi_p2p_capability_t);
    ("amdsmi_counter_value_t", amdsmi_counter_value_t);
    ("amdsmi_evt_notification_data_t", amdsmi_evt_notification_data_t);
    ("amdsmi_gpu_ras_policy_v4_0_t", amdsmi_gpu_ras_policy_v4_0_t);
    ("amdsmi_gpu_ras_policy_info_t", amdsmi_gpu_ras_policy_info_t);
    ("amdsmi_utilization_counter_t", amdsmi_utilization_counter_t);
    ("amdsmi_retired_page_record_t", amdsmi_retired_page_record_t);
    ("amdsmi_power_profile_status_t", amdsmi_power_profile_status_t);
    ("amdsmi_frequencies_t", amdsmi_frequencies_t);
    ("amdsmi_dpm_policy_entry_t", amdsmi_dpm_policy_entry_t);
    ("amdsmi_dpm_policy_t", amdsmi_dpm_policy_t);
    ("amdsmi_pcie_bandwidth_t", amdsmi_pcie_bandwidth_t);
    ("amdsmi_version_t", amdsmi_version_t);
    ("amdsmi_od_vddc_point_t", amdsmi_od_vddc_point_t);
    ("amdsmi_freq_volt_region_t", amdsmi_freq_volt_region_t);
    ("amdsmi_od_volt_curve_t", amdsmi_od_volt_curve_t);
    ("amdsmi_od_volt_freq_data_t", amdsmi_od_volt_freq_data_t);
    ("amd_metrics_table_header_t", amd_metrics_table_header_t);
    ("amdsmi_gpu_xcp_metrics_t", amdsmi_gpu_xcp_metrics_t);
    ("amdsmi_apu_metrics_t", amdsmi_apu_metrics_t);
    ("amdsmi_gpu_metrics_t", amdsmi_gpu_metrics_t);
    ("amdsmi_xgmi_link_status_t", amdsmi_xgmi_link_status_t);
    ("amdsmi_name_value_t", amdsmi_name_value_t);
    ("amdsmi_ras_feature_t", amdsmi_ras_feature_t);
    ("amdsmi_error_count_t", amdsmi_error_count_t);
    ("amdsmi_process_info_t", amdsmi_process_info_t);
    ("amdsmi_topology_nearest_t", amdsmi_topology_nearest_t);
    ("amdsmi_npm_info_t", amdsmi_npm_info_t);
    ("amdsmi_smu_fw_version_t", amdsmi_smu_fw_version_t);
    ("amdsmi_ddr_bw_metrics_t", amdsmi_ddr_bw_metrics_t);
    ("amdsmi_temp_range_refresh_rate_t", amdsmi_temp_range_refresh_rate_t);
    ("amdsmi_dimm_power_t", amdsmi_dimm_power_t);
    ("amdsmi_dimm_thermal_t", amdsmi_dimm_thermal_t);
    ("amdsmi_link_id_bw_type_t", amdsmi_link_id_bw_type_t);
    ("amdsmi_dpm_level_t", amdsmi_dpm_level_t);
    ("amdsmi_hsmp_metrics_table_t", amdsmi_hsmp_metrics_table_t);
    ("amdsmi_cpu_info_t", amdsmi_cpu_info_t);
    ("amdsmi_sock_info_t", amdsmi_sock_info_t);
    ("amdsmi_nic_stat_t", amdsmi_nic_stat_t);
    ("amdsmi_nic_asic_info_t", amdsmi_nic_asic_info_t);
    ("amdsmi_nic_bus_info_t", amdsmi_nic_bus_info_t);
    ("amdsmi_nic_numa_info_t", amdsmi_nic_numa_info_t);
    ("amdsmi_nic_fw_t", amdsmi_nic_fw_t);
    ("amdsmi_nic_fw_info_t", amdsmi_nic_fw_info_t);
    ("amdsmi_nic_port_t", amdsmi_nic_port_t);
    ("amdsmi_nic_port_info_t", amdsmi_nic_port_info_t);
    ("amdsmi_nic_driver_info_t", amdsmi_nic_driver_info_t);
    ("amdsmi_nic_rdma_port_info_t", amdsmi_nic_rdma_port_info_t);
    ("amdsmi_nic_rdma_dev_info_t", amdsmi_nic_rdma_dev_info_t);
    ("amdsmi_nic_rdma_devices_info_t", amdsmi_nic_rdma_devices_info_t);
    ("amdsmi_cper_guid_t", amdsmi_cper_guid_t);
    ("amdsmi_cper_timestamp_t", amdsmi_cper_timestamp_t);
    ("amdsmi_cper_valid_bits_t", amdsmi_cper_valid_bits_t);
    ("amdsmi_cper_hdr_t", amdsmi_cper_hdr_t);
    ("amdsmi_uma_carveout_option_t", amdsmi_uma_carveout_option_t);
    ("amdsmi_uma_carveout_info_t", amdsmi_uma_carveout_info_t);
    ("amdsmi_ttm_info_t", amdsmi_ttm_info_t) ].

End SmiT.
