(* ===== verification/GimEnums.v ===== *)
(** The constants and enumerations of
    [src/assets/gim_smi_lib/x86_64/UBUNTU22/lib/amdsmi.h], the interface of
    the SMI library of the SR-IOV host driver (GIM); the RHEL9 and UBUNTU24
    copies are byte for byte the same.  Same conventions as [SmiEnums]. *)

From S2P Require Import Prelude CEnum.
Local Open Scope Z_scope.

Module Gim.

Definition AMDSMI_MAX_DEVICES : Z := 32.
Definition AMDSMI_MAX_VF_COUNT : Z := 32.
Definition AMDSMI_PF_INDEX : Z := AMDSMI_MAX_VF_COUNT - 1.
Definition AMDSMI_MAX_STRING_LENGTH : Z := 256.
Definition AMDSMI_MAX_DRIVER_INFO_RSVD : Z := 64.
Definition AMDSMI_MAX_MM_IP_COUNT : Z := 8.
Definition AMDSMI_MAX_CACHE_TYPES : Z := 10.
Definition AMDSMI_MAX_NUM_PM_POLICIES : Z := 32.
Definition AMDSMI_MAX_NAME : Z := 32.
Definition AMDSMI_MAX_DRIVER_NUM : Z := 2.
Definition AMDSMI_MAX_DATE_LENGTH : Z := 32.
Definition AMDSMI_GPU_UUID_SIZE : Z := 38.
Definition AMDSMI_DFC_FW_NUMBER_OF_ENTRIES : Z := 9.
Definition AMDSMI_MAX_WHITE_LIST_ELEMENTS : Z := 16.
Definition AMDSMI_MAX_BLACK_LIST_ELEMENTS : Z := 64.
Definition AMDSMI_MAX_UUID_ELEMENTS : Z := 16.
Definition AMDSMI_MAX_TA_WHITE_LIST_ELEMENTS : Z := 8.
Definition AMDSMI_MAX_ERR_RECORDS : Z := 10.
Definition AMDSMI_EVENT_MSG_SIZE : Z := 256.
Definition AMDSMI_MAX_PROFILE_COUNT : Z := 16.
Definition AMDSMI_MAX_NUM_XGMI_PHYSICAL_LINK : Z := 64.
Definition AMDSMI_MAX_FB_SHARING_GROUPS : Z := 64.
Definition AMDSMI_MAX_NUM_CONNECTED_NODES : Z := 64.
Definition AMDSMI_MAX_NUM_METRICS_V1 : Z := 255.
Definition AMDSMI_MAX_NUM_METRICS : Z := AMDSMI_MAX_NUM_METRICS_V1.
Definition AMDSMI_MAX_BAD_PAGE_RECORD_V1 : Z := 512.
Definition AMDSMI_MAX_BAD_PAGE_RECORD_V2 : Z := 16384.
Definition AMDSMI_MAX_BAD_PAGE_RECORD : Z := AMDSMI_MAX_BAD_PAGE_RECORD_V2.
Definition AMDSMI_MAX_CP_PROFILE_RESOURCES : Z := 32.
Definition AMDSMI_MAX_ACCELERATOR_PARTITIONS : Z := 8.
Definition AMDSMI_MAX_ACCELERATOR_PROFILE : Z := 32.
Definition AMDSMI_MAX_NUM_NUMA_NODES : Z := 32.
Definition MAX_NUMBER_OF_AFIDS_PER_RECORD : Z := 12.

(** [amdsmi_init_flags_t], lines 43-50: Initialization flags *)
Inductive amdsmi_init_flags_t : Set :=
  | AMDSMI_INIT_ALL_PROCESSORS
  | AMDSMI_INIT_AMD_CPUS
  | AMDSMI_INIT_AMD_GPUS
  | AMDSMI_INIT_NON_AMD_CPUS
  | AMDSMI_INIT_NON_AMD_GPUS
  | AMDSMI_INIT_AMD_APUS.

Definition amdsmi_init_flags_t_decl : list (amdsmi_init_flags_t * einit amdsmi_init_flags_t) :=
  [ (AMDSMI_INIT_ALL_PROCESSORS, Lit 4294967295);
    (AMDSMI_INIT_AMD_CPUS, Shl 1 0);
    (AMDSMI_INIT_AMD_GPUS, Shl 1 1);
    (AMDSMI_INIT_NON_AMD_CPUS, Shl 1 2);
    (AMDSMI_INIT_NON_AMD_GPUS, Shl 1 3);
    (AMDSMI_INIT_AMD_APUS, OrE AMDSMI_INIT_AMD_CPUS AMDSMI_INIT_AMD_GPUS) ].

#[global] Instance amdsmi_init_flags_t_enum : CEnum amdsmi_init_flags_t.
Proof. derive_enum amdsmi_init_flags_t_decl. Defined.

(** [amdsmi_status_t], lines 154-205: ENUMERATORS *)
Inductive amdsmi_status_t : Set :=
  | AMDSMI_STATUS_SUCCESS
  | AMDSMI_STATUS_INVAL
  | AMDSMI_STATUS_NOT_SUPPORTED
  | AMDSMI_STATUS_NOT_YET_IMPLEMENTED
  | AMDSMI_STATUS_FAIL_LOAD_MODULE
  | AMDSMI_STATUS_FAIL_LOAD_SYMBOL
  | AMDSMI_STATUS_DRM_ERROR
  | AMDSMI_STATUS_API_FAILED
  | AMDSMI_STATUS_TIMEOUT
  | AMDSMI_STATUS_RETRY
  | AMDSMI_STATUS_NO_PERM
  | AMDSMI_STATUS_INTERRUPT
  | AMDSMI_STATUS_IO
  | AMDSMI_STATUS_ADDRESS_FAULT
  | AMDSMI_STATUS_FILE_ERROR
  | AMDSMI_STATUS_OUT_OF_RESOURCES
  | AMDSMI_STATUS_INTERNAL_EXCEPTION
  | AMDSMI_STATUS_INPUT_OUT_OF_BOUNDS
  | AMDSMI_STATUS_INIT_ERROR
  | AMDSMI_STATUS_REFCOUNT_OVERFLOW
  | AMDSMI_STATUS_MORE_DATA
  | AMDSMI_STATUS_BUSY
  | AMDSMI_STATUS_NOT_FOUND
  | AMDSMI_STATUS_NOT_INIT
  | AMDSMI_STATUS_NO_SLOT
  | AMDSMI_STATUS_DRIVER_NOT_LOADED
  | AMDSMI_STATUS_NO_DATA
  | AMDSMI_STATUS_INSUFFICIENT_SIZE
  | AMDSMI_STATUS_UNEXPECTED_SIZE
  | AMDSMI_STATUS_UNEXPECTED_DATA
  | AMDSMI_STATUS_NON_AMD_CPU
  | AMDSMI_STATUS_NO_ENERGY_DRV
  | AMDSMI_STATUS_NO_MSR_DRV
  | AMDSMI_STATUS_NO_HSMP_DRV
  | AMDSMI_STATUS_NO_HSMP_SUP
  | AMDSMI_STATUS_NO_HSMP_MSG_SUP
  | AMDSMI_STATUS_HSMP_TIMEOUT
  | AMDSMI_STATUS_NO_DRV
  | AMDSMI_STATUS_FILE_NOT_FOUND
  | AMDSMI_STATUS_ARG_PTR_NULL
  | AMDSMI_STATUS_AMDGPU_RESTART_ERR
  | AMDSMI_STATUS_SETTING_UNAVAILABLE
  | AMDSMI_STATUS_MAP_ERROR
  | AMDSMI_STATUS_UNKNOWN_ERROR.

Definition amdsmi_status_t_decl : list (amdsmi_status_t * einit amdsmi_status_t) :=
  [ (AMDSMI_STATUS_SUCCESS, Lit 0);
    (AMDSMI_STATUS_INVAL, Lit 1);
    (AMDSMI_STATUS_NOT_SUPPORTED, Lit 2);
    (AMDSMI_STATUS_NOT_YET_IMPLEMENTED, Lit 3);
    (AMDSMI_STATUS_FAIL_LOAD_MODULE, Lit 4);
    (AMDSMI_STATUS_FAIL_LOAD_SYMBOL, Lit 5);
    (AMDSMI_STATUS_DRM_ERROR, Lit 6);
    (AMDSMI_STATUS_API_FAILED, Lit 7);
    (AMDSMI_STATUS_TIMEOUT, Lit 8);
    (AMDSMI_STATUS_RETRY, Lit 9);
    (AMDSMI_STATUS_NO_PERM, Lit 10);
    (AMDSMI_STATUS_INTERRUPT, Lit 11);
    (AMDSMI_STATUS_IO, Lit 12);
    (AMDSMI_STATUS_ADDRESS_FAULT, Lit 13);
    (AMDSMI_STATUS_FILE_ERROR, Lit 14);
    (AMDSMI_STATUS_OUT_OF_RESOURCES, Lit 15);
    (AMDSMI_STATUS_INTERNAL_EXCEPTION, Lit 16);
    (AMDSMI_STATUS_INPUT_OUT_OF_BOUNDS, Lit 17);
    (AMDSMI_STATUS_INIT_ERROR, Lit 18);
    (AMDSMI_STATUS_REFCOUNT_OVERFLOW, Lit 19);
    (AMDSMI_STATUS_MORE_DATA, Lit 20);
    (AMDSMI_STATUS_BUSY, Lit 30);
    (AMDSMI_STATUS_NOT_FOUND, Lit 31);
    (AMDSMI_STATUS_NOT_INIT, Lit 32);
    (AMDSMI_STATUS_NO_SLOT, Lit 33);
    (AMDSMI_STATUS_DRIVER_NOT_LOADED, Lit 34);
    (AMDSMI_STATUS_NO_DATA, Lit 40);
    (AMDSMI_STATUS_INSUFFICIENT_SIZE, Lit 41);
    (AMDSMI_STATUS_UNEXPECTED_SIZE, Lit 42);
    (AMDSMI_STATUS_UNEXPECTED_DATA, Lit 43);
    (AMDSMI_STATUS_NON_AMD_CPU, Lit 44);
    (AMDSMI_STATUS_NO_ENERGY_DRV, Lit 45);
    (AMDSMI_STATUS_NO_MSR_DRV, Lit 46);
    (AMDSMI_STATUS_NO_HSMP_DRV, Lit 47);
    (AMDSMI_STATUS_NO_HSMP_SUP, Lit 48);
    (AMDSMI_STATUS_NO_HSMP_MSG_SUP, Lit 49);
    (AMDSMI_STATUS_HSMP_TIMEOUT, Lit 50);
    (AMDSMI_STATUS_NO_DRV, Lit 51);
    (AMDSMI_STATUS_FILE_NOT_FOUND, Lit 52);
    (AMDSMI_STATUS_ARG_PTR_NULL, Lit 53);
    (AMDSMI_STATUS_AMDGPU_RESTART_ERR, Lit 54);
    (AMDSMI_STATUS_SETTING_UNAVAILABLE, Lit 55);
    (AMDSMI_STATUS_MAP_ERROR, Lit 4294967294);
    (AMDSMI_STATUS_UNKNOWN_ERROR, Lit 4294967295) ].

#[global] Instance amdsmi_status_t_enum : CEnum amdsmi_status_t.
Proof. derive_enum amdsmi_status_t_decl. Defined.

(** [amdsmi_cache_property_type_t], lines 210-216: cache properties *)
Inductive amdsmi_cache_property_type_t : Set :=
  | AMDSMI_CACHE_PROPERTY_ENABLED
  | AMDSMI_CACHE_PROPERTY_DATA_CACHE
  | AMDSMI_CACHE_PROPERTY_INST_CACHE
  | AMDSMI_CACHE_PROPERTY_CPU_CACHE
  | AMDSMI_CACHE_PROPERTY_SIMD_CACHE.

Definition amdsmi_cache_property_type_t_decl : list (amdsmi_cache_property_type_t * einit amdsmi_cache_property_type_t) :=
  [ (AMDSMI_CACHE_PROPERTY_ENABLED, Lit 1);
    (AMDSMI_CACHE_PROPERTY_DATA_CACHE, Lit 2);
    (AMDSMI_CACHE_PROPERTY_INST_CACHE, Lit 4);
    (AMDSMI_CACHE_PROPERTY_CPU_CACHE, Lit 8);
    (AMDSMI_CACHE_PROPERTY_SIMD_CACHE, Lit 16) ].

#[global] Instance amdsmi_cache_property_type_t_enum : CEnum amdsmi_cache_property_type_t.
Proof. derive_enum amdsmi_cache_property_type_t_decl. Defined.

(** [amdsmi_fw_block_t], lines 218-301. *)
Inductive amdsmi_fw_block_t : Set :=
  | AMDSMI_FW_ID_SMU
  | AMDSMI_FW_ID_FIRST
  | AMDSMI_FW_ID_CP_CE
  | AMDSMI_FW_ID_CP_PFP
  | AMDSMI_FW_ID_CP_ME
  | AMDSMI_FW_ID_CP_MEC_JT1
  | AMDSMI_FW_ID_CP_MEC_JT2
  | AMDSMI_FW_ID_CP_MEC1
  | AMDSMI_FW_ID_CP_MEC2
  | AMDSMI_FW_ID_RLC
  | AMDSMI_FW_ID_SDMA0
  | AMDSMI_FW_ID_SDMA1
  | AMDSMI_FW_ID_SDMA2
  | AMDSMI_FW_ID_SDMA3
  | AMDSMI_FW_ID_SDMA4
  | AMDSMI_FW_ID_SDMA5
  | AMDSMI_FW_ID_SDMA6
  | AMDSMI_FW_ID_SDMA7
  | AMDSMI_FW_ID_VCN
  | AMDSMI_FW_ID_UVD
  | AMDSMI_FW_ID_VCE
  | AMDSMI_FW_ID_ISP
  | AMDSMI_FW_ID_DMCU_ERAM
  | AMDSMI_FW_ID_DMCU_ISR
  | AMDSMI_FW_ID_RLC_RESTORE_LIST_GPM_MEM
  | AMDSMI_FW_ID_RLC_RESTORE_LIST_SRM_MEM
  | AMDSMI_FW_ID_RLC_RESTORE_LIST_CNTL
  | AMDSMI_FW_ID_RLC_V
  | AMDSMI_FW_ID_MMSCH
  | AMDSMI_FW_ID_PSP_SYSDRV
  | AMDSMI_FW_ID_PSP_SOSDRV
  | AMDSMI_FW_ID_PSP_TOC
  | AMDSMI_FW_ID_PSP_KEYDB
  | AMDSMI_FW_ID_DFC
  | AMDSMI_FW_ID_PSP_SPL
  | AMDSMI_FW_ID_DRV_CAP
  | AMDSMI_FW_ID_MC
  | AMDSMI_FW_ID_PSP_BL
  | AMDSMI_FW_ID_CP_PM4
  | AMDSMI_FW_ID_RLC_P
  | AMDSMI_FW_ID_SEC_POLICY_STAGE2
  | AMDSMI_FW_ID_REG_ACCESS_WHITELIST
  | AMDSMI_FW_ID_IMU_DRAM
  | AMDSMI_FW_ID_IMU_IRAM
  | AMDSMI_FW_ID_SDMA_TH0
  | AMDSMI_FW_ID_SDMA_TH1
  | AMDSMI_FW_ID_CP_MES
  | AMDSMI_FW_ID_MES_STACK
  | AMDSMI_FW_ID_MES_THREAD1
  | AMDSMI_FW_ID_MES_THREAD1_STACK
  | AMDSMI_FW_ID_RLX6
  | AMDSMI_FW_ID_RLX6_DRAM_BOOT
  | AMDSMI_FW_ID_RS64_ME
  | AMDSMI_FW_ID_RS64_ME_P0_DATA
  | AMDSMI_FW_ID_RS64_ME_P1_DATA
  | AMDSMI_FW_ID_RS64_PFP
  | AMDSMI_FW_ID_RS64_PFP_P0_DATA
  | AMDSMI_FW_ID_RS64_PFP_P1_DATA
  | AMDSMI_FW_ID_RS64_MEC
  | AMDSMI_FW_ID_RS64_MEC_P0_DATA
  | AMDSMI_FW_ID_RS64_MEC_P1_DATA
  | AMDSMI_FW_ID_RS64_MEC_P2_DATA
  | AMDSMI_FW_ID_RS64_MEC_P3_DATA
  | AMDSMI_FW_ID_PPTABLE
  | AMDSMI_FW_ID_PSP_SOC
  | AMDSMI_FW_ID_PSP_DBG
  | AMDSMI_FW_ID_PSP_INTF
  | AMDSMI_FW_ID_RLX6_CORE1
  | AMDSMI_FW_ID_RLX6_DRAM_BOOT_CORE1
  | AMDSMI_FW_ID_RLCV_LX7
  | AMDSMI_FW_ID_RLC_SAVE_RESTORE_LIST
  | AMDSMI_FW_ID_ASD
  | AMDSMI_FW_ID_TA_RAS
  | AMDSMI_FW_ID_XGMI
  | AMDSMI_FW_ID_RLC_SRLG
  | AMDSMI_FW_ID_RLC_SRLS
  | AMDSMI_FW_ID_SMC
  | AMDSMI_FW_ID_DMCU
  | AMDSMI_FW_ID_PSP_RAS
  | AMDSMI_FW_ID_P2S_TABLE
  | AMDSMI_FW_ID_PLDM_BUNDLE
  | AMDSMI_FW_ID__MAX.

Definition amdsmi_fw_block_t_decl : list (amdsmi_fw_block_t * einit amdsmi_fw_block_t) :=
  [ (AMDSMI_FW_ID_SMU, Lit 1);
    (AMDSMI_FW_ID_FIRST, Ref AMDSMI_FW_ID_SMU);
    (AMDSMI_FW_ID_CP_CE, Next);
    (AMDSMI_FW_ID_CP_PFP, Next);
    (AMDSMI_FW_ID_CP_ME, Next);
    (AMDSMI_FW_ID_CP_MEC_JT1, Next);
    (AMDSMI_FW_ID_CP_MEC_JT2, Next);
    (AMDSMI_FW_ID_CP_MEC1, Next);
    (AMDSMI_FW_ID_CP_MEC2, Next);
    (AMDSMI_FW_ID_RLC, Next);
    (AMDSMI_FW_ID_SDMA0, Next);
    (AMDSMI_FW_ID_SDMA1, Next);
    (AMDSMI_FW_ID_SDMA2, Next);
    (AMDSMI_FW_ID_SDMA3, Next);
    (AMDSMI_FW_ID_SDMA4, Next);
    (AMDSMI_FW_ID_SDMA5, Next);
    (AMDSMI_FW_ID_SDMA6, Next);
    (AMDSMI_FW_ID_SDMA7, Next);
    (AMDSMI_FW_ID_VCN, Next);
    (AMDSMI_FW_ID_UVD, Next);
    (AMDSMI_FW_ID_VCE, Next);
    (AMDSMI_FW_ID_ISP, Next);
    (AMDSMI_FW_ID_DMCU_ERAM, Next);
    (AMDSMI_FW_ID_DMCU_ISR, Next);
    (AMDSMI_FW_ID_RLC_RESTORE_LIST_GPM_MEM, Next);
    (AMDSMI_FW_ID_RLC_RESTORE_LIST_SRM_MEM, Next);
    (AMDSMI_FW_ID_RLC_RESTORE_LIST_CNTL, Next);
    (AMDSMI_FW_ID_RLC_V, Next);
    (AMDSMI_FW_ID_MMSCH, Next);
    (AMDSMI_FW_ID_PSP_SYSDRV, Next);
    (AMDSMI_FW_ID_PSP_SOSDRV, Next);
    (AMDSMI_FW_ID_PSP_TOC, Next);
    (AMDSMI_FW_ID_PSP_KEYDB, Next);
    (AMDSMI_FW_ID_DFC, Next);
    (AMDSMI_FW_ID_PSP_SPL, Next);
    (AMDSMI_FW_ID_DRV_CAP, Next);
    (AMDSMI_FW_ID_MC, Next);
    (AMDSMI_FW_ID_PSP_BL, Next);
    (AMDSMI_FW_ID_CP_PM4, Next);
    (AMDSMI_FW_ID_RLC_P, Next);
    (AMDSMI_FW_ID_SEC_POLICY_STAGE2, Next);
    (AMDSMI_FW_ID_REG_ACCESS_WHITELIST, Next);
    (AMDSMI_FW_ID_IMU_DRAM, Next);
    (AMDSMI_FW_ID_IMU_IRAM, Next);
    (AMDSMI_FW_ID_SDMA_TH0, Next);
    (AMDSMI_FW_ID_SDMA_TH1, Next);
    (AMDSMI_FW_ID_CP_MES, Next);
    (AMDSMI_FW_ID_MES_STACK, Next);
    (AMDSMI_FW_ID_MES_THREAD1, Next);
    (AMDSMI_FW_ID_MES_THREAD1_STACK, Next);
    (AMDSMI_FW_ID_RLX6, Next);
    (AMDSMI_FW_ID_RLX6_DRAM_BOOT, Next);
    (AMDSMI_FW_ID_RS64_ME, Next);
    (AMDSMI_FW_ID_RS64_ME_P0_DATA, Next);
    (AMDSMI_FW_ID_RS64_ME_P1_DATA, Next);
    (AMDSMI_FW_ID_RS64_PFP, Next);
    (AMDSMI_FW_ID_RS64_PFP_P0_DATA, Next);
    (AMDSMI_FW_ID_RS64_PFP_P1_DATA, Next);
    (AMDSMI_FW_ID_RS64_MEC, Next);
    (AMDSMI_FW_ID_RS64_MEC_P0_DATA, Next);
    (AMDSMI_FW_ID_RS64_MEC_P1_DATA, Next);
    (AMDSMI_FW_ID_RS64_MEC_P2_DATA, Next);
    (AMDSMI_FW_ID_RS64_MEC_P3_DATA, Next);
    (AMDSMI_FW_ID_PPTABLE, Next);
    (AMDSMI_FW_ID_PSP_SOC, Next);
    (AMDSMI_FW_ID_PSP_DBG, Next);
    (AMDSMI_FW_ID_PSP_INTF, Next);
    (AMDSMI_FW_ID_RLX6_CORE1, Next);
    (AMDSMI_FW_ID_RLX6_DRAM_BOOT_CORE1, Next);
    (AMDSMI_FW_ID_RLCV_LX7, Next);
    (AMDSMI_FW_ID_RLC_SAVE_RESTORE_LIST, Next);
    (AMDSMI_FW_ID_ASD, Next);
    (AMDSMI_FW_ID_TA_RAS, Next);
    (AMDSMI_FW_ID_XGMI, Next);
    (AMDSMI_FW_ID_RLC_SRLG, Next);
    (AMDSMI_FW_ID_RLC_SRLS, Next);
    (AMDSMI_FW_ID_SMC, Next);
    (AMDSMI_FW_ID_DMCU, Next);
    (AMDSMI_FW_ID_PSP_RAS, Next);
    (AMDSMI_FW_ID_P2S_TABLE, Next);
    (AMDSMI_FW_ID_PLDM_BUNDLE, Next);
    (AMDSMI_FW_ID__MAX, Next) ].

#[global] Instance amdsmi_fw_block_t_enum : CEnum amdsmi_fw_block_t.
Proof. derive_enum amdsmi_fw_block_t_decl. Defined.

(** [amdsmi_mm_ip_t], lines 306-311: GPU Capability info *)
Inductive amdsmi_mm_ip_t : Set :=
  | AMDSMI_MM_UVD
  | AMDSMI_MM_VCE
  | AMDSMI_MM_VCN
  | AMDSMI_MM__MAX.

Definition amdsmi_mm_ip_t_decl : list (amdsmi_mm_ip_t * einit amdsmi_mm_ip_t) :=
  [ (AMDSMI_MM_UVD, Next);
    (AMDSMI_MM_VCE, Next);
    (AMDSMI_MM_VCN, Next);
    (AMDSMI_MM__MAX, Next) ].

#[global] Instance amdsmi_mm_ip_t_enum : CEnum amdsmi_mm_ip_t.
Proof. derive_enum amdsmi_mm_ip_t_decl. Defined.

(** [amdsmi_clk_type_t], lines 316-331: Clock types *)
Inductive amdsmi_clk_type_t : Set :=
  | AMDSMI_CLK_TYPE_SYS
  | AMDSMI_CLK_TYPE_FIRST
  | AMDSMI_CLK_TYPE_GFX
  | AMDSMI_CLK_TYPE_DF
  | AMDSMI_CLK_TYPE_DCEF
  | AMDSMI_CLK_TYPE_SOC
  | AMDSMI_CLK_TYPE_MEM
  | AMDSMI_CLK_TYPE_PCIE
  | AMDSMI_CLK_TYPE_VCLK0
  | AMDSMI_CLK_TYPE_VCLK1
  | AMDSMI_CLK_TYPE_DCLK0
  | AMDSMI_CLK_TYPE_DCLK1
  | AMDSMI_CLK_TYPE__MAX.

Definition amdsmi_clk_type_t_decl : list (amdsmi_clk_type_t * einit amdsmi_clk_type_t) :=
  [ (AMDSMI_CLK_TYPE_SYS, Lit 0);
    (AMDSMI_CLK_TYPE_FIRST, Ref AMDSMI_CLK_TYPE_SYS);
    (AMDSMI_CLK_TYPE_GFX, Ref AMDSMI_CLK_TYPE_SYS);
    (AMDSMI_CLK_TYPE_DF, Next);
    (AMDSMI_CLK_TYPE_DCEF, Next);
    (AMDSMI_CLK_TYPE_SOC, Next);
    (AMDSMI_CLK_TYPE_MEM, Next);
    (AMDSMI_CLK_TYPE_PCIE, Next);
    (AMDSMI_CLK_TYPE_VCLK0, Next);
    (AMDSMI_CLK_TYPE_VCLK1, Next);
    (AMDSMI_CLK_TYPE_DCLK0, Next);
    (AMDSMI_CLK_TYPE_DCLK1, Next);
    (AMDSMI_CLK_TYPE__MAX, Ref AMDSMI_CLK_TYPE_DCLK1) ].

#[global] Instance amdsmi_clk_type_t_enum : CEnum amdsmi_clk_type_t.
Proof. derive_enum amdsmi_clk_type_t_decl. Defined.

(** [amdsmi_temperature_type_t], lines 336-348: This enumeration is used to
    indicate from which part of the processor a temperature reading should
    be obtained. *)
Inductive amdsmi_temperature_type_t : Set :=
  | AMDSMI_TEMPERATURE_TYPE_EDGE
  | AMDSMI_TEMPERATURE_TYPE_FIRST
  | AMDSMI_TEMPERATURE_TYPE_HOTSPOT
  | AMDSMI_TEMPERATURE_TYPE_JUNCTION
  | AMDSMI_TEMPERATURE_TYPE_VRAM
  | AMDSMI_TEMPERATURE_TYPE_HBM_0
  | AMDSMI_TEMPERATURE_TYPE_HBM_1
  | AMDSMI_TEMPERATURE_TYPE_HBM_2
  | AMDSMI_TEMPERATURE_TYPE_HBM_3
  | AMDSMI_TEMPERATURE_TYPE_PLX
  | AMDSMI_TEMPERATURE_TYPE__MAX.

Definition amdsmi_temperature_type_t_decl : list (amdsmi_temperature_type_t * einit amdsmi_temperature_type_t) :=
  [ (AMDSMI_TEMPERATURE_TYPE_EDGE, Next);
    (AMDSMI_TEMPERATURE_TYPE_FIRST, Ref AMDSMI_TEMPERATURE_TYPE_EDGE);
    (AMDSMI_TEMPERATURE_TYPE_HOTSPOT, Next);
    (AMDSMI_TEMPERATURE_TYPE_JUNCTION, Ref AMDSMI_TEMPERATURE_TYPE_HOTSPOT);
    (AMDSMI_TEMPERATURE_TYPE_VRAM, Next);
    (AMDSMI_TEMPERATURE_TYPE_HBM_0, Next);
    (AMDSMI_TEMPERATURE_TYPE_HBM_1, Next);
    (AMDSMI_TEMPERATURE_TYPE_HBM_2, Next);
    (AMDSMI_TEMPERATURE_TYPE_HBM_3, Next);
    (AMDSMI_TEMPERATURE_TYPE_PLX, Next);
    (AMDSMI_TEMPERATURE_TYPE__MAX, Ref AMDSMI_TEMPERATURE_TYPE_PLX) ].

#[global] Instance amdsmi_temperature_type_t_enum : CEnum amdsmi_temperature_type_t.
Proof. derive_enum amdsmi_temperature_type_t_decl. Defined.

(** [amdsmi_temperature_metric_t], lines 353-388: Temperature Metrics.  This
    enum is used to identify various temperature metrics. Corresponding
    values will be in Celcius. *)
Inductive amdsmi_temperature_metric_t : Set :=
  | AMDSMI_TEMP_CURRENT
  | AMDSMI_TEMP_FIRST
  | AMDSMI_TEMP_MAX
  | AMDSMI_TEMP_MIN
  | AMDSMI_TEMP_MAX_HYST
  | AMDSMI_TEMP_MIN_HYST
  | AMDSMI_TEMP_CRITICAL
  | AMDSMI_TEMP_CRITICAL_HYST
  | AMDSMI_TEMP_EMERGENCY
  | AMDSMI_TEMP_EMERGENCY_HYST
  | AMDSMI_TEMP_CRIT_MIN
  | AMDSMI_TEMP_CRIT_MIN_HYST
  | AMDSMI_TEMP_OFFSET
  | AMDSMI_TEMP_LOWEST
  | AMDSMI_TEMP_HIGHEST
  | AMDSMI_TEMP_SHUTDOWN
  | AMDSMI_TEMP_LAST.

Definition amdsmi_temperature_metric_t_decl : list (amdsmi_temperature_metric_t * einit amdsmi_temperature_metric_t) :=
  [ (AMDSMI_TEMP_CURRENT, Lit 0);
    (AMDSMI_TEMP_FIRST, Ref AMDSMI_TEMP_CURRENT);
    (AMDSMI_TEMP_MAX, Next);
    (AMDSMI_TEMP_MIN, Next);
    (AMDSMI_TEMP_MAX_HYST, Next);
    (AMDSMI_TEMP_MIN_HYST, Next);
    (AMDSMI_TEMP_CRITICAL, Next);
    (AMDSMI_TEMP_CRITICAL_HYST, Next);
    (AMDSMI_TEMP_EMERGENCY, Next);
    (AMDSMI_TEMP_EMERGENCY_HYST, Next);
    (AMDSMI_TEMP_CRIT_MIN, Next);
    (AMDSMI_TEMP_CRIT_MIN_HYST, Next);
    (AMDSMI_TEMP_OFFSET, Next);
    (AMDSMI_TEMP_LOWEST, Next);
    (AMDSMI_TEMP_HIGHEST, Next);
    (AMDSMI_TEMP_SHUTDOWN, Next);
    (AMDSMI_TEMP_LAST, Ref AMDSMI_TEMP_SHUTDOWN) ].

#[global] Instance amdsmi_temperature_metric_t_enum : CEnum amdsmi_temperature_metric_t.
Proof. derive_enum amdsmi_temperature_metric_t_decl. Defined.

(** [processor_type_t], lines 391-399. *)
Inductive processor_type_t : Set :=
  | AMDSMI_PROCESSOR_TYPE_UNKNOWN
  | AMDSMI_PROCESSOR_TYPE_AMD_GPU
  | AMDSMI_PROCESSOR_TYPE_AMD_CPU
  | AMDSMI_PROCESSOR_TYPE_NON_AMD_GPU
  | AMDSMI_PROCESSOR_TYPE_NON_AMD_CPU
  | AMDSMI_PROCESSOR_TYPE_AMD_CPU_CORE
  | AMDSMI_PROCESSOR_TYPE_AMD_APU.

Definition processor_type_t_decl : list (processor_type_t * einit processor_type_t) :=
  [ (AMDSMI_PROCESSOR_TYPE_UNKNOWN, Lit 0);
    (AMDSMI_PROCESSOR_TYPE_AMD_GPU, Next);
    (AMDSMI_PROCESSOR_TYPE_AMD_CPU, Next);
    (AMDSMI_PROCESSOR_TYPE_NON_AMD_GPU, Next);
    (AMDSMI_PROCESSOR_TYPE_NON_AMD_CPU, Next);
    (AMDSMI_PROCESSOR_TYPE_AMD_CPU_CORE, Next);
    (AMDSMI_PROCESSOR_TYPE_AMD_APU, Next) ].

#[global] Instance processor_type_t_enum : CEnum processor_type_t.
Proof. derive_enum processor_type_t_decl. Defined.

(** [amdsmi_event_category_t], lines 401-418. *)
Inductive amdsmi_event_category_t : Set :=
  | AMDSMI_EVENT_CATEGORY_NON_USED
  | AMDSMI_EVENT_CATEGORY_DRIVER
  | AMDSMI_EVENT_CATEGORY_RESET
  | AMDSMI_EVENT_CATEGORY_SCHED
  | AMDSMI_EVENT_CATEGORY_VBIOS
  | AMDSMI_EVENT_CATEGORY_ECC
  | AMDSMI_EVENT_CATEGORY_PP
  | AMDSMI_EVENT_CATEGORY_IOV
  | AMDSMI_EVENT_CATEGORY_VF
  | AMDSMI_EVENT_CATEGORY_FW
  | AMDSMI_EVENT_CATEGORY_GPU
  | AMDSMI_EVENT_CATEGORY_GUARD
  | AMDSMI_EVENT_CATEGORY_GPUMON
  | AMDSMI_EVENT_CATEGORY_MMSCH
  | AMDSMI_EVENT_CATEGORY_XGMI
  | AMDSMI_EVENT_CATEGORY__MAX.

Definition amdsmi_event_category_t_decl : list (amdsmi_event_category_t * einit amdsmi_event_category_t) :=
  [ (AMDSMI_EVENT_CATEGORY_NON_USED, Lit 0);
    (AMDSMI_EVENT_CATEGORY_DRIVER, Lit 1);
    (AMDSMI_EVENT_CATEGORY_RESET, Lit 2);
    (AMDSMI_EVENT_CATEGORY_SCHED, Lit 3);
    (AMDSMI_EVENT_CATEGORY_VBIOS, Lit 4);
    (AMDSMI_EVENT_CATEGORY_ECC, Lit 5);
    (AMDSMI_EVENT_CATEGORY_PP, Lit 6);
    (AMDSMI_EVENT_CATEGORY_IOV, Lit 7);
    (AMDSMI_EVENT_CATEGORY_VF, Lit 8);
    (AMDSMI_EVENT_CATEGORY_FW, Lit 9);
    (AMDSMI_EVENT_CATEGORY_GPU, Lit 10);
    (AMDSMI_EVENT_CATEGORY_GUARD, Lit 11);
    (AMDSMI_EVENT_CATEGORY_GPUMON, Lit 12);
    (AMDSMI_EVENT_CATEGORY_MMSCH, Lit 13);
    (AMDSMI_EVENT_CATEGORY_XGMI, Lit 14);
    (AMDSMI_EVENT_CATEGORY__MAX, Next) ].

#[global] Instance amdsmi_event_category_t_enum : CEnum amdsmi_event_category_t.
Proof. derive_enum amdsmi_event_category_t_decl. Defined.

(** [amdsmi_event_gpu_t], lines 423-434: Below are the error subcodes of
    each category. *)
Inductive amdsmi_event_gpu_t : Set :=
  | AMDSMI_EVENT_GPU_DEVICE_LOST
  | AMDSMI_EVENT_GPU_NOT_SUPPORTED
  | AMDSMI_EVENT_GPU_RMA
  | AMDSMI_EVENT_GPU_NOT_INITIALIZED
  | AMDSMI_EVENT_GPU_MMSCH_ABNORMAL_STATE
  | AMDSMI_EVENT_GPU_RLCV_ABNORMAL_STATE
  | AMDSMI_EVENT_GPU_SDMA_ENGINE_BUSY
  | AMDSMI_EVENT_GPU_RLC_ENGINE_BUSY
  | AMDSMI_EVENT_GPU_GC_ENGINE_BUSY
  | AMDSMI_EVENT_GPU__MAX.

Definition amdsmi_event_gpu_t_decl : list (amdsmi_event_gpu_t * einit amdsmi_event_gpu_t) :=
  [ (AMDSMI_EVENT_GPU_DEVICE_LOST, Lit 0);
    (AMDSMI_EVENT_GPU_NOT_SUPPORTED, Next);
    (AMDSMI_EVENT_GPU_RMA, Next);
    (AMDSMI_EVENT_GPU_NOT_INITIALIZED, Next);
    (AMDSMI_EVENT_GPU_MMSCH_ABNORMAL_STATE, Next);
    (AMDSMI_EVENT_GPU_RLCV_ABNORMAL_STATE, Next);
    (AMDSMI_EVENT_GPU_SDMA_ENGINE_BUSY, Next);
    (AMDSMI_EVENT_GPU_RLC_ENGINE_BUSY, Next);
    (AMDSMI_EVENT_GPU_GC_ENGINE_BUSY, Next);
    (AMDSMI_EVENT_GPU__MAX, Next) ].

#[global] Instance amdsmi_event_gpu_t_enum : CEnum amdsmi_event_gpu_t.
Proof. derive_enum amdsmi_event_gpu_t_decl. Defined.

(** [amdsmi_event_driver_t], lines 436-493. *)
Inductive amdsmi_event_driver_t : Set :=
  | AMDSMI_EVENT_DRIVER_SPIN_LOCK_BUSY
  | AMDSMI_EVENT_DRIVER_ALLOC_SYSTEM_MEM_FAIL
  | AMDSMI_EVENT_DRIVER_CREATE_GFX_WORKQUEUE_FAIL
  | AMDSMI_EVENT_DRIVER_CREATE_MM_WORKQUEUE_FAIL
  | AMDSMI_EVENT_DRIVER_BUFFER_OVERFLOW
  | AMDSMI_EVENT_DRIVER_DEV_INIT_FAIL
  | AMDSMI_EVENT_DRIVER_CREATE_THREAD_FAIL
  | AMDSMI_EVENT_DRIVER_NO_ACCESS_PCI_REGION
  | AMDSMI_EVENT_DRIVER_MMIO_FAIL
  | AMDSMI_EVENT_DRIVER_INTERRUPT_INIT_FAIL
  | AMDSMI_EVENT_DRIVER_INVALID_VALUE
  | AMDSMI_EVENT_DRIVER_CREATE_MUTEX_FAIL
  | AMDSMI_EVENT_DRIVER_CREATE_TIMER_FAIL
  | AMDSMI_EVENT_DRIVER_CREATE_EVENT_FAIL
  | AMDSMI_EVENT_DRIVER_CREATE_SPIN_LOCK_FAIL
  | AMDSMI_EVENT_DRIVER_ALLOC_FB_MEM_FAIL
  | AMDSMI_EVENT_DRIVER_ALLOC_DMA_MEM_FAIL
  | AMDSMI_EVENT_DRIVER_NO_FB_MANAGER
  | AMDSMI_EVENT_DRIVER_HW_INIT_FAIL
  | AMDSMI_EVENT_DRIVER_SW_INIT_FAIL
  | AMDSMI_EVENT_DRIVER_INIT_CONFIG_ERROR
  | AMDSMI_EVENT_DRIVER_ERROR_LOGGING_FAILED
  | AMDSMI_EVENT_DRIVER_CREATE_RWLOCK_FAIL
  | AMDSMI_EVENT_DRIVER_CREATE_RWSEMA_FAIL
  | AMDSMI_EVENT_DRIVER_GET_READ_LOCK_FAIL
  | AMDSMI_EVENT_DRIVER_GET_WRITE_LOCK_FAIL
  | AMDSMI_EVENT_DRIVER_GET_READ_SEMA_FAIL
  | AMDSMI_EVENT_DRIVER_GET_WRITE_SEMA_FAIL
  | AMDSMI_EVENT_DRIVER_DIAG_DATA_INIT_FAIL
  | AMDSMI_EVENT_DRIVER_DIAG_DATA_MEM_REQ_FAIL
  | AMDSMI_EVENT_DRIVER_DIAG_DATA_VADDR_REQ_FAIL
  | AMDSMI_EVENT_DRIVER_DIAG_DATA_BUS_ADDR_REQ_FAIL
  | AMDSMI_EVENT_DRIVER_HRTIMER_START_FAIL
  | AMDSMI_EVENT_DRIVER_CREATE_DRIVER_FILE_FAIL
  | AMDSMI_EVENT_DRIVER_CREATE_DEVICE_FILE_FAIL
  | AMDSMI_EVENT_DRIVER_CREATE_DEBUGFS_FILE_FAIL
  | AMDSMI_EVENT_DRIVER_CREATE_DEBUGFS_DIR_FAIL
  | AMDSMI_EVENT_DRIVER_PCI_ENABLE_DEVICE_FAIL
  | AMDSMI_EVENT_DRIVER_FB_MAP_FAIL
  | AMDSMI_EVENT_DRIVER_DOORBELL_MAP_FAIL
  | AMDSMI_EVENT_DRIVER_PCI_REGISTER_DRIVER_FAIL
  | AMDSMI_EVENT_DRIVER_ALLOC_IOVA_ALIGN_FAIL
  | AMDSMI_EVENT_DRIVER_ROM_MAP_FAIL
  | AMDSMI_EVENT_DRIVER_FULL_ACCESS_TIMEOUT
  | AMDSMI_EVENT_DRIVER__MAX.

Definition amdsmi_event_driver_t_decl : list (amdsmi_event_driver_t * einit amdsmi_event_driver_t) :=
  [ (AMDSMI_EVENT_DRIVER_SPIN_LOCK_BUSY, Lit 0);
    (AMDSMI_EVENT_DRIVER_ALLOC_SYSTEM_MEM_FAIL, Next);
    (AMDSMI_EVENT_DRIVER_CREATE_GFX_WORKQUEUE_FAIL, Next);
    (AMDSMI_EVENT_DRIVER_CREATE_MM_WORKQUEUE_FAIL, Next);
    (AMDSMI_EVENT_DRIVER_BUFFER_OVERFLOW, Next);
    (AMDSMI_EVENT_DRIVER_DEV_INIT_FAIL, Next);
    (AMDSMI_EVENT_DRIVER_CREATE_THREAD_FAIL, Next);
    (AMDSMI_EVENT_DRIVER_NO_ACCESS_PCI_REGION, Next);
    (AMDSMI_EVENT_DRIVER_MMIO_FAIL, Next);
    (AMDSMI_EVENT_DRIVER_INTERRUPT_INIT_FAIL, Next);
    (AMDSMI_EVENT_DRIVER_INVALID_VALUE, Next);
    (AMDSMI_EVENT_DRIVER_CREATE_MUTEX_FAIL, Next);
    (AMDSMI_EVENT_DRIVER_CREATE_TIMER_FAIL, Next);
    (AMDSMI_EVENT_DRIVER_CREATE_EVENT_FAIL, Next);
    (AMDSMI_EVENT_DRIVER_CREATE_SPIN_LOCK_FAIL, Next);
    (AMDSMI_EVENT_DRIVER_ALLOC_FB_MEM_FAIL, Next);
    (AMDSMI_EVENT_DRIVER_ALLOC_DMA_MEM_FAIL, Next);
    (AMDSMI_EVENT_DRIVER_NO_FB_MANAGER, Next);
    (AMDSMI_EVENT_DRIVER_HW_INIT_FAIL, Next);
    (AMDSMI_EVENT_DRIVER_SW_INIT_FAIL, Next);
    (AMDSMI_EVENT_DRIVER_INIT_CONFIG_ERROR, Next);
    (AMDSMI_EVENT_DRIVER_ERROR_LOGGING_FAILED, Next);
    (AMDSMI_EVENT_DRIVER_CREATE_RWLOCK_FAIL, Next);
    (AMDSMI_EVENT_DRIVER_CREATE_RWSEMA_FAIL, Next);
    (AMDSMI_EVENT_DRIVER_GET_READ_LOCK_FAIL, Next);
    (AMDSMI_EVENT_DRIVER_GET_WRITE_LOCK_FAIL, Next);
    (AMDSMI_EVENT_DRIVER_GET_READ_SEMA_FAIL, Next);
    (AMDSMI_EVENT_DRIVER_GET_WRITE_SEMA_FAIL, Next);
    (AMDSMI_EVENT_DRIVER_DIAG_DATA_INIT_FAIL, Next);
    (AMDSMI_EVENT_DRIVER_DIAG_DATA_MEM_REQ_FAIL, Next);
    (AMDSMI_EVENT_DRIVER_DIAG_DATA_VADDR_REQ_FAIL, Next);
    (AMDSMI_EVENT_DRIVER_DIAG_DATA_BUS_ADDR_REQ_FAIL, Next);
    (AMDSMI_EVENT_DRIVER_HRTIMER_START_FAIL, Next);
    (AMDSMI_EVENT_DRIVER_CREATE_DRIVER_FILE_FAIL, Next);
    (AMDSMI_EVENT_DRIVER_CREATE_DEVICE_FILE_FAIL, Next);
    (AMDSMI_EVENT_DRIVER_CREATE_DEBUGFS_FILE_FAIL, Next);
    (AMDSMI_EVENT_DRIVER_CREATE_DEBUGFS_DIR_FAIL, Next);
    (AMDSMI_EVENT_DRIVER_PCI_ENABLE_DEVICE_FAIL, Next);
    (AMDSMI_EVENT_DRIVER_FB_MAP_FAIL, Next);
    (AMDSMI_EVENT_DRIVER_DOORBELL_MAP_FAIL, Next);
    (AMDSMI_EVENT_DRIVER_PCI_REGISTER_DRIVER_FAIL, Next);
    (AMDSMI_EVENT_DRIVER_ALLOC_IOVA_ALIGN_FAIL, Next);
    (AMDSMI_EVENT_DRIVER_ROM_MAP_FAIL, Next);
    (AMDSMI_EVENT_DRIVER_FULL_ACCESS_TIMEOUT, Next);
    (AMDSMI_EVENT_DRIVER__MAX, Next) ].

#[global] Instance amdsmi_event_driver_t_enum : CEnum amdsmi_event_driver_t.
Proof. derive_enum amdsmi_event_driver_t_decl. Defined.

(** [amdsmi_event_fw_t], lines 495-540. *)
Inductive amdsmi_event_fw_t : Set :=
  | AMDSMI_EVENT_FW_CMD_ALLOC_BUF_FAIL
  | AMDSMI_EVENT_FW_CMD_BUF_PREP_FAIL
  | AMDSMI_EVENT_FW_RING_INIT_FAIL
  | AMDSMI_EVENT_FW_FW_APPLY_SECURITY_POLICY_FAIL
  | AMDSMI_EVENT_FW_START_RING_FAIL
  | AMDSMI_EVENT_FW_FW_LOAD_FAIL
  | AMDSMI_EVENT_FW_EXIT_FAIL
  | AMDSMI_EVENT_FW_INIT_FAIL
  | AMDSMI_EVENT_FW_CMD_SUBMIT_FAIL
  | AMDSMI_EVENT_FW_CMD_FENCE_WAIT_FAIL
  | AMDSMI_EVENT_FW_TMR_LOAD_FAIL
  | AMDSMI_EVENT_FW_TOC_LOAD_FAIL
  | AMDSMI_EVENT_FW_RAS_LOAD_FAIL
  | AMDSMI_EVENT_FW_RAS_UNLOAD_FAIL
  | AMDSMI_EVENT_FW_RAS_TA_INVOKE_FAIL
  | AMDSMI_EVENT_FW_RAS_TA_ERR_INJECT_FAIL
  | AMDSMI_EVENT_FW_ASD_LOAD_FAIL
  | AMDSMI_EVENT_FW_ASD_UNLOAD_FAIL
  | AMDSMI_EVENT_FW_AUTOLOAD_FAIL
  | AMDSMI_EVENT_FW_VFGATE_FAIL
  | AMDSMI_EVENT_FW_XGMI_LOAD_FAIL
  | AMDSMI_EVENT_FW_XGMI_UNLOAD_FAIL
  | AMDSMI_EVENT_FW_XGMI_TA_INVOKE_FAIL
  | AMDSMI_EVENT_FW_TMR_INIT_FAIL
  | AMDSMI_EVENT_FW_NOT_SUPPORTED_FEATURE
  | AMDSMI_EVENT_FW_GET_PSP_TRACELOG_FAIL
  | AMDSMI_EVENT_FW_SET_SNAPSHOT_ADDR_FAIL
  | AMDSMI_EVENT_FW_SNAPSHOT_TRIGGER_FAIL
  | AMDSMI_EVENT_FW_MIGRATION_GET_PSP_INFO_FAIL
  | AMDSMI_EVENT_FW_MIGRATION_EXPORT_FAIL
  | AMDSMI_EVENT_FW_MIGRATION_IMPORT_FAIL
  | AMDSMI_EVENT_FW_BL_FAIL
  | AMDSMI_EVENT_FW_RAS_BOOT_FAIL
  | AMDSMI_EVENT_FW_MAILBOX_ERROR
  | AMDSMI_EVENT_FW__MAX.

Definition amdsmi_event_fw_t_decl : list (amdsmi_event_fw_t * einit amdsmi_event_fw_t) :=
  [ (AMDSMI_EVENT_FW_CMD_ALLOC_BUF_FAIL, Lit 0);
    (AMDSMI_EVENT_FW_CMD_BUF_PREP_FAIL, Next);
    (AMDSMI_EVENT_FW_RING_INIT_FAIL, Next);
    (AMDSMI_EVENT_FW_FW_APPLY_SECURITY_POLICY_FAIL, Next);
    (AMDSMI_EVENT_FW_START_RING_FAIL, Next);
    (AMDSMI_EVENT_FW_FW_LOAD_FAIL, Next);
    (AMDSMI_EVENT_FW_EXIT_FAIL, Next);
    (AMDSMI_EVENT_FW_INIT_FAIL, Next);
    (AMDSMI_EVENT_FW_CMD_SUBMIT_FAIL, Next);
    (AMDSMI_EVENT_FW_CMD_FENCE_WAIT_FAIL, Next);
    (AMDSMI_EVENT_FW_TMR_LOAD_FAIL, Next);
    (AMDSMI_EVENT_FW_TOC_LOAD_FAIL, Next);
    (AMDSMI_EVENT_FW_RAS_LOAD_FAIL, Next);
    (AMDSMI_EVENT_FW_RAS_UNLOAD_FAIL, Next);
    (AMDSMI_EVENT_FW_RAS_TA_INVOKE_FAIL, Next);
    (AMDSMI_EVENT_FW_RAS_TA_ERR_INJECT_FAIL, Next);
    (AMDSMI_EVENT_FW_ASD_LOAD_FAIL, Next);
    (AMDSMI_EVENT_FW_ASD_UNLOAD_FAIL, Next);
    (AMDSMI_EVENT_FW_AUTOLOAD_FAIL, Next);
    (AMDSMI_EVENT_FW_VFGATE_FAIL, Next);
    (AMDSMI_EVENT_FW_XGMI_LOAD_FAIL, Next);
    (AMDSMI_EVENT_FW_XGMI_UNLOAD_FAIL, Next);
    (AMDSMI_EVENT_FW_XGMI_TA_INVOKE_FAIL, Next);
    (AMDSMI_EVENT_FW_TMR_INIT_FAIL, Next);
    (AMDSMI_EVENT_FW_NOT_SUPPORTED_FEATURE, Next);
    (AMDSMI_EVENT_FW_GET_PSP_TRACELOG_FAIL, Next);
    (AMDSMI_EVENT_FW_SET_SNAPSHOT_ADDR_FAIL, Next);
    (AMDSMI_EVENT_FW_SNAPSHOT_TRIGGER_FAIL, Next);
    (AMDSMI_EVENT_FW_MIGRATION_GET_PSP_INFO_FAIL, Next);
    (AMDSMI_EVENT_FW_MIGRATION_EXPORT_FAIL, Next);
    (AMDSMI_EVENT_FW_MIGRATION_IMPORT_FAIL, Next);
    (AMDSMI_EVENT_FW_BL_FAIL, Next);
    (AMDSMI_EVENT_FW_RAS_BOOT_FAIL, Next);
    (AMDSMI_EVENT_FW_MAILBOX_ERROR, Next);
    (AMDSMI_EVENT_FW__MAX, Next) ].

#[global] Instance amdsmi_event_fw_t_enum : CEnum amdsmi_event_fw_t.
Proof. derive_enum amdsmi_event_fw_t_decl. Defined.

(** [amdsmi_event_reset_t], lines 544-550. *)
Inductive amdsmi_event_reset_t : Set :=
  | AMDSMI_EVENT_RESET_GPU
  | AMDSMI_EVENT_RESET_GPU_FAILED
  | AMDSMI_EVENT_RESET_FLR
  | AMDSMI_EVENT_RESET_FLR_FAILED
  | AMDSMI_EVENT_RESET__MAX.

Definition amdsmi_event_reset_t_decl : list (amdsmi_event_reset_t * einit amdsmi_event_reset_t) :=
  [ (AMDSMI_EVENT_RESET_GPU, Lit 0);
    (AMDSMI_EVENT_RESET_GPU_FAILED, Next);
    (AMDSMI_EVENT_RESET_FLR, Next);
    (AMDSMI_EVENT_RESET_FLR_FAILED, Next);
    (AMDSMI_EVENT_RESET__MAX, Next) ].

#[global] Instance amdsmi_event_reset_t_enum : CEnum amdsmi_event_reset_t.
Proof. derive_enum amdsmi_event_reset_t_decl. Defined.

(** [amdsmi_event_iov_t], lines 552-570. *)
Inductive amdsmi_event_iov_t : Set :=
  | AMDSMI_EVENT_IOV_NO_GPU_IOV_CAP
  | AMDSMI_EVENT_IOV_ASIC_NO_SRIOV_SUPPORT
  | AMDSMI_EVENT_IOV_ENABLE_SRIOV_FAIL
  | AMDSMI_EVENT_IOV_CMD_TIMEOUT
  | AMDSMI_EVENT_IOV_CMD_ERROR
  | AMDSMI_EVENT_IOV_INIT_IV_RING_FAIL
  | AMDSMI_EVENT_IOV_SRIOV_STRIDE_ERROR
  | AMDSMI_EVENT_IOV_WS_SAVE_TIMEOUT
  | AMDSMI_EVENT_IOV_WS_IDLE_TIMEOUT
  | AMDSMI_EVENT_IOV_WS_RUN_TIMEOUT
  | AMDSMI_EVENT_IOV_WS_LOAD_TIMEOUT
  | AMDSMI_EVENT_IOV_WS_SHUTDOWN_TIMEOUT
  | AMDSMI_EVENT_IOV_WS_ALREADY_SHUTDOWN
  | AMDSMI_EVENT_IOV_WS_INFINITE_LOOP
  | AMDSMI_EVENT_IOV_WS_REENTRANT_ERROR
  | AMDSMI_EVENT_IOV__MAX.

Definition amdsmi_event_iov_t_decl : list (amdsmi_event_iov_t * einit amdsmi_event_iov_t) :=
  [ (AMDSMI_EVENT_IOV_NO_GPU_IOV_CAP, Lit 0);
    (AMDSMI_EVENT_IOV_ASIC_NO_SRIOV_SUPPORT, Next);
    (AMDSMI_EVENT_IOV_ENABLE_SRIOV_FAIL, Next);
    (AMDSMI_EVENT_IOV_CMD_TIMEOUT, Next);
    (AMDSMI_EVENT_IOV_CMD_ERROR, Next);
    (AMDSMI_EVENT_IOV_INIT_IV_RING_FAIL, Next);
    (AMDSMI_EVENT_IOV_SRIOV_STRIDE_ERROR, Next);
    (AMDSMI_EVENT_IOV_WS_SAVE_TIMEOUT, Next);
    (AMDSMI_EVENT_IOV_WS_IDLE_TIMEOUT, Next);
    (AMDSMI_EVENT_IOV_WS_RUN_TIMEOUT, Next);
    (AMDSMI_EVENT_IOV_WS_LOAD_TIMEOUT, Next);
    (AMDSMI_EVENT_IOV_WS_SHUTDOWN_TIMEOUT, Next);
    (AMDSMI_EVENT_IOV_WS_ALREADY_SHUTDOWN, Next);
    (AMDSMI_EVENT_IOV_WS_INFINITE_LOOP, Next);
    (AMDSMI_EVENT_IOV_WS_REENTRANT_ERROR, Next);
    (AMDSMI_EVENT_IOV__MAX, Next) ].

#[global] Instance amdsmi_event_iov_t_enum : CEnum amdsmi_event_iov_t.
Proof. derive_enum amdsmi_event_iov_t_decl. Defined.

(** [amdsmi_event_ecc_t], lines 572-635. *)
Inductive amdsmi_event_ecc_t : Set :=
  | AMDSMI_EVENT_ECC_UCE
  | AMDSMI_EVENT_ECC_CE
  | AMDSMI_EVENT_ECC_IN_PF_FB
  | AMDSMI_EVENT_ECC_IN_CRI_REG
  | AMDSMI_EVENT_ECC_IN_VF_CRI
  | AMDSMI_EVENT_ECC_REACH_THD
  | AMDSMI_EVENT_ECC_VF_CE
  | AMDSMI_EVENT_ECC_VF_UE
  | AMDSMI_EVENT_ECC_IN_SAME_ROW
  | AMDSMI_EVENT_ECC_UMC_UE
  | AMDSMI_EVENT_ECC_GFX_CE
  | AMDSMI_EVENT_ECC_GFX_UE
  | AMDSMI_EVENT_ECC_SDMA_CE
  | AMDSMI_EVENT_ECC_SDMA_UE
  | AMDSMI_EVENT_ECC_GFX_CE_TOTAL
  | AMDSMI_EVENT_ECC_GFX_UE_TOTAL
  | AMDSMI_EVENT_ECC_SDMA_CE_TOTAL
  | AMDSMI_EVENT_ECC_SDMA_UE_TOTAL
  | AMDSMI_EVENT_ECC_UMC_CE_TOTAL
  | AMDSMI_EVENT_ECC_UMC_UE_TOTAL
  | AMDSMI_EVENT_ECC_MMHUB_CE
  | AMDSMI_EVENT_ECC_MMHUB_UE
  | AMDSMI_EVENT_ECC_MMHUB_CE_TOTAL
  | AMDSMI_EVENT_ECC_MMHUB_UE_TOTAL
  | AMDSMI_EVENT_ECC_XGMI_WAFL_CE
  | AMDSMI_EVENT_ECC_XGMI_WAFL_UE
  | AMDSMI_EVENT_ECC_XGMI_WAFL_CE_TOTAL
  | AMDSMI_EVENT_ECC_XGMI_WAFL_UE_TOTAL
  | AMDSMI_EVENT_ECC_FATAL_ERROR
  | AMDSMI_EVENT_ECC_POISON_CONSUMPTION
  | AMDSMI_EVENT_ECC_ACA_DUMP
  | AMDSMI_EVENT_ECC_WRONG_SOCKET_ID
  | AMDSMI_EVENT_ECC_ACA_UNKNOWN_BLOCK_INSTANCE
  | AMDSMI_EVENT_ECC_UNKNOWN_CHIPLET_CE
  | AMDSMI_EVENT_ECC_UNKNOWN_CHIPLET_UE
  | AMDSMI_EVENT_ECC_UMC_CHIPLET_CE
  | AMDSMI_EVENT_ECC_UMC_CHIPLET_UE
  | AMDSMI_EVENT_ECC_GFX_CHIPLET_CE
  | AMDSMI_EVENT_ECC_GFX_CHIPLET_UE
  | AMDSMI_EVENT_ECC_SDMA_CHIPLET_CE
  | AMDSMI_EVENT_ECC_SDMA_CHIPLET_UE
  | AMDSMI_EVENT_ECC_MMHUB_CHIPLET_CE
  | AMDSMI_EVENT_ECC_MMHUB_CHIPLET_UE
  | AMDSMI_EVENT_ECC_XGMI_WAFL_CHIPLET_CE
  | AMDSMI_EVENT_ECC_XGMI_WAFL_CHIPLET_UE
  | AMDSMI_EVENT_ECC_EEPROM_ENTRIES_FOUND
  | AMDSMI_EVENT_ECC_UMC_DE
  | AMDSMI_EVENT_ECC_UMC_DE_TOTAL
  | AMDSMI_EVENT_ECC_UNKNOWN
  | AMDSMI_EVENT_ECC_EEPROM_REACH_THD
  | AMDSMI_EVENT_ECC_UMC_CHIPLET_DE
  | AMDSMI_EVENT_ECC_UNKNOWN_CHIPLET_DE
  | AMDSMI_EVENT_ECC_EEPROM_CHK_MISMATCH
  | AMDSMI_EVENT_ECC_EEPROM_RESET
  | AMDSMI_EVENT_ECC_EEPROM_RESET_FAILED
  | AMDSMI_EVENT_ECC_EEPROM_APPEND
  | AMDSMI_EVENT_ECC_THD_CHANGED
  | AMDSMI_EVENT_ECC_DUP_ENTRIES
  | AMDSMI_EVENT_ECC_EEPROM_WRONG_HDR
  | AMDSMI_EVENT_ECC_EEPROM_WRONG_VER
  | AMDSMI_EVENT_ECC__MAX.

Definition amdsmi_event_ecc_t_decl : list (amdsmi_event_ecc_t * einit amdsmi_event_ecc_t) :=
  [ (AMDSMI_EVENT_ECC_UCE, Lit 0);
    (AMDSMI_EVENT_ECC_CE, Next);
    (AMDSMI_EVENT_ECC_IN_PF_FB, Next);
    (AMDSMI_EVENT_ECC_IN_CRI_REG, Next);
    (AMDSMI_EVENT_ECC_IN_VF_CRI, Next);
    (AMDSMI_EVENT_ECC_REACH_THD, Next);
    (AMDSMI_EVENT_ECC_VF_CE, Next);
    (AMDSMI_EVENT_ECC_VF_UE, Next);
    (AMDSMI_EVENT_ECC_IN_SAME_ROW, Next);
    (AMDSMI_EVENT_ECC_UMC_UE, Next);
    (AMDSMI_EVENT_ECC_GFX_CE, Next);
    (AMDSMI_EVENT_ECC_GFX_UE, Next);
    (AMDSMI_EVENT_ECC_SDMA_CE, Next);
    (AMDSMI_EVENT_ECC_SDMA_UE, Next);
    (AMDSMI_EVENT_ECC_GFX_CE_TOTAL, Next);
    (AMDSMI_EVENT_ECC_GFX_UE_TOTAL, Next);
    (AMDSMI_EVENT_ECC_SDMA_CE_TOTAL, Next);
    (AMDSMI_EVENT_ECC_SDMA_UE_TOTAL, Next);
    (AMDSMI_EVENT_ECC_UMC_CE_TOTAL, Next);
    (AMDSMI_EVENT_ECC_UMC_UE_TOTAL, Next);
    (AMDSMI_EVENT_ECC_MMHUB_CE, Next);
    (AMDSMI_EVENT_ECC_MMHUB_UE, Next);
    (AMDSMI_EVENT_ECC_MMHUB_CE_TOTAL, Next);
    (AMDSMI_EVENT_ECC_MMHUB_UE_TOTAL, Next);
    (AMDSMI_EVENT_ECC_XGMI_WAFL_CE, Next);
    (AMDSMI_EVENT_ECC_XGMI_WAFL_UE, Next);
    (AMDSMI_EVENT_ECC_XGMI_WAFL_CE_TOTAL, Next);
    (AMDSMI_EVENT_ECC_XGMI_WAFL_UE_TOTAL, Next);
    (AMDSMI_EVENT_ECC_FATAL_ERROR, Next);
    (AMDSMI_EVENT_ECC_POISON_CONSUMPTION, Next);
    (AMDSMI_EVENT_ECC_ACA_DUMP, Next);
    (AMDSMI_EVENT_ECC_WRONG_SOCKET_ID, Next);
    (AMDSMI_EVENT_ECC_ACA_UNKNOWN_BLOCK_INSTANCE, Next);
    (AMDSMI_EVENT_ECC_UNKNOWN_CHIPLET_CE, Next);
    (AMDSMI_EVENT_ECC_UNKNOWN_CHIPLET_UE, Next);
    (AMDSMI_EVENT_ECC_UMC_CHIPLET_CE, Next);
    (AMDSMI_EVENT_ECC_UMC_CHIPLET_UE, Next);
    (AMDSMI_EVENT_ECC_GFX_CHIPLET_CE, Next);
    (AMDSMI_EVENT_ECC_GFX_CHIPLET_UE, Next);
    (AMDSMI_EVENT_ECC_SDMA_CHIPLET_CE, Next);
    (AMDSMI_EVENT_ECC_SDMA_CHIPLET_UE, Next);
    (AMDSMI_EVENT_ECC_MMHUB_CHIPLET_CE, Next);
    (AMDSMI_EVENT_ECC_MMHUB_CHIPLET_UE, Next);
    (AMDSMI_EVENT_ECC_XGMI_WAFL_CHIPLET_CE, Next);
    (AMDSMI_EVENT_ECC_XGMI_WAFL_CHIPLET_UE, Next);
    (AMDSMI_EVENT_ECC_EEPROM_ENTRIES_FOUND, Next);
    (AMDSMI_EVENT_ECC_UMC_DE, Next);
    (AMDSMI_EVENT_ECC_UMC_DE_TOTAL, Next);
    (AMDSMI_EVENT_ECC_UNKNOWN, Next);
    (AMDSMI_EVENT_ECC_EEPROM_REACH_THD, Next);
    (AMDSMI_EVENT_ECC_UMC_CHIPLET_DE, Next);
    (AMDSMI_EVENT_ECC_UNKNOWN_CHIPLET_DE, Next);
    (AMDSMI_EVENT_ECC_EEPROM_CHK_MISMATCH, Next);
    (AMDSMI_EVENT_ECC_EEPROM_RESET, Next);
    (AMDSMI_EVENT_ECC_EEPROM_RESET_FAILED, Next);
    (AMDSMI_EVENT_ECC_EEPROM_APPEND, Next);
    (AMDSMI_EVENT_ECC_THD_CHANGED, Next);
    (AMDSMI_EVENT_ECC_DUP_ENTRIES, Next);
    (AMDSMI_EVENT_ECC_EEPROM_WRONG_HDR, Next);
    (AMDSMI_EVENT_ECC_EEPROM_WRONG_VER, Next);
    (AMDSMI_EVENT_ECC__MAX, Next) ].

#[global] Instance amdsmi_event_ecc_t_enum : CEnum amdsmi_event_ecc_t.
Proof. derive_enum amdsmi_event_ecc_t_decl. Defined.

(** [amdsmi_event_pp_t], lines 637-643. *)
Inductive amdsmi_event_pp_t : Set :=
  | AMDSMI_EVENT_PP_SET_DPM_POLICY_FAIL
  | AMDSMI_EVENT_PP_ACTIVATE_DPM_POLICY_FAIL
  | AMDSMI_EVENT_PP_I2C_SLAVE_NOT_PRESENT
  | AMDSMI_EVENT_PP_THROTTLER_EVENT
  | AMDSMI_EVENT_PP__MAX.

Definition amdsmi_event_pp_t_decl : list (amdsmi_event_pp_t * einit amdsmi_event_pp_t) :=
  [ (AMDSMI_EVENT_PP_SET_DPM_POLICY_FAIL, Lit 0);
    (AMDSMI_EVENT_PP_ACTIVATE_DPM_POLICY_FAIL, Next);
    (AMDSMI_EVENT_PP_I2C_SLAVE_NOT_PRESENT, Next);
    (AMDSMI_EVENT_PP_THROTTLER_EVENT, Next);
    (AMDSMI_EVENT_PP__MAX, Next) ].

#[global] Instance amdsmi_event_pp_t_enum : CEnum amdsmi_event_pp_t.
Proof. derive_enum amdsmi_event_pp_t_decl. Defined.

(** [amdsmi_event_sched_t], lines 645-676. *)
Inductive amdsmi_event_sched_t : Set :=
  | AMDSMI_EVENT_SCHED_WORLD_SWITCH_FAIL
  | AMDSMI_EVENT_SCHED_DISABLE_AUTO_HW_SWITCH_FAIL
  | AMDSMI_EVENT_SCHED_ENABLE_AUTO_HW_SWITCH_FAIL
  | AMDSMI_EVENT_SCHED_GFX_SAVE_REG_FAIL
  | AMDSMI_EVENT_SCHED_GFX_IDLE_REG_FAIL
  | AMDSMI_EVENT_SCHED_GFX_RUN_REG_FAIL
  | AMDSMI_EVENT_SCHED_GFX_LOAD_REG_FAIL
  | AMDSMI_EVENT_SCHED_GFX_INIT_REG_FAIL
  | AMDSMI_EVENT_SCHED_MM_SAVE_REG_FAIL
  | AMDSMI_EVENT_SCHED_MM_IDLE_REG_FAIL
  | AMDSMI_EVENT_SCHED_MM_RUN_REG_FAIL
  | AMDSMI_EVENT_SCHED_MM_LOAD_REG_FAIL
  | AMDSMI_EVENT_SCHED_MM_INIT_REG_FAIL
  | AMDSMI_EVENT_SCHED_INIT_GPU_FAIL
  | AMDSMI_EVENT_SCHED_RUN_GPU_FAIL
  | AMDSMI_EVENT_SCHED_SAVE_GPU_STATE_FAIL
  | AMDSMI_EVENT_SCHED_LOAD_GPU_STATE_FAIL
  | AMDSMI_EVENT_SCHED_IDLE_GPU_FAIL
  | AMDSMI_EVENT_SCHED_FINI_GPU_FAIL
  | AMDSMI_EVENT_SCHED_DEAD_VF
  | AMDSMI_EVENT_SCHED_EVENT_QUEUE_FULL
  | AMDSMI_EVENT_SCHED_SHUTDOWN_VF_FAIL
  | AMDSMI_EVENT_SCHED_RESET_VF_NUM_FAIL
  | AMDSMI_EVENT_SCHED_IGNORE_EVENT
  | AMDSMI_EVENT_SCHED_PF_SWITCH_FAIL
  | AMDSMI_EVENT_SCHED__MAX.

Definition amdsmi_event_sched_t_decl : list (amdsmi_event_sched_t * einit amdsmi_event_sched_t) :=
  [ (AMDSMI_EVENT_SCHED_WORLD_SWITCH_FAIL, Lit 0);
    (AMDSMI_EVENT_SCHED_DISABLE_AUTO_HW_SWITCH_FAIL, Next);
    (AMDSMI_EVENT_SCHED_ENABLE_AUTO_HW_SWITCH_FAIL, Next);
    (AMDSMI_EVENT_SCHED_GFX_SAVE_REG_FAIL, Next);
    (AMDSMI_EVENT_SCHED_GFX_IDLE_REG_FAIL, Next);
    (AMDSMI_EVENT_SCHED_GFX_RUN_REG_FAIL, Next);
    (AMDSMI_EVENT_SCHED_GFX_LOAD_REG_FAIL, Next);
    (AMDSMI_EVENT_SCHED_GFX_INIT_REG_FAIL, Next);
    (AMDSMI_EVENT_SCHED_MM_SAVE_REG_FAIL, Next);
    (AMDSMI_EVENT_SCHED_MM_IDLE_REG_FAIL, Next);
    (AMDSMI_EVENT_SCHED_MM_RUN_REG_FAIL, Next);
    (AMDSMI_EVENT_SCHED_MM_LOAD_REG_FAIL, Next);
    (AMDSMI_EVENT_SCHED_MM_INIT_REG_FAIL, Next);
    (AMDSMI_EVENT_SCHED_INIT_GPU_FAIL, Next);
    (AMDSMI_EVENT_SCHED_RUN_GPU_FAIL, Next);
    (AMDSMI_EVENT_SCHED_SAVE_GPU_STATE_FAIL, Next);
    (AMDSMI_EVENT_SCHED_LOAD_GPU_STATE_FAIL, Next);
    (AMDSMI_EVENT_SCHED_IDLE_GPU_FAIL, Next);
    (AMDSMI_EVENT_SCHED_FINI_GPU_FAIL, Next);
    (AMDSMI_EVENT_SCHED_DEAD_VF, Next);
    (AMDSMI_EVENT_SCHED_EVENT_QUEUE_FULL, Next);
    (AMDSMI_EVENT_SCHED_SHUTDOWN_VF_FAIL, Next);
    (AMDSMI_EVENT_SCHED_RESET_VF_NUM_FAIL, Next);
    (AMDSMI_EVENT_SCHED_IGNORE_EVENT, Next);
    (AMDSMI_EVENT_SCHED_PF_SWITCH_FAIL, Next);
    (AMDSMI_EVENT_SCHED__MAX, Next) ].

#[global] Instance amdsmi_event_sched_t_enum : CEnum amdsmi_event_sched_t.
Proof. derive_enum amdsmi_event_sched_t_decl. Defined.

(** [amdsmi_event_vf_max_t], lines 678-690. *)
Inductive amdsmi_event_vf_max_t : Set :=
  | AMDSMI_EVENT_VF_ATOMBIOS_INIT_FAIL
  | AMDSMI_EVENT_VF_NO_VBIOS
  | AMDSMI_EVENT_VF_GPU_POST_ERROR
  | AMDSMI_EVENT_VF_ATOMBIOS_GET_CLOCK_FAIL
  | AMDSMI_EVENT_VF_FENCE_INIT_FAIL
  | AMDSMI_EVENT_VF_AMDGPU_INIT_FAIL
  | AMDSMI_EVENT_VF_IB_INIT_FAIL
  | AMDSMI_EVENT_VF_AMDGPU_LATE_INIT_FAIL
  | AMDSMI_EVENT_VF_ASIC_RESUME_FAIL
  | AMDSMI_EVENT_VF_GPU_RESET_FAIL
  | AMDSMI_EVENT_VF__MAX.

Definition amdsmi_event_vf_max_t_decl : list (amdsmi_event_vf_max_t * einit amdsmi_event_vf_max_t) :=
  [ (AMDSMI_EVENT_VF_ATOMBIOS_INIT_FAIL, Lit 0);
    (AMDSMI_EVENT_VF_NO_VBIOS, Next);
    (AMDSMI_EVENT_VF_GPU_POST_ERROR, Next);
    (AMDSMI_EVENT_VF_ATOMBIOS_GET_CLOCK_FAIL, Next);
    (AMDSMI_EVENT_VF_FENCE_INIT_FAIL, Next);
    (AMDSMI_EVENT_VF_AMDGPU_INIT_FAIL, Next);
    (AMDSMI_EVENT_VF_IB_INIT_FAIL, Next);
    (AMDSMI_EVENT_VF_AMDGPU_LATE_INIT_FAIL, Next);
    (AMDSMI_EVENT_VF_ASIC_RESUME_FAIL, Next);
    (AMDSMI_EVENT_VF_GPU_RESET_FAIL, Next);
    (AMDSMI_EVENT_VF__MAX, Next) ].

#[global] Instance amdsmi_event_vf_max_t_enum : CEnum amdsmi_event_vf_max_t.
Proof. derive_enum amdsmi_event_vf_max_t_decl. Defined.

(** [amdsmi_event_vbios_t], lines 692-712. *)
Inductive amdsmi_event_vbios_t : Set :=
  | AMDSMI_EVENT_VBIOS_INVALID
  | AMDSMI_EVENT_VBIOS_IMAGE_MISSING
  | AMDSMI_EVENT_VBIOS_CHECKSUM_ERR
  | AMDSMI_EVENT_VBIOS_POST_FAIL
  | AMDSMI_EVENT_VBIOS_READ_FAIL
  | AMDSMI_EVENT_VBIOS_READ_IMG_HEADER_FAIL
  | AMDSMI_EVENT_VBIOS_READ_IMG_SIZE_FAIL
  | AMDSMI_EVENT_VBIOS_GET_FW_INFO_FAIL
  | AMDSMI_EVENT_VBIOS_GET_TBL_REVISION_FAIL
  | AMDSMI_EVENT_VBIOS_PARSER_TBL_FAIL
  | AMDSMI_EVENT_VBIOS_IP_DISCOVERY_FAIL
  | AMDSMI_EVENT_VBIOS_TIMEOUT
  | AMDSMI_EVENT_VBIOS_HASH_INVALID
  | AMDSMI_EVENT_VBIOS_HASH_UPDATED
  | AMDSMI_EVENT_VBIOS_IP_DISCOVERY_BINARY_CHECKSUM_FAIL
  | AMDSMI_EVENT_VBIOS_IP_DISCOVERY_TABLE_CHECKSUM_FAIL
  | AMDSMI_EVENT_VBIOS__MAX.

Definition amdsmi_event_vbios_t_decl : list (amdsmi_event_vbios_t * einit amdsmi_event_vbios_t) :=
  [ (AMDSMI_EVENT_VBIOS_INVALID, Lit 0);
    (AMDSMI_EVENT_VBIOS_IMAGE_MISSING, Next);
    (AMDSMI_EVENT_VBIOS_CHECKSUM_ERR, Next);
    (AMDSMI_EVENT_VBIOS_POST_FAIL, Next);
    (AMDSMI_EVENT_VBIOS_READ_FAIL, Next);
    (AMDSMI_EVENT_VBIOS_READ_IMG_HEADER_FAIL, Next);
    (AMDSMI_EVENT_VBIOS_READ_IMG_SIZE_FAIL, Next);
    (AMDSMI_EVENT_VBIOS_GET_FW_INFO_FAIL, Next);
    (AMDSMI_EVENT_VBIOS_GET_TBL_REVISION_FAIL, Next);
    (AMDSMI_EVENT_VBIOS_PARSER_TBL_FAIL, Next);
    (AMDSMI_EVENT_VBIOS_IP_DISCOVERY_FAIL, Next);
    (AMDSMI_EVENT_VBIOS_TIMEOUT, Next);
    (AMDSMI_EVENT_VBIOS_HASH_INVALID, Next);
    (AMDSMI_EVENT_VBIOS_HASH_UPDATED, Next);
    (AMDSMI_EVENT_VBIOS_IP_DISCOVERY_BINARY_CHECKSUM_FAIL, Next);
    (AMDSMI_EVENT_VBIOS_IP_DISCOVERY_TABLE_CHECKSUM_FAIL, Next);
    (AMDSMI_EVENT_VBIOS__MAX, Next) ].

#[global] Instance amdsmi_event_vbios_t_enum : CEnum amdsmi_event_vbios_t.
Proof. derive_enum amdsmi_event_vbios_t_decl. Defined.

(** [amdsmi_event_guard_t], lines 714-718. *)
Inductive amdsmi_event_guard_t : Set :=
  | AMDSMI_EVENT_GUARD_RESET_FAIL
  | AMDSMI_EVENT_GUARD_EVENT_OVERFLOW
  | AMDSMI_EVENT_GUARD__MAX.

Definition amdsmi_event_guard_t_decl : list (amdsmi_event_guard_t * einit amdsmi_event_guard_t) :=
  [ (AMDSMI_EVENT_GUARD_RESET_FAIL, Lit 0);
    (AMDSMI_EVENT_GUARD_EVENT_OVERFLOW, Next);
    (AMDSMI_EVENT_GUARD__MAX, Next) ].

#[global] Instance amdsmi_event_guard_t_enum : CEnum amdsmi_event_guard_t.
Proof. derive_enum amdsmi_event_guard_t_decl. Defined.

(** [amdsmi_event_gpumon_t], lines 720-737. *)
Inductive amdsmi_event_gpumon_t : Set :=
  | AMDSMI_EVENT_GPUMON_INVALID_OPTION
  | AMDSMI_EVENT_GPUMON_INVALID_VF_INDEX
  | AMDSMI_EVENT_GPUMON_INVALID_FB_SIZE
  | AMDSMI_EVENT_GPUMON_NO_SUITABLE_SPACE
  | AMDSMI_EVENT_GPUMON_NO_AVAILABLE_SLOT
  | AMDSMI_EVENT_GPUMON_OVERSIZE_ALLOCATION
  | AMDSMI_EVENT_GPUMON_OVERLAPPING_FB
  | AMDSMI_EVENT_GPUMON_INVALID_GFX_TIMESLICE
  | AMDSMI_EVENT_GPUMON_INVALID_MM_TIMESLICE
  | AMDSMI_EVENT_GPUMON_INVALID_GFX_PART
  | AMDSMI_EVENT_GPUMON_VF_BUSY
  | AMDSMI_EVENT_GPUMON_INVALID_VF_NUM
  | AMDSMI_EVENT_GPUMON_NOT_SUPPORTED
  | AMDSMI_EVENT_GPUMON__MAX.

Definition amdsmi_event_gpumon_t_decl : list (amdsmi_event_gpumon_t * einit amdsmi_event_gpumon_t) :=
  [ (AMDSMI_EVENT_GPUMON_INVALID_OPTION, Lit 0);
    (AMDSMI_EVENT_GPUMON_INVALID_VF_INDEX, Next);
    (AMDSMI_EVENT_GPUMON_INVALID_FB_SIZE, Next);
    (AMDSMI_EVENT_GPUMON_NO_SUITABLE_SPACE, Next);
    (AMDSMI_EVENT_GPUMON_NO_AVAILABLE_SLOT, Next);
    (AMDSMI_EVENT_GPUMON_OVERSIZE_ALLOCATION, Next);
    (AMDSMI_EVENT_GPUMON_OVERLAPPING_FB, Next);
    (AMDSMI_EVENT_GPUMON_INVALID_GFX_TIMESLICE, Next);
    (AMDSMI_EVENT_GPUMON_INVALID_MM_TIMESLICE, Next);
    (AMDSMI_EVENT_GPUMON_INVALID_GFX_PART, Next);
    (AMDSMI_EVENT_GPUMON_VF_BUSY, Next);
    (AMDSMI_EVENT_GPUMON_INVALID_VF_NUM, Next);
    (AMDSMI_EVENT_GPUMON_NOT_SUPPORTED, Next);
    (AMDSMI_EVENT_GPUMON__MAX, Next) ].

#[global] Instance amdsmi_event_gpumon_t_enum : CEnum amdsmi_event_gpumon_t.
Proof. derive_enum amdsmi_event_gpumon_t_decl. Defined.

(** [amdsmi_event_mmsch_t], lines 739-743. *)
Inductive amdsmi_event_mmsch_t : Set :=
  | AMDSMI_EVENT_MMSCH_IGNORED_JOB
  | AMDSMI_EVENT_MMSCH_UNSUPPORTED_VCN_FW
  | AMDSMI_EVENT_MMSCH__MAX.

Definition amdsmi_event_mmsch_t_decl : list (amdsmi_event_mmsch_t * einit amdsmi_event_mmsch_t) :=
  [ (AMDSMI_EVENT_MMSCH_IGNORED_JOB, Lit 0);
    (AMDSMI_EVENT_MMSCH_UNSUPPORTED_VCN_FW, Next);
    (AMDSMI_EVENT_MMSCH__MAX, Next) ].

#[global] Instance amdsmi_event_mmsch_t_enum : CEnum amdsmi_event_mmsch_t.
Proof. derive_enum amdsmi_event_mmsch_t_decl. Defined.

(** [amdsmi_event_xgmi_t], lines 745-752. *)
Inductive amdsmi_event_xgmi_t : Set :=
  | AMDSMI_EVENT_XGMI_TOPOLOGY_UPDATE_FAILED
  | AMDSMI_EVENT_XGMI_TOPOLOGY_HW_INIT_UPDATE
  | AMDSMI_EVENT_XGMI_TOPOLOGY_UPDATE_DONE
  | AMDSMI_EVENT_XGMI_FB_SHARING_SETTING_ERROR
  | AMDSMI_EVENT_XGMI_FB_SHARING_SETTING_RESET
  | AMDSMI_EVENT_XGMI__MAX.

Definition amdsmi_event_xgmi_t_decl : list (amdsmi_event_xgmi_t * einit amdsmi_event_xgmi_t) :=
  [ (AMDSMI_EVENT_XGMI_TOPOLOGY_UPDATE_FAILED, Lit 0);
    (AMDSMI_EVENT_XGMI_TOPOLOGY_HW_INIT_UPDATE, Next);
    (AMDSMI_EVENT_XGMI_TOPOLOGY_UPDATE_DONE, Next);
    (AMDSMI_EVENT_XGMI_FB_SHARING_SETTING_ERROR, Next);
    (AMDSMI_EVENT_XGMI_FB_SHARING_SETTING_RESET, Next);
    (AMDSMI_EVENT_XGMI__MAX, Next) ].

#[global] Instance amdsmi_event_xgmi_t_enum : CEnum amdsmi_event_xgmi_t.
Proof. derive_enum amdsmi_event_xgmi_t_decl. Defined.

(** [amdsmi_ecc_correction_schema_support_t], lines 757-762: The values of
    this enum are used to identify supported ecc correction schema *)
Inductive amdsmi_ecc_correction_schema_support_t : Set :=
  | AMDSMI_RAS_ECC_SUPPORT_PARITY
  | AMDSMI_RAS_ECC_SUPPORT_CORRECTABLE
  | AMDSMI_RAS_ECC_SUPPORT_UNCORRECTABLE
  | AMDSMI_RAS_ECC_SUPPORT_POISON.

Definition amdsmi_ecc_correction_schema_support_t_decl : list (amdsmi_ecc_correction_schema_support_t * einit amdsmi_ecc_correction_schema_support_t) :=
  [ (AMDSMI_RAS_ECC_SUPPORT_PARITY, Shl 1 0);
    (AMDSMI_RAS_ECC_SUPPORT_CORRECTABLE, Shl 1 1);
    (AMDSMI_RAS_ECC_SUPPORT_UNCORRECTABLE, Shl 1 2);
    (AMDSMI_RAS_ECC_SUPPORT_POISON, Shl 1 3) ].

#[global] Instance amdsmi_ecc_correction_schema_support_t_enum : CEnum amdsmi_ecc_correction_schema_support_t.
Proof. derive_enum amdsmi_ecc_correction_schema_support_t_decl. Defined.

(** [amdsmi_guest_fw_engine_id_t], lines 768-791: The values of this enum
    are used to identify the various firmware blocks. *)
Inductive amdsmi_guest_fw_engine_id_t : Set :=
  | AMDSMI_GUEST_FW_ID_VCE
  | AMDSMI_GUEST_FW_ID_UVD
  | AMDSMI_GUEST_FW_ID_MC
  | AMDSMI_GUEST_FW_ID_ME
  | AMDSMI_GUEST_FW_ID_PFP
  | AMDSMI_GUEST_FW_ID_CE
  | AMDSMI_GUEST_FW_ID_RLC
  | AMDSMI_GUEST_FW_ID_RLC_SRLC
  | AMDSMI_GUEST_FW_ID_RLC_SRLG
  | AMDSMI_GUEST_FW_ID_RLC_SRLS
  | AMDSMI_GUEST_FW_ID_MEC
  | AMDSMI_GUEST_FW_ID_MEC2
  | AMDSMI_GUEST_FW_ID_SOS
  | AMDSMI_GUEST_FW_ID_ASD
  | AMDSMI_GUEST_FW_ID_TA_RAS
  | AMDSMI_GUEST_FW_ID_TA_XGMI
  | AMDSMI_GUEST_FW_ID_SMC
  | AMDSMI_GUEST_FW_ID_SDMA
  | AMDSMI_GUEST_FW_ID_SDMA2
  | AMDSMI_GUEST_FW_ID_VCN
  | AMDSMI_GUEST_FW_ID_DMCU
  | AMDSMI_GUEST_FW_ID__MAX.

Definition amdsmi_guest_fw_engine_id_t_decl : list (amdsmi_guest_fw_engine_id_t * einit amdsmi_guest_fw_engine_id_t) :=
  [ (AMDSMI_GUEST_FW_ID_VCE, Lit 0);
    (AMDSMI_GUEST_FW_ID_UVD, Next);
    (AMDSMI_GUEST_FW_ID_MC, Next);
    (AMDSMI_GUEST_FW_ID_ME, Next);
    (AMDSMI_GUEST_FW_ID_PFP, Next);
    (AMDSMI_GUEST_FW_ID_CE, Next);
    (AMDSMI_GUEST_FW_ID_RLC, Next);
    (AMDSMI_GUEST_FW_ID_RLC_SRLC, Next);
    (AMDSMI_GUEST_FW_ID_RLC_SRLG, Next);
    (AMDSMI_GUEST_FW_ID_RLC_SRLS, Next);
    (AMDSMI_GUEST_FW_ID_MEC, Next);
    (AMDSMI_GUEST_FW_ID_MEC2, Next);
    (AMDSMI_GUEST_FW_ID_SOS, Next);
    (AMDSMI_GUEST_FW_ID_ASD, Next);
    (AMDSMI_GUEST_FW_ID_TA_RAS, Next);
    (AMDSMI_GUEST_FW_ID_TA_XGMI, Next);
    (AMDSMI_GUEST_FW_ID_SMC, Next);
    (AMDSMI_GUEST_FW_ID_SDMA, Next);
    (AMDSMI_GUEST_FW_ID_SDMA2, Next);
    (AMDSMI_GUEST_FW_ID_VCN, Next);
    (AMDSMI_GUEST_FW_ID_DMCU, Next);
    (AMDSMI_GUEST_FW_ID__MAX, Next) ].

#[global] Instance amdsmi_guest_fw_engine_id_t_enum : CEnum amdsmi_guest_fw_engine_id_t.
Proof. derive_enum amdsmi_guest_fw_engine_id_t_decl. Defined.

(** [amdsmi_vf_config_flags_t], lines 793-808. *)
Inductive amdsmi_vf_config_flags_t : Set :=
  | AMDSMI_VF_CONFIG_FB_SIZE_SET
  | AMDSMI_VF_CONFIG_FB_OFFSET_SET
  | AMDSMI_VF_CONFIG_GFX_TIMESLICE_US_SET
  | AMDSMI_VF_CONFIG_ENG_COMPUTE_BW_SET
  | AMDSMI_VF_CONFIG_GUARD_THRESHOLD_FLR_SET
  | AMDSMI_VF_CONFIG_GUARD_THRESHOLD_EXCL_MOD_SET
  | AMDSMI_VF_CONFIG_GUARD_THRESHOLD_EXCL_TIMEOUT_SET
  | AMDSMI_VF_CONFIG_GUARD_THRESHOLD_ALL_INT_SET
  | AMDSMI_VF_CONFIG_ENG_ENCODE_BW_UVD_SET
  | AMDSMI_VF_CONFIG_ENG_ENCODE_BW_VCE_SET
  | AMDSMI_VF_CONFIG_ENG_ENCODE_BW_UVD1_SET
  | AMDSMI_VF_CONFIG_ENG_ENCODE_BW_VCN_SET
  | AMDSMI_VF_CONFIG_ENG_ENCODE_BW_VCN1_SET
  | AMDSMI_VF_CONFIG__MAX.

Definition amdsmi_vf_config_flags_t_decl : list (amdsmi_vf_config_flags_t * einit amdsmi_vf_config_flags_t) :=
  [ (AMDSMI_VF_CONFIG_FB_SIZE_SET, Lit 0);
    (AMDSMI_VF_CONFIG_FB_OFFSET_SET, Next);
    (AMDSMI_VF_CONFIG_GFX_TIMESLICE_US_SET, Next);
    (AMDSMI_VF_CONFIG_ENG_COMPUTE_BW_SET, Next);
    (AMDSMI_VF_CONFIG_GUARD_THRESHOLD_FLR_SET, Next);
    (AMDSMI_VF_CONFIG_GUARD_THRESHOLD_EXCL_MOD_SET, Next);
    (AMDSMI_VF_CONFIG_GUARD_THRESHOLD_EXCL_TIMEOUT_SET, Next);
    (AMDSMI_VF_CONFIG_GUARD_THRESHOLD_ALL_INT_SET, Next);
    (AMDSMI_VF_CONFIG_ENG_ENCODE_BW_UVD_SET, Next);
    (AMDSMI_VF_CONFIG_ENG_ENCODE_BW_VCE_SET, Next);
    (AMDSMI_VF_CONFIG_ENG_ENCODE_BW_UVD1_SET, Next);
    (AMDSMI_VF_CONFIG_ENG_ENCODE_BW_VCN_SET, Next);
    (AMDSMI_VF_CONFIG_ENG_ENCODE_BW_VCN1_SET, Next);
    (AMDSMI_VF_CONFIG__MAX, Next) ].

#[global] Instance amdsmi_vf_config_flags_t_enum : CEnum amdsmi_vf_config_flags_t.
Proof. derive_enum amdsmi_vf_config_flags_t_decl. Defined.

(** [amdsmi_vf_sched_state_t], lines 810-817. *)
Inductive amdsmi_vf_sched_state_t : Set :=
  | AMDSMI_VF_STATE_UNAVAILABLE
  | AMDSMI_VF_STATE_AVAILABLE
  | AMDSMI_VF_STATE_ACTIVE
  | AMDSMI_VF_STATE_SUSPENDED
  | AMDSMI_VF_STATE_FULLACCESS
  | AMDSMI_VF_STATE_DEFAULT_AVAILABLE.

Definition amdsmi_vf_sched_state_t_decl : list (amdsmi_vf_sched_state_t * einit amdsmi_vf_sched_state_t) :=
  [ (AMDSMI_VF_STATE_UNAVAILABLE, Next);
    (AMDSMI_VF_STATE_AVAILABLE, Next);
    (AMDSMI_VF_STATE_ACTIVE, Next);
    (AMDSMI_VF_STATE_SUSPENDED, Next);
    (AMDSMI_VF_STATE_FULLACCESS, Next);
    (AMDSMI_VF_STATE_DEFAULT_AVAILABLE, Next) ].

#[global] Instance amdsmi_vf_sched_state_t_enum : CEnum amdsmi_vf_sched_state_t.
Proof. derive_enum amdsmi_vf_sched_state_t_decl. Defined.

(** [amdsmi_guard_type_t], lines 819-825. *)
Inductive amdsmi_guard_type_t : Set :=
  | AMDSMI_GUARD_EVENT_FLR
  | AMDSMI_GUARD_EVENT_EXCLUSIVE_MOD
  | AMDSMI_GUARD_EVENT_EXCLUSIVE_TIMEOUT
  | AMDSMI_GUARD_EVENT_ALL_INT
  | AMDSMI_GUARD_EVENT__MAX.

Definition amdsmi_guard_type_t_decl : list (amdsmi_guard_type_t * einit amdsmi_guard_type_t) :=
  [ (AMDSMI_GUARD_EVENT_FLR, Next);
    (AMDSMI_GUARD_EVENT_EXCLUSIVE_MOD, Next);
    (AMDSMI_GUARD_EVENT_EXCLUSIVE_TIMEOUT, Next);
    (AMDSMI_GUARD_EVENT_ALL_INT, Next);
    (AMDSMI_GUARD_EVENT__MAX, Next) ].

#[global] Instance amdsmi_guard_type_t_enum : CEnum amdsmi_guard_type_t.
Proof. derive_enum amdsmi_guard_type_t_decl. Defined.

(** [amdsmi_driver_t], lines 827-834. *)
Inductive amdsmi_driver_t : Set :=
  | AMDSMI_DRIVER_LIBGV
  | AMDSMI_DRIVER_KMD
  | AMDSMI_DRIVER_AMDGPUV
  | AMDSMI_DRIVER_AMDGPU
  | AMDSMI_DRIVER_VMWGPUV
  | AMDSMI_DRIVER__MAX.

Definition amdsmi_driver_t_decl : list (amdsmi_driver_t * einit amdsmi_driver_t) :=
  [ (AMDSMI_DRIVER_LIBGV, Next);
    (AMDSMI_DRIVER_KMD, Next);
    (AMDSMI_DRIVER_AMDGPUV, Next);
    (AMDSMI_DRIVER_AMDGPU, Next);
    (AMDSMI_DRIVER_VMWGPUV, Next);
    (AMDSMI_DRIVER__MAX, Next) ].

#[global] Instance amdsmi_driver_t_enum : CEnum amdsmi_driver_t.
Proof. derive_enum amdsmi_driver_t_decl. Defined.

(** [amdsmi_guard_state_t], lines 836-840. *)
Inductive amdsmi_guard_state_t : Set :=
  | AMDSMI_GUARD_STATE_NORMAL
  | AMDSMI_GUARD_STATE_FULL
  | AMDSMI_GUARD_STATE_OVERFLOW.

Definition amdsmi_guard_state_t_decl : list (amdsmi_guard_state_t * einit amdsmi_guard_state_t) :=
  [ (AMDSMI_GUARD_STATE_NORMAL, Lit 0);
    (AMDSMI_GUARD_STATE_FULL, Lit 1);
    (AMDSMI_GUARD_STATE_OVERFLOW, Lit 2) ].

#[global] Instance amdsmi_guard_state_t_enum : CEnum amdsmi_guard_state_t.
Proof. derive_enum amdsmi_guard_state_t_decl. Defined.

(** [amdsmi_sched_block_t], lines 842-849. *)
Inductive amdsmi_sched_block_t : Set :=
  | AMDSMI_SCHED_BLOCK_GFX
  | AMDSMI_SCHED_BLOCK_UVD
  | AMDSMI_SCHED_BLOCK_VCE
  | AMDSMI_SCHED_BLOCK_UVD1
  | AMDSMI_SCHED_BLOCK_VCN
  | AMDSMI_SCHED_BLOCK_VCN1.

Definition amdsmi_sched_block_t_decl : list (amdsmi_sched_block_t * einit amdsmi_sched_block_t) :=
  [ (AMDSMI_SCHED_BLOCK_GFX, Lit 0);
    (AMDSMI_SCHED_BLOCK_UVD, Lit 1);
    (AMDSMI_SCHED_BLOCK_VCE, Lit 2);
    (AMDSMI_SCHED_BLOCK_UVD1, Lit 3);
    (AMDSMI_SCHED_BLOCK_VCN, Lit 4);
    (AMDSMI_SCHED_BLOCK_VCN1, Lit 5) ].

#[global] Instance amdsmi_sched_block_t_enum : CEnum amdsmi_sched_block_t.
Proof. derive_enum amdsmi_sched_block_t_decl. Defined.

(** [amdsmi_guest_fw_load_status_t], lines 851-857. *)
Inductive amdsmi_guest_fw_load_status_t : Set :=
  | GUEST_FW_LOAD_STATUS_OK
  | GUEST_FW_LOAD_STATUS_OBSOLETE_FW
  | GUEST_FW_LOAD_STATUS_BAD_SIG
  | GUEST_FW_LOAD_STATUS_FW_LOAD_FAIL
  | GUEST_FW_LOAD_STATUS_ERR_GENERIC.

Definition amdsmi_guest_fw_load_status_t_decl : list (amdsmi_guest_fw_load_status_t * einit amdsmi_guest_fw_load_status_t) :=
  [ (GUEST_FW_LOAD_STATUS_OK, Lit 0);
    (GUEST_FW_LOAD_STATUS_OBSOLETE_FW, Lit 1);
    (GUEST_FW_LOAD_STATUS_BAD_SIG, Lit 2);
    (GUEST_FW_LOAD_STATUS_FW_LOAD_FAIL, Lit 3);
    (GUEST_FW_LOAD_STATUS_ERR_GENERIC, Lit 4) ].

#[global] Instance amdsmi_guest_fw_load_status_t_enum : CEnum amdsmi_guest_fw_load_status_t.
Proof. derive_enum amdsmi_guest_fw_load_status_t_decl. Defined.

(** [amdsmi_link_status_t], lines 860-864. *)
Inductive amdsmi_link_status_t : Set :=
  | AMDSMI_LINK_STATUS_ENABLED
  | AMDSMI_LINK_STATUS_DISABLED
  | AMDSMI_LINK_STATUS_ERROR.

Definition amdsmi_link_status_t_decl : list (amdsmi_link_status_t * einit amdsmi_link_status_t) :=
  [ (AMDSMI_LINK_STATUS_ENABLED, Lit 0);
    (AMDSMI_LINK_STATUS_DISABLED, Lit 1);
    (AMDSMI_LINK_STATUS_ERROR, Lit 2) ].

#[global] Instance amdsmi_link_status_t_enum : CEnum amdsmi_link_status_t.
Proof. derive_enum amdsmi_link_status_t_decl. Defined.

(** [amdsmi_link_type_t], lines 866-872. *)
Inductive amdsmi_link_type_t : Set :=
  | AMDSMI_LINK_TYPE_INTERNAL
  | AMDSMI_LINK_TYPE_XGMI
  | AMDSMI_LINK_TYPE_PCIE
  | AMDSMI_LINK_TYPE_NOT_APPLICABLE
  | AMDSMI_LINK_TYPE_UNKNOWN.

Definition amdsmi_link_type_t_decl : list (amdsmi_link_type_t * einit amdsmi_link_type_t) :=
  [ (AMDSMI_LINK_TYPE_INTERNAL, Next);
    (AMDSMI_LINK_TYPE_XGMI, Next);
    (AMDSMI_LINK_TYPE_PCIE, Next);
    (AMDSMI_LINK_TYPE_NOT_APPLICABLE, Next);
    (AMDSMI_LINK_TYPE_UNKNOWN, Next) ].

#[global] Instance amdsmi_link_type_t_enum : CEnum amdsmi_link_type_t.
Proof. derive_enum amdsmi_link_type_t_decl. Defined.

(** [amdsmi_xgmi_fb_sharing_mode_t], lines 874-881. *)
Inductive amdsmi_xgmi_fb_sharing_mode_t : Set :=
  | AMDSMI_XGMI_FB_SHARING_MODE_CUSTOM
  | AMDSMI_XGMI_FB_SHARING_MODE_1
  | AMDSMI_XGMI_FB_SHARING_MODE_2
  | AMDSMI_XGMI_FB_SHARING_MODE_4
  | AMDSMI_XGMI_FB_SHARING_MODE_8
  | AMDSMI_XGMI_FB_SHARING_MODE_UNKNOWN.

Definition amdsmi_xgmi_fb_sharing_mode_t_decl : list (amdsmi_xgmi_fb_sharing_mode_t * einit amdsmi_xgmi_fb_sharing_mode_t) :=
  [ (AMDSMI_XGMI_FB_SHARING_MODE_CUSTOM, Lit 0);
    (AMDSMI_XGMI_FB_SHARING_MODE_1, Lit 1);
    (AMDSMI_XGMI_FB_SHARING_MODE_2, Lit 2);
    (AMDSMI_XGMI_FB_SHARING_MODE_4, Lit 4);
    (AMDSMI_XGMI_FB_SHARING_MODE_8, Lit 8);
    (AMDSMI_XGMI_FB_SHARING_MODE_UNKNOWN, Lit 4294967295) ].

#[global] Instance amdsmi_xgmi_fb_sharing_mode_t_enum : CEnum amdsmi_xgmi_fb_sharing_mode_t.
Proof. derive_enum amdsmi_xgmi_fb_sharing_mode_t_decl. Defined.

(** [amdsmi_profile_capability_type_t], lines 883-889. *)
Inductive amdsmi_profile_capability_type_t : Set :=
  | AMDSMI_PROFILE_CAPABILITY_MEMORY
  | AMDSMI_PROFILE_CAPABILITY_ENCODE
  | AMDSMI_PROFILE_CAPABILITY_DECODE
  | AMDSMI_PROFILE_CAPABILITY_COMPUTE
  | AMDSMI_PROFILE_CAPABILITY__MAX.

Definition amdsmi_profile_capability_type_t_decl : list (amdsmi_profile_capability_type_t * einit amdsmi_profile_capability_type_t) :=
  [ (AMDSMI_PROFILE_CAPABILITY_MEMORY, Lit 0);
    (AMDSMI_PROFILE_CAPABILITY_ENCODE, Lit 1);
    (AMDSMI_PROFILE_CAPABILITY_DECODE, Lit 2);
    (AMDSMI_PROFILE_CAPABILITY_COMPUTE, Lit 3);
    (AMDSMI_PROFILE_CAPABILITY__MAX, Next) ].

#[global] Instance amdsmi_profile_capability_type_t_enum : CEnum amdsmi_profile_capability_type_t.
Proof. derive_enum amdsmi_profile_capability_type_t_decl. Defined.

(** [amdsmi_vram_type_t], lines 891-910. *)
Inductive amdsmi_vram_type_t : Set :=
  | AMDSMI_VRAM_TYPE_UNKNOWN
  | AMDSMI_VRAM_TYPE_HBM
  | AMDSMI_VRAM_TYPE_HBM2
  | AMDSMI_VRAM_TYPE_HBM2E
  | AMDSMI_VRAM_TYPE_HBM3
  | AMDSMI_VRAM_TYPE_DDR2
  | AMDSMI_VRAM_TYPE_DDR3
  | AMDSMI_VRAM_TYPE_DDR4
  | AMDSMI_VRAM_TYPE_GDDR1
  | AMDSMI_VRAM_TYPE_GDDR2
  | AMDSMI_VRAM_TYPE_GDDR3
  | AMDSMI_VRAM_TYPE_GDDR4
  | AMDSMI_VRAM_TYPE_GDDR5
  | AMDSMI_VRAM_TYPE_GDDR6
  | AMDSMI_VRAM_TYPE_GDDR7.

Definition amdsmi_vram_type_t_decl : list (amdsmi_vram_type_t * einit amdsmi_vram_type_t) :=
  [ (AMDSMI_VRAM_TYPE_UNKNOWN, Lit 0);
    (AMDSMI_VRAM_TYPE_HBM, Lit 1);
    (AMDSMI_VRAM_TYPE_HBM2, Lit 2);
    (AMDSMI_VRAM_TYPE_HBM2E, Lit 3);
    (AMDSMI_VRAM_TYPE_HBM3, Lit 4);
    (AMDSMI_VRAM_TYPE_DDR2, Lit 10);
    (AMDSMI_VRAM_TYPE_DDR3, Lit 11);
    (AMDSMI_VRAM_TYPE_DDR4, Lit 12);
    (AMDSMI_VRAM_TYPE_GDDR1, Lit 17);
    (AMDSMI_VRAM_TYPE_GDDR2, Lit 18);
    (AMDSMI_VRAM_TYPE_GDDR3, Lit 19);
    (AMDSMI_VRAM_TYPE_GDDR4, Lit 20);
    (AMDSMI_VRAM_TYPE_GDDR5, Lit 21);
    (AMDSMI_VRAM_TYPE_GDDR6, Lit 22);
    (AMDSMI_VRAM_TYPE_GDDR7, Lit 23) ].

#[global] Instance amdsmi_vram_type_t_enum : CEnum amdsmi_vram_type_t.
Proof. derive_enum amdsmi_vram_type_t_decl. Defined.

(** [amdsmi_vram_vendor_t], lines 912-924. *)
Inductive amdsmi_vram_vendor_t : Set :=
  | AMDSMI_VRAM_VENDOR_SAMSUNG
  | AMDSMI_VRAM_VENDOR_INFINEON
  | AMDSMI_VRAM_VENDOR_ELPIDA
  | AMDSMI_VRAM_VENDOR_ETRON
  | AMDSMI_VRAM_VENDOR_NANYA
  | AMDSMI_VRAM_VENDOR_HYNIX
  | AMDSMI_VRAM_VENDOR_MOSEL
  | AMDSMI_VRAM_VENDOR_WINBOND
  | AMDSMI_VRAM_VENDOR_ESMT
  | AMDSMI_VRAM_VENDOR_MICRON
  | AMDSMI_VRAM_VENDOR_UNKNOWN.

Definition amdsmi_vram_vendor_t_decl : list (amdsmi_vram_vendor_t * einit amdsmi_vram_vendor_t) :=
  [ (AMDSMI_VRAM_VENDOR_SAMSUNG, Next);
    (AMDSMI_VRAM_VENDOR_INFINEON, Next);
    (AMDSMI_VRAM_VENDOR_ELPIDA, Next);
    (AMDSMI_VRAM_VENDOR_ETRON, Next);
    (AMDSMI_VRAM_VENDOR_NANYA, Next);
    (AMDSMI_VRAM_VENDOR_HYNIX, Next);
    (AMDSMI_VRAM_VENDOR_MOSEL, Next);
    (AMDSMI_VRAM_VENDOR_WINBOND, Next);
    (AMDSMI_VRAM_VENDOR_ESMT, Next);
    (AMDSMI_VRAM_VENDOR_MICRON, Next);
    (AMDSMI_VRAM_VENDOR_UNKNOWN, Next) ].

#[global] Instance amdsmi_vram_vendor_t_enum : CEnum amdsmi_vram_vendor_t.
Proof. derive_enum amdsmi_vram_vendor_t_decl. Defined.

(** [amdsmi_gpu_block_t], lines 926-951. *)
Inductive amdsmi_gpu_block_t : Set :=
  | AMDSMI_GPU_BLOCK_INVALID
  | AMDSMI_GPU_BLOCK_FIRST
  | AMDSMI_GPU_BLOCK_UMC
  | AMDSMI_GPU_BLOCK_SDMA
  | AMDSMI_GPU_BLOCK_GFX
  | AMDSMI_GPU_BLOCK_MMHUB
  | AMDSMI_GPU_BLOCK_ATHUB
  | AMDSMI_GPU_BLOCK_PCIE_BIF
  | AMDSMI_GPU_BLOCK_HDP
  | AMDSMI_GPU_BLOCK_XGMI_WAFL
  | AMDSMI_GPU_BLOCK_DF
  | AMDSMI_GPU_BLOCK_SMN
  | AMDSMI_GPU_BLOCK_SEM
  | AMDSMI_GPU_BLOCK_MP0
  | AMDSMI_GPU_BLOCK_MP1
  | AMDSMI_GPU_BLOCK_FUSE
  | AMDSMI_GPU_BLOCK_MCA
  | AMDSMI_GPU_BLOCK_VCN
  | AMDSMI_GPU_BLOCK_JPEG
  | AMDSMI_GPU_BLOCK_IH
  | AMDSMI_GPU_BLOCK_MPIO
  | AMDSMI_GPU_BLOCK_LAST.

Definition amdsmi_gpu_block_t_decl : list (amdsmi_gpu_block_t * einit amdsmi_gpu_block_t) :=
  [ (AMDSMI_GPU_BLOCK_INVALID, Lit 0);
    (AMDSMI_GPU_BLOCK_FIRST, Shl 1 0);
    (AMDSMI_GPU_BLOCK_UMC, Ref AMDSMI_GPU_BLOCK_FIRST);
    (AMDSMI_GPU_BLOCK_SDMA, Shl 1 1);
    (AMDSMI_GPU_BLOCK_GFX, Shl 1 2);
    (AMDSMI_GPU_BLOCK_MMHUB, Shl 1 3);
    (AMDSMI_GPU_BLOCK_ATHUB, Shl 1 4);
    (AMDSMI_GPU_BLOCK_PCIE_BIF, Shl 1 5);
    (AMDSMI_GPU_BLOCK_HDP, Shl 1 6);
    (AMDSMI_GPU_BLOCK_XGMI_WAFL, Shl 1 7);
    (AMDSMI_GPU_BLOCK_DF, Shl 1 8);
    (AMDSMI_GPU_BLOCK_SMN, Shl 1 9);
    (AMDSMI_GPU_BLOCK_SEM, Shl 1 10);
    (AMDSMI_GPU_BLOCK_MP0, Shl 1 11);
    (AMDSMI_GPU_BLOCK_MP1, Shl 1 12);
    (AMDSMI_GPU_BLOCK_FUSE, Shl 1 13);
    (AMDSMI_GPU_BLOCK_MCA, Shl 1 14);
    (AMDSMI_GPU_BLOCK_VCN, Shl 1 15);
    (AMDSMI_GPU_BLOCK_JPEG, Shl 1 16);
    (AMDSMI_GPU_BLOCK_IH, Shl 1 17);
    (AMDSMI_GPU_BLOCK_MPIO, Shl 1 18);
    (AMDSMI_GPU_BLOCK_LAST, Ref AMDSMI_GPU_BLOCK_MPIO) ].

#[global] Instance amdsmi_gpu_block_t_enum : CEnum amdsmi_gpu_block_t.
Proof. derive_enum amdsmi_gpu_block_t_decl. Defined.

(** [amdsmi_card_form_factor_t], lines 953-958. *)
Inductive amdsmi_card_form_factor_t : Set :=
  | AMDSMI_CARD_FORM_FACTOR_PCIE
  | AMDSMI_CARD_FORM_FACTOR_OAM
  | AMDSMI_CARD_FORM_FACTOR_CEM
  | AMDSMI_CARD_FORM_FACTOR_UNKNOWN.

Definition amdsmi_card_form_factor_t_decl : list (amdsmi_card_form_factor_t * einit amdsmi_card_form_factor_t) :=
  [ (AMDSMI_CARD_FORM_FACTOR_PCIE, Next);
    (AMDSMI_CARD_FORM_FACTOR_OAM, Next);
    (AMDSMI_CARD_FORM_FACTOR_CEM, Next);
    (AMDSMI_CARD_FORM_FACTOR_UNKNOWN, Next) ].

#[global] Instance amdsmi_card_form_factor_t_enum : CEnum amdsmi_card_form_factor_t.
Proof. derive_enum amdsmi_card_form_factor_t_decl. Defined.

(** [amdsmi_metric_category_t], lines 961-971. *)
Inductive amdsmi_metric_category_t : Set :=
  | AMDSMI_METRIC_CATEGORY_ACC_COUNTER
  | AMDSMI_METRIC_CATEGORY_FREQUENCY
  | AMDSMI_METRIC_CATEGORY_ACTIVITY
  | AMDSMI_METRIC_CATEGORY_TEMPERATURE
  | AMDSMI_METRIC_CATEGORY_POWER
  | AMDSMI_METRIC_CATEGORY_ENERGY
  | AMDSMI_METRIC_CATEGORY_THROTTLE
  | AMDSMI_METRIC_CATEGORY_PCIE
  | AMDSMI_METRIC_CATEGORY_UNKNOWN.

Definition amdsmi_metric_category_t_decl : list (amdsmi_metric_category_t * einit amdsmi_metric_category_t) :=
  [ (AMDSMI_METRIC_CATEGORY_ACC_COUNTER, Next);
    (AMDSMI_METRIC_CATEGORY_FREQUENCY, Next);
    (AMDSMI_METRIC_CATEGORY_ACTIVITY, Next);
    (AMDSMI_METRIC_CATEGORY_TEMPERATURE, Next);
    (AMDSMI_METRIC_CATEGORY_POWER, Next);
    (AMDSMI_METRIC_CATEGORY_ENERGY, Next);
    (AMDSMI_METRIC_CATEGORY_THROTTLE, Next);
    (AMDSMI_METRIC_CATEGORY_PCIE, Next);
    (AMDSMI_METRIC_CATEGORY_UNKNOWN, Next) ].

#[global] Instance amdsmi_metric_category_t_enum : CEnum amdsmi_metric_category_t.
Proof. derive_enum amdsmi_metric_category_t_decl. Defined.

(** [amdsmi_metric_name_t], lines 973-1046. *)
Inductive amdsmi_metric_name_t : Set :=
  | AMDSMI_METRIC_NAME_METRIC_ACC_COUNTER
  | AMDSMI_METRIC_NAME_FW_TIMESTAMP
  | AMDSMI_METRIC_NAME_CLK_GFX
  | AMDSMI_METRIC_NAME_CLK_SOC
  | AMDSMI_METRIC_NAME_CLK_MEM
  | AMDSMI_METRIC_NAME_CLK_VCLK
  | AMDSMI_METRIC_NAME_CLK_DCLK
  | AMDSMI_METRIC_NAME_USAGE_GFX
  | AMDSMI_METRIC_NAME_USAGE_MEM
  | AMDSMI_METRIC_NAME_USAGE_MM
  | AMDSMI_METRIC_NAME_USAGE_VCN
  | AMDSMI_METRIC_NAME_USAGE_JPEG
  | AMDSMI_METRIC_NAME_VOLT_GFX
  | AMDSMI_METRIC_NAME_VOLT_SOC
  | AMDSMI_METRIC_NAME_VOLT_MEM
  | AMDSMI_METRIC_NAME_TEMP_HOTSPOT_CURR
  | AMDSMI_METRIC_NAME_TEMP_HOTSPOT_LIMIT
  | AMDSMI_METRIC_NAME_TEMP_MEM_CURR
  | AMDSMI_METRIC_NAME_TEMP_MEM_LIMIT
  | AMDSMI_METRIC_NAME_TEMP_VR_CURR
  | AMDSMI_METRIC_NAME_TEMP_SHUTDOWN
  | AMDSMI_METRIC_NAME_POWER_CURR
  | AMDSMI_METRIC_NAME_POWER_LIMIT
  | AMDSMI_METRIC_NAME_ENERGY_SOCKET
  | AMDSMI_METRIC_NAME_ENERGY_CCD
  | AMDSMI_METRIC_NAME_ENERGY_XCD
  | AMDSMI_METRIC_NAME_ENERGY_AID
  | AMDSMI_METRIC_NAME_ENERGY_MEM
  | AMDSMI_METRIC_NAME_THROTTLE_SOCKET_ACTIVE
  | AMDSMI_METRIC_NAME_THROTTLE_VR_ACTIVE
  | AMDSMI_METRIC_NAME_THROTTLE_MEM_ACTIVE
  | AMDSMI_METRIC_NAME_PCIE_BANDWIDTH
  | AMDSMI_METRIC_NAME_PCIE_L0_TO_RECOVERY_COUNT
  | AMDSMI_METRIC_NAME_PCIE_REPLAY_COUNT
  | AMDSMI_METRIC_NAME_PCIE_REPLAY_ROLLOVER_COUNT
  | AMDSMI_METRIC_NAME_PCIE_NAK_SENT_COUNT
  | AMDSMI_METRIC_NAME_PCIE_NAK_RECEIVED_COUNT
  | AMDSMI_METRIC_NAME_CLK_GFX_MAX_LIMIT
  | AMDSMI_METRIC_NAME_CLK_SOC_MAX_LIMIT
  | AMDSMI_METRIC_NAME_CLK_MEM_MAX_LIMIT
  | AMDSMI_METRIC_NAME_CLK_VCLK_MAX_LIMIT
  | AMDSMI_METRIC_NAME_CLK_DCLK_MAX_LIMIT
  | AMDSMI_METRIC_NAME_CLK_GFX_MIN_LIMIT
  | AMDSMI_METRIC_NAME_CLK_SOC_MIN_LIMIT
  | AMDSMI_METRIC_NAME_CLK_MEM_MIN_LIMIT
  | AMDSMI_METRIC_NAME_CLK_VCLK_MIN_LIMIT
  | AMDSMI_METRIC_NAME_CLK_DCLK_MIN_LIMIT
  | AMDSMI_METRIC_NAME_CLK_GFX_LOCKED
  | AMDSMI_METRIC_NAME_CLK_GFX_DS_DISABLED
  | AMDSMI_METRIC_NAME_CLK_MEM_DS_DISABLED
  | AMDSMI_METRIC_NAME_CLK_SOC_DS_DISABLED
  | AMDSMI_METRIC_NAME_CLK_VCLK_DS_DISABLED
  | AMDSMI_METRIC_NAME_CLK_DCLK_DS_DISABLED
  | AMDSMI_METRIC_NAME_PCIE_LINK_SPEED
  | AMDSMI_METRIC_NAME_PCIE_LINK_WIDTH
  | AMDSMI_METRIC_NAME_DRAM_BANDWIDTH
  | AMDSMI_METRIC_NAME_MAX_DRAM_BANDWIDTH
  | AMDSMI_METRIC_NAME_UNKNOWN.

Definition amdsmi_metric_name_t_decl : list (amdsmi_metric_name_t * einit amdsmi_metric_name_t) :=
  [ (AMDSMI_METRIC_NAME_METRIC_ACC_COUNTER, Next);
    (AMDSMI_METRIC_NAME_FW_TIMESTAMP, Next);
    (AMDSMI_METRIC_NAME_CLK_GFX, Next);
    (AMDSMI_METRIC_NAME_CLK_SOC, Next);
    (AMDSMI_METRIC_NAME_CLK_MEM, Next);
    (AMDSMI_METRIC_NAME_CLK_VCLK, Next);
    (AMDSMI_METRIC_NAME_CLK_DCLK, Next);
    (AMDSMI_METRIC_NAME_USAGE_GFX, Next);
    (AMDSMI_METRIC_NAME_USAGE_MEM, Next);
    (AMDSMI_METRIC_NAME_USAGE_MM, Next);
    (AMDSMI_METRIC_NAME_USAGE_VCN, Next);
    (AMDSMI_METRIC_NAME_USAGE_JPEG, Next);
    (AMDSMI_METRIC_NAME_VOLT_GFX, Next);
    (AMDSMI_METRIC_NAME_VOLT_SOC, Next);
    (AMDSMI_METRIC_NAME_VOLT_MEM, Next);
    (AMDSMI_METRIC_NAME_TEMP_HOTSPOT_CURR, Next);
    (AMDSMI_METRIC_NAME_TEMP_HOTSPOT_LIMIT, Next);
    (AMDSMI_METRIC_NAME_TEMP_MEM_CURR, Next);
    (AMDSMI_METRIC_NAME_TEMP_MEM_LIMIT, Next);
    (AMDSMI_METRIC_NAME_TEMP_VR_CURR, Next);
    (AMDSMI_METRIC_NAME_TEMP_SHUTDOWN, Next);
    (AMDSMI_METRIC_NAME_POWER_CURR, Next);
    (AMDSMI_METRIC_NAME_POWER_LIMIT, Next);
    (AMDSMI_METRIC_NAME_ENERGY_SOCKET, Next);
    (AMDSMI_METRIC_NAME_ENERGY_CCD, Next);
    (AMDSMI_METRIC_NAME_ENERGY_XCD, Next);
    (AMDSMI_METRIC_NAME_ENERGY_AID, Next);
    (AMDSMI_METRIC_NAME_ENERGY_MEM, Next);
    (AMDSMI_METRIC_NAME_THROTTLE_SOCKET_ACTIVE, Next);
    (AMDSMI_METRIC_NAME_THROTTLE_VR_ACTIVE, Next);
    (AMDSMI_METRIC_NAME_THROTTLE_MEM_ACTIVE, Next);
    (AMDSMI_METRIC_NAME_PCIE_BANDWIDTH, Next);
    (AMDSMI_METRIC_NAME_PCIE_L0_TO_RECOVERY_COUNT, Next);
    (AMDSMI_METRIC_NAME_PCIE_REPLAY_COUNT, Next);
    (AMDSMI_METRIC_NAME_PCIE_REPLAY_ROLLOVER_COUNT, Next);
    (AMDSMI_METRIC_NAME_PCIE_NAK_SENT_COUNT, Next);
    (AMDSMI_METRIC_NAME_PCIE_NAK_RECEIVED_COUNT, Next);
    (AMDSMI_METRIC_NAME_CLK_GFX_MAX_LIMIT, Next);
    (AMDSMI_METRIC_NAME_CLK_SOC_MAX_LIMIT, Next);
    (AMDSMI_METRIC_NAME_CLK_MEM_MAX_LIMIT, Next);
    (AMDSMI_METRIC_NAME_CLK_VCLK_MAX_LIMIT, Next);
    (AMDSMI_METRIC_NAME_CLK_DCLK_MAX_LIMIT, Next);
    (AMDSMI_METRIC_NAME_CLK_GFX_MIN_LIMIT, Next);
    (AMDSMI_METRIC_NAME_CLK_SOC_MIN_LIMIT, Next);
    (AMDSMI_METRIC_NAME_CLK_MEM_MIN_LIMIT, Next);
    (AMDSMI_METRIC_NAME_CLK_VCLK_MIN_LIMIT, Next);
    (AMDSMI_METRIC_NAME_CLK_DCLK_MIN_LIMIT, Next);
    (AMDSMI_METRIC_NAME_CLK_GFX_LOCKED, Next);
    (AMDSMI_METRIC_NAME_CLK_GFX_DS_DISABLED, Next);
    (AMDSMI_METRIC_NAME_CLK_MEM_DS_DISABLED, Next);
    (AMDSMI_METRIC_NAME_CLK_SOC_DS_DISABLED, Next);
    (AMDSMI_METRIC_NAME_CLK_VCLK_DS_DISABLED, Next);
    (AMDSMI_METRIC_NAME_CLK_DCLK_DS_DISABLED, Next);
    (AMDSMI_METRIC_NAME_PCIE_LINK_SPEED, Next);
    (AMDSMI_METRIC_NAME_PCIE_LINK_WIDTH, Next);
    (AMDSMI_METRIC_NAME_DRAM_BANDWIDTH, Next);
    (AMDSMI_METRIC_NAME_MAX_DRAM_BANDWIDTH, Next);
    (AMDSMI_METRIC_NAME_UNKNOWN, Next) ].

#[global] Instance amdsmi_metric_name_t_enum : CEnum amdsmi_metric_name_t.
Proof. derive_enum amdsmi_metric_name_t_decl. Defined.

(** [amdsmi_metric_unit_t], lines 1048-1063. *)
Inductive amdsmi_metric_unit_t : Set :=
  | AMDSMI_METRIC_UNIT_COUNTER
  | AMDSMI_METRIC_UNIT_UINT
  | AMDSMI_METRIC_UNIT_BOOL
  | AMDSMI_METRIC_UNIT_MHZ
  | AMDSMI_METRIC_UNIT_PERCENT
  | AMDSMI_METRIC_UNIT_MILLIVOLT
  | AMDSMI_METRIC_UNIT_CELSIUS
  | AMDSMI_METRIC_UNIT_WATT
  | AMDSMI_METRIC_UNIT_JOULE
  | AMDSMI_METRIC_UNIT_GBPS
  | AMDSMI_METRIC_UNIT_MBITPS
  | AMDSMI_METRIC_UNIT_PCIE_GEN
  | AMDSMI_METRIC_UNIT_PCIE_LANES
  | AMDSMI_METRIC_UNIT_UNKNOWN.

Definition amdsmi_metric_unit_t_decl : list (amdsmi_metric_unit_t * einit amdsmi_metric_unit_t) :=
  [ (AMDSMI_METRIC_UNIT_COUNTER, Next);
    (AMDSMI_METRIC_UNIT_UINT, Next);
    (AMDSMI_METRIC_UNIT_BOOL, Next);
    (AMDSMI_METRIC_UNIT_MHZ, Next);
    (AMDSMI_METRIC_UNIT_PERCENT, Next);
    (AMDSMI_METRIC_UNIT_MILLIVOLT, Next);
    (AMDSMI_METRIC_UNIT_CELSIUS, Next);
    (AMDSMI_METRIC_UNIT_WATT, Next);
    (AMDSMI_METRIC_UNIT_JOULE, Next);
    (AMDSMI_METRIC_UNIT_GBPS, Next);
    (AMDSMI_METRIC_UNIT_MBITPS, Next);
    (AMDSMI_METRIC_UNIT_PCIE_GEN, Next);
    (AMDSMI_METRIC_UNIT_PCIE_LANES, Next);
    (AMDSMI_METRIC_UNIT_UNKNOWN, Next) ].

#[global] Instance amdsmi_metric_unit_t_enum : CEnum amdsmi_metric_unit_t.
Proof. derive_enum amdsmi_metric_unit_t_decl. Defined.

(** [amdsmi_metric_type_t], lines 1065-1070. *)
Inductive amdsmi_metric_type_t : Set :=
  | AMDSMI_METRIC_TYPE_COUNTER
  | AMDSMI_METRIC_TYPE_CHIPLET
  | AMDSMI_METRIC_TYPE_INST
  | AMDSMI_METRIC_TYPE_ACC.

Definition amdsmi_metric_type_t_decl : list (amdsmi_metric_type_t * einit amdsmi_metric_type_t) :=
  [ (AMDSMI_METRIC_TYPE_COUNTER, Shl 1 0);
    (AMDSMI_METRIC_TYPE_CHIPLET, Shl 1 1);
    (AMDSMI_METRIC_TYPE_INST, Shl 1 2);
    (AMDSMI_METRIC_TYPE_ACC, Shl 1 3) ].

#[global] Instance amdsmi_metric_type_t_enum : CEnum amdsmi_metric_type_t.
Proof. derive_enum amdsmi_metric_type_t_decl. Defined.

(** [amdsmi_memory_partition_type_t], lines 1076-1091: Memory Partitions.
    This enum is used to identify various memory partition types. *)
Inductive amdsmi_memory_partition_type_t : Set :=
  | AMDSMI_MEMORY_PARTITION_UNKNOWN
  | AMDSMI_MEMORY_PARTITION_NPS1
  | AMDSMI_MEMORY_PARTITION_NPS2
  | AMDSMI_MEMORY_PARTITION_NPS4
  | AMDSMI_MEMORY_PARTITION_NPS8.

Definition amdsmi_memory_partition_type_t_decl : list (amdsmi_memory_partition_type_t * einit amdsmi_memory_partition_type_t) :=
  [ (AMDSMI_MEMORY_PARTITION_UNKNOWN, Lit 0);
    (AMDSMI_MEMORY_PARTITION_NPS1, Lit 1);
    (AMDSMI_MEMORY_PARTITION_NPS2, Lit 2);
    (AMDSMI_MEMORY_PARTITION_NPS4, Lit 4);
    (AMDSMI_MEMORY_PARTITION_NPS8, Lit 8) ].

#[global] Instance amdsmi_memory_partition_type_t_enum : CEnum amdsmi_memory_partition_type_t.
Proof. derive_enum amdsmi_memory_partition_type_t_decl. Defined.

(** [amdsmi_accelerator_partition_type_t], lines 1093-1106. *)
Inductive amdsmi_accelerator_partition_type_t : Set :=
  | AMDSMI_ACCELERATOR_PARTITION_INVALID
  | AMDSMI_ACCELERATOR_PARTITION_SPX
  | AMDSMI_ACCELERATOR_PARTITION_DPX
  | AMDSMI_ACCELERATOR_PARTITION_TPX
  | AMDSMI_ACCELERATOR_PARTITION_QPX
  | AMDSMI_ACCELERATOR_PARTITION_CPX
  | AMDSMI_ACCELERATOR_PARTITION_MAX.

Definition amdsmi_accelerator_partition_type_t_decl : list (amdsmi_accelerator_partition_type_t * einit amdsmi_accelerator_partition_type_t) :=
  [ (AMDSMI_ACCELERATOR_PARTITION_INVALID, Lit 0);
    (AMDSMI_ACCELERATOR_PARTITION_SPX, Next);
    (AMDSMI_ACCELERATOR_PARTITION_DPX, Next);
    (AMDSMI_ACCELERATOR_PARTITION_TPX, Next);
    (AMDSMI_ACCELERATOR_PARTITION_QPX, Next);
    (AMDSMI_ACCELERATOR_PARTITION_CPX, Next);
    (AMDSMI_ACCELERATOR_PARTITION_MAX, Next) ].

#[global] Instance amdsmi_accelerator_partition_type_t_enum : CEnum amdsmi_accelerator_partition_type_t.
Proof. derive_enum amdsmi_accelerator_partition_type_t_decl. Defined.

(** [amdsmi_accelerator_partition_resource_type_t], lines 1108-1115. *)
Inductive amdsmi_accelerator_partition_resource_type_t : Set :=
  | AMDSMI_ACCELERATOR_XCC
  | AMDSMI_ACCELERATOR_ENCODER
  | AMDSMI_ACCELERATOR_DECODER
  | AMDSMI_ACCELERATOR_DMA
  | AMDSMI_ACCELERATOR_JPEG
  | AMDSMI_ACCELERATOR_MAX.

Definition amdsmi_accelerator_partition_resource_type_t_decl : list (amdsmi_accelerator_partition_resource_type_t * einit amdsmi_accelerator_partition_resource_type_t) :=
  [ (AMDSMI_ACCELERATOR_XCC, Next);
    (AMDSMI_ACCELERATOR_ENCODER, Next);
    (AMDSMI_ACCELERATOR_DECODER, Next);
    (AMDSMI_ACCELERATOR_DMA, Next);
    (AMDSMI_ACCELERATOR_JPEG, Next);
    (AMDSMI_ACCELERATOR_MAX, Next) ].

#[global] Instance amdsmi_accelerator_partition_resource_type_t_enum : CEnum amdsmi_accelerator_partition_resource_type_t.
Proof. derive_enum amdsmi_accelerator_partition_resource_type_t_decl. Defined.

(** [amdsmi_driver_model_type_t], lines 1117-1122. *)
Inductive amdsmi_driver_model_type_t : Set :=
  | AMDSMI_DRIVER_MODEL_TYPE_WDDM
  | AMDSMI_DRIVER_MODEL_TYPE_WDM
  | AMDSMI_DRIVER_MODEL_TYPE_MCDM
  | AMDSMI_DRIVER_MODEL_TYPE__MAX.

Definition amdsmi_driver_model_type_t_decl : list (amdsmi_driver_model_type_t * einit amdsmi_driver_model_type_t) :=
  [ (AMDSMI_DRIVER_MODEL_TYPE_WDDM, Lit 0);
    (AMDSMI_DRIVER_MODEL_TYPE_WDM, Lit 1);
    (AMDSMI_DRIVER_MODEL_TYPE_MCDM, Lit 2);
    (AMDSMI_DRIVER_MODEL_TYPE__MAX, Lit 3) ].

#[global] Instance amdsmi_driver_model_type_t_enum : CEnum amdsmi_driver_model_type_t.
Proof. derive_enum amdsmi_driver_model_type_t_decl. Defined.

(** [amdsmi_virtualization_mode_t], lines 1124-1131. *)
Inductive amdsmi_virtualization_mode_t : Set :=
  | AMDSMI_VIRTUALIZATION_MODE_UNKNOWN
  | AMDSMI_VIRTUALIZATION_MODE_NONE
  | AMDSMI_VIRTUALIZATION_MODE_HOST
  | AMDSMI_VIRTUALIZATION_MODE_GUEST
  | AMDSMI_VIRTUALIZATION_MODE_PASSTHROUGH.

Definition amdsmi_virtualization_mode_t_decl : list (amdsmi_virtualization_mode_t * einit amdsmi_virtualization_mode_t) :=
  [ (AMDSMI_VIRTUALIZATION_MODE_UNKNOWN, Lit 0);
    (AMDSMI_VIRTUALIZATION_MODE_NONE, Next);
    (AMDSMI_VIRTUALIZATION_MODE_HOST, Next);
    (AMDSMI_VIRTUALIZATION_MODE_GUEST, Next);
    (AMDSMI_VIRTUALIZATION_MODE_PASSTHROUGH, Next) ].

#[global] Instance amdsmi_virtualization_mode_t_enum : CEnum amdsmi_virtualization_mode_t.
Proof. derive_enum amdsmi_virtualization_mode_t_decl. Defined.

(** [amdsmi_cper_sev_t], lines 1605-1612. *)
Inductive amdsmi_cper_sev_t : Set :=
  | AMDSMI_CPER_SEV_NON_FATAL_UNCORRECTED
  | AMDSMI_CPER_SEV_FATAL
  | AMDSMI_CPER_SEV_NON_FATAL_CORRECTED
  | AMDSMI_CPER_SEV_NUM
  | AMDSMI_CPER_SEV_UNUSED.

Definition amdsmi_cper_sev_t_decl : list (amdsmi_cper_sev_t * einit amdsmi_cper_sev_t) :=
  [ (AMDSMI_CPER_SEV_NON_FATAL_UNCORRECTED, Lit 0);
    (AMDSMI_CPER_SEV_FATAL, Lit 1);
    (AMDSMI_CPER_SEV_NON_FATAL_CORRECTED, Lit 2);
    (AMDSMI_CPER_SEV_NUM, Lit 3);
    (AMDSMI_CPER_SEV_UNUSED, Lit 10) ].

#[global] Instance amdsmi_cper_sev_t_enum : CEnum amdsmi_cper_sev_t.
Proof. derive_enum amdsmi_cper_sev_t_decl. Defined.

(** [amdsmi_cper_notify_type_t], lines 1654-1667. *)
Inductive amdsmi_cper_notify_type_t : Set :=
  | AMDSMI_CPER_NOTIFY_TYPE_CMC
  | AMDSMI_CPER_NOTIFY_TYPE_CPE
  | AMDSMI_CPER_NOTIFY_TYPE_MCE
  | AMDSMI_CPER_NOTIFY_TYPE_PCIE
  | AMDSMI_CPER_NOTIFY_TYPE_INIT
  | AMDSMI_CPER_NOTIFY_TYPE_NMI
  | AMDSMI_CPER_NOTIFY_TYPE_BOOT
  | AMDSMI_CPER_NOTIFY_TYPE_DMAR
  | AMDSMI_CPER_NOTIFY_TYPE_SEA
  | AMDSMI_CPER_NOTIFY_TYPE_SEI
  | AMDSMI_CPER_NOTIFY_TYPE_PEI
  | AMDSMI_CPER_NOTIFY_TYPE_CXL_COMPONENT.

Definition amdsmi_cper_notify_type_t_decl : list (amdsmi_cper_notify_type_t * einit amdsmi_cper_notify_type_t) :=
  [ (AMDSMI_CPER_NOTIFY_TYPE_CMC, Lit 4976123370175105969);
    (AMDSMI_CPER_NOTIFY_TYPE_CPE, Lit 5356425115412803478);
    (AMDSMI_CPER_NOTIFY_TYPE_MCE, Lit 5531987820403847166);
    (AMDSMI_CPER_NOTIFY_TYPE_PCIE, Lit 5619395120325705759);
    (AMDSMI_CPER_NOTIFY_TYPE_INIT, Lit 4992964802890589160);
    (AMDSMI_CPER_NOTIFY_TYPE_NMI, Lit 4812579876830546431);
    (AMDSMI_CPER_NOTIFY_TYPE_BOOT, Lit 4655221457236894822);
    (AMDSMI_CPER_NOTIFY_TYPE_DMAR, Lit 5487573144795207569);
    (AMDSMI_CPER_NOTIFY_TYPE_SEA, Lit 1289362001033197706);
    (AMDSMI_CPER_NOTIFY_TYPE_SEI, Lit 5658685719731260545);
    (AMDSMI_CPER_NOTIFY_TYPE_PEI, Lit 4761520883332928940);
    (AMDSMI_CPER_NOTIFY_TYPE_CXL_COMPONENT, Lit 5306157213770398665) ].

#[global] Instance amdsmi_cper_notify_type_t_enum : CEnum amdsmi_cper_notify_type_t.
Proof. derive_enum amdsmi_cper_notify_type_t_decl. Defined.

End Gim.
