(* ===== verification/GimTypes.v ===== *)
(** The structures and unions of
    [src/assets/gim_smi_lib/x86_64/UBUNTU22/lib/amdsmi.h] as C types of
    [CAbi].  Same conventions as [SmiTypes]. *)

From S2P Require Import Prelude CAbi CEnum GimEnums.
Local Open Scope Z_scope.
Import GimEnums.Gim.

Module GimT.

Definition amdsmi_socket_handle : cty := TPtr.

Definition amdsmi_event_set : cty := TPtr.

Definition amdsmi_processor_handle : cty := TPtr.

(** [amdsmi_bdf_t], lines 1137-1145: AUX STRUCTURES *)
Definition amdsmi_bdf_t : cty :=
  TUnion false
    [ fld "bdf" (TStruct false
      [ bfld "function_number" uint64_t 3;
        bfld "device_number" uint64_t 5;
        bfld "bus_number" uint64_t 8;
        bfld "domain_number" uint64_t 48 ]);
      fld "as_uint" uint64_t ].

(** [amdsmi_pcie_info_t], lines 1147-1169. *)
Definition amdsmi_pcie_info_t : cty :=
  TStruct false
    [ fld "pcie_static" (TStruct false
      [ fld "max_pcie_width" uint16_t;
        fld "max_pcie_speed" uint32_t;
        fld "pcie_interface_version" uint32_t;
        fld "slot_type" (TEnum (enum_values amdsmi_card_form_factor_t));
        fld "max_pcie_interface_version" uint32_t;
        fld "reserved" (TArr uint64_t 9) ]);
      fld "pcie_metric" (TStruct false
      [ fld "pcie_width" uint16_t;
        fld "pcie_speed" uint32_t;
        fld "pcie_bandwidth" uint32_t;
        fld "pcie_replay_count" uint64_t;
        fld "pcie_l0_to_recovery_count" uint64_t;
        fld "pcie_replay_roll_over_count" uint64_t;
        fld "pcie_nak_sent_count" uint64_t;
        fld "pcie_nak_received_count" uint64_t;
        fld "pcie_lc_perf_other_end_recovery_count" uint32_t;
        fld "reserved" (TArr uint64_t 12) ]);
      fld "reserved" (TArr uint64_t 32) ].

(** [amdsmi_power_cap_info_t], lines 1172-1179. *)
Definition amdsmi_power_cap_info_t : cty :=
  TStruct false
    [ fld "power_cap" uint64_t;
      fld "default_power_cap" uint64_t;
      fld "dpm_cap" uint64_t;
      fld "min_power_cap" uint64_t;
      fld "max_power_cap" uint64_t;
      fld "reserved" (TArr uint64_t 3) ].

(** [amdsmi_vbios_info_t], lines 1181-1187. *)
Definition amdsmi_vbios_info_t : cty :=
  TStruct false
    [ fld "name" (TArr char_t AMDSMI_MAX_STRING_LENGTH);
      fld "build_date" (TArr char_t AMDSMI_MAX_DATE_LENGTH);
      fld "part_number" (TArr char_t AMDSMI_MAX_STRING_LENGTH);
      fld "version" (TArr char_t AMDSMI_MAX_STRING_LENGTH);
      fld "reserved" (TArr uint64_t 68) ].

(** [amdsmi_gpu_cache_info_t], lines 1189-1200. *)
Definition amdsmi_gpu_cache_info_t : cty :=
  TStruct false
    [ fld "num_cache_types" uint32_t;
      fld "cache" (TArr (TStruct false
      [ fld "cache_properties" uint32_t;
        fld "cache_size" uint32_t;
        fld "cache_level" uint32_t;
        fld "max_num_cu_shared" uint32_t;
        fld "num_cache_instance" uint32_t;
        fld "reserved" (TArr uint32_t 3) ]) AMDSMI_MAX_CACHE_TYPES);
      fld "reserved" (TArr uint32_t 15) ].

(** [amdsmi_fw_info_t], lines 1202-1210. *)
Definition amdsmi_fw_info_t : cty :=
  TStruct false
    [ fld "num_fw_info" uint8_t;
      fld "fw_info_list" (TArr (TStruct false
      [ fld "fw_id" (TEnum (enum_values amdsmi_fw_block_t));
        fld "fw_version" uint64_t;
        fld "reserved" (TArr uint64_t 2) ]) (enum_val AMDSMI_FW_ID__MAX));
      fld "reserved" (TArr uint64_t 3) ].

(** [amdsmi_asic_info_t], lines 1212-1226. *)
Definition amdsmi_asic_info_t : cty :=
  TStruct false
    [ fld "market_name" (TArr char_t AMDSMI_MAX_STRING_LENGTH);
      fld "vendor_name" (TArr char_t AMDSMI_MAX_STRING_LENGTH);
      fld "asic_serial" (TArr char_t AMDSMI_MAX_STRING_LENGTH);
      fld "reserved" (TArr uint64_t 64);
      fld "vendor_id" uint32_t;
      fld "subvendor_id" uint32_t;
      fld "device_id" uint64_t;
      fld "rev_id" uint32_t;
      fld "oam_id" uint32_t;
      fld "num_of_compute_units" uint32_t;
      fld "target_graphics_version" uint64_t;
      fld "subsystem_id" uint32_t;
      fld "reserved_2" (TArr uint64_t 10) ].

(** [amdsmi_driver_info_t], lines 1228-1233. *)
Definition amdsmi_driver_info_t : cty :=
  TStruct false
    [ fld "driver_version" (TArr char_t AMDSMI_MAX_STRING_LENGTH);
      fld "driver_date" (TArr char_t AMDSMI_MAX_DATE_LENGTH);
      fld "driver_name" (TArr char_t AMDSMI_MAX_STRING_LENGTH);
      fld "reserved" (TArr uint64_t 68) ].

(** [amdsmi_power_info_t], lines 1235-1241. *)
Definition amdsmi_power_info_t : cty :=
  TStruct false
    [ fld "socket_power" uint64_t;
      fld "gfx_voltage" uint64_t;
      fld "soc_voltage" uint64_t;
      fld "mem_voltage" uint64_t;
      fld "reserved" (TArr uint64_t 4) ].

(** [amdsmi_engine_usage_t], lines 1243-1248. *)
Definition amdsmi_engine_usage_t : cty :=
  TStruct false
    [ fld "gfx_activity" uint32_t;
      fld "umc_activity" uint32_t;
      fld "mm_activity" uint32_t;
      fld "reserved" (TArr uint64_t 6) ].

(** [amdsmi_clk_info_t], lines 1250-1257. *)
Definition amdsmi_clk_info_t : cty :=
  TStruct false
    [ fld "clk" uint32_t;
      fld "min_clk" uint32_t;
      fld "max_clk" uint32_t;
      fld "clk_locked" uint8_t;
      fld "clk_deep_sleep" uint8_t;
      fld "reserved" (TArr uint64_t 2) ].

(** [amdsmi_error_count_t], lines 1259-1264. *)
Definition amdsmi_error_count_t : cty :=
  TStruct false
    [ fld "correctable_count" uint64_t;
      fld "uncorrectable_count" uint64_t;
      fld "deferred_count" uint64_t;
      fld "reserved" (TArr uint64_t 5) ].

(** [amdsmi_ras_feature_t], lines 1266-1270. *)
Definition amdsmi_ras_feature_t : cty :=
  TStruct false
    [ fld "ras_eeprom_version" uint32_t;
      fld "supported_ecc_correction_schema" uint32_t;
      fld "reserved" (TArr uint64_t 3) ].

(** [amdsmi_vf_handle_t], lines 1272-1274. *)
Definition amdsmi_vf_handle_t : cty :=
  TStruct false
    [ fld "handle" uint64_t ].

(** [amdsmi_event_entry_t], lines 1276-1287. *)
Definition amdsmi_event_entry_t : cty :=
  TStruct false
    [ fld "fcn_id" amdsmi_vf_handle_t;
      fld "dev_id" uint64_t;
      fld "timestamp" uint64_t;
      fld "data" uint64_t;
      fld "category" uint32_t;
      fld "subcode" uint32_t;
      fld "level" uint32_t;
      fld "date" (TArr char_t AMDSMI_MAX_DATE_LENGTH);
      fld "message" (TArr char_t AMDSMI_EVENT_MSG_SIZE);
      fld "reserved" (TArr uint64_t 6) ].

(** [amdsmi_board_info_t], lines 1289-1296. *)
Definition amdsmi_board_info_t : cty :=
  TStruct false
    [ fld "model_number" (TArr char_t AMDSMI_MAX_STRING_LENGTH);
      fld "product_serial" (TArr char_t AMDSMI_MAX_STRING_LENGTH);
      fld "fru_id" (TArr char_t AMDSMI_MAX_STRING_LENGTH);
      fld "product_name" (TArr char_t AMDSMI_MAX_STRING_LENGTH);
      fld "manufacturer_name" (TArr char_t AMDSMI_MAX_STRING_LENGTH);
      fld "reserved" (TArr uint64_t 64) ].

(** [amdsmi_pf_fb_info_t], lines 1298-1306. *)
Definition amdsmi_pf_fb_info_t : cty :=
  TStruct false
    [ fld "total_fb_size" uint32_t;
      fld "pf_fb_reserved" uint32_t;
      fld "pf_fb_offset" uint32_t;
      fld "fb_alignment" uint32_t;
      fld "max_vf_fb_usable" uint32_t;
      fld "min_vf_fb_usable" uint32_t;
      fld "reserved" (TArr uint64_t 5) ].

(** [amdsmi_vf_fb_info_t], lines 1308-1312. *)
Definition amdsmi_vf_fb_info_t : cty :=
  TStruct false
    [ fld "fb_offset" uint32_t;
      fld "fb_size" uint32_t;
      fld "reserved" (TArr uint64_t 3) ].

(** [amdsmi_partition_info_t], lines 1314-1318. *)
Definition amdsmi_partition_info_t : cty :=
  TStruct false
    [ fld "id" amdsmi_vf_handle_t;
      fld "fb" amdsmi_vf_fb_info_t;
      fld "reserved" (TArr uint64_t 3) ].

(** [amdsmi_guard_info_t], lines 1320-1334. *)
Definition amdsmi_guard_info_t : cty :=
  TStruct false
    [ fld "enabled" uint8_t;
      fld "guard" (TArr (TStruct false
      [ fld "state" (TEnum (enum_values amdsmi_guard_state_t));
        fld "amount" uint32_t;
        fld "interval" uint64_t;
        fld "threshold" uint32_t;
        fld "active" uint32_t;
        fld "reserved" (TArr uint32_t 4) ]) (enum_val AMDSMI_GUARD_EVENT__MAX));
      fld "reserved" (TArr uint32_t 6) ].

(** [amdsmi_vf_info_t], lines 1336-1340. *)
Definition amdsmi_vf_info_t : cty :=
  TStruct false
    [ fld "fb" amdsmi_vf_fb_info_t;
      fld "gfx_timeslice" uint32_t;
      fld "reserved" (TArr uint64_t 27) ].

(** [amdsmi_sched_info_t], lines 1342-1359. *)
Definition amdsmi_sched_info_t : cty :=
  TStruct false
    [ fld "flr_count" uint64_t;
      fld "boot_up_time" uint64_t;
      fld "shutdown_time" uint64_t;
      fld "reset_time" uint64_t;
      fld "state" (TEnum (enum_values amdsmi_vf_sched_state_t));
      fld "last_boot_start" (TArr char_t AMDSMI_MAX_DATE_LENGTH);
      fld "last_boot_end" (TArr char_t AMDSMI_MAX_DATE_LENGTH);
      fld "last_shutdown_start" (TArr char_t AMDSMI_MAX_DATE_LENGTH);
      fld "last_shutdown_end" (TArr char_t AMDSMI_MAX_DATE_LENGTH);
      fld "last_reset_start" (TArr char_t AMDSMI_MAX_DATE_LENGTH);
      fld "last_reset_end" (TArr char_t AMDSMI_MAX_DATE_LENGTH);
      fld "current_active_time" (TArr char_t AMDSMI_MAX_DATE_LENGTH);
      fld "current_running_time" (TArr char_t AMDSMI_MAX_DATE_LENGTH);
      fld "total_active_time" (TArr char_t AMDSMI_MAX_DATE_LENGTH);
      fld "total_running_time" (TArr char_t AMDSMI_MAX_DATE_LENGTH);
      fld "reserved" (TArr uint64_t 11) ].

(** [amdsmi_vf_data_t], lines 1361-1365. *)
Definition amdsmi_vf_data_t : cty :=
  TStruct false
    [ fld "sched" amdsmi_sched_info_t;
      fld "guard" amdsmi_guard_info_t;
      fld "reserved" (TArr uint64_t 8) ].

(** [amdsmi_profile_caps_info_t], lines 1367-1374. *)
Definition amdsmi_profile_caps_info_t : cty :=
  TStruct false
    [ fld "total" uint64_t;
      fld "available" uint64_t;
      fld "optimal" uint64_t;
      fld "min_value" uint64_t;
      fld "max_value" uint64_t;
      fld "reserved" (TArr uint64_t 2) ].

(** [amdsmi_profile_info_t], lines 1376-1384. *)
Definition amdsmi_profile_info_t : cty :=
  TStruct false
    [ fld "profile_count" uint8_t;
      fld "current_profile_index" uint8_t;
      fld "profiles" (TArr (TStruct false
      [ fld "vf_count" uint32_t;
        fld "profile_caps" (TArr amdsmi_profile_caps_info_t (enum_val AMDSMI_PROFILE_CAPABILITY__MAX)) ]) AMDSMI_MAX_PROFILE_COUNT);
      fld "reserved" (TArr uint32_t 6) ].

(** [amdsmi_guest_data_t], lines 1386-1390. *)
Definition amdsmi_guest_data_t : cty :=
  TStruct false
    [ fld "driver_version" (TArr char_t AMDSMI_MAX_DRIVER_INFO_RSVD);
      fld "fb_usage" uint32_t;
      fld "reserved" (TArr uint64_t 23) ].

(** [amdsmi_dfc_fw_header_t], lines 1392-1398. *)
Definition amdsmi_dfc_fw_header_t : cty :=
  TStruct false
    [ fld "dfc_fw_version" uint32_t;
      fld "dfc_fw_total_entries" uint32_t;
      fld "dfc_gart_wr_guest_min" uint32_t;
      fld "dfc_gart_wr_guest_max" uint32_t;
      fld "reserved" (TArr uint32_t 12) ].

(** [amdsmi_dfc_fw_white_list_t], lines 1400-1403. *)
Definition amdsmi_dfc_fw_white_list_t : cty :=
  TStruct false
    [ fld "oldest" uint32_t;
      fld "latest" uint32_t ].

(** [amdsmi_dfc_fw_ta_uuid_t], lines 1405-1407. *)
Definition amdsmi_dfc_fw_ta_uuid_t : cty :=
  TStruct false
    [ fld "ta_uuid" (TArr uint8_t AMDSMI_MAX_UUID_ELEMENTS) ].

(** [amdsmi_dfc_fw_data_t], lines 1409-1419. *)
Definition amdsmi_dfc_fw_data_t : cty :=
  TStruct false
    [ fld "dfc_fw_type" uint32_t;
      fld "verification_enabled" uint32_t;
      fld "customer_ordinal" uint32_t;
      fld "reserved" (TArr uint32_t 13);
      fld "" (TUnion false
      [ fld "white_list" (TArr amdsmi_dfc_fw_white_list_t AMDSMI_MAX_WHITE_LIST_ELEMENTS);
        fld "ta_white_list" (TArr amdsmi_dfc_fw_ta_uuid_t AMDSMI_MAX_TA_WHITE_LIST_ELEMENTS) ]);
      fld "black_list" (TArr uint32_t AMDSMI_MAX_BLACK_LIST_ELEMENTS) ].

(** [amdsmi_dfc_fw_t], lines 1421-1424. *)
Definition amdsmi_dfc_fw_t : cty :=
  TStruct false
    [ fld "header" amdsmi_dfc_fw_header_t;
      fld "data" (TArr amdsmi_dfc_fw_data_t AMDSMI_DFC_FW_NUMBER_OF_ENTRIES) ].

(** [amdsmi_eeprom_table_record_t], lines 1426-1437. *)
Definition amdsmi_eeprom_table_record_t : cty :=
  TStruct false
    [ fld "retired_page" uint64_t;
      fld "ts" uint64_t;
      fld "err_type" unsigned_char_t;
      fld "" (TUnion false
      [ fld "bank" unsigned_char_t;
        fld "cu" unsigned_char_t ]);
      fld "mem_channel" unsigned_char_t;
      fld "mcumc_id" unsigned_char_t;
      fld "reserved" (TArr uint32_t 3) ].

(** [amdsmi_fw_load_error_record_t], lines 1439-1445. *)
Definition amdsmi_fw_load_error_record_t : cty :=
  TStruct false
    [ fld "timestamp" uint64_t;
      fld "vf_idx" uint32_t;
      fld "fw_id" uint32_t;
      fld "status" uint16_t;
      fld "reserved" (TArr uint32_t 3) ].

(** [amdsmi_fw_error_record_t], lines 1447-1451. *)
Definition amdsmi_fw_error_record_t : cty :=
  TStruct false
    [ fld "num_err_records" uint8_t;
      fld "err_records" (TArr amdsmi_fw_load_error_record_t AMDSMI_MAX_ERR_RECORDS);
      fld "reserved" (TArr uint64_t 7) ].

(** [amdsmi_link_metrics_t], lines 1453-1465. *)
Definition amdsmi_link_metrics_t : cty :=
  TStruct false
    [ fld "num_links" uint32_t;
      fld "links" (TArr (TStruct false
      [ fld "bdf" amdsmi_bdf_t;
        fld "bit_rate" uint32_t;
        fld "max_bandwidth" uint32_t;
        fld "link_type" (TEnum (enum_values amdsmi_link_type_t));
        fld "read" uint64_t;
        fld "write" uint64_t;
        fld "reserved" (TArr uint64_t 2) ]) AMDSMI_MAX_NUM_XGMI_PHYSICAL_LINK);
      fld "reserved" (TArr uint64_t 7) ].

(** [amdsmi_link_topology_t], lines 1467-1474. *)
Definition amdsmi_link_topology_t : cty :=
  TStruct false
    [ fld "weight" uint64_t;
      fld "link_status" (TEnum (enum_values amdsmi_link_status_t));
      fld "link_type" (TEnum (enum_values amdsmi_link_type_t));
      fld "num_hops" uint8_t;
      fld "fb_sharing" uint8_t;
      fld "reserved" (TArr uint32_t 10) ].

(** [amdsmi_topology_nearest_t], lines 1476-1480. *)
Definition amdsmi_topology_nearest_t : cty :=
  TStruct false
    [ fld "count" uint32_t;
      fld "processor_list" (TArr amdsmi_processor_handle AMDSMI_MAX_DEVICES);
      fld "reserved" (TArr uint64_t 15) ].

(** [amdsmi_xgmi_fb_sharing_caps_t], lines 1482-1492. *)
Definition amdsmi_xgmi_fb_sharing_caps_t : cty :=
  TUnion false
    [ fld "cap" (TStruct false
      [ bfld "mode_custom_cap" uint32_t 1;
        bfld "mode_1_cap" uint32_t 1;
        bfld "mode_2_cap" uint32_t 1;
        bfld "mode_4_cap" uint32_t 1;
        bfld "mode_8_cap" uint32_t 1;
        bfld "reserved" uint32_t 27 ]);
      fld "xgmi_fb_sharing_cap_mask" uint32_t ].

(** [amdsmi_vram_info_t], lines 1494-1500. *)
Definition amdsmi_vram_info_t : cty :=
  TStruct false
    [ fld "vram_type" (TEnum (enum_values amdsmi_vram_type_t));
      fld "vram_vendor" (TEnum (enum_values amdsmi_vram_vendor_t));
      fld "vram_size" uint32_t;
      fld "vram_bit_width" uint32_t;
      fld "reserved" (TArr uint64_t 6) ].

(** [amdsmi_metric_t], lines 1502-1510. *)
Definition amdsmi_metric_t : cty :=
  TStruct false
    [ fld "unit" (TEnum (enum_values amdsmi_metric_unit_t));
      fld "name" (TEnum (enum_values amdsmi_metric_name_t));
      fld "category" (TEnum (enum_values amdsmi_metric_category_t));
      fld "flags" uint32_t;
      fld "vf_mask" uint32_t;
      fld "val" uint64_t;
      fld "reserved" (TArr uint32_t 8) ].

(** [amdsmi_version_t], lines 1515-1519: This structure holds version
    information. *)
Definition amdsmi_version_t : cty :=
  TStruct false
    [ fld "major" uint32_t;
      fld "minor" uint32_t;
      fld "release" uint32_t ].

(** [amdsmi_nps_caps_t], lines 1524-1533: This union holds memory partition
    bitmask. *)
Definition amdsmi_nps_caps_t : cty :=
  TUnion false
    [ fld "nps_flags" (TStruct false
      [ bfld "nps1_cap" uint32_t 1;
        bfld "nps2_cap" uint32_t 1;
        bfld "nps4_cap" uint32_t 1;
        bfld "nps8_cap" uint32_t 1;
        bfld "reserved" uint32_t 28 ]);
      fld "nps_cap_mask" uint32_t ].

(** [amdsmi_memory_partition_config_t], lines 1535-1545. *)
Definition amdsmi_memory_partition_config_t : cty :=
  TStruct false
    [ fld "partition_caps" amdsmi_nps_caps_t;
      fld "mp_mode" (TEnum (enum_values amdsmi_memory_partition_type_t));
      fld "num_numa_ranges" uint32_t;
      fld "numa_range" (TArr (TStruct false
      [ fld "memory_type" (TEnum (enum_values amdsmi_vram_type_t));
        fld "start" uint64_t;
        fld "end" uint64_t ]) AMDSMI_MAX_NUM_NUMA_NODES);
      fld "reserved" (TArr uint64_t 11) ].

(** [amdsmi_accelerator_partition_profile_t], lines 1547-1555. *)
Definition amdsmi_accelerator_partition_profile_t : cty :=
  TStruct false
    [ fld "profile_type" (TEnum (enum_values amdsmi_accelerator_partition_type_t));
      fld "num_partitions" uint32_t;
      fld "memory_caps" amdsmi_nps_caps_t;
      fld "profile_index" uint32_t;
      fld "num_resources" uint32_t;
      fld "resources" (TArr (TArr uint32_t AMDSMI_MAX_CP_PROFILE_RESOURCES) AMDSMI_MAX_ACCELERATOR_PARTITIONS);
      fld "reserved" (TArr uint64_t 13) ].

(** [amdsmi_accelerator_partition_resource_profile_t], lines 1557-1563. *)
Definition amdsmi_accelerator_partition_resource_profile_t : cty :=
  TStruct false
    [ fld "profile_index" uint32_t;
      fld "resource_type" (TEnum (enum_values amdsmi_accelerator_partition_resource_type_t));
      fld "partition_resource" uint32_t;
      fld "num_partitions_share_resource" uint32_t;
      fld "reserved" (TArr uint64_t 6) ].

(** [amdsmi_accelerator_partition_profile_config_t], lines 1565-1572. *)
Definition amdsmi_accelerator_partition_profile_config_t : cty :=
  TStruct false
    [ fld "num_profiles" uint32_t;
      fld "num_resource_profiles" uint32_t;
      fld "resource_profiles" (TArr amdsmi_accelerator_partition_resource_profile_t AMDSMI_MAX_CP_PROFILE_RESOURCES);
      fld "default_profile_index" uint32_t;
      fld "profiles" (TArr amdsmi_accelerator_partition_profile_t AMDSMI_MAX_ACCELERATOR_PROFILE);
      fld "reserved" (TArr uint64_t 30) ].

(** [amdsmi_dpm_policy_entry_t], lines 1574-1578. *)
Definition amdsmi_dpm_policy_entry_t : cty :=
  TStruct false
    [ fld "policy_id" uint32_t;
      fld "policy_description" (TArr char_t AMDSMI_MAX_NAME);
      fld "reserved" (TArr uint64_t 3) ].

(** [amdsmi_dpm_policy_t], lines 1580-1597. *)
Definition amdsmi_dpm_policy_t : cty :=
  TStruct false
    [ fld "num_supported" uint32_t;
      fld "cur" uint32_t;
      fld "policies" (TArr amdsmi_dpm_policy_entry_t AMDSMI_MAX_NUM_PM_POLICIES);
      fld "reserved" (TArr uint64_t 7) ].

(** [amdsmi_cper_guid_t], lines 1601-1603. *)
Definition amdsmi_cper_guid_t : cty :=
  TStruct true
    [ fld "b" (TArr unsigned_char_t 16) ].

(** [amdsmi_cper_timestamp_t], lines 1614-1623. *)
Definition amdsmi_cper_timestamp_t : cty :=
  TStruct true
    [ fld "seconds" uint8_t;
      fld "minutes" uint8_t;
      fld "hours" uint8_t;
      fld "flag" uint8_t;
      fld "day" uint8_t;
      fld "month" uint8_t;
      fld "year" uint8_t;
      fld "century" uint8_t ].

(** [amdsmi_cper_valid_bits_t], lines 1625-1633. *)
Definition amdsmi_cper_valid_bits_t : cty :=
  TUnion true
    [ fld "valid_bits" (TStruct true
      [ bfld "platform_id" uint32_t 1;
        bfld "timestamp" uint32_t 1;
        bfld "partition_id" uint32_t 1;
        bfld "reserved" uint32_t 29 ]);
      fld "valid_mask" uint32_t ].

(** [amdsmi_cper_hdr_t], lines 1635-1652. *)
Definition amdsmi_cper_hdr_t : cty :=
  TStruct true
    [ fld "signature" (TArr char_t 4);
      fld "revision" uint16_t;
      fld "signature_end" uint32_t;
      fld "sec_cnt" uint16_t;
      fld "error_severity" (TEnum (enum_values amdsmi_cper_sev_t));
      fld "cper_valid_bits" amdsmi_cper_valid_bits_t;
      fld "record_length" uint32_t;
      fld "timestamp" amdsmi_cper_timestamp_t;
      fld "platform_id" (TArr char_t 16);
      fld "partition_id" amdsmi_cper_guid_t;
      fld "creator_id" (TArr char_t 16);
      fld "notify_type" amdsmi_cper_guid_t;
      fld "record_id" (TArr char_t 8);
      fld "flags" uint32_t;
      fld "persistence_info" uint64_t;
      fld "reserved" (TArr uint8_t 12) ].

(** [amdsmi_p2p_capability_t], lines 1671-1678. *)
Definition amdsmi_p2p_capability_t : cty :=
  TStruct false
    [ fld "is_iolink_coherent" uint8_t;
      fld "is_iolink_atomics_32bit" uint8_t;
      fld "is_iolink_atomics_64bit" uint8_t;
      fld "is_iolink_dma" uint8_t;
      fld "is_iolink_bi_directional" uint8_t;
      fld "reserved" (TArr uint64_t 3) ].

(** Every structure and union the header declares, by name. *)
Definition gim_types : list (string * cty) :=
  [ ("amdsmi_bdf_t", amdsmi_bdf_t);
    ("amdsmi_pcie_info_t", amdsmi_pcie_info_t);
    ("amdsmi_power_cap_info_t", amdsmi_power_cap_info_t);
    ("amdsmi_vbios_info_t", amdsmi_vbios_info_t);
    ("amdsmi_gpu_cache_info_t", amdsmi_gpu_cache_info_t);
    ("amdsmi_fw_info_t", amdsmi_fw_info_t);
    ("amdsmi_asic_info_t", amdsmi_asic_info_t);
    ("amdsmi_driver_info_t", amdsmi_driver_info_t);
    ("amdsmi_power_info_t", amdsmi_power_info_t);
    ("amdsmi_engine_usage_t", amdsmi_engine_usage_t);
    ("amdsmi_clk_info_t", amdsmi_clk_info_t);
    ("amdsmi_error_count_t", amdsmi_error_count_t);
    ("amdsmi_ras_feature_t", amdsmi_ras_feature_t);
    ("amdsmi_vf_handle_t", amdsmi_vf_handle_t);
    ("amdsmi_event_entry_t", amdsmi_event_entry_t);
    ("amdsmi_board_info_t", amdsmi_board_info_t);
    ("amdsmi_pf_fb_info_t", amdsmi_pf_fb_info_t);
    ("amdsmi_vf_fb_info_t", amdsmi_vf_fb_info_t);
    ("amdsmi_partition_info_t", amdsmi_partition_info_t);
    ("amdsmi_guard_info_t", amdsmi_guard_info_t);
    ("amdsmi_vf_info_t", amdsmi_vf_info_t);
    ("amdsmi_sched_info_t", amdsmi_sched_info_t);
    ("amdsmi_vf_data_t", amdsmi_vf_data_t);
    ("amdsmi_profile_caps_info_t", amdsmi_profile_caps_info_t);
    ("amdsmi_profile_info_t", amdsmi_profile_info_t);
    ("amdsmi_guest_data_t", amdsmi_guest_data_t);
    ("amdsmi_dfc_fw_header_t", amdsmi_dfc_fw_header_t);
    ("amdsmi_dfc_fw_white_list_t", amdsmi_dfc_fw_white_list_t);
    ("amdsmi_dfc_fw_ta_uuid_t", amdsmi_dfc_fw_ta_uuid_t);
    ("amdsmi_dfc_fw_data_t", amdsmi_dfc_fw_data_t);
    ("amdsmi_dfc_fw_t", amdsmi_dfc_fw_t);
    ("amdsmi_eeprom_table_record_t", amdsmi_eeprom_table_record_t);
    ("amdsmi_fw_load_error_record_t", amdsmi_fw_load_error_record_t);
    ("amdsmi_fw_error_record_t", amdsmi_fw_error_record_t);
    ("amdsmi_link_metrics_t", amdsmi_link_metrics_t);
    ("amdsmi_link_topology_t", amdsmi_link_topology_t);
    ("amdsmi_topology_nearest_t", amdsmi_topology_nearest_t);
    ("amdsmi_xgmi_fb_sharing_caps_t", amdsmi_xgmi_fb_sharing_caps_t);
    ("amdsmi_vram_info_t", amdsmi_vram_info_t);
    ("amdsmi_metric_t", amdsmi_metric_t);
    ("amdsmi_version_t", amdsmi_version_t);
    ("amdsmi_nps_caps_t", amdsmi_nps_caps_t);
    ("amdsmi_memory_partition_config_t", amdsmi_memory_partition_config_t);
    ("amdsmi_accelerator_partition_profile_t", amdsmi_accelerator_partition_profile_t);
    ("amdsmi_accelerator_partition_resource_profile_t", amdsmi_accelerator_partition_resource_profile_t);
    ("amdsmi_accelerator_partition_profile_config_t", amdsmi_accelerator_partition_profile_config_t);
    ("amdsmi_dpm_policy_entry_t", amdsmi_dpm_policy_entry_t);
    ("amdsmi_dpm_policy_t", amdsmi_dpm_policy_t);
    ("amdsmi_cper_guid_t", amdsmi_cper_guid_t);
    ("amdsmi_cper_timestamp_t", amdsmi_cper_timestamp_t);
    ("amdsmi_cper_valid_bits_t", amdsmi_cper_valid_bits_t);
    ("amdsmi_cper_hdr_t", amdsmi_cper_hdr_t);
    ("amdsmi_p2p_capability_t", amdsmi_p2p_capability_t) ].

End GimT.
