(* ===== verification/SmiLayouts.v ===== *)
(** The places of the members of a C type, and the places a C compiler gives
    the members of the structures and unions of both SMI headers.

    [layout] computes them with [CAbi].  The two tables do not: they were
    read from the debug information of objects that GCC compiled from
    [src/assets/amd_smi_lib/x86_64/UBUNTU22/lib/amdsmi.h] (with
    [ENABLE_ESMI_LIB]) and [src/assets/gim_smi_lib/x86_64/UBUNTU22/lib/amdsmi.h]
    for x86-64 Linux.  For each type they have its name, its size and
    alignment in bytes, and for every member at any depth - of an array the
    first element - the first bit, the width in bits and the kind. *)

From S2P Require Import Prelude CAbi.
Local Open Scope Z_scope.

Inductive kind : Type := UInt | SInt | Boo | Flo | Ptr | Enm | Arr | Str | Uni.
#[export] Instance kind_eq_dec : EqDecision kind.
Proof. solve_decision. Defined.

Definition kind_of (t : cty) : kind :=
  match t with
  | TInt _ signed => if signed then SInt else UInt
  | TBool => Boo
  | TFloat | TDouble => Flo
  | TPtr => Ptr
  | TEnum _ => Enm
  | TArr _ _ => Arr
  | TStruct _ _ => Str
  | TUnion _ _ => Uni
  end.

(** A member: its name with the names of the members it is in, its place. *)
Record spot : Type := At { spot_name : string; spot_bit : Z; spot_bits : Z; spot_kind : kind }.
#[export] Instance spot_eq_dec : EqDecision spot.
Proof. solve_decision. Defined.

Definition dotted (pre f : string) : string := if decide (pre = "") then f else pre +:+ "." +:+ f.

(** The members of a type from the bit [base] on, with their paths. *)
Fixpoint layout (pre : string) (p : list acc) (base : Z) (t : cty) : list (list acc * spot) :=
  let members :=
    fix go (ms : list member) (os : list Z) : list (list acc * spot) :=
      match ms, os with
      | m :: ms, o :: os =>
          let name := dotted pre m.1 in
          let q := p ++ [AField m.1] in
          (q, At name (base + o) (default (8 * sizeof m.2.1) m.2.2) (kind_of m.2.1)) ::
          match m.2.2 with None => layout name q (base + o) m.2.1 | Some _ => [] end ++ go ms os
      | _, _ => []
      end in
  match t with
  | TArr t _ => layout (pre +:+ "[0]") (p ++ [AIndex 0]) base t
  | TStruct pk ms => members ms (offsets pk 0 (map mslot ms))
  | TUnion _ ms => members ms (map (λ _, 0) ms)
  | _ => []
  end.

Definition spots (t : cty) : list spot := (layout "" [] 0 t).*2.

(** A row of the tables. *)
Record shape : Type := Shape { shape_name : string; shape_size : Z; shape_align : Z; shape_spots : list spot }.
#[export] Instance shape_eq_dec : EqDecision shape.
Proof. solve_decision. Defined.

Definition shape_of (nt : string * cty) : shape := Shape nt.1 (sizeof nt.2) (alignof nt.2) (spots nt.2).

Definition smi_compiled : list shape :=
  [ Shape "amdsmi_hsmp_driver_version_t" 8 4
      [ At "major" 0 32 UInt; At "minor" 32 32 UInt ];
    Shape "amdsmi_range_t" 32 8
      [ At "lower_bound" 0 64 UInt; At "upper_bound" 64 64 UInt; At "reserved" 128 128 Arr ];
    Shape "amdsmi_xgmi_info_t" 64 8
      [ At "xgmi_lanes" 0 8 UInt; At "xgmi_hive_id" 64 64 UInt; At "xgmi_node_id" 128 64 UInt;
        At "index" 192 32 UInt; At "reserved" 224 288 Arr ];
    Shape "amdsmi_vram_usage_t" 16 4
      [ At "vram_total" 0 32 UInt; At "vram_used" 32 32 UInt; At "reserved" 64 64 Arr ];
    Shape "amdsmi_violation_status_t" 6016 8
      [ At "reference_timestamp" 0 64 UInt; At "violation_timestamp" 64 64 UInt;
        At "acc_counter" 128 64 UInt; At "acc_prochot_thrm" 192 64 UInt; At "acc_ppt_pwr" 256 64 UInt;
        At "acc_socket_thrm" 320 64 UInt; At "acc_vr_thrm" 384 64 UInt; At "acc_hbm_thrm" 448 64 UInt;
        At "acc_gfx_clk_below_host_limit" 512 64 UInt; At "per_prochot_thrm" 576 64 UInt;
        At "per_ppt_pwr" 640 64 UInt; At "per_socket_thrm" 704 64 UInt; At "per_vr_thrm" 768 64 UInt;
        At "per_hbm_thrm" 832 64 UInt; At "per_gfx_clk_below_host_limit" 896 64 UInt;
        At "active_prochot_thrm" 960 8 UInt; At "active_ppt_pwr" 968 8 UInt;
        At "active_socket_thrm" 976 8 UInt; At "active_vr_thrm" 984 8 UInt; At "active_hbm_thrm" 992 8 UInt;
        At "active_gfx_clk_below_host_limit" 1000 8 UInt;
        At "acc_gfx_clk_below_host_limit_pwr" 1024 4096 Arr;
        At "acc_gfx_clk_below_host_limit_thm" 5120 4096 Arr; At "acc_low_utilization" 9216 4096 Arr;
        At "acc_gfx_clk_below_host_limit_total" 13312 4096 Arr;
        At "per_gfx_clk_below_host_limit_pwr" 17408 4096 Arr;
        At "per_gfx_clk_below_host_limit_thm" 21504 4096 Arr; At "per_low_utilization" 25600 4096 Arr;
        At "per_gfx_clk_below_host_limit_total" 29696 4096 Arr;
        At "active_gfx_clk_below_host_limit_pwr" 33792 512 Arr;
        At "active_gfx_clk_below_host_limit_thm" 34304 512 Arr; At "active_low_utilization" 34816 512 Arr;
        At "active_gfx_clk_below_host_limit_total" 35328 512 Arr; At "reserved" 35840 4096 Arr;
        At "reserved2" 39936 4096 Arr; At "reserved3" 44032 4096 Arr ];
    Shape "amdsmi_frequency_range_t" 96 8
      [ At "supported_freq_range" 0 256 Str; At "supported_freq_range.lower_bound" 0 64 UInt;
        At "supported_freq_range.upper_bound" 64 64 UInt; At "supported_freq_range.reserved" 128 128 Arr;
        At "current_freq_range" 256 256 Str; At "current_freq_range.lower_bound" 256 64 UInt;
        At "current_freq_range.upper_bound" 320 64 UInt; At "current_freq_range.reserved" 384 128 Arr;
        At "reserved" 512 256 Arr ];
    Shape "amdsmi_bdf_t" 8 8
      [ At "bdf" 0 64 Str; At "bdf.function_number" 0 3 UInt; At "bdf.device_number" 3 5 UInt;
        At "bdf.bus_number" 8 8 UInt; At "bdf.domain_number" 16 48 UInt; At "" 0 64 Str;
        At "function_number" 0 3 UInt; At "device_number" 3 5 UInt; At "bus_number" 8 8 UInt;
        At "domain_number" 16 48 UInt; At "as_uint" 0 64 UInt ];
    Shape "amdsmi_enumeration_info_t" 276 4
      [ At "drm_render" 0 32 UInt; At "drm_card" 32 32 UInt; At "hsa_id" 64 32 UInt; At "hip_id" 96 32 UInt;
        At "hip_uuid" 128 2048 Arr; At "oam_id" 2176 32 UInt ];
    Shape "amdsmi_pcie_info_t" 512 8
      [ At "pcie_static" 0 768 Str; At "pcie_static.max_pcie_width" 0 16 UInt;
        At "pcie_static.max_pcie_speed" 32 32 UInt; At "pcie_static.pcie_interface_version" 64 32 UInt;
        At "pcie_static.slot_type" 96 32 Enm; At "pcie_static.max_pcie_interface_version" 128 32 UInt;
        At "pcie_static.reserved" 192 576 Arr; At "pcie_metric" 768 1280 Str;
        At "pcie_metric.pcie_width" 768 16 UInt; At "pcie_metric.pcie_speed" 800 32 UInt;
        At "pcie_metric.pcie_bandwidth" 832 32 UInt; At "pcie_metric.pcie_replay_count" 896 64 UInt;
        At "pcie_metric.pcie_l0_to_recovery_count" 960 64 UInt;
        At "pcie_metric.pcie_replay_roll_over_count" 1024 64 UInt;
        At "pcie_metric.pcie_nak_sent_count" 1088 64 UInt;
        At "pcie_metric.pcie_nak_received_count" 1152 64 UInt;
        At "pcie_metric.pcie_lc_perf_other_end_recovery_count" 1216 32 UInt;
        At "pcie_metric.reserved" 1280 768 Arr; At "reserved" 2048 2048 Arr ];
    Shape "amdsmi_power_cap_info_t" 64 8
      [ At "power_cap" 0 64 UInt; At "default_power_cap" 64 64 UInt; At "dpm_cap" 128 64 UInt;
        At "min_power_cap" 192 64 UInt; At "max_power_cap" 256 64 UInt; At "reserved" 320 192 Arr ];
    Shape "amdsmi_vbios_info_t" 1568 8
      [ At "name" 0 2048 Arr; At "build_date" 2048 2048 Arr; At "part_number" 4096 2048 Arr;
        At "version" 6144 2048 Arr; At "boot_firmware" 8192 2048 Arr; At "reserved" 10240 2304 Arr ];
    Shape "amdsmi_gpu_cache_info_t" 384 4
      [ At "num_cache_types" 0 32 UInt; At "cache" 32 2560 Arr; At "cache[0].cache_properties" 32 32 UInt;
        At "cache[0].cache_size" 64 32 UInt; At "cache[0].cache_level" 96 32 UInt;
        At "cache[0].max_num_cu_shared" 128 32 UInt; At "cache[0].num_cache_instance" 160 32 UInt;
        At "cache[0].reserved" 192 96 Arr; At "reserved" 2592 480 Arr ];
    Shape "amdsmi_fw_info_t" 2600 8
      [ At "num_fw_info" 0 8 UInt; At "fw_info_list" 64 20480 Arr; At "fw_info_list[0].fw_id" 64 32 Enm;
        At "fw_info_list[0].fw_version" 128 64 UInt; At "fw_info_list[0].reserved" 192 128 Arr;
        At "reserved" 20544 224 Arr ];
    Shape "amdsmi_asic_info_t" 896 8
      [ At "market_name" 0 2048 Arr; At "vendor_id" 2048 32 UInt; At "vendor_name" 2080 2048 Arr;
        At "subvendor_id" 4128 32 UInt; At "device_id" 4160 64 UInt; At "rev_id" 4224 32 UInt;
        At "asic_serial" 4256 2048 Arr; At "oam_id" 6304 32 UInt; At "num_of_compute_units" 6336 32 UInt;
        At "target_graphics_version" 6400 64 UInt; At "subsystem_id" 6464 32 UInt; At "flags" 6528 64 UInt;
        At "reserved" 6592 576 Arr ];
    Shape "amdsmi_kfd_info_t" 64 8
      [ At "kfd_id" 0 64 UInt; At "node_id" 64 32 UInt; At "current_partition_id" 96 32 UInt;
        At "reserved" 128 384 Arr ];
    Shape "amdsmi_nps_caps_t" 4 4
      [ At "nps_flags" 0 32 Str; At "nps_flags.nps1_cap" 0 1 UInt; At "nps_flags.nps2_cap" 1 1 UInt;
        At "nps_flags.nps4_cap" 2 1 UInt; At "nps_flags.nps8_cap" 3 1 UInt;
        At "nps_flags.reserved" 4 28 UInt; At "nps_cap_mask" 0 32 UInt ];
    Shape "amdsmi_memory_partition_config_t" 872 8
      [ At "partition_caps" 0 32 Uni; At "partition_caps.nps_flags" 0 32 Str;
        At "partition_caps.nps_flags.nps1_cap" 0 1 UInt; At "partition_caps.nps_flags.nps2_cap" 1 1 UInt;
        At "partition_caps.nps_flags.nps4_cap" 2 1 UInt; At "partition_caps.nps_flags.nps8_cap" 3 1 UInt;
        At "partition_caps.nps_flags.reserved" 4 28 UInt; At "partition_caps.nps_cap_mask" 0 32 UInt;
        At "mp_mode" 32 32 Enm; At "num_numa_ranges" 64 32 UInt; At "numa_range" 128 6144 Arr;
        At "numa_range[0].memory_type" 128 32 Enm; At "numa_range[0].start" 192 64 UInt;
        At "numa_range[0].end" 256 64 UInt; At "reserved" 6272 704 Arr ];
    Shape "amdsmi_accelerator_partition_profile_t" 1152 8
      [ At "profile_type" 0 32 Enm; At "num_partitions" 32 32 UInt; At "memory_caps" 64 32 Uni;
        At "memory_caps.nps_flags" 64 32 Str; At "memory_caps.nps_flags.nps1_cap" 64 1 UInt;
        At "memory_caps.nps_flags.nps2_cap" 65 1 UInt; At "memory_caps.nps_flags.nps4_cap" 66 1 UInt;
        At "memory_caps.nps_flags.nps8_cap" 67 1 UInt; At "memory_caps.nps_flags.reserved" 68 28 UInt;
        At "memory_caps.nps_cap_mask" 64 32 UInt; At "profile_index" 96 32 UInt;
        At "num_resources" 128 32 UInt; At "resources" 160 8192 Arr; At "reserved" 8384 832 Arr ];
    Shape "amdsmi_accelerator_partition_resource_profile_t" 64 8
      [ At "profile_index" 0 32 UInt; At "resource_type" 32 32 Enm; At "partition_resource" 64 32 UInt;
        At "num_partitions_share_resource" 96 32 UInt; At "reserved" 128 384 Arr ];
    Shape "amdsmi_accelerator_partition_profile_config_t" 39168 8
      [ At "num_profiles" 0 32 UInt; At "num_resource_profiles" 32 32 UInt;
        At "resource_profiles" 64 16384 Arr; At "resource_profiles[0].profile_index" 64 32 UInt;
        At "resource_profiles[0].resource_type" 96 32 Enm;
        At "resource_profiles[0].partition_resource" 128 32 UInt;
        At "resource_profiles[0].num_partitions_share_resource" 160 32 UInt;
        At "resource_profiles[0].reserved" 192 384 Arr; At "default_profile_index" 16448 32 UInt;
        At "profiles" 16512 294912 Arr; At "profiles[0].profile_type" 16512 32 Enm;
        At "profiles[0].num_partitions" 16544 32 UInt; At "profiles[0].memory_caps" 16576 32 Uni;
        At "profiles[0].memory_caps.nps_flags" 16576 32 Str;
        At "profiles[0].memory_caps.nps_flags.nps1_cap" 16576 1 UInt;
        At "profiles[0].memory_caps.nps_flags.nps2_cap" 16577 1 UInt;
        At "profiles[0].memory_caps.nps_flags.nps4_cap" 16578 1 UInt;
        At "profiles[0].memory_caps.nps_flags.nps8_cap" 16579 1 UInt;
        At "profiles[0].memory_caps.nps_flags.reserved" 16580 28 UInt;
        At "profiles[0].memory_caps.nps_cap_mask" 16576 32 UInt;
        At "profiles[0].profile_index" 16608 32 UInt; At "profiles[0].num_resources" 16640 32 UInt;
        At "profiles[0].resources" 16672 8192 Arr; At "profiles[0].reserved" 24896 832 Arr;
        At "reserved" 311424 1920 Arr ];
    Shape "amdsmi_cpu_util_t" 20 4
      [ At "cpu_util_total" 0 32 UInt; At "cpu_util_user" 32 32 UInt; At "cpu_util_nice" 64 32 UInt;
        At "cpu_util_sys" 96 32 UInt; At "cpu_util_irq" 128 32 UInt ];
    Shape "amdsmi_link_metrics_t" 3648 8
      [ At "num_links" 0 32 UInt; At "links" 64 28672 Arr; At "links[0].bdf" 64 64 Uni;
        At "links[0].bdf.bdf" 64 64 Str; At "links[0].bdf.bdf.function_number" 64 3 UInt;
        At "links[0].bdf.bdf.device_number" 67 5 UInt; At "links[0].bdf.bdf.bus_number" 72 8 UInt;
        At "links[0].bdf.bdf.domain_number" 80 48 UInt; At "links[0].bdf." 64 64 Str;
        At "links[0].bdf..function_number" 64 3 UInt; At "links[0].bdf..device_number" 67 5 UInt;
        At "links[0].bdf..bus_number" 72 8 UInt; At "links[0].bdf..domain_number" 80 48 UInt;
        At "links[0].bdf.as_uint" 64 64 UInt; At "links[0].bit_rate" 128 32 UInt;
        At "links[0].max_bandwidth" 160 32 UInt; At "links[0].link_type" 192 32 Enm;
        At "links[0].read" 256 64 UInt; At "links[0].write" 320 64 UInt;
        At "links[0].link_status" 384 32 Enm; At "links[0].reserved" 448 64 Arr;
        At "reserved" 28736 448 Arr ];
    Shape "amdsmi_vram_info_t" 584 8
      [ At "vram_type" 0 32 Enm; At "vram_vendor" 32 2048 Arr; At "vram_size" 2112 64 UInt;
        At "vram_bit_width" 2176 32 UInt; At "vram_max_bandwidth" 2240 64 UInt;
        At "reserved" 2304 2368 Arr ];
    Shape "amdsmi_driver_info_t" 768 1
      [ At "driver_version" 0 2048 Arr; At "driver_date" 2048 2048 Arr; At "driver_name" 4096 2048 Arr ];
    Shape "amdsmi_board_info_t" 1792 8
      [ At "model_number" 0 2048 Arr; At "product_serial" 2048 2048 Arr; At "fru_id" 4096 2048 Arr;
        At "product_name" 6144 2048 Arr; At "manufacturer_name" 8192 2048 Arr;
        At "reserved" 10240 4096 Arr ];
    Shape "amdsmi_power_info_t" 192 8
      [ At "socket_power" 0 64 UInt; At "current_socket_power" 64 32 UInt;
        At "average_socket_power" 96 32 UInt; At "gfx_voltage" 128 64 UInt; At "soc_voltage" 192 64 UInt;
        At "mem_voltage" 256 64 UInt; At "power_limit" 320 32 UInt; At "ubb_power" 352 32 UInt;
        At "reserved" 384 1152 Arr ];
    Shape "amdsmi_clk_info_t" 32 4
      [ At "clk" 0 32 UInt; At "min_clk" 32 32 UInt; At "max_clk" 64 32 UInt; At "clk_locked" 96 8 UInt;
        At "clk_deep_sleep" 104 8 UInt; At "reserved" 128 128 Arr ];
    Shape "amdsmi_engine_usage_t" 64 4
      [ At "gfx_activity" 0 32 UInt; At "umc_activity" 32 32 UInt; At "mm_activity" 64 32 UInt;
        At "reserved" 96 416 Arr ];
    Shape "amdsmi_proc_info_t" 704 8
      [ At "name" 0 2048 Arr; At "pid" 2048 32 UInt; At "mem" 2112 64 UInt; At "engine_usage" 2176 512 Str;
        At "engine_usage.gfx" 2176 64 UInt; At "engine_usage.enc" 2240 64 UInt;
        At "engine_usage.reserved" 2304 384 Arr; At "memory_usage" 2688 512 Str;
        At "memory_usage.gtt_mem" 2688 64 UInt; At "memory_usage.cpu_mem" 2752 64 UInt;
        At "memory_usage.vram_mem" 2816 64 UInt; At "memory_usage.reserved" 2880 320 Arr;
        At "container_name" 3200 2048 Arr; At "cu_occupancy" 5248 32 UInt; At "evicted_time" 5280 32 UInt;
        At "sdma_usage" 5312 64 UInt; At "reserved" 5376 256 Arr ];
    Shape "amdsmi_p2p_capability_t" 5 1
      [ At "is_iolink_coherent" 0 8 UInt; At "is_iolink_atomics_32bit" 8 8 UInt;
        At "is_iolink_atomics_64bit" 16 8 UInt; At "is_iolink_dma" 24 8 UInt;
        At "is_iolink_bi_directional" 32 8 UInt ];
    Shape "amdsmi_counter_value_t" 24 8
      [ At "value" 0 64 UInt; At "time_enabled" 64 64 UInt; At "time_running" 128 64 UInt ];
    Shape "amdsmi_evt_notification_data_t" 272 8
      [ At "processor_handle" 0 64 Ptr; At "event" 64 32 Enm; At "message" 96 2048 Arr ];
    Shape "amdsmi_gpu_ras_policy_v4_0_t" 4 2
      [ At "dram_non_critical_region_threshold" 0 16 UInt; At "dram_critical_region_threshold" 16 16 UInt ];
    Shape "amdsmi_gpu_ras_policy_info_t" 48 8
      [ At "major_version" 0 8 UInt; At "minor_version" 8 8 UInt; At "policy_data" 64 320 Uni;
        At "policy_data.v4_0" 64 32 Str;
        At "policy_data.v4_0.dram_non_critical_region_threshold" 64 16 UInt;
        At "policy_data.v4_0.dram_critical_region_threshold" 80 16 UInt; At "policy_data.info" 64 320 Arr ];
    Shape "amdsmi_utilization_counter_t" 56 8
      [ At "type" 0 32 Enm; At "value" 64 64 UInt; At "fine_value" 128 256 Arr;
        At "fine_value_count" 384 16 UInt ];
    Shape "amdsmi_retired_page_record_t" 24 8
      [ At "page_address" 0 64 UInt; At "page_size" 64 64 UInt; At "status" 128 32 Enm ];
    Shape "amdsmi_power_profile_status_t" 24 8
      [ At "available_profiles" 0 64 UInt; At "current" 64 64 Enm; At "num_profiles" 128 32 UInt ];
    Shape "amdsmi_frequencies_t" 280 8
      [ At "has_deep_sleep" 0 8 Boo; At "num_supported" 32 32 UInt; At "current" 64 32 UInt;
        At "frequency" 128 2112 Arr ];
    Shape "amdsmi_dpm_policy_entry_t" 260 4
      [ At "policy_id" 0 32 UInt; At "policy_description" 32 2048 Arr ];
    Shape "amdsmi_dpm_policy_t" 8328 4
      [ At "num_supported" 0 32 UInt; At "current" 32 32 UInt; At "policies" 64 66560 Arr;
        At "policies[0].policy_id" 64 32 UInt; At "policies[0].policy_description" 96 2048 Arr ];
    Shape "amdsmi_pcie_bandwidth_t" 416 8
      [ At "transfer_rate" 0 2240 Str; At "transfer_rate.has_deep_sleep" 0 8 Boo;
        At "transfer_rate.num_supported" 32 32 UInt; At "transfer_rate.current" 64 32 UInt;
        At "transfer_rate.frequency" 128 2112 Arr; At "lanes" 2240 1056 Arr ];
    Shape "amdsmi_version_t" 24 8
      [ At "major" 0 32 UInt; At "minor" 32 32 UInt; At "release" 64 32 UInt; At "build" 128 64 Ptr ];
    Shape "amdsmi_od_vddc_point_t" 16 8
      [ At "frequency" 0 64 UInt; At "voltage" 64 64 UInt ];
    Shape "amdsmi_freq_volt_region_t" 64 8
      [ At "freq_range" 0 256 Str; At "freq_range.lower_bound" 0 64 UInt;
        At "freq_range.upper_bound" 64 64 UInt; At "freq_range.reserved" 128 128 Arr;
        At "volt_range" 256 256 Str; At "volt_range.lower_bound" 256 64 UInt;
        At "volt_range.upper_bound" 320 64 UInt; At "volt_range.reserved" 384 128 Arr ];
    Shape "amdsmi_od_volt_curve_t" 48 8
      [ At "vc_points" 0 384 Arr; At "vc_points[0].frequency" 0 64 UInt;
        At "vc_points[0].voltage" 64 64 UInt ];
    Shape "amdsmi_od_volt_freq_data_t" 248 8
      [ At "curr_sclk_range" 0 256 Str; At "curr_sclk_range.lower_bound" 0 64 UInt;
        At "curr_sclk_range.upper_bound" 64 64 UInt; At "curr_sclk_range.reserved" 128 128 Arr;
        At "curr_mclk_range" 256 256 Str; At "curr_mclk_range.lower_bound" 256 64 UInt;
        At "curr_mclk_range.upper_bound" 320 64 UInt; At "curr_mclk_range.reserved" 384 128 Arr;
        At "curr_fclk_range" 512 256 Str; At "curr_fclk_range.lower_bound" 512 64 UInt;
        At "curr_fclk_range.upper_bound" 576 64 UInt; At "curr_fclk_range.reserved" 640 128 Arr;
        At "sclk_freq_limits" 768 256 Str; At "sclk_freq_limits.lower_bound" 768 64 UInt;
        At "sclk_freq_limits.upper_bound" 832 64 UInt; At "sclk_freq_limits.reserved" 896 128 Arr;
        At "mclk_freq_limits" 1024 256 Str; At "mclk_freq_limits.lower_bound" 1024 64 UInt;
        At "mclk_freq_limits.upper_bound" 1088 64 UInt; At "mclk_freq_limits.reserved" 1152 128 Arr;
        At "fclk_freq_limits" 1280 256 Str; At "fclk_freq_limits.lower_bound" 1280 64 UInt;
        At "fclk_freq_limits.upper_bound" 1344 64 UInt; At "fclk_freq_limits.reserved" 1408 128 Arr;
        At "curve" 1536 384 Str; At "curve.vc_points" 1536 384 Arr;
        At "curve.vc_points[0].frequency" 1536 64 UInt; At "curve.vc_points[0].voltage" 1600 64 UInt;
        At "num_regions" 1920 32 UInt ];
    Shape "amd_metrics_table_header_t" 4 2
      [ At "structure_size" 0 16 UInt; At "format_revision" 16 8 UInt; At "content_revision" 24 8 UInt ];
    Shape "amdsmi_gpu_xcp_metrics_t" 520 8
      [ At "gfx_busy_inst" 0 256 Arr; At "jpeg_busy" 256 640 Arr; At "vcn_busy" 896 64 Arr;
        At "gfx_busy_acc" 960 512 Arr; At "gfx_below_host_limit_acc" 1472 512 Arr;
        At "gfx_below_host_limit_ppt_acc" 1984 512 Arr; At "gfx_below_host_limit_thm_acc" 2496 512 Arr;
        At "gfx_low_utilization_acc" 3008 512 Arr; At "gfx_below_host_limit_total_acc" 3520 512 Arr;
        At "temperature_xcd" 4032 128 Arr ];
    Shape "amdsmi_apu_metrics_t" 344 8
      [ At "temperature_gfx" 0 16 UInt; At "temperature_soc" 16 16 UInt; At "temperature_core" 32 256 Arr;
        At "temperature_l3" 288 32 Arr; At "temperature_skin" 320 16 UInt;
        At "average_gfx_activity" 336 16 UInt; At "average_mm_activity" 352 16 UInt;
        At "average_vcn_activity" 368 16 UInt; At "average_ipu_activity" 384 128 Arr;
        At "average_core_c0_activity" 512 256 Arr; At "average_dram_reads" 768 16 UInt;
        At "average_dram_writes" 784 16 UInt; At "average_ipu_reads" 800 16 UInt;
        At "average_ipu_writes" 816 16 UInt; At "average_socket_power" 832 32 UInt;
        At "average_cpu_power" 864 16 UInt; At "average_soc_power" 880 16 UInt;
        At "average_gfx_power" 896 32 UInt; At "average_core_power" 928 256 Arr;
        At "average_ipu_power" 1184 16 UInt; At "average_apu_power" 1216 32 UInt;
        At "average_dgpu_power" 1248 32 UInt; At "average_all_core_power" 1280 32 UInt;
        At "average_sys_power" 1312 16 UInt; At "stapm_power_limit" 1328 16 UInt;
        At "current_stapm_power_limit" 1344 16 UInt; At "average_gfxclk_frequency" 1360 16 UInt;
        At "average_socclk_frequency" 1376 16 UInt; At "average_uclk_frequency" 1392 16 UInt;
        At "average_fclk_frequency" 1408 16 UInt; At "average_vclk_frequency" 1424 16 UInt;
        At "average_dclk_frequency" 1440 16 UInt; At "average_vpeclk_frequency" 1456 16 UInt;
        At "average_ipuclk_frequency" 1472 16 UInt; At "average_mpipu_frequency" 1488 16 UInt;
        At "current_gfxclk" 1504 16 UInt; At "current_socclk" 1520 16 UInt; At "current_uclk" 1536 16 UInt;
        At "current_fclk" 1552 16 UInt; At "current_vclk" 1568 16 UInt; At "current_dclk" 1584 16 UInt;
        At "current_coreclk" 1600 256 Arr; At "current_l3clk" 1856 32 Arr;
        At "current_core_maxfreq" 1888 16 UInt; At "current_gfx_maxfreq" 1904 16 UInt;
        At "throttle_status" 1920 32 UInt; At "indep_throttle_status" 1984 64 UInt;
        At "throttle_residency_prochot" 2048 32 UInt; At "throttle_residency_spl" 2080 32 UInt;
        At "throttle_residency_fppt" 2112 32 UInt; At "throttle_residency_sppt" 2144 32 UInt;
        At "throttle_residency_thm_core" 2176 32 UInt; At "throttle_residency_thm_gfx" 2208 32 UInt;
        At "throttle_residency_thm_soc" 2240 32 UInt; At "fan_pwm" 2272 16 UInt;
        At "average_temperature_gfx" 2288 16 UInt; At "average_temperature_soc" 2304 16 UInt;
        At "average_temperature_core" 2320 256 Arr; At "average_temperature_l3" 2576 32 Arr;
        At "average_cpu_voltage" 2608 16 UInt; At "average_soc_voltage" 2624 16 UInt;
        At "average_gfx_voltage" 2640 16 UInt; At "average_cpu_current" 2656 16 UInt;
        At "average_soc_current" 2672 16 UInt; At "average_gfx_current" 2688 16 UInt;
        At "time_filter_alphavalue" 2720 32 UInt ];
    Shape "amdsmi_gpu_metrics_t" 4720 8
      [ At "common_header" 0 32 Str; At "common_header.structure_size" 0 16 UInt;
        At "common_header.format_revision" 16 8 UInt; At "common_header.content_revision" 24 8 UInt;
        At "temperature_edge" 32 16 UInt; At "temperature_hotspot" 48 16 UInt;
        At "temperature_mem" 64 16 UInt; At "temperature_vrgfx" 80 16 UInt;
        At "temperature_vrsoc" 96 16 UInt; At "temperature_vrmem" 112 16 UInt;
        At "average_gfx_activity" 128 16 UInt; At "average_umc_activity" 144 16 UInt;
        At "average_mm_activity" 160 16 UInt; At "average_socket_power" 176 16 UInt;
        At "energy_accumulator" 192 64 UInt; At "system_clock_counter" 256 64 UInt;
        At "average_gfxclk_frequency" 320 16 UInt; At "average_socclk_frequency" 336 16 UInt;
        At "average_uclk_frequency" 352 16 UInt; At "average_vclk0_frequency" 368 16 UInt;
        At "average_dclk0_frequency" 384 16 UInt; At "average_vclk1_frequency" 400 16 UInt;
        At "average_dclk1_frequency" 416 16 UInt; At "current_gfxclk" 432 16 UInt;
        At "current_socclk" 448 16 UInt; At "current_uclk" 464 16 UInt; At "current_vclk0" 480 16 UInt;
        At "current_dclk0" 496 16 UInt; At "current_vclk1" 512 16 UInt; At "current_dclk1" 528 16 UInt;
        At "throttle_status" 544 32 UInt; At "current_fan_speed" 576 16 UInt;
        At "pcie_link_width" 592 16 UInt; At "pcie_link_speed" 608 16 UInt;
        At "gfx_activity_acc" 640 32 UInt; At "mem_activity_acc" 672 32 UInt;
        At "temperature_hbm" 704 64 Arr; At "firmware_timestamp" 768 64 UInt; At "voltage_soc" 832 16 UInt;
        At "voltage_gfx" 848 16 UInt; At "voltage_mem" 864 16 UInt; At "indep_throttle_status" 896 64 UInt;
        At "current_socket_power" 960 16 UInt; At "vcn_activity" 976 64 Arr;
        At "gfxclk_lock_status" 1056 32 UInt; At "xgmi_link_width" 1088 16 UInt;
        At "xgmi_link_speed" 1104 16 UInt; At "pcie_bandwidth_acc" 1152 64 UInt;
        At "pcie_bandwidth_inst" 1216 64 UInt; At "pcie_l0_to_recov_count_acc" 1280 64 UInt;
        At "pcie_replay_count_acc" 1344 64 UInt; At "pcie_replay_rover_count_acc" 1408 64 UInt;
        At "xgmi_read_data_acc" 1472 512 Arr; At "xgmi_write_data_acc" 1984 512 Arr;
        At "current_gfxclks" 2496 128 Arr; At "current_socclks" 2624 64 Arr;
        At "current_vclk0s" 2688 64 Arr; At "current_dclk0s" 2752 64 Arr; At "jpeg_activity" 2816 512 Arr;
        At "pcie_nak_sent_count_acc" 3328 32 UInt; At "pcie_nak_rcvd_count_acc" 3360 32 UInt;
        At "accumulation_counter" 3392 64 UInt; At "prochot_residency_acc" 3456 64 UInt;
        At "ppt_residency_acc" 3520 64 UInt; At "socket_thm_residency_acc" 3584 64 UInt;
        At "vr_thm_residency_acc" 3648 64 UInt; At "hbm_thm_residency_acc" 3712 64 UInt;
        At "num_partition" 3776 16 UInt; At "xcp_stats" 3840 33280 Arr;
        At "xcp_stats[0].gfx_busy_inst" 3840 256 Arr; At "xcp_stats[0].jpeg_busy" 4096 640 Arr;
        At "xcp_stats[0].vcn_busy" 4736 64 Arr; At "xcp_stats[0].gfx_busy_acc" 4800 512 Arr;
        At "xcp_stats[0].gfx_below_host_limit_acc" 5312 512 Arr;
        At "xcp_stats[0].gfx_below_host_limit_ppt_acc" 5824 512 Arr;
        At "xcp_stats[0].gfx_below_host_limit_thm_acc" 6336 512 Arr;
        At "xcp_stats[0].gfx_low_utilization_acc" 6848 512 Arr;
        At "xcp_stats[0].gfx_below_host_limit_total_acc" 7360 512 Arr;
        At "xcp_stats[0].temperature_xcd" 7872 128 Arr; At "pcie_lc_perf_other_end_recovery" 37120 32 UInt;
        At "vram_max_bandwidth" 37184 64 UInt; At "xgmi_link_status" 37248 128 Arr;
        At "temperature_hbm_stacks" 37376 192 Arr; At "temperature_mid" 37568 32 Arr;
        At "temperature_aid" 37600 32 Arr; At "current_uclk_aid" 37632 32 Arr;
        At "current_socclks_mid" 37664 32 Arr; At "apu_metrics" 37696 64 Ptr ];
    Shape "amdsmi_xgmi_link_status_t" 96 8
      [ At "total_links" 0 32 UInt; At "status" 32 256 Arr; At "reserved" 320 448 Arr ];
    Shape "amdsmi_name_value_t" 264 8
      [ At "name" 0 2048 Arr; At "value" 2048 64 UInt ];
    Shape "amdsmi_ras_feature_t" 16 4
      [ At "ras_eeprom_version" 0 32 UInt; At "ecc_correction_schema_flag" 32 32 UInt;
        At "ras_info" 64 32 Str; At "ras_info.dram_ecc" 64 1 UInt; At "ras_info.sram_ecc" 65 1 UInt;
        At "ras_info.poisoning" 66 1 UInt; At "ras_info.rsvd" 67 29 UInt; At "needs_reboot" 96 8 Boo ];
    Shape "amdsmi_error_count_t" 64 8
      [ At "correctable_count" 0 64 UInt; At "uncorrectable_count" 64 64 UInt;
        At "deferred_count" 128 64 UInt; At "reserved" 192 320 Arr ];
    Shape "amdsmi_process_info_t" 32 8
      [ At "process_id" 0 32 UInt; At "vram_usage" 64 64 UInt; At "sdma_usage" 128 64 UInt;
        At "cu_occupancy" 192 32 UInt; At "evicted_time" 224 32 UInt ];
    Shape "amdsmi_topology_nearest_t" 2176 8
      [ At "count" 0 32 UInt; At "processor_list" 64 16384 Arr; At "reserved" 16448 960 Arr ];
    Shape "amdsmi_npm_info_t" 64 8
      [ At "status" 0 32 Enm; At "limit" 64 64 UInt; At "ubb_power_threshold" 128 32 UInt;
        At "reserved" 192 320 Arr ];
    Shape "amdsmi_smu_fw_version_t" 4 1
      [ At "debug" 0 8 UInt; At "minor" 8 8 UInt; At "major" 16 8 UInt; At "unused" 24 8 UInt ];
    Shape "amdsmi_ddr_bw_metrics_t" 12 4
      [ At "max_bw" 0 32 UInt; At "utilized_bw" 32 32 UInt; At "utilized_pct" 64 32 UInt ];
    Shape "amdsmi_temp_range_refresh_rate_t" 1 1
      [ At "range" 0 3 UInt; At "ref_rate" 3 1 UInt ];
    Shape "amdsmi_dimm_power_t" 6 2
      [ At "power" 0 15 UInt; At "update_rate" 16 9 UInt; At "dimm_addr" 32 8 UInt ];
    Shape "amdsmi_dimm_thermal_t" 12 4
      [ At "sensor" 0 11 UInt; At "update_rate" 16 9 UInt; At "dimm_addr" 32 8 UInt; At "temp" 64 32 Flo ];
    Shape "amdsmi_link_id_bw_type_t" 16 8
      [ At "bw_type" 0 32 Enm; At "link_name" 64 64 Ptr ];
    Shape "amdsmi_dpm_level_t" 2 1
      [ At "max_dpm_level" 0 8 UInt; At "min_dpm_level" 8 8 UInt ];
    Shape "amdsmi_hsmp_metrics_table_t" 1404 1
      [ At "accumulation_counter" 0 32 UInt; At "max_socket_temperature" 32 32 UInt;
        At "max_vr_temperature" 64 32 UInt; At "max_hbm_temperature" 96 32 UInt;
        At "max_socket_temperature_acc" 128 64 UInt; At "max_vr_temperature_acc" 192 64 UInt;
        At "max_hbm_temperature_acc" 256 64 UInt; At "socket_power_limit" 320 32 UInt;
        At "max_socket_power_limit" 352 32 UInt; At "socket_power" 384 32 UInt; At "timestamp" 416 64 UInt;
        At "socket_energy_acc" 480 64 UInt; At "ccd_energy_acc" 544 64 UInt;
        At "xcd_energy_acc" 608 64 UInt; At "aid_energy_acc" 672 64 UInt; At "hbm_energy_acc" 736 64 UInt;
        At "cclk_frequency_limit" 800 32 UInt; At "gfxclk_frequency_limit" 832 32 UInt;
        At "fclk_frequency" 864 32 UInt; At "uclk_frequency" 896 32 UInt; At "socclk_frequency" 928 128 Arr;
        At "vclk_frequency" 1056 128 Arr; At "dclk_frequency" 1184 128 Arr;
        At "lclk_frequency" 1312 128 Arr; At "gfxclk_frequency_acc" 1440 512 Arr;
        At "cclk_frequency_acc" 1952 6144 Arr; At "max_cclk_frequency" 8096 32 UInt;
        At "min_cclk_frequency" 8128 32 UInt; At "max_gfxclk_frequency" 8160 32 UInt;
        At "min_gfxclk_frequency" 8192 32 UInt; At "fclk_frequency_table" 8224 128 Arr;
        At "uclk_frequency_table" 8352 128 Arr; At "socclk_frequency_table" 8480 128 Arr;
        At "vclk_frequency_table" 8608 128 Arr; At "dclk_frequency_table" 8736 128 Arr;
        At "lclk_frequency_table" 8864 128 Arr; At "max_lclk_dpm_range" 8992 32 UInt;
        At "min_lclk_dpm_range" 9024 32 UInt; At "xgmi_width" 9056 32 UInt; At "xgmi_bitrate" 9088 32 UInt;
        At "xgmi_read_bandwidth_acc" 9120 512 Arr; At "xgmi_write_bandwidth_acc" 9632 512 Arr;
        At "socket_c0_residency" 10144 32 UInt; At "socket_gfx_busy" 10176 32 UInt;
        At "dram_bandwidth_utilization" 10208 32 UInt; At "socket_c0_residency_acc" 10240 64 UInt;
        At "socket_gfx_busy_acc" 10304 64 UInt; At "dram_bandwidth_acc" 10368 64 UInt;
        At "max_dram_bandwidth" 10432 32 UInt; At "dram_bandwidth_utilization_acc" 10464 64 UInt;
        At "pcie_bandwidth_acc" 10528 256 Arr; At "prochot_residency_acc" 10784 32 UInt;
        At "ppt_residency_acc" 10816 32 UInt; At "socket_thm_residency_acc" 10848 32 UInt;
        At "vr_thm_residency_acc" 10880 32 UInt; At "hbm_thm_residency_acc" 10912 32 UInt;
        At "spare" 10944 32 UInt; At "gfxclk_frequency" 10976 256 Arr ];
    Shape "amdsmi_cpu_info_t" 904 8
      [ At "model_name" 0 2048 Arr; At "cpu_family_id" 2048 32 UInt; At "model_id" 2080 32 UInt;
        At "threads_per_core" 2112 32 UInt; At "cores_per_socket" 2144 32 UInt;
        At "frequency_boost" 2176 8 Boo; At "vendor_id" 2208 32 UInt; At "vendor_name" 2240 2048 Arr;
        At "subvendor_id" 4288 32 UInt; At "device_id" 4352 64 UInt; At "rev_id" 4416 32 UInt;
        At "asic_serial" 4448 2048 Arr; At "socket_id" 6496 32 UInt; At "core_id" 6528 32 UInt;
        At "num_of_cpu_cores" 6560 32 UInt; At "socket_count" 6592 32 UInt; At "core_count" 6624 32 UInt;
        At "reserved" 6656 544 Arr ];
    Shape "amdsmi_sock_info_t" 8 4
      [ At "socket_id" 0 32 UInt; At "cores_per_socket" 32 32 UInt ];
    Shape "amdsmi_nic_stat_t" 264 8
      [ At "name" 0 2048 Arr; At "value" 2048 64 UInt ];
    Shape "amdsmi_nic_asic_info_t" 1290 2
      [ At "vendor_id" 0 16 UInt; At "subvendor_id" 16 16 UInt; At "device_id" 32 16 UInt;
        At "subsystem_id" 48 16 UInt; At "revision" 64 8 UInt; At "permanent_address" 72 2048 Arr;
        At "product_name" 2120 2048 Arr; At "part_number" 4168 2048 Arr; At "serial_number" 6216 2048 Arr;
        At "vendor_name" 8264 2048 Arr ];
    Shape "amdsmi_nic_bus_info_t" 528 8
      [ At "bdf" 0 64 Uni; At "bdf.bdf" 0 64 Str; At "bdf.bdf.function_number" 0 3 UInt;
        At "bdf.bdf.device_number" 3 5 UInt; At "bdf.bdf.bus_number" 8 8 UInt;
        At "bdf.bdf.domain_number" 16 48 UInt; At "bdf." 0 64 Str; At "bdf..function_number" 0 3 UInt;
        At "bdf..device_number" 3 5 UInt; At "bdf..bus_number" 8 8 UInt; At "bdf..domain_number" 16 48 UInt;
        At "bdf.as_uint" 0 64 UInt; At "max_pcie_width" 64 8 UInt; At "max_pcie_speed" 96 32 UInt;
        At "pcie_interface_version" 128 2048 Arr; At "slot_type" 2176 2048 Arr ];
    Shape "amdsmi_nic_numa_info_t" 257 1
      [ At "node" 0 8 UInt; At "affinity" 8 2048 Arr ];
    Shape "amdsmi_nic_fw_t" 512 1
      [ At "name" 0 2048 Arr; At "version" 2048 2048 Arr ];
    Shape "amdsmi_nic_fw_info_t" 8196 4
      [ At "num_fw" 0 32 UInt; At "fw" 32 65536 Arr; At "fw[0].name" 32 2048 Arr;
        At "fw[0].version" 2080 2048 Arr ];
    Shape "amdsmi_nic_port_t" 2328 8
      [ At "bdf" 0 64 Uni; At "bdf.bdf" 0 64 Str; At "bdf.bdf.function_number" 0 3 UInt;
        At "bdf.bdf.device_number" 3 5 UInt; At "bdf.bdf.bus_number" 8 8 UInt;
        At "bdf.bdf.domain_number" 16 48 UInt; At "bdf." 0 64 Str; At "bdf..function_number" 0 3 UInt;
        At "bdf..device_number" 3 5 UInt; At "bdf..bus_number" 8 8 UInt; At "bdf..domain_number" 16 48 UInt;
        At "bdf.as_uint" 0 64 UInt; At "port_num" 64 32 UInt; At "type" 96 2048 Arr;
        At "flavour" 2144 2048 Arr; At "netdev" 4192 2048 Arr; At "ifindex" 6240 8 UInt;
        At "mac_address" 6248 2048 Arr; At "carrier" 8296 8 UInt; At "mtu" 8304 16 UInt;
        At "link_state" 8320 2048 Arr; At "link_speed" 10368 32 UInt; At "active_fec" 10400 32 UInt;
        At "autoneg" 10432 2048 Arr; At "pause_autoneg" 12480 2048 Arr; At "pause_rx" 14528 2048 Arr;
        At "pause_tx" 16576 2048 Arr ];
    Shape "amdsmi_nic_port_info_t" 74504 8
      [ At "num_ports" 0 32 UInt; At "ports" 64 595968 Arr; At "ports[0].bdf" 64 64 Uni;
        At "ports[0].bdf.bdf" 64 64 Str; At "ports[0].bdf.bdf.function_number" 64 3 UInt;
        At "ports[0].bdf.bdf.device_number" 67 5 UInt; At "ports[0].bdf.bdf.bus_number" 72 8 UInt;
        At "ports[0].bdf.bdf.domain_number" 80 48 UInt; At "ports[0].bdf." 64 64 Str;
        At "ports[0].bdf..function_number" 64 3 UInt; At "ports[0].bdf..device_number" 67 5 UInt;
        At "ports[0].bdf..bus_number" 72 8 UInt; At "ports[0].bdf..domain_number" 80 48 UInt;
        At "ports[0].bdf.as_uint" 64 64 UInt; At "ports[0].port_num" 128 32 UInt;
        At "ports[0].type" 160 2048 Arr; At "ports[0].flavour" 2208 2048 Arr;
        At "ports[0].netdev" 4256 2048 Arr; At "ports[0].ifindex" 6304 8 UInt;
        At "ports[0].mac_address" 6312 2048 Arr; At "ports[0].carrier" 8360 8 UInt;
        At "ports[0].mtu" 8368 16 UInt; At "ports[0].link_state" 8384 2048 Arr;
        At "ports[0].link_speed" 10432 32 UInt; At "ports[0].active_fec" 10464 32 UInt;
        At "ports[0].autoneg" 10496 2048 Arr; At "ports[0].pause_autoneg" 12544 2048 Arr;
        At "ports[0].pause_rx" 14592 2048 Arr; At "ports[0].pause_tx" 16640 2048 Arr ];
    Shape "amdsmi_nic_driver_info_t" 512 1
      [ At "name" 0 2048 Arr; At "version" 2048 2048 Arr ];
    Shape "amdsmi_nic_rdma_port_info_t" 518 2
      [ At "netdev" 0 2048 Arr; At "state" 2048 2048 Arr; At "rdma_port" 4096 8 UInt;
        At "max_mtu" 4112 16 UInt; At "active_mtu" 4128 16 UInt ];
    Shape "amdsmi_nic_rdma_dev_info_t" 17858 2
      [ At "rdma_dev" 0 2048 Arr; At "node_guid" 2048 2048 Arr; At "node_type" 4096 2048 Arr;
        At "sys_image_guid" 6144 2048 Arr; At "fw_ver" 8192 2048 Arr; At "num_rdma_ports" 10240 8 UInt;
        At "rdma_port_info" 10256 132608 Arr; At "rdma_port_info[0].netdev" 10256 2048 Arr;
        At "rdma_port_info[0].state" 12304 2048 Arr; At "rdma_port_info[0].rdma_port" 14352 8 UInt;
        At "rdma_port_info[0].max_mtu" 14368 16 UInt; At "rdma_port_info[0].active_mtu" 14384 16 UInt ];
    Shape "amdsmi_nic_rdma_devices_info_t" 571458 2
      [ At "num_rdma_dev" 0 8 UInt; At "rdma_dev_info" 16 4571648 Arr;
        At "rdma_dev_info[0].rdma_dev" 16 2048 Arr; At "rdma_dev_info[0].node_guid" 2064 2048 Arr;
        At "rdma_dev_info[0].node_type" 4112 2048 Arr; At "rdma_dev_info[0].sys_image_guid" 6160 2048 Arr;
        At "rdma_dev_info[0].fw_ver" 8208 2048 Arr; At "rdma_dev_info[0].num_rdma_ports" 10256 8 UInt;
        At "rdma_dev_info[0].rdma_port_info" 10272 132608 Arr;
        At "rdma_dev_info[0].rdma_port_info[0].netdev" 10272 2048 Arr;
        At "rdma_dev_info[0].rdma_port_info[0].state" 12320 2048 Arr;
        At "rdma_dev_info[0].rdma_port_info[0].rdma_port" 14368 8 UInt;
        At "rdma_dev_info[0].rdma_port_info[0].max_mtu" 14384 16 UInt;
        At "rdma_dev_info[0].rdma_port_info[0].active_mtu" 14400 16 UInt ];
    Shape "amdsmi_cper_guid_t" 16 1
      [ At "b" 0 128 Arr ];
    Shape "amdsmi_cper_timestamp_t" 8 1
      [ At "seconds" 0 8 UInt; At "minutes" 8 8 UInt; At "hours" 16 8 UInt; At "flag" 24 8 UInt;
        At "day" 32 8 UInt; At "month" 40 8 UInt; At "year" 48 8 UInt; At "century" 56 8 UInt ];
    Shape "amdsmi_cper_valid_bits_t" 4 1
      [ At "valid_bits" 0 32 Str; At "valid_bits.platform_id" 0 1 UInt; At "valid_bits.timestamp" 1 1 UInt;
        At "valid_bits.partition_id" 2 1 UInt; At "valid_bits.reserved" 3 29 UInt;
        At "valid_mask" 0 32 UInt ];
    Shape "amdsmi_cper_hdr_t" 128 1
      [ At "signature" 0 32 Arr; At "revision" 32 16 UInt; At "signature_end" 48 32 UInt;
        At "sec_cnt" 80 16 UInt; At "error_severity" 96 32 Enm; At "cper_valid_bits" 128 32 Uni;
        At "cper_valid_bits.valid_bits" 128 32 Str; At "cper_valid_bits.valid_bits.platform_id" 128 1 UInt;
        At "cper_valid_bits.valid_bits.timestamp" 129 1 UInt;
        At "cper_valid_bits.valid_bits.partition_id" 130 1 UInt;
        At "cper_valid_bits.valid_bits.reserved" 131 29 UInt; At "cper_valid_bits.valid_mask" 128 32 UInt;
        At "record_length" 160 32 UInt; At "timestamp" 192 64 Str; At "timestamp.seconds" 192 8 UInt;
        At "timestamp.minutes" 200 8 UInt; At "timestamp.hours" 208 8 UInt; At "timestamp.flag" 216 8 UInt;
        At "timestamp.day" 224 8 UInt; At "timestamp.month" 232 8 UInt; At "timestamp.year" 240 8 UInt;
        At "timestamp.century" 248 8 UInt; At "platform_id" 256 128 Arr; At "partition_id" 384 128 Str;
        At "partition_id.b" 384 128 Arr; At "creator_id" 512 128 Arr; At "notify_type" 640 128 Str;
        At "notify_type.b" 640 128 Arr; At "record_id" 768 64 Arr; At "flags" 832 32 UInt;
        At "persistence_info" 864 64 UInt; At "reserved" 928 96 Arr ];
    Shape "amdsmi_uma_carveout_option_t" 260 4
      [ At "index" 0 32 UInt; At "description" 32 2048 Arr ];
    Shape "amdsmi_uma_carveout_info_t" 4168 4
      [ At "current_index" 0 32 UInt; At "num_options" 32 32 UInt; At "options" 64 33280 Arr;
        At "options[0].index" 64 32 UInt; At "options[0].description" 96 2048 Arr ];
    Shape "amdsmi_ttm_info_t" 8 8
      [ At "current_pages" 0 64 UInt ] ].

Definition gim_compiled : list shape :=
  [ Shape "amdsmi_bdf_t" 8 8
      [ At "bdf" 0 64 Str; At "bdf.function_number" 0 3 UInt; At "bdf.device_number" 3 5 UInt;
        At "bdf.bus_number" 8 8 UInt; At "bdf.domain_number" 16 48 UInt; At "as_uint" 0 64 UInt ];
    Shape "amdsmi_pcie_info_t" 512 8
      [ At "pcie_static" 0 768 Str; At "pcie_static.max_pcie_width" 0 16 UInt;
        At "pcie_static.max_pcie_speed" 32 32 UInt; At "pcie_static.pcie_interface_version" 64 32 UInt;
        At "pcie_static.slot_type" 96 32 Enm; At "pcie_static.max_pcie_interface_version" 128 32 UInt;
        At "pcie_static.reserved" 192 576 Arr; At "pcie_metric" 768 1280 Str;
        At "pcie_metric.pcie_width" 768 16 UInt; At "pcie_metric.pcie_speed" 800 32 UInt;
        At "pcie_metric.pcie_bandwidth" 832 32 UInt; At "pcie_metric.pcie_replay_count" 896 64 UInt;
        At "pcie_metric.pcie_l0_to_recovery_count" 960 64 UInt;
        At "pcie_metric.pcie_replay_roll_over_count" 1024 64 UInt;
        At "pcie_metric.pcie_nak_sent_count" 1088 64 UInt;
        At "pcie_metric.pcie_nak_received_count" 1152 64 UInt;
        At "pcie_metric.pcie_lc_perf_other_end_recovery_count" 1216 32 UInt;
        At "pcie_metric.reserved" 1280 768 Arr; At "reserved" 2048 2048 Arr ];
    Shape "amdsmi_power_cap_info_t" 64 8
      [ At "power_cap" 0 64 UInt; At "default_power_cap" 64 64 UInt; At "dpm_cap" 128 64 UInt;
        At "min_power_cap" 192 64 UInt; At "max_power_cap" 256 64 UInt; At "reserved" 320 192 Arr ];
    Shape "amdsmi_vbios_info_t" 1344 8
      [ At "name" 0 2048 Arr; At "build_date" 2048 256 Arr; At "part_number" 2304 2048 Arr;
        At "version" 4352 2048 Arr; At "reserved" 6400 4352 Arr ];
    Shape "amdsmi_gpu_cache_info_t" 384 4
      [ At "num_cache_types" 0 32 UInt; At "cache" 32 2560 Arr; At "cache[0].cache_properties" 32 32 UInt;
        At "cache[0].cache_size" 64 32 UInt; At "cache[0].cache_level" 96 32 UInt;
        At "cache[0].max_num_cu_shared" 128 32 UInt; At "cache[0].num_cache_instance" 160 32 UInt;
        At "cache[0].reserved" 192 96 Arr; At "reserved" 2592 480 Arr ];
    Shape "amdsmi_fw_info_t" 2624 8
      [ At "num_fw_info" 0 8 UInt; At "fw_info_list" 64 20736 Arr; At "fw_info_list[0].fw_id" 64 32 Enm;
        At "fw_info_list[0].fw_version" 128 64 UInt; At "fw_info_list[0].reserved" 192 128 Arr;
        At "reserved" 20800 192 Arr ];
    Shape "amdsmi_asic_info_t" 1408 8
      [ At "market_name" 0 2048 Arr; At "vendor_name" 2048 2048 Arr; At "asic_serial" 4096 2048 Arr;
        At "reserved" 6144 4096 Arr; At "vendor_id" 10240 32 UInt; At "subvendor_id" 10272 32 UInt;
        At "device_id" 10304 64 UInt; At "rev_id" 10368 32 UInt; At "oam_id" 10400 32 UInt;
        At "num_of_compute_units" 10432 32 UInt; At "target_graphics_version" 10496 64 UInt;
        At "subsystem_id" 10560 32 UInt; At "reserved_2" 10624 640 Arr ];
    Shape "amdsmi_driver_info_t" 1088 8
      [ At "driver_version" 0 2048 Arr; At "driver_date" 2048 256 Arr; At "driver_name" 2304 2048 Arr;
        At "reserved" 4352 4352 Arr ];
    Shape "amdsmi_power_info_t" 64 8
      [ At "socket_power" 0 64 UInt; At "gfx_voltage" 64 64 UInt; At "soc_voltage" 128 64 UInt;
        At "mem_voltage" 192 64 UInt; At "reserved" 256 256 Arr ];
    Shape "amdsmi_engine_usage_t" 64 8
      [ At "gfx_activity" 0 32 UInt; At "umc_activity" 32 32 UInt; At "mm_activity" 64 32 UInt;
        At "reserved" 128 384 Arr ];
    Shape "amdsmi_clk_info_t" 32 8
      [ At "clk" 0 32 UInt; At "min_clk" 32 32 UInt; At "max_clk" 64 32 UInt; At "clk_locked" 96 8 UInt;
        At "clk_deep_sleep" 104 8 UInt; At "reserved" 128 128 Arr ];
    Shape "amdsmi_error_count_t" 64 8
      [ At "correctable_count" 0 64 UInt; At "uncorrectable_count" 64 64 UInt;
        At "deferred_count" 128 64 UInt; At "reserved" 192 320 Arr ];
    Shape "amdsmi_ras_feature_t" 32 8
      [ At "ras_eeprom_version" 0 32 UInt; At "supported_ecc_correction_schema" 32 32 UInt;
        At "reserved" 64 192 Arr ];
    Shape "amdsmi_vf_handle_t" 8 8
      [ At "handle" 0 64 UInt ];
    Shape "amdsmi_event_entry_t" 384 8
      [ At "fcn_id" 0 64 Str; At "fcn_id.handle" 0 64 UInt; At "dev_id" 64 64 UInt;
        At "timestamp" 128 64 UInt; At "data" 192 64 UInt; At "category" 256 32 UInt;
        At "subcode" 288 32 UInt; At "level" 320 32 UInt; At "date" 352 256 Arr; At "message" 608 2048 Arr;
        At "reserved" 2688 384 Arr ];
    Shape "amdsmi_board_info_t" 1792 8
      [ At "model_number" 0 2048 Arr; At "product_serial" 2048 2048 Arr; At "fru_id" 4096 2048 Arr;
        At "product_name" 6144 2048 Arr; At "manufacturer_name" 8192 2048 Arr;
        At "reserved" 10240 4096 Arr ];
    Shape "amdsmi_pf_fb_info_t" 64 8
      [ At "total_fb_size" 0 32 UInt; At "pf_fb_reserved" 32 32 UInt; At "pf_fb_offset" 64 32 UInt;
        At "fb_alignment" 96 32 UInt; At "max_vf_fb_usable" 128 32 UInt; At "min_vf_fb_usable" 160 32 UInt;
        At "reserved" 192 320 Arr ];
    Shape "amdsmi_vf_fb_info_t" 32 8
      [ At "fb_offset" 0 32 UInt; At "fb_size" 32 32 UInt; At "reserved" 64 192 Arr ];
    Shape "amdsmi_partition_info_t" 64 8
      [ At "id" 0 64 Str; At "id.handle" 0 64 UInt; At "fb" 64 256 Str; At "fb.fb_offset" 64 32 UInt;
        At "fb.fb_size" 96 32 UInt; At "fb.reserved" 128 192 Arr; At "reserved" 320 192 Arr ];
    Shape "amdsmi_guard_info_t" 192 8
      [ At "enabled" 0 8 UInt; At "guard" 64 1280 Arr; At "guard[0].state" 64 32 Enm;
        At "guard[0].amount" 96 32 UInt; At "guard[0].interval" 128 64 UInt;
        At "guard[0].threshold" 192 32 UInt; At "guard[0].active" 224 32 UInt;
        At "guard[0].reserved" 256 128 Arr; At "reserved" 1344 192 Arr ];
    Shape "amdsmi_vf_info_t" 256 8
      [ At "fb" 0 256 Str; At "fb.fb_offset" 0 32 UInt; At "fb.fb_size" 32 32 UInt;
        At "fb.reserved" 64 192 Arr; At "gfx_timeslice" 256 32 UInt; At "reserved" 320 1728 Arr ];
    Shape "amdsmi_sched_info_t" 448 8
      [ At "flr_count" 0 64 UInt; At "boot_up_time" 64 64 UInt; At "shutdown_time" 128 64 UInt;
        At "reset_time" 192 64 UInt; At "state" 256 32 Enm; At "last_boot_start" 288 256 Arr;
        At "last_boot_end" 544 256 Arr; At "last_shutdown_start" 800 256 Arr;
        At "last_shutdown_end" 1056 256 Arr; At "last_reset_start" 1312 256 Arr;
        At "last_reset_end" 1568 256 Arr; At "current_active_time" 1824 256 Arr;
        At "current_running_time" 2080 256 Arr; At "total_active_time" 2336 256 Arr;
        At "total_running_time" 2592 256 Arr; At "reserved" 2880 704 Arr ];
    Shape "amdsmi_vf_data_t" 704 8
      [ At "sched" 0 3584 Str; At "sched.flr_count" 0 64 UInt; At "sched.boot_up_time" 64 64 UInt;
        At "sched.shutdown_time" 128 64 UInt; At "sched.reset_time" 192 64 UInt;
        At "sched.state" 256 32 Enm; At "sched.last_boot_start" 288 256 Arr;
        At "sched.last_boot_end" 544 256 Arr; At "sched.last_shutdown_start" 800 256 Arr;
        At "sched.last_shutdown_end" 1056 256 Arr; At "sched.last_reset_start" 1312 256 Arr;
        At "sched.last_reset_end" 1568 256 Arr; At "sched.current_active_time" 1824 256 Arr;
        At "sched.current_running_time" 2080 256 Arr; At "sched.total_active_time" 2336 256 Arr;
        At "sched.total_running_time" 2592 256 Arr; At "sched.reserved" 2880 704 Arr;
        At "guard" 3584 1536 Str; At "guard.enabled" 3584 8 UInt; At "guard.guard" 3648 1280 Arr;
        At "guard.guard[0].state" 3648 32 Enm; At "guard.guard[0].amount" 3680 32 UInt;
        At "guard.guard[0].interval" 3712 64 UInt; At "guard.guard[0].threshold" 3776 32 UInt;
        At "guard.guard[0].active" 3808 32 UInt; At "guard.guard[0].reserved" 3840 128 Arr;
        At "guard.reserved" 4928 192 Arr; At "reserved" 5120 512 Arr ];
    Shape "amdsmi_profile_caps_info_t" 56 8
      [ At "total" 0 64 UInt; At "available" 64 64 UInt; At "optimal" 128 64 UInt;
        At "min_value" 192 64 UInt; At "max_value" 256 64 UInt; At "reserved" 320 128 Arr ];
    Shape "amdsmi_profile_info_t" 3744 8
      [ At "profile_count" 0 8 UInt; At "current_profile_index" 8 8 UInt; At "profiles" 64 29696 Arr;
        At "profiles[0].vf_count" 64 32 UInt; At "profiles[0].profile_caps" 128 1792 Arr;
        At "profiles[0].profile_caps[0].total" 128 64 UInt;
        At "profiles[0].profile_caps[0].available" 192 64 UInt;
        At "profiles[0].profile_caps[0].optimal" 256 64 UInt;
        At "profiles[0].profile_caps[0].min_value" 320 64 UInt;
        At "profiles[0].profile_caps[0].max_value" 384 64 UInt;
        At "profiles[0].profile_caps[0].reserved" 448 128 Arr; At "reserved" 29760 192 Arr ];
    Shape "amdsmi_guest_data_t" 256 8
      [ At "driver_version" 0 512 Arr; At "fb_usage" 512 32 UInt; At "reserved" 576 1472 Arr ];
    Shape "amdsmi_dfc_fw_header_t" 64 4
      [ At "dfc_fw_version" 0 32 UInt; At "dfc_fw_total_entries" 32 32 UInt;
        At "dfc_gart_wr_guest_min" 64 32 UInt; At "dfc_gart_wr_guest_max" 96 32 UInt;
        At "reserved" 128 384 Arr ];
    Shape "amdsmi_dfc_fw_white_list_t" 8 4
      [ At "oldest" 0 32 UInt; At "latest" 32 32 UInt ];
    Shape "amdsmi_dfc_fw_ta_uuid_t" 16 1
      [ At "ta_uuid" 0 128 Arr ];
    Shape "amdsmi_dfc_fw_data_t" 448 4
      [ At "dfc_fw_type" 0 32 UInt; At "verification_enabled" 32 32 UInt; At "customer_ordinal" 64 32 UInt;
        At "reserved" 96 416 Arr; At "" 512 1024 Uni; At "white_list" 512 1024 Arr;
        At "white_list[0].oldest" 512 32 UInt; At "white_list[0].latest" 544 32 UInt;
        At "ta_white_list" 512 1024 Arr; At "ta_white_list[0].ta_uuid" 512 128 Arr;
        At "black_list" 1536 2048 Arr ];
    Shape "amdsmi_dfc_fw_t" 4096 4
      [ At "header" 0 512 Str; At "header.dfc_fw_version" 0 32 UInt;
        At "header.dfc_fw_total_entries" 32 32 UInt; At "header.dfc_gart_wr_guest_min" 64 32 UInt;
        At "header.dfc_gart_wr_guest_max" 96 32 UInt; At "header.reserved" 128 384 Arr;
        At "data" 512 32256 Arr; At "data[0].dfc_fw_type" 512 32 UInt;
        At "data[0].verification_enabled" 544 32 UInt; At "data[0].customer_ordinal" 576 32 UInt;
        At "data[0].reserved" 608 416 Arr; At "data[0]." 1024 1024 Uni;
        At "data[0]..white_list" 1024 1024 Arr; At "data[0]..white_list[0].oldest" 1024 32 UInt;
        At "data[0]..white_list[0].latest" 1056 32 UInt; At "data[0]..ta_white_list" 1024 1024 Arr;
        At "data[0]..ta_white_list[0].ta_uuid" 1024 128 Arr; At "data[0].black_list" 2048 2048 Arr ];
    Shape "amdsmi_eeprom_table_record_t" 32 8
      [ At "retired_page" 0 64 UInt; At "ts" 64 64 UInt; At "err_type" 128 8 UInt; At "" 136 8 Uni;
        At "bank" 136 8 UInt; At "cu" 136 8 UInt; At "mem_channel" 144 8 UInt; At "mcumc_id" 152 8 UInt;
        At "reserved" 160 96 Arr ];
    Shape "amdsmi_fw_load_error_record_t" 32 8
      [ At "timestamp" 0 64 UInt; At "vf_idx" 64 32 UInt; At "fw_id" 96 32 UInt; At "status" 128 16 UInt;
        At "reserved" 160 96 Arr ];
    Shape "amdsmi_fw_error_record_t" 384 8
      [ At "num_err_records" 0 8 UInt; At "err_records" 64 2560 Arr;
        At "err_records[0].timestamp" 64 64 UInt; At "err_records[0].vf_idx" 128 32 UInt;
        At "err_records[0].fw_id" 160 32 UInt; At "err_records[0].status" 192 16 UInt;
        At "err_records[0].reserved" 224 96 Arr; At "reserved" 2624 448 Arr ];
    Shape "amdsmi_link_metrics_t" 3648 8
      [ At "num_links" 0 32 UInt; At "links" 64 28672 Arr; At "links[0].bdf" 64 64 Uni;
        At "links[0].bdf.bdf" 64 64 Str; At "links[0].bdf.bdf.function_number" 64 3 UInt;
        At "links[0].bdf.bdf.device_number" 67 5 UInt; At "links[0].bdf.bdf.bus_number" 72 8 UInt;
        At "links[0].bdf.bdf.domain_number" 80 48 UInt; At "links[0].bdf.as_uint" 64 64 UInt;
        At "links[0].bit_rate" 128 32 UInt; At "links[0].max_bandwidth" 160 32 UInt;
        At "links[0].link_type" 192 32 Enm; At "links[0].read" 256 64 UInt; At "links[0].write" 320 64 UInt;
        At "links[0].reserved" 384 128 Arr; At "reserved" 28736 448 Arr ];
    Shape "amdsmi_link_topology_t" 64 8
      [ At "weight" 0 64 UInt; At "link_status" 64 32 Enm; At "link_type" 96 32 Enm;
        At "num_hops" 128 8 UInt; At "fb_sharing" 136 8 UInt; At "reserved" 160 320 Arr ];
    Shape "amdsmi_topology_nearest_t" 384 8
      [ At "count" 0 32 UInt; At "processor_list" 64 2048 Arr; At "reserved" 2112 960 Arr ];
    Shape "amdsmi_xgmi_fb_sharing_caps_t" 4 4
      [ At "cap" 0 32 Str; At "cap.mode_custom_cap" 0 1 UInt; At "cap.mode_1_cap" 1 1 UInt;
        At "cap.mode_2_cap" 2 1 UInt; At "cap.mode_4_cap" 3 1 UInt; At "cap.mode_8_cap" 4 1 UInt;
        At "cap.reserved" 5 27 UInt; At "xgmi_fb_sharing_cap_mask" 0 32 UInt ];
    Shape "amdsmi_vram_info_t" 64 8
      [ At "vram_type" 0 32 Enm; At "vram_vendor" 32 32 Enm; At "vram_size" 64 32 UInt;
        At "vram_bit_width" 96 32 UInt; At "reserved" 128 384 Arr ];
    Shape "amdsmi_metric_t" 64 8
      [ At "unit" 0 32 Enm; At "name" 32 32 Enm; At "category" 64 32 Enm; At "flags" 96 32 UInt;
        At "vf_mask" 128 32 UInt; At "val" 192 64 UInt; At "reserved" 256 256 Arr ];
    Shape "amdsmi_version_t" 12 4
      [ At "major" 0 32 UInt; At "minor" 32 32 UInt; At "release" 64 32 UInt ];
    Shape "amdsmi_nps_caps_t" 4 4
      [ At "nps_flags" 0 32 Str; At "nps_flags.nps1_cap" 0 1 UInt; At "nps_flags.nps2_cap" 1 1 UInt;
        At "nps_flags.nps4_cap" 2 1 UInt; At "nps_flags.nps8_cap" 3 1 UInt;
        At "nps_flags.reserved" 4 28 UInt; At "nps_cap_mask" 0 32 UInt ];
    Shape "amdsmi_memory_partition_config_t" 872 8
      [ At "partition_caps" 0 32 Uni; At "partition_caps.nps_flags" 0 32 Str;
        At "partition_caps.nps_flags.nps1_cap" 0 1 UInt; At "partition_caps.nps_flags.nps2_cap" 1 1 UInt;
        At "partition_caps.nps_flags.nps4_cap" 2 1 UInt; At "partition_caps.nps_flags.nps8_cap" 3 1 UInt;
        At "partition_caps.nps_flags.reserved" 4 28 UInt; At "partition_caps.nps_cap_mask" 0 32 UInt;
        At "mp_mode" 32 32 Enm; At "num_numa_ranges" 64 32 UInt; At "numa_range" 128 6144 Arr;
        At "numa_range[0].memory_type" 128 32 Enm; At "numa_range[0].start" 192 64 UInt;
        At "numa_range[0].end" 256 64 UInt; At "reserved" 6272 704 Arr ];
    Shape "amdsmi_accelerator_partition_profile_t" 1152 8
      [ At "profile_type" 0 32 Enm; At "num_partitions" 32 32 UInt; At "memory_caps" 64 32 Uni;
        At "memory_caps.nps_flags" 64 32 Str; At "memory_caps.nps_flags.nps1_cap" 64 1 UInt;
        At "memory_caps.nps_flags.nps2_cap" 65 1 UInt; At "memory_caps.nps_flags.nps4_cap" 66 1 UInt;
        At "memory_caps.nps_flags.nps8_cap" 67 1 UInt; At "memory_caps.nps_flags.reserved" 68 28 UInt;
        At "memory_caps.nps_cap_mask" 64 32 UInt; At "profile_index" 96 32 UInt;
        At "num_resources" 128 32 UInt; At "resources" 160 8192 Arr; At "reserved" 8384 832 Arr ];
    Shape "amdsmi_accelerator_partition_resource_profile_t" 64 8
      [ At "profile_index" 0 32 UInt; At "resource_type" 32 32 Enm; At "partition_resource" 64 32 UInt;
        At "num_partitions_share_resource" 96 32 UInt; At "reserved" 128 384 Arr ];
    Shape "amdsmi_accelerator_partition_profile_config_t" 39168 8
      [ At "num_profiles" 0 32 UInt; At "num_resource_profiles" 32 32 UInt;
        At "resource_profiles" 64 16384 Arr; At "resource_profiles[0].profile_index" 64 32 UInt;
        At "resource_profiles[0].resource_type" 96 32 Enm;
        At "resource_profiles[0].partition_resource" 128 32 UInt;
        At "resource_profiles[0].num_partitions_share_resource" 160 32 UInt;
        At "resource_profiles[0].reserved" 192 384 Arr; At "default_profile_index" 16448 32 UInt;
        At "profiles" 16512 294912 Arr; At "profiles[0].profile_type" 16512 32 Enm;
        At "profiles[0].num_partitions" 16544 32 UInt; At "profiles[0].memory_caps" 16576 32 Uni;
        At "profiles[0].memory_caps.nps_flags" 16576 32 Str;
        At "profiles[0].memory_caps.nps_flags.nps1_cap" 16576 1 UInt;
        At "profiles[0].memory_caps.nps_flags.nps2_cap" 16577 1 UInt;
        At "profiles[0].memory_caps.nps_flags.nps4_cap" 16578 1 UInt;
        At "profiles[0].memory_caps.nps_flags.nps8_cap" 16579 1 UInt;
        At "profiles[0].memory_caps.nps_flags.reserved" 16580 28 UInt;
        At "profiles[0].memory_caps.nps_cap_mask" 16576 32 UInt;
        At "profiles[0].profile_index" 16608 32 UInt; At "profiles[0].num_resources" 16640 32 UInt;
        At "profiles[0].resources" 16672 8192 Arr; At "profiles[0].reserved" 24896 832 Arr;
        At "reserved" 311424 1920 Arr ];
    Shape "amdsmi_dpm_policy_entry_t" 64 8
      [ At "policy_id" 0 32 UInt; At "policy_description" 32 256 Arr; At "reserved" 320 192 Arr ];
    Shape "amdsmi_dpm_policy_t" 2112 8
      [ At "num_supported" 0 32 UInt; At "cur" 32 32 UInt; At "policies" 64 16384 Arr;
        At "policies[0].policy_id" 64 32 UInt; At "policies[0].policy_description" 96 256 Arr;
        At "policies[0].reserved" 384 192 Arr; At "reserved" 16448 448 Arr ];
    Shape "amdsmi_cper_guid_t" 16 1
      [ At "b" 0 128 Arr ];
    Shape "amdsmi_cper_timestamp_t" 8 1
      [ At "seconds" 0 8 UInt; At "minutes" 8 8 UInt; At "hours" 16 8 UInt; At "flag" 24 8 UInt;
        At "day" 32 8 UInt; At "month" 40 8 UInt; At "year" 48 8 UInt; At "century" 56 8 UInt ];
    Shape "amdsmi_cper_valid_bits_t" 4 1
      [ At "valid_bits" 0 32 Str; At "valid_bits.platform_id" 0 1 UInt; At "valid_bits.timestamp" 1 1 UInt;
        At "valid_bits.partition_id" 2 1 UInt; At "valid_bits.reserved" 3 29 UInt;
        At "valid_mask" 0 32 UInt ];
    Shape "amdsmi_cper_hdr_t" 128 1
      [ At "signature" 0 32 Arr; At "revision" 32 16 UInt; At "signature_end" 48 32 UInt;
        At "sec_cnt" 80 16 UInt; At "error_severity" 96 32 Enm; At "cper_valid_bits" 128 32 Uni;
        At "cper_valid_bits.valid_bits" 128 32 Str; At "cper_valid_bits.valid_bits.platform_id" 128 1 UInt;
        At "cper_valid_bits.valid_bits.timestamp" 129 1 UInt;
        At "cper_valid_bits.valid_bits.partition_id" 130 1 UInt;
        At "cper_valid_bits.valid_bits.reserved" 131 29 UInt; At "cper_valid_bits.valid_mask" 128 32 UInt;
        At "record_length" 160 32 UInt; At "timestamp" 192 64 Str; At "timestamp.seconds" 192 8 UInt;
        At "timestamp.minutes" 200 8 UInt; At "timestamp.hours" 208 8 UInt; At "timestamp.flag" 216 8 UInt;
        At "timestamp.day" 224 8 UInt; At "timestamp.month" 232 8 UInt; At "timestamp.year" 240 8 UInt;
        At "timestamp.century" 248 8 UInt; At "platform_id" 256 128 Arr; At "partition_id" 384 128 Str;
        At "partition_id.b" 384 128 Arr; At "creator_id" 512 128 Arr; At "notify_type" 640 128 Str;
        At "notify_type.b" 640 128 Arr; At "record_id" 768 64 Arr; At "flags" 832 32 UInt;
        At "persistence_info" 864 64 UInt; At "reserved" 928 96 Arr ];
    Shape "amdsmi_p2p_capability_t" 32 8
      [ At "is_iolink_coherent" 0 8 UInt; At "is_iolink_atomics_32bit" 8 8 UInt;
        At "is_iolink_atomics_64bit" 16 8 UInt; At "is_iolink_dma" 24 8 UInt;
        At "is_iolink_bi_directional" 32 8 UInt; At "reserved" 64 192 Arr ] ].

