(* ===== verification/SmiAbi.v ===== *)
(** What the types of the two SMI headers promise to the code compiled
    against them: every member of every structure is where the C compiler
    puts it; which members the two headers put at different places; every
    field is inside its object, apart from its siblings and, outside the
    packed structures, aligned; a stored field is read back and disturbs no
    sibling.  Then the individual layouts the agent relies on: the PCI
    address [amdsmi_bdf_t] and the error record header
    [amdsmi_cper_hdr_t]. *)

From S2P Require Import Prelude CAbi CEnum SmiEnums SmiTypes GimEnums GimTypes SmiLayouts.
Local Open Scope Z_scope.

(** ** All structures of both headers *)

Definition header_types : list (string * cty) := SmiT.smi_types ++ GimT.gim_types.

Lemma header_types_wf : forallb (λ nt, wf_cty nt.2) header_types = true.
Proof. by_compute. Qed.

Lemma header_type_wf n t : (n, t) ∈ header_types → wf_cty t = true.
Proof.
  intros Hin%list_elem_of_In. pose proof header_types_wf as H.
  rewrite forallb_forall in H. exact (H _ Hin).
Qed.

(** The structures with packing are the six of the error record and the
    HSMP metrics table. *)
Lemma packed_types :
  (filter (λ nt, natural nt.2 = false) header_types).*1 =
    ["amdsmi_hsmp_metrics_table_t";
     "amdsmi_cper_guid_t"; "amdsmi_cper_timestamp_t";
     "amdsmi_cper_valid_bits_t"; "amdsmi_cper_hdr_t";
     "amdsmi_cper_guid_t"; "amdsmi_cper_timestamp_t";
     "amdsmi_cper_valid_bits_t"; "amdsmi_cper_hdr_t"].
Proof. by_compute. Qed.

(** ** The places of the members *)

Lemma smi_shapes : shape_of <$> SmiT.smi_types = smi_compiled.
Proof. by_decide. Qed.

Lemma gim_shapes : shape_of <$> GimT.gim_types = gim_compiled.
Proof. by_decide. Qed.

(** [load] and [store] find a member of [layout] at its place. *)
Definition found_at (t : cty) (e : list acc * spot) : Prop :=
  (λ r, (l_off r, l_width r, kind_of (l_ty r))) <$> resolve t e.1 =
    Some (spot_bit e.2, spot_bits e.2, spot_kind e.2).
#[export] Instance found_at_dec t e : Decision (found_at t e).
Proof. unfold found_at. apply _. Defined.

Lemma spots_resolved : Forall (λ nt, Forall (found_at nt.2) (layout "" [] 0 nt.2)) header_types.
Proof. by_decide. Qed.

(** Members that both types have under one name, but not at one place. *)
Definition moved (s g : cty) : list string :=
  let gs := spots g in
  let names := spot_name <$> gs in
  spot_name <$> filter (λ a, a ∉ gs ∧ spot_name a ∈ names) (spots s).

Definition moved_members : list (string * list string) :=
  [ ("amdsmi_vbios_info_t", ["build_date"; "part_number"; "version"; "reserved"]);
    ("amdsmi_fw_info_t", ["fw_info_list"; "reserved"]);
    ("amdsmi_asic_info_t",
       ["vendor_id"; "vendor_name"; "subvendor_id"; "device_id"; "rev_id"; "asic_serial"; "oam_id";
        "num_of_compute_units"; "target_graphics_version"; "subsystem_id"; "reserved"]);
    ("amdsmi_link_metrics_t", ["links[0].reserved"]);
    ("amdsmi_vram_info_t", ["vram_vendor"; "vram_size"; "vram_bit_width"; "reserved"]);
    ("amdsmi_driver_info_t", ["driver_date"; "driver_name"]);
    ("amdsmi_power_info_t", ["gfx_voltage"; "soc_voltage"; "mem_voltage"; "reserved"]);
    ("amdsmi_engine_usage_t", ["reserved"]);
    ("amdsmi_dpm_policy_entry_t", ["policy_description"]);
    ("amdsmi_dpm_policy_t", ["policies"; "policies[0].policy_description"]);
    ("amdsmi_topology_nearest_t", ["processor_list"; "reserved"]) ].

Definition moved_of (n : string) : list string := mjoin (snd <$> filter (λ x, x.1 = n) moved_members).

Definition moved_as (a b : string * cty) : Prop :=
  if decide (a.1 = b.1) then moved a.2 b.2 = moved_of a.1 else True.
#[export] Instance moved_as_dec a b : Decision (moved_as a b).
Proof. unfold moved_as. case_decide; apply _. Defined.

Lemma moved_known : Forall (λ a, Forall (moved_as a) GimT.gim_types) SmiT.smi_types.
Proof. by_decide. Qed.

(** C37: The layout of all structures and unions of both headers.  For each
    of the 139 types the model computes the size, the alignment and the
    place, width and kind of every member, to any depth, that GCC gives
    them, and a load or a store through a member meets exactly these bits;
    what is stored is what is read back, cut to the width of the field or
    bit-field, every field on a path that diverges in a structure or an array
    is left as it was, and the object stays inside its size.  Of the 30
    structures of both headers the members that code compiled against the
    one would look for at a wrong place in an object of the other are
    exactly those of [moved_members]. *)
Theorem header_layouts :
  (shape_of <$> SmiT.smi_types = smi_compiled ∧ shape_of <$> GimT.gim_types = gim_compiled) ∧
  (∀ n t, (n, t) ∈ header_types →
     (∀ e, e ∈ layout "" [] 0 t → found_at t e) ∧
     ∀ p v ob ob', store t p v ob = Some ob' →
       (∃ r, resolve t p = Some r ∧ load t p ob' = Some (wrap (l_width r) v)) ∧
       (∀ q, diverge t p q = true → load t q ob' = load t q ob) ∧
       (0 <= ob < 2 ^ (8 * sizeof t) → 0 <= ob' < 2 ^ (8 * sizeof t))) ∧
  (∀ n s g, (n, s) ∈ SmiT.smi_types → (n, g) ∈ GimT.gim_types → moved s g = moved_of n).
Proof.
  split; [exact (conj smi_shapes gim_shapes)|]. split.
  - intros n t Hin. split.
    + pose proof (proj1 (Forall_forall _ _) spots_resolved _ Hin) as H. by apply Forall_forall.
    + intros p v ob ob' Hs. apply header_type_wf in Hin. split; [by eapply load_store_same|].
      split; [by intros; eapply load_store_other|]. by intros; eapply store_range.
  - intros n s g Hs Hg. pose proof (proj1 (Forall_forall _ _) moved_known _ Hs) as H.
    pose proof (proj1 (Forall_forall _ _) H _ Hg) as Hm. unfold moved_as in Hm. by rewrite decide_True in Hm.
Qed.

(** layout of the structures of both headers.  Every field lies inside its
    object, fields on diverging paths do not overlap, and outside the packed
    structures every field that is no bit-field is aligned for its type. *)
Theorem header_field_layout n t p q r1 r2 :
  (n, t) ∈ header_types → resolve t p = Some r1 → resolve t q = Some r2 →
  (0 <= l_off r1 ∧ l_off r1 + l_width r1 <= 8 * sizeof t) ∧
  (diverge t p q = true →
    l_off r1 + l_width r1 <= l_off r2 ∨ l_off r2 + l_width r2 <= l_off r1) ∧
  (natural t = true → l_bf r1 = false → (8 * alignof (l_ty r1) | l_off r1)).
Proof.
  intros Hwf%header_type_wf H1 H2.
  destruct (resolve_bounds _ _ _ Hwf H1) as (? & ? & ?).
  split; [lia|]. split; [by intros; eapply resolve_disjoint|].
  intros Hn Hb. by destruct (resolve_aligned _ _ _ Hn Hwf H1 Hb).
Qed.

(** ** The PCI address *)

Definition bdf_field (f : string) : list acc := [AField "bdf"; AField f].
Definition bdf_anon (f : string) : list acc := [AField ""; AField f].

Record bdf := Bdf { function_number : Z; device_number : Z; bus_number : Z; domain_number : Z }.

(** The address as the driver packs it into [as_uint]. *)
Definition bdf_as_uint (b : bdf) : Z :=
  function_number b + 8 * device_number b + 256 * bus_number b + 65536 * domain_number b.

Definition bdf_ok (b : bdf) : Prop :=
  0 <= function_number b < 2 ^ 3 ∧ 0 <= device_number b < 2 ^ 5 ∧
  0 <= bus_number b < 2 ^ 8 ∧ 0 <= domain_number b < 2 ^ 48.

(** Reading the four bit-fields of an object of type [amdsmi_bdf_t]. *)
Definition load_bdf (t : cty) (path : string → list acc) (ob : Z) : option bdf :=
  f ← load t (path "function_number") ob;
  d ← load t (path "device_number") ob;
  b ← load t (path "bus_number") ob;
  dom ← load t (path "domain_number") ob;
  Some (Bdf f d b dom).

Lemma read_bits_div ob o w : 0 <= o → 0 <= w → read_bits ob o w = (ob / 2 ^ o) `mod` 2 ^ w.
Proof. intros. unfold read_bits. by rewrite Z.land_ones, Z.shiftr_div_pow2 by lia. Qed.

Lemma load_bdf_eq ob :
  load_bdf SmiT.amdsmi_bdf_t bdf_field ob =
    Some (Bdf ((ob / 2 ^ 0) `mod` 2 ^ 3) ((ob / 2 ^ 3) `mod` 2 ^ 5)
              ((ob / 2 ^ 8) `mod` 2 ^ 8) ((ob / 2 ^ 16) `mod` 2 ^ 48)).
Proof. rewrite <- !read_bits_div by lia. reflexivity. Qed.

Lemma write_bits_all v w : 0 <= v < 2 ^ w → write_bits 0 0 w v = v.
Proof.
  intros. unfold write_bits. by rewrite Z.ldiff_0_l, Z.lor_0_l, Z.shiftl_0_r, wrap_id.
Qed.

(** PCI addresses.  Function, device, bus and domain packed into [as_uint]
    are read back through the bit-fields, named or anonymous, and through
    the structure of the other header. *)
Theorem bdf_roundtrip b :
  bdf_ok b →
  store SmiT.amdsmi_bdf_t [AField "as_uint"] (bdf_as_uint b) 0 = Some (bdf_as_uint b) ∧
  load_bdf SmiT.amdsmi_bdf_t bdf_field (bdf_as_uint b) = Some b ∧
  load_bdf SmiT.amdsmi_bdf_t bdf_anon (bdf_as_uint b) = Some b ∧
  load_bdf GimT.amdsmi_bdf_t bdf_field (bdf_as_uint b) = Some b.
Proof.
  intros (? & ? & ? & ?).
  assert (load_bdf SmiT.amdsmi_bdf_t bdf_field (bdf_as_uint b) = Some b) as Hl.
  { rewrite load_bdf_eq. destruct b as [f d bu dm]. unfold bdf_as_uint; cbn in *.
    repeat f_equal; Z.div_mod_to_equations; lia. }
  split; [|split_and!; exact Hl].
  change (Some (write_bits 0 0 64 (bdf_as_uint b)) = Some (bdf_as_uint b)).
  f_equal. apply write_bits_all. unfold bdf_as_uint. lia.
Qed.

(** ** The error record header *)

(** Byte offset and size of every member of a structure. *)
Definition byte_layout (t : cty) : list (string * Z * Z) :=
  match t with
  | TStruct pk ms =>
      zip_with (λ m o, (m.1, o / 8, sizeof m.2.1)) ms (offsets pk 0 (map mslot ms))
  | _ => []
  end.

(** The record header of the UEFI specification (appendix N), which the
    comments of the header name: signature, revision, end marker, section
    count, severity, validation bits, record length, timestamp, platform,
    partition and creator ids, notification type, record id, flags,
    persistence information, reserved bytes. *)
Definition cper_record_header : list (string * Z * Z) :=
  [ ("signature", 0, 4); ("revision", 4, 2); ("signature_end", 6, 4);
    ("sec_cnt", 10, 2); ("error_severity", 12, 4); ("cper_valid_bits", 16, 4);
    ("record_length", 20, 4); ("timestamp", 24, 8); ("platform_id", 32, 16);
    ("partition_id", 48, 16); ("creator_id", 64, 16); ("notify_type", 80, 16);
    ("record_id", 96, 8); ("flags", 104, 4); ("persistence_info", 108, 8);
    ("reserved", 116, 12) ].

(** the error record header of both headers has the layout of the record
    header of the UEFI specification, byte by byte, and the validity bits are
    at their places. *)
Theorem cper_header_layout :
  byte_layout SmiT.amdsmi_cper_hdr_t = cper_record_header ∧
  byte_layout GimT.amdsmi_cper_hdr_t = cper_record_header ∧
  sizeof SmiT.amdsmi_cper_hdr_t = 128 ∧ sizeof GimT.amdsmi_cper_hdr_t = 128 ∧
  (∀ ob, load SmiT.amdsmi_cper_hdr_t
           [AField "cper_valid_bits"; AField "valid_bits"; AField "partition_id"] ob =
         Some (read_bits ob (16 * 8 + 2) 1)).
Proof. split_and!; reflexivity. Qed.

(** ** Instances *)

Lemma frequencies_in : ("amdsmi_frequencies_t", SmiT.amdsmi_frequencies_t) ∈ header_types.
Proof. apply (list_elem_of_lookup_2 _ 37). reflexivity. Qed.

Lemma header_layouts_witness :
  ∃ ob', store SmiT.amdsmi_frequencies_t [AField "current"] 5 0 = Some ob' ∧
    load SmiT.amdsmi_frequencies_t [AField "current"] ob' = Some 5 ∧
    load SmiT.amdsmi_frequencies_t [AField "num_supported"] ob' = Some 0.
Proof.
  eexists. split; [reflexivity|].
  destruct header_layouts as (_ & Ha & _).
  destruct (Ha "amdsmi_frequencies_t" SmiT.amdsmi_frequencies_t frequencies_in) as [_ Hs].
  destruct (Hs [AField "current"] 5 0 _ eq_refl) as ((r & Hr & Hl) & Ho & _).
  split.
  - rewrite Hl. vm_compute in Hr. injection Hr as <-. reflexivity.
  - rewrite (Ho [AField "num_supported"] eq_refl). reflexivity.
Defined.

Lemma header_field_layout_witness :
  ∃ r1 r2, resolve SmiT.amdsmi_frequencies_t [AField "current"] = Some r1 ∧
    resolve SmiT.amdsmi_frequencies_t [AField "num_supported"] = Some r2 ∧
    (l_off r1 + l_width r1 <= l_off r2 ∨ l_off r2 + l_width r2 <= l_off r1).
Proof.
  do 2 eexists. split; [reflexivity|]. split; [reflexivity|].
  destruct (header_field_layout "amdsmi_frequencies_t" SmiT.amdsmi_frequencies_t
    [AField "current"] [AField "num_supported"] _ _
    frequencies_in eq_refl eq_refl) as (_ & Hd & _).
  exact (Hd eq_refl).
Defined.

Lemma bdf_roundtrip_witness :
  load_bdf GimT.amdsmi_bdf_t bdf_field (bdf_as_uint (Bdf 1 2 193 0)) = Some (Bdf 1 2 193 0).
Proof. apply (bdf_roundtrip (Bdf 1 2 193 0)). unfold bdf_ok. cbn. lia. Defined.
