(* ===== verification/SmiCompat.v ===== *)
(** Code written against one SMI header and a library built from the other:
    which of the codes that the two headers give the same name to also have
    the same value.  The agent is built for bare metal with the one and for
    the SR-IOV host with the other, and passes these codes on to the
    exporter. *)

From S2P Require Import Prelude CAbi CEnum SmiEnums SmiTypes GimEnums GimTypes SmiAbi.
Local Open Scope Z_scope.

(** The status code of the same name in the bare-metal header. *)
Definition status_by_name (g : Gim.amdsmi_status_t) : option Smi.amdsmi_status_t :=
  match g with
  | Gim.AMDSMI_STATUS_SUCCESS => Some Smi.AMDSMI_STATUS_SUCCESS
  | Gim.AMDSMI_STATUS_INVAL => Some Smi.AMDSMI_STATUS_INVAL
  | Gim.AMDSMI_STATUS_NOT_SUPPORTED => Some Smi.AMDSMI_STATUS_NOT_SUPPORTED
  | Gim.AMDSMI_STATUS_NOT_YET_IMPLEMENTED => Some Smi.AMDSMI_STATUS_NOT_YET_IMPLEMENTED
  | Gim.AMDSMI_STATUS_FAIL_LOAD_MODULE => Some Smi.AMDSMI_STATUS_FAIL_LOAD_MODULE
  | Gim.AMDSMI_STATUS_FAIL_LOAD_SYMBOL => Some Smi.AMDSMI_STATUS_FAIL_LOAD_SYMBOL
  | Gim.AMDSMI_STATUS_DRM_ERROR => Some Smi.AMDSMI_STATUS_DRM_ERROR
  | Gim.AMDSMI_STATUS_API_FAILED => Some Smi.AMDSMI_STATUS_API_FAILED
  | Gim.AMDSMI_STATUS_TIMEOUT => Some Smi.AMDSMI_STATUS_TIMEOUT
  | Gim.AMDSMI_STATUS_RETRY => Some Smi.AMDSMI_STATUS_RETRY
  | Gim.AMDSMI_STATUS_NO_PERM => Some Smi.AMDSMI_STATUS_NO_PERM
  | Gim.AMDSMI_STATUS_INTERRUPT => Some Smi.AMDSMI_STATUS_INTERRUPT
  | Gim.AMDSMI_STATUS_IO => Some Smi.AMDSMI_STATUS_IO
  | Gim.AMDSMI_STATUS_ADDRESS_FAULT => Some Smi.AMDSMI_STATUS_ADDRESS_FAULT
  | Gim.AMDSMI_STATUS_FILE_ERROR => Some Smi.AMDSMI_STATUS_FILE_ERROR
  | Gim.AMDSMI_STATUS_OUT_OF_RESOURCES => Some Smi.AMDSMI_STATUS_OUT_OF_RESOURCES
  | Gim.AMDSMI_STATUS_INTERNAL_EXCEPTION => Some Smi.AMDSMI_STATUS_INTERNAL_EXCEPTION
  | Gim.AMDSMI_STATUS_INPUT_OUT_OF_BOUNDS => Some Smi.AMDSMI_STATUS_INPUT_OUT_OF_BOUNDS
  | Gim.AMDSMI_STATUS_INIT_ERROR => Some Smi.AMDSMI_STATUS_INIT_ERROR
  | Gim.AMDSMI_STATUS_REFCOUNT_OVERFLOW => Some Smi.AMDSMI_STATUS_REFCOUNT_OVERFLOW
  | Gim.AMDSMI_STATUS_MORE_DATA => Some Smi.AMDSMI_STATUS_MORE_DATA
  | Gim.AMDSMI_STATUS_BUSY => Some Smi.AMDSMI_STATUS_BUSY
  | Gim.AMDSMI_STATUS_NOT_FOUND => Some Smi.AMDSMI_STATUS_NOT_FOUND
  | Gim.AMDSMI_STATUS_NOT_INIT => Some Smi.AMDSMI_STATUS_NOT_INIT
  | Gim.AMDSMI_STATUS_NO_SLOT => Some Smi.AMDSMI_STATUS_NO_SLOT
  | Gim.AMDSMI_STATUS_DRIVER_NOT_LOADED => Some Smi.AMDSMI_STATUS_DRIVER_NOT_LOADED
  | Gim.AMDSMI_STATUS_NO_DATA => Some Smi.AMDSMI_STATUS_NO_DATA
  | Gim.AMDSMI_STATUS_INSUFFICIENT_SIZE => Some Smi.AMDSMI_STATUS_INSUFFICIENT_SIZE
  | Gim.AMDSMI_STATUS_UNEXPECTED_SIZE => Some Smi.AMDSMI_STATUS_UNEXPECTED_SIZE
  | Gim.AMDSMI_STATUS_UNEXPECTED_DATA => Some Smi.AMDSMI_STATUS_UNEXPECTED_DATA
  | Gim.AMDSMI_STATUS_NON_AMD_CPU => Some Smi.AMDSMI_STATUS_NON_AMD_CPU
  | Gim.AMDSMI_STATUS_NO_ENERGY_DRV => Some Smi.AMDSMI_STATUS_NO_ENERGY_DRV
  | Gim.AMDSMI_STATUS_NO_MSR_DRV => Some Smi.AMDSMI_STATUS_NO_MSR_DRV
  | Gim.AMDSMI_STATUS_NO_HSMP_DRV => Some Smi.AMDSMI_STATUS_NO_HSMP_DRV
  | Gim.AMDSMI_STATUS_NO_HSMP_SUP => Some Smi.AMDSMI_STATUS_NO_HSMP_SUP
  | Gim.AMDSMI_STATUS_NO_HSMP_MSG_SUP => Some Smi.AMDSMI_STATUS_NO_HSMP_MSG_SUP
  | Gim.AMDSMI_STATUS_HSMP_TIMEOUT => Some Smi.AMDSMI_STATUS_HSMP_TIMEOUT
  | Gim.AMDSMI_STATUS_NO_DRV => Some Smi.AMDSMI_STATUS_NO_DRV
  | Gim.AMDSMI_STATUS_FILE_NOT_FOUND => Some Smi.AMDSMI_STATUS_FILE_NOT_FOUND
  | Gim.AMDSMI_STATUS_ARG_PTR_NULL => Some Smi.AMDSMI_STATUS_ARG_PTR_NULL
  | Gim.AMDSMI_STATUS_AMDGPU_RESTART_ERR => Some Smi.AMDSMI_STATUS_AMDGPU_RESTART_ERR
  | Gim.AMDSMI_STATUS_SETTING_UNAVAILABLE => Some Smi.AMDSMI_STATUS_SETTING_UNAVAILABLE
  | Gim.AMDSMI_STATUS_MAP_ERROR => Some Smi.AMDSMI_STATUS_MAP_ERROR
  | Gim.AMDSMI_STATUS_UNKNOWN_ERROR => Some Smi.AMDSMI_STATUS_UNKNOWN_ERROR
  end.

(** The link type of the same name in the bare-metal header. *)
Definition link_type_by_name (g : Gim.amdsmi_link_type_t) : option Smi.amdsmi_link_type_t :=
  match g with
  | Gim.AMDSMI_LINK_TYPE_INTERNAL => Some Smi.AMDSMI_LINK_TYPE_INTERNAL
  | Gim.AMDSMI_LINK_TYPE_XGMI => Some Smi.AMDSMI_LINK_TYPE_XGMI
  | Gim.AMDSMI_LINK_TYPE_PCIE => Some Smi.AMDSMI_LINK_TYPE_PCIE
  | Gim.AMDSMI_LINK_TYPE_NOT_APPLICABLE => Some Smi.AMDSMI_LINK_TYPE_NOT_APPLICABLE
  | Gim.AMDSMI_LINK_TYPE_UNKNOWN => Some Smi.AMDSMI_LINK_TYPE_UNKNOWN
  end.

(** The firmware block of the same name in the bare-metal header. *)
Definition fw_block_by_name (g : Gim.amdsmi_fw_block_t) : option Smi.amdsmi_fw_block_t :=
  match g with
  | Gim.AMDSMI_FW_ID_SMU => Some Smi.AMDSMI_FW_ID_SMU
  | Gim.AMDSMI_FW_ID_FIRST => Some Smi.AMDSMI_FW_ID_FIRST
  | Gim.AMDSMI_FW_ID_CP_CE => Some Smi.AMDSMI_FW_ID_CP_CE
  | Gim.AMDSMI_FW_ID_CP_PFP => Some Smi.AMDSMI_FW_ID_CP_PFP
  | Gim.AMDSMI_FW_ID_CP_ME => Some Smi.AMDSMI_FW_ID_CP_ME
  | Gim.AMDSMI_FW_ID_CP_MEC_JT1 => Some Smi.AMDSMI_FW_ID_CP_MEC_JT1
  | Gim.AMDSMI_FW_ID_CP_MEC_JT2 => Some Smi.AMDSMI_FW_ID_CP_MEC_JT2
  | Gim.AMDSMI_FW_ID_CP_MEC1 => Some Smi.AMDSMI_FW_ID_CP_MEC1
  | Gim.AMDSMI_FW_ID_CP_MEC2 => Some Smi.AMDSMI_FW_ID_CP_MEC2
  | Gim.AMDSMI_FW_ID_RLC => Some Smi.AMDSMI_FW_ID_RLC
  | Gim.AMDSMI_FW_ID_SDMA0 => Some Smi.AMDSMI_FW_ID_SDMA0
  | Gim.AMDSMI_FW_ID_SDMA1 => Some Smi.AMDSMI_FW_ID_SDMA1
  | Gim.AMDSMI_FW_ID_SDMA2 => Some Smi.AMDSMI_FW_ID_SDMA2
  | Gim.AMDSMI_FW_ID_SDMA3 => Some Smi.AMDSMI_FW_ID_SDMA3
  | Gim.AMDSMI_FW_ID_SDMA4 => Some Smi.AMDSMI_FW_ID_SDMA4
  | Gim.AMDSMI_FW_ID_SDMA5 => Some Smi.AMDSMI_FW_ID_SDMA5
  | Gim.AMDSMI_FW_ID_SDMA6 => Some Smi.AMDSMI_FW_ID_SDMA6
  | Gim.AMDSMI_FW_ID_SDMA7 => Some Smi.AMDSMI_FW_ID_SDMA7
  | Gim.AMDSMI_FW_ID_VCN => Some Smi.AMDSMI_FW_ID_VCN
  | Gim.AMDSMI_FW_ID_UVD => Some Smi.AMDSMI_FW_ID_UVD
  | Gim.AMDSMI_FW_ID_VCE => Some Smi.AMDSMI_FW_ID_VCE
  | Gim.AMDSMI_FW_ID_ISP => Some Smi.AMDSMI_FW_ID_ISP
  | Gim.AMDSMI_FW_ID_DMCU_ERAM => Some Smi.AMDSMI_FW_ID_DMCU_ERAM
  | Gim.AMDSMI_FW_ID_DMCU_ISR => Some Smi.AMDSMI_FW_ID_DMCU_ISR
  | Gim.AMDSMI_FW_ID_RLC_RESTORE_LIST_GPM_MEM => Some Smi.AMDSMI_FW_ID_RLC_RESTORE_LIST_GPM_MEM
  | Gim.AMDSMI_FW_ID_RLC_RESTORE_LIST_SRM_MEM => Some Smi.AMDSMI_FW_ID_RLC_RESTORE_LIST_SRM_MEM
  | Gim.AMDSMI_FW_ID_RLC_RESTORE_LIST_CNTL => Some Smi.AMDSMI_FW_ID_RLC_RESTORE_LIST_CNTL
  | Gim.AMDSMI_FW_ID_RLC_V => Some Smi.AMDSMI_FW_ID_RLC_V
  | Gim.AMDSMI_FW_ID_MMSCH => Some Smi.AMDSMI_FW_ID_MMSCH
  | Gim.AMDSMI_FW_ID_PSP_SYSDRV => Some Smi.AMDSMI_FW_ID_PSP_SYSDRV
  | Gim.AMDSMI_FW_ID_PSP_SOSDRV => Some Smi.AMDSMI_FW_ID_PSP_SOSDRV
  | Gim.AMDSMI_FW_ID_PSP_TOC => Some Smi.AMDSMI_FW_ID_PSP_TOC
  | Gim.AMDSMI_FW_ID_PSP_KEYDB => Some Smi.AMDSMI_FW_ID_PSP_KEYDB
  | Gim.AMDSMI_FW_ID_DFC => Some Smi.AMDSMI_FW_ID_DFC
  | Gim.AMDSMI_FW_ID_PSP_SPL => Some Smi.AMDSMI_FW_ID_PSP_SPL
  | Gim.AMDSMI_FW_ID_DRV_CAP => Some Smi.AMDSMI_FW_ID_DRV_CAP
  | Gim.AMDSMI_FW_ID_MC => Some Smi.AMDSMI_FW_ID_MC
  | Gim.AMDSMI_FW_ID_PSP_BL => Some Smi.AMDSMI_FW_ID_PSP_BL
  | Gim.AMDSMI_FW_ID_CP_PM4 => Some Smi.AMDSMI_FW_ID_CP_PM4
  | Gim.AMDSMI_FW_ID_RLC_P => Some Smi.AMDSMI_FW_ID_RLC_P
  | Gim.AMDSMI_FW_ID_SEC_POLICY_STAGE2 => Some Smi.AMDSMI_FW_ID_SEC_POLICY_STAGE2
  | Gim.AMDSMI_FW_ID_REG_ACCESS_WHITELIST => Some Smi.AMDSMI_FW_ID_REG_ACCESS_WHITELIST
  | Gim.AMDSMI_FW_ID_IMU_DRAM => Some Smi.AMDSMI_FW_ID_IMU_DRAM
  | Gim.AMDSMI_FW_ID_IMU_IRAM => Some Smi.AMDSMI_FW_ID_IMU_IRAM
  | Gim.AMDSMI_FW_ID_SDMA_TH0 => Some Smi.AMDSMI_FW_ID_SDMA_TH0
  | Gim.AMDSMI_FW_ID_SDMA_TH1 => Some Smi.AMDSMI_FW_ID_SDMA_TH1
  | Gim.AMDSMI_FW_ID_CP_MES => Some Smi.AMDSMI_FW_ID_CP_MES
  | Gim.AMDSMI_FW_ID_MES_STACK => Some Smi.AMDSMI_FW_ID_MES_STACK
  | Gim.AMDSMI_FW_ID_MES_THREAD1 => Some Smi.AMDSMI_FW_ID_MES_THREAD1
  | Gim.AMDSMI_FW_ID_MES_THREAD1_STACK => Some Smi.AMDSMI_FW_ID_MES_THREAD1_STACK
  | Gim.AMDSMI_FW_ID_RLX6 => Some Smi.AMDSMI_FW_ID_RLX6
  | Gim.AMDSMI_FW_ID_RLX6_DRAM_BOOT => Some Smi.AMDSMI_FW_ID_RLX6_DRAM_BOOT
  | Gim.AMDSMI_FW_ID_RS64_ME => Some Smi.AMDSMI_FW_ID_RS64_ME
  | Gim.AMDSMI_FW_ID_RS64_ME_P0_DATA => Some Smi.AMDSMI_FW_ID_RS64_ME_P0_DATA
  | Gim.AMDSMI_FW_ID_RS64_ME_P1_DATA => Some Smi.AMDSMI_FW_ID_RS64_ME_P1_DATA
  | Gim.AMDSMI_FW_ID_RS64_PFP => Some Smi.AMDSMI_FW_ID_RS64_PFP
  | Gim.AMDSMI_FW_ID_RS64_PFP_P0_DATA => Some Smi.AMDSMI_FW_ID_RS64_PFP_P0_DATA
  | Gim.AMDSMI_FW_ID_RS64_PFP_P1_DATA => Some Smi.AMDSMI_FW_ID_RS64_PFP_P1_DATA
  | Gim.AMDSMI_FW_ID_RS64_MEC => Some Smi.AMDSMI_FW_ID_RS64_MEC
  | Gim.AMDSMI_FW_ID_RS64_MEC_P0_DATA => Some Smi.AMDSMI_FW_ID_RS64_MEC_P0_DATA
  | Gim.AMDSMI_FW_ID_RS64_MEC_P1_DATA => Some Smi.AMDSMI_FW_ID_RS64_MEC_P1_DATA
  | Gim.AMDSMI_FW_ID_RS64_MEC_P2_DATA => Some Smi.AMDSMI_FW_ID_RS64_MEC_P2_DATA
  | Gim.AMDSMI_FW_ID_RS64_MEC_P3_DATA => Some Smi.AMDSMI_FW_ID_RS64_MEC_P3_DATA
  | Gim.AMDSMI_FW_ID_PPTABLE => Some Smi.AMDSMI_FW_ID_PPTABLE
  | Gim.AMDSMI_FW_ID_PSP_SOC => Some Smi.AMDSMI_FW_ID_PSP_SOC
  | Gim.AMDSMI_FW_ID_PSP_DBG => Some Smi.AMDSMI_FW_ID_PSP_DBG
  | Gim.AMDSMI_FW_ID_PSP_INTF => Some Smi.AMDSMI_FW_ID_PSP_INTF
  | Gim.AMDSMI_FW_ID_RLX6_CORE1 => Some Smi.AMDSMI_FW_ID_RLX6_CORE1
  | Gim.AMDSMI_FW_ID_RLX6_DRAM_BOOT_CORE1 => Some Smi.AMDSMI_FW_ID_RLX6_DRAM_BOOT_CORE1
  | Gim.AMDSMI_FW_ID_RLCV_LX7 => Some Smi.AMDSMI_FW_ID_RLCV_LX7
  | Gim.AMDSMI_FW_ID_RLC_SAVE_RESTORE_LIST => Some Smi.AMDSMI_FW_ID_RLC_SAVE_RESTORE_LIST
  | Gim.AMDSMI_FW_ID_ASD => Some Smi.AMDSMI_FW_ID_ASD
  | Gim.AMDSMI_FW_ID_TA_RAS => Some Smi.AMDSMI_FW_ID_TA_RAS
  | Gim.AMDSMI_FW_ID_RLC_SRLG => Some Smi.AMDSMI_FW_ID_RLC_SRLG
  | Gim.AMDSMI_FW_ID_RLC_SRLS => Some Smi.AMDSMI_FW_ID_RLC_SRLS
  | Gim.AMDSMI_FW_ID_DMCU => Some Smi.AMDSMI_FW_ID_DMCU
  | Gim.AMDSMI_FW_ID_PLDM_BUNDLE => Some Smi.AMDSMI_FW_ID_PLDM_BUNDLE
  | Gim.AMDSMI_FW_ID__MAX => Some Smi.AMDSMI_FW_ID__MAX
  | _ => None
  end.

(** status codes across the headers.  A status of the same name has the
    same value in both, [AMDSMI_STATUS_MORE_DATA] alone excepted. *)
Theorem status_codes_agree g s :
  status_by_name g = Some s →
  (enum_val g = enum_val s ↔ g ≠ Gim.AMDSMI_STATUS_MORE_DATA).
Proof.
  intros H. destruct g; vm_compute in H; try discriminate H; injection H as <-;
    (split; [intros He; try discriminate; vm_compute in He; discriminate He
            |intros He; try reflexivity; by destruct He]).
Qed.

(** link types across the headers.  A code of the host library decoded
    with the bare-metal header takes PCIe for XGMI and XGMI for PCIe; the
    other link types agree. *)
Theorem link_types_exchanged :
  enum_of Smi.amdsmi_link_type_t (enum_val Gim.AMDSMI_LINK_TYPE_PCIE) =
    Some Smi.AMDSMI_LINK_TYPE_XGMI ∧
  enum_of Smi.amdsmi_link_type_t (enum_val Gim.AMDSMI_LINK_TYPE_XGMI) =
    Some Smi.AMDSMI_LINK_TYPE_PCIE ∧
  ∀ g s, link_type_by_name g = Some s →
    g ≠ Gim.AMDSMI_LINK_TYPE_PCIE → g ≠ Gim.AMDSMI_LINK_TYPE_XGMI →
    enum_val g = enum_val s.
Proof.
  split_and!; [vm_compute; reflexivity..|].
  intros g s H Hp Hx. destruct g; try done; vm_compute in H; injection H as <-;
    vm_compute; reflexivity.
Qed.

(** firmware blocks across the headers.  The ids of the blocks of the same
    name agree exactly up to id 46. *)
Theorem fw_ids_agree g s :
  fw_block_by_name g = Some s → (enum_val g = enum_val s ↔ enum_val s <= 46).
Proof.
  intros H. destruct g; vm_compute in H; try discriminate H; injection H as <-;
    (split; [intros He; vm_compute in He |- *; congruence
            |intros He; vm_compute in He |- *; first [reflexivity | by destruct He]]).
Qed.

(** ** Instances *)

Lemma status_codes_agree_witness :
  (enum_val Gim.AMDSMI_STATUS_BUSY = enum_val Smi.AMDSMI_STATUS_BUSY ↔
   Gim.AMDSMI_STATUS_BUSY ≠ Gim.AMDSMI_STATUS_MORE_DATA).
Proof. exact (status_codes_agree Gim.AMDSMI_STATUS_BUSY Smi.AMDSMI_STATUS_BUSY eq_refl). Defined.

Lemma link_types_exchanged_witness :
  enum_val Gim.AMDSMI_LINK_TYPE_INTERNAL = enum_val Smi.AMDSMI_LINK_TYPE_INTERNAL.
Proof. apply link_types_exchanged; [reflexivity|discriminate|discriminate]. Defined.

Lemma fw_ids_agree_witness :
  (enum_val Gim.AMDSMI_FW_ID_RLC = enum_val Smi.AMDSMI_FW_ID_RLC ↔
   enum_val Smi.AMDSMI_FW_ID_RLC <= 46).
Proof. exact (fw_ids_agree Gim.AMDSMI_FW_ID_RLC Smi.AMDSMI_FW_ID_RLC eq_refl). Defined.
