(* ===== verification/SmiMasks.v ===== *)
(** The event masks of the SMI headers: the macros of
    [src/assets/gim_smi_lib/.../amdsmi.h] that build a 64-bit mask of event
    categories (the low bits) and severities (bits 60 to 63), and the macro
    of [src/assets/amd_smi_lib/.../amdsmi.h] that turns an event type into
    the bit of its notification mask.  [1ULL << i] is defined for
    [0 <= i < 64] only; the macros that shift by their argument return
    [None] elsewhere. *)

From S2P Require Import Prelude CEnum SmiEnums GimEnums.
Local Open Scope Z_scope.

(** [1ULL << i] *)
Definition ull_bit (i : Z) : option Z :=
  if (0 <=? i) && (i <? 64) then Some (Z.shiftl 1 i) else None.

(** [~x] on [unsigned long long] *)
Definition ull_not (x : Z) : Z := u64 (Z.lnot x).

Module GimMask.

Definition AMDSMI_MASK_ALL : Z := ull_not 0.
Definition AMDSMI_MASK_DEFAULT : Z := Z.shiftl 1 62 - 1.
Definition AMDSMI_MASK_INIT : Z := 0.
Definition AMDSMI_MASK_HIGH_AND_MED_SEVERITY : Z := ull_not (Z.shiftl 1 61 - 1).

Definition AMDSMI_MASK_HIGH_ERROR_SEVERITY_ONLY (mask : Z) : Z :=
  Z.land mask (Z.shiftl 1 60 - 1).
Definition AMDSMI_MASK_INCLUDE_MED_ERROR_SEVERITY (mask : Z) : Z := Z.lor mask (Z.shiftl 1 60).
Definition AMDSMI_MASK_INCLUDE_LOW_ERROR_SEVERITY (mask : Z) : Z := Z.lor mask (Z.shiftl 1 61).
Definition AMDSMI_MASK_INCLUDE_WARN_SEVERITY (mask : Z) : Z := Z.lor mask (Z.shiftl 1 62).
Definition AMDSMI_MASK_INCLUDE_INFO_SEVERITY (mask : Z) : Z := Z.lor mask (Z.shiftl 1 63).

Definition AMDSMI_MASK_HIGH_SEVERITY_ONLY (mask : Z) : Z := Z.land mask (Z.shiftl 1 62 - 1).
Definition AMDSMI_MASK_INCLUDE_MED_SEVERITY (mask : Z) : Z :=
  AMDSMI_MASK_INCLUDE_WARN_SEVERITY mask.
Definition AMDSMI_MASK_INCLUDE_LOW_SEVERITY (mask : Z) : Z :=
  AMDSMI_MASK_INCLUDE_INFO_SEVERITY mask.

Definition AMDSMI_MASK_INCLUDE_CATEGORY (mask cate : Z) : option Z :=
  b ← ull_bit cate; Some (Z.lor mask b).
Definition AMDSMI_MASK_EXCLUDE_CATEGORY (mask cate : Z) : option Z :=
  b ← ull_bit cate; Some (Z.land mask (ull_not b)).

End GimMask.

Module SmiMask.

Definition AMDSMI_EVENT_MASK_FROM_INDEX (i : Z) : option Z := ull_bit (i - 1).

End SmiMask.

(** ** Bits of the masks *)

Lemma ull_bit_Some i b : ull_bit i = Some b → 0 <= i < 64 ∧ b = 2 ^ i.
Proof.
  unfold ull_bit. case_match; [|done]. intros [= <-]. bool_hyps.
  by rewrite Z.shiftl_1_l.
Qed.

Lemma ull_not_spec x k : 0 <= k < 64 → Z.testbit (ull_not x) k = negb (Z.testbit x k).
Proof.
  intros. unfold ull_not, u64. rewrite wrap_land, Z.land_spec, Z.lnot_spec, Z.testbit_ones
    by lia. destruct (Z.ltb_spec k 64); [|lia]. destruct (Z.leb_spec 0 k); [|lia].
  by rewrite !andb_true_r.
Qed.

Lemma testbit_pow2 i k : 0 <= i → Z.testbit (2 ^ i) k = bool_decide (i = k).
Proof.
  intros. rewrite Z.pow2_bits_eqb by done. destruct (Z.eqb_spec i k);
    case_bool_decide; lia || done.
Qed.

Lemma testbit_below n k : 0 <= n → 0 <= k → Z.testbit (Z.shiftl 1 n - 1) k = (k <? n).
Proof.
  intros. rewrite Z.shiftl_1_l. replace (2 ^ n - 1) with (Z.ones n)
    by (rewrite Z.ones_equiv; lia).
  rewrite Z.testbit_ones by done. by destruct (Z.leb_spec 0 k); [|lia].
Qed.

(** including or excluding a category changes the bit of the category and no
    other, so never the severity bits. *)
Theorem category_masks mask (c : Gim.amdsmi_event_category_t) :
  ∃ inc exc,
    GimMask.AMDSMI_MASK_INCLUDE_CATEGORY mask (enum_val c) = Some inc ∧
    GimMask.AMDSMI_MASK_EXCLUDE_CATEGORY mask (enum_val c) = Some exc ∧
    enum_val c < 60 ∧
    ∀ k, 0 <= k < 64 →
      Z.testbit inc k = Z.testbit mask k || bool_decide (enum_val c = k) ∧
      Z.testbit exc k = Z.testbit mask k && negb (bool_decide (enum_val c = k)).
Proof.
  assert (0 <= enum_val c < 60) as Hc.
  { pose proof (enum_val_forall Gim.amdsmi_event_category_t
      (λ v, (0 <=? v) && (v <? 60)) c eq_refl eq_refl) as H. cbn beta in H.
    bool_hyps. lia. }
  assert (ull_bit (enum_val c) = Some (2 ^ enum_val c)) as Hb.
  { unfold ull_bit. destruct (Z.leb_spec 0 (enum_val c)), (Z.ltb_spec (enum_val c) 64);
      try lia. by rewrite <- Z.shiftl_1_l. }
  unfold GimMask.AMDSMI_MASK_INCLUDE_CATEGORY, GimMask.AMDSMI_MASK_EXCLUDE_CATEGORY.
  rewrite Hb. cbn [mbind option_bind]. do 2 eexists. do 2 (split; [done|]). split; [lia|]. intros k Hk.
  rewrite Z.lor_spec, Z.land_spec, ull_not_spec, testbit_pow2 by lia. done.
Qed.

(** the constants and the severity macros, bit by bit: the default mask has
    every category and every error severity and neither warnings nor infos,
    and adding both back gives the mask of everything. *)
Theorem severity_masks mask k :
  0 <= k < 64 →
  Z.testbit GimMask.AMDSMI_MASK_ALL k = true ∧
  Z.testbit GimMask.AMDSMI_MASK_DEFAULT k = (k <? 62) ∧
  Z.testbit GimMask.AMDSMI_MASK_HIGH_AND_MED_SEVERITY k = (61 <=? k) ∧
  Z.testbit (GimMask.AMDSMI_MASK_HIGH_ERROR_SEVERITY_ONLY mask) k =
    Z.testbit mask k && (k <? 60) ∧
  Z.testbit (GimMask.AMDSMI_MASK_HIGH_SEVERITY_ONLY mask) k =
    Z.testbit mask k && (k <? 62) ∧
  GimMask.AMDSMI_MASK_INCLUDE_INFO_SEVERITY
    (GimMask.AMDSMI_MASK_INCLUDE_WARN_SEVERITY GimMask.AMDSMI_MASK_DEFAULT) =
    GimMask.AMDSMI_MASK_ALL.
Proof.
  intros Hk. unfold GimMask.AMDSMI_MASK_HIGH_ERROR_SEVERITY_ONLY,
    GimMask.AMDSMI_MASK_HIGH_SEVERITY_ONLY, GimMask.AMDSMI_MASK_HIGH_AND_MED_SEVERITY,
    GimMask.AMDSMI_MASK_DEFAULT, GimMask.AMDSMI_MASK_ALL.
  rewrite !Z.land_spec, !ull_not_spec, !testbit_below, Z.bits_0 by lia.
  split_and!; try done. by rewrite Z.leb_antisym.
Qed.

(** distinct event types have distinct one-bit masks; [NONE] has no mask. *)
Theorem event_masks (e1 e2 : Smi.amdsmi_evt_notification_type_t) :
  (SmiMask.AMDSMI_EVENT_MASK_FROM_INDEX (enum_val e1) = None ↔
     e1 = Smi.AMDSMI_EVT_NOTIF_NONE) ∧
  (∀ b1 b2, SmiMask.AMDSMI_EVENT_MASK_FROM_INDEX (enum_val e1) = Some b1 →
     SmiMask.AMDSMI_EVENT_MASK_FROM_INDEX (enum_val e2) = Some b2 →
     enum_val e1 ≠ enum_val e2 → Z.land b1 b2 = 0).
Proof.
  split.
  - split; [|by intros ->]. destruct e1; vm_compute; congruence.
  - unfold SmiMask.AMDSMI_EVENT_MASK_FROM_INDEX.
    intros b1 b2 [? ->]%ull_bit_Some [? ->]%ull_bit_Some Hne.
    apply Z.bits_inj'. intros n Hn. rewrite Z.land_spec, !testbit_pow2, Z.bits_0 by lia.
    repeat case_bool_decide; lia || done.
Qed.

(** ** Instances *)

Lemma severity_masks_witness : Z.testbit GimMask.AMDSMI_MASK_DEFAULT 62 = false.
Proof. exact (proj1 (proj2 (severity_masks 0 62 ltac:(lia)))). Defined.

Lemma category_masks_witness :
  ∃ inc, GimMask.AMDSMI_MASK_INCLUDE_CATEGORY 0
    (enum_val Gim.AMDSMI_EVENT_CATEGORY_DRIVER) = Some inc ∧
    Z.testbit inc (enum_val Gim.AMDSMI_EVENT_CATEGORY_DRIVER) = true.
Proof.
  destruct (category_masks 0 Gim.AMDSMI_EVENT_CATEGORY_DRIVER) as (inc & exc & Hi & _ & _ & Hb).
  exists inc. split; [exact Hi|].
  destruct (Hb (enum_val Gim.AMDSMI_EVENT_CATEGORY_DRIVER)) as [H _].
  - vm_compute. split; congruence.
  - rewrite H. vm_compute. reflexivity.
Defined.

Lemma event_masks_witness :
  ∃ b1 b2,
    SmiMask.AMDSMI_EVENT_MASK_FROM_INDEX (enum_val Smi.AMDSMI_EVT_NOTIF_VMFAULT) = Some b1 ∧
    SmiMask.AMDSMI_EVENT_MASK_FROM_INDEX (enum_val Smi.AMDSMI_EVT_NOTIF_THERMAL_THROTTLE) = Some b2 ∧
    Z.land b1 b2 = 0.
Proof.
  do 2 eexists. split; [vm_compute; reflexivity|]. split; [vm_compute; reflexivity|].
  apply (proj2 (event_masks Smi.AMDSMI_EVT_NOTIF_VMFAULT Smi.AMDSMI_EVT_NOTIF_THERMAL_THROTTLE));
    vm_compute; first [reflexivity | discriminate].
Defined.
