(* ===== verification/CProto.v ===== *)
(** Function prototypes of C and where their arguments go on x86-64 (System V
    ABI): arguments of integer class in the six integer registers, in order,
    one register per eight bytes, an argument that does not fit in whole on
    the stack.  A prototype carries what its doc comment says about each
    parameter. *)

From S2P Require Import Prelude CAbi.
Local Open Scope Z_scope.

(** Types of parameters: an object type by value, or a pointer. *)
Inductive pty : Type :=
  | PVoid
  | PVal (t : cty)
  | PTo (const : bool) (t : pty).

(** [@param[in]], [@param[out]], [@param[in,out]]. *)
Inductive dir : Type := In_ | Out_ | InOut.
#[export] Instance dir_eq_dec : EqDecision dir.
Proof. solve_decision. Defined.

Record proto : Type := Proto {
  p_result : cty;
  p_params : list (string * pty);
  p_docs : list (string * dir);
}.

Definition int_t : cty := TInt 32 true.
Definition unsigned_int_t : cty := TInt 32 false.
Definition int32_t : cty := TInt 32 true.
Definition int64_t : cty := TInt 64 true.
Definition size_t : cty := TInt 64 false.

(** ** Passing of arguments *)

(** No part of the object is a floating-point number: every eightbyte has
    class INTEGER. *)
Fixpoint integer_class (t : cty) : bool :=
  match t with
  | TFloat | TDouble => false
  | TInt _ _ | TBool | TPtr | TEnum _ => true
  | TArr t _ => integer_class t
  | TStruct _ ms | TUnion _ ms => forallb (λ m, integer_class m.2.1) ms
  end.

Definition pty_size (p : pty) : Z :=
  match p with PVoid => 0 | PVal t => sizeof t | PTo _ _ => 8 end.

Definition pty_integer (p : pty) : bool :=
  match p with PVoid => false | PVal t => integer_class t | PTo _ _ => true end.

(** Eightbytes of an argument. *)
Definition eightbytes (p : pty) : Z := (pty_size p + 7) / 8.

(** Registers are numbered 0 to 5 (rdi, rsi, rdx, rcx, r8, r9); stack slots
    of eight bytes from the one above the return address. *)
Inductive loc : Type :=
  | Registers (first count : Z)
  | StackSlots (first count : Z).
#[export] Instance loc_eq_dec : EqDecision loc.
Proof. solve_decision. Defined.

Fixpoint assign (reg slot : Z) (ps : list pty) : list loc :=
  match ps with
  | [] => []
  | p :: ps =>
      let n := eightbytes p in
      if decide (n <= 2 ∧ reg + n <= 6) then Registers reg n :: assign (reg + n) slot ps
      else StackSlots slot n :: assign reg (slot + n) ps
  end.

(** Where the arguments of a call go, if all are of integer class. *)
Definition call_layout (p : proto) : option (list loc) :=
  if forallb (λ x, pty_integer x.2) (p_params p) then Some (assign 0 0 (snd <$> p_params p)) else None.

(** The memory the caller hands over: for every parameter that is a pointer
    the size of one object it points to, if it has a type. *)
Definition pointee (p : pty) : option (option Z) :=
  match p with
  | PTo _ PVoid => Some None
  | PTo _ t => Some (Some (pty_size t))
  | _ => None
  end.

Definition buffers (p : proto) : list (option (option Z)) := (λ x, pointee x.2) <$> p_params p.

(** ** What the comment says about the parameters *)

(** A pointer through which the function may write. *)
Definition writable (p : pty) : bool := match p with PTo false _ => true | _ => false end.

Definition documents (p : proto) : Prop := fst <$> p_docs p = fst <$> p_params p.

#[export] Instance documents_dec p : Decision (documents p).
Proof. unfold documents. apply _. Defined.

(** Parameters that are results by their comment, with their types. *)
Definition outputs (p : proto) : list pty :=
  omap (λ x, match x with (_, In_, t) => None | (_, _, t) => Some t end) (zip (p_docs p) (snd <$> p_params p)).

(** Parameters that are inputs by their comment but may be written by their
    type. *)
Definition writable_inputs (p : proto) : list string :=
  omap (λ x, match x with (n, In_, t) => if writable t then Some n else None | _ => None end)
    (zip (p_docs p) (snd <$> p_params p)).

(** ** Arguments do not share a place *)

Definition places (l : loc) : list (bool * Z) :=
  match l with
  | Registers a n => (λ i, (true, i)) <$> seqZ a n
  | StackSlots a n => (λ i, (false, i)) <$> seqZ a n
  end.

Lemma places_spec l x : x ∈ places l ↔
  match l with
  | Registers a n => x.1 = true ∧ a <= x.2 < a + n
  | StackSlots a n => x.1 = false ∧ a <= x.2 < a + n
  end.
Proof.
  destruct x as [b i], l as [a n|a n]; cbn; rewrite list_elem_of_fmap; setoid_rewrite elem_of_seqZ;
    naive_solver.
Qed.

Lemma assign_places reg slot ps : 0 <= reg → 0 <= slot → Forall (λ p, 0 <= pty_size p) ps →
  Forall (λ l, ∀ x : bool * Z, x ∈ places l → if x.1 then reg <= x.2 < 6 else slot <= x.2) (assign reg slot ps) ∧
  NoDup (assign reg slot ps ≫= places).
Proof.
  intros Hr Hs Hps. revert reg slot Hr Hs.
  induction Hps as [|p ps Hp Hps IH]; intros reg slot Hr Hs; cbn [assign].
  { split; [constructor|cbn; constructor]. }
  assert (Hn : 0 <= eightbytes p) by (apply Z.div_pos; lia).
  assert (∀ (l : loc) (reg' slot' : Z), reg <= reg' → slot <= slot' → 
    (∀ x : bool * Z, x ∈ places l → if x.1 then reg <= x.2 < reg' ∧ x.2 < 6 else slot <= x.2 < slot') →
    NoDup (places l) →
    Forall (λ l, ∀ x : bool * Z, x ∈ places l → if x.1 then reg <= x.2 < 6 else slot <= x.2)
      (l :: assign reg' slot' ps) ∧ NoDup ((l :: assign reg' slot' ps) ≫= places)) as Hstep.
  { intros l reg' slot' Hr' Hs' Hl Hnd. destruct (IH reg' slot') as [Hf Hd]; [lia..|]. split.
    - constructor.
      + intros x Hx. specialize (Hl x Hx). destruct x.1; lia.
      + eapply Forall_impl; [exact Hf|]. intros l' Hl' x Hx. specialize (Hl' x Hx). destruct x.1; lia.
    - cbn. apply NoDup_app. split; [done|]. split; [|done]. intros x Hx Hin.
      apply list_elem_of_bind in Hin as (l' & Hx' & Hl').
      rewrite Forall_forall in Hf. specialize (Hf l' Hl' x Hx'). specialize (Hl x Hx). destruct x.1; lia. }
  case_decide; apply Hstep; try lia.
  - intros [b i] (Hb & Hi)%places_spec. cbn in *. subst b. lia.
  - cbn. apply NoDup_fmap_2; [|apply NoDup_seqZ]. by intros ?? [= ->].
  - intros [b i] (Hb & Hi)%places_spec. cbn in *. subst b. lia.
  - cbn. apply NoDup_fmap_2; [|apply NoDup_seqZ]. by intros ?? [= ->].
Qed.

Lemma length_assign reg slot ps : length (assign reg slot ps) = length ps.
Proof.
  revert reg slot. induction ps as [|p ps IH]; intros reg slot; [done|]. cbn [assign].
  case_decide; cbn; by rewrite IH.
Qed.
