(* ===== verification/SmiApi.v ===== *)
(** The functions of [src/assets/amd_smi_lib/x86_64/UBUNTU22/lib/amdsmi.h]: the
    prototype of each and what its comment says about its parameters
    ([@param[in]], [@param[out]], [@param[in,out]]), in the order of the
    header.  The functions under [ENABLE_ESMI_LIB] are included. *)

From S2P Require Import Prelude CAbi CEnum SmiEnums SmiTypes CProto.
Import SmiEnums.Smi SmiTypes.SmiT.

Module SmiF.

Definition amdsmi_init : proto :=
  Proto (TEnum (enum_values amdsmi_status_t))
    [ ("init_flags", PVal uint64_t) ]
    [ ("init_flags", In_) ].

Definition amdsmi_shut_down : proto :=
  Proto (TEnum (enum_values amdsmi_status_t))
    [] [].

Definition amdsmi_get_socket_handles : proto :=
  Proto (TEnum (enum_values amdsmi_status_t))
    [ ("socket_count", PTo false (PVal uint32_t));
      ("socket_handles", PTo false (PVal amdsmi_socket_handle)) ]
    [ ("socket_count", InOut); ("socket_handles", InOut) ].

Definition amdsmi_get_socket_info : proto :=
  Proto (TEnum (enum_values amdsmi_status_t))
    [ ("socket_handle", PVal amdsmi_socket_handle);
      ("len", PVal size_t);
      ("name", PTo false (PVal char_t)) ]
    [ ("socket_handle", In_); ("len", In_); ("name", Out_) ].

Definition amdsmi_get_processor_handles : proto :=
  Proto (TEnum (enum_values amdsmi_status_t))
    [ ("socket_handle", PVal amdsmi_socket_handle);
      ("processor_count", PTo false (PVal uint32_t));
      ("processor_handles", PTo false (PVal amdsmi_processor_handle)) ]
    [ ("socket_handle", In_); ("processor_count", InOut); ("processor_handles", InOut) ].

Definition amdsmi_get_node_handle : proto :=
  Proto (TEnum (enum_values amdsmi_status_t))
    [ ("processor_handle", PVal amdsmi_processor_handle);
      ("node_handle", PTo false (PVal amdsmi_node_handle)) ]
    [ ("processor_handle", In_); ("node_handle", Out_) ].

Definition amdsmi_get_processor_type : proto :=
  Proto (TEnum (enum_values amdsmi_status_t))
    [ ("processor_handle", PVal amdsmi_processor_handle);
      ("processor_type", PTo false (PVal (TEnum (enum_values amdsmi_processor_type_t)))) ]
    [ ("processor_handle", In_); ("processor_type", Out_) ].

Definition amdsmi_get_processor_info : proto :=
  Proto (TEnum (enum_values amdsmi_status_t))
    [ ("processor_handle", PVal amdsmi_processor_handle);
      ("len", PVal size_t);
      ("name", PTo false (PVal char_t)) ]
    [ ("processor_handle", In_); ("len", In_); ("name", Out_) ].

Definition amdsmi_get_processor_count_from_handles : proto :=
  Proto (TEnum (enum_values amdsmi_status_t))
    [ ("processor_handles", PTo false (PVal amdsmi_processor_handle));
      ("processor_count", PTo false (PVal uint32_t));
      ("nr_cpusockets", PTo false (PVal uint32_t));
      ("nr_cpucores", PTo false (PVal uint32_t));
      ("nr_gpus", PTo false (PVal uint32_t)) ]
    [ ("processor_handles", In_);
      ("processor_count", In_);
      ("nr_cpusockets", Out_);
      ("nr_cpucores", Out_);
      ("nr_gpus", Out_) ].

Definition amdsmi_get_processor_handles_by_type : proto :=
  Proto (TEnum (enum_values amdsmi_status_t))
    [ ("socket_handle", PVal amdsmi_socket_handle);
      ("processor_type", PVal (TEnum (enum_values amdsmi_processor_type_t)));
      ("processor_handles", PTo false (PVal amdsmi_processor_handle));
      ("processor_count", PTo false (PVal uint32_t)) ]
    [ ("socket_handle", In_);
      ("processor_type", In_);
      ("processor_handles", Out_);
      ("processor_count", InOut) ].

Definition amdsmi_get_processor_handle_from_bdf : proto :=
  Proto (TEnum (enum_values amdsmi_status_t))
    [ ("bdf", PVal amdsmi_bdf_t);
      ("processor_handle", PTo false (PVal amdsmi_processor_handle)) ]
    [ ("bdf", In_); ("processor_handle", Out_) ].

Definition amdsmi_get_gpu_device_bdf : proto :=
  Proto (TEnum (enum_values amdsmi_status_t))
    [ ("processor_handle", PVal amdsmi_processor_handle);
      ("bdf", PTo false (PVal amdsmi_bdf_t)) ]
    [ ("processor_handle", In_); ("bdf", Out_) ].

Definition amdsmi_get_gpu_device_uuid : proto :=
  Proto (TEnum (enum_values amdsmi_status_t))
    [ ("processor_handle", PVal amdsmi_processor_handle);
      ("uuid_length", PTo false (PVal unsigned_int_t));
      ("uuid", PTo false (PVal char_t)) ]
    [ ("processor_handle", In_); ("uuid_length", InOut); ("uuid", Out_) ].

Definition amdsmi_get_gpu_enumeration_info : proto :=
  Proto (TEnum (enum_values amdsmi_status_t))
    [ ("processor_handle", PVal amdsmi_processor_handle);
      ("info", PTo false (PVal amdsmi_enumeration_info_t)) ]
    [ ("processor_handle", In_); ("info", Out_) ].

Definition amdsmi_get_cpu_affinity_with_scope : proto :=
  Proto (TEnum (enum_values amdsmi_status_t))
    [ ("processor_handle", PVal amdsmi_processor_handle);
      ("cpu_set_size", PVal uint32_t);
      ("cpu_set", PTo false (PVal uint64_t));
      ("scope", PVal (TEnum (enum_values amdsmi_affinity_scope_t))) ]
    [ ("processor_handle", In_); ("cpu_set_size", In_); ("cpu_set", InOut); ("scope", In_) ].

Definition amdsmi_get_gpu_virtualization_mode : proto :=
  Proto (TEnum (enum_values amdsmi_status_t))
    [ ("processor_handle", PVal amdsmi_processor_handle);
      ("mode", PTo false (PVal (TEnum (enum_values amdsmi_virtualization_mode_t)))) ]
    [ ("processor_handle", In_); ("mode", InOut) ].

Definition amdsmi_get_gpu_id : proto :=
  Proto (TEnum (enum_values amdsmi_status_t))
    [ ("processor_handle", PVal amdsmi_processor_handle);
      ("id", PTo false (PVal uint16_t)) ]
    [ ("processor_handle", In_); ("id", InOut) ].

Definition amdsmi_get_gpu_revision : proto :=
  Proto (TEnum (enum_values amdsmi_status_t))
    [ ("processor_handle", PVal amdsmi_processor_handle);
      ("revision", PTo false (PVal uint16_t)) ]
    [ ("processor_handle", In_); ("revision", Out_) ].

Definition amdsmi_get_gpu_vendor_name : proto :=
  Proto (TEnum (enum_values amdsmi_status_t))
    [ ("processor_handle", PVal amdsmi_processor_handle);
      ("name", PTo false (PVal char_t));
      ("len", PVal size_t) ]
    [ ("processor_handle", In_); ("name", InOut); ("len", In_) ].

Definition amdsmi_get_gpu_vram_vendor : proto :=
  Proto (TEnum (enum_values amdsmi_status_t))
    [ ("processor_handle", PVal amdsmi_processor_handle);
      ("brand", PTo false (PVal char_t));
      ("len", PVal uint32_t) ]
    [ ("processor_handle", In_); ("brand", InOut); ("len", In_) ].

Definition amdsmi_get_gpu_subsystem_id : proto :=
  Proto (TEnum (enum_values amdsmi_status_t))
    [ ("processor_handle", PVal amdsmi_processor_handle);
      ("id", PTo false (PVal uint16_t)) ]
    [ ("processor_handle", In_); ("id", InOut) ].

Definition amdsmi_get_gpu_subsystem_name : proto :=
  Proto (TEnum (enum_values amdsmi_status_t))
    [ ("processor_handle", PVal amdsmi_processor_handle);
      ("name", PTo false (PVal char_t));
      ("len", PVal size_t) ]
    [ ("processor_handle", In_); ("name", InOut); ("len", In_) ].

Definition amdsmi_get_gpu_pci_bandwidth : proto :=
  Proto (TEnum (enum_values amdsmi_status_t))
    [ ("processor_handle", PVal amdsmi_processor_handle);
      ("bandwidth", PTo false (PVal amdsmi_pcie_bandwidth_t)) ]
    [ ("processor_handle", In_); ("bandwidth", InOut) ].

Definition amdsmi_get_gpu_bdf_id : proto :=
  Proto (TEnum (enum_values amdsmi_status_t))
    [ ("processor_handle", PVal amdsmi_processor_handle);
      ("bdfid", PTo false (PVal uint64_t)) ]
    [ ("processor_handle", In_); ("bdfid", InOut) ].

Definition amdsmi_get_gpu_topo_numa_affinity : proto :=
  Proto (TEnum (enum_values amdsmi_status_t))
    [ ("processor_handle", PVal amdsmi_processor_handle);
      ("numa_node", PTo false (PVal int32_t)) ]
    [ ("processor_handle", In_); ("numa_node", InOut) ].

Definition amdsmi_get_gpu_pci_throughput : proto :=
  Proto (TEnum (enum_values amdsmi_status_t))
    [ ("processor_handle", PVal amdsmi_processor_handle);
      ("sent", PTo false (PVal uint64_t));
      ("received", PTo false (PVal uint64_t));
      ("max_pkt_sz", PTo false (PVal uint64_t)) ]
    [ ("processor_handle", In_); ("sent", InOut); ("received", InOut); ("max_pkt_sz", InOut) ].

Definition amdsmi_get_gpu_pci_replay_counter : proto :=
  Proto (TEnum (enum_values amdsmi_status_t))
    [ ("processor_handle", PVal amdsmi_processor_handle);
      ("counter", PTo false (PVal uint64_t)) ]
    [ ("processor_handle", In_); ("counter", InOut) ].

Definition amdsmi_set_gpu_pci_bandwidth : proto :=
  Proto (TEnum (enum_values amdsmi_status_t))
    [ ("processor_handle", PVal amdsmi_processor_handle);
      ("bw_bitmask", PVal uint64_t) ]
    [ ("processor_handle", In_); ("bw_bitmask", In_) ].

Definition amdsmi_get_energy_count : proto :=
  Proto (TEnum (enum_values amdsmi_status_t))
    [ ("processor_handle", PVal amdsmi_processor_handle);
      ("energy_accumulator", PTo false (PVal uint64_t));
      ("counter_resolution", PTo false (PVal TFloat));
      ("timestamp", PTo false (PVal uint64_t)) ]
    [ ("processor_handle", In_);
      ("energy_accumulator", InOut);
      ("counter_resolution", InOut);
      ("timestamp", InOut) ].

Definition amdsmi_set_power_cap : proto :=
  Proto (TEnum (enum_values amdsmi_status_t))
    [ ("processor_handle", PVal amdsmi_processor_handle);
      ("sensor_ind", PVal uint32_t);
      ("cap", PVal uint64_t) ]
    [ ("processor_handle", In_); ("sensor_ind", In_); ("cap", In_) ].

Definition amdsmi_set_gpu_power_profile : proto :=
  Proto (TEnum (enum_values amdsmi_status_t))
    [ ("processor_handle", PVal amdsmi_processor_handle);
      ("reserved", PVal uint32_t);
      ("profile", PVal (TEnum (enum_values amdsmi_power_profile_preset_masks_t))) ]
    [ ("processor_handle", In_); ("reserved", In_); ("profile", In_) ].

Definition amdsmi_get_supported_power_cap : proto :=
  Proto (TEnum (enum_values amdsmi_status_t))
    [ ("processor_handle", PVal amdsmi_processor_handle);
      ("sensor_count", PTo false (PVal uint32_t));
      ("sensor_inds", PTo false (PVal uint32_t));
      ("sensor_types", PTo false (PVal (TEnum (enum_values amdsmi_power_cap_type_t)))) ]
    [ ("processor_handle", In_);
      ("sensor_count", Out_);
      ("sensor_inds", Out_);
      ("sensor_types", Out_) ].

Definition amdsmi_get_cpu_socket_power : proto :=
  Proto (TEnum (enum_values amdsmi_status_t))
    [ ("processor_handle", PVal amdsmi_processor_handle);
      ("ppower", PTo false (PVal uint32_t)) ]
    [ ("processor_handle", In_); ("ppower", Out_) ].

Definition amdsmi_get_cpu_socket_power_cap : proto :=
  Proto (TEnum (enum_values amdsmi_status_t))
    [ ("processor_handle", PVal amdsmi_processor_handle);
      ("pcap", PTo false (PVal uint32_t)) ]
    [ ("processor_handle", In_); ("pcap", Out_) ].

Definition amdsmi_get_cpu_socket_power_cap_max : proto :=
  Proto (TEnum (enum_values amdsmi_status_t))
    [ ("processor_handle", PVal amdsmi_processor_handle);
      ("pmax", PTo false (PVal uint32_t)) ]
    [ ("processor_handle", In_); ("pmax", Out_) ].

Definition amdsmi_get_cpu_pwr_svi_telemetry_all_rails : proto :=
  Proto (TEnum (enum_values amdsmi_status_t))
    [ ("processor_handle", PVal amdsmi_processor_handle);
      ("power", PTo false (PVal uint32_t)) ]
    [ ("processor_handle", In_); ("power", InOut) ].

Definition amdsmi_set_cpu_socket_power_cap : proto :=
  Proto (TEnum (enum_values amdsmi_status_t))
    [ ("processor_handle", PVal amdsmi_processor_handle);
      ("pcap", PVal uint32_t) ]
    [ ("processor_handle", In_); ("pcap", In_) ].

Definition amdsmi_set_cpu_pwr_efficiency_mode : proto :=
  Proto (TEnum (enum_values amdsmi_status_t))
    [ ("processor_handle", PVal amdsmi_processor_handle);
      ("power_efficiency_mode", PVal uint8_t);
      ("utilization", PTo false (PVal uint32_t));
      ("ppt_limit", PTo false (PVal uint32_t)) ]
    [ ("processor_handle", In_);
      ("power_efficiency_mode", In_);
      ("utilization", InOut);
      ("ppt_limit", InOut) ].

Definition amdsmi_get_cpu_pwr_efficiency_mode : proto :=
  Proto (TEnum (enum_values amdsmi_status_t))
    [ ("processor_handle", PVal amdsmi_processor_handle);
      ("power_efficiency_mode", PTo false (PVal uint32_t));
      ("utilization", PTo false (PVal uint32_t));
      ("ppt_limit", PTo false (PVal uint32_t)) ]
    [ ("processor_handle", In_);
      ("power_efficiency_mode", Out_);
      ("utilization", Out_);
      ("ppt_limit", Out_) ].

Definition amdsmi_get_cpu_core_ccd_power : proto :=
  Proto (TEnum (enum_values amdsmi_status_t))
    [ ("processor_handle", PVal amdsmi_processor_handle);
      ("power", PTo false (PVal uint32_t)) ]
    [ ("processor_handle", In_); ("power", Out_) ].

Definition amdsmi_get_gpu_memory_total : proto :=
  Proto (TEnum (enum_values amdsmi_status_t))
    [ ("processor_handle", PVal amdsmi_processor_handle);
      ("mem_type", PVal (TEnum (enum_values amdsmi_memory_type_t)));
      ("total", PTo false (PVal uint64_t)) ]
    [ ("processor_handle", In_); ("mem_type", In_); ("total", InOut) ].

Definition amdsmi_get_gpu_memory_usage : proto :=
  Proto (TEnum (enum_values amdsmi_status_t))
    [ ("processor_handle", PVal amdsmi_processor_handle);
      ("mem_type", PVal (TEnum (enum_values amdsmi_memory_type_t)));
      ("used", PTo false (PVal uint64_t)) ]
    [ ("processor_handle", In_); ("mem_type", In_); ("used", InOut) ].

Definition amdsmi_get_gpu_bad_page_info : proto :=
  Proto (TEnum (enum_values amdsmi_status_t))
    [ ("processor_handle", PVal amdsmi_processor_handle);
      ("num_pages", PTo false (PVal uint32_t));
      ("info", PTo false (PVal amdsmi_retired_page_record_t)) ]
    [ ("processor_handle", In_); ("num_pages", Out_); ("info", Out_) ].

Definition amdsmi_get_gpu_bad_page_threshold : proto :=
  Proto (TEnum (enum_values amdsmi_status_t))
    [ ("processor_handle", PVal amdsmi_processor_handle);
      ("threshold", PTo false (PVal uint32_t)) ]
    [ ("processor_handle", In_); ("threshold", Out_) ].

Definition amdsmi_gpu_validate_ras_eeprom : proto :=
  Proto (TEnum (enum_values amdsmi_status_t))
    [ ("processor_handle", PVal amdsmi_processor_handle) ]
    [ ("processor_handle", In_) ].

Definition amdsmi_get_gpu_ras_block_features_enabled : proto :=
  Proto (TEnum (enum_values amdsmi_status_t))
    [ ("processor_handle", PVal amdsmi_processor_handle);
      ("block", PVal (TEnum (enum_values amdsmi_gpu_block_t)));
      ("state", PTo false (PVal (TEnum (enum_values amdsmi_ras_err_state_t)))) ]
    [ ("processor_handle", In_); ("block", In_); ("state", InOut) ].

Definition amdsmi_get_gpu_memory_reserved_pages : proto :=
  Proto (TEnum (enum_values amdsmi_status_t))
    [ ("processor_handle", PVal amdsmi_processor_handle);
      ("num_pages", PTo false (PVal uint32_t));
      ("records", PTo false (PVal amdsmi_retired_page_record_t)) ]
    [ ("processor_handle", In_); ("num_pages", InOut); ("records", InOut) ].

Definition amdsmi_get_gpu_fan_rpms : proto :=
  Proto (TEnum (enum_values amdsmi_status_t))
    [ ("processor_handle", PVal amdsmi_processor_handle);
      ("sensor_ind", PVal uint32_t);
      ("speed", PTo false (PVal int64_t)) ]
    [ ("processor_handle", In_); ("sensor_ind", In_); ("speed", InOut) ].

Definition amdsmi_get_gpu_fan_speed : proto :=
  Proto (TEnum (enum_values amdsmi_status_t))
    [ ("processor_handle", PVal amdsmi_processor_handle);
      ("sensor_ind", PVal uint32_t);
      ("speed", PTo false (PVal int64_t)) ]
    [ ("processor_handle", In_); ("sensor_ind", In_); ("speed", InOut) ].

Definition amdsmi_get_gpu_fan_speed_max : proto :=
  Proto (TEnum (enum_values amdsmi_status_t))
    [ ("processor_handle", PVal amdsmi_processor_handle);
      ("sensor_ind", PVal uint32_t);
      ("max_speed", PTo false (PVal uint64_t)) ]
    [ ("processor_handle", In_); ("sensor_ind", In_); ("max_speed", InOut) ].

Definition amdsmi_get_gpu_cache_info : proto :=
  Proto (TEnum (enum_values amdsmi_status_t))
    [ ("processor_handle", PVal amdsmi_processor_handle);
      ("info", PTo false (PVal amdsmi_gpu_cache_info_t)) ]
    [ ("processor_handle", In_); ("info", Out_) ].

Definition amdsmi_get_gpu_volt_metric : proto :=
  Proto (TEnum (enum_values amdsmi_status_t))
    [ ("processor_handle", PVal amdsmi_processor_handle);
      ("sensor_type", PVal (TEnum (enum_values amdsmi_voltage_type_t)));
      ("metric", PVal (TEnum (enum_values amdsmi_voltage_metric_t)));
      ("voltage", PTo false (PVal int64_t)) ]
    [ ("processor_handle", In_); ("sensor_type", In_); ("metric", In_); ("voltage", InOut) ].

Definition amdsmi_reset_gpu_fan : proto :=
  Proto (TEnum (enum_values amdsmi_status_t))
    [ ("processor_handle", PVal amdsmi_processor_handle);
      ("sensor_ind", PVal uint32_t) ]
    [ ("processor_handle", In_); ("sensor_ind", In_) ].

Definition amdsmi_set_gpu_fan_speed : proto :=
  Proto (TEnum (enum_values amdsmi_status_t))
    [ ("processor_handle", PVal amdsmi_processor_handle);
      ("sensor_ind", PVal uint32_t);
      ("speed", PVal uint64_t) ]
    [ ("processor_handle", In_); ("sensor_ind", In_); ("speed", In_) ].

Definition amdsmi_get_gpu_busy_percent : proto :=
  Proto (TEnum (enum_values amdsmi_status_t))
    [ ("processor_handle", PVal amdsmi_processor_handle);
      ("gpu_busy_percent", PTo false (PVal uint32_t)) ]
    [ ("processor_handle", In_); ("gpu_busy_percent", InOut) ].

Definition amdsmi_get_utilization_count : proto :=
  Proto (TEnum (enum_values amdsmi_status_t))
    [ ("processor_handle", PVal amdsmi_processor_handle);
      ("utilization_counters", PTo false (PVal amdsmi_utilization_counter_t));
      ("count", PVal uint32_t);
      ("timestamp", PTo false (PVal uint64_t)) ]
    [ ("processor_handle", In_);
      ("utilization_counters", InOut);
      ("count", In_);
      ("timestamp", InOut) ].

Definition amdsmi_get_gpu_perf_level : proto :=
  Proto (TEnum (enum_values amdsmi_status_t))
    [ ("processor_handle", PVal amdsmi_processor_handle);
      ("perf", PTo false (PVal (TEnum (enum_values amdsmi_dev_perf_level_t)))) ]
    [ ("processor_handle", In_); ("perf", InOut) ].

Definition amdsmi_set_gpu_perf_determinism_mode : proto :=
  Proto (TEnum (enum_values amdsmi_status_t))
    [ ("processor_handle", PVal amdsmi_processor_handle);
      ("clkvalue", PVal uint64_t) ]
    [ ("processor_handle", In_); ("clkvalue", In_) ].

Definition amdsmi_get_gpu_overdrive_level : proto :=
  Proto (TEnum (enum_values amdsmi_status_t))
    [ ("processor_handle", PVal amdsmi_processor_handle);
      ("od", PTo false (PVal uint32_t)) ]
    [ ("processor_handle", In_); ("od", InOut) ].

Definition amdsmi_get_gpu_mem_overdrive_level : proto :=
  Proto (TEnum (enum_values amdsmi_status_t))
    [ ("processor_handle", PVal amdsmi_processor_handle);
      ("od", PTo false (PVal uint32_t)) ]
    [ ("processor_handle", In_); ("od", InOut) ].

Definition amdsmi_get_clk_freq : proto :=
  Proto (TEnum (enum_values amdsmi_status_t))
    [ ("processor_handle", PVal amdsmi_processor_handle);
      ("clk_type", PVal (TEnum (enum_values amdsmi_clk_type_t)));
      ("f", PTo false (PVal amdsmi_frequencies_t)) ]
    [ ("processor_handle", In_); ("clk_type", In_); ("f", InOut) ].

Definition amdsmi_reset_gpu : proto :=
  Proto (TEnum (enum_values amdsmi_status_t))
    [ ("processor_handle", PVal amdsmi_processor_handle) ]
    [ ("processor_handle", In_) ].

Definition amdsmi_get_gpu_od_volt_info : proto :=
  Proto (TEnum (enum_values amdsmi_status_t))
    [ ("processor_handle", PVal amdsmi_processor_handle);
      ("odv", PTo false (PVal amdsmi_od_volt_freq_data_t)) ]
    [ ("processor_handle", In_); ("odv", InOut) ].

Definition amdsmi_get_gpu_metrics_header_info : proto :=
  Proto (TEnum (enum_values amdsmi_status_t))
    [ ("processor_handle", PVal amdsmi_processor_handle);
      ("header_value", PTo false (PVal amd_metrics_table_header_t)) ]
    [ ("processor_handle", In_); ("header_value", InOut) ].

Definition amdsmi_get_gpu_metrics_info : proto :=
  Proto (TEnum (enum_values amdsmi_status_t))
    [ ("processor_handle", PVal amdsmi_processor_handle);
      ("pgpu_metrics", PTo false (PVal amdsmi_gpu_metrics_t)) ]
    [ ("processor_handle", In_); ("pgpu_metrics", InOut) ].

Definition amdsmi_get_gpu_partition_metrics_info : proto :=
  Proto (TEnum (enum_values amdsmi_status_t))
    [ ("processor_handle", PVal amdsmi_processor_handle);
      ("pgpu_metrics", PTo false (PVal amdsmi_gpu_metrics_t)) ]
    [ ("processor_handle", In_); ("pgpu_metrics", InOut) ].

Definition amdsmi_get_gpu_pm_metrics_info : proto :=
  Proto (TEnum (enum_values amdsmi_status_t))
    [ ("processor_handle", PVal amdsmi_processor_handle);
      ("pm_metrics", PTo false (PTo false (PVal amdsmi_name_value_t)));
      ("num_of_metrics", PTo false (PVal uint32_t)) ]
    [ ("processor_handle", In_); ("pm_metrics", InOut); ("num_of_metrics", InOut) ].

Definition amdsmi_get_gpu_reg_table_info : proto :=
  Proto (TEnum (enum_values amdsmi_status_t))
    [ ("processor_handle", PVal amdsmi_processor_handle);
      ("reg_type", PVal (TEnum (enum_values amdsmi_reg_type_t)));
      ("reg_metrics", PTo false (PTo false (PVal amdsmi_name_value_t)));
      ("num_of_metrics", PTo false (PVal uint32_t)) ]
    [ ("processor_handle", In_);
      ("reg_type", In_);
      ("reg_metrics", InOut);
      ("num_of_metrics", InOut) ].

Definition amdsmi_set_gpu_clk_range : proto :=
  Proto (TEnum (enum_values amdsmi_status_t))
    [ ("processor_handle", PVal amdsmi_processor_handle);
      ("minclkvalue", PVal uint64_t);
      ("maxclkvalue", PVal uint64_t);
      ("clkType", PVal (TEnum (enum_values amdsmi_clk_type_t))) ]
    [ ("processor_handle", In_); ("minclkvalue", In_); ("maxclkvalue", In_); ("clkType", In_) ].

Definition amdsmi_set_gpu_clk_limit : proto :=
  Proto (TEnum (enum_values amdsmi_status_t))
    [ ("processor_handle", PVal amdsmi_processor_handle);
      ("clk_type", PVal (TEnum (enum_values amdsmi_clk_type_t)));
      ("limit_type", PVal (TEnum (enum_values amdsmi_clk_limit_type_t)));
      ("clk_value", PVal uint64_t) ]
    [ ("processor_handle", In_); ("clk_type", In_); ("limit_type", In_); ("clk_value", In_) ].

Definition amdsmi_set_gpu_od_clk_info : proto :=
  Proto (TEnum (enum_values amdsmi_status_t))
    [ ("processor_handle", PVal amdsmi_processor_handle);
      ("level", PVal (TEnum (enum_values amdsmi_freq_ind_t)));
      ("clkvalue", PVal uint64_t);
      ("clkType", PVal (TEnum (enum_values amdsmi_clk_type_t))) ]
    [ ("processor_handle", In_); ("level", In_); ("clkvalue", In_); ("clkType", In_) ].

Definition amdsmi_set_gpu_od_volt_info : proto :=
  Proto (TEnum (enum_values amdsmi_status_t))
    [ ("processor_handle", PVal amdsmi_processor_handle);
      ("vpoint", PVal uint32_t);
      ("clkvalue", PVal uint64_t);
      ("voltvalue", PVal uint64_t) ]
    [ ("processor_handle", In_); ("vpoint", In_); ("clkvalue", In_); ("voltvalue", In_) ].

Definition amdsmi_get_gpu_od_volt_curve_regions : proto :=
  Proto (TEnum (enum_values amdsmi_status_t))
    [ ("processor_handle", PVal amdsmi_processor_handle);
      ("num_regions", PTo false (PVal uint32_t));
      ("buffer", PTo false (PVal amdsmi_freq_volt_region_t)) ]
    [ ("processor_handle", In_); ("num_regions", InOut); ("buffer", InOut) ].

Definition amdsmi_get_gpu_power_profile_presets : proto :=
  Proto (TEnum (enum_values amdsmi_status_t))
    [ ("processor_handle", PVal amdsmi_processor_handle);
      ("sensor_ind", PVal uint32_t);
      ("status", PTo false (PVal amdsmi_power_profile_status_t)) ]
    [ ("processor_handle", In_); ("sensor_ind", In_); ("status", InOut) ].

Definition amdsmi_set_gpu_perf_level : proto :=
  Proto (TEnum (enum_values amdsmi_status_t))
    [ ("processor_handle", PVal amdsmi_processor_handle);
      ("perf_lvl", PVal (TEnum (enum_values amdsmi_dev_perf_level_t))) ]
    [ ("processor_handle", In_); ("perf_lvl", In_) ].

Definition amdsmi_set_gpu_overdrive_level : proto :=
  Proto (TEnum (enum_values amdsmi_status_t))
    [ ("processor_handle", PVal amdsmi_processor_handle);
      ("od", PVal uint32_t) ]
    [ ("processor_handle", In_); ("od", In_) ].

Definition amdsmi_set_clk_freq : proto :=
  Proto (TEnum (enum_values amdsmi_status_t))
    [ ("processor_handle", PVal amdsmi_processor_handle);
      ("clk_type", PVal (TEnum (enum_values amdsmi_clk_type_t)));
      ("freq_bitmask", PVal uint64_t) ]
    [ ("processor_handle", In_); ("clk_type", In_); ("freq_bitmask", In_) ].

Definition amdsmi_get_soc_pstate : proto :=
  Proto (TEnum (enum_values amdsmi_status_t))
    [ ("processor_handle", PVal amdsmi_processor_handle);
      ("policy", PTo false (PVal amdsmi_dpm_policy_t)) ]
    [ ("processor_handle", In_); ("policy", InOut) ].

Definition amdsmi_set_soc_pstate : proto :=
  Proto (TEnum (enum_values amdsmi_status_t))
    [ ("processor_handle", PVal amdsmi_processor_handle);
      ("policy_id", PVal uint32_t) ]
    [ ("processor_handle", In_); ("policy_id", In_) ].

Definition amdsmi_get_xgmi_plpd : proto :=
  Proto (TEnum (enum_values amdsmi_status_t))
    [ ("processor_handle", PVal amdsmi_processor_handle);
      ("xgmi_plpd", PTo false (PVal amdsmi_dpm_policy_t)) ]
    [ ("processor_handle", In_); ("xgmi_plpd", InOut) ].

Definition amdsmi_set_xgmi_plpd : proto :=
  Proto (TEnum (enum_values amdsmi_status_t))
    [ ("processor_handle", PVal amdsmi_processor_handle);
      ("policy_id", PVal uint32_t) ]
    [ ("processor_handle", In_); ("policy_id", In_) ].

Definition amdsmi_get_gpu_process_isolation : proto :=
  Proto (TEnum (enum_values amdsmi_status_t))
    [ ("processor_handle", PVal amdsmi_processor_handle);
      ("pisolate", PTo false (PVal uint32_t)) ]
    [ ("processor_handle", In_); ("pisolate", InOut) ].

Definition amdsmi_set_gpu_process_isolation : proto :=
  Proto (TEnum (enum_values amdsmi_status_t))
    [ ("processor_handle", PVal amdsmi_processor_handle);
      ("pisolate", PVal uint32_t) ]
    [ ("processor_handle", In_); ("pisolate", In_) ].

Definition amdsmi_clean_gpu_local_data : proto :=
  Proto (TEnum (enum_values amdsmi_status_t))
    [ ("processor_handle", PVal amdsmi_processor_handle) ]
    [ ("processor_handle", In_) ].

Definition amdsmi_get_lib_version : proto :=
  Proto (TEnum (enum_values amdsmi_status_t))
    [ ("version", PTo false (PVal amdsmi_version_t)) ]
    [ ("version", InOut) ].

Definition amdsmi_get_gpu_ecc_count : proto :=
  Proto (TEnum (enum_values amdsmi_status_t))
    [ ("processor_handle", PVal amdsmi_processor_handle);
      ("block", PVal (TEnum (enum_values amdsmi_gpu_block_t)));
      ("ec", PTo false (PVal amdsmi_error_count_t)) ]
    [ ("processor_handle", In_); ("block", In_); ("ec", InOut) ].

Definition amdsmi_get_gpu_ecc_enabled : proto :=
  Proto (TEnum (enum_values amdsmi_status_t))
    [ ("processor_handle", PVal amdsmi_processor_handle);
      ("enabled_blocks", PTo false (PVal uint64_t)) ]
    [ ("processor_handle", In_); ("enabled_blocks", InOut) ].

Definition amdsmi_get_gpu_total_ecc_count : proto :=
  Proto (TEnum (enum_values amdsmi_status_t))
    [ ("processor_handle", PVal amdsmi_processor_handle);
      ("ec", PTo false (PVal amdsmi_error_count_t)) ]
    [ ("processor_handle", In_); ("ec", Out_) ].

Definition amdsmi_get_afids_from_cper : proto :=
  Proto (TEnum (enum_values amdsmi_status_t))
    [ ("cper_buffer", PTo false (PVal char_t));
      ("buf_size", PVal uint32_t);
      ("afids", PTo false (PVal uint64_t));
      ("num_afids", PTo false (PVal uint32_t)) ]
    [ ("cper_buffer", In_); ("buf_size", In_); ("afids", Out_); ("num_afids", InOut) ].

Definition amdsmi_get_gpu_ras_feature_info : proto :=
  Proto (TEnum (enum_values amdsmi_status_t))
    [ ("processor_handle", PVal amdsmi_processor_handle);
      ("ras_feature", PTo false (PVal amdsmi_ras_feature_t)) ]
    [ ("processor_handle", In_); ("ras_feature", Out_) ].

Definition amdsmi_get_gpu_cper_entries : proto :=
  Proto (TEnum (enum_values amdsmi_status_t))
    [ ("processor_handle", PVal amdsmi_processor_handle);
      ("severity_mask", PVal uint32_t);
      ("cper_data", PTo false (PVal char_t));
      ("buf_size", PTo false (PVal uint64_t));
      ("cper_hdrs", PTo false (PTo false (PVal amdsmi_cper_hdr_t)));
      ("entry_count", PTo false (PVal uint64_t));
      ("cursor", PTo false (PVal uint64_t)) ]
    [ ("processor_handle", In_);
      ("severity_mask", In_);
      ("cper_data", InOut);
      ("buf_size", InOut);
      ("cper_hdrs", InOut);
      ("entry_count", InOut);
      ("cursor", InOut) ].

Definition amdsmi_get_gpu_ecc_status : proto :=
  Proto (TEnum (enum_values amdsmi_status_t))
    [ ("processor_handle", PVal amdsmi_processor_handle);
      ("block", PVal (TEnum (enum_values amdsmi_gpu_block_t)));
      ("state", PTo false (PVal (TEnum (enum_values amdsmi_ras_err_state_t)))) ]
    [ ("processor_handle", In_); ("block", In_); ("state", InOut) ].

Definition amdsmi_status_code_to_string : proto :=
  Proto (TEnum (enum_values amdsmi_status_t))
    [ ("status", PVal (TEnum (enum_values amdsmi_status_t)));
      ("status_string", PTo false (PTo true (PVal char_t))) ]
    [ ("status", In_); ("status_string", InOut) ].

Definition amdsmi_gpu_counter_group_supported : proto :=
  Proto (TEnum (enum_values amdsmi_status_t))
    [ ("processor_handle", PVal amdsmi_processor_handle);
      ("group", PVal (TEnum (enum_values amdsmi_event_group_t))) ]
    [ ("processor_handle", In_); ("group", In_) ].

Definition amdsmi_gpu_create_counter : proto :=
  Proto (TEnum (enum_values amdsmi_status_t))
    [ ("processor_handle", PVal amdsmi_processor_handle);
      ("type", PVal (TEnum (enum_values amdsmi_event_type_t)));
      ("evnt_handle", PTo false (PVal amdsmi_event_handle_t)) ]
    [ ("processor_handle", In_); ("type", In_); ("evnt_handle", InOut) ].

Definition amdsmi_gpu_destroy_counter : proto :=
  Proto (TEnum (enum_values amdsmi_status_t))
    [ ("evnt_handle", PVal amdsmi_event_handle_t) ]
    [ ("evnt_handle", In_) ].

Definition amdsmi_gpu_control_counter : proto :=
  Proto (TEnum (enum_values amdsmi_status_t))
    [ ("evt_handle", PVal amdsmi_event_handle_t);
      ("cmd", PVal (TEnum (enum_values amdsmi_counter_command_t)));
      ("cmd_args", PTo false PVoid) ]
    [ ("evt_handle", In_); ("cmd", In_); ("cmd_args", InOut) ].

Definition amdsmi_gpu_read_counter : proto :=
  Proto (TEnum (enum_values amdsmi_status_t))
    [ ("evt_handle", PVal amdsmi_event_handle_t);
      ("value", PTo false (PVal amdsmi_counter_value_t)) ]
    [ ("evt_handle", In_); ("value", InOut) ].

Definition amdsmi_get_gpu_available_counters : proto :=
  Proto (TEnum (enum_values amdsmi_status_t))
    [ ("processor_handle", PVal amdsmi_processor_handle);
      ("grp", PVal (TEnum (enum_values amdsmi_event_group_t)));
      ("available", PTo false (PVal uint32_t)) ]
    [ ("processor_handle", In_); ("grp", In_); ("available", InOut) ].

Definition amdsmi_get_gpu_compute_process_info : proto :=
  Proto (TEnum (enum_values amdsmi_status_t))
    [ ("procs", PTo false (PVal amdsmi_process_info_t));
      ("num_items", PTo false (PVal uint32_t)) ]
    [ ("procs", InOut); ("num_items", InOut) ].

Definition amdsmi_get_gpu_compute_process_info_by_pid : proto :=
  Proto (TEnum (enum_values amdsmi_status_t))
    [ ("pid", PVal uint32_t);
      ("proc", PTo false (PVal amdsmi_process_info_t)) ]
    [ ("pid", In_); ("proc", InOut) ].

Definition amdsmi_get_gpu_compute_process_gpus : proto :=
  Proto (TEnum (enum_values amdsmi_status_t))
    [ ("pid", PVal uint32_t);
      ("dv_indices", PTo false (PVal uint32_t));
      ("num_devices", PTo false (PVal uint32_t)) ]
    [ ("pid", In_); ("dv_indices", InOut); ("num_devices", InOut) ].

Definition amdsmi_gpu_xgmi_error_status : proto :=
  Proto (TEnum (enum_values amdsmi_status_t))
    [ ("processor_handle", PVal amdsmi_processor_handle);
      ("status", PTo false (PVal (TEnum (enum_values amdsmi_xgmi_status_t)))) ]
    [ ("processor_handle", In_); ("status", InOut) ].

Definition amdsmi_reset_gpu_xgmi_error : proto :=
  Proto (TEnum (enum_values amdsmi_status_t))
    [ ("processor_handle", PVal amdsmi_processor_handle) ]
    [ ("processor_handle", In_) ].

Definition amdsmi_get_xgmi_info : proto :=
  Proto (TEnum (enum_values amdsmi_status_t))
    [ ("processor_handle", PVal amdsmi_processor_handle);
      ("info", PTo false (PVal amdsmi_xgmi_info_t)) ]
    [ ("processor_handle", In_); ("info", Out_) ].

Definition amdsmi_get_gpu_xgmi_link_status : proto :=
  Proto (TEnum (enum_values amdsmi_status_t))
    [ ("processor_handle", PVal amdsmi_processor_handle);
      ("link_status", PTo false (PVal amdsmi_xgmi_link_status_t)) ]
    [ ("processor_handle", In_); ("link_status", Out_) ].

Definition amdsmi_get_link_metrics : proto :=
  Proto (TEnum (enum_values amdsmi_status_t))
    [ ("processor_handle", PVal amdsmi_processor_handle);
      ("link_metrics", PTo false (PVal amdsmi_link_metrics_t)) ]
    [ ("processor_handle", In_); ("link_metrics", Out_) ].

Definition amdsmi_topo_get_numa_node_number : proto :=
  Proto (TEnum (enum_values amdsmi_status_t))
    [ ("processor_handle", PVal amdsmi_processor_handle);
      ("numa_node", PTo false (PVal uint32_t)) ]
    [ ("processor_handle", In_); ("numa_node", InOut) ].

Definition amdsmi_topo_get_link_weight : proto :=
  Proto (TEnum (enum_values amdsmi_status_t))
    [ ("processor_handle_src", PVal amdsmi_processor_handle);
      ("processor_handle_dst", PVal amdsmi_processor_handle);
      ("weight", PTo false (PVal uint64_t)) ]
    [ ("processor_handle_src", In_); ("processor_handle_dst", In_); ("weight", InOut) ].

Definition amdsmi_get_minmax_bandwidth_between_processors : proto :=
  Proto (TEnum (enum_values amdsmi_status_t))
    [ ("processor_handle_src", PVal amdsmi_processor_handle);
      ("processor_handle_dst", PVal amdsmi_processor_handle);
      ("min_bandwidth", PTo false (PVal uint64_t));
      ("max_bandwidth", PTo false (PVal uint64_t)) ]
    [ ("processor_handle_src", In_);
      ("processor_handle_dst", In_);
      ("min_bandwidth", InOut);
      ("max_bandwidth", InOut) ].

Definition amdsmi_topo_get_link_type : proto :=
  Proto (TEnum (enum_values amdsmi_status_t))
    [ ("processor_handle_src", PVal amdsmi_processor_handle);
      ("processor_handle_dst", PVal amdsmi_processor_handle);
      ("hops", PTo false (PVal uint64_t));
      ("type", PTo false (PVal (TEnum (enum_values amdsmi_link_type_t)))) ]
    [ ("processor_handle_src", In_);
      ("processor_handle_dst", In_);
      ("hops", InOut);
      ("type", InOut) ].

Definition amdsmi_get_link_topology_nearest : proto :=
  Proto (TEnum (enum_values amdsmi_status_t))
    [ ("processor_handle", PVal amdsmi_processor_handle);
      ("link_type", PVal (TEnum (enum_values amdsmi_link_type_t)));
      ("topology_nearest_info", PTo false (PVal amdsmi_topology_nearest_t)) ]
    [ ("processor_handle", In_); ("link_type", In_); ("topology_nearest_info", InOut) ].

Definition amdsmi_is_P2P_accessible : proto :=
  Proto (TEnum (enum_values amdsmi_status_t))
    [ ("processor_handle_src", PVal amdsmi_processor_handle);
      ("processor_handle_dst", PVal amdsmi_processor_handle);
      ("accessible", PTo false (PVal TBool)) ]
    [ ("processor_handle_src", In_); ("processor_handle_dst", In_); ("accessible", InOut) ].

Definition amdsmi_topo_get_p2p_status : proto :=
  Proto (TEnum (enum_values amdsmi_status_t))
    [ ("processor_handle_src", PVal amdsmi_processor_handle);
      ("processor_handle_dst", PVal amdsmi_processor_handle);
      ("type", PTo false (PVal (TEnum (enum_values amdsmi_link_type_t))));
      ("cap", PTo false (PVal amdsmi_p2p_capability_t)) ]
    [ ("processor_handle_src", In_);
      ("processor_handle_dst", In_);
      ("type", InOut);
      ("cap", InOut) ].

Definition amdsmi_get_gpu_compute_partition : proto :=
  Proto (TEnum (enum_values amdsmi_status_t))
    [ ("processor_handle", PVal amdsmi_processor_handle);
      ("compute_partition", PTo false (PVal char_t));
      ("len", PVal uint32_t) ]
    [ ("processor_handle", In_); ("compute_partition", InOut); ("len", In_) ].

Definition amdsmi_set_gpu_compute_partition : proto :=
  Proto (TEnum (enum_values amdsmi_status_t))
    [ ("processor_handle", PVal amdsmi_processor_handle);
      ("compute_partition", PVal (TEnum (enum_values amdsmi_compute_partition_type_t))) ]
    [ ("processor_handle", In_); ("compute_partition", In_) ].

Definition amdsmi_get_gpu_memory_partition : proto :=
  Proto (TEnum (enum_values amdsmi_status_t))
    [ ("processor_handle", PVal amdsmi_processor_handle);
      ("memory_partition", PTo false (PVal char_t));
      ("len", PVal uint32_t) ]
    [ ("processor_handle", In_); ("memory_partition", InOut); ("len", In_) ].

Definition amdsmi_set_gpu_memory_partition : proto :=
  Proto (TEnum (enum_values amdsmi_status_t))
    [ ("processor_handle", PVal amdsmi_processor_handle);
      ("memory_partition", PVal (TEnum (enum_values amdsmi_memory_partition_type_t))) ]
    [ ("processor_handle", In_); ("memory_partition", In_) ].

Definition amdsmi_get_gpu_memory_partition_config : proto :=
  Proto (TEnum (enum_values amdsmi_status_t))
    [ ("processor_handle", PVal amdsmi_processor_handle);
      ("config", PTo false (PVal amdsmi_memory_partition_config_t)) ]
    [ ("processor_handle", In_); ("config", Out_) ].

Definition amdsmi_set_gpu_memory_partition_mode : proto :=
  Proto (TEnum (enum_values amdsmi_status_t))
    [ ("processor_handle", PVal amdsmi_processor_handle);
      ("mode", PVal (TEnum (enum_values amdsmi_memory_partition_type_t))) ]
    [ ("processor_handle", In_); ("mode", In_) ].

Definition amdsmi_get_gpu_accelerator_partition_profile_config : proto :=
  Proto (TEnum (enum_values amdsmi_status_t))
    [ ("processor_handle", PVal amdsmi_processor_handle);
      ("profile_config", PTo false (PVal amdsmi_accelerator_partition_profile_config_t)) ]
    [ ("processor_handle", In_); ("profile_config", Out_) ].

Definition amdsmi_get_gpu_accelerator_partition_profile : proto :=
  Proto (TEnum (enum_values amdsmi_status_t))
    [ ("processor_handle", PVal amdsmi_processor_handle);
      ("profile", PTo false (PVal amdsmi_accelerator_partition_profile_t));
      ("partition_id", PTo false (PVal uint32_t)) ]
    [ ("processor_handle", In_); ("profile", Out_); ("partition_id", InOut) ].

Definition amdsmi_set_gpu_accelerator_partition_profile : proto :=
  Proto (TEnum (enum_values amdsmi_status_t))
    [ ("processor_handle", PVal amdsmi_processor_handle);
      ("profile_index", PVal uint32_t) ]
    [ ("processor_handle", In_); ("profile_index", In_) ].

Definition amdsmi_init_gpu_event_notification : proto :=
  Proto (TEnum (enum_values amdsmi_status_t))
    [ ("processor_handle", PVal amdsmi_processor_handle) ]
    [ ("processor_handle", In_) ].

Definition amdsmi_set_gpu_event_notification_mask : proto :=
  Proto (TEnum (enum_values amdsmi_status_t))
    [ ("processor_handle", PVal amdsmi_processor_handle);
      ("mask", PVal uint64_t) ]
    [ ("processor_handle", In_); ("mask", In_) ].

Definition amdsmi_get_gpu_event_notification : proto :=
  Proto (TEnum (enum_values amdsmi_status_t))
    [ ("timeout_ms", PVal int_t);
      ("num_elem", PTo false (PVal uint32_t));
      ("data", PTo false (PVal amdsmi_evt_notification_data_t)) ]
    [ ("timeout_ms", In_); ("num_elem", InOut); ("data", Out_) ].

Definition amdsmi_stop_gpu_event_notification : proto :=
  Proto (TEnum (enum_values amdsmi_status_t))
    [ ("processor_handle", PVal amdsmi_processor_handle) ]
    [ ("processor_handle", In_) ].

Definition amdsmi_get_gpu_driver_info : proto :=
  Proto (TEnum (enum_values amdsmi_status_t))
    [ ("processor_handle", PVal amdsmi_processor_handle);
      ("info", PTo false (PVal amdsmi_driver_info_t)) ]
    [ ("processor_handle", In_); ("info", Out_) ].

Definition amdsmi_get_gpu_asic_info : proto :=
  Proto (TEnum (enum_values amdsmi_status_t))
    [ ("processor_handle", PVal amdsmi_processor_handle);
      ("info", PTo false (PVal amdsmi_asic_info_t)) ]
    [ ("processor_handle", In_); ("info", Out_) ].

Definition amdsmi_get_gpu_kfd_info : proto :=
  Proto (TEnum (enum_values amdsmi_status_t))
    [ ("processor_handle", PVal amdsmi_processor_handle);
      ("info", PTo false (PVal amdsmi_kfd_info_t)) ]
    [ ("processor_handle", In_); ("info", Out_) ].

Definition amdsmi_get_gpu_vram_info : proto :=
  Proto (TEnum (enum_values amdsmi_status_t))
    [ ("processor_handle", PVal amdsmi_processor_handle);
      ("info", PTo false (PVal amdsmi_vram_info_t)) ]
    [ ("processor_handle", In_); ("info", Out_) ].

Definition amdsmi_get_gpu_board_info : proto :=
  Proto (TEnum (enum_values amdsmi_status_t))
    [ ("processor_handle", PVal amdsmi_processor_handle);
      ("info", PTo false (PVal amdsmi_board_info_t)) ]
    [ ("processor_handle", In_); ("info", Out_) ].

Definition amdsmi_get_power_cap_info : proto :=
  Proto (TEnum (enum_values amdsmi_status_t))
    [ ("processor_handle", PVal amdsmi_processor_handle);
      ("sensor_ind", PVal uint32_t);
      ("info", PTo false (PVal amdsmi_power_cap_info_t)) ]
    [ ("processor_handle", In_); ("sensor_ind", In_); ("info", Out_) ].

Definition amdsmi_get_pcie_info : proto :=
  Proto (TEnum (enum_values amdsmi_status_t))
    [ ("processor_handle", PVal amdsmi_processor_handle);
      ("info", PTo false (PVal amdsmi_pcie_info_t)) ]
    [ ("processor_handle", In_); ("info", Out_) ].

Definition amdsmi_get_gpu_xcd_counter : proto :=
  Proto (TEnum (enum_values amdsmi_status_t))
    [ ("processor_handle", PVal amdsmi_processor_handle);
      ("xcd_count", PTo false (PVal uint16_t)) ]
    [ ("processor_handle", In_); ("xcd_count", InOut) ].

Definition amdsmi_get_npm_info : proto :=
  Proto (TEnum (enum_values amdsmi_status_t))
    [ ("node_handle", PVal amdsmi_node_handle);
      ("info", PTo false (PVal amdsmi_npm_info_t)) ]
    [ ("node_handle", In_); ("info", Out_) ].

Definition amdsmi_get_fw_info : proto :=
  Proto (TEnum (enum_values amdsmi_status_t))
    [ ("processor_handle", PVal amdsmi_processor_handle);
      ("info", PTo false (PVal amdsmi_fw_info_t)) ]
    [ ("processor_handle", In_); ("info", Out_) ].

Definition amdsmi_get_gpu_vbios_info : proto :=
  Proto (TEnum (enum_values amdsmi_status_t))
    [ ("processor_handle", PVal amdsmi_processor_handle);
      ("info", PTo false (PVal amdsmi_vbios_info_t)) ]
    [ ("processor_handle", In_); ("info", Out_) ].

Definition amdsmi_get_temp_metric : proto :=
  Proto (TEnum (enum_values amdsmi_status_t))
    [ ("processor_handle", PVal amdsmi_processor_handle);
      ("sensor_type", PVal (TEnum (enum_values amdsmi_temperature_type_t)));
      ("metric", PVal (TEnum (enum_values amdsmi_temperature_metric_t)));
      ("temperature", PTo false (PVal int64_t)) ]
    [ ("processor_handle", In_); ("sensor_type", In_); ("metric", In_); ("temperature", InOut) ].

Definition amdsmi_get_gpu_activity : proto :=
  Proto (TEnum (enum_values amdsmi_status_t))
    [ ("processor_handle", PVal amdsmi_processor_handle);
      ("info", PTo false (PVal amdsmi_engine_usage_t)) ]
    [ ("processor_handle", In_); ("info", Out_) ].

Definition amdsmi_get_power_info : proto :=
  Proto (TEnum (enum_values amdsmi_status_t))
    [ ("processor_handle", PVal amdsmi_processor_handle);
      ("info", PTo false (PVal amdsmi_power_info_t)) ]
    [ ("processor_handle", In_); ("info", Out_) ].

Definition amdsmi_is_gpu_power_management_enabled : proto :=
  Proto (TEnum (enum_values amdsmi_status_t))
    [ ("processor_handle", PVal amdsmi_processor_handle);
      ("enabled", PTo false (PVal TBool)) ]
    [ ("processor_handle", In_); ("enabled", Out_) ].

Definition amdsmi_get_clock_info : proto :=
  Proto (TEnum (enum_values amdsmi_status_t))
    [ ("processor_handle", PVal amdsmi_processor_handle);
      ("clk_type", PVal (TEnum (enum_values amdsmi_clk_type_t)));
      ("info", PTo false (PVal amdsmi_clk_info_t)) ]
    [ ("processor_handle", In_); ("clk_type", In_); ("info", Out_) ].

Definition amdsmi_get_gpu_vram_usage : proto :=
  Proto (TEnum (enum_values amdsmi_status_t))
    [ ("processor_handle", PVal amdsmi_processor_handle);
      ("info", PTo false (PVal amdsmi_vram_usage_t)) ]
    [ ("processor_handle", In_); ("info", Out_) ].

Definition amdsmi_get_violation_status : proto :=
  Proto (TEnum (enum_values amdsmi_status_t))
    [ ("processor_handle", PVal amdsmi_processor_handle);
      ("info", PTo false (PVal amdsmi_violation_status_t)) ]
    [ ("processor_handle", In_); ("info", Out_) ].

Definition amdsmi_get_gpu_process_list : proto :=
  Proto (TEnum (enum_values amdsmi_status_t))
    [ ("processor_handle", PVal amdsmi_processor_handle);
      ("max_processes", PTo false (PVal uint32_t));
      ("list", PTo false (PVal amdsmi_proc_info_t)) ]
    [ ("processor_handle", In_); ("max_processes", InOut); ("list", Out_) ].

Definition amdsmi_gpu_driver_reload : proto :=
  Proto (TEnum (enum_values amdsmi_status_t))
    [] [].

Definition amdsmi_get_gpu_ptl_state : proto :=
  Proto (TEnum (enum_values amdsmi_status_t))
    [ ("processor_handle", PVal amdsmi_processor_handle);
      ("enabled", PTo false (PVal TBool)) ]
    [ ("processor_handle", In_); ("enabled", Out_) ].

Definition amdsmi_set_gpu_ptl_state : proto :=
  Proto (TEnum (enum_values amdsmi_status_t))
    [ ("processor_handle", PVal amdsmi_processor_handle);
      ("enable", PVal TBool) ]
    [ ("processor_handle", In_); ("enable", In_) ].

Definition amdsmi_get_gpu_ptl_formats : proto :=
  Proto (TEnum (enum_values amdsmi_status_t))
    [ ("processor_handle", PVal amdsmi_processor_handle);
      ("data_format1", PTo false (PVal (TEnum (enum_values amdsmi_ptl_data_format_t))));
      ("data_format2", PTo false (PVal (TEnum (enum_values amdsmi_ptl_data_format_t)))) ]
    [ ("processor_handle", In_); ("data_format1", Out_); ("data_format2", Out_) ].

Definition amdsmi_set_gpu_ptl_formats : proto :=
  Proto (TEnum (enum_values amdsmi_status_t))
    [ ("processor_handle", PVal amdsmi_processor_handle);
      ("data_format1", PVal (TEnum (enum_values amdsmi_ptl_data_format_t)));
      ("data_format2", PVal (TEnum (enum_values amdsmi_ptl_data_format_t))) ]
    [ ("processor_handle", In_); ("data_format1", In_); ("data_format2", In_) ].

Definition amdsmi_get_cpu_handles : proto :=
  Proto (TEnum (enum_values amdsmi_status_t))
    [ ("cpu_count", PTo false (PVal uint32_t));
      ("processor_handles", PTo false (PVal amdsmi_processor_handle)) ]
    [ ("cpu_count", InOut); ("processor_handles", InOut) ].

Definition amdsmi_get_cpucore_handles : proto :=
  Proto (TEnum (enum_values amdsmi_status_t))
    [ ("cores_count", PTo false (PVal uint32_t));
      ("processor_handles", PTo false (PVal amdsmi_processor_handle)) ]
    [ ("cores_count", InOut); ("processor_handles", InOut) ].

Definition amdsmi_get_cpu_core_energy : proto :=
  Proto (TEnum (enum_values amdsmi_status_t))
    [ ("processor_handle", PVal amdsmi_processor_handle);
      ("penergy", PTo false (PVal uint64_t)) ]
    [ ("processor_handle", In_); ("penergy", InOut) ].

Definition amdsmi_get_cpu_socket_energy : proto :=
  Proto (TEnum (enum_values amdsmi_status_t))
    [ ("processor_handle", PVal amdsmi_processor_handle);
      ("penergy", PTo false (PVal uint64_t)) ]
    [ ("processor_handle", In_); ("penergy", InOut) ].

Definition amdsmi_get_threads_per_core : proto :=
  Proto (TEnum (enum_values amdsmi_status_t))
    [ ("threads_per_core", PTo false (PVal uint32_t)) ]
    [ ("threads_per_core", InOut) ].

Definition amdsmi_get_cpu_hsmp_driver_version : proto :=
  Proto (TEnum (enum_values amdsmi_status_t))
    [ ("processor_handle", PVal amdsmi_processor_handle);
      ("amdsmi_hsmp_driver_ver", PTo false (PVal amdsmi_hsmp_driver_version_t)) ]
    [ ("processor_handle", In_); ("amdsmi_hsmp_driver_ver", InOut) ].

Definition amdsmi_get_cpu_smu_fw_version : proto :=
  Proto (TEnum (enum_values amdsmi_status_t))
    [ ("processor_handle", PVal amdsmi_processor_handle);
      ("amdsmi_smu_fw", PTo false (PVal amdsmi_smu_fw_version_t)) ]
    [ ("processor_handle", In_); ("amdsmi_smu_fw", InOut) ].

Definition amdsmi_get_cpu_hsmp_proto_ver : proto :=
  Proto (TEnum (enum_values amdsmi_status_t))
    [ ("processor_handle", PVal amdsmi_processor_handle);
      ("proto_ver", PTo false (PVal uint32_t)) ]
    [ ("processor_handle", In_); ("proto_ver", InOut) ].

Definition amdsmi_get_cpu_prochot_status : proto :=
  Proto (TEnum (enum_values amdsmi_status_t))
    [ ("processor_handle", PVal amdsmi_processor_handle);
      ("prochot", PTo false (PVal uint32_t)) ]
    [ ("processor_handle", In_); ("prochot", InOut) ].

Definition amdsmi_get_cpu_fclk_mclk : proto :=
  Proto (TEnum (enum_values amdsmi_status_t))
    [ ("processor_handle", PVal amdsmi_processor_handle);
      ("fclk", PTo false (PVal uint32_t));
      ("mclk", PTo false (PVal uint32_t)) ]
    [ ("processor_handle", In_); ("fclk", InOut); ("mclk", InOut) ].

Definition amdsmi_get_cpu_cclk_limit : proto :=
  Proto (TEnum (enum_values amdsmi_status_t))
    [ ("processor_handle", PVal amdsmi_processor_handle);
      ("cclk", PTo false (PVal uint32_t)) ]
    [ ("processor_handle", In_); ("cclk", InOut) ].

Definition amdsmi_get_cpu_socket_current_active_freq_limit : proto :=
  Proto (TEnum (enum_values amdsmi_status_t))
    [ ("processor_handle", PVal amdsmi_processor_handle);
      ("freq", PTo false (PVal uint16_t));
      ("src_type", PTo false (PTo false (PVal char_t))) ]
    [ ("processor_handle", In_); ("freq", InOut); ("src_type", InOut) ].

Definition amdsmi_get_cpu_socket_freq_range : proto :=
  Proto (TEnum (enum_values amdsmi_status_t))
    [ ("processor_handle", PVal amdsmi_processor_handle);
      ("fmax", PTo false (PVal uint16_t));
      ("fmin", PTo false (PVal uint16_t)) ]
    [ ("processor_handle", In_); ("fmax", InOut); ("fmin", InOut) ].

Definition amdsmi_get_cpu_core_current_freq_limit : proto :=
  Proto (TEnum (enum_values amdsmi_status_t))
    [ ("processor_handle", PVal amdsmi_processor_handle);
      ("freq", PTo false (PVal uint32_t)) ]
    [ ("processor_handle", In_); ("freq", InOut) ].

Definition amdsmi_set_cpu_rail_isofreq_policy : proto :=
  Proto (TEnum (enum_values amdsmi_status_t))
    [ ("processor_handle", PVal amdsmi_processor_handle);
      ("rail_isofreq_policy", PTo false (PVal TBool)) ]
    [ ("processor_handle", In_); ("rail_isofreq_policy", InOut) ].

Definition amdsmi_get_cpu_rail_isofreq_policy : proto :=
  Proto (TEnum (enum_values amdsmi_status_t))
    [ ("processor_handle", PVal amdsmi_processor_handle);
      ("rail_isofreq_policy", PTo false (PVal uint8_t)) ]
    [ ("processor_handle", In_); ("rail_isofreq_policy", InOut) ].

Definition amdsmi_set_cpu_dfc_ctrl : proto :=
  Proto (TEnum (enum_values amdsmi_status_t))
    [ ("processor_handle", PVal amdsmi_processor_handle);
      ("dfc_ctrl", PTo false (PVal uint8_t)) ]
    [ ("processor_handle", In_); ("dfc_ctrl", In_) ].

Definition amdsmi_get_cpu_dfc_ctrl : proto :=
  Proto (TEnum (enum_values amdsmi_status_t))
    [ ("processor_handle", PVal amdsmi_processor_handle);
      ("dfc_ctrl", PTo false (PVal uint8_t)) ]
    [ ("processor_handle", In_); ("dfc_ctrl", InOut) ].

Definition amdsmi_get_cpu_core_boostlimit : proto :=
  Proto (TEnum (enum_values amdsmi_status_t))
    [ ("processor_handle", PVal amdsmi_processor_handle);
      ("pboostlimit", PTo false (PVal uint32_t)) ]
    [ ("processor_handle", In_); ("pboostlimit", InOut) ].

Definition amdsmi_get_cpu_socket_c0_residency : proto :=
  Proto (TEnum (enum_values amdsmi_status_t))
    [ ("processor_handle", PVal amdsmi_processor_handle);
      ("pc0_residency", PTo false (PVal uint32_t)) ]
    [ ("processor_handle", In_); ("pc0_residency", InOut) ].

Definition amdsmi_set_cpu_core_boostlimit : proto :=
  Proto (TEnum (enum_values amdsmi_status_t))
    [ ("processor_handle", PVal amdsmi_processor_handle);
      ("boostlimit", PVal uint32_t) ]
    [ ("processor_handle", In_); ("boostlimit", In_) ].

Definition amdsmi_set_cpu_socket_boostlimit : proto :=
  Proto (TEnum (enum_values amdsmi_status_t))
    [ ("processor_handle", PVal amdsmi_processor_handle);
      ("boostlimit", PVal uint32_t) ]
    [ ("processor_handle", In_); ("boostlimit", In_) ].

Definition amdsmi_get_cpu_core_floor_freq_limit : proto :=
  Proto (TEnum (enum_values amdsmi_status_t))
    [ ("processor_handle", PVal amdsmi_processor_handle);
      ("floor_freq", PTo false (PVal uint32_t)) ]
    [ ("processor_handle", In_); ("floor_freq", InOut) ].

Definition amdsmi_get_cpu_floor_freq_limit : proto :=
  Proto (TEnum (enum_values amdsmi_status_t))
    [ ("processor_handle", PVal amdsmi_processor_handle);
      ("floor_freq", PTo false (PVal uint32_t)) ]
    [ ("processor_handle", In_); ("floor_freq", InOut) ].

Definition amdsmi_get_cpu_core_eff_floor_freq_limit : proto :=
  Proto (TEnum (enum_values amdsmi_status_t))
    [ ("processor_handle", PVal amdsmi_processor_handle);
      ("eff_floor_freq", PTo false (PVal uint32_t)) ]
    [ ("processor_handle", In_); ("eff_floor_freq", InOut) ].

Definition amdsmi_get_cpu_eff_floor_freq_limit : proto :=
  Proto (TEnum (enum_values amdsmi_status_t))
    [ ("processor_handle", PVal amdsmi_processor_handle);
      ("eff_floor_freq", PTo false (PVal uint32_t)) ]
    [ ("processor_handle", In_); ("eff_floor_freq", InOut) ].

Definition amdsmi_set_cpu_core_floor_freq_limit : proto :=
  Proto (TEnum (enum_values amdsmi_status_t))
    [ ("processor_handle", PVal amdsmi_processor_handle);
      ("floor_freq", PVal uint32_t) ]
    [ ("processor_handle", In_); ("floor_freq", In_) ].

Definition amdsmi_set_cpu_floor_freq_limit : proto :=
  Proto (TEnum (enum_values amdsmi_status_t))
    [ ("processor_handle", PVal amdsmi_processor_handle);
      ("floor_freq", PVal uint32_t) ]
    [ ("processor_handle", In_); ("floor_freq", In_) ].

Definition amdsmi_set_cpu_msr_floor_freq_limit : proto :=
  Proto (TEnum (enum_values amdsmi_status_t))
    [ ("processor_handle", PVal amdsmi_processor_handle);
      ("msr_floor_freq", PVal uint32_t) ]
    [ ("processor_handle", In_); ("msr_floor_freq", In_) ].

Definition amdsmi_set_cpu_core_msr_floor_freq_limit : proto :=
  Proto (TEnum (enum_values amdsmi_status_t))
    [ ("processor_handle", PVal amdsmi_processor_handle);
      ("msr_floor_freq", PVal uint32_t) ]
    [ ("processor_handle", In_); ("msr_floor_freq", In_) ].

Definition amdsmi_get_cpu_freq_range : proto :=
  Proto (TEnum (enum_values amdsmi_status_t))
    [ ("fmax", PTo false (PVal uint32_t));
      ("fmin", PTo false (PVal uint32_t)) ]
    [ ("fmax", Out_); ("fmin", Out_) ].

Definition amdsmi_set_cpu_sdps_limit : proto :=
  Proto (TEnum (enum_values amdsmi_status_t))
    [ ("processor_handle", PVal amdsmi_processor_handle);
      ("sdps_limit", PVal uint32_t) ]
    [ ("processor_handle", In_); ("sdps_limit", In_) ].

Definition amdsmi_get_cpu_sdps_limit : proto :=
  Proto (TEnum (enum_values amdsmi_status_t))
    [ ("processor_handle", PVal amdsmi_processor_handle);
      ("sdps_limit", PTo false (PVal uint32_t)) ]
    [ ("processor_handle", In_); ("sdps_limit", Out_) ].

Definition amdsmi_get_cpu_ddr_bw : proto :=
  Proto (TEnum (enum_values amdsmi_status_t))
    [ ("processor_handle", PVal amdsmi_processor_handle);
      ("ddr_bw", PTo false (PVal amdsmi_ddr_bw_metrics_t)) ]
    [ ("processor_handle", In_); ("ddr_bw", InOut) ].

Definition amdsmi_get_cpu_socket_temperature : proto :=
  Proto (TEnum (enum_values amdsmi_status_t))
    [ ("processor_handle", PVal amdsmi_processor_handle);
      ("ptmon", PTo false (PVal uint32_t)) ]
    [ ("processor_handle", In_); ("ptmon", InOut) ].

Definition amdsmi_get_cpu_tdelta : proto :=
  Proto (TEnum (enum_values amdsmi_status_t))
    [ ("processor_handle", PVal amdsmi_processor_handle);
      ("tdelta", PTo false (PVal uint8_t)) ]
    [ ("processor_handle", In_); ("tdelta", Out_) ].

Definition amdsmi_get_cpu_svi3_vr_controller_temp : proto :=
  Proto (TEnum (enum_values amdsmi_status_t))
    [ ("processor_handle", PVal amdsmi_processor_handle);
      ("rail_selection", PTo false (PVal uint32_t));
      ("rail_index", PTo false (PVal uint32_t));
      ("temp", PTo false (PVal uint32_t)) ]
    [ ("processor_handle", In_); ("rail_selection", InOut); ("rail_index", InOut); ("temp", Out_) ].

Definition amdsmi_get_cpu_dimm_temp_range_and_refresh_rate : proto :=
  Proto (TEnum (enum_values amdsmi_status_t))
    [ ("processor_handle", PVal amdsmi_processor_handle);
      ("dimm_addr", PVal uint8_t);
      ("rate", PTo false (PVal amdsmi_temp_range_refresh_rate_t)) ]
    [ ("processor_handle", In_); ("dimm_addr", In_); ("rate", InOut) ].

Definition amdsmi_get_cpu_dimm_power_consumption : proto :=
  Proto (TEnum (enum_values amdsmi_status_t))
    [ ("processor_handle", PVal amdsmi_processor_handle);
      ("dimm_addr", PVal uint8_t);
      ("dimm_pow", PTo false (PVal amdsmi_dimm_power_t)) ]
    [ ("processor_handle", In_); ("dimm_addr", In_); ("dimm_pow", InOut) ].

Definition amdsmi_get_cpu_dimm_thermal_sensor : proto :=
  Proto (TEnum (enum_values amdsmi_status_t))
    [ ("processor_handle", PVal amdsmi_processor_handle);
      ("dimm_addr", PVal uint8_t);
      ("dimm_temp", PTo false (PVal amdsmi_dimm_thermal_t)) ]
    [ ("processor_handle", In_); ("dimm_addr", In_); ("dimm_temp", InOut) ].

Definition amdsmi_get_cpu_dimm_sb_reg : proto :=
  Proto (TEnum (enum_values amdsmi_status_t))
    [ ("processor_handle", PVal amdsmi_processor_handle);
      ("dimm_addr", PVal uint32_t);
      ("lid", PVal uint32_t);
      ("reg_offset", PVal uint32_t);
      ("reg_space", PVal uint32_t);
      ("data", PTo false (PVal uint32_t)) ]
    [ ("processor_handle", In_);
      ("dimm_addr", In_);
      ("lid", In_);
      ("reg_offset", In_);
      ("reg_space", In_);
      ("data", Out_) ].

Definition amdsmi_set_cpu_dimm_sb_reg : proto :=
  Proto (TEnum (enum_values amdsmi_status_t))
    [ ("processor_handle", PVal amdsmi_processor_handle);
      ("dimm_addr", PVal uint32_t);
      ("lid", PVal uint32_t);
      ("reg_offset", PVal uint32_t);
      ("reg_space", PVal uint32_t);
      ("write_data", PVal uint32_t) ]
    [ ("processor_handle", In_);
      ("dimm_addr", In_);
      ("lid", In_);
      ("reg_offset", In_);
      ("reg_space", In_);
      ("write_data", In_) ].

Definition amdsmi_set_cpu_xgmi_width : proto :=
  Proto (TEnum (enum_values amdsmi_status_t))
    [ ("processor_handle", PVal amdsmi_processor_handle);
      ("min", PVal uint8_t);
      ("max", PVal uint8_t) ]
    [ ("processor_handle", In_); ("min", In_); ("max", In_) ].

Definition amdsmi_set_cpu_gmi3_link_width_range : proto :=
  Proto (TEnum (enum_values amdsmi_status_t))
    [ ("processor_handle", PVal amdsmi_processor_handle);
      ("min_link_width", PVal uint8_t);
      ("max_link_width", PVal uint8_t) ]
    [ ("processor_handle", In_); ("min_link_width", In_); ("max_link_width", In_) ].

Definition amdsmi_cpu_apb_enable : proto :=
  Proto (TEnum (enum_values amdsmi_status_t))
    [ ("processor_handle", PVal amdsmi_processor_handle) ]
    [ ("processor_handle", In_) ].

Definition amdsmi_cpu_apb_disable : proto :=
  Proto (TEnum (enum_values amdsmi_status_t))
    [ ("processor_handle", PVal amdsmi_processor_handle);
      ("pstate", PVal uint8_t) ]
    [ ("processor_handle", In_); ("pstate", In_) ].

Definition amdsmi_set_cpu_socket_lclk_dpm_level : proto :=
  Proto (TEnum (enum_values amdsmi_status_t))
    [ ("processor_handle", PVal amdsmi_processor_handle);
      ("nbio_id", PVal uint8_t);
      ("min", PVal uint8_t);
      ("max", PVal uint8_t) ]
    [ ("processor_handle", In_); ("nbio_id", In_); ("min", In_); ("max", In_) ].

Definition amdsmi_get_cpu_socket_lclk_dpm_level : proto :=
  Proto (TEnum (enum_values amdsmi_status_t))
    [ ("processor_handle", PVal amdsmi_processor_handle);
      ("nbio_id", PVal uint8_t);
      ("nbio", PTo false (PVal amdsmi_dpm_level_t)) ]
    [ ("processor_handle", In_); ("nbio_id", In_); ("nbio", InOut) ].

Definition amdsmi_set_cpu_pcie_link_rate : proto :=
  Proto (TEnum (enum_values amdsmi_status_t))
    [ ("processor_handle", PVal amdsmi_processor_handle);
      ("rate_ctrl", PVal uint8_t);
      ("prev_mode", PTo false (PVal uint8_t)) ]
    [ ("processor_handle", In_); ("rate_ctrl", In_); ("prev_mode", InOut) ].

Definition amdsmi_set_cpu_df_pstate_range : proto :=
  Proto (TEnum (enum_values amdsmi_status_t))
    [ ("processor_handle", PVal amdsmi_processor_handle);
      ("min_pstate", PVal uint8_t);
      ("max_pstate", PVal uint8_t) ]
    [ ("processor_handle", In_); ("min_pstate", In_); ("max_pstate", In_) ].

Definition amdsmi_set_cpu_xgmi_pstate_range : proto :=
  Proto (TEnum (enum_values amdsmi_status_t))
    [ ("processor_handle", PVal amdsmi_processor_handle);
      ("min_pstate", PVal uint8_t);
      ("max_pstate", PVal uint8_t) ]
    [ ("processor_handle", In_); ("min_pstate", In_); ("max_pstate", In_) ].

Definition amdsmi_get_cpu_xgmi_pstate_range : proto :=
  Proto (TEnum (enum_values amdsmi_status_t))
    [ ("processor_handle", PVal amdsmi_processor_handle);
      ("min_pstate", PTo false (PVal uint8_t));
      ("max_pstate", PTo false (PVal uint8_t)) ]
    [ ("processor_handle", In_); ("min_pstate", Out_); ("max_pstate", Out_) ].

Definition amdsmi_get_cpu_pc6_enable : proto :=
  Proto (TEnum (enum_values amdsmi_status_t))
    [ ("processor_handle", PVal amdsmi_processor_handle);
      ("enabled", PTo false (PVal uint8_t)) ]
    [ ("processor_handle", In_); ("enabled", Out_) ].

Definition amdsmi_set_cpu_pc6_enable : proto :=
  Proto (TEnum (enum_values amdsmi_status_t))
    [ ("processor_handle", PVal amdsmi_processor_handle);
      ("enable", PVal uint8_t) ]
    [ ("processor_handle", In_); ("enable", In_) ].

Definition amdsmi_get_cpu_cc6_enable : proto :=
  Proto (TEnum (enum_values amdsmi_status_t))
    [ ("processor_handle", PVal amdsmi_processor_handle);
      ("enabled", PTo false (PVal uint8_t)) ]
    [ ("processor_handle", In_); ("enabled", InOut) ].

Definition amdsmi_set_cpu_cc6_enable : proto :=
  Proto (TEnum (enum_values amdsmi_status_t))
    [ ("processor_handle", PVal amdsmi_processor_handle);
      ("enable", PVal uint8_t) ]
    [ ("processor_handle", In_); ("enable", In_) ].

Definition amdsmi_get_cpu_current_io_bandwidth : proto :=
  Proto (TEnum (enum_values amdsmi_status_t))
    [ ("processor_handle", PVal amdsmi_processor_handle);
      ("link", PVal amdsmi_link_id_bw_type_t);
      ("io_bw", PTo false (PVal uint32_t)) ]
    [ ("processor_handle", In_); ("link", In_); ("io_bw", InOut) ].

Definition amdsmi_get_cpu_current_xgmi_bw : proto :=
  Proto (TEnum (enum_values amdsmi_status_t))
    [ ("processor_handle", PVal amdsmi_processor_handle);
      ("link", PVal amdsmi_link_id_bw_type_t);
      ("xgmi_bw", PTo false (PVal uint32_t)) ]
    [ ("processor_handle", In_); ("link", In_); ("xgmi_bw", InOut) ].

Definition amdsmi_get_hsmp_metrics_table_version : proto :=
  Proto (TEnum (enum_values amdsmi_status_t))
    [ ("processor_handle", PVal amdsmi_processor_handle);
      ("metrics_version", PTo false (PVal uint32_t)) ]
    [ ("processor_handle", In_); ("metrics_version", InOut) ].

Definition amdsmi_get_hsmp_metrics_table : proto :=
  Proto (TEnum (enum_values amdsmi_status_t))
    [ ("processor_handle", PVal amdsmi_processor_handle);
      ("metrics_table", PTo false (PVal amdsmi_hsmp_metrics_table_t)) ]
    [ ("processor_handle", In_); ("metrics_table", InOut) ].

Definition amdsmi_first_online_core_on_cpu_socket : proto :=
  Proto (TEnum (enum_values amdsmi_status_t))
    [ ("processor_handle", PVal amdsmi_processor_handle);
      ("pcore_ind", PTo false (PVal uint32_t)) ]
    [ ("processor_handle", In_); ("pcore_ind", InOut) ].

Definition amdsmi_get_cpu_family : proto :=
  Proto (TEnum (enum_values amdsmi_status_t))
    [ ("cpu_family", PTo false (PVal uint32_t)) ]
    [ ("cpu_family", InOut) ].

Definition amdsmi_get_cpu_model : proto :=
  Proto (TEnum (enum_values amdsmi_status_t))
    [ ("cpu_model", PTo false (PVal uint32_t)) ]
    [ ("cpu_model", InOut) ].

Definition amdsmi_get_cpu_model_name : proto :=
  Proto (TEnum (enum_values amdsmi_status_t))
    [ ("processor_handle", PVal amdsmi_processor_handle);
      ("cpu_info", PTo false (PVal amdsmi_cpu_info_t)) ]
    [ ("processor_handle", In_); ("cpu_info", Out_) ].

Definition amdsmi_get_esmi_err_msg : proto :=
  Proto (TEnum (enum_values amdsmi_status_t))
    [ ("status", PVal (TEnum (enum_values amdsmi_status_t)));
      ("status_string", PTo false (PTo true (PVal char_t))) ]
    [ ("status", In_); ("status_string", InOut) ].

Definition amdsmi_get_cpu_cores_per_socket : proto :=
  Proto (TEnum (enum_values amdsmi_status_t))
    [ ("sock_count", PVal uint32_t);
      ("soc_info", PTo false (PVal amdsmi_sock_info_t)) ]
    [ ("sock_count", In_); ("soc_info", InOut) ].

Definition amdsmi_get_cpu_socket_count : proto :=
  Proto (TEnum (enum_values amdsmi_status_t))
    [ ("sock_count", PTo false (PVal uint32_t)) ]
    [ ("sock_count", InOut) ].

Definition amdsmi_get_cpu_enabled_commands : proto :=
  Proto (TEnum (enum_values amdsmi_status_t))
    [ ("processor_handle", PVal amdsmi_processor_handle);
      ("r_mask", PTo false (PVal TBool));
      ("mask0", PTo false (PVal uint32_t));
      ("mask1", PTo false (PVal uint32_t));
      ("mask2", PTo false (PVal uint32_t)) ]
    [ ("processor_handle", In_);
      ("r_mask", In_);
      ("mask0", InOut);
      ("mask1", InOut);
      ("mask2", InOut) ].

Definition amdsmi_get_nic_driver_info : proto :=
  Proto (TEnum (enum_values amdsmi_status_t))
    [ ("processor_handle", PVal amdsmi_processor_handle);
      ("info", PTo false (PVal amdsmi_nic_driver_info_t)) ]
    [ ("processor_handle", In_); ("info", Out_) ].

Definition amdsmi_get_nic_asic_info : proto :=
  Proto (TEnum (enum_values amdsmi_status_t))
    [ ("processor_handle", PVal amdsmi_processor_handle);
      ("info", PTo false (PVal amdsmi_nic_asic_info_t)) ]
    [ ("processor_handle", In_); ("info", Out_) ].

Definition amdsmi_get_nic_bus_info : proto :=
  Proto (TEnum (enum_values amdsmi_status_t))
    [ ("processor_handle", PVal amdsmi_processor_handle);
      ("info", PTo false (PVal amdsmi_nic_bus_info_t)) ]
    [ ("processor_handle", In_); ("info", Out_) ].

Definition amdsmi_get_nic_numa_info : proto :=
  Proto (TEnum (enum_values amdsmi_status_t))
    [ ("processor_handle", PVal amdsmi_processor_handle);
      ("info", PTo false (PVal amdsmi_nic_numa_info_t)) ]
    [ ("processor_handle", In_); ("info", Out_) ].

Definition amdsmi_get_nic_port_info : proto :=
  Proto (TEnum (enum_values amdsmi_status_t))
    [ ("processor_handle", PVal amdsmi_processor_handle);
      ("info", PTo false (PVal amdsmi_nic_port_info_t)) ]
    [ ("processor_handle", In_); ("info", Out_) ].

Definition amdsmi_get_nic_rdma_dev_info : proto :=
  Proto (TEnum (enum_values amdsmi_status_t))
    [ ("processor_handle", PVal amdsmi_processor_handle);
      ("info", PTo false (PVal amdsmi_nic_rdma_devices_info_t)) ]
    [ ("processor_handle", In_); ("info", Out_) ].

Definition amdsmi_get_nic_rdma_port_statistics : proto :=
  Proto (TEnum (enum_values amdsmi_status_t))
    [ ("processor_handle", PVal amdsmi_processor_handle);
      ("rdma_port_index", PVal uint32_t);
      ("num_stats", PTo false (PVal uint32_t));
      ("stats", PTo false (PVal amdsmi_nic_stat_t)) ]
    [ ("processor_handle", In_); ("rdma_port_index", In_); ("num_stats", InOut); ("stats", Out_) ].

Definition amdsmi_get_gpu_uma_carveout_info : proto :=
  Proto (TEnum (enum_values amdsmi_status_t))
    [ ("processor_handle", PVal amdsmi_processor_handle);
      ("info", PTo false (PVal amdsmi_uma_carveout_info_t)) ]
    [ ("processor_handle", In_); ("info", Out_) ].

Definition amdsmi_set_gpu_uma_carveout : proto :=
  Proto (TEnum (enum_values amdsmi_status_t))
    [ ("processor_handle", PVal amdsmi_processor_handle);
      ("option_index", PVal uint32_t) ]
    [ ("processor_handle", In_); ("option_index", In_) ].

Definition amdsmi_get_ttm_info : proto :=
  Proto (TEnum (enum_values amdsmi_status_t))
    [ ("info", PTo false (PVal amdsmi_ttm_info_t)) ]
    [ ("info", Out_) ].

Definition amdsmi_set_ttm_pages_limit : proto :=
  Proto (TEnum (enum_values amdsmi_status_t))
    [ ("pages", PVal uint64_t) ]
    [ ("pages", In_) ].

Definition amdsmi_reset_ttm_pages_limit : proto :=
  Proto (TEnum (enum_values amdsmi_status_t))
    [] [].

(** Every function the header declares, by name. *)
Definition smi_functions : list (string * proto) :=
  [ ("amdsmi_init", amdsmi_init);
    ("amdsmi_shut_down", amdsmi_shut_down);
    ("amdsmi_get_socket_handles", amdsmi_get_socket_handles);
    ("amdsmi_get_socket_info", amdsmi_get_socket_info);
    ("amdsmi_get_processor_handles", amdsmi_get_processor_handles);
    ("amdsmi_get_node_handle", amdsmi_get_node_handle);
    ("amdsmi_get_processor_type", amdsmi_get_processor_type);
    ("amdsmi_get_processor_info", amdsmi_get_processor_info);
    ("amdsmi_get_processor_count_from_handles", amdsmi_get_processor_count_from_handles);
    ("amdsmi_get_processor_handles_by_type", amdsmi_get_processor_handles_by_type);
    ("amdsmi_get_processor_handle_from_bdf", amdsmi_get_processor_handle_from_bdf);
    ("amdsmi_get_gpu_device_bdf", amdsmi_get_gpu_device_bdf);
    ("amdsmi_get_gpu_device_uuid", amdsmi_get_gpu_device_uuid);
    ("amdsmi_get_gpu_enumeration_info", amdsmi_get_gpu_enumeration_info);
    ("amdsmi_get_cpu_affinity_with_scope", amdsmi_get_cpu_affinity_with_scope);
    ("amdsmi_get_gpu_virtualization_mode", amdsmi_get_gpu_virtualization_mode);
    ("amdsmi_get_gpu_id", amdsmi_get_gpu_id);
    ("amdsmi_get_gpu_revision", amdsmi_get_gpu_revision);
    ("amdsmi_get_gpu_vendor_name", amdsmi_get_gpu_vendor_name);
    ("amdsmi_get_gpu_vram_vendor", amdsmi_get_gpu_vram_vendor);
    ("amdsmi_get_gpu_subsystem_id", amdsmi_get_gpu_subsystem_id);
    ("amdsmi_get_gpu_subsystem_name", amdsmi_get_gpu_subsystem_name);
    ("amdsmi_get_gpu_pci_bandwidth", amdsmi_get_gpu_pci_bandwidth);
    ("amdsmi_get_gpu_bdf_id", amdsmi_get_gpu_bdf_id);
    ("amdsmi_get_gpu_topo_numa_affinity", amdsmi_get_gpu_topo_numa_affinity);
    ("amdsmi_get_gpu_pci_throughput", amdsmi_get_gpu_pci_throughput);
    ("amdsmi_get_gpu_pci_replay_counter", amdsmi_get_gpu_pci_replay_counter);
    ("amdsmi_set_gpu_pci_bandwidth", amdsmi_set_gpu_pci_bandwidth);
    ("amdsmi_get_energy_count", amdsmi_get_energy_count);
    ("amdsmi_set_power_cap", amdsmi_set_power_cap);
    ("amdsmi_set_gpu_power_profile", amdsmi_set_gpu_power_profile);
    ("amdsmi_get_supported_power_cap", amdsmi_get_supported_power_cap);
    ("amdsmi_get_cpu_socket_power", amdsmi_get_cpu_socket_power);
    ("amdsmi_get_cpu_socket_power_cap", amdsmi_get_cpu_socket_power_cap);
    ("amdsmi_get_cpu_socket_power_cap_max", amdsmi_get_cpu_socket_power_cap_max);
    ("amdsmi_get_cpu_pwr_svi_telemetry_all_rails", amdsmi_get_cpu_pwr_svi_telemetry_all_rails);
    ("amdsmi_set_cpu_socket_power_cap", amdsmi_set_cpu_socket_power_cap);
    ("amdsmi_set_cpu_pwr_efficiency_mode", amdsmi_set_cpu_pwr_efficiency_mode);
    ("amdsmi_get_cpu_pwr_efficiency_mode", amdsmi_get_cpu_pwr_efficiency_mode);
    ("amdsmi_get_cpu_core_ccd_power", amdsmi_get_cpu_core_ccd_power);
    ("amdsmi_get_gpu_memory_total", amdsmi_get_gpu_memory_total);
    ("amdsmi_get_gpu_memory_usage", amdsmi_get_gpu_memory_usage);
    ("amdsmi_get_gpu_bad_page_info", amdsmi_get_gpu_bad_page_info);
    ("amdsmi_get_gpu_bad_page_threshold", amdsmi_get_gpu_bad_page_threshold);
    ("amdsmi_gpu_validate_ras_eeprom", amdsmi_gpu_validate_ras_eeprom);
    ("amdsmi_get_gpu_ras_block_features_enabled", amdsmi_get_gpu_ras_block_features_enabled);
    ("amdsmi_get_gpu_memory_reserved_pages", amdsmi_get_gpu_memory_reserved_pages);
    ("amdsmi_get_gpu_fan_rpms", amdsmi_get_gpu_fan_rpms);
    ("amdsmi_get_gpu_fan_speed", amdsmi_get_gpu_fan_speed);
    ("amdsmi_get_gpu_fan_speed_max", amdsmi_get_gpu_fan_speed_max);
    ("amdsmi_get_gpu_cache_info", amdsmi_get_gpu_cache_info);
    ("amdsmi_get_gpu_volt_metric", amdsmi_get_gpu_volt_metric);
    ("amdsmi_reset_gpu_fan", amdsmi_reset_gpu_fan);
    ("amdsmi_set_gpu_fan_speed", amdsmi_set_gpu_fan_speed);
    ("amdsmi_get_gpu_busy_percent", amdsmi_get_gpu_busy_percent);
    ("amdsmi_get_utilization_count", amdsmi_get_utilization_count);
    ("amdsmi_get_gpu_perf_level", amdsmi_get_gpu_perf_level);
    ("amdsmi_set_gpu_perf_determinism_mode", amdsmi_set_gpu_perf_determinism_mode);
    ("amdsmi_get_gpu_overdrive_level", amdsmi_get_gpu_overdrive_level);
    ("amdsmi_get_gpu_mem_overdrive_level", amdsmi_get_gpu_mem_overdrive_level);
    ("amdsmi_get_clk_freq", amdsmi_get_clk_freq);
    ("amdsmi_reset_gpu", amdsmi_reset_gpu);
    ("amdsmi_get_gpu_od_volt_info", amdsmi_get_gpu_od_volt_info);
    ("amdsmi_get_gpu_metrics_header_info", amdsmi_get_gpu_metrics_header_info);
    ("amdsmi_get_gpu_metrics_info", amdsmi_get_gpu_metrics_info);
    ("amdsmi_get_gpu_partition_metrics_info", amdsmi_get_gpu_partition_metrics_info);
    ("amdsmi_get_gpu_pm_metrics_info", amdsmi_get_gpu_pm_metrics_info);
    ("amdsmi_get_gpu_reg_table_info", amdsmi_get_gpu_reg_table_info);
    ("amdsmi_set_gpu_clk_range", amdsmi_set_gpu_clk_range);
    ("amdsmi_set_gpu_clk_limit", amdsmi_set_gpu_clk_limit);
    ("amdsmi_set_gpu_od_clk_info", amdsmi_set_gpu_od_clk_info);
    ("amdsmi_set_gpu_od_volt_info", amdsmi_set_gpu_od_volt_info);
    ("amdsmi_get_gpu_od_volt_curve_regions", amdsmi_get_gpu_od_volt_curve_regions);
    ("amdsmi_get_gpu_power_profile_presets", amdsmi_get_gpu_power_profile_presets);
    ("amdsmi_set_gpu_perf_level", amdsmi_set_gpu_perf_level);
    ("amdsmi_set_gpu_overdrive_level", amdsmi_set_gpu_overdrive_level);
    ("amdsmi_set_clk_freq", amdsmi_set_clk_freq);
    ("amdsmi_get_soc_pstate", amdsmi_get_soc_pstate);
    ("amdsmi_set_soc_pstate", amdsmi_set_soc_pstate);
    ("amdsmi_get_xgmi_plpd", amdsmi_get_xgmi_plpd);
    ("amdsmi_set_xgmi_plpd", amdsmi_set_xgmi_plpd);
    ("amdsmi_get_gpu_process_isolation", amdsmi_get_gpu_process_isolation);
    ("amdsmi_set_gpu_process_isolation", amdsmi_set_gpu_process_isolation);
    ("amdsmi_clean_gpu_local_data", amdsmi_clean_gpu_local_data);
    ("amdsmi_get_lib_version", amdsmi_get_lib_version);
    ("amdsmi_get_gpu_ecc_count", amdsmi_get_gpu_ecc_count);
    ("amdsmi_get_gpu_ecc_enabled", amdsmi_get_gpu_ecc_enabled);
    ("amdsmi_get_gpu_total_ecc_count", amdsmi_get_gpu_total_ecc_count);
    ("amdsmi_get_afids_from_cper", amdsmi_get_afids_from_cper);
    ("amdsmi_get_gpu_ras_feature_info", amdsmi_get_gpu_ras_feature_info);
    ("amdsmi_get_gpu_cper_entries", amdsmi_get_gpu_cper_entries);
    ("amdsmi_get_gpu_ecc_status", amdsmi_get_gpu_ecc_status);
    ("amdsmi_status_code_to_string", amdsmi_status_code_to_string);
    ("amdsmi_gpu_counter_group_supported", amdsmi_gpu_counter_group_supported);
    ("amdsmi_gpu_create_counter", amdsmi_gpu_create_counter);
    ("amdsmi_gpu_destroy_counter", amdsmi_gpu_destroy_counter);
    ("amdsmi_gpu_control_counter", amdsmi_gpu_control_counter);
    ("amdsmi_gpu_read_counter", amdsmi_gpu_read_counter);
    ("amdsmi_get_gpu_available_counters", amdsmi_get_gpu_available_counters);
    ("amdsmi_get_gpu_compute_process_info", amdsmi_get_gpu_compute_process_info);
    ("amdsmi_get_gpu_compute_process_info_by_pid", amdsmi_get_gpu_compute_process_info_by_pid);
    ("amdsmi_get_gpu_compute_process_gpus", amdsmi_get_gpu_compute_process_gpus);
    ("amdsmi_gpu_xgmi_error_status", amdsmi_gpu_xgmi_error_status);
    ("amdsmi_reset_gpu_xgmi_error", amdsmi_reset_gpu_xgmi_error);
    ("amdsmi_get_xgmi_info", amdsmi_get_xgmi_info);
    ("amdsmi_get_gpu_xgmi_link_status", amdsmi_get_gpu_xgmi_link_status);
    ("amdsmi_get_link_metrics", amdsmi_get_link_metrics);
    ("amdsmi_topo_get_numa_node_number", amdsmi_topo_get_numa_node_number);
    ("amdsmi_topo_get_link_weight", amdsmi_topo_get_link_weight);
    ("amdsmi_get_minmax_bandwidth_between_processors", amdsmi_get_minmax_bandwidth_between_processors);
    ("amdsmi_topo_get_link_type", amdsmi_topo_get_link_type);
    ("amdsmi_get_link_topology_nearest", amdsmi_get_link_topology_nearest);
    ("amdsmi_is_P2P_accessible", amdsmi_is_P2P_accessible);
    ("amdsmi_topo_get_p2p_status", amdsmi_topo_get_p2p_status);
    ("amdsmi_get_gpu_compute_partition", amdsmi_get_gpu_compute_partition);
    ("amdsmi_set_gpu_compute_partition", amdsmi_set_gpu_compute_partition);
    ("amdsmi_get_gpu_memory_partition", amdsmi_get_gpu_memory_partition);
    ("amdsmi_set_gpu_memory_partition", amdsmi_set_gpu_memory_partition);
    ("amdsmi_get_gpu_memory_partition_config", amdsmi_get_gpu_memory_partition_config);
    ("amdsmi_set_gpu_memory_partition_mode", amdsmi_set_gpu_memory_partition_mode);
    ("amdsmi_get_gpu_accelerator_partition_profile_config", amdsmi_get_gpu_accelerator_partition_profile_config);
    ("amdsmi_get_gpu_accelerator_partition_profile", amdsmi_get_gpu_accelerator_partition_profile);
    ("amdsmi_set_gpu_accelerator_partition_profile", amdsmi_set_gpu_accelerator_partition_profile);
    ("amdsmi_init_gpu_event_notification", amdsmi_init_gpu_event_notification);
    ("amdsmi_set_gpu_event_notification_mask", amdsmi_set_gpu_event_notification_mask);
    ("amdsmi_get_gpu_event_notification", amdsmi_get_gpu_event_notification);
    ("amdsmi_stop_gpu_event_notification", amdsmi_stop_gpu_event_notification);
    ("amdsmi_get_gpu_driver_info", amdsmi_get_gpu_driver_info);
    ("amdsmi_get_gpu_asic_info", amdsmi_get_gpu_asic_info);
    ("amdsmi_get_gpu_kfd_info", amdsmi_get_gpu_kfd_info);
    ("amdsmi_get_gpu_vram_info", amdsmi_get_gpu_vram_info);
    ("amdsmi_get_gpu_board_info", amdsmi_get_gpu_board_info);
    ("amdsmi_get_power_cap_info", amdsmi_get_power_cap_info);
    ("amdsmi_get_pcie_info", amdsmi_get_pcie_info);
    ("amdsmi_get_gpu_xcd_counter", amdsmi_get_gpu_xcd_counter);
    ("amdsmi_get_npm_info", amdsmi_get_npm_info);
    ("amdsmi_get_fw_info", amdsmi_get_fw_info);
    ("amdsmi_get_gpu_vbios_info", amdsmi_get_gpu_vbios_info);
    ("amdsmi_get_temp_metric", amdsmi_get_temp_metric);
    ("amdsmi_get_gpu_activity", amdsmi_get_gpu_activity);
    ("amdsmi_get_power_info", amdsmi_get_power_info);
    ("amdsmi_is_gpu_power_management_enabled", amdsmi_is_gpu_power_management_enabled);
    ("amdsmi_get_clock_info", amdsmi_get_clock_info);
    ("amdsmi_get_gpu_vram_usage", amdsmi_get_gpu_vram_usage);
    ("amdsmi_get_violation_status", amdsmi_get_violation_status);
    ("amdsmi_get_gpu_process_list", amdsmi_get_gpu_process_list);
    ("amdsmi_gpu_driver_reload", amdsmi_gpu_driver_reload);
    ("amdsmi_get_gpu_ptl_state", amdsmi_get_gpu_ptl_state);
    ("amdsmi_set_gpu_ptl_state", amdsmi_set_gpu_ptl_state);
    ("amdsmi_get_gpu_ptl_formats", amdsmi_get_gpu_ptl_formats);
    ("amdsmi_set_gpu_ptl_formats", amdsmi_set_gpu_ptl_formats);
    ("amdsmi_get_cpu_handles", amdsmi_get_cpu_handles);
    ("amdsmi_get_cpucore_handles", amdsmi_get_cpucore_handles);
    ("amdsmi_get_cpu_core_energy", amdsmi_get_cpu_core_energy);
    ("amdsmi_get_cpu_socket_energy", amdsmi_get_cpu_socket_energy);
    ("amdsmi_get_threads_per_core", amdsmi_get_threads_per_core);
    ("amdsmi_get_cpu_hsmp_driver_version", amdsmi_get_cpu_hsmp_driver_version);
    ("amdsmi_get_cpu_smu_fw_version", amdsmi_get_cpu_smu_fw_version);
    ("amdsmi_get_cpu_hsmp_proto_ver", amdsmi_get_cpu_hsmp_proto_ver);
    ("amdsmi_get_cpu_prochot_status", amdsmi_get_cpu_prochot_status);
    ("amdsmi_get_cpu_fclk_mclk", amdsmi_get_cpu_fclk_mclk);
    ("amdsmi_get_cpu_cclk_limit", amdsmi_get_cpu_cclk_limit);
    ("amdsmi_get_cpu_socket_current_active_freq_limit", amdsmi_get_cpu_socket_current_active_freq_limit);
    ("amdsmi_get_cpu_socket_freq_range", amdsmi_get_cpu_socket_freq_range);
    ("amdsmi_get_cpu_core_current_freq_limit", amdsmi_get_cpu_core_current_freq_limit);
    ("amdsmi_set_cpu_rail_isofreq_policy", amdsmi_set_cpu_rail_isofreq_policy);
    ("amdsmi_get_cpu_rail_isofreq_policy", amdsmi_get_cpu_rail_isofreq_policy);
    ("amdsmi_set_cpu_dfc_ctrl", amdsmi_set_cpu_dfc_ctrl);
    ("amdsmi_get_cpu_dfc_ctrl", amdsmi_get_cpu_dfc_ctrl);
    ("amdsmi_get_cpu_core_boostlimit", amdsmi_get_cpu_core_boostlimit);
    ("amdsmi_get_cpu_socket_c0_residency", amdsmi_get_cpu_socket_c0_residency);
    ("amdsmi_set_cpu_core_boostlimit", amdsmi_set_cpu_core_boostlimit);
    ("amdsmi_set_cpu_socket_boostlimit", amdsmi_set_cpu_socket_boostlimit);
    ("amdsmi_get_cpu_core_floor_freq_limit", amdsmi_get_cpu_core_floor_freq_limit);
    ("amdsmi_get_cpu_floor_freq_limit", amdsmi_get_cpu_floor_freq_limit);
    ("amdsmi_get_cpu_core_eff_floor_freq_limit", amdsmi_get_cpu_core_eff_floor_freq_limit);
    ("amdsmi_get_cpu_eff_floor_freq_limit", amdsmi_get_cpu_eff_floor_freq_limit);
    ("amdsmi_set_cpu_core_floor_freq_limit", amdsmi_set_cpu_core_floor_freq_limit);
    ("amdsmi_set_cpu_floor_freq_limit", amdsmi_set_cpu_floor_freq_limit);
    ("amdsmi_set_cpu_msr_floor_freq_limit", amdsmi_set_cpu_msr_floor_freq_limit);
    ("amdsmi_set_cpu_core_msr_floor_freq_limit", amdsmi_set_cpu_core_msr_floor_freq_limit);
    ("amdsmi_get_cpu_freq_range", amdsmi_get_cpu_freq_range);
    ("amdsmi_set_cpu_sdps_limit", amdsmi_set_cpu_sdps_limit);
    ("amdsmi_get_cpu_sdps_limit", amdsmi_get_cpu_sdps_limit);
    ("amdsmi_get_cpu_ddr_bw", amdsmi_get_cpu_ddr_bw);
    ("amdsmi_get_cpu_socket_temperature", amdsmi_get_cpu_socket_temperature);
    ("amdsmi_get_cpu_tdelta", amdsmi_get_cpu_tdelta);
    ("amdsmi_get_cpu_svi3_vr_controller_temp", amdsmi_get_cpu_svi3_vr_controller_temp);
    ("amdsmi_get_cpu_dimm_temp_range_and_refresh_rate", amdsmi_get_cpu_dimm_temp_range_and_refresh_rate);
    ("amdsmi_get_cpu_dimm_power_consumption", amdsmi_get_cpu_dimm_power_consumption);
    ("amdsmi_get_cpu_dimm_thermal_sensor", amdsmi_get_cpu_dimm_thermal_sensor);
    ("amdsmi_get_cpu_dimm_sb_reg", amdsmi_get_cpu_dimm_sb_reg);
    ("amdsmi_set_cpu_dimm_sb_reg", amdsmi_set_cpu_dimm_sb_reg);
    ("amdsmi_set_cpu_xgmi_width", amdsmi_set_cpu_xgmi_width);
    ("amdsmi_set_cpu_gmi3_link_width_range", amdsmi_set_cpu_gmi3_link_width_range);
    ("amdsmi_cpu_apb_enable", amdsmi_cpu_apb_enable);
    ("amdsmi_cpu_apb_disable", amdsmi_cpu_apb_disable);
    ("amdsmi_set_cpu_socket_lclk_dpm_level", amdsmi_set_cpu_socket_lclk_dpm_level);
    ("amdsmi_get_cpu_socket_lclk_dpm_level", amdsmi_get_cpu_socket_lclk_dpm_level);
    ("amdsmi_set_cpu_pcie_link_rate", amdsmi_set_cpu_pcie_link_rate);
    ("amdsmi_set_cpu_df_pstate_range", amdsmi_set_cpu_df_pstate_range);
    ("amdsmi_set_cpu_xgmi_pstate_range", amdsmi_set_cpu_xgmi_pstate_range);
    ("amdsmi_get_cpu_xgmi_pstate_range", amdsmi_get_cpu_xgmi_pstate_range);
    ("amdsmi_get_cpu_pc6_enable", amdsmi_get_cpu_pc6_enable);
    ("amdsmi_set_cpu_pc6_enable", amdsmi_set_cpu_pc6_enable);
    ("amdsmi_get_cpu_cc6_enable", amdsmi_get_cpu_cc6_enable);
    ("amdsmi_set_cpu_cc6_enable", amdsmi_set_cpu_cc6_enable);
    ("amdsmi_get_cpu_current_io_bandwidth", amdsmi_get_cpu_current_io_bandwidth);
    ("amdsmi_get_cpu_current_xgmi_bw", amdsmi_get_cpu_current_xgmi_bw);
    ("amdsmi_get_hsmp_metrics_table_version", amdsmi_get_hsmp_metrics_table_version);
    ("amdsmi_get_hsmp_metrics_table", amdsmi_get_hsmp_metrics_table);
    ("amdsmi_first_online_core_on_cpu_socket", amdsmi_first_online_core_on_cpu_socket);
    ("amdsmi_get_cpu_family", amdsmi_get_cpu_family);
    ("amdsmi_get_cpu_model", amdsmi_get_cpu_model);
    ("amdsmi_get_cpu_model_name", amdsmi_get_cpu_model_name);
    ("amdsmi_get_esmi_err_msg", amdsmi_get_esmi_err_msg);
    ("amdsmi_get_cpu_cores_per_socket", amdsmi_get_cpu_cores_per_socket);
    ("amdsmi_get_cpu_socket_count", amdsmi_get_cpu_socket_count);
    ("amdsmi_get_cpu_enabled_commands", amdsmi_get_cpu_enabled_commands);
    ("amdsmi_get_nic_driver_info", amdsmi_get_nic_driver_info);
    ("amdsmi_get_nic_asic_info", amdsmi_get_nic_asic_info);
    ("amdsmi_get_nic_bus_info", amdsmi_get_nic_bus_info);
    ("amdsmi_get_nic_numa_info", amdsmi_get_nic_numa_info);
    ("amdsmi_get_nic_port_info", amdsmi_get_nic_port_info);
    ("amdsmi_get_nic_rdma_dev_info", amdsmi_get_nic_rdma_dev_info);
    ("amdsmi_get_nic_rdma_port_statistics", amdsmi_get_nic_rdma_port_statistics);
    ("amdsmi_get_gpu_uma_carveout_info", amdsmi_get_gpu_uma_carveout_info);
    ("amdsmi_set_gpu_uma_carveout", amdsmi_set_gpu_uma_carveout);
    ("amdsmi_get_ttm_info", amdsmi_get_ttm_info);
    ("amdsmi_set_ttm_pages_limit", amdsmi_set_ttm_pages_limit);
    ("amdsmi_reset_ttm_pages_limit", amdsmi_reset_ttm_pages_limit) ].

End SmiF.
