(* ===== verification/GimApi.v ===== *)
(** The functions of [src/assets/gim_smi_lib/x86_64/UBUNTU22/lib/amdsmi.h], with
    the conventions of [SmiApi]. *)

From S2P Require Import Prelude CAbi CEnum GimEnums GimTypes CProto.
Import GimEnums.Gim GimTypes.GimT.

Module GimF.

Definition amdsmi_init : proto :=
  Proto (TEnum (enum_values amdsmi_status_t))
    [ ("init_flags", PVal uint64_t) ]
    [ ("init_flags", In_) ].

Definition amdsmi_shut_down : proto :=
  Proto (TEnum (enum_values amdsmi_status_t))
    [] [].

Definition amdsmi_get_processor_handles : proto :=
  Proto (TEnum (enum_values amdsmi_status_t))
    [ ("socket_handle", PVal amdsmi_socket_handle);
      ("processor_count", PTo false (PVal uint32_t));
      ("processor_handles", PTo false (PVal amdsmi_processor_handle)) ]
    [ ("socket_handle", In_); ("processor_count", InOut); ("processor_handles", Out_) ].

Definition amdsmi_get_processor_type : proto :=
  Proto (TEnum (enum_values amdsmi_status_t))
    [ ("processor_handle", PVal amdsmi_processor_handle);
      ("processor_type", PTo false (PVal (TEnum (enum_values processor_type_t)))) ]
    [ ("processor_handle", In_); ("processor_type", Out_) ].

Definition amdsmi_get_socket_handles : proto :=
  Proto (TEnum (enum_values amdsmi_status_t))
    [ ("socket_count", PTo false (PVal uint32_t));
      ("socket_handles", PTo false (PVal amdsmi_socket_handle)) ]
    [ ("socket_count", InOut); ("socket_handles", Out_) ].

Definition amdsmi_get_socket_info : proto :=
  Proto (TEnum (enum_values amdsmi_status_t))
    [ ("socket_handle", PVal amdsmi_socket_handle);
      ("len", PVal size_t);
      ("name", PTo false (PVal char_t)) ]
    [ ("socket_handle", In_); ("len", In_); ("name", Out_) ].

Definition amdsmi_get_processor_handle_from_bdf : proto :=
  Proto (TEnum (enum_values amdsmi_status_t))
    [ ("bdf", PVal amdsmi_bdf_t);
      ("processor_handle", PTo false (PVal amdsmi_processor_handle)) ]
    [ ("bdf", In_); ("processor_handle", Out_) ].

Definition amdsmi_get_index_from_processor_handle : proto :=
  Proto (TEnum (enum_values amdsmi_status_t))
    [ ("processor_handle", PVal amdsmi_processor_handle);
      ("processor_index", PTo false (PVal uint32_t)) ]
    [ ("processor_handle", In_); ("processor_index", Out_) ].

Definition amdsmi_get_vf_handle_from_bdf : proto :=
  Proto (TEnum (enum_values amdsmi_status_t))
    [ ("bdf", PVal amdsmi_bdf_t);
      ("vf_handle", PTo false (PVal amdsmi_vf_handle_t)) ]
    [ ("bdf", In_); ("vf_handle", Out_) ].

Definition amdsmi_get_gpu_device_bdf : proto :=
  Proto (TEnum (enum_values amdsmi_status_t))
    [ ("processor_handle", PVal amdsmi_processor_handle);
      ("bdf", PTo false (PVal amdsmi_bdf_t)) ]
    [ ("processor_handle", In_); ("bdf", Out_) ].

Definition amdsmi_get_processor_handle_from_index : proto :=
  Proto (TEnum (enum_values amdsmi_status_t))
    [ ("processor_index", PVal uint32_t);
      ("processor_handle", PTo false (PVal amdsmi_processor_handle)) ]
    [ ("processor_index", In_); ("processor_handle", Out_) ].

Definition amdsmi_get_vf_bdf : proto :=
  Proto (TEnum (enum_values amdsmi_status_t))
    [ ("vf_handle", PVal amdsmi_vf_handle_t);
      ("bdf", PTo false (PVal amdsmi_bdf_t)) ]
    [ ("vf_handle", In_); ("bdf", Out_) ].

Definition amdsmi_get_vf_handle_from_vf_index : proto :=
  Proto (TEnum (enum_values amdsmi_status_t))
    [ ("processor_handle", PVal amdsmi_processor_handle);
      ("fcn_idx", PVal uint32_t);
      ("vf_handle", PTo false (PVal amdsmi_vf_handle_t)) ]
    [ ("processor_handle", In_); ("fcn_idx", In_); ("vf_handle", Out_) ].

Definition amdsmi_get_vf_handle_from_uuid : proto :=
  Proto (TEnum (enum_values amdsmi_status_t))
    [ ("uuid", PTo true (PVal char_t));
      ("vf_handle", PTo false (PVal amdsmi_vf_handle_t)) ]
    [ ("uuid", In_); ("vf_handle", Out_) ].

Definition amdsmi_get_processor_handle_from_uuid : proto :=
  Proto (TEnum (enum_values amdsmi_status_t))
    [ ("uuid", PTo true (PVal char_t));
      ("processor_handle", PTo false (PVal amdsmi_processor_handle)) ]
    [ ("uuid", In_); ("processor_handle", Out_) ].

Definition amdsmi_get_gpu_device_uuid : proto :=
  Proto (TEnum (enum_values amdsmi_status_t))
    [ ("processor_handle", PVal amdsmi_processor_handle);
      ("uuid_length", PTo false (PVal unsigned_int_t));
      ("uuid", PTo false (PVal char_t)) ]
    [ ("processor_handle", In_); ("uuid_length", InOut); ("uuid", Out_) ].

Definition amdsmi_get_vf_uuid : proto :=
  Proto (TEnum (enum_values amdsmi_status_t))
    [ ("processor_handle", PVal amdsmi_vf_handle_t);
      ("uuid_length", PTo false (PVal unsigned_int_t));
      ("uuid", PTo false (PVal char_t)) ]
    [ ("processor_handle", In_); ("uuid_length", InOut); ("uuid", Out_) ].

Definition amdsmi_get_gpu_virtualization_mode : proto :=
  Proto (TEnum (enum_values amdsmi_status_t))
    [ ("processor_handle", PVal amdsmi_processor_handle);
      ("mode", PTo false (PVal (TEnum (enum_values amdsmi_virtualization_mode_t)))) ]
    [ ("processor_handle", In_); ("mode", Out_) ].

Definition amdsmi_get_gpu_driver_info : proto :=
  Proto (TEnum (enum_values amdsmi_status_t))
    [ ("processor_handle", PVal amdsmi_processor_handle);
      ("info", PTo false (PVal amdsmi_driver_info_t)) ]
    [ ("processor_handle", In_); ("info", Out_) ].

Definition amdsmi_get_gpu_driver_model : proto :=
  Proto (TEnum (enum_values amdsmi_status_t))
    [ ("processor_handle", PVal amdsmi_processor_handle);
      ("model", PTo false (PVal (TEnum (enum_values amdsmi_driver_model_type_t)))) ]
    [ ("processor_handle", In_); ("model", Out_) ].

Definition amdsmi_get_lib_version : proto :=
  Proto (TEnum (enum_values amdsmi_status_t))
    [ ("version", PTo false (PVal amdsmi_version_t)) ]
    [ ("version", InOut) ].

Definition amdsmi_get_gpu_asic_info : proto :=
  Proto (TEnum (enum_values amdsmi_status_t))
    [ ("processor_handle", PVal amdsmi_processor_handle);
      ("info", PTo false (PVal amdsmi_asic_info_t)) ]
    [ ("processor_handle", In_); ("info", Out_) ].

Definition amdsmi_get_gpu_vram_info : proto :=
  Proto (TEnum (enum_values amdsmi_status_t))
    [ ("processor_handle", PVal amdsmi_processor_handle);
      ("info", PTo false (PVal amdsmi_vram_info_t)) ]
    [ ("processor_handle", In_); ("info", Out_) ].

Definition amdsmi_get_power_cap_info : proto :=
  Proto (TEnum (enum_values amdsmi_status_t))
    [ ("processor_handle", PVal amdsmi_processor_handle);
      ("sensor_ind", PVal uint32_t);
      ("info", PTo false (PVal amdsmi_power_cap_info_t)) ]
    [ ("processor_handle", In_); ("sensor_ind", In_); ("info", Out_) ].

Definition amdsmi_get_pcie_info : proto :=
  Proto (TEnum (enum_values amdsmi_status_t))
    [ ("processor_handle", PVal amdsmi_processor_handle);
      ("info", PTo false (PVal amdsmi_pcie_info_t)) ]
    [ ("processor_handle", In_); ("info", Out_) ].

Definition amdsmi_get_fb_layout : proto :=
  Proto (TEnum (enum_values amdsmi_status_t))
    [ ("processor_handle", PVal amdsmi_processor_handle);
      ("info", PTo false (PVal amdsmi_pf_fb_info_t)) ]
    [ ("processor_handle", In_); ("info", Out_) ].

Definition amdsmi_get_gpu_vbios_info : proto :=
  Proto (TEnum (enum_values amdsmi_status_t))
    [ ("processor_handle", PVal amdsmi_processor_handle);
      ("info", PTo false (PVal amdsmi_vbios_info_t)) ]
    [ ("processor_handle", In_); ("info", Out_) ].

Definition amdsmi_get_gpu_board_info : proto :=
  Proto (TEnum (enum_values amdsmi_status_t))
    [ ("processor_handle", PVal amdsmi_processor_handle);
      ("info", PTo false (PVal amdsmi_board_info_t)) ]
    [ ("processor_handle", In_); ("info", Out_) ].

Definition amdsmi_get_fw_info : proto :=
  Proto (TEnum (enum_values amdsmi_status_t))
    [ ("processor_handle", PVal amdsmi_processor_handle);
      ("info", PTo false (PVal amdsmi_fw_info_t)) ]
    [ ("processor_handle", In_); ("info", Out_) ].

Definition amdsmi_get_fw_error_records : proto :=
  Proto (TEnum (enum_values amdsmi_status_t))
    [ ("processor_handle", PVal amdsmi_processor_handle);
      ("records", PTo false (PVal amdsmi_fw_error_record_t)) ]
    [ ("processor_handle", In_); ("records", Out_) ].

Definition amdsmi_get_dfc_fw_table : proto :=
  Proto (TEnum (enum_values amdsmi_status_t))
    [ ("processor_handle", PVal amdsmi_processor_handle);
      ("info", PTo false (PVal amdsmi_dfc_fw_t)) ]
    [ ("processor_handle", In_); ("info", Out_) ].

Definition amdsmi_get_gpu_activity : proto :=
  Proto (TEnum (enum_values amdsmi_status_t))
    [ ("processor_handle", PVal amdsmi_processor_handle);
      ("info", PTo false (PVal amdsmi_engine_usage_t)) ]
    [ ("processor_handle", In_); ("info", Out_) ].

Definition amdsmi_get_power_info : proto :=
  Proto (TEnum (enum_values amdsmi_status_t))
    [ ("processor_handle", PVal amdsmi_processor_handle);
      ("sensor_ind", PVal uint32_t);
      ("info", PTo false (PVal amdsmi_power_info_t)) ]
    [ ("processor_handle", In_); ("sensor_ind", In_); ("info", Out_) ].

Definition amdsmi_set_power_cap : proto :=
  Proto (TEnum (enum_values amdsmi_status_t))
    [ ("processor_handle", PVal amdsmi_processor_handle);
      ("sensor_ind", PVal uint32_t);
      ("cap", PVal uint64_t) ]
    [ ("processor_handle", In_); ("sensor_ind", In_); ("cap", In_) ].

Definition amdsmi_is_gpu_power_management_enabled : proto :=
  Proto (TEnum (enum_values amdsmi_status_t))
    [ ("processor_handle", PVal amdsmi_processor_handle);
      ("enabled", PTo false (PVal TBool)) ]
    [ ("processor_handle", In_); ("enabled", Out_) ].

Definition amdsmi_get_clock_info : proto :=
  Proto (TEnum (enum_values amdsmi_status_t))
    [ ("processor_handle", PVal amdsmi_processor_handle);
      ("clk_type", PVal (TEnum (enum_values amdsmi_clk_type_t)));
      ("info", PTo false (PVal amdsmi_clk_info_t)) ]
    [ ("processor_handle", In_); ("clk_type", In_); ("info", Out_) ].

Definition amdsmi_get_temp_metric : proto :=
  Proto (TEnum (enum_values amdsmi_status_t))
    [ ("processor_handle", PVal amdsmi_processor_handle);
      ("sensor_type", PVal (TEnum (enum_values amdsmi_temperature_type_t)));
      ("metric", PVal (TEnum (enum_values amdsmi_temperature_metric_t)));
      ("temperature", PTo false (PVal int64_t)) ]
    [ ("processor_handle", In_); ("sensor_type", In_); ("metric", In_); ("temperature", Out_) ].

Definition amdsmi_get_gpu_cache_info : proto :=
  Proto (TEnum (enum_values amdsmi_status_t))
    [ ("processor_handle", PVal amdsmi_processor_handle);
      ("info", PTo false (PVal amdsmi_gpu_cache_info_t)) ]
    [ ("processor_handle", In_); ("info", Out_) ].

Definition amdsmi_get_gpu_metrics : proto :=
  Proto (TEnum (enum_values amdsmi_status_t))
    [ ("processor_handle", PVal amdsmi_processor_handle);
      ("metrics_size", PTo false (PVal uint32_t));
      ("metrics", PTo false (PVal amdsmi_metric_t)) ]
    [ ("processor_handle", In_); ("metrics_size", InOut); ("metrics", Out_) ].

Definition amdsmi_get_soc_pstate : proto :=
  Proto (TEnum (enum_values amdsmi_status_t))
    [ ("processor_handle", PVal amdsmi_processor_handle);
      ("policy", PTo false (PVal amdsmi_dpm_policy_t)) ]
    [ ("processor_handle", In_); ("policy", Out_) ].

Definition amdsmi_set_soc_pstate : proto :=
  Proto (TEnum (enum_values amdsmi_status_t))
    [ ("processor_handle", PVal amdsmi_processor_handle);
      ("policy_id", PVal uint32_t) ]
    [ ("processor_handle", In_); ("policy_id", In_) ].

Definition amdsmi_get_gpu_total_ecc_count : proto :=
  Proto (TEnum (enum_values amdsmi_status_t))
    [ ("processor_handle", PVal amdsmi_processor_handle);
      ("ec", PTo false (PVal amdsmi_error_count_t)) ]
    [ ("processor_handle", In_); ("ec", Out_) ].

Definition amdsmi_get_gpu_ecc_count : proto :=
  Proto (TEnum (enum_values amdsmi_status_t))
    [ ("processor_handle", PVal amdsmi_processor_handle);
      ("block", PVal (TEnum (enum_values amdsmi_gpu_block_t)));
      ("ec", PTo false (PVal amdsmi_error_count_t)) ]
    [ ("processor_handle", In_); ("block", In_); ("ec", Out_) ].

Definition amdsmi_get_gpu_ecc_enabled : proto :=
  Proto (TEnum (enum_values amdsmi_status_t))
    [ ("processor_handle", PVal amdsmi_processor_handle);
      ("enabled_blocks", PTo false (PVal uint64_t)) ]
    [ ("processor_handle", In_); ("enabled_blocks", InOut) ].

Definition amdsmi_get_gpu_bad_page_info : proto :=
  Proto (TEnum (enum_values amdsmi_status_t))
    [ ("processor_handle", PVal amdsmi_processor_handle);
      ("bad_page_size", PTo false (PVal uint32_t));
      ("bad_pages", PTo false (PVal amdsmi_eeprom_table_record_t)) ]
    [ ("processor_handle", In_); ("bad_page_size", InOut); ("bad_pages", Out_) ].

Definition amdsmi_get_gpu_ras_feature_info : proto :=
  Proto (TEnum (enum_values amdsmi_status_t))
    [ ("processor_handle", PVal amdsmi_processor_handle);
      ("ras_feature", PTo false (PVal amdsmi_ras_feature_t)) ]
    [ ("processor_handle", In_); ("ras_feature", Out_) ].

Definition amdsmi_get_bad_page_threshold : proto :=
  Proto (TEnum (enum_values amdsmi_status_t))
    [ ("processor_handle", PVal amdsmi_processor_handle);
      ("threshold", PTo false (PVal uint32_t)) ]
    [ ("processor_handle", In_); ("threshold", InOut) ].

Definition amdsmi_get_num_vf : proto :=
  Proto (TEnum (enum_values amdsmi_status_t))
    [ ("processor_handle", PVal amdsmi_processor_handle);
      ("num_vf_enabled", PTo false (PVal uint32_t));
      ("num_vf_supported", PTo false (PVal uint32_t)) ]
    [ ("processor_handle", In_); ("num_vf_enabled", Out_); ("num_vf_supported", Out_) ].

Definition amdsmi_set_num_vf : proto :=
  Proto (TEnum (enum_values amdsmi_status_t))
    [ ("processor_handle", PVal amdsmi_processor_handle);
      ("num_vf", PVal uint32_t) ]
    [ ("processor_handle", In_); ("num_vf", In_) ].

Definition amdsmi_get_vf_partition_info : proto :=
  Proto (TEnum (enum_values amdsmi_status_t))
    [ ("processor_handle", PVal amdsmi_processor_handle);
      ("vf_buffer_num", PVal unsigned_int_t);
      ("info", PTo false (PVal amdsmi_partition_info_t)) ]
    [ ("processor_handle", In_); ("vf_buffer_num", In_); ("info", Out_) ].

Definition amdsmi_get_vf_info : proto :=
  Proto (TEnum (enum_values amdsmi_status_t))
    [ ("vf_handle", PVal amdsmi_vf_handle_t);
      ("config", PTo false (PVal amdsmi_vf_info_t)) ]
    [ ("vf_handle", In_); ("config", Out_) ].

Definition amdsmi_get_vf_data : proto :=
  Proto (TEnum (enum_values amdsmi_status_t))
    [ ("vf_handle", PVal amdsmi_vf_handle_t);
      ("info", PTo false (PVal amdsmi_vf_data_t)) ]
    [ ("vf_handle", In_); ("info", Out_) ].

Definition amdsmi_event_create : proto :=
  Proto (TEnum (enum_values amdsmi_status_t))
    [ ("processor_list", PTo false (PVal amdsmi_processor_handle));
      ("num_devices", PVal uint32_t);
      ("event_types", PVal uint64_t);
      ("set", PTo false (PVal amdsmi_event_set)) ]
    [ ("processor_list", In_); ("num_devices", In_); ("event_types", In_); ("set", Out_) ].

Definition amdsmi_event_read : proto :=
  Proto (TEnum (enum_values amdsmi_status_t))
    [ ("set", PVal amdsmi_event_set);
      ("timeout_usec", PVal int64_t);
      ("event", PTo false (PVal amdsmi_event_entry_t)) ]
    [ ("set", In_); ("timeout_usec", In_); ("event", Out_) ].

Definition amdsmi_event_destroy : proto :=
  Proto (TEnum (enum_values amdsmi_status_t))
    [ ("set", PVal amdsmi_event_set) ]
    [ ("set", In_) ].

Definition amdsmi_get_guest_data : proto :=
  Proto (TEnum (enum_values amdsmi_status_t))
    [ ("vf_handle", PVal amdsmi_vf_handle_t);
      ("info", PTo false (PVal amdsmi_guest_data_t)) ]
    [ ("vf_handle", In_); ("info", Out_) ].

Definition amdsmi_get_vf_fw_info : proto :=
  Proto (TEnum (enum_values amdsmi_status_t))
    [ ("vf_handle", PVal amdsmi_vf_handle_t);
      ("info", PTo false (PVal amdsmi_fw_info_t)) ]
    [ ("vf_handle", In_); ("info", Out_) ].

Definition amdsmi_get_partition_profile_info : proto :=
  Proto (TEnum (enum_values amdsmi_status_t))
    [ ("processor_handle", PVal amdsmi_processor_handle);
      ("profile_info", PTo false (PVal amdsmi_profile_info_t)) ]
    [ ("processor_handle", In_); ("profile_info", Out_) ].

Definition amdsmi_get_link_metrics : proto :=
  Proto (TEnum (enum_values amdsmi_status_t))
    [ ("processor_handle", PVal amdsmi_processor_handle);
      ("link_metrics", PTo false (PVal amdsmi_link_metrics_t)) ]
    [ ("processor_handle", In_); ("link_metrics", Out_) ].

Definition amdsmi_get_link_topology : proto :=
  Proto (TEnum (enum_values amdsmi_status_t))
    [ ("processor_handle_src", PVal amdsmi_processor_handle);
      ("processor_handle_dst", PVal amdsmi_processor_handle);
      ("topology_info", PTo false (PVal amdsmi_link_topology_t)) ]
    [ ("processor_handle_src", In_); ("processor_handle_dst", In_); ("topology_info", Out_) ].

Definition amdsmi_get_link_topology_nearest : proto :=
  Proto (TEnum (enum_values amdsmi_status_t))
    [ ("processor_handle", PVal amdsmi_processor_handle);
      ("link_type", PVal (TEnum (enum_values amdsmi_link_type_t)));
      ("topology_nearest_info", PTo false (PVal amdsmi_topology_nearest_t)) ]
    [ ("processor_handle", In_); ("link_type", In_); ("topology_nearest_info", InOut);
      (".processor_list", Out_) ].

Definition amdsmi_get_xgmi_fb_sharing_caps : proto :=
  Proto (TEnum (enum_values amdsmi_status_t))
    [ ("processor_handle", PVal amdsmi_processor_handle);
      ("caps", PTo false (PVal amdsmi_xgmi_fb_sharing_caps_t)) ]
    [ ("processor_handle", In_); ("caps", Out_) ].

Definition amdsmi_get_xgmi_fb_sharing_mode_info : proto :=
  Proto (TEnum (enum_values amdsmi_status_t))
    [ ("processor_handle_src", PVal amdsmi_processor_handle);
      ("processor_handle_dst", PVal amdsmi_processor_handle);
      ("mode", PVal (TEnum (enum_values amdsmi_xgmi_fb_sharing_mode_t)));
      ("fb_sharing", PTo false (PVal uint8_t)) ]
    [ ("processor_handle_src", In_);
      ("processor_handle_dst", In_);
      ("mode", In_);
      ("fb_sharing", Out_) ].

Definition amdsmi_set_xgmi_fb_sharing_mode : proto :=
  Proto (TEnum (enum_values amdsmi_status_t))
    [ ("processor_handle", PVal amdsmi_processor_handle);
      ("mode", PVal (TEnum (enum_values amdsmi_xgmi_fb_sharing_mode_t))) ]
    [ ("processor_handle", In_); ("mode", In_) ].

Definition amdsmi_set_xgmi_fb_sharing_mode_v2 : proto :=
  Proto (TEnum (enum_values amdsmi_status_t))
    [ ("processor_list", PTo false (PVal amdsmi_processor_handle));
      ("num_processors", PVal uint32_t);
      ("mode", PVal (TEnum (enum_values amdsmi_xgmi_fb_sharing_mode_t))) ]
    [ ("processor_list", In_); ("num_processors", In_); ("mode", In_) ].

Definition amdsmi_topo_get_p2p_status : proto :=
  Proto (TEnum (enum_values amdsmi_status_t))
    [ ("processor_handle_src", PVal amdsmi_processor_handle);
      ("processor_handle_dst", PVal amdsmi_processor_handle);
      ("type", PTo false (PVal (TEnum (enum_values amdsmi_link_type_t))));
      ("cap", PTo false (PVal amdsmi_p2p_capability_t)) ]
    [ ("processor_handle_src", In_);
      ("processor_handle_dst", In_);
      ("type", InOut);
      ("cap", InOut) ].

Definition amdsmi_clear_vf_fb : proto :=
  Proto (TEnum (enum_values amdsmi_status_t))
    [ ("vf_handle", PVal amdsmi_vf_handle_t) ]
    [ ("vf_handle", In_) ].

Definition amdsmi_status_code_to_string : proto :=
  Proto (TEnum (enum_values amdsmi_status_t))
    [ ("status", PVal (TEnum (enum_values amdsmi_status_t)));
      ("status_string", PTo false (PTo true (PVal char_t))) ]
    [ ("status", In_); ("status_string", InOut) ].

Definition amdsmi_get_gpu_memory_partition_config : proto :=
  Proto (TEnum (enum_values amdsmi_status_t))
    [ ("processor_handle", PVal amdsmi_processor_handle);
      ("config", PTo false (PVal amdsmi_memory_partition_config_t)) ]
    [ ("processor_handle", In_); ("config", Out_) ].

Definition amdsmi_set_gpu_memory_partition_mode : proto :=
  Proto (TEnum (enum_values amdsmi_status_t))
    [ ("processor_handle", PVal amdsmi_processor_handle);
      ("mode", PVal (TEnum (enum_values amdsmi_memory_partition_type_t))) ]
    [ ("processor_handle", In_); ("mode", In_) ].

Definition amdsmi_get_gpu_accelerator_partition_profile_config : proto :=
  Proto (TEnum (enum_values amdsmi_status_t))
    [ ("processor_handle", PVal amdsmi_processor_handle);
      ("profile_config", PTo false (PVal amdsmi_accelerator_partition_profile_config_t)) ]
    [ ("processor_handle", In_); ("profile_config", Out_) ].

Definition amdsmi_get_gpu_accelerator_partition_profile : proto :=
  Proto (TEnum (enum_values amdsmi_status_t))
    [ ("processor_handle", PVal amdsmi_processor_handle);
      ("profile", PTo false (PVal amdsmi_accelerator_partition_profile_t));
      ("partition_id", PTo false (PVal uint32_t)) ]
    [ ("processor_handle", In_); ("profile", Out_); ("partition_id", Out_) ].

Definition amdsmi_set_gpu_accelerator_partition_profile : proto :=
  Proto (TEnum (enum_values amdsmi_status_t))
    [ ("processor_handle", PVal amdsmi_processor_handle);
      ("profile_index", PVal uint32_t) ]
    [ ("processor_handle", In_); ("profile_index", In_) ].

Definition amdsmi_get_gpu_cper_entries : proto :=
  Proto (TEnum (enum_values amdsmi_status_t))
    [ ("processor_handle", PVal amdsmi_processor_handle);
      ("severity_mask", PVal uint32_t);
      ("cper_data", PTo false (PVal char_t));
      ("buf_size", PTo false (PVal uint64_t));
      ("cper_hdrs", PTo false (PTo false (PVal amdsmi_cper_hdr_t)));
      ("entry_count", PTo false (PVal uint64_t));
      ("cursor", PTo false (PVal uint64_t)) ]
    [ ("processor_handle", In_);
      ("severity_mask", In_);
      ("cper_data", InOut);
      ("buf_size", InOut);
      ("cper_hdrs", InOut);
      ("entry_count", InOut);
      ("cursor", InOut) ].

Definition amdsmi_get_afids_from_cper : proto :=
  Proto (TEnum (enum_values amdsmi_status_t))
    [ ("cper_buffer", PTo false (PVal char_t));
      ("buf_size", PVal uint32_t);
      ("afids", PTo false (PVal uint64_t));
      ("num_afids", PTo false (PVal uint32_t)) ]
    [ ("cper_buffer", In_); ("buf_size", In_); ("afids", Out_); ("num_afids", InOut) ].

Definition amdsmi_reset_gpu : proto :=
  Proto (TEnum (enum_values amdsmi_status_t))
    [ ("processor_handle", PVal amdsmi_processor_handle) ]
    [ ("processor_handle", In_) ].

(** Every function the header declares, by name. *)
Definition gim_functions : list (string * proto) :=
  [ ("amdsmi_init", amdsmi_init);
    ("amdsmi_shut_down", amdsmi_shut_down);
    ("amdsmi_get_processor_handles", amdsmi_get_processor_handles);
    ("amdsmi_get_processor_type", amdsmi_get_processor_type);
    ("amdsmi_get_socket_handles", amdsmi_get_socket_handles);
    ("amdsmi_get_socket_info", amdsmi_get_socket_info);
    ("amdsmi_get_processor_handle_from_bdf", amdsmi_get_processor_handle_from_bdf);
    ("amdsmi_get_index_from_processor_handle", amdsmi_get_index_from_processor_handle);
    ("amdsmi_get_vf_handle_from_bdf", amdsmi_get_vf_handle_from_bdf);
    ("amdsmi_get_gpu_device_bdf", amdsmi_get_gpu_device_bdf);
    ("amdsmi_get_processor_handle_from_index", amdsmi_get_processor_handle_from_index);
    ("amdsmi_get_vf_bdf", amdsmi_get_vf_bdf);
    ("amdsmi_get_vf_handle_from_vf_index", amdsmi_get_vf_handle_from_vf_index);
    ("amdsmi_get_vf_handle_from_uuid", amdsmi_get_vf_handle_from_uuid);
    ("amdsmi_get_processor_handle_from_uuid", amdsmi_get_processor_handle_from_uuid);
    ("amdsmi_get_gpu_device_uuid", amdsmi_get_gpu_device_uuid);
    ("amdsmi_get_vf_uuid", amdsmi_get_vf_uuid);
    ("amdsmi_get_gpu_virtualization_mode", amdsmi_get_gpu_virtualization_mode);
    ("amdsmi_get_gpu_driver_info", amdsmi_get_gpu_driver_info);
    ("amdsmi_get_gpu_driver_model", amdsmi_get_gpu_driver_model);
    ("amdsmi_get_lib_version", amdsmi_get_lib_version);
    ("amdsmi_get_gpu_asic_info", amdsmi_get_gpu_asic_info);
    ("amdsmi_get_gpu_vram_info", amdsmi_get_gpu_vram_info);
    ("amdsmi_get_power_cap_info", amdsmi_get_power_cap_info);
    ("amdsmi_get_pcie_info", amdsmi_get_pcie_info);
    ("amdsmi_get_fb_layout", amdsmi_get_fb_layout);
    ("amdsmi_get_gpu_vbios_info", amdsmi_get_gpu_vbios_info);
    ("amdsmi_get_gpu_board_info", amdsmi_get_gpu_board_info);
    ("amdsmi_get_fw_info", amdsmi_get_fw_info);
    ("amdsmi_get_fw_error_records", amdsmi_get_fw_error_records);
    ("amdsmi_get_dfc_fw_table", amdsmi_get_dfc_fw_table);
    ("amdsmi_get_gpu_activity", amdsmi_get_gpu_activity);
    ("amdsmi_get_power_info", amdsmi_get_power_info);
    ("amdsmi_set_power_cap", amdsmi_set_power_cap);
    ("amdsmi_is_gpu_power_management_enabled", amdsmi_is_gpu_power_management_enabled);
    ("amdsmi_get_clock_info", amdsmi_get_clock_info);
    ("amdsmi_get_temp_metric", amdsmi_get_temp_metric);
    ("amdsmi_get_gpu_cache_info", amdsmi_get_gpu_cache_info);
    ("amdsmi_get_gpu_metrics", amdsmi_get_gpu_metrics);
    ("amdsmi_get_soc_pstate", amdsmi_get_soc_pstate);
    ("amdsmi_set_soc_pstate", amdsmi_set_soc_pstate);
    ("amdsmi_get_gpu_total_ecc_count", amdsmi_get_gpu_total_ecc_count);
    ("amdsmi_get_gpu_ecc_count", amdsmi_get_gpu_ecc_count);
    ("amdsmi_get_gpu_ecc_enabled", amdsmi_get_gpu_ecc_enabled);
    ("amdsmi_get_gpu_bad_page_info", amdsmi_get_gpu_bad_page_info);
    ("amdsmi_get_gpu_ras_feature_info", amdsmi_get_gpu_ras_feature_info);
    ("amdsmi_get_bad_page_threshold", amdsmi_get_bad_page_threshold);
    ("amdsmi_get_num_vf", amdsmi_get_num_vf);
    ("amdsmi_set_num_vf", amdsmi_set_num_vf);
    ("amdsmi_get_vf_partition_info", amdsmi_get_vf_partition_info);
    ("amdsmi_get_vf_info", amdsmi_get_vf_info);
    ("amdsmi_get_vf_data", amdsmi_get_vf_data);
    ("amdsmi_event_create", amdsmi_event_create);
    ("amdsmi_event_read", amdsmi_event_read);
    ("amdsmi_event_destroy", amdsmi_event_destroy);
    ("amdsmi_get_guest_data", amdsmi_get_guest_data);
    ("amdsmi_get_vf_fw_info", amdsmi_get_vf_fw_info);
    ("amdsmi_get_partition_profile_info", amdsmi_get_partition_profile_info);
    ("amdsmi_get_link_metrics", amdsmi_get_link_metrics);
    ("amdsmi_get_link_topology", amdsmi_get_link_topology);
    ("amdsmi_get_link_topology_nearest", amdsmi_get_link_topology_nearest);
    ("amdsmi_get_xgmi_fb_sharing_caps", amdsmi_get_xgmi_fb_sharing_caps);
    ("amdsmi_get_xgmi_fb_sharing_mode_info", amdsmi_get_xgmi_fb_sharing_mode_info);
    ("amdsmi_set_xgmi_fb_sharing_mode", amdsmi_set_xgmi_fb_sharing_mode);
    ("amdsmi_set_xgmi_fb_sharing_mode_v2", amdsmi_set_xgmi_fb_sharing_mode_v2);
    ("amdsmi_topo_get_p2p_status", amdsmi_topo_get_p2p_status);
    ("amdsmi_clear_vf_fb", amdsmi_clear_vf_fb);
    ("amdsmi_status_code_to_string", amdsmi_status_code_to_string);
    ("amdsmi_get_gpu_memory_partition_config", amdsmi_get_gpu_memory_partition_config);
    ("amdsmi_set_gpu_memory_partition_mode", amdsmi_set_gpu_memory_partition_mode);
    ("amdsmi_get_gpu_accelerator_partition_profile_config", amdsmi_get_gpu_accelerator_partition_profile_config);
    ("amdsmi_get_gpu_accelerator_partition_profile", amdsmi_get_gpu_accelerator_partition_profile);
    ("amdsmi_set_gpu_accelerator_partition_profile", amdsmi_set_gpu_accelerator_partition_profile);
    ("amdsmi_get_gpu_cper_entries", amdsmi_get_gpu_cper_entries);
    ("amdsmi_get_afids_from_cper", amdsmi_get_afids_from_cper);
    ("amdsmi_reset_gpu", amdsmi_reset_gpu) ].

End GimF.
