(* ===== verification/ApiCompat.v ===== *)
(** The functions of both SMI headers: their comments against their
    prototypes, where the arguments of a call go, and what a caller compiled
    against one header gets from a library built from the other.  All
    statements are about every function a header declares. *)

From S2P Require Import Prelude CAbi CEnum SmiEnums SmiTypes GimEnums GimTypes CProto SmiApi GimApi.
Import SmiApi.SmiF GimApi.GimF.
Local Open Scope Z_scope.

Definition all_functions : list (string * proto) := smi_functions ++ gim_functions.

(** Parameters documented as inputs although the function could write
    through them. *)
Definition unclear_inputs : list (string * list string) :=
  [ ("amdsmi_get_processor_count_from_handles", ["processor_handles"; "processor_count"]);
    ("amdsmi_get_afids_from_cper", ["cper_buffer"]);
    ("amdsmi_set_cpu_dfc_ctrl", ["dfc_ctrl"]);
    ("amdsmi_get_cpu_enabled_commands", ["r_mask"]);
    ("amdsmi_event_create", ["processor_list"]);
    ("amdsmi_set_xgmi_fb_sharing_mode_v2", ["processor_list"]) ].

Definition unclear (f : string) : list string :=
  mjoin (snd <$> filter (λ x, x.1 = f) unclear_inputs).

(** What the comment of a function of the host header names besides its
    parameters: a member of the structure its last parameter points to. *)
Definition extra_documents (f : string) : list string :=
  if decide (f = "amdsmi_get_link_topology_nearest") then [".processor_list"] else [].

(** C39: The comments of the 307 functions of both headers against their
    prototypes.  Those of the bare-metal header document exactly the
    parameters, in order; those of the host header too, but for
    [amdsmi_get_link_topology_nearest], whose comment documents the member
    [.processor_list] as one more result.  Every parameter documented as a
    result is a pointer to something that may be written, and the parameters
    that are documented as inputs but may be written are exactly those of
    [unclear_inputs]. *)
Theorem documented_parameters :
  length all_functions = 307%nat ∧
  Forall (λ f, documents f.2) smi_functions ∧
  Forall (λ f, (p_docs f.2).*1 = (p_params f.2).*1 ++ extra_documents f.1) gim_functions ∧
  Forall (λ f, Forall (λ t, writable t = true) (outputs f.2) ∧ writable_inputs f.2 = unclear f.1) all_functions.
Proof. split; [reflexivity|]. split_and!; by_decide. Qed.

(** ** Calls *)

Lemma sizes_nonneg : Forall (λ f, Forall (λ p, 0 <= pty_size p) (p_params f.2).*2) all_functions.
Proof. by_decide. Qed.

Lemma layouts_known : Forall (λ f, is_Some (call_layout f.2)) all_functions.
Proof. by_decide. Qed.

Definition in_registers (l : loc) : bool := match l with Registers _ _ => true | _ => false end.

Lemma registers_known : Forall (λ f,
  option_map (filter (λ l, in_registers l = false)) (call_layout f.2) =
  Some (if decide (f.1 = "amdsmi_get_gpu_cper_entries") then [StackSlots 0 1] else [])) all_functions.
Proof. by_decide. Qed.

(** In a call of any function of the headers every argument has a place of
    its own in the six integer registers or on the stack: no function takes a
    floating-point number by value, no two arguments share a register or a
    stack slot, and only [amdsmi_get_gpu_cper_entries] needs the stack, for
    the last of its seven arguments. *)
Theorem arguments_in_place f p (Hf : (f, p) ∈ all_functions) :
  ∃ ls, call_layout p = Some ls ∧ length ls = length (p_params p) ∧ NoDup (ls ≫= places) ∧
    (∀ l r, l ∈ ls → (true, r) ∈ places l → 0 <= r < 6) ∧
    filter (λ l, in_registers l = false) ls =
      if decide (f = "amdsmi_get_gpu_cper_entries") then [StackSlots 0 1] else [].
Proof.
  pose proof (proj1 (Forall_forall _ _) sizes_nonneg _ Hf) as Hs.
  pose proof (proj1 (Forall_forall _ _) layouts_known _ Hf) as [ls Hls].
  pose proof (proj1 (Forall_forall _ _) registers_known _ Hf) as Hr. cbn [fst snd] in *.
  rewrite Hls in Hr. exists ls. split; [done|]. revert Hls. unfold call_layout.
  destruct (forallb _ _); [|done]. intros [= <-].
  destruct (assign_places 0 0 (p_params p).*2 ltac:(lia) ltac:(lia) Hs) as [Hin Hnd].
  split; [by rewrite length_assign, length_fmap|]. split; [done|]. split.
  - intros l r Hl Hx. rewrite Forall_forall in Hin. apply (Hin l Hl (true, r) Hx).
  - by injection Hr.
Qed.

(** Functions that take a larger object by the one header than by the
    other, with the two sizes. *)
Definition resized : list (string * (Z * Z)) :=
  [ ("amdsmi_get_gpu_driver_info", (768, 1088));
    ("amdsmi_get_lib_version", (24, 12));
    ("amdsmi_get_gpu_asic_info", (896, 1408));
    ("amdsmi_get_gpu_vram_info", (584, 64));
    ("amdsmi_get_gpu_vbios_info", (1568, 1344));
    ("amdsmi_get_fw_info", (2600, 2624));
    ("amdsmi_get_power_info", (192, 64));
    ("amdsmi_get_soc_pstate", (8328, 2112));
    ("amdsmi_get_gpu_bad_page_info", (24, 32));
    ("amdsmi_get_gpu_ras_feature_info", (16, 32));
    ("amdsmi_get_link_topology_nearest", (2176, 384));
    ("amdsmi_topo_get_p2p_status", (5, 32)) ].

(** The last of the objects a call hands over. *)
Definition last_buffer (p : proto) : option Z := last (omap id (buffers p)) ≫= id.

Definition resized_as (f : string) (s g : proto) : Prop :=
  if decide (f ∈ resized.*1) then
    match last_buffer s, last_buffer g with
    | Some a, Some b => (f, (a, b)) ∈ resized
    | _, _ => False
    end
  else buffers s = buffers g.
#[export] Instance resized_as_dec f s g : Decision (resized_as f s g).
Proof. unfold resized_as. repeat case_match; apply _. Defined.

Definition agrees (x y : string * proto) : Prop :=
  if decide (x.1 = y.1) then
    (call_layout x.2 = call_layout y.2 ↔ x.1 ≠ "amdsmi_get_power_info") ∧ resized_as x.1 x.2 y.2
  else True.
#[export] Instance agrees_dec x y : Decision (agrees x y).
Proof. unfold agrees. case_decide; apply _. Defined.

Lemma common_known : Forall (λ x, Forall (agrees x) gim_functions) smi_functions.
Proof. by_decide. Qed.

(** A caller compiled against the header for bare metal and a library built
    from the header of the host agree on where the arguments of every common
    function are, [amdsmi_get_power_info] alone excepted, which has one
    argument more on the host.  They agree on the size of the objects the
    caller hands over for all common functions but those of [resized]; for
    six of them the library would write past the object of the caller. *)
Theorem common_calls_agree f s g (Hs : (f, s) ∈ smi_functions) (Hg : (f, g) ∈ gim_functions) :
  (call_layout s = call_layout g ↔ f ≠ "amdsmi_get_power_info") ∧
  (f ∉ resized.*1 → buffers s = buffers g) ∧
  (f ∈ resized.*1 → ∃ a b, last_buffer s = Some a ∧ last_buffer g = Some b ∧ (f, (a, b)) ∈ resized) ∧
  length (filter (λ x, x.2.1 < x.2.2) resized) = 6%nat.
Proof.
  pose proof (proj1 (Forall_forall _ _) common_known _ Hs) as Hc. cbn beta in Hc.
  pose proof (proj1 (Forall_forall _ _) Hc _ Hg) as Ha. unfold agrees in Ha.
  rewrite decide_True in Ha by done. destruct Ha as [Hl Hr]. cbn [fst snd] in *.
  split; [done|]. unfold resized_as in Hr. split; [|split; [|reflexivity]].
  - intros Hf. by rewrite decide_False in Hr.
  - intros Hf. rewrite decide_True in Hr by done.
    destruct (last_buffer s) as [a|], (last_buffer g) as [b|]; [|done..]. by exists a, b.
Qed.

Lemma arguments_in_place_witness :
  ∃ ls, call_layout SmiF.amdsmi_get_gpu_cper_entries = Some ls ∧ NoDup (ls ≫= places).
Proof.
  destruct (arguments_in_place "amdsmi_get_gpu_cper_entries" SmiF.amdsmi_get_gpu_cper_entries)
    as (ls & Hls & _ & Hnd & _).
  - apply (list_elem_of_lookup_2 _ 90). reflexivity.
  - exists ls. split; [exact Hls|exact Hnd].
Defined.

Lemma common_calls_agree_witness :
  call_layout SmiF.amdsmi_get_lib_version = call_layout GimF.amdsmi_get_lib_version ∧
  ∃ a b, last_buffer SmiF.amdsmi_get_lib_version = Some a ∧
    last_buffer GimF.amdsmi_get_lib_version = Some b ∧ ("amdsmi_get_lib_version", (a, b)) ∈ resized.
Proof.
  destruct (common_calls_agree "amdsmi_get_lib_version" SmiF.amdsmi_get_lib_version
    GimF.amdsmi_get_lib_version) as (Hl & _ & Hr & _).
  - apply (list_elem_of_lookup_2 _ 84). reflexivity.
  - apply (list_elem_of_lookup_2 _ 20). reflexivity.
  - split; [apply Hl; discriminate|]. apply Hr.
    by_decide.
Defined.
