(* ===== verification/AgentClock.v ===== *)
(** The clock readings of the GPU agent, as patched by
    [src/patch/gpuagent/0002-gpuop-907-clock-freq-oob.patch]: the helper
    [current_frequency_mhz] and the clamped vector [find_low_high_frequency]
    builds.  Both read a structure [amdsmi_frequencies_t] the SMI library has
    filled in; here the structure is an arbitrary object of that type, with
    whatever bits the library left in [num_supported] and [current], and a
    subscript outside the array [frequency] makes the reading fail
    ([None]).  The rest of [find_low_high_frequency] and of the agent is in a
    git submodule and is not modelled. *)

From S2P Require Import Prelude CAbi SmiEnums SmiTypes.
Local Open Scope Z_scope.

Module AgentClock.

(** [freq->num_supported], [freq->current], [freq->frequency[i]] *)
Definition num_supported (freq : Z) : option Z :=
  load SmiT.amdsmi_frequencies_t [AField "num_supported"] freq.
Definition current (freq : Z) : option Z :=
  load SmiT.amdsmi_frequencies_t [AField "current"] freq.
Definition frequency (freq i : Z) : option Z :=
  load SmiT.amdsmi_frequencies_t [AField "frequency"; AIndex i] freq.

(** [uint32_t n = (num_supported < MAX) ? num_supported : MAX] *)
Definition clamp_supported (n : Z) : Z :=
  if n <? Smi.AMDSMI_MAX_NUM_FREQUENCIES then n else Smi.AMDSMI_MAX_NUM_FREQUENCIES.

Definition current_frequency_mhz (freq : Z) : option Z :=
  ns ← num_supported freq;
  if ns =? 0 then Some 0
  else
    let n := clamp_supported ns in
    c ← current freq;
    let idx := if c <? n then c else 0 in
    f ← frequency freq idx;
    Some (f / 1000000).

(** The expression the patch removes: [freq.frequency[freq.current]/1000000]. *)
Definition current_frequency_unpatched (freq : Z) : option Z :=
  c ← current freq; f ← frequency freq c; Some (f / 1000000).

(** The vector of [find_low_high_frequency] before and after the sort. *)
Definition frequency_vector (freq : Z) : option (list Z) :=
  ns ← num_supported freq;
  mapM (frequency freq) (seqZ 0 (clamp_supported ns)).

Definition sorted_frequencies (freq : Z) : option (list Z) :=
  f ← frequency_vector freq; Some (merge_sort Z.le f).

(** ** The loads *)

Lemma num_supported_eq freq : num_supported freq = Some (read_bits freq 32 32).
Proof. reflexivity. Qed.

Lemma current_eq freq : current freq = Some (read_bits freq 64 32).
Proof. reflexivity. Qed.

Lemma frequency_eq freq i :
  frequency freq i =
    if (0 <=? i) && (i <? 33) then Some (read_bits freq (128 + (i * 64 + 0)) 64) else None.
Proof.
  unfold frequency, load.
  change (resolve SmiT.amdsmi_frequencies_t [AField "frequency"; AIndex i]) with
    (shift_ref 128 <$> resolve (TArr uint64_t 33) [AIndex i]).
  unfold resolve. by destruct ((0 <=? i) && (i <? 33)).
Qed.

Lemma frequency_inside freq i : 0 <= i < 33 → ∃ f, frequency freq i = Some f ∧ 0 <= f < 2 ^ 64.
Proof.
  intros. rewrite frequency_eq. bool_cases; try lia. eexists. split; [done|].
  by apply read_bits_range.
Qed.

Lemma frequency_outside freq i : 33 <= i → frequency freq i = None.
Proof. intros. rewrite frequency_eq. by bool_cases; try lia. Qed.

Lemma clamp_supported_range n : 0 <= n → 0 <= clamp_supported n <= 33 ∧ clamp_supported n <= n.
Proof.
  unfold clamp_supported, Smi.AMDSMI_MAX_NUM_FREQUENCIES. intros. bool_cases; lia.
Qed.

(** ** Theorems *)

(** the patched reading is defined for every content of the structure
    (no subscript leaves the array) and is 0 when no frequency is
    supported. *)
Theorem current_frequency_total freq :
  (∃ f, current_frequency_mhz freq = Some f ∧ 0 <= f <= (2 ^ 64 - 1) / 1000000) ∧
  (num_supported freq = Some 0 → current_frequency_mhz freq = Some 0).
Proof.
  split.
  2:{ unfold current_frequency_mhz. by intros ->. }
  unfold current_frequency_mhz. rewrite num_supported_eq, current_eq. cbn [mbind option_bind].
  pose proof (read_bits_range freq 32 32 ltac:(lia)).
  pose proof (read_bits_range freq 64 32 ltac:(lia)).
  set (ns := read_bits freq 32 32) in *. set (c := read_bits freq 64 32) in *.
  destruct (clamp_supported_range ns ltac:(lia)).
  destruct (Z.eqb_spec ns 0).
  { exists 0. split; [done|]. split; [lia|]. by apply Z.div_pos. }
  destruct (frequency_inside freq (if c <? clamp_supported ns then c else 0)) as (f & Hf & ?).
  { destruct (Z.ltb_spec c (clamp_supported ns)); lia. }
  rewrite Hf. cbn. eexists. split; [done|]. split; [apply Z.div_pos; lia|].
  apply Z.div_le_mono; lia.
Qed.

(** where the library reports a consistent index the patch changes nothing;
    for an index past the array the old expression reads outside it. *)
Theorem current_frequency_agrees freq ns c :
  num_supported freq = Some ns → current freq = Some c →
  (c < ns ∧ ns <= 33 → current_frequency_mhz freq = current_frequency_unpatched freq) ∧
  (33 <= c → current_frequency_unpatched freq = None).
Proof.
  intros Hn Hc. unfold current_frequency_mhz, current_frequency_unpatched.
  rewrite Hn, Hc. cbn [mbind option_bind].
  assert (0 <= c).
  { rewrite current_eq in Hc. simplify_eq. by apply read_bits_range. }
  split.
  - intros [? ?]. destruct (Z.eqb_spec ns 0); [lia|].
    assert (clamp_supported ns = ns) as ->.
    { unfold clamp_supported, Smi.AMDSMI_MAX_NUM_FREQUENCIES. bool_cases; lia. }
    destruct (Z.ltb_spec c ns); [done|lia].
  - intros. by rewrite frequency_outside.
Qed.

(** the sorted vector is defined for every content of the structure: it
    holds exactly the entries the structure claims, at most the 33 there are,
    in order. *)
Theorem sorted_frequencies_total freq :
  ∃ ns v s, num_supported freq = Some ns ∧ frequency_vector freq = Some v ∧
    sorted_frequencies freq = Some s ∧
    Z.of_nat (length v) = Z.min ns 33 ∧ Permutation s v ∧ StronglySorted Z.le s ∧
    ∀ i, 0 <= i < Z.min ns 33 → frequency freq i = v !! Z.to_nat i.
Proof.
  unfold sorted_frequencies, frequency_vector. rewrite num_supported_eq. cbn [mbind option_bind].
  pose proof (read_bits_range freq 32 32 ltac:(lia)). set (ns := read_bits freq 32 32) in *.
  destruct (clamp_supported_range ns ltac:(lia)) as [? ?].
  assert (clamp_supported ns = Z.min ns 33) as Hmin.
  { unfold clamp_supported, Smi.AMDSMI_MAX_NUM_FREQUENCIES. bool_cases; lia. }
  destruct (mapM (frequency freq) (seqZ 0 (clamp_supported ns))) as [v|] eqn:Hv.
  2:{ apply mapM_None_1, Exists_exists in Hv as (i & Hi%elem_of_seqZ & Hf).
      destruct (frequency_inside freq i) as (? & ? & _); [lia|congruence]. }
  exists ns, v, (merge_sort Z.le v). cbn [mbind option_bind].
  apply mapM_Some in Hv. split_and!; try done.
  - rewrite <- (Forall2_length _ _ _ Hv), length_seqZ. lia.
  - apply merge_sort_Permutation.
  - apply (StronglySorted_merge_sort Z.le).
  - intros i Hi. rewrite Forall2_lookup in Hv. specialize (Hv (Z.to_nat i)).
    rewrite (lookup_seqZ_lt 0 _ (Z.to_nat i)) in Hv by lia. inversion Hv as [? ? Hf Hx He|]; subst.
    rewrite <- Hf. f_equal. lia.
Qed.

(** ** Instances *)

(** One supported frequency, 5 GHz in the first entry, an index far outside
    the array. *)
Definition demo_freq : Z := 2 ^ 32 + 1000 * 2 ^ 64 + 5000000000 * 2 ^ 128.

Lemma current_frequency_total_witness :
  num_supported 0 = Some 0 ∧ current_frequency_mhz 0 = Some 0 ∧
  current_frequency_mhz demo_freq = Some 5000.
Proof.
  split; [reflexivity|]. split; [exact (proj2 (current_frequency_total 0) eq_refl)|].
  vm_compute. reflexivity.
Defined.

Lemma current_frequency_agrees_witness :
  num_supported demo_freq = Some 1 ∧ current demo_freq = Some 1000 ∧
  current_frequency_unpatched demo_freq = None.
Proof.
  split; [vm_compute; reflexivity|]. split; [vm_compute; reflexivity|].
  refine (proj2 (current_frequency_agrees demo_freq 1 1000 _ _) _);
    first [lia | vm_compute; reflexivity].
Defined.

End AgentClock.
