(* ===== verification/RocpSdk.v ===== *)
(** The rocprofiler-sdk as the counter client of [src/rocprofilerclient/] uses
    it, and the monad the client's methods are written in.

    The SDK is a library outside the repository: it is a parameter, a state
    type [S] with the operations of the class [Sdk], one per SDK function the
    client calls.  A call that only queries the SDK does not change its
    state.  What the client relies on beyond the types is stated where it is
    used, as a hypothesis on the class. *)

From S2P Require Import Prelude.
From Stdlib Require Export SpecFloat.
Local Open Scope Z_scope.

(** ** Doubles

    IEEE 754 binary64 as the standard library defines it, with the addition
    the [+=] of the client performs (round to nearest, ties to even). *)

Definition double : Type := spec_float.
Definition d_zero : double := S754_zero false.
Definition d_add : double → double → double := SFadd 53 1024.

(** ** Data of the SDK *)

Inductive rocprofiler_status_t : Type :=
  | ROCPROFILER_STATUS_SUCCESS
  | ROCPROFILER_STATUS_ERROR_EXCEEDS_HW_LIMIT
  | ROCPROFILER_STATUS_OTHER (code : Z).

#[export] Instance status_eq_dec : EqDecision rocprofiler_status_t.
Proof. solve_decision. Defined.

Inductive rocprofiler_agent_version_t : Type :=
  | ROCPROFILER_AGENT_INFO_VERSION_0
  | ROCPROFILER_AGENT_INFO_VERSION_OTHER (v : Z).

Inductive rocprofiler_agent_type_t : Type :=
  | ROCPROFILER_AGENT_TYPE_GPU
  | ROCPROFILER_AGENT_TYPE_OTHER.

#[export] Instance agent_type_eq_dec : EqDecision rocprofiler_agent_type_t.
Proof. solve_decision. Defined.

Record rocprofiler_agent_v0_t : Type := Agent {
  a_id : Z;
  a_type : rocprofiler_agent_type_t;
  gpu_id : Z;
  drm_render_minor : Z;
  logical_node_id : Z;
}.

Record rocprofiler_record_counter_t : Type := Rec {
  rec_id : Z;
  counter_value : double;
}.

Record rocprofiler_record_dimension_info_t : Type := Dim {
  dim_id : Z;
  dim_name : string;
  instance_size : Z;
}.

(** A value-initialized record. *)
Definition rec_zero : rocprofiler_record_counter_t := Rec 0 d_zero.

(** ** The SDK's functions

    A function that reports its results through a callback returns what it
    passes to the callback, [None] when it does not call it.  [start_context]
    receives the profile the client's callback [set_profile] selects, if
    any.  [sample_device_counting_service] receives the capacity of the
    buffer and returns the records it writes to the front of the buffer and
    the value it leaves in [out_size]. *)

Class Sdk (S : Type) : Type := {
  create_context : S → S * (rocprofiler_status_t * Z);
  configure_device_counting_service : Z → Z → S → S * rocprofiler_status_t;
  query_available_agents :
    S → option (rocprofiler_agent_version_t * list rocprofiler_agent_v0_t)
        * rocprofiler_status_t;
  iterate_agent_supported_counters : Z → S → option (list Z) * rocprofiler_status_t;
  query_counter_info : Z → S → rocprofiler_status_t * string;
  iterate_counter_dimensions :
    Z → S → option (list rocprofiler_record_dimension_info_t) * rocprofiler_status_t;
  query_record_counter_id : Z → S → option Z;
  query_record_dimension_position : Z → Z → S → option Z;
  create_profile_config : Z → list Z → S → S * (rocprofiler_status_t * Z);
  create_counter_config : Z → list Z → S → S * (rocprofiler_status_t * Z);
  destroy_profile_config : Z → S → S;
  start_context : Z → option Z → S → S;
  stop_context : Z → S → S;
  sample_device_counting_service :
    Z → Z → S → S * (list rocprofiler_record_counter_t * Z);
}.

(** What the client relies on: a configuration that was created has a handle
    other than 0 (0 is the value the client initializes handles with), and
    the name of a counter, the counter of a record and the agents of the
    system do not change during the life of the process. *)
Class SdkLaws (S : Type) `{Sdk S} : Prop := {
  law_config_nonzero agent ids d :
    (create_counter_config agent ids d).2.1 = ROCPROFILER_STATUS_SUCCESS →
    (create_counter_config agent ids d).2.2 ≠ 0;
  law_info_stable c d d' : query_counter_info c d = query_counter_info c d';
  law_record_stable r d d' : query_record_counter_id r d = query_record_counter_id r d';
  law_agents_stable d d' : query_available_agents d = query_available_agents d';
}.

(** ** Exceptions *)

Inductive exn : Type :=
  | CallFailed (msg : string) (st : rocprofiler_status_t)  (* [RocprofilerCall] *)
  | UnexpectedAgentVersion
  | ProfileSizeMissing
  | OutOfBounds.   (* a subscript outside its vector: undefined behaviour *)

(** A computation over a state that may throw; the state reached so far
    survives the exception. *)
Definition M (St A : Type) : Type := St → (A + exn) * St.

#[export] Instance M_ret St : MRet (M St) := λ A a s, (inl a, s).
#[export] Instance M_bind St : MBind (M St) := λ A B k m s,
  match m s with
  | (inl a, s') => k a s'
  | (inr e, s') => (inr e, s')
  end.

Section monad.
Context {St : Type}.

Definition throw {A} (e : exn) : M St A := λ s, (inr e, s).
Definition get : M St St := λ s, (inl s, s).
Definition modify (f : St → St) : M St () := λ s, (inl (), f s).
Definition try_catch {A} (m : M St A) (h : exn → M St A) : M St A := λ s,
  match m s with
  | (inl a, s') => (inl a, s')
  | (inr e, s') => h e s'
  end.

(** A loop over a list, in order. *)
Fixpoint for_each {A} (l : list A) (body : A → M St ()) : M St () :=
  match l with
  | [] => mret ()
  | x :: l => body x ≫= λ _, for_each l body
  end.

Lemma bind_inl {A B} (m : M St A) (k : A → M St B) s a s' :
  m s = (inl a, s') → (m ≫= k) s = k a s'.
Proof. unfold mbind, M_bind. by intros ->. Qed.

Lemma bind_inr {A B} (m : M St A) (k : A → M St B) s e s' :
  m s = (inr e, s') → (m ≫= k) s = (inr e, s').
Proof. unfold mbind, M_bind. by intros ->. Qed.

(** Inversion of a successful sequence. *)
Lemma bind_inv {A B} (m : M St A) (k : A → M St B) s b s' :
  (m ≫= k) s = (inl b, s') → ∃ a s1, m s = (inl a, s1) ∧ k a s1 = (inl b, s').
Proof. unfold mbind, M_bind. destruct (m s) as [[a|e] s1]; [eauto|done]. Qed.

(** A property of states that every step keeps is kept by the sequence,
    whether it throws or not. *)
Definition keeps {A} (P : St → Prop) (m : M St A) : Prop := ∀ s, P s → P (m s).2.

Lemma keeps_ret {A} P (a : A) : keeps P (mret a).
Proof. by intros s. Qed.

Lemma keeps_throw {A} P e : keeps P (throw (A:=A) e).
Proof. by intros s. Qed.

Lemma keeps_get P : keeps P get.
Proof. by intros s. Qed.

Lemma keeps_modify P f : (∀ s, P s → P (f s)) → keeps P (modify f).
Proof. intros H s. apply H. Qed.

Lemma keeps_bind {A B} P (m : M St A) (k : A → M St B) :
  keeps P m → (∀ a, keeps P (k a)) → keeps P (m ≫= k).
Proof.
  intros Hm Hk s Hs. unfold mbind, M_bind. specialize (Hm s Hs).
  destruct (m s) as [[a|e] s1]; cbn in *; [by apply Hk|done].
Qed.

Lemma keeps_for_each {A} P (l : list A) body :
  (∀ x, keeps P (body x)) → keeps P (for_each l body).
Proof.
  intros H. induction l as [|x l IH]; cbn; [apply keeps_ret|].
  by apply keeps_bind.
Qed.

Lemma keeps_try {A} P (m : M St A) h :
  keeps P m → (∀ e, keeps P (h e)) → keeps P (try_catch m h).
Proof.
  intros Hm Hh s Hs. unfold try_catch. specialize (Hm s Hs).
  destruct (m s) as [[a|e] s1]; cbn in *; [done|by apply Hh].
Qed.
End monad.

#[export] Hint Resolve keeps_ret keeps_throw keeps_get keeps_bind keeps_for_each keeps_try
  : smi.
