(* ===== verification/Format.v ===== *)
(** Text the client writes and reads: decimal integers as [operator<<] and
    [%d] print them, doubles as [operator<<] prints them with the default
    precision (six significant digits, [%g]). *)

From S2P Require Import Prelude RocpSdk.
From Stdlib Require Import Ascii.
Local Open Scope Z_scope.

(** ** Decimal integers *)

Definition digit (d : Z) : ascii := ascii_of_nat (48 + Z.to_nat d).

Definition digit_value (c : ascii) : option Z :=
  let n := Z.of_nat (nat_of_ascii c) in
  if decide (48 <= n <= 57) then Some (n - 48) else None.

Fixpoint dec_go (fuel : nat) (n : Z) (acc : string) : string :=
  match fuel with
  | O => acc
  | S fuel =>
      if decide (n < 10) then String (digit n) acc
      else dec_go fuel (n / 10) (String (digit (n mod 10)) acc)
  end.

(** Halving reaches 0 before the fuel does, so dividing by ten does. *)
Definition dec_fuel (n : Z) : nat := S (Z.to_nat (Z.log2 n)).

Definition dec_nonneg (n : Z) : string := dec_go (dec_fuel n) n "".

Definition dec (z : Z) : string :=
  if decide (z < 0) then String "-" (dec_nonneg (- z)) else dec_nonneg z.

(** The value of the longest prefix of digits, after digits worth [a]. *)
Fixpoint read_digits (a : Z) (s : string) : Z * string :=
  match s with
  | EmptyString => (a, "")
  | String c s' =>
      match digit_value c with
      | Some d => read_digits (10 * a + d) s'
      | None => (a, s)
      end
  end.

Lemma digit_value_digit d : 0 <= d < 10 → digit_value (digit d) = Some d.
Proof.
  intros Hd. unfold digit_value, digit. rewrite nat_ascii_embedding by lia.
  rewrite decide_True by lia. f_equal. lia.
Qed.

Lemma log2_div10 n : 10 <= n → (Z.to_nat (Z.log2 (n / 10)) < Z.to_nat (Z.log2 n))%nat.
Proof.
  intros Hn. assert (Z.log2 (n / 10) < Z.log2 n); [|pose proof (Z.log2_nonneg (n / 10)); lia].
  assert (0 < n / 10) by (apply Z.div_str_pos; lia).
  assert (2 * (n / 10) <= n) by (pose proof (Z.mul_div_le n 10); lia).
  pose proof (Z.log2_le_mono _ _ ltac:(eassumption)) as Hl. rewrite Z.log2_double in Hl by done. lia.
Qed.

Lemma read_digits_dec_go fuel : ∀ n acc, 0 <= n → (Z.to_nat (Z.log2 n) < fuel)%nat →
  read_digits 0 (dec_go fuel n acc) = read_digits n acc.
Proof.
  induction fuel as [|fuel IH]; intros n acc Hn Hf; [lia|]. cbn [dec_go]. case_decide as Hd.
  - cbn [read_digits]. by rewrite digit_value_digit by lia.
  - pose proof (log2_div10 n ltac:(lia)). pose proof (Z.mod_pos_bound n 10 ltac:(lia)).
    rewrite IH by (try apply Z.div_pos; lia). cbn [read_digits].
    rewrite digit_value_digit by done. f_equal. rewrite (Z.div_mod n 10) at 3 by done. done.
Qed.

(** Reading what [dec] prints, in front of anything. *)
Lemma dec_go_app fuel : ∀ n acc, dec_go fuel n acc = dec_go fuel n "" +:+ acc.
Proof.
  induction fuel as [|fuel IH]; intros n acc; [done|]. cbn [dec_go]. case_decide; [done|].
  rewrite IH, (IH _ (String _ "")). by rewrite string_app_assoc.
Qed.

Lemma dec_nonneg_read n rest : 0 <= n →
  read_digits 0 (dec_nonneg n +:+ rest) = read_digits n rest.
Proof.
  intros Hn. unfold dec_nonneg, dec_fuel. rewrite <- dec_go_app.
  apply read_digits_dec_go; lia.
Qed.

(** Different numbers have different texts. *)
Lemma dec_nonneg_inj x y : 0 <= x → 0 <= y → dec x = dec y → x = y.
Proof.
  intros Hx Hy. unfold dec. rewrite !decide_False by lia. intros He.
  pose proof (dec_nonneg_read x "" Hx) as H1. pose proof (dec_nonneg_read y "" Hy) as H2.
  rewrite He, H2 in H1. cbn in H1. congruence.
Qed.

(** The first character is a digit. *)
Lemma dec_go_head fuel : ∀ n acc, 0 <= n →
  ∃ d s, 0 <= d < 10 ∧ dec_go (S fuel) n acc = String (digit d) s.
Proof.
  induction fuel as [|fuel IH]; intros n acc Hn; cbn [dec_go]; case_decide as Hd.
  - exists n, acc. split; [lia|done].
  - exists (n mod 10), acc. split; [apply Z.mod_pos_bound; lia|done].
  - exists n, acc. split; [lia|done].
  - apply IH, Z.div_pos; lia.
Qed.

(** ** Scaling by powers of ten *)

Fixpoint zeros (k : nat) : string :=
  match k with O => "" | S k => String "0" (zeros k) end.

(** The number of decimal digits. *)
Fixpoint num_digits_go (fuel : nat) (n : Z) : Z :=
  match fuel with
  | O => 0
  | S fuel => if decide (n < 10) then 1 else 1 + num_digits_go fuel (n / 10)
  end.
Definition num_digits (n : Z) : Z := num_digits_go (dec_fuel n) n.

(** ** Doubles

    [num / den] is the value.  [dec_exp] is the exponent of its first
    decimal digit, [round6] the six digits of the nearest decimal (ties to
    even) and their exponent. *)

(** [num / den >= 10 ^ k] *)
Definition ge_pow10 (num den k : Z) : bool :=
  den * 10 ^ Z.max k 0 <=? num * 10 ^ Z.max (- k) 0.

Definition dec_exp (num den : Z) : Z :=
  let k := num_digits num - num_digits den in
  if ge_pow10 num den k then k else k - 1.

Definition round_half_even (n d : Z) : Z :=
  let q := n / d in
  let r := n mod d in
  if decide (2 * r < d) then q
  else if decide (d < 2 * r) then q + 1
  else if Z.even q then q else q + 1.

Definition round6 (num den : Z) : Z * Z :=
  let x := dec_exp num den in
  let q := round_half_even (num * 10 ^ Z.max (5 - x) 0) (den * 10 ^ Z.max (x - 5) 0) in
  if decide (q = 10 ^ 6) then (10 ^ 5, x + 1) else (q, x).

(** A text without its trailing zeros. *)
Fixpoint strip_zeros (s : string) : string :=
  match s with
  | EmptyString => ""
  | String c s =>
      match strip_zeros s with
      | EmptyString => if decide (c = "0"%char) then "" else String c ""
      | t => String c t
      end
  end.

(** A fraction, with its point unless it is empty. *)
Definition fraction (s : string) : string :=
  match strip_zeros s with EmptyString => "" | t => String "." t end.

(** An exponent: the sign and at least two digits. *)
Definition exponent (x : Z) : string :=
  (if decide (x < 0) then "-" else "+") +:+
  (if decide (Z.abs x < 10) then String "0" (dec (Z.abs x)) else dec (Z.abs x)).

Definition render_g (q x : Z) : string :=
  let ds := dec q in
  if decide (-4 <= x < 6) then
    if decide (0 <= x) then
      String.substring 0 (Z.to_nat (x + 1)) ds +:+
      fraction (String.substring (Z.to_nat (x + 1)) 6 ds)
    else "0." +:+ zeros (Z.to_nat (- x - 1)) +:+ strip_zeros ds
  else
    String.substring 0 1 ds +:+ fraction (String.substring 1 6 ds) +:+ "e" +:+ exponent x.

Definition fmt_double (d : double) : string :=
  match d with
  | S754_zero s => if s then "-0" else "0"
  | S754_infinity s => if s then "-inf" else "inf"
  | S754_nan => "nan"
  | S754_finite s m e =>
      let '(q, x) := round6 (Zpos m * 2 ^ Z.max e 0) (2 ^ Z.max (- e) 0) in
      (if s then "-" else "") +:+ render_g q x
  end.
