(* ===== verification/FormatProofs.v ===== *)
(** What the formatting of [Format] keeps of a number: the six digits are the
    nearest decimal, and integers of up to six digits are printed exactly. *)

From S2P Require Import Prelude RocpSdk Format.
From Stdlib Require Import Ascii.
Local Open Scope Z_scope.

Lemma num_digits_go_spec fuel : ∀ n, 0 < n → (Z.to_nat (Z.log2 n) < fuel)%nat →
  1 <= num_digits_go fuel n ∧
  10 ^ (num_digits_go fuel n - 1) <= n < 10 ^ num_digits_go fuel n.
Proof.
  induction fuel as [|fuel IH]; intros n Hn Hf; [lia|]. cbn [num_digits_go].
  case_decide as Hd; [cbn; lia|].
  pose proof (log2_div10 n ltac:(lia)).
  destruct (IH (n / 10)) as (H1 & H2 & H3); [apply Z.div_str_pos; lia|lia|].
  set (k := num_digits_go fuel (n / 10)) in *. split; [lia|].
  pose proof (Z.mul_div_le n 10 ltac:(lia)). pose proof (Z.mul_succ_div_gt n 10 ltac:(lia)).
  replace (1 + k - 1) with (Z.succ (k - 1)) by lia. rewrite Z.pow_succ_r by lia.
  replace (1 + k) with (Z.succ k) by lia. rewrite Z.pow_succ_r by lia. lia.
Qed.

Lemma num_digits_spec n : 0 < n →
  1 <= num_digits n ∧ 10 ^ (num_digits n - 1) <= n < 10 ^ num_digits n.
Proof. intros. apply num_digits_go_spec; [done|]. unfold dec_fuel. lia. Qed.

(** [10 ^ k], as a fraction: the two sides of a comparison scaled to
    integers. *)
Definition up (k : Z) : Z := 10 ^ Z.max k 0.

Lemma up_pos k : 0 < up k.
Proof. apply Z.pow_pos_nonneg; lia. Qed.

Lemma up_split k a b : k = a - b → 0 <= a → 0 <= b → up k * 10 ^ b = up (- k) * 10 ^ a.
Proof.
  intros -> Ha Hb. unfold up. rewrite <- !Z.pow_add_r by lia. f_equal. lia.
Qed.

Lemma up_shift k j : 0 <= j → up (k + j) * up (- k) = up k * up (- (k + j)) * 10 ^ j.
Proof. intros. unfold up. rewrite <- !Z.pow_add_r by lia. f_equal. lia. Qed.

Lemma dec_exp_spec num den : 0 < num → 0 < den →
  den * up (dec_exp num den) <= num * up (- dec_exp num den) ∧
  num * up (- (dec_exp num den + 1)) < den * up (dec_exp num den + 1).
Proof.
  intros Hn Hd. unfold dec_exp, ge_pow10. fold (up (num_digits num - num_digits den)).
  fold (up (- (num_digits num - num_digits den))).
  destruct (num_digits_spec num Hn) as (Ha & Ha1 & Ha2).
  destruct (num_digits_spec den Hd) as (Hb & Hb1 & Hb2).
  set (a := num_digits num) in *. set (b := num_digits den) in *.
  pose proof (up_pos (- (a - b + 1))). pose proof (up_pos (a - b + 1)).
  pose proof (up_pos (a - b - 1)). pose proof (up_pos (- (a - b - 1))).
  pose proof (up_split (a - b + 1) a (b - 1) ltac:(lia) ltac:(lia) ltac:(lia)).
  pose proof (up_split (a - b - 1) (a - 1) b ltac:(lia) ltac:(lia) ltac:(lia)).
  destruct (Z.leb_spec (den * up (a - b)) (num * up (- (a - b)))) as [Hge|Hlt].
  - split; [done|]. nia.
  - split; [nia|]. by replace (a - b - 1 + 1) with (a - b) by lia.
Qed.

Lemma round_half_even_spec n d : 0 <= n → 0 < d →
  2 * Z.abs (round_half_even n d * d - n) <= d.
Proof.
  intros Hn Hd. unfold round_half_even.
  pose proof (Z.div_mod n d ltac:(lia)). pose proof (Z.mod_pos_bound n d Hd).
  set (q := n / d) in *. set (r := n mod d) in *.
  repeat case_decide; [..|destruct (Z.even q)]; nia.
Qed.

Lemma round_half_even_bounds n d lo hi : 0 <= n → 0 < d → lo * d <= n < hi * d →
  lo <= round_half_even n d <= hi.
Proof. intros Hn Hd Hb. pose proof (round_half_even_spec n d Hn Hd). nia. Qed.

(** Scaled to integers: the six digits [q] at the exponent [x] are the value
    up to half a unit of the sixth digit. *)
Definition nearest6 (num den q x : Z) : Prop :=
  10 ^ 5 <= q < 10 ^ 6 ∧
  2 * Z.abs (q * (den * up (x - 5)) - num * up (5 - x)) <= den * up (x - 5).

(** When the digits round up to [10 ^ 6], the next exponent takes over. *)
Lemma carry_spec num den x : 0 < den →
  2 * Z.abs (10 ^ 6 * (den * up (x - 5)) - num * up (5 - x)) <= den * up (x - 5) →
  2 * Z.abs (10 ^ 5 * (den * up (x + 1 - 5)) - num * up (5 - (x + 1))) <= den * up (x + 1 - 5).
Proof.
  intros Hd. pose proof (up_shift (x - 5) 1 ltac:(lia)) as H1.
  replace (x - 5 + 1) with (x + 1 - 5) in H1 by lia.
  replace (- (x - 5)) with (5 - x) in H1 by lia.
  replace (- (x + 1 - 5)) with (5 - (x + 1)) in H1 by lia.
  pose proof (up_pos (5 - x)). pose proof (up_pos (x - 5)). pose proof (up_pos (5 - (x + 1))).
  set (u := up (x - 5)) in *. set (v := up (5 - x)) in *.
  set (u' := up (x + 1 - 5)) in *. set (v' := up (5 - (x + 1))) in *. intros Herr.
  apply (Z.mul_le_mono_pos_r _ _ v); [done|].
  replace (2 * Z.abs (10 ^ 5 * (den * u') - num * v') * v)
    with (2 * Z.abs (10 ^ 6 * (den * u) - num * v) * v').
  - nia.
  - rewrite <- !Z.mul_assoc. f_equal.
    rewrite <- (Z.abs_eq v') at 1 by lia. rewrite <- (Z.abs_eq v) at 2 by lia.
    rewrite <- !Z.abs_mul. f_equal. nia.
Qed.

Lemma round6_spec num den : 0 < num → 0 < den →
  nearest6 num den (round6 num den).1 (round6 num den).2.
Proof.
  intros Hn Hd. unfold round6. destruct (dec_exp_spec num den Hn Hd) as [Hlo Hhi].
  set (x := dec_exp num den) in *. fold (up (5 - x)) (up (x - 5)).
  pose proof (up_shift (x - 5) 5 ltac:(lia)) as H5. pose proof (up_shift (x - 5) 6 ltac:(lia)) as H6.
  replace (x - 5 + 5) with x in H5 by lia. replace (x - 5 + 6) with (x + 1) in H6 by lia.
  replace (- (x - 5)) with (5 - x) in H5, H6 by lia.
  pose proof (up_pos (- x)). pose proof (up_pos (- (x + 1))). pose proof (up_pos (5 - x)).
  pose proof (up_pos (x - 5)).
  set (N := num * up (5 - x)). set (D := den * up (x - 5)).
  assert (10 ^ 5 * D <= N) by (apply (Z.mul_le_mono_pos_r _ _ (up (- x))); [done|]; subst N D; nia).
  assert (N < 10 ^ 6 * D) by (apply (Z.mul_lt_mono_pos_r (up (- (x + 1)))); [done|]; subst N D; nia).
  assert (0 < D) by (subst D; nia). assert (0 <= N) by lia.
  pose proof (round_half_even_bounds N D (10 ^ 5) (10 ^ 6) ltac:(done) ltac:(done) ltac:(lia)).
  pose proof (round_half_even_spec N D ltac:(done) ltac:(done)) as Herr.
  case_decide as Hq; unfold nearest6; cbn [fst snd]; [|split; [lia|done]].
  split; [lia|]. rewrite Hq in Herr. by apply carry_spec.
Qed.

(** ** Integers *)

Lemma dec_go_fuel f : ∀ f' n acc, (Z.to_nat (Z.log2 n) < f)%nat → (Z.to_nat (Z.log2 n) < f')%nat →
  dec_go f n acc = dec_go f' n acc.
Proof.
  induction f as [|f IH]; intros [|f'] n acc Hf Hf'; try lia. cbn [dec_go].
  case_decide; [done|]. pose proof (log2_div10 n ltac:(lia)). apply IH; lia.
Qed.

Lemma dec_nonneg_step n : 10 <= n →
  dec_nonneg n = dec_nonneg (n / 10) +:+ String (digit (n mod 10)) "".
Proof.
  intros Hn. unfold dec_nonneg at 1, dec_fuel. cbn [dec_go]. rewrite decide_False by lia.
  rewrite dec_go_app. f_equal. pose proof (log2_div10 n Hn).
  apply dec_go_fuel; [lia|]. unfold dec_fuel. lia.
Qed.

Lemma dec_nonneg_pow10 (j : nat) n : 0 < n → dec_nonneg (n * 10 ^ Z.of_nat j) = dec_nonneg n +:+ zeros j.
Proof.
  intros Hn. induction j as [|j IH].
  { rewrite Z.mul_1_r. by rewrite string_app_nil_r. }
  assert (0 < 10 ^ Z.of_nat j) by (apply Z.pow_pos_nonneg; lia).
  rewrite Nat2Z.inj_succ, Z.pow_succ_r by lia.
  replace (n * (10 * 10 ^ Z.of_nat j)) with ((n * 10 ^ Z.of_nat j) * 10) by lia.
  rewrite dec_nonneg_step by nia. rewrite Z.div_mul, Z.mod_mul by done. rewrite IH.
  rewrite string_app_assoc. f_equal. clear. induction j as [|j IH]; [done|].
  exact (f_equal (String "0") IH).
Qed.

Lemma dec_go_length fuel : ∀ n acc,
  Z.of_nat (String.length (dec_go fuel n acc)) = num_digits_go fuel n + Z.of_nat (String.length acc).
Proof.
  induction fuel as [|fuel IH]; intros n acc; [done|]. cbn [dec_go num_digits_go].
  case_decide; [cbn [String.length]; lia|]. rewrite IH. cbn [String.length]. lia.
Qed.

Lemma dec_nonneg_length n : Z.of_nat (String.length (dec_nonneg n)) = num_digits n.
Proof. unfold dec_nonneg, num_digits. rewrite dec_go_length. cbn. lia. Qed.

Lemma dec_exp_int n den : 0 < n → 0 < den → dec_exp (n * den) den = num_digits n - 1.
Proof.
  intros Hn Hd. destruct (dec_exp_spec (n * den) den ltac:(nia) Hd) as [Hlo Hhi].
  set (x := dec_exp (n * den) den) in *. destruct (num_digits_spec n Hn) as (H1 & H2 & H3).
  set (k := num_digits n) in *.
  assert (up x <= n * up (- x)) by nia. assert (n * up (- (x + 1)) < up (x + 1)) by nia.
  clear Hlo Hhi. pose proof (up_pos (- (x + 1))).
  assert (0 <= x) as Hx.
  { destruct (decide (0 <= x)); [done|]. exfalso.
    assert (up (x + 1) = 1) by (unfold up; by rewrite Z.max_r by lia). nia. }
  assert (up x = 10 ^ x ∧ up (- x) = 1 ∧ up (x + 1) = 10 ^ (x + 1) ∧ up (- (x + 1)) = 1)
    as (E1 & E2 & E3 & E4).
  { unfold up. split_and!; first [by rewrite Z.max_l by lia | by rewrite Z.max_r by lia]. }
  rewrite E1, E2, E3, E4, Z.mul_1_r in *.
  assert (10 ^ x < 10 ^ k) as Hxk%Z.pow_lt_mono_r_iff by lia; [|lia..].
  assert (10 ^ (k - 1) < 10 ^ (x + 1)) as Hkx%Z.pow_lt_mono_r_iff by lia; [lia|lia..].
Qed.

Lemma substring_prefix a b : String.substring 0 (String.length a) (a +:+ b) = a.
Proof.
  induction a as [|c a IH]; [by destruct b|]. exact (f_equal (String c) IH).
Qed.

Lemma substring_suffix a b k : (String.length b <= k)%nat →
  String.substring (String.length a) k (a +:+ b) = b.
Proof.
  intros Hk. induction a as [|c a IH]; [|exact IH].
  revert k Hk. induction b as [|c b IH]; intros [|k] Hk; cbn in *; try done; [lia|].
  exact (f_equal (String c) (IH k ltac:(lia))).
Qed.

Lemma zeros_length j : String.length (zeros j) = j.
Proof. induction j as [|j IH]; cbn; [done|by rewrite IH]. Qed.

Lemma strip_zeros_zeros j : strip_zeros (zeros j) = "".
Proof. induction j as [|j IH]; [done|]. cbn. by rewrite IH. Qed.

Lemma round6_int n den : 0 < n < 10 ^ 6 → 0 < den →
  round6 (n * den) den = (n * 10 ^ (6 - num_digits n), num_digits n - 1).
Proof.
  intros Hn Hd. unfold round6. rewrite dec_exp_int by lia.
  destruct (num_digits_spec n ltac:(lia)) as (H1 & H2 & H3). set (k := num_digits n) in *.
  assert (k <= 6) as Hk.
  { assert (10 ^ (k - 1) < 10 ^ 6) as Hk%Z.pow_lt_mono_r_iff by lia; lia. }
  rewrite Z.max_l, Z.max_r by lia. replace (5 - (k - 1)) with (6 - k) by lia.
  replace (n * den * 10 ^ (6 - k)) with (n * 10 ^ (6 - k) * den) by lia.
  rewrite Z.pow_0_r, Z.mul_1_r. unfold round_half_even.
  rewrite Z.div_mul, Z.mod_mul by lia. rewrite (decide_True (P := 2 * 0 < den)) by lia.
  rewrite decide_False; [done|]. assert (0 < 10 ^ (6 - k)) by (apply Z.pow_pos_nonneg; lia).
  assert (10 ^ k * 10 ^ (6 - k) = 10 ^ 6) by (rewrite <- Z.pow_add_r by lia; f_equal; lia). nia.
Qed.

Lemma render_int n : 0 < n < 10 ^ 6 →
  render_g (n * 10 ^ (6 - num_digits n)) (num_digits n - 1) = dec n.
Proof.
  intros Hn. destruct (num_digits_spec n ltac:(lia)) as (H1 & H2 & H3).
  assert (num_digits n <= 6) as Hk.
  { assert (10 ^ (num_digits n - 1) < 10 ^ 6) as Hk%Z.pow_lt_mono_r_iff by lia; lia. }
  unfold render_g, dec. assert (0 < 10 ^ (6 - num_digits n)) by (apply Z.pow_pos_nonneg; lia).
  rewrite (decide_False (P := n * _ < 0)), (decide_False (P := n < 0)) by nia.
  rewrite !decide_True by lia.
  replace (6 - num_digits n) with (Z.of_nat (Z.to_nat (6 - num_digits n))) by lia.
  rewrite dec_nonneg_pow10 by lia.
  replace (Z.to_nat (num_digits n - 1 + 1)) with (String.length (dec_nonneg n))
    by (rewrite <- dec_nonneg_length; lia).
  rewrite substring_prefix, substring_suffix by (rewrite zeros_length; lia).
  unfold fraction. rewrite strip_zeros_zeros. apply string_app_nil_r.
Qed.

(** a double is printed with the six digits of the nearest decimal: for
    every positive finite value the digits and the exponent the text is made
    of are in range and off by at most half a unit of the sixth digit; a
    value that is an integer below a million is printed as that integer. *)
Theorem fmt_double_nearest m e :
  let num := Zpos m * 2 ^ Z.max e 0 in
  let den := 2 ^ Z.max (- e) 0 in
  (∃ q x, fmt_double (S754_finite false m e) = render_g q x ∧ nearest6 num den q x) ∧
  ∀ n, 0 <= n < 10 ^ 6 → num = n * den → fmt_double (S754_finite false m e) = dec n.
Proof.
  intros num den. assert (0 < num) by (subst num; pose proof (Z.pow_pos_nonneg 2 (Z.max e 0)); nia).
  assert (0 < den) by (apply Z.pow_pos_nonneg; lia).
  unfold fmt_double. fold num den. split.
  - pose proof (round6_spec num den ltac:(done) ltac:(done)) as Hr.
    destruct (round6 num den) as [q x]. by exists q, x.
  - intros n Hn Hnum. assert (0 < n) by nia. rewrite Hnum, round6_int by lia.
    refine (render_int n _). lia.
Qed.

(** above a million the digits of a counter are lost: neighbouring counts
    become the same text. *)
Theorem fmt_double_loses :
  fmt_double (binary_normalize 53 1024 1234567 0 false) = "1.23457e+06" ∧
  fmt_double (binary_normalize 53 1024 1234571 0 false) = "1.23457e+06".
Proof. by split; vm_compute. Qed.

(** An integer below a million, and a fraction. *)
Lemma fmt_double_nearest_witness :
  fmt_double (S754_finite false 640000 0) = "640000" ∧
  fmt_double (S754_finite false 5 (-1)) = "2.5".
Proof.
  split; [|vm_compute; reflexivity].
  exact (proj2 (fmt_double_nearest 640000 0) 640000 ltac:(lia) eq_refl).
Defined.
