(* ===== verification/Sampler.v ===== *)
(** [amd::rocp::CounterSampler] of [src/rocprofilerclient/RocpCounterSampler.h]
    and [rocpclient.cpp]: the per-agent object that packs the requested
    counters into profiles the hardware accepts, samples them and adds up the
    records by counter name.

    A method runs in the monad [M (st S)]: the SDK's state, the object
    ([this]), the arguments of the calls of [usleep] so far.  The SDK is the
    parameter [Sdk S] of [RocpSdk]. *)

From S2P Require Import Prelude RocpSdk.
Local Open Scope Z_scope.

(** ** Data *)

Definition MAX_COUNTER_PER_PROFILE : Z := 10.

Record Profile : Type := MkProfile {
  config : Z;
  counter_names : list string;
  expected_size : Z;
}.

Record ProfileSet : Type := MkProfileSet { profiles : list Profile }.

Record CounterSampler : Type := MkSampler {
  agent_ : Z;
  ctx_ : Z;
  profile_ : Z;
  counter_ : Z;
  cached_profiles_ : gmap (list string) Z;
  profile_sizes_ : gmap Z Z;
  cached_counter_ : gmap (list string) Z;
  counter_sizes_ : gmap Z Z;
  cached_profile_sets_ : gmap (list string) ProfileSet;
  id_to_name_ : gmap Z string;
}.

(** The object before its constructor's body runs. *)
Definition new_sampler (agent : Z) : CounterSampler :=
  MkSampler agent 0 0 0 ∅ ∅ ∅ ∅ ∅ ∅.

Definition set_ctx (v : Z) (c : CounterSampler) : CounterSampler :=
  MkSampler (agent_ c) v (profile_ c) (counter_ c) (cached_profiles_ c) (profile_sizes_ c)
    (cached_counter_ c) (counter_sizes_ c) (cached_profile_sets_ c) (id_to_name_ c).
Definition set_profiles (p cn : Z) (c : CounterSampler) : CounterSampler :=
  MkSampler (agent_ c) (ctx_ c) p cn (cached_profiles_ c) (profile_sizes_ c)
    (cached_counter_ c) (counter_sizes_ c) (cached_profile_sets_ c) (id_to_name_ c).
Definition set_caches (cp : gmap (list string) Z) (ps : gmap Z Z) (c : CounterSampler)
    : CounterSampler :=
  MkSampler (agent_ c) (ctx_ c) (profile_ c) (counter_ c) cp ps
    (cached_counter_ c) (counter_sizes_ c) (cached_profile_sets_ c) (id_to_name_ c).
Definition set_profile_sets (v : gmap (list string) ProfileSet) (c : CounterSampler)
    : CounterSampler :=
  MkSampler (agent_ c) (ctx_ c) (profile_ c) (counter_ c) (cached_profiles_ c)
    (profile_sizes_ c) (cached_counter_ c) (counter_sizes_ c) v (id_to_name_ c).
Definition set_names (v : gmap Z string) (c : CounterSampler) : CounterSampler :=
  MkSampler (agent_ c) (ctx_ c) (profile_ c) (counter_ c) (cached_profiles_ c)
    (profile_sizes_ c) (cached_counter_ c) (counter_sizes_ c) (cached_profile_sets_ c) v.

Record st (S : Type) : Type := St { sdk : S; this : CounterSampler; sleeps : list Z }.
Arguments St {S} sdk this sleeps.
Arguments sdk {S} s.
Arguments this {S} s.
Arguments sleeps {S} s.

(** [std::map::emplace] and [std::unordered_map::emplace]: an existing entry
    stays. *)
Definition emplace {V} (k : string) (v : V) (m : gmap string V) : gmap string V :=
  match m !! k with Some _ => m | None => <[k := v]> m end.

(** [vector::resize] *)
Definition resize_records (n : Z) (l : list rocprofiler_record_counter_t)
    : list rocprofiler_record_counter_t :=
  resize (Z.to_nat n) rec_zero l.

(** The order of [std::string]: lexicographic on unsigned bytes. *)
Definition string_le (a b : string) : Prop := String.leb a b = true.

#[export] Instance string_le_dec a b : Decision (string_le a b).
Proof. unfold string_le. apply _. Defined.

#[export] Instance string_le_total : Total string_le.
Proof. intros a b. apply String.leb_total. Qed.

#[export] Instance string_le_antisymm : AntiSymm (=) string_le.
Proof. intros a b. apply String.leb_antisym. Qed.

#[export] Instance string_le_trans : Transitive string_le.
Proof.
  unfold string_le, String.leb. intros a. induction a as [|x a IH]; intros [|y b] [|z c];
    cbn; try done. unfold Ascii.compare.
  destruct (N.compare_spec (Ascii.N_of_ascii x) (Ascii.N_of_ascii y)) as [Hxy|Hxy|Hxy];
    destruct (N.compare_spec (Ascii.N_of_ascii y) (Ascii.N_of_ascii z)) as [Hyz|Hyz|Hyz];
    destruct (N.compare_spec (Ascii.N_of_ascii x) (Ascii.N_of_ascii z)) as [Hxz|Hxz|Hxz];
    try done; try lia. by apply IH.
Qed.

Section methods.
Context {S : Type} `{Sdk S}.

Abbreviation Mt := (M (st S)).

Definition sdk_do {A} (f : S → S * A) : Mt A := λ s,
  let '(d, a) := f (sdk s) in (inl a, St d (this s) (sleeps s)).
Definition sdk_ask {A} (f : S → A) : Mt A := λ s, (inl (f (sdk s)), s).
Definition sdk_upd (f : S → S) : Mt () := λ s, (inl (), St (f (sdk s)) (this s) (sleeps s)).
Definition my {A} (f : CounterSampler → A) : Mt A := λ s, (inl (f (this s)), s).
Definition set_this (f : CounterSampler → CounterSampler) : Mt () :=
  modify (λ s, St (sdk s) (f (this s)) (sleeps s)).

(** [usleep] takes a [useconds_t], 32 bits wide. *)
Definition usleep (us : Z) : Mt () :=
  modify (λ s, St (sdk s) (this s) (sleeps s ++ [u32 us])).

Definition RocprofilerCall (msg : string) (callable : Mt rocprofiler_status_t) : Mt () :=
  result ← callable;
  if decide (result = ROCPROFILER_STATUS_SUCCESS) then mret () else throw (CallFailed msg result).

Lemma RocprofilerCall_status msg status (s : st S) :
  RocprofilerCall msg (mret status) s =
  (if decide (status = ROCPROFILER_STATUS_SUCCESS) then inl () else inr (CallFailed msg status), s).
Proof. unfold RocprofilerCall, mbind, M_bind. cbn. by case_decide. Qed.

(** The constructor's body, on the object [new_sampler agent]. *)
Definition constructor : Mt () :=
  RocprofilerCall "context creation failed"
    ('(status, ctx) ← sdk_do create_context;
     set_this (set_ctx ctx) ≫= λ _, mret status) ≫= λ _,
  ctx ← my ctx_;
  agent ← my agent_;
  RocprofilerCall "Could not setup buffered service"
    (sdk_do (configure_device_counting_service ctx agent)).

(** The calls of [destroy_profile_config] are in the order of the finite map,
    which is not the order of the keys of [std::map]. *)
Definition destructor : Mt () :=
  cached ← my cached_profiles_;
  for_each (map_to_list cached) (λ kp, sdk_upd (destroy_profile_config kp.2)) ≫= λ _,
  set_this (set_caches ∅ ∅) ≫= λ _,
  ctx ← my ctx_;
  (if decide (ctx ≠ 0) then sdk_upd (stop_context ctx) else mret ()) ≫= λ _,
  set_this (set_ctx 0).

(** The counter of a record; the handle stays 0 when the query fails. *)
Definition record_counter (rec : rocprofiler_record_counter_t) (d : S) : Z :=
  default 0 (query_record_counter_id (rec_id rec) d).

Definition decode_record_name (rec : rocprofiler_record_counter_t) : Mt string :=
  counter_id ← sdk_ask (record_counter rec);
  names ← my id_to_name_;
  match names !! counter_id with
  | Some n => mret n
  | None =>
      '(status, name) ← sdk_ask (query_counter_info counter_id);
      if decide (status = ROCPROFILER_STATUS_SUCCESS) then
        set_this (λ c, set_names (<[counter_id := name]> (id_to_name_ c)) c) ≫= λ _, mret name
      else mret "UNKNOWN_COUNTER"
  end.

(** The product of the instance counts of the dimensions, in [size_t]. *)
Definition get_counter_size (counter : Z) (d : S) : Z :=
  match (iterate_counter_dimensions counter d).1 with
  | Some dims => foldl (λ s dim, u64 (s * instance_size dim)) 1 dims
  | None => 1
  end.

Definition get_counter_dimensions (counter : Z)
    : Mt (list rocprofiler_record_dimension_info_t) :=
  '(dims, status) ← sdk_ask (iterate_counter_dimensions counter);
  RocprofilerCall "Could not iterate counter dimensions" (mret status) ≫= λ _,
  mret (default [] dims).

Definition get_record_dimensions (rec : rocprofiler_record_counter_t) : Mt (gmap string Z) :=
  counter_id ← sdk_ask (record_counter rec);
  dims ← get_counter_dimensions counter_id;
  d ← sdk_ask id;
  mret (foldl (λ out dim,
    emplace (dim_name dim)
      (default 0 (query_record_dimension_position (rec_id rec) (dim_id dim) d)) out) ∅ dims).

(** The loop of [get_supported_counters] over the ids the SDK lists. *)
Fixpoint name_counters (ids : list Z) (out : gmap string Z) : Mt (gmap string Z) :=
  match ids with
  | [] => mret out
  | counter :: ids =>
      '(status, name) ← sdk_ask (query_counter_info counter);
      RocprofilerCall "Could not query info for counter" (mret status) ≫= λ _,
      name_counters ids (emplace name counter out)
  end.

Definition get_supported_counters (agent : Z) : Mt (gmap string Z) :=
  '(ids, status) ← sdk_ask (iterate_agent_supported_counters agent);
  RocprofilerCall "Could not fetch supported counters" (mret status) ≫= λ _,
  name_counters (default [] ids) ∅.

(** [set_profile]: what the callback hands to the SDK. *)
Definition set_profile (c : CounterSampler) : option Z :=
  if decide (profile_ c ≠ 0) then Some (profile_ c) else None.

(** One sampling window of a profile: the buffer holds [size]
    value-initialized records, the SDK overwrites the first ones, and the
    buffer is resized to what it reports. *)
Definition sample_window (size duration : Z) (pause : Mt ())
    : Mt (list rocprofiler_record_counter_t) :=
  ctx ← my ctx_;
  p ← my set_profile;
  sdk_upd (start_context ctx p) ≫= λ _,
  usleep duration ≫= λ _,
  '(written, out_size) ← sdk_do (sample_device_counting_service ctx size);
  sdk_upd (stop_context ctx) ≫= λ _,
  let buffer := written ++ drop (length written) (resize_records size []) in
  pause ≫= λ _,
  mret (resize_records out_size buffer).

(** The counters of a request that the agent supports, and the size of the
    buffer for them. *)
Fixpoint request_ids (roc_counters : gmap string Z) (counters : list string) (d : S)
    (acc : list Z * Z) : list Z * Z :=
  match counters with
  | [] => acc
  | name :: counters =>
      request_ids roc_counters counters d
        match roc_counters !! name with
        | Some c => (acc.1 ++ [c], u64 (acc.2 + get_counter_size c d))
        | None => acc
        end
  end.

Lemma request_ids_length roc l : ∀ (d : S) acc,
  (length (request_ids roc l d acc).1 <= length acc.1 + length l)%nat.
Proof.
  induction l as [|n l IH]; intros d acc; cbn [request_ids length]; [lia|].
  etrans; [apply IH|]. destruct (roc !! n); cbn; rewrite ?length_app; cbn; lia.
Qed.

(** The cached profile of a list of counters, created on a miss. *)
Definition find_profile (counters : list string) : Mt Z :=
  cached ← my cached_profiles_;
  match cached !! counters with
  | Some p => mret p
  | None =>
      agent ← my agent_;
      roc_counters ← get_supported_counters agent;
      '(gpu_counters, expected_size) ← sdk_ask (λ d, request_ids roc_counters counters d ([], 0));
      '(status, profile) ← sdk_do (create_profile_config agent gpu_counters);
      RocprofilerCall "Could not create profile" (mret status) ≫= λ _,
      set_this (λ c, set_caches (<[counters := profile]> (cached_profiles_ c))
        (match profile_sizes_ c !! profile with
         | Some _ => profile_sizes_ c
         | None => <[profile := expected_size]> (profile_sizes_ c)
         end) c) ≫= λ _,
      mret profile
  end.

Definition sample_counter_values (counters : list string) (duration : Z)
    : Mt (list rocprofiler_record_counter_t) :=
  profile ← find_profile counters;
  sizes ← my profile_sizes_;
  match sizes !! profile with
  | None => throw ProfileSizeMissing
  | Some size =>
      set_this (λ c, set_profiles profile (counter_ c) c) ≫= λ _,
      sample_window size duration (mret ())
  end.
End methods.
