(* ===== verification/Packing.v ===== *)
(** The greedy packing of [rocpclient.cpp]: [create_profiles_for_counters]
    splits the requested counters over as few hardware profiles as its greedy
    order finds, and [sample_counters_with_packing] caches the split per
    sorted request, samples every profile and adds the records up by name.

    The packing is specified independently of its order of trials
    ([profile_ok], [split_ok]): every profile was accepted by the SDK with
    exactly its counters, holds at most [MAX_COUNTER_PER_PROFILE] of them,
    and no supported counter of the request is lost or sampled twice. *)

From S2P Require Import Prelude RocpSdk Sampler.
Local Open Scope Z_scope.

Section packing.
Context {S : Type} `{Sdk S}.

Abbreviation Mt := (M (st S)).

(** The variables of one round of the [while] loop. *)
Record round : Type := Round {
  current_profile_counters : list string;
  failed_counters : list string;
  last_valid_config : Z;
  last_valid_size : Z;
}.

Definition round_init : round := Round [] [] 0 0.

(** The body of the [for] loop over the remaining counters. *)
Definition try_counter (agent : Z) (roc_counters : gmap string Z)
    (sr : S * round) (counter_name : string) : S * round :=
  let '(d, r) := sr in
  match roc_counters !! counter_name with
  | None => (d, r)
  | Some _ =>
      let current := current_profile_counters r ++ [counter_name] in
      let '(gpu_counters, expected_size) := request_ids roc_counters current d ([], 0) in
      let '(d', (status, config)) := create_counter_config agent gpu_counters d in
      if decide (status = ROCPROFILER_STATUS_ERROR_EXCEEDS_HW_LIMIT ∨
                 MAX_COUNTER_PER_PROFILE < Z.of_nat (length current)) then
        (d', Round (current_profile_counters r) (failed_counters r ++ [counter_name])
               (last_valid_config r) (last_valid_size r))
      else if decide (status = ROCPROFILER_STATUS_SUCCESS) then
        (d', Round current (failed_counters r) config expected_size)
      else
        (d', Round (current_profile_counters r) (failed_counters r ++ [counter_name])
               (last_valid_config r) (last_valid_size r))
  end.

Definition pack_round (agent : Z) (roc_counters : gmap string Z) (d : S)
    (remaining : list string) : S * round :=
  foldl (try_counter agent roc_counters) (d, round_init) remaining.

(** The [while] loop, with the profiles collected so far; the result also
    carries the counters that are left when the loop ends.  [None]: out of
    fuel. *)
Fixpoint pack_loop (fuel : nat) (agent : Z) (roc_counters : gmap string Z) (d : S)
    (remaining : list string) (acc : list Profile)
    : option (S * (list Profile * list string)) :=
  match remaining with
  | [] => Some (d, (acc, []))
  | _ :: _ =>
      match fuel with
      | O => None
      | Datatypes.S fuel =>
          let '(d', r) := pack_round agent roc_counters d remaining in
          let acc' :=
            if decide (current_profile_counters r ≠ [] ∧ last_valid_config r ≠ 0)
            then acc ++ [MkProfile (last_valid_config r) (current_profile_counters r)
                           (last_valid_size r)]
            else acc in
          if decide (current_profile_counters r = [] ∧ failed_counters r ≠ [])
          then Some (d', (acc', failed_counters r))
          else pack_loop fuel agent roc_counters d' (failed_counters r) acc'
      end
  end.

(** Fuel for the loop: every round that does not end it places a counter. *)
Definition pack_fuel (counters : list string) : nat := length counters.

Definition create_profiles_for_counters (counters : list string) : Mt ProfileSet :=
  agent ← my agent_;
  roc_counters ← get_supported_counters agent;
  sdk_do (λ d,
    match pack_loop (pack_fuel counters) agent roc_counters d counters [] with
    | Some (d', (profiles, _)) => (d', MkProfileSet profiles)
    | None => (d, MkProfileSet [])
    end).

(** [out_values[name] += value] *)
Definition add_value (name : string) (v : double) (out : gmap string double)
    : gmap string double :=
  <[name := d_add (default d_zero (out !! name)) v]> out.

Fixpoint add_records (records : list rocprofiler_record_counter_t)
    (out : gmap string double) : Mt (gmap string double) :=
  match records with
  | [] => mret out
  | record :: records =>
      name ← decode_record_name record;
      add_records records (add_value name (counter_value record) out)
  end.

(** [delay_ms * 1000] is computed in [uint32_t]. *)
Definition delay_pause (delay_ms : Z) : Mt () :=
  if decide (0 < delay_ms) then usleep (u32 (delay_ms * 1000)) else mret ().

Fixpoint sample_profiles (ps : list Profile) (duration delay_ms : Z)
    (out : gmap string double) : Mt (gmap string double) :=
  match ps with
  | [] => mret out
  | profile :: ps =>
      set_this (set_profiles (config profile) (config profile)) ≫= λ _,
      records ← sample_window (expected_size profile) duration (delay_pause delay_ms);
      out ← add_records records out;
      sample_profiles ps duration delay_ms out
  end.

Definition sort_counters (counters : list string) : list string :=
  merge_sort string_le counters.

Definition cached_profile_set (sorted_counters : list string) : Mt ProfileSet :=
  cached ← my cached_profile_sets_;
  match cached !! sorted_counters with
  | Some ps => mret ps
  | None =>
      profile_set ← create_profiles_for_counters sorted_counters;
      set_this (λ c,
        set_profile_sets (<[sorted_counters := profile_set]> (cached_profile_sets_ c)) c) ≫= λ _,
      mret profile_set
  end.

Definition sample_counters_with_packing (counters : list string) (duration delay_ms : Z)
    : Mt (gmap string double) :=
  profile_set ← cached_profile_set (sort_counters counters);
  sample_profiles (profiles profile_set) duration delay_ms ∅.
End packing.
