(* ===== verification/MockSdk.v ===== *)
(** A concrete SDK, on which the theorems that assume something of the SDK
    are instantiated: a fixed table of counters, handles given out in order,
    a limit on the counters of a configuration and counters that are always
    refused. *)

From S2P Require Import Prelude RocpSdk Sampler.
Local Open Scope Z_scope.

Record mock : Type := Mock {
  next_handle : Z;
  live : gmap Z (list Z);
  active : option Z;
}.

Definition mock_init : mock := Mock 1 ∅ None.

Definition mock_names : list (Z * string) :=
  [(1, "SQ_WAVES"); (2, "GRBM_COUNT"); (3, "GPU_UTIL"); (4, "FETCH_SIZE"); (5, "WRITE_SIZE")]%Z.

Definition mock_name (c : Z) : option string :=
  snd <$> head (filter (λ p, p.1 = c) mock_names).

Definition double_of_Z (z : Z) : double := binary_normalize 53 1024 z 0 false.

Definition mock_agents : list rocprofiler_agent_v0_t :=
  [Agent 6 ROCPROFILER_AGENT_TYPE_OTHER 0 0 0; Agent 7 ROCPROFILER_AGENT_TYPE_GPU 21 128 1;
   Agent 8 ROCPROFILER_AGENT_TYPE_GPU 22 129 2].

Section mock.
Context (limit : nat) (refused : list Z).

(** A new handle for a set of counters. *)
Definition mock_new (ids : list Z) (d : mock) : mock :=
  Mock (Z.abs (next_handle d) + 1) (<[Z.abs (next_handle d) + 1 := ids]> (live d)) (active d).

Definition mock_create (agent : Z) (ids : list Z) (d : mock) : mock * (rocprofiler_status_t * Z) :=
  if decide (limit < length ids)%nat then (d, (ROCPROFILER_STATUS_ERROR_EXCEEDS_HW_LIMIT, 0))
  else if decide (Exists (λ c, c ∈ refused) ids) then (d, (ROCPROFILER_STATUS_OTHER 5, 0))
  else (mock_new ids d, (ROCPROFILER_STATUS_SUCCESS, Z.abs (next_handle d) + 1)).

(** Two records per counter of the active configuration, each with the
    counter's number as its value. *)
Definition mock_sample (ctx cap : Z) (d : mock)
    : mock * (list rocprofiler_record_counter_t * Z) :=
  let ids := default [] (h ← active d; live d !! h) in
  let recs := c ← ids; [Rec (10 * c) (double_of_Z c); Rec (10 * c + 1) (double_of_Z c)] in
  let recs := take (Z.to_nat cap) recs in
  (d, (recs, Z.of_nat (length recs))).

Definition mock_sdk : Sdk mock := {|
  create_context d := (Mock (Z.abs (next_handle d) + 1) (live d) (active d),
    (ROCPROFILER_STATUS_SUCCESS, Z.abs (next_handle d) + 1));
  configure_device_counting_service ctx agent d := (d, ROCPROFILER_STATUS_SUCCESS);
  query_available_agents d :=
    (Some (ROCPROFILER_AGENT_INFO_VERSION_0, mock_agents), ROCPROFILER_STATUS_SUCCESS);
  iterate_agent_supported_counters agent d :=
    if decide (agent = 7 ∨ agent = 8) then (Some (fst <$> mock_names), ROCPROFILER_STATUS_SUCCESS)
    else (None, ROCPROFILER_STATUS_OTHER 2);
  query_counter_info c d :=
    match mock_name c with
    | Some n => (ROCPROFILER_STATUS_SUCCESS, n)
    | None => (ROCPROFILER_STATUS_OTHER 3, "")
    end;
  iterate_counter_dimensions c d := (Some [Dim 1 "XCC" 2], ROCPROFILER_STATUS_SUCCESS);
  query_record_counter_id r d := Some (r / 10);
  query_record_dimension_position r dim d := Some (r mod 10);
  create_profile_config := mock_create;
  create_counter_config := mock_create;
  destroy_profile_config h d := Mock (next_handle d) (delete h (live d)) (active d);
  start_context ctx p d := Mock (next_handle d) (live d) p;
  stop_context ctx d := Mock (next_handle d) (live d) None;
  sample_device_counting_service := mock_sample;
|}.

Lemma mock_laws : @SdkLaws mock mock_sdk.
Proof.
  split; [|done..]. intros agent ids d. cbn. unfold mock_create.
  repeat case_decide; cbn; [done..|lia].
Qed.
End mock.

(** A sampler of agent 7, constructed. *)
Definition mock_sampler (limit : nat) (refused : list Z) : st mock :=
  (@constructor mock (mock_sdk limit refused) (St mock_init (new_sampler 7) [])).2.
