(* ===== verification/PackingProofs.v ===== *)
(** Correctness of the greedy packing of [Packing]. *)

From S2P Require Import Prelude RocpSdk Sampler Packing MockSdk.
Local Open Scope Z_scope.

#[local] Arguments pack_round : simpl never.
#[local] Arguments try_counter : simpl never.
#[local] Arguments request_ids : simpl never.

(** ** Specification *)

Section spec.
Context {S : Type} `{Sdk S}.
Context (agent : Z) (roc : gmap string Z).

(** The requested counters the agent supports. *)
Definition supported (counters : list string) : list string :=
  filter (λ n, is_Some (roc !! n)) counters.
#[local] Arguments supported : simpl never.

(** In some state the SDK accepted exactly these counters as one profile. *)
Definition accepted (names : list string) (cfg size : Z) : Prop :=
  ∃ d ids, request_ids roc names d ([], 0) = (ids, size) ∧
    (create_counter_config agent ids d).2 = (ROCPROFILER_STATUS_SUCCESS, cfg).

(** In some state the SDK rejected this counter on its own. *)
Definition rejected_alone (name : string) : Prop :=
  ∃ d ids size, request_ids roc [name] d ([], 0) = (ids, size) ∧
    (create_counter_config agent ids d).2.1 ≠ ROCPROFILER_STATUS_SUCCESS.

Definition profile_ok (p : Profile) : Prop :=
  counter_names p ≠ [] ∧ Z.of_nat (length (counter_names p)) <= MAX_COUNTER_PER_PROFILE ∧
  config p ≠ 0 ∧ accepted (counter_names p) (config p) (expected_size p).

(** A split of a request: every profile is good, the supported counters are
    distributed over the profiles and the leftover, each occurrence once,
    and a counter is left over only if the SDK rejected it on its own. *)
Definition split_ok (counters : list string) (ps : list Profile) (left : list string) : Prop :=
  Forall profile_ok ps ∧
  supported counters ≡ₚ concat (counter_names <$> ps) ++ left ∧
  Forall rejected_alone left.

(** ** One round *)

Definition round_ok (done : list string) (r : round) : Prop :=
  current_profile_counters r ++ failed_counters r ≡ₚ supported done ∧
  Z.of_nat (length (current_profile_counters r)) <= MAX_COUNTER_PER_PROFILE ∧
  (current_profile_counters r = [] → Forall rejected_alone (failed_counters r)) ∧
  (current_profile_counters r ≠ [] →
     accepted (current_profile_counters r) (last_valid_config r) (last_valid_size r)).

Lemma round_ok_init : round_ok [] round_init.
Proof. by repeat split. Qed.

Lemma supported_snoc done n :
  supported (done ++ [n]) = supported done ++ (if roc !! n is Some _ then [n] else []).
Proof.
  unfold supported. rewrite filter_app, filter_cons, filter_nil.
  destruct (roc !! n) eqn:E; case_decide as Hd; try done.
  by destruct Hd.
Qed.

(** A counter that is put aside: the profile in progress does not change. *)
Lemma round_ok_fail done r n cfg size :
  round_ok done r → is_Some (roc !! n) →
  (current_profile_counters r = [] → rejected_alone n) →
  last_valid_config r = cfg → last_valid_size r = size →
  round_ok (done ++ [n])
    (Round (current_profile_counters r) (failed_counters r ++ [n]) cfg size).
Proof.
  intros (Hperm & Hlen & Hrej & Hacc) [c Hc] Hn <- <-. split_and!; cbn; try done.
  - rewrite supported_snoc, Hc, <- Hperm. by rewrite app_assoc.
  - intros Hcur. apply Forall_app. split; [auto|]. by constructor; [apply Hn|].
Qed.

Lemma try_counter_ok done d r n d' r' :
  round_ok done r → try_counter agent roc (d, r) n = (d', r') → round_ok (done ++ [n]) r'.
Proof.
  intros Hok. pose proof Hok as (Hperm & Hlen & Hrej & Hacc). unfold try_counter.
  destruct (roc !! n) as [c|] eqn:Hc.
  2:{ intros [= <- <-]. split_and!; try done. rewrite supported_snoc, Hc. by rewrite app_nil_r. }
  destruct (request_ids roc (current_profile_counters r ++ [n]) d ([], 0))
    as [ids size] eqn:Hids.
  destruct (create_counter_config agent ids d) as [d1 [status cfg]] eqn:Hcfg.
  assert (status ≠ ROCPROFILER_STATUS_SUCCESS → current_profile_counters r = [] →
    rejected_alone n) as Hrejn.
  { intros Hst Hcur. rewrite Hcur in Hids. exists d, ids, size. by rewrite Hcfg. }
  case_decide as H1; [|case_decide as H2]; intros [= <- <-].
  - apply round_ok_fail; eauto. intros Hcur. apply Hrejn; [|done].
    destruct H1 as [->|H1]; [done|]. rewrite Hcur in H1. cbn in H1.
    unfold MAX_COUNTER_PER_PROFILE in H1. lia.
  - assert (¬ MAX_COUNTER_PER_PROFILE < Z.of_nat (length (current_profile_counters r ++ [n])))
      by tauto. subst status. split_and!; cbn.
    + rewrite supported_snoc, Hc, <- Hperm. solve_Permutation.
    + lia.
    + intros Hnil. by apply app_nil in Hnil as [_ ?].
    + intros _. exists d, ids. by rewrite Hcfg.
  - apply round_ok_fail; eauto.
Qed.

Lemma pack_round_ok_gen l : ∀ done d r d' r', round_ok done r →
  foldl (try_counter agent roc) (d, r) l = (d', r') → round_ok (done ++ l) r'.
Proof.
  induction l as [|n l IH]; intros done d r d' r' Hok Hf; cbn [foldl] in Hf.
  { simplify_eq. by rewrite app_nil_r. }
  destruct (try_counter agent roc (d, r) n) as [d1 r1] eqn:Ht.
  rewrite (cons_middle n done l), app_assoc. eapply IH; [|exact Hf]. by eapply try_counter_ok.
Qed.

Lemma pack_round_ok d l d' r : pack_round agent roc d l = (d', r) → round_ok l r.
Proof. apply (pack_round_ok_gen l []), round_ok_init. Qed.

Lemma length_supported l : (length (supported l) <= length l)%nat.
Proof. apply length_filter. Qed.

Lemma round_ok_failed l r : round_ok l r → supported (failed_counters r) = failed_counters r.
Proof.
  intros (Hperm & _). apply filter_id, Forall_forall. intros n Hn.
  assert (n ∈ supported l) as Hl by (rewrite <- Hperm; set_solver).
  by apply list_elem_of_filter in Hl as [? _].
Qed.

(** Every round that does not end the loop leaves fewer counters. *)
Lemma round_ok_progress l r : round_ok l r → l ≠ [] →
  ¬ (current_profile_counters r = [] ∧ failed_counters r ≠ []) →
  (length (failed_counters r) < length l)%nat.
Proof.
  intros (Hperm & _) Hl Hgo. apply Permutation_length in Hperm.
  rewrite length_app in Hperm. pose proof (length_supported l).
  destruct l as [|n l]; [done|]. cbn in *.
  destruct (current_profile_counters r), (failed_counters r); cbn in *; try lia.
  by destruct Hgo.
Qed.

Lemma pack_loop_total fuel : ∀ l d acc, (length l <= fuel)%nat →
  is_Some (pack_loop fuel agent roc d l acc).
Proof.
  induction fuel as [|fuel IH]; intros [|n l] d acc Hlen; cbn in *; try done; [lia|].
  destruct (pack_round agent roc d (n :: l)) as [d1 r] eqn:Hr.
  case_decide as Hstop; [done|]. apply IH.
  apply pack_round_ok in Hr. pose proof (round_ok_progress _ _ Hr) as Hp. cbn in Hp.
  specialize (Hp ltac:(done) Hstop). lia.
Qed.

(** ** The loop *)

Context (Hnonzero : ∀ ids d,
  (create_counter_config agent ids d).2.1 = ROCPROFILER_STATUS_SUCCESS →
  (create_counter_config agent ids d).2.2 ≠ 0).

Lemma round_profile_ok l r : round_ok l r → current_profile_counters r ≠ [] →
  last_valid_config r ≠ 0 ∧
  profile_ok (MkProfile (last_valid_config r) (current_profile_counters r) (last_valid_size r)).
Proof.
  intros (_ & Hlen & _ & Hacc) Hcur. specialize (Hacc Hcur).
  assert (last_valid_config r ≠ 0) as Hnz.
  { destruct Hacc as (d & ids & _ & Hc). specialize (Hnonzero ids d). rewrite Hc in Hnonzero.
    by apply Hnonzero. }
  done.
Qed.

Lemma pack_loop_ok fuel : ∀ l d acc d' ps left,
  pack_loop fuel agent roc d l acc = Some (d', (ps, left)) →
  ∃ ps', ps = acc ++ ps' ∧ split_ok l ps' left.
Proof.
  induction fuel as [|fuel IH]; intros [|n l] d acc d' ps left; cbn; try done;
    try (intros [= <- <- <-]; exists []; rewrite app_nil_r; by repeat constructor).
  destruct (pack_round agent roc d (n :: l)) as [d1 r] eqn:Hr.
  apply pack_round_ok in Hr. pose proof Hr as (Hperm & _ & Hrej & _).
  pose proof (round_ok_failed _ _ Hr) as Hfail. pose proof (round_profile_ok _ _ Hr) as Hp.
  clear Hr. destruct r as [cur failed cfg size]. cbn in *.
  destruct (decide (cur = [])) as [->|Hcur].
  - rewrite (decide_False (P := _ ≠ _ ∧ _)) by (by intros [? ?]). case_decide as Hf.
    + intros [= <- <- <-]. exists []. rewrite app_nil_r. split; [done|].
      split_and!; [constructor|by rewrite <- Hperm|auto].
    + intros (ps' & -> & Hok1 & Hok2 & Hok3)%IH. exists ps'. split; [done|].
      split_and!; [done| |done]. by rewrite <- Hok2, Hfail, <- Hperm.
  - destruct (Hp Hcur) as [Hnz Hpr].
    rewrite (decide_True (P := _ ≠ _ ∧ _)) by done. rewrite decide_False by (by intros [? ?]).
    intros (ps' & -> & Hok1 & Hok2 & Hok3)%IH. eexists (_ :: ps').
    rewrite <- app_assoc. split; [done|]. split_and!; [by constructor| |done].
    cbn. rewrite <- app_assoc, <- Hok2, Hfail. by rewrite <- Hperm.
Qed.
End spec.

(** ** [create_profiles_for_counters] *)

Section create.
Context {S : Type} `{Sdk S}.

Lemma name_counters_state ids : ∀ out (s : st S), (name_counters ids out s).2 = s.
Proof.
  induction ids as [|c ids IH]; intros out s; [done|]. cbn [name_counters].
  unfold mbind, M_bind, sdk_ask.
  destruct (query_counter_info c (sdk s)) as [status name].
  rewrite RocprofilerCall_status. by case_decide.
Qed.

Lemma get_supported_counters_state agent (s : st S) : (get_supported_counters agent s).2 = s.
Proof.
  unfold get_supported_counters, mbind, M_bind, sdk_ask.
  destruct (iterate_agent_supported_counters agent (sdk s)) as [ids status].
  rewrite RocprofilerCall_status. case_decide; [apply name_counters_state|done].
Qed.

Lemma create_profiles_split (counters : list string) (s : st S) :
  (∀ ids d, (create_counter_config (agent_ (this s)) ids d).2.1 = ROCPROFILER_STATUS_SUCCESS →
     (create_counter_config (agent_ (this s)) ids d).2.2 ≠ 0) →
  match (get_supported_counters (agent_ (this s)) s).1 with
  | inr e => create_profiles_for_counters counters s = (inr e, s)
  | inl roc => ∃ d ps left,
      create_profiles_for_counters counters s
        = (inl (MkProfileSet ps), St d (this s) (sleeps s)) ∧
      split_ok (agent_ (this s)) roc counters ps left
  end.
Proof.
  intros Hnz. pose proof (get_supported_counters_state (agent_ (this s)) s) as Hst.
  unfold create_profiles_for_counters, mbind, M_bind, my.
  destruct (get_supported_counters (agent_ (this s)) s) as [[roc|e] s'] eqn:Hg;
    cbn in Hst; subst s'; cbn [fst]; [|done].
  unfold sdk_do.
  destruct (pack_loop_total (agent_ (this s)) roc (pack_fuel counters) counters (sdk s) [])
    as [[d [ps left]] Hp]; [done|]. rewrite Hp.
  apply pack_loop_ok in Hp as (ps' & -> & Hok); [|done]. by eexists d, ps', left.
Qed.

(** C1: the packing of a request.  The call throws exactly when the listing of
    the agent's counters does, and then changes nothing; otherwise it returns
    profiles that the SDK accepted, of one to ten counters each, which
    together hold every supported counter of the request exactly as often as
    it was requested, but those the SDK rejected on their own. *)
Theorem create_profiles_correct `{!SdkLaws S} (counters : list string) (s : st S) :
  match (get_supported_counters (agent_ (this s)) s).1 with
  | inr e => create_profiles_for_counters counters s = (inr e, s)
  | inl roc => ∃ d ps left,
      create_profiles_for_counters counters s
        = (inl (MkProfileSet ps), St d (this s) (sleeps s)) ∧
      split_ok (agent_ (this s)) roc counters ps left
  end.
Proof.
  apply create_profiles_split; intros; by apply law_config_nonzero.
Qed.

(** *** An SDK that accepts every set of ten counters *)

Section accepting.
Context (agent : Z) (roc : gmap string Z).
Context (Haccepts : ∀ ids d, (length ids <= 10)%nat →
  (create_counter_config (S:=S) agent ids d).2.1 = ROCPROFILER_STATUS_SUCCESS).
Context (Hnonzero : ∀ ids d,
  (create_counter_config (S:=S) agent ids d).2.1 = ROCPROFILER_STATUS_SUCCESS →
  (create_counter_config (S:=S) agent ids d).2.2 ≠ 0).

Abbreviation sup := (supported roc).

Lemma try_counter_accepting done d r n d' r' :
  current_profile_counters r = take 10 (sup done) → failed_counters r = drop 10 (sup done) →
  try_counter agent roc (d, r) n = (d', r') →
  current_profile_counters r' = take 10 (sup (done ++ [n])) ∧
  failed_counters r' = drop 10 (sup (done ++ [n])).
Proof.
  intros Hc Hf. unfold try_counter. rewrite supported_snoc.
  destruct (roc !! n) as [c|]; [|intros [= <- <-]; by rewrite app_nil_r].
  pose proof (request_ids_length roc (current_profile_counters r ++ [n]) d ([], 0)) as Hids.
  destruct (request_ids roc _ d _) as [ids size]. specialize (Haccepts ids d).
  destruct (create_counter_config agent ids d) as [d1 [status cfg]]. cbn [fst snd] in Haccepts, Hids.
  rewrite Hc, Hf in *. rewrite length_app, length_take in *. rewrite take_app, drop_app.
  change (length [n]) with 1%nat in *. change (length []) with 0%nat in *.
  unfold MAX_COUNTER_PER_PROFILE.
  destruct (decide (length (sup done) < 10)%nat).
  - rewrite Haccepts by lia. rewrite decide_False by (intros [?|?]; [done|lia]).
    rewrite decide_True by done. intros [= <- <-]; cbn [current_profile_counters failed_counters].
    rewrite !drop_ge, !take_ge by (cbn [length]; lia). done.
  - rewrite decide_True by lia. intros [= <- <-]; cbn [current_profile_counters failed_counters].
    replace (10 - length (sup done))%nat with 0%nat by lia. by rewrite app_nil_r.
Qed.

Lemma pack_round_accepting_gen l : ∀ done d r d' r',
  current_profile_counters r = take 10 (sup done) → failed_counters r = drop 10 (sup done) →
  foldl (try_counter agent roc) (d, r) l = (d', r') →
  current_profile_counters r' = take 10 (sup (done ++ l)) ∧
  failed_counters r' = drop 10 (sup (done ++ l)).
Proof.
  induction l as [|n l IH]; intros done d r d' r' Hc Hf Hl; cbn [foldl] in Hl.
  { simplify_eq. by rewrite app_nil_r. }
  destruct (try_counter agent roc (d, r) n) as [d1 r1] eqn:Ht.
  destruct (try_counter_accepting _ _ _ _ _ _ Hc Hf Ht) as [Hc1 Hf1].
  rewrite (cons_middle n done l), app_assoc. by eapply IH.
Qed.

Lemma pack_round_accepting l d d' r : pack_round agent roc d l = (d', r) →
  current_profile_counters r = take 10 (sup l) ∧ failed_counters r = drop 10 (sup l).
Proof. by apply (pack_round_accepting_gen l []). Qed.

(** The split into blocks of ten, in the order of the request. *)
Lemma pack_loop_accepting fuel : ∀ l d acc d' ps left,
  pack_loop fuel agent roc d l acc = Some (d', (ps, left)) →
  left = [] ∧ ∃ ps', ps = acc ++ ps' ∧ concat (counter_names <$> ps') = sup l ∧
    length ps' = ((length (sup l) + 9) / 10)%nat.
Proof.
  induction fuel as [|fuel IH]; intros [|n l] d acc d' ps left; cbn [pack_loop]; try done;
    try (intros [= <- <- <-]; split; [done|]; exists []; by rewrite app_nil_r).
  destruct (pack_round agent roc d (n :: l)) as [d1 r] eqn:Hr.
  pose proof (round_profile_ok agent roc Hnonzero _ _
    (pack_round_ok _ _ _ _ _ _ Hr)) as Hp.
  apply pack_round_accepting in Hr as [Hc Hf]. rewrite Hc, Hf in *.
  assert (sup (drop 10 (sup (n :: l))) = drop 10 (sup (n :: l))) as Hsup.
  { apply filter_id, Forall_drop, Forall_forall. by intros x [? _]%list_elem_of_filter. }
  destruct (decide (take 10 (sup (n :: l)) = [])) as [Ht|Ht].
  - assert (sup (n :: l) = []) as Hnil by (by destruct (sup (n :: l))).
    rewrite Hnil in *. rewrite !decide_False by (by intros [? ?]).
    intros (-> & ps' & -> & H1 & H2)%IH. split; [done|]. exists ps'. by rewrite H1, H2, Hsup.
  - destruct (Hp Ht) as [Hnz _]. rewrite (decide_True (P := _ ≠ _ ∧ _)) by done.
    rewrite decide_False by (by intros [? ?]).
    intros (-> & ps' & -> & H1 & H2)%IH. split; [done|]. eexists (_ :: ps').
    rewrite <- app_assoc. split_and!; [done| |].
    + cbn. by rewrite H1, Hsup, take_drop.
    + cbn [length]. rewrite H2, Hsup, length_drop.
      assert (length (sup (n :: l)) ≠ 0)%nat by (by destruct (sup (n :: l))).
      destruct (decide (10 <= length (sup (n :: l)))%nat).
      * replace (length (sup (n :: l)) + 9)%nat with (length (sup (n :: l)) - 10 + 9 + 1 * 10)%nat by lia.
        rewrite Nat.div_add by done. lia.
      * replace (length (sup (n :: l)) - 10)%nat with 0%nat by lia.
        apply (Nat.div_unique _ 10 1 (length (sup (n :: l)) - 1)); lia.
Qed.
End accepting.

(** where the SDK accepts every set of up to ten counters, the packing is optimal:
    the supported counters in the order of the request, in [⌈n / 10⌉]
    profiles, which no split into profiles of at most ten can beat. *)
Theorem create_profiles_optimal `{!SdkLaws S} (counters : list string) (s : st S) roc :
  (∀ ids d, (length ids <= 10)%nat →
     (create_counter_config (agent_ (this s)) ids d).2.1 = ROCPROFILER_STATUS_SUCCESS) →
  get_supported_counters (agent_ (this s)) s = (inl roc, s) →
  ∃ ps s', create_profiles_for_counters counters s = (inl (MkProfileSet ps), s') ∧
    concat (counter_names <$> ps) = supported roc counters ∧
    ∀ qs : list (list string), concat qs ≡ₚ supported roc counters →
      Forall (λ q, Z.of_nat (length q) <= MAX_COUNTER_PER_PROFILE) qs →
      (length ps <= length qs)%nat.
Proof.
  intros Hacc Hg. unfold create_profiles_for_counters, mbind, M_bind, my, sdk_do.
  rewrite Hg.
  destruct (pack_loop_total (agent_ (this s)) roc (pack_fuel counters) counters (sdk s) [])
    as [[d [ps left]] Hp]; [done|]. rewrite Hp.
  apply pack_loop_accepting in Hp as (_ & ps' & -> & Hcat & Hlen); [|done|apply law_config_nonzero].
  eexists _, _. split_and!; [done|done|]. intros qs Hqs Hten. cbn [app]. rewrite Hlen.
  apply Permutation_length in Hqs. rewrite <- Hqs.
  assert (length (concat qs) <= 10 * length qs)%nat.
  { clear -Hten. unfold MAX_COUNTER_PER_PROFILE in Hten.
    induction Hten as [|q qs Hq _ IH]; cbn [concat length]; [done|]. rewrite length_app. lia. }
  apply Nat.lt_succ_r, Nat.Div0.div_lt_upper_bound. lia.
Qed.
End create.

(** ** Instances *)

Section witnesses.
#[local] Instance demo_sdk : Sdk mock := mock_sdk 2 [4].
#[local] Instance demo_laws : SdkLaws mock := mock_laws 2 [4].

Definition demo_request : list string :=
  ["SQ_WAVES"; "NO_SUCH_COUNTER"; "FETCH_SIZE"; "GPU_UTIL"; "SQ_WAVES"].

(** Five names, two counters per profile, one counter refused. *)
Lemma create_profiles_correct_witness :
  let s := mock_sampler 2 [4] in
  match (get_supported_counters (agent_ (this s)) s).1 with
  | inr e => create_profiles_for_counters demo_request s = (inr e, s)
  | inl roc => ∃ d ps left,
      create_profiles_for_counters demo_request s
        = (inl (MkProfileSet ps), St d (this s) (sleeps s)) ∧
      split_ok (agent_ (this s)) roc demo_request ps left
  end ∧
  match (create_profiles_for_counters demo_request s).1 with
  | inl ps => counter_names <$> profiles ps = [["SQ_WAVES"; "GPU_UTIL"]; ["SQ_WAVES"]]
  | inr _ => False
  end.
Proof.
  split; [exact (create_profiles_correct demo_request (mock_sampler 2 [4]))|].
  vm_compute. reflexivity.
Defined.
End witnesses.

Section witnesses_accepting.
#[local] Instance free_sdk : Sdk mock := mock_sdk 10 [].
#[local] Instance free_laws : SdkLaws mock := mock_laws 10 [].

Lemma create_profiles_optimal_witness :
  let s := mock_sampler 10 [] in
  ∃ ps s', create_profiles_for_counters demo_request s = (inl (MkProfileSet ps), s') ∧
    concat (counter_names <$> ps) = ["SQ_WAVES"; "FETCH_SIZE"; "GPU_UTIL"; "SQ_WAVES"] ∧
    (length ps <= 1)%nat.
Proof.
  destruct (create_profiles_optimal demo_request (mock_sampler 10 [])
    (match (get_supported_counters 7 (mock_sampler 10 [])).1 with inl r => r | _ => ∅ end))
    as (ps & s' & H1 & H2 & H3).
  - intros ids d Hl. cbn. unfold mock_create. rewrite decide_False by lia.
    rewrite decide_False; [done|]. intros Hx%Exists_exists. by destruct Hx as (x & _ & []%not_elem_of_nil).
  - vm_compute. reflexivity.
  - exists ps, s'. split_and!; [done|by rewrite H2|].
    apply (H3 [["SQ_WAVES"; "FETCH_SIZE"; "GPU_UTIL"; "SQ_WAVES"]]); [done|].
    by repeat constructor.
Defined.
End witnesses_accepting.
