(* ===== verification/SamplerProofs.v ===== *)
(** Properties of the methods of [CounterSampler]: what they keep of the
    object, the cache of profile sets, the cache of counter names, the sums
    of the records, the waits and what the destructor releases. *)

From S2P Require Import Prelude RocpSdk Sampler Packing PackingProofs.
Local Open Scope Z_scope.

(** ** Properties of the object that the methods keep *)

Section keeps.
Context {S : Type} `{Sdk S}.

(** A property of the object, whatever the SDK does. *)
Definition on_this (Q : CounterSampler → Prop) : st S → Prop := λ s, Q (this s).

Lemma keeps_sdk_do {A} Q (f : S → S * A) : keeps (on_this Q) (sdk_do f).
Proof. intros s Hs. unfold sdk_do. by destruct (f (sdk s)). Qed.

Lemma keeps_sdk_ask {A} P (f : S → A) : keeps P (sdk_ask f).
Proof. by intros s. Qed.

Lemma keeps_sdk_upd Q f : keeps (on_this Q) (sdk_upd (S:=S) f).
Proof. by intros s. Qed.

Lemma keeps_my {A} P (f : CounterSampler → A) : keeps (St:=st S) P (my f).
Proof. by intros s. Qed.

Lemma keeps_set_this Q f : (∀ c, Q c → Q (f c)) → keeps (on_this Q) (set_this (S:=S) f).
Proof. intros Hf s. apply Hf. Qed.

Lemma keeps_usleep Q us : keeps (on_this Q) (usleep (S:=S) us).
Proof. by intros s. Qed.

Lemma keeps_call P msg m : keeps (St:=st S) P m → keeps P (RocprofilerCall msg m).
Proof.
  intros Hm. apply keeps_bind; [done|]. intros r. by case_decide; auto with smi.
Qed.
End keeps.

#[export] Hint Resolve keeps_sdk_do keeps_sdk_ask keeps_sdk_upd keeps_my keeps_usleep keeps_call
  : smi.

(** Walk through a method: binds, branches and queries; what is left are the
    assignments to the object. *)
Ltac keeps_step :=
  lazymatch goal with
  | |- keeps _ (_ ≫= _) => apply keeps_bind; [|intros ?]
  | |- keeps _ (match ?x with _ => _ end) => destruct x
  | |- keeps _ (set_this _) => apply keeps_set_this; intros ? ?
  | |- keeps _ _ => solve [auto with smi]
  end.
Ltac keeps_solve := repeat keeps_step.

Section methods.
Context {S : Type} `{Sdk S}.
Context (Q : CounterSampler → Prop).

Abbreviation K := (keeps (on_this (S:=S) Q)).

Lemma keeps_get_counter_dimensions c : K (get_counter_dimensions c).
Proof. unfold get_counter_dimensions. keeps_solve. Qed.

Lemma keeps_get_record_dimensions r : K (get_record_dimensions r).
Proof. unfold get_record_dimensions. keeps_solve. apply keeps_get_counter_dimensions. Qed.

Lemma keeps_name_counters ids : ∀ out, K (name_counters ids out).
Proof.
  induction ids as [|c ids IH]; intros out; cbn [name_counters]; keeps_solve; auto.
Qed.

Lemma keeps_get_supported_counters agent : K (get_supported_counters agent).
Proof. unfold get_supported_counters. keeps_solve. apply keeps_name_counters. Qed.

Lemma keeps_create_profiles counters : K (create_profiles_for_counters counters).
Proof.
  unfold create_profiles_for_counters. keeps_solve. apply keeps_get_supported_counters.
Qed.

Lemma keeps_sample_window size duration pause :
  K pause → K (sample_window size duration pause).
Proof. intros Hp. unfold sample_window. keeps_solve. Qed.

Lemma keeps_decode_record_name rec :
  (∀ c i n, Q c → Q (set_names (<[i := n]> (id_to_name_ c)) c)) → K (decode_record_name rec).
Proof. intros Hn. unfold decode_record_name. keeps_solve. by apply Hn. Qed.

Lemma keeps_add_records recs : ∀ out,
  (∀ c i n, Q c → Q (set_names (<[i := n]> (id_to_name_ c)) c)) → K (add_records recs out).
Proof.
  induction recs as [|r recs IH]; intros out Hn; cbn [add_records]; keeps_solve.
  by apply keeps_decode_record_name.
Qed.

Lemma keeps_sample_profiles ps duration delay : ∀ out,
  (∀ c i n, Q c → Q (set_names (<[i := n]> (id_to_name_ c)) c)) →
  (∀ c p, Q c → Q (set_profiles p p c)) → K (sample_profiles ps duration delay out).
Proof.
  intros out Hn Hp. revert out.
  induction ps as [|p ps IH]; intros out; cbn [sample_profiles]; keeps_solve; auto.
  - apply keeps_sample_window. unfold delay_pause. keeps_solve.
  - by apply keeps_add_records.
Qed.

End methods.

Section packing.
Context {S : Type} `{Sdk S}.
Context (Q : CounterSampler → Prop).

(** Everything [sample_counters_with_packing] assigns to the object. *)
Lemma keeps_sample_counters_with_packing counters duration delay :
  (∀ c i n, Q c → Q (set_names (<[i := n]> (id_to_name_ c)) c)) →
  (∀ c p, Q c → Q (set_profiles p p c)) →
  (∀ c ps, cached_profile_sets_ c !! sort_counters counters = None → Q c →
     Q (set_profile_sets (<[sort_counters counters := ps]> (cached_profile_sets_ c)) c)) →
  keeps (on_this (S:=S) Q) (sample_counters_with_packing counters duration delay).
Proof.
  intros Hn Hp Hs. unfold sample_counters_with_packing.
  apply keeps_bind; [|intros ps; by apply keeps_sample_profiles].
  intros s HQ. unfold cached_profile_set. unfold mbind at 1, M_bind at 1, my.
  destruct (cached_profile_sets_ (this s) !! sort_counters counters) as [ps|] eqn:Hc; [done|].
  unfold mbind, M_bind.
  pose proof (keeps_create_profiles (S:=S) (eq (this s)) (sort_counters counters) s eq_refl) as Ht.
  destruct (create_profiles_for_counters (sort_counters counters) s) as [[ps|e] s1];
    unfold on_this in *; cbn in *; [|by rewrite <- Ht]. rewrite <- Ht. by apply Hs.
Qed.
End packing.

(** ** The life of a sampler

    The calls of its methods between the constructor and the destructor, in
    any order, whether they return or throw. *)

Section life.
Context {S : Type} `{Sdk S}.

Inductive step : st S → st S → Prop :=
  | step_packing counters duration delay_ms s :
      step s (sample_counters_with_packing counters duration delay_ms s).2
  | step_values counters duration s : step s (sample_counter_values counters duration s).2
  | step_decode rec s : step s (decode_record_name rec s).2
  | step_dimensions rec s : step s (get_record_dimensions rec s).2.

(** Every cached profile has its size. *)
Definition sizes_ok (c : CounterSampler) : Prop :=
  map_Forall (λ _ p, is_Some (profile_sizes_ c !! p)) (cached_profiles_ c).

(** The SDK, asked in some state, lists these counters of the agent. *)
Definition listed (agent : Z) (roc : gmap string Z) : Prop :=
  ∃ s : st S, (get_supported_counters agent s).1 = inl roc.

(** The SDK lists them in a state the sampler comes through. *)
Definition listed_since (s0 : st S) (agent : Z) (roc : gmap string Z) : Prop :=
  ∃ s, rtc step s0 s ∧ (get_supported_counters agent s).1 = inl roc.

(** Every cached profile set is a split of the request it is filed under,
    with the counters of a listing. *)
Definition sets_ok (Listed : Z → gmap string Z → Prop) (c : CounterSampler) : Prop :=
  map_Forall (λ k ps, StronglySorted string_le k ∧
    ∃ roc left, Listed (agent_ c) roc ∧ split_ok (agent_ c) roc k (profiles ps) left) (cached_profile_sets_ c).

(** Every cached name is the SDK's. *)
Definition names_ok (c : CounterSampler) : Prop :=
  map_Forall (λ i n, ∀ d : S, query_counter_info i d = (ROCPROFILER_STATUS_SUCCESS, n))
    (id_to_name_ c).

Definition sampler_ok (Listed : Z → gmap string Z → Prop) (c : CounterSampler) : Prop :=
  sizes_ok c ∧ sets_ok Listed c ∧ names_ok c.

Lemma sampler_ok_new Listed agent : sampler_ok Listed (new_sampler agent).
Proof. split_and!; apply map_Forall_empty. Qed.
End life.

(** ** Names of records *)

Section names.
Context {S : Type} `{Sdk S} `{!SdkLaws S}.

(** The name of a record's counter, without the cache. *)
Definition record_name (rec : rocprofiler_record_counter_t) (d : S) : string :=
  let '(status, name) := query_counter_info (record_counter rec d) d in
  if decide (status = ROCPROFILER_STATUS_SUCCESS) then name else "UNKNOWN_COUNTER".

Lemma record_name_stable rec d d' : record_name rec d = record_name rec d'.
Proof.
  unfold record_name, record_counter.
  by rewrite (law_record_stable (rec_id rec) d d'), (law_info_stable _ d d').
Qed.

(** The same state with other cached names. *)
Definition with_names (m : gmap Z string) (s : st S) : st S :=
  St (sdk s) (set_names m (this s)) (sleeps s).

Lemma with_names_id s : with_names (id_to_name_ (this s)) s = s.
Proof. by destruct s as [? [] ?]. Qed.

Lemma decode_record_name_eq rec s : names_ok (S:=S) (this s) →
  ∃ m, decode_record_name rec s = (inl (record_name rec (sdk s)), with_names m s) ∧
    names_ok (S:=S) (set_names m (this s)).
Proof.
  intros Hok. unfold decode_record_name, record_name, mbind, M_bind, sdk_ask, my.
  destruct (id_to_name_ (this s) !! record_counter rec (sdk s)) as [n|] eqn:Hn.
  - exists (id_to_name_ (this s)). rewrite (Hok _ _ Hn (sdk s)), decide_True by done.
    by rewrite with_names_id.
  - destruct (query_counter_info (record_counter rec (sdk s)) (sdk s)) as [status n] eqn:Hq.
    case_decide as Hs.
    + subst. eexists. split; [done|]. apply map_Forall_insert_2; [|exact Hok].
      intros d. by rewrite (law_info_stable _ d (sdk s)).
    + exists (id_to_name_ (this s)). by rewrite with_names_id.
Qed.

(** The sums the client makes, over a list of records. *)
Definition add_named (d : S) (out : gmap string double) (r : rocprofiler_record_counter_t)
    : gmap string double := add_value (record_name r d) (counter_value r) out.

Lemma add_records_eq recs d0 : ∀ out s, names_ok (S:=S) (this s) →
  ∃ m, add_records recs out s = (inl (foldl (add_named d0) out recs), with_names m s) ∧
    names_ok (S:=S) (set_names m (this s)).
Proof.
  induction recs as [|r recs IH]; intros out s Hok; cbn [add_records foldl].
  { exists (id_to_name_ (this s)). by rewrite with_names_id. }
  destruct (decode_record_name_eq r s Hok) as (m & Hm & Hok').
  rewrite (bind_inl _ _ _ _ _ Hm).
  destruct (IH (add_value (record_name r (sdk s)) (counter_value r) out) (with_names m s) Hok')
    as (m' & Hm' & Hok''). exists m'. split; [|done]. rewrite Hm'.
  unfold add_named. by rewrite (record_name_stable r d0 (sdk s)).
Qed.
End names.

(** ** Sampling *)

Section sampling.
Context {S : Type} `{Sdk S}.

(** The calls of [usleep] between the windows. *)
Definition pause_waits (delay_ms : Z) : list Z :=
  if decide (0 < delay_ms) then [u32 (u32 (delay_ms * 1000))] else [].

(** One window, as a function of the state. *)
Definition window (size duration : Z) (waits : list Z) (s : st S)
    : list rocprofiler_record_counter_t * st S :=
  let ctx := ctx_ (this s) in
  let '(d, (written, out_size)) :=
    sample_device_counting_service ctx size
      (start_context ctx (set_profile (this s)) (sdk s)) in
  (resize_records out_size (written ++ drop (length written) (resize_records size [])),
   St (stop_context ctx d) (this s) (sleeps s ++ u32 duration :: waits)).

Lemma sample_window_eq size duration delay_ms s :
  sample_window size duration (delay_pause delay_ms) s =
  (inl (window size duration (pause_waits delay_ms) s).1,
   (window size duration (pause_waits delay_ms) s).2).
Proof.
  unfold sample_window, window, pause_waits, delay_pause, mbind, M_bind, my, sdk_upd, sdk_do,
    usleep, modify. cbn.
  destruct (sample_device_counting_service _ _ _) as [d [w o]]. cbn.
  case_decide; cbn; [by rewrite <- app_assoc|done].
Qed.

(** The records of all windows of a profile set, not yet decoded. *)
Fixpoint windows (ps : list Profile) (duration : Z) (waits : list Z) (s : st S)
    : list rocprofiler_record_counter_t * st S :=
  match ps with
  | [] => ([], s)
  | p :: ps =>
      let '(recs, s) := window (expected_size p) duration waits
        (St (sdk s) (set_profiles (config p) (config p) (this s)) (sleeps s)) in
      let '(rest, s) := windows ps duration waits s in
      (recs ++ rest, s)
  end.

Lemma window_names m size duration waits s :
  window size duration waits (with_names m s) =
  ((window size duration waits s).1, with_names m (window size duration waits s).2).
Proof.
  unfold window, with_names. cbn.
  by destruct (sample_device_counting_service _ _ _) as [d [w o]].
Qed.

Lemma windows_names m ps duration waits : ∀ s,
  windows ps duration waits (with_names m s) =
  ((windows ps duration waits s).1, with_names m (windows ps duration waits s).2).
Proof.
  induction ps as [|p ps IH]; intros s; [done|]. cbn [windows].
  set (s1 := St (sdk s) (set_profiles (config p) (config p) (this s)) (sleeps s)).
  change (St (sdk (with_names m s)) _ _) with (with_names m s1).
  rewrite window_names. destruct (window (expected_size p) duration waits s1) as [recs s2].
  cbn [fst snd]. rewrite IH. by destruct (windows ps duration waits s2).
Qed.

Lemma window_this size duration waits s :
  this (window size duration waits s).2 = this s ∧
  sleeps (window size duration waits s).2 = sleeps s ++ u32 duration :: waits.
Proof. unfold window. by destruct (sample_device_counting_service _ _ _) as [d [w o]]. Qed.

Lemma windows_sleeps ps duration waits : ∀ s,
  sleeps (windows ps duration waits s).2 =
  sleeps s ++ concat (replicate (length ps) (u32 duration :: waits)).
Proof.
  induction ps as [|p ps IH]; intros s; cbn [windows length replicate concat].
  { by rewrite app_nil_r. }
  pose proof (window_this (expected_size p) duration waits
    (St (sdk s) (set_profiles (config p) (config p) (this s)) (sleeps s))) as [_ Hs].
  destruct (window _ _ _ _) as [recs s1]. cbn in Hs. specialize (IH s1).
  destruct (windows ps duration waits s1) as [rest s2]. cbn in *. by rewrite IH, Hs, <- app_assoc.
Qed.

Lemma sample_profiles_eq `{!SdkLaws S} ps duration delay_ms d0 : ∀ out s,
  names_ok (S:=S) (this s) →
  ∃ m, sample_profiles ps duration delay_ms out s =
    (inl (foldl (add_named d0) out (windows ps duration (pause_waits delay_ms) s).1),
     with_names m (windows ps duration (pause_waits delay_ms) s).2) ∧
    names_ok (S:=S) (set_names m (this (windows ps duration (pause_waits delay_ms) s).2)).
Proof.
  induction ps as [|p ps IH]; intros out s Hok; cbn [sample_profiles windows].
  { exists (id_to_name_ (this s)). by rewrite with_names_id. }
  set (s1 := St (sdk s) (set_profiles (config p) (config p) (this s)) (sleeps s)).
  rewrite (bind_inl _ _ s () s1) by done.
  rewrite (bind_inl _ _ _ _ _ (sample_window_eq _ _ _ s1)).
  pose proof (window_this (expected_size p) duration (pause_waits delay_ms) s1) as [Ht _].
  destruct (window (expected_size p) duration (pause_waits delay_ms) s1) as [recs s2].
  cbn [fst snd] in *. assert (names_ok (S:=S) (this s2)) as Hok2 by (by rewrite Ht).
  destruct (add_records_eq recs d0 out s2 Hok2) as (m & Hm & Hokm).
  rewrite (bind_inl _ _ _ _ _ Hm).
  destruct (IH (foldl (add_named d0) out recs) (with_names m s2) Hokm) as (m' & Hm' & Hok').
  rewrite windows_names in Hm', Hok'. exists m'.
  destruct (windows ps duration (pause_waits delay_ms) s2) as [rest s3]. cbn [fst snd] in *.
  rewrite foldl_app. done.
Qed.
End sampling.

(** ** What a request returns *)

Section totals.
Context {S : Type} `{Sdk S}.

(** The values of the records of a counter, in the order they were read. *)
Definition values_of (d : S) (name : string) (recs : list rocprofiler_record_counter_t)
    : list double :=
  counter_value <$> filter (λ r, record_name r d = name) recs.

(** Their sum, if there are any. *)
Definition total (d : S) (name : string) (recs : list rocprofiler_record_counter_t)
    : option double :=
  match values_of d name recs with
  | [] => None
  | v :: vs => Some (foldl d_add d_zero (v :: vs))
  end.

Lemma add_named_lookup d recs name : ∀ out,
  foldl (add_named d) out recs !! name =
  match values_of d name recs with
  | [] => out !! name
  | v :: vs => Some (foldl d_add (default d_zero (out !! name)) (v :: vs))
  end.
Proof.
  induction recs as [|r recs IH]; intros out; [done|]. cbn [foldl]. rewrite IH.
  unfold values_of, add_named, add_value. destruct (decide (record_name r d = name)) as [<-|Hn].
  - rewrite filter_cons_True, fmap_cons, lookup_insert, decide_True by done. cbn.
    by destruct (counter_value <$> _).
  - by rewrite filter_cons_False, lookup_insert_ne by done.
Qed.

Lemma sort_counters_permutation c1 c2 : c1 ≡ₚ c2 → sort_counters c1 = sort_counters c2.
Proof.
  intros Hp. apply (StronglySorted_unique string_le).
  - apply StronglySorted_merge_sort; apply _.
  - apply StronglySorted_merge_sort; apply _.
  - unfold sort_counters. by rewrite !merge_sort_Permutation.
Qed.

Lemma sort_counters_sorted c : StronglySorted string_le (sort_counters c).
Proof. apply StronglySorted_merge_sort; apply _. Qed.

(** What the lookup of a profile set may do: nothing, or create the set and
    file it. *)
Lemma cached_profile_set_cases `{!SdkLaws S} key s :
  (∃ ps, cached_profile_sets_ (this s) !! key = Some ps ∧
     cached_profile_set key s = (inl ps, s)) ∨
  (cached_profile_sets_ (this s) !! key = None ∧
   ((∃ e, (get_supported_counters (agent_ (this s)) s).1 = inr e ∧ cached_profile_set key s = (inr e, s)) ∨
    ∃ d ps roc left, (get_supported_counters (agent_ (this s)) s).1 = inl roc ∧
      split_ok (agent_ (this s)) roc key ps left ∧
      cached_profile_set key s = (inl (MkProfileSet ps),
        St d (set_profile_sets (<[key := MkProfileSet ps]> (cached_profile_sets_ (this s)))
                (this s)) (sleeps s)))).
Proof.
  unfold cached_profile_set, mbind, M_bind, my.
  destruct (cached_profile_sets_ (this s) !! key) as [ps|]; [left; by exists ps|right; split; [done|]].
  pose proof (create_profiles_split key s (law_config_nonzero _)) as Hc.
  destruct ((get_supported_counters (agent_ (this s)) s).1) as [roc|e].
  - destruct Hc as (d & ps & left & -> & Hok). right. by exists d, ps, roc, left.
  - rewrite Hc. left. by exists e.
Qed.
End totals.

(** ** The invariant of a sampler *)

Section invariant.
Context {S : Type} `{Sdk S} `{!SdkLaws S}.
Context (Listed : Z → gmap string Z → Prop).

Lemma windows_this ps duration waits : ∀ s, ∃ p q,
  this (windows (S:=S) ps duration waits s).2 = set_profiles p q (this s).
Proof.
  induction ps as [|p ps IH]; intros s; cbn [windows].
  { exists (profile_ (this s)), (counter_ (this s)). by destruct s as [? [] ?]. }
  pose proof (window_this (expected_size p) duration waits
    (St (sdk s) (set_profiles (config p) (config p) (this s)) (sleeps s))) as [Ht _].
  destruct (window _ _ _ _) as [recs s1]. destruct (IH s1) as (p' & q' & Hs). cbn in Ht.
  destruct (windows ps duration waits s1) as [rest s2]. cbn in *. rewrite Ht in Hs.
  exists p', q'. by rewrite Hs.
Qed.

Lemma sampler_ok_sample_profiles ps duration delay_ms out :
  keeps (on_this (sampler_ok (S:=S) Listed)) (sample_profiles (S:=S) ps duration delay_ms out).
Proof.
  intros s (Hsz & Hset & Hnm).
  destruct (sample_profiles_eq ps duration delay_ms (sdk s) out s Hnm) as (m & -> & Hok).
  destruct (windows_this ps duration (pause_waits delay_ms) s) as (p & q & Ht).
  unfold on_this. cbn [snd with_names this] in *. rewrite Ht in *. by split_and!.
Qed.

(** What the listing gives in this state counts as listed. *)
Definition lists (s : st S) : Prop :=
  ∀ roc, (get_supported_counters (agent_ (this s)) s).1 = inl roc → Listed (agent_ (this s)) roc.

Lemma sampler_ok_cached_profile_set counters s : lists s → sampler_ok (S:=S) Listed (this s) →
  sampler_ok (S:=S) Listed (this (cached_profile_set (sort_counters counters) s).2).
Proof.
  intros Hl Hok. pose proof Hok as (Hsz & Hset & Hnm).
  destruct (cached_profile_set_cases (sort_counters counters) s)
    as [(ps & _ & ->)|[_ [(e & _ & ->)|(d & ps & roc & left & Hroc & Hsplit & ->)]]]; [done|done|].
  split_and!; [done| |done]. apply map_Forall_insert_2; [|done].
  split; [apply sort_counters_sorted|]. exists roc, left. split; [by apply Hl|done].
Qed.

Lemma sampler_ok_packing counters duration delay_ms s : lists s → sampler_ok (S:=S) Listed (this s) →
  sampler_ok (S:=S) Listed (this (sample_counters_with_packing counters duration delay_ms s).2).
Proof.
  intros Hl Hok. pose proof (sampler_ok_cached_profile_set counters s Hl Hok) as Hok1.
  unfold sample_counters_with_packing, mbind, M_bind.
  destruct (cached_profile_set (sort_counters counters) s) as [[ps|e] s1]; [|done].
  by apply sampler_ok_sample_profiles.
Qed.

Lemma sampler_ok_decode rec : keeps (on_this (sampler_ok (S:=S) Listed)) (decode_record_name rec).
Proof.
  intros s (Hsz & Hset & Hnm). destruct (decode_record_name_eq rec s Hnm) as (m & -> & Hok).
  by split_and!.
Qed.

(** The size of a profile is filed before its handle can be found. *)
Lemma sampler_ok_file c counters profile size : sampler_ok (S:=S) Listed c →
  sampler_ok (S:=S) Listed (set_caches (<[counters := profile]> (cached_profiles_ c))
    (match profile_sizes_ c !! profile with
     | Some _ => profile_sizes_ c
     | None => <[profile := size]> (profile_sizes_ c)
     end) c).
Proof.
  intros (Hsz & Hset & Hnm). split_and!; [|done|done].
  intros k p. cbn. rewrite lookup_insert_Some. intros [[<- <-]|[_ Hk]].
  - destruct (profile_sizes_ c !! profile) eqn:E; [done|].
    by rewrite lookup_insert, decide_True.
  - specialize (Hsz _ _ Hk). cbn in Hsz. destruct (profile_sizes_ c !! profile) eqn:E; [done|].
    rewrite lookup_insert. by case_decide.
Qed.

Lemma sampler_ok_values counters duration :
  keeps (on_this (sampler_ok (S:=S) Listed)) (sample_counter_values counters duration).
Proof.
  unfold sample_counter_values, find_profile. keeps_solve; try by apply sampler_ok_file.
  - apply keeps_get_supported_counters.
  - done.
  - apply keeps_sample_window. auto with smi.
Qed.

Lemma sampler_ok_step s s' : lists s → step s s' → sampler_ok (S:=S) Listed (this s) → sampler_ok (S:=S) Listed (this s').
Proof.
  intros Hl. destruct 1; intros Hok.
  - by apply (sampler_ok_packing counters duration delay_ms).
  - by apply (sampler_ok_values counters duration).
  - by apply (sampler_ok_decode rec).
  - by apply (keeps_get_record_dimensions (sampler_ok (S:=S) Listed) rec).
Qed.

Lemma sampler_ok_constructor agent d sl :
  sampler_ok (S:=S) Listed (this (constructor (St d (new_sampler agent) sl)).2).
Proof.
  apply (keeps_bind (on_this (sampler_ok (S:=S) Listed))); [| |apply sampler_ok_new].
  - apply keeps_call. keeps_solve. done.
  - intros []. keeps_solve.
Qed.

End invariant.

(** Whatever state the sampler comes through was listed by the SDK there. *)
Lemma sampler_ok_reachable {S} `{Sdk S} `{!SdkLaws S} agent d sl s :
  let s0 := (constructor (St d (new_sampler agent) sl)).2 in
  rtc step s0 s → sampler_ok (listed_since s0) (this s).
Proof.
  intros s0 Hr. refine (rtc_ind_r (λ s, sampler_ok (listed_since s0) (this s)) s0 _ _ s Hr).
  - apply sampler_ok_constructor.
  - intros s1 s2 H1 H12 IH. eapply sampler_ok_step; [|exact H12|exact IH]. intros roc Hroc. by exists s1.
Qed.
