(* ===== verification/SamplerTheorems.v ===== *)
(** The theorems on [CounterSampler] objects: their invariant, what a request
    returns, the cache of profile sets, what the destructor releases. *)

From S2P Require Import Prelude RocpSdk Sampler Packing MockSdk PackingProofs SamplerProofs.
Local Open Scope Z_scope.

Section theorems.
Context {S : Type} `{Sdk S}.

(** C17: the invariant of a sampler.  In every state the calls of its methods
    reach from the constructor, in any order and whether they throw or not,
    every cached profile has its size, every cached profile set is a correct
    split of the sorted request it is filed under, by the counters the SDK
    listed for the agent in a state the sampler came through, and every
    cached counter name is the SDK's. *)
Theorem sampler_invariant `{!SdkLaws S} agent d sl s :
  let s0 := (constructor (St d (new_sampler agent) sl)).2 in
  rtc step s0 s →
  (∀ counters p, cached_profiles_ (this s) !! counters = Some p → is_Some (profile_sizes_ (this s) !! p)) ∧
  (∀ key ps, cached_profile_sets_ (this s) !! key = Some ps → StronglySorted string_le key ∧
     ∃ s' roc left, rtc step s0 s' ∧ (get_supported_counters (agent_ (this s)) s').1 = inl roc ∧
       split_ok (agent_ (this s)) roc key (profiles ps) left) ∧
  (∀ i n, id_to_name_ (this s) !! i = Some n → ∀ d : S, query_counter_info i d = (ROCPROFILER_STATUS_SUCCESS, n)).
Proof.
  intros s0 (Hsz & Hset & Hnm)%sampler_ok_reachable. split_and!; [exact Hsz| |exact Hnm].
  intros key ps Hk. destruct (Hset key ps Hk) as (Hs & roc & left & (s' & Hr & Hroc) & Hsplit).
  split; [done|]. by exists s', roc, left.
Qed.

(** *** Exceptions *)

Definition is_call_failed (e : exn) : Prop := ∃ msg status, e = CallFailed msg status.

(** The calls through [RocprofilerCall] throw nothing else. *)
Definition fails_by_call {A} (m : M (st S) A) : Prop :=
  ∀ s e, (m s).1 = inr e → is_call_failed e.

Lemma fails_bind {A B} (m : M (st S) A) (k : A → M (st S) B) :
  fails_by_call m → (∀ a, fails_by_call (k a)) → fails_by_call (m ≫= k).
Proof.
  intros Hm Hk s e. unfold mbind, M_bind. specialize (Hm s).
  destruct (m s) as [[a|e'] s1]; cbn in *; [apply Hk|]. intros [= <-]. by apply Hm.
Qed.

Lemma fails_status msg status : fails_by_call (RocprofilerCall msg (mret status)).
Proof.
  intros s e. rewrite RocprofilerCall_status. case_decide; [done|]. intros [= <-]. by eexists _, _.
Qed.

Lemma fails_name_counters ids : ∀ out, fails_by_call (name_counters ids out).
Proof.
  induction ids as [|c ids IH]; intros out; cbn [name_counters]; [done|].
  apply fails_bind; [done|]. intros [status name].
  apply fails_bind; [apply fails_status|]. intros _. apply IH.
Qed.

Lemma fails_get_supported_counters agent : fails_by_call (get_supported_counters agent).
Proof.
  apply fails_bind; [done|]. intros [ids status].
  apply fails_bind; [apply fails_status|]. intros _. apply fails_name_counters.
Qed.

Lemma find_profile_filed counters s : sizes_ok (this s) →
  match find_profile counters s with
  | (inl p, s') => is_Some (profile_sizes_ (this s') !! p)
  | (inr e, _) => is_call_failed e
  end.
Proof.
  intros Hok. unfold find_profile, mbind, M_bind, my, sdk_ask, sdk_do, set_this, modify.
  destruct (cached_profiles_ (this s) !! counters) as [p|] eqn:Hp; [by apply (Hok _ _ Hp)|].
  pose proof (fails_get_supported_counters (agent_ (this s)) s) as Hf.
  destruct (get_supported_counters (agent_ (this s)) s) as [[roc|e] s1]; [|by apply Hf].
  destruct (request_ids roc counters (sdk s1) ([], 0)) as [ids size].
  destruct (create_profile_config (agent_ (this s)) ids (sdk s1)) as [d [status p]].
  rewrite RocprofilerCall_status. case_decide; [|by eexists _, _]. cbn.
  destruct (profile_sizes_ (this s1) !! p) eqn:E; [by rewrite E|].
  by rewrite lookup_insert, decide_True.
Qed.

(** a sampler in any reachable state finds the size of every profile it
    samples: [sample_counter_values] either returns records or throws what
    [RocprofilerCall] throws; the branch for a missing size is never taken. *)
Theorem sample_counter_values_total `{!SdkLaws S} agent d sl s counters duration :
  rtc step (constructor (St d (new_sampler agent) sl)).2 s →
  match (sample_counter_values counters duration s).1 with
  | inl _ => True
  | inr e => ∃ msg status, e = CallFailed msg status
  end.
Proof.
  intros (Hok & _)%sampler_ok_reachable. unfold sample_counter_values, mbind, M_bind, my, set_this, modify.
  pose proof (find_profile_filed counters s Hok) as Hf.
  destruct (find_profile counters s) as [[p|e] s1]; [|done].
  destruct Hf as [size ->]. change (mret ()) with (delay_pause (S:=S) 0).
  by rewrite sample_window_eq.
Qed.

(** *** Requests *)

Lemma sample_profiles_result `{!SdkLaws S} ps duration delay_ms (d0 : S) s :
  names_ok (S:=S) (this s) →
  ∃ out s', sample_profiles ps duration delay_ms ∅ s = (inl out, s') ∧
    let '(recs, s2) := windows ps duration (pause_waits delay_ms) s in
    (∀ name, out !! name = total d0 name recs) ∧ sdk s' = sdk s2 ∧
    sleeps s' = sleeps s ++ concat (replicate (length ps) (u32 duration :: pause_waits delay_ms)).
Proof.
  intros Hnm. destruct (sample_profiles_eq ps duration delay_ms d0 ∅ s Hnm) as (m & -> & _).
  pose proof (windows_sleeps ps duration (pause_waits delay_ms) s) as Hs.
  destruct (windows ps duration (pause_waits delay_ms) s) as [recs s2]. cbn [fst snd] in *.
  eexists _, _. split_and!; [done| |done|done]. intros name. rewrite add_named_lookup.
  unfold total. destruct (values_of d0 name recs); [apply lookup_empty|by rewrite lookup_empty].
Qed.

(** C5: a request in any reachable state.  It throws exactly what the listing
    of the counters throws, if it has to ask for it, and changes nothing then;
    otherwise it samples the profiles of a correct split of the request, one
    window each, and returns for every name the sum of the values of the
    records of that counter, in the order they were read, the names as the
    SDK gives them; no other name occurs.  The counters that were split are
    those the SDK lists in the state of the request, or, if the same request
    came before, those it listed in an earlier state of this sampler.  The
    waits are one [usleep] per profile, then the delay if it is not 0. *)
Theorem packing_request_correct `{!SdkLaws S} agent d sl s counters duration delay_ms :
  let s0 := (constructor (St d (new_sampler agent) sl)).2 in
  rtc step s0 s →
  match cached_profile_set (sort_counters counters) s with
  | (inr e, s1) =>
      s1 = s ∧ (get_supported_counters (agent_ (this s)) s).1 = inr e ∧
      sample_counters_with_packing counters duration delay_ms s = (inr e, s)
  | (inl ps, s1) =>
      (∃ s' roc left, rtc step s0 s' ∧ (get_supported_counters (agent_ (this s)) s').1 = inl roc ∧
         (cached_profile_sets_ (this s) !! sort_counters counters = None → s' = s) ∧
         split_ok (agent_ (this s)) roc (sort_counters counters) (profiles ps) left) ∧
      ∃ out s', sample_counters_with_packing counters duration delay_ms s = (inl out, s') ∧
        let '(recs, s2) := windows (profiles ps) duration (pause_waits delay_ms) s1 in
        (∀ name, out !! name = total (sdk s) name recs) ∧ sdk s' = sdk s2 ∧
        sleeps s' = sleeps s ++
          concat (replicate (length (profiles ps)) (u32 duration :: pause_waits delay_ms))
  end.
Proof.
  intros s0 Hr. pose proof (sampler_ok_reachable agent d sl s Hr) as Hok.
  pose proof (sampler_ok_cached_profile_set (listed_since s0) counters s
    ltac:(intros roc Hroc; by exists s) Hok) as (_ & _ & Hnm).
  destruct Hok as (_ & Hset & _).
  unfold sample_counters_with_packing, mbind, M_bind.
  destruct (cached_profile_set_cases (sort_counters counters) s)
    as [(ps & Hps & Heq)|[Hnone [(e & He & Heq)|(d1 & ps & roc & left & Hroc & Hsplit & Heq)]]];
    rewrite Heq in *; [|done|].
  - split; [|by apply sample_profiles_result].
    destruct (Hset _ _ Hps) as (_ & roc & left & (s' & Hr' & Hroc) & Hsplit).
    exists s', roc, left. split_and!; [done|done|congruence|done].
  - split; [by exists s, roc, left|].
    destruct (sample_profiles_result ps duration delay_ms (sdk s) _ Hnm) as (out & s' & Hout).
    by exists out, s'.
Qed.

(** the order of the names in a request does not matter: permuted requests
    are the same computation on every state. *)
Theorem packing_order_irrelevant c1 c2 duration delay_ms (s : st S) :
  c1 ≡ₚ c2 →
  sample_counters_with_packing c1 duration delay_ms s =
  sample_counters_with_packing c2 duration delay_ms s.
Proof.
  intros Hp. unfold sample_counters_with_packing. by rewrite (sort_counters_permutation _ _ Hp).
Qed.

Lemma cached_set_step k ps s s' : step s s' →
  cached_profile_sets_ (this s) !! k = Some ps → cached_profile_sets_ (this s') !! k = Some ps.
Proof.
  pose (Q c := cached_profile_sets_ c !! k = Some ps). destruct 1; intros Hk.
  - apply (keeps_sample_counters_with_packing Q counters duration delay_ms); [done|done| |done].
    intros c ps' Hnone Hc. unfold Q in *. cbn. rewrite lookup_insert_ne; [done|]. congruence.
  - apply (λ K, keeps_bind (on_this Q) _ _ K); [| |done].
    + unfold find_profile. keeps_solve; [|done]. apply keeps_get_supported_counters.
    + intros p. keeps_solve; [done|]. apply keeps_sample_window. auto with smi.
  - by apply (keeps_decode_record_name Q rec).
  - by apply (keeps_get_record_dimensions Q rec).
Qed.

(** a request is split once.  After a request has returned, whatever the
    sampler does next, the same names in any order find the same profile set
    in the cache, without any call of the SDK. *)
Theorem packing_cached `{!SdkLaws S} c1 c2 duration delay_ms s out s1 s2 :
  sample_counters_with_packing c1 duration delay_ms s = (inl out, s1) →
  c1 ≡ₚ c2 → rtc step s1 s2 →
  ∃ ps, (cached_profile_set (sort_counters c1) s).1 = inl ps ∧
    cached_profile_set (sort_counters c2) s2 = (inl ps, s2).
Proof.
  intros Hcall Hp%sort_counters_permutation Hr. rewrite <- Hp. clear c2 Hp.
  unfold sample_counters_with_packing in Hcall.
  apply bind_inv in Hcall as (ps & s0 & Hset & Hsample). exists ps. rewrite Hset. split; [done|].
  assert (cached_profile_sets_ (this s2) !! sort_counters c1 = Some ps) as Hc.
  2:{ unfold cached_profile_set, mbind, M_bind, my. by rewrite Hc. }
  assert (cached_profile_sets_ (this s0) !! sort_counters c1 = Some ps) as Hc0.
  { destruct (cached_profile_set_cases (sort_counters c1) s)
      as [(ps' & Hps & Heq)|[_ [(e & _ & Heq)|(d1 & ps' & roc & left & _ & _ & Heq)]]];
      rewrite Heq in Hset; simplify_eq; [done|]. cbn. by rewrite lookup_insert, decide_True. }
  assert (cached_profile_sets_ (this s1) !! sort_counters c1 = Some ps) as Hc1.
  { pose proof (keeps_sample_profiles (S:=S)
      (λ c, cached_profile_sets_ c !! sort_counters c1 = Some ps)
      (profiles ps) duration delay_ms ∅ (λ _ _ _ Hc, Hc) (λ _ _ Hc, Hc) s0 Hc0) as Hk.
    by rewrite Hsample in Hk. }
  clear -Hr Hc1. induction Hr as [|x y z Hxy _ IH]; [done|]. apply IH. by eapply cached_set_step.
Qed.

(** *** The destructor *)

Lemma destroy_all l (s : st S) :
  for_each l (λ kp : list string * Z, sdk_upd (destroy_profile_config kp.2)) s =
  (inl (), St (foldl (λ d kp, destroy_profile_config kp.2 d) (sdk s) l) (this s) (sleeps s)).
Proof.
  revert s. induction l as [|kp l IH]; intros s; cbn [for_each foldl]; [by destruct s|].
  unfold mbind, M_bind, sdk_upd. by rewrite IH.
Qed.

Lemma destructor_eq (s : st S) :
  destructor s = (inl (),
    let d := foldl (λ d kp, destroy_profile_config kp.2 d) (sdk s)
               (map_to_list (cached_profiles_ (this s))) in
    St (if decide (ctx_ (this s) ≠ 0) then stop_context (ctx_ (this s)) d else d)
      (set_ctx 0 (set_caches ∅ ∅ (this s))) (sleeps s)).
Proof.
  unfold destructor. rewrite (bind_inl _ _ s (cached_profiles_ (this s)) s) by done.
  rewrite (bind_inl _ _ _ _ _ (destroy_all _ _)).
  unfold mbind, M_bind, set_this, modify, my, sdk_upd. cbn. by case_decide.
Qed.

(** the destructor releases nothing of what requests created.  Requests
    file their configurations in the profile sets only, and the destructor
    destroys the configurations of [cached_profiles_] only: after any number
    of requests it makes no call of [destroy_profile_config], it just stops
    the context. *)
Theorem destructor_keeps_packed_configs agent d sl s :
  rtc (λ s s', ∃ counters duration delay_ms,
         s' = (sample_counters_with_packing counters duration delay_ms s).2)
    (constructor (St d (new_sampler agent) sl)).2 s →
  sdk (destructor s).2 =
    (if decide (ctx_ (this s) ≠ 0) then stop_context (ctx_ (this s)) (sdk s) else sdk s) ∧
  cached_profile_sets_ (this (destructor s).2) = cached_profile_sets_ (this s).
Proof.
  intros Hr. rewrite destructor_eq. cbn [snd sdk this].
  enough (cached_profiles_ (this s) = ∅) as -> by (by rewrite map_to_list_empty).
  pose (Q c := cached_profiles_ c = ∅).
  assert (Q (this (constructor (St d (new_sampler agent) sl)).2)) as HQ.
  { apply (keeps_bind (on_this Q)); [apply keeps_call|..|done]; intros; by keeps_solve. }
  induction Hr as [|x y z (counters & duration & delay_ms & ->) _ IH]; [done|]. apply IH.
  by apply (keeps_sample_counters_with_packing Q).
Qed.
End theorems.

(** ** Instances

    A sampler of an SDK that takes two counters per profile and always
    refuses the fourth; requests with a repeated, an unknown and a refused
    name. *)

Section witnesses.
#[local] Instance demo_sdk : Sdk mock := mock_sdk 2 [4].
#[local] Instance demo_laws : SdkLaws mock := mock_laws 2 [4].

Definition demo_start : st mock := mock_sampler 2 [4].
Definition demo_state : st mock :=
  (sample_counters_with_packing demo_request 1000 10 demo_start).2.

Definition demo_out : gmap string double :=
  match (sample_counters_with_packing demo_request 1000 10 demo_start).1 with
  | inl out => out
  | inr _ => ∅
  end.

Lemma demo_reachable : rtc step demo_start demo_state.
Proof. apply rtc_once, step_packing. Defined.

(** The set of the request is filed, with the counters of a listing. *)
Lemma sampler_invariant_witness :
  ∃ ps, cached_profile_sets_ (this demo_state) !! sort_counters demo_request = Some ps ∧
    StronglySorted string_le (sort_counters demo_request) ∧
    ∃ s' roc left, rtc step demo_start s' ∧ (get_supported_counters (agent_ (this demo_state)) s').1 = inl roc ∧
      split_ok (agent_ (this demo_state)) roc (sort_counters demo_request) (profiles ps) left.
Proof.
  destruct (cached_profile_sets_ (this demo_state) !! sort_counters demo_request) as [ps|] eqn:Hps.
  - exists ps. split; [reflexivity|].
    exact (proj1 (proj2 (sampler_invariant 7 mock_init [] demo_state demo_reachable)) _ ps Hps).
  - exfalso. assert (Hx : bool_decide (cached_profile_sets_ (this demo_state) !! sort_counters demo_request = None) = false)
      by (vm_compute; reflexivity).
    apply bool_decide_eq_false in Hx. exact (Hx Hps).
Defined.

Lemma sample_counter_values_total_witness :
  match (sample_counter_values ["SQ_WAVES"; "GPU_UTIL"] 500 demo_state).1 with
  | inl _ => True
  | inr e => ∃ msg status, e = CallFailed msg status
  end ∧
  match (sample_counter_values ["SQ_WAVES"; "GPU_UTIL"] 500 demo_state).1 with
  | inl recs => length recs = 4%nat
  | inr _ => False
  end.
Proof.
  split; [exact (sample_counter_values_total 7 mock_init [] demo_state ["SQ_WAVES"; "GPU_UTIL"]
    500 demo_reachable)|].
  vm_compute. reflexivity.
Defined.

(** [SQ_WAVES] is counter 1 and [GPU_UTIL] counter 3, with two records each;
    the request names [SQ_WAVES] twice. *)
Lemma packing_request_correct_witness :
  match cached_profile_set (sort_counters demo_request) demo_state with
  | (inr e, s1) =>
      s1 = demo_state ∧ (get_supported_counters (agent_ (this demo_state)) demo_state).1 = inr e ∧
      sample_counters_with_packing demo_request 1000 10 demo_state = (inr e, demo_state)
  | (inl ps, s1) =>
      (∃ s' roc left, rtc step demo_start s' ∧ (get_supported_counters (agent_ (this demo_state)) s').1 = inl roc ∧
         (cached_profile_sets_ (this demo_state) !! sort_counters demo_request = None → s' = demo_state) ∧
         split_ok (agent_ (this demo_state)) roc (sort_counters demo_request) (profiles ps) left) ∧
      ∃ out s', sample_counters_with_packing demo_request 1000 10 demo_state = (inl out, s') ∧
        let '(recs, s2) := windows (profiles ps) 1000 (pause_waits 10) s1 in
        (∀ name, out !! name = total (sdk demo_state) name recs) ∧ sdk s' = sdk s2 ∧
        sleeps s' = sleeps demo_state ++
          concat (replicate (length (profiles ps)) (u32 1000 :: pause_waits 10))
  end ∧
  match sample_counters_with_packing demo_request 1000 10 demo_state with
  | (inr e, _) => False
  | (inl out, s') =>
      out !! "SQ_WAVES" = Some (double_of_Z 4) ∧ out !! "GPU_UTIL" = Some (double_of_Z 6) ∧
      out !! "FETCH_SIZE" = None ∧
      sleeps s' = [1000; 10000; 1000; 10000; 1000; 10000; 1000; 10000]
  end.
Proof.
  split; [exact (packing_request_correct 7 mock_init [] demo_state demo_request 1000 10
    demo_reachable)|].
  vm_compute. repeat split.
Defined.

Lemma packing_order_irrelevant_witness :
  sample_counters_with_packing ["GPU_UTIL"; "SQ_WAVES"] 1000 10 demo_state =
  sample_counters_with_packing ["SQ_WAVES"; "GPU_UTIL"] 1000 10 demo_state.
Proof. apply packing_order_irrelevant. apply perm_swap. Defined.

Lemma packing_cached_witness :
  ∃ ps, (cached_profile_set (sort_counters demo_request) demo_start).1 = inl ps ∧
    cached_profile_set (sort_counters (reverse demo_request)) demo_state = (inl ps, demo_state).
Proof.
  apply (packing_cached demo_request (reverse demo_request) 1000 10 demo_start demo_out demo_state
    demo_state).
  - unfold demo_state, demo_out.
    destruct (sample_counters_with_packing demo_request 1000 10 demo_start) as [[out|e] s] eqn:Hs;
      [reflexivity|].
    exfalso. assert (match (sample_counters_with_packing demo_request 1000 10 demo_start).1 with
      | inl _ => True | inr _ => False end) as Ht by (vm_compute; exact I).
    rewrite Hs in Ht. exact Ht.
  - symmetry. apply reverse_Permutation.
  - reflexivity.
Defined.

(** After a request and the destructor, all configurations of the request are
    still alive in the SDK. *)
Lemma destructor_keeps_packed_configs_witness :
  sdk (destructor demo_state).2 = stop_context 2 (sdk demo_state) ∧
  cached_profile_sets_ (this (destructor demo_state).2) =
    cached_profile_sets_ (this demo_state) ∧
  size (live (sdk (destructor demo_state).2)) = 3%nat.
Proof.
  destruct (destructor_keeps_packed_configs 7 mock_init [] demo_state) as [H1 H2].
  - apply rtc_once. exists demo_request, 1000, 10. reflexivity.
  - split; [|split].
    + rewrite H1. rewrite decide_True; [reflexivity|]. vm_compute. discriminate.
    + exact H2.
    + vm_compute. reflexivity.
Defined.
End witnesses.
