(* ===== verification/Json.v ===== *)
(** JSON as the exporter reads it back from the client's output: a lexer for
    strings without escapes, punctuation and white space, and a parser for
    objects, arrays and strings, the values the client prints. *)

From S2P Require Import Prelude.
From Stdlib Require Import Ascii.
Local Open Scope Z_scope.

Inductive token : Type :=
  | LBrace | RBrace | LBrack | RBrack | Colon | Comma | TStr (s : string).

Inductive json : Type :=
  | JStr (s : string)
  | JArr (l : list json)
  | JObj (l : list (string * json)).

(** ** The lexer *)

Definition is_ws (c : ascii) : bool :=
  existsb (λ n, Nat.eqb (nat_of_ascii c) n) [9; 10; 13; 32]%nat.

Definition is_dq (c : ascii) : bool := Nat.eqb (nat_of_ascii c) 34.

(** A character that stands for itself in a JSON string. *)
Definition plain_char (c : ascii) : bool :=
  negb (is_dq c) && negb (Nat.eqb (nat_of_ascii c) 92) && Nat.leb 32 (nat_of_ascii c).

Definition punctuation (c : ascii) : option token :=
  match c with
  | "{" => Some LBrace
  | "}" => Some RBrace
  | "[" => Some LBrack
  | "]" => Some RBrack
  | ":" => Some Colon
  | "," => Some Comma
  | _ => None
  end%char.

(** [cur] is the part of the string being read, if inside one. *)
Fixpoint lex_in (cur : option string) (s : string) : option (list token) :=
  match s with
  | EmptyString => match cur with None => Some [] | Some _ => None end
  | String c s =>
      match cur with
      | Some w =>
          if is_dq c then cons (TStr w) <$> lex_in None s
          else if plain_char c then lex_in (Some (w +:+ String c "")) s
          else None
      | None =>
          if is_ws c then lex_in None s
          else if is_dq c then lex_in (Some "") s
          else t ← punctuation c; cons t <$> lex_in None s
      end
  end.

Fixpoint plain (s : string) : bool :=
  match s with EmptyString => true | String c s => plain_char c && plain s end.

Lemma plain_app a b : plain (a +:+ b) = plain a && plain b.
Proof.
  induction a as [|c a IH]; [done|]. change (plain_char c && plain (a +:+ b) =
    plain_char c && plain a && plain b). by rewrite IH, andb_assoc.
Qed.

Lemma lex_string w : ∀ a rest, plain w = true →
  lex_in (Some a) (w +:+ String (ascii_of_nat 34) rest) = cons (TStr (a +:+ w)) <$> lex_in None rest.
Proof.
  induction w as [|c w IH]; intros a rest Hw; [by rewrite string_app_nil_r|].
  change (lex_in (Some a) (String c (w +:+ String (ascii_of_nat 34) rest)) =
    cons (TStr (a +:+ String c w)) <$> lex_in None rest).
  cbn [plain] in Hw. apply andb_prop in Hw as [Hc Hw]. cbn [lex_in].
  assert (is_dq c = false) as ->.
  { unfold plain_char in Hc. by destruct (is_dq c). }
  rewrite Hc, IH by done. by rewrite string_app_assoc.
Qed.

(** ** The parser *)

Fixpoint parse (fuel : nat) (ts : list token) : option (json * list token) :=
  match fuel with
  | O => None
  | S fuel =>
      match ts with
      | TStr s :: r => Some (JStr s, r)
      | LBrack :: RBrack :: r => Some (JArr [], r)
      | LBrack :: r => '(l, r) ← parse_elems fuel r; Some (JArr l, r)
      | LBrace :: RBrace :: r => Some (JObj [], r)
      | LBrace :: r => '(l, r) ← parse_members fuel r; Some (JObj l, r)
      | _ => None
      end
  end
with parse_elems (fuel : nat) (ts : list token) : option (list json * list token) :=
  match fuel with
  | O => None
  | S fuel =>
      '(v, r) ← parse fuel ts;
      match r with
      | Comma :: r => '(l, r) ← parse_elems fuel r; Some (v :: l, r)
      | RBrack :: r => Some ([v], r)
      | _ => None
      end
  end
with parse_members (fuel : nat) (ts : list token) : option (list (string * json) * list token) :=
  match fuel with
  | O => None
  | S fuel =>
      match ts with
      | TStr k :: Colon :: r =>
          '(v, r) ← parse fuel r;
          match r with
          | Comma :: r => '(l, r) ← parse_members fuel r; Some ((k, v) :: l, r)
          | RBrace :: r => Some ([(k, v)], r)
          | _ => None
          end
      | _ => None
      end
  end.

(** As much fuel as tokens is enough: every call consumes one. *)
Definition parse_json (s : string) : option json :=
  ts ← lex_in None s;
  match parse (length ts) ts with
  | Some (j, []) => Some j
  | _ => None
  end.

(** ** The grammar *)

Inductive value : json → list token → Prop :=
  | value_str s : value (JStr s) [TStr s]
  | value_arr_nil : value (JArr []) [LBrack; RBrack]
  | value_arr l ts : elems l ts → value (JArr l) (LBrack :: ts)
  | value_obj l ts : members l ts → value (JObj l) (LBrace :: ts)
with elems : list json → list token → Prop :=
  | elems_one v ts : value v ts → elems [v] (ts ++ [RBrack])
  | elems_cons v ts l ts' : value v ts → elems l ts' → elems (v :: l) (ts ++ Comma :: ts')
with members : list (string * json) → list token → Prop :=
  | members_one k v ts : value v ts → members [(k, v)] (TStr k :: Colon :: ts ++ [RBrace])
  | members_cons k v ts l ts' : value v ts → members l ts' →
      members ((k, v) :: l) (TStr k :: Colon :: ts ++ Comma :: ts').

Scheme value_mut := Minimality for value Sort Prop
  with elems_mut := Minimality for elems Sort Prop
  with members_mut := Minimality for members Sort Prop.
Combined Scheme json_mut from value_mut, elems_mut, members_mut.

(** The first token tells an empty array from another. *)
Lemma value_head v ts : value v ts → ∃ t ts', ts = t :: ts' ∧ t ≠ RBrack ∧ t ≠ RBrace.
Proof. destruct 1; by eexists _, _. Qed.

Lemma elems_head l ts : elems l ts → ∃ t ts', ts = t :: ts' ∧ t ≠ RBrack.
Proof. destruct 1 as [v ts (t & ts' & -> & ? & _)%value_head|v ts l ts' (t & ts1 & -> & ? & _)%value_head _];
  by eexists _, _. Qed.

Lemma parse_complete :
  (∀ j ts, value j ts → ∀ fuel r, (length ts <= fuel)%nat → parse fuel (ts ++ r) = Some (j, r)) ∧
  (∀ l ts, elems l ts → ∀ fuel r, (length ts <= fuel)%nat → parse_elems fuel (ts ++ r) = Some (l, r)) ∧
  (∀ l ts, members l ts → ∀ fuel r, (length ts <= fuel)%nat →
     parse_members fuel (ts ++ r) = Some (l, r)).
Proof.
  apply json_mut.
  - intros s [|fuel] r Hf; cbn in *; [lia|done].
  - intros [|fuel] r Hf; cbn in *; [lia|done].
  - intros l ts He IH [|fuel] r Hf; cbn in Hf; [lia|].
    destruct (elems_head l ts He) as (t & ts' & -> & Ht). specialize (IH fuel r ltac:(lia)).
    cbn [parse app] in *. by destruct t; try done; rewrite IH.
  - intros l ts Hm IH [|fuel] r Hf; cbn in Hf; [lia|]. specialize (IH fuel r ltac:(lia)).
    destruct Hm; cbn [parse app] in *; by rewrite IH.
  - intros v ts _ IH [|fuel] r Hf; rewrite length_app in Hf; cbn in Hf; [lia|].
    rewrite <- app_assoc. cbn [parse_elems]. by rewrite IH by lia.
  - intros v ts l ts' _ IH _ IH' [|fuel] r Hf; rewrite length_app in Hf; cbn in Hf; [lia|].
    rewrite <- app_assoc. cbn [parse_elems]. rewrite IH by lia. cbn. by rewrite IH' by lia.
  - intros k v ts _ IH [|fuel] r Hf; cbn in Hf; rewrite length_app in Hf; cbn in Hf; [lia|].
    cbn [parse_members app]. rewrite <- app_assoc. by rewrite IH by lia.
  - intros k v ts l ts' _ IH _ IH' [|fuel] r Hf; cbn in Hf; rewrite length_app in Hf; cbn in Hf; [lia|].
    cbn [parse_members app]. rewrite <- app_assoc. rewrite IH by lia. cbn. by rewrite IH' by lia.
Qed.

Lemma parse_json_complete s j ts : lex_in None s = Some ts → value j ts → parse_json s = Some j.
Proof.
  intros Hs Hv. unfold parse_json. rewrite Hs. cbn.
  pose proof (proj1 parse_complete j ts Hv (length ts) [] ltac:(lia)) as Hp.
  rewrite app_nil_r in Hp. by rewrite Hp.
Qed.
