(* ===== verification/RunSample.v ===== *)
(** The process side of the client in [rocpclient.cpp]: the samplers of the
    process ([CounterSampler::samplers_]), the registration with the SDK
    ([rocprofiler_configure], [tool_init], [tool_fini]), the enumeration of
    agents and [CounterSampler::runSample], which samples every GPU and prints
    one document.

    [samplers_] holds shared pointers and [runSample] works on a copy of the
    vector, so the copy and the original share the objects: [on_sampler] runs
    a method on the object at an index and stores the object back. *)

From S2P Require Import Prelude RocpSdk Format Sampler Packing.
From Stdlib Require Import Ascii.
Local Open Scope Z_scope.

(** ** Text *)

Definition NL : string := String (ascii_of_nat 10) "".
Definition TAB : string := String (ascii_of_nat 9) "".
Definition DQ : string := String (ascii_of_nat 34) "".

Definition quoted (s : string) : string := DQ +:+ s +:+ DQ.

(** ** The counters sampled by default *)

Definition all_fields : list string := [
  "GRBM_GUI_ACTIVE"; "SQ_WAVES"; "GRBM_COUNT"; "GPU_UTIL"; "FETCH_SIZE"; "WRITE_SIZE";
  "TOTAL_16_OPS"; "TOTAL_32_OPS"; "TOTAL_64_OPS"; "CPC_CPC_STAT_BUSY"; "CPC_CPC_STAT_IDLE";
  "CPC_CPC_STAT_STALL"; "CPC_CPC_TCIU_BUSY"; "CPC_CPC_TCIU_IDLE"; "CPC_CPC_UTCL2IU_BUSY";
  "CPC_CPC_UTCL2IU_IDLE"; "CPC_CPC_UTCL2IU_STALL"; "CPC_ME1_BUSY_FOR_PACKET_DECODE";
  "CPC_ME1_DC0_SPI_BUSY"; "CPC_UTCL1_STALL_ON_TRANSLATION"; "CPC_ALWAYS_COUNT";
  "CPC_ADC_VALID_CHUNK_NOT_AVAIL"; "CPC_ADC_DISPATCH_ALLOC_DONE"; "CPC_ADC_VALID_CHUNK_END";
  "CPC_SYNC_FIFO_FULL_LEVEL"; "CPC_SYNC_FIFO_FULL"; "CPC_GD_BUSY"; "CPC_TG_SEND";
  "CPC_WALK_NEXT_CHUNK"; "CPC_STALLED_BY_SE0_SPI"; "CPC_STALLED_BY_SE1_SPI";
  "CPC_STALLED_BY_SE2_SPI"; "CPC_STALLED_BY_SE3_SPI"; "CPC_LTE_ALL";
  "CPC_SYNC_WRREQ_FIFO_BUSY"; "CPC_CANE_BUSY"; "CPC_CANE_STALL";
  "CPF_CMP_UTCL1_STALL_ON_TRANSLATION"; "CPF_CPF_STAT_BUSY"; "CPF_CPF_STAT_IDLE";
  "CPF_CPF_STAT_STALL"; "CPF_CPF_TCIU_BUSY"; "CPF_CPF_TCIU_IDLE"; "CPF_CPF_TCIU_STALL"].

(** ** The document *)

(** A [std::map] is iterated in the order of its keys. *)
Definition entry_le (a b : string * double) : Prop := string_le a.1 b.1.

#[export] Instance entry_le_dec a b : Decision (entry_le a b).
Proof. unfold entry_le. apply _. Defined.

Definition entries (m : gmap string double) : list (string * double) :=
  merge_sort entry_le (map_to_list m).

(** The loop over the values of a GPU; [count] is the number of entries
    printed so far. *)
Fixpoint print_entries (es : list (string * double)) (count : Z) : string :=
  match es with
  | [] => ""
  | (metric_name, value) :: es =>
      let count := u32 (count + 1) in
      (if decide (count ≠ 1) then "," +:+ NL else "") +:+
      TAB +:+ TAB +:+ "{" +:+ NL +:+
      TAB +:+ TAB +:+ TAB +:+ quoted "Field" +:+ " : " +:+ quoted metric_name +:+ ", " +:+
        quoted "Value" +:+ ": " +:+ quoted (fmt_double value) +:+ NL +:+
      TAB +:+ TAB +:+ "}" +:+ print_entries es count
  end.

Definition print_gpu (agent : rocprofiler_agent_v0_t) (values : gmap string double) : string :=
  "{" +:+ quoted "GpuId" +:+ " : " +:+ quoted (dec (gpu_id agent)) +:+ "," +:+ NL +:+
  TAB +:+ quoted "DrmRenderId" +:+ " : " +:+ quoted (dec (drm_render_minor agent)) +:+ "," +:+ NL +:+
  TAB +:+ quoted "LogicalNodeId" +:+ " : " +:+ quoted (dec (logical_node_id agent)) +:+ "," +:+ NL +:+
  TAB +:+ quoted "Metrics" +:+ " : [" +:+ NL +:+
  print_entries (entries values) 0 +:+
  NL +:+ TAB +:+ "]}" +:+ NL.

(** The loop over the agents; a comma follows every GPU but the last. *)
Fixpoint print_gpus (gpus : list (rocprofiler_agent_v0_t * gmap string double)) : string :=
  match gpus with
  | [] => ""
  | (agent, values) :: gpus =>
      print_gpu agent values +:+
      (match gpus with [] => "" | _ :: _ => "," end) +:+ print_gpus gpus
  end.

Definition print_document (gpus : list (rocprofiler_agent_v0_t * gmap string double)) : string :=
  "{" +:+ NL +:+ quoted "GpuMetrics" +:+ ": [" +:+ NL +:+ TAB +:+ print_gpus gpus +:+
  "]" +:+ NL +:+ "}" +:+ NL.

(** ** The process *)

Record proc (S : Type) : Type := Proc {
  p_sdk : S;
  samplers_ : list CounterSampler;
  p_sleeps : list Z;
  cout : string;
}.
Arguments Proc {S} p_sdk samplers_ p_sleeps cout.
Arguments p_sdk {S} p.
Arguments samplers_ {S} p.
Arguments p_sleeps {S} p.
Arguments cout {S} p.

Section process.
Context {S : Type} `{Sdk S}.

Abbreviation Mp := (M (proc S)).

Definition print (text : string) : Mp () :=
  modify (λ p, Proc (p_sdk p) (samplers_ p) (p_sleeps p) (cout p +:+ text)).

(** A method on the object at an index of [samplers_]. *)
Definition on_sampler {A} (i : nat) (m : M (st S) A) : Mp A := λ p,
  match samplers_ p !! i with
  | None => (inr OutOfBounds, p)
  | Some c =>
      let '(r, s) := m (St (p_sdk p) c (p_sleeps p)) in
      (r, Proc (sdk s) (<[i := this s]> (samplers_ p)) (sleeps s) (cout p))
  end.

Definition get_available_agents : Mp (list rocprofiler_agent_v0_t) := λ p,
  let '(reported, status) := query_available_agents (p_sdk p) in
  match reported with
  | Some (ROCPROFILER_AGENT_INFO_VERSION_OTHER _, _) => (inr UnexpectedAgentVersion, p)
  | _ =>
      let agents :=
        match reported with
        | Some (_, l) => filter (λ a, a_type a = ROCPROFILER_AGENT_TYPE_GPU) l
        | None => []
        end in
      if decide (status = ROCPROFILER_STATUS_SUCCESS) then (inl agents, p)
      else (inr (CallFailed "query available agents" status), p)
  end.

(** The sampling loop, from agent [i] on; the [catch] makes it return what it
    has, with the exception. *)
Fixpoint sample_agents (i : nat) (agents : list rocprofiler_agent_v0_t) (metrics : list string)
    (duration delay_ms : Z) : Mp (list (gmap string double) + exn) :=
  match agents with
  | [] => mret (inl [])
  | _ :: agents =>
      samplers ← (λ p, (inl (samplers_ p), p));
      match samplers !! i with
      | None => throw OutOfBounds
      | Some _ =>
          r ← try_catch
                (gpu_values ← on_sampler i (sample_counters_with_packing metrics duration delay_ms);
                 mret (inl gpu_values))
                (λ e, mret (inr e));
          match r with
          | inr e => mret (inr e)
          | inl gpu_values =>
              rest ← sample_agents (Datatypes.S i) agents metrics duration delay_ms;
              mret (match rest with inl vs => inl (gpu_values :: vs) | inr e => inr e end)
          end
      end
  end.

Definition runSample (metric_fields : list string) (duration delay_ms : Z) : Mp Z :=
  agents ← get_available_agents;
  let metrics := match metric_fields with [] => all_fields | _ => metric_fields end in
  sampled_values ← sample_agents 0 agents metrics duration delay_ms;
  match sampled_values with
  | inr _ => mret (-1)
  | inl values => print (print_document (zip agents values)) ≫= λ _, mret 0
  end.

(** ** Registration *)

(** [std::make_shared<CounterSampler>(agent.id)] and [push_back]: when the
    constructor throws, nothing is appended. *)
Definition push_sampler (agent : rocprofiler_agent_v0_t) : Mp () := λ p,
  match constructor (St (p_sdk p) (new_sampler (a_id agent)) (p_sleeps p)) with
  | (inl _, s) => (inl (), Proc (sdk s) (samplers_ p ++ [this s]) (sleeps s) (cout p))
  | (inr e, s) => (inr e, Proc (sdk s) (samplers_ p) (sleeps s) (cout p))
  end.

Definition tool_init : Mp Z :=
  agents ← get_available_agents;
  match agents with
  | [] => mret (-1)
  | _ => for_each agents push_sampler ≫= λ _, mret 0
  end.
End process.

(** The stream [tool_fini] receives, and whether it deletes it. *)
Inductive stream : Type := COUT | CERR | OTHER_STREAM.

#[export] Instance stream_eq_dec : EqDecision stream.
Proof. solve_decision. Defined.

Definition tool_fini_deletes (output_stream : stream) : bool :=
  bool_decide (output_stream ≠ COUT ∧ output_stream ≠ CERR).

Record configure_result : Type := Configured {
  client_name : string;
  info : string;
  user_data : stream;
}.

(** [version] is a [uint32_t]; the division and the remainders do not
    overflow. *)
Definition version_major (version : Z) : Z := version / 10000.
Definition version_minor (version : Z) : Z := version mod 10000 / 100.
Definition version_patch (version : Z) : Z := version mod 100.

Definition rocprofiler_configure (version : Z) (runtime_version : string) (priority : Z)
    : configure_result :=
  let name := "rocpclient" in
  Configured name
    (name +:+ " (priority=" +:+ dec priority +:+ ") is using rocprofiler-sdk v" +:+
     dec (version_major version) +:+ "." +:+ dec (version_minor version) +:+ "." +:+
     dec (version_patch version) +:+ " (" +:+ runtime_version +:+ ")")
    COUT.
