(* ===== verification/Document.v ===== *)
(** The document [runSample] prints is JSON: parsed, it gives back the GPUs,
    their identifiers and the values of their counters. *)

From S2P Require Import Prelude RocpSdk Format Sampler Packing Json RunSample.
From Stdlib Require Import Ascii.
Local Open Scope Z_scope.

(** ** The value the document stands for *)

Definition entry_json (e : string * double) : json :=
  JObj [("Field", JStr e.1); ("Value", JStr (fmt_double e.2))].

Definition gpu_json (g : rocprofiler_agent_v0_t * gmap string double) : json :=
  JObj [("GpuId", JStr (dec (gpu_id g.1))); ("DrmRenderId", JStr (dec (drm_render_minor g.1)));
        ("LogicalNodeId", JStr (dec (logical_node_id g.1)));
        ("Metrics", JArr (entry_json <$> entries g.2))].

Definition document_json (gpus : list (rocprofiler_agent_v0_t * gmap string double)) : json :=
  JObj [("GpuMetrics", JArr (gpu_json <$> gpus))].

(** ** Texts that stand for themselves *)

Lemma plain_digit d : 0 <= d < 10 → plain_char (digit d) = true.
Proof.
  intros Hd. unfold digit, plain_char, is_dq. rewrite nat_ascii_embedding by lia.
  assert (∃ n, (n < 10)%nat ∧ Z.to_nat d = n) as (n & Hn & ->) by (exists (Z.to_nat d); lia).
  do 10 (destruct n as [|n]; [done|]). lia.
Qed.

Lemma plain_dec_go fuel : ∀ n acc, 0 <= n → plain acc = true → plain (dec_go fuel n acc) = true.
Proof.
  induction fuel as [|fuel IH]; intros n acc Hn Hacc; [done|]. cbn [dec_go]. case_decide.
  - cbn [plain]. by rewrite plain_digit, Hacc by lia.
  - apply IH; [apply Z.div_pos; lia|]. cbn [plain].
    by rewrite plain_digit, Hacc by (apply Z.mod_pos_bound; lia).
Qed.

Lemma plain_dec z : plain (dec z) = true.
Proof.
  unfold dec, dec_nonneg. case_decide; [|by apply plain_dec_go; [lia|]].
  change (plain (dec_go (dec_fuel (- z)) (- z) "") = true). by apply plain_dec_go; [lia|].
Qed.

Lemma plain_substring s : ∀ n k, plain s = true → plain (String.substring n k s) = true.
Proof.
  induction s as [|c s IH]; intros [|n] [|k] Hs; try done; cbn in *;
    apply andb_prop in Hs as [Hc Hs]; [|by apply IH..].
  rewrite Hc. by apply IH.
Qed.

Lemma plain_strip_zeros s : plain s = true → plain (strip_zeros s) = true.
Proof.
  induction s as [|c s IH]; intros Hs; [done|]. cbn [plain] in Hs.
  apply andb_prop in Hs as [Hc Hs]. specialize (IH Hs). cbn [strip_zeros].
  destruct (strip_zeros s) as [|c' t].
  - case_decide; cbn [plain]; [done|by rewrite Hc].
  - cbn [plain] in *. by rewrite Hc.
Qed.

Lemma plain_zeros k : plain (zeros k) = true.
Proof. by induction k. Qed.

Lemma plain_fraction s : plain s = true → plain (fraction s) = true.
Proof.
  intros Hs%plain_strip_zeros. unfold fraction. by destruct (strip_zeros s).
Qed.

Lemma plain_render q x : plain (render_g q x) = true.
Proof.
  unfold render_g, exponent. pose proof (plain_dec q).
  repeat case_decide; rewrite ?plain_app, ?plain_substring, ?plain_fraction, ?plain_zeros,
    ?plain_strip_zeros; try done; try by apply plain_substring.
  all: exact (plain_dec (Z.abs x)).
Qed.

Lemma plain_fmt_double d : plain (fmt_double d) = true.
Proof.
  destruct d as [[]|[]| |s m e]; try done. cbn [fmt_double].
  destruct (round6 _ _) as [q x]. rewrite plain_app, plain_render. by destruct s.
Qed.

(** ** Lexing *)

(** A text and the tokens it contributes, in front of anything. *)
Definition lexes (text : string) (ts : list token) : Prop :=
  ∀ rest, lex_in None (text +:+ rest) = app ts <$> lex_in None rest.

Lemma lexes_app a b ta tb : lexes a ta → lexes b tb → lexes (a +:+ b) (ta ++ tb).
Proof.
  intros Ha Hb rest. rewrite string_app_assoc, Ha, Hb. destruct (lex_in None rest); cbn; [|done].
  by rewrite app_assoc.
Qed.

(** A text that lexes on its own contributes its tokens. *)
Lemma lexes_closed t ts : lex_in None t = Some ts → lexes t ts.
Proof.
  intros Ht rest. revert Ht. generalize (@None string) at 1 2 as cur. revert ts.
  induction t as [|c t IH]; intros ts cur.
  - destruct cur; [done|]. intros [= <-]. change ("" +:+ rest) with rest.
    by destruct (lex_in None rest).
  - change (String c t +:+ rest) with (String c (t +:+ rest)). cbn [lex_in].
    destruct cur as [w|]; repeat case_match; try done; try apply IH.
    + intros (ts' & Ht & ->)%fmap_Some. rewrite (IH _ _ Ht). by destruct (lex_in None rest).
    + intros (tk & -> & (ts' & Ht & ->)%fmap_Some)%bind_Some. cbn.
      rewrite (IH _ _ Ht). by destruct (lex_in None rest).
Qed.

Lemma lexes_quoted w : plain w = true → lexes (quoted w) [TStr w].
Proof.
  intros Hw rest. unfold quoted. rewrite !string_app_assoc.
  change (lex_in (Some "") (w +:+ String (ascii_of_nat 34) rest) = app [TStr w] <$> lex_in None rest).
  by rewrite lex_string.
Qed.

Lemma lexes_eq t ts ts' : lexes t ts → ts = ts' → lexes t ts'.
Proof. by intros ? <-. Qed.

Lemma lexes_whole text ts : lexes text ts → lex_in None text = Some ts.
Proof.
  intros Ht. specialize (Ht ""). rewrite string_app_nil_r in Ht. rewrite Ht. cbn.
  by rewrite app_nil_r.
Qed.

(** Split a text into its parts; the literal ones are computed. *)
Ltac lex_parts :=
  lazymatch goal with
  | |- lexes (_ +:+ _) _ => eapply lexes_app; [lex_parts|lex_parts]
  | |- lexes (quoted _) _ =>
      apply lexes_quoted; first [done | assumption | apply plain_dec | apply plain_fmt_double]
  | |- lexes _ _ => first [eassumption | apply lexes_closed; vm_compute; reflexivity]
  end.

Definition entry_toks (e : string * double) : list token :=
  [LBrace; TStr "Field"; Colon; TStr e.1; Comma; TStr "Value"; Colon; TStr (fmt_double e.2);
   RBrace].

(** Elements separated by commas. *)
Definition sep_toks (tss : list (list token)) : list token :=
  match tss with
  | [] => []
  | t :: tss => t ++ concat (cons Comma <$> tss)
  end.

Lemma lexes_entry e : plain e.1 = true →
  lexes (TAB +:+ TAB +:+ "{" +:+ NL +:+
      TAB +:+ TAB +:+ TAB +:+ quoted "Field" +:+ " : " +:+ quoted e.1 +:+ ", " +:+
        quoted "Value" +:+ ": " +:+ quoted (fmt_double e.2) +:+ NL +:+
      TAB +:+ TAB +:+ "}") (entry_toks e).
Proof.
  intros He. eapply lexes_eq; [lex_parts|reflexivity].
Qed.

Lemma lexes_entries es : ∀ count,
  Forall (λ e, plain e.1 = true) es → 0 <= count → count + Z.of_nat (length es) < 2 ^ 32 →
  lexes (print_entries es count)
    (if decide (count = 0) then sep_toks (entry_toks <$> es)
     else concat (cons Comma <$> (entry_toks <$> es))).
Proof.
  induction es as [|[n v] es IH]; intros count Hes Hc Hlen; cbn [print_entries].
  { case_decide; by apply lexes_closed. }
  apply Forall_cons in Hes as [He Hes]. cbn [length] in Hlen.
  unfold u32. rewrite wrap_id by lia.
  specialize (IH (count + 1) Hes ltac:(lia) ltac:(lia)). rewrite decide_False in IH by lia.
  pose proof (lexes_entry (n, v) He) as Hentry. cbn [fst snd] in Hentry.
  assert (lexes (if decide (count + 1 ≠ 1) then "," +:+ NL else "")
    (if decide (count = 0) then [] else [Comma])) as Hsep.
  { destruct (decide (count = 0)); case_decide; try lia; by apply lexes_closed. }
  eapply lexes_eq.
  - eapply lexes_app; [exact Hsep|].
    rewrite <- !string_app_assoc. eapply lexes_app; [|exact IH].
    rewrite !string_app_assoc. exact Hentry.
  - destruct (decide (count = 0)); reflexivity.
Qed.

Definition gpu_toks (g : rocprofiler_agent_v0_t * gmap string double) : list token :=
  [LBrace; TStr "GpuId"; Colon; TStr (dec (gpu_id g.1)); Comma;
   TStr "DrmRenderId"; Colon; TStr (dec (drm_render_minor g.1)); Comma;
   TStr "LogicalNodeId"; Colon; TStr (dec (logical_node_id g.1)); Comma;
   TStr "Metrics"; Colon; LBrack] ++
  sep_toks (entry_toks <$> entries g.2) ++ [RBrack; RBrace].

(** Names without characters that JSON escapes, and not more entries than
    the printer's counter can count. *)
Definition printable (m : gmap string double) : Prop :=
  map_Forall (λ n _, plain n = true) m ∧ Z.of_nat (size m) < 2 ^ 32.

Lemma entries_perm m : entries m ≡ₚ map_to_list m.
Proof. apply merge_sort_Permutation. Qed.

Lemma lexes_gpu agent m : printable m → lexes (print_gpu agent m) (gpu_toks (agent, m)).
Proof.
  intros [Hn Hs].
  assert (lexes (print_entries (entries m) 0) (sep_toks (entry_toks <$> entries m))) as He.
  { apply (lexes_entries (entries m) 0); [|done|].
    - apply Forall_forall. intros [n v] He. rewrite entries_perm in He.
      apply elem_of_map_to_list in He. by apply (Hn n v).
    - by rewrite entries_perm, length_map_to_list. }
  unfold print_gpu. eapply lexes_eq; [lex_parts|]. reflexivity.
Qed.

Lemma sep_toks_cons t tss : sep_toks (t :: tss) =
  t ++ match tss with [] => [] | _ :: _ => [Comma] end ++ sep_toks tss.
Proof. by destruct tss. Qed.

Lemma lexes_gpus gpus : Forall (λ g, printable g.2) gpus →
  lexes (print_gpus gpus) (sep_toks (gpu_toks <$> gpus)).
Proof.
  induction 1 as [|[agent m] gpus Hg _ IH]; [by apply lexes_closed|]. cbn [print_gpus].
  rewrite fmap_cons, sep_toks_cons. apply lexes_app; [by apply lexes_gpu|].
  apply lexes_app; [|done]. destruct gpus; by apply lexes_closed.
Qed.

(** ** Parsing *)

Lemma value_array vs tss : Forall2 value vs tss →
  value (JArr vs) (LBrack :: sep_toks tss ++ [RBrack]).
Proof.
  destruct 1 as [|v t vs tss Hv Hvs]; [constructor|]. apply value_arr. revert v t Hv.
  induction Hvs as [|v' t' vs tss Hv' _ IH]; intros v t Hv; cbn [sep_toks].
  - rewrite app_nil_r. by constructor.
  - cbn. rewrite <- app_assoc. cbn. constructor; [done|]. by apply IH.
Qed.

Lemma value_entry e : value (entry_json e) (entry_toks e).
Proof.
  apply value_obj, (members_cons "Field" _ [_]); [constructor|].
  apply (members_one "Value" _ [_]). constructor.
Qed.

Lemma Forall2_map {A B C} (P : B → C → Prop) (f : A → B) (g : A → C) l :
  (∀ x, P (f x) (g x)) → Forall2 P (f <$> l) (g <$> l).
Proof. intros HP. induction l; by constructor. Qed.

Lemma value_gpu g : value (gpu_json g) (gpu_toks g).
Proof.
  apply value_obj.
  do 3 (apply (members_cons _ _ [_]); [constructor|]).
  pose proof (value_array _ _ (Forall2_map value entry_json entry_toks (entries g.2) value_entry)) as He.
  apply (members_one "Metrics") in He. cbn in He. by rewrite <- app_assoc in He.
Qed.

Lemma document_parses gpus :
  Forall (λ g, printable g.2) gpus →
  parse_json (print_document gpus) = Some (document_json gpus).
Proof.
  intros Hg%lexes_gpus. apply (parse_json_complete _ _
    ([LBrace; TStr "GpuMetrics"; Colon; LBrack] ++ sep_toks (gpu_toks <$> gpus) ++ [RBrack; RBrace])).
  - apply lexes_whole. unfold print_document. eapply lexes_eq; [lex_parts|]. reflexivity.
  - pose proof (value_array _ _ (Forall2_map value gpu_json gpu_toks gpus value_gpu)) as He.
    apply (members_one "GpuMetrics") in He. cbn in He. rewrite <- app_assoc in He.
    by apply value_obj.
Qed.

(** C32: the document is JSON and says what was sampled: for GPUs whose counter
    names need no escape, the parser reads back from the printed text the
    list of GPUs in order, each with its three identifiers and with the name
    and the printed value of every counter, sorted by name. *)
Theorem document_roundtrip gpus :
  Forall (λ g, printable g.2) gpus →
  parse_json (print_document gpus) = Some (document_json gpus).
Proof. apply document_parses. Qed.

Definition demo_gpus : list (rocprofiler_agent_v0_t * gmap string double) :=
  [(Agent 7 ROCPROFILER_AGENT_TYPE_GPU 21 128 1,
    <["SQ_WAVES" := S754_finite false 3 0]> (<["GPU_UTIL" := S754_finite false 5 (-1)]> ∅));
   (Agent 8 ROCPROFILER_AGENT_TYPE_GPU 22 129 2, ∅)].

Lemma document_roundtrip_witness :
  parse_json (print_document demo_gpus) = Some (JObj [("GpuMetrics", JArr [
    JObj [("GpuId", JStr "21"); ("DrmRenderId", JStr "128"); ("LogicalNodeId", JStr "1");
          ("Metrics", JArr [
             JObj [("Field", JStr "GPU_UTIL"); ("Value", JStr "2.5")];
             JObj [("Field", JStr "SQ_WAVES"); ("Value", JStr "3")]])];
    JObj [("GpuId", JStr "22"); ("DrmRenderId", JStr "129"); ("LogicalNodeId", JStr "2");
          ("Metrics", JArr [])]])]).
Proof.
  rewrite (document_roundtrip demo_gpus); [vm_compute; reflexivity|].
  repeat constructor; cbn [snd].
  - repeat apply map_Forall_insert_2; try reflexivity. apply map_Forall_empty.
  - apply map_Forall_empty.
Defined.
