(* ===== verification/RunSampleProofs.v ===== *)
(** The process of [rocpctl] after its registration: every GPU has its
    sampler, so that [runSample] never leaves the vector of samplers, returns
    0 or -1 and prints a whole document or nothing. *)

From S2P Require Import Prelude RocpSdk Format Sampler Packing MockSdk PackingProofs SamplerProofs.
From S2P Require Import RunSample.
Local Open Scope Z_scope.

Section process.
Context {S : Type} `{Sdk S} `{!SdkLaws S}.

(** One good sampler per agent, in the order of the agents. *)
Definition process_ok (agents : list rocprofiler_agent_v0_t) (p : proc S) : Prop :=
  Forall (sampler_ok (S:=S) listed) (samplers_ p) ∧ agent_ <$> samplers_ p = a_id <$> agents.

Lemma get_available_agents_state (p : proc S) : (get_available_agents p).2 = p.
Proof.
  unfold get_available_agents. destruct (query_available_agents (p_sdk p)) as [[[[] l]|] status];
    try case_decide; done.
Qed.

Lemma get_available_agents_stable (p p' : proc S) :
  (get_available_agents p).1 = (get_available_agents p').1.
Proof.
  unfold get_available_agents. rewrite (law_agents_stable (p_sdk p) (p_sdk p')).
  destruct (query_available_agents (p_sdk p')) as [[[[] l]|] status];
    try case_decide; done.
Qed.

Lemma get_available_agents_again (p p' : proc S) agents :
  get_available_agents p = (inl agents, p) → get_available_agents p' = (inl agents, p').
Proof.
  intros Hg. pose proof (get_available_agents_stable p p') as H1. rewrite Hg in H1.
  pose proof (get_available_agents_state p') as H2.
  destruct (get_available_agents p') as [r q]. cbn in *. by subst.
Qed.

(** ** [tool_init] *)

Lemma constructor_agent agent d sl :
  agent_ (this (constructor (St d (new_sampler agent) sl)).2) = agent.
Proof.
  pose (Q c := agent_ c = agent).
  apply (keeps_bind (on_this Q)); [apply keeps_call|..|done]; intros; by keeps_solve.
Qed.

Lemma push_samplers agents : ∀ p p', for_each agents push_sampler p = (inl (), p') →
  ∃ cs, samplers_ p' = samplers_ p ++ cs ∧ agent_ <$> cs = a_id <$> agents ∧
    Forall (sampler_ok (S:=S) listed) cs ∧ cout p' = cout p.
Proof.
  induction agents as [|a agents IH]; intros p p'; cbn [for_each].
  { intros [= <-]. exists []. by rewrite app_nil_r. }
  intros (() & p1 & H1 & (cs & -> & Hag & Hok & Hcout)%IH)%bind_inv.
  unfold push_sampler in H1. pose proof (constructor_agent (a_id a) (p_sdk p) (p_sleeps p)) as Hagent.
  pose proof (sampler_ok_constructor listed (a_id a) (p_sdk p) (p_sleeps p)) as Hc.
  destruct (constructor _) as [[[]|e] s]; [|done]. injection H1 as <-. cbn in *.
  exists (this s :: cs). split_and!; [by rewrite <- app_assoc|by rewrite !fmap_cons, Hagent, Hag|by constructor|done].
Qed.

Lemma tool_init_ok p p' : samplers_ p = [] → tool_init p = (inl 0, p') →
  ∃ agents, get_available_agents p = (inl agents, p) ∧ process_ok agents p' ∧ cout p' = cout p.
Proof.
  intros Hs. unfold tool_init. intros (agents & p1 & Hg & Hrest)%bind_inv.
  pose proof (get_available_agents_state p) as Hp. rewrite Hg in Hp. cbn in Hp. subst p1.
  exists agents. split; [done|]. destruct agents as [|a agents]; [done|].
  apply bind_inv in Hrest as ([] & p1 & Hpush & [= <-]).
  apply push_samplers in Hpush as (cs & Hsam & Hag & Hok & Hcout).
  unfold process_ok. by rewrite Hsam, Hs.
Qed.

(** ** [runSample] *)

(** [values] are what a good sampler of the agent returned for the metrics. *)
Definition sampled (metrics : list string) (duration delay_ms : Z)
    (agent : rocprofiler_agent_v0_t) (values : gmap string double) : Prop :=
  ∃ s s', sampler_ok (S:=S) listed (this s) ∧ agent_ (this s) = a_id agent ∧
    sample_counters_with_packing metrics duration delay_ms s = (inl values, s').

Lemma packing_agent metrics duration delay_ms (s : st S) :
  agent_ (this (sample_counters_with_packing metrics duration delay_ms s).2) = agent_ (this s).
Proof.
  by apply (keeps_sample_counters_with_packing (λ c, agent_ c = agent_ (this s))).
Qed.

Lemma on_sampler_ok agents (p : proc S) i a metrics duration delay_ms :
  process_ok agents p → agents !! i = Some a →
  ∃ r p', on_sampler i (sample_counters_with_packing metrics duration delay_ms) p = (r, p') ∧
    process_ok agents p' ∧ cout p' = cout p ∧
    match r with inl v => sampled metrics duration delay_ms a v | inr _ => True end.
Proof.
  intros [Hok Hag] Hi. unfold on_sampler.
  assert ((agent_ <$> samplers_ p) !! i = Some (a_id a)) as Hc by (by rewrite Hag, list_lookup_fmap, Hi).
  apply list_lookup_fmap_Some in Hc as (c & Heq & Hc). rewrite Hc.
  set (s := St (p_sdk p) c (p_sleeps p)).
  pose proof (proj1 (Forall_lookup _ _) Hok i c Hc) as Hcok.
  pose proof (sampler_ok_packing listed metrics duration delay_ms s ltac:(intros roc Hr; by exists s) Hcok) as Hok'.
  pose proof (packing_agent metrics duration delay_ms s) as Hagent.
  destruct (sample_counters_with_packing metrics duration delay_ms s) as [r s'] eqn:Hs.
  exists r. eexists. split; [done|]. unfold on_this in Hok'. cbn in Hok', Hagent.
  unfold process_ok. split_and!; cbn.
  - by apply Forall_insert.
  - rewrite list_fmap_insert, Hagent, <- Hag. apply list_insert_id. by rewrite list_lookup_fmap, Hc.
  - done.
  - destruct r; [|done]. by exists s, s'.
Qed.

Lemma sample_agents_ok all metrics duration delay_ms agents : ∀ i (p : proc S),
  process_ok all p → drop i all = agents →
  ∃ r p', sample_agents i agents metrics duration delay_ms p = (inl r, p') ∧
    process_ok all p' ∧ cout p' = cout p ∧
    match r with
    | inl vs => Forall2 (sampled metrics duration delay_ms) agents vs
    | inr _ => True
    end.
Proof.
  induction agents as [|a agents IH]; intros i p Hok Hdrop; cbn [sample_agents].
  { exists (inl []), p. split; [done|]. split; [done|]. split; [done|constructor]. }
  assert (all !! i = Some a) as Hi by (by rewrite <- (Nat.add_0_r i), <- lookup_drop, Hdrop).
  assert (is_Some (samplers_ p !! i)) as [c Hc].
  { apply lookup_lt_is_Some. destruct Hok as [_ Hag]. apply (f_equal length) in Hag.
    rewrite !length_fmap in Hag. rewrite Hag. by eapply lookup_lt_Some. }
  rewrite (bind_inl _ _ p (samplers_ p) p), Hc by done.
  destruct (on_sampler_ok all p i a metrics duration delay_ms Hok Hi)
    as (r & p1 & Hr & Hok1 & Hcout & Hv).
  destruct r as [v|e].
  - rewrite (bind_inl _ _ p (inl v) p1) by (unfold try_catch; by rewrite (bind_inl _ _ _ _ _ Hr)).
    destruct (IH (Datatypes.S i) p1 Hok1) as (r & p2 & Hr2 & Hok2 & Hcout2 & Hvs).
    { rewrite (drop_S all a i Hi) in Hdrop. by injection Hdrop. }
    rewrite (bind_inl _ _ _ _ _ Hr2). eexists _, p2. split; [done|].
    split; [done|]. split; [by rewrite Hcout2|]. destruct r; [by constructor|done].
  - rewrite (bind_inl _ _ p (inr e) p1) by (unfold try_catch; by rewrite (bind_inr _ _ _ _ _ Hr)).
    exists (inr e), p1. done.
Qed.

Definition metrics_of (metric_fields : list string) : list string :=
  match metric_fields with [] => all_fields | _ => metric_fields end.

Lemma runSample_ok agents fields duration delay_ms (p : proc S) :
  process_ok agents p → get_available_agents p = (inl agents, p) →
  ∃ r p', runSample fields duration delay_ms p = (inl r, p') ∧ process_ok agents p' ∧
    ((r = 0 ∧ ∃ values, Forall2 (sampled (metrics_of fields) duration delay_ms) agents values ∧
        cout p' = cout p +:+ print_document (zip agents values)) ∨
     (r = -1 ∧ cout p' = cout p)).
Proof.
  intros Hok Hg. unfold runSample. rewrite (bind_inl _ _ _ _ _ Hg). fold (metrics_of fields).
  destruct (sample_agents_ok agents (metrics_of fields) duration delay_ms agents 0 p Hok eq_refl)
    as (r & p1 & Hr & Hok1 & Hcout & Hv).
  rewrite (bind_inl _ _ _ _ _ Hr). destruct r as [vs|e].
  - eexists 0, _. split; [done|]. split; [done|]. left. split; [done|]. exists vs. split; [done|].
    cbn. by rewrite Hcout.
  - exists (-1), p1. split_and!; [done..|]. by right.
Qed.

(** C30: a registered process samples safely.  After [tool_init] has returned 0
    and any number of calls of [runSample], the next call of [runSample]
    returns: it throws nothing and stays inside the vector of samplers.  It
    returns 0 and has printed one document, with the values its sampler
    returned for each GPU, in the order of the agents; or it returns -1 and
    has printed nothing. *)
Theorem runSample_registered (p0 p1 p : proc S) fields duration delay_ms :
  samplers_ p0 = [] → tool_init p0 = (inl 0, p1) →
  rtc (λ p p', ∃ f d dl, p' = (runSample f d dl p).2) p1 p →
  ∃ agents r p', (get_available_agents p0).1 = inl agents ∧
    runSample fields duration delay_ms p = (inl r, p') ∧
    ((r = 0 ∧ ∃ values, Forall2 (sampled (metrics_of fields) duration delay_ms) agents values ∧
        cout p' = cout p +:+ print_document (zip agents values)) ∨
     (r = -1 ∧ cout p' = cout p)).
Proof.
  intros Hs (agents & Hg & Hok & _)%tool_init_ok Hr; [|done].
  assert (process_ok agents p) as Hokp.
  { induction Hr as [|x y z (f & d & dl & ->) _ IH]; [done|]. apply IH.
    destruct (runSample_ok agents f d dl x Hok) as (r & x' & -> & ? & _); [|done].
    by eapply get_available_agents_again. }
  destruct (runSample_ok agents fields duration delay_ms p Hokp) as (r & p' & Hrun & _ & Hout).
  { by eapply get_available_agents_again. }
  exists agents, r, p'. by rewrite Hg.
Qed.

(** a process that was not registered (its [tool_init] did not run, or
    threw before the first sampler was stored) must not sample: with a GPU
    present, [runSample] reads past the end of the vector of samplers. *)
Theorem runSample_unregistered (p : proc S) agents fields duration delay_ms :
  samplers_ p = [] → get_available_agents p = (inl agents, p) → agents ≠ [] →
  runSample fields duration delay_ms p = (inr OutOfBounds, p).
Proof.
  intros Hs Hg Ha. unfold runSample. rewrite (bind_inl _ _ _ _ _ Hg).
  destruct agents as [|a agents]; [done|]. cbn [sample_agents].
  apply bind_inr. rewrite (bind_inl _ _ p (samplers_ p) p) by done. by rewrite Hs.
Qed.
End process.

(** the version of the SDK splits into its parts: for every version the
    three parts give it back, the minor and the patch part below 100; and the
    stream the registration hands to [tool_fini] is never deleted. *)
Theorem configure_version (version priority : Z) (runtime : string) :
  0 <= version < 2 ^ 32 →
  version = version_major version * 10000 + version_minor version * 100 + version_patch version ∧
  0 <= version_minor version < 100 ∧ 0 <= version_patch version < 100 ∧
  tool_fini_deletes (user_data (rocprofiler_configure version runtime priority)) = false.
Proof.
  intros Hv. unfold version_major, version_minor, version_patch.
  Z.div_mod_to_equations. split_and!; lia || done.
Qed.

(** ** Instances *)

Section witnesses.
#[local] Instance demo_process_sdk : Sdk mock := mock_sdk 2 [4].
#[local] Instance demo_process_laws : SdkLaws mock := mock_laws 2 [4].

Definition demo_p0 : proc mock := Proc mock_init [] [] "".
Definition demo_p1 : proc mock := (tool_init demo_p0).2.

Lemma runSample_registered_witness :
  ∃ agents r p', (get_available_agents demo_p0).1 = inl agents ∧
    runSample ["SQ_WAVES"] 1000 10 demo_p1 = (inl r, p') ∧
    ((r = 0 ∧ ∃ values, Forall2 (sampled ["SQ_WAVES"] 1000 10) agents values ∧
        cout p' = cout demo_p1 +:+ print_document (zip agents values)) ∨
     (r = -1 ∧ cout p' = cout demo_p1)).
Proof.
  apply (runSample_registered demo_p0 demo_p1 demo_p1 ["SQ_WAVES"] 1000 10).
  - reflexivity.
  - vm_compute. reflexivity.
  - reflexivity.
Defined.

Lemma runSample_unregistered_witness :
  runSample [] 1000 10 demo_p0 = (inr OutOfBounds, demo_p0).
Proof.
  apply (runSample_unregistered demo_p0 (tail mock_agents)); vm_compute; [done|done|discriminate].
Defined.
End witnesses.

Lemma configure_version_witness :
  1 * 10000 + 23 * 100 + 4 = version_major 12304 * 10000 + version_minor 12304 * 100 + version_patch 12304.
Proof. apply (configure_version 12304 0 "1.2.3"). lia. Defined.
