(* ===== verification/Rocpctl.v ===== *)
(** [rocpctl], the command of [src/rocprofilerclient/rocpctl.cpp]: its
    arguments, its exit status and what it prints; the mock of
    [src/tools/mock-rocpctl/rocpctl.cpp].

    HIP is a library outside the repository: the result of
    [hipGetDeviceCount] is an argument of [main]. *)

From S2P Require Import Prelude RocpSdk Format Sampler Packing RunSample.
From Stdlib Require Import Ascii.
Local Open Scope Z_scope.

(** ** [std::stoull] and [std::stoul]

    Both are [strtoull] at base 10 on a 64-bit [unsigned long]: leading white
    space, a sign, digits; what follows the digits is ignored; [None] stands
    for [std::invalid_argument] (no digits) and [std::out_of_range]. *)

Definition is_space (c : ascii) : bool :=
  let n := nat_of_ascii c in Nat.eqb n 32 || (Nat.leb 9 n && Nat.leb n 13).

Fixpoint skip_space (s : string) : string :=
  match s with
  | String c s' => if is_space c then skip_space s' else s
  | EmptyString => ""
  end.

Definition read_sign (s : string) : bool * string :=
  match s with
  | String c s' =>
      if decide (c = "-"%char) then (true, s')
      else if decide (c = "+"%char) then (false, s') else (false, s)
  | EmptyString => (false, "")
  end.

Definition starts_with_digit (s : string) : bool :=
  match s with
  | String c _ => match digit_value c with Some _ => true | None => false end
  | EmptyString => false
  end.

Definition stoull (s : string) : option Z :=
  let '(neg, s) := read_sign (skip_space s) in
  if starts_with_digit s then
    let v := (read_digits 0 s).1 in
    if decide (2 ^ 64 <= v) then None else Some (if neg then u64 (- v) else v)
  else None.

Definition stoul : string → option Z := stoull.

(** ** Arguments *)

Inductive options : Type :=
  | Help
  | Invalid (message : string)
  | Options (metric_fields : list string) (duration ptl_delay : Z).

(** The loop over [argv], with the values collected so far; [ptl_delay] is a
    [uint32_t], [duration] a [uint64_t]. *)
Fixpoint parse_args (args : list string) (fields : list string) (duration ptl_delay : Z)
    : options :=
  match args with
  | [] => Options fields duration ptl_delay
  | arg :: rest =>
      if decide (arg = "-h" ∨ arg = "--help") then Help
      else if decide (arg = "-d") then
        match rest with
        | [] => Invalid "Option -d requires a numeric argument"
        | v :: rest =>
            match stoull v with
            | None => Invalid ("Invalid value for -d: " +:+ v)
            | Some n => parse_args rest fields n ptl_delay
            end
        end
      else if decide (arg = "-p") then
        match rest with
        | [] => Invalid "Option -p requires a numeric argument"
        | v :: rest =>
            match stoul v with
            | None => Invalid ("Invalid value for -p: " +:+ v)
            | Some n => parse_args rest fields duration (u32 n)
            end
        end
      else parse_args rest (fields ++ [arg]) duration ptl_delay
  end.

Definition default_duration : Z := 1000.
Definition default_ptl_delay : Z := 10.

Definition usage (argv0 : string) : string :=
  "Usage: " +:+ argv0 +:+ " [OPTIONS] [METRICS...]" +:+ NL +:+ NL +:+
  "Options:" +:+ NL +:+
  "  -h, --help          Show this help message and exit" +:+ NL +:+
  "  -d <duration>       Sampling duration in microseconds (default: 1000)" +:+ NL +:+
  "  -p <delay>          PTL delay in milliseconds (default: 10)" +:+ NL +:+ NL +:+
  "Arguments:" +:+ NL +:+
  "  METRICS             List of metric fields to collect" +:+ NL +:+ NL +:+
  "Example:" +:+ NL +:+
  "  " +:+ argv0 +:+ " -d 2000 -p 20 metric1 metric2" +:+ NL.

(** ** [main] *)

Section main.
Context {S : Type} `{Sdk S}.

Abbreviation Mp := (M (proc S)).

(** The two [catch] clauses around [runSample]; leaving a vector is not an
    exception. *)
Definition catch_all (m : Mp Z) : Mp Z :=
  try_catch m (λ e, match e with OutOfBounds => throw OutOfBounds | _ => mret (-1) end).

(** [device_count]: [None] when [hipGetDeviceCount] fails, and [HIP_CALL]
    exits with [EXIT_FAILURE]. *)
Definition main (device_count : option Z) (argv0 : string) (args : list string) : Mp Z :=
  match device_count with
  | None => mret 1
  | Some ntotdevice =>
      if decide (ntotdevice = 0) then mret (-1)
      else
        match parse_args args [] default_duration default_ptl_delay with
        | Help => print (usage argv0) ≫= λ _, mret 0
        | Invalid _ => mret (-1)
        | Options metric_fields duration ptl_delay =>
            catch_all
              (rc ← runSample metric_fields duration ptl_delay;
               mret (if decide (rc ≠ 0) then -1 else 0))
        end
  end.
End main.

(** ** The mock

    It prints two lines and aborts: its exit is the signal, whatever the
    environment. *)

Inductive exit : Type := Returned (code : Z) | Aborted.

Definition mock_rocpctl (env : option string) : string * exit :=
  ("mock rocpctl cmdline tool" +:+ NL +:+
   match env with
   | Some v => "ROCPROFILER_DEVICE_LOCK_AT_START=" +:+ v +:+ NL
   | None => "ROCPROFILER_DEVICE_LOCK_AT_START is not set" +:+ NL
   end, Aborted).
