(* ===== verification/RocpctlProofs.v ===== *)
(** Theorems on [rocpctl]: how it reads numbers and arguments, and the
    contract of its exit status with its output. *)

From S2P Require Import Prelude RocpSdk Format Sampler Packing MockSdk PackingProofs SamplerProofs.
From S2P Require Import RunSample RunSampleProofs Rocpctl.
From Stdlib Require Import Ascii.
Local Open Scope Z_scope.

(** ** Numbers *)

Lemma digit_chars d : 0 <= d < 10 →
  is_space (digit d) = false ∧ digit d ≠ "-"%char ∧ digit d ≠ "+"%char.
Proof.
  intros Hd. unfold digit.
  assert (∃ n, (n < 10)%nat ∧ Z.to_nat d = n) as (n & Hn & ->) by (exists (Z.to_nat d); lia).
  do 10 (destruct n as [|n]; [by split_and!|]). lia.
Qed.

(** A printed number is read without its sign part, in front of anything. *)
Lemma stoull_dec n : 0 <= n → stoull (dec n) = if decide (2 ^ 64 <= n) then None else Some n.
Proof.
  intros Hn. unfold stoull, dec. rewrite decide_False by lia.
  pose proof (dec_nonneg_read n "" Hn) as Hr. rewrite string_app_nil_r in Hr.
  unfold dec_nonneg in *.
  destruct (dec_go_head (Z.to_nat (Z.log2 n)) n "" Hn) as (d & s & Hd & Hs).
  unfold dec_fuel in *. rewrite Hs in *.
  destruct (digit_chars d Hd) as (Hsp & Hm & Hp). cbn [skip_space]. rewrite Hsp.
  cbn [read_sign]. rewrite !decide_False by done. cbn [starts_with_digit].
  rewrite digit_value_digit by done. by rewrite Hr.
Qed.

(** the numbers of the command line.  A number printed in decimal is read
    back if it fits 64 bits and refused otherwise; a minus sign is accepted
    and gives the negation modulo [2 ^ 64]. *)
Theorem stoull_decimal n :
  0 <= n →
  stoull (dec n) = (if decide (2 ^ 64 <= n) then None else Some n) ∧
  (0 < n → stoull (dec (- n)) = if decide (2 ^ 64 <= n) then None else Some (2 ^ 64 - n)).
Proof.
  intros Hn. split; [by apply stoull_dec|]. intros Hpos. unfold stoull.
  assert (dec (- n) = String "-" (dec n)) as ->.
  { unfold dec. rewrite (decide_True (P := - n < 0)), decide_False by lia.
    by rewrite Z.opp_involutive. }
  change (read_sign (skip_space (String "-" (dec n)))) with (true, dec n). cbn iota beta.
  pose proof (dec_nonneg_read n "" Hn) as Hr. rewrite string_app_nil_r in Hr.
  unfold dec. rewrite decide_False by lia. unfold dec_nonneg, dec_fuel in *.
  destruct (dec_go_head (Z.to_nat (Z.log2 n)) n "" Hn) as (d & s & Hd & Hs). rewrite Hs in *.
  cbn [starts_with_digit]. rewrite digit_value_digit by done. rewrite Hr. cbn [read_digits fst].
  case_decide; [done|]. f_equal. unfold u64, wrap.
  symmetry. apply (Z.mod_unique_pos _ _ (-1)); lia.
Qed.

Lemma stoull_decimal_witness :
  stoull "4294967301" = Some 4294967301 ∧ stoull "-1" = Some (2 ^ 64 - 1) ∧
  stoull "18446744073709551616" = None ∧ stoull "12ms" = Some 12 ∧ stoull "ms" = None.
Proof.
  split; [exact (proj1 (stoull_decimal 4294967301 ltac:(lia)))|].
  split; [exact (proj2 (stoull_decimal 1 ltac:(lia)) ltac:(lia))|].
  repeat split.
Defined.

(** ** Arguments *)

(** A metric name: anything but the four options. *)
Definition is_metric (s : string) : Prop := s ∉ ["-h"; "--help"; "-d"; "-p"].

Lemma parse_args_metrics fields : ∀ acc duration delay, Forall is_metric fields →
  parse_args fields acc duration delay = Options (acc ++ fields) duration delay.
Proof.
  induction fields as [|f fields IH]; intros acc duration delay Hf; cbn [parse_args].
  { by rewrite app_nil_r. }
  apply Forall_cons in Hf as [Hm Hf]. unfold is_metric in Hm.
  rewrite !decide_False by set_solver. rewrite IH by done. by rewrite <- app_assoc.
Qed.

Lemma parse_args_spec duration delay fields :
  0 <= duration < 2 ^ 64 → 0 <= delay < 2 ^ 64 → Forall is_metric fields →
  parse_args ("-d" :: dec duration :: "-p" :: dec delay :: fields) []
    default_duration default_ptl_delay = Options fields duration (u32 delay).
Proof.
  intros Hd Hp Hf. cbn [parse_args].
  rewrite (decide_False (P := "-d" = "-h" ∨ _)) by (by intros [?|?]).
  rewrite (decide_True (P := "-d" = "-d")) by done. rewrite stoull_dec, decide_False by lia.
  rewrite (decide_False (P := "-p" = "-h" ∨ _)) by (by intros [?|?]).
  rewrite (decide_False (P := "-p" = "-d")) by done.
  rewrite (decide_True (P := "-p" = "-p")) by done.
  unfold stoul. rewrite stoull_dec, decide_False by lia. by rewrite parse_args_metrics.
Qed.

(** reading the arguments: both options in decimal, then the metrics, give
    exactly these values where they fit their types; the delay is cut to 32
    bits without an error, so that a delay of [2 ^ 32] is no delay. *)
Theorem parse_args_options duration delay fields :
  0 <= duration < 2 ^ 64 → 0 <= delay < 2 ^ 64 → Forall is_metric fields →
  parse_args ("-d" :: dec duration :: "-p" :: dec delay :: fields) []
    default_duration default_ptl_delay = Options fields duration (u32 delay).
Proof.
  apply parse_args_spec.
Qed.

Lemma parse_args_options_witness :
  parse_args ["-d"; "2000"; "-p"; "4294967296"; "SQ_WAVES"] [] default_duration default_ptl_delay =
  Options ["SQ_WAVES"] 2000 0.
Proof.
  refine (parse_args_options 2000 4294967296 ["SQ_WAVES"] _ _ _); [lia|lia|].
  constructor; [|constructor]. unfold is_metric. set_solver.
Defined.

(** ** Exit status *)

Section main.
Context {S : Type} `{Sdk S} `{!SdkLaws S}.

(** C18: what the exit status says about the output, in a registered process,
    for every command line and device count.  [main] returns; with 0 it has
    printed the usage, or one whole document with the values of every GPU
    for the metrics and times of the command line; with any other status it
    has printed nothing. *)
Theorem main_contract (p0 p1 : proc S) device_count argv0 args :
  samplers_ p0 = [] → tool_init p0 = (inl 0, p1) →
  ∃ code p', main device_count argv0 args p1 = (inl code, p') ∧
    (code ≠ 0 → cout p' = cout p1) ∧
    (code = 0 →
      match parse_args args [] default_duration default_ptl_delay with
      | Help => cout p' = cout p1 +:+ usage argv0
      | Invalid _ => False
      | Options fields duration delay => ∃ agents values,
          (get_available_agents p0).1 = inl agents ∧
          Forall2 (sampled (metrics_of fields) duration delay) agents values ∧
          cout p' = cout p1 +:+ print_document (zip agents values)
      end).
Proof.
  intros Hs (agents & Hg & Hok & _)%tool_init_ok; [|done]. unfold main.
  destruct device_count as [n|]; [|by exists 1, p1].
  case_decide; [by exists (-1), p1|].
  destruct (parse_args args [] default_duration default_ptl_delay) as [|m|fields duration delay].
  - eexists 0, _. by split_and!.
  - by exists (-1), p1.
  - destruct (runSample_ok agents fields duration delay p1 Hok) as (r & p' & Hr & _ & Hout).
    { by eapply get_available_agents_again. }
    unfold catch_all, try_catch. rewrite (bind_inl _ _ _ _ _ Hr).
    destruct Hout as [[-> (values & Hv & Hcout)]|[-> Hcout]].
    + exists 0, p'. split_and!; [done|done|]. intros _. exists agents, values. by rewrite Hg.
    + by exists (-1), p'.
Qed.
End main.

Section witness.
#[local] Instance demo_main_sdk : Sdk mock := mock_sdk 2 [4].
#[local] Instance demo_main_laws : SdkLaws mock := mock_laws 2 [4].

Definition demo_args : list string := ["-d"; "500"; "SQ_WAVES"; "-p"; "0"].

Lemma main_contract_witness :
  ∃ code p', main (Some 2) "rocpctl" demo_args demo_p1 = (inl code, p') ∧
    (code ≠ 0 → cout p' = cout demo_p1) ∧
    (code = 0 →
      match parse_args demo_args [] default_duration default_ptl_delay with
      | Help => cout p' = cout demo_p1 +:+ usage "rocpctl"
      | Invalid _ => False
      | Options fields duration delay => ∃ agents values,
          (get_available_agents demo_p0).1 = inl agents ∧
          Forall2 (sampled (metrics_of fields) duration delay) agents values ∧
          cout p' = cout demo_p1 +:+ print_document (zip agents values)
      end).
Proof.
  apply (main_contract demo_p0 demo_p1 (Some 2) "rocpctl" demo_args).
  - reflexivity.
  - vm_compute. reflexivity.
Defined.
End witness.

(** ** Waits *)

Section waits.
Context {S : Type}.

(** the waits are the requested ones only in 32 bits.  The pause between
    two profiles is [delay_ms] milliseconds below 4294968 ms; from there on
    [delay_ms * 1000] wraps around and the pause is shorter than asked for.
    A sampling window of [2 ^ 32] microseconds or more is cut modulo
    [2 ^ 32]. *)
Theorem waits_exact delay_ms duration (s : st S) :
  0 <= delay_ms < 2 ^ 32 → 0 <= duration < 2 ^ 64 →
  (delay_ms < 4294968 → sleeps (delay_pause delay_ms s).2 =
     sleeps s ++ if decide (0 < delay_ms) then [delay_ms * 1000] else []) ∧
  (4294968 <= delay_ms → ∃ w, sleeps (delay_pause delay_ms s).2 = sleeps s ++ [w] ∧
     w < 2 ^ 32 < delay_ms * 1000) ∧
  ∃ w, sleeps (usleep duration s).2 = sleeps s ++ [w] ∧ (w = duration ↔ duration < 2 ^ 32).
Proof.
  intros Hd Hu. unfold delay_pause, usleep, u32.
  pose proof (wrap_range 32 (delay_ms * 1000) ltac:(lia)) as Hw.
  pose proof (wrap_range 32 duration ltac:(lia)) as Hw'.
  split_and!.
  - intros Hs. case_decide; cbn; [|by rewrite app_nil_r]. by rewrite wrap_wrap, wrap_id by lia.
  - intros Hs. rewrite decide_True by lia. cbn. eexists. split; [done|]. rewrite wrap_wrap. lia.
  - eexists. split; [done|]. split; [lia|]. intros. apply wrap_id. lia.
Qed.
End waits.

Lemma waits_exact_witness :
  let s := St tt (new_sampler 7) [] in
  sleeps (delay_pause 10 s).2 = [10000] ∧ sleeps (delay_pause 4294968 s).2 = [704] ∧
  ∃ w, sleeps (usleep 1000 s).2 = [w] ∧ (w = 1000 ↔ 1000 < 2 ^ 32).
Proof.
  destruct (waits_exact 10 1000 (St tt (new_sampler 7) []) ltac:(lia) ltac:(lia)) as (H1 & _ & H3).
  split; [exact (H1 ltac:(lia))|]. split; [vm_compute; reflexivity|exact H3].
Defined.
