(* ===== verification/RocpClient.v ===== *)
(** [ROCProfilerClient] of [src/pkg/amdgpu/rocprofiler/rocpclient.go]: the
    exporter's side of [rocpctl], which runs the command, caches its metrics
    and stops running it after repeated failures or a crash.

    The outcome of a run of the command (the context's error, the process's
    error, the bytes of its standard output) is an argument of the
    operations, as are the times the clock returns and the decoder of the
    generated message type.  The operations on [pCache] hold its lock from
    the first to the last access, so each is one step. *)

From S2P Require Import Prelude Format.
From Stdlib Require Import Ascii.
Local Open Scope Z_scope.

Definition second : Z := 1000000000.
Definition cachedTimer : Z := 10 * second.
Definition failThreshold : Z := 3.

Definition disabledReasonConsecutive : string :=
  "rocpctl failed " +:+ dec failThreshold +:+ " consecutive times (timeouts or non-crash errors)".
Definition disabledReasonCrash : string := "rocpctl process core dumped/aborted".

Definition disabled_msg (reason : string) : string :=
  "GPU profiler metrics (gpu_prof_*) disabled: " +:+ reason +:+ ". Restart the pod to re-enable.".

(** [strings.Contains] *)
Definition contains (s sub : string) : bool :=
  match String.index 0 sub s with Some _ => true | None => false end.

(** [strings.Join] *)
Fixpoint join (sep : string) (l : list string) : string :=
  match l with
  | [] => ""
  | [x] => x
  | x :: l => x +:+ sep +:+ join sep l
  end.

Section client.
Context {P : Type} (empty_profiler : P) (Unmarshal : string → P + string).

Record profilerCache : Type := PCache {
  cachedMetrics : option P;
  cacheLastRead : Z;
  consecutiveFailures : Z;
  fatalFailure : bool;
  disabledReason : string;
}.

(** [emitted] are the events handed to the emitter so far, as reason and
    message; [emitEvent] tells whether an emitter is set. *)
Record ROCProfilerClient : Type := RPC {
  Name : string;
  MetricFields : list string;
  SamplingInterval : Z;
  PtlDelayMs : Z;
  cmd : string;
  pCache : profilerCache;
  emitEvent : bool;
  emitted : list (string * string);
  runs : list string;   (* the commands run so far *)
}.

Definition NewRocProfilerClient (name : string) : ROCProfilerClient :=
  RPC name [] 0 0 "" (PCache None 0 0 false "") false [] [].

Definition set_pCache (c : profilerCache) (rpc : ROCProfilerClient) : ROCProfilerClient :=
  RPC (Name rpc) (MetricFields rpc) (SamplingInterval rpc) (PtlDelayMs rpc) (cmd rpc) c
    (emitEvent rpc) (emitted rpc) (runs rpc).

Definition emit (reason : string) (rpc : ROCProfilerClient) : ROCProfilerClient :=
  if emitEvent rpc then
    RPC (Name rpc) (MetricFields rpc) (SamplingInterval rpc) (PtlDelayMs rpc) (cmd rpc) (pCache rpc)
      (emitEvent rpc) (emitted rpc ++ [(reason, disabled_msg reason)]) (runs rpc)
  else rpc.

Definition SetEventEmitter (rpc : ROCProfilerClient) : ROCProfilerClient :=
  RPC (Name rpc) (MetricFields rpc) (SamplingInterval rpc) (PtlDelayMs rpc) (cmd rpc) (pCache rpc)
    true (emitted rpc) (runs rpc).

Definition SetSamplingInterval (intervalUs : Z) (rpc : ROCProfilerClient) : ROCProfilerClient :=
  RPC (Name rpc) (MetricFields rpc) intervalUs (PtlDelayMs rpc) (cmd rpc) (pCache rpc)
    (emitEvent rpc) (emitted rpc) (runs rpc).

Definition SetPtlDelay (delayMs : Z) (rpc : ROCProfilerClient) : ROCProfilerClient :=
  RPC (Name rpc) (MetricFields rpc) (SamplingInterval rpc) delayMs (cmd rpc) (pCache rpc)
    (emitEvent rpc) (emitted rpc) (runs rpc).

Definition SetFields (fields : list string) (rpc : ROCProfilerClient) : ROCProfilerClient :=
  RPC (Name rpc) fields (SamplingInterval rpc) (PtlDelayMs rpc)
    ("rocpctl -d " +:+ dec (SamplingInterval rpc) +:+ " -p " +:+ dec (PtlDelayMs rpc) +:+ " " +:+
     join " " fields)
    (pCache rpc) (emitEvent rpc) (emitted rpc) (runs rpc).

Definition ResetFailureCount (rpc : ROCProfilerClient) : ROCProfilerClient :=
  let c := pCache rpc in
  set_pCache (PCache (cachedMetrics c) (cacheLastRead c) 0 false "") rpc.

Definition GetDisabledReason (rpc : ROCProfilerClient) : string := disabledReason (pCache rpc).
Definition GetFailureCount (rpc : ROCProfilerClient) : Z := consecutiveFailures (pCache rpc).

Definition IncFailureCount (rpc : ROCProfilerClient) : ROCProfilerClient :=
  let c := pCache rpc in
  let n := consecutiveFailures c + 1 in
  if decide (n = failThreshold) then
    emit disabledReasonConsecutive
      (set_pCache (PCache (cachedMetrics c) (cacheLastRead c) n (fatalFailure c)
                     disabledReasonConsecutive) rpc)
  else
    set_pCache (PCache (cachedMetrics c) (cacheLastRead c) n (fatalFailure c) (disabledReason c)) rpc.

Definition IsDisabledOnFailure (rpc : ROCProfilerClient) : bool :=
  fatalFailure (pCache rpc) || (failThreshold <=? consecutiveFailures (pCache rpc)).

Definition SetFatalFailureState (rpc : ROCProfilerClient) : ROCProfilerClient :=
  let c := pCache rpc in
  let rpc' := set_pCache (PCache (cachedMetrics c) (cacheLastRead c) (consecutiveFailures c) true
                            disabledReasonCrash) rpc in
  if fatalFailure c then rpc' else emit disabledReasonCrash rpc'.

(** The outcome of [cmd.Output()] and [ctx.Err()]. *)
Inductive outcome : Type :=
  | DeadlineExceeded
  | Canceled
  | Failed (err : string)
  | Output (gpuMetrics : string).

Definition run (rpc : ROCProfilerClient) : ROCProfilerClient :=
  RPC (Name rpc) (MetricFields rpc) (SamplingInterval rpc) (PtlDelayMs rpc) (cmd rpc) (pCache rpc)
    (emitEvent rpc) (emitted rpc) (runs rpc ++ [cmd rpc]).

(** The metrics or the text of the error. *)
Definition getMetrics (o : outcome) (rpc : ROCProfilerClient) : (P + string) * ROCProfilerClient :=
  if IsDisabledOnFailure rpc then
    (inr (Name rpc +:+ " disabled after consecutive failures"), rpc)
  else if decide (MetricFields rpc = []) then (inl empty_profiler, rpc)
  else
    let rpc := run rpc in
    match o with
    | DeadlineExceeded => (inr "context deadline exceeded", IncFailureCount rpc)
    | Canceled => (inr "context canceled", rpc)
    | Failed err =>
        if contains err "dumped" || contains err "aborted" then
          (inr (Name rpc +:+ " core dumped/aborted, profiler disabled"), SetFatalFailureState rpc)
        else (inr err, IncFailureCount rpc)
    | Output gpuMetrics =>
        match Unmarshal gpuMetrics with
        | inr err => (inr err, IncFailureCount rpc)
        | inl gpus => (inl gpus, ResetFailureCount rpc)
        end
    end.

(** [now] and [later]: the clock at the test of the cache and after the
    fetch. *)
Definition cacheMetrics (now later : Z) (o : outcome) (rpc : ROCProfilerClient)
    : (P + string) * ROCProfilerClient :=
  let fetch :=
    let '(r, rpc) := getMetrics o rpc in
    let c := pCache rpc in
    (r, set_pCache (PCache (match r with inl m => Some m | inr _ => None end) later
                      (consecutiveFailures c) (fatalFailure c) (disabledReason c)) rpc) in
  match cachedMetrics (pCache rpc) with
  | Some m => if decide (now - cacheLastRead (pCache rpc) < cachedTimer) then (inl m, rpc) else fetch
  | None => fetch
  end.

Definition GetMetrics := cacheMetrics.
End client.

Arguments profilerCache : clear implicits.
Arguments ROCProfilerClient : clear implicits.
