(* ===== verification/RocpClientProofs.v ===== *)
(** Theorems on [ROCProfilerClient]: the failure state under every
    interleaving of its locked operations, the life of a client polled by
    the exporter, the cache, and the command line it hands to [rocpctl]. *)

From S2P Require Import Prelude Format Json Rocpctl RocpctlProofs RocpClient.
From Stdlib Require Import Ascii.
Local Open Scope Z_scope.

Section client.
Context {P : Type} (empty_profiler : P) (Unmarshal : string → P + string).

Abbreviation client := (ROCProfilerClient P).
Abbreviation GetMetrics := (GetMetrics empty_profiler Unmarshal).
Abbreviation getMetrics := (getMetrics empty_profiler Unmarshal).

(** ** The failure state *)

(** The locked operations of any number of callers, in any order: callers
    that fetch at the same time interleave exactly these. *)
Inductive locked_step : client → client → Prop :=
  | locked_inc rpc : locked_step rpc (IncFailureCount rpc)
  | locked_fatal rpc : locked_step rpc (SetFatalFailureState rpc)
  | locked_reset rpc : locked_step rpc (ResetFailureCount rpc)
  | locked_store rpc m t : locked_step rpc
      (set_pCache (PCache m t (consecutiveFailures (pCache rpc)) (fatalFailure (pCache rpc))
                     (disabledReason (pCache rpc))) rpc).

Definition reason_ok (rpc : client) : Prop :=
  0 <= consecutiveFailures (pCache rpc) ∧
  (IsDisabledOnFailure rpc = true ↔ disabledReason (pCache rpc) ≠ "").

Lemma emit_pCache r (rpc : client) : pCache (emit r rpc) = pCache rpc.
Proof. unfold emit. by destruct (emitEvent rpc). Qed.

Lemma IsDisabled_emit r (rpc : client) : IsDisabledOnFailure (emit r rpc) = IsDisabledOnFailure rpc.
Proof. unfold IsDisabledOnFailure. by rewrite emit_pCache. Qed.

Lemma reason_ok_step rpc rpc' : locked_step rpc rpc' → reason_ok rpc → reason_ok rpc'.
Proof.
  unfold reason_ok, IsDisabledOnFailure, failThreshold.
  destruct 1 as [rpc|rpc|rpc|rpc m t]; intros [Hn Hr].
  - unfold IncFailureCount, failThreshold. case_decide as Hd; rewrite ?emit_pCache; cbn.
    + split; [lia|]. rewrite Hd. by rewrite orb_true_r.
    + split; [lia|]. rewrite <- Hr.
      assert ((3 <=? consecutiveFailures (pCache rpc) + 1) = (3 <=? consecutiveFailures (pCache rpc)))
        as -> by (bool_cases; lia || done). done.
  - unfold SetFatalFailureState. destruct (fatalFailure (pCache rpc)); rewrite ?emit_pCache; by cbn.
  - done.
  - done.
Qed.

(** the reason is set exactly while the profiler is disabled, under every
    interleaving of the locked operations of any number of callers. *)
Theorem disabled_reason_invariant name rpc :
  rtc locked_step (NewRocProfilerClient name) rpc →
  (IsDisabledOnFailure rpc = true ↔ GetDisabledReason rpc ≠ "").
Proof.
  intros Hr. enough (reason_ok rpc) as [_ ?] by done.
  assert (reason_ok (NewRocProfilerClient (P:=P) name)) as H0 by (split; cbn; [lia|done]).
  induction Hr as [|x y z Hxy _ IH]; [done|]. apply IH. by eapply reason_ok_step.
Qed.

(** ** A client that is polled *)

(** The exporter's calls: polls, and new settings. *)
Inductive use : client → client → Prop :=
  | use_poll now later o rpc : use rpc (GetMetrics now later o rpc).2
  | use_interval us rpc : use rpc (SetSamplingInterval us rpc)
  | use_delay ms rpc : use rpc (SetPtlDelay ms rpc)
  | use_fields fields rpc : use rpc (SetFields fields rpc).

Lemma getMetrics_disabled o (rpc : client) : IsDisabledOnFailure rpc = true →
  getMetrics o rpc = (inr (Name rpc +:+ " disabled after consecutive failures"), rpc).
Proof. intros Hd. unfold RocpClient.getMetrics. by rewrite Hd. Qed.

Lemma use_disabled rpc rpc' : use rpc rpc' → IsDisabledOnFailure rpc = true →
  IsDisabledOnFailure rpc' = true ∧ runs rpc' = runs rpc ∧ emitted rpc' = emitted rpc ∧
  disabledReason (pCache rpc') = disabledReason (pCache rpc).
Proof.
  destruct 1 as [now later o rpc| | |]; intros Hd; try done.
  unfold RocpClient.GetMetrics, cacheMetrics.
  destruct (cachedMetrics (pCache rpc)) as [m|]; [case_decide|];
    rewrite ?(getMetrics_disabled o rpc Hd); done.
Qed.

(** a disabled profiler stays off.  Whatever the exporter does with it
    (polls with any outcome, new settings), it stays disabled for the same
    reason, the command is not run again and no event is emitted. *)
Theorem disabled_absorbing rpc rpc' :
  IsDisabledOnFailure rpc = true → rtc use rpc rpc' →
  IsDisabledOnFailure rpc' = true ∧ runs rpc' = runs rpc ∧ emitted rpc' = emitted rpc ∧
  GetDisabledReason rpc' = GetDisabledReason rpc.
Proof.
  intros Hd Hr. induction Hr as [|x y z Hxy _ IH]; [done|].
  destruct (use_disabled x y Hxy Hd) as (H1 & H2 & H3 & H4).
  destruct (IH H1) as (H5 & H6 & H7 & H8). split_and!; [done|congruence..|].
  unfold GetDisabledReason in *. congruence.
Qed.

(** An emitter that is set has been called once if the profiler is disabled,
    and not at all otherwise. *)
Definition events_ok (rpc : client) : Prop :=
  emitEvent rpc = true ∧ 0 <= consecutiveFailures (pCache rpc) ∧
  length (emitted rpc) = if IsDisabledOnFailure rpc then 1%nat else 0%nat.

Lemma events_ok_inc rpc : IsDisabledOnFailure rpc = false → events_ok rpc →
  events_ok (IncFailureCount rpc).
Proof.
  unfold events_ok, IsDisabledOnFailure, IncFailureCount, failThreshold.
  intros Hd (He & Hn & Hl). rewrite Hd in Hl. apply orb_false_iff in Hd as [Hf Hc].
  apply Z.leb_gt in Hc. case_decide as Hd; cbn.
  - unfold emit. cbn. rewrite He. cbn. split_and!; [done|lia|].
    rewrite length_app, Hl, Hd, Hf. done.
  - rewrite Hf. destruct (Z.leb_spec 3 (consecutiveFailures (pCache rpc) + 1)); [lia|].
    split_and!; [done|lia|done].
Qed.

Lemma events_ok_fatal rpc : IsDisabledOnFailure rpc = false → events_ok rpc →
  events_ok (SetFatalFailureState rpc).
Proof.
  unfold events_ok, SetFatalFailureState. intros Hd (He & Hn & Hl). rewrite Hd in Hl.
  unfold IsDisabledOnFailure in *. apply orb_false_iff in Hd as [Hf _]. rewrite Hf.
  unfold emit. cbn. rewrite He. cbn. split_and!; [done|done|]. by rewrite length_app, Hl.
Qed.

Lemma events_ok_getMetrics o rpc : events_ok rpc → events_ok (getMetrics o rpc).2.
Proof.
  intros Hok. unfold RocpClient.getMetrics.
  destruct (IsDisabledOnFailure rpc) eqn:Hd; [done|]. case_decide; [done|].
  assert (events_ok (run rpc)) as Hrun by done.
  destruct o as [| |err|out]; cbn [snd].
  - by apply events_ok_inc.
  - done.
  - destruct (contains err "dumped" || contains err "aborted"); [by apply events_ok_fatal|].
    by apply events_ok_inc.
  - destruct (Unmarshal out) as [gpus|err]; [|by apply events_ok_inc].
    destruct Hok as (He & Hn & Hl). rewrite Hd in Hl. by split_and!.
Qed.

Lemma events_ok_use rpc rpc' : use rpc rpc' → events_ok rpc → events_ok rpc'.
Proof.
  destruct 1 as [now later o rpc| | |]; intros Hok; try done.
  pose proof (events_ok_getMetrics o rpc Hok) as Hg.
  unfold RocpClient.GetMetrics, cacheMetrics.
  destruct (getMetrics o rpc) as [r rpc1].
  destruct (cachedMetrics (pCache rpc)) as [m|]; [case_decide|]; done.
Qed.

(** one event per disabling.  For a new client with an emitter, whatever
    the exporter does with it, the emitter has been called exactly once if
    the profiler is disabled, and not at all if it is not. *)
Theorem event_once name rpc :
  rtc use (SetEventEmitter (NewRocProfilerClient name)) rpc →
  length (emitted rpc) = if IsDisabledOnFailure rpc then 1%nat else 0%nat.
Proof.
  intros Hr. enough (events_ok rpc) as (_ & _ & ?) by done.
  assert (events_ok (SetEventEmitter (NewRocProfilerClient (P:=P) name))) as H0 by done.
  induction Hr as [|x y z Hxy _ IH]; [done|]. apply IH. by eapply events_ok_use.
Qed.

(** ** The threshold *)

(** A run that fails without a crash. *)
Definition failing (o : outcome) : Prop :=
  match o with
  | DeadlineExceeded => True
  | Canceled => False
  | Failed err => contains err "dumped" || contains err "aborted" = false
  | Output out => match Unmarshal out with inl _ => False | inr _ => True end
  end.

Lemma failing_getMetrics o (rpc : client) :
  failing o → IsDisabledOnFailure rpc = false → MetricFields rpc ≠ [] →
  ∃ err, getMetrics o rpc = (inr err, IncFailureCount (run rpc)).
Proof.
  intros Ho Hd Hf. unfold RocpClient.getMetrics. rewrite Hd, decide_False by done.
  destruct o as [| |err|out]; cbn in Ho.
  - by eexists.
  - done.
  - rewrite Ho. by eexists.
  - destruct (Unmarshal out); [done|]. by eexists.
Qed.

(** A poll that finds no cached metrics and fails. *)
Lemma failing_poll now later o (rpc : client) :
  failing o → cachedMetrics (pCache rpc) = None → fatalFailure (pCache rpc) = false →
  MetricFields rpc ≠ [] → 0 <= consecutiveFailures (pCache rpc) <= 3 →
  let rpc' := (GetMetrics now later o rpc).2 in
  let n := consecutiveFailures (pCache rpc) in
  cachedMetrics (pCache rpc') = None ∧ fatalFailure (pCache rpc') = false ∧
  MetricFields rpc' = MetricFields rpc ∧ cmd rpc' = cmd rpc ∧
  consecutiveFailures (pCache rpc') = Z.min 3 (n + 1) ∧
  runs rpc' = runs rpc ++ (if decide (n < 3) then [cmd rpc] else []).
Proof.
  intros Ho Hc Hf Hm Hn. unfold RocpClient.GetMetrics, cacheMetrics. rewrite Hc.
  destruct (IsDisabledOnFailure rpc) eqn:Hd.
  - rewrite getMetrics_disabled by done. unfold IsDisabledOnFailure, failThreshold in Hd.
    rewrite Hf in Hd. cbn in Hd. apply Z.leb_le in Hd. cbn.
    rewrite decide_False by lia. rewrite app_nil_r. split_and!; done || lia.
  - destruct (failing_getMetrics o rpc Ho Hd Hm) as [err ->].
    unfold IsDisabledOnFailure, failThreshold in Hd. rewrite Hf in Hd. cbn in Hd.
    apply Z.leb_gt in Hd. unfold IncFailureCount, failThreshold, emit. cbn.
    rewrite (decide_True (P := consecutiveFailures (pCache rpc) < 3)) by lia.
    case_decide; cbn; [destruct (emitEvent rpc); cbn|]; split_and!; done || lia.
Qed.

Definition poll_all (polls : list (Z * Z * outcome)) (rpc : client) : client :=
  foldl (λ c p, (GetMetrics p.1.1 p.1.2 p.2 c).2) rpc polls.

Lemma failing_polls polls : ∀ rpc, Forall (λ p, failing p.2) polls →
  cachedMetrics (pCache rpc) = None → fatalFailure (pCache rpc) = false →
  MetricFields rpc ≠ [] → 0 <= consecutiveFailures (pCache rpc) <= 3 →
  let rpc' := poll_all polls rpc in
  let n := consecutiveFailures (pCache rpc) in
  fatalFailure (pCache rpc') = false ∧
  consecutiveFailures (pCache rpc') = Z.min 3 (n + Z.of_nat (length polls)) ∧
  runs rpc' = runs rpc ++ replicate (Z.to_nat (3 - n) `min` length polls) (cmd rpc).
Proof.
  induction polls as [|[[now later] o] polls IH]; intros rpc Hp Hc Hf Hm Hn.
  - cbn. rewrite Nat.min_0_r, app_nil_r. split_and!; done || lia.
  - apply Forall_cons in Hp as [Ho Hp]. unfold poll_all in *. cbn [foldl fst snd].
    destruct (failing_poll now later o rpc Ho Hc Hf Hm Hn) as (H1 & H2 & H3 & H4 & H5 & H6).
    set (rpc1 := (GetMetrics now later o rpc).2) in *.
    destruct (IH rpc1 Hp H1 H2 ltac:(by rewrite H3) ltac:(lia)) as (G1 & G2 & G3).
    split; [exact G1|]. split; [etrans; [exact G2|]; cbn [length]; lia|].
    etrans; [exact G3|]. rewrite H6, H5, H4, <- app_assoc. f_equal.
    cbn [length]. case_decide.
    + replace (Z.to_nat (3 - consecutiveFailures (pCache rpc)))
        with (S (Z.to_nat (3 - Z.min 3 (consecutiveFailures (pCache rpc) + 1)))) by lia. done.
    + replace (Z.to_nat (3 - consecutiveFailures (pCache rpc))) with 0%nat by lia.
      replace (Z.to_nat (3 - Z.min 3 (consecutiveFailures (pCache rpc) + 1))) with 0%nat by lia.
      done.
Qed.

(** the threshold is three.  [n] failing polls in a row, from a client that
    has not failed since its last success and has nothing cached, leave it
    disabled if and only if [n] is at least 3, and the command was run exactly
    [min 3 n] times. *)
Theorem threshold_exact (polls : list (Z * Z * outcome)) (rpc : client) :
  Forall (λ p, failing p.2) polls →
  cachedMetrics (pCache rpc) = None → fatalFailure (pCache rpc) = false →
  consecutiveFailures (pCache rpc) = 0 → MetricFields rpc ≠ [] →
  let rpc' := poll_all polls rpc in
  (IsDisabledOnFailure rpc' = true ↔ (3 <= length polls)%nat) ∧
  runs rpc' = runs rpc ++ replicate (3 `min` length polls) (cmd rpc).
Proof.
  intros Hp Hc Hf Hn Hm.
  destruct (failing_polls polls rpc Hp Hc Hf Hm ltac:(lia)) as (G1 & G2 & G3). rewrite Hn in G2, G3.
  cbn zeta. split; [|exact G3]. unfold IsDisabledOnFailure, failThreshold. rewrite G1, G2. cbn.
  rewrite Z.leb_le. lia.
Qed.

(** ** The cache *)

(** the cache.  After every poll the cache holds the metrics the poll
    returned, or nothing if it returned an error; within ten seconds of a
    fetch a poll returns the cached metrics and changes nothing, whatever
    the command would do; without fresh metrics the poll returns what the
    fetch returns and restarts the clock. *)
Theorem cache_correct now later o (rpc : client) :
  let '(r, rpc1) := GetMetrics now later o rpc in
  let fresh := match cachedMetrics (pCache rpc) with
               | Some _ => now - cacheLastRead (pCache rpc) <? cachedTimer
               | None => false
               end in
  cachedMetrics (pCache rpc1) = match r with inl m => Some m | inr _ => None end ∧
  (if fresh then rpc1 = rpc
   else r = (getMetrics o rpc).1 ∧ cacheLastRead (pCache rpc1) = later) ∧
  ∀ m now2 later2 o2, r = inl m → now2 - cacheLastRead (pCache rpc1) < cachedTimer →
    GetMetrics now2 later2 o2 rpc1 = (inl m, rpc1).
Proof.
  destruct (GetMetrics now later o rpc) as [r rpc1] eqn:Hg.
  assert (cachedMetrics (pCache rpc1) = match r with inl m => Some m | inr _ => None end ∧
    (if match cachedMetrics (pCache rpc) with
        | Some _ => now - cacheLastRead (pCache rpc) <? cachedTimer
        | None => false
        end then rpc1 = rpc
     else r = (getMetrics o rpc).1 ∧ cacheLastRead (pCache rpc1) = later)) as [Hc Hr].
  { unfold RocpClient.GetMetrics, cacheMetrics in Hg.
    destruct (getMetrics o rpc) as [r1 rpc2]. cbn [fst].
    destruct (cachedMetrics (pCache rpc)) as [m|] eqn:Hm.
    - case_decide as Hd; injection Hg as <- <-.
      + split; [done|]. by rewrite (proj2 (Z.ltb_lt _ _) Hd).
      + split; [done|]. by rewrite (proj2 (Z.ltb_ge _ _)) by lia.
    - by injection Hg as <- <-. }
  split_and!; [done|done|]. intros m now2 later2 o2 -> Hnow.
  unfold RocpClient.GetMetrics, cacheMetrics. rewrite Hc. by rewrite decide_True.
Qed.

(** ** The command *)

Section command.
Context (shell_words : string → list string).

(** A word the shell takes as it is. *)
Definition safe_char (c : ascii) : bool :=
  let n := nat_of_ascii c in
  (Nat.leb 48 n && Nat.leb n 57) || (Nat.leb 65 n && Nat.leb n 90) ||
  (Nat.leb 97 n && Nat.leb n 122) || Nat.eqb n 95 || Nat.eqb n 45.
Fixpoint safe (s : string) : bool :=
  match s with EmptyString => true | String c s => safe_char c && safe s end.
Definition safe_word (s : string) : Prop := s ≠ "" ∧ safe s = true.

Context (shell_splits : ∀ ws, Forall safe_word ws → shell_words (join " " ws) = ws).

Lemma safe_dec n : 0 <= n → safe_word (dec n).
Proof.
  intros Hn. unfold dec. rewrite decide_False by lia. unfold dec_nonneg, dec_fuel. split.
  - destruct (dec_go_head (Z.to_nat (Z.log2 n)) n "" Hn) as (d & t & _ & ->). done.
  - generalize (S (Z.to_nat (Z.log2 n))) as fuel. intros fuel.
    enough (∀ acc, safe acc = true → safe (dec_go fuel n acc) = true) by auto. revert n Hn.
    induction fuel as [|fuel IH]; intros n Hn acc Hacc; [done|]. cbn [dec_go].
    assert (∀ d, 0 <= d < 10 → safe_char (digit d) = true) as Hdig.
    { intros d Hd. unfold digit.
      assert (∃ k, (k < 10)%nat ∧ Z.to_nat d = k) as (k & Hk & ->) by (exists (Z.to_nat d); lia).
      do 10 (destruct k as [|k]; [done|]). lia. }
    case_decide.
    + cbn [safe]. by rewrite Hdig, Hacc by lia.
    + apply IH; [apply Z.div_pos; lia|]. cbn [safe].
      by rewrite Hdig, Hacc by (apply Z.mod_pos_bound; lia).
Qed.

(** C35: the command line reaches [rocpctl] as it was meant.  For metrics that
    are plain words and none of the options, the shell's words of the command
    [SetFields] composes are parsed by [rocpctl] into exactly the fields, the
    sampling interval and the delay of the client. *)
Theorem command_roundtrip fields (rpc : client) :
  0 <= SamplingInterval rpc < 2 ^ 64 → 0 <= PtlDelayMs rpc < 2 ^ 32 →
  Forall safe_word fields → Forall is_metric fields → fields ≠ [] →
  ∃ args, shell_words (cmd (SetFields fields rpc)) = "rocpctl" :: args ∧
    parse_args args [] default_duration default_ptl_delay =
      Options fields (SamplingInterval rpc) (PtlDelayMs rpc).
Proof.
  intros Hi Hp Hs Hm Hne. exists ("-d" :: dec (SamplingInterval rpc) :: "-p" :: dec (PtlDelayMs rpc) :: fields).
  split.
  - assert (cmd (SetFields fields rpc) = join " " ("rocpctl" :: "-d" :: dec (SamplingInterval rpc) ::
      "-p" :: dec (PtlDelayMs rpc) :: fields)) as ->.
    { by destruct fields. }
    apply shell_splits.
    do 2 (constructor; [by split|]). constructor; [apply safe_dec; lia|].
    constructor; [by split|]. by constructor; [apply safe_dec; lia|].
  - rewrite parse_args_spec by done || lia. f_equal. unfold u32. by rewrite wrap_id.
Qed.
End command.
End client.

(** ** Instances

    The messages are the JSON values of [Json], decoded by its parser. *)

Definition demo_unmarshal (s : string) : json + string :=
  match parse_json s with Some j => inl j | None => inr "invalid character" end.

Definition demo_client : ROCProfilerClient json :=
  SetFields ["SQ_WAVES"; "GPU_UTIL"]
    (SetPtlDelay 10 (SetSamplingInterval 1000 (SetEventEmitter (NewRocProfilerClient "rocp")))).

Abbreviation demo_poll := (GetMetrics (JObj []) demo_unmarshal).

Definition demo_fails : list (Z * Z * outcome) :=
  [(0, 1, Failed "exit status 255"); (2, 3, DeadlineExceeded); (4, 5, Output "{"); (6, 7, DeadlineExceeded)].

Definition demo_disabled : ROCProfilerClient json :=
  poll_all (JObj []) demo_unmarshal demo_fails demo_client.

Lemma demo_uses : rtc (use (JObj []) demo_unmarshal)
  (SetEventEmitter (NewRocProfilerClient "rocp")) demo_disabled.
Proof.
  eapply rtc_l; [apply (use_interval _ _ 1000)|]. eapply rtc_l; [apply (use_delay _ _ 10)|].
  eapply rtc_l; [apply (use_fields _ _ ["SQ_WAVES"; "GPU_UTIL"])|].
  eapply rtc_l; [apply (use_poll _ _ 0 1 (Failed "exit status 255"))|].
  eapply rtc_l; [apply (use_poll _ _ 2 3 DeadlineExceeded)|].
  eapply rtc_l; [apply (use_poll _ _ 4 5 (Output "{"))|].
  apply rtc_once. exact (use_poll _ _ 6 7 DeadlineExceeded _).
Defined.

Lemma disabled_reason_invariant_witness :
  IsDisabledOnFailure (SetFatalFailureState (NewRocProfilerClient (P:=json) "rocp")) = true ↔
  GetDisabledReason (SetFatalFailureState (NewRocProfilerClient (P:=json) "rocp")) ≠ "".
Proof.
  apply (disabled_reason_invariant "rocp"). apply rtc_once, locked_fatal.
Defined.

Lemma disabled_absorbing_witness :
  let c := (demo_poll 8 9 (Output "{}") demo_disabled).2 in
  IsDisabledOnFailure c = true ∧ runs c = runs demo_disabled ∧
  emitted c = emitted demo_disabled ∧ GetDisabledReason c = GetDisabledReason demo_disabled.
Proof.
  apply (disabled_absorbing (JObj []) demo_unmarshal demo_disabled).
  - vm_compute. reflexivity.
  - apply rtc_once, use_poll.
Defined.

Lemma event_once_witness :
  length (emitted demo_disabled) = if IsDisabledOnFailure demo_disabled then 1%nat else 0%nat.
Proof. exact (event_once (JObj []) demo_unmarshal "rocp" demo_disabled demo_uses). Defined.

Lemma threshold_exact_witness :
  (IsDisabledOnFailure demo_disabled = true ↔ (3 <= 4)%nat) ∧
  runs demo_disabled = replicate 3 "rocpctl -d 1000 -p 10 SQ_WAVES GPU_UTIL".
Proof.
  apply (threshold_exact (JObj []) demo_unmarshal demo_fails demo_client).
  - repeat constructor.
  - reflexivity.
  - reflexivity.
  - reflexivity.
  - discriminate.
Defined.

Lemma cache_correct_witness :
  let c := (demo_poll 0 100 (Output "{}") demo_client).2 in
  demo_poll 200 300 (Output "never read") c = (inl (JObj []), c).
Proof.
  pose proof (cache_correct (JObj []) demo_unmarshal 0 100 (Output "{}") demo_client) as Hc.
  apply (proj2 (proj2 Hc)); vm_compute; reflexivity.
Defined.

(** Splitting at blanks. *)
Fixpoint split_blanks (cur : string) (s : string) : list string :=
  match s with
  | EmptyString => match cur with EmptyString => [] | _ => [cur] end
  | String c s =>
      if decide (c = " "%char) then
        match cur with EmptyString => split_blanks "" s | _ => cur :: split_blanks "" s end
      else split_blanks (cur +:+ String c "") s
  end.

Lemma split_blanks_word w : ∀ cur rest, safe w = true → cur +:+ w ≠ "" →
  split_blanks cur (w +:+ String " " rest) = (cur +:+ w) :: split_blanks "" rest.
Proof.
  induction w as [|c w IH]; intros cur rest Hw Hne.
  - rewrite string_app_nil_r in *. cbn. by destruct cur.
  - cbn [safe] in Hw. apply andb_prop in Hw as [Hc Hw].
    change ((String c w) +:+ String " " rest) with (String c (w +:+ String " " rest)).
    cbn [split_blanks]. rewrite decide_False by (by intros ->).
    rewrite IH; [by rewrite string_app_assoc|done|].
    rewrite string_app_assoc. by destruct cur.
Qed.

Lemma split_blanks_last w : ∀ cur, safe w = true → cur +:+ w ≠ "" → split_blanks cur w = [cur +:+ w].
Proof.
  induction w as [|c w IH]; intros cur Hw Hne.
  - rewrite string_app_nil_r in *. cbn. by destruct cur.
  - cbn [safe] in Hw. apply andb_prop in Hw as [Hc Hw].
    cbn [split_blanks]. rewrite decide_False by (by intros ->).
    rewrite IH; [by rewrite string_app_assoc|done|].
    rewrite string_app_assoc. by destruct cur.
Qed.

Lemma split_blanks_splits ws : Forall safe_word ws → split_blanks "" (join " " ws) = ws.
Proof.
  induction 1 as [|w ws [Hne Hw] Hws IH]; [done|]. cbn [join].
  destruct ws as [|w' ws]; [by apply (split_blanks_last w "")|].
  change (w +:+ " " +:+ join " " (w' :: ws)) with (w +:+ String " " (join " " (w' :: ws))).
  rewrite (split_blanks_word w "" _ Hw Hne). by rewrite IH.
Qed.

Lemma command_roundtrip_witness :
  ∃ args, split_blanks "" (cmd demo_client) = "rocpctl" :: args ∧
    parse_args args [] default_duration default_ptl_delay =
      Options ["SQ_WAVES"; "GPU_UTIL"] 1000 10.
Proof.
  apply (command_roundtrip (split_blanks "") split_blanks_splits ["SQ_WAVES"; "GPU_UTIL"]
    (SetPtlDelay 10 (SetSamplingInterval 1000
       (SetEventEmitter (NewRocProfilerClient (P:=json) "rocp"))))).
  - cbn. lia.
  - cbn. lia.
  - repeat constructor; done.
  - repeat constructor; unfold is_metric; set_solver.
  - discriminate.
Defined.
