(* ===== verification/ProfilerMetrics.v ===== *)
(** From the text [rocpctl] prints to the numbers the exporter publishes:
    the messages of [src/pkg/amdgpu/proto/rocprofiler.proto] as [json.Unmarshal]
    fills them, and [getProfilerMetrics], [isProfilerEnabled] and
    [strDoubleToFloat] of [src/pkg/amdgpu/gpuagent/].

    [strconv.ParseFloat] is an argument: the theorem is about which text it
    receives and where its result ends up. *)

From S2P Require Import Prelude RocpSdk Format Sampler Packing Json RunSample Document RocpClient.
Local Open Scope Z_scope.

(** ** Messages *)

Record MetricValue : Type := MkMetricValue { Field : string; Value : string }.

Record GpuMetric : Type := MkGpuMetric {
  GpuId : string;
  Metrics : list MetricValue;
  DrmRenderId : string;
  LogicalNodeId : string;
}.

Definition GpuProfiler : Type := list GpuMetric.

(** ** [json.Unmarshal]

    A member that is missing leaves the zero value, an unknown member is
    skipped, the last of several counts; a value of another kind is an
    error ([None]). *)

Definition member (k : string) (l : list (string * json)) : option json :=
  snd <$> last (filter (λ p, p.1 = k) l).

Definition string_member (k : string) (l : list (string * json)) : option string :=
  match member k l with
  | None => Some ""
  | Some (JStr s) => Some s
  | Some _ => None
  end.

Definition array_member {A} (f : json → option A) (k : string) (l : list (string * json))
    : option (list A) :=
  match member k l with
  | None => Some []
  | Some (JArr vs) => mapM f vs
  | Some _ => None
  end.

Definition decode_value (j : json) : option MetricValue :=
  match j with
  | JObj l => f ← string_member "Field" l; v ← string_member "Value" l; Some (MkMetricValue f v)
  | _ => None
  end.

Definition decode_gpu (j : json) : option GpuMetric :=
  match j with
  | JObj l =>
      id ← string_member "GpuId" l;
      ms ← array_member decode_value "Metrics" l;
      drm ← string_member "DrmRenderId" l;
      node ← string_member "LogicalNodeId" l;
      Some (MkGpuMetric id ms drm node)
  | _ => None
  end.

Definition decode_profiler (j : json) : option GpuProfiler :=
  match j with
  | JObj l => array_member decode_gpu "GpuMetrics" l
  | _ => None
  end.

Definition Unmarshal (text : string) : GpuProfiler + string :=
  match parse_json text with
  | None => inr "invalid character"
  | Some j =>
      match decode_profiler j with
      | None => inr "json: cannot unmarshal"
      | Some gpus => inl gpus
      end
  end.

Section metrics.
Context {F : Type} (zero : F) (ParseFloat : string → option F).

Definition strDoubleToFloat (strValue : string) : F := default zero (ParseFloat strValue).

(** The loop over the metrics of a GPU, and the one over the GPUs. *)
Definition gpu_values (g : GpuMetric) : gmap string F :=
  foldl (λ m v, <[Field v := strDoubleToFloat (Value v)]> m) ∅ (Metrics g).

Definition profiler_values (gpus : GpuProfiler) : gmap string (gmap string F) :=
  foldl (λ m g, <[DrmRenderId g := gpu_values g]> m) ∅ gpus.

(** [rpc] is [None] when there is no client. *)
Definition isProfilerEnabled (enableGPUMonitoring enableProfileMetrics : bool)
    (rpc : option (ROCProfilerClient GpuProfiler)) : bool :=
  if enableGPUMonitoring then
    match rpc with
    | None => false
    | Some rpc => enableProfileMetrics && negb (IsDisabledOnFailure rpc)
    end
  else false.

(** The metrics and the error, if any. *)
Definition getProfilerMetrics (enableGPUMonitoring enableProfileMetrics : bool)
    (now later : Z) (o : outcome) (rpc : option (ROCProfilerClient GpuProfiler))
    : gmap string (gmap string F) * option string * option (ROCProfilerClient GpuProfiler) :=
  if isProfilerEnabled enableGPUMonitoring enableProfileMetrics rpc then
    match rpc with
    | None => (∅, None, None)
    | Some rpc =>
        let '(r, rpc) := GetMetrics (P:=GpuProfiler) [] Unmarshal now later o rpc in
        match r with
        | inr err => (∅, Some err, Some rpc)
        | inl gpus => (profiler_values gpus, None, Some rpc)
        end
    end
  else (∅, None, rpc).
End metrics.

(** ** The document, decoded *)

Definition value_message (e : string * double) : MetricValue :=
  MkMetricValue e.1 (fmt_double e.2).

Definition gpu_message (g : rocprofiler_agent_v0_t * gmap string double) : GpuMetric :=
  MkGpuMetric (dec (gpu_id g.1)) (value_message <$> entries g.2) (dec (drm_render_minor g.1))
    (dec (logical_node_id g.1)).

Lemma mapM_map {A B C} (f : B → option C) (g : A → B) (h : A → C) l :
  (∀ x, f (g x) = Some (h x)) → mapM f (g <$> l) = Some (h <$> l).
Proof. intros Hf. apply mapM_Some_2. induction l; by constructor. Qed.

Lemma decode_entry e : decode_value (entry_json e) = Some (value_message e).
Proof. done. Qed.

Lemma decode_gpu_json g : decode_gpu (gpu_json g) = Some (gpu_message g).
Proof.
  change (decode_gpu (gpu_json g)) with
    (ms ← mapM decode_value (entry_json <$> entries g.2);
     Some (MkGpuMetric (dec (gpu_id g.1)) ms (dec (drm_render_minor g.1))
       (dec (logical_node_id g.1)))).
  by rewrite (mapM_map decode_value entry_json value_message) by apply decode_entry.
Qed.

Lemma Unmarshal_document gpus : Forall (λ g, printable g.2) gpus →
  Unmarshal (print_document gpus) = inl (gpu_message <$> gpus).
Proof.
  intros Hg. unfold Unmarshal. rewrite document_parses by done.
  change (decode_profiler (document_json gpus)) with (mapM decode_gpu (gpu_json <$> gpus)).
  by rewrite (mapM_map decode_gpu gpu_json gpu_message) by apply decode_gpu_json.
Qed.

Lemma insert_all_none {A V} (key : A → string) (val : A → V) l : ∀ (m : gmap string V) k,
  k ∉ key <$> l → foldl (λ m y, <[key y := val y]> m) m l !! k = m !! k.
Proof.
  induction l as [|y l IH]; intros m k Hk; [done|]. rewrite fmap_cons in Hk.
  apply not_elem_of_cons in Hk as [Hne Hk]. cbn [foldl]. rewrite IH by done.
  by rewrite lookup_insert_ne.
Qed.

(** Values put into a map under distinct keys are found again. *)
Lemma insert_all_lookup {A V} (key : A → string) (val : A → V) l : ∀ (m : gmap string V) x,
  NoDup (key <$> l) → x ∈ l →
  foldl (λ m y, <[key y := val y]> m) m l !! key x = Some (val x).
Proof.
  induction l as [|y l IH]; intros m x Hnd Hx; [by apply not_elem_of_nil in Hx|].
  rewrite fmap_cons in Hnd. apply NoDup_cons in Hnd as [Hy Hnd].
  apply elem_of_cons in Hx as [->|Hx]; [|by apply IH]. cbn [foldl].
  rewrite insert_all_none by done. by rewrite lookup_insert, decide_True.
Qed.

(** ** End to end *)

Section end_to_end.
Context {F : Type} (zero : F) (ParseFloat : string → option F).

Abbreviation to_float := (strDoubleToFloat zero ParseFloat).

Lemma entries_keys m : (entries m).*1 ≡ₚ (map_to_list m).*1.
Proof. by rewrite entries_perm. Qed.

Lemma gpu_values_message (g : rocprofiler_agent_v0_t * gmap string double) name :
  gpu_values zero ParseFloat (gpu_message g) !! name =
  (λ v, to_float (fmt_double v)) <$> g.2 !! name.
Proof.
  unfold gpu_values. cbn [Metrics gpu_message].
  assert (NoDup (Field <$> (value_message <$> entries g.2))) as Hnd.
  { rewrite <- list_fmap_compose. change (Field ∘ value_message) with (fst (A:=string) (B:=double)).
    rewrite entries_keys. apply NoDup_fst_map_to_list. }
  destruct (g.2 !! name) as [v|] eqn:Hv.
  - assert (value_message (name, v) ∈ value_message <$> entries g.2) as Hin.
    { apply list_elem_of_fmap_2. rewrite entries_perm. by apply elem_of_map_to_list. }
    by rewrite (insert_all_lookup Field (λ w, to_float (Value w)) _ ∅ _ Hnd Hin).
  - rewrite insert_all_none; [by rewrite lookup_empty|].
    rewrite <- list_fmap_compose. change (Field ∘ value_message) with (fst (A:=string) (B:=double)).
    rewrite entries_keys. intros ([k v] & -> & Hk)%list_elem_of_fmap.
    apply elem_of_map_to_list in Hk. cbn in Hv. congruence.
Qed.

Lemma drm_keys_distinct (gpus : list (rocprofiler_agent_v0_t * gmap string double)) :
  Forall (λ g, 0 <= drm_render_minor g.1) gpus → NoDup ((λ g, drm_render_minor g.1) <$> gpus) →
  NoDup (DrmRenderId <$> (gpu_message <$> gpus)).
Proof.
  intros Hpos. induction Hpos as [|g gpus Hg Hgpus IH]; intros Hnd; [constructor|].
  rewrite !fmap_cons in *. apply NoDup_cons in Hnd as [Hn Hnd]. apply NoDup_cons.
  split; [|by apply IH]. rewrite <- list_fmap_compose. intros (h & He & Hh)%list_elem_of_fmap.
  apply dec_nonneg_inj in He; [|done|].
  - apply Hn. rewrite He. by apply (list_elem_of_fmap_2 (λ g, drm_render_minor g.1)).
  - rewrite Forall_forall in Hgpus. by apply Hgpus.
Qed.

(** C34: what [rocpctl] prints is what the exporter publishes.  For an enabled
    client without cached metrics, a run that prints the document of some
    GPUs with distinct render ids is decoded without an error: the exporter's
    map has exactly the render ids of these GPUs as keys, each with exactly
    the counters of that GPU, and each value is the float read from the
    printed value of the counter.  The metrics are cached and the failure
    count is 0. *)
Theorem published_metrics (rpc : ROCProfilerClient GpuProfiler) gpus now later :
  IsDisabledOnFailure rpc = false → MetricFields rpc ≠ [] →
  cachedMetrics (pCache rpc) = None →
  Forall (λ g, printable g.2) gpus → Forall (λ g, 0 <= drm_render_minor g.1) gpus →
  NoDup ((λ g : rocprofiler_agent_v0_t * gmap string double, drm_render_minor g.1) <$> gpus) →
  ∃ m rpc',
    getProfilerMetrics zero ParseFloat true true now later (Output (print_document gpus)) (Some rpc)
      = (m, None, Some rpc') ∧
    cachedMetrics (pCache rpc') = Some (gpu_message <$> gpus) ∧
    consecutiveFailures (pCache rpc') = 0 ∧
    (∀ agent values, (agent, values) ∈ gpus →
       ∃ m', m !! dec (drm_render_minor agent) = Some m' ∧
         ∀ name, m' !! name = (λ v, to_float (fmt_double v)) <$> values !! name) ∧
    (∀ k, is_Some (m !! k) → k ∈ (λ g, dec (drm_render_minor g.1)) <$> gpus).
Proof.
  intros Hd Hf Hc Hpr Hpos Hnd.
  eexists (profiler_values zero ParseFloat (gpu_message <$> gpus)), _. split.
  { unfold getProfilerMetrics, isProfilerEnabled. rewrite Hd. cbn [negb andb].
    unfold GetMetrics, cacheMetrics. rewrite Hc. unfold getMetrics.
    rewrite Hd, decide_False, Unmarshal_document by done. reflexivity. }
  split; [done|]. split; [done|]. split.
  - intros agent values Hin. exists (gpu_values zero ParseFloat (gpu_message (agent, values))).
    split; [|intros name; apply gpu_values_message].
    apply (insert_all_lookup DrmRenderId (gpu_values zero ParseFloat) (gpu_message <$> gpus) ∅
      (gpu_message (agent, values))); [by apply drm_keys_distinct|by apply list_elem_of_fmap_2].
  - intros k [m' Hm]. destruct (decide (k ∈ DrmRenderId <$> (gpu_message <$> gpus))) as [Hk|Hk].
    + by rewrite <- list_fmap_compose in Hk.
    + unfold profiler_values in Hm. by rewrite insert_all_none, lookup_empty in Hm.
Qed.
End end_to_end.

(** The float read is the text itself. *)
Lemma published_metrics_witness :
  ∃ m rpc',
    getProfilerMetrics "" Some true true 0 1 (Output (print_document demo_gpus))
      (Some (SetFields ["SQ_WAVES"] (NewRocProfilerClient "rocp"))) = (m, None, Some rpc') ∧
    m !! "128" = Some (<["SQ_WAVES" := "3"]> (<["GPU_UTIL" := "2.5"]> ∅)).
Proof.
  destruct (published_metrics "" Some (SetFields ["SQ_WAVES"] (NewRocProfilerClient "rocp"))
    demo_gpus 0 1) as (m & rpc' & Hrun & _ & _ & Hm & _).
  - reflexivity.
  - discriminate.
  - reflexivity.
  - repeat constructor; cbn [snd].
    + repeat apply map_Forall_insert_2; try reflexivity. apply map_Forall_empty.
    + apply map_Forall_empty.
  - repeat constructor; cbn; lia.
  - apply (bool_decide_unpack _). vm_compute. exact I.
  - exists m, rpc'. split; [exact Hrun|].
    destruct (Hm _ _ (list_elem_of_here _ _)) as (m' & Hm1 & Hm2).
    change (dec (drm_render_minor _)) with "128" in Hm1. rewrite Hm1. f_equal.
    apply map_eq. intros name. rewrite Hm2, <- lookup_fmap, !fmap_insert, fmap_empty.
    reflexivity.
Defined.
