(* ===== verification/GoStd.v ===== *)
(** What the exporter uses of Go's standard library on strings: prefixes and
    suffixes, [strings.ToLower], [strings.Split] and [strings.ReplaceAll] with a
    separator of one byte, [strconv.Atoi], [strconv.ParseUint].

    Strings are byte strings.  [ToLower] is the one on ASCII text; the program
    applies it to identifiers of its own and to PCI addresses, which are. *)

From S2P Require Import Prelude Format.
From Stdlib Require Import Ascii.
Local Open Scope Z_scope.

(** ** Prefixes and suffixes *)

Fixpoint strip_prefix (p s : string) : option string :=
  match p, s with
  | EmptyString, _ => Some s
  | String c p, String d s => if decide (c = d) then strip_prefix p s else None
  | String _ _, EmptyString => None
  end.

Fixpoint strip_suffix (suf s : string) : option string :=
  if decide (s = suf) then Some ""
  else match s with
       | EmptyString => None
       | String c s => String c <$> strip_suffix suf s
       end.

Definition HasPrefix (s p : string) : bool := bool_decide (is_Some (strip_prefix p s)).
Definition HasSuffix (s suf : string) : bool := bool_decide (is_Some (strip_suffix suf s)).
Definition TrimPrefix (s p : string) : string := default s (strip_prefix p s).

Lemma string_app_inj_l (a b c : string) : a +:+ b = a +:+ c → b = c.
Proof. induction a as [|x a IH]; [done|]. intros [= H]. auto. Qed.

Lemma string_app_inj_r (a b c : string) : a +:+ c = b +:+ c → a = b.
Proof.
  revert b. induction a as [|x a IH]; intros [|y b] H; [done| | |].
  - apply (f_equal String.length) in H. rewrite !string_app_length in H. cbn in H. lia.
  - apply (f_equal String.length) in H. rewrite !string_app_length in H. cbn in H. lia.
  - injection H as -> H. f_equal. by apply IH.
Qed.

Lemma strip_prefix_Some p s t : strip_prefix p s = Some t ↔ s = p +:+ t.
Proof.
  revert s. induction p as [|c p IH]; intros s.
  - split; [by intros [= ->]|by intros ->].
  - destruct s as [|d s]; [by split|]. cbn [strip_prefix]. case_decide as Hc.
    + subst d. rewrite IH. split; [by intros ->|by intros [= ->]].
    + split; [done|intros [= ? ?]; congruence].
Qed.

Lemma strip_suffix_Some suf s t : strip_suffix suf s = Some t ↔ s = t +:+ suf.
Proof.
  revert t. induction s as [|c s IH]; intros t; cbn [strip_suffix]; case_decide as Hs.
  - subst suf. split; [by intros [= <-]|]. destruct t; done.
  - split; [done|]. destruct t; [|done]. intros H. change (""%string = suf) in H. congruence.
  - subst suf. split; [by intros [= <-]|]. intros H.
    change (String c s) with ("" +:+ String c s) in H at 1. by apply string_app_inj_r in H as <-.
  - rewrite fmap_Some. setoid_rewrite IH. split.
    + by intros (t' & -> & ->).
    + destruct t as [|d t]; intros H; [exfalso; apply Hs, H|].
      injection H as -> ->. eauto.
Qed.

Lemma HasPrefix_spec s p : HasPrefix s p = true ↔ ∃ t, s = p +:+ t.
Proof. unfold HasPrefix. rewrite bool_decide_eq_true. unfold is_Some. by setoid_rewrite strip_prefix_Some. Qed.

Lemma HasSuffix_spec s suf : HasSuffix s suf = true ↔ ∃ t, s = t +:+ suf.
Proof. unfold HasSuffix. rewrite bool_decide_eq_true. unfold is_Some. by setoid_rewrite strip_suffix_Some. Qed.

(** ** Bytes of a string *)

Fixpoint string_map (f : ascii → ascii) (s : string) : string :=
  match s with EmptyString => "" | String c s => String (f c) (string_map f s) end.

Fixpoint string_forall (f : ascii → bool) (s : string) : bool :=
  match s with EmptyString => true | String c s => f c && string_forall f s end.

Lemma string_forall_app f a b : string_forall f (a +:+ b) = string_forall f a && string_forall f b.
Proof.
  induction a as [|c a IH]; [done|]. change (String c a +:+ b) with (String c (a +:+ b)).
  cbn [string_forall]. by rewrite IH, andb_assoc.
Qed.

Definition lower_byte (c : ascii) : ascii :=
  let n := nat_of_ascii c in
  if Nat.leb 65 n && Nat.leb n 90 then ascii_of_nat (n + 32) else c.

Definition ToLower : string → string := string_map lower_byte.

(** [strings.ReplaceAll] of one byte by another. *)
Definition ReplaceByte (a b : ascii) : string → string :=
  string_map (λ c, if decide (c = a) then b else c).

Lemma lower_byte_idemp c : lower_byte (lower_byte c) = lower_byte c.
Proof. by destruct c as [[] [] [] [] [] [] [] []]. Qed.

Lemma string_map_map f g s : string_map f (string_map g s) = string_map (f ∘ g) s.
Proof. induction s as [|c s IH]; [done|]. cbn [string_map]. by rewrite IH. Qed.

Lemma string_map_ext f g s : (∀ c, f c = g c) → string_map f s = string_map g s.
Proof. intros H. induction s as [|c s IH]; [done|]. cbn [string_map]. by rewrite H, IH. Qed.

Lemma ToLower_idemp s : ToLower (ToLower s) = ToLower s.
Proof. unfold ToLower. rewrite string_map_map. apply string_map_ext, lower_byte_idemp. Qed.

(** ** [strings.Split] with a separator of one byte *)

Fixpoint Split (sep : ascii) (s : string) : list string :=
  match s with
  | EmptyString => [""]
  | String c s =>
      if decide (c = sep) then "" :: Split sep s
      else match Split sep s with
           | [] => [String c ""]
           | w :: ws => String c w :: ws
           end
  end.

Fixpoint intercalate (sep : ascii) (l : list string) : string :=
  match l with
  | [] => ""
  | [x] => x
  | x :: l => x +:+ String sep (intercalate sep l)
  end.

Lemma Split_nonempty sep s : Split sep s ≠ [].
Proof. destruct s as [|c s]; cbn [Split]; [done|]. case_decide; [done|]. by destruct (Split sep s). Qed.

Lemma Split_plain sep s : string_forall (λ c, bool_decide (c ≠ sep)) s = true → Split sep s = [s].
Proof.
  induction s as [|c s IH]; [done|]. cbn [string_forall Split]. rewrite andb_true_iff, bool_decide_eq_true.
  intros [Hc Hs]. rewrite decide_False by done. by rewrite (IH Hs).
Qed.

Lemma Split_app sep s t : string_forall (λ c, bool_decide (c ≠ sep)) s = true →
  Split sep (s +:+ String sep t) = s :: Split sep t.
Proof.
  induction s as [|c s IH]; cbn [string_forall].
  - intros _. change (Split sep (String sep t) = "" :: Split sep t). cbn [Split]. by rewrite decide_True.
  - rewrite andb_true_iff, bool_decide_eq_true. intros [Hc Hs].
    change (Split sep (String c (s +:+ String sep t)) = String c s :: Split sep t).
    cbn [Split]. rewrite decide_False by done. by rewrite (IH Hs).
Qed.

Lemma Split_intercalate sep l : l ≠ [] →
  Forall (λ s, string_forall (λ c, bool_decide (c ≠ sep)) s = true) l →
  Split sep (intercalate sep l) = l.
Proof.
  intros Hl Hf. induction Hf as [|x l Hx Hf IH]; [done|]. destruct l as [|y l].
  - by apply Split_plain.
  - change (intercalate sep (x :: y :: l)) with (x +:+ String sep (intercalate sep (y :: l))).
    rewrite Split_app by done. by rewrite IH.
Qed.

(** ** [strconv.Atoi]: an optional sign and decimal digits, in the range of a
    64-bit [int] *)

Definition all_digits (s : string) : bool :=
  bool_decide (s ≠ "") && string_forall (λ c, bool_decide (is_Some (digit_value c))) s.

Definition Atoi (s : string) : option Z :=
  let '(neg, ds) :=
    match s with
    | String c s' =>
        if decide (c = "-"%char) then (true, s')
        else if decide (c = "+"%char) then (false, s') else (false, s)
    | EmptyString => (false, "")
    end in
  if all_digits ds then
    let v := (read_digits 0 ds).1 in
    if neg then if decide (v <= 2 ^ 63) then Some (- v) else None
    else if decide (v < 2 ^ 63) then Some v else None
  else None.

Definition is_digit (c : ascii) : bool := bool_decide (is_Some (digit_value c)).

Lemma string_forall_impl (f g : ascii → bool) s :
  (∀ c, f c = true → g c = true) → string_forall f s = true → string_forall g s = true.
Proof.
  intros Hfg. induction s as [|c s IH]; [done|]. cbn [string_forall].
  intros [Hc Hs]%andb_prop. by rewrite (Hfg _ Hc), (IH Hs).
Qed.

Lemma dec_go_digits fuel : ∀ n acc, 0 <= n → string_forall is_digit acc = true →
  string_forall is_digit (dec_go fuel n acc) = true.
Proof.
  assert (Hd : ∀ d, 0 <= d < 10 → is_digit (digit d) = true).
  { intros d Hd. unfold is_digit. by rewrite digit_value_digit. }
  induction fuel as [|fuel IH]; intros n acc Hn Hacc; [done|]. cbn [dec_go]. case_decide.
  - cbn [string_forall]. by rewrite Hd, Hacc by lia.
  - apply IH; [apply Z.div_pos; lia|]. cbn [string_forall].
    by rewrite Hd, Hacc by (apply Z.mod_pos_bound; lia).
Qed.

Lemma dec_digits n : 0 <= n → string_forall is_digit (dec n) = true.
Proof.
  intros Hn. unfold dec. rewrite decide_False by lia. by apply dec_go_digits.
Qed.

(** No digit is the separator. *)
Lemma dec_no_sep n sep : 0 <= n → is_digit sep = false →
  string_forall (λ c, bool_decide (c ≠ sep)) (dec n) = true.
Proof.
  intros Hn Hs. eapply string_forall_impl; [|by apply dec_digits].
  intros c Hc. apply bool_decide_eq_true. intros ->. congruence.
Qed.

Lemma Atoi_dec n : 0 <= n < 2 ^ 63 → Atoi (dec n) = Some n.
Proof.
  intros Hn. pose proof (dec_digits n ltac:(lia)) as Hds.
  pose proof (dec_nonneg_read n "" ltac:(lia)) as Hr. rewrite string_app_nil_r in Hr.
  unfold dec in *. rewrite decide_False in * by lia. unfold dec_nonneg, dec_fuel in *.
  destruct (dec_go_head (Z.to_nat (Z.log2 n)) n "" ltac:(lia)) as (d & s & Hd & Hs).
  rewrite Hs in *. unfold Atoi.
  assert (digit d ≠ "-"%char ∧ digit d ≠ "+"%char) as [Hm Hp].
  { cbn [string_forall] in Hds. apply andb_prop in Hds as [Hds _].
    split; intros He; by rewrite He in Hds. }
  rewrite (decide_False (P := _ = "-"%char)), (decide_False (P := _ = "+"%char)) by done.
  unfold all_digits. rewrite bool_decide_eq_true_2 by done.
  change (string_forall _ (String (digit d) s)) with (string_forall is_digit (String (digit d) s)).
  rewrite Hds. cbn [andb]. rewrite Hr. cbn [read_digits fst]. by rewrite decide_True by lia.
Qed.

(** ** Upper case *)

Definition upper_byte (c : ascii) : ascii :=
  let n := nat_of_ascii c in
  if Nat.leb 97 n && Nat.leb n 122 then ascii_of_nat (n - 32) else c.

Definition ToUpper : string → string := string_map upper_byte.

Lemma lower_upper_byte c : lower_byte (upper_byte c) = lower_byte c.
Proof. by destruct c as [[] [] [] [] [] [] [] []]. Qed.

Lemma upper_lower_byte c : upper_byte (lower_byte c) = upper_byte c.
Proof. by destruct c as [[] [] [] [] [] [] [] []]. Qed.

Lemma ToLower_ToUpper s : ToLower (ToUpper s) = ToLower s.
Proof. unfold ToLower, ToUpper. rewrite string_map_map. apply string_map_ext, lower_upper_byte. Qed.

Lemma ToUpper_ToLower s : ToUpper (ToLower s) = ToUpper s.
Proof. unfold ToLower, ToUpper. rewrite string_map_map. apply string_map_ext, upper_lower_byte. Qed.
