(* ===== verification/NodeLabeller.v ===== *)
(** Node labels that report the health of devices: the labeller of
    [src/pkg/exporter/utils/node_labeller.go] and [UpdateHealthLabel] of
    [src/pkg/client/k8s.go], which brings the labels of the node up to date.

    A label [<prefix>.<device>.state] holds the state of an unhealthy device.
    The answers of the Kubernetes API to [Get] and [Update] are arguments. *)

From S2P Require Import Prelude GoStd.
From Stdlib Require Import Ascii.

Record NodeHealthLabellerConfig : Type := NewNodeHealthLabellerConfig { LabelPrefix : string }.

(** The names of [Health_HEALTHY] and [GPUHealth_HEALTHY], in lower case. *)
Definition HEALTHY : string := "healthy".
Definition UNHEALTHY : string := "unhealthy".

Definition newline : ascii := ascii_of_nat 10.

Section labeller.
Context (cfg : NodeHealthLabellerConfig).

Definition labelKey (deviceID : string) : string :=
  LabelPrefix cfg +:+ "." +:+ deviceID +:+ ".state".

(** [(.+)] matches a non-empty text without line breaks. *)
Definition extractDeviceID (label : string) : string :=
  match strip_prefix (LabelPrefix cfg +:+ ".") label ≫= strip_suffix ".state" with
  | Some id => if string_forall (λ c, bool_decide (c ≠ newline)) id then id else ""
  | None => ""
  end.

Definition is_health_label (key : string) : bool :=
  HasPrefix key (LabelPrefix cfg) && HasSuffix key ".state".

Definition ParseNodeHealthLabel (nodeLabels : gmap string string) : gmap string string :=
  map_fold (λ key value healthMap,
    if is_health_label key then
      let deviceID := extractDeviceID key in
      if decide (deviceID = "") then healthMap else <[deviceID := value]> healthMap
    else healthMap) ∅ nodeLabels.

Definition RemoveNodeHealthLabel (nodeLabels : gmap string string) : gmap string string :=
  filter (λ p, is_health_label p.1 = false) nodeLabels.

Definition AddNodeHealthLabel (healthMap nodeLabels : gmap string string) : gmap string string :=
  map_fold (λ deviceID state labels,
    if decide (deviceID = "" ∨ state = HEALTHY) then labels
    else <[labelKey deviceID := state]> labels) nodeLabels healthMap.
End labeller.

(** The result is an error, or no error; [written] the labels of the node
    handed to [Update], if it was called. *)
Record label_update : Type := LabelUpdate {
  update_err : option string;
  written : option (gmap string string);
}.

Definition UpdateHealthLabel (nodelabellerCfg : option NodeHealthLabellerConfig)
    (get : gmap string string + string) (update : option string)
    (newHealthMap : gmap string string) : label_update :=
  match nodelabellerCfg with
  | None => LabelUpdate (Some "nodelabeller config cannot be nil") None
  | Some cfg =>
      match get with
      | inr err => LabelUpdate (Some err) None
      | inl labels =>
          let oldHealthMap := ParseNodeHealthLabel cfg labels in
          if decide (oldHealthMap = newHealthMap) then LabelUpdate None None
          else LabelUpdate update
                 (Some (AddNodeHealthLabel cfg newHealthMap (RemoveNodeHealthLabel cfg labels)))
      end
  end.

(** The labels of the node after an update: what was written, if [Update]
    succeeded. *)
Definition labels_after (labels : gmap string string) (u : label_update) : gmap string string :=
  match update_err u, written u with
  | None, Some l => l
  | _, _ => labels
  end.

(** ** Specification

    A map of device states that labels can represent: what
    [sendNodeLabelUpdate] hands over, healthy devices left out. *)

Definition device_ok (id : string) : Prop :=
  id ≠ "" ∧ string_forall (λ c, bool_decide (c ≠ newline)) id = true.

#[export] Instance device_ok_dec id : Decision (device_ok id).
Proof. unfold device_ok. apply _. Defined.

Definition reportable (m : gmap string string) : Prop :=
  map_Forall (λ id state, device_ok id ∧ state ≠ HEALTHY) m.

#[export] Instance reportable_dec m : Decision (reportable m).
Proof. unfold reportable. apply _. Defined.

Section proofs.
Context (cfg : NodeHealthLabellerConfig).

Lemma labelKey_inj id id' : labelKey cfg id = labelKey cfg id' → id = id'.
Proof.
  unfold labelKey. intros H. do 2 apply string_app_inj_l in H. by apply string_app_inj_r in H.
Qed.

Lemma labelKey_health id : is_health_label cfg (labelKey cfg id) = true.
Proof.
  unfold is_health_label. rewrite andb_true_iff. split.
  - apply HasPrefix_spec. by eexists.
  - apply HasSuffix_spec. exists (LabelPrefix cfg +:+ "." +:+ id). unfold labelKey.
    by rewrite !string_app_assoc.
Qed.

Lemma extractDeviceID_labelKey id : device_ok id → extractDeviceID cfg (labelKey cfg id) = id.
Proof.
  intros [_ Hn]. unfold extractDeviceID.
  assert (strip_prefix (LabelPrefix cfg +:+ ".") (labelKey cfg id) = Some (id +:+ ".state")) as ->.
  { apply strip_prefix_Some. unfold labelKey. by rewrite string_app_assoc. }
  cbn [mbind option_bind].
  assert (strip_suffix ".state" (id +:+ ".state") = Some id) as -> by by apply strip_suffix_Some.
  by rewrite Hn.
Qed.

Lemma extractDeviceID_Some key id : extractDeviceID cfg key = id → id ≠ "" →
  device_ok id ∧ key = labelKey cfg id.
Proof.
  unfold extractDeviceID. intros H Hid.
  destruct (strip_prefix _ key) as [r|] eqn:Hp; cbn [mbind option_bind] in H; [|congruence].
  destruct (strip_suffix _ r) as [i|] eqn:Hs; [|congruence].
  destruct (string_forall _ i) eqn:Hn; [|congruence]. subst i.
  apply strip_prefix_Some in Hp. apply strip_suffix_Some in Hs. subst. split; [done|].
  unfold labelKey. by rewrite string_app_assoc.
Qed.

(** The states read back are exactly those of well-formed labels, whatever
    the order of iteration. *)
Lemma Parse_lookup labels id v :
  ParseNodeHealthLabel cfg labels !! id = Some v ↔
  device_ok id ∧ labels !! labelKey cfg id = Some v.
Proof.
  unfold ParseNodeHealthLabel. revert id v. apply (map_fold_weak_ind (λ r m, ∀ id v,
    r !! id = Some v ↔ device_ok id ∧ m !! labelKey cfg id = Some v)).
  { intros. rewrite !lookup_empty. naive_solver. }
  intros key value m r Hm IH id v.
  assert (Hskip : (device_ok id → key ≠ labelKey cfg id) → r !! id = Some v ↔
    device_ok id ∧ <[key:=value]> m !! labelKey cfg id = Some v).
  { intros Hk. rewrite IH. split; intros [Hid Hl]; (split; [done|]).
    - rewrite lookup_insert_ne; auto.
    - rewrite lookup_insert_ne in Hl; auto. }
  destruct (is_health_label cfg key) eqn:Hh.
  2:{ apply Hskip. intros Hid ->. by rewrite labelKey_health in Hh. }
  case_decide as He.
  { apply Hskip. intros Hid ->. rewrite extractDeviceID_labelKey in He by done. by destruct Hid. }
  destruct (extractDeviceID_Some key _ eq_refl He) as [Hok Hkey].
  destruct (decide (extractDeviceID cfg key = id)) as [<-|Hne].
  - rewrite lookup_insert_eq, <- Hkey, lookup_insert_eq. naive_solver.
  - rewrite lookup_insert_ne by done. apply Hskip. intros Hid ->.
    by rewrite extractDeviceID_labelKey in Hne.
Qed.

Lemma Add_lookup_other healthMap labels key :
  (∀ id, key ≠ labelKey cfg id) → AddNodeHealthLabel cfg healthMap labels !! key = labels !! key.
Proof.
  intros Hk. unfold AddNodeHealthLabel. apply (map_fold_weak_ind (λ r _, r !! key = labels !! key)).
  { done. }
  intros id st m r _ IH. case_decide; [done|]. by rewrite lookup_insert_ne.
Qed.

Lemma Add_lookup healthMap labels id : reportable healthMap →
  AddNodeHealthLabel cfg healthMap labels !! labelKey cfg id =
  match healthMap !! id with Some s => Some s | None => labels !! labelKey cfg id end.
Proof.
  unfold AddNodeHealthLabel. apply (map_fold_weak_ind (λ r m, reportable m →
    r !! labelKey cfg id = match m !! id with Some s => Some s | None => labels !! labelKey cfg id end)).
  { by rewrite lookup_empty. }
  intros i s m r Hm IH Hr.
  assert (reportable m) as Hr' by (apply map_Forall_insert_1_2 in Hr; done).
  apply map_Forall_insert_1_1 in Hr as [[Hi _] Hs]. rewrite decide_False by naive_solver.
  destruct (decide (i = id)) as [->|Hne].
  - by rewrite !lookup_insert_eq.
  - rewrite !lookup_insert_ne; [by apply IH|done|]. intros He. by apply labelKey_inj in He.
Qed.

Lemma Remove_lookup labels key :
  RemoveNodeHealthLabel cfg labels !! key =
  if is_health_label cfg key then None else labels !! key.
Proof.
  unfold RemoveNodeHealthLabel. destruct (is_health_label cfg key) eqn:Hh.
  - apply map_lookup_filter_None. right. cbn. intros v _. by rewrite Hh.
  - destruct (labels !! key) eqn:Hl.
    + by apply map_lookup_filter_Some.
    + apply map_lookup_filter_None. by left.
Qed.

(** Reading back what is written, and what is left alone. *)
Lemma Parse_Add_Remove m labels : reportable m →
  ParseNodeHealthLabel cfg (AddNodeHealthLabel cfg m (RemoveNodeHealthLabel cfg labels)) = m.
Proof.
  intros Hr. apply map_eq. intros id. apply option_eq. intros v.
  rewrite Parse_lookup, Add_lookup, Remove_lookup, labelKey_health by done. split.
  - intros [_ H]. by destruct (m !! id).
  - intros H. split; [|by rewrite H]. by apply (Hr id v).
Qed.

Lemma Add_Remove_other m labels key : is_health_label cfg key = false →
  AddNodeHealthLabel cfg m (RemoveNodeHealthLabel cfg labels) !! key = labels !! key.
Proof.
  intros Hk. rewrite Add_lookup_other.
  - by rewrite Remove_lookup, Hk.
  - intros id ->. by rewrite labelKey_health in Hk.
Qed.
End proofs.

Lemma health_labels_written cfg labels update m (Hm : reportable m) :
  let u := UpdateHealthLabel (Some cfg) (inl labels) update m in
  let labels' := labels_after labels u in
  (update = None →
     ParseNodeHealthLabel cfg labels' = m ∧
     UpdateHealthLabel (Some cfg) (inl labels') update m = LabelUpdate None None) ∧
  (∀ key, is_health_label cfg key = false → labels' !! key = labels !! key) ∧
  (∀ err, update = Some err → labels' = labels ∧
     (update_err u = None ↔ ParseNodeHealthLabel cfg labels = m)).
Proof.
  cbv zeta. cbn [UpdateHealthLabel]. case_decide as Ho.
  - cbn [labels_after update_err written]. rewrite decide_True by done. naive_solver.
  - unfold labels_after. cbn [update_err written]. split_and!.
    + intros ->. pose proof (Parse_Add_Remove cfg m labels Hm) as Hp. split; [done|].
      by rewrite decide_True.
    + intros key Hk. destruct update; [done|]. by apply Add_Remove_other.
    + intros err ->. split; [done|]. split; [done|]. intros ?. done.
Qed.

(** Bringing the labels of the node up to date with a map of unhealthy
    devices: afterwards the labels read back as exactly that map, every label
    that is not a health label is unchanged, and a second update with the
    same map writes nothing; if [Get] or [Update] fails the error is
    returned and the labels are the old ones. *)
Theorem health_labels_updated cfg labels update m (Hm : reportable m) :
  let u := UpdateHealthLabel (Some cfg) (inl labels) update m in
  let labels' := labels_after labels u in
  (update = None →
     ParseNodeHealthLabel cfg labels' = m ∧
     UpdateHealthLabel (Some cfg) (inl labels') update m = LabelUpdate None None) ∧
  (∀ key, is_health_label cfg key = false → labels' !! key = labels !! key) ∧
  (∀ err, update = Some err → labels' = labels ∧
     (update_err u = None ↔ ParseNodeHealthLabel cfg labels = m)).
Proof. by apply health_labels_written. Qed.

Definition witness_labels : gmap string string :=
  {[ "kubernetes.io/hostname" := "n1"; "metricsexporter.amd.com.gpu.3.state" := "unhealthy" ]}.

Lemma health_labels_updated_witness :
  let cfg := NewNodeHealthLabellerConfig "metricsexporter.amd.com.gpu" in
  let m := {[ "0" := UNHEALTHY ]} in
  ParseNodeHealthLabel cfg
    (labels_after witness_labels (UpdateHealthLabel (Some cfg) (inl witness_labels) None m)) = m ∧
  labels_after witness_labels (UpdateHealthLabel (Some cfg) (inl witness_labels) None m) =
    {[ "kubernetes.io/hostname" := "n1"; "metricsexporter.amd.com.gpu.0.state" := "unhealthy" ]}.
Proof.
  intros cfg m. split.
  - assert (Hm : reportable m) by (apply (bool_decide_unpack _); vm_compute; exact I).
    destruct (health_labels_updated cfg witness_labels None m Hm) as [H _].
    by apply H.
  - vm_compute. reflexivity.
Defined.
