(* ===== verification/ExporterUtils.v ===== *)
(** Readings and their sentinels: [src/pkg/exporter/utils/utils.go] and
    [error.go].  The agent reports a counter it does not have as the greatest
    number of the counter's type; these functions decide which readings are
    published.

    An [interface{}] argument is a tagged value.  [float64(x)] of an unsigned
    integer is an integer again, so it is a [Z]: [x] rounded to 53 significant
    bits, ties to even.  A conversion of a float outside the range of the
    target is left to the implementation by the language: [implementation]. *)

From S2P Require Import Prelude RocpSdk Format GoStd.
Local Open Scope Z_scope.

(** ** Numbers *)

Definition MaxUint8 : Z := 255.
Definition MaxUint16 : Z := 65535.
Definition MaxUint32 : Z := 4294967295.
Definition MaxUint64 : Z := 18446744073709551615.

Definition float64_of_uint (x : Z) : Z :=
  if decide (x < 2 ^ 53) then x
  else let k := 2 ^ (Z.log2 x - 52) in round_half_even x k * k.

Definition trunc (d : double) : option Z :=
  match d with
  | S754_zero _ => Some 0
  | S754_finite s m e =>
      let t := Zpos m * 2 ^ Z.max e 0 / 2 ^ Z.max (- e) 0 in Some (if s then - t else t)
  | _ => None
  end.

(** ** Values *)

Inductive value : Type :=
  | Uint64 (x : Z)
  | Uint32 (x : Z)
  | Uint16 (x : Z)
  | Uint8 (x : Z)
  | Float64 (d : double)
  | Float32 (d : double)
  | Nil
  | OtherType.

Inductive ErrorCode : Type := ErrorNone | ErrorNotApplicable | ErrorInvalidArgument.
#[export] Instance ErrorCode_eq_dec : EqDecision ErrorCode.
Proof. solve_decision. Defined.

Section utils.
Context (implementation : Z → double → Z).

(** [uintW(v)] *)
Definition float_to_uint (w : Z) (d : double) : Z :=
  match trunc d with
  | Some t => if decide (0 <= t < 2 ^ w) then t else implementation w d
  | None => implementation w d
  end.

Definition convertFloatToUint (val : value) : value :=
  match val with
  | Float64 d => Uint64 (float_to_uint 64 d)
  | Float32 d => Uint32 (float_to_uint 32 d)
  | _ => val
  end.

Definition IsNonZeroValue (val : value) : bool :=
  match val with
  | Uint64 x | Uint32 x | Uint16 x | Uint8 x => bool_decide (x ≠ 0)
  | Float64 d | Float32 d => match d with S754_zero _ => false | _ => true end
  | Nil | OtherType => false
  end.

Definition IsValueApplicable (val : value) : bool :=
  match convertFloatToUint val with
  | Uint64 x => negb (bool_decide (x = MaxUint64 ∨ x = MaxUint32 ∨ x = MaxUint16 ∨ x = MaxUint8))
  | Uint32 x => negb (bool_decide (x = MaxUint32 ∨ x = MaxUint16 ∨ x = MaxUint8))
  | Uint16 x => negb (bool_decide (x = MaxUint16 ∨ x = MaxUint8))
  | Uint8 x => negb (bool_decide (x = MaxUint8))
  | _ => true
  end.

(** [None]: [Fatalf] ends the process. *)
Definition NormalizeUint64 (val : value) : option Z :=
  match convertFloatToUint val with
  | Uint64 x =>
      if decide (x = MaxUint64 ∨ x = MaxUint32 ∨ x = MaxUint16 ∨ x = MaxUint8) then Some 0
      else Some (float64_of_uint x)
  | Uint32 x =>
      if decide (x = MaxUint32 ∨ x = MaxUint16 ∨ x = MaxUint8) then Some 0
      else Some (float64_of_uint x)
  | Uint16 x =>
      if decide (x = MaxUint16 ∨ x = MaxUint8) then Some 0 else Some (float64_of_uint x)
  | Uint8 x => if decide (x = MaxUint8) then Some 0 else Some (float64_of_uint x)
  | _ => None
  end.

(** The gauges of a metric by their labels. *)
Abbreviation GaugeVec := (gmap (gmap string string) Z).

(** The code and the gauges, or the end of the process. *)
Definition ValidateAndExport (metric : GaugeVec) (labels : option (gmap string string))
    (val : value) : option (ErrorCode * GaugeVec) :=
  match labels, val with
  | None, _ | _, Nil => Some (ErrorInvalidArgument, metric)
  | Some labels, _ =>
      if IsValueApplicable val then
        floatVal ← NormalizeUint64 val;
        Some (ErrorNone, <[labels := floatVal]> metric)
      else Some (ErrorNotApplicable, metric)
  end.
End utils.

(** ** Clamping of profiler values *)

Definition math_Max (x y : double) : double :=
  match x, y with
  | S754_infinity false, _ | _, S754_infinity false => S754_infinity false
  | S754_nan, _ | _, S754_nan => S754_nan
  | S754_zero s, S754_zero _ => if s then y else x
  | _, _ => if SFltb y x then x else y
  end.

Definition math_Min (x y : double) : double :=
  match x, y with
  | S754_infinity true, _ | _, S754_infinity true => S754_infinity true
  | S754_nan, _ | _, S754_nan => S754_nan
  | S754_zero s, S754_zero _ => if s then x else y
  | _, _ => if SFltb x y then x else y
  end.

Definition d_one : double := S754_finite false 4503599627370496 (-52).
Definition d_hundred : double := S754_finite false 7036874417766400 (-46).

Definition NormalizePercent (v : double) : double := math_Min (math_Max v d_zero) d_hundred.
Definition NormalizeFraction (v : double) : double := math_Min (math_Max v d_zero) d_one.

(** ** Properties *)

(** Conversion to [float64] does not move an integer across a threshold that
    is a [float64] itself. *)
Lemma float64_of_uint_large x : 2 ^ 53 <= x → 2 ^ 53 <= float64_of_uint x.
Proof.
  intros Hx. unfold float64_of_uint. rewrite decide_False by lia.
  assert (53 <= Z.log2 x) by (apply Z.log2_le_pow2; lia).
  set (k := 2 ^ (Z.log2 x - 52)).
  assert (Hk : 2 ^ 52 * k = 2 ^ Z.log2 x).
  { unfold k. rewrite <- Z.pow_add_r by lia. f_equal. lia. }
  assert (Hx' : 2 ^ Z.log2 x <= x) by (apply Z.log2_spec; lia).
  assert (0 < k) by (apply Z.pow_pos_nonneg; lia).
  assert (2 ^ 52 <= x / k) by (apply Z.div_le_lower_bound; lia).
  assert (2 ^ 52 <= round_half_even x k).
  { unfold round_half_even. repeat case_match; lia. }
  assert (2 ^ 53 <= 2 ^ Z.log2 x) by (apply Z.pow_le_mono_r; lia). nia.
Qed.

Lemma float64_of_uint_gt t x : t < 2 ^ 53 → t < float64_of_uint x ↔ t < x.
Proof.
  intros Ht. destruct (decide (x < 2 ^ 53)) as [Hx|Hx].
  - unfold float64_of_uint. by rewrite decide_True.
  - pose proof (float64_of_uint_large x). lia.
Qed.

(** The integer a reading stands for. *)
Definition reading (implementation : Z → double → Z) (val : value) : option Z :=
  match convertFloatToUint implementation val with
  | Uint64 x | Uint32 x | Uint16 x | Uint8 x => Some x
  | _ => None
  end.

(** A value of its type. *)
Definition value_ok (implementation : Z → double → Z) (val : value) : Prop :=
  match convertFloatToUint implementation val with
  | Uint64 x => 0 <= x < 2 ^ 64
  | Uint32 x => 0 <= x < 2 ^ 32
  | Uint16 x => 0 <= x < 2 ^ 16
  | Uint8 x => 0 <= x < 2 ^ 8
  | _ => True
  end.

Definition sentinels : list Z := [MaxUint8; MaxUint16; MaxUint32; MaxUint64].

Lemma applicable_spec imp val x : value_ok imp val → reading imp val = Some x →
  IsValueApplicable imp val = negb (bool_decide (x ∈ sentinels)) ∧
  NormalizeUint64 imp val = Some (if decide (x ∈ sentinels) then 0 else float64_of_uint x).
Proof.
  unfold value_ok, reading, IsValueApplicable, NormalizeUint64.
  destruct (convertFloatToUint imp val) as [y|y|y|y| | | |]; intros Hr; intros [= <-];
    split; [f_equal; apply bool_decide_ext| |f_equal; apply bool_decide_ext|
      |f_equal; apply bool_decide_ext| |f_equal; apply bool_decide_ext|];
    unfold sentinels, MaxUint8, MaxUint16, MaxUint32, MaxUint64 in *;
    cbn [In];
    repeat case_decide; try done; rewrite ?elem_of_cons, ?elem_of_nil in *; try lia; try naive_solver lia.
Qed.

(** Publishing a reading of a numeric type under given labels never ends
    the process.  If the integer is one of 2^8-1, 2^16-1, 2^32-1 and 2^64-1,
    whatever the width of its type, the code is [ErrorNotApplicable] and no
    gauge changes; otherwise exactly the gauge of the labels is set, to the
    integer itself below 2^53.  So a 64-bit counter that has counted 255
    events is not published, although the width of its type leaves no doubt. *)
Theorem readings_published imp metric labels val x
    (Hok : value_ok imp val) (Hx : reading imp val = Some x) :
  ValidateAndExport imp metric (Some labels) val =
    Some (if decide (x ∈ sentinels) then (ErrorNotApplicable, metric)
          else (ErrorNone, <[labels := float64_of_uint x]> metric)) ∧
  (x < 2 ^ 53 → float64_of_uint x = x) ∧
  (∀ t, t < 2 ^ 53 → t < float64_of_uint x ↔ t < x).
Proof.
  split_and!.
  - destruct (applicable_spec imp val x Hok Hx) as [Ha Hn].
    assert (ValidateAndExport imp metric (Some labels) val =
      if IsValueApplicable imp val then
        floatVal ← NormalizeUint64 imp val; Some (ErrorNone, <[labels := floatVal]> metric)
      else Some (ErrorNotApplicable, metric)) as -> by (destruct val; try done).
    rewrite Ha, Hn. by destruct (decide (x ∈ sentinels)) as [Hs|Hs];
      [rewrite bool_decide_eq_true_2 by done|rewrite bool_decide_eq_false_2 by done].
  - intros Hlt. unfold float64_of_uint. by rewrite decide_True.
  - intros t. apply float64_of_uint_gt.
Qed.

Lemma readings_published_witness :
  let imp := λ _ _, 0 in
  ValidateAndExport imp ∅ (Some {[ "gpu_id" := "0" ]}) (Uint64 255) = Some (ErrorNotApplicable, ∅) ∧
  ValidateAndExport imp ∅ (Some {[ "gpu_id" := "0" ]}) (Uint64 254) =
    Some (ErrorNone, {[ {[ "gpu_id" := "0" ]} := 254 ]}).
Proof.
  split.
  - by apply (readings_published (λ _ _, 0) ∅ {[ "gpu_id" := "0" ]} (Uint64 255) 255).
  - by apply (readings_published (λ _ _, 0) ∅ {[ "gpu_id" := "0" ]} (Uint64 254) 254).
Defined.

(** Clamping, for any positive bound. *)
Lemma clamp_spec v m e :
  let hi := S754_finite false m e in
  math_Min (math_Max v d_zero) hi =
  match v with
  | S754_nan => S754_nan
  | S754_infinity false => hi
  | S754_finite false _ _ => if SFltb v hi then v else hi
  | _ => d_zero
  end.
Proof. by destruct v as [[]|[]| |[] m' e']. Qed.

Lemma SFcompare_pos_Eq m e m' e' :
  SFcompare (S754_finite false m e) (S754_finite false m' e') = Some Eq → m = m' ∧ e = e'.
Proof.
  cbn [SFcompare]. destruct (Z.compare_spec e e') as [->| |]; [|done|done].
  intros [= H]. change (Pos.compare_cont Eq m m') with (Pos.compare m m') in H.
  by apply Pos.compare_eq in H as ->.
Qed.

Lemma SFcompare_pos_refl m e :
  SFcompare (S754_finite false m e) (S754_finite false m e) = Some Eq.
Proof.
  cbn [SFcompare]. rewrite Z.compare_refl. f_equal.
  change (Pos.compare_cont Eq m m) with (Pos.compare m m). apply Pos.compare_refl.
Qed.

Lemma clamp_range v m e :
  let hi := S754_finite false m e in
  let r := math_Min (math_Max v d_zero) hi in
  (v ≠ S754_nan → SFleb d_zero r = true ∧ SFleb r hi = true) ∧
  (SFleb d_zero v = true → SFleb v hi = true → SFeqb r v = true) ∧
  (v = S754_nan → r = S754_nan).
Proof.
  cbv zeta. rewrite clamp_spec. unfold SFltb, SFleb, SFeqb.
  destruct v as [s|s| |s m' e'].
  - by destruct s.
  - destruct s; [done|]. split_and!; [|done|done]. intros _. by rewrite SFcompare_pos_refl.
  - done.
  - destruct s; [done|].
    destruct (SFcompare (S754_finite false m' e') (S754_finite false m e)) as [[]|] eqn:Hc;
      split_and!; try done; intros; rewrite ?SFcompare_pos_refl, ?Hc; try done.
    apply SFcompare_pos_Eq in Hc as [-> ->]. by rewrite SFcompare_pos_refl.
Qed.

(** The profiler's percentages and fractions are clamped: a value that is
    a number is published as a number of [0, 100] or [0, 1], one that lies
    there already is published unchanged, infinities included; not-a-number
    passes through. *)
Theorem normalized_in_range v :
  ((v ≠ S754_nan → SFleb d_zero (NormalizePercent v) = true ∧ SFleb (NormalizePercent v) d_hundred = true) ∧
   (SFleb d_zero v = true → SFleb v d_hundred = true → SFeqb (NormalizePercent v) v = true) ∧
   (v = S754_nan → NormalizePercent v = S754_nan)) ∧
  ((v ≠ S754_nan → SFleb d_zero (NormalizeFraction v) = true ∧ SFleb (NormalizeFraction v) d_one = true) ∧
   (SFleb d_zero v = true → SFleb v d_one = true → SFeqb (NormalizeFraction v) v = true) ∧
   (v = S754_nan → NormalizeFraction v = S754_nan)).
Proof. split; apply clamp_range. Qed.
