(* ===== verification/Scheduler.v ===== *)
(** Which job runs on which GPU: [src/pkg/exporter/scheduler/] (Slurm and
    Kubernetes), [PodUniqueKey] of [src/pkg/types/], and the merge of both in
    [ListWorkloads] of [src/pkg/amdgpu/gpuagent/gpuagent.go].

    The decoder of the job file ([json.Unmarshal] into a map of strings), the
    answers of the kubelet and the events of the file watcher are arguments. *)

From S2P Require Import Prelude GoStd RocpClient.
From Stdlib Require Import Ascii.

(** ** Workloads *)

Inductive SchedulerType : Type := Kubernetes | Slurm.
#[export] Instance SchedulerType_eq_dec : EqDecision SchedulerType.
Proof. solve_decision. Defined.

Record PodResourceInfo : Type := MkPod { Pod : string; Namespace : string; Container : string }.
Record JobInfo : Type := MkJob { Id : string; User : string; Partition : string; Cluster : string }.
#[export] Instance PodResourceInfo_eq_dec : EqDecision PodResourceInfo.
Proof. solve_decision. Defined.
#[export] Instance JobInfo_eq_dec : EqDecision JobInfo.
Proof. solve_decision. Defined.

(** [Info interface{}] holds one of the two. *)
Inductive info : Type := InfoPod (p : PodResourceInfo) | InfoJob (j : JobInfo).
#[export] Instance info_eq_dec : EqDecision info.
Proof. solve_decision. Defined.

Record Workload : Type := MkWorkload { Type_ : SchedulerType; Info : info }.
#[export] Instance Workload_eq_dec : EqDecision Workload.
Proof. solve_decision. Defined.

Definition SchedulerType_String (s : SchedulerType) : string :=
  match s with Kubernetes => "Kubernetes" | Slurm => "Slurm" end.

Definition Workload_String (w : Workload) : string :=
  match Type_ w, Info w with
  | Kubernetes, InfoPod p =>
      "Pod: " +:+ Pod p +:+ ", Namespace: " +:+ Namespace p +:+ ", Container: " +:+ Container p
  | Slurm, InfoJob j =>
      "Job: " +:+ Id j +:+ ", User: " +:+ User j +:+ ", Partition: " +:+ Partition j +:+
      ", Cluster: " +:+ Cluster j
  | t, _ => "Workload Type: " +:+ SchedulerType_String t
  end.

(** ** Slurm

    The state of the client is the map from GPU to job. *)

Section slurm.
Context (Unmarshal : string → option (gmap string string)).

Abbreviation GpuJobs := (gmap string JobInfo).

Definition env (jobEnv : gmap string string) (k : string) : string := default "" (jobEnv !! k).

Definition job_of (jobEnv : gmap string string) : JobInfo :=
  MkJob (env jobEnv "SLURM_JOB_ID") (env jobEnv "SLURM_JOB_USER")
    (env jobEnv "SLURM_JOB_PARTITION") (env jobEnv "SLURM_CLUSTER_NAME").

(** The loop over the allocated GPUs. *)
Definition assign_job (gpus : list string) (j : JobInfo) (jobs : GpuJobs) : GpuJobs :=
  foldl (λ jobs allocGPU, <[allocGPU := j]> jobs) jobs gpus.

Inductive Op : Type := Write | Remove.

Definition processSlurm (op : Op) (name buff : string) (jobs : GpuJobs) : GpuJobs :=
  match op with
  | Write =>
      match Unmarshal buff with
      | None => jobs
      | Some jobEnv =>
          match jobEnv !! "CUDA_VISIBLE_DEVICES" with
          | Some gpus => assign_job (Split "," gpus) (job_of jobEnv) jobs
          | None => jobs
          end
      end
  | Remove => delete name jobs
  end.

(** An event of the watcher: what happened to a file of which base name, and
    what reading the file gave ([None]: an error). *)
Record event : Type := Event { event_op : option Op; base : string; content : option string }.

Definition on_event (jobs : GpuJobs) (e : event) : GpuJobs :=
  if decide (is_Some (Atoi (base e))) then
    match event_op e with
    | Some Write =>
        match content e with
        | None => jobs
        | Some data => processSlurm Write (base e) data jobs
        end
    | Some Remove => processSlurm Remove (base e) "" jobs
    | None => jobs
    end
  else jobs.

Definition watch (events : list event) (jobs : GpuJobs) : GpuJobs := foldl on_event jobs events.

Definition slurm_ListWorkloads (jobs : GpuJobs) : gmap string Workload :=
  (λ j, MkWorkload Slurm (InfoJob j)) <$> jobs.
End slurm.

(** ** Kubernetes *)

Definition AMDGPUResourcePrefix : string := "amd.com/".
Definition AMDGPUDriverName : string := "gpu.amd.com".

Record ContainerDevices : Type := MkDevices { ResourceName : string; DeviceIds : list string }.
Record ClaimResource : Type := MkClaim { DriverName : string; DeviceName : string }.
Record ContainerResources : Type := MkContainer {
  container_Name : string;
  Devices : list ContainerDevices;
  DynamicResources : list (list ClaimResource);
}.
Record PodResources : Type := MkPodResources {
  pod_Name : string;
  pod_Namespace : string;
  Containers : list ContainerResources;
}.

Inductive mode : Type := NoMode | Plugin | Dra.
#[export] Instance mode_eq_dec : EqDecision mode.
Proof. solve_decision. Defined.

Abbreviation Workloads := (gmap string Workload).

Definition workload_of (pod : PodResources) (c : ContainerResources) : Workload :=
  MkWorkload Kubernetes (InfoPod (MkPod (pod_Name pod) (pod_Namespace pod) (container_Name c))).

(** The loops over the devices and over the claims of a container. *)
Definition add_device (wl : Workload) (s : mode * Workloads) (devs : ContainerDevices)
    : mode * Workloads :=
  if HasPrefix (ResourceName devs) AMDGPUResourcePrefix then
    (Plugin, foldl (λ m devId, <[ToLower devId := wl]> m) s.2 (DeviceIds devs))
  else s.

Definition add_claim (wl : Workload) (s : mode * Workloads) (claim : ClaimResource)
    : mode * Workloads :=
  if HasPrefix (DriverName claim) AMDGPUDriverName then
    (Dra, <[ToLower (DeviceName claim) := wl]> s.2)
  else s.

Definition add_container (s : mode * Workloads) (pc : PodResources * ContainerResources)
    : mode * Workloads :=
  let wl := workload_of pc.1 pc.2 in
  let s := if decide (s.1 ≠ Dra) then foldl (add_device wl) s (Devices pc.2) else s in
  if decide (s.1 ≠ Plugin) then foldl (add_claim wl) s (mjoin (DynamicResources pc.2)) else s.

Definition containers (pods : list PodResources) : list (PodResources * ContainerResources) :=
  pods ≫= λ pod, pair pod <$> Containers pod.

Definition pod_workloads (pods : list PodResources) : Workloads :=
  (foldl add_container (NoMode, ∅) (containers pods)).2.

Definition isConnectionError (err : string) : bool :=
  contains err "connection refused" || contains err "connection reset" ||
  contains err "transport is closing".

(** [list1] and [list2] are the answers to the first call and to the retry,
    [reconnect] the error of dialling again. *)
Definition k8s_ListWorkloads (list1 : list PodResources + string) (reconnect : option string)
    (list2 : list PodResources + string) : Workloads + string :=
  match list1 with
  | inl pods => inl (pod_workloads pods)
  | inr err =>
      if isConnectionError err then
        match reconnect with
        | Some recErr =>
            inr ("failed to reconnect: " +:+ recErr +:+ " (original error: " +:+ err +:+ ")")
        | None =>
            match list2 with
            | inl pods => inl (pod_workloads pods)
            | inr err2 => inr ("failed to list pod resources after reconnect, " +:+ err2)
            end
        end
      else inr ("failed to list pod resources, " +:+ err)
  end.

(** [ListWorkloads] of the agent: the map it returns with the error, if any.
    [None]: there is no such scheduler. *)
Definition ListWorkloads (isKubernetes : bool) (k8s : option (Workloads + string))
    (slurm : option (Workloads + string)) : Workloads * option string :=
  let k8sWls :=
    if isKubernetes then match k8s with Some r => r | None => inl ∅ end else inl ∅ in
  match k8sWls with
  | inr err => (∅, Some err)
  | inl k8sWls =>
      match slurm with
      | None => (k8sWls, None)
      | Some (inr err) => (k8sWls, Some err)
      | Some (inl swls) => (swls ∪ k8sWls, None)
      end
  end.

(** ** Pods by name *)

Record PodUniqueKey : Type := MkKey { PodName : string; KeyNamespace : string }.
#[export] Instance PodUniqueKey_eq_dec : EqDecision PodUniqueKey.
Proof. solve_decision. Defined.

Definition PodUniqueKey_String (p : PodUniqueKey) : string :=
  KeyNamespace p +:+ "-" +:+ PodName p.

Record K8sPodInfo : Type := MkPodInfo { UID : string; Labels : gmap string string }.

(** The pods of the node in the order of the informer's store. *)
Definition GetAllPods (pods : list (PodUniqueKey * K8sPodInfo)) : gmap string K8sPodInfo :=
  foldl (λ m p, <[PodUniqueKey_String p.1 := p.2]> m) ∅ pods.

Definition GetPodLabels (podInfo : option PodResourceInfo) (k8sPodInfoMap : gmap string K8sPodInfo)
    : gmap string string :=
  match podInfo with
  | None => ∅
  | Some p =>
      if decide (Pod p ≠ "" ∧ Namespace p ≠ "") then
        match k8sPodInfoMap !! PodUniqueKey_String (MkKey (Pod p) (Namespace p)) with
        | Some pod => Labels pod
        | None => ∅
        end
      else ∅
  end.

Definition GetPodUID (podInfo : option PodResourceInfo) (k8sPodInfoMap : gmap string K8sPodInfo)
    : string :=
  match podInfo with
  | None => ""
  | Some p =>
      if decide (Pod p ≠ "" ∧ Namespace p ≠ "") then
        match k8sPodInfoMap !! PodUniqueKey_String (MkKey (Pod p) (Namespace p)) with
        | Some pod => UID pod
        | None => ""
        end
      else ""
  end.

(** ** Slurm: the last event decides *)

Section slurm_proofs.
Context (Unmarshal : string → option (gmap string string)).

Lemma assign_job_lookup gpus j jobs g :
  assign_job gpus j jobs !! g = if decide (g ∈ gpus) then Some j else jobs !! g.
Proof.
  unfold assign_job. induction gpus as [|x gpus IH] using rev_ind; [done|].
  rewrite foldl_app. cbn [foldl]. destruct (decide (x = g)) as [->|Hx].
  - rewrite lookup_insert_eq, decide_True by set_solver. done.
  - rewrite lookup_insert_ne, IH by done. repeat case_decide; set_solver.
Qed.

(** What an event says about a GPU: nothing, a job, or that it is free. *)
Definition effect (g : string) (e : event) : option (option JobInfo) :=
  if decide (is_Some (Atoi (base e))) then
    match event_op e with
    | Some Write =>
        jobEnv ← content e ≫= Unmarshal;
        gpus ← jobEnv !! "CUDA_VISIBLE_DEVICES";
        if decide (g ∈ Split "," gpus) then Some (Some (job_of jobEnv)) else None
    | Some Remove => if decide (base e = g) then Some None else None
    | None => None
    end
  else None.

Lemma on_event_lookup g jobs e :
  on_event Unmarshal jobs e !! g = default (jobs !! g) (effect g e).
Proof.
  unfold on_event, effect. case_decide; [|done]. destruct (event_op e) as [[]|]; [| |done].
  - destruct (content e) as [data|]; [|done]. cbn [mbind option_bind processSlurm].
    destruct (Unmarshal data) as [jobEnv|]; [|done]. cbn [mbind option_bind].
    destruct (jobEnv !! _) as [gpus|]; [|done]. cbn [mbind option_bind].
    rewrite assign_job_lookup. by case_decide.
  - cbn [processSlurm]. case_decide as Hb.
    + rewrite Hb. apply lookup_delete_eq.
    + by rewrite lookup_delete_ne.
Qed.

(** Slurm jobs: whatever happened before and in whatever order files of
    several jobs come and go, the job listed for a GPU is decided by the last
    event about it: the job of the last file written that names the GPU in
    its list of devices, or none if the file named after the GPU was removed
    later. *)
Theorem slurm_last_event events jobs g :
  slurm_ListWorkloads (watch Unmarshal events jobs) !! g =
  (λ j, MkWorkload Slurm (InfoJob j)) <$> default (jobs !! g) (last (omap (effect g) events)).
Proof.
  unfold slurm_ListWorkloads, watch. rewrite lookup_fmap. f_equal.
  apply (foldl_last_write (on_event Unmarshal) (effect g)). intros m a. apply on_event_lookup.
Qed.
End slurm_proofs.

(** ** Kubernetes: one way of allocation per node *)

(** The devices of a container that count under a mode. *)
Definition plugin_claims (c : ContainerResources) : list string :=
  filter (λ d, HasPrefix (ResourceName d) AMDGPUResourcePrefix = true) (Devices c) ≫=
  λ d, ToLower <$> DeviceIds d.

Definition dra_claims (c : ContainerResources) : list string :=
  (λ cl, ToLower (DeviceName cl)) <$>
  filter (λ cl, HasPrefix (DriverName cl) AMDGPUDriverName = true) (mjoin (DynamicResources c)).

Definition claims (md : mode) (c : ContainerResources) : list string :=
  match md with NoMode => [] | Plugin => plugin_claims c | Dra => dra_claims c end.

Definition has_plugin (c : ContainerResources) : bool :=
  existsb (λ d, HasPrefix (ResourceName d) AMDGPUResourcePrefix) (Devices c).
Definition has_dra (c : ContainerResources) : bool :=
  existsb (λ cl, HasPrefix (DriverName cl) AMDGPUDriverName) (mjoin (DynamicResources c)).

Definition container_mode (c : ContainerResources) : mode :=
  if has_plugin c then Plugin else if has_dra c then Dra else NoMode.

(** The mode of the node: that of the first container that has one. *)
Fixpoint node_mode (cs : list (PodResources * ContainerResources)) : mode :=
  match cs with
  | [] => NoMode
  | pc :: cs => match container_mode pc.2 with NoMode => node_mode cs | md => md end
  end.

Definition add_claims (md : mode) (m : Workloads) (pc : PodResources * ContainerResources)
    : Workloads :=
  foldl (λ m d, <[d := workload_of pc.1 pc.2]> m) m (claims md pc.2).

Lemma foldl_insert_map (wl : Workload) (f : string → string) l (m : Workloads) :
  foldl (λ m d, <[f d := wl]> m) m l = foldl (λ m d, <[d := wl]> m) m (f <$> l).
Proof. revert m. induction l as [|d l IH]; intros m; [done|]. apply IH. Qed.

Lemma add_devices wl c md m :
  foldl (add_device wl) (md, m) (Devices c) =
  (if has_plugin c then Plugin else md, foldl (λ m d, <[d := wl]> m) m (plugin_claims c)).
Proof.
  unfold has_plugin, plugin_claims. generalize (Devices c) as l. intros l.
  revert md m. induction l as [|d l IH]; intros md m; [done|].
  cbn [foldl existsb]. unfold add_device at 2. destruct (HasPrefix _ _) eqn:Hp.
  - rewrite filter_cons_True by done. cbn [mbind list_bind]. rewrite foldl_app, IH.
    cbn [orb snd]. rewrite (foldl_insert_map wl ToLower). by destruct (existsb _ l).
  - rewrite filter_cons_False by (by rewrite Hp). apply IH.
Qed.

Lemma add_claims_dra wl c md m :
  foldl (add_claim wl) (md, m) (mjoin (DynamicResources c)) =
  (if has_dra c then Dra else md, foldl (λ m d, <[d := wl]> m) m (dra_claims c)).
Proof.
  unfold has_dra, dra_claims. generalize (mjoin (DynamicResources c)) as l. intros l.
  revert md m. induction l as [|d l IH]; intros md m; [done|].
  cbn [foldl existsb]. unfold add_claim at 2. destruct (HasPrefix _ _) eqn:Hp.
  - rewrite filter_cons_True by done. rewrite fmap_cons. cbn [foldl orb snd]. rewrite IH.
    by destruct (existsb _ l).
  - rewrite filter_cons_False by (by rewrite Hp). apply IH.
Qed.

Lemma no_plugin_claims c : has_plugin c = false → plugin_claims c = [].
Proof.
  unfold has_plugin, plugin_claims. induction (Devices c) as [|d l IH]; [done|].
  cbn [existsb]. intros [Hd Hl]%orb_false_iff.
  rewrite filter_cons_False by (by rewrite Hd). auto.
Qed.

Lemma no_dra_claims c : has_dra c = false → dra_claims c = [].
Proof.
  unfold has_dra, dra_claims. induction (mjoin (DynamicResources c)) as [|d l IH]; [done|].
  cbn [existsb]. intros [Hd Hl]%orb_false_iff.
  rewrite filter_cons_False by (by rewrite Hd). auto.
Qed.

Lemma add_container_spec md m pc :
  add_container (md, m) pc =
  let md' := match md with NoMode => container_mode pc.2 | _ => md end in
  (md', add_claims md' m pc).
Proof.
  unfold add_container, add_claims, container_mode. cbv zeta. destruct md; cbn [fst].
  - rewrite (decide_True (P := NoMode ≠ Dra)), add_devices by done. cbn [fst].
    destruct (has_plugin (snd pc)) eqn:Hp.
    + by rewrite decide_False by (intros Hne; by apply Hne).
    + rewrite decide_True, add_claims_dra, no_plugin_claims by done. cbn [foldl].
      destruct (has_dra (snd pc)) eqn:Hd; [done|]. by rewrite no_dra_claims.
  - rewrite (decide_True (P := Plugin ≠ Dra)), add_devices by done. cbn [fst].
    destruct (has_plugin (snd pc)); by rewrite decide_False by (intros Hne; by apply Hne).
  - rewrite (decide_False (P := Dra ≠ Dra)) by (intros Hne; by apply Hne). cbn [fst].
    rewrite decide_True, add_claims_dra by done. by destruct (has_dra (snd pc)).
Qed.

Lemma add_containers_locked md m cs : md ≠ NoMode →
  foldl add_container (md, m) cs = (md, foldl (add_claims md) m cs).
Proof.
  intros Hmd. revert m. induction cs as [|pc cs IH]; intros m; [done|]. cbn [foldl].
  rewrite add_container_spec. cbv zeta. destruct md; [done| |]; apply IH.
Qed.

Lemma add_containers_spec m cs :
  foldl add_container (NoMode, m) cs = (node_mode cs, foldl (add_claims (node_mode cs)) m cs).
Proof.
  revert m. induction cs as [|pc cs IH]; intros m; [done|]. cbn [foldl node_mode].
  rewrite add_container_spec. cbv zeta. destruct (container_mode (snd pc)) eqn:Hc.
  - unfold add_claims at 1. cbn [claims foldl]. rewrite IH. f_equal.
    unfold add_claims at 3. unfold container_mode in Hc.
    destruct (has_plugin (snd pc)) eqn:Hp; [done|]. destruct (has_dra (snd pc)) eqn:Hd; [done|].
    destruct (node_mode cs); cbn [claims]; by rewrite ?no_plugin_claims, ?no_dra_claims.
  - by rewrite add_containers_locked.
  - by rewrite add_containers_locked.
Qed.

Lemma add_claims_lookup md m pc d :
  add_claims md m pc !! d =
  default (m !! d) (if decide (d ∈ claims md pc.2) then Some (Some (workload_of pc.1 pc.2)) else None).
Proof.
  unfold add_claims. induction (claims md (snd pc)) as [|x l IH] using rev_ind; [done|].
  rewrite foldl_app. cbn [foldl]. destruct (decide (x = d)) as [->|Hx].
  - rewrite lookup_insert_eq, decide_True by set_solver. done.
  - rewrite lookup_insert_ne, IH by done. repeat case_decide; set_solver.
Qed.

(** Kubernetes pods: all containers of the node are read under one way of
    allocation, device plugin or dynamic resources, the one of the first
    container that has an AMD GPU (the plugin if it has both).  The workload
    of a device is the last container that claims it in that way, with the
    letters of the device in lower case; claims of the other kind count for
    nothing.  An error of the kubelet is passed on, unless it is a broken
    connection and the one retry after dialling again succeeds. *)
Theorem pod_workloads_one_mode pods d list2 err :
  pod_workloads pods !! d =
    last ((λ pc, workload_of pc.1 pc.2) <$>
      filter (λ pc, d ∈ claims (node_mode (containers pods)) pc.2) (containers pods)) ∧
  (∀ r, k8s_ListWorkloads (inl pods) r list2 = inl (pod_workloads pods)) ∧
  (k8s_ListWorkloads (inr err) None list2 =
     if isConnectionError err then
       match list2 with
       | inl pods2 => inl (pod_workloads pods2)
       | inr err2 => inr ("failed to list pod resources after reconnect, " +:+ err2)
       end
     else inr ("failed to list pod resources, " +:+ err)).
Proof.
  split_and!; [|done|by cbn [k8s_ListWorkloads]].
  unfold pod_workloads. rewrite add_containers_spec. cbn [snd].
  set (md := node_mode _). generalize (containers pods) as cs. intros cs.
  rewrite (foldl_last_write (add_claims md) (λ pc,
    if decide (d ∈ claims md pc.2) then Some (Some (workload_of pc.1 pc.2)) else None))
    by (intros; apply add_claims_lookup).
  rewrite lookup_empty. induction cs as [|pc cs IH] using rev_ind; [done|].
  rewrite omap_app, filter_app, fmap_app. cbn [omap list_omap].
  rewrite filter_cons, filter_nil. case_decide; cbn [fmap list_fmap].
  - by rewrite !last_snoc.
  - by rewrite !app_nil_r.
Qed.

(** ** Pods by name *)

Definition pod_of (k : PodUniqueKey) (container : string) : PodResourceInfo :=
  MkPod (PodName k) (KeyNamespace k) container.

Lemma GetAllPods_lookup pods k i : NoDup ((λ p, PodUniqueKey_String p.1) <$> pods) →
  (k, i) ∈ pods → GetAllPods pods !! PodUniqueKey_String k = Some i.
Proof.
  intros Hnd Hin. exact (foldl_insert_Some (λ p, PodUniqueKey_String p.1) snd pods ∅ (k, i) Hnd Hin).
Qed.

(** A workload is given the identifier and the labels of its own pod, if
    the keys of the pods of the node are distinct texts; but the text of a
    key does not identify a pod: pod [b-c] of namespace [a] and pod [c] of
    namespace [a-b] have the same, and the first is given the identifier and
    labels of the second. *)
Theorem pod_lookup pods k i container
    (Hnd : NoDup ((λ p, PodUniqueKey_String p.1) <$> pods)) (Hin : (k, i) ∈ pods)
    (Hname : PodName k ≠ "") (Hns : KeyNamespace k ≠ "") :
  GetPodUID (Some (pod_of k container)) (GetAllPods pods) = UID i ∧
  GetPodLabels (Some (pod_of k container)) (GetAllPods pods) = Labels i ∧
  (∃ k1 k2, k1 ≠ k2 ∧ ∀ i1 i2,
     GetPodUID (Some (pod_of k1 container)) (GetAllPods [(k1, i1); (k2, i2)]) = UID i2 ∧
     GetPodLabels (Some (pod_of k1 container)) (GetAllPods [(k1, i1); (k2, i2)]) = Labels i2).
Proof.
  unfold GetPodUID, GetPodLabels, pod_of. cbn [Pod Namespace]. split_and!.
  - rewrite decide_True by done. destruct k as [n ns]. by rewrite (GetAllPods_lookup pods _ i).
  - rewrite decide_True by done. destruct k as [n ns]. by rewrite (GetAllPods_lookup pods _ i).
  - exists (MkKey "b-c" "a"), (MkKey "c" "a-b"). split; [done|]. intros i1 i2.
    rewrite decide_True by done. unfold GetAllPods. cbn [foldl fst snd].
    change (PodUniqueKey_String (MkKey "c" "a-b")) with "a-b-c"%string.
    change (PodUniqueKey_String _) with "a-b-c"%string. by rewrite lookup_insert_eq.
Qed.

Lemma pod_lookup_witness :
  let pods := [(MkKey "p" "default", MkPodInfo "1" ∅); (MkKey "q" "default", MkPodInfo "2" ∅)] in
  GetPodUID (Some (pod_of (MkKey "p" "default") "c")) (GetAllPods pods) = "1".
Proof.
  intros pods. apply (pod_lookup pods (MkKey "p" "default") (MkPodInfo "1" ∅) "c").
  - apply (bool_decide_unpack _). vm_compute. exact I.
  - by left.
  - done.
  - done.
Defined.
