(* ===== verification/GpuMessages.v ===== *)
(** The messages of the GPU agent, [src/pkg/amdgpu/proto/gpu.proto], with the
    fields the exporter reads: identification and state of a GPU, its
    readings, and the error records.

    A message inside a message may be absent ([None]); the decoder leaves an
    empty repeated field [nil], so a list has no such case of its own.
    Unsigned integers are [Z], bytes are strings, [float] and [double] are
    [double]. *)

From S2P Require Import Prelude RocpSdk.
Local Open Scope Z_scope.

Record GPUClockStatus : Type := MkClock {
  clk_Type : Z;
  Frequency : Z;
  LowFrequency : Z;
  HighFrequency : Z;
}.

Record GPUPCIeStatus : Type := MkPCIe {
  pcie_PCIeBusId : string;
  pcie_Speed : Z;
  pcie_MaxSpeed : Z;
  pcie_Bandwidth : Z;
}.

Record GPUVRAMStatus : Type := MkVRAM {
  vram_Size : Z;
  vram_MaxBandwidth : Z;
}.

Record ProcessInfo : Type := MkProcess {
  PId : Z;
  CUOccupancy : Z;
}.

Record GPUStatus : Type := MkStatus {
  Index : Z;
  PCIeStatus : option GPUPCIeStatus;
  PartitionId : Z;
  NodeId : Z;
  DRMRenderId : Z;
  DRMCardId : Z;
  SerialNum : string;
  CardSeries : string;
  CardModel : string;
  CardVendor : string;
  DriverVersion : string;
  VBIOSVersion : string;
  KFDProcessId : list Z;
  VirtualizationMode : Z;
  ClockStatus : list GPUClockStatus;
  VRAMStatus : option GPUVRAMStatus;
  ProcessStatus : option (list ProcessInfo);
}.

Record GPUTemperatureStats : Type := MkTemperature {
  EdgeTemperature : double;
  JunctionTemperature : double;
  MemoryTemperature : double;
  HBMTemperature : list double;
}.

Record GPUUsage : Type := MkUsage {
  GFXActivity : Z;
  UMCActivity : Z;
  MMActivity : Z;
  VCNActivity : list Z;
  JPEGActivity : list Z;
  GFXBusyInst : list Z;
  JPEGBusyInst : list Z;
  VCNBusyInst : list Z;
}.

Record GPUVoltage : Type := MkVoltage {
  volt_Voltage : Z;
  GFXVoltage : Z;
  MemoryVoltage : Z;
}.

Record GPUPCIeStats : Type := MkPCIeStats {
  ReplayCount : Z;
  RecoveryCount : Z;
  ReplayRolloverCount : Z;
  NACKSentCount : Z;
  NACKReceivedCount : Z;
  RxBytes : Z;
  TxBytes : Z;
  BiDirBandwidth : Z;
}.

Record GPUVRAMUsage : Type := MkVRAMUsage {
  TotalVRAM : Z;
  UsedVRAM : Z;
  FreeVRAM : Z;
  TotalVisibleVRAM : Z;
  UsedVisibleVRAM : Z;
  FreeVisibleVRAM : Z;
  TotalGTT : Z;
  UsedGTT : Z;
  FreeGTT : Z;
}.

Record GPUXGMILinkStats : Type := MkLink {
  DataRead : Z;
  DataWrite : Z;
}.

Record GPUViolationStats : Type := MkViolations {
  CurrentAccumulatedCounter : Z;
  ProcessorHotResidencyAccumulated : Z;
  PPTResidencyAccumulated : Z;
  SocketThermalResidencyAccumulated : Z;
  VRThermalResidencyAccumulated : Z;
  HBMThermalResidencyAccumulated : Z;
  ProcessorHotResidencyPercentage : Z;
  PPTResidencyPercentage : Z;
  SocketThermalResidencyPercentage : Z;
  VRThermalResidencyPercentage : Z;
  HBMThermalResidencyPercentage : Z;
  GFXBelowHostLimitPowerAccumulated : list Z;
  GFXBelowHostLimitTHMAccumulated : list Z;
  GFXLowUtilizationAccumulated : list Z;
  GFXBelowHostLimitTotalAccumulated : list Z;
  GFXBelowHostLimitPowerPercentage : list Z;
  GFXBelowHostLimitTHMPercentage : list Z;
  GFXLowUtilizationPercentage : list Z;
  GFXBelowHostLimitTotalPercentage : list Z;
}.

Record GPUStats : Type := MkStats {
  PackagePower : Z;
  AvgPackagePower : Z;
  Temperature : option GPUTemperatureStats;
  Usage : option GPUUsage;
  Voltage : option GPUVoltage;
  PCIeStats : option GPUPCIeStats;
  EnergyConsumed : double;
  TotalCorrectableErrors : Z;
  TotalUncorrectableErrors : Z;
  SDMACorrectableErrors : Z;
  SDMAUncorrectableErrors : Z;
  GFXCorrectableErrors : Z;
  GFXUncorrectableErrors : Z;
  MMHUBCorrectableErrors : Z;
  MMHUBUncorrectableErrors : Z;
  ATHUBCorrectableErrors : Z;
  ATHUBUncorrectableErrors : Z;
  BIFCorrectableErrors : Z;
  BIFUncorrectableErrors : Z;
  HDPCorrectableErrors : Z;
  HDPUncorrectableErrors : Z;
  XGMIWAFLCorrectableErrors : Z;
  XGMIWAFLUncorrectableErrors : Z;
  DFCorrectableErrors : Z;
  DFUncorrectableErrors : Z;
  SMNCorrectableErrors : Z;
  SMNUncorrectableErrors : Z;
  SEMCorrectableErrors : Z;
  SEMUncorrectableErrors : Z;
  MP0CorrectableErrors : Z;
  MP0UncorrectableErrors : Z;
  MP1CorrectableErrors : Z;
  MP1UncorrectableErrors : Z;
  FUSECorrectableErrors : Z;
  FUSEUncorrectableErrors : Z;
  UMCCorrectableErrors : Z;
  UMCUncorrectableErrors : Z;
  MCACorrectableErrors : Z;
  MCAUncorrectableErrors : Z;
  VCNCorrectableErrors : Z;
  VCNUncorrectableErrors : Z;
  JPEGCorrectableErrors : Z;
  JPEGUncorrectableErrors : Z;
  IHCorrectableErrors : Z;
  IHUncorrectableErrors : Z;
  MPIOCorrectableErrors : Z;
  MPIOUncorrectableErrors : Z;
  XGMINeighbor0TxNOPs : Z;
  XGMINeighbor0TxRequests : Z;
  XGMINeighbor0TxResponses : Z;
  XGMINeighbor0TXBeats : Z;
  XGMINeighbor1TxNOPs : Z;
  XGMINeighbor1TxRequests : Z;
  XGMINeighbor1TxResponses : Z;
  XGMINeighbor1TXBeats : Z;
  XGMINeighbor0TxThroughput : Z;
  XGMINeighbor1TxThroughput : Z;
  XGMINeighbor2TxThroughput : Z;
  XGMINeighbor3TxThroughput : Z;
  XGMINeighbor4TxThroughput : Z;
  XGMINeighbor5TxThroughput : Z;
  PowerUsage : Z;
  VRAMUsage : option GPUVRAMUsage;
  XGMILinkStats : list GPUXGMILinkStats;
  ViolationStats : option GPUViolationStats;
  TotalDeferredErrors : Z;
  SDMADeferredErrors : Z;
  GFXDeferredErrors : Z;
  MMHUBDeferredErrors : Z;
  ATHUBDeferredErrors : Z;
  BIFDeferredErrors : Z;
  HDPDeferredErrors : Z;
  XGMIWAFLDeferredErrors : Z;
  DFDeferredErrors : Z;
  SMNDeferredErrors : Z;
  SEMDeferredErrors : Z;
  MP0DeferredErrors : Z;
  MP1DeferredErrors : Z;
  FUSEDeferredErrors : Z;
  UMCDeferredErrors : Z;
  MCADeferredErrors : Z;
  VCNDeferredErrors : Z;
  JPEGDeferredErrors : Z;
  IHDeferredErrors : Z;
  MPIODeferredErrors : Z;
}.

(** The identifier is absent if there is no [Spec], which has the partition
    types as well. *)
Record GPU : Type := MkGPU {
  Spec_Id : option string;
  ComputePartitionType : Z;
  MemoryPartitionType : Z;
  Status : option GPUStatus;
  Stats : option GPUStats;
}.

Record GPUGetResponse : Type := MkGetResponse { ApiStatus : Z; Response : list GPU }.

(** The address of a GPU, if there is a [PCIeStatus]. *)
Definition PCIeBusId (status : GPUStatus) : option string := pcie_PCIeBusId <$> PCIeStatus status.

(** Severities of error records, [gpu.proto]. *)
Inductive CPERSeverity : Type :=
  | CPER_SEVERITY_NONE
  | CPER_SEVERITY_NON_FATAL_UNCORRECTED
  | CPER_SEVERITY_FATAL
  | CPER_SEVERITY_NON_FATAL_CORRECTED.
#[export] Instance CPERSeverity_eq_dec : EqDecision CPERSeverity.
Proof. solve_decision. Defined.

Record CPEREntry : Type := MkCPEREntry {
  RecordId : string;
  Severity : CPERSeverity;
  Timestamp : string;
  AFId : list Z;
}.

Record GPUCPEREntry : Type := MkGPUCPER { cper_GPU : string; cper_entries : list CPEREntry }.
Record GPUCPERGetResponse : Type := MkCPERResponse { cper_ApiStatus : Z; CPER : list GPUCPEREntry }.

(** A GPU without readings but [n] uncorrectable errors of its memory
    controller. *)
Definition umc_stats (n : Z) : GPUStats :=
  MkStats 0 0 None None None None (S754_zero false)
    0 0 0 0 0 0 0 0 0 0 0 0 0 0 0 0 0 0 0 0 0 0 0 0 0 0 0 0 0 n 0 0 0 0 0 0 0 0 0 0 0 0 0
    0 0 0 0 0 0 0 0 0 0 0 0 None [] None 0 0 0 0 0 0 0 0 0 0 0 0 0 0 0 0 0 0 0 0.
