(* ===== verification/GpuAgent.v ===== *)
(** The client of the GPU agent, [src/pkg/amdgpu/gpuagent/gpuagent_gpu.go] and
    the helpers of [gpuagent_gpu_metrics.go] the health monitor uses:
    identifiers, the cache of responses, metadata of the GPUs, the workloads
    of a GPU, the latest error record of a GPU.

    Messages have the fields these parts read.  A message inside a message
    may be absent ([None]); the code that follows such a pointer without a
    test panics, which is [None] in the [option] monad.  The answers of the
    agent, the clock and the file system are arguments. *)

From S2P Require Import Prelude Format GoStd ExporterUtils RocpClient Scheduler GpuMessages.
From Stdlib Require Import Ascii.
Local Open Scope Z_scope.

(** ** Identifiers: the UUIDs of [vendor/github.com/gofrs/uuid], bytes as
    strings *)

Definition hex_digit (n : nat) : ascii :=
  match String.get n "0123456789abcdef" with Some c => c | None => "0"%char end.

Fixpoint hex (s : string) : string :=
  match s with
  | EmptyString => ""
  | String c s =>
      let n := nat_of_ascii c in
      String (hex_digit (n / 16)%nat) (String (hex_digit (n mod 16)%nat) (hex s))
  end.

Definition zero_byte : ascii := ascii_of_nat 0.
Definition uuid_Nil : string :=
  let z4 s := String zero_byte (String zero_byte (String zero_byte (String zero_byte s))) in
  z4 (z4 (z4 (z4 ""))).

(** The UUID and whether the length was right. *)
Definition FromBytes (input : string) : string * bool :=
  if decide (String.length input = 16%nat) then (input, true) else (uuid_Nil, false).

Definition uuid_String (u : string) : string :=
  hex (String.substring 0 4 u) +:+ "-" +:+ hex (String.substring 4 2 u) +:+ "-" +:+ hex (String.substring 6 2 u) +:+
  "-" +:+ hex (String.substring 8 2 u) +:+ "-" +:+ hex (String.substring 10 6 u).

(** [uuid, _ := uuid.FromBytes(id); uuid.String()] *)
Definition uuid_of (id : string) : string := uuid_String (FromBytes id).1.

Definition UUIDToString (uuidBytes : string) : string :=
  let '(u, ok) := FromBytes uuidBytes in if ok then uuid_String u else uuidBytes.

(** ** The cache of responses *)

Definition cacheTimer : Z := 15 * second.

Record gpuCache : Type := MkCache {
  lastResponse : option GPUGetResponse;
  lastCperResponse : option GPUCPERGetResponse;
  lastTimestamp : Z;
}.

Definition cache_fresh (now : Z) (c : gpuCache) : option GPUGetResponse :=
  r ← lastResponse c;
  if decide (now - lastTimestamp c < cacheTimer) then Some r else None.

(** What happens under the full lock: [now] is the clock of the second test,
    [later] the clock after the call.  The last component tells whether the
    agent was called. *)
Definition cache_locked (now later : Z) (get : GPUGetResponse + string) (c : gpuCache)
    : (GPUGetResponse + string) * gpuCache * bool :=
  match cache_fresh now c with
  | Some r => (inl r, c, false)
  | None =>
      (get, MkCache (match get with inl r => Some r | inr _ => None end) (lastCperResponse c) later,
       true)
  end.

Definition cacheRead (now now' later : Z) (get : GPUGetResponse + string) (c : gpuCache)
    : (GPUGetResponse + string) * gpuCache :=
  match cache_fresh now c with
  | Some r => (inl r, c)
  | None => (cache_locked now' later get c).1
  end.

Definition refreshCperCache (res : GPUCPERGetResponse + string) (c : gpuCache) : gpuCache :=
  match res with
  | inl r => MkCache (lastResponse c) (Some r) (lastTimestamp c)
  | inr _ => c
  end.

(** ** The GPUs of a response *)

(** Up to the first point if there is exactly one. *)
Definition GetPCIeBaseAddress (fullAddr : string) : string :=
  match Split "." fullAddr with
  | [part0; _] => part0
  | _ => fullAddr
  end.

(** One GPU of the loop of [getGPUs]; [None]: a GPU without status. *)
Definition note_partition (m : gmap string GPU) (gpu : GPU) : option (gmap string GPU) :=
  status ← Status gpu;
  match PCIeBusId status with
  | None => Some m
  | Some bus =>
      let gpuPcieAddr := ToLower bus in
      let pcieBaseAddr := GetPCIeBaseAddress gpuPcieAddr in
      if decide (pcieBaseAddr ≠ gpuPcieAddr ∧ PartitionId status = 0)
      then Some (<[pcieBaseAddr := gpu]> m) else Some m
  end.

Fixpoint note_partitions (m : gmap string GPU) (gpus : list GPU) : option (gmap string GPU) :=
  match gpus with
  | [] => Some m
  | gpu :: gpus => m ← note_partition m gpu; note_partitions m gpus
  end.

(** The response with its GPUs and the parents of partitions, or an error;
    [None]: panic. *)
Definition getGPUs (now now' later : Z) (get : GPUGetResponse + string) (c : gpuCache)
    : option (((GPUGetResponse * gmap string GPU) + string) * gpuCache) :=
  let '(res, c) := cacheRead now now' later get c in
  match res with
  | inr err => Some (inr err, c)
  | inl res =>
      partitionMap ← note_partitions ∅ (Response res);
      Some (inl (MkGetResponse (ApiStatus res) (Response res), partitionMap), c)
  end.

Definition getGPUInstanceIDString (gpu : GPU) : string :=
  match Status gpu with Some status => dec (Index status) | None => "" end.
Definition getGPURenderId (gpu : GPU) : string :=
  match Status gpu with Some status => dec (DRMRenderId status) | None => "" end.
Definition getGPUCardId (gpu : GPU) : string :=
  match Status gpu with Some status => dec (DRMCardId status) | None => "" end.
Definition getGPUNodeId (gpu : GPU) : string :=
  match Status gpu with Some status => dec (NodeId status) | None => "" end.
Definition getPCIeBusID (gpu : GPU) : string :=
  match Status gpu with
  | Some status => match PCIeBusId status with Some bus => ToLower bus | None => "" end
  | None => ""
  end.

(** ** Metadata of GPUs *)

Record GPUIDMeta : Type := MkMeta {
  meta_GPUID : string;
  meta_NodeID : string;
  meta_CardID : string;
  meta_RenderID : string;
  meta_PCIeBusId : string;
  meta_DeviceName : string;
  meta_DRAKey : string;
  meta_UUID : string;
}.

Definition GetDRAKey (gpuCardId gpuRenderId : string) : string :=
  if decide (gpuCardId ≠ "" ∧ gpuRenderId ≠ "")
  then "gpu-" +:+ gpuCardId +:+ "-" +:+ gpuRenderId else "".

Section metadata.
(** The device name the file system has for a render id. *)
Context (GetDeviceNameFromRenderID : string → string).

Definition gpu_meta (gpu : GPU) : option GPUIDMeta :=
  status ← Status gpu;
  id ← Spec_Id gpu;
  let renderID := getGPURenderId gpu in
  let cardID := getGPUCardId gpu in
  Some (MkMeta (dec (Index status)) (getGPUNodeId gpu) cardID renderID (getPCIeBusID gpu)
    (GetDeviceNameFromRenderID renderID) (GetDRAKey cardID renderID) (uuid_of id)).

Fixpoint initGPUMetadata (gpus : list GPU) (gpuIDMap : gmap string GPUIDMeta)
    : option (gmap string GPUIDMeta) :=
  match gpus with
  | [] => Some gpuIDMap
  | gpu :: gpus =>
      meta ← gpu_meta gpu;
      initGPUMetadata gpus (<[meta_GPUID meta := meta]> gpuIDMap)
  end.
End metadata.

(** ** The workloads of a GPU *)

Definition getWorkloadInfo (gpuIDMap : gmap string GPUIDMeta) (wls : gmap string Workload)
    (gpuID : string) : list Workload :=
  match gpuIDMap !! gpuID with
  | None => []
  | Some gpuMeta =>
      (if decide (meta_DRAKey gpuMeta ≠ "") then option_list (wls !! meta_DRAKey gpuMeta) else []) ++
      option_list (wls !! meta_PCIeBusId gpuMeta) ++
      option_list (wls !! meta_DeviceName gpuMeta) ++
      option_list (wls !! meta_RenderID gpuMeta) ++
      option_list (wls !! meta_GPUID gpuMeta)
  end.

Definition getWorkloadsListString (gpuIDMap : gmap string GPUIDMeta) (wls : gmap string Workload)
    (gpuID : string) : list string :=
  Workload_String <$> getWorkloadInfo gpuIDMap wls gpuID.

(** ** The latest error record of a GPU *)

Section cper.
(** [time.ParseInLocation] with the layout of the records in the local zone of
    the host. *)
Context (ParseInLocation : string → option Z).

Definition parseCPERRecordTimestamp (record : CPEREntry) : option Z :=
  if decide (Timestamp record = "") then None else ParseInLocation (Timestamp record).

(** An entry of the map with its time, if it has one. *)
Record cperCacheEntry : Type := MkCacheEntry { entry : CPEREntry; timestamp : option Z }.

Definition consider (record : CPEREntry) (existing : option cperCacheEntry) : cperCacheEntry :=
  let current := parseCPERRecordTimestamp record in
  let candidate := MkCacheEntry record current in
  match existing with
  | None => candidate
  | Some existing =>
      match current, timestamp existing with
      | Some t, None => candidate
      | Some t, Some t' => if decide (t' < t) then candidate else existing
      | None, None => candidate
      | None, Some _ => existing
      end
  end.

Definition consider_record (gpuuid : string) (m : gmap string cperCacheEntry) (record : CPEREntry)
    : gmap string cperCacheEntry :=
  <[gpuuid := consider record (m !! gpuuid)]> m.

Definition consider_gpu (m : gmap string cperCacheEntry) (c : GPUCPEREntry)
    : gmap string cperCacheEntry :=
  foldl (consider_record (UUIDToString (cper_GPU c))) m (cper_entries c).

Definition latestCPERPerGPU (gpuCpers : GPUCPERGetResponse) : gmap string CPEREntry :=
  entry <$> foldl consider_gpu ∅ (CPER gpuCpers).

(** [getLatestCPER]: the records, nothing, or the status of the response. *)
Definition getLatestCPER (enableAfidMetrics : bool) (c : gpuCache)
    : option (gmap string CPEREntry) + Z :=
  if enableAfidMetrics then
    match lastCperResponse c with
    | None => inl None
    | Some gpuCpers =>
        if decide (cper_ApiStatus gpuCpers ≠ 0) then inr (cper_ApiStatus gpuCpers)
        else inl (Some (latestCPERPerGPU gpuCpers))
    end
  else inl None.
End cper.

(** ** The latest record is the latest *)

Section cper_proofs.
Context (ParseInLocation : string → option Z).

Abbreviation ts := (parseCPERRecordTimestamp ParseInLocation).

(** All records of a GPU, in the order of the response. *)
Definition records_of (u : string) (resp : GPUCPERGetResponse) : list CPEREntry :=
  filter (λ c, UUIDToString (cper_GPU c) = u) (CPER resp) ≫= cper_entries.

(** The first of the records with the greatest time or, if none of them has
    a time, the last one. *)
Definition is_latest (rs : list CPEREntry) (r : CPEREntry) : Prop :=
  (∃ t l1 l2, rs = l1 ++ r :: l2 ∧ ts r = Some t ∧
     Forall (λ r', ∀ t', ts r' = Some t' → t' < t) l1 ∧
     Forall (λ r', ∀ t', ts r' = Some t' → t' <= t) l2) ∨
  (Forall (λ r', ts r' = None) rs ∧ last rs = Some r).

Definition consider_all (o : option cperCacheEntry) (rs : list CPEREntry) : option cperCacheEntry :=
  foldl (λ o r, Some (consider ParseInLocation r o)) o rs.

Lemma consider_record_lookup u v rs m :
  foldl (consider_record ParseInLocation v) m rs !! u =
  if decide (v = u) then consider_all (m !! u) rs else m !! u.
Proof.
  unfold consider_all. induction rs as [|r rs IH] using rev_ind; [by case_decide|].
  rewrite !foldl_app. cbn [foldl]. unfold consider_record at 1. case_decide as Hv.
  - subst v. by rewrite lookup_insert_eq, IH.
  - by rewrite lookup_insert_ne.
Qed.

Lemma consider_gpus_lookup u l m :
  foldl (consider_gpu ParseInLocation) m l !! u =
  consider_all (m !! u) (filter (λ c, UUIDToString (cper_GPU c) = u) l ≫= cper_entries).
Proof.
  revert m. induction l as [|c l IH]; intros m; [done|]. cbn [foldl]. rewrite IH.
  unfold consider_gpu at 1. rewrite consider_record_lookup, filter_cons.
  case_decide; [|done]. cbn [mbind list_bind]. unfold consider_all. by rewrite foldl_app.
Qed.

(** What is kept after any number of records. *)
Lemma consider_all_latest rs :
  match consider_all None rs with
  | None => rs = []
  | Some e => timestamp e = ts (entry e) ∧ is_latest rs (entry e)
  end.
Proof.
  unfold consider_all. induction rs as [|r rs IH] using rev_ind; [done|].
  rewrite foldl_app. cbn [foldl]. revert IH.
  destruct (foldl _ None rs) as [[e te]|]; cbn [entry timestamp]; unfold consider; intros IH.
  2:{ subst rs. cbn [entry timestamp]. split; [done|]. unfold is_latest. cbn [app].
      destruct (ts r) as [t|] eqn:Ht; [left|right].
      - exists t, [], []. repeat split; [done|..]; constructor.
      - split; [|done]. by repeat constructor. }
  destruct IH as [-> IH]. cbn [timestamp].
  destruct (ts r) as [t|] eqn:Ht, (ts e) as [te|] eqn:He.
  - destruct IH as [(t' & l1 & l2 & -> & He' & H1 & H2)|[Hn Hl]].
    2:{ apply last_Some in Hl as [? ->]. rewrite Forall_app, Forall_singleton in Hn. naive_solver. }
    rewrite He' in He. injection He as ->. case_decide as Hlt; cbn [timestamp entry]; (split; [done|left]).
    + exists t, (l1 ++ e :: l2), []. split_and!; [done|done| |constructor].
      rewrite Forall_app, Forall_cons. split_and!.
      * eapply Forall_impl; [apply H1|]. intros r' H t' Ht'. specialize (H t' Ht'). lia.
      * intros t'. rewrite He'. intros [= <-]. lia.
      * eapply Forall_impl; [apply H2|]. intros r' H t' Ht'. specialize (H t' Ht'). lia.
    + exists te, l1, (l2 ++ [r]). rewrite <- app_assoc. split_and!; [done|done|done|].
      rewrite Forall_app, Forall_singleton. split; [done|]. intros t'. rewrite Ht. intros [= <-]. lia.
  - cbn [entry timestamp]. split; [done|left].
    destruct IH as [(t' & l1 & l2 & -> & He' & _ & _)|[Hn _]]; [congruence|].
    exists t, rs, []. split_and!; [done|done| |constructor].
    eapply Forall_impl; [apply Hn|]. intros r' H t' Ht'. congruence.
  - cbn [entry timestamp]. split; [done|left].
    destruct IH as [(t' & l1 & l2 & -> & He' & H1 & H2)|[Hn Hl]].
    + exists t', l1, (l2 ++ [r]). rewrite <- app_assoc. split_and!; [done|done|done|].
      rewrite Forall_app, Forall_singleton. split; [done|]. intros t''. by rewrite Ht.
    + apply last_Some in Hl as [? ->]. rewrite Forall_app, Forall_singleton in Hn. naive_solver.
  - cbn [entry timestamp]. split; [done|right].
    destruct IH as [(t' & l1 & l2 & -> & He' & _ & _)|[Hn _]]; [congruence|].
    split; [|by apply last_snoc]. by rewrite Forall_app, Forall_singleton.
Qed.

Lemma latestCPER_lookup resp u :
  match latestCPERPerGPU ParseInLocation resp !! u with
  | None => records_of u resp = []
  | Some r => is_latest (records_of u resp) r
  end.
Proof.
  unfold latestCPERPerGPU, records_of. rewrite lookup_fmap, consider_gpus_lookup, lookup_empty.
  pose proof (consider_all_latest
    (filter (λ c, UUIDToString (cper_GPU c) = u) (CPER resp) ≫= cper_entries)) as H.
  destruct (consider_all None _); [by apply H|done].
Qed.
End cper_proofs.

(** The error record reported for a GPU is, of all records of the response
    with the identifier of the GPU, in however many groups they come, the
    first with the latest time; records without a readable time count only
    if no record has one, and then the last one is reported.  A GPU without
    records has none. *)
Theorem latest_cper ParseInLocation resp u :
  match latestCPERPerGPU ParseInLocation resp !! u with
  | None => records_of u resp = []
  | Some r => is_latest ParseInLocation (records_of u resp) r ∧ r ∈ records_of u resp
  end.
Proof.
  pose proof (latestCPER_lookup ParseInLocation resp u) as Hl.
  destruct (latestCPERPerGPU ParseInLocation resp !! u) as [r|]; [|done]. split; [done|].
  destruct Hl as [(t & l1 & l2 & -> & _)|[_ (l & ->)%last_Some]]; set_solver.
Qed.

(** ** Concurrent readers of the cache

    Every reader first looks under the read lock, then again under the full
    lock, where it may call the agent; the refresh of the error records comes
    in between.  Any interleaving of readers is a list of such steps. *)

Inductive cache_step : Type :=
  | Fast (now : Z)
  | Locked (now later : Z) (get : GPUGetResponse + string)
  | RefreshCper (res : GPUCPERGetResponse + string).

(** The cache after the step, and whether the step called the agent. *)
Definition step_cache (c : gpuCache) (s : cache_step) : gpuCache * bool :=
  match s with
  | Fast now => (c, false)
  | Locked now later get => let '(_, c, called) := cache_locked now later get c in (c, called)
  | RefreshCper res => (refreshCperCache res c, false)
  end.

(** No step of the list calls the agent. *)
Fixpoint quiet (c : gpuCache) (l : list cache_step) : bool :=
  match l with
  | [] => true
  | s :: l => let '(c, called) := step_cache c s in negb called && quiet c l
  end.

Definition run_cache (c : gpuCache) (l : list cache_step) : gpuCache :=
  foldl (λ c s, (step_cache c s).1) c l.

Lemma quiet_keeps l c : quiet c l = true →
  lastResponse (run_cache c l) = lastResponse c ∧ lastTimestamp (run_cache c l) = lastTimestamp c.
Proof.
  revert c. induction l as [|s l IH]; intros c; [done|]. cbn [quiet run_cache foldl].
  destruct s as [n|n la get|res]; cbn [step_cache fst].
  - apply IH.
  - unfold cache_locked. destruct (cache_fresh n c); [apply IH|done].
  - intros Hq. destruct (IH _ Hq) as [H1 H2]. unfold run_cache in H1, H2. rewrite H1, H2. by destruct res.
Qed.

(** C36: Rate of calls under any interleaving of readers: after a call of the
    agent that was answered, everything that reads the cache until the next
    call gets that answer, and the next call, whoever makes it, comes no
    earlier than 15 seconds after the answer. *)
Theorem agent_calls_spaced c n1 l1 r mid n2 l2 get
    (Hcall : (step_cache c (Locked n1 l1 (inl r))).2 = true)
    (Hquiet : quiet (step_cache c (Locked n1 l1 (inl r))).1 mid = true) :
  let c' := run_cache (step_cache c (Locked n1 l1 (inl r))).1 mid in
  lastResponse c' = Some r ∧
  (∀ now, now - l1 < cacheTimer → cache_fresh now c' = Some r) ∧
  ((step_cache c' (Locked n2 l2 get)).2 = true → cacheTimer <= n2 - l1).
Proof.
  cbv zeta. destruct (quiet_keeps mid _ Hquiet) as [Hr Ht]. revert Hcall Hr Ht.
  set (c' := run_cache _ mid). clearbody c'. cbn [step_cache]. unfold cache_locked.
  destruct (cache_fresh n1 c); [done|]. cbn [fst snd lastResponse lastTimestamp]. intros _ Hr Ht.
  split_and!; [done| |].
  - intros now Hn. unfold cache_fresh. rewrite Hr, Ht. cbn. by rewrite decide_True.
  - unfold cache_fresh. rewrite Hr, Ht. cbn [mbind option_bind]. case_decide; [done|]. intros _. lia.
Qed.

Lemma agent_calls_spaced_witness :
  let c0 := MkCache None None 0 in
  let r := MkGetResponse 0 [] in
  let c' := run_cache (step_cache c0 (Locked 0 second (inl r))).1
              [Fast second; Locked second second (inr "late"); RefreshCper (inr "")] in
  lastResponse c' = Some r ∧ (step_cache c' (Locked (20 * second) (20 * second) (inl r))).2 = true.
Proof.
  intros c0 r c'. split; [|vm_compute; reflexivity].
  apply (agent_calls_spaced c0 0 second r
    [Fast second; Locked second second (inr "late"); RefreshCper (inr "")] 0 0 (inl r)).
  - vm_compute. reflexivity.
  - vm_compute. reflexivity.
Defined.
