(* ===== verification/GoTime.v ===== *)
(** [time.ParseDuration] of Go's standard library: durations such as [1h15m],
    in nanoseconds as a 64-bit [Duration]; [None] is any of its errors.
    Fractions are computed in binary64, as the library does. *)

From S2P Require Import Prelude RocpSdk Format GoStd RocpClient ExporterUtils.
From Stdlib Require Import Ascii.
Local Open Scope Z_scope.

Definition minute : Z := 60 * second.
Definition hour : Z := 60 * minute.

(** The two spellings of the micro sign are sequences of two bytes. *)
Definition unitMap (u : string) : option Z :=
  if decide (u = "ns") then Some 1
  else if decide (u = "us") then Some 1000
  else if decide (u = String (ascii_of_nat 194) (String (ascii_of_nat 181) "s")) then Some 1000
  else if decide (u = String (ascii_of_nat 206) (String (ascii_of_nat 188) "s")) then Some 1000
  else if decide (u = "ms") then Some 1000000
  else if decide (u = "s") then Some second
  else if decide (u = "m") then Some minute
  else if decide (u = "h") then Some hour
  else None.

(** [None]: overflow. *)
Fixpoint leadingInt (x : Z) (s : string) : option (Z * string) :=
  match s with
  | EmptyString => Some (x, "")
  | String c s' =>
      match digit_value c with
      | None => Some (x, s)
      | Some d =>
          if decide (2 ^ 63 / 10 < x) then None
          else let x := x * 10 + d in
               if decide (2 ^ 63 < x) then None else leadingInt x s'
      end
  end.

(** The digits as a number and the power of ten they are over. *)
Fixpoint leadingFraction (x scale : Z) (overflow : bool) (s : string) : Z * Z * string :=
  match s with
  | EmptyString => (x, scale, "")
  | String c s' =>
      match digit_value c with
      | None => (x, scale, s)
      | Some d =>
          if overflow then leadingFraction x scale overflow s'
          else if decide ((2 ^ 63 - 1) / 10 < x) then leadingFraction x scale true s'
          else let y := x * 10 + d in
               if decide (2 ^ 63 < y) then leadingFraction x scale true s'
               else leadingFraction y (scale * 10) overflow s'
      end
  end.

Definition is_dot (c : ascii) : bool := bool_decide (c = "."%char).
Definition digit_or_dot (c : ascii) : bool := is_dot c || bool_decide (is_Some (digit_value c)).

(** The longest prefix without digits and points. *)
Fixpoint take_unit (s : string) : string * string :=
  match s with
  | EmptyString => ("", "")
  | String c s' =>
      if digit_or_dot c then ("", s)
      else let '(u, r) := take_unit s' in (String c u, r)
  end.

Definition double_of_Z (z : Z) : double := binary_normalize 53 1024 z 0 false.

(** [uint64(float64(f) * (float64(unit) / scale))] *)
Definition fraction_ns (f unit scale : Z) : Z :=
  default 0 (trunc (SFmul 53 1024 (double_of_Z f)
    (SFdiv 53 1024 (double_of_Z unit) (double_of_Z scale)))).

(** A number with its unit, from the front of a non-empty text. *)
Definition parse_component (s : string) : option (Z * string) :=
  match s with
  | EmptyString => None
  | String c _ =>
      if digit_or_dot c then
        '(v, s1) ← leadingInt 0 s;
        let pre := negb (Nat.eqb (String.length s) (String.length s1)) in
        let '(f, scale, s2, post) :=
          match s1 with
          | String c s1' =>
              if is_dot c then
                let '(f, scale, s2) := leadingFraction 0 1 false s1' in
                (f, scale, s2, negb (Nat.eqb (String.length s1') (String.length s2)))
              else (0, 1, s1, false)
          | EmptyString => (0, 1, "", false)
          end in
        if pre || post then
          let '(u, rest) := take_unit s2 in
          if decide (u = "") then None
          else
            unit ← unitMap u;
            if decide (2 ^ 63 / unit < v) then None
            else
              let v := v * unit in
              if decide (0 < f) then
                let v := u64 (v + fraction_ns f unit scale) in
                if decide (2 ^ 63 < v) then None else Some (v, rest)
              else Some (v, rest)
        else None
      else None
  end.

Fixpoint parse_components (fuel : nat) (d : Z) (s : string) : option Z :=
  match s with
  | EmptyString => Some d
  | String _ _ =>
      match fuel with
      | O => None
      | S fuel =>
          '(v, rest) ← parse_component s;
          let d := u64 (d + v) in
          if decide (2 ^ 63 < d) then None else parse_components fuel d rest
      end
  end.

Definition ParseDuration (orig : string) : option Z :=
  let '(neg, s) :=
    match orig with
    | String c s =>
        if decide (c = "-"%char) then (true, s)
        else if decide (c = "+"%char) then (false, s) else (false, orig)
    | EmptyString => (false, "")
    end in
  if decide (s = "0") then Some 0
  else if decide (s = "") then None
  else
    d ← parse_components (String.length s) 0 s;
    if (neg : bool) then Some (- d)
    else if decide (2 ^ 63 - 1 < d) then None else Some d.

Example parse_1h15m : ParseDuration "1h15m30.918s" = Some 4530918000000.
Proof. vm_compute. reflexivity. Qed.
Example parse_1d : ParseDuration "1d" = None.
Proof. vm_compute. reflexivity. Qed.
Example parse_neg : ParseDuration "-1.5h" = Some (-5400000000000).
Proof. vm_compute. reflexivity. Qed.

(** ** Termination: the fuel is enough *)

Lemma leadingInt_length x s v r : leadingInt x s = Some (v, r) →
  (String.length r <= String.length s)%nat.
Proof.
  revert x. induction s as [|c s IH]; intros x; cbn [leadingInt]; [by intros [= _ <-]|].
  destruct (digit_value c); [|by intros [= _ <-]]. repeat case_decide; try done.
  intros Hl. apply IH in Hl. cbn [String.length]. lia.
Qed.

Lemma leadingFraction_length x sc o s : (String.length (leadingFraction x sc o s).2 <= String.length s)%nat.
Proof.
  revert x sc o. induction s as [|c s IH]; intros x sc o; cbn [leadingFraction]; [done|].
  destruct (digit_value c); [|done]. cbn [String.length].
  repeat case_match; (etrans; [apply IH|lia]).
Qed.

Lemma take_unit_app s : s = (take_unit s).1 +:+ (take_unit s).2.
Proof.
  induction s as [|c s IH]; [done|]. cbn [take_unit]. destruct (digit_or_dot c); [done|].
  destruct (take_unit s) as [u r]. cbn [fst snd] in *. by rewrite IH at 1.
Qed.

Lemma parse_component_shrinks s v r : parse_component s = Some (v, r) →
  (String.length r < String.length s)%nat.
Proof.
  destruct s as [|c s]; [done|]. cbn [parse_component]. destruct (digit_or_dot c); [|done].
  destruct (leadingInt 0 (String c s)) as [[w s1]|] eqn:Hl; cbn [mbind option_bind]; [|done].
  apply leadingInt_length in Hl.
  set (q := match s1 with EmptyString => _ | String _ _ => _ end).
  assert (Hq : (String.length q.1.2 <= String.length (String c s))%nat).
  { subst q. destruct s1 as [|c1 s1]; [cbn; lia|]. destruct (is_dot c1); [|done].
    pose proof (leadingFraction_length 0 1 false s1) as Hf.
    destruct (leadingFraction 0 1 false s1) as [[f sc] s2]. cbn [fst snd] in *. cbn [String.length] in *. lia. }
  clearbody q. destruct q as [[[f sc] s2] post]. cbn [fst snd] in Hq. destruct (_ || _); [|done].
  pose proof (take_unit_app s2) as Hu. destruct (take_unit s2) as [u rest]. cbn [fst snd] in Hu.
  case_decide as Hne; [done|]. destruct (unitMap u) as [un|]; cbn [mbind option_bind]; [|done].
  apply (f_equal String.length) in Hu. rewrite string_app_length in Hu.
  assert (0 < String.length u)%nat by (destruct u; [done|cbn; lia]).
  repeat case_decide; try done; intros [= _ <-]; lia.
Qed.

(** More fuel than the text has characters changes nothing: the loop of
    [ParseDuration] ends on its own. *)
Lemma parse_components_fuel fuel fuel' d s :
  (String.length s <= fuel)%nat → (String.length s <= fuel')%nat →
  parse_components fuel d s = parse_components fuel' d s.
Proof.
  revert fuel' d s. induction fuel as [|fuel IH]; intros fuel' d s Hf Hf'.
  - destruct s; [by destruct fuel'|cbn in Hf; lia].
  - destruct s as [|c s]; [by destruct fuel'|]. destruct fuel' as [|fuel']; [cbn in Hf'; lia|].
    cbn [parse_components].
    destruct (parse_component (String c s)) as [[v r]|] eqn:Hp; cbn [mbind option_bind]; [|done].
    apply parse_component_shrinks in Hp. case_decide; [done|]. apply IH; lia.
Qed.

(** ** Whole seconds *)

Lemma read_digits_ge x s : 0 <= x → x <= (read_digits x s).1.
Proof.
  revert x. induction s as [|c s IH]; intros x Hx; cbn [read_digits]; [cbn; lia|].
  unfold digit_value. case_decide as Hd; [|cbn; lia]. etrans; [|apply IH; lia]. lia.
Qed.

Lemma leadingInt_read x s : 0 <= x → (read_digits x s).1 <= 2 ^ 63 →
  leadingInt x s = Some (read_digits x s).
Proof.
  revert x. induction s as [|c s IH]; intros x Hx; cbn [read_digits leadingInt]; [done|].
  unfold digit_value. case_decide as Hd; [|done]. cbn beta iota.
  set (y := 10 * x + _). intros Hy. pose proof (read_digits_ge y s ltac:(lia)).
  assert (x <= 2 ^ 63 / 10) by (apply Z.div_le_lower_bound; lia).
  rewrite decide_False by lia. replace (x * 10 + _) with y by lia.
  rewrite decide_False by lia. apply IH; lia.
Qed.

Lemma digit_not_sign d : 0 <= d < 10 → digit d ≠ "-"%char ∧ digit d ≠ "+"%char.
Proof.
  intros Hd. unfold digit.
  assert (∃ n, (n < 10)%nat ∧ Z.to_nat d = n) as (n & Hn & ->) by (exists (Z.to_nat d); lia).
  do 10 (destruct n as [|n]; [by split_and!|]). lia.
Qed.

Lemma take_unit_plain u : string_forall (λ c, negb (digit_or_dot c)) u = true → take_unit u = (u, "").
Proof.
  induction u as [|c u IH]; [done|]. cbn [string_forall take_unit].
  intros [Hc Hu]%andb_prop. rewrite IH by done. by destruct (digit_or_dot c).
Qed.

Lemma unitMap_ok u unit : unitMap u = Some unit →
  u ≠ "" ∧ string_forall (λ c, negb (digit_or_dot c)) u = true ∧ 0 < unit.
Proof. unfold unitMap. repeat case_decide; intros [= <-]; subst u; by vm_compute. Qed.

(** A decimal number with any unit. *)
Lemma parse_component_dec n u unit : unitMap u = Some unit → 0 <= n → n * unit < 2 ^ 63 →
  parse_component (dec n +:+ u) = Some (n * unit, "").
Proof.
  intros Hun Hn Hlt. destruct (unitMap_ok u unit Hun) as (Hne & Hu & Hpos).
  pose proof (dec_nonneg_read n u Hn) as Hr.
  unfold dec. rewrite (decide_False (P := n < 0)) by lia. unfold dec_nonneg, dec_fuel in *.
  destruct (dec_go_head (Z.to_nat (Z.log2 n)) n "" Hn) as (d & s & Hd & Hs). rewrite Hs in *.
  change (String (digit d) s +:+ u) with (String (digit d) (s +:+ u)) in *.
  destruct u as [|c1 u]; [done|].
  cbn [parse_component]. unfold digit_or_dot at 1. rewrite digit_value_digit by done.
  rewrite orb_true_r. assert (Hu' := Hu). cbn [string_forall] in Hu'.
  apply andb_prop in Hu' as [Hc1%negb_true_iff _]. unfold digit_or_dot in Hc1.
  apply orb_false_iff in Hc1 as [Hdot Hdig%bool_decide_eq_false].
  assert (read_digits n (String c1 u) = (n, String c1 u)) as Hrn.
  { cbn [read_digits]. destruct (digit_value c1); [|done]. exfalso. by apply Hdig. }
  assert (n < 2 ^ 63) by nia.
  rewrite leadingInt_read; [|done|by rewrite Hr, Hrn; cbn; lia].
  rewrite Hr, Hrn. cbn [mbind option_bind]. rewrite Hdot.
  assert (Nat.eqb (String.length (String (digit d) (s +:+ String c1 u)))
            (String.length (String c1 u)) = false) as ->.
  { apply Nat.eqb_neq. cbn [String.length]. rewrite string_app_length. cbn [String.length]. lia. }
  cbn [negb orb]. rewrite take_unit_plain by done. rewrite decide_False by done.
  rewrite Hun. cbn [mbind option_bind].
  rewrite decide_False by (apply Z.nlt_ge, Z.div_le_lower_bound; lia).
  by rewrite decide_False.
Qed.

Lemma ParseDuration_dec n u unit : unitMap u = Some unit → 0 <= n → n * unit < 2 ^ 63 →
  ParseDuration (dec n +:+ u) = Some (n * unit).
Proof.
  intros Hun Hn Hlt. pose proof (parse_component_dec n u unit Hun Hn Hlt) as Hp.
  destruct (unitMap_ok u unit Hun) as (Hne & Hu & Hpos).
  revert Hp. unfold ParseDuration, dec. rewrite !(decide_False (P := n < 0)) by lia.
  unfold dec_nonneg, dec_fuel.
  destruct (dec_go_head (Z.to_nat (Z.log2 n)) n "" Hn) as (d & s & Hd & ->).
  change (String (digit d) s +:+ u) with (String (digit d) (s +:+ u)). intros Hp.
  destruct (digit_not_sign d Hd) as [Hm Hpl]. rewrite (decide_False (P := _ = "-"%char)) by done.
  rewrite (decide_False (P := _ = "+"%char)) by done.
  rewrite decide_False.
  2:{ intros [= _ He]. apply (f_equal String.length) in He. rewrite string_app_length in He.
      destruct u; [done|]. cbn in He. lia. }
  rewrite decide_False by done. cbn [String.length parse_components]. rewrite Hp.
  cbn [mbind option_bind]. unfold u64. rewrite wrap_id by lia. rewrite Z.add_0_l.
  rewrite decide_False by lia. destruct (String.length _); cbn [parse_components mbind option_bind];
    by rewrite decide_False by lia.
Qed.
