(* ===== verification/Config.v ===== *)
(** The configuration of the exporter: the messages of
    [src/pkg/exporter/proto/exporterconfig.proto] as far as these functions
    read them, and the handler of [src/pkg/exporter/config/], which keeps the
    running configuration and supplies the defaults.

    What reading and decoding the file gave, and the environment, are
    arguments.  A message inside a message may be absent. *)

From S2P Require Import Prelude Format GoStd RocpClient GoTime.
Local Open Scope Z_scope.

(** ** Messages *)

Record GPUHealthThresholds : Type := MkThresholds {
  GPU_ECC_UNCORRECT_SDMA : Z;
  GPU_ECC_UNCORRECT_GFX : Z;
  GPU_ECC_UNCORRECT_MMHUB : Z;
  GPU_ECC_UNCORRECT_ATHUB : Z;
  GPU_ECC_UNCORRECT_BIF : Z;
  GPU_ECC_UNCORRECT_HDP : Z;
  GPU_ECC_UNCORRECT_XGMI_WAFL : Z;
  GPU_ECC_UNCORRECT_DF : Z;
  GPU_ECC_UNCORRECT_SMN : Z;
  GPU_ECC_UNCORRECT_SEM : Z;
  GPU_ECC_UNCORRECT_MP0 : Z;
  GPU_ECC_UNCORRECT_MP1 : Z;
  GPU_ECC_UNCORRECT_FUSE : Z;
  GPU_ECC_UNCORRECT_UMC : Z;
  GPU_ECC_UNCORRECT_MCA : Z;
  GPU_ECC_UNCORRECT_VCN : Z;
  GPU_ECC_UNCORRECT_JPEG : Z;
  GPU_ECC_UNCORRECT_IH : Z;
  GPU_ECC_UNCORRECT_MPIO : Z;
  GPU_CPER_MAX_AGE : string;
}.

Record ProfilerConfig : Type := MkProfilerConfig { cfg_SamplingInterval : Z; cfg_PtlDelay : Z }.

(** The labels in the order in which the loops over the maps visit them. *)
Record GPUMetricConfig : Type := MkGPUConfig {
  Selector : string;
  cfg_Fields : list string;
  cfg_Labels : list string;
  HealthThresholds : option GPUHealthThresholds;
  CustomLabels : list (string * string);
  ExtraPodLabels : list (string * string);
  ProfilerMetrics_ : option (gmap string bool);
  cfg_Profiler : option ProfilerConfig;
}.

Record HealthServiceConfig : Type := MkHealthService { Enable : bool; PollingRate : string }.

Record LoggingConfig : Type := MkLogging {
  Level : string;
  MaxFileSizeMB : Z;
  MaxBackups : Z;
  MaxAgeDays : Z;
  LogRotationDisable : bool;
}.

Record CommonConfig : Type := MkCommon {
  MetricsFieldPrefix : string;
  HealthService : option HealthServiceConfig;
  Logging : option LoggingConfig;
}.

Record NICHealthCheckConfig : Type := MkNICHealth { InterfaceAdminDownAsUnhealthy : bool }.

Record MetricConfig : Type := MkConfig {
  ServerPort : Z;
  GPUConfig : option GPUMetricConfig;
  CommonConfig_ : option CommonConfig;
  NICHealthCheck : option NICHealthCheckConfig;   (* of NICConfig, if present *)
}.

Definition empty_config : MetricConfig := MkConfig 0 None None None.
Definition zero_thresholds : GPUHealthThresholds :=
  MkThresholds 0 0 0 0 0 0 0 0 0 0 0 0 0 0 0 0 0 0 0 "".

(** ** The running configuration *)

Definition AMDListenPort : Z := 5000.
Definition GPUAgentIP : string := "127.0.0.1".

Record GPUAgentConfig : Type := MkAgentConfig {
  GrpcPort : Z; UseSocket : bool; SocketPath : string }.

Record Config : Type := MkRunning { serverPort : Z; metricsConfig : MetricConfig }.

Record ConfigHandler : Type := MkHandler {
  agentConfig : GPUAgentConfig;
  configPath : string;
  runningConfig : Config;
}.

Definition NewConfig : Config := MkRunning AMDListenPort empty_config.

Definition NewConfigHandler (path : string) (agent : GPUAgentConfig) : ConfigHandler :=
  MkHandler agent path NewConfig.

Definition Update (newConfig : option MetricConfig) (c : Config) : Config :=
  MkRunning
    (match newConfig with
     | Some n => if decide (ServerPort n ≠ 0) then ServerPort n else AMDListenPort
     | None => AMDListenPort
     end)
    (match newConfig with Some n => n | None => empty_config end).

(** [read] is what [readConfig] returns; [None] is an error of reading or of
    decoding. *)
Definition RefreshConfig (read : option MetricConfig) (c : ConfigHandler) : ConfigHandler :=
  MkHandler (agentConfig c) (configPath c) (Update read (runningConfig c)).

(** [env] is the value of [METRICS_EXPORTER_PORT]. *)
Definition GetServerPort (env : string) (c : ConfigHandler) : Z :=
  let port := serverPort (runningConfig c) in
  if decide (env ≠ "") then
    match Atoi env with None => port | Some number => u32 number end
  else port.

Definition GetConfig (c : ConfigHandler) : MetricConfig := metricsConfig (runningConfig c).

Definition GetAgentAddr (c : ConfigHandler) : string :=
  if UseSocket (agentConfig c) then "unix://" +:+ SocketPath (agentConfig c)
  else GPUAgentIP +:+ ":" +:+ dec (GrpcPort (agentConfig c)).

Definition health_service (c : ConfigHandler) : option HealthServiceConfig :=
  common ← CommonConfig_ (GetConfig c); HealthService common.

Definition GetHealthServiceState (c : ConfigHandler) : bool :=
  match health_service c with Some h => Enable h | None => true end.

Definition defaultInterval : Z := 30 * second.
Definition minInterval : Z := 30 * second.
Definition maxInterval : Z := 24 * hour.

Definition GetHealthPollingInterval (c : ConfigHandler) : Z :=
  match health_service c with
  | None => defaultInterval
  | Some healthCfg =>
      if decide (PollingRate healthCfg = "") then defaultInterval
      else match ParseDuration (PollingRate healthCfg) with
           | None => defaultInterval
           | Some duration =>
               if decide (duration < minInterval) then minInterval
               else if decide (maxInterval < duration) then maxInterval
               else duration
           end
  end.

Definition GetGPUCperMaxAge (c : ConfigHandler) : Z :=
  match GPUConfig (GetConfig c) ≫= HealthThresholds with
  | None => 0
  | Some thresholds =>
      let ageStr := GPU_CPER_MAX_AGE thresholds in
      if decide (ageStr = "") then 0
      else match ParseDuration ageStr with
           | None => 0
           | Some maxAge => if decide (maxAge < 0) then 0 else maxAge
           end
  end.

Definition GetProfilerConfig (c : ConfigHandler) : ProfilerConfig :=
  match GPUConfig (GetConfig c) ≫= cfg_Profiler with
  | Some p =>
      let samplingInterval := cfg_SamplingInterval p in
      MkProfilerConfig (if decide (samplingInterval < 1000) then 1000 else samplingInterval)
        (cfg_PtlDelay p)
  | None => MkProfilerConfig 1000 0
  end.

Definition DefaultLogConfig : LoggingConfig := MkLogging "INFO" 10 3 7 false.

Definition GetLoggerConfig (c : ConfigHandler) : LoggingConfig :=
  match (common ← CommonConfig_ (GetConfig c); Logging common) with
  | None => DefaultLogConfig
  | Some l =>
      MkLogging
        (if decide (Level l ≠ "") then Level l else Level DefaultLogConfig)
        (if decide (MaxFileSizeMB l ≠ 0) then MaxFileSizeMB l else MaxFileSizeMB DefaultLogConfig)
        (if decide (MaxBackups l ≠ 0) then MaxBackups l else MaxBackups DefaultLogConfig)
        (if decide (MaxAgeDays l ≠ 0) then MaxAgeDays l else MaxAgeDays DefaultLogConfig)
        (LogRotationDisable l)
  end.

Definition GetNICHealthCheckConfig (c : ConfigHandler) : NICHealthCheckConfig :=
  default (MkNICHealth false) (NICHealthCheck (GetConfig c)).

(** [getHealthThreshholds] of [gpuagent_health.go]. *)
Definition getHealthThreshholds (c : ConfigHandler) : GPUHealthThresholds :=
  default zero_thresholds (GPUConfig (GetConfig c) ≫= HealthThresholds).

(** ** Properties *)

Lemma polling_interval_bounds c : minInterval <= GetHealthPollingInterval c <= maxInterval.
Proof.
  unfold GetHealthPollingInterval, minInterval, maxInterval, defaultInterval, hour, minute, second.
  destruct (health_service c); [|lia]. case_decide; [lia|].
  destruct (ParseDuration _); [|lia]. repeat case_decide; lia.
Qed.

(** The interval of the health monitor is between 30 seconds and 24 hours
    under every configuration.  A rate written as a number with one of the
    units of Go durations is taken as it is within these bounds and cut to
    them outside; what is no Go duration means 30 seconds: so does [1d],
    which the configuration documents as one day. *)
Theorem polling_interval (c : ConfigHandler) n u unit enable common gpu nic port agent path
    (Hu : unitMap u = Some unit) (Hn : 0 <= n) (Hmax : n * unit < 2 ^ 63) :
  minInterval <= GetHealthPollingInterval c <= maxInterval ∧
  let with_rate rate := MkHandler agent path (MkRunning port (MkConfig port gpu
    (Some (MkCommon common (Some (MkHealthService enable rate)) None)) nic)) in
  GetHealthPollingInterval (with_rate (dec n +:+ u)) =
    Z.max minInterval (Z.min maxInterval (n * unit)) ∧
  (∀ rate, ParseDuration rate = None → GetHealthPollingInterval (with_rate rate) = 30 * second) ∧
  GetHealthPollingInterval (with_rate "1d") = 30 * second.
Proof.
  split; [apply polling_interval_bounds|]. cbv zeta. split_and!.
  - unfold GetHealthPollingInterval. cbn -[dec ParseDuration Z.mul Z.max Z.min Z.lt minInterval maxInterval].
    rewrite decide_False.
    2:{ intros He. apply (f_equal String.length) in He. rewrite string_app_length in He.
        destruct (unitMap_ok u unit Hu) as (Hne & _). destruct u; [done|]. cbn in He. lia. }
    rewrite (ParseDuration_dec n u unit) by done.
    unfold minInterval, maxInterval, hour, minute, second in *. repeat case_decide; lia.
  - intros rate Hr. unfold GetHealthPollingInterval.
    cbn -[ParseDuration Z.mul Z.lt defaultInterval]. rewrite Hr. by case_decide.
  - by vm_compute.
Qed.

Lemma polling_interval_witness :
  let with_rate rate := MkHandler (MkAgentConfig 50061 false "") "/etc/metrics/config.json"
    (MkRunning 5000 (MkConfig 5000 None
      (Some (MkCommon "" (Some (MkHealthService true rate)) None)) None)) in
  unitMap "m" = Some minute ∧
  GetHealthPollingInterval (with_rate "5m") = 5 * minute ∧
  GetHealthPollingInterval (with_rate "1d") = 30 * second.
Proof.
  intros with_rate. split; [done|].
  assert (Hu : unitMap "m" = Some minute) by done.
  assert (H5 : 5 * minute < 2 ^ 63) by done.
  destruct (polling_interval (with_rate "5m") 5 "m" minute true "" None None 5000
    (MkAgentConfig 50061 false "") "/etc/metrics/config.json" Hu ltac:(lia) H5) as (_ & H1 & _ & H2).
  split; [exact H1|exact H2].
Defined.
