(* ===== verification/Selector.v ===== *)
(** Which GPUs are exported: [RangeStrToIntIndices] of
    [src/pkg/exporter/parserutil/options.go], which reads a selector such as
    [0,2,4-7], and [initGPUSelectorConfig] and [exporterEnabledGPU] of
    [src/pkg/amdgpu/gpuagent/gpuagent_gpu_metrics.go].

    An [int] has 64 bits.  The loop over a range counts up to its end, so a
    range that ends at the greatest [int] is never left: [None] is a run that
    has not ended within the fuel. *)

From S2P Require Import Prelude Format GoStd.
From Stdlib Require Import Ascii.
Local Open Scope Z_scope.

Definition MaxInt : Z := 2 ^ 63 - 1.
Definition int64 (z : Z) : Z := (z + 2 ^ 63) mod 2 ^ 64 - 2 ^ 63.

Inductive range_error : Type :=
  | NotARange (numOrRange : string)
  | NotANumber (token : string).

(** [for i := start; i <= end; i++] *)
Fixpoint range_loop (fuel : nat) (i end_ : Z) (indices : list Z) : option (list Z) :=
  if decide (i <= end_) then
    match fuel with
    | O => None
    | S fuel => range_loop fuel (int64 (i + 1)) end_ (indices ++ [i])
    end
  else Some indices.

(** One element of the list: the indices so far and the error, if any. *)
Definition parse_range (fuel : nat) (numOrRange : string) (indices : list Z)
    : option (list Z * option range_error) :=
  match Split "-" numOrRange with
  | [t] =>
      Some (match Atoi t with
            | None => (indices, Some (NotANumber t))
            | Some number => (indices ++ [number], None)
            end)
  | [t0; t1] =>
      match Atoi t0 with
      | None => Some (indices, Some (NotANumber t0))
      | Some start =>
          match Atoi t1 with
          | None => Some (indices, Some (NotANumber t1))
          | Some end_ =>
              if decide (end_ < start) then Some (indices, Some (NotARange numOrRange))
              else indices ← range_loop fuel start end_ indices; Some (indices, None)
          end
      end
  | _ => Some (indices, Some (NotARange numOrRange))
  end.

Fixpoint parse_ranges (fuel : nat) (numbers : list string) (indices : list Z)
    : option (list Z * option range_error) :=
  match numbers with
  | [] => Some (indices, None)
  | x :: numbers =>
      '(indices, err) ← parse_range fuel x indices;
      match err with
      | Some _ => Some (indices, err)
      | None => parse_ranges fuel numbers indices
      end
  end.

Definition RangeStrToIntIndices (fuel : nat) (b : string) : option (list Z * option range_error) :=
  parse_ranges fuel (Split "," b) [].

(** The selector of a configuration, [""] for none; the map keeps what
    earlier configurations selected. *)
Definition initGPUSelectorConfig (fuel : nat) (selector : string) (gpuSelectorMap : gset Z)
    : option (gset Z) :=
  if decide (selector ≠ "") then
    '(indices, err) ← RangeStrToIntIndices fuel selector;
    match err with
    | Some _ => Some gpuSelectorMap
    | None => Some (list_to_set indices ∪ gpuSelectorMap)
    end
  else Some gpuSelectorMap.

Definition exporterEnabledGPU (gpuSelectorMap : gset Z) (instance : Z) : bool :=
  bool_decide (gpuSelectorMap = ∅ ∨ instance ∈ gpuSelectorMap).

(** The configurations loaded one after the other. *)
Fixpoint load_selectors (fuel : nat) (selectors : list string) (gpuSelectorMap : gset Z)
    : option (gset Z) :=
  match selectors with
  | [] => Some gpuSelectorMap
  | s :: selectors => m ← initGPUSelectorConfig fuel s gpuSelectorMap; load_selectors fuel selectors m
  end.

(** ** Selectors and their texts *)

Inductive span : Type := One (n : Z) | Span (a b : Z).

Definition span_ok (x : span) : Prop :=
  match x with One n => 0 <= n <= MaxInt | Span a b => 0 <= a <= b ∧ b < MaxInt end.

Definition print_span (x : span) : string :=
  match x with One n => dec n | Span a b => dec a +:+ String "-" (dec b) end.

Definition span_indices (x : span) : list Z :=
  match x with One n => [n] | Span a b => seqZ a (b - a + 1) end.

Definition span_size (x : span) : nat :=
  match x with One _ => 0%nat | Span a b => Z.to_nat (b - a + 1) end.

Definition print_selector (l : list span) : string := intercalate "," (print_span <$> l).

Lemma int64_small z : - 2 ^ 63 <= z < 2 ^ 63 → int64 z = z.
Proof. intros Hz. unfold int64. rewrite Z.mod_small; lia. Qed.

Lemma range_loop_spec (n : nat) : ∀ fuel i end_ acc,
  0 <= i → end_ < MaxInt → end_ - i + 1 = Z.of_nat n → (n <= fuel)%nat →
  range_loop fuel i end_ acc = Some (acc ++ seqZ i (Z.of_nat n)).
Proof.
  unfold MaxInt. induction n as [|n IH]; intros fuel i end_ acc Hi He Hn Hf.
  - change (seqZ i (Z.of_nat 0)) with (@nil Z). rewrite app_nil_r.
    destruct fuel; cbn [range_loop]; by rewrite decide_False by lia.
  - destruct fuel as [|fuel]; [lia|]. cbn [range_loop]. rewrite decide_True by lia.
    rewrite int64_small by lia. rewrite (IH fuel (i + 1) end_) by lia.
    rewrite (seqZ_cons i) by lia. rewrite <- app_assoc. cbn [app].
    replace (Z.succ i) with (i + 1) by lia. by replace (Z.pred (Z.of_nat (S n))) with (Z.of_nat n) by lia.
Qed.

Lemma range_loop_diverges fuel : ∀ i acc, - 2 ^ 63 <= i <= MaxInt → range_loop fuel i MaxInt acc = None.
Proof.
  unfold MaxInt. induction fuel as [|fuel IH]; intros i acc Hi; cbn [range_loop].
  - by rewrite decide_True by lia.
  - rewrite decide_True by lia. apply IH. unfold int64.
    pose proof (Z.mod_pos_bound (i + 1 + 2 ^ 63) (2 ^ 64)). lia.
Qed.

Lemma Split_span x : span_ok x →
  Split "-" (print_span x) = match x with One n => [dec n] | Span a b => [dec a; dec b] end.
Proof.
  destruct x as [n|a b]; cbn [span_ok print_span]; intros Hok.
  - apply Split_plain, dec_no_sep; [lia|done].
  - rewrite Split_app by (apply dec_no_sep; [lia|done]).
    by rewrite Split_plain by (apply dec_no_sep; [lia|done]).
Qed.

Lemma parse_range_span fuel x acc : span_ok x → (span_size x <= fuel)%nat →
  parse_range fuel (print_span x) acc = Some (acc ++ span_indices x, None).
Proof.
  intros Hok Hf. unfold parse_range. rewrite Split_span by done. unfold MaxInt in *.
  destruct x as [n|a b]; cbn [span_ok span_size span_indices] in *; unfold MaxInt in *.
  - by rewrite Atoi_dec by lia.
  - rewrite !Atoi_dec by lia. rewrite decide_False by lia.
    rewrite (range_loop_spec (Z.to_nat (b - a + 1))) by (unfold MaxInt; lia).
    cbn [mbind option_bind]. by rewrite Z2Nat.id by lia.
Qed.

Lemma parse_ranges_spans fuel l acc : Forall span_ok l → Forall (λ x, (span_size x <= fuel)%nat) l →
  parse_ranges fuel (print_span <$> l) acc = Some (acc ++ (l ≫= span_indices), None).
Proof.
  intros Hok Hf. revert acc. induction l as [|x l IH]; intros acc; [by rewrite app_nil_r|].
  apply Forall_cons in Hok as [Hx Hok]. apply Forall_cons in Hf as [Hfx Hf].
  rewrite fmap_cons. cbn [parse_ranges]. rewrite parse_range_span by done.
  cbn [mbind option_bind list_bind]. rewrite IH by done. by rewrite <- app_assoc.
Qed.

Lemma print_span_no_comma x : span_ok x →
  string_forall (λ c, bool_decide (c ≠ ","%char)) (print_span x) = true.
Proof.
  destruct x as [n|a b]; cbn [span_ok print_span]; intros Hok.
  - apply dec_no_sep; [lia|done].
  - rewrite string_forall_app. cbn [string_forall]. by rewrite !dec_no_sep by (try done; lia).
Qed.

Lemma RangeStr_print fuel l : l ≠ [] → Forall span_ok l → Forall (λ x, (span_size x <= fuel)%nat) l →
  RangeStrToIntIndices fuel (print_selector l) = Some (l ≫= span_indices, None).
Proof.
  intros Hl Hok Hf. unfold RangeStrToIntIndices, print_selector. rewrite Split_intercalate.
  - by rewrite parse_ranges_spans.
  - by destruct l.
  - apply Forall_fmap. eapply Forall_impl; [exact Hok|]. intros x Hx. by apply print_span_no_comma.
Qed.

(** A selector written as a list of numbers and ranges is read back as
    exactly their indices, in order, and its loops end, after as many turns
    as the longest range has indices; a range up to the greatest [int] is
    accepted as well, and its loop never ends. *)
Theorem selector_roundtrip fuel l (Hl : l ≠ []) (Hok : Forall span_ok l)
    (Hfuel : Forall (λ x, (span_size x <= fuel)%nat) l) :
  RangeStrToIntIndices fuel (print_selector l) = Some (l ≫= span_indices, None) ∧
  (∀ fuel' a, 0 <= a <= MaxInt →
     RangeStrToIntIndices fuel' (dec a +:+ String "-" (dec MaxInt)) = None).
Proof.
  split; [by apply RangeStr_print|]. intros fuel' a Ha. unfold RangeStrToIntIndices.
  rewrite Split_plain.
  2:{ rewrite string_forall_app. cbn [string_forall].
      by rewrite !dec_no_sep by (try done; unfold MaxInt in *; lia). }
  cbn [parse_ranges]. unfold parse_range.
  rewrite Split_app by (apply dec_no_sep; [lia|done]).
  rewrite Split_plain by (apply dec_no_sep; done).
  rewrite !Atoi_dec by (unfold MaxInt in *; lia). rewrite decide_False by lia.
  rewrite range_loop_diverges by lia. done.
Qed.

Lemma selector_roundtrip_witness :
  RangeStrToIntIndices 4 "0,2,4-7" = Some ([0; 2; 4; 5; 6; 7], None).
Proof.
  refine (proj1 (selector_roundtrip 4 [One 0; One 2; Span 4 7] _ _ _)).
  - done.
  - repeat constructor; unfold MaxInt; lia.
  - repeat constructor; vm_compute; lia.
Defined.

(** What a sequence of selectors that can be read leaves in the map. *)
Lemma load_selectors_union fuel ls m :
  Forall (λ l, l ≠ [] ∧ Forall span_ok l ∧ Forall (λ x, (span_size x <= fuel)%nat) l) ls →
  load_selectors fuel (print_selector <$> ls) m =
  Some (list_to_set (mjoin ls ≫= span_indices) ∪ m).
Proof.
  intros Hls. revert m. induction Hls as [|l ls (Hl & Hok & Hf) Hls IH]; intros m.
  - cbn. f_equal. set_solver.
  - rewrite fmap_cons. cbn [load_selectors]. unfold initGPUSelectorConfig. rewrite decide_True.
    + rewrite RangeStr_print by done. cbn [mbind option_bind]. rewrite IH. f_equal.
      cbn [mjoin list_join]. rewrite bind_app, list_to_set_app_L. set_solver.
    + intros He. pose proof (RangeStr_print fuel l Hl Hok Hf) as Hr. rewrite He in Hr. done.
Qed.

(** The GPUs exported after a sequence of configurations with selectors
    are those that any of them selected, not those of the last one: a GPU
    that was selected once stays exported until the process ends, and taking
    the selector out of the configuration does not select all GPUs again. *)
Theorem selector_accumulates fuel ls instance m (Hne : ls ≠ [])
    (Hls : Forall (λ l, l ≠ [] ∧ Forall span_ok l ∧ Forall (λ x, (span_size x <= fuel)%nat) l) ls)
    (Hm : load_selectors fuel ((print_selector <$> ls) ++ [""]) ∅ = Some m) :
  exporterEnabledGPU m instance = true ↔ ∃ l, l ∈ ls ∧ instance ∈ (l ≫= span_indices).
Proof.
  assert (Happ : ∀ a b m0, load_selectors fuel (a ++ b) m0 =
    load_selectors fuel a m0 ≫= load_selectors fuel b).
  { induction a as [|x a IH]; intros b m0; [done|]. cbn [app load_selectors].
    destruct (initGPUSelectorConfig fuel x m0); cbn [mbind option_bind]; [apply IH|done]. }
  rewrite Happ, load_selectors_union in Hm by done. cbn in Hm. injection Hm as <-.
  unfold exporterEnabledGPU. rewrite bool_decide_eq_true.
  assert (Hin : instance ∈ (list_to_set (mjoin ls ≫= span_indices) ∪ ∅ : gset Z) ↔
    ∃ l, l ∈ ls ∧ instance ∈ (l ≫= span_indices)).
  { rewrite union_empty_r_L, elem_of_list_to_set, list_elem_of_bind.
    setoid_rewrite list_elem_of_bind. setoid_rewrite list_elem_of_join. naive_solver. }
  split; [|by intros H%Hin; right].
  intros [He|H]; [exfalso|by apply Hin].
  destruct ls as [|l ls]; [done|]. apply Forall_cons in Hls as [(Hl & Hok & _) _].
  destruct l as [|x l]; [done|]. apply Forall_cons in Hok as [Hx _].
  assert (∃ i, i ∈ span_indices x) as [i Hi].
  { destruct x as [n|a b]; cbn [span_indices span_ok] in *; [exists n; by left|].
    exists a. apply elem_of_seqZ. lia. }
  assert (i ∈ (∅ : gset Z)); [|set_solver]. rewrite <- He, union_empty_r_L, elem_of_list_to_set.
  cbn [mjoin list_join app mbind list_bind]. set_solver.
Qed.

Lemma selector_accumulates_witness :
  ∃ m, load_selectors 4 ["0-3"; "4-7"; ""] ∅ = Some m ∧ exporterEnabledGPU m 0 = true.
Proof.
  eexists. split; [vm_compute; reflexivity|].
  apply (selector_accumulates 4 [[Span 0 3]; [Span 4 7]]).
  - done.
  - repeat constructor; try done; unfold MaxInt; vm_compute; lia.
  - vm_compute. reflexivity.
  - exists [Span 0 3]. split; [by left|]. apply (bool_decide_unpack _). by vm_compute.
Defined.
