(* ===== verification/GpuHealth.v ===== *)
(** The health of the GPUs, [src/pkg/amdgpu/gpuagent/gpuagent_health.go]: what
    the monitor publishes for every GPU from the counters of uncorrectable
    errors, the critical events and the error records of the agent, and from
    the health of the compute node.

    [None] in the [option] monad is the end of the process: a [nil] pointer
    that is followed, or [Fatalf].  Every operation runs under the lock of
    the client or is called from the one monitor; the answers of the agent,
    the workloads, the clock and the environment are arguments. *)

From S2P Require Import Prelude RocpSdk Format GoStd ExporterUtils RocpClient Scheduler GpuMessages GpuAgent.
From S2P Require Import GoTime Config NodeLabeller.
Local Open Scope Z_scope.

Record GPUState : Type := MkState {
  ID : string;
  UUID : string;
  Health : string;
  Device : string;
  AssociatedWorkload : list string;
}.

Definition set_health (h : string) (s : GPUState) : GPUState :=
  MkState (ID s) (UUID s) h (Device s) (AssociatedWorkload s).

Inductive EventSeverity : Type :=
  | EVENT_SEVERITY_NONE
  | EVENT_SEVERITY_DEBUG
  | EVENT_SEVERITY_INFO
  | EVENT_SEVERITY_WARN
  | EVENT_SEVERITY_CRITICAL.
#[export] Instance EventSeverity_eq_dec : EqDecision EventSeverity.
Proof. solve_decision. Defined.

Record Event : Type := MkEvent { evt_GPU : string; evt_Severity : EventSeverity }.
Record EventResponse : Type := MkEventResponse { evt_ApiStatus : Z; evt_list : list Event }.

Inductive health_error : Type :=
  | ComputeNodeUnhealthy
  | ErrZeroGPUs
  | ErrAgentUnreachable.
#[export] Instance health_error_eq_dec : EqDecision health_error.
Proof. solve_decision. Defined.

Definition isRestartableFailure (err : health_error) : bool :=
  match err with ErrAgentUnreachable | ErrZeroGPUs => true | ComputeNodeUnhealthy => false end.

Abbreviation Mocks := (gmap string (gmap string Z)).
Abbreviation States := (gmap string GPUState).

Section health.
Context {P : Type} (implementation : Z → double → Z) (ParseInLocation : string → option Z).
Context (GetDeviceNameFromRenderID : string → string).

(** The fields of [GPUAgentGPUClient] the health of GPUs depends on, and
    [computeNodeHealthState] of its handler. *)
Record GPUAgentGPUClient : Type := MkClient {
  rocpclient : option (ROCProfilerClient P);
  healthState : States;
  mockEccField : Mocks;
  gCache : gpuCache;
  gpuIDMap : gmap string GPUIDMeta;
  computeNodeHealthState : bool;
}.

Definition set_healthState (h : States) (ga : GPUAgentGPUClient) : GPUAgentGPUClient :=
  MkClient (rocpclient ga) h (mockEccField ga) (gCache ga) (gpuIDMap ga) (computeNodeHealthState ga).
Definition set_gCache (c : gpuCache) (ga : GPUAgentGPUClient) : GPUAgentGPUClient :=
  MkClient (rocpclient ga) (healthState ga) (mockEccField ga) c (gpuIDMap ga)
    (computeNodeHealthState ga).

(** ** Injected errors *)

Definition getMockError (mocks : Mocks) (gpuid field : string) : Z :=
  match mocks !! gpuid with
  | None => 0
  | Some fields => default 0 (fields !! field)
  end.

(** The loop [for i, field := range fields]; [None]: fewer values than
    fields. *)
Fixpoint set_fields (fields : list string) (values : list Z) (m : gmap string Z)
    : option (gmap string Z) :=
  match fields, values with
  | [], _ => Some m
  | f :: fields, v :: values => set_fields fields values (<[f := v]> m)
  | _ :: _, [] => None
  end.

Definition SetError (gpuid : string) (fields : list string) (values : list Z)
    (ga : GPUAgentGPUClient) : option GPUAgentGPUClient :=
  m ← set_fields fields values (default ∅ (mockEccField ga !! gpuid));
  Some (MkClient (rocpclient ga) (healthState ga) (<[gpuid := m]> (mockEccField ga)) (gCache ga)
          (gpuIDMap ga) (computeNodeHealthState ga)).

(** ** Counters of uncorrectable errors *)

(** The calls of [metricErrCheck] for one GPU: field, threshold, counter. *)
Definition ecc_checks (th : GPUHealthThresholds) (stats : GPUStats) : list (string * Z * Z) :=
  [ ("GPU_ECC_UNCORRECT_SDMA", GPU_ECC_UNCORRECT_SDMA th, SDMAUncorrectableErrors stats);
    ("GPU_ECC_UNCORRECT_GFX", GPU_ECC_UNCORRECT_GFX th, GFXUncorrectableErrors stats);
    ("GPU_ECC_UNCORRECT_MMHUB", GPU_ECC_UNCORRECT_MMHUB th, MMHUBUncorrectableErrors stats);
    ("GPU_ECC_UNCORRECT_ATHUB", GPU_ECC_UNCORRECT_ATHUB th, ATHUBUncorrectableErrors stats);
    ("GPU_ECC_UNCORRECT_BIF", GPU_ECC_UNCORRECT_BIF th, BIFUncorrectableErrors stats);
    ("GPU_ECC_UNCORRECT_HDP", GPU_ECC_UNCORRECT_HDP th, HDPUncorrectableErrors stats);
    ("GPU_ECC_UNCORRECT_XGMI_WAFL", GPU_ECC_UNCORRECT_XGMI_WAFL th, XGMIWAFLUncorrectableErrors stats);
    ("GPU_ECC_UNCORRECT_DF", GPU_ECC_UNCORRECT_DF th, DFUncorrectableErrors stats);
    ("GPU_ECC_UNCORRECT_SMN", GPU_ECC_UNCORRECT_SMN th, SMNUncorrectableErrors stats);
    ("GPU_ECC_UNCORRECT_SEM", GPU_ECC_UNCORRECT_SEM th, SEMUncorrectableErrors stats);
    ("GPU_ECC_UNCORRECT_MP0", GPU_ECC_UNCORRECT_MP0 th, MP0UncorrectableErrors stats);
    ("GPU_ECC_UNCORRECT_MP1", GPU_ECC_UNCORRECT_MP1 th, MP1UncorrectableErrors stats);
    ("GPU_ECC_UNCORRECT_FUSE", GPU_ECC_UNCORRECT_FUSE th, FUSEUncorrectableErrors stats);
    ("GPU_ECC_UNCORRECT_UMC", GPU_ECC_UNCORRECT_UMC th, UMCUncorrectableErrors stats);
    ("GPU_ECC_UNCORRECT_MCA", GPU_ECC_UNCORRECT_MCA th, MCAUncorrectableErrors stats);
    ("GPU_ECC_UNCORRECT_VCN", GPU_ECC_UNCORRECT_VCN th, VCNUncorrectableErrors stats);
    ("GPU_ECC_UNCORRECT_JPEG", GPU_ECC_UNCORRECT_JPEG th, JPEGUncorrectableErrors stats);
    ("GPU_ECC_UNCORRECT_IH", GPU_ECC_UNCORRECT_IH th, IHUncorrectableErrors stats);
    ("GPU_ECC_UNCORRECT_MPIO", GPU_ECC_UNCORRECT_MPIO th, MPIOUncorrectableErrors stats) ].

(** [newGPUState[gpuid].Health = unhealthy] *)
Definition mark_unhealthy (gpuid : string) (m : States) : option States :=
  s ← m !! gpuid; Some (<[gpuid := set_health UNHEALTHY s]> m).

Definition metricErrCheck (mocks : Mocks) (gpuid : string) (m : States) (check : string * Z * Z)
    : option States :=
  let '(fieldName, threshold, stat) := check in
  count ← NormalizeUint64 implementation (Uint64 stat);
  let mockVal := getMockError mocks gpuid fieldName in
  let count := if decide (0 < mockVal) then mockVal else count in
  if decide (threshold < count) then mark_unhealthy gpuid m else Some m.

Definition process_gpu (ga : GPUAgentGPUClient) (th : GPUHealthThresholds)
    (wls : gmap string Workload) (m : States) (gpu : GPU) : option States :=
  id ← Spec_Id gpu;
  status ← Status gpu;
  let gpuid := getGPUInstanceIDString gpu in
  let deviceid := match PCIeBusId status with Some bus => ToLower bus | None => "" end in
  let workloadInfo := getWorkloadsListString (gpuIDMap ga) wls gpuid in
  let m := <[gpuid := MkState gpuid (uuid_of id) HEALTHY deviceid workloadInfo]> m in
  stats ← Stats gpu;
  foldM (metricErrCheck (mockEccField ga) gpuid) m (ecc_checks th stats).

Definition processEccErrorMetrics (ga : GPUAgentGPUClient) (th : GPUHealthThresholds)
    (gpus : list GPU) (wls : gmap string Workload) : option States :=
  foldM (process_gpu ga th wls) ∅ gpus.

(** ** Error records *)

Definition isFatalCPERActionable (record : CPEREntry) (maxAge now : Z) : bool :=
  if decide (Severity record ≠ CPER_SEVERITY_FATAL) then false
  else if decide (maxAge = 0) then true
  else match parseCPERRecordTimestamp ParseInLocation record with
       | None => true
       | Some recordTS => negb (bool_decide (maxAge < now - recordTS))
       end.

(** [clock]: the time when the record of a GPU is examined. *)
Definition applyCPERHealthChecks (maxAge : Z) (clock : string → Z)
    (gpuUUIDMap : gmap string string) (newGPUState : States) (gpuCper : option GPUCPERGetResponse)
    : option States :=
  match gpuCper with
  | None => Some newGPUState
  | Some gpuCper =>
      if decide (cper_ApiStatus gpuCper ≠ 0) then Some newGPUState
      else
        map_fold (λ gpuuid record (acc : option States),
          m ← acc;
          if isFatalCPERActionable record maxAge (clock gpuuid) then
            match gpuUUIDMap !! gpuuid with
            | Some gpuid => mark_unhealthy gpuid m
            | None => Some m
            end
          else Some m) (Some newGPUState) (latestCPERPerGPU ParseInLocation gpuCper)
  end.

(** ** Events *)

Definition eventErrCheck (gpuUUIDMap : gmap string string) (m : States) (e : Event) : option States :=
  if decide (evt_Severity e = EVENT_SEVERITY_CRITICAL) then
    match gpuUUIDMap !! uuid_of (evt_GPU e) with
    | Some gpuid => mark_unhealthy gpuid m
    | None => Some m
    end
  else Some m.

(** ** Updates of the published state *)

Definition setUnhealthyGPU (wls : gmap string Workload) (ga : GPUAgentGPUClient)
    : GPUAgentGPUClient :=
  set_healthState ((λ s, MkState (ID s) (UUID s) UNHEALTHY (Device s)
    (getWorkloadsListString (gpuIDMap ga) wls (ID s))) <$> healthState ga) ga.

Definition updateNewHealthState (newGPUState : States) (ga : GPUAgentGPUClient)
    : GPUAgentGPUClient := set_healthState newGPUState ga.

(** [Close] of the GPU client. *)
Definition Close (ga : GPUAgentGPUClient) : GPUAgentGPUClient :=
  MkClient (ResetFailureCount <$> rocpclient ga) (healthState ga) (mockEccField ga) (gCache ga)
    (gpuIDMap ga) (computeNodeHealthState ga).

(** ** One round of the monitor *)

Record poll : Type := MkPoll {
  wls : gmap string Workload;           (* ListWorkloads *)
  now : Z; now' : Z; later : Z;         (* the clock in cacheRead *)
  gpuGet : GPUGetResponse + string;     (* the answer to GPUGet, if it is called *)
  enableSriov : bool;
  simEnabled : bool;                    (* IsSimEnabled *)
  eventsDisable : bool;                 (* GPUAGENT_EVENTS_DISABLE *)
  eventGet : EventResponse + string;    (* the answer to EventGet, if it is called *)
  clock : string → Z;
  cfg : ConfigHandler;
}.

Definition IsEventsDisabled (p : poll) : bool := eventsDisable p || simEnabled p.

Definition uuid_map (m : gmap string string) (gpu : GPU) : option (gmap string string) :=
  id ← Spec_Id gpu;
  status ← Status gpu;
  Some (<[uuid_of id := dec (Index status)]> m).

Definition event_checks (p : poll) (gpuUUIDMap : gmap string string) (m : States) : option States :=
  if IsEventsDisabled p then Some m
  else match eventGet p with
       | inr _ => Some m
       | inl evtData =>
           if decide (evt_ApiStatus evtData ≠ 0) then Some m
           else foldM (eventErrCheck gpuUUIDMap) m (evt_list evtData)
       end.

(** The new state of all GPUs of a response. *)
Definition new_states (p : poll) (ga : GPUAgentGPUClient) (gpus : list GPU) : option States :=
  m ← processEccErrorMetrics ga (getHealthThreshholds (cfg p)) gpus (wls p);
  gpuUUIDMap ← foldM uuid_map ∅ gpus;
  if enableSriov p || simEnabled p then Some m
  else
    m ← event_checks p gpuUUIDMap m;
    applyCPERHealthChecks (GetGPUCperMaxAge (cfg p)) (clock p) gpuUUIDMap m
      (lastCperResponse (gCache ga)).

Definition processHealthValidation (p : poll) (ga : GPUAgentGPUClient)
    : option (option health_error * GPUAgentGPUClient) :=
  if computeNodeHealthState ga then
    '(gpumetrics, c) ← getGPUs (now p) (now' p) (later p) (gpuGet p) (gCache ga);
    let ga := set_gCache c ga in
    let fail := Some (Some ErrAgentUnreachable, setUnhealthyGPU (wls p) (Close ga)) in
    match gpumetrics with
    | inr _ => fail
    | inl (gpumetrics, _) =>
        if decide (ApiStatus gpumetrics ≠ 0) then fail
        else if decide (Response gpumetrics = []) then
          Some (Some ErrZeroGPUs, setUnhealthyGPU (wls p) ga)
        else
          newGPUState ← new_states p ga (Response gpumetrics);
          Some (None, updateNewHealthState newGPUState ga)
    end
  else Some (Some ComputeNodeUnhealthy, setUnhealthyGPU (wls p) ga).

(** ** Loading a configuration: the part of [UpdateStaticMetrics] that
    touches metadata and health *)

Definition UpdateStaticMetrics (p : poll) (ga : GPUAgentGPUClient)
    : option (option string * GPUAgentGPUClient) :=
  '(resp, c) ← getGPUs (now p) (now' p) (later p) (gpuGet p) (gCache ga);
  let ga := set_gCache c ga in
  match resp with
  | inr err => Some (Some err, ga)
  | inl (resp, _) =>
      if decide (ApiStatus resp ≠ 0) then Some (Some (dec (ApiStatus resp)), ga)
      else
        ids ← initGPUMetadata GetDeviceNameFromRenderID (Response resp) (gpuIDMap ga);
        let ga := MkClient (rocpclient ga) (healthState ga) (mockEccField ga) (gCache ga) ids
                    (computeNodeHealthState ga) in
        newGPUState ← processEccErrorMetrics ga (getHealthThreshholds (cfg p)) (Response resp) (wls p);
        Some (None, updateNewHealthState newGPUState ga)
  end.

(** ** The health of the compute node *)

Definition updateAllGPUsHealthState (healthStr : string) (wls : gmap string Workload)
    (ga : GPUAgentGPUClient) : GPUAgentGPUClient :=
  if decide (healthState ga ≠ ∅) then
    set_healthState (set_health healthStr <$> healthState ga) ga
  else
    set_healthState (map_imap (λ gpuid meta,
      Some (MkState (meta_GPUID meta) (meta_UUID meta) healthStr (meta_PCIeBusId meta)
              (getWorkloadsListString (gpuIDMap ga) wls gpuid))) (gpuIDMap ga)) ga.

Definition SetComputeNodeHealthState (state : bool) (wls : gmap string Workload)
    (ga : GPUAgentGPUClient) : GPUAgentGPUClient :=
  if decide (computeNodeHealthState ga = state) then ga
  else
    let ga := MkClient (rocpclient ga) (healthState ga) (mockEccField ga) (gCache ga) (gpuIDMap ga)
                state in
    updateAllGPUsHealthState (if state then HEALTHY else UNHEALTHY) wls ga.

(** [None]: an error, nothing is known yet. *)
Definition GetHealthStates (ga : GPUAgentGPUClient) : option States :=
  if decide (healthState ga = ∅) then None else Some (healthState ga).

(** ** The labels of the node *)

Definition GPUHealthLabelPrefix : string := "metricsexporter.amd.com.gpu".

(** The states the labels are to show. *)
Definition unhealthy_states (ga : GPUAgentGPUClient) : gmap string string :=
  omap (λ s, if decide (Health s = HEALTHY) then None else Some (Health s)) (healthState ga).

(** The error and the update of the labels, if there was one; [k8sClient]
    tells whether there is a client, [get] and [update] are the answers of
    the Kubernetes API. *)
Definition sendNodeLabelUpdate (enabledK8sApi : bool) (nodeName : string) (k8sClient : bool)
    (get : gmap string string + string) (update : option string) (ga : GPUAgentGPUClient)
    : option string * option label_update :=
  if enabledK8sApi then
    if decide (nodeName = "") then (Some "node name not found", None)
    else if k8sClient then
      (None, Some (UpdateHealthLabel (Some (NewNodeHealthLabellerConfig GPUHealthLabelPrefix))
                     get update (unhealthy_states ga)))
    else (None, None)
  else (None, None).
End health.

Arguments GPUAgentGPUClient : clear implicits.
