(* ===== verification/GpuHealthProofs.v ===== *)
(** What the health monitor publishes: the abstract board of lamps, and that
    the operations of [GpuHealth] implement it. *)

From S2P Require Import Prelude RocpSdk Format GoStd ExporterUtils RocpClient Scheduler GpuMessages GpuAgent.
From S2P Require Import GoTime Config NodeLabeller GpuHealth.
Local Open Scope Z_scope.

(** ** Marking GPUs *)

Definition mark (Q : string → bool) (m : States) : States :=
  map_imap (λ k s, Some (if Q k then set_health UNHEALTHY s else s)) m.

Lemma mark_lookup Q m k :
  mark Q m !! k = (λ s, if Q k then set_health UNHEALTHY s else s) <$> m !! k.
Proof. unfold mark. rewrite map_lookup_imap. by destruct (m !! k). Qed.

Lemma mark_ext Q R m : (∀ k, Q k = R k) → mark Q m = mark R m.
Proof. intros HQ. apply map_eq. intros k. by rewrite !mark_lookup, HQ. Qed.

Lemma mark_false m : mark (λ _, false) m = m.
Proof. apply map_eq. intros k. rewrite mark_lookup. by destruct (m !! k). Qed.

Lemma mark_mark Q R m : mark R (mark Q m) = mark (λ k, Q k || R k) m.
Proof.
  apply map_eq. intros k. rewrite !mark_lookup. destruct (m !! k) as [s|]; [|done]. cbn.
  by destruct (Q k), (R k).
Qed.

Lemma mark_is_Some Q m k : is_Some (mark Q m !! k) ↔ is_Some (m !! k).
Proof. rewrite mark_lookup. by rewrite fmap_is_Some. Qed.

Lemma mark_unhealthy_spec k m : is_Some (m !! k) →
  mark_unhealthy k m = Some (mark (λ x, bool_decide (x = k)) m).
Proof.
  intros [s Hs]. unfold mark_unhealthy. rewrite Hs. cbn [mbind option_bind]. f_equal.
  apply map_eq. intros x. rewrite mark_lookup. destruct (decide (x = k)) as [->|Hne].
  - by rewrite lookup_insert_eq, Hs, bool_decide_eq_true_2.
  - rewrite lookup_insert_ne, bool_decide_eq_false_2 by done. by destruct (m !! x).
Qed.

(** A loop of marks. *)
Lemma foldM_mark {A} (f : States → A → option States) (Q : A → string → bool) (K : string → Prop) l m :
  (∀ m a, a ∈ l → (∀ k, K k → is_Some (m !! k)) → f m a = Some (mark (Q a) m)) →
  (∀ k, K k → is_Some (m !! k)) →
  foldM f m l = Some (mark (λ k, existsb (λ a, Q a k) l) m).
Proof.
  revert m. induction l as [|a l IH]; intros m Hf Hm.
  - cbn [foldM existsb]. by rewrite mark_false.
  - cbn [foldM existsb]. rewrite Hf by (done || by left). cbn [mbind option_bind].
    rewrite IH; [by rewrite mark_mark| |].
    + intros m' b Hb. apply Hf. by right.
    + intros k Hk. apply mark_is_Some. auto.
Qed.

Section proofs.
Context {P : Type} (imp : Z → double → Z) (ParseInLocation : string → option Z).
Implicit Types ga : GPUAgentGPUClient P.

(** ** The verdict on a GPU *)

Definition guuid (g : GPU) : string := uuid_of (default "" (Spec_Id g)).
Abbreviation gid := getGPUInstanceIDString.

Definition gpu_ok (g : GPU) : Prop := is_Some (Spec_Id g) ∧ is_Some (Status g) ∧ is_Some (Stats g).

(** A response the agent can give: complete messages, with distinct indices
    and distinct identifiers. *)
Definition response_ok (gpus : list GPU) : Prop :=
  Forall gpu_ok gpus ∧ NoDup (gid <$> gpus) ∧ NoDup (guuid <$> gpus).

Definition zero_stats : GPUStats := umc_stats 0.

(** Thresholds are 32-bit numbers. *)
Definition thresholds_ok (th : GPUHealthThresholds) : Prop :=
  Forall (λ ck, 0 <= ck.1.2 < 2 ^ 32) (ecc_checks th zero_stats).

(** The count that is compared with the threshold: the injected one, if
    there is one; nothing, if the counter shows one of the sentinels. *)
Definition ecc_count (mocks : Mocks) (gpuid field : string) (stat : Z) : Z :=
  let mockVal := getMockError mocks gpuid field in
  if decide (0 < mockVal) then mockVal
  else if decide (stat ∈ sentinels) then 0 else stat.

Definition check_bad (mocks : Mocks) (gpuid : string) (ck : string * Z * Z) : bool :=
  bool_decide (ck.1.2 < ecc_count mocks gpuid ck.1.1 ck.2).

Definition ecc_bad ga (th : GPUHealthThresholds) (g : GPU) : bool :=
  match Stats g with
  | Some stats => existsb (check_bad (mockEccField ga) (gid g)) (ecc_checks th stats)
  | None => false
  end.

Definition event_bad (p : poll) (g : GPU) : bool :=
  negb (enableSriov p || simEnabled p) && negb (IsEventsDisabled p) &&
  match eventGet p with
  | inl d => bool_decide (evt_ApiStatus d = 0) &&
      existsb (λ e, bool_decide (evt_Severity e = EVENT_SEVERITY_CRITICAL) &&
                    bool_decide (uuid_of (evt_GPU e) = guuid g)) (evt_list d)
  | inr _ => false
  end.

Definition cper_bad (p : poll) ga (g : GPU) : bool :=
  negb (enableSriov p || simEnabled p) &&
  match lastCperResponse (gCache ga) with
  | Some r => bool_decide (cper_ApiStatus r = 0) &&
      match latestCPERPerGPU ParseInLocation r !! guuid g with
      | Some record =>
          isFatalCPERActionable ParseInLocation record (GetGPUCperMaxAge (cfg p)) (clock p (guuid g))
      | None => false
      end
  | None => false
  end.

Definition verdict (p : poll) ga (g : GPU) : bool :=
  negb (ecc_bad ga (getHealthThreshholds (cfg p)) g || event_bad p g || cper_bad p ga g).

(** ** Counters *)

Lemma normalize_u64 x :
  NormalizeUint64 imp (Uint64 x) = Some (if decide (x ∈ sentinels) then 0 else float64_of_uint x).
Proof.
  unfold NormalizeUint64, sentinels. cbn [convertFloatToUint].
  case_decide as Ha; case_decide as Hb; [done| | |done]; exfalso.
  - apply Hb. rewrite !elem_of_cons. naive_solver.
  - rewrite !elem_of_cons, elem_of_nil in Hb. naive_solver.
Qed.

Lemma metricErrCheck_spec mocks gpuid m ck : ck.1.2 < 2 ^ 53 → is_Some (m !! gpuid) →
  metricErrCheck imp mocks gpuid m ck =
  Some (mark (λ k, check_bad mocks gpuid ck && bool_decide (k = gpuid)) m).
Proof.
  destruct ck as [[f t] c]. cbn [fst snd]. intros Ht Hm. unfold metricErrCheck.
  rewrite normalize_u64. cbn [mbind option_bind]. unfold check_bad, ecc_count. cbn [fst snd].
  set (x := if decide (0 < _) then _ else if decide (c ∈ sentinels) then 0 else float64_of_uint c).
  set (y := if decide (0 < _) then _ else if decide (c ∈ sentinels) then 0 else c).
  assert (Hxy : t < x ↔ t < y).
  { subst x y. repeat case_decide; [done|done|]. by apply float64_of_uint_gt. }
  clearbody x y. case_decide as Hlt.
  - rewrite mark_unhealthy_spec by done. f_equal. apply mark_ext. intros k.
    by rewrite (bool_decide_eq_true_2 (t < y)) by by apply Hxy.
  - rewrite <- (mark_false m) at 1. f_equal. apply mark_ext. intros k.
    by rewrite (bool_decide_eq_false_2 (t < y)) by by rewrite <- Hxy.
Qed.

Lemma ecc_thresholds th stats : thresholds_ok th →
  ∀ ck, ck ∈ ecc_checks th stats → ck.1.2 < 2 ^ 53.
Proof.
  intros Hth ck Hck.
  assert (ck.1 ∈ fst <$> ecc_checks th zero_stats) as (ck' & -> & Hck')%list_elem_of_fmap.
  { change (fst <$> ecc_checks th zero_stats) with (fst <$> ecc_checks th stats).
    apply list_elem_of_fmap. by exists ck. }
  pose proof (proj1 (Forall_forall _ _) Hth ck' Hck') as Hlt. cbn in *. lia.
Qed.

(** What is known of a GPU from its own message. *)
Definition gpu_state ga (wls : gmap string Workload) (healthy : bool) (g : GPU) : GPUState :=
  MkState (gid g) (guuid g) (if healthy then HEALTHY else UNHEALTHY) (getPCIeBusID g)
    (getWorkloadsListString (gpuIDMap ga) wls (gid g)).

Lemma process_gpu_spec ga th wls m g : gpu_ok g → thresholds_ok th →
  process_gpu imp ga th wls m g =
  Some (<[gid g := gpu_state ga wls (negb (ecc_bad ga th g)) g]> m).
Proof.
  intros ([id Hid] & [status Hst] & [stats Hs]) Hth. unfold process_gpu, ecc_bad, gpu_state, guuid.
  rewrite Hid, Hst, Hs. cbn [mbind option_bind default].
  rewrite (foldM_mark _ (λ ck k, check_bad (mockEccField ga) (gid g) ck && bool_decide (k = gid g))
    (λ k, k = gid g)).
  - f_equal. apply map_eq. intros k. rewrite mark_lookup.
    destruct (decide (k = gid g)) as [->|Hne].
    + rewrite !lookup_insert_eq. cbn [fmap option_fmap option_map]. f_equal.
      rewrite bool_decide_eq_true_2 by done.
      rewrite (existsb_ext _ (check_bad (mockEccField ga) (gid g))) by (intros; apply andb_true_r).
      unfold getPCIeBusID. rewrite Hst. by destruct (existsb _ _).
    + rewrite !lookup_insert_ne by done. rewrite bool_decide_eq_false_2 by done.
      rewrite (existsb_ext _ (λ _, false)) by (intros; apply andb_false_r).
      rewrite existsb_none. by destruct (m !! k).
  - intros m' ck Hck Hm'. apply metricErrCheck_spec; [by eapply ecc_thresholds|by apply Hm'].
  - intros k ->. rewrite lookup_insert_eq. by eexists.
Qed.

Lemma processEcc_spec ga th wls gpus : Forall gpu_ok gpus → thresholds_ok th →
  processEccErrorMetrics imp ga th gpus wls =
  Some (foldl (λ m g, <[gid g := gpu_state ga wls (negb (ecc_bad ga th g)) g]> m) ∅ gpus).
Proof.
  intros Hok Hth. unfold processEccErrorMetrics.
  apply (foldM_total _ (λ m g, <[gid g := gpu_state ga wls (negb (ecc_bad ga th g)) g]> m) gpu_ok).
  - intros m g Hg. by apply process_gpu_spec.
  - done.
Qed.

(** ** Identifiers *)

Abbreviation umap gpus := (foldl (λ m g, <[guuid g := gid g]> m) (∅ : gmap string string) gpus).

Lemma uuid_map_spec gpus : Forall gpu_ok gpus → foldM uuid_map ∅ gpus = Some (umap gpus).
Proof.
  intros Hok. apply (foldM_total _ (λ m g, <[guuid g := gid g]> m) gpu_ok); [|done].
  intros m g ([id Hid] & [st Hst] & _). unfold uuid_map, guuid, gid. by rewrite Hid, Hst.
Qed.

(** The identifier of a GPU, and only it, leads to the GPU. *)
Lemma umap_lookup gpus g u : response_ok gpus → g ∈ gpus →
  umap gpus !! u = Some (gid g) ↔ u = guuid g.
Proof.
  intros (_ & Hgid & Huuid) Hg. split; [|intros ->; by apply (foldl_insert_Some guuid gid)].
  intros (g' & Hg' & <- & He)%(foldl_insert_inv guuid gid).
  enough (g' = g) as -> by done.
  apply list_elem_of_lookup in Hg as [i Hi], Hg' as [j Hj].
  assert (i = j) as <-; [|congruence].
  eapply (NoDup_lookup (gid <$> gpus)); [done|by rewrite list_lookup_fmap, Hi|].
  rewrite list_lookup_fmap, Hj. cbn. by f_equal.
Qed.

Lemma umap_range gpus u k : umap gpus !! u = Some k → k ∈ gid <$> gpus.
Proof. intros (g & Hg & _ & <-)%(foldl_insert_inv guuid gid). apply list_elem_of_fmap. by exists g. Qed.

(** ** Events and error records *)

Definition event_hits (um : gmap string string) (e : Event) (k : string) : bool :=
  bool_decide (evt_Severity e = EVENT_SEVERITY_CRITICAL) &&
  bool_decide (um !! uuid_of (evt_GPU e) = Some k).

(** Marking what the map knows of an identifier. *)
Lemma mark_option (um : gmap string string) u (m : States) : (∀ k, um !! u = Some k → is_Some (m !! k)) →
  match um !! u with Some k => mark_unhealthy k m | None => Some m end =
  Some (mark (λ k, bool_decide (um !! u = Some k)) m).
Proof.
  intros Hm. destruct (um !! u) as [k'|].
  - rewrite mark_unhealthy_spec by by apply Hm. f_equal. apply mark_ext. intros k.
    apply bool_decide_ext. naive_solver.
  - by rewrite <- (mark_false m) at 1.
Qed.

Lemma eventErrCheck_spec (um : gmap string string) m e : (∀ u k, um !! u = Some k → is_Some (m !! k)) →
  eventErrCheck um m e = Some (mark (event_hits um e) m).
Proof.
  intros Hm. unfold eventErrCheck, event_hits. case_decide as Hs.
  - rewrite mark_option by (intros; by eapply Hm). f_equal. apply mark_ext. intros k.
    by rewrite (bool_decide_eq_true_2 (evt_Severity e = _)).
  - rewrite <- (mark_false m) at 1. f_equal. apply mark_ext. intros k.
    by rewrite (bool_decide_eq_false_2 (evt_Severity e = _)).
Qed.

Definition events_hit (p : poll) (um : gmap string string) (k : string) : bool :=
  negb (IsEventsDisabled p) &&
  match eventGet p with
  | inl d => bool_decide (evt_ApiStatus d = 0) && existsb (λ e, event_hits um e k) (evt_list d)
  | inr _ => false
  end.

Lemma event_checks_spec p (um : gmap string string) m : (∀ u k, um !! u = Some k → is_Some (m !! k)) →
  event_checks p um m = Some (mark (events_hit p um) m).
Proof.
  intros Hm. unfold event_checks, events_hit.
  destruct (IsEventsDisabled p); cbn [negb andb]; [by rewrite mark_false|].
  destruct (eventGet p) as [d|]; [|by rewrite mark_false]. case_decide as Ha.
  - rewrite bool_decide_eq_false_2 by done. cbn [andb]. by rewrite mark_false.
  - rewrite bool_decide_eq_true_2 by (destruct (decide (evt_ApiStatus d = 0)); naive_solver).
    cbn [andb]. apply (foldM_mark _ (event_hits um) (λ k, ∃ u, um !! u = Some k)); [|naive_solver].
    intros m' e _ Hm'. apply eventErrCheck_spec. naive_solver.
Qed.

Definition record_hits (p : poll) (um : gmap string string) (ur : string * CPEREntry) (k : string)
    : bool :=
  isFatalCPERActionable ParseInLocation ur.2 (GetGPUCperMaxAge (cfg p)) (clock p ur.1) &&
  bool_decide (um !! ur.1 = Some k).

Definition records_hit (p : poll) (um : gmap string string) (r : option GPUCPERGetResponse)
    (k : string) : bool :=
  match r with
  | None => false
  | Some r => bool_decide (cper_ApiStatus r = 0) &&
      existsb (λ ur, record_hits p um ur k) (map_to_list (latestCPERPerGPU ParseInLocation r))
  end.

Lemma cper_checks_spec p (um : gmap string string) m r : (∀ u k, um !! u = Some k → is_Some (m !! k)) →
  applyCPERHealthChecks ParseInLocation (GetGPUCperMaxAge (cfg p)) (clock p) um m r =
  Some (mark (records_hit p um r) m).
Proof.
  intros Hm. unfold applyCPERHealthChecks, records_hit. destruct r as [r|]; [|by rewrite mark_false].
  case_decide as Ha.
  { rewrite bool_decide_eq_false_2 by done. cbn [andb]. by rewrite mark_false. }
  rewrite bool_decide_eq_true_2 by (destruct (decide (cper_ApiStatus r = 0)); naive_solver).
  cbn [andb]. rewrite map_fold_foldr.
  induction (map_to_list (latestCPERPerGPU ParseInLocation r)) as [|[u rec] l IH].
  { cbn [foldr existsb]. by rewrite mark_false. }
  cbn [foldr existsb]. unfold compose in *. cbn [uncurry] in *. rewrite IH. cbn [mbind option_bind].
  assert (Hur : ∀ k, record_hits p um (u, rec) k =
    isFatalCPERActionable ParseInLocation rec (GetGPUCperMaxAge (cfg p)) (clock p u) &&
    bool_decide (um !! u = Some k)) by done.
  destruct (isFatalCPERActionable _ rec _ _).
  - rewrite mark_option, mark_mark.
    + f_equal. apply mark_ext. intros k. rewrite Hur. apply orb_comm.
    + intros k Hk. apply mark_is_Some. by eapply Hm.
  - f_equal. apply mark_ext. intros k. by rewrite Hur.
Qed.

(** ** All GPUs *)

Definition hits (p : poll) ga (um : gmap string string) (k : string) : bool :=
  negb (enableSriov p || simEnabled p) &&
  (events_hit p um k || records_hit p um (lastCperResponse (gCache ga)) k).

Lemma new_states_mark p ga gpus : response_ok gpus → thresholds_ok (getHealthThreshholds (cfg p)) →
  new_states imp ParseInLocation p ga gpus =
  Some (mark (hits p ga (umap gpus))
    (foldl (λ m g, <[gid g := gpu_state ga (wls p)
       (negb (ecc_bad ga (getHealthThreshholds (cfg p)) g)) g]> m) ∅ gpus)).
Proof.
  intros (Hok & Hgid & Huuid) Hth. unfold new_states, hits.
  rewrite processEcc_spec, uuid_map_spec by done. cbn [mbind option_bind].
  destruct (enableSriov p || simEnabled p); cbn [negb andb]; [by rewrite mark_false|].
  set (m := foldl _ (∅ : States) gpus).
  assert (Hm : ∀ u k, umap gpus !! u = Some k → is_Some (m !! k)).
  { intros u k (g & -> & Hg)%umap_range%list_elem_of_fmap. eexists.
    by apply (foldl_insert_Some gid (λ g, gpu_state ga (wls p) _ g)). }
  rewrite event_checks_spec by done. cbn [mbind option_bind].
  rewrite cper_checks_spec by (intros u k Hk; apply mark_is_Some; by eapply Hm).
  by rewrite mark_mark.
Qed.

Lemma hits_verdict p ga gpus g : response_ok gpus → g ∈ gpus →
  hits p ga (umap gpus) (gid g) = event_bad p g || cper_bad p ga g.
Proof.
  intros Hok Hg. unfold hits, event_bad, cper_bad, events_hit, records_hit.
  destruct (negb (enableSriov p || simEnabled p)); cbn [andb]; [|done]. f_equal.
  - destruct (negb (IsEventsDisabled p)); cbn [andb]; [|done].
    destruct (eventGet p) as [d|]; [|done]. f_equal. apply existsb_ext. intros e.
    unfold event_hits. f_equal. apply bool_decide_ext. by apply umap_lookup.
  - destruct (lastCperResponse (gCache ga)) as [r|]; [|done]. f_equal.
    set (M := latestCPERPerGPU ParseInLocation r). apply eq_true_iff_eq.
    rewrite existsb_exists. unfold record_hits. split.
    + intros ([u rec] & Hin%list_elem_of_In%elem_of_map_to_list & [Ha Hu]%andb_prop).
      apply bool_decide_eq_true, umap_lookup in Hu; [|done|done]. cbn [fst snd] in *. subst u.
      by rewrite Hin.
    + destruct (M !! guuid g) as [rec|] eqn:HM; [|done]. intros Ha. exists (guuid g, rec). split.
      * by apply list_elem_of_In, elem_of_map_to_list.
      * cbn [fst snd]. rewrite Ha. cbn [andb]. apply bool_decide_eq_true. by apply umap_lookup.
Qed.

Lemma new_states_spec p ga gpus : response_ok gpus → thresholds_ok (getHealthThreshholds (cfg p)) →
  ∃ m, new_states imp ParseInLocation p ga gpus = Some m ∧
    (∀ g, g ∈ gpus → m !! gid g = Some (gpu_state ga (wls p) (verdict p ga g) g)) ∧
    (∀ k, k ∉ gid <$> gpus → m !! k = None).
Proof.
  intros Hok Hth. rewrite new_states_mark by done. eexists. split_and!; [done| |].
  - intros g Hg. rewrite mark_lookup, hits_verdict by done.
    rewrite (foldl_insert_Some gid) by (done || apply Hok). cbn [fmap option_fmap option_map]. f_equal.
    unfold verdict, gpu_state. destruct (ecc_bad _ _ g), (event_bad p g), (cper_bad p ga g); done.
  - intros k Hk. rewrite mark_lookup, foldl_insert_None by done. by rewrite lookup_empty.
Qed.
End proofs.
