(* ===== verification/GpuHealthTheorems.v ===== *)
(** The theorems on the health of GPUs: the monitor refines a board with one
    lamp per GPU, what it keeps in all runs, and what reaches the labels of
    the node. *)

From S2P Require Import Prelude RocpSdk Format GoStd ExporterUtils RocpClient Scheduler GpuMessages GpuAgent.
From S2P Require Import GoTime Config NodeLabeller GpuHealth GpuHealthProofs.
From Stdlib Require Import Ascii.
Local Open Scope Z_scope.

(** ** The board

    A lamp is on while its GPU is published as healthy. *)

Record board : Type := Board { node_up : bool; lamps : gmap string bool }.

Inductive signal : Type :=
  | Report (v : gmap string bool)                  (* the lamps of the last answer *)
  | AllOff                                         (* no answer, or none that counts *)
  | NodeChange (up : bool) (known : gset string)   (* the compute node fails or recovers *)
  | Silent.

Definition board_next (b : board) (s : signal) : board :=
  match s with
  | Report v => Board (node_up b) v
  | AllOff => Board (node_up b) ((λ _, false) <$> lamps b)
  | NodeChange up known =>
      if decide (node_up b = up) then b
      else Board up (if decide (lamps b = ∅) then gset_to_gmap up known
                     else (λ _, up) <$> lamps b)
  | Silent => b
  end.

Section theorems.
Context {P : Type} (imp : Z → double → Z) (ParseInLocation : string → option Z).
Context (GetDeviceNameFromRenderID : string → string).
Implicit Types ga : GPUAgentGPUClient P.

Abbreviation gid := getGPUInstanceIDString.
Abbreviation verdict := (verdict ParseInLocation).

(** ** Operations of the client *)

Inductive op : Type :=
  | Poll (p : poll)                                   (* a tick of the monitor *)
  | Static (p : poll)                                 (* a configuration is loaded *)
  | NodeState (up : bool) (wls : gmap string Workload)
  | InjectError (gpuid : string) (fields : list string) (values : list Z)
  | Cper (res : GPUCPERGetResponse + string).         (* the refresh of the error records *)

Definition exec (o : op) ga : option (GPUAgentGPUClient P) :=
  match o with
  | Poll p => snd <$> processHealthValidation imp ParseInLocation p ga
  | Static p => snd <$> UpdateStaticMetrics imp GetDeviceNameFromRenderID p ga
  | NodeState up wls => Some (SetComputeNodeHealthState up wls ga)
  | InjectError gpuid fields values => SetError gpuid fields values ga
  | Cper res => Some (set_gCache (refreshCperCache res (gCache ga)) ga)
  end.

Fixpoint run (os : list op) ga : option (GPUAgentGPUClient P) :=
  match os with
  | [] => Some ga
  | o :: os => ga ← exec o ga; run os ga
  end.

(** ** Abstraction *)

Definition abs ga : board :=
  Board (computeNodeHealthState ga) ((λ s, bool_decide (Health s = HEALTHY)) <$> healthState ga).

(** The response a poll works on. *)
Definition response (p : poll) ga : option GPUGetResponse :=
  match (cacheRead (now p) (now' p) (later p) (gpuGet p) (gCache ga)).1 with
  | inl r => if decide (ApiStatus r = 0) then Some r else None
  | inr _ => None
  end.

Definition lamps_of (v : GPU → bool) (gpus : list GPU) : gmap string bool :=
  list_to_map ((λ g, (gid g, v g)) <$> gpus).

Definition signal_of (o : op) ga : signal :=
  match o with
  | Poll p =>
      if computeNodeHealthState ga then
        match response p ga with
        | Some r => if decide (Response r = []) then AllOff
                    else Report (lamps_of (verdict p ga) (Response r))
        | None => AllOff
        end
      else AllOff
  | Static p =>
      match response p ga with
      | Some r => Report (lamps_of (λ g, negb (ecc_bad ga (getHealthThreshholds (cfg p)) g)) (Response r))
      | None => Silent
      end
  | NodeState up _ => NodeChange up (dom (gpuIDMap ga))
  | InjectError _ _ _ | Cper _ => Silent
  end.

Fixpoint signals (os : list op) ga : list signal :=
  match os with
  | [] => []
  | o :: os => signal_of o ga :: match exec o ga with Some ga => signals os ga | None => [] end
  end.

(** ** What the environment has to provide, and what is kept *)

Definition poll_ok (p : poll) : Prop :=
  match gpuGet p with inl r => response_ok (Response r) | inr _ => True end ∧
  thresholds_ok (getHealthThreshholds (cfg p)).

Definition op_ok (o : op) : Prop :=
  match o with
  | Poll p | Static p => poll_ok p
  | InjectError _ fields values => (length fields <= length values)%nat
  | NodeState _ _ | Cper _ => True
  end.

Definition cache_ok ga : Prop :=
  match lastResponse (gCache ga) with Some r => response_ok (Response r) | None => True end.

Lemma cacheRead_ok p ga r c : poll_ok p → cache_ok ga →
  cacheRead (now p) (now' p) (later p) (gpuGet p) (gCache ga) = (r, c) →
  match r with inl r => response_ok (Response r) | inr _ => True end ∧
  cache_ok (set_gCache c ga) ∧ lastCperResponse c = lastCperResponse (gCache ga).
Proof.
  intros [Hp _] Hc. unfold cacheRead, cache_locked, cache_fresh, cache_ok in *.
  destruct (lastResponse (gCache ga)) as [r0|] eqn:Hr; cbn [mbind option_bind].
  - repeat case_decide; cbn [fst]; intros [= <- <-]; cbn; rewrite ?Hr; (split; [done|]); split; try done;
      by destruct (gpuGet p).
  - cbn [fst]. intros [= <- <-]. cbn. split; [done|]. split; [|done]. by destruct (gpuGet p).
Qed.

Lemma note_partitions_total m gpus : Forall gpu_ok gpus → is_Some (note_partitions m gpus).
Proof.
  intros Hok. revert m. induction Hok as [|g gpus (_ & [st Hst] & _) _ IH]; intros m; [by eexists|].
  cbn [note_partitions]. unfold note_partition. rewrite Hst. cbn [mbind option_bind].
  destruct (PCIeBusId st); [case_decide|]; cbn [mbind option_bind]; apply IH.
Qed.

Lemma getGPUs_spec p ga r c : response_ok (Response r) →
  cacheRead (now p) (now' p) (later p) (gpuGet p) (gCache ga) = (inl r, c) →
  ∃ pm, getGPUs (now p) (now' p) (later p) (gpuGet p) (gCache ga) = Some (inl (r, pm), c).
Proof.
  intros (Hok & _) Hc. unfold getGPUs. rewrite Hc.
  destruct (note_partitions_total ∅ (Response r) Hok) as [pm ->]. exists pm. by destruct r.
Qed.

Lemma verdict_cache p ga c g : lastCperResponse c = lastCperResponse (gCache ga) →
  verdict p (set_gCache c ga) g = verdict p ga g.
Proof. intros Hc. unfold GpuHealthProofs.verdict, cper_bad. cbn [gCache set_gCache]. by rewrite Hc. Qed.

Lemma lamps_of_lookup v gpus g : NoDup (gid <$> gpus) → g ∈ gpus →
  lamps_of v gpus !! gid g = Some (v g).
Proof.
  intros Hnd Hg. unfold lamps_of. apply elem_of_list_to_map.
  - by rewrite <- list_fmap_compose.
  - apply list_elem_of_fmap. by exists g.
Qed.

Lemma lamps_of_None v gpus k : k ∉ gid <$> gpus → lamps_of v gpus !! k = None.
Proof.
  intros Hk. unfold lamps_of. apply not_elem_of_list_to_map.
  by rewrite <- list_fmap_compose.
Qed.

(** Lamps of states that were computed GPU by GPU. *)
Lemma abs_states ga wls (v : GPU → bool) gpus (m : States) : response_ok gpus →
  (∀ g, g ∈ gpus → m !! gid g = Some (gpu_state ga wls (v g) g)) →
  (∀ k, k ∉ gid <$> gpus → m !! k = None) →
  (λ s, bool_decide (Health s = HEALTHY)) <$> m = lamps_of v gpus.
Proof.
  intros (_ & Hnd & _) Hin Hout. apply map_eq. intros k. rewrite lookup_fmap.
  destruct (decide (k ∈ gid <$> gpus)) as [(g & -> & Hg)%list_elem_of_fmap|Hk].
  - rewrite Hin, lamps_of_lookup by done. cbn. by destruct (v g).
  - by rewrite Hout, lamps_of_None.
Qed.

Lemma abs_unhealthy ga wls : abs (setUnhealthyGPU wls ga) = board_next (abs ga) AllOff.
Proof.
  unfold abs, setUnhealthyGPU, board_next. cbn [healthState computeNodeHealthState set_healthState lamps node_up].
  f_equal. by rewrite <- !map_fmap_compose.
Qed.

(** ** One operation *)

Lemma poll_sim p ga : poll_ok p → cache_ok ga →
  ∃ err ga', processHealthValidation imp ParseInLocation p ga = Some (err, ga') ∧
    abs ga' = board_next (abs ga) (signal_of (Poll p) ga) ∧ cache_ok ga'.
Proof.
  intros Hp Hc. unfold processHealthValidation. cbn [signal_of].
  destruct (computeNodeHealthState ga) eqn:Hnode.
  2:{ do 2 eexists. split; [done|]. split; [apply abs_unhealthy|done]. }
  unfold response. destruct (cacheRead _ _ _ _ _) as [r c] eqn:Hr.
  destruct (cacheRead_ok p ga r c Hp Hc Hr) as (Hrok & Hcok & Hcper). cbn [fst].
  destruct r as [r|err].
  - destruct (getGPUs_spec p ga r c Hrok Hr) as [pm ->]. cbn [mbind option_bind].
    destruct (decide (ApiStatus r = 0)) as [Ha|Ha].
    + rewrite decide_False by naive_solver. case_decide as He.
      * do 2 eexists. split; [done|]. split; [apply (abs_unhealthy (set_gCache c ga))|done].
      * destruct (new_states_spec imp ParseInLocation p (set_gCache c ga) (Response r) Hrok (proj2 Hp))
          as (m & -> & Hin & Hout). cbn [mbind option_bind].
        do 2 eexists. split; [done|]. split; [|done]. unfold abs. cbn. f_equal.
        apply (abs_states (set_gCache c ga) (wls p)); [done| |done].
        intros g Hg. rewrite Hin by done. by rewrite verdict_cache.
    + rewrite decide_True by done. do 2 eexists. split; [done|].
      split; [apply (abs_unhealthy (Close (set_gCache c ga)))|done].
  - unfold getGPUs. rewrite Hr. cbn [mbind option_bind]. do 2 eexists. split; [done|].
    split; [apply (abs_unhealthy (Close (set_gCache c ga)))|done].
Qed.

Lemma initGPUMetadata_total gpus ids : Forall gpu_ok gpus →
  is_Some (initGPUMetadata GetDeviceNameFromRenderID gpus ids).
Proof.
  intros Hok. revert ids.
  induction Hok as [|g gpus ([id Hid] & [st Hst] & _) _ IH]; intros ids; [by eexists|].
  cbn [initGPUMetadata]. unfold gpu_meta. rewrite Hst, Hid. cbn [mbind option_bind]. apply IH.
Qed.

Lemma static_sim p ga : poll_ok p → cache_ok ga →
  ∃ err ga', UpdateStaticMetrics imp GetDeviceNameFromRenderID p ga = Some (err, ga') ∧
    abs ga' = board_next (abs ga) (signal_of (Static p) ga) ∧ cache_ok ga'.
Proof.
  intros Hp Hc. unfold UpdateStaticMetrics. cbn [signal_of].
  unfold response. destruct (cacheRead _ _ _ _ _) as [r c] eqn:Hr.
  destruct (cacheRead_ok p ga r c Hp Hc Hr) as (Hrok & Hcok & Hcper). cbn [fst].
  destruct r as [r|err].
  - destruct (getGPUs_spec p ga r c Hrok Hr) as [pm ->]. cbn [mbind option_bind].
    destruct (decide (ApiStatus r = 0)) as [Ha|Ha].
    + rewrite decide_False by naive_solver.
      destruct (initGPUMetadata_total (Response r) (gpuIDMap (set_gCache c ga)) (proj1 Hrok)) as [ids ->].
      cbn [mbind option_bind]. rewrite processEcc_spec by (apply Hrok || apply Hp).
      cbn [mbind option_bind]. do 2 eexists. split; [done|]. split; [|done].
      unfold abs. cbn. f_equal. eapply abs_states; [done| |].
      * intros g Hg. by rewrite (foldl_insert_Some gid) by (done || apply Hrok).
      * intros k Hk. rewrite foldl_insert_None by done. apply lookup_empty.
    + rewrite decide_True by done. by do 2 eexists.
  - unfold getGPUs. rewrite Hr. cbn [mbind option_bind]. by do 2 eexists.
Qed.

Lemma node_sim up wls ga :
  abs (SetComputeNodeHealthState up wls ga) = board_next (abs ga) (NodeChange up (dom (gpuIDMap ga))).
Proof.
  unfold SetComputeNodeHealthState, board_next. cbn [abs node_up lamps].
  case_decide as Hup; [done|]. unfold updateAllGPUsHealthState. cbn [healthState gpuIDMap].
  assert (Hl : bool_decide ((if up then HEALTHY else UNHEALTHY) = HEALTHY) = up) by by destruct up.
  destruct (decide (healthState ga = ∅)) as [He|He].
  - rewrite decide_False by naive_solver. unfold abs. cbn. f_equal.
    rewrite He, fmap_empty, decide_True by done. apply map_eq. intros k.
    rewrite lookup_fmap, map_lookup_imap, lookup_gset_to_gmap.
    destruct (gpuIDMap ga !! k) as [meta|] eqn:Hk; cbn.
    + rewrite option_guard_True by (apply elem_of_dom; by eexists). by rewrite Hl.
    + rewrite option_guard_False; [done|]. by apply not_elem_of_dom.
  - rewrite decide_True by done. unfold abs. cbn. f_equal.
    rewrite decide_False by (intros H%fmap_empty_inv; done).
    rewrite <- !map_fmap_compose. apply map_fmap_ext. intros k s _. apply Hl.
Qed.

Lemma set_fields_total fields values m : (length fields <= length values)%nat →
  is_Some (set_fields fields values m).
Proof.
  revert values m. induction fields as [|f fields IH]; intros [|v values] m Hl; cbn in *;
    [by eexists|by eexists|lia|]. apply IH. lia.
Qed.

Lemma exec_sim o ga : op_ok o → cache_ok ga →
  ∃ ga', exec o ga = Some ga' ∧ abs ga' = board_next (abs ga) (signal_of o ga) ∧ cache_ok ga'.
Proof.
  intros Ho Hc. destruct o as [p|p|up w|gpuid fields values|res]; cbn [exec op_ok] in *.
  - destruct (poll_sim p ga Ho Hc) as (err & ga' & -> & Ha & Hc'). by exists ga'.
  - destruct (static_sim p ga Ho Hc) as (err & ga' & -> & Ha & Hc'). by exists ga'.
  - eexists. split; [done|]. split; [apply node_sim|]. unfold SetComputeNodeHealthState,
      updateAllGPUsHealthState, cache_ok in *. repeat case_decide; done.
  - unfold SetError. destruct (set_fields_total fields values
      (default ∅ (mockEccField ga !! gpuid)) Ho) as [m ->]. by eexists.
  - eexists. split; [done|]. split; [done|]. unfold cache_ok in *. by destruct res.
Qed.

(** C3: The health monitor refines the board.  Whatever ticks, loaded
    configurations, failures and recoveries of the compute node, injected
    errors and error records follow each other, from any state whose cached
    answer is complete: the program never follows a missing pointer, and the published states
    are the lamps of the board.  A tick on a running node with an answer sets
    exactly the lamps of the GPUs of the answer, each by the verdict on its
    own counters, events and latest error record; without an answer it puts
    all lamps out, as it does while the node is down.  Loading a
    configuration sets the lamps by the counters alone, even if the node is
    down. *)
Theorem health_refines_board os ga
    (Hos : Forall op_ok os) (Hga : cache_ok ga) :
  ∃ ga', run os ga = Some ga' ∧ abs ga' = foldl board_next (abs ga) (signals os ga).
Proof.
  revert ga Hga. induction Hos as [|o os Ho Hos IH]; intros ga Hga; [by eexists|].
  destruct (exec_sim o ga Ho Hga) as (ga1 & He & Ha & Hc).
  destruct (IH ga1 Hc) as (ga' & Hr & Hb). exists ga'. cbn [run signals foldl]. rewrite He.
  cbn [mbind option_bind]. split; [done|]. by rewrite <- Ha.
Qed.

(** ** What all runs keep

    No assumption on the answers of the agent is made here. *)

Inductive reachable : GPUAgentGPUClient P → Prop :=
  | reachable_new rocp c node : reachable (MkClient rocp ∅ ∅ c ∅ node)
  | reachable_step ga o ga' : reachable ga → exec o ga = Some ga' → reachable ga'.

Definition state_ok (k : string) (s : GPUState) : Prop :=
  ID s = k ∧ device_ok k ∧ (Health s = HEALTHY ∨ Health s = UNHEALTHY).

Definition meta_ok (k : string) (m : GPUIDMeta) : Prop := meta_GPUID m = k ∧ device_ok k.

Definition published_ok ga : Prop :=
  map_Forall state_ok (healthState ga) ∧ map_Forall meta_ok (gpuIDMap ga).

Lemma device_ok_dec' n : device_ok (dec n).
Proof.
  assert (Hd : ∀ m, 0 <= m → device_ok (dec_nonneg m)).
  { intros m Hm. split.
    - unfold dec_nonneg, dec_fuel.
      by destruct (dec_go_head (Z.to_nat (Z.log2 m)) m "" Hm) as (d & s & _ & ->).
    - pose proof (dec_no_sep m newline Hm eq_refl) as Hn. unfold dec in Hn.
      by rewrite decide_False in Hn by lia. }
  unfold dec. case_decide; [|apply Hd; lia]. destruct (Hd (- n) ltac:(lia)) as [_ Hn]. split; [done|].
  cbn [string_forall]. by rewrite Hn.
Qed.

Lemma mark_unhealthy_ok k (m m' : States) : map_Forall state_ok m → mark_unhealthy k m = Some m' →
  map_Forall state_ok m'.
Proof.
  intros Hm. unfold mark_unhealthy. destruct (m !! k) as [s|] eqn:Hk; [|done]. cbn. intros [= <-].
  apply map_Forall_insert_2; [|done]. destruct (Hm k s Hk) as (? & ? & _). split_and!; [done|done|by right].
Qed.

Lemma foldM_inv {A B} (I : B → Prop) (f : B → A → option B) b b' l :
  (∀ b a b', I b → f b a = Some b' → I b') → I b → foldM f b l = Some b' → I b'.
Proof.
  intros Hf. revert b. induction l as [|a l IH]; intros b Hb; cbn [foldM]; [by intros [= <-]|].
  destruct (f b a) as [b1|] eqn:He; [|done]. cbn. apply IH. by eapply Hf.
Qed.

Lemma processEcc_ok ga th gpus wls m : processEccErrorMetrics imp ga th gpus wls = Some m →
  map_Forall state_ok m.
Proof.
  apply (foldM_inv (map_Forall state_ok)); [|apply map_Forall_empty].
  intros b g b' Hb. unfold process_gpu.
  destruct (Spec_Id g) as [id|]; [|done]. destruct (Status g) as [st|] eqn:Hst; [|done].
  destruct (Stats g) as [stats|]; [|done]. cbn [mbind option_bind].
  apply (foldM_inv (map_Forall state_ok)).
  - intros m1 [[f t] c] m2 H1. unfold metricErrCheck.
    destruct (NormalizeUint64 _ _); [|done]. cbn [mbind option_bind].
    case_decide; [by apply mark_unhealthy_ok|by intros [= <-]].
  - apply map_Forall_insert_2; [|done]. split_and!; [done| |by left].
    unfold gid. rewrite Hst. apply device_ok_dec'.
Qed.

Lemma cper_ok maxAge clk um m r m' : map_Forall state_ok m →
  applyCPERHealthChecks ParseInLocation maxAge clk um m r = Some m' → map_Forall state_ok m'.
Proof.
  intros Hm. unfold applyCPERHealthChecks. destruct r as [r|]; [|by intros [= <-]].
  case_decide; [by intros [= <-]|]. revert m'.
  apply (map_fold_weak_ind (λ (acc : option States) _, ∀ m', acc = Some m' → map_Forall state_ok m'));
    [by intros ? [= <-]|].
  intros u rec M acc _ IH m'. destruct acc as [m1|]; [|done]. cbn [mbind option_bind].
  specialize (IH m1 eq_refl). destruct (isFatalCPERActionable _ _ _ _); [|by intros [= <-]].
  destruct (um !! u); [by apply mark_unhealthy_ok|by intros [= <-]].
Qed.

Lemma new_states_ok p ga gpus m : new_states imp ParseInLocation p ga gpus = Some m →
  map_Forall state_ok m.
Proof.
  unfold new_states. destruct (processEccErrorMetrics _ _ _ _ _) as [m1|] eqn:H1; [|done].
  apply processEcc_ok in H1. cbn [mbind option_bind].
  destruct (foldM uuid_map ∅ gpus) as [um|]; [|done]. cbn [mbind option_bind].
  destruct (_ || _); [by intros [= <-]|].
  destruct (event_checks p um m1) as [m2|] eqn:H2; [|done]. cbn [mbind option_bind].
  apply cper_ok. revert H2. unfold event_checks. destruct (IsEventsDisabled p); [by intros [= <-]|].
  destruct (eventGet p) as [d|]; [|by intros [= <-]]. case_decide; [by intros [= <-]|].
  apply (foldM_inv (map_Forall state_ok)); [|done]. intros b e b' Hb. unfold eventErrCheck.
  case_decide; [|by intros [= <-]]. destruct (um !! _); [by apply mark_unhealthy_ok|by intros [= <-]].
Qed.

Lemma setUnhealthy_ok wls ga : published_ok ga → published_ok (setUnhealthyGPU wls ga).
Proof.
  intros [Hh Hi]. split; [|done]. intros k s. cbn. rewrite lookup_fmap.
  intros (s' & Hs & ->)%fmap_Some. destruct (Hh k s' Hs) as (? & ? & _). split_and!; [done|done|by right].
Qed.

Lemma initGPUMetadata_ok gpus ids ids' : map_Forall meta_ok ids →
  initGPUMetadata GetDeviceNameFromRenderID gpus ids = Some ids' → map_Forall meta_ok ids'.
Proof.
  revert ids. induction gpus as [|g gpus IH]; intros ids Hi; cbn [initGPUMetadata]; [by intros [= <-]|].
  unfold gpu_meta. destruct (Status g); [|done]. destruct (Spec_Id g); [|done]. cbn [mbind option_bind].
  apply IH. apply map_Forall_insert_2; [|done]. split; [done|]. apply device_ok_dec'.
Qed.

Lemma exec_ok o ga ga' : published_ok ga → exec o ga = Some ga' → published_ok ga'.
Proof.
  intros Hok. destruct o as [p|p|up w|gpuid fields values|res]; cbn [exec].
  - unfold processHealthValidation. destruct (computeNodeHealthState ga).
    2:{ intros [= <-]. by apply setUnhealthy_ok. }
    destruct (getGPUs _ _ _ _ _) as [[[[r pm]|err] c]|]; cbn [mbind option_bind fmap option_fmap option_map snd];
      [| |done].
    + case_decide; [intros [= <-]; by apply setUnhealthy_ok|].
      case_decide; [intros [= <-]; by apply setUnhealthy_ok|].
      destruct (new_states _ _ _ _ _) as [m|] eqn:Hm; [|done]. intros [= <-].
      apply new_states_ok in Hm. split; [done|apply Hok].
    + intros [= <-]. by apply setUnhealthy_ok.
  - unfold UpdateStaticMetrics.
    destruct (getGPUs _ _ _ _ _) as [[[[r pm]|err] c]|]; cbn [mbind option_bind fmap option_fmap option_map snd];
      [| |done].
    + case_decide; [by intros [= <-]|].
      destruct (initGPUMetadata _ _ _) as [ids|] eqn:Hi; [|done]. cbn [mbind option_bind].
      destruct (processEccErrorMetrics _ _ _ _ _) as [m|] eqn:Hm; [|done]. intros [= <-].
      split; [by eapply processEcc_ok|]. eapply initGPUMetadata_ok; [|done]. apply Hok.
    + by intros [= <-].
  - intros [= <-]. unfold SetComputeNodeHealthState. case_decide; [done|].
    unfold updateAllGPUsHealthState. destruct Hok as [Hh Hi]. case_decide; (split; [|done]); intros k s; cbn.
    + rewrite lookup_fmap. intros (s' & Hs & ->)%fmap_Some. destruct (Hh k s' Hs) as (? & ? & _).
      split_and!; [done|done|]. destruct up; [by left|by right].
    + rewrite map_lookup_imap. destruct (gpuIDMap ga !! k) as [mt|] eqn:Hk; [|done].
      intros [= <-]. destruct (Hi k mt Hk) as [? ?].
      split_and!; [done|done|]. cbn. destruct up; [by left|by right].
  - unfold SetError. destruct (set_fields _ _ _); [|done]. by intros [= <-].
  - by intros [= <-].
Qed.

Lemma reachable_ok ga : reachable ga → published_ok ga.
Proof.
  induction 1 as [rocp c node|ga o ga' _ IH He]; [split; apply map_Forall_empty|by eapply exec_ok].
Qed.

(** In every state the client can reach, whatever the agent answers: each
    GPU is filed under its own identifier, which is a number, and its health
    is [healthy] or [unhealthy]; the metadata are filed in the same way. *)
Theorem health_invariant ga (Hga : reachable ga) :
  (∀ k s, healthState ga !! k = Some s →
     ID s = k ∧ device_ok k ∧ (Health s = HEALTHY ∨ Health s = UNHEALTHY)) ∧
  (∀ k m, gpuIDMap ga !! k = Some m → meta_GPUID m = k ∧ device_ok k).
Proof. destruct (reachable_ok ga Hga) as [Hh Hi]. split; [apply Hh|apply Hi]. Qed.

(** The labels an update of the node writes. *)
Lemma labels_written ga labels nodeName (Hh : map_Forall state_ok (healthState ga)) (Hname : nodeName ≠ "") :
  let lc := NewNodeHealthLabellerConfig GPUHealthLabelPrefix in
  ∃ u, sendNodeLabelUpdate true nodeName true (inl labels) None ga = (None, Some u) ∧
    (∀ k, ParseNodeHealthLabel lc (labels_after labels u) !! k = Some UNHEALTHY ↔
       lamps (abs ga) !! k = Some false) ∧
    (∀ k v, ParseNodeHealthLabel lc (labels_after labels u) !! k = Some v → v = UNHEALTHY) ∧
    (∀ key, is_health_label lc key = false → labels_after labels u !! key = labels !! key).
Proof.
  clear imp ParseInLocation GetDeviceNameFromRenderID. cbv zeta.
  unfold sendNodeLabelUpdate. rewrite decide_False by done.
  set (lc := NewNodeHealthLabellerConfig GPUHealthLabelPrefix). eexists. split; [done|].
  assert (Hlook : ∀ k v, unhealthy_states ga !! k = Some v ↔
    ∃ s, healthState ga !! k = Some s ∧ Health s ≠ HEALTHY ∧ v = Health s).
  { intros k v. unfold unhealthy_states. rewrite lookup_omap. destruct (healthState ga !! k) as [s|]; cbn.
    - case_decide; naive_solver.
    - naive_solver. }
  assert (Hrep : reportable (unhealthy_states ga)).
  { intros k v (s & Hs & Hne & ->)%Hlook. destruct (Hh k s Hs) as (_ & ? & _). done. }
  destruct (health_labels_written lc labels None (unhealthy_states ga) Hrep) as (Hp & Hother & _).
  rewrite (proj1 (Hp eq_refl)). split_and!; [| |done].
  - intros k. rewrite Hlook. cbn. rewrite lookup_fmap, fmap_Some. split.
    + intros (s & Hs & Hne & _). exists s. split; [done|]. by rewrite bool_decide_eq_false_2.
    + intros (s & Hs & He%eq_sym%bool_decide_eq_false). exists s. split_and!; [done|done|].
      destruct (Hh k s Hs) as (_ & _ & [|]); congruence.
  - intros k v (s & Hs & Hne & ->)%Hlook. destruct (Hh k s Hs) as (_ & _ & [|]); congruence.
Qed.

(** C31: From the states to the labels of the node, in every reachable state:
    if the Kubernetes API accepts the update, the labels afterwards report as
    unhealthy exactly the GPUs whose lamp is off, and the labels that are
    not health labels of GPUs are as before. *)
Theorem labels_show_health ga labels nodeName (Hga : reachable ga) (Hname : nodeName ≠ "") :
  let lc := NewNodeHealthLabellerConfig GPUHealthLabelPrefix in
  ∃ u, sendNodeLabelUpdate true nodeName true (inl labels) None ga = (None, Some u) ∧
    (∀ k, ParseNodeHealthLabel lc (labels_after labels u) !! k = Some UNHEALTHY ↔
       lamps (abs ga) !! k = Some false) ∧
    (∀ k v, ParseNodeHealthLabel lc (labels_after labels u) !! k = Some v → v = UNHEALTHY) ∧
    (∀ key, is_health_label lc key = false → labels_after labels u !! key = labels !! key).
Proof. apply labels_written; [|done]. apply (reachable_ok ga Hga). Qed.

(** One tick of the monitor on a running node that gets no answer from the
    agent, or one with an error status, enables the profiler again, even if
    it was disabled after a crash, and forgets the reason: the event that was
    emitted when it was disabled says that only a restart of the pod does. *)
Theorem unanswered_tick_enables_profiler p ga rpc (Hp : poll_ok p) (Hc : cache_ok ga)
    (Hnode : computeNodeHealthState ga = true) (Hresp : response p ga = None)
    (Hrpc : rocpclient ga = Some rpc) :
  ∃ ga' rpc', processHealthValidation imp ParseInLocation p ga = Some (Some ErrAgentUnreachable, ga') ∧
    rocpclient ga' = Some rpc' ∧ IsDisabledOnFailure rpc' = false ∧ GetDisabledReason rpc' = "" ∧
    runs rpc' = runs rpc.
Proof.
  unfold processHealthValidation. rewrite Hnode. revert Hresp. unfold response.
  destruct (cacheRead _ _ _ _ _) as [r c] eqn:Hr.
  destruct (cacheRead_ok p ga r c Hp Hc Hr) as (Hrok & _ & _). cbn [fst].
  destruct r as [r|err]; [case_decide as Ha; [done|]; intros _|intros _].
  - destruct (getGPUs_spec p ga r c Hrok Hr) as [pm ->]. cbn [mbind option_bind].
    rewrite decide_True by done. do 2 eexists. split; [done|]. cbn. by rewrite Hrpc.
  - unfold getGPUs. rewrite Hr. cbn [mbind option_bind]. do 2 eexists. split; [done|]. cbn.
    by rewrite Hrpc.
Qed.
End theorems.

(** ** Instances

    Two GPUs, the second with one uncorrectable error in its memory. *)

Definition id16 (c : ascii) : string :=
  let f s := String c (String c (String c (String c s))) in f (f (f (f ""))).

Definition healthy_stats : GPUStats := zero_stats.
Definition faulty_stats : GPUStats := umc_stats 1.

Definition gpu_n (n : Z) (c : ascii) (st : GPUStats) : GPU :=
  MkGPU (Some (id16 c)) 1 1
    (Some (MkStatus n (Some (MkPCIe "0000:0A:00.0" 32 32 64)) 0 0 (128 + n) n "4DZ9" "AMD Instinct MI300X" "" "AMD" "6.10"
             "113-M3000100" [] 1 [] None None)) (Some st).

Definition two_gpus : list GPU := [gpu_n 0 "a"%char healthy_stats; gpu_n 1 "b"%char faulty_stats].

Definition handler0 : ConfigHandler :=
  NewConfigHandler "/etc/metrics/config.json" (MkAgentConfig 50061 false "").

Definition poll_of (t : Z) (r : GPUGetResponse + string) : poll :=
  MkPoll ∅ t t t r false false false (inl (MkEventResponse 0 [])) (λ _, t) handler0.

Definition crashed : ROCProfilerClient () :=
  SetFatalFailureState (NewRocProfilerClient "rocpclient").

Definition client0 : GPUAgentGPUClient () := MkClient (Some crashed) ∅ ∅ (MkCache None None 0) ∅ true.

Lemma poll_of_ok t r : (∀ resp, r = inl resp → Response resp = two_gpus ∨ Response resp = []) →
  poll_ok (poll_of t r).
Proof.
  intros Hr. split; [|by apply (bool_decide_unpack _); vm_compute].
  cbn. destruct r as [resp|]; [|done]. destruct (Hr resp eq_refl) as [-> | ->].
  - split; [repeat constructor; by eexists|]. split; apply (bool_decide_unpack _); by vm_compute.
  - split; [constructor|]. split; constructor.
Qed.

Definition imp0 : Z → double → Z := λ _ _, 0.
Definition parse0 : string → option Z := λ _, None.
Definition name0 : string → string := λ _, "".

(** A run: the first load, a failure of the node, its recovery, a tick. *)
Definition run0 : list op :=
  [ Static (poll_of 0 (inl (MkGetResponse 0 two_gpus)));
    NodeState false ∅;
    NodeState true ∅;
    Poll (poll_of (60 * second) (inl (MkGetResponse 0 two_gpus))) ].

Lemma run0_ok : Forall op_ok run0.
Proof.
  assert (Hp : ∀ t, poll_ok (poll_of t (inl (MkGetResponse 0 two_gpus)))).
  { intros t. apply poll_of_ok. intros resp [= <-]. by left. }
  unfold run0. rewrite !Forall_cons, Forall_nil. cbn [op_ok]. auto.
Qed.

Lemma health_refines_board_witness :
  (∃ ga', run imp0 parse0 name0 run0 client0 = Some ga' ∧
     abs ga' = foldl board_next (abs client0) (signals imp0 parse0 name0 run0 client0)) ∧
  (lamps ∘ abs) <$> run imp0 parse0 name0 run0 client0 = Some {[ "0" := true; "1" := false ]}.
Proof.
  split.
  - apply (health_refines_board imp0 parse0 name0 run0 client0).
    + apply run0_ok.
    + exact I.
  - vm_compute. reflexivity.
Defined.

Definition ga0 : GPUAgentGPUClient () :=
  default client0 (run imp0 parse0 name0 run0 client0).

Lemma run_reachable os (ga ga' : GPUAgentGPUClient ()) : reachable imp0 parse0 name0 ga →
  run imp0 parse0 name0 os ga = Some ga' → reachable imp0 parse0 name0 ga'.
Proof.
  revert ga. induction os as [|o os IH]; intros ga Hga; cbn [run]; [by intros [= <-]|].
  destruct (exec _ _ _ o ga) as [ga1|] eqn:He; [|done]. cbn [mbind option_bind].
  apply IH. by eapply reachable_step.
Qed.

Lemma ga0_reachable : reachable imp0 parse0 name0 ga0.
Proof.
  apply (run_reachable run0 client0); [apply reachable_new|].
  assert (is_Some (run imp0 parse0 name0 run0 client0)) as [g Hg] by (vm_compute; by eexists).
  unfold ga0. by rewrite Hg.
Qed.

Lemma health_invariant_witness :
  reachable imp0 parse0 name0 ga0 ∧
  (∀ k s, healthState ga0 !! k = Some s →
     ID s = k ∧ device_ok k ∧ (Health s = HEALTHY ∨ Health s = UNHEALTHY)) ∧
  Health <$> healthState ga0 = {[ "0" := HEALTHY; "1" := UNHEALTHY ]}.
Proof.
  split_and!.
  - apply ga0_reachable.
  - apply (health_invariant imp0 parse0 name0 ga0 ga0_reachable).
  - vm_compute. reflexivity.
Defined.

Lemma labels_show_health_witness :
  (∃ u, sendNodeLabelUpdate true "node1" true (inl witness_labels) None ga0 = (None, Some u) ∧
     ∀ k, ParseNodeHealthLabel (NewNodeHealthLabellerConfig GPUHealthLabelPrefix)
            (labels_after witness_labels u) !! k = Some UNHEALTHY ↔
          lamps (abs ga0) !! k = Some false) ∧
  lamps (abs ga0) !! "1" = Some false.
Proof.
  split.
  - destruct (labels_show_health imp0 parse0 name0 ga0 witness_labels "node1" ga0_reachable
      ltac:(done)) as (u & Hu & Hk & _).
    exists u. split; [exact Hu|exact Hk].
  - vm_compute. reflexivity.
Defined.

Lemma unanswered_tick_enables_profiler_witness :
  IsDisabledOnFailure crashed = true ∧
  ∃ ga' rpc', processHealthValidation imp0 parse0 (poll_of 0 (inr "connection refused")) client0 =
      Some (Some ErrAgentUnreachable, ga') ∧
    rocpclient ga' = Some rpc' ∧ IsDisabledOnFailure rpc' = false.
Proof.
  split; [vm_compute; reflexivity|].
  assert (Hp : poll_ok (poll_of 0 (inr "connection refused"))).
  { apply poll_of_ok. intros resp Hr. discriminate Hr. }
  assert (Hr : response (poll_of 0 (inr "connection refused")) client0 = None).
  { vm_compute. reflexivity. }
  destruct (unanswered_tick_enables_profiler imp0 parse0 (poll_of 0 (inr "connection refused")) client0
    crashed Hp I eq_refl Hr eq_refl) as (ga' & rpc' & H1 & H2 & H3 & _).
  exists ga', rpc'. split; [exact H1|]. split; [exact H2|exact H3].
Defined.
