(* ===== verification/Monitor.v ===== *)
(** The monitor of the GPU agent, [StartMonitor] of
    [src/pkg/amdgpu/gpuagent/gpuagent.go], with the connection and the
    schedulers the handler keeps: [Close], [Init], [reconnect], [isActive].

    One tick of the timer is one call of [tick]; the results of dialling and
    of starting the Slurm client, what the poll needs and what the Kubernetes
    API answers are arguments, the updates of the node labels are results.
    Between two ticks the scrapes, the loading of a configuration and the
    other goroutines change the GPU client - the cache of answers, the
    profiler client, the health of the node -; this is an arbitrary function
    in the input of the tick.  [events.Fatal] ends the process.  The handler
    has the one GPU client; the client for fabric metrics is not modelled. *)

From S2P Require Import Prelude RocpSdk Format GoStd ExporterUtils RocpClient Scheduler GpuMessages GpuAgent.
From S2P Require Import GoTime Config NodeLabeller GpuHealth GpuHealthProofs GpuHealthTheorems.
From Stdlib Require Import Ascii.
Local Open Scope Z_scope.

Definition maxConsecutiveFailures : Z := 3.

(** Reasons of events that end the process, [src/pkg/events/reasons.go]. *)
Inductive EventReason : Type :=
  | AgentUnreachable
  | ZeroGPUsDetected
  | HealthValidationFailed
  | RocpctlFatalExit.

(** Options that do not change during the life of the process. *)
Record options : Type := MkOptions {
  enableGPUMonitoring : bool;
  enableSlurmScl : bool;
  exitOnAgentDown : bool;
  exitOnRocpctlError : bool;
}.

Section monitor.
Context {P : Type} (imp : Z → double → Z) (ParseInLocation : string → option Z).
Context (opts : options).

(** What the handler keeps: whether there is a connection, which schedulers
    there are, whether the goroutine that refreshes the error records runs
    (the context it was started with is not cancelled), whether the clients
    of the services exist, and the GPU client. *)
Record GPUAgentClient : Type := MkAgent {
  conn : bool;
  k8sScheduler : bool;
  slurmScheduler : bool;
  cperRefresh : bool;
  active : bool;
  gpu : GPUAgentGPUClient P;
}.

Definition set_gpu (g : GPUAgentGPUClient P) (ga : GPUAgentClient) : GPUAgentClient :=
  MkAgent (conn ga) (k8sScheduler ga) (slurmScheduler ga) (cperRefresh ga) (active ga) g.

Definition isActive (ga : GPUAgentClient) : bool := active ga.

(** [InitClients] of the GPU client: an error without a connection. *)
Definition InitClients (ga : GPUAgentClient) : GPUAgentClient :=
  if conn ga
  then MkAgent (conn ga) (k8sScheduler ga) (slurmScheduler ga) (cperRefresh ga) true (gpu ga) else ga.

Definition Close_agent (ga : GPUAgentClient) : GPUAgentClient :=
  MkAgent false false false false (active ga) (Close (gpu ga)).

(** [dial] and [slurm] are the errors of [grpc.NewClient] and
    [NewSlurmClient], if any. *)
Definition Init (dial slurm : option string) (ga : GPUAgentClient)
    : option string * GPUAgentClient :=
  let ga := InitClients ga in
  match dial with
  | Some err => (Some err, ga)
  | None =>
      let ga := InitClients (MkAgent true (k8sScheduler ga) (slurmScheduler ga) (cperRefresh ga) (active ga) (gpu ga)) in
      if enableSlurmScl opts then
        match slurm with
        | Some err => (Some err, ga)
        | None => (None, MkAgent (conn ga) (k8sScheduler ga) true (cperRefresh ga) (active ga) (gpu ga))
        end
      else (None, ga)
  end.

Definition reconnect (dial slurm : option string) (ga : GPUAgentClient)
    : option string * GPUAgentClient := Init dial slurm (Close_agent ga).

(** ** Ticks *)

(** What an update of the node labels meets: whether the Kubernetes API is
    enabled, the name of the node, whether there is a client, the labels the
    API returns, the error of writing them. *)
Record node_env : Type := MkNodeEnv {
  enabledK8sApi : bool;
  nodeName : string;
  k8sClient : bool;
  node_labels : gmap string string + string;
  node_update : option string;
}.

Record tick_input : Type := MkTick {
  others : GPUAgentGPUClient P → GPUAgentGPUClient P;   (* since the last tick *)
  dial : option string;
  slurm : option string;
  tick_poll : poll;
  node : node_env;
}.

Inductive outcome : Type :=
  | Continue (consecutiveFailures : Z) (ga : GPUAgentClient)
  | Exit (reason : EventReason).

(** A failure: the counter goes up, and at the third in a row the process
    ends if it is asked to. *)
Definition count_failure (reason : EventReason) (failures : Z) (ga : GPUAgentClient) : outcome :=
  if exitOnAgentDown opts && (maxConsecutiveFailures <=? failures + 1)
  then Exit reason else Continue (failures + 1) ga.

(** The end of a tick that did not fail. *)
Definition successful_tick (ga : GPUAgentClient) : outcome :=
  match rocpclient (gpu ga) with
  | Some rpc =>
      if exitOnRocpctlError opts && enableGPUMonitoring opts && IsDisabledOnFailure rpc
      then Exit RocpctlFatalExit else Continue 0 ga
  | None => Continue 0 ga
  end.

(** The request to the Kubernetes API, if one is made; its error is only
    logged. *)
Definition push_labels (e : node_env) (ga : GPUAgentClient) : option label_update :=
  (sendNodeLabelUpdate (enabledK8sApi e) (nodeName e) (k8sClient e) (node_labels e) (node_update e)
     (gpu ga)).2.

(** The part of a tick with a connection, with the update of the node labels
    it makes; [None]: the process panics. *)
Definition poll_tick (p : poll) (e : node_env) (failures : Z) (ga : GPUAgentClient)
    : option (outcome * option label_update) :=
  if enableGPUMonitoring opts then
    '(err, g) ← processHealthValidation imp ParseInLocation p (gpu ga);
    let ga := set_gpu g ga in
    Some (match err with
          | Some err =>
              if isRestartableFailure err then
                let o := count_failure (match err with ErrZeroGPUs => ZeroGPUsDetected
                                        | _ => HealthValidationFailed end) failures ga in
                (o, match o, err with
                    | Continue _ _, ErrZeroGPUs => push_labels e ga
                    | _, _ => None
                    end)
              else (successful_tick ga, None)
          | None => (successful_tick ga, push_labels e ga)
          end)
  else Some (successful_tick ga, None).

(** The tick, once the timer has fired. *)
Definition on_timer (t : tick_input) (failures : Z) (ga : GPUAgentClient)
    : option (outcome * option label_update) :=
  if isActive ga then poll_tick (tick_poll t) (node t) failures ga
  else
    let '(err, ga) := reconnect (dial t) (slurm t) ga in
    match err with
    | Some _ => Some (count_failure AgentUnreachable failures ga, None)
    | None => poll_tick (tick_poll t) (node t) failures ga
    end.

(** The agent when the timer fires. *)
Definition met (t : tick_input) (ga : GPUAgentClient) : GPUAgentClient := set_gpu (others t (gpu ga)) ga.

Definition tick (t : tick_input) (failures : Z) (ga : GPUAgentClient)
    : option (outcome * option label_update) := on_timer t failures (met t ga).

(** The loop, over the ticks of the timer, with the updates of the node
    labels in order. *)
Fixpoint monitor (ts : list tick_input) (failures : Z) (ga : GPUAgentClient)
    : option (outcome * list label_update) :=
  match ts with
  | [] => Some (Continue failures ga, [])
  | t :: ts =>
      '(o, u) ← tick t failures ga;
      match o with
      | Continue failures ga =>
          '(o, us) ← monitor ts failures ga;
          Some (o, option_list u ++ us)
      | Exit reason => Some (Exit reason, option_list u)
      end
  end.

(** ** When a tick fails *)

Definition tick_ok (t : tick_input) : Prop :=
  poll_ok (tick_poll t) ∧ ∀ g, cache_ok g → cache_ok (others t g).

(** The tick counts as a failure of the agent, met in the state [ga]. *)
Definition fails (t : tick_input) (ga : GPUAgentClient) : bool :=
  let poll_fails (g : GPUAgentGPUClient P) :=
    enableGPUMonitoring opts && computeNodeHealthState g &&
    match response (tick_poll t) g with
    | Some r => bool_decide (Response r = [])
    | None => true
    end in
  if isActive ga then poll_fails (gpu ga)
  else match (reconnect (dial t) (slurm t) ga).1 with
       | Some _ => true
       | None => poll_fails (Close (gpu ga))
       end.

(** The profiler client has switched itself off. *)
Definition profiler_down (g : GPUAgentGPUClient P) : bool :=
  match rocpclient g with Some rpc => IsDisabledOnFailure rpc | None => false end.

(** What a tick says of the agent.  A connection that is made anew enables
    the profiler client again. *)
Inductive verdict : Type := Failing | ProfilerDown | Fine.

Definition verdict_of (t : tick_input) (ga : GPUAgentClient) : verdict :=
  if fails t ga then Failing
  else if exitOnRocpctlError opts && enableGPUMonitoring opts && isActive ga && profiler_down (gpu ga)
  then ProfilerDown else Fine.

(** What ticks need and keep. *)
Definition agent_ok (ga : GPUAgentClient) : Prop := cache_ok (gpu ga).

(** The result of a poll, for each kind of answer. *)
Definition poll_result (p : poll) (g : GPUAgentGPUClient P) : option health_error :=
  if computeNodeHealthState g then
    match response p g with
    | Some r => if decide (Response r = []) then Some ErrZeroGPUs else None
    | None => Some ErrAgentUnreachable
    end
  else Some ComputeNodeUnhealthy.

Lemma poll_error p (g : GPUAgentGPUClient P) : poll_ok p → cache_ok g →
  ∃ g', processHealthValidation imp ParseInLocation p g = Some (poll_result p g, g') ∧ cache_ok g' ∧
    abs g' = board_next (abs g) (signal_of ParseInLocation (Poll p) g) ∧
    (poll_result p g ≠ Some ErrAgentUnreachable → rocpclient g' = rocpclient g).
Proof.
  intros Hp Hc. destruct (poll_sim imp ParseInLocation p g Hp Hc) as (err & g' & He & Ha & Hc').
  exists g'. rewrite He.
  enough (err = poll_result p g ∧ (poll_result p g ≠ Some ErrAgentUnreachable → rocpclient g' = rocpclient g))
    as [-> Hr] by done. revert He. unfold processHealthValidation, poll_result.
  destruct (computeNodeHealthState g) eqn:Hn; [|by intros [= <- <-]].
  unfold response. destruct (cacheRead _ _ _ _ _) as [r c] eqn:Hr.
  destruct (cacheRead_ok p g r c Hp Hc Hr) as (Hrok & _ & _). cbn [fst].
  destruct r as [r|e].
  - destruct (getGPUs_spec p g r c Hrok Hr) as [pm ->]. cbn [mbind option_bind].
    destruct (decide (ApiStatus r = 0)) as [Hs|Hs].
    + rewrite decide_False by naive_solver. case_decide; [by intros [= <- <-]|].
      destruct (new_states _ _ _ _ _); [|done]. by intros [= <- <-].
    + rewrite decide_True by done. by intros [= <- <-].
  - unfold getGPUs. rewrite Hr. cbn [mbind option_bind]. by intros [= <- <-].
Qed.

Lemma reconnect_state d sl ga err ga1 : reconnect d sl ga = (err, ga1) →
  k8sScheduler ga1 = false ∧ cperRefresh ga1 = false ∧ gpu ga1 = Close (gpu ga).
Proof.
  unfold reconnect, Init, InitClients, Close_agent. cbn. repeat case_match; by intros [= <- <-].
Qed.

(** The state after a tick that does not end the process. *)
Definition next (t : tick_input) (ga : GPUAgentClient) : GPUAgentClient :=
  match tick t 0 ga with Some (Continue _ ga', _) => ga' | _ => ga end.

Lemma next_Continue t ga n ga' u : tick t 0 ga = Some (Continue n ga', u) → next t ga = ga'.
Proof. unfold next. by intros ->. Qed.

(** How a tick ends after [n] failures. *)
Definition ends_as (v : verdict) (reason : EventReason) (n : Z) (ga : GPUAgentClient) : outcome :=
  match v with
  | Failing => count_failure reason n ga
  | ProfilerDown => Exit RocpctlFatalExit
  | Fine => Continue 0 ga
  end.

Lemma successful_tick_down ga : successful_tick ga =
  if exitOnRocpctlError opts && enableGPUMonitoring opts && profiler_down (gpu ga)
  then Exit RocpctlFatalExit else Continue 0 ga.
Proof. unfold successful_tick, profiler_down. destruct (rocpclient _); [done|]. by rewrite andb_false_r. Qed.

Lemma poll_tick_spec p e ga : poll_ok p → agent_ok ga →
  ∃ ga' reason, agent_ok ga' ∧ ∀ n, fst <$> poll_tick p e n ga =
    Some (if enableGPUMonitoring opts && computeNodeHealthState (gpu ga) &&
             match response p (gpu ga) with Some r => bool_decide (Response r = []) | None => true end
          then count_failure reason n ga'
          else if exitOnRocpctlError opts && enableGPUMonitoring opts && profiler_down (gpu ga)
          then Exit RocpctlFatalExit else Continue 0 ga').
Proof.
  intros Hp Hc. unfold poll_tick. destruct (enableGPUMonitoring opts) eqn:Hm; cbn [andb].
  2:{ exists ga, AgentUnreachable. split; [done|]. intros n. by rewrite successful_tick_down, Hm, !andb_false_r. }
  destruct (poll_error p (gpu ga) Hp Hc) as (g' & He & Hc' & _ & Hrpc).
  exists (set_gpu g' ga), (match poll_result p (gpu ga) with Some ErrZeroGPUs => ZeroGPUsDetected
                           | _ => HealthValidationFailed end).
  split; [done|]. intros n. rewrite He. revert Hrpc. unfold poll_result. cbn [mbind option_bind].
  destruct (computeNodeHealthState (gpu ga)).
  2:{ intros Hrpc. cbn. rewrite successful_tick_down, Hm. unfold profiler_down. cbn. by rewrite Hrpc. }
  destruct (response p (gpu ga)) as [r|]; [|done]. case_decide; intros Hrpc; cbn.
  - by rewrite bool_decide_eq_true_2.
  - rewrite bool_decide_eq_false_2, successful_tick_down, Hm by done. unfold profiler_down. cbn. by rewrite Hrpc.
Qed.

Lemma on_timer_spec t ga : poll_ok (tick_poll t) → agent_ok ga →
  ∃ ga' reason, agent_ok ga' ∧ ∀ n, fst <$> on_timer t n ga = Some (ends_as (verdict_of t ga) reason n ga').
Proof.
  intros Ht Hok. unfold on_timer, verdict_of, fails. destruct (isActive ga); cbn [andb].
  - destruct (poll_tick_spec (tick_poll t) (node t) ga Ht Hok) as (ga' & reason & Hok' & Hn).
    exists ga', reason. split; [done|]. intros n. rewrite Hn, andb_true_r. by repeat case_match.
  - rewrite andb_false_r. destruct (reconnect (dial t) (slurm t) ga) as [err ga1] eqn:Hr. cbn [fst].
    destruct (reconnect_state _ _ _ _ _ Hr) as (_ & _ & Hg).
    destruct err as [e|].
    + exists ga1, AgentUnreachable. split; [|done]. unfold agent_ok. by rewrite Hg.
    + destruct (poll_tick_spec (tick_poll t) (node t) ga1 Ht) as (ga' & reason & Hok' & Hn).
      { unfold agent_ok. by rewrite Hg. }
      exists ga', reason. split; [done|]. intros n. rewrite Hn, Hg.
      assert (profiler_down (Close (gpu ga)) = false) as ->.
      { unfold profiler_down. cbn. by destruct (rocpclient (gpu ga)). }
      rewrite andb_false_r. by repeat case_match.
Qed.

Lemma tick_spec t ga : tick_ok t → agent_ok ga →
  agent_ok (next t ga) ∧
  ∃ reason, ∀ n, fst <$> tick t n ga = Some (ends_as (verdict_of t (met t ga)) reason n (next t ga)).
Proof.
  intros [Ht Ho] Hok. destruct (on_timer_spec t (met t ga) Ht (Ho _ Hok)) as (ga' & reason & Hok' & Hn).
  change (on_timer t ?n (met t ga)) with (tick t n ga) in Hn. pose proof (Hn 0) as H0.
  apply fmap_Some in H0 as ([o u] & Hto & Ho'). cbn in Ho'. subst o.
  destruct (verdict_of t (met t ga)); cbn [ends_as] in Hto.
  - unfold count_failure in Hto. rewrite andb_false_r in Hto. rewrite (next_Continue _ _ _ _ _ Hto).
    split; [done|by exists reason].
  - assert (next t ga = ga) as -> by (unfold next; by rewrite Hto). split; [done|by exists reason].
  - rewrite (next_Continue _ _ _ _ _ Hto). split; [done|by exists reason].
Qed.

(** What the ticks of a run say. *)
Fixpoint verdicts (ts : list tick_input) (ga : GPUAgentClient) : list verdict :=
  match ts with
  | [] => []
  | t :: ts => verdict_of t (met t ga) :: verdicts ts (next t ga)
  end.

(** Three failures in a row, after [n] failures, if the process is to end
    then, or a profiler client that is down. *)
Fixpoint to_end (n : nat) (l : list verdict) : bool :=
  match l with
  | [] => false
  | Failing :: l => exitOnAgentDown opts && Nat.leb 3 (S n) || to_end (S n) l
  | ProfilerDown :: _ => true
  | Fine :: l => to_end 0 l
  end.

Lemma row_goes_on n v l : v ≠ Failing → (n < 3)%nat →
  (∃ l1 l2, replicate n Failing ++ v :: l = l1 ++ [Failing; Failing; Failing] ++ l2) ↔
  (∃ l1 l2, l = l1 ++ [Failing; Failing; Failing] ++ l2).
Proof.
  intros Hv Hn. split.
  - intros (l1 & l2 & He).
    destruct n as [|[|[|n]]]; [| | |lia]; cbn in He;
      destruct l1 as [|a [|b [|c l1]]]; simplify_eq/=;
      first [by eexists [], _ | by eexists [_], _ | by eexists (_ :: l1), _ | by eexists (_ :: _ :: l1), _
            | by eexists l1, _].
  - intros (l1 & l2 & ->). by exists (replicate n Failing ++ v :: l1), l2; rewrite <- app_assoc.
Qed.

Lemma to_end_spec l : ∀ n, (exitOnAgentDown opts = true → (n < 3)%nat) →
  to_end n l = true ↔ ProfilerDown ∈ l ∨
    exitOnAgentDown opts = true ∧
      ∃ l1 l2, replicate n Failing ++ l = l1 ++ [Failing; Failing; Failing] ++ l2.
Proof.
  induction l as [|v l IH]; intros n Hn; cbn [to_end].
  - split; [done|]. intros [?%elem_of_nil|[Hex (l1 & l2 & He)]]; [done|]. specialize (Hn Hex).
    apply (f_equal length) in He. rewrite !length_app, length_replicate in He. cbn in He. lia.
  - rewrite elem_of_cons. destruct v.
    + assert (He : ∀ l2, replicate n Failing ++ Failing :: l2 = replicate (S n) Failing ++ l2)
        by (intros; by rewrite replicate_S_end, <- app_assoc).
      rewrite He, orb_true_iff, andb_true_iff, Nat.leb_le. destruct (exitOnAgentDown opts) eqn:Hex.
      * specialize (Hn eq_refl). destruct (decide (n = 2%nat)) as [->|Hne].
        { split; [|by left; lia]. intros _. right. split; [done|]. by exists [], l. }
        rewrite IH by lia. split; [|naive_solver]. intros [[_ ?]|[?|?]]; [lia|auto..].
      * rewrite IH by done. naive_solver.
    + split; [|done]. auto.
    + rewrite IH by lia. cbn [replicate app]. split.
      * intros [?|[Hex Hr]]; [auto|]. right. split; [done|]. apply row_goes_on; [done|auto|done].
      * intros [[?|?]|[Hex Hr]]; [done|auto|]. right. split; [done|]. by apply row_goes_on in Hr; [|done|auto].
Qed.

(** One tick in front of a run that continues. *)
Lemma monitor_cons t ts n ga n' ga' : fst <$> tick t n ga = Some (Continue n' ga') →
  fst <$> monitor (t :: ts) n ga = fst <$> monitor ts n' ga'.
Proof.
  intros ([o u] & Ht & Ho)%fmap_Some. cbn in Ho. subst o. cbn [monitor]. rewrite Ht.
  cbn [mbind option_bind]. by destruct (monitor ts n' ga') as [[]|].
Qed.

Lemma monitor_exit t ts n ga reason : fst <$> tick t n ga = Some (Exit reason) →
  fst <$> monitor (t :: ts) n ga = Some (Exit reason).
Proof.
  intros ([o u] & Ht & Ho)%fmap_Some. cbn in Ho. subst o. cbn [monitor]. by rewrite Ht.
Qed.

Lemma monitor_spec ts : ∀ (n : nat) ga, Forall tick_ok ts → agent_ok ga →
  (exitOnAgentDown opts = true → (n < 3)%nat) →
  ∃ o, fst <$> monitor ts (Z.of_nat n) ga = Some o ∧ ((∃ r, o = Exit r) ↔ to_end n (verdicts ts ga) = true).
Proof.
  induction ts as [|t ts IH]; intros n ga Hts Hok Hn.
  - eexists. split; [done|]. cbn. naive_solver.
  - apply Forall_cons in Hts as [Ht Hts]. destruct (tick_spec t ga Ht Hok) as (Hok' & reason & Htick).
    specialize (Htick (Z.of_nat n)). cbn [verdicts to_end].
    destruct (verdict_of t (met t ga)); cbn [ends_as] in Htick.
    + revert Htick. unfold count_failure, maxConsecutiveFailures.
      assert ((3 <=? Z.of_nat n + 1)%Z = Nat.leb 3 (S n)) as ->.
      { destruct (Nat.leb_spec 3 (S n)), (Z.leb_spec 3 (Z.of_nat n + 1)); lia. }
      destruct (exitOnAgentDown opts && _) eqn:Hex; intros Htick.
      * rewrite (monitor_exit _ _ _ _ _ Htick). eexists. split; [done|]. split; [done|]. intros _. by eexists.
      * rewrite (monitor_cons _ _ _ _ _ _ Htick). replace (Z.of_nat n + 1) with (Z.of_nat (S n)) by lia.
        apply IH; [done..|]. intros Ha. rewrite Ha in Hex. cbn [andb] in Hex. apply Nat.leb_gt in Hex. lia.
    + rewrite (monitor_exit _ _ _ _ _ Htick). eexists. split; [done|]. split; [done|]. intros _. by eexists.
    + rewrite (monitor_cons _ _ _ _ _ _ Htick). apply (IH 0%nat); [done..|lia].
Qed.

(** C11: When the monitor ends the process, for all settings of the options:
    if [exitOnAgentDown] is set and three ticks in a row fail - the
    connection cannot be made, the agent does not answer, or it answers with
    an error or without GPUs -, or if [exitOnRocpctlError] is set, GPU
    monitoring is on and a tick that did not fail, on a connection that was
    there before it, finds the profiler client disabled.  Ticks on an
    unhealthy compute node are not failures and break a row.  It ends in no
    other way, and never panics as long as the answers are well formed (each
    GPU complete and named once), those the other goroutines put into the
    cache between the ticks too; what else they do to the client does not
    matter. *)
Theorem monitor_exits_exactly ts ga (Hts : Forall tick_ok ts) (Hok : agent_ok ga) :
  ∃ o us, monitor ts 0 ga = Some (o, us) ∧
    ((∃ r, o = Exit r) ↔
       ProfilerDown ∈ verdicts ts ga ∨
       exitOnAgentDown opts = true ∧
         ∃ l1 l2, verdicts ts ga = l1 ++ [Failing; Failing; Failing] ++ l2).
Proof.
  destruct (monitor_spec ts 0 ga Hts Hok ltac:(lia)) as (o & Ho & He).
  apply fmap_Some in Ho as ([o' us] & Ho & ->). exists o', us. split; [done|]. cbn in He.
  rewrite He. by rewrite (to_end_spec _ 0) by lia.
Qed.

(** ** An agent that is gone *)

Lemma dead_poll p (g : GPUAgentGPUClient P) e : gpuGet p = inr e → computeNodeHealthState g = true →
  cache_fresh (now p) (gCache g) = None → cache_fresh (now' p) (gCache g) = None →
  ∃ g', processHealthValidation imp ParseInLocation p g = Some (Some ErrAgentUnreachable, g') ∧
    lastResponse (gCache g') = None ∧ computeNodeHealthState g' = true.
Proof.
  intros Hg Hn H1 H2. unfold processHealthValidation, getGPUs, cacheRead, cache_locked.
  rewrite Hn, H1, H2, Hg. cbn [fst mbind option_bind]. by eexists.
Qed.

Lemma empty_cache_stale t c : lastResponse c = None → cache_fresh t c = None.
Proof. unfold cache_fresh. by intros ->. Qed.

(** What a tick without an answer leaves. *)
Definition gone (g : GPUAgentGPUClient P) : Prop :=
  lastResponse (gCache g) = None ∧ computeNodeHealthState g = true.

Lemma dead_poll_tick p e ga err n : enableGPUMonitoring opts = true → gpuGet p = inr err →
  computeNodeHealthState (gpu ga) = true →
  cache_fresh (now p) (gCache (gpu ga)) = None → cache_fresh (now' p) (gCache (gpu ga)) = None →
  ∃ ga', fst <$> poll_tick p e n ga = Some (count_failure HealthValidationFailed n ga') ∧ gone (gpu ga').
Proof.
  intros Hm Hg Hn H1 H2. unfold poll_tick. rewrite Hm.
  destruct (dead_poll p (gpu ga) err Hg Hn H1 H2) as (g' & -> & Hl & Hn').
  cbn [mbind option_bind isRestartableFailure fmap option_fmap option_map fst].
  by exists (set_gpu g' ga).
Qed.

(** The reasons for which a dead agent ends the process. *)
Definition down_reason (r : EventReason) : Prop := r = AgentUnreachable ∨ r = HealthValidationFailed.

(** One tick without an answer, on a running node: with a connection or
    without, whether or not it can be made anew.  The cache of answers stays
    or is emptied. *)
Lemma dead_on_timer t ga err n : enableGPUMonitoring opts = true →
  gpuGet (tick_poll t) = inr err → computeNodeHealthState (gpu ga) = true →
  cache_fresh (now (tick_poll t)) (gCache (gpu ga)) = None →
  cache_fresh (now' (tick_poll t)) (gCache (gpu ga)) = None →
  ∃ ga' r, down_reason r ∧ fst <$> on_timer t n ga = Some (count_failure r n ga') ∧
    computeNodeHealthState (gpu ga') = true ∧
    (gCache (gpu ga') = gCache (gpu ga) ∨ lastResponse (gCache (gpu ga')) = None).
Proof.
  intros Hm Hg Hn H1 H2. unfold on_timer. destruct (isActive ga).
  { destruct (dead_poll_tick (tick_poll t) (node t) ga err n Hm Hg Hn H1 H2) as (ga' & Ht & [Hl Hc]).
    exists ga', HealthValidationFailed. split_and!; [by right|done|done|by right]. }
  destruct (reconnect (dial t) (slurm t) ga) as [e ga1] eqn:Hr.
  destruct (reconnect_state _ _ _ _ _ Hr) as (_ & _ & Hga). destruct e as [e|].
  - exists ga1, AgentUnreachable. rewrite Hga. split_and!; [by left|done|done|by left].
  - destruct (dead_poll_tick (tick_poll t) (node t) ga1 err n Hm Hg) as (ga' & Ht & [Hl Hc]);
      [by rewrite Hga|by rewrite Hga|by rewrite Hga|].
    exists ga', HealthValidationFailed. split_and!; [by right|done|done|by right].
Qed.

(** The answer in the cache, if any, is too old at the tick. *)
Definition stale (t : tick_input) (c : gpuCache) : Prop :=
  ∀ r, lastResponse c = Some r →
    cacheTimer <= now (tick_poll t) - lastTimestamp c ∧ cacheTimer <= now' (tick_poll t) - lastTimestamp c.

Lemma stale_fresh t c : stale t c →
  cache_fresh (now (tick_poll t)) c = None ∧ cache_fresh (now' (tick_poll t)) c = None.
Proof.
  intros Hs. unfold cache_fresh. destruct (lastResponse c) as [r|] eqn:Hr; [|done].
  destruct (Hs r Hr). cbn [mbind option_bind]. by rewrite !decide_False by lia.
Qed.

(** The agent is gone at the tick, for the other goroutines too: the poll
    gets no answer, and what they do since the tick before it brings no
    answer into the cache; the compute node stays healthy. *)
Definition dead (t : tick_input) : Prop :=
  (∃ err, gpuGet (tick_poll t) = inr err) ∧
  ∀ g, computeNodeHealthState g = true →
    computeNodeHealthState (others t g) = true ∧
    (gCache (others t g) = gCache g ∨ lastResponse (gCache (others t g)) = None).

Lemma stale_kept t c c' : stale t c → c' = c ∨ lastResponse c' = None → stale t c'.
Proof. intros Hs [->|Hn]; [done|]. intros r Hr. congruence. Qed.

Lemma dead_tick t ga n : enableGPUMonitoring opts = true → dead t → computeNodeHealthState (gpu ga) = true →
  stale t (gCache (gpu ga)) →
  ∃ ga' r, down_reason r ∧ fst <$> tick t n ga = Some (count_failure r n ga') ∧
    computeNodeHealthState (gpu ga') = true ∧
    (gCache (gpu ga') = gCache (gpu ga) ∨ lastResponse (gCache (gpu ga')) = None).
Proof.
  intros Hm [[err Hg] Ho] Hn Hs. destruct (Ho _ Hn) as [Hn' Hc].
  destruct (stale_fresh t (gCache (others t (gpu ga)))) as [H1 H2]; [by eapply stale_kept|].
  destruct (dead_on_timer t (met t ga) err n Hm Hg Hn' H1 H2) as (ga' & r & Hr & Ht & Hn'' & Hc').
  exists ga', r. split_and!; [done|exact Ht|done|]. cbn [met set_gpu gpu] in Hc'.
  destruct Hc' as [->|?]; [done|by right].
Qed.

(** C33: An agent that is gone for good, with GPU monitoring on and the
    compute node healthy.  If [exitOnAgentDown] is set (it is not by
    default), the third tick at the latest ends the process, so that the
    container can be restarted, whatever the monitor counted before and
    whether or not there was a connection or one can be made; the answer in
    the cache, being older than 15 seconds at the ticks, does not hide it.
    If the option is not set, the process goes on and each tick is counted. *)
Theorem dead_agent_exits t1 t2 t3 ts n ga (Hm : enableGPUMonitoring opts = true)
    (Hnode : computeNodeHealthState (gpu ga) = true) (Hn : 0 <= n) (Hdead : Forall dead [t1; t2; t3])
    (Hold : ∀ t, t ∈ [t1; t2; t3] → stale t (gCache (gpu ga))) :
  (exitOnAgentDown opts = true →
     ∃ r, down_reason r ∧ fst <$> monitor (t1 :: t2 :: t3 :: ts) n ga = Some (Exit r)) ∧
  (exitOnAgentDown opts = false →
     ∃ ga', fst <$> monitor (t1 :: t2 :: t3 :: ts) n ga = fst <$> monitor ts (n + 3) ga').
Proof.
  apply Forall_cons in Hdead as [Hd1 [Hd2 [Hd3 _]%Forall_cons]%Forall_cons].
  assert (Hs1 : stale t1 (gCache (gpu ga))) by (apply Hold; set_solver).
  destruct (dead_tick t1 ga n Hm Hd1 Hnode Hs1) as (ga1 & r1 & Hr1 & H1 & Hn1 & Hc1).
  assert (Hs2 : stale t2 (gCache (gpu ga1))) by (eapply stale_kept; [|exact Hc1]; apply Hold; set_solver).
  destruct (dead_tick t2 ga1 (n + 1) Hm Hd2 Hn1 Hs2) as (ga2 & r2 & Hr2 & H2 & Hn2 & Hc2).
  assert (Hs3 : stale t3 (gCache (gpu ga2))).
  { eapply stale_kept; [|exact Hc2]. eapply stale_kept; [|exact Hc1]. apply Hold. set_solver. }
  destruct (dead_tick t3 ga2 (n + 2) Hm Hd3 Hn2 Hs3) as (ga3 & r3 & Hr3 & H3 & _).
  revert H1 H2 H3. unfold count_failure, maxConsecutiveFailures.
  split; intros Hex; rewrite Hex in *; cbn [andb] in *.
  - destruct (Z.leb_spec 3 (n + 1)); [exists r1; split; [done|]; by apply monitor_exit|].
    rewrite (monitor_cons _ _ _ _ _ _ H1).
    destruct (Z.leb_spec 3 (n + 1 + 1)); [exists r2; split; [done|]; by apply monitor_exit|].
    rewrite (monitor_cons _ _ _ _ _ _ H2). replace (n + 1 + 1) with (n + 2) by lia.
    destruct (Z.leb_spec 3 (n + 2 + 1)); [|lia]. exists r3. split; [done|]. by apply monitor_exit.
  - exists ga3. rewrite (monitor_cons _ _ _ _ _ _ H1), (monitor_cons _ _ _ _ _ _ H2).
    replace (n + 1 + 1) with (n + 2) by lia. rewrite (monitor_cons _ _ _ _ _ _ H3). f_equal. f_equal. lia.
Qed.

(** ** A scheduler that is lost *)

Lemma count_failure_Continue reason n ga m ga' :
  count_failure reason n ga = Continue m ga' → ga' = ga.
Proof. unfold count_failure. case_match; [done|]. by intros [= _ ->]. Qed.

Lemma successful_tick_Continue ga m ga' : successful_tick ga = Continue m ga' → ga' = ga.
Proof. unfold successful_tick. repeat case_match; try done; by intros [= _ ->]. Qed.

(** A tick changes the GPU client alone, once there is a connection. *)
Lemma poll_tick_Continue p e n ga m ga' u : poll_tick p e n ga = Some (Continue m ga', u) →
  ∃ g, ga' = set_gpu g ga.
Proof.
  unfold poll_tick. destruct (enableGPUMonitoring opts).
  - destruct (processHealthValidation _ _ _ _) as [[err g]|]; [|done]. cbn [mbind option_bind].
    destruct err as [[]|]; cbn; intros He; injection He as He _; exists g;
      by first [apply (count_failure_Continue _ _ _ _ _ He)|apply (successful_tick_Continue _ _ _ He)].
  - intros He. injection He as He _. apply successful_tick_Continue in He as ->. exists (gpu ga). by destruct ga.
Qed.

Lemma tick_schedulers t n ga m ga' u : tick t n ga = Some (Continue m ga', u) →
  k8sScheduler ga' = k8sScheduler ga && isActive ga ∧ cperRefresh ga' = cperRefresh ga && isActive ga.
Proof.
  unfold tick, on_timer. change (isActive (met t ga)) with (isActive ga). destruct (isActive ga).
  { rewrite !andb_true_r. intros (g & ->)%poll_tick_Continue. done. }
  rewrite !andb_false_r. destruct (reconnect (dial t) (slurm t) (met t ga)) as [err ga1] eqn:Hr.
  destruct (reconnect_state _ _ _ _ _ Hr) as (Hk & Hc & _). destruct err.
  - intros He. injection He as He _. by apply count_failure_Continue in He as ->.
  - intros (g & ->)%poll_tick_Continue. done.
Qed.

(** A reconnection closes the Kubernetes scheduler and does not create it
    again, and it cancels the context of the refresh of the error records:
    after a tick that had to reconnect, the workloads the agent lists are
    those of Slurm alone and the error records stay those it had, for all
    ticks that follow. *)
Theorem reconnect_loses_k8s t n ga m ga' ts (Hinactive : isActive ga = false)
    (u : option label_update) (Ht : tick t n ga = Some (Continue m ga', u)) :
  k8sScheduler ga' = false ∧ cperRefresh ga' = false ∧
  (∀ k ga'' us, monitor ts m ga' = Some (Continue k ga'', us) →
     k8sScheduler ga'' = false ∧ cperRefresh ga'' = false).
Proof.
  assert (Hk : k8sScheduler ga' = false ∧ cperRefresh ga' = false).
  { destruct (tick_schedulers t n ga m ga' u Ht) as [-> ->]. by rewrite Hinactive, !andb_false_r. }
  split; [apply Hk|]. split; [apply Hk|]. clear Ht Hinactive. revert m ga' Hk.
  induction ts as [|t' ts IH]; intros m ga' Hk k ga'' us; cbn [monitor]; [by intros [= <- <- <-]|].
  destruct (tick t' m ga') as [[[m1 ga1|] u1]|] eqn:Ht; cbn [mbind option_bind]; [|done|done].
  destruct (monitor ts m1 ga1) as [[o us1]|] eqn:Hts; [|done]. cbn [mbind option_bind].
  intros [= -> <-]. apply (IH m1 ga1) in Hts; [done|].
  destruct (tick_schedulers t' m ga' m1 ga1 u1 Ht) as [-> ->]. by destruct Hk as [-> ->].
Qed.

(** ** The labels of the node *)

(** The agent answered the tick, on a healthy compute node. *)
Definition answers (t : tick_input) (ga : GPUAgentClient) : bool :=
  let poll_answers (g : GPUAgentGPUClient P) :=
    computeNodeHealthState g && bool_decide (is_Some (response (tick_poll t) g)) in
  if isActive ga then poll_answers (gpu ga)
  else match (reconnect (dial t) (slurm t) ga).1 with
       | Some _ => false
       | None => poll_answers (Close (gpu ga))
       end.

(** The Kubernetes API is enabled and works. *)
Definition node_ok (labels : gmap string string) (e : node_env) : Prop :=
  enabledK8sApi e = true ∧ nodeName e ≠ "" ∧ k8sClient e = true ∧ node_labels e = inl labels ∧
  node_update e = None.

Definition lamps_off (g : GPUAgentGPUClient P) : Prop :=
  ∀ k b, lamps (abs g) !! k = Some b → b = false.

(** The labels after the update are those of the published states. *)
Definition labels_follow (labels : gmap string string) (u : label_update) (g : GPUAgentGPUClient P) : Prop :=
  ∀ k, ParseNodeHealthLabel (NewNodeHealthLabellerConfig GPUHealthLabelPrefix)
         (labels_after labels u) !! k = Some UNHEALTHY ↔ lamps (abs g) !! k = Some false.

Lemma all_off_lamps (g g' : GPUAgentGPUClient P) : abs g' = board_next (abs g) AllOff → lamps_off g'.
Proof.
  intros Ha k b. rewrite Ha. cbn. rewrite lookup_fmap. destruct (_ !! k); cbn; [|done]. by intros [= <-].
Qed.

Lemma push_labels_follow labels e ga : node_ok labels e →
  map_Forall state_ok (healthState (gpu ga)) →
  ∃ u, push_labels e ga = Some u ∧ labels_follow labels u (gpu ga).
Proof.
  intros (H1 & H2 & H3 & H4 & H5) Hh. unfold push_labels. rewrite H1, H3, H4, H5.
  destruct (labels_written (gpu ga) labels (nodeName e) Hh H2) as (u & -> & Hu & _). by exists u.
Qed.

Lemma poll_tick_labels labels p e n ga m ga' u : enableGPUMonitoring opts = true → node_ok labels e →
  poll_ok p → agent_ok ga → published_ok (gpu ga) →
  poll_tick p e n ga = Some (Continue m ga', u) →
  match u with
  | Some u => computeNodeHealthState (gpu ga) && bool_decide (is_Some (response p (gpu ga))) = true ∧
      labels_follow labels u (gpu ga')
  | None => computeNodeHealthState (gpu ga) && bool_decide (is_Some (response p (gpu ga))) = false ∧
      lamps_off (gpu ga')
  end.
Proof.
  intros Hm He Hp Hok Hh. unfold poll_tick. rewrite Hm.
  destruct (poll_error p (gpu ga) Hp Hok) as (g' & Hv & _ & Ha & _). rewrite Hv. cbn [mbind option_bind].
  assert (Hh' : map_Forall state_ok (healthState g')).
  { assert (exec imp ParseInLocation (λ _, "") (Poll p) (gpu ga) = Some g') as Hx by (cbn; by rewrite Hv).
    exact (proj1 (exec_ok _ _ _ _ _ _ Hh Hx)). }
  destruct (push_labels_follow labels e (set_gpu g' ga) He Hh') as (ul & Hul & Hfollow). revert Ha.
  unfold poll_result, signal_of. destruct (computeNodeHealthState (gpu ga)); cbn [andb].
  - destruct (response p (gpu ga)) as [r|].
    + rewrite bool_decide_eq_true_2 by done. case_decide; cbn [isRestartableFailure]; intros Ha.
      * rewrite Hul. destruct (count_failure _ _ _) eqn:Hcf; intros Ht; [|discriminate Ht].
        injection Ht as -> -> <-. by apply count_failure_Continue in Hcf as ->.
      * rewrite Hul. intros Ht. injection Ht as Ht <-. by apply successful_tick_Continue in Ht as ->.
    + intros Ha. cbn. intros Ht. injection Ht as Ht <-.
      rewrite Ht. apply count_failure_Continue in Ht as ->. split; [done|]. by apply (all_off_lamps (gpu ga)).
  - intros Ha. cbn. intros Ht. injection Ht as Ht <-.
    apply successful_tick_Continue in Ht as ->. split; [done|]. by apply (all_off_lamps (gpu ga)).
Qed.

(** What a tick that goes on does to the labels of the node, [ga] being the
    state when the timer fires, if the
    Kubernetes API works: they are written exactly if the agent answered and
    the compute node is healthy, and then report as unhealthy exactly the
    GPUs the client publishes as unhealthy after the tick.  In every other
    tick that had a connection the client publishes all its GPUs as
    unhealthy, and the labels stay as they were: a node whose agent died
    keeps the labels of its last answer. *)
Theorem labels_follow_ticks t n ga m ga' u labels
    (Hm : enableGPUMonitoring opts = true) (Hnode : node_ok labels (node t)) (Ht : poll_ok (tick_poll t))
    (Hok : agent_ok ga) (Hh : published_ok (gpu ga))
    (Htick : on_timer t n ga = Some (Continue m ga', u)) :
  (is_Some u ↔ answers t ga = true) ∧
  (∀ u', u = Some u' → labels_follow labels u' (gpu ga')) ∧
  (isActive ga = true → answers t ga = false → lamps_off (gpu ga')).
Proof.
  revert Htick. unfold on_timer, answers. destruct (isActive ga).
  - intros Htick. apply (poll_tick_labels labels) in Htick; [|done..].
    destruct u as [u|], Htick as [-> Hu]; (split; [by split|]).
    + split; [by intros ? [= <-]|done].
    + done.
  - destruct (reconnect (dial t) (slurm t) ga) as [err ga1] eqn:Hr. cbn [fst].
    destruct (reconnect_state _ _ _ _ _ Hr) as (_ & _ & Hg). destruct err as [e|].
    + intros [= _ <-]. split; [split; [by intros [? ?]|done]|done].
    + intros Htick. rewrite <- Hg. apply (poll_tick_labels labels) in Htick;
        [|done|done|done|unfold agent_ok; by rewrite Hg|by rewrite Hg].
      destruct u as [u|], Htick as [-> Hu]; (split; [by split|]); (split; [|done]); by intros ? [= <-].
Qed.
End monitor.

Arguments GPUAgentClient : clear implicits.
Arguments outcome : clear implicits.
Arguments tick_input : clear implicits.

(** ** Instances *)

Definition opts0 : options := MkOptions true false true false.
Definition agent0 : GPUAgentClient () := MkAgent true true false true true client0.
Definition tick_of (t : Z) (r : GPUGetResponse + string) : tick_input () :=
  MkTick id None None (poll_of t r) (MkNodeEnv true "node1" true (inl witness_labels) None).
Definition answered (t : Z) : tick_input () := tick_of t (inl (MkGetResponse 0 two_gpus)).
Definition unanswered (t : Z) : tick_input () := tick_of t (inr "connection refused").

Definition ticks0 : list (tick_input ()) :=
  [ unanswered (30 * second); unanswered (60 * second); answered (90 * second);
    unanswered (120 * second); unanswered (150 * second); unanswered (180 * second) ].

Lemma unanswered_ok t : tick_ok (unanswered t).
Proof. split; [|done]. apply poll_of_ok. intros resp Hr. discriminate Hr. Qed.

Lemma answered_ok t : tick_ok (answered t).
Proof. split; [|done]. apply poll_of_ok. intros resp Hr. injection Hr as <-. by left. Qed.

Lemma ticks0_ok : Forall tick_ok ticks0.
Proof.
  unfold ticks0. rewrite !Forall_cons, Forall_nil. split_and!; auto using unanswered_ok, answered_ok.
Qed.

(** The other option, and a profiler that crashed in a scrape. *)
Definition opts1 : options := MkOptions true false false true.
Definition profiler_crashes (g : GPUAgentGPUClient ()) : GPUAgentGPUClient () :=
  MkClient (SetFatalFailureState <$> Some (NewRocProfilerClient "rocpclient")) (healthState g) (mockEccField g)
    (gCache g) (gpuIDMap g) (computeNodeHealthState g).
Definition ticks1 : list (tick_input ()) :=
  [ unanswered (30 * second); unanswered (60 * second); unanswered (90 * second);
    MkTick profiler_crashes None None (tick_poll (answered (120 * second))) (node (answered 0)) ].

Lemma ticks1_ok : Forall tick_ok ticks1.
Proof.
  unfold ticks1. rewrite !Forall_cons, Forall_nil. split_and!; auto using unanswered_ok.
  split; [apply (answered_ok (120 * second))|done].
Qed.

Lemma monitor_exits_exactly_witness :
  (∃ o us, monitor imp0 parse0 opts0 ticks0 0 agent0 = Some (o, us) ∧
    ((∃ r, o = Exit r) ↔ ProfilerDown ∈ verdicts imp0 parse0 opts0 ticks0 agent0 ∨ exitOnAgentDown opts0 = true ∧
       ∃ l1 l2, verdicts imp0 parse0 opts0 ticks0 agent0 = l1 ++ [Failing; Failing; Failing] ++ l2)) ∧
  verdicts imp0 parse0 opts0 ticks0 agent0 = [Failing; Failing; Fine; Failing; Failing; Failing] ∧
  (∃ o us, monitor imp0 parse0 opts1 ticks1 0 agent0 = Some (o, us) ∧
    ((∃ r, o = Exit r) ↔ ProfilerDown ∈ verdicts imp0 parse0 opts1 ticks1 agent0 ∨ exitOnAgentDown opts1 = true ∧
       ∃ l1 l2, verdicts imp0 parse0 opts1 ticks1 agent0 = l1 ++ [Failing; Failing; Failing] ++ l2)) ∧
  verdicts imp0 parse0 opts1 ticks1 agent0 = [Failing; Failing; Failing; ProfilerDown].
Proof.
  split_and!.
  - apply (monitor_exits_exactly imp0 parse0 opts0 ticks0 agent0); [apply ticks0_ok|exact I].
  - vm_compute. reflexivity.
  - apply (monitor_exits_exactly imp0 parse0 opts1 ticks1 agent0); [apply ticks1_ok|exact I].
  - vm_compute. reflexivity.
Defined.

Lemma unanswered_dead t : dead (unanswered t).
Proof. split; [by eexists|]. intros g Hg. by split; [|left]. Qed.

Lemma dead_agent_exits_witness :
  ∃ r, down_reason r ∧ fst <$> monitor imp0 parse0 opts0
    [unanswered (30 * second); unanswered (60 * second); unanswered (90 * second)] 0 agent0 = Some (Exit r).
Proof.
  refine (proj1 (dead_agent_exits imp0 parse0 opts0 _ _ _ [] 0 agent0 _ _ _ _ _) _).
  - reflexivity.
  - reflexivity.
  - lia.
  - rewrite !Forall_cons, Forall_nil. split_and!; auto using unanswered_dead.
  - intros t _ r Hr. discriminate Hr.
  - reflexivity.
Defined.

Lemma reconnect_loses_k8s_witness :
  ∃ m ga' u, tick imp0 parse0 opts0 (answered 0) 0 (MkAgent false true false true false client0) =
      Some (Continue m ga', u) ∧ k8sScheduler ga' = false ∧ isActive ga' = true.
Proof.
  eexists _, _, _. split; [vm_compute; reflexivity|]. split; [|reflexivity].
  refine (proj1 (reconnect_loses_k8s imp0 parse0 opts0 (answered 0) 0
    (MkAgent false true false true false client0) _ _ [] _ _ _)).
  - reflexivity.
  - vm_compute. reflexivity.
Defined.

(** Two GPUs are published, then the agent dies. *)
Definition agent1 : GPUAgentClient () := MkAgent true true false true true ga0.

Lemma agent1_ok : agent_ok agent1.
Proof.
  assert (∃ r, lastResponse (gCache ga0) = Some r ∧ Response r = two_gpus) as (r & Hr & H2).
  { eexists. split; vm_compute; reflexivity. }
  unfold agent_ok, cache_ok. cbn [gpu agent1]. rewrite Hr, H2.
  apply (proj1 (poll_of_ok 0 (inl (MkGetResponse 0 two_gpus)) ltac:(intros ? [= <-]; by left))).
Qed.

Lemma labels_follow_ticks_witness :
  (∃ m ga' u, on_timer imp0 parse0 opts0 (answered (90 * second)) 0 agent1 = Some (Continue m ga', Some u) ∧
     labels_follow witness_labels u (gpu ga')) ∧
  (∃ m ga', on_timer imp0 parse0 opts0 (unanswered (90 * second)) 0 agent1 = Some (Continue m ga', None) ∧
     lamps_off (gpu ga')).
Proof.
  assert (Hn : ∀ t r, node_ok witness_labels (node (tick_of t r))) by (intros; by split_and!).
  assert (Hpub : published_ok (gpu agent1)).
  { exact (reachable_ok imp0 parse0 name0 ga0 ga0_reachable). }
  split.
  - eexists _, _, _. split; [vm_compute; reflexivity|].
    refine (proj1 (proj2 (labels_follow_ticks imp0 parse0 opts0 (answered (90 * second)) 0 agent1 _ _ _
      witness_labels eq_refl (Hn _ _) (proj1 (answered_ok _)) agent1_ok Hpub _)) _ eq_refl).
    vm_compute. reflexivity.
  - eexists _, _. split; [vm_compute; reflexivity|].
    refine (proj2 (proj2 (labels_follow_ticks imp0 parse0 opts0 (unanswered (90 * second)) 0 agent1 _ _ _
      witness_labels eq_refl (Hn _ _) (proj1 (unanswered_ok _)) agent1_ok Hpub _)) eq_refl _).
    + vm_compute. reflexivity.
    + vm_compute. reflexivity.
Defined.
