(* ===== verification/FieldLogger.v ===== *)
(** Fields a platform does not support: [fieldLogger] of
    [src/pkg/amdgpu/gpuagent/gpuagent_utils.go].  A field that is not
    applicable while a configuration is being loaded is remembered for its
    GPU and not exported again; [SetFilterDone] ends the loading, [Reset]
    starts the next one. *)

From S2P Require Import Prelude RocpSdk Format GoStd ExporterUtils.
From Stdlib Require Import Ascii.
Local Open Scope Z_scope.

Abbreviation GaugeVec := (gmap (gmap string string) Z).

Record fieldLogger : Type := MkFieldLogger {
  unsupportedFieldMap : gset string;
  filterDone : bool;
}.

Definition NewFieldLogger : fieldLogger := MkFieldLogger ∅ false.

Definition field_key (gpuid fieldName : string) : string := gpuid +:+ "-" +:+ fieldName.

Definition checkUnsupportedFields (gpuid fieldName : string) (fl : fieldLogger) : bool :=
  bool_decide (field_key gpuid fieldName ∈ unsupportedFieldMap fl).

Definition logUnsupportedField (gpuid fieldName : string) (fl : fieldLogger) : fieldLogger :=
  if filterDone fl then fl
  else MkFieldLogger ({[ field_key gpuid fieldName ]} ∪ unsupportedFieldMap fl) false.

Definition markUnsupportedFields (gpuid fieldName : string) (fl : fieldLogger) : fieldLogger :=
  if filterDone fl then fl
  else MkFieldLogger ({[ field_key gpuid fieldName ]} ∪ unsupportedFieldMap fl) false.

Definition Reset (fl : fieldLogger) : fieldLogger := MkFieldLogger ∅ false.
Definition SetFilterDone (fl : fieldLogger) : fieldLogger :=
  MkFieldLogger (unsupportedFieldMap fl) true.

Section fields.
Context (imp : Z → double → Z).

(** The logger and the gauges of the field; [None]: the process ends. *)
Definition logWithValidateAndExport (gpuid fieldName : string) (labels : option (gmap string string))
    (val : value) (fl : fieldLogger) (metrics : GaugeVec) : option (fieldLogger * GaugeVec) :=
  if checkUnsupportedFields gpuid fieldName fl then Some (fl, metrics)
  else
    '(err, metrics) ← ValidateAndExport imp metrics labels val;
    Some (match err with
          | ErrorNotApplicable => logUnsupportedField gpuid fieldName fl
          | _ => fl
          end, metrics).

(** ** Runs: the exports of all GPUs and fields, and the loading of
    configurations *)

Inductive field_op : Type :=
  | Export (gpuid fieldName : string) (labels : gmap string string) (val : value)
  | Mark (gpuid fieldName : string)
  | Done
  | Reload.

Abbreviation fstate := (fieldLogger * gmap string GaugeVec)%type.

Definition field_step (st : fstate) (o : field_op) : option fstate :=
  match o with
  | Export gpuid fieldName labels val =>
      '(fl, g) ← logWithValidateAndExport gpuid fieldName (Some labels) val st.1
                   (default ∅ (st.2 !! fieldName));
      Some (fl, <[fieldName := g]> st.2)
  | Mark gpuid fieldName => Some (markUnsupportedFields gpuid fieldName st.1, st.2)
  | Done => Some (SetFilterDone st.1, st.2)
  | Reload => Some (Reset st.1, ∅)
  end.

(** The gauge of a field under given labels. *)
Definition gauge (st : fstate) (fieldName : string) (labels : gmap string string) : option Z :=
  st.2 !! fieldName ≫= lookup labels.

(** An operation that can change the gauge of [fieldName] under [labels] for
    another GPU does not exist: labels contain the GPU. *)
Definition op_is (gpuid fieldName : string) (labels : gmap string string) (o : field_op) : Prop :=
  match o with
  | Export g f l v => f = fieldName → l = labels → g = gpuid
  | Reload => False
  | _ => True
  end.

Lemma step_unsupported gpuid fieldName st o st' :
  field_key gpuid fieldName ∈ unsupportedFieldMap st.1 → o ≠ Reload → field_step st o = Some st' →
  field_key gpuid fieldName ∈ unsupportedFieldMap st'.1.
Proof.
  intros Hk Hr. destruct o as [g f l v|g f| |]; cbn [field_step]; [| | |done].
  - unfold logWithValidateAndExport. destruct (checkUnsupportedFields g f st.1).
    { by intros [= <-]. }
    destruct (ValidateAndExport _ _ _ _) as [[err m]|]; [|done]. cbn [mbind option_bind].
    intros [= <-]. cbn [fst]. destruct err; [done| |done]. unfold logUnsupportedField.
    destruct (filterDone st.1); [done|]. cbn. set_solver.
  - intros [= <-]. cbn [fst]. unfold markUnsupportedFields. destruct (filterDone st.1); [done|].
    cbn. set_solver.
  - by intros [= <-].
Qed.

Lemma step_gauge gpuid fieldName labels st o st' :
  field_key gpuid fieldName ∈ unsupportedFieldMap st.1 → op_is gpuid fieldName labels o →
  field_step st o = Some st' → gauge st' fieldName labels = gauge st fieldName labels.
Proof.
  intros Hk Ho. destruct o as [g f l v|g f| |]; cbn [field_step]; [| | |done].
  2,3: by intros [= <-].
  unfold logWithValidateAndExport. destruct (checkUnsupportedFields g f st.1) eqn:Hu.
  - cbn [mbind option_bind]. intros [= <-]. unfold gauge. cbn [snd].
    destruct (decide (f = fieldName)) as [->|Hf]; [|by rewrite lookup_insert_ne].
    rewrite lookup_insert_eq. cbn. by destruct (st.2 !! fieldName).
  - destruct (ValidateAndExport _ _ _ _) as [[err m]|] eqn:Hv; [|done]. cbn [mbind option_bind].
    intros [= <-]. unfold gauge. cbn [snd].
    destruct (decide (f = fieldName)) as [->|Hf]; [|by rewrite lookup_insert_ne].
    rewrite lookup_insert_eq. cbn [mbind option_bind].
    assert (Hl : l ≠ labels).
    { intros ->. specialize (Ho eq_refl eq_refl). subst g. unfold checkUnsupportedFields in Hu.
      by apply bool_decide_eq_false in Hu. }
    revert Hv. unfold ValidateAndExport.
    assert (∀ r : option (ErrorCode * GaugeVec),
      r = Some (err, m) →
      (∀ e m', r = Some (e, m') → m' !! labels = (default ∅ (st.2 !! fieldName) : GaugeVec) !! labels) →
      m !! labels = (default ∅ (st.2 !! fieldName) : GaugeVec) !! labels) as Hgo by naive_solver.
    intros Hv. rewrite (Hgo _ Hv); [by destruct (st.2 !! fieldName)|].
    intros e m'. destruct v; try (by intros [= <- <-]);
      (destruct (IsValueApplicable imp _); [|by intros [= <- <-]];
       destruct (NormalizeUint64 imp _); [|done]; cbn [mbind option_bind]; intros [= <- <-];
       by rewrite lookup_insert_ne).
Qed.

(** A field that is not applicable on a GPU while a configuration is being
    loaded (one reading of 255 is enough) is not exported for this GPU until
    the next configuration is loaded: whatever is read and exported
    meanwhile, its gauge keeps the value it had. *)
Theorem unsupported_field_frozen gpuid fieldName labels val st ops st' x
    (Hloading : filterDone st.1 = false) (Hok : value_ok imp val)
    (Hx : reading imp val = Some x) (Hs : x ∈ sentinels)
    (Hops : Forall (op_is gpuid fieldName labels) ops)
    (Hrun : foldM field_step st (Export gpuid fieldName labels val :: ops) = Some st') :
  gauge st' fieldName labels = gauge st fieldName labels.
Proof.
  assert (Hcont : ∀ ops st st', Forall (op_is gpuid fieldName labels) ops →
    field_key gpuid fieldName ∈ unsupportedFieldMap st.1 → foldM field_step st ops = Some st' →
    gauge st' fieldName labels = gauge st fieldName labels).
  { clear. induction ops as [|o ops IH]; intros st st' Hops Hk; cbn [foldM]; [by intros [= <-]|].
    apply Forall_cons in Hops as [Ho Hops].
    destruct (field_step st o) as [st1|] eqn:He; [|done]. cbn [mbind option_bind]. intros Hr.
    rewrite (IH st1 st' Hops); [by apply (step_gauge gpuid fieldName labels st o)| |done].
    apply (step_unsupported gpuid fieldName st o); [done|by intros ->|done]. }
  cbn [foldM] in Hrun. destruct (field_step st _) as [st1|] eqn:He; [|done]. cbn [mbind option_bind] in Hrun.
  enough (field_key gpuid fieldName ∈ unsupportedFieldMap st1.1 ∧
          gauge st1 fieldName labels = gauge st fieldName labels) as [Hk Hg].
  { rewrite <- Hg. by apply (Hcont ops). }
  revert He. cbn [field_step]. unfold logWithValidateAndExport.
  destruct (checkUnsupportedFields gpuid fieldName st.1) eqn:Hu.
  - cbn [mbind option_bind]. intros [= <-]. split; [by apply bool_decide_eq_true in Hu|].
    unfold gauge. cbn [snd]. rewrite lookup_insert_eq. by destruct (st.2 !! fieldName).
  - destruct (applicable_spec imp val x Hok Hx) as [Ha _].
    assert (∀ m, ValidateAndExport imp m (Some labels) val = Some (ErrorNotApplicable, m)) as ->.
    { intros m. unfold ValidateAndExport. rewrite bool_decide_eq_true_2 in Ha by done.
      cbn [negb] in Ha. rewrite Ha. by destruct val. }
    cbn [mbind option_bind]. intros [= <-]. unfold gauge. cbn [fst snd].
    rewrite lookup_insert_eq. unfold logUnsupportedField. rewrite Hloading. split; [set_solver|].
    by destruct (st.2 !! fieldName).
Qed.
End fields.

Definition frozen_run : option (fieldLogger * gmap string GaugeVec) :=
  foldM (field_step (λ _ _, 0)) (NewFieldLogger, ∅)
    [Export "0" "GPU_ECC_CORRECT_TOTAL" {[ "gpu_id" := "0" ]} (Uint64 255); Done;
     Export "0" "GPU_ECC_CORRECT_TOTAL" {[ "gpu_id" := "0" ]} (Uint64 256)].

Lemma unsupported_field_frozen_witness :
  match frozen_run with
  | Some st' => gauge st' "GPU_ECC_CORRECT_TOTAL" {[ "gpu_id" := "0" ]} = None
  | None => False
  end.
Proof.
  assert (match frozen_run with Some _ => true | None => false end = true) as Hrun
    by (vm_compute; reflexivity).
  destruct frozen_run as [st'|] eqn:He; [|discriminate Hrun].
  assert (gauge (NewFieldLogger, ∅) "GPU_ECC_CORRECT_TOTAL" {[ "gpu_id" := "0" ]} = None) as <-
    by (unfold gauge; cbn [snd]; by rewrite lookup_empty).
  apply (unsupported_field_frozen (λ _ _, 0) "0" "GPU_ECC_CORRECT_TOTAL" {[ "gpu_id" := "0" ]}
    (Uint64 255) (NewFieldLogger, ∅)
    [Done; Export "0" "GPU_ECC_CORRECT_TOTAL" {[ "gpu_id" := "0" ]} (Uint64 256)] st' 255).
  - reflexivity.
  - split; [discriminate|reflexivity].
  - reflexivity.
  - by left.
  - repeat constructor; done.
  - exact He.
Defined.
