(* ===== verification/WorkerPool.v ===== *)
(** The worker pool of [src/pkg/amdgpu/gpuagent/worker.go]: [NewWokerRequest]
    sends one job per GPU through a channel of 16 places to at most five
    workers, which ask the agent and store its answers; [errgroup] keeps the
    first error and cancels the context.

    The goroutines are interleaved: a state has the jobs that are still to be
    sent, the channel, the workers, the context and the results; a label says
    who moves.  The answers of the agent are part of the labels. *)

From S2P Require Import Prelude.

Definition maxWorkers : nat := 5.
Definition maxJobQueue : nat := 16.

(** The number of workers for a number of processors and of GPUs. *)
Definition totalWorkers (numCores gpus : nat) : nat :=
  let w := if decide (numCores < maxWorkers)%nat then numCores else maxWorkers in
  if decide (gpus < w)%nat then gpus else w.

Section pool.
Context {R : Type}.

Inductive worker : Type :=
  | Idle                  (* waits for a job *)
  | Taken (job : nat)     (* has a job, about to look at the context *)
  | Calling (job : nat)   (* waits for the agent *)
  | Returned              (* the channel was closed and empty *)
  | FailedWorker.         (* returned the error of a call *)

Record pool : Type := MkPool {
  unsent : list nat;
  jobQueue : list nat;
  closed : bool;
  workers : list worker;
  cancelled : bool;
  results : gmap nat R;
  first_err : option string;
}.

Definition start_pool (w n : nat) : pool :=
  MkPool (seq 0 n) [] false (replicate w Idle) false ∅ None.

Inductive label : Type :=
  | Send                              (* the producer *)
  | CloseQueue
  | Take (i : nat)                    (* worker [i] *)
  | Cancelled (i : nat)
  | Call (i : nat)
  | Answer (i : nat) (r : R)
  | Fail_ (i : nat) (err : string)
  | Return (i : nat).

Definition set_worker (i : nat) (w : worker) (s : pool) : pool :=
  MkPool (unsent s) (jobQueue s) (closed s) (<[i := w]> (workers s)) (cancelled s) (results s)
    (first_err s).

Definition step (l : label) (s : pool) : option pool :=
  match l with
  | Send =>
      match unsent s with
      | job :: rest =>
          if decide (length (jobQueue s) < maxJobQueue)%nat then
            Some (MkPool rest (jobQueue s ++ [job]) (closed s) (workers s) (cancelled s) (results s)
                    (first_err s))
          else None
      | [] => None
      end
  | CloseQueue =>
      match unsent s, closed s with
      | [], false => Some (MkPool [] (jobQueue s) true (workers s) (cancelled s) (results s) (first_err s))
      | _, _ => None
      end
  | Take i =>
      match workers s !! i, jobQueue s with
      | Some Idle, job :: q =>
          Some (MkPool (unsent s) q (closed s) (<[i := Taken job]> (workers s)) (cancelled s)
                  (results s) (first_err s))
      | _, _ => None
      end
  | Cancelled i =>
      match workers s !! i, cancelled s with
      | Some (Taken _), true => Some (set_worker i Idle s)
      | _, _ => None
      end
  | Call i =>
      match workers s !! i, cancelled s with
      | Some (Taken job), false => Some (set_worker i (Calling job) s)
      | _, _ => None
      end
  | Answer i r =>
      match workers s !! i with
      | Some (Calling job) =>
          Some (MkPool (unsent s) (jobQueue s) (closed s) (<[i := Idle]> (workers s)) (cancelled s)
                  (<[job := r]> (results s)) (first_err s))
      | _ => None
      end
  | Fail_ i err =>
      match workers s !! i with
      | Some (Calling job) =>
          Some (MkPool (unsent s) (jobQueue s) (closed s) (<[i := FailedWorker]> (workers s)) true
                  (results s) (match first_err s with None => Some err | e => e end))
      | _ => None
      end
  | Return i =>
      match workers s !! i, jobQueue s, closed s with
      | Some Idle, [], true => Some (set_worker i Returned s)
      | _, _, _ => None
      end
  end.

Fixpoint steps (ls : list label) (s : pool) : option pool :=
  match ls with
  | [] => Some s
  | l :: ls => s ← step l s; steps ls s
  end.

Definition ended (w : worker) : Prop := w = Returned ∨ w = FailedWorker.

(** [eg.Wait] has returned, and with it the function. *)
Definition final (s : pool) : Prop := closed s = true ∧ Forall ended (workers s).

(** Nobody can move: no label applies. *)
Definition stuck (s : pool) : Prop := ∀ l, step l s = None.

(** ** The number of steps *)

Definition worker_weight (w : worker) : nat :=
  match w with Idle => 1 | Taken _ => 4 | Calling _ => 3 | Returned | FailedWorker => 0 end.

Definition measure (s : pool) : nat :=
  5 * length (unsent s) + 4 * length (jobQueue s) + Nat.b2n (negb (closed s)) +
  sum_list_with worker_weight (workers s).

Lemma sum_insert (f : worker → nat) ws i w w' : ws !! i = Some w →
  (sum_list_with f (<[i := w']> ws) + f w = sum_list_with f ws + f w')%nat.
Proof.
  revert i. induction ws as [|x ws IH]; intros [|i] Hi; [done|done| |].
  - change (Some x = Some w) in Hi. injection Hi as ->.
    change (<[0%nat:=w']> (w :: ws)) with (w' :: ws). cbn [sum_list_with]. lia.
  - change (ws !! i = Some w) in Hi. specialize (IH i Hi).
    change (<[S i:=w']> (x :: ws)) with (x :: <[i:=w']> ws). cbn [sum_list_with]. lia.
Qed.

Lemma step_measure l s s' : step l s = Some s' → (measure s' < measure s)%nat.
Proof.
  destruct s as [us q cl ws ca rs er]. unfold measure, step, set_worker.
  cbn [unsent jobQueue closed workers cancelled results first_err]. intros Hs.
  destruct l; repeat case_match; try done; injection Hs as <-;
    cbn [unsent jobQueue closed workers cancelled results first_err];
    repeat match goal with
    | Hw : ws !! ?i = Some ?w |- context [<[?i := ?w']> ws] =>
        pose proof (sum_insert worker_weight ws i w w' Hw); cbn [worker_weight] in *; clear Hw
    end; rewrite ?length_app; cbn [length Nat.b2n negb]; lia.
Qed.

Lemma steps_measure ls s s' : steps ls s = Some s' → (measure s' + length ls <= measure s)%nat.
Proof.
  revert s. induction ls as [|l ls IH]; intros s; cbn [steps]; [intros [= <-]; cbn; lia|].
  destruct (step l s) as [s1|] eqn:Hl; [|done]. cbn [mbind option_bind]. intros Hs.
  apply IH in Hs. apply step_measure in Hl. cbn [length]. lia.
Qed.

(** ** What every interleaving keeps *)

(** A worker that has used up a job. *)
Definition load (w : worker) : nat :=
  match w with Taken _ | Calling _ | FailedWorker => 1 | Idle | Returned => 0 end.

Record shape (w n : nat) (s : pool) : Prop := {
  shape_workers : length (workers s) = w;
  shape_closed : closed s = true → unsent s = [];
  shape_returned : Returned ∈ workers s → closed s = true;
  shape_jobs : (length (unsent s) + length (jobQueue s) + sum_list_with load (workers s) <= n)%nat;
}.

Lemma elem_of_insert_inv (ws : list worker) i x y : x ∈ <[i := y]> ws → x = y ∨ x ∈ ws.
Proof.
  intros [j Hj]%list_elem_of_lookup. destruct (decide (i = j)) as [->|Hne].
  - apply list_lookup_insert_Some in Hj. naive_solver.
  - rewrite list_lookup_insert_ne in Hj by done. right. by eapply list_elem_of_lookup_2.
Qed.

Lemma shape_step w n l s s' : shape w n s → step l s = Some s' → shape w n s'.
Proof.
  intros [Hw Hc Hr Hj] Hs. destruct s as [us q cl ws ca rs er]. unfold step, set_worker in Hs.
  cbn [unsent jobQueue closed workers cancelled results first_err] in *.
  destruct l; repeat case_match; try done; injection Hs as <-; subst;
    (split; cbn [unsent jobQueue closed workers cancelled results first_err];
     rewrite ?length_insert, ?length_app; cbn [length] in *;
     [done
     |try done; try (intros ?%Hc; simplify_eq); auto
     |try done; try (intros [?|?]%elem_of_insert_inv; [simplify_eq|auto]); auto
     |repeat match goal with
      | Hk : ws !! ?i = Some ?x |- context [<[?i := ?y]> ws] =>
          pose proof (sum_insert load ws i x y Hk); cbn [load] in *; clear Hk
      end; lia]).
Qed.

(** Where a job is. *)
Definition held (i : nat) (ws : list worker) : Prop :=
  ∃ k, ws !! k = Some (Taken i) ∨ ws !! k = Some (Calling i).

(** As long as no call has failed, no job is lost. *)
Record complete (n : nat) (s : pool) : Prop := {
  complete_err : cancelled s = true ↔ first_err s ≠ None;
  complete_ok : cancelled s = false → FailedWorker ∉ workers s;
  complete_empty : cancelled s = false → Returned ∈ workers s → closed s = true ∧ jobQueue s = [];
  complete_jobs : cancelled s = false → ∀ i, (i < n)%nat →
    i ∈ unsent s ∨ i ∈ jobQueue s ∨ held i (workers s) ∨ is_Some (results s !! i);
}.

Lemma held_insert (ws : list worker) k w w' i : ws !! k = Some w → held i ws →
  w = Taken i ∨ w = Calling i ∨ held i (<[k := w']> ws).
Proof.
  intros Hk [k' Hi]. destruct (decide (k = k')) as [->|Hne]; [naive_solver|].
  right; right. exists k'. by rewrite list_lookup_insert_ne.
Qed.

Lemma held_new (ws : list worker) k w w' i : ws !! k = Some w → w' = Taken i ∨ w' = Calling i →
  held i (<[k := w']> ws).
Proof.
  intros Hk%lookup_lt_Some Hw. exists k. rewrite list_lookup_insert_eq by done. naive_solver.
Qed.

Lemma complete_jobs_worker n s k w w' (us q : list nat) (rs : gmap nat R) :
  workers s !! k = Some w →
  (∀ i, (i < n)%nat → i ∈ unsent s ∨ i ∈ jobQueue s ∨ held i (workers s) ∨ is_Some (results s !! i)) →
  (∀ i, i ∈ unsent s → i ∈ us) →
  (∀ i, i ∈ jobQueue s → i ∈ q ∨ w' = Taken i ∨ w' = Calling i) →
  (∀ i, w = Taken i ∨ w = Calling i → w' = Taken i ∨ w' = Calling i ∨ is_Some (rs !! i)) →
  (∀ i, is_Some (results s !! i) → is_Some (rs !! i)) →
  ∀ i, (i < n)%nat → i ∈ us ∨ i ∈ q ∨ held i (<[k := w']> (workers s)) ∨ is_Some (rs !! i).
Proof.
  intros Hk Hj Hus Hq Hw Hrs i Hi. destruct (Hj i Hi) as [H|[H|[H|H]]]; [by auto| | |by auto].
  - destruct (Hq i H) as [?|?]; [by auto|]. right; right; left. by eapply held_new.
  - destruct (held_insert _ k w w' i Hk H) as [?|[?|?]]; [| |by auto].
    + destruct (Hw i ltac:(by left)) as [?|[?|?]]; [| |by auto];
        right; right; left; eapply held_new; eauto.
    + destruct (Hw i ltac:(by right)) as [?|[?|?]]; [| |by auto];
        right; right; left; eapply held_new; eauto.
Qed.

Lemma complete_step w n l s s' : shape w n s → complete n s → step l s = Some s' → complete n s'.
Proof.
  intros [_ Hcl Hret _] [He Hok Hem Hj] Hs. destruct l as [| |k|k|k|k r|k err|k]; cbn [step] in Hs.
  - destruct (unsent s) as [|job us] eqn:Hu; [done|]. case_decide; [|done]. injection Hs as <-.
    split; cbn; [done|done| |].
    + intros Hc Hr. specialize (Hcl (Hret Hr)). congruence.
    + intros Hc i Hi. destruct (Hj Hc i Hi) as [[->|?]%elem_of_cons|[?|?]]; set_solver.
  - destruct (unsent s) eqn:Hu; [|done]. destruct (closed s) eqn:Hc; [done|]. injection Hs as <-.
    split; cbn; [done|done| |].
    + intros Hca Hr. by destruct (Hem Hca Hr).
    + intros Hca i Hi. destruct (Hj Hca i Hi) as [?%elem_of_nil|?]; [done|by right].
  - destruct (workers s !! k) as [[]|] eqn:Hk; try done.
    destruct (jobQueue s) as [|job q] eqn:Hq; [done|]. injection Hs as <-. split; cbn; [done| | |].
    + intros Hc [?|?]%elem_of_insert_inv; [done|by apply Hok].
    + intros Hc [?|Hr]%elem_of_insert_inv; [done|]. by destruct (Hem Hc Hr).
    + intros Hc. eapply complete_jobs_worker; [done|rewrite Hq; by apply Hj|done| |naive_solver|done].
      rewrite Hq. intros i [->|?]%elem_of_cons; auto.
  - destruct (workers s !! k) as [[]|]; try done. destruct (cancelled s) eqn:Hc; [|done].
    injection Hs as <-. split; cbn; rewrite Hc; done.
  - destruct (workers s !! k) as [[]|] eqn:Hk; try done. destruct (cancelled s) eqn:Hc; [done|].
    injection Hs as <-. split; cbn; rewrite Hc; [done| | |].
    + intros _ [?|?]%elem_of_insert_inv; [done|by apply Hok].
    + intros _ [?|Hr]%elem_of_insert_inv; [done|by apply Hem].
    + intros _. eapply complete_jobs_worker; [done|by apply Hj|done|by auto|naive_solver|done].
  - destruct (workers s !! k) as [[]|] eqn:Hk; try done. injection Hs as <-. split; cbn; [done| | |].
    + intros Hc [?|?]%elem_of_insert_inv; [done|by apply Hok].
    + intros Hc [?|Hr]%elem_of_insert_inv; [done|by apply Hem].
    + intros Hc. eapply complete_jobs_worker; [done|by apply Hj|done|by auto| |].
      * intros i [?|[= ->]]; [done|]. right; right. rewrite lookup_insert_eq. by eexists.
      * intros i Hi. destruct (decide (job = i)) as [->|Hne].
        { rewrite lookup_insert_eq. by eexists. }
        by rewrite lookup_insert_ne.
  - destruct (workers s !! k) as [[]|] eqn:Hk; try done. injection Hs as <-. split; cbn; [|done..].
    split; [|done]. by destruct (first_err s).
  - destruct (workers s !! k) as [[]|] eqn:Hk; try done. destruct (jobQueue s) eqn:Hq; [|done].
    destruct (closed s) eqn:Hcl'; [|done]. injection Hs as <-. split; cbn; [done| | |].
    + intros Hc [?|?]%elem_of_insert_inv; [done|by apply Hok].
    + by rewrite Hq, Hcl'.
    + intros Hc. eapply complete_jobs_worker; [done|rewrite Hq; by apply Hj|done|by auto|naive_solver|done].
Qed.

Lemma start_shape w n : shape w n (start_pool w n).
Proof.
  split; cbn; [apply length_replicate|done| |].
  - intros ?%elem_of_replicate_inv. done.
  - rewrite length_seq. enough (sum_list_with load (replicate w Idle) = 0%nat) by lia. by induction w.
Qed.

Lemma start_complete w n : complete n (start_pool w n).
Proof.
  split; cbn; [done| | |].
  - intros _ ?%elem_of_replicate_inv. done.
  - intros _ ?%elem_of_replicate_inv. done.
  - intros _ i Hi. left. apply elem_of_seq. lia.
Qed.

Lemma steps_inv w n ls s s' : shape w n s → complete n s → steps ls s = Some s' →
  shape w n s' ∧ complete n s'.
Proof.
  revert s. induction ls as [|l ls IH]; intros s Hs Hc; cbn [steps]; [by intros [= <-]|].
  destruct (step l s) as [s1|] eqn:Hl; [|done]. cbn [mbind option_bind].
  apply IH; [by eapply shape_step|by eapply complete_step].
Qed.

Lemma start_measure w n : measure (start_pool w n) = (5 * n + w + 1)%nat.
Proof.
  unfold measure. cbn [start_pool unsent jobQueue closed workers length negb Nat.b2n].
  rewrite length_seq. enough (sum_list_with worker_weight (replicate w Idle) = w) by lia.
  induction w as [|w IH]; cbn; [done|]. by rewrite IH.
Qed.

(** Where nobody can move: at the end, or with the producer in front of a
    full channel that nobody reads any more. *)
Lemma stuck_cases w n s : shape w n s → stuck s →
  final s ∨ (unsent s ≠ [] ∧ (maxJobQueue <= length (jobQueue s))%nat ∧
             Forall (λ x, x = FailedWorker) (workers s)).
Proof.
  intros [_ Hcl Hret _] Hstuck.
  assert (Hsend : unsent s ≠ [] → (maxJobQueue <= length (jobQueue s))%nat).
  { intros Hu. specialize (Hstuck Send). cbn [step] in Hstuck. destruct (unsent s); [done|].
    case_decide; [done|]. lia. }
  assert (Hclose : closed s = false → unsent s ≠ []).
  { intros Hc Hu. specialize (Hstuck CloseQueue). cbn [step] in Hstuck. by rewrite Hu, Hc in Hstuck. }
  assert (Hend : Forall ended (workers s)).
  { apply Forall_lookup_2. intros k x Hk. destruct x as [|job|job| |].
    - exfalso. pose proof (Hstuck (Take k)) as Ht. pose proof (Hstuck (Return k)) as Hr.
      cbn [step] in Ht, Hr. rewrite Hk in Ht, Hr. destruct (jobQueue s) eqn:Hq; [|done].
      destruct (closed s) eqn:Hc; [done|]. specialize (Hsend (Hclose eq_refl)). cbn in Hsend.
      unfold maxJobQueue in Hsend. lia.
    - exfalso. pose proof (Hstuck (Cancelled k)) as H1. pose proof (Hstuck (Call k)) as H2.
      cbn [step] in H1, H2. rewrite Hk in H1, H2. by destruct (cancelled s).
    - exfalso. specialize (Hstuck (Fail_ k "")). cbn [step] in Hstuck. by rewrite Hk in Hstuck.
    - by left.
    - by right. }
  destruct (closed s) eqn:Hc; [by left|right]. split; [by apply Hclose|]. split; [by apply Hsend, Hclose|].
  apply Forall_lookup_2. intros k x Hk. destruct (Forall_lookup_1 _ _ _ _ Hend Hk) as [->| ->]; [|done].
  exfalso. specialize (Hret ltac:(by eapply list_elem_of_lookup_2)). done.
Qed.

Lemma load_failed ws : Forall (λ x, x = FailedWorker) ws → sum_list_with load ws = length ws.
Proof. induction 1 as [|x ws -> _ IH]; [done|]. cbn. by rewrite IH. Qed.

(** Every interleaving of the producer and [w] workers over [n] jobs ends
    after at most [5 n + w + 1] steps; and if there are at most [w + 16] jobs
    it can only end with the function returning, whatever calls of the agent
    fail. *)
Theorem pool_returns w n ls s (Hls : steps ls (start_pool w n) = Some s) :
  (length ls <= 5 * n + w + 1)%nat ∧ ((n <= w + maxJobQueue)%nat → stuck s → final s).
Proof.
  destruct (steps_inv w n ls _ s (start_shape w n) (start_complete w n) Hls) as [Hsh _]. split.
  - apply steps_measure in Hls. rewrite start_measure in Hls. lia.
  - intros Hn Hst. destruct (stuck_cases w n s Hsh Hst) as [?|(Hu & Hq & Hf)]; [done|exfalso].
    destruct Hsh as [Hw _ _ Hj]. rewrite load_failed, Hw in Hj by done.
    destruct (unsent s); [done|]. cbn [length] in Hj. lia.
Qed.

(** If no call of the agent fails, every interleaving with at least one
    worker returns, for any number of jobs, with no error and an answer for
    every job. *)
Theorem pool_answers_all w n ls s (Hw : (0 < w)%nat) (Hls : steps ls (start_pool w n) = Some s)
    (Hst : stuck s) (Hne : ∀ i err, Fail_ i err ∉ ls) :
  final s ∧ first_err s = None ∧ ∀ i, (i < n)%nat → is_Some (results s !! i).
Proof.
  assert (Hca : ∀ s1, cancelled s1 = false → steps ls s1 = Some s → cancelled s = false).
  { clear Hls. induction ls as [|l ls IH]; intros s1 H1; cbn [steps]; [by intros [= <-]|].
    destruct (step l s1) as [s2|] eqn:Hl; [|done]. cbn [mbind option_bind]. apply IH.
    - intros i err Hin. apply (Hne i err). by right.
    - destruct l as [| |k|k|k|k r|k err|k]; [..|exfalso; apply (Hne k err); by left|];
        revert Hl; cbn [step]; unfold set_worker; repeat case_match; try done; by intros [= <-]. }
  specialize (Hca (start_pool w n) eq_refl Hls).
  destruct (steps_inv w n ls _ s (start_shape w n) (start_complete w n) Hls) as [Hsh [He Hok Hem Hj]].
  assert (Hlen : (0 < length (workers s))%nat) by (by rewrite (shape_workers w n s Hsh)).
  destruct (stuck_cases w n s Hsh Hst) as [Hfin|(_ & _ & Hf)].
  2:{ exfalso. apply (Hok Hca). destruct (workers s) as [|x ws]; [cbn in Hlen; lia|].
      apply Forall_cons in Hf as [-> _]. by left. }
  split; [done|]. split.
  { destruct (first_err s); [|done]. by rewrite (proj2 He ltac:(done)) in Hca. }
  destruct Hfin as [Hcl Hend]. intros i Hi.
  assert (Hret : Returned ∈ workers s).
  { destruct (workers s) as [|x ws]; [cbn in Hlen; lia|]. apply Forall_cons in Hend as [[->| ->] _]; [by left|].
    exfalso. apply (Hok Hca). by left. }
  destruct (Hem Hca Hret) as [_ Hq]. destruct (Hj Hca i Hi) as [Hu|[Hu|[[k Hk]|?]]]; [| | |done].
  - rewrite (shape_closed w n s Hsh Hcl) in Hu. by apply elem_of_nil in Hu.
  - rewrite Hq in Hu. by apply elem_of_nil in Hu.
  - exfalso. destruct Hk as [Hk|Hk]; destruct (Forall_lookup_1 _ _ _ _ Hend Hk); done.
Qed.
End pool.

Arguments pool : clear implicits.
Arguments label : clear implicits.

(** ** Five workers, 22 jobs: the shortest row of failures that blocks *)

Definition all_fail : list (label nat) :=
  replicate 5 Send ++ (Take <$> seq 0 5) ++ (Call <$> seq 0 5) ++
  ((λ i, Fail_ i "unavailable") <$> seq 0 5) ++ replicate 16 Send.

(** With 22 GPUs and five workers the function can block for ever: if the
    first call of every worker fails, all workers have returned, the channel
    is full, and the producer waits for a reader that does not exist.  One
    GPU less and it returns. *)
Theorem pool_blocks :
  ∃ s, steps all_fail (start_pool 5 22) = Some s ∧ stuck s ∧ ¬ final s ∧
    totalWorkers 64 22 = 5%nat.
Proof.
  eexists. split; [vm_compute; reflexivity|]. split_and!; [|by intros [? _]|done].
  intros l. destruct l as [| |k|k|k|k r|k err|k]; [done|done|..];
    do 5 (destruct k as [|k]; [done|]); done.
Qed.

Lemma pool_returns_witness :
  ∃ s, steps (all_fail ++ [CloseQueue]) (start_pool 5 21) = Some s ∧
    (length (all_fail ++ [CloseQueue]) <= 5 * 21 + 5 + 1)%nat ∧ (stuck s → final s).
Proof.
  assert (is_Some (steps (all_fail ++ [CloseQueue]) (start_pool 5 21))) as [s Hs]
    by (vm_compute; by eexists).
  exists s. split; [exact Hs|].
  destruct (pool_returns 5 21 _ s Hs) as [H1 H2]. split; [exact H1|].
  apply H2. vm_compute. lia.
Defined.

Definition one_each : list (label nat) :=
  [Send; Take 0; Call 0; Answer 0 7; Send; Take 0; Call 0; Answer 0 8; CloseQueue; Return 0].

Lemma pool_answers_all_witness :
  ∃ s, steps one_each (start_pool 1 2) = Some s ∧ final s ∧ first_err s = None ∧
    (∀ i, (i < 2)%nat → is_Some (results s !! i)).
Proof.
  eexists. split; [vm_compute; reflexivity|].
  apply (pool_answers_all 1 2 one_each).
  - lia.
  - vm_compute. reflexivity.
  - intros l. destruct l as [| |k|k|k|k r|k err|k]; [reflexivity|reflexivity|..];
      (destruct k as [|k]; reflexivity).
  - intros i err Hin. unfold one_each in Hin.
    repeat (apply elem_of_cons in Hin as [Hin|Hin]; [discriminate Hin|]). by apply elem_of_nil in Hin.
Defined.
