(* ===== verification/LabelConfig.v ===== *)
(** The labels of the GPU metrics: which labels a configuration enables
    ([initLabelConfigs], [initCustomLabels], [InitPodExtraLabels]), the label
    names the gauges are created with ([GetExportLabels]), the labels of a
    GPU ([populateLabelsFromGPU]), all of
    [src/pkg/amdgpu/gpuagent/gpuagent_gpu_metrics.go] and [gpuagent_gpu.go],
    and what a Prometheus gauge accepts
    ([src/vendor/github.com/prometheus/client_golang/prometheus/]).

    A loop over a Go map visits the entries in some order: it is the order of
    the list where the order matters (the entries of the configuration, of
    which only some are taken), and no order where it does not. *)

From S2P Require Import Prelude Format GoStd Scheduler GpuMessages GpuAgent Config.
From Stdlib Require Import Ascii.
Local Open Scope Z_scope.

(** ** Names *)

Inductive MetricLabel : Type :=
  | CLUSTER_NAME | HOSTNAME | SERIAL_NUMBER | POD | NAMESPACE | CONTAINER
  | JOB_ID | JOB_USER | JOB_PARTITION | CARD_SERIES | CARD_MODEL | CARD_VENDOR
  | DRIVER_VERSION | VBIOS_VERSION | POD_UUID.

Inductive GPUMetricLabel : Type :=
  | GPU_UUID | GPU_ID | GPU_PARTITION_ID | GPU_COMPUTE_PARTITION_TYPE
  | GPU_MEMORY_PARTITION_TYPE | KFD_PROCESS_ID | DEPLOYMENT_MODE.

Definition MetricLabel_String (l : MetricLabel) : string :=
  match l with
  | CLUSTER_NAME => "CLUSTER_NAME" | HOSTNAME => "HOSTNAME" | SERIAL_NUMBER => "SERIAL_NUMBER"
  | POD => "POD" | NAMESPACE => "NAMESPACE" | CONTAINER => "CONTAINER"
  | JOB_ID => "JOB_ID" | JOB_USER => "JOB_USER" | JOB_PARTITION => "JOB_PARTITION"
  | CARD_SERIES => "CARD_SERIES" | CARD_MODEL => "CARD_MODEL" | CARD_VENDOR => "CARD_VENDOR"
  | DRIVER_VERSION => "DRIVER_VERSION" | VBIOS_VERSION => "VBIOS_VERSION" | POD_UUID => "POD_UUID"
  end.

Definition GPUMetricLabel_String (l : GPUMetricLabel) : string :=
  match l with
  | GPU_UUID => "GPU_UUID" | GPU_ID => "GPU_ID" | GPU_PARTITION_ID => "GPU_PARTITION_ID"
  | GPU_COMPUTE_PARTITION_TYPE => "GPU_COMPUTE_PARTITION_TYPE"
  | GPU_MEMORY_PARTITION_TYPE => "GPU_MEMORY_PARTITION_TYPE"
  | KFD_PROCESS_ID => "KFD_PROCESS_ID" | DEPLOYMENT_MODE => "DEPLOYMENT_MODE"
  end.

Definition MetricLabel_all : list MetricLabel :=
  [ CLUSTER_NAME; HOSTNAME; SERIAL_NUMBER; POD; NAMESPACE; CONTAINER; JOB_ID; JOB_USER; JOB_PARTITION;
    CARD_SERIES; CARD_MODEL; CARD_VENDOR; DRIVER_VERSION; VBIOS_VERSION; POD_UUID ].
Definition GPUMetricLabel_all : list GPUMetricLabel :=
  [ GPU_UUID; GPU_ID; GPU_PARTITION_ID; GPU_COMPUTE_PARTITION_TYPE; GPU_MEMORY_PARTITION_TYPE;
    KFD_PROCESS_ID; DEPLOYMENT_MODE ].

Definition MetricLabel_name : list string := MetricLabel_String <$> MetricLabel_all.
Definition GPUMetricLabel_name : list string := GPUMetricLabel_String <$> GPUMetricLabel_all.
Definition label_names : list string := MetricLabel_name ++ GPUMetricLabel_name.

Definition gpuMandatoryLables : list string :=
  [ GPUMetricLabel_String GPU_ID; MetricLabel_String CARD_MODEL; GPUMetricLabel_String GPU_PARTITION_ID;
    GPUMetricLabel_String GPU_COMPUTE_PARTITION_TYPE; GPUMetricLabel_String GPU_MEMORY_PARTITION_TYPE;
    GPUMetricLabel_String DEPLOYMENT_MODE; MetricLabel_String SERIAL_NUMBER; MetricLabel_String POD;
    MetricLabel_String NAMESPACE; MetricLabel_String CONTAINER; MetricLabel_String JOB_ID;
    MetricLabel_String JOB_USER; MetricLabel_String JOB_PARTITION; MetricLabel_String HOSTNAME ].

Definition MaxSupportedCustomLabels : nat := 10.
Definition MaxSupportedPodLabels : nat := 20.

(** The labels of the metrics that may be customised. *)
Definition allowedCustomLabels : list string := [MetricLabel_String CLUSTER_NAME].

(** ** Loading a configuration *)

Record label_config : Type := MkLabels {
  exportLabels : gmap string bool;
  customLabelMap : gmap string string;
  extraPodLabelsMap : gmap string string;
  podInfoEnabled : bool;
}.

Definition NewLabels : label_config := MkLabels ∅ ∅ ∅ false.

(** One entry of a loop that takes at most [max]. *)
Definition take_label (max : nat) (refused : list string) (s : gmap string string * nat)
    (e : string * string) : gmap string string * nat :=
  let '(m, labelCount) := s in
  if decide (max <= labelCount)%nat then s
  else
    let label := ToLower e.1 in
    if decide (label ∈ refused) then s else (<[label := e.2]> m, S labelCount).

Definition disallowedLabels : list string :=
  ToLower <$> filter (λ name, name ∉ allowedCustomLabels) GPUMetricLabel_name.

Definition initCustomLabels (config : option GPUMetricConfig) : gmap string string :=
  match config with
  | None => ∅
  | Some c => (foldl (take_label MaxSupportedCustomLabels disallowedLabels) (∅, 0%nat) (CustomLabels c)).1
  end.

Definition NormalizeExtraPodLabels (extraPodLabels : list (string * string)) : gmap string string :=
  (foldl (take_label MaxSupportedPodLabels []) (∅, 0%nat) extraPodLabels).1.

(** [exportLabels] with [name] enabled, if it is there. *)
Definition enable_label (m : gmap string bool) (name : string) : gmap string bool :=
  let name := ToUpper name in
  match m !! name with Some _ => <[name := true]> m | None => m end.

Definition default_labels : gmap string bool :=
  foldl (λ m name, <[name := true]> m) (list_to_map ((λ name, (name, false)) <$> label_names))
    gpuMandatoryLables.

Definition initLabelConfigs (config : option GPUMetricConfig) : gmap string bool :=
  match config with
  | None => default_labels
  | Some c => foldl enable_label default_labels (cfg_Labels c)
  end.

(** The part of [InitConfigs] that is about labels. *)
Definition InitConfigs_labels (config : option GPUMetricConfig) (s : label_config) : label_config :=
  let custom := initCustomLabels config in
  let exported := initLabelConfigs config in
  let info := podInfoEnabled s || bool_decide (exported !! MetricLabel_String POD_UUID = Some true) in
  match config with
  | None => MkLabels exported custom (extraPodLabelsMap s) info
  | Some c =>
      let extra := NormalizeExtraPodLabels (ExtraPodLabels c) in
      MkLabels exported custom extra (info || bool_decide (extra ≠ ∅))
  end.

(** ** The names a gauge is created with *)

Definition add_new (l : list string) (key : string) : list string :=
  if decide (key ∈ l) then l else l ++ [key].

Definition enabled_names (s : label_config) : list string :=
  (filter (λ p, p.2 = true) (map_to_list (exportLabels s))).*1.

Definition GetExportLabels (s : label_config) : list string :=
  let labelList := ToLower <$> enabled_names s in
  let labelList := foldl add_new labelList (map_to_list (extraPodLabelsMap s)).*1 in
  foldl add_new labelList (map_to_list (customLabelMap s)).*1.

Definition GetExporterNonGPULabels (s : label_config) : list string :=
  ToLower (MetricLabel_String HOSTNAME) :: (ToLower <$> (map_to_list (customLabelMap s)).*1).

(** ** What a gauge accepts

    [validateValuesInLabels] and [hashLabels]; [With] panics if they fail. *)

Definition validateValuesInLabels (ValidString : string → bool) (labels : gmap string string)
    (expectedNumberOfValues : nat) : bool :=
  bool_decide (size labels = expectedNumberOfValues) &&
  forallb (λ p, ValidString p.2) (map_to_list labels).

Definition With (ValidString : string → bool) (names : list string) (labels : gmap string string) : bool :=
  validateValuesInLabels ValidString labels (length names) &&
  forallb (λ name, bool_decide (is_Some (labels !! name))) names.

(** ** The labels of a GPU *)

(** [String] of an enumeration with the values 0, 1, ...; a number without a
    name is printed. *)
Definition enum_String (names : list string) (v : Z) : string :=
  if decide (v < 0) then dec v else default (dec v) (names !! Z.to_nat v).

Definition GPUComputePartitionType_String : Z → string :=
  enum_String [ "GPU_COMPUTE_PARTITION_TYPE_NONE"; "GPU_COMPUTE_PARTITION_TYPE_SPX";
    "GPU_COMPUTE_PARTITION_TYPE_DPX"; "GPU_COMPUTE_PARTITION_TYPE_TPX";
    "GPU_COMPUTE_PARTITION_TYPE_QPX"; "GPU_COMPUTE_PARTITION_TYPE_CPX" ].

Definition GPUMemoryPartitionType_String : Z → string :=
  enum_String [ "GPU_MEMORY_PARTITION_TYPE_NONE"; "GPU_MEMORY_PARTITION_TYPE_NPS1";
    "GPU_MEMORY_PARTITION_TYPE_NPS2"; "GPU_MEMORY_PARTITION_TYPE_NPS4"; "GPU_MEMORY_PARTITION_TYPE_NPS8" ].

Definition GPUVirtualizationMode_String : Z → string :=
  enum_String [ "GPU_VIRTUALIZATION_MODE_NONE"; "GPU_VIRTUALIZATION_MODE_BAREMETAL";
    "GPU_VIRTUALIZATION_MODE_HOST"; "GPU_VIRTUALIZATION_MODE_GUEST"; "GPU_VIRTUALIZATION_MODE_PASSTHROUGH" ].

Definition NormalizeStringWithoutPrefix (str prefix : string) : string := ToLower (TrimPrefix str prefix).

Definition VirtualizationModeToDeploymentMode (virtualizationMode : string) : string :=
  let mode := ToLower virtualizationMode in
  if decide (mode = "baremetal") then "baremetal"
  else if decide (mode = "host") then "hypervisor"
  else if decide (mode = "guest") then "vm_vf"
  else if decide (mode = "passthrough") then "vm_pf"
  else "baremetal".

Definition getGPUUUID (gpu : GPU) : string :=
  match Spec_Id gpu with Some id => UUIDToString id | None => "" end.

(** The pod and the job of a GPU: the last workload of each kind;
    [None]: a workload whose information is of the other kind. *)
Definition note_workload (s : PodResourceInfo * JobInfo) (wl : Workload)
    : option (PodResourceInfo * JobInfo) :=
  match Type_ wl, Info wl with
  | Kubernetes, InfoPod p => Some (p, s.2)
  | Slurm, InfoJob j => Some (s.1, j)
  | _, _ => None
  end.

Definition no_pod : PodResourceInfo := MkPod "" "" "".
Definition no_job : JobInfo := MkJob "" "" "" "".

Section populate.
Context (s : label_config) (hostname : string).
Context (gpuIDMap : gmap string GPUIDMeta) (k8PodInfoMap : gmap string K8sPodInfo).

(** The label a name stands for. *)
Definition find_label (ckey : string) : option (MetricLabel + GPUMetricLabel) :=
  match list_find (λ l, MetricLabel_String l = ckey) MetricLabel_all with
  | Some (_, l) => Some (inl l)
  | None =>
      match list_find (λ l, GPUMetricLabel_String l = ckey) GPUMetricLabel_all with
      | Some (_, l) => Some (inr l)
      | None => None
      end
  end.

(** The value of a label of a GPU, [parent] being the first partition of its
    device, if it has one; [None]: panic. *)
Definition common_value (gpu : GPU) (parent : option GPU) (podInfo : PodResourceInfo) (jobInfo : JobInfo)
    (l : MetricLabel) : option string :=
  let card (f : GPUStatus → string) := f <$> Status (default gpu parent) in
  match l with
  | CARD_SERIES => card CardSeries
  | CARD_MODEL => card (λ st, if decide (CardModel st = "") then CardSeries st else CardModel st)
  | CARD_VENDOR => card CardVendor
  | SERIAL_NUMBER => card SerialNum
  | DRIVER_VERSION => DriverVersion <$> Status gpu
  | VBIOS_VERSION => VBIOSVersion <$> Status gpu
  | POD => Some (Pod podInfo)
  | NAMESPACE => Some (Namespace podInfo)
  | CONTAINER => Some (Container podInfo)
  | POD_UUID => Some (GetPodUID (Some podInfo) k8PodInfoMap)
  | JOB_ID => Some (Id jobInfo)
  | JOB_USER => Some (User jobInfo)
  | JOB_PARTITION => Some (Partition jobInfo)
  | CLUSTER_NAME => Some (Cluster jobInfo)
  | HOSTNAME => Some hostname
  end.

Definition print_ids (ids : list Z) : string :=
  match ids with [] => "" | _ => intercalate ","%char (dec <$> merge_sort Z.le ids) end.

Definition gpu_value (gpu : GPU) (parent : option GPU) (l : GPUMetricLabel) : option string :=
  let spec (f : GPU → Z) := let g := default gpu parent in
    _ ← Spec_Id gpu; _ ← Spec_Id g; Some (f g) in
  match l with
  | GPU_UUID => Some (getGPUUUID gpu)
  | GPU_ID => Some (getGPUInstanceIDString gpu)
  | GPU_PARTITION_ID =>
      st ← Status gpu;
      Some (if decide (PartitionId st = 4294967295) then "NA" else dec (PartitionId st))
  | GPU_COMPUTE_PARTITION_TYPE =>
      t ← spec ComputePartitionType;
      Some (NormalizeStringWithoutPrefix (GPUComputePartitionType_String t) "GPU_COMPUTE_PARTITION_TYPE_")
  | GPU_MEMORY_PARTITION_TYPE =>
      t ← spec MemoryPartitionType;
      Some (NormalizeStringWithoutPrefix (GPUMemoryPartitionType_String t) "GPU_MEMORY_PARTITION_TYPE_")
  | KFD_PROCESS_ID => st ← Status gpu; Some (print_ids (KFDProcessId st))
  | DEPLOYMENT_MODE =>
      st ← Status gpu;
      Some (VirtualizationModeToDeploymentMode
              (NormalizeStringWithoutPrefix (GPUVirtualizationMode_String (VirtualizationMode st))
                 "GPU_VIRTUALIZATION_MODE_"))
  end.

(** One turn of the loop over [exportLabels]: without a GPU only the host
    name is set. *)
Definition add_label (gpu : option GPU) (parent : option GPU) (podInfo : PodResourceInfo) (jobInfo : JobInfo)
    (labels : gmap string string) (e : string * bool) : option (gmap string string) :=
  if e.2 then
    match gpu, find_label e.1 with
    | Some gpu, Some (inl l) =>
        v ← common_value gpu parent podInfo jobInfo l; Some (<[ToLower e.1 := v]> labels)
    | Some gpu, Some (inr l) => v ← gpu_value gpu parent l; Some (<[ToLower e.1 := v]> labels)
    | None, Some (inl HOSTNAME) => Some (<[ToLower e.1 := hostname]> labels)
    | _, _ => Some labels
    end
  else Some labels.

(** The first partition of the device of a GPU. *)
Definition parent_partition (gpu : GPU) (partitionMap : gmap string GPU) : option (option GPU) :=
  st ← Status gpu;
  Some (bus ← PCIeBusId st; partitionMap !! GetPCIeBaseAddress (ToLower bus)).

Definition populateLabelsFromGPU (wls : gmap string Workload) (gpu : option GPU)
    (partitionMap : gmap string GPU) : option (gmap string string) :=
  '(podInfo, jobInfo) ← foldM note_workload (no_pod, no_job)
     (match gpu with Some g => getWorkloadInfo gpuIDMap wls (getGPUInstanceIDString g) | None => [] end);
  parent ← match gpu with Some g => parent_partition g partitionMap | None => Some None end;
  labels ← foldM (add_label gpu parent podInfo jobInfo) ∅ (map_to_list (exportLabels s));
  let labels :=
    match gpu with
    | Some _ =>
        let podLabels := GetPodLabels (Some podInfo) k8PodInfoMap in
        foldl (λ m e, <[ToLower e.1 := default "" (podLabels !! e.2)]> m) labels
          (map_to_list (extraPodLabelsMap s))
    | None => labels
    end in
  Some (foldl (λ m e, <[e.1 := e.2]> m) labels (map_to_list (customLabelMap s))).
End populate.
