(* ===== verification/LabelProofs.v ===== *)
(** The labels of the GPU metrics fit the gauges they are set on, and which
    value a label has when several sources name it. *)

From S2P Require Import Prelude Format GoStd Scheduler GpuMessages GpuAgent Config LabelConfig.
From Stdlib Require Import Ascii.
Local Open Scope Z_scope.

(** ** Names *)

Lemma label_names_upper name : name ∈ label_names → ToUpper name = name.
Proof.
  revert name. apply Forall_forall. by_decide.
Qed.

Lemma label_names_lower_inj a b : a ∈ label_names → b ∈ label_names → ToLower a = ToLower b → a = b.
Proof.
  intros Ha Hb He. rewrite <- (label_names_upper a), <- (label_names_upper b), <- (ToUpper_ToLower a), He by done.
  by rewrite ToUpper_ToLower.
Qed.

Lemma find_label_common l : find_label (MetricLabel_String l) = Some (inl l).
Proof. by destruct l. Qed.

Lemma find_label_gpu l : find_label (GPUMetricLabel_String l) = Some (inr l).
Proof. by destruct l. Qed.

Lemma label_names_cases name : name ∈ label_names →
  (∃ l, name = MetricLabel_String l) ∨ (∃ l, name = GPUMetricLabel_String l).
Proof.
  unfold label_names, MetricLabel_name, GPUMetricLabel_name.
  rewrite elem_of_app, !list_elem_of_fmap. intros [(l & -> & _)|(l & -> & _)]; [left|right]; by exists l.
Qed.

Lemma common_name_known l : MetricLabel_String l ∈ label_names.
Proof. apply (bool_decide_unpack _). by destruct l; vm_compute. Qed.

Lemma gpu_name_known l : GPUMetricLabel_String l ∈ label_names.
Proof. apply (bool_decide_unpack _). by destruct l; vm_compute. Qed.

(** ** Loading keeps the maps in order *)

Definition exported_ok (m : gmap string bool) : Prop :=
  (∀ k b, m !! k = Some b → k ∈ label_names) ∧ ∀ k, k ∈ gpuMandatoryLables → m !! k = Some true.

Definition lower_keys (refused : list string) (max : nat) (m : gmap string string) : Prop :=
  (∀ k v, m !! k = Some v → ToLower k = k ∧ k ∉ refused) ∧ (size m <= max)%nat.

Record labels_ok (s : label_config) : Prop := {
  ok_exported : exported_ok (exportLabels s);
  ok_custom : lower_keys disallowedLabels MaxSupportedCustomLabels (customLabelMap s);
  ok_extra : lower_keys [] MaxSupportedPodLabels (extraPodLabelsMap s);
}.

Lemma take_labels_ok max refused l m n :
  (∀ k v, m !! k = Some v → ToLower k = k ∧ k ∉ refused) → (size m <= n)%nat → (n <= max)%nat →
  lower_keys refused max (foldl (take_label max refused) (m, n) l).1.
Proof.
  revert m n. induction l as [|e l IH]; intros m n Hm Hn Hmax; cbn [foldl].
  { split; [done|cbn; lia]. }
  unfold take_label at 2. case_decide; [by apply IH|]. case_decide; [by apply IH|].
  apply IH; [| |lia].
  - intros k v [(<- & _)|(_ & Hk)]%lookup_insert_Some; [|by eapply Hm]. by rewrite ToLower_idemp.
  - rewrite map_size_insert. destruct (m !! _); cbn; lia.
Qed.

Lemma enable_label_ok m name : exported_ok m → exported_ok (enable_label m name).
Proof.
  intros [Hk Hm]. unfold enable_label. destruct (m !! ToUpper name) as [b0|] eqn:Hn; [|done]. split.
  - intros k b [(<- & _)|(_ & H)]%lookup_insert_Some; [by eapply Hk|by eapply Hk].
  - intros k Hin. destruct (decide (ToUpper name = k)) as [->|]; [by rewrite lookup_insert_eq|].
    rewrite lookup_insert_ne by done. by apply Hm.
Qed.

Lemma default_labels_ok : exported_ok default_labels.
Proof.
  assert (Hd : Forall (λ p, p.1 ∈ label_names) (map_to_list default_labels) ∧
               Forall (λ k, default_labels !! k = Some true) gpuMandatoryLables).
  { split; by_decide. }
  destruct Hd as [Hk Hm]. rewrite Forall_forall in Hk. split; [|by apply Forall_forall].
  intros k b H%elem_of_map_to_list. apply (Hk _ H).
Qed.

Lemma initLabelConfigs_ok config : exported_ok (initLabelConfigs config).
Proof.
  destruct config as [c|]; [|apply default_labels_ok]. unfold initLabelConfigs.
  generalize default_labels_ok. generalize default_labels.
  induction (cfg_Labels c) as [|x l IH]; intros m Hm; [done|]. cbn. by apply IH, enable_label_ok.
Qed.

Lemma empty_lower_keys refused max : lower_keys refused max ∅.
Proof. split; [done|]. rewrite map_size_empty. lia. Qed.

Lemma init_labels_ok config s : lower_keys [] MaxSupportedPodLabels (extraPodLabelsMap s) →
  labels_ok (InitConfigs_labels config s).
Proof.
  intros Hs. assert (Hc : lower_keys disallowedLabels MaxSupportedCustomLabels (initCustomLabels config)).
  { destruct config as [c|]; [|apply empty_lower_keys]. apply take_labels_ok; [done| |lia].
    rewrite map_size_empty. lia. }
  pose proof (initLabelConfigs_ok config) as He. unfold InitConfigs_labels.
  destruct config as [c|]; (split; [exact He|exact Hc|cbn]); [|done].
  apply take_labels_ok; [done| |lia]. rewrite map_size_empty. lia.
Qed.

(** The configurations of a run, one after the other. *)
Definition load_labels (configs : list (option GPUMetricConfig)) : label_config :=
  foldl (λ s c, InitConfigs_labels c s) NewLabels configs.

Lemma load_labels_ok configs : configs ≠ [] → labels_ok (load_labels configs).
Proof.
  induction configs as [|c configs IH] using rev_ind; [done|]. intros _.
  unfold load_labels. rewrite foldl_app. cbn. apply init_labels_ok.
  destruct configs as [|c0 configs]; [apply empty_lower_keys|]. by apply IH.
Qed.

(** ** The names of the gauges *)

Lemma elem_of_add_new l ks k : k ∈ foldl add_new l ks ↔ k ∈ l ∨ k ∈ ks.
Proof.
  revert l. induction ks as [|x ks IH]; intros l; cbn [foldl]; [set_solver|].
  rewrite IH. unfold add_new. case_decide; set_solver.
Qed.

Lemma NoDup_add_new l ks : NoDup l → NoDup (foldl add_new l ks).
Proof.
  revert l. induction ks as [|x ks IH]; intros l Hl; [done|]. cbn [foldl]. apply IH. unfold add_new.
  case_decide; [done|]. apply NoDup_app. split; [done|]. split; [set_solver|apply NoDup_singleton].
Qed.

Lemma elem_of_enabled s name : name ∈ enabled_names s ↔ exportLabels s !! name = Some true.
Proof.
  unfold enabled_names. rewrite list_elem_of_fmap. split.
  - intros ([k b] & -> & Hin). apply list_elem_of_filter in Hin as [Hb Hin]. cbn in *. subst b.
    by apply elem_of_map_to_list.
  - intros H%elem_of_map_to_list. exists (name, true). split; [done|]. by apply list_elem_of_filter.
Qed.

Lemma enabled_known s name : labels_ok s → name ∈ enabled_names s → name ∈ label_names.
Proof. intros Hs Hn%elem_of_enabled. by eapply (ok_exported s Hs). Qed.

(** Names whose lower cases differ give labels that differ. *)
Lemma NoDup_export_labels (names : list string) s : (∀ a b, a ∈ names → b ∈ names → ToLower a = ToLower b → a = b) →
  (∀ name, name ∈ enabled_names s → name ∈ names) → NoDup (GetExportLabels s).
Proof.
  intros Hinj Hs. apply NoDup_add_new, NoDup_add_new. apply NoDup_fmap_2_strong.
  - intros x y Hx Hy. apply Hinj; by apply Hs.
  - unfold enabled_names. eapply sublist_NoDup;
      [apply (NoDup_fst_map_to_list (exportLabels s))|apply fmap_sublist, sublist_filter].
Qed.

Lemma NoDup_GetExportLabels s : labels_ok s → NoDup (GetExportLabels s).
Proof.
  intros Hs. apply (NoDup_export_labels label_names); [apply label_names_lower_inj|].
  intros name. by apply enabled_known.
Qed.

Lemma elem_of_GetExportLabels s k : k ∈ GetExportLabels s ↔
  k ∈ ToLower <$> enabled_names s ∨ is_Some (extraPodLabelsMap s !! k) ∨ is_Some (customLabelMap s !! k).
Proof.
  unfold GetExportLabels. rewrite !elem_of_add_new.
  assert (∀ m : gmap string string, k ∈ (map_to_list m).*1 ↔ is_Some (m !! k)) as Hk.
  { intros m. rewrite list_elem_of_fmap. split.
    - intros ([k' v] & -> & H%elem_of_map_to_list). by exists v.
    - intros [v H%elem_of_map_to_list]. by exists (k, v). }
  rewrite !Hk. tauto.
Qed.

(** ** The labels of a GPU *)

Section populate.
Context (s : label_config) (hostname : string).
Context (gpuIDMap : gmap string GPUIDMeta) (k8PodInfoMap : gmap string K8sPodInfo).
Implicit Types (labels : gmap string string).

(** The value a name has by itself. *)
Definition own_value (gpu : option GPU) (parent : option GPU) (podInfo : PodResourceInfo)
    (jobInfo : JobInfo) (name : string) : option string :=
  match gpu, find_label name with
  | Some gpu, Some (inl l) => common_value hostname k8PodInfoMap gpu parent podInfo jobInfo l
  | Some gpu, Some (inr l) => gpu_value gpu parent l
  | None, Some (inl HOSTNAME) => Some hostname
  | _, _ => None
  end.

(** A loop over entries with names whose lower cases differ. *)
Lemma add_labels_spec gpu parent pod job l labels labels' :
  (∀ e, e ∈ l → e.1 ∈ label_names) → NoDup l.*1 →
  foldM (add_label hostname k8PodInfoMap gpu parent pod job) labels l = Some labels' →
  (∀ name, (name, true) ∈ l → is_Some gpu → is_Some (own_value gpu parent pod job name)) ∧
  (∀ name, (name, true) ∈ l → is_Some (own_value gpu parent pod job name) →
     labels' !! ToLower name = own_value gpu parent pod job name) ∧
  (∀ k, (∀ name, (name, true) ∈ l → is_Some (own_value gpu parent pod job name) → ToLower name ≠ k) →
     labels' !! k = labels !! k).
Proof.
  revert labels. induction l as [|[name b] l IH]; intros labels Hl Hnd Hf.
  { injection Hf as <-. split_and!; [by intros ? ?%not_elem_of_nil..|done]. }
  cbn [foldM] in Hf. destruct (add_label _ _ _ _ _ _ labels (name, b)) as [m|] eqn:Hm; [|done].
  cbn [mbind option_bind] in Hf. cbn [fmap list_fmap] in Hnd. apply NoDup_cons in Hnd as [Hni Hnd].
  destruct (IH m) as (H1 & H2 & H3); [intros e He; apply Hl; by right|done|done|].
  assert (Hname : name ∈ label_names) by (apply (Hl (name, b)); by left).
  assert (Hstep : (b = true → is_Some gpu → is_Some (own_value gpu parent pod job name)) ∧
    m = if b then match own_value gpu parent pod job name with
                  | Some v => <[ToLower name := v]> labels | None => labels end else labels).
  { revert Hm. unfold add_label, own_value. cbn [fst snd]. destruct b; [|by intros [= <-]].
    destruct (label_names_cases name Hname) as [[lb ->]|[lb ->]].
    - rewrite find_label_common. destruct gpu as [g|].
      + destruct (common_value _ _ _ _ _ _ _); [|done]. intros [= <-]. split; [by eexists|done].
      + destruct lb; intros [= <-]; (split; [by intros _ [? ?]|done]).
    - rewrite find_label_gpu. destruct gpu as [g|].
      + destruct (gpu_value _ _ _); [|done]. intros [= <-]. split; [by eexists|done].
      + intros [= <-]. split; [by intros _ [? ?]|done]. }
  destruct Hstep as [Htot ->].
  assert (Hne : ∀ name', (name', true) ∈ l → ToLower name' ≠ ToLower name).
  { intros name' Hin He. apply Hni. apply list_elem_of_fmap. exists (name', true). split; [|done]. cbn.
    apply label_names_lower_inj; [done| |done]. apply (Hl (name', true)). by right. }
  split_and!.
  - intros name' [[= -> <-]|Hin]%elem_of_cons Hg; [by apply Htot|by apply H1].
  - intros name' [[= -> <-]|Hin]%elem_of_cons Hv; [|by apply H2].
    rewrite H3 by (intros name' Hin _; by apply Hne). destruct Hv as [v ->]. by rewrite lookup_insert_eq.
  - intros k Hk. rewrite H3 by (intros name' Hin; apply Hk; by right).
    destruct b; [|done]. destruct (own_value gpu parent pod job name) as [v|] eqn:Hv; [|done].
    rewrite lookup_insert_ne; [done|]. apply (Hk name); [by left|by rewrite Hv].
Qed.

Lemma foldl_insert_entries {A} (f : string * A → string) (g : string * A → string) (m : gmap string A) labels k :
  (∀ k v, m !! k = Some v → f (k, v) = k) →
  foldl (λ acc e, <[f e := g e]> acc) labels (map_to_list m) !! k =
  match m !! k with Some v => Some (g (k, v)) | None => labels !! k end.
Proof.
  intros Hf.
  assert (Hl : ∀ l (acc : gmap string string), (∀ e, e ∈ l → f e = e.1) → NoDup l.*1 →
    foldl (λ acc e, <[f e := g e]> acc) acc l !! k =
    match (list_to_map l : gmap string A) !! k with Some v => Some (g (k, v)) | None => acc !! k end).
  { induction l as [|[k' v] l IH]; intros acc Hl Hnd; [done|]. cbn [foldl].
    apply NoDup_cons in Hnd as [Hni Hnd].
    rewrite IH by (try done; intros e He; apply Hl; by right). cbn [list_to_map].
    pose proof (Hl (k', v) ltac:(by left)) as Hk. cbn [fst] in Hk. rewrite Hk.
    destruct (decide (k' = k)) as [->|Hne].
    - rewrite (not_elem_of_list_to_map_1 l k) by done. cbn. by rewrite !lookup_insert_eq.
    - cbn. by rewrite !lookup_insert_ne by done. }
  rewrite Hl; [by rewrite list_to_map_to_list| |apply NoDup_fst_map_to_list].
  intros [k' v] H%elem_of_map_to_list. by apply Hf.
Qed.

Definition pod_labels (podInfo : PodResourceInfo) : gmap string string :=
  GetPodLabels (Some podInfo) k8PodInfoMap.

(** Every label of a GPU: custom labels before labels of the pod before the
    labels of the GPU. *)
Lemma populate_spec wls gpu partitionMap labels : labels_ok s →
  populateLabelsFromGPU s hostname gpuIDMap k8PodInfoMap wls (Some gpu) partitionMap = Some labels →
  ∃ parent pod job,
    parent_partition gpu partitionMap = Some parent ∧
    foldM note_workload (no_pod, no_job) (getWorkloadInfo gpuIDMap wls (getGPUInstanceIDString gpu)) =
      Some (pod, job) ∧
    ∀ k, labels !! k =
      match customLabelMap s !! k with
      | Some v => Some v
      | None =>
          match extraPodLabelsMap s !! k with
          | Some l => Some (default "" (pod_labels pod !! l))
          | None =>
              match list_find (λ name, ToLower name = k) (enabled_names s) with
              | Some (_, name) => own_value (Some gpu) parent pod job name
              | None => None
              end
          end
      end ∧
    (k ∈ ToLower <$> enabled_names s → is_Some (labels !! k)).
Proof.
  intros Hs. unfold populateLabelsFromGPU.
  destruct (foldM note_workload _ _) as [[pod job]|] eqn:Hw; [|done]. cbn [mbind option_bind].
  destruct (parent_partition gpu partitionMap) as [parent|] eqn:Hp; [|done]. cbn [mbind option_bind].
  destruct (foldM _ ∅ _) as [own|] eqn:Ho; [|done]. cbn [mbind option_bind]. intros [= <-].
  exists parent, pod, job. split; [done|]. split; [done|]. intros k.
  destruct (add_labels_spec (Some gpu) parent pod job _ _ _
    ltac:(intros [n b] H%elem_of_map_to_list; by apply (proj1 (ok_exported s Hs) n b))
    (NoDup_fst_map_to_list _) Ho) as (H1 & H2 & H3).
  assert (Hin : ∀ name, name ∈ enabled_names s ↔ (name, true) ∈ map_to_list (exportLabels s)).
  { intros name. by rewrite elem_of_enabled, elem_of_map_to_list. }
  assert (Hk : own !! k = match list_find (λ name, ToLower name = k) (enabled_names s) with
    | Some (_, name) => own_value (Some gpu) parent pod job name | None => None end).
  { destruct (list_find _ _) as [[i name]|] eqn:Hf.
    - apply list_find_Some in Hf as (Hf & <- & _). apply list_elem_of_lookup_2, Hin in Hf.
      apply H2; [done|]. by apply H1.
    - rewrite H3; [done|]. intros name Hn _ He. apply list_find_None in Hf.
      rewrite Forall_forall in Hf. by apply (Hf name); [apply Hin|]. }
  rewrite (foldl_insert_entries (A := string) (λ e, e.1) (λ e, e.2)) by done.
  rewrite (foldl_insert_entries (A := string) (λ e, ToLower e.1) (λ e, default "" (pod_labels pod !! e.2)))
    by (intros k' v Hk'; apply (proj1 (ok_extra s Hs) k' v Hk')).
  cbn [fst snd]. rewrite Hk. split; [done|]. intros (name & -> & Hn)%list_elem_of_fmap.
  destruct (customLabelMap s !! _); [done|]. destruct (extraPodLabelsMap s !! _); [done|].
  rewrite <- Hk. rewrite H2; [by apply H1; [apply Hin|]|by apply Hin|by apply H1; [apply Hin|]].
Qed.

Lemma populate_dom wls gpu partitionMap labels : labels_ok s →
  populateLabelsFromGPU s hostname gpuIDMap k8PodInfoMap wls (Some gpu) partitionMap = Some labels →
  ∀ k, is_Some (labels !! k) ↔ k ∈ GetExportLabels s.
Proof.
  intros Hs Hp k. destruct (populate_spec _ _ _ _ Hs Hp) as (parent & pod & job & _ & _ & Hk).
  destruct (Hk k) as [Hv Hin]. rewrite elem_of_GetExportLabels. split.
  - rewrite Hv. intros [v Hsome]. destruct (customLabelMap s !! k); [right; by right|].
    destruct (extraPodLabelsMap s !! k); [right; by left|]. left.
    destruct (list_find _ _) as [[i name]|] eqn:Hf; [|done].
    apply list_find_Some in Hf as (Hf & <- & _). apply list_elem_of_fmap. exists name.
    split; [done|]. by apply list_elem_of_lookup_2 in Hf.
  - intros [H|[[v H]|[v H]]]; [by apply Hin| |]; rewrite Hv, H; [|done].
    by destruct (customLabelMap s !! k).
Qed.
End populate.

(** ** Gauges *)

Lemma With_spec ValidString names labels : NoDup names →
  (∀ k, is_Some (labels !! k) ↔ k ∈ names) → (∀ k v, labels !! k = Some v → ValidString v = true) →
  With ValidString names labels = true.
Proof.
  intros Hnd Hdom Hval. unfold With, validateValuesInLabels. rewrite !andb_true_iff, bool_decide_eq_true.
  split_and!.
  - rewrite <- size_dom. rewrite <- (size_list_to_set (C := gset string)) by done. f_equal.
    apply set_eq. intros k. by rewrite elem_of_dom, Hdom, elem_of_list_to_set.
  - apply forallb_forall. intros [k v] H%list_elem_of_In%elem_of_map_to_list. by eapply Hval.
  - apply forallb_forall. intros k H%list_elem_of_In. apply bool_decide_eq_true. by apply Hdom.
Qed.

Lemma With_size ValidString names labels : With ValidString names labels = true →
  size labels = length names.
Proof. unfold With, validateValuesInLabels. rewrite !andb_true_iff, bool_decide_eq_true. tauto. Qed.

(** ** The theorems *)

(** What the agent and the schedulers provide: GPUs with their parts,
    workloads with the information of their kind. *)
Definition readable (g : GPU) : Prop := is_Some (Spec_Id g) ∧ is_Some (Status g).
Definition typed (w : Workload) : Prop := is_Some (note_workload (no_pod, no_job) w).

Lemma note_workloads_total st l : Forall typed l → is_Some (foldM note_workload st l).
Proof.
  intros Hl. revert st. induction Hl as [|w l [x Hw] Hl IH]; intros st; [by eexists|]. cbn [foldM].
  unfold note_workload in *. destruct (Type_ w), (Info w); try discriminate Hw; apply IH.
Qed.

Lemma getWorkloadInfo_typed ids wls id : map_Forall (λ _, typed) wls → Forall typed (getWorkloadInfo ids wls id).
Proof.
  intros Hw. assert (Ho : ∀ k, Forall typed (option_list (wls !! k))).
  { intros k. destruct (wls !! k) as [w|] eqn:Hk; cbn; [|done]. constructor; [|done]. by apply (Hw k w). }
  unfold getWorkloadInfo. destruct (ids !! id); [|done]. repeat (apply Forall_app; split); try apply Ho.
  case_decide; [apply Ho|done].
Qed.

Lemma own_value_total hostname pods gpu parent pod job name : readable gpu → (∀ p, parent = Some p → readable p) →
  name ∈ label_names → is_Some (own_value hostname pods (Some gpu) parent pod job name).
Proof.
  intros [[id Hid] [st Hst]] Hp Hn. assert (Hc : readable (default gpu parent)).
  { destruct parent as [p|]; [by apply Hp|]. split; by eexists. }
  destruct Hc as [[id' Hid'] [st' Hst']]. unfold own_value.
  destruct (label_names_cases name Hn) as [[l ->]|[l ->]].
  - rewrite find_label_common. destruct l; cbn; rewrite ?Hst, ?Hst'; by eexists.
  - rewrite find_label_gpu. destruct l; cbn; rewrite ?Hst, ?Hid, ?Hid'; by eexists.
Qed.

Lemma add_labels_total hostname pods gpu parent pod job l labels : readable gpu →
  (∀ p, parent = Some p → readable p) → (∀ e, e ∈ l → e.1 ∈ label_names) →
  is_Some (foldM (add_label hostname pods (Some gpu) parent pod job) labels l).
Proof.
  intros Hg Hp. revert labels. induction l as [|[name b] l IH]; intros labels Hl; [by eexists|].
  assert (is_Some (add_label hostname pods (Some gpu) parent pod job labels (name, b))) as [m Hm].
  { pose proof (own_value_total hostname pods gpu parent pod job name Hg Hp
      ltac:(apply (Hl (name, b)); by left)) as [v Hv]. revert Hv.
    unfold add_label, own_value. destruct b; [|by eexists]. cbn [fst snd].
    destruct (find_label name) as [[lb|lb]|]; [intros ->|intros ->|]; by eexists. }
  cbn [foldM]. rewrite Hm. cbn. apply IH. intros e He. apply Hl. by right.
Qed.

Lemma populate_total s hostname ids pods wls gpu pm : labels_ok s → readable gpu →
  map_Forall (λ _, readable) pm → map_Forall (λ _, typed) wls →
  is_Some (populateLabelsFromGPU s hostname ids pods wls (Some gpu) pm).
Proof.
  intros Hs Hg Hpm Hw. unfold populateLabelsFromGPU, parent_partition. pose proof Hg as [_ [st Hst]].
  destruct (note_workloads_total (no_pod, no_job) (getWorkloadInfo ids wls (getGPUInstanceIDString gpu)))
    as [[pod job] ->]; [by apply getWorkloadInfo_typed|]. rewrite Hst. cbn [mbind option_bind].
  match goal with |- context [add_label hostname pods (Some gpu) ?p] => set (parent := p) end.
  destruct (add_labels_total hostname pods gpu parent pod job (map_to_list (exportLabels s)) ∅ Hg) as [m ->].
  - intros p. unfold parent. destruct (PCIeBusId st); [|done]. cbn. apply Hpm.
  - intros [n b] H%elem_of_map_to_list. by apply (proj1 (ok_exported s Hs) n b).
  - by eexists.
Qed.

(** The labels of the gauge of the node. *)
Lemma populate_node s hostname ids pods : labels_ok s →
  ∃ nl, populateLabelsFromGPU s hostname ids pods ∅ None ∅ = Some nl ∧
    ∀ k, nl !! k = match customLabelMap s !! k with
                   | Some v => Some v
                   | None => if decide (k = "hostname") then Some hostname else None
                   end.
Proof.
  intros Hs. unfold populateLabelsFromGPU. cbn [foldM mbind option_bind].
  assert (is_Some (foldM (add_label hostname pods None None no_pod no_job) ∅ (map_to_list (exportLabels s))))
    as [own Ho].
  { generalize (∅ : gmap string string). induction (map_to_list (exportLabels s)) as [|[n b] l IH];
      intros m; [by eexists|]. cbn [foldM].
    assert (is_Some (add_label hostname pods None None no_pod no_job m (n, b))) as [m' ->]; [|apply IH].
    unfold add_label. cbn [fst snd]. destruct b; [|by eexists].
    destruct (find_label n) as [[[]|]|]; by eexists. }
  rewrite Ho. cbn [mbind option_bind]. eexists. split; [done|]. intros k.
  rewrite (foldl_insert_entries (A := string) (λ e, e.1) (λ e, e.2)) by done. cbn [snd].
  destruct (customLabelMap s !! k); [done|].
  destruct (add_labels_spec hostname pods None None no_pod no_job _ _ _
    ltac:(intros [n b] H%elem_of_map_to_list; by apply (proj1 (ok_exported s Hs) n b))
    (NoDup_fst_map_to_list _) Ho) as (_ & H2 & H3).
  case_decide as Hk.
  - subst k. apply (H2 "HOSTNAME"); [|by eexists]. apply elem_of_map_to_list.
    apply (proj2 (ok_exported s Hs)). by_decide.
  - rewrite H3; [done|]. intros name Hin [v Hv] <-. apply Hk.
    apply elem_of_map_to_list, (proj1 (ok_exported s Hs)), label_names_cases in Hin.
    revert Hv. unfold own_value. destruct Hin as [[l ->]|[l ->]].
    + rewrite find_label_common. by destruct l.
    + by rewrite find_label_gpu.
Qed.

Lemma node_gauge ValidString s hostname refused max (nl : gmap string string) :
  (∀ k, nl !! k = match customLabelMap s !! k with
                  | Some v => Some v
                  | None => if decide (k = "hostname") then Some hostname else None
                  end) →
  lower_keys refused max (customLabelMap s) →
  (∀ k v, nl !! k = Some v → ValidString v = true) →
  With ValidString (GetExporterNonGPULabels s) nl = true ↔ customLabelMap s !! "hostname" = None.
Proof.
  intros Hk [Hlow _] Hval.
  assert (Hkeys : ToLower <$> (map_to_list (customLabelMap s)).*1 = (map_to_list (customLabelMap s)).*1).
  { apply list_eq_Forall2, Forall2_fmap_l, Forall_Forall2_diag, Forall_forall. intros k Hin.
    apply list_elem_of_fmap in Hin as ([k' v] & -> & Hin%elem_of_map_to_list). by apply (Hlow k' v). }
  assert (Hlen : length (GetExporterNonGPULabels s) = S (size (customLabelMap s))).
  { unfold GetExporterNonGPULabels. rewrite Hkeys. cbn [length]. by rewrite length_fmap, length_map_to_list. }
  split.
  - intros Hw%With_size. rewrite Hlen in Hw. apply eq_None_not_Some. intros [v Hv].
    assert (nl = customLabelMap s) as ->; [|lia].
    apply map_eq. intros k. rewrite Hk. destruct (customLabelMap s !! k) eqn:Hc; [done|].
    rewrite decide_False; [done|]. intros ->. by rewrite Hv in Hc.
  - intros Hn. apply With_spec; [| |done].
    + unfold GetExporterNonGPULabels. rewrite Hkeys. constructor; [|apply NoDup_fst_map_to_list].
      intros ([k v] & He & Hin%elem_of_map_to_list)%list_elem_of_fmap. 
      change (ToLower (MetricLabel_String HOSTNAME)) with "hostname" in He. cbn [fst] in He. subst k.
      by rewrite Hn in Hin.
    + intros k. rewrite Hk. unfold GetExporterNonGPULabels. rewrite Hkeys, elem_of_cons, list_elem_of_fmap.
      change (ToLower (MetricLabel_String HOSTNAME)) with "hostname". split.
      * destruct (customLabelMap s !! k) as [v|] eqn:Hc.
        -- intros _. right. exists (k, v). split; [done|]. by apply elem_of_map_to_list.
        -- case_decide; [by left|by intros [? ?]].
      * intros [->|([k' v] & -> & Hin%elem_of_map_to_list)]; [by rewrite Hn|]. cbn. rewrite Hin. by eexists.
Qed.

(** As many labels as names: no name is in both halves. *)
Lemma halves_disjoint (a b : list string) (m : gmap string string) : NoDup a → NoDup b →
  (∀ k, is_Some (m !! k) → k ∈ a ++ b) → size m = length (a ++ b) → ∀ i, i ∈ a → i ∉ b.
Proof.
  intros Ha Hb Hdom Hw i Hia Hib.
  assert (Hsub : dom m ⊆ list_to_set a ∪ list_to_set b).
  { intros k [v Hk]%elem_of_dom. specialize (Hdom k ltac:(by eexists)). set_solver. }
  apply subseteq_size in Hsub. rewrite size_dom, size_union_alt, Hw, length_app in Hsub.
  assert (Hlt : (size (list_to_set b ∖ list_to_set a : gset string) < size (list_to_set b : gset string))%nat).
  { apply subset_size. set_solver. }
  rewrite !size_list_to_set in * by done. lia.
Qed.

(** A gauge with two groups of labels accepts labels with all the names iff no
    name is in both. *)
Lemma gauge_accepts ValidString (index names : list string) labels : NoDup index → NoDup names →
  (∀ k, is_Some (labels !! k) ↔ k ∈ index ++ names) → (∀ k v, labels !! k = Some v → ValidString v = true) →
  With ValidString (index ++ names) labels = true ↔ ∀ i, i ∈ index → i ∉ names.
Proof.
  intros Hi Hn Hdom Hval. split.
  - intros Hw%With_size. apply (halves_disjoint index names labels); [done..| |done]. apply Hdom.
  - intros Hdis. apply With_spec; [|done..]. apply NoDup_app. split; [done|]. split; [|done].
    intros i H1 H2. by apply (Hdis i).
Qed.

(** The labels of a gauge with index labels. *)
Lemma indexed_labels ValidString names labels index vs : NoDup names →
  (∀ k, is_Some (labels !! k) ↔ k ∈ names) → (∀ k v, labels !! k = Some v → ValidString v = true) →
  NoDup index → length vs = length index → Forall (λ v, ValidString v = true) vs →
  With ValidString (index ++ names) (list_to_map (zip index vs) ∪ labels) = true ↔
  ∀ i, i ∈ index → i ∉ names.
Proof.
  intros Hnd Hdom Hval Hi Hlen Hvs. set (L := list_to_map (zip index vs) : gmap string string).
  assert (Hfst : (zip index vs).*1 = index) by (apply fst_zip; lia).
  apply gauge_accepts; [done..| |].
  - intros k. rewrite elem_of_app, <- Hdom, lookup_union_is_Some. unfold L.
    rewrite <- not_eq_None_Some, <- not_elem_of_list_to_map, Hfst. destruct (decide (k ∈ index)); tauto.
  - intros k v [Hk|[_ Hk]]%lookup_union_Some_raw; [|by eapply Hval].
    unfold L in Hk. apply elem_of_list_to_map_2, elem_of_zip_r in Hk.
    rewrite Forall_forall in Hvs. by apply Hvs.
Qed.

(** C40: No label of a configuration can make the export of a GPU panic: after
    any sequence of configurations, the labels of every GPU can be
    determined, are exactly the labels the gauges were created with, and are
    accepted by them if their values are UTF-8; the gauges with an index
    label more accept them unless a configured label has the name of the
    index.  The gauge of the node total is accepted only while no custom
    label is named [hostname]; the configuration does not refuse one. *)
Theorem gauges_accept_labels configs hostname ids pods ValidString wls gpu pm
    (Hconfigs : configs ≠ []) (Hgpu : readable gpu) (Hpm : map_Forall (λ _, readable) pm)
    (Hwls : map_Forall (λ _, typed) wls) :
  let s := load_labels configs in
  let names := GetExportLabels s in
  (∃ labels, populateLabelsFromGPU s hostname ids pods wls (Some gpu) pm = Some labels ∧
     (∀ k, is_Some (labels !! k) ↔ k ∈ names) ∧
     ((∀ k v, labels !! k = Some v → ValidString v = true) →
        With ValidString names labels = true ∧
        ∀ index vs, NoDup index → length vs = length index → Forall (λ v, ValidString v = true) vs →
          With ValidString (index ++ names) (list_to_map (zip index vs) ∪ labels) = true ↔
          ∀ i, i ∈ index → i ∉ names)) ∧
  (∃ labels, populateLabelsFromGPU s hostname ids pods ∅ None ∅ = Some labels ∧
     ((∀ k v, labels !! k = Some v → ValidString v = true) →
        With ValidString (GetExporterNonGPULabels s) labels = true ↔ customLabelMap s !! "hostname" = None)).
Proof.
  intros s names. pose proof (load_labels_ok configs Hconfigs : labels_ok s) as Hs. split.
  - destruct (populate_total s hostname ids pods wls gpu pm Hs Hgpu Hpm Hwls) as [labels Hl].
    exists labels. split; [done|]. pose proof (populate_dom _ _ _ _ _ _ _ _ Hs Hl : ∀ k, _ ↔ k ∈ names) as Hdom. split; [done|].
    intros Hval. pose proof (NoDup_GetExportLabels s Hs) as Hnd.
    split; [by apply With_spec|]. intros index vs. by apply indexed_labels.
  - destruct (populate_node s hostname ids pods Hs) as (nl & Hnl & Hk). exists nl. split; [done|].
    intros Hval. by eapply (node_gauge _ _ hostname); [|apply (ok_custom s Hs)|].
Qed.

(** The own value of a name is found under its lower case. *)
Lemma find_enabled s name : labels_ok s → exportLabels s !! name = Some true →
  ∃ i, list_find (λ n, ToLower n = ToLower name) (enabled_names s) = Some (i, name).
Proof.
  intros Hs Hn. assert (Hin : name ∈ enabled_names s) by by apply elem_of_enabled.
  destruct (list_find (λ n, ToLower n = ToLower name) (enabled_names s)) as [[i n]|] eqn:Hf.
  - exists i. do 2 f_equal. apply list_find_Some in Hf as (Hl & He & _).
    apply label_names_lower_inj; [| |done]; eapply enabled_known; [done| |done|done].
    by apply list_elem_of_lookup_2 in Hl.
  - apply list_find_None in Hf. rewrite Forall_forall in Hf. by destruct (Hf name Hin).
Qed.

Lemma gpu_names_refused l : ToLower (GPUMetricLabel_String l) ∈ disallowedLabels.
Proof. apply (bool_decide_unpack _). by destruct l; vm_compute. Qed.

(** The identifier of a GPU, unless an extra pod label has its name. *)
Lemma gpu_id_label s hostname ids pods wls gpu pm labels : labels_ok s →
  extraPodLabelsMap s !! "gpu_id" = None →
  populateLabelsFromGPU s hostname ids pods wls (Some gpu) pm = Some labels →
  labels !! "gpu_id" = Some (getGPUInstanceIDString gpu).
Proof.
  intros Hs He Hl. destruct (populate_spec _ _ _ _ _ _ _ _ Hs Hl) as (parent & pod & job & _ & _ & Hk).
  rewrite (proj1 (Hk _)), He. destruct (customLabelMap s !! "gpu_id") as [v|] eqn:Hc.
  - destruct (proj1 (ok_custom s Hs) _ v Hc) as [_ []]. apply (gpu_names_refused GPU_ID).
  - assert (Hon : exportLabels s !! "GPU_ID" = Some true) by (apply (ok_exported s Hs); by left).
    destruct (find_enabled s _ Hs Hon) as [i Hi]. change (ToLower "GPU_ID") with "gpu_id" in Hi. rewrite Hi.
    unfold own_value. change "GPU_ID" with (GPUMetricLabel_String GPU_ID). by rewrite find_label_gpu.
Qed.

(** Which value a label of a GPU has, after any sequence of
    configurations: the one of a custom label, before the one the pod of the
    GPU has for an extra pod label, before the one of the GPU, its card and
    its workloads.  A custom label cannot replace a label of the GPU itself
    ([gpu_id], [gpu_uuid], the partition, ...), but an extra pod label can,
    and a custom label can replace every other mandatory label. *)
Theorem label_precedence configs hostname ids pods wls gpu pm labels (Hconfigs : configs ≠ [])
    (Hl : populateLabelsFromGPU (load_labels configs) hostname ids pods wls (Some gpu) pm = Some labels) :
  let s := load_labels configs in
  ∃ parent pod job,
    foldM note_workload (no_pod, no_job) (getWorkloadInfo ids wls (getGPUInstanceIDString gpu)) =
      Some (pod, job) ∧
    (∀ k v, customLabelMap s !! k = Some v → labels !! k = Some v) ∧
    (∀ k l, customLabelMap s !! k = None → extraPodLabelsMap s !! k = Some l →
       labels !! k = Some (default "" (GetPodLabels (Some pod) pods !! l))) ∧
    (∀ l, let k := ToLower (GPUMetricLabel_String l) in
       exportLabels s !! GPUMetricLabel_String l = Some true → extraPodLabelsMap s !! k = None →
       labels !! k = gpu_value gpu parent l) ∧
    (∀ l, let k := ToLower (MetricLabel_String l) in
       exportLabels s !! MetricLabel_String l = Some true →
       customLabelMap s !! k = None → extraPodLabelsMap s !! k = None →
       labels !! k = common_value hostname pods gpu parent pod job l) ∧
    (∀ name, name ∈ gpuMandatoryLables → exportLabels s !! name = Some true).
Proof.
  cbv zeta. generalize (load_labels_ok configs Hconfigs). revert Hl.
  generalize (load_labels configs). intros s Hl Hs.
  destruct (populate_spec _ _ _ _ _ _ _ _ Hs Hl) as (parent & pod & job & _ & Hw & Hk).
  exists parent, pod, job. split; [done|]. split_and!.
  - intros k v Hv. by rewrite (proj1 (Hk k)), Hv.
  - intros k l Hc He. by rewrite (proj1 (Hk k)), Hc, He.
  - intros l Hon He. rewrite (proj1 (Hk _)), He.
    destruct (customLabelMap s !! _) as [v|] eqn:Hc.
    + destruct (proj1 (ok_custom s Hs) _ v Hc) as [_ []]. apply gpu_names_refused.
    + destruct (find_enabled s _ Hs Hon) as [i ->]. unfold own_value. by rewrite find_label_gpu.
  - intros l Hon Hc He. rewrite (proj1 (Hk _)), Hc, He.
    destruct (find_enabled s _ Hs Hon) as [i ->]. unfold own_value. by rewrite find_label_common.
  - apply (ok_exported s Hs).
Qed.

(** ** Instances *)

Definition label_gpu : GPU :=
  MkGPU (Some "0123456789abcdef") 1 1
    (Some (MkStatus 3 (Some (MkPCIe "0000:0A:00.0" 32 32 64)) 0 0 128 1 "4DZ9" "MI300X" "" "AMD" "6.10" "113" [7; 5] 1
             [] None None)) None.

Definition label_settings (custom extra : list (string * string)) : option GPUMetricConfig :=
  Some (MkGPUConfig "" [] ["kfd_process_id"] None custom extra None None).

Definition labels_of (configs : list (option GPUMetricConfig)) : option (gmap string string) :=
  populateLabelsFromGPU (load_labels configs) "node1" ∅ ∅ ∅ (Some label_gpu) ∅.

Lemma gauges_accept_labels_witness :
  (∃ labels, labels_of [label_settings [("Team", "a")] []] = Some labels ∧
     With (λ _, true) (GetExportLabels (load_labels [label_settings [("Team", "a")] []])) labels = true) ∧
  With (λ _, true) (GetExporterNonGPULabels (load_labels [label_settings [("HOSTNAME", "x")] []]))
    (default ∅ (populateLabelsFromGPU (load_labels [label_settings [("HOSTNAME", "x")] []]) "node1"
                  ∅ ∅ ∅ None ∅)) = false.
Proof.
  split.
  - destruct (gauges_accept_labels [label_settings [("Team", "a")] []] "node1" ∅ ∅ (λ _, true) ∅
      label_gpu ∅) as [(labels & Hl & _ & Hw) _].
    + discriminate.
    + split; by eexists.
    + apply map_Forall_empty.
    + apply map_Forall_empty.
    + exists labels. split; [exact Hl|]. exact (proj1 (Hw (λ _ _ _, eq_refl))).
  - vm_compute. reflexivity.
Defined.

Definition clash : list (option GPUMetricConfig) :=
  [label_settings [("GPU_ID", "no"); ("Pod", "mine")] [("gpu_uuid", "app")]].

Definition clash_config : label_config := load_labels clash.

Lemma clash_maps : customLabelMap clash_config !! "pod" = Some "mine" ∧
  extraPodLabelsMap clash_config !! "gpu_id" = None ∧
  exportLabels clash_config !! "GPU_ID" = Some true.
Proof. split_and!; vm_compute; reflexivity. Qed.

Lemma clash_labels : is_Some (labels_of clash).
Proof.
  apply populate_total; [by apply load_labels_ok|split; by eexists|apply map_Forall_empty..].
Qed.

Lemma label_precedence_witness :
  ∃ labels, labels_of clash = Some labels ∧ labels !! "pod" = Some "mine" ∧ labels !! "gpu_id" = Some "3".
Proof.
  destruct clash_labels as [labels Hl].
  exists labels. split; [exact Hl|].
  destruct (label_precedence clash "node1" ∅ ∅ ∅ label_gpu ∅ labels ltac:(discriminate) Hl)
    as (parent & pod & job & _ & Hc & _ & Hg & _).
  destruct clash_maps as (H1 & H2 & H3). split.
  - exact (Hc "pod" "mine" H1).
  - exact (Hg GPU_ID H3 H2).
Defined.
