(* ===== verification/MetricFields.v ===== *)
(** The tables of the GPU metrics: the fields of
    [src/pkg/exporter/proto/exporterconfig.proto] with their numbers, and of
    [src/pkg/amdgpu/gpuagent/gpuagent_gpu_metrics.go] the gauges with their
    names and labels, the gauge and the counter of every field, and the gauge
    every profiler counter is set on. *)

From S2P Require Import Prelude.
Local Open Scope Z_scope.

(** [enum GPUMetricField]. *)
Definition GPUMetricField : list (string * Z) :=
  [ ("GPU_NODES_TOTAL", 0);
    ("GPU_PACKAGE_POWER", 1);
    ("GPU_AVERAGE_PACKAGE_POWER", 2);
    ("GPU_EDGE_TEMPERATURE", 3);
    ("GPU_JUNCTION_TEMPERATURE", 4);
    ("GPU_MEMORY_TEMPERATURE", 5);
    ("GPU_HBM_TEMPERATURE", 6);
    ("GPU_GFX_ACTIVITY", 7);
    ("GPU_UMC_ACTIVITY", 8);
    ("GPU_MMA_ACTIVITY", 9);
    ("GPU_VCN_ACTIVITY", 10);
    ("GPU_JPEG_ACTIVITY", 11);
    ("GPU_VOLTAGE", 12);
    ("GPU_GFX_VOLTAGE", 13);
    ("GPU_MEMORY_VOLTAGE", 14);
    ("PCIE_SPEED", 15);
    ("PCIE_MAX_SPEED", 16);
    ("PCIE_BANDWIDTH", 17);
    ("GPU_ENERGY_CONSUMED", 18);
    ("PCIE_REPLAY_COUNT", 19);
    ("PCIE_RECOVERY_COUNT", 20);
    ("PCIE_REPLAY_ROLLOVER_COUNT", 21);
    ("PCIE_NACK_SENT_COUNT", 22);
    ("PCIE_NACK_RECEIVED_COUNT", 23);
    ("GPU_CLOCK", 24);
    ("GPU_POWER_USAGE", 25);
    ("GPU_TOTAL_VRAM", 26);
    ("GPU_ECC_CORRECT_TOTAL", 27);
    ("GPU_ECC_UNCORRECT_TOTAL", 28);
    ("GPU_ECC_CORRECT_SDMA", 29);
    ("GPU_ECC_UNCORRECT_SDMA", 30);
    ("GPU_ECC_CORRECT_GFX", 31);
    ("GPU_ECC_UNCORRECT_GFX", 32);
    ("GPU_ECC_CORRECT_MMHUB", 33);
    ("GPU_ECC_UNCORRECT_MMHUB", 34);
    ("GPU_ECC_CORRECT_ATHUB", 35);
    ("GPU_ECC_UNCORRECT_ATHUB", 36);
    ("GPU_ECC_CORRECT_BIF", 37);
    ("GPU_ECC_UNCORRECT_BIF", 38);
    ("GPU_ECC_CORRECT_HDP", 39);
    ("GPU_ECC_UNCORRECT_HDP", 40);
    ("GPU_ECC_CORRECT_XGMI_WAFL", 41);
    ("GPU_ECC_UNCORRECT_XGMI_WAFL", 42);
    ("GPU_ECC_CORRECT_DF", 43);
    ("GPU_ECC_UNCORRECT_DF", 44);
    ("GPU_ECC_CORRECT_SMN", 45);
    ("GPU_ECC_UNCORRECT_SMN", 46);
    ("GPU_ECC_CORRECT_SEM", 47);
    ("GPU_ECC_UNCORRECT_SEM", 48);
    ("GPU_ECC_CORRECT_MP0", 49);
    ("GPU_ECC_UNCORRECT_MP0", 50);
    ("GPU_ECC_CORRECT_MP1", 51);
    ("GPU_ECC_UNCORRECT_MP1", 52);
    ("GPU_ECC_CORRECT_FUSE", 53);
    ("GPU_ECC_UNCORRECT_FUSE", 54);
    ("GPU_ECC_CORRECT_UMC", 55);
    ("GPU_ECC_UNCORRECT_UMC", 56);
    ("GPU_XGMI_NBR_0_NOP_TX", 57);
    ("GPU_XGMI_NBR_0_REQ_TX", 58);
    ("GPU_XGMI_NBR_0_RESP_TX", 59);
    ("GPU_XGMI_NBR_0_BEATS_TX", 60);
    ("GPU_XGMI_NBR_1_NOP_TX", 61);
    ("GPU_XGMI_NBR_1_REQ_TX", 62);
    ("GPU_XGMI_NBR_1_RESP_TX", 63);
    ("GPU_XGMI_NBR_1_BEATS_TX", 64);
    ("GPU_XGMI_NBR_0_TX_THRPUT", 65);
    ("GPU_XGMI_NBR_1_TX_THRPUT", 66);
    ("GPU_XGMI_NBR_2_TX_THRPUT", 67);
    ("GPU_XGMI_NBR_3_TX_THRPUT", 68);
    ("GPU_XGMI_NBR_4_TX_THRPUT", 69);
    ("GPU_XGMI_NBR_5_TX_THRPUT", 70);
    ("GPU_USED_VRAM", 71);
    ("GPU_FREE_VRAM", 72);
    ("GPU_TOTAL_VISIBLE_VRAM", 73);
    ("GPU_USED_VISIBLE_VRAM", 74);
    ("GPU_FREE_VISIBLE_VRAM", 75);
    ("GPU_TOTAL_GTT", 76);
    ("GPU_USED_GTT", 77);
    ("GPU_FREE_GTT", 78);
    ("GPU_ECC_CORRECT_MCA", 79);
    ("GPU_ECC_UNCORRECT_MCA", 80);
    ("GPU_ECC_CORRECT_VCN", 81);
    ("GPU_ECC_UNCORRECT_VCN", 82);
    ("GPU_ECC_CORRECT_JPEG", 83);
    ("GPU_ECC_UNCORRECT_JPEG", 84);
    ("GPU_ECC_CORRECT_IH", 85);
    ("GPU_ECC_UNCORRECT_IH", 86);
    ("GPU_ECC_CORRECT_MPIO", 87);
    ("GPU_ECC_UNCORRECT_MPIO", 88);
    ("GPU_HEALTH", 89);
    ("GPU_XGMI_LINK_RX", 90);
    ("GPU_XGMI_LINK_TX", 91);
    ("GPU_VIOLATION_CURRENT_ACCUMULATED_COUNTER", 92);
    ("GPU_VIOLATION_PROCESSOR_HOT_RESIDENCY_ACCUMULATED", 93);
    ("GPU_VIOLATION_PPT_RESIDENCY_ACCUMULATED", 94);
    ("GPU_VIOLATION_SOCKET_THERMAL_RESIDENCY_ACCUMULATED", 95);
    ("GPU_VIOLATION_VR_THERMAL_RESIDENCY_ACCUMULATED", 96);
    ("GPU_VIOLATION_HBM_THERMAL_RESIDENCY_ACCUMULATED", 97);
    ("GPU_GFX_BUSY_INSTANTANEOUS", 98);
    ("GPU_VCN_BUSY_INSTANTANEOUS", 99);
    ("GPU_JPEG_BUSY_INSTANTANEOUS", 100);
    ("PCIE_RX", 101);
    ("PCIE_TX", 102);
    ("PCIE_BIDIRECTIONAL_BANDWIDTH", 103);
    ("GPU_AFID_ERRORS", 104);
    ("GPU_VIOLATION_PROCESSOR_HOT_RESIDENCY_PERCENTAGE", 105);
    ("GPU_VIOLATION_PPT_RESIDENCY_PERCENTAGE", 106);
    ("GPU_VIOLATION_SOCKET_THERMAL_RESIDENCY_PERCENTAGE", 107);
    ("GPU_VIOLATION_VR_THERMAL_RESIDENCY_PERCENTAGE", 108);
    ("GPU_VIOLATION_HBM_THERMAL_RESIDENCY_PERCENTAGE", 109);
    ("GPU_VIOLATION_GFX_CLOCK_BELOW_HOST_LIMIT_POWER_ACCUMULATED", 110);
    ("GPU_VIOLATION_GFX_CLOCK_BELOW_HOST_LIMIT_THERMAL_ACCUMULATED", 111);
    ("GPU_VIOLATION_LOW_UTILIZATION_ACCUMULATED", 112);
    ("GPU_VIOLATION_GFX_CLOCK_BELOW_HOST_LIMIT_TOTAL_ACCUMULATED", 113);
    ("GPU_VIOLATION_GFX_CLOCK_BELOW_HOST_LIMIT_POWER_PERCENTAGE", 114);
    ("GPU_VIOLATION_GFX_CLOCK_BELOW_HOST_LIMIT_THERMAL_PERCENTAGE", 115);
    ("GPU_VIOLATION_LOW_UTILIZATION_PERCENTAGE", 116);
    ("GPU_VIOLATION_GFX_CLOCK_BELOW_HOST_LIMIT_TOTAL_PERCENTAGE", 117);
    ("GPU_MAX_CLOCK", 118);
    ("GPU_MIN_CLOCK", 119);
    ("GPU_PROCESS_CU_OCCUPANCY", 120);
    ("GPU_VRAM_MAX_BANDWIDTH", 121);
    ("GPU_ECC_DEFERRED_TOTAL", 122);
    ("GPU_ECC_DEFERRED_SDMA", 123);
    ("GPU_ECC_DEFERRED_GFX", 124);
    ("GPU_ECC_DEFERRED_MMHUB", 125);
    ("GPU_ECC_DEFERRED_ATHUB", 126);
    ("GPU_ECC_DEFERRED_BIF", 127);
    ("GPU_ECC_DEFERRED_HDP", 128);
    ("GPU_ECC_DEFERRED_XGMI_WAFL", 129);
    ("GPU_ECC_DEFERRED_DF", 130);
    ("GPU_ECC_DEFERRED_SMN", 131);
    ("GPU_ECC_DEFERRED_SEM", 132);
    ("GPU_ECC_DEFERRED_MP0", 133);
    ("GPU_ECC_DEFERRED_MP1", 134);
    ("GPU_ECC_DEFERRED_FUSE", 135);
    ("GPU_ECC_DEFERRED_UMC", 136);
    ("GPU_ECC_DEFERRED_MCA", 137);
    ("GPU_ECC_DEFERRED_VCN", 138);
    ("GPU_ECC_DEFERRED_JPEG", 139);
    ("GPU_ECC_DEFERRED_IH", 140);
    ("GPU_ECC_DEFERRED_MPIO", 141);
    ("GPU_PROF_GRBM_GUI_ACTIVE", 801);
    ("GPU_PROF_SQ_WAVES", 802);
    ("GPU_PROF_GRBM_COUNT", 803);
    ("GPU_PROF_CPC_CPC_STAT_BUSY", 804);
    ("GPU_PROF_CPC_CPC_STAT_IDLE", 805);
    ("GPU_PROF_CPC_CPC_STAT_STALL", 806);
    ("GPU_PROF_CPC_CPC_TCIU_BUSY", 807);
    ("GPU_PROF_CPC_CPC_TCIU_IDLE", 808);
    ("GPU_PROF_CPC_CPC_UTCL2IU_BUSY", 809);
    ("GPU_PROF_CPC_CPC_UTCL2IU_IDLE", 810);
    ("GPU_PROF_CPC_CPC_UTCL2IU_STALL", 811);
    ("GPU_PROF_CPC_ME1_BUSY_FOR_PACKET_DECODE", 812);
    ("GPU_PROF_CPC_ME1_DC0_SPI_BUSY", 813);
    ("GPU_PROF_CPC_UTCL1_STALL_ON_TRANSLATION", 814);
    ("GPU_PROF_CPC_ALWAYS_COUNT", 815);
    ("GPU_PROF_CPC_ADC_VALID_CHUNK_NOT_AVAIL", 816);
    ("GPU_PROF_CPC_ADC_DISPATCH_ALLOC_DONE", 817);
    ("GPU_PROF_CPC_ADC_VALID_CHUNK_END", 818);
    ("GPU_PROF_CPC_SYNC_FIFO_FULL_LEVEL", 819);
    ("GPU_PROF_CPC_SYNC_FIFO_FULL", 820);
    ("GPU_PROF_CPC_GD_BUSY", 821);
    ("GPU_PROF_CPC_TG_SEND", 822);
    ("GPU_PROF_CPC_WALK_NEXT_CHUNK", 823);
    ("GPU_PROF_CPC_STALLED_BY_SE0_SPI", 824);
    ("GPU_PROF_CPC_STALLED_BY_SE1_SPI", 825);
    ("GPU_PROF_CPC_STALLED_BY_SE2_SPI", 826);
    ("GPU_PROF_CPC_STALLED_BY_SE3_SPI", 827);
    ("GPU_PROF_CPC_LTE_ALL", 828);
    ("GPU_PROF_CPC_SYNC_WRREQ_FIFO_BUSY", 829);
    ("GPU_PROF_CPC_CANE_BUSY", 830);
    ("GPU_PROF_CPC_CANE_STALL", 831);
    ("GPU_PROF_CPF_CMP_UTCL1_STALL_ON_TRANSLATION", 832);
    ("GPU_PROF_CPF_CPF_STAT_BUSY", 833);
    ("GPU_PROF_CPF_CPF_STAT_IDLE", 834);
    ("GPU_PROF_CPF_CPF_STAT_STALL", 835);
    ("GPU_PROF_CPF_CPF_TCIU_BUSY", 836);
    ("GPU_PROF_CPF_CPF_TCIU_IDLE", 837);
    ("GPU_PROF_CPF_CPF_TCIU_STALL", 838);
    ("GPU_PROF_FETCH_SIZE", 1000);
    ("GPU_PROF_WRITE_SIZE", 1001);
    ("GPU_PROF_TOTAL_16_OPS", 1002);
    ("GPU_PROF_TOTAL_32_OPS", 1003);
    ("GPU_PROF_TOTAL_64_OPS", 1004);
    ("GPU_PROF_GUI_UTIL_PERCENT", 1005);
    ("GPU_PROF_OCCUPANCY_PERCENT", 1006);
    ("GPU_PROF_TENSOR_ACTIVE_PERCENT", 1007);
    ("GPU_PROF_VALU_PIPE_ISSUE_UTIL", 1008);
    ("GPU_PROF_SM_ACTIVE", 1009);
    ("GPU_PROF_OCCUPANCY_ELAPSED", 1010);
    ("GPU_PROF_OCCUPANCY_PER_ACTIVE_CU", 1011);
    ("GPU_PROF_OCCUPANCY_PER_CU", 1012);
    ("GPU_PROF_SIMD_UTILIZATION", 1013) ].

(** The labels of a gauge: those of a GPU with some more, or those of the
    node. *)
Inductive gauge_labels : Type :=
  | GpuLabels (index : list string)
  | NodeLabels.

Record gauge_opts : Type := Gauge { metric_name : string; metric_labels : gauge_labels }.

(** [initPrometheusMetrics]: the members of [GpuMetrics]. *)
Definition GpuMetrics : list (string * gauge_opts) :=
  [ ("gpuNodesTotal", Gauge "gpu_nodes_total" NodeLabels);
    ("gpuPackagePower", Gauge "gpu_package_power" (GpuLabels []));
    ("gpuAvgPkgPower", Gauge "gpu_average_package_power" (GpuLabels []));
    ("gpuEdgeTemp", Gauge "gpu_edge_temperature" (GpuLabels []));
    ("gpuJunctionTemp", Gauge "gpu_junction_temperature" (GpuLabels []));
    ("gpuMemoryTemp", Gauge "gpu_memory_temperature" (GpuLabels []));
    ("gpuHBMTemp", Gauge "gpu_hbm_temperature" (GpuLabels ["hbm_index"]));
    ("gpuGFXActivity", Gauge "gpu_gfx_activity" (GpuLabels []));
    ("gpuUMCActivity", Gauge "gpu_umc_activity" (GpuLabels []));
    ("gpuMMAActivity", Gauge "gpu_mma_activity" (GpuLabels []));
    ("gpuVCNActivity", Gauge "gpu_vcn_activity" (GpuLabels ["vcn_index"]));
    ("gpuJPEGActivity", Gauge "gpu_jpeg_activity" (GpuLabels ["jpeg_index"]));
    ("gpuVoltage", Gauge "gpu_voltage" (GpuLabels []));
    ("gpuGFXVoltage", Gauge "gpu_gfx_voltage" (GpuLabels []));
    ("gpuMemVoltage", Gauge "gpu_memory_voltage" (GpuLabels []));
    ("gpuPCIeSpeed", Gauge "pcie_speed" (GpuLabels []));
    ("gpuPCIeMaxSpeed", Gauge "pcie_max_speed" (GpuLabels []));
    ("gpuPCIeBandwidth", Gauge "pcie_bandwidth" (GpuLabels []));
    ("gpuEnergyConsumed", Gauge "gpu_energy_consumed" (GpuLabels []));
    ("gpuPCIeReplayCount", Gauge "pcie_replay_count" (GpuLabels []));
    ("gpuPCIeRecoveryCount", Gauge "pcie_recovery_count" (GpuLabels []));
    ("gpuPCIeReplayRolloverCount", Gauge "pcie_replay_rollover_count" (GpuLabels []));
    ("gpuPCIeNACKSentCount", Gauge "pcie_nack_sent_count" (GpuLabels []));
    ("gpuPCIeNACKReceivedCount", Gauge "pcie_nack_received_count" (GpuLabels []));
    ("gpuClock", Gauge "gpu_clock" (GpuLabels ["clock_index"; "clock_type"]));
    ("gpuMinClock", Gauge "gpu_min_clock" (GpuLabels ["clock_index"; "clock_type"]));
    ("gpuMaxClock", Gauge "gpu_max_clock" (GpuLabels ["clock_index"; "clock_type"]));
    ("gpuPowerUsage", Gauge "gpu_power_usage" (GpuLabels []));
    ("gpuVramMaxBandwidth", Gauge "gpu_vram_max_bandwidth" (GpuLabels []));
    ("gpuTotalVram", Gauge "gpu_total_vram" (GpuLabels []));
    ("gpuUsedVram", Gauge "gpu_used_vram" (GpuLabels []));
    ("gpuFreeVram", Gauge "gpu_free_vram" (GpuLabels []));
    ("gpuTotalVisibleVram", Gauge "gpu_total_visible_vram" (GpuLabels []));
    ("gpuUsedVisibleVram", Gauge "gpu_used_visible_vram" (GpuLabels []));
    ("gpuFreeVisibleVram", Gauge "gpu_free_visible_vram" (GpuLabels []));
    ("gpuTotalGTT", Gauge "gpu_total_gtt" (GpuLabels []));
    ("gpuUsedGTT", Gauge "gpu_used_gtt" (GpuLabels []));
    ("gpuFreeGTT", Gauge "gpu_free_gtt" (GpuLabels []));
    ("gpuEccCorrectTotal", Gauge "gpu_ecc_correct_total" (GpuLabels []));
    ("gpuEccUncorrectTotal", Gauge "gpu_ecc_uncorrect_total" (GpuLabels []));
    ("gpuEccCorrectSDMA", Gauge "gpu_ecc_correct_sdma" (GpuLabels []));
    ("gpuEccUncorrectSDMA", Gauge "gpu_ecc_uncorrect_sdma" (GpuLabels []));
    ("gpuEccCorrectGFX", Gauge "gpu_ecc_correct_gfx" (GpuLabels []));
    ("gpuEccUncorrectGFX", Gauge "gpu_ecc_uncorrect_gfx" (GpuLabels []));
    ("gpuEccCorrectMMHUB", Gauge "gpu_ecc_correct_mmhub" (GpuLabels []));
    ("gpuEccUncorrectMMHUB", Gauge "gpu_ecc_uncorrect_mmhub" (GpuLabels []));
    ("gpuEccCorrectATHUB", Gauge "gpu_ecc_correct_athub" (GpuLabels []));
    ("gpuEccUncorrectATHUB", Gauge "gpu_ecc_uncorrect_athub" (GpuLabels []));
    ("gpuEccCorrectBIF", Gauge "gpu_ecc_correct_bif" (GpuLabels []));
    ("gpuEccUncorrectBIF", Gauge "gpu_ecc_uncorrect_bif" (GpuLabels []));
    ("gpuEccCorrectHDP", Gauge "gpu_ecc_correct_hdp" (GpuLabels []));
    ("gpuEccUncorrectHDP", Gauge "gpu_ecc_uncorrect_hdp" (GpuLabels []));
    ("gpuEccCorrectXgmiWAFL", Gauge "gpu_ecc_correct_xgmi_wafl" (GpuLabels []));
    ("gpuEccUncorrectXgmiWAFL", Gauge "gpu_ecc_uncorrect_xgmi_wafl" (GpuLabels []));
    ("gpuEccCorrectDF", Gauge "gpu_ecc_correct_df" (GpuLabels []));
    ("gpuEccUncorrectDF", Gauge "gpu_ecc_uncorrect_df" (GpuLabels []));
    ("gpuEccCorrectSMN", Gauge "gpu_ecc_correct_smn" (GpuLabels []));
    ("gpuEccUncorrectSMN", Gauge "gpu_ecc_uncorrect_smn" (GpuLabels []));
    ("gpuEccCorrectSEM", Gauge "gpu_ecc_correct_sem" (GpuLabels []));
    ("gpuEccUncorrectSEM", Gauge "gpu_ecc_uncorrect_sem" (GpuLabels []));
    ("gpuEccCorrectMP0", Gauge "gpu_ecc_correct_mp0" (GpuLabels []));
    ("gpuEccUncorrectMP0", Gauge "gpu_ecc_uncorrect_mp0" (GpuLabels []));
    ("gpuEccCorrectMP1", Gauge "gpu_ecc_correct_mp1" (GpuLabels []));
    ("gpuEccUncorrectMP1", Gauge "gpu_ecc_uncorrect_mp1" (GpuLabels []));
    ("gpuEccCorrectFUSE", Gauge "gpu_ecc_correct_fuse" (GpuLabels []));
    ("gpuEccUncorrectFUSE", Gauge "gpu_ecc_uncorrect_fuse" (GpuLabels []));
    ("gpuEccCorrectUMC", Gauge "gpu_ecc_correct_umc" (GpuLabels []));
    ("gpuEccUncorrectUMC", Gauge "gpu_ecc_uncorrect_umc" (GpuLabels []));
    ("xgmiNbrNopTx0", Gauge "gpu_xgmi_nbr_0_nop_tx" (GpuLabels []));
    ("xgmiNbrNopTx1", Gauge "gpu_xgmi_nbr_1_nop_tx" (GpuLabels []));
    ("xgmiNbrReqTx0", Gauge "gpu_xgmi_nbr_0_req_tx" (GpuLabels []));
    ("xgmiNbrReqTx1", Gauge "gpu_xgmi_nbr_1_req_tx" (GpuLabels []));
    ("xgmiNbrRespTx0", Gauge "gpu_xgmi_nbr_0_resp_tx" (GpuLabels []));
    ("xgmiNbrRespTx1", Gauge "gpu_xgmi_nbr_1_resp_tx" (GpuLabels []));
    ("xgmiNbrBeatsTx0", Gauge "gpu_xgmi_nbr_0_beats_tx" (GpuLabels []));
    ("xgmiNbrBeatsTx1", Gauge "gpu_xgmi_nbr_1_beats_tx" (GpuLabels []));
    ("xgmiNbrTxTput0", Gauge "gpu_xgmi_nbr_0_tx_thrput" (GpuLabels []));
    ("xgmiNbrTxTput1", Gauge "gpu_xgmi_nbr_1_tx_thrput" (GpuLabels []));
    ("xgmiNbrTxTput2", Gauge "gpu_xgmi_nbr_2_tx_thrput" (GpuLabels []));
    ("xgmiNbrTxTput3", Gauge "gpu_xgmi_nbr_3_tx_thrput" (GpuLabels []));
    ("xgmiNbrTxTput4", Gauge "gpu_xgmi_nbr_4_tx_thrput" (GpuLabels []));
    ("xgmiNbrTxTput5", Gauge "gpu_xgmi_nbr_5_tx_thrput" (GpuLabels []));
    ("gpuEccCorrectMCA", Gauge "gpu_ecc_correct_mca" (GpuLabels []));
    ("gpuEccUncorrectMCA", Gauge "gpu_ecc_uncorrect_mca" (GpuLabels []));
    ("gpuEccCorrectVCN", Gauge "gpu_ecc_correct_vcn" (GpuLabels []));
    ("gpuEccUncorrectVCN", Gauge "gpu_ecc_uncorrect_vcn" (GpuLabels []));
    ("gpuEccCorrectJPEG", Gauge "gpu_ecc_correct_jpeg" (GpuLabels []));
    ("gpuEccUncorrectJPEG", Gauge "gpu_ecc_uncorrect_jpeg" (GpuLabels []));
    ("gpuEccCorrectIH", Gauge "gpu_ecc_correct_ih" (GpuLabels []));
    ("gpuEccUncorrectIH", Gauge "gpu_ecc_uncorrect_ih" (GpuLabels []));
    ("gpuEccCorrectMPIO", Gauge "gpu_ecc_correct_mpio" (GpuLabels []));
    ("gpuEccUncorrectMPIO", Gauge "gpu_ecc_uncorrect_mpio" (GpuLabels []));
    ("gpuEccDeferredTotal", Gauge "gpu_ecc_deferred_total" (GpuLabels []));
    ("gpuEccDeferredSDMA", Gauge "gpu_ecc_deferred_sdma" (GpuLabels []));
    ("gpuEccDeferredGFX", Gauge "gpu_ecc_deferred_gfx" (GpuLabels []));
    ("gpuEccDeferredMMHUB", Gauge "gpu_ecc_deferred_mmhub" (GpuLabels []));
    ("gpuEccDeferredATHUB", Gauge "gpu_ecc_deferred_athub" (GpuLabels []));
    ("gpuEccDeferredBIF", Gauge "gpu_ecc_deferred_bif" (GpuLabels []));
    ("gpuEccDeferredHDP", Gauge "gpu_ecc_deferred_hdp" (GpuLabels []));
    ("gpuEccDeferredXgmiWAFL", Gauge "gpu_ecc_deferred_xgmi_wafl" (GpuLabels []));
    ("gpuEccDeferredDF", Gauge "gpu_ecc_deferred_df" (GpuLabels []));
    ("gpuEccDeferredSMN", Gauge "gpu_ecc_deferred_smn" (GpuLabels []));
    ("gpuEccDeferredSEM", Gauge "gpu_ecc_deferred_sem" (GpuLabels []));
    ("gpuEccDeferredMP0", Gauge "gpu_ecc_deferred_mp0" (GpuLabels []));
    ("gpuEccDeferredMP1", Gauge "gpu_ecc_deferred_mp1" (GpuLabels []));
    ("gpuEccDeferredFUSE", Gauge "gpu_ecc_deferred_fuse" (GpuLabels []));
    ("gpuEccDeferredUMC", Gauge "gpu_ecc_deferred_umc" (GpuLabels []));
    ("gpuEccDeferredMCA", Gauge "gpu_ecc_deferred_mca" (GpuLabels []));
    ("gpuEccDeferredVCN", Gauge "gpu_ecc_deferred_vcn" (GpuLabels []));
    ("gpuEccDeferredJPEG", Gauge "gpu_ecc_deferred_jpeg" (GpuLabels []));
    ("gpuEccDeferredIH", Gauge "gpu_ecc_deferred_ih" (GpuLabels []));
    ("gpuEccDeferredMPIO", Gauge "gpu_ecc_deferred_mpio" (GpuLabels []));
    ("gpuHealth", Gauge "gpu_health" (GpuLabels []));
    ("gpuXgmiLinkStatsRx", Gauge "gpu_xgmi_link_rx" (GpuLabels ["link_index"]));
    ("gpuXgmiLinkStatsTx", Gauge "gpu_xgmi_link_tx" (GpuLabels ["link_index"]));
    ("gpuCurrAccCtr", Gauge "gpu_violation_current_accumulated_counter" (GpuLabels []));
    ("gpuProcHRA", Gauge "gpu_violation_processor_hot_residency_accumulated" (GpuLabels []));
    ("gpuPPTRA", Gauge "gpu_violation_ppt_residency_accumulated" (GpuLabels []));
    ("gpuSTRA", Gauge "gpu_violation_socket_thermal_residency_accumulated" (GpuLabels []));
    ("gpuVRTRA", Gauge "gpu_violation_vr_thermal_residency_accumulated" (GpuLabels []));
    ("gpuHBMTRA", Gauge "gpu_violation_hbm_thermal_residency_accumulated" (GpuLabels []));
    ("gpuProcHRPercent", Gauge "gpu_violation_processor_hot_residency_percentage" (GpuLabels []));
    ("gpuPPTRPercent", Gauge "gpu_violation_ppt_residency_percentage" (GpuLabels []));
    ("gpuSTRPercent", Gauge "gpu_violation_socket_thermal_residency_percentage" (GpuLabels []));
    ("gpuVRTRPercent", Gauge "gpu_violation_vr_thermal_residency_percentage" (GpuLabels []));
    ("gpuHBMTRPercent", Gauge "gpu_violation_hbm_thermal_residency_percentage" (GpuLabels []));
    ("gpuGfxBelowHostLimitPowerAcc", Gauge "gpu_violation_gfx_clock_below_host_limit_power_accumulated" (GpuLabels ["xcc_index"]));
    ("gpuGfxBelowHostLimitTHMAcc", Gauge "gpu_violation_gfx_clock_below_host_limit_thermal_accumulated" (GpuLabels ["xcc_index"]));
    ("gpuGfxLowUtilizationAcc", Gauge "gpu_violation_low_utilization_accumulated" (GpuLabels ["xcc_index"]));
    ("gpuGfxBelowHostLimitTotalAcc", Gauge "gpu_violation_gfx_clock_below_host_limit_total_accumulated" (GpuLabels ["xcc_index"]));
    ("gpuGfxBelowHostLimitPowerPercent", Gauge "gpu_violation_gfx_clock_below_host_limit_power_percentage" (GpuLabels ["xcc_index"]));
    ("gpuGfxBelowHostLimitTHMPercent", Gauge "gpu_violation_gfx_clock_below_host_limit_thermal_percentage" (GpuLabels ["xcc_index"]));
    ("gpuGfxLowUtilizationPercent", Gauge "gpu_violation_low_utilization_percentage" (GpuLabels ["xcc_index"]));
    ("gpuGfxBelowHostLimitTotalPercent", Gauge "gpu_violation_gfx_clock_below_host_limit_total_percentage" (GpuLabels ["xcc_index"]));
    ("gpuGfxBusyInst", Gauge "gpu_gfx_busy_instantaneous" (GpuLabels ["xcc_index"]));
    ("gpuVcnBusyInst", Gauge "gpu_vcn_busy_instantaneous" (GpuLabels ["xcc_index"]));
    ("gpuJpegBusyInst", Gauge "gpu_jpeg_busy_instantaneous" (GpuLabels ["xcc_index"]));
    ("gpuGrbmGuiActivity", Gauge "gpu_prof_grbm_gui_active" (GpuLabels []));
    ("gpuSqWaves", Gauge "gpu_prof_sq_waves" (GpuLabels []));
    ("gpuGrbmCount", Gauge "gpu_prof_grbm_count" (GpuLabels []));
    ("gpuGPUUtil", Gauge "gpu_prof_gui_util_percent" (GpuLabels []));
    ("gpuFetchSize", Gauge "gpu_prof_fetch_size" (GpuLabels []));
    ("gpuWriteSize", Gauge "gpu_prof_write_size" (GpuLabels []));
    ("gpuTotal16Ops", Gauge "gpu_prof_total_16_ops" (GpuLabels []));
    ("gpuTotal32Ops", Gauge "gpu_prof_total_32_ops" (GpuLabels []));
    ("gpuTotal64Ops", Gauge "gpu_prof_total_64_ops" (GpuLabels []));
    ("gpuCpcStatBusy", Gauge "gpu_prof_cpc_cpc_stat_busy" (GpuLabels []));
    ("gpuCpcStatIdle", Gauge "gpu_prof_cpc_cpc_stat_idle" (GpuLabels []));
    ("gpuCpcStatStall", Gauge "gpu_prof_cpc_cpc_stat_stall" (GpuLabels []));
    ("gpuCpcTciuBusy", Gauge "gpu_prof_cpc_cpc_tciu_busy" (GpuLabels []));
    ("gpuCpcTciuIdle", Gauge "gpu_prof_cpc_cpc_tciu_idle" (GpuLabels []));
    ("gpuCpcUtcl2iuBusy", Gauge "gpu_prof_cpc_cpc_utcl2iu_busy" (GpuLabels []));
    ("gpuCpcUtcl2iuIdle", Gauge "gpu_prof_cpc_cpc_utcl2iu_idle" (GpuLabels []));
    ("gpuCpcUtcl2iuStall", Gauge "gpu_prof_cpc_cpc_utcl2iu_stall" (GpuLabels []));
    ("gpuCpcME1BusyForPacketDecode", Gauge "gpu_prof_cpc_me1_busy_for_packet_decode" (GpuLabels []));
    ("gpuCpcME1Dc0SpiBusy", Gauge "gpu_prof_cpc_me1_dc0_spi_busy" (GpuLabels []));
    ("gpuCpcUtcl1StallOnTranslation", Gauge "gpu_prof_cpc_utcl1_stall_on_translation" (GpuLabels []));
    ("gpuCpcAlwaysCount", Gauge "gpu_prof_cpc_always_count" (GpuLabels []));
    ("gpuCpcAdcValidChunkNotAvail", Gauge "gpu_prof_cpc_adc_valid_chunk_not_avail" (GpuLabels []));
    ("gpuCpcAdcDispatchAllocDone", Gauge "gpu_prof_cpc_adc_dispatch_alloc_done" (GpuLabels []));
    ("gpuCpcAdcValidChunkEnd", Gauge "gpu_prof_cpc_adc_valid_chunk_end" (GpuLabels []));
    ("gpuCpcSynFifoFullLevel", Gauge "gpu_prof_cpc_sync_fifo_full_level" (GpuLabels []));
    ("gpuCpcSynFifoFull", Gauge "gpu_prof_cpc_sync_fifo_full" (GpuLabels []));
    ("gpuCpcGdBusy", Gauge "gpu_prof_cpc_gd_busy" (GpuLabels []));
    ("gpuCpcTgSend", Gauge "gpu_prof_cpc_tg_send" (GpuLabels []));
    ("gpuCpcWalkNextChunk", Gauge "gpu_prof_cpc_walk_next_chunk" (GpuLabels []));
    ("gpuCpcStalledBySe0Spi", Gauge "gpu_prof_cpc_stalled_by_se0_spi" (GpuLabels []));
    ("gpuCpcStalledBySe1Spi", Gauge "gpu_prof_cpc_stalled_by_se1_spi" (GpuLabels []));
    ("gpuCpcStalledBySe2Spi", Gauge "gpu_prof_cpc_stalled_by_se2_spi" (GpuLabels []));
    ("gpuCpcStalledBySe3Spi", Gauge "gpu_prof_cpc_stalled_by_se3_spi" (GpuLabels []));
    ("gpuCpcLteAll", Gauge "gpu_prof_cpc_lte_all" (GpuLabels []));
    ("gpuCpcSyncWrreqFifoBusy", Gauge "gpu_prof_cpc_sync_wrreq_fifo_busy" (GpuLabels []));
    ("gpuCpcCaneBusy", Gauge "gpu_prof_cpc_cane_busy" (GpuLabels []));
    ("gpuCpcCaneStall", Gauge "gpu_prof_cpc_cane_stall" (GpuLabels []));
    ("gpuCpfCmpUtcl1StallOnTrnsalation", Gauge "gpu_prof_cpf_cmp_utcl1_stall_on_translation" (GpuLabels []));
    ("gpuCpfStatBusy", Gauge "gpu_prof_cpf_cpf_stat_busy" (GpuLabels []));
    ("gpuCpfStatIdle", Gauge "gpu_prof_cpf_cpf_stat_idle" (GpuLabels []));
    ("gpuCpfStatStall", Gauge "gpu_prof_cpf_cpf_stat_stall" (GpuLabels []));
    ("gpuCpfStatTciuBusy", Gauge "gpu_prof_cpf_cpf_tciu_busy" (GpuLabels []));
    ("gpuCpfStatTciuIdle", Gauge "gpu_prof_cpf_cpf_tciu_idle" (GpuLabels []));
    ("gpuCpfStatTciuStall", Gauge "gpu_prof_cpf_cpf_tciu_stall" (GpuLabels []));
    ("gpuOccPercent", Gauge "gpu_prof_occupancy_percent" (GpuLabels []));
    ("gpuTensorActivePercent", Gauge "gpu_prof_tensor_active_percent" (GpuLabels []));
    ("gpuValuPipeIssueUtil", Gauge "gpu_prof_valu_pipe_issue_util" (GpuLabels []));
    ("gpuSMActive", Gauge "gpu_prof_sm_active" (GpuLabels []));
    ("gpuOccElapsed", Gauge "gpu_prof_occupancy_elapsed" (GpuLabels []));
    ("gpuOccPerActiveCU", Gauge "gpu_prof_occupancy_per_active_cu" (GpuLabels []));
    ("gpuMeanOccPerCU", Gauge "gpu_prof_occupancy_per_cu" (GpuLabels []));
    ("gpuSimdActive", Gauge "gpu_prof_simd_utilization" (GpuLabels []));
    ("gpuPcieRx", Gauge "pcie_rx" (GpuLabels []));
    ("gpuPcieTx", Gauge "pcie_tx" (GpuLabels []));
    ("gpuPcieBidirBandwidth", Gauge "pcie_bidirectional_bandwidth" (GpuLabels []));
    ("gpuAfidErrors", Gauge "gpu_afid_errors" (GpuLabels ["severity"; "afid_index"]));
    ("gpuProcessCuOcc", Gauge "gpu_process_cu_occupancy" (GpuLabels ["process_id"])) ].

Record FieldMeta : Type := MkField { Metric : string; Alias : string }.

(** [initFieldMetricsMap]. *)
Definition fieldMetricsMap : list (string * FieldMeta) :=
  [ ("GPU_NODES_TOTAL", MkField "gpuNodesTotal" "");
    ("GPU_PACKAGE_POWER", MkField "gpuPackagePower" "");
    ("GPU_AVERAGE_PACKAGE_POWER", MkField "gpuAvgPkgPower" "");
    ("GPU_EDGE_TEMPERATURE", MkField "gpuEdgeTemp" "");
    ("GPU_JUNCTION_TEMPERATURE", MkField "gpuJunctionTemp" "");
    ("GPU_MEMORY_TEMPERATURE", MkField "gpuMemoryTemp" "");
    ("GPU_HBM_TEMPERATURE", MkField "gpuHBMTemp" "");
    ("GPU_GFX_ACTIVITY", MkField "gpuGFXActivity" "");
    ("GPU_UMC_ACTIVITY", MkField "gpuUMCActivity" "");
    ("GPU_MMA_ACTIVITY", MkField "gpuMMAActivity" "");
    ("GPU_VCN_ACTIVITY", MkField "gpuVCNActivity" "");
    ("GPU_JPEG_ACTIVITY", MkField "gpuJPEGActivity" "");
    ("GPU_VOLTAGE", MkField "gpuVoltage" "");
    ("GPU_GFX_VOLTAGE", MkField "gpuGFXVoltage" "");
    ("GPU_MEMORY_VOLTAGE", MkField "gpuMemVoltage" "");
    ("PCIE_SPEED", MkField "gpuPCIeSpeed" "");
    ("PCIE_MAX_SPEED", MkField "gpuPCIeMaxSpeed" "");
    ("PCIE_BANDWIDTH", MkField "gpuPCIeBandwidth" "");
    ("GPU_ENERGY_CONSUMED", MkField "gpuEnergyConsumed" "");
    ("PCIE_REPLAY_COUNT", MkField "gpuPCIeReplayCount" "");
    ("PCIE_RECOVERY_COUNT", MkField "gpuPCIeRecoveryCount" "");
    ("PCIE_REPLAY_ROLLOVER_COUNT", MkField "gpuPCIeReplayRolloverCount" "");
    ("PCIE_NACK_SENT_COUNT", MkField "gpuPCIeNACKSentCount" "");
    ("PCIE_NACK_RECEIVED_COUNT", MkField "gpuPCIeNACKReceivedCount" "");
    ("GPU_CLOCK", MkField "gpuClock" "");
    ("GPU_MIN_CLOCK", MkField "gpuMinClock" "");
    ("GPU_MAX_CLOCK", MkField "gpuMaxClock" "");
    ("GPU_POWER_USAGE", MkField "gpuPowerUsage" "");
    ("GPU_VRAM_MAX_BANDWIDTH", MkField "gpuVramMaxBandwidth" "");
    ("GPU_TOTAL_VRAM", MkField "gpuTotalVram" "");
    ("GPU_ECC_CORRECT_TOTAL", MkField "gpuEccCorrectTotal" "");
    ("GPU_ECC_UNCORRECT_TOTAL", MkField "gpuEccUncorrectTotal" "");
    ("GPU_ECC_CORRECT_SDMA", MkField "gpuEccCorrectSDMA" "");
    ("GPU_ECC_UNCORRECT_SDMA", MkField "gpuEccUncorrectSDMA" "");
    ("GPU_ECC_CORRECT_GFX", MkField "gpuEccCorrectGFX" "");
    ("GPU_ECC_UNCORRECT_GFX", MkField "gpuEccUncorrectGFX" "");
    ("GPU_ECC_CORRECT_MMHUB", MkField "gpuEccCorrectMMHUB" "");
    ("GPU_ECC_UNCORRECT_MMHUB", MkField "gpuEccUncorrectMMHUB" "");
    ("GPU_ECC_CORRECT_ATHUB", MkField "gpuEccCorrectATHUB" "");
    ("GPU_ECC_UNCORRECT_ATHUB", MkField "gpuEccUncorrectATHUB" "");
    ("GPU_ECC_CORRECT_BIF", MkField "gpuEccCorrectBIF" "");
    ("GPU_ECC_UNCORRECT_BIF", MkField "gpuEccUncorrectBIF" "");
    ("GPU_ECC_CORRECT_HDP", MkField "gpuEccCorrectHDP" "");
    ("GPU_ECC_UNCORRECT_HDP", MkField "gpuEccUncorrectHDP" "");
    ("GPU_ECC_CORRECT_XGMI_WAFL", MkField "gpuEccCorrectXgmiWAFL" "");
    ("GPU_ECC_UNCORRECT_XGMI_WAFL", MkField "gpuEccUncorrectXgmiWAFL" "");
    ("GPU_ECC_CORRECT_DF", MkField "gpuEccCorrectDF" "");
    ("GPU_ECC_UNCORRECT_DF", MkField "gpuEccUncorrectDF" "");
    ("GPU_ECC_CORRECT_SMN", MkField "gpuEccCorrectSMN" "");
    ("GPU_ECC_UNCORRECT_SMN", MkField "gpuEccUncorrectSMN" "");
    ("GPU_ECC_CORRECT_SEM", MkField "gpuEccCorrectSEM" "");
    ("GPU_ECC_UNCORRECT_SEM", MkField "gpuEccUncorrectSEM" "");
    ("GPU_ECC_CORRECT_MP0", MkField "gpuEccCorrectMP0" "");
    ("GPU_ECC_UNCORRECT_MP0", MkField "gpuEccUncorrectMP0" "");
    ("GPU_ECC_CORRECT_MP1", MkField "gpuEccCorrectMP1" "");
    ("GPU_ECC_UNCORRECT_MP1", MkField "gpuEccUncorrectMP1" "");
    ("GPU_ECC_CORRECT_FUSE", MkField "gpuEccCorrectFUSE" "");
    ("GPU_ECC_UNCORRECT_FUSE", MkField "gpuEccUncorrectFUSE" "");
    ("GPU_ECC_CORRECT_UMC", MkField "gpuEccCorrectUMC" "");
    ("GPU_ECC_UNCORRECT_UMC", MkField "gpuEccUncorrectUMC" "");
    ("GPU_XGMI_NBR_0_NOP_TX", MkField "xgmiNbrNopTx0" "");
    ("GPU_XGMI_NBR_0_REQ_TX", MkField "xgmiNbrReqTx0" "");
    ("GPU_XGMI_NBR_0_RESP_TX", MkField "xgmiNbrRespTx0" "");
    ("GPU_XGMI_NBR_0_BEATS_TX", MkField "xgmiNbrBeatsTx0" "");
    ("GPU_XGMI_NBR_1_NOP_TX", MkField "xgmiNbrNopTx1" "");
    ("GPU_XGMI_NBR_1_REQ_TX", MkField "xgmiNbrReqTx1" "");
    ("GPU_XGMI_NBR_1_RESP_TX", MkField "xgmiNbrRespTx1" "");
    ("GPU_XGMI_NBR_1_BEATS_TX", MkField "xgmiNbrBeatsTx1" "");
    ("GPU_XGMI_NBR_0_TX_THRPUT", MkField "xgmiNbrTxTput0" "");
    ("GPU_XGMI_NBR_1_TX_THRPUT", MkField "xgmiNbrTxTput1" "");
    ("GPU_XGMI_NBR_2_TX_THRPUT", MkField "xgmiNbrTxTput2" "");
    ("GPU_XGMI_NBR_3_TX_THRPUT", MkField "xgmiNbrTxTput3" "");
    ("GPU_XGMI_NBR_4_TX_THRPUT", MkField "xgmiNbrTxTput4" "");
    ("GPU_XGMI_NBR_5_TX_THRPUT", MkField "xgmiNbrTxTput5" "");
    ("GPU_USED_VRAM", MkField "gpuUsedVram" "");
    ("GPU_FREE_VRAM", MkField "gpuFreeVram" "");
    ("GPU_TOTAL_VISIBLE_VRAM", MkField "gpuTotalVisibleVram" "");
    ("GPU_USED_VISIBLE_VRAM", MkField "gpuUsedVisibleVram" "");
    ("GPU_FREE_VISIBLE_VRAM", MkField "gpuFreeVisibleVram" "");
    ("GPU_TOTAL_GTT", MkField "gpuTotalGTT" "");
    ("GPU_USED_GTT", MkField "gpuUsedGTT" "");
    ("GPU_FREE_GTT", MkField "gpuFreeGTT" "");
    ("GPU_ECC_CORRECT_MCA", MkField "gpuEccCorrectMCA" "");
    ("GPU_ECC_UNCORRECT_MCA", MkField "gpuEccUncorrectMCA" "");
    ("GPU_ECC_CORRECT_VCN", MkField "gpuEccCorrectVCN" "");
    ("GPU_ECC_UNCORRECT_VCN", MkField "gpuEccUncorrectVCN" "");
    ("GPU_ECC_CORRECT_JPEG", MkField "gpuEccCorrectJPEG" "");
    ("GPU_ECC_UNCORRECT_JPEG", MkField "gpuEccUncorrectJPEG" "");
    ("GPU_ECC_CORRECT_IH", MkField "gpuEccCorrectIH" "");
    ("GPU_ECC_UNCORRECT_IH", MkField "gpuEccUncorrectIH" "");
    ("GPU_ECC_CORRECT_MPIO", MkField "gpuEccCorrectMPIO" "");
    ("GPU_ECC_UNCORRECT_MPIO", MkField "gpuEccUncorrectMPIO" "");
    ("GPU_HEALTH", MkField "gpuHealth" "");
    ("GPU_XGMI_LINK_RX", MkField "gpuXgmiLinkStatsRx" "");
    ("GPU_XGMI_LINK_TX", MkField "gpuXgmiLinkStatsTx" "");
    ("GPU_VIOLATION_CURRENT_ACCUMULATED_COUNTER", MkField "gpuCurrAccCtr" "");
    ("GPU_VIOLATION_PROCESSOR_HOT_RESIDENCY_ACCUMULATED", MkField "gpuProcHRA" "");
    ("GPU_VIOLATION_PPT_RESIDENCY_ACCUMULATED", MkField "gpuPPTRA" "");
    ("GPU_VIOLATION_SOCKET_THERMAL_RESIDENCY_ACCUMULATED", MkField "gpuSTRA" "");
    ("GPU_VIOLATION_VR_THERMAL_RESIDENCY_ACCUMULATED", MkField "gpuVRTRA" "");
    ("GPU_VIOLATION_HBM_THERMAL_RESIDENCY_ACCUMULATED", MkField "gpuHBMTRA" "");
    ("GPU_VIOLATION_PROCESSOR_HOT_RESIDENCY_PERCENTAGE", MkField "gpuProcHRPercent" "");
    ("GPU_VIOLATION_PPT_RESIDENCY_PERCENTAGE", MkField "gpuPPTRPercent" "");
    ("GPU_VIOLATION_SOCKET_THERMAL_RESIDENCY_PERCENTAGE", MkField "gpuSTRPercent" "");
    ("GPU_VIOLATION_VR_THERMAL_RESIDENCY_PERCENTAGE", MkField "gpuVRTRPercent" "");
    ("GPU_VIOLATION_HBM_THERMAL_RESIDENCY_PERCENTAGE", MkField "gpuHBMTRPercent" "");
    ("GPU_VIOLATION_GFX_CLOCK_BELOW_HOST_LIMIT_POWER_ACCUMULATED", MkField "gpuGfxBelowHostLimitPowerAcc" "");
    ("GPU_VIOLATION_GFX_CLOCK_BELOW_HOST_LIMIT_THERMAL_ACCUMULATED", MkField "gpuGfxBelowHostLimitTHMAcc" "");
    ("GPU_VIOLATION_LOW_UTILIZATION_ACCUMULATED", MkField "gpuGfxLowUtilizationAcc" "");
    ("GPU_VIOLATION_GFX_CLOCK_BELOW_HOST_LIMIT_TOTAL_ACCUMULATED", MkField "gpuGfxBelowHostLimitTotalAcc" "");
    ("GPU_VIOLATION_GFX_CLOCK_BELOW_HOST_LIMIT_POWER_PERCENTAGE", MkField "gpuGfxBelowHostLimitPowerPercent" "");
    ("GPU_VIOLATION_GFX_CLOCK_BELOW_HOST_LIMIT_THERMAL_PERCENTAGE", MkField "gpuGfxBelowHostLimitTHMPercent" "");
    ("GPU_VIOLATION_LOW_UTILIZATION_PERCENTAGE", MkField "gpuGfxLowUtilizationPercent" "");
    ("GPU_VIOLATION_GFX_CLOCK_BELOW_HOST_LIMIT_TOTAL_PERCENTAGE", MkField "gpuGfxBelowHostLimitTotalPercent" "");
    ("GPU_GFX_BUSY_INSTANTANEOUS", MkField "gpuGfxBusyInst" "");
    ("GPU_VCN_BUSY_INSTANTANEOUS", MkField "gpuVcnBusyInst" "");
    ("GPU_JPEG_BUSY_INSTANTANEOUS", MkField "gpuJpegBusyInst" "");
    ("PCIE_RX", MkField "gpuPcieRx" "");
    ("PCIE_TX", MkField "gpuPcieTx" "");
    ("PCIE_BIDIRECTIONAL_BANDWIDTH", MkField "gpuPcieBidirBandwidth" "");
    ("GPU_AFID_ERRORS", MkField "gpuAfidErrors" "");
    ("GPU_ECC_DEFERRED_TOTAL", MkField "gpuEccDeferredTotal" "");
    ("GPU_ECC_DEFERRED_SDMA", MkField "gpuEccDeferredSDMA" "");
    ("GPU_ECC_DEFERRED_GFX", MkField "gpuEccDeferredGFX" "");
    ("GPU_ECC_DEFERRED_MMHUB", MkField "gpuEccDeferredMMHUB" "");
    ("GPU_ECC_DEFERRED_ATHUB", MkField "gpuEccDeferredATHUB" "");
    ("GPU_ECC_DEFERRED_BIF", MkField "gpuEccDeferredBIF" "");
    ("GPU_ECC_DEFERRED_HDP", MkField "gpuEccDeferredHDP" "");
    ("GPU_ECC_DEFERRED_XGMI_WAFL", MkField "gpuEccDeferredXgmiWAFL" "");
    ("GPU_ECC_DEFERRED_DF", MkField "gpuEccDeferredDF" "");
    ("GPU_ECC_DEFERRED_SMN", MkField "gpuEccDeferredSMN" "");
    ("GPU_ECC_DEFERRED_SEM", MkField "gpuEccDeferredSEM" "");
    ("GPU_ECC_DEFERRED_MP0", MkField "gpuEccDeferredMP0" "");
    ("GPU_ECC_DEFERRED_MP1", MkField "gpuEccDeferredMP1" "");
    ("GPU_ECC_DEFERRED_FUSE", MkField "gpuEccDeferredFUSE" "");
    ("GPU_ECC_DEFERRED_UMC", MkField "gpuEccDeferredUMC" "");
    ("GPU_ECC_DEFERRED_MCA", MkField "gpuEccDeferredMCA" "");
    ("GPU_ECC_DEFERRED_VCN", MkField "gpuEccDeferredVCN" "");
    ("GPU_ECC_DEFERRED_JPEG", MkField "gpuEccDeferredJPEG" "");
    ("GPU_ECC_DEFERRED_IH", MkField "gpuEccDeferredIH" "");
    ("GPU_ECC_DEFERRED_MPIO", MkField "gpuEccDeferredMPIO" "");
    ("GPU_PROF_GRBM_GUI_ACTIVE", MkField "gpuGrbmGuiActivity" "GRBM_GUI_ACTIVE");
    ("GPU_PROF_SQ_WAVES", MkField "gpuSqWaves" "SQ_WAVES");
    ("GPU_PROF_GRBM_COUNT", MkField "gpuGrbmCount" "GRBM_COUNT");
    ("GPU_PROF_FETCH_SIZE", MkField "gpuFetchSize" "FETCH_SIZE");
    ("GPU_PROF_WRITE_SIZE", MkField "gpuWriteSize" "WRITE_SIZE");
    ("GPU_PROF_TOTAL_16_OPS", MkField "gpuTotal16Ops" "TOTAL_16_OPS");
    ("GPU_PROF_TOTAL_32_OPS", MkField "gpuTotal32Ops" "TOTAL_32_OPS");
    ("GPU_PROF_TOTAL_64_OPS", MkField "gpuTotal64Ops" "TOTAL_64_OPS");
    ("GPU_PROF_CPC_CPC_STAT_BUSY", MkField "gpuCpcStatBusy" "CPC_CPC_STAT_BUSY");
    ("GPU_PROF_CPC_CPC_STAT_IDLE", MkField "gpuCpcStatIdle" "CPC_CPC_STAT_IDLE");
    ("GPU_PROF_CPC_CPC_STAT_STALL", MkField "gpuCpcStatStall" "CPC_CPC_STAT_STALL");
    ("GPU_PROF_CPC_CPC_TCIU_BUSY", MkField "gpuCpcTciuBusy" "CPC_CPC_TCIU_BUSY");
    ("GPU_PROF_CPC_CPC_TCIU_IDLE", MkField "gpuCpcTciuIdle" "CPC_CPC_TCIU_IDLE");
    ("GPU_PROF_CPC_CPC_UTCL2IU_BUSY", MkField "gpuCpcUtcl2iuBusy" "CPC_CPC_UTCL2IU_BUSY");
    ("GPU_PROF_CPC_CPC_UTCL2IU_IDLE", MkField "gpuCpcUtcl2iuIdle" "CPC_CPC_UTCL2IU_IDLE");
    ("GPU_PROF_CPC_CPC_UTCL2IU_STALL", MkField "gpuCpcUtcl2iuStall" "CPC_CPC_UTCL2IU_STALL");
    ("GPU_PROF_CPC_ME1_BUSY_FOR_PACKET_DECODE", MkField "gpuCpcME1BusyForPacketDecode" "CPC_ME1_BUSY_FOR_PACKET_DECODE");
    ("GPU_PROF_CPC_ME1_DC0_SPI_BUSY", MkField "gpuCpcME1Dc0SpiBusy" "CPC_ME1_DC0_SPI_BUSY");
    ("GPU_PROF_CPC_UTCL1_STALL_ON_TRANSLATION", MkField "gpuCpcUtcl1StallOnTranslation" "CPC_UTCL1_STALL_ON_TRANSLATION");
    ("GPU_PROF_CPC_ALWAYS_COUNT", MkField "gpuCpcAlwaysCount" "CPC_ALWAYS_COUNT");
    ("GPU_PROF_CPC_ADC_VALID_CHUNK_NOT_AVAIL", MkField "gpuCpcAdcValidChunkNotAvail" "CPC_ADC_VALID_CHUNK_NOT_AVAIL");
    ("GPU_PROF_CPC_ADC_DISPATCH_ALLOC_DONE", MkField "gpuCpcAdcDispatchAllocDone" "CPC_ADC_DISPATCH_ALLOC_DONE");
    ("GPU_PROF_CPC_ADC_VALID_CHUNK_END", MkField "gpuCpcAdcValidChunkEnd" "CPC_ADC_VALID_CHUNK_END");
    ("GPU_PROF_CPC_SYNC_FIFO_FULL_LEVEL", MkField "gpuCpcSynFifoFullLevel" "CPC_SYNC_FIFO_FULL_LEVEL");
    ("GPU_PROF_CPC_SYNC_FIFO_FULL", MkField "gpuCpcSynFifoFull" "CPC_SYNC_FIFO_FULL");
    ("GPU_PROF_CPC_GD_BUSY", MkField "gpuCpcGdBusy" "CPC_GD_BUSY");
    ("GPU_PROF_CPC_TG_SEND", MkField "gpuCpcTgSend" "CPC_TG_SEND");
    ("GPU_PROF_CPC_WALK_NEXT_CHUNK", MkField "gpuCpcWalkNextChunk" "CPC_WALK_NEXT_CHUNK");
    ("GPU_PROF_CPC_STALLED_BY_SE0_SPI", MkField "gpuCpcStalledBySe0Spi" "CPC_STALLED_BY_SE0_SPI");
    ("GPU_PROF_CPC_STALLED_BY_SE1_SPI", MkField "gpuCpcStalledBySe1Spi" "CPC_STALLED_BY_SE1_SPI");
    ("GPU_PROF_CPC_STALLED_BY_SE2_SPI", MkField "gpuCpcStalledBySe2Spi" "CPC_STALLED_BY_SE2_SPI");
    ("GPU_PROF_CPC_STALLED_BY_SE3_SPI", MkField "gpuCpcStalledBySe3Spi" "CPC_STALLED_BY_SE3_SPI");
    ("GPU_PROF_CPC_LTE_ALL", MkField "gpuCpcLteAll" "CPC_LTE_ALL");
    ("GPU_PROF_CPC_SYNC_WRREQ_FIFO_BUSY", MkField "gpuCpcSyncWrreqFifoBusy" "CPC_SYNC_WRREQ_FIFO_BUSY");
    ("GPU_PROF_CPC_CANE_BUSY", MkField "gpuCpcCaneBusy" "CPC_CANE_BUSY");
    ("GPU_PROF_CPC_CANE_STALL", MkField "gpuCpcCaneStall" "CPC_CANE_STALL");
    ("GPU_PROF_CPF_CMP_UTCL1_STALL_ON_TRANSLATION", MkField "gpuCpfCmpUtcl1StallOnTrnsalation" "CPF_CMP_UTCL1_STALL_ON_TRANSLATION");
    ("GPU_PROF_CPF_CPF_STAT_BUSY", MkField "gpuCpfStatBusy" "CPF_CPF_STAT_BUSY");
    ("GPU_PROF_CPF_CPF_STAT_IDLE", MkField "gpuCpfStatIdle" "CPF_CPF_STAT_IDLE");
    ("GPU_PROF_CPF_CPF_STAT_STALL", MkField "gpuCpfStatStall" "CPF_CPF_STAT_STALL");
    ("GPU_PROF_CPF_CPF_TCIU_BUSY", MkField "gpuCpfStatTciuBusy" "CPF_CPF_TCIU_BUSY");
    ("GPU_PROF_CPF_CPF_TCIU_IDLE", MkField "gpuCpfStatTciuIdle" "CPF_CPF_TCIU_IDLE");
    ("GPU_PROF_CPF_CPF_TCIU_STALL", MkField "gpuCpfStatTciuStall" "CPF_CPF_TCIU_STALL");
    ("GPU_PROF_GUI_UTIL_PERCENT", MkField "gpuGPUUtil" "GPU_UTIL");
    ("GPU_PROF_OCCUPANCY_PERCENT", MkField "gpuOccPercent" "OccupancyPercent");
    ("GPU_PROF_TENSOR_ACTIVE_PERCENT", MkField "gpuTensorActivePercent" "MfmaUtil");
    ("GPU_PROF_VALU_PIPE_ISSUE_UTIL", MkField "gpuValuPipeIssueUtil" "ValuPipeIssueUtil");
    ("GPU_PROF_SM_ACTIVE", MkField "gpuSMActive" "VALUBusy");
    ("GPU_PROF_OCCUPANCY_ELAPSED", MkField "gpuOccElapsed" "MeanOccupancyPerActiveCU");
    ("GPU_PROF_OCCUPANCY_PER_ACTIVE_CU", MkField "gpuOccPerActiveCU" "MeanOccupancyPerActiveCU");
    ("GPU_PROF_OCCUPANCY_PER_CU", MkField "gpuMeanOccPerCU" "MeanOccupancyPerCU");
    ("GPU_PROF_SIMD_UTILIZATION", MkField "gpuSimdActive" "SIMD_UTILIZATION");
    ("GPU_PROCESS_CU_OCCUPANCY", MkField "gpuProcessCuOcc" "") ].

(** What is done with the value of a counter before it is set. *)
Inductive scaling : Type := AsIs | Percent | Fraction.

(** The switch of [updateGPUInfoToMetrics]. *)
Definition profiler_gauges : list (string * (string * scaling)) :=
  [ ("GRBM_GUI_ACTIVE", ("gpuGrbmGuiActivity", AsIs));
    ("SQ_WAVES", ("gpuSqWaves", AsIs));
    ("GRBM_COUNT", ("gpuGrbmCount", AsIs));
    ("GPU_UTIL", ("gpuGPUUtil", Percent));
    ("FETCH_SIZE", ("gpuFetchSize", AsIs));
    ("WRITE_SIZE", ("gpuWriteSize", AsIs));
    ("TOTAL_16_OPS", ("gpuTotal16Ops", AsIs));
    ("TOTAL_32_OPS", ("gpuTotal32Ops", AsIs));
    ("TOTAL_64_OPS", ("gpuTotal64Ops", AsIs));
    ("CPC_CPC_STAT_BUSY", ("gpuCpcStatBusy", AsIs));
    ("CPC_CPC_STAT_IDLE", ("gpuCpcStatIdle", AsIs));
    ("CPC_CPC_STAT_STALL", ("gpuCpcStatStall", AsIs));
    ("CPC_CPC_TCIU_BUSY", ("gpuCpcTciuBusy", AsIs));
    ("CPC_CPC_TCIU_IDLE", ("gpuCpcTciuIdle", AsIs));
    ("CPC_CPC_UTCL2IU_BUSY", ("gpuCpcUtcl2iuBusy", AsIs));
    ("CPC_CPC_UTCL2IU_IDLE", ("gpuCpcUtcl2iuIdle", AsIs));
    ("CPC_CPC_UTCL2IU_STALL", ("gpuCpcUtcl2iuStall", AsIs));
    ("CPC_ME1_BUSY_FOR_PACKET_DECODE", ("gpuCpcME1BusyForPacketDecode", AsIs));
    ("CPC_ME1_DC0_SPI_BUSY", ("gpuCpcME1Dc0SpiBusy", AsIs));
    ("CPC_UTCL1_STALL_ON_TRANSLATION", ("gpuCpcUtcl1StallOnTranslation", AsIs));
    ("CPC_ALWAYS_COUNT", ("gpuCpcAlwaysCount", AsIs));
    ("CPC_ADC_VALID_CHUNK_NOT_AVAIL", ("gpuCpcAdcValidChunkNotAvail", AsIs));
    ("CPC_ADC_DISPATCH_ALLOC_DONE", ("gpuCpcAdcDispatchAllocDone", AsIs));
    ("CPC_ADC_VALID_CHUNK_END", ("gpuCpcAdcValidChunkEnd", AsIs));
    ("CPC_SYNC_FIFO_FULL_LEVEL", ("gpuCpcSynFifoFullLevel", AsIs));
    ("CPC_SYNC_FIFO_FULL", ("gpuCpcSynFifoFull", AsIs));
    ("CPC_GD_BUSY", ("gpuCpcGdBusy", AsIs));
    ("CPC_TG_SEND", ("gpuCpcTgSend", AsIs));
    ("CPC_WALK_NEXT_CHUNK", ("gpuCpcWalkNextChunk", AsIs));
    ("CPC_STALLED_BY_SE0_SPI", ("gpuCpcStalledBySe0Spi", AsIs));
    ("CPC_STALLED_BY_SE1_SPI", ("gpuCpcStalledBySe1Spi", AsIs));
    ("CPC_STALLED_BY_SE2_SPI", ("gpuCpcStalledBySe2Spi", AsIs));
    ("CPC_STALLED_BY_SE3_SPI", ("gpuCpcStalledBySe3Spi", AsIs));
    ("CPC_LTE_ALL", ("gpuCpcLteAll", AsIs));
    ("CPC_SYNC_WRREQ_FIFO_BUSY", ("gpuCpcSyncWrreqFifoBusy", AsIs));
    ("CPC_CANE_BUSY", ("gpuCpcCaneBusy", AsIs));
    ("CPC_CANE_STALL", ("gpuCpcCaneStall", AsIs));
    ("CPF_CMP_UTCL1_STALL_ON_TRANSLATION", ("gpuCpfCmpUtcl1StallOnTrnsalation", AsIs));
    ("CPF_CPF_STAT_BUSY", ("gpuCpfStatBusy", AsIs));
    ("CPF_CPF_STAT_IDLE", ("gpuCpfStatIdle", AsIs));
    ("CPF_CPF_STAT_STALL", ("gpuCpfStatStall", AsIs));
    ("CPF_CPF_TCIU_BUSY", ("gpuCpfStatTciuBusy", AsIs));
    ("CPF_CPF_TCIU_IDLE", ("gpuCpfStatTciuIdle", AsIs));
    ("CPF_CPF_TCIU_STALL", ("gpuCpfStatTciuStall", AsIs));
    ("OccupancyPercent", ("gpuOccPercent", Percent));
    ("MfmaUtil", ("gpuTensorActivePercent", Percent));
    ("ValuPipeIssueUtil", ("gpuValuPipeIssueUtil", Percent));
    ("VALUBusy", ("gpuSMActive", Percent));
    ("MeanOccupancyPerActiveCU", ("gpuOccPerActiveCU", AsIs));
    ("MeanOccupancyPerCU", ("gpuMeanOccPerCU", AsIs));
    ("SIMD_UTILIZATION", ("gpuSimdActive", Fraction)) ].
