(* ===== verification/FieldConfig.v ===== *)
(** Which metrics are exported: the settings of the fields, of the profiler
    and of the error records
    ([src/pkg/amdgpu/gpuagent/gpuagent_gpu_metrics.go]), and the tables they
    choose from. *)

From S2P Require Import Prelude GoStd Json RunSample RocpClient ProfilerMetrics Config MetricFields.
Local Open Scope Z_scope.

Definition profilerStarIndex : Z := 801.
Definition profilerEndIndex : Z := 1200.

Definition field_names : list string := GPUMetricField.*1.

(** ** Settings *)

Definition set_all (enable_default : bool) : gmap string bool :=
  list_to_map ((λ name, (name, enable_default)) <$> field_names).

Definition enable_field (m : gmap string bool) (fieldName : string) : gmap string bool :=
  let fieldName := ToUpper fieldName in
  match m !! fieldName with Some _ => <[fieldName := true]> m | None => m end.

Definition initFieldConfig (config : option GPUMetricConfig) : gmap string bool :=
  match config with
  | None => set_all true
  | Some c =>
      match cfg_Fields c with
      | [] => set_all true
      | fields => foldl enable_field (set_all false) fields
      end
  end.

Definition getExporterFieldState (exportFieldMap : gmap string bool) (field : string) : bool :=
  default false (exportFieldMap !! ToUpper field).

Definition initProfilerMetrics (config : option GPUMetricConfig) (curNodeName : string) : bool :=
  match config ≫= ProfilerMetrics_ with
  | None => false
  | Some profilerConfigMap =>
      match profilerConfigMap !! curNodeName with
      | Some enabled => enabled
      | None => default false (profilerConfigMap !! "all")
      end
  end.

Definition initAfidMetrics (exportFieldMap : gmap string bool) (IsCperEnabled : bool) : bool :=
  getExporterFieldState exportFieldMap "GPU_AFID_ERRORS" && IsCperEnabled.

(** In the order of the table; the code visits a map. *)
Definition getAllSupportedProfilerFields : list string :=
  filter (λ a, a ≠ "") ((λ f, Alias f.2) <$> fieldMetricsMap).

Definition disable_field (m : gmap string bool) (f : string * Z) : gmap string bool :=
  if decide (profilerStarIndex <= f.2 <= profilerEndIndex) then
    let fieldName := ToUpper f.1 in
    match m !! fieldName with Some _ => <[fieldName := false]> m | None => m end
  else m.

Definition initProfilerMetricsField (enableGPUMonitoring enableProfileMetrics : bool) (h : ConfigHandler)
    (exportFieldMap : gmap string bool) (rpc : option (ROCProfilerClient GpuProfiler))
    : gmap string bool * option (ROCProfilerClient GpuProfiler) :=
  match isProfilerEnabled enableGPUMonitoring enableProfileMetrics rpc, rpc with
  | true, Some rpc =>
      let profilerConfig := GetProfilerConfig h in
      let rpc := SetSamplingInterval (cfg_SamplingInterval profilerConfig) rpc in
      let rpc := SetPtlDelay (cfg_PtlDelay profilerConfig) rpc in
      (exportFieldMap, Some (SetFields getAllSupportedProfilerFields rpc))
  | _, _ => (foldl disable_field exportFieldMap GPUMetricField, rpc)
  end.

Definition field_meta (field : string) : option FieldMeta :=
  snd <$> head (filter (λ p, p.1 = field) fieldMetricsMap).

(** The gauges that are registered. *)
Definition initFieldRegistration (exportFieldMap : gmap string bool) : list string :=
  omap (λ p, if p.2 : bool then Metric <$> field_meta p.1 else None) (map_to_list exportFieldMap).

(** The part of [InitConfigs] that is about fields: the states of the fields,
    the profiler client and the registered gauges. *)
Definition InitConfigs_fields (enableGPUMonitoring : bool) (h : ConfigHandler) (curNodeName : string)
    (rpc : option (ROCProfilerClient GpuProfiler))
    : gmap string bool * option (ROCProfilerClient GpuProfiler) * list string :=
  let config := GPUConfig (GetConfig h) in
  let exportFieldMap := initFieldConfig config in
  let enableProfileMetrics := initProfilerMetrics config curNodeName in
  let '(exportFieldMap, rpc) :=
    initProfilerMetricsField enableGPUMonitoring enableProfileMetrics h exportFieldMap rpc in
  (exportFieldMap, rpc, initFieldRegistration exportFieldMap).

(** ** The tables *)

Lemma fields_distinct : NoDup field_names.
Proof. by_decide. Qed.

Lemma fields_upper : Forall (λ name, ToUpper name = name) field_names.
Proof. by_decide. Qed.

#[export] Instance FieldMeta_eq_dec : EqDecision FieldMeta.
Proof. solve_decision. Defined.

Lemma metas_known : Forall (λ p, field_meta p.1 = Some p.2) fieldMetricsMap.
Proof. by_decide. Qed.

Lemma metas_fields : fieldMetricsMap.*1 ≡ₚ field_names.
Proof. by_decide. Qed.

Lemma gauges_distinct : NoDup (Metric ∘ snd <$> fieldMetricsMap).
Proof. by_decide. Qed.

(** A profiler counter: requested, and set on a gauge whose field asks for it. *)
Definition counter_ok (alias : string) : Prop :=
  match (filter (λ c, c.1 = alias) profiler_gauges).*2 with
  | [(g, _)] => (alias, g) ∈ (λ f, (Alias f.2, Metric f.2)) <$> fieldMetricsMap
  | _ => False
  end.
#[export] Instance counter_ok_dec a : Decision (counter_ok a).
Proof. unfold counter_ok. repeat case_match; apply _. Defined.

Definition index_ok (g : string * gauge_opts) : Prop :=
  match metric_labels g.2 with
  | GpuLabels index => NoDup index
  | NodeLabels => g.1 = "gpuNodesTotal"
  end.
#[export] Instance index_ok_dec g : Decision (index_ok g).
Proof. unfold index_ok. case_match; apply _. Defined.

Definition profiler_field (f : string * FieldMeta) : Prop :=
  Alias f.2 ≠ "" ↔ Exists (λ e, e.1 = f.1 ∧ profilerStarIndex <= e.2 <= profilerEndIndex) GPUMetricField.
#[export] Instance profiler_field_dec f : Decision (profiler_field f).
Proof. unfold profiler_field. apply _. Defined.

(** C38: The tables of the exporter, of the configuration and of [rocpctl]
    agree: the 194 fields of the configuration have one gauge each, whose
    name is the name of the field in lower case, and no gauge is left over;
    the fields between 801 and 1200 are those with a profiler counter; every
    counter the exporter asks for is set on one gauge, that of a field that
    asks for it, and these counters include all that [rocpctl] samples by
    default.  But the 52 requests have only 51 different counters:
    [MeanOccupancyPerActiveCU] is asked for twice. *)
Theorem metric_tables_agree :
  field_names ≡ₚ fieldMetricsMap.*1 ∧ NoDup field_names ∧ length field_names = 194%nat ∧
  (Metric ∘ snd <$> fieldMetricsMap) ≡ₚ GpuMetrics.*1 ∧ NoDup GpuMetrics.*1 ∧
  Forall (λ f, (Metric f.2, ToLower f.1) ∈ (λ g, (g.1, metric_name g.2)) <$> GpuMetrics) fieldMetricsMap ∧
  Forall profiler_field fieldMetricsMap ∧
  Forall counter_ok getAllSupportedProfilerFields ∧
  Forall (λ c, c ∈ getAllSupportedProfilerFields) (profiler_gauges.*1 ++ all_fields) ∧
  Forall (λ c, length (filter (λ a, a = c) getAllSupportedProfilerFields) =
               if decide (c = "MeanOccupancyPerActiveCU") then 2%nat else 1%nat)
    getAllSupportedProfilerFields ∧
  Forall index_ok GpuMetrics.
Proof.
  split_and!; try (by_decide).
Qed.

(** ** The states of the fields *)

Lemma lookup_set_all b name : set_all b !! name = if decide (name ∈ field_names) then Some b else None.
Proof.
  unfold set_all. case_decide as Hn.
  - apply elem_of_list_to_map_1; [|apply list_elem_of_fmap; by exists name].
    rewrite <- list_fmap_compose. change (NoDup (id <$> field_names)). rewrite list_fmap_id.
    apply fields_distinct.
  - apply not_elem_of_list_to_map_1. rewrite <- list_fmap_compose.
    change (name ∉ id <$> field_names). by rewrite list_fmap_id.
Qed.

Lemma enable_fields_lookup fields m name : is_Some (m !! name) →
  foldl enable_field m fields !! name =
  if decide (name ∈ ToUpper <$> fields) then Some true else m !! name.
Proof.
  revert m. induction fields as [|f fields IH]; intros m Hm; [done|]. cbn [foldl].
  assert (He : enable_field m f !! name = if decide (name = ToUpper f) then Some true else m !! name).
  { unfold enable_field. destruct (decide (name = ToUpper f)) as [Hd|Hd].
    - subst name. destruct Hm as [b ->]. by rewrite lookup_insert_eq.
    - destruct (m !! ToUpper f); [|done]. by rewrite lookup_insert_ne by done. }
  rewrite IH by (rewrite He; by destruct (decide (name = ToUpper f))). rewrite He. cbn [fmap list_fmap].
  destruct (decide (name = ToUpper f)), (decide (name ∈ ToUpper <$> fields)), (decide (name ∈ _ :: _)); set_solver.
Qed.

Definition selected (config : option GPUMetricConfig) (name : string) : bool :=
  match config with
  | None => true
  | Some c => match cfg_Fields c with [] => true | fields => bool_decide (name ∈ ToUpper <$> fields) end
  end.

Lemma initFieldConfig_lookup config name : name ∈ field_names →
  initFieldConfig config !! name = Some (selected config name).
Proof.
  intros Hn. assert (Hs : ∀ b, set_all b !! name = Some b).
  { intros b. rewrite lookup_set_all. by rewrite decide_True. }
  unfold initFieldConfig, selected. destruct config as [c|]; [|done].
  destruct (cfg_Fields c) as [|f fields]; [done|].
  rewrite enable_fields_lookup by (rewrite Hs; by eexists). rewrite Hs.
  case_decide; [by rewrite bool_decide_eq_true_2|by rewrite bool_decide_eq_false_2].
Qed.

Lemma initFieldConfig_unknown config name : name ∉ field_names → initFieldConfig config !! name = None.
Proof.
  intros Hn. assert (Hs : ∀ b, set_all b !! name = None).
  { intros b. rewrite lookup_set_all. by rewrite decide_False. }
  unfold initFieldConfig. destruct config as [c|]; [|done].
  assert (Hf : ∀ fields m, (∀ k, is_Some (m !! k) → k ∈ field_names) →
    foldl enable_field m fields !! name = None).
  { induction fields as [|f fields IH]; intros m Hm; [apply eq_None_not_Some; by intros H%Hm|].
    cbn [foldl]. apply IH. unfold enable_field. destruct (m !! ToUpper f) eqn:Hk; [|done].
    intros k. rewrite lookup_insert_is_Some. intros [<-|[_ H]]; apply Hm; [by eexists|done]. }
  destruct (cfg_Fields c); [done|]. apply Hf. intros k [b Hb]. rewrite lookup_set_all in Hb. by case_decide.
Qed.

Lemma field_upper name : name ∈ field_names → ToUpper name = name.
Proof. revert name. apply Forall_forall, fields_upper. Qed.

Lemma disable_fields_lookup l m name : (∀ f, f ∈ l → ToUpper f.1 = f.1) →
  foldl disable_field m l !! name =
  if decide (Exists (λ f, f.1 = name ∧ profilerStarIndex <= f.2 <= profilerEndIndex) l)
  then (λ _, false) <$> m !! name else m !! name.
Proof.
  revert m. induction l as [|f l IH]; intros m Hl; [done|].
  cbn [foldl]. rewrite IH by (intros g Hg; apply Hl; by right).
  assert (Hd : disable_field m f !! name =
    if decide (f.1 = name ∧ profilerStarIndex <= f.2 <= profilerEndIndex) then (λ _, false) <$> m !! name
    else m !! name).
  { unfold disable_field. rewrite (Hl f) by by left. destruct (decide (_ <= f.2 <= _)) as [Hr|Hr].
    - destruct (decide (f.1 = name)) as [<-|Hne].
      + rewrite decide_True by done. destruct (m !! f.1) eqn:Hm; [by rewrite lookup_insert_eq|by rewrite Hm].
      + rewrite decide_False by naive_solver. destruct (m !! f.1); [by rewrite lookup_insert_ne|done].
    - by rewrite decide_False by naive_solver. }
  rewrite Hd. destruct (decide (f.1 = name ∧ _)) as [H1|H1], (decide (Exists _ l)) as [H2|H2],
    (decide (Exists _ (f :: l))) as [H3|H3]; rewrite Exists_cons in H3;
    first [by destruct (m !! name)|tauto].
Qed.

(** ** What a configuration exports *)

Definition is_profiler_field (name : string) : Prop :=
  Exists (λ f, f.1 = name ∧ profilerStarIndex <= f.2 <= profilerEndIndex) GPUMetricField.
#[export] Instance is_profiler_field_dec name : Decision (is_profiler_field name).
Proof. unfold is_profiler_field. apply _. Defined.

Lemma field_meta_known name f : (name, f) ∈ fieldMetricsMap → field_meta name = Some f.
Proof. intros Hf. pose proof metas_known as Hmeta. rewrite Forall_forall in Hmeta. apply (Hmeta _ Hf). Qed.

Lemma elem_of_registered m g : (∀ name, is_Some (m !! name) → name ∈ field_names) →
  g ∈ initFieldRegistration m ↔
  ∃ name f, (name, f) ∈ fieldMetricsMap ∧ Metric f = g ∧ m !! name = Some true.
Proof.
  intros Hm. unfold initFieldRegistration. rewrite list_elem_of_omap.
  split.
  - intros ([name b] & Hin%elem_of_map_to_list & Hg). cbn in Hg. destruct b; [|done].
    assert (Hn : name ∈ fieldMetricsMap.*1) by (rewrite metas_fields; apply Hm; by eexists).
    apply list_elem_of_fmap in Hn as ([name' f] & -> & Hf). exists name', f. cbn [fst] in *.
    split; [done|]. split; [|done]. rewrite (field_meta_known name' f Hf) in Hg. by injection Hg.
  - intros (name & f & Hf & <- & Hon). exists (name, true). split; [by apply elem_of_map_to_list|].
    cbn. by rewrite (field_meta_known name f Hf).
Qed.

Lemma NoDup_omap_inj {A B} (f : A → option B) l : NoDup l →
  (∀ x y b, x ∈ l → y ∈ l → f x = Some b → f y = Some b → x = y) → NoDup (omap f l).
Proof.
  intros Hnd Hinj. induction Hnd as [|x l Hx Hnd IH]; [constructor|]. cbn [omap list_omap].
  destruct (f x) as [b|] eqn:Hb; [|apply IH; set_solver]. constructor.
  - rewrite list_elem_of_omap. intros (y & Hy & Hfy).
    assert (x = y) as -> by (apply (Hinj x y b); set_solver). done.
  - apply IH. set_solver.
Qed.

Lemma NoDup_registered m : (∀ name, is_Some (m !! name) → name ∈ field_names) →
  NoDup (initFieldRegistration m).
Proof.
  intros Hm. apply NoDup_omap_inj; [apply NoDup_map_to_list|].
  intros [n1 b1] [n2 b2] g H1%elem_of_map_to_list H2%elem_of_map_to_list.
  destruct b1, b2; try done. cbn [fst snd]. intros Hg1 Hg2.
  assert (∀ n, is_Some (m !! n) → Metric <$> field_meta n = Some g →
    ∃ f, (n, f) ∈ fieldMetricsMap ∧ Metric f = g) as Hfind.
  { intros n Hn Hg. assert (Hin : n ∈ fieldMetricsMap.*1) by (rewrite metas_fields; by apply Hm).
    apply list_elem_of_fmap in Hin as ([n' f] & -> & Hf). exists f. split; [done|].
    cbn [fst] in Hg. rewrite (field_meta_known n' f Hf) in Hg. by injection Hg. }
  destruct (Hfind n1 ltac:(by eexists) Hg1) as (f1 & Hf1 & <-).
  destruct (Hfind n2 ltac:(by eexists) Hg2) as (f2 & Hf2 & He).
  apply list_elem_of_lookup in Hf1 as [i Hi], Hf2 as [j Hj].
  assert (i = j) as ->.
  { eapply (NoDup_lookup _ _ _ (Metric f1) gauges_distinct); rewrite list_lookup_fmap.
    - by rewrite Hi.
    - rewrite Hj. cbn. by rewrite He. }
  rewrite Hi in Hj. by injection Hj as ->.
Qed.

(** The state of each field once the configuration is loaded. *)
Lemma InitConfigs_fields_lookup enableGPUMonitoring h node rpc m rpc' gauges name
    (Hload : InitConfigs_fields enableGPUMonitoring h node rpc = (m, rpc', gauges)) :
  let config := GPUConfig (GetConfig h) in
  let profiler := isProfilerEnabled enableGPUMonitoring (initProfilerMetrics config node) rpc in
  m !! name = if decide (name ∈ field_names)
    then Some (selected config name && (profiler || negb (bool_decide (is_profiler_field name)))) else None.
Proof.
  cbv zeta. set (config := GPUConfig (GetConfig h)) in *.
  set (profiler := isProfilerEnabled _ _ _).
  assert (Hi : initFieldConfig config !! name =
    if decide (name ∈ field_names) then Some (selected config name) else None).
  { case_decide as Hn; [by apply initFieldConfig_lookup|]. apply initFieldConfig_unknown, Hn. }
  revert Hload. unfold InitConfigs_fields, initProfilerMetricsField. fold config profiler.
  assert (Hoff : profiler = false → foldl disable_field (initFieldConfig config) GPUMetricField !! name =
    if decide (name ∈ field_names)
    then Some (selected config name && (profiler || negb (bool_decide (is_profiler_field name)))) else None).
  { intros ->. rewrite disable_fields_lookup.
    2:{ intros f Hf. apply field_upper, list_elem_of_fmap. by exists f. }
    rewrite Hi. fold (is_profiler_field name). destruct (decide (is_profiler_field name)) as [Hp|Hp].
    - rewrite bool_decide_eq_true_2 by done. case_decide; [|done]. cbn. by rewrite andb_false_r.
    - rewrite bool_decide_eq_false_2 by done. cbn. by rewrite andb_true_r. }
  destruct profiler eqn:Hpr, rpc as [r|].
  - intros [[<- _]%pair_eq _]%pair_eq. rewrite Hi. cbn [orb]. by rewrite andb_true_r.
  - unfold profiler, isProfilerEnabled in Hpr. by destruct enableGPUMonitoring.
  - intros [[<- _]%pair_eq _]%pair_eq. by apply Hoff.
  - intros [[<- _]%pair_eq _]%pair_eq. by apply Hoff.
Qed.

(** Which fields a configuration exports: a field is enabled exactly if the
    configuration lists no fields or lists it, in any case of letters, and,
    for the fields of the profiler, the profiler is enabled for the node;
    the gauges registered are exactly those of the enabled fields, each
    once.  If the profiler is enabled its client is told to sample all its
    counters, at least a millisecond long; otherwise it is left alone. *)
Theorem exported_fields enableGPUMonitoring h node rpc m rpc' gauges
    (Hload : InitConfigs_fields enableGPUMonitoring h node rpc = (m, rpc', gauges)) :
  let config := GPUConfig (GetConfig h) in
  let profiler := isProfilerEnabled enableGPUMonitoring (initProfilerMetrics config node) rpc in
  (∀ name, name ∈ field_names →
     getExporterFieldState m name = selected config name && (profiler || negb (bool_decide (is_profiler_field name)))) ∧
  (∀ g, g ∈ gauges ↔
     ∃ name f, (name, f) ∈ fieldMetricsMap ∧ Metric f = g ∧ getExporterFieldState m name = true) ∧
  NoDup gauges ∧
  (if profiler then ∃ r, rpc' = Some r ∧ MetricFields r = getAllSupportedProfilerFields ∧
                         1000 <= SamplingInterval r
   else rpc' = rpc).
Proof.
  cbv zeta. set (config := GPUConfig (GetConfig h)) in *.
  set (profiler := isProfilerEnabled _ _ _).
  pose proof (λ name, InitConfigs_fields_lookup enableGPUMonitoring h node rpc m rpc' gauges name Hload) as Hm.
  cbv zeta in Hm. fold config profiler in Hm.
  assert (Hdom : ∀ name, is_Some (m !! name) → name ∈ field_names).
  { intros name [b Hb]. rewrite Hm in Hb. by case_decide. }
  assert (Hstate : ∀ name, name ∈ field_names → getExporterFieldState m name = default false (m !! name)).
  { intros name Hn. unfold getExporterFieldState. by rewrite field_upper. }
  assert (Hg : gauges = initFieldRegistration m).
  { revert Hload. unfold InitConfigs_fields. destruct (initProfilerMetricsField _ _ _ _ _). by intros [[<- _]%pair_eq <-]%pair_eq. }
  split_and!.
  - intros name Hn. rewrite Hstate, Hm, decide_True by done. done.
  - intros g. rewrite Hg, elem_of_registered by done. split; intros (name & f & Hf & <- & Hon);
      exists name, f; (split; [done|split; [done|]]);
      assert (Hn : name ∈ field_names) by (rewrite <- metas_fields; apply list_elem_of_fmap; by exists (name, f)).
    + by rewrite Hstate, Hon.
    + rewrite Hstate in Hon by done. by destruct (m !! name) as [[]|].
  - rewrite Hg. by apply NoDup_registered.
  - revert Hload. unfold InitConfigs_fields, initProfilerMetricsField. fold config profiler.
    destruct profiler eqn:Hpr, rpc as [r|]; intros [[_ <-]%pair_eq _]%pair_eq; try done.
    + eexists. split; [done|]. split; [done|]. cbn. unfold GetProfilerConfig.
      destruct (_ ≫= cfg_Profiler) as [p|]; cbn; [case_decide; cbn; lia|lia].
    + unfold profiler, isProfilerEnabled in Hpr. by destruct enableGPUMonitoring.
Qed.

(** ** An instance: two fields, the profiler disabled *)

Definition fields_handler : ConfigHandler :=
  MkHandler (MkAgentConfig 50061 false "") "/etc/metrics/config.json"
    (MkRunning 5000 (MkConfig 5000
      (Some (MkGPUConfig "" ["gpu_package_power"; "GPU_PROF_SQ_WAVES"] [] None [] [] None None)) None None)).

Lemma sq_waves_only :
  Forall (λ p, Metric p.2 = "gpuSqWaves" → p.1 = "GPU_PROF_SQ_WAVES") fieldMetricsMap.
Proof. by_decide. Qed.

Lemma exported_fields_witness :
  ∃ m rpc' gauges, InitConfigs_fields true fields_handler "node1" None = (m, rpc', gauges) ∧
    "gpuPackagePower" ∈ gauges ∧ "gpuSqWaves" ∉ gauges.
Proof.
  destruct (InitConfigs_fields true fields_handler "node1" None) as [[m rpc'] gauges] eqn:Hload.
  exists m, rpc', gauges. split; [reflexivity|].
  destruct (exported_fields true fields_handler "node1" None m rpc' gauges Hload) as (Hstate & Hg & _ & _).
  split.
  - apply Hg. exists "GPU_PACKAGE_POWER", (MkField "gpuPackagePower" "").
    split; [|split; [reflexivity|]].
    + by_decide.
    + rewrite Hstate; [vm_compute; reflexivity|]. by_decide.
  - intros (name & f & Hf & Hm & Hon)%Hg.
    assert (name = "GPU_PROF_SQ_WAVES") as ->.
    { pose proof sq_waves_only as Hall. rewrite Forall_forall in Hall. exact (Hall _ Hf Hm). }
    rewrite Hstate in Hon; [vm_compute in Hon; discriminate Hon|].
    by_decide.
Defined.
