(* ===== verification/GpuReadings.v ===== *)
(** The readings of a GPU: [updateGPUInfoToMetrics] of
    [src/pkg/amdgpu/gpuagent/gpuagent_gpu_metrics.go].

    What the function does with a message depends on the message alone: it
    asks the filter of unsupported fields, sets gauges, and writes the map
    of labels with an index.  [readings] lists these calls in the order of
    the code, [exec] carries one of them out.  [None] is a panic, which ends
    the process because the function runs in a goroutine of its own:
    [With] does not accept the labels, or [Fatalf].

    A gauge is set to a 64-bit float.  Most are integers, [Int]; [Flt] has
    the others. *)

From S2P Require Import Prelude RocpSdk Format GoStd ExporterUtils RocpClient Scheduler GpuMessages GpuAgent.
From S2P Require Import Config FieldLogger LabelConfig MetricFields.
From Stdlib Require Import Ascii.
Local Open Scope Z_scope.

(** ** Floats *)

(** The [float64] of an integer that is one. *)
Definition float64_parts (p : positive) : positive * Z :=
  let e := Z.log2 (Zpos p) - 52 in
  (Z.to_pos (if decide (e < 0) then Zpos p * 2 ^ (- e) else Zpos p / 2 ^ e), e).

Definition float64 (z : Z) : double :=
  match z with
  | Z0 => S754_zero false
  | Zpos p => let '(m, e) := float64_parts p in S754_finite false m e
  | Zneg p => let '(m, e) := float64_parts p in S754_finite true m e
  end.

(** The difference of two [float64] that are integers, rounded to one. *)
Definition float64_sub (x y : Z) : Z := Z.sgn (x - y) * float64_of_uint (Z.abs (x - y)).

Definition not_applicable : value := Float64 (float64 MaxUint32).

(** ** Calls *)

Inductive sample : Type := Int (z : Z) | Flt (d : double).

Inductive call : Type :=
  | CMark (fieldName : string)                              (* markUnsupportedFields *)
  | CExport (gauge fieldName : string) (val : value)        (* logWithValidateAndExport, labels *)
  | CExportIndexed (gauge fieldName : string) (val : value) (* the same, labelsWithIndex *)
  | CSet (gauge : string) (x : sample)                      (* With(labels).Set *)
  | CSetIndexed (gauge : string) (x : sample)               (* With(labelsWithIndex).Set *)
  | CIndex (key val : string)                               (* labelsWithIndex[key] = val *)
  | CDropIndex (key : string).                              (* delete(labelsWithIndex, key) *)

Abbreviation Labels := (gmap string string).
Abbreviation Gauges := (gmap string (gmap Labels sample)).

Record metrics : Type := MkMetrics {
  fl : fieldLogger;
  gauges : Gauges;
  labelsWithIndex : Labels;
}.

Definition series (g : Gauges) (gauge : string) (labels : Labels) : option sample :=
  g !! gauge ≫= lookup labels.

Section exec.
Context (imp : Z → double → Z).
(** [With] of the gauge does not panic. *)
Context (accepts : string → Labels → bool).
Context (gpuid : string) (labels : Labels).

(** The gauges a call of [logWithValidateAndExport] wrote, laid over the
    gauges there were. *)
Definition lay (gauge : string) (m : gmap Labels Z) (g : Gauges) : Gauges :=
  <[gauge := (Int <$> m) ∪ default ∅ (g !! gauge)]> g.

Definition export (gauge fieldName : string) (labels : Labels) (val : value) (s : metrics)
    : option metrics :=
  '(fl', m) ← logWithValidateAndExport imp gpuid fieldName (Some labels) val (fl s) ∅;
  if bool_decide (m = ∅) || accepts gauge labels
  then Some (MkMetrics fl' (lay gauge m (gauges s)) (labelsWithIndex s)) else None.

Definition set_gauge (gauge : string) (labels : Labels) (x : sample) (s : metrics) : option metrics :=
  if accepts gauge labels
  then Some (MkMetrics (fl s) (<[gauge := <[labels := x]> (default ∅ (gauges s !! gauge))]> (gauges s))
               (labelsWithIndex s))
  else None.

Definition exec (s : metrics) (c : call) : option metrics :=
  match c with
  | CMark f => Some (MkMetrics (markUnsupportedFields gpuid f (fl s)) (gauges s) (labelsWithIndex s))
  | CExport g f v => export g f labels v s
  | CExportIndexed g f v => export g f (labelsWithIndex s) v s
  | CSet g x => set_gauge g labels x s
  | CSetIndexed g x => set_gauge g (labelsWithIndex s) x s
  | CIndex k v => Some (MkMetrics (fl s) (gauges s) (<[k := v]> (labelsWithIndex s)))
  | CDropIndex k => Some (MkMetrics (fl s) (gauges s) (delete k (labelsWithIndex s)))
  end.

(** ** The calls of a GPU *)

Definition export_all (l : list (string * string * value)) : list call :=
  (λ e, CExport e.1.1 e.1.2 e.2) <$> l.

Definition mark_zero (v : value) (field : string) : list call :=
  if IsNonZeroValue v then [] else [CMark field].

(** A reading that must not be zero. *)
Definition export_nonzero (gauge field : string) (v : value) : list call :=
  mark_zero v field ++ [CExport gauge field v].

(** A loop over the readings of the parts of a GPU, from part [j] on: the
    loop ends if the first is [bad]. *)
Fixpoint index_loop {A} (key : string) (bad good : A → bool) (on_bad : list call) (set : A → call)
    (j : Z) (l : list A) : list call :=
  match l with
  | [] => []
  | x :: l =>
      CIndex key (dec j) ::
      (if bool_decide (j = 0) && bad x then on_bad
       else (if good x then [set x] else []) ++ index_loop key bad good on_bad set (j + 1) l)
  end.

Definition applicable (w : Z → value) (x : Z) : bool := IsValueApplicable imp (w x).
Definition set_uint (gauge : string) (x : Z) : call := CSetIndexed gauge (Int (float64_of_uint x)).

Definition health_calls (states : gmap string string) : list call :=
  match states !! gpuid with
  | Some health => [CSet "gpuHealth" (Int (if decide (health = "healthy") then 1 else 0))]
  | None => []
  end.

Definition power_calls (stats : GPUStats) : list call :=
  export_nonzero "gpuPackagePower" "GPU_PACKAGE_POWER" (Uint64 (PackagePower stats)) ++
  export_nonzero "gpuAvgPkgPower" "GPU_AVERAGE_PACKAGE_POWER" (Uint64 (AvgPackagePower stats)).

Definition temperature_calls (tempStats : GPUTemperatureStats) : list call :=
  export_nonzero "gpuEdgeTemp" "GPU_EDGE_TEMPERATURE" (Float32 (EdgeTemperature tempStats)) ++
  export_nonzero "gpuJunctionTemp" "GPU_JUNCTION_TEMPERATURE" (Float32 (JunctionTemperature tempStats)) ++
  export_nonzero "gpuMemoryTemp" "GPU_MEMORY_TEMPERATURE" (Float32 (MemoryTemperature tempStats)) ++
  (if decide (HBMTemperature tempStats = []) then [CMark "GPU_HBM_TEMPERATURE"] else []) ++
  (let good t := IsValueApplicable imp (Float32 t) && IsNonZeroValue (Float32 t) in
   index_loop "hbm_index" (λ t, negb (good t)) good [CMark "GPU_HBM_TEMPERATURE"]
     (λ t, CSetIndexed "gpuHBMTemp" (Flt t)) 0 (HBMTemperature tempStats)) ++
  [CDropIndex "hbm_index"].

(** A list of activities whose first may be missing, with what is done if
    the list is empty and if the first is missing. *)
Definition activity_loop (key gauge : string) (on_empty on_bad : list call) (l : list Z) : list call :=
  (if decide (l = []) then on_empty else []) ++
  index_loop key (λ x, negb (applicable Uint32 x)) (applicable Uint32) on_bad (set_uint gauge) 0 l.

Definition usage_calls (gpuUsage : GPUUsage) : list call :=
  export_all
    [ ("gpuGFXActivity", "GPU_GFX_ACTIVITY", Uint32 (GFXActivity gpuUsage));
      ("gpuUMCActivity", "GPU_UMC_ACTIVITY", Uint32 (UMCActivity gpuUsage));
      ("gpuMMAActivity", "GPU_MMA_ACTIVITY", Uint32 (MMActivity gpuUsage)) ] ++
  activity_loop "vcn_index" "gpuVCNActivity"
    [CExport "gpuVCNActivity" "GPU_VCN_ACTIVITY" not_applicable] [CMark "GPU_VCN_ACTIVITY"]
    (VCNActivity gpuUsage) ++
  [CDropIndex "vcn_index"] ++
  activity_loop "jpeg_index" "gpuJPEGActivity" [CMark "GPU_JPEG_ACTIVITY"]
    [CExportIndexed "gpuJPEGActivity" "GPU_JPEG_ACTIVITY" not_applicable] (JPEGActivity gpuUsage) ++
  [CDropIndex "jpeg_index"] ++
  activity_loop "xcc_index" "gpuGfxBusyInst" [CMark "GPU_GFX_BUSY_INSTANTANEOUS"]
    [CExportIndexed "gpuGfxBusyInst" "GPU_GFX_BUSY_INSTANTANEOUS" not_applicable] (GFXBusyInst gpuUsage) ++
  activity_loop "xcc_index" "gpuVcnBusyInst" [CMark "GPU_VCN_BUSY_INSTANTANEOUS"]
    [CExportIndexed "gpuVcnBusyInst" "GPU_VCN_BUSY_INSTANTANEOUS" not_applicable] (VCNBusyInst gpuUsage) ++
  activity_loop "xcc_index" "gpuJpegBusyInst" [CMark "GPU_JPEG_BUSY_INSTANTANEOUS"]
    [CExportIndexed "gpuJpegBusyInst" "GPU_JPEG_BUSY_INSTANTANEOUS" not_applicable] (JPEGBusyInst gpuUsage) ++
  [CDropIndex "xcc_index"].

Definition voltage_calls (volt : GPUVoltage) : list call :=
  mark_zero (Uint64 (volt_Voltage volt)) "GPU_VOLTAGE" ++
  mark_zero (Uint64 (GFXVoltage volt)) "GPU_GFX_VOLTAGE" ++
  mark_zero (Uint64 (MemoryVoltage volt)) "GPU_MEMORY_VOLTAGE" ++
  export_all
    [ ("gpuVoltage", "GPU_VOLTAGE", Uint64 (volt_Voltage volt));
      ("gpuGFXVoltage", "GPU_GFX_VOLTAGE", Uint64 (GFXVoltage volt));
      ("gpuMemVoltage", "GPU_MEMORY_VOLTAGE", Uint64 (MemoryVoltage volt)) ].

Definition pcie_status_calls (pcieStatus : GPUPCIeStatus) : list call :=
  (if IsNonZeroValue (Uint32 (pcie_Speed pcieStatus)) then []
   else [CMark "PCIE_SPEED"; CMark "PCIE_MAX_SPEED"; CMark "PCIE_BANDWIDTH"]) ++
  export_all
    [ ("gpuPCIeSpeed", "PCIE_SPEED", Uint32 (pcie_Speed pcieStatus));
      ("gpuPCIeMaxSpeed", "PCIE_MAX_SPEED", Uint32 (pcie_MaxSpeed pcieStatus));
      ("gpuPCIeBandwidth", "PCIE_BANDWIDTH", Uint64 (pcie_Bandwidth pcieStatus)) ].

Definition GPUClockType_String : Z → string :=
  enum_String [ "GPU_CLOCK_TYPE_NONE"; "GPU_CLOCK_TYPE_FABRIC"; "GPU_CLOCK_TYPE_MEMORY";
    "GPU_CLOCK_TYPE_SYSTEM"; "GPU_CLOCK_TYPE_SOC"; "GPU_CLOCK_TYPE_DCE"; "GPU_CLOCK_TYPE_PCIE";
    "GPU_CLOCK_TYPE_VIDEO"; "GPU_CLOCK_TYPE_DATA" ].

Definition set_applicable (gauge : string) (w : Z → value) (x : Z) : list call :=
  if applicable w x then [set_uint gauge x] else [].

Definition clock_loop (j : nat) (clock : GPUClockStatus) : list call :=
  [ CIndex "clock_index" (dec (Z.of_nat j));
    CIndex "clock_type"
      (NormalizeStringWithoutPrefix (GPUClockType_String (clk_Type clock)) "GPU_CLOCK_TYPE_") ] ++
  set_applicable "gpuClock" Uint32 (Frequency clock) ++
  set_applicable "gpuMinClock" Uint32 (LowFrequency clock) ++
  set_applicable "gpuMaxClock" Uint32 (HighFrequency clock).

(** The test for an empty list inside the first branch is never met: the
    decoder leaves an empty list [nil]. *)
Definition clock_calls (clockStatus : list GPUClockStatus) : list call :=
  match clockStatus with
  | [] => [CExport "gpuClock" "GPU_CLOCK" not_applicable]
  | _ => concat (imap clock_loop clockStatus) ++ [CDropIndex "clock_index"; CDropIndex "clock_type"]
  end.

(** Error counters of the blocks, in three runs. *)
Definition ecc_exports_1 (stats : GPUStats) : list (string * string * value) :=
  [ ("gpuEccCorrectTotal", "GPU_ECC_CORRECT_TOTAL", Uint64 (TotalCorrectableErrors stats));
    ("gpuEccUncorrectTotal", "GPU_ECC_UNCORRECT_TOTAL", Uint64 (TotalUncorrectableErrors stats));
    ("gpuEccCorrectSDMA", "GPU_ECC_CORRECT_SDMA", Uint64 (SDMACorrectableErrors stats));
    ("gpuEccUncorrectSDMA", "GPU_ECC_UNCORRECT_SDMA", Uint64 (SDMAUncorrectableErrors stats));
    ("gpuEccCorrectGFX", "GPU_ECC_CORRECT_GFX", Uint64 (GFXCorrectableErrors stats));
    ("gpuEccUncorrectGFX", "GPU_ECC_UNCORRECT_GFX", Uint64 (GFXUncorrectableErrors stats));
    ("gpuEccCorrectMMHUB", "GPU_ECC_CORRECT_MMHUB", Uint64 (MMHUBCorrectableErrors stats));
    ("gpuEccUncorrectMMHUB", "GPU_ECC_UNCORRECT_MMHUB", Uint64 (MMHUBUncorrectableErrors stats));
    ("gpuEccCorrectATHUB", "GPU_ECC_CORRECT_ATHUB", Uint64 (ATHUBCorrectableErrors stats));
    ("gpuEccUncorrectATHUB", "GPU_ECC_UNCORRECT_ATHUB", Uint64 (ATHUBUncorrectableErrors stats));
    ("gpuEccCorrectBIF", "GPU_ECC_CORRECT_BIF", Uint64 (BIFCorrectableErrors stats));
    ("gpuEccUncorrectBIF", "GPU_ECC_UNCORRECT_BIF", Uint64 (BIFUncorrectableErrors stats));
    ("gpuEccCorrectHDP", "GPU_ECC_CORRECT_HDP", Uint64 (HDPCorrectableErrors stats));
    ("gpuEccUncorrectHDP", "GPU_ECC_UNCORRECT_HDP", Uint64 (HDPUncorrectableErrors stats));
    ("gpuEccCorrectXgmiWAFL", "GPU_ECC_CORRECT_XGMI_WAFL", Uint64 (XGMIWAFLCorrectableErrors stats));
    ("gpuEccUncorrectXgmiWAFL", "GPU_ECC_UNCORRECT_XGMI_WAFL", Uint64 (XGMIWAFLUncorrectableErrors stats));
    ("gpuEccCorrectDF", "GPU_ECC_CORRECT_DF", Uint64 (DFCorrectableErrors stats));
    ("gpuEccUncorrectDF", "GPU_ECC_UNCORRECT_DF", Uint64 (DFUncorrectableErrors stats));
    ("gpuEccCorrectSMN", "GPU_ECC_CORRECT_SMN", Uint64 (SMNCorrectableErrors stats));
    ("gpuEccUncorrectSMN", "GPU_ECC_UNCORRECT_SMN", Uint64 (SMNUncorrectableErrors stats));
    ("gpuEccCorrectSEM", "GPU_ECC_CORRECT_SEM", Uint64 (SEMCorrectableErrors stats));
    ("gpuEccUncorrectSEM", "GPU_ECC_UNCORRECT_SEM", Uint64 (SEMUncorrectableErrors stats)) ].

Definition ecc_exports_2 (stats : GPUStats) : list (string * string * value) :=
  [ ("gpuEccCorrectMP0", "GPU_ECC_CORRECT_MP0", Uint64 (MP0CorrectableErrors stats));
    ("gpuEccUncorrectMP0", "GPU_ECC_UNCORRECT_MP0", Uint64 (MP0UncorrectableErrors stats));
    ("gpuEccCorrectMP1", "GPU_ECC_CORRECT_MP1", Uint64 (MP1CorrectableErrors stats));
    ("gpuEccUncorrectMP1", "GPU_ECC_UNCORRECT_MP1", Uint64 (MP1UncorrectableErrors stats));
    ("gpuEccCorrectFUSE", "GPU_ECC_CORRECT_FUSE", Uint64 (FUSECorrectableErrors stats));
    ("gpuEccUncorrectFUSE", "GPU_ECC_UNCORRECT_FUSE", Uint64 (FUSEUncorrectableErrors stats));
    ("gpuEccCorrectUMC", "GPU_ECC_CORRECT_UMC", Uint64 (UMCCorrectableErrors stats));
    ("gpuEccUncorrectUMC", "GPU_ECC_UNCORRECT_UMC", Uint64 (UMCUncorrectableErrors stats));
    ("gpuEccCorrectMCA", "GPU_ECC_CORRECT_MCA", Uint64 (MCACorrectableErrors stats));
    ("gpuEccUncorrectMCA", "GPU_ECC_UNCORRECT_MCA", Uint64 (MCAUncorrectableErrors stats));
    ("gpuEccCorrectVCN", "GPU_ECC_CORRECT_VCN", Uint64 (VCNCorrectableErrors stats));
    ("gpuEccUncorrectVCN", "GPU_ECC_UNCORRECT_VCN", Uint64 (VCNUncorrectableErrors stats));
    ("gpuEccCorrectJPEG", "GPU_ECC_CORRECT_JPEG", Uint64 (JPEGCorrectableErrors stats));
    ("gpuEccUncorrectJPEG", "GPU_ECC_UNCORRECT_JPEG", Uint64 (JPEGUncorrectableErrors stats));
    ("gpuEccCorrectIH", "GPU_ECC_CORRECT_IH", Uint64 (IHCorrectableErrors stats));
    ("gpuEccUncorrectIH", "GPU_ECC_UNCORRECT_IH", Uint64 (IHUncorrectableErrors stats));
    ("gpuEccCorrectMPIO", "GPU_ECC_CORRECT_MPIO", Uint64 (MPIOCorrectableErrors stats));
    ("gpuEccUncorrectMPIO", "GPU_ECC_UNCORRECT_MPIO", Uint64 (MPIOUncorrectableErrors stats)) ].

Definition ecc_exports_3 (stats : GPUStats) : list (string * string * value) :=
  [ ("gpuEccDeferredTotal", "GPU_ECC_DEFERRED_TOTAL", Uint64 (TotalDeferredErrors stats));
    ("gpuEccDeferredSDMA", "GPU_ECC_DEFERRED_SDMA", Uint64 (SDMADeferredErrors stats));
    ("gpuEccDeferredGFX", "GPU_ECC_DEFERRED_GFX", Uint64 (GFXDeferredErrors stats));
    ("gpuEccDeferredMMHUB", "GPU_ECC_DEFERRED_MMHUB", Uint64 (MMHUBDeferredErrors stats));
    ("gpuEccDeferredATHUB", "GPU_ECC_DEFERRED_ATHUB", Uint64 (ATHUBDeferredErrors stats));
    ("gpuEccDeferredBIF", "GPU_ECC_DEFERRED_BIF", Uint64 (BIFDeferredErrors stats));
    ("gpuEccDeferredHDP", "GPU_ECC_DEFERRED_HDP", Uint64 (HDPDeferredErrors stats));
    ("gpuEccDeferredXgmiWAFL", "GPU_ECC_DEFERRED_XGMI_WAFL", Uint64 (XGMIWAFLDeferredErrors stats));
    ("gpuEccDeferredDF", "GPU_ECC_DEFERRED_DF", Uint64 (DFDeferredErrors stats));
    ("gpuEccDeferredSMN", "GPU_ECC_DEFERRED_SMN", Uint64 (SMNDeferredErrors stats));
    ("gpuEccDeferredSEM", "GPU_ECC_DEFERRED_SEM", Uint64 (SEMDeferredErrors stats));
    ("gpuEccDeferredMP0", "GPU_ECC_DEFERRED_MP0", Uint64 (MP0DeferredErrors stats));
    ("gpuEccDeferredMP1", "GPU_ECC_DEFERRED_MP1", Uint64 (MP1DeferredErrors stats));
    ("gpuEccDeferredFUSE", "GPU_ECC_DEFERRED_FUSE", Uint64 (FUSEDeferredErrors stats));
    ("gpuEccDeferredUMC", "GPU_ECC_DEFERRED_UMC", Uint64 (UMCDeferredErrors stats));
    ("gpuEccDeferredMCA", "GPU_ECC_DEFERRED_MCA", Uint64 (MCADeferredErrors stats));
    ("gpuEccDeferredVCN", "GPU_ECC_DEFERRED_VCN", Uint64 (VCNDeferredErrors stats));
    ("gpuEccDeferredJPEG", "GPU_ECC_DEFERRED_JPEG", Uint64 (JPEGDeferredErrors stats));
    ("gpuEccDeferredIH", "GPU_ECC_DEFERRED_IH", Uint64 (IHDeferredErrors stats));
    ("gpuEccDeferredMPIO", "GPU_ECC_DEFERRED_MPIO", Uint64 (MPIODeferredErrors stats)) ].

(** Traffic to the neighbours. *)
Definition xgmi_neighbor_exports (stats : GPUStats) : list (string * string * value) :=
  [ ("xgmiNbrNopTx0", "GPU_XGMI_NBR_0_NOP_TX", Uint64 (XGMINeighbor0TxNOPs stats));
    ("xgmiNbrReqTx0", "GPU_XGMI_NBR_0_REQ_TX", Uint64 (XGMINeighbor0TxRequests stats));
    ("xgmiNbrRespTx0", "GPU_XGMI_NBR_0_RESP_TX", Uint64 (XGMINeighbor0TxResponses stats));
    ("xgmiNbrBeatsTx0", "GPU_XGMI_NBR_0_BEATS_TX", Uint64 (XGMINeighbor0TXBeats stats));
    ("xgmiNbrNopTx1", "GPU_XGMI_NBR_1_NOP_TX", Uint64 (XGMINeighbor1TxNOPs stats));
    ("xgmiNbrReqTx1", "GPU_XGMI_NBR_1_REQ_TX", Uint64 (XGMINeighbor1TxRequests stats));
    ("xgmiNbrRespTx1", "GPU_XGMI_NBR_1_RESP_TX", Uint64 (XGMINeighbor1TxResponses stats));
    ("xgmiNbrBeatsTx1", "GPU_XGMI_NBR_1_BEATS_TX", Uint64 (XGMINeighbor1TXBeats stats));
    ("xgmiNbrTxTput0", "GPU_XGMI_NBR_0_TX_THRPUT", Uint64 (XGMINeighbor0TxThroughput stats));
    ("xgmiNbrTxTput1", "GPU_XGMI_NBR_1_TX_THRPUT", Uint64 (XGMINeighbor1TxThroughput stats));
    ("xgmiNbrTxTput2", "GPU_XGMI_NBR_2_TX_THRPUT", Uint64 (XGMINeighbor2TxThroughput stats));
    ("xgmiNbrTxTput3", "GPU_XGMI_NBR_3_TX_THRPUT", Uint64 (XGMINeighbor3TxThroughput stats));
    ("xgmiNbrTxTput4", "GPU_XGMI_NBR_4_TX_THRPUT", Uint64 (XGMINeighbor4TxThroughput stats));
    ("xgmiNbrTxTput5", "GPU_XGMI_NBR_5_TX_THRPUT", Uint64 (XGMINeighbor5TxThroughput stats)) ].

(** Memory that is visible, and of the GTT. *)
Definition vram_exports (vramUsage : GPUVRAMUsage) : list (string * string * value) :=
  [ ("gpuTotalVisibleVram", "GPU_TOTAL_VISIBLE_VRAM", Uint64 (TotalVisibleVRAM vramUsage));
    ("gpuUsedVisibleVram", "GPU_USED_VISIBLE_VRAM", Uint64 (UsedVisibleVRAM vramUsage));
    ("gpuFreeVisibleVram", "GPU_FREE_VISIBLE_VRAM", Uint64 (FreeVisibleVRAM vramUsage));
    ("gpuTotalGTT", "GPU_TOTAL_GTT", Uint64 (TotalGTT vramUsage));
    ("gpuUsedGTT", "GPU_USED_GTT", Uint64 (UsedGTT vramUsage));
    ("gpuFreeGTT", "GPU_FREE_GTT", Uint64 (FreeGTT vramUsage)) ].

(** Violations with one reading. *)
Definition violation_exports (violationStats : GPUViolationStats) : list (string * string * value) :=
  [ ("gpuCurrAccCtr", "GPU_VIOLATION_CURRENT_ACCUMULATED_COUNTER", Uint64 (CurrentAccumulatedCounter violationStats));
    ("gpuProcHRA", "GPU_VIOLATION_PROCESSOR_HOT_RESIDENCY_ACCUMULATED", Uint64 (ProcessorHotResidencyAccumulated violationStats));
    ("gpuPPTRA", "GPU_VIOLATION_PPT_RESIDENCY_ACCUMULATED", Uint64 (PPTResidencyAccumulated violationStats));
    ("gpuSTRA", "GPU_VIOLATION_SOCKET_THERMAL_RESIDENCY_ACCUMULATED", Uint64 (SocketThermalResidencyAccumulated violationStats));
    ("gpuVRTRA", "GPU_VIOLATION_VR_THERMAL_RESIDENCY_ACCUMULATED", Uint64 (VRThermalResidencyAccumulated violationStats));
    ("gpuHBMTRA", "GPU_VIOLATION_HBM_THERMAL_RESIDENCY_ACCUMULATED", Uint64 (HBMThermalResidencyAccumulated violationStats));
    ("gpuProcHRPercent", "GPU_VIOLATION_PROCESSOR_HOT_RESIDENCY_PERCENTAGE", Uint64 (ProcessorHotResidencyPercentage violationStats));
    ("gpuPPTRPercent", "GPU_VIOLATION_PPT_RESIDENCY_PERCENTAGE", Uint64 (PPTResidencyPercentage violationStats));
    ("gpuSTRPercent", "GPU_VIOLATION_SOCKET_THERMAL_RESIDENCY_PERCENTAGE", Uint64 (SocketThermalResidencyPercentage violationStats));
    ("gpuVRTRPercent", "GPU_VIOLATION_VR_THERMAL_RESIDENCY_PERCENTAGE", Uint64 (VRThermalResidencyPercentage violationStats));
    ("gpuHBMTRPercent", "GPU_VIOLATION_HBM_THERMAL_RESIDENCY_PERCENTAGE", Uint64 (HBMThermalResidencyPercentage violationStats)) ].

(** Counters of the PCIe link. *)
Definition pcie_stats_exports (pcieStats : GPUPCIeStats) : list (string * string * value) :=
  [ ("gpuPCIeReplayCount", "PCIE_REPLAY_COUNT", Uint64 (ReplayCount pcieStats));
    ("gpuPCIeRecoveryCount", "PCIE_RECOVERY_COUNT", Uint64 (RecoveryCount pcieStats));
    ("gpuPCIeReplayRolloverCount", "PCIE_REPLAY_ROLLOVER_COUNT", Uint64 (ReplayRolloverCount pcieStats));
    ("gpuPCIeNACKSentCount", "PCIE_NACK_SENT_COUNT", Uint64 (NACKSentCount pcieStats));
    ("gpuPCIeNACKReceivedCount", "PCIE_NACK_RECEIVED_COUNT", Uint64 (NACKReceivedCount pcieStats));
    ("gpuPcieRx", "PCIE_RX", Uint64 (RxBytes pcieStats));
    ("gpuPcieTx", "PCIE_TX", Uint64 (TxBytes pcieStats));
    ("gpuPcieBidirBandwidth", "PCIE_BIDIRECTIONAL_BANDWIDTH", Uint64 (BiDirBandwidth pcieStats)) ].


Definition ecc_calls (stats : GPUStats) : list call :=
  export_all (ecc_exports_1 stats ++ ecc_exports_2 stats ++ ecc_exports_3 stats).

(** A size of memory as a [float64], nothing for a size that is missing. *)
Definition vram_size (v : option Z) : Z :=
  match v with Some x => default 0 (NormalizeUint64 imp (Uint64 x)) | None => 0 end.

Definition vram_calls (vramUsage : option GPUVRAMUsage) (vramStatus : option GPUVRAMStatus) : list call :=
  (match vramUsage with Some u => export_all (vram_exports u) | None => [] end) ++
  (let totalVRAM := vram_size (vram_Size <$> vramStatus) in
   let usedVRAM := vram_size (UsedVRAM <$> vramUsage) in
   let freeVRAM := float64_sub totalVRAM usedVRAM in
   if decide (totalVRAM = 0) then []
   else export_all
     [ ("gpuTotalVram", "GPU_TOTAL_VRAM", Float64 (float64 totalVRAM));
       ("gpuUsedVram", "GPU_USED_VRAM", Float64 (float64 usedVRAM));
       ("gpuFreeVram", "GPU_FREE_VRAM", Float64 (float64 freeVRAM)) ]).

Definition link_loop (j : nat) (linkStat : GPUXGMILinkStats) : list call :=
  CIndex "link_index" (dec (Z.of_nat j)) ::
  set_applicable "gpuXgmiLinkStatsRx" Uint64 (DataRead linkStat) ++
  set_applicable "gpuXgmiLinkStatsTx" Uint64 (DataWrite linkStat).

Definition xgmi_link_calls (xgmiStats : list GPUXGMILinkStats) : list call :=
  match xgmiStats with
  | [] => []
  | _ =>
      concat (imap link_loop xgmiStats) ++
      [CDropIndex "link_index"] ++
      (if existsb (λ l, applicable Uint64 (DataRead l)) xgmiStats then [] else [CMark "GPU_XGMI_LINK_RX"]) ++
      (if existsb (λ l, applicable Uint64 (DataWrite l)) xgmiStats then [] else [CMark "GPU_XGMI_LINK_TX"])
  end.

(** A loop over the violations of every die. *)
Definition violation_loop (gauge field : string) (l : list Z) : list call :=
  index_loop "xcc_index" (λ x, negb (applicable Uint64 x)) (applicable Uint64) [CMark field]
    (set_uint gauge) 0 l.

Definition violation_calls (violationStats : GPUViolationStats) : list call :=
  export_all (violation_exports violationStats) ++
  violation_loop "gpuGfxBelowHostLimitPowerAcc"
    "GPU_VIOLATION_GFX_CLOCK_BELOW_HOST_LIMIT_POWER_ACCUMULATED" (GFXBelowHostLimitPowerAccumulated violationStats) ++
  violation_loop "gpuGfxBelowHostLimitTHMAcc"
    "GPU_VIOLATION_GFX_CLOCK_BELOW_HOST_LIMIT_THERMAL_ACCUMULATED" (GFXBelowHostLimitTHMAccumulated violationStats) ++
  violation_loop "gpuGfxLowUtilizationAcc"
    "GPU_VIOLATION_LOW_UTILIZATION_ACCUMULATED" (GFXLowUtilizationAccumulated violationStats) ++
  violation_loop "gpuGfxBelowHostLimitTotalAcc"
    "GPU_VIOLATION_GFX_CLOCK_BELOW_HOST_LIMIT_TOTAL_ACCUMULATED" (GFXBelowHostLimitTotalAccumulated violationStats) ++
  violation_loop "gpuGfxBelowHostLimitPowerPercent"
    "GPU_VIOLATION_GFX_CLOCK_BELOW_HOST_LIMIT_POWER_PERCENTAGE" (GFXBelowHostLimitPowerPercentage violationStats) ++
  violation_loop "gpuGfxBelowHostLimitTHMPercent"
    "GPU_VIOLATION_GFX_CLOCK_BELOW_HOST_LIMIT_THERMAL_PERCENTAGE" (GFXBelowHostLimitTHMPercentage violationStats) ++
  violation_loop "gpuGfxLowUtilizationPercent"
    "GPU_VIOLATION_LOW_UTILIZATION_PERCENTAGE" (GFXLowUtilizationPercentage violationStats) ++
  violation_loop "gpuGfxBelowHostLimitTotalPercent"
    "GPU_VIOLATION_GFX_CLOCK_BELOW_HOST_LIMIT_TOTAL_PERCENTAGE" (GFXBelowHostLimitTotalPercentage violationStats) ++
  [CDropIndex "xcc_index"].

Definition CPERSeverity_String (s : CPERSeverity) : string :=
  match s with
  | CPER_SEVERITY_NONE => "CPER_SEVERITY_NONE"
  | CPER_SEVERITY_NON_FATAL_UNCORRECTED => "CPER_SEVERITY_NON_FATAL_UNCORRECTED"
  | CPER_SEVERITY_FATAL => "CPER_SEVERITY_FATAL"
  | CPER_SEVERITY_NON_FATAL_CORRECTED => "CPER_SEVERITY_NON_FATAL_CORRECTED"
  end.

(** The numbers of the latest error record, if there is one. *)
Definition afid_calls (c : option CPEREntry) : list call :=
  match c with
  | None => []
  | Some c =>
      CIndex "severity" (NormalizeStringWithoutPrefix (CPERSeverity_String (Severity c)) "CPER_SEVERITY_") ::
      concat (imap (λ i afid, [CIndex "afid_index" (dec (Z.of_nat i)); set_uint "gpuAfidErrors" afid]) (AFId c)) ++
      [CDropIndex "afid_index"; CDropIndex "severity"]
  end.

Definition process_loop (procInfo : ProcessInfo) : list call :=
  if decide (PId procInfo = 0) then []
  else if applicable Uint32 (CUOccupancy procInfo)
  then [CIndex "process_id" (dec (PId procInfo)); set_uint "gpuProcessCuOcc" (CUOccupancy procInfo)]
  else [].

Definition process_calls (processStatus : option (list ProcessInfo)) : list call :=
  match processStatus with
  | None | Some [] => []
  | Some l => (l ≫= process_loop) ++ [CDropIndex "process_id"]
  end.

(** ** Profiler counters *)

Definition scale (sc : scaling) (v : double) : double :=
  match sc with AsIs => v | Percent => NormalizePercent v | Fraction => NormalizeFraction v end.

(** The enabled fields whose counter is missing; the code visits a map. *)
Definition missing_counters (exportFieldMap : gmap string bool) (profMetrics : gmap string double)
    : list call :=
  omap (λ p : string * FieldMeta,
    if bool_decide (exportFieldMap !! p.1 = Some true ∧ Alias p.2 ≠ "" ∧ profMetrics !! Alias p.2 = None)
    then Some (CMark p.1) else None) fieldMetricsMap.

(** The switch on the name of a counter. *)
Definition counter_call (mkey : string) (value : double) : list call :=
  match list_find (λ e, e.1 = mkey) profiler_gauges with
  | Some (_, (_, (gauge, sc))) => [CSet gauge (Flt (scale sc value))]
  | None => []
  end.

Definition occupancy_elapsed (profMetrics : gmap string double) : list call :=
  match profMetrics !! "GRBM_GUI_ACTIVE", profMetrics !! "MeanOccupancyPerActiveCU" with
  | Some grbmActive, Some occPerActiveCU =>
      if SFeqb grbmActive d_zero then []
      else [CSet "gpuOccElapsed" (Flt (SFdiv 53 1024 occPerActiveCU grbmActive))]
  | _, _ => []
  end.

Definition profiler_calls (exportFieldMap : gmap string bool) (profMetrics : option (gmap string double))
    : list call :=
  match profMetrics with
  | None => []
  | Some p =>
      missing_counters exportFieldMap p ++
      (map_to_list p ≫= λ e, counter_call e.1 e.2) ++
      occupancy_elapsed p
  end.

(** ** All calls *)

Definition optional {A} (f : A → list call) (x : option A) : list call :=
  match x with Some x => f x | None => [] end.

Definition readings (states : gmap string string) (exportFieldMap : gmap string bool)
    (cper : option CPEREntry) (profMetrics : option (gmap string double))
    (status : GPUStatus) (stats : GPUStats) : list call :=
  health_calls states ++
  power_calls stats ++
  optional temperature_calls (Temperature stats) ++
  optional usage_calls (Usage stats) ++
  optional voltage_calls (Voltage stats) ++
  optional pcie_status_calls (PCIeStatus status) ++
  optional (λ p, export_all (pcie_stats_exports p)) (PCIeStats stats) ++
  export_nonzero "gpuEnergyConsumed" "GPU_ENERGY_CONSUMED" (Float64 (EnergyConsumed stats)) ++
  clock_calls (ClockStatus status) ++
  export_nonzero "gpuPowerUsage" "GPU_POWER_USAGE" (Uint64 (PowerUsage stats)) ++
  [CExport "gpuVramMaxBandwidth" "GPU_VRAM_MAX_BANDWIDTH"
     (Float64 (float64 (float64_of_uint (default 0 (vram_MaxBandwidth <$> VRAMStatus status)))))] ++
  ecc_calls stats ++
  export_all (xgmi_neighbor_exports stats) ++
  vram_calls (VRAMUsage stats) (VRAMStatus status) ++
  xgmi_link_calls (XGMILinkStats stats) ++
  optional violation_calls (ViolationStats stats) ++
  afid_calls cper ++
  process_calls (ProcessStatus status) ++
  profiler_calls exportFieldMap profMetrics.
End exec.
