(* ===== verification/GpuTable.v ===== *)
(** What a scrape publishes for a GPU, as a table: every series with its
    gauge, its labels and its value.  The calls of
    [updateGPUInfoToMetrics] share one map of labels with an index, which
    they change all the time, and ask a filter with a state; [table] has
    neither.  [run_table] shows that both agree when the filter is done. *)

From S2P Require Import Prelude RocpSdk Format FormatProofs GoStd ExporterUtils RocpClient Scheduler GpuMessages.
From S2P Require Import GpuAgent Config FieldLogger LabelConfig MetricFields GpuReadings.
From Stdlib Require Import Ascii.
Local Open Scope Z_scope.

(** What is written to a series: a reading that passes the filter under the
    name of its field, or a value. *)
Inductive payload : Type :=
  | Filtered (fieldName : string) (val : value)
  | Plain (x : sample).

Definition entry : Type := (string * Labels) * payload.

Definition numeric (v : value) : Prop := match v with Nil | OtherType => False | _ => True end.

Definition numeric_entry (e : entry) : Prop :=
  match e.2 with Filtered _ v => numeric v | Plain _ => True end.

Section table.
Context (imp : Z → double → Z).

(** The value of a reading if it is applicable. *)
Definition published (val : value) : option sample :=
  if IsValueApplicable imp val then Int <$> NormalizeUint64 imp val else None.

Definition value_of (unsupported : gset string) (gpuid : string) (p : payload) : option sample :=
  match p with
  | Filtered f v =>
      if bool_decide (field_key gpuid f ∈ unsupported) then None else published v
  | Plain x => Some x
  end.

Section gpu.
Context (gpuid : string) (labels : Labels).

Definition filtered (l : list (string * string * value)) : list entry :=
  (λ e, ((e.1.1, labels), Filtered e.1.2 e.2)) <$> l.

Definition filtered1 (gauge field : string) (v : value) : list entry := filtered [(gauge, field, v)].

(** The series of the parts of a GPU; none if the first reading is not good. *)
Definition parts {A} (key gauge : string) (good : A → bool) (val : A → sample) (l : list A) : list entry :=
  match l with
  | x :: _ =>
      if good x then
        concat (imap (λ j x, if good x
          then [((gauge, <[key := dec (Z.of_nat j)]> labels), Plain (val x))] else []) l)
      else []
  | [] => []
  end.

Definition uint_parts (key gauge : string) (w : Z → value) (l : list Z) : list entry :=
  parts key gauge (applicable imp w) (λ x, Int (float64_of_uint x)) l.

Definition part (gauge : string) (L : Labels) (w : Z → value) (x : Z) : list entry :=
  if applicable imp w x then [((gauge, L), Plain (Int (float64_of_uint x)))] else [].

Definition health_table (states : gmap string string) : list entry :=
  match states !! gpuid with
  | Some health => [(("gpuHealth", labels), Plain (Int (if decide (health = "healthy") then 1 else 0)))]
  | None => []
  end.

Definition temperature_table (t : GPUTemperatureStats) : list entry :=
  filtered [ ("gpuEdgeTemp", "GPU_EDGE_TEMPERATURE", Float32 (EdgeTemperature t));
             ("gpuJunctionTemp", "GPU_JUNCTION_TEMPERATURE", Float32 (JunctionTemperature t));
             ("gpuMemoryTemp", "GPU_MEMORY_TEMPERATURE", Float32 (MemoryTemperature t)) ] ++
  parts "hbm_index" "gpuHBMTemp" (λ x, IsValueApplicable imp (Float32 x) && IsNonZeroValue (Float32 x)) Flt
    (HBMTemperature t).

Definition usage_table (u : GPUUsage) : list entry :=
  filtered [ ("gpuGFXActivity", "GPU_GFX_ACTIVITY", Uint32 (GFXActivity u));
             ("gpuUMCActivity", "GPU_UMC_ACTIVITY", Uint32 (UMCActivity u));
             ("gpuMMAActivity", "GPU_MMA_ACTIVITY", Uint32 (MMActivity u)) ] ++
  uint_parts "vcn_index" "gpuVCNActivity" Uint32 (VCNActivity u) ++
  uint_parts "jpeg_index" "gpuJPEGActivity" Uint32 (JPEGActivity u) ++
  uint_parts "xcc_index" "gpuGfxBusyInst" Uint32 (GFXBusyInst u) ++
  uint_parts "xcc_index" "gpuVcnBusyInst" Uint32 (VCNBusyInst u) ++
  uint_parts "xcc_index" "gpuJpegBusyInst" Uint32 (JPEGBusyInst u).

Definition clock_table (clocks : list GPUClockStatus) : list entry :=
  concat (imap (λ j c,
    let L := <["clock_type" := NormalizeStringWithoutPrefix (GPUClockType_String (clk_Type c)) "GPU_CLOCK_TYPE_"]>
             (<["clock_index" := dec (Z.of_nat j)]> labels) in
    part "gpuClock" L Uint32 (Frequency c) ++ part "gpuMinClock" L Uint32 (LowFrequency c) ++
    part "gpuMaxClock" L Uint32 (HighFrequency c)) clocks).

(** Memory: the free part is what the total is more than the used part. *)
Definition vram_table (u : option GPUVRAMUsage) (st : option GPUVRAMStatus) : list entry :=
  match u with Some u => filtered (vram_exports u) | None => [] end ++
  let total := vram_size imp (vram_Size <$> st) in
  let used := vram_size imp (UsedVRAM <$> u) in
  if decide (total = 0) then []
  else filtered [ ("gpuTotalVram", "GPU_TOTAL_VRAM", Float64 (float64 total));
                  ("gpuUsedVram", "GPU_USED_VRAM", Float64 (float64 used));
                  ("gpuFreeVram", "GPU_FREE_VRAM", Float64 (float64 (float64_sub total used))) ].

Definition xgmi_link_table (links : list GPUXGMILinkStats) : list entry :=
  concat (imap (λ j l, let L := <["link_index" := dec (Z.of_nat j)]> labels in
    part "gpuXgmiLinkStatsRx" L Uint64 (DataRead l) ++ part "gpuXgmiLinkStatsTx" L Uint64 (DataWrite l)) links).

Definition violation_table (v : GPUViolationStats) : list entry :=
  filtered (violation_exports v) ++
  uint_parts "xcc_index" "gpuGfxBelowHostLimitPowerAcc" Uint64 (GFXBelowHostLimitPowerAccumulated v) ++
  uint_parts "xcc_index" "gpuGfxBelowHostLimitTHMAcc" Uint64 (GFXBelowHostLimitTHMAccumulated v) ++
  uint_parts "xcc_index" "gpuGfxLowUtilizationAcc" Uint64 (GFXLowUtilizationAccumulated v) ++
  uint_parts "xcc_index" "gpuGfxBelowHostLimitTotalAcc" Uint64 (GFXBelowHostLimitTotalAccumulated v) ++
  uint_parts "xcc_index" "gpuGfxBelowHostLimitPowerPercent" Uint64 (GFXBelowHostLimitPowerPercentage v) ++
  uint_parts "xcc_index" "gpuGfxBelowHostLimitTHMPercent" Uint64 (GFXBelowHostLimitTHMPercentage v) ++
  uint_parts "xcc_index" "gpuGfxLowUtilizationPercent" Uint64 (GFXLowUtilizationPercentage v) ++
  uint_parts "xcc_index" "gpuGfxBelowHostLimitTotalPercent" Uint64 (GFXBelowHostLimitTotalPercentage v).

Definition afid_table (c : option CPEREntry) : list entry :=
  match c with
  | None => []
  | Some c => imap (λ i afid,
      (("gpuAfidErrors",
        <["afid_index" := dec (Z.of_nat i)]>
        (<["severity" := NormalizeStringWithoutPrefix (CPERSeverity_String (Severity c)) "CPER_SEVERITY_"]> labels)),
       Plain (Int (float64_of_uint afid)))) (AFId c)
  end.

Definition process_table (l : option (list ProcessInfo)) : list entry :=
  default [] l ≫= λ p,
    if decide (PId p = 0) then []
    else part "gpuProcessCuOcc" (<["process_id" := dec (PId p)]> labels) Uint32 (CUOccupancy p).

Definition profiler_table (profMetrics : option (gmap string double)) : list entry :=
  match profMetrics with
  | None => []
  | Some p =>
      (map_to_list p ≫= λ e,
         match list_find (λ c, c.1 = e.1) profiler_gauges with
         | Some (_, (_, (gauge, sc))) => [((gauge, labels), Plain (Flt (scale sc e.2)))]
         | None => []
         end) ++
      match p !! "GRBM_GUI_ACTIVE", p !! "MeanOccupancyPerActiveCU" with
      | Some active, Some occupancy =>
          if SFeqb active d_zero then []
          else [(("gpuOccElapsed", labels), Plain (Flt (SFdiv 53 1024 occupancy active)))]
      | _, _ => []
      end
  end.

Definition table_opt {A} (f : A → list entry) (x : option A) : list entry :=
  match x with Some x => f x | None => [] end.

Definition voltage_table (v : GPUVoltage) : list entry :=
  filtered [ ("gpuVoltage", "GPU_VOLTAGE", Uint64 (volt_Voltage v));
             ("gpuGFXVoltage", "GPU_GFX_VOLTAGE", Uint64 (GFXVoltage v));
             ("gpuMemVoltage", "GPU_MEMORY_VOLTAGE", Uint64 (MemoryVoltage v)) ].

Definition pcie_status_table (p : GPUPCIeStatus) : list entry :=
  filtered [ ("gpuPCIeSpeed", "PCIE_SPEED", Uint32 (pcie_Speed p));
             ("gpuPCIeMaxSpeed", "PCIE_MAX_SPEED", Uint32 (pcie_MaxSpeed p));
             ("gpuPCIeBandwidth", "PCIE_BANDWIDTH", Uint64 (pcie_Bandwidth p)) ].

Definition table (states : gmap string string) (cper : option CPEREntry)
    (profMetrics : option (gmap string double)) (status : GPUStatus) (stats : GPUStats) : list entry :=
  health_table states ++
  filtered [ ("gpuPackagePower", "GPU_PACKAGE_POWER", Uint64 (PackagePower stats));
             ("gpuAvgPkgPower", "GPU_AVERAGE_PACKAGE_POWER", Uint64 (AvgPackagePower stats)) ] ++
  table_opt temperature_table (Temperature stats) ++
  table_opt usage_table (Usage stats) ++
  table_opt voltage_table (Voltage stats) ++
  table_opt pcie_status_table (PCIeStatus status) ++
  table_opt (λ p, filtered (pcie_stats_exports p)) (PCIeStats stats) ++
  filtered1 "gpuEnergyConsumed" "GPU_ENERGY_CONSUMED" (Float64 (EnergyConsumed stats)) ++
  clock_table (ClockStatus status) ++
  filtered1 "gpuPowerUsage" "GPU_POWER_USAGE" (Uint64 (PowerUsage stats)) ++
  filtered1 "gpuVramMaxBandwidth" "GPU_VRAM_MAX_BANDWIDTH"
    (Float64 (float64 (float64_of_uint (default 0 (vram_MaxBandwidth <$> VRAMStatus status))))) ++
  filtered (ecc_exports_1 stats ++ ecc_exports_2 stats ++ ecc_exports_3 stats) ++
  filtered (xgmi_neighbor_exports stats) ++
  vram_table (VRAMUsage stats) (VRAMStatus status) ++
  xgmi_link_table (XGMILinkStats stats) ++
  table_opt violation_table (ViolationStats stats) ++
  afid_table cper ++
  process_table (ProcessStatus status) ++
  profiler_table profMetrics.
End gpu.
End table.
