(* ===== verification/GpuTableProofs.v ===== *)
(** The calls of [updateGPUInfoToMetrics] write the series of the table of
    [GpuTable]: first the labels every call uses are resolved, section by
    section, then the calls are carried out. *)

From S2P Require Import Prelude RocpSdk Format FormatProofs GoStd ExporterUtils RocpClient Scheduler GpuMessages.
From S2P Require Import GpuAgent Config FieldLogger LabelConfig MetricFields GpuReadings GpuTable.
From Stdlib Require Import Ascii.
Local Open Scope Z_scope.

(** ** Resolving the labels *)

Definition index_step (lwi : Labels) (c : call) : Labels :=
  match c with CIndex k v => <[k := v]> lwi | CDropIndex k => delete k lwi | _ => lwi end.

Section resolve.
Context (imp : Z → double → Z) (gpuid : string) (labels : Labels).

Definition written (lwi : Labels) (c : call) : list entry :=
  match c with
  | CExport g f v => [((g, labels), Filtered f v)]
  | CExportIndexed g f v => [((g, lwi), Filtered f v)]
  | CSet g x => [((g, labels), Plain x)]
  | CSetIndexed g x => [((g, lwi), Plain x)]
  | _ => []
  end.

Fixpoint resolve (lwi : Labels) (l : list call) : list entry :=
  match l with [] => [] | c :: l => written lwi c ++ resolve (index_step lwi c) l end.

Definition after (lwi : Labels) (l : list call) : Labels := foldl index_step lwi l.

Lemma resolve_app lwi l1 l2 : resolve lwi (l1 ++ l2) = resolve lwi l1 ++ resolve (after lwi l1) l2.
Proof.
  revert lwi. induction l1 as [|c l1 IH]; intros lwi; [done|].
  cbn [resolve app]. rewrite IH, app_assoc. done.
Qed.

Lemma after_app lwi l1 l2 : after lwi (l1 ++ l2) = after (after lwi l1) l2.
Proof. apply foldl_app. Qed.

(** An entry that can have a value, or panic. *)
Definition live (e : entry) : Prop :=
  match e.2 with Filtered _ v => is_Some (published imp v) ∨ ¬ numeric v | Plain _ => True end.
#[export] Instance live_dec e : Decision (live e).
Proof. unfold live, numeric. destruct e.2 as [f []|]; apply _. Defined.

(** A section of the calls writes the entries of [t] and leaves the labels
    with an index as it found them. *)
Definition section (l : list call) (t : list entry) : Prop :=
  filter live (resolve labels l) = filter live t ∧ after labels l = labels.

(** The same for a loop that leaves one index behind. *)
Definition leaves (key : string) (l : list call) (t : list entry) : Prop :=
  ∀ lwi, delete key lwi = labels →
    filter live (resolve lwi l) = filter live t ∧ delete key (after lwi l) = labels.

Lemma section_app l1 l2 t1 t2 : section l1 t1 → section l2 t2 → section (l1 ++ l2) (t1 ++ t2).
Proof.
  intros [Hr1 Ha1] [Hr2 Ha2]. unfold section.
  by rewrite resolve_app, after_app, Ha1, !filter_app, Hr1, Hr2.
Qed.

Lemma leaves_app key l1 l2 t1 t2 :
  leaves key l1 t1 → leaves key l2 t2 → leaves key (l1 ++ l2) (t1 ++ t2).
Proof.
  intros H1 H2 lwi Hl. destruct (H1 lwi Hl) as [Hr1 Ha1], (H2 (after lwi l1) Ha1) as [Hr2 Ha2].
  by rewrite resolve_app, after_app, !filter_app, Hr1, Hr2.
Qed.

Lemma section_leaves key l t : labels !! key = None → leaves key l t → section (l ++ [CDropIndex key]) t.
Proof.
  intros Hk Hl. destruct (Hl labels (delete_id _ _ Hk)) as [Hr Ha]. unfold section.
  rewrite resolve_app, after_app, filter_app, Hr. cbn. by rewrite Ha, app_nil_r.
Qed.

Lemma section_nil : section [] [].
Proof. done. Qed.

Lemma mark_zero_quiet v f : section (mark_zero v f) [].
Proof. unfold mark_zero. by destruct (IsNonZeroValue v). Qed.

Lemma section_export_all l : section (export_all l) (filtered labels l).
Proof.
  unfold section. enough (∀ lwi, resolve lwi (export_all l) = filtered labels l ∧
                                 after lwi (export_all l) = lwi) as H.
  { destruct (H labels) as [-> ->]. done. }
  intros lwi. induction l as [|[[g f] v] l [IH1 IH2]]; [done|].
  change (export_all ((g, f, v) :: l)) with (CExport g f v :: export_all l).
  cbn [resolve written index_step app]. rewrite IH1. split; [done|]. exact IH2.
Qed.

Lemma section_export1 g f v : section [CExport g f v] (filtered1 labels g f v).
Proof. exact (section_export_all [(g, f, v)]). Qed.

Lemma section_nonzero g f v : section (export_nonzero g f v) (filtered1 labels g f v).
Proof.
  unfold export_nonzero. change (filtered1 labels g f v) with ([] ++ filtered1 labels g f v).
  apply section_app; [apply mark_zero_quiet|]. exact (section_export_all [(g, f, v)]).
Qed.

Lemma not_applicable_dead : published imp not_applicable = None.
Proof. reflexivity. Qed.

Lemma section_dead g f : section [CExport g f not_applicable] [].
Proof. unfold section. cbn [resolve written app index_step after foldl]. split; [|done].
  rewrite filter_cons_False; [done|]. intros [H|H]; [by apply is_Some_None in H|by apply H].
Qed.

Lemma section_optional {A} (f : A → list call) (t : A → list entry) x :
  (∀ a, section (f a) (t a)) → section (optional f x) (table_opt t x).
Proof. intros H. destruct x; [apply H|apply section_nil]. Qed.

(** Loops. *)
Lemma insert_over (lwi : Labels) key v : delete key lwi = labels → <[key := v]> lwi = <[key := v]> labels.
Proof. intros <-. by rewrite insert_delete_eq. Qed.

Lemma delete_over (lwi : Labels) key v : delete key lwi = labels → delete key (<[key := v]> lwi) = labels.
Proof. intros <-. apply delete_insert_eq. Qed.

Lemma loop_tail {A} key gauge (bad good : A → bool) on_bad (val : A → sample) l : ∀ j lwi,
  0 < j → delete key lwi = labels →
  resolve lwi (index_loop key bad good on_bad (λ x, CSetIndexed gauge (val x)) j l) =
    concat (imap (λ i x, if good x
      then [((gauge, <[key := dec (j + Z.of_nat i)]> labels), Plain (val x))] else []) l) ∧
  delete key (after lwi (index_loop key bad good on_bad (λ x, CSetIndexed gauge (val x)) j l)) = labels.
Proof.
  induction l as [|x l IH]; intros j lwi Hj Hl; [done|].
  cbn [index_loop]. rewrite bool_decide_eq_false_2 by lia. cbn [andb].
  cbn [resolve after foldl index_step written app imap concat]. rewrite (insert_over _ _ _ Hl).
  assert (Hd : delete key (<[key := dec j]> labels) = labels).
  { rewrite <- (insert_over _ _ _ Hl). by apply delete_over. }
  destruct (IH (j + 1) _ ltac:(lia) Hd) as [Hr Ha]. rewrite Z.add_0_r.
  assert (imap ((λ i x0, if good x0 then [(gauge, <[key:=dec (j + Z.of_nat i)]> labels, Plain (val x0))] else []) ∘ S) l =
          imap (λ i x0, if good x0 then [(gauge, <[key:=dec (j + 1 + Z.of_nat i)]> labels, Plain (val x0))] else []) l) as ->.
  { apply imap_ext. intros i y _. cbn. by replace (j + Z.of_nat (S i)) with (j + 1 + Z.of_nat i) by lia. }
  destruct (good x); cbn [app resolve written foldl index_step]; rewrite <- Hr; by split.
Qed.

(** Calls without an effect when the filter is done. *)
Definition quiet (l : list call) : Prop :=
  ∀ lwi, filter live (resolve lwi l) = [] ∧ after lwi l = lwi.

Lemma leaves_loop {A} key gauge (good : A → bool) on_bad (val : A → sample) l :
  quiet on_bad →
  leaves key (index_loop key (λ x, negb (good x)) good on_bad (λ x, CSetIndexed gauge (val x)) 0 l)
    (parts labels key gauge good val l).
Proof.
  intros Hbad lwi Hl. destruct l as [|x l]; [done|].
  cbn [index_loop parts]. rewrite bool_decide_eq_true_2 by done. cbn [andb].
  destruct (good x) eqn:Hg; cbn [negb resolve after foldl index_step written app].
  - rewrite (insert_over _ _ _ Hl).
    assert (Hd : delete key (<[key := dec 0]> labels) = labels).
    { rewrite <- (insert_over _ _ _ Hl). by apply delete_over. }
    destruct (loop_tail key gauge (λ x, negb (good x)) good on_bad val l 1 _ ltac:(lia) Hd) as [Hr Ha].
    split; [|exact Ha]. cbn [imap concat]. change (0 + 1) with 1. rewrite Hr, Hg. cbn [app]. do 3 f_equal.
    apply imap_ext. intros i y _. cbn. by replace (1 + Z.of_nat i) with (Z.of_nat (S i)) by lia.
  - destruct (Hbad (<[key := dec 0]> lwi)) as [-> Ha]. split; [done|].
    unfold after in Ha. rewrite Ha. by apply delete_over.
Qed.

Lemma quiet_mark f : quiet [CMark f].
Proof. done. Qed.

Lemma quiet_dead g f : quiet [CExportIndexed g f not_applicable].
Proof.
  intros lwi. cbn [resolve written app index_step after foldl]. split; [|done].
  rewrite filter_cons_False; [done|]. intros [H|H]; [by apply is_Some_None in H|by apply H].
Qed.

Lemma quiet_dead_plain g f : quiet [CExport g f not_applicable].
Proof.
  intros lwi. cbn [resolve written app index_step after foldl]. split; [|done].
  rewrite filter_cons_False; [done|]. intros [H|H]; [by apply is_Some_None in H|by apply H].
Qed.

Lemma section_quiet l : quiet l → section l [].
Proof. intros Hl. exact (Hl labels). Qed.

Lemma leaves_activity key gauge on_empty on_bad l : quiet on_empty → quiet on_bad →
  leaves key (activity_loop imp key gauge on_empty on_bad l) (uint_parts imp labels key gauge Uint32 l).
Proof.
  intros Hempty Hbad. unfold activity_loop.
  change (uint_parts imp labels key gauge Uint32 l) with ([] ++ uint_parts imp labels key gauge Uint32 l).
  apply leaves_app; [|by apply leaves_loop].
  intros lwi Hl. case_decide; [|done]. destruct (Hempty lwi) as [-> ->]. done.
Qed.

(** A loop whose rounds keep [P] of the labels with an index. *)
Lemma resolve_rounds {A} (P : Labels → Prop) (body : nat → A → list call) (t : nat → A → list entry) l :
  (∀ j x lwi, P lwi → resolve lwi (body j x) = t j x ∧ P (after lwi (body j x))) →
  ∀ lwi, P lwi → resolve lwi (concat (imap body l)) = concat (imap t l) ∧ P (after lwi (concat (imap body l))).
Proof.
  revert body t. induction l as [|x l IH]; intros body t Hb lwi Hl; [done|].
  cbn [imap concat]. rewrite resolve_app, after_app. destruct (Hb 0%nat x lwi Hl) as [-> Ha].
  destruct (IH (body ∘ S) (t ∘ S) (λ j, Hb (S j)) _ Ha) as [-> Hc]. done.
Qed.

Lemma resolve_part gauge w x lwi :
  resolve lwi (set_applicable imp gauge w x) = part imp gauge lwi w x ∧
  after lwi (set_applicable imp gauge w x) = lwi.
Proof. unfold set_applicable, part. by destruct (applicable imp w x). Qed.

Lemma insert_over2 (lwi : Labels) k1 k2 v1 v2 : delete k2 (delete k1 lwi) = labels →
  <[k2 := v2]> (<[k1 := v1]> lwi) = <[k2 := v2]> (<[k1 := v1]> labels).
Proof.
  intros <-. apply map_eq. intros k.
  destruct (decide (k = k2)) as [->|]; [by rewrite !lookup_insert_eq|]. rewrite !(lookup_insert_ne _ k2) by done.
  destruct (decide (k = k1)) as [->|]; [by rewrite !lookup_insert_eq|]. rewrite !(lookup_insert_ne _ k1) by done.
  by rewrite !lookup_delete_ne.
Qed.

Lemma delete_over2 (lwi : Labels) k1 k2 v1 v2 : delete k2 (delete k1 lwi) = labels →
  delete k2 (delete k1 (<[k2 := v2]> (<[k1 := v1]> lwi))) = labels.
Proof.
  intros <-. apply map_eq. intros k.
  destruct (decide (k = k2)) as [->|]; [by rewrite !lookup_delete_eq|]. rewrite !(lookup_delete_ne _ k2) by done.
  destruct (decide (k = k1)) as [->|]; [by rewrite !lookup_delete_eq|]. rewrite !(lookup_delete_ne _ k1) by done.
  by rewrite !lookup_insert_ne by done.
Qed.

(** ** The sections *)

Definition index_keys : list string :=
  [ "hbm_index"; "vcn_index"; "jpeg_index"; "xcc_index"; "clock_index"; "clock_type"; "link_index";
    "severity"; "afid_index"; "process_id" ].

Definition index_free : Prop := Forall (λ k, labels !! k = None) index_keys.

Context (Hfree : index_free).

Lemma free key : key ∈ index_keys → labels !! key = None.
Proof. intros Hk. revert key Hk. by apply Forall_forall. Qed.

Lemma section_health states : section (health_calls gpuid states) (health_table gpuid labels states).
Proof. unfold health_calls, health_table. by destruct (states !! gpuid). Qed.

Lemma section_power stats : section (power_calls stats)
  (filtered labels [ ("gpuPackagePower", "GPU_PACKAGE_POWER", Uint64 (PackagePower stats));
                     ("gpuAvgPkgPower", "GPU_AVERAGE_PACKAGE_POWER", Uint64 (AvgPackagePower stats)) ]).
Proof. exact (section_app _ _ _ _ (section_nonzero _ _ _) (section_nonzero _ _ _)). Qed.

Lemma section_temperature t : section (temperature_calls imp t) (temperature_table imp labels t).
Proof.
  unfold temperature_calls, temperature_table. 
  refine (section_app _ _ [_] _ (section_nonzero _ _ _) _).
  refine (section_app _ _ [_] _ (section_nonzero _ _ _) _).
  refine (section_app _ _ [_] _ (section_nonzero _ _ _) _).
  refine (section_app _ _ [] _ _ _).
  - apply section_quiet. by case_decide.
  - apply section_leaves; [apply free; set_solver|]. apply leaves_loop, quiet_mark.
Qed.

Lemma section_usage u : section (usage_calls imp u) (usage_table imp labels u).
Proof.
  unfold usage_calls, usage_table. apply section_app; [apply section_export_all|].
  rewrite (app_assoc _ [CDropIndex "vcn_index"]).
  apply section_app.
  { apply section_leaves; [apply free; set_solver|].
    apply leaves_activity; [apply quiet_dead_plain|apply quiet_mark]. }
  rewrite (app_assoc _ [CDropIndex "jpeg_index"]). apply section_app.
  { apply section_leaves; [apply free; set_solver|].
    apply leaves_activity; [apply quiet_mark|apply quiet_dead]. }
  rewrite !app_assoc. apply section_leaves; [apply free; set_solver|]. rewrite <- !app_assoc.
  repeat (first [apply leaves_app | apply leaves_activity; [apply quiet_mark|apply quiet_dead]]).
Qed.

Lemma section_voltage v : section (voltage_calls v) (voltage_table labels v).
Proof.
  unfold voltage_calls, voltage_table.
  do 3 (refine (section_app _ _ [] _ (mark_zero_quiet _ _) _)). apply section_export_all.
Qed.

Lemma section_pcie_status p : section (pcie_status_calls p) (pcie_status_table labels p).
Proof.
  unfold pcie_status_calls, pcie_status_table. refine (section_app _ _ [] _ _ (section_export_all _)).
  by destruct (IsNonZeroValue _).
Qed.

Lemma section_clock l : section (clock_calls imp l) (clock_table imp labels l).
Proof.
  unfold clock_calls, clock_table. destruct l as [|c l]; [apply section_dead|].
  set (P lwi := delete "clock_type" (delete "clock_index" lwi) = labels).
  assert (HP : P labels) by (unfold P; rewrite (delete_id labels), delete_id; [done|apply free; set_solver..]).
  match goal with |- section (concat (imap ?body ?l) ++ _) (concat (imap ?t _)) =>
    destruct (resolve_rounds P body t l) with labels as [Hr Ha]; [|exact HP|]
  end.
  - intros j x lwi Hl. unfold clock_loop. cbn [app resolve written index_step after foldl].
    rewrite !resolve_app. fold (after (<["clock_type":=NormalizeStringWithoutPrefix (GPUClockType_String (clk_Type x)) "GPU_CLOCK_TYPE_"]>
      (<["clock_index":=dec (Z.of_nat j)]> lwi))).
    rewrite !after_app, !(proj2 (resolve_part _ _ _ _)), !(proj1 (resolve_part _ _ _ _)).
    rewrite !insert_over2 by done. split; [done|]. unfold P. rewrite <- (insert_over2 _ _ _ _ _ Hl). by apply delete_over2.
  - unfold section. rewrite resolve_app, after_app, filter_app, Hr. cbn [resolve written index_step app after foldl].
    split; [by rewrite filter_nil, app_nil_r|exact Ha].
Qed.

Lemma section_links l : section (xgmi_link_calls imp l) (xgmi_link_table imp labels l).
Proof.
  unfold xgmi_link_calls, xgmi_link_table. destruct l as [|c l]; [done|].
  match goal with |- section (concat (imap ?body ?l) ++ _) (concat (imap ?t _)) =>
    assert (leaves "link_index" (concat (imap body l)) (concat (imap t l))) as Hl
  end.
  { intros lwi Hl. match goal with |- filter live (resolve lwi (concat (imap ?body ?l))) = filter live (concat (imap ?t _)) ∧ _ =>
      destruct (resolve_rounds (λ lwi, delete "link_index" lwi = labels) body t l) with lwi as [Hr Ha]; [|exact Hl|]
    end; [|by rewrite Hr].
    clear lwi Hl. intros j x lwi Hl. unfold link_loop. cbn [resolve written index_step app]. rewrite (insert_over _ _ _ Hl).
    rewrite resolve_app, (proj2 (resolve_part _ _ _ _)), !(proj1 (resolve_part _ _ _ _)).
    cbn [after foldl index_step]. fold (after (<["link_index":=dec (Z.of_nat j)]> lwi)).
    rewrite !after_app, !(proj2 (resolve_part _ _ _ _)). split; [done|]. by apply delete_over. }
  rewrite app_assoc, <- (app_nil_r (concat (imap (λ _ _, _ ++ _) _))).
  apply section_app; [by apply section_leaves; [apply free; set_solver|]|].
  refine (section_app _ _ [] [] _ _); by case_match.
Qed.

Lemma leaves_violation gauge field l :
  leaves "xcc_index" (violation_loop imp gauge field l) (uint_parts imp labels "xcc_index" gauge Uint64 l).
Proof. apply leaves_loop, quiet_mark. Qed.

Lemma section_violations v : section (violation_calls imp v) (violation_table imp labels v).
Proof.
  unfold violation_calls, violation_table. apply section_app; [apply section_export_all|].
  rewrite !app_assoc. apply section_leaves; [apply free; set_solver|]. rewrite <- !app_assoc.
  repeat (first [apply leaves_app | apply leaves_violation]).
Qed.

Lemma section_afid c : section (afid_calls c) (afid_table labels c).
Proof.
  unfold afid_calls, afid_table. destruct c as [c|]; [|done].
  set (sev := NormalizeStringWithoutPrefix _ _). set (L := <["severity" := sev]> labels).
  assert (HL : delete "afid_index" L = L).
  { unfold L. apply delete_id. rewrite lookup_insert_ne by done. apply free. set_solver. }
  match goal with |- section (_ :: concat (imap ?body ?l) ++ _) _ =>
    destruct (resolve_rounds (λ lwi, delete "afid_index" lwi = L) body
      (λ i afid, [(("gpuAfidErrors", <["afid_index" := dec (Z.of_nat i)]> L), Plain (Int (float64_of_uint afid)))]) l)
      with L as [Hr Ha]; [|exact HL|]
  end.
  - intros j x lwi Hl. cbn [resolve written index_step app after foldl set_uint].
    assert (<["afid_index" := dec (Z.of_nat j)]> lwi = <["afid_index" := dec (Z.of_nat j)]> L) as ->
      by (rewrite <- Hl; by rewrite insert_delete_eq).
    split; [done|]. rewrite <- HL at 1. rewrite insert_delete_eq. rewrite <- HL at 2. apply delete_insert_eq.
  - unfold section. cbn [resolve written index_step app after foldl]. fold L.
    rewrite resolve_app, foldl_app, filter_app, Hr. unfold after in Ha. cbn [foldl index_step resolve written app].
    rewrite Ha, filter_nil, app_nil_r. split.
    + f_equal. apply (concat_imap_single (λ i afid, (("gpuAfidErrors", <["afid_index" := dec (Z.of_nat i)]> L), Plain (Int (float64_of_uint afid))))).
    + unfold L. rewrite delete_insert_eq. apply delete_id, free. set_solver.
Qed.

Lemma section_processes l : section (process_calls imp l) (process_table imp labels l).
Proof.
  unfold process_calls, process_table. destruct l as [[|p l]|]; [done| |done]. cbn [default].
  apply section_leaves; [apply free; set_solver|]. generalize (p :: l). clear p l. intros l.
  induction l as [|p l IH]; [by intros lwi Hl|]. cbn [mbind list_bind]. apply leaves_app; [|exact IH].
  intros lwi Hl. unfold process_loop, part. case_decide; [done|].
  destruct (applicable imp Uint32 (CUOccupancy p)); [|done].
  cbn [resolve written index_step app after foldl set_uint]. rewrite (insert_over _ _ _ Hl).
  split; [done|]. rewrite <- (insert_over _ _ _ Hl). by apply delete_over.
Qed.

Lemma section_vram u st : section (vram_calls imp u st) (vram_table imp labels u st).
Proof.
  unfold vram_calls, vram_table. apply section_app.
  - destruct u; [apply section_export_all|done].
  - case_decide; [done|]. apply section_export_all.
Qed.

Lemma section_counters p :
  section (map_to_list p ≫= λ e, counter_call e.1 e.2)
    (map_to_list p ≫= λ e, match list_find (λ c, c.1 = e.1) profiler_gauges with
       | Some (_, (_, (gauge, sc))) => [((gauge, labels), Plain (Flt (scale sc e.2)))]
       | None => []
       end).
Proof.
  generalize (map_to_list p). intros l. induction l as [|[k v] l IH]; [done|].
  cbn [mbind list_bind]. apply section_app; [|exact IH]. unfold counter_call. cbn [fst snd].
  by destruct (list_find _ _) as [[i [k' [g sc]]]|].
Qed.

Lemma section_profiler fields p : section (profiler_calls fields p) (profiler_table labels p).
Proof.
  unfold profiler_calls, profiler_table. destruct p as [p|]; [|done].
  refine (section_app _ _ [] _ _ _).
  - apply section_quiet. unfold missing_counters. intros lwi. generalize fieldMetricsMap. intros l.
    induction l as [|[f m] l IH]; [done|]. cbn [omap list_omap]. by destruct (bool_decide _).
  - apply section_app; [apply section_counters|]. unfold occupancy_elapsed.
    destruct (p !! "GRBM_GUI_ACTIVE"), (p !! "MeanOccupancyPerActiveCU"); try done. by destruct (SFeqb _ _).
Qed.

(** The calls of a GPU resolve to its table. *)
Lemma readings_resolve states fields cper p status stats :
  section (readings imp gpuid states fields cper p status stats) (table imp gpuid labels states cper p status stats).
Proof.
  unfold readings, table.
  refine (section_app _ _ _ _ (section_health _) _).
  refine (section_app _ _ _ _ (section_power _) _).
  refine (section_app _ _ _ _ (section_optional _ _ _ section_temperature) _).
  refine (section_app _ _ _ _ (section_optional _ _ _ section_usage) _).
  refine (section_app _ _ _ _ (section_optional _ _ _ section_voltage) _).
  refine (section_app _ _ _ _ (section_optional _ _ _ section_pcie_status) _).
  refine (section_app _ _ _ _ (section_optional _ _ _ (λ p, section_export_all _)) _).
  refine (section_app _ _ _ _ (section_nonzero _ _ _) _).
  refine (section_app _ _ _ _ (section_clock _) _).
  refine (section_app _ _ _ _ (section_nonzero _ _ _) _).
  refine (section_app _ _ _ _ (section_export1 _ _ _) _).
  refine (section_app _ _ _ _ (section_export_all _) _).
  refine (section_app _ _ _ _ (section_export_all _) _).
  refine (section_app _ _ _ _ (section_vram _ _) _).
  refine (section_app _ _ _ _ (section_links _) _).
  refine (section_app _ _ _ _ (section_optional _ _ _ section_violations) _).
  refine (section_app _ _ _ _ (section_afid _) _).
  exact (section_app _ _ _ _ (section_processes _) (section_profiler _ _)).
Qed.
End resolve.
