(* ===== verification/GpuRun.v ===== *)
(** Carrying out the calls of a GPU when the filter of unsupported fields is
    done: no panic if every series of the table is accepted by its gauge,
    and afterwards every series has the value the table has for it. *)

From S2P Require Import Prelude RocpSdk Format FormatProofs GoStd ExporterUtils RocpClient Scheduler GpuMessages.
From S2P Require Import GpuAgent Config FieldLogger LabelConfig MetricFields GpuReadings GpuTable GpuTableProofs.
From Stdlib Require Import Ascii.
Local Open Scope Z_scope.

Section run.
Context (imp : Z → double → Z) (accepts : string → Labels → bool).

Lemma normalize_numeric v : numeric v → is_Some (NormalizeUint64 imp v).
Proof.
  unfold NormalizeUint64, convertFloatToUint. destruct v; try done; intros _; case_decide; by eexists.
Qed.

Section gpu.
Context (gpuid : string) (labels : Labels) (unsupported : gset string).

Abbreviation value_of := (value_of imp unsupported gpuid).

Definition hit (g : string) (L : Labels) (e : entry) : option sample :=
  if decide (e.1 = (g, L)) then value_of e.2 else None.

(** The value of a series after the entries: that of the last one for it. *)
Definition put (l : list entry) (g : string) (L : Labels) (old : option sample) : option sample :=
  from_option Some old (last (omap (hit g L) l)).

Lemma put_app l1 l2 g L old : put (l1 ++ l2) g L old = put l2 g L (put l1 g L old).
Proof.
  unfold put. rewrite omap_app, last_app. by destruct (last (omap (hit g L) l2)).
Qed.

Lemma put_filter l g L old : put (filter (live imp) l) g L old = put l g L old.
Proof.
  unfold put. f_equal. f_equal. induction l as [|e l IH]; [done|].
  rewrite filter_cons. case_decide as Hl; cbn [omap list_omap]; [by rewrite IH|].
  rewrite IH. unfold hit. destruct (decide (e.1 = (g, L))); [|done].
  destruct e as [k [f v|x]]; [|by destruct Hl]. cbn [snd GpuTable.value_of].
  case_bool_decide; [done|]. destruct (published imp v) eqn:Hp; [|done].
  destruct Hl. left. cbn [snd]. rewrite Hp. by eexists.
Qed.

(** An entry that is not written, or whose gauge takes it. *)
Definition accepted (e : entry) : Prop := value_of e.2 = None ∨ accepts e.1.1 e.1.2 = true.

Definition steady (s : metrics) : Prop :=
  filterDone (fl s) = true ∧ unsupportedFieldMap (fl s) = unsupported.

Lemma export_steady g f L v s : steady s → numeric v → accepted ((g, L), Filtered f v) →
  ∃ s', export imp accepts gpuid g f L v s = Some s' ∧ steady s' ∧
    labelsWithIndex s' = labelsWithIndex s ∧
    ∀ g' L', series (gauges s') g' L' = put [((g, L), Filtered f v)] g' L' (series (gauges s) g' L').
Proof.
  unfold accepted. cbn [fst snd]. intros [Hd Hu] Hn Ha. unfold export, logWithValidateAndExport, checkUnsupportedFields.
  rewrite Hu. unfold put. cbn [omap list_omap]. unfold hit. cbn [fst snd].
  unfold GpuTable.value_of in *.
  case_bool_decide as Hf.
  - cbn [mbind option_bind]. rewrite bool_decide_eq_true_2 by done. cbn [orb].
    eexists. split; [done|]. split; [done|]. split; [done|]. intros g' L'. cbn [gauges].
    replace (if decide _ then None else None) with (None : option sample) by by case_decide.
    cbn [last from_option]. unfold series, lay.
    destruct (decide (g = g')) as [->|]; [|by rewrite lookup_insert_ne].
    rewrite lookup_insert_eq, fmap_empty, (left_id_L ∅ (∪)). by destruct (gauges s !! g').
  - assert (ValidateAndExport imp ∅ (Some L) v =
      if IsValueApplicable imp v then z ← NormalizeUint64 imp v; Some (ErrorNone, {[L := z]})
      else Some (ErrorNotApplicable, ∅)) as -> by by destruct v.
    unfold published in *. destruct (IsValueApplicable imp v).
    + destruct (normalize_numeric v Hn) as [z Hz]. rewrite Hz in *. cbn [mbind option_bind fmap option_fmap option_map].
      destruct Ha as [Ha|Ha]; [done|]. rewrite Ha, orb_true_r. eexists. split; [done|]. split; [done|]. split; [done|].
      intros g' L'. cbn [gauges]. unfold series, lay.
      destruct (decide ((g, L) = (g', L'))) as [[= -> ->]|Hne]; cbn [last from_option].
      * rewrite lookup_insert_eq, map_fmap_singleton. cbn [mbind option_bind].
        by rewrite lookup_union, lookup_singleton_eq, union_Some_l.
      * destruct (decide (g = g')) as [->|]; [|by rewrite lookup_insert_ne].
        rewrite lookup_insert_eq, map_fmap_singleton. cbn [mbind option_bind].
        rewrite lookup_union, lookup_singleton_ne by congruence. rewrite (left_id_L None (∪)).
        by destruct (gauges s !! g').
    + cbn [mbind option_bind]. rewrite bool_decide_eq_true_2 by done. cbn [orb].
      unfold logUnsupportedField. rewrite Hd.
      eexists. split; [done|]. split; [done|]. split; [done|]. intros g' L'. cbn [gauges].
      replace (if decide _ then None else None) with (None : option sample) by by case_decide.
      cbn [last from_option]. unfold series, lay.
      destruct (decide (g = g')) as [->|]; [|by rewrite lookup_insert_ne].
      rewrite lookup_insert_eq, fmap_empty, (left_id_L ∅ (∪)). by destruct (gauges s !! g').
Qed.

Lemma set_steady g L x s : steady s → accepts g L = true →
  ∃ s', set_gauge accepts g L x s = Some s' ∧ steady s' ∧ labelsWithIndex s' = labelsWithIndex s ∧
    ∀ g' L', series (gauges s') g' L' = put [((g, L), Plain x)] g' L' (series (gauges s) g' L').
Proof.
  intros Hs Ha. unfold set_gauge. rewrite Ha. eexists. split; [done|]. split; [done|]. split; [done|].
  intros g' L'. cbn [gauges]. unfold put, series, hit. cbn [omap list_omap fst snd GpuTable.value_of].
  destruct (decide ((g, L) = (g', L'))) as [[= -> ->]|Hne]; cbn [last from_option].
  - rewrite lookup_insert_eq. cbn [mbind option_bind]. by rewrite lookup_insert_eq.
  - destruct (decide (g = g')) as [->|]; [|by rewrite lookup_insert_ne].
    rewrite lookup_insert_eq. cbn [mbind option_bind]. rewrite lookup_insert_ne by congruence.
    by destruct (gauges s !! g').
Qed.

Lemma exec_steady c lwi s : steady s → labelsWithIndex s = lwi →
  Forall numeric_entry (written labels lwi c) → Forall accepted (written labels lwi c) →
  ∃ s', exec imp accepts gpuid labels s c = Some s' ∧ steady s' ∧ labelsWithIndex s' = index_step lwi c ∧
    ∀ g L, series (gauges s') g L = put (written labels lwi c) g L (series (gauges s) g L).
Proof.
  intros Hs Hl Hn Ha. destruct c as [f|g f v|g f v|g x|g x|k v|k]; cbn [exec written index_step] in *;
    try (apply Forall_cons in Hn as [Hn _]; apply Forall_cons in Ha as [Ha _]); rewrite ?Hl.
  - eexists. split; [done|]. destruct Hs as [Hd Hu]. unfold markUnsupportedFields. rewrite Hd. done.
  - destruct (export_steady g f labels v s Hs Hn Ha) as (s' & -> & Hs' & Hi & Hg). rewrite Hl in Hi. by exists s'.
  - destruct (export_steady g f lwi v s Hs Hn Ha) as (s' & -> & Hs' & Hi & Hg). rewrite Hl in Hi. by exists s'.
  - destruct Ha as [|Ha]; [done|].
    destruct (set_steady g labels x s Hs Ha) as (s' & -> & Hs' & Hi & Hg). rewrite Hl in Hi. by exists s'.
  - destruct Ha as [|Ha]; [done|].
    destruct (set_steady g lwi x s Hs Ha) as (s' & -> & Hs' & Hi & Hg). rewrite Hl in Hi. by exists s'.
  - eexists. split; [done|]. done.
  - eexists. split; [done|]. done.
Qed.

Lemma run_steady l : ∀ lwi s, steady s → labelsWithIndex s = lwi →
  Forall numeric_entry (resolve labels lwi l) → Forall accepted (resolve labels lwi l) →
  ∃ s', foldM (exec imp accepts gpuid labels) s l = Some s' ∧ steady s' ∧
    ∀ g L, series (gauges s') g L = put (resolve labels lwi l) g L (series (gauges s) g L).
Proof.
  induction l as [|c l IH]; intros lwi s Hs Hl; cbn [resolve foldM]; [by exists s|].
  rewrite !Forall_app. intros [Hn1 Hn2] [Ha1 Ha2].
  destruct (exec_steady c lwi s Hs Hl Hn1 Ha1) as (s1 & -> & Hs1 & Hl1 & Hg1). cbn [mbind option_bind].
  destruct (IH _ s1 Hs1 Hl1 Hn2 Ha2) as (s2 & -> & Hs2 & Hg2). exists s2. split; [done|]. split; [done|].
  intros g L. by rewrite Hg2, Hg1, put_app.
Qed.

(** ** The table *)

Lemma filtered_numeric l : Forall (λ e, numeric e.2) l → Forall numeric_entry (filtered labels l).
Proof. intros H. apply Forall_fmap. eapply Forall_impl; [exact H|]. done. Qed.

Definition plain_entry (e : entry) : Prop := ∃ x, e.2 = Plain x.

Lemma plain_numeric l : Forall plain_entry l → Forall numeric_entry l.
Proof. intros H. eapply Forall_impl; [exact H|]. intros e [x He]. unfold numeric_entry. by rewrite He. Qed.

Lemma concat_imap_Forall {A} (Q : entry → Prop) (f : nat → A → list entry) l :
  (∀ j x, Forall Q (f j x)) → Forall Q (concat (imap f l)).
Proof.
  intros H. apply Forall_concat, Forall_forall. intros x (j & y & -> & _)%elem_of_lookup_imap. apply H.
Qed.

Lemma parts_plain {A} key gauge good (val : A → sample) l : Forall plain_entry (parts labels key gauge good val l).
Proof.
  unfold parts. destruct l as [|x l]; [done|]. destruct (good x); [|done].
  apply concat_imap_Forall. intros j y. destruct (good y); repeat constructor. by eexists.
Qed.

Lemma part_plain gauge L w x : Forall plain_entry (part imp gauge L w x).
Proof. unfold part. destruct (applicable imp w x); repeat constructor. by eexists. Qed.

Lemma table_opt_Forall {A} (Q : entry → Prop) (t : A → list entry) x :
  (∀ a, Forall Q (t a)) → Forall Q (table_opt t x).
Proof. intros H. destruct x; [apply H|constructor]. Qed.

Lemma table_numeric states cper p status stats :
  Forall numeric_entry (table imp gpuid labels states cper p status stats).
Proof.
  unfold table. rewrite !Forall_app. split_and!;
    try (lazymatch goal with |- Forall _ (table_opt _ _) => apply table_opt_Forall; intros ? end);
    try (apply filtered_numeric; by repeat constructor).
  - unfold health_table. destruct (states !! gpuid); by repeat constructor.
  - unfold temperature_table. rewrite Forall_app. split; [apply filtered_numeric; by repeat constructor|].
    apply plain_numeric, parts_plain.
  - unfold usage_table. rewrite !Forall_app. split_and!; try apply plain_numeric, parts_plain.
    apply filtered_numeric. by repeat constructor.
  - apply plain_numeric, concat_imap_Forall. intros j c. rewrite !Forall_app. split_and!; apply part_plain.
  - unfold vram_table. rewrite Forall_app. split.
    + destruct (VRAMUsage stats); [apply filtered_numeric; by repeat constructor|constructor].
    + case_decide; [constructor|apply filtered_numeric; by repeat constructor].
  - apply plain_numeric, concat_imap_Forall. intros j c. rewrite !Forall_app. split_and!; apply part_plain.
  - unfold violation_table. rewrite !Forall_app. split_and!; try apply plain_numeric, parts_plain.
    apply filtered_numeric. by repeat constructor.
  - unfold afid_table. destruct cper as [c|]; [|constructor]. apply Forall_forall.
    intros e (i & y & -> & _)%elem_of_lookup_imap. done.
  - unfold process_table. apply Forall_forall. intros e (q & He & _)%list_elem_of_bind.
    revert e He. apply Forall_forall. case_decide; [constructor|]. apply plain_numeric, part_plain.
  - unfold profiler_table. destruct p as [p|]; [|constructor]. apply Forall_app. split.
    + apply Forall_forall. intros e (q & He & _)%list_elem_of_bind. revert e He. apply Forall_forall.
      destruct (list_find _ _) as [[i [k' [g sc]]]|]; by repeat constructor.
    + destruct (p !! "GRBM_GUI_ACTIVE"), (p !! "MeanOccupancyPerActiveCU"); try by constructor.
      destruct (SFeqb _ _); by repeat constructor.
Qed.

(** What the calls write is numeric and refused by no gauge, if that is so
    for the entries of the table. *)
Definition takes (e : entry) : Prop :=
  match e.2 with Filtered _ v => published imp v = None | Plain _ => False end ∨ accepts e.1.1 e.1.2 = true.

Lemma takes_accepted e : takes e → accepted e.
Proof.
  intros [H|H]; [left|by right]. unfold GpuTable.value_of. destruct e.2; [|done]. by case_bool_decide.
Qed.

Lemma readings_take states fields cper p status stats : index_free labels →
  Forall takes (table imp gpuid labels states cper p status stats) →
  let l := resolve labels labels (readings imp gpuid states fields cper p status stats) in
  Forall numeric_entry l ∧ Forall takes l.
Proof.
  intros Hfree Ht l. pose proof (proj1 (readings_resolve imp gpuid labels Hfree states fields cper p status stats)) as Hr.
  fold l in Hr. rewrite <- Forall_and. apply Forall_forall. intros e He.
  destruct (decide (live imp e)) as [Hl|Hd].
  - assert (Hin : e ∈ table imp gpuid labels states cper p status stats).
    { assert (e ∈ filter (live imp) l) as H by (by apply list_elem_of_filter).
      rewrite Hr in H. by apply list_elem_of_filter in H as [_ H]. }
    pose proof (table_numeric states cper p status stats) as Hn. rewrite Forall_forall in Hn, Ht. auto.
  - destruct e as [k [f v|x]]; [|by destruct Hd]. unfold live in Hd. cbn [snd] in Hd. split.
    + unfold numeric_entry. cbn [snd]. destruct v; try exact I; exfalso; apply Hd; right; intros [].
    + left. cbn [snd]. destruct (published imp v) eqn:Hp; [|done]. exfalso. apply Hd. left. by eexists.
Qed.

(** The calls of a GPU write its table. *)
Lemma run_table states fields cper p status stats s : index_free labels →
  steady s → labelsWithIndex s = labels →
  Forall takes (table imp gpuid labels states cper p status stats) →
  ∃ s', foldM (exec imp accepts gpuid labels) s (readings imp gpuid states fields cper p status stats) = Some s' ∧
    steady s' ∧
    ∀ g L, series (gauges s') g L =
      put (table imp gpuid labels states cper p status stats) g L (series (gauges s) g L).
Proof.
  intros Hfree Hs Hl Ha. destruct (readings_take states fields cper p status stats Hfree Ha) as [Hn Ht].
  destruct (run_steady (readings imp gpuid states fields cper p status stats) labels s Hs Hl Hn) as (s' & Hrun & Hs' & Hg).
  { eapply Forall_impl; [exact Ht|apply takes_accepted]. }
  exists s'. split; [done|]. split; [done|]. intros g L.
  by rewrite Hg, <- put_filter, (proj1 (readings_resolve imp gpuid labels Hfree _ _ _ _ _ _)), put_filter.
Qed.
End gpu.
End run.
