(* ===== verification/GpuKeys.v ===== *)
(** The keys of the table of a GPU: no series occurs twice, and every series
    has the labels of the GPU with the index labels its gauge was created
    with. *)

From S2P Require Import Prelude RocpSdk Format FormatProofs GoStd ExporterUtils RocpClient Scheduler GpuMessages.
From S2P Require Import GpuAgent Config LabelConfig MetricFields GpuReadings GpuTable.
From Stdlib Require Import Ascii.
Local Open Scope Z_scope.

(** The index labels of a gauge of GPUs. *)
Definition gauge_index (g : string) : option (list string) :=
  match list_find (λ p, p.1 = g) GpuMetrics with
  | Some (_, (_, o)) => match metric_labels o with GpuLabels index => Some index | NodeLabels => None end
  | None => None
  end.

Definition ascii_string : string → bool := string_forall (λ c, Nat.ltb (nat_of_ascii c) 128).

Section keys.
Context (imp : Z → double → Z) (gpuid : string) (labels : Labels).

(** ** Distinct keys *)

(** Entries for different series, of gauges in [G]. *)
Definition within (G : list string) (l : list entry) : Prop :=
  Forall (λ e, e.1.1 ∈ G) l ∧ NoDup l.*1.

Lemma within_nil G : within G [].
Proof. split; constructor. Qed.

Lemma within_single G g L p : g ∈ G → within G [((g, L), p)].
Proof. intros. split; [by repeat constructor|apply NoDup_singleton]. Qed.

Lemma within_app G1 G2 l1 l2 : (∀ g, g ∈ G1 → g ∉ G2) → within G1 l1 → within G2 l2 →
  within (G1 ++ G2) (l1 ++ l2).
Proof.
  intros Hdis [Hg1 Hn1] [Hg2 Hn2]. rewrite Forall_forall in Hg1, Hg2. split.
  - apply Forall_app. split; apply Forall_forall; intros e He; apply elem_of_app; [left; by apply Hg1|right; by apply Hg2].
  - rewrite fmap_app. apply NoDup_app. split; [done|]. split; [|done].
    intros k (e1 & -> & H1)%list_elem_of_fmap (e2 & He & H2)%list_elem_of_fmap.
    apply (Hdis e1.1.1); [by apply Hg1|]. rewrite He. by apply Hg2.
Qed.

Lemma within_concat Gs ls : Forall2 within Gs ls → NoDup (concat Gs) → within (concat Gs) (concat ls).
Proof.
  induction 1 as [|G l Gs ls Hl Hls IH]; [by intros _; apply within_nil|].
  cbn [concat]. intros (Hn1 & Hd & Hn2)%NoDup_app. apply within_app; auto.
Qed.

Lemma within_weaken G G' l : G ⊆ G' → within G l → within G' l.
Proof. intros HG [Hg Hn]. split; [|done]. eapply Forall_impl; [exact Hg|]. cbn. intros e He. by apply HG. Qed.

Lemma within_filtered l : NoDup l.*1.*1 → within l.*1.*1 (filtered labels l).
Proof.
  intros Hn. split.
  - apply Forall_forall. intros e (x & -> & Hx)%list_elem_of_fmap. cbn.
    apply list_elem_of_fmap_2, list_elem_of_fmap_2, Hx.
  - unfold filtered. rewrite <- list_fmap_compose.
    apply (NoDup_fmap_1 fst). rewrite <- list_fmap_compose. rewrite <- list_fmap_compose in Hn. exact Hn.
Qed.

(** Rounds of a loop that differ in one index label. *)
Lemma within_rounds {A} G key (f : nat → A → list entry) l : ∀ o,
  (∀ j x, within G (f j x)) →
  (∀ j x, Forall (λ e, e.1.2 !! key = Some (dec (Z.of_nat (o + j)))) (f j x)) →
  within G (concat (imap f l)).
Proof.
  revert f. induction l as [|x l IH]; intros f o Hw Hk; [apply within_nil|].
  cbn [imap concat]. destruct (IH (f ∘ S) (S o)) as [Hg Hn].
  - intros j y. apply Hw.
  - intros j y. cbn. rewrite <- Nat.add_succ_r. apply Hk.
  - destruct (Hw 0%nat x) as [Hg0 Hn0]. split; [by apply Forall_app|].
    rewrite fmap_app. apply NoDup_app. split; [done|]. split; [|done].
    intros k (e1 & -> & H1)%list_elem_of_fmap (e2 & He & H2)%list_elem_of_fmap.
    apply list_elem_of_In, in_concat in H2 as (fl & Hfl%list_elem_of_In & H2%list_elem_of_In).
    apply elem_of_lookup_imap in Hfl as (j & y & -> & _).
    pose proof (proj1 (Forall_forall _ _) (Hk 0%nat x) e1 H1) as Hk1.
    pose proof (proj1 (Forall_forall _ _) (Hk (S j) y) e2 H2) as Hk2. cbn in Hk1, Hk2.
    rewrite He, Hk2 in Hk1. injection Hk1 as Hd. apply dec_nonneg_inj in Hd; lia.
Qed.

Lemma within_parts {A} key gauge good (val : A → sample) l : within [gauge] (parts labels key gauge good val l).
Proof.
  unfold parts. destruct l as [|x l]; [apply within_nil|]. destruct (good x); [|apply within_nil].
  apply (within_rounds [gauge] key _ _ 0).
  - intros j y. destruct (good y); [|apply within_nil]. apply within_single. by left.
  - intros j y. destruct (good y); [|constructor]. repeat constructor. cbn. by rewrite lookup_insert_eq.
Qed.

Lemma within_part gauge L w x : within [gauge] (part imp gauge L w x).
Proof. unfold part. destruct (applicable imp w x); [|apply within_nil]. apply within_single. by left. Qed.

Lemma part_labels gauge L w x (Q : Labels → Prop) : Q L → Forall (λ e, Q e.1.2) (part imp gauge L w x).
Proof. intros. unfold part. destruct (applicable imp w x); by repeat constructor. Qed.

(** *** The sections *)

Lemma within_opt {A} G (t : A → list entry) x : (∀ a, within G (t a)) → within G (table_opt t x).
Proof. intros H. destruct x; [apply H|apply within_nil]. Qed.

Lemma within_health states : within ["gpuHealth"] (health_table gpuid labels states).
Proof. unfold health_table. destruct (states !! gpuid); [|apply within_nil]. apply within_single. by left. Qed.

Definition clock_gauges : list string := ["gpuClock"; "gpuMinClock"; "gpuMaxClock"].

Lemma within_clock l : within clock_gauges (clock_table imp labels l).
Proof.
  unfold clock_table. apply (within_rounds clock_gauges "clock_index" _ _ 0).
  - intros j c. change clock_gauges with (["gpuClock"] ++ ["gpuMinClock"] ++ ["gpuMaxClock"]).
    do 2 (apply within_app; [set_solver|apply within_part|]). apply within_part.
  - intros j c. set (L := <["clock_type" := _]> _).
    assert (L !! "clock_index" = Some (dec (Z.of_nat (0 + j)))).
    { unfold L. rewrite lookup_insert_ne by done. by rewrite lookup_insert_eq. }
    rewrite !Forall_app. split_and!; by apply (part_labels _ L _ _ (λ L, L !! "clock_index" = _)).
Qed.

Definition link_gauges : list string := ["gpuXgmiLinkStatsRx"; "gpuXgmiLinkStatsTx"].

Lemma within_links l : within link_gauges (xgmi_link_table imp labels l).
Proof.
  unfold xgmi_link_table. apply (within_rounds link_gauges "link_index" _ _ 0).
  - intros j c. change link_gauges with (["gpuXgmiLinkStatsRx"] ++ ["gpuXgmiLinkStatsTx"]).
    apply within_app; [set_solver|apply within_part..].
  - intros j c. set (L := <["link_index" := _]> _).
    assert (L !! "link_index" = Some (dec (Z.of_nat (0 + j)))) by (unfold L; by rewrite lookup_insert_eq).
    rewrite !Forall_app. split_and!; by apply (part_labels _ L _ _ (λ L, L !! "link_index" = _)).
Qed.

Lemma within_afid c : within ["gpuAfidErrors"] (afid_table labels c).
Proof.
  unfold afid_table. destruct c as [c|]; [|apply within_nil]. rewrite <- concat_imap_single.
  apply (within_rounds _ "afid_index" _ _ 0).
  - intros j x. apply within_single. by left.
  - intros j x. repeat constructor. cbn [fst snd]. by rewrite lookup_insert_eq.
Qed.

(** The processes of a GPU with different numbers. *)
Definition processes_ok (l : option (list ProcessInfo)) : Prop :=
  Forall (λ p, 0 <= PId p) (default [] l) ∧ NoDup (PId <$> default [] l).

Lemma within_processes l : processes_ok l → within ["gpuProcessCuOcc"] (process_table imp labels l).
Proof.
  intros [Hpos Hnd]. unfold process_table. induction (default [] l) as [|p ps IH]; [apply within_nil|].
  apply Forall_cons in Hpos as [Hp Hpos]. rewrite fmap_cons in Hnd. apply NoDup_cons in Hnd as [Hni Hnd].
  specialize (IH Hpos Hnd). cbn [mbind list_bind]. case_decide as H0; [done|].
  destruct IH as [Hg Hn]. destruct (within_part "gpuProcessCuOcc" (<["process_id":=dec (PId p)]> labels) Uint32 (CUOccupancy p)) as [Hg0 Hn0].
  split; [by apply Forall_app|]. rewrite fmap_app. apply NoDup_app. split; [done|]. split; [|done].
  intros k (e1 & -> & H1)%list_elem_of_fmap (e2 & He & (q & H2 & Hq)%list_elem_of_bind)%list_elem_of_fmap.
  unfold part in H1, H2. case_decide; [by apply elem_of_nil in H2|].
  destruct (applicable imp Uint32 (CUOccupancy p)), (applicable imp Uint32 (CUOccupancy q));
    try (by apply elem_of_nil in H1); try (by apply elem_of_nil in H2).
  apply list_elem_of_singleton in H1 as ->. apply list_elem_of_singleton in H2 as ->.
  cbn [fst] in He. apply (f_equal (λ k, k.2 !! "process_id")) in He. cbn [snd] in He.
  rewrite !lookup_insert_eq in He. injection He as He. rewrite Forall_forall in Hpos.
  apply dec_nonneg_inj in He; [|done|by apply Hpos]. apply Hni. rewrite He. by apply list_elem_of_fmap_2.
Qed.

(** A gauge is set from one counter. *)
Lemma counter_gauge_inj i1 i2 k1 k2 n1 n2 g sc1 sc2 :
  list_find (λ c, c.1 = k1) profiler_gauges = Some (i1, (n1, (g, sc1))) →
  list_find (λ c, c.1 = k2) profiler_gauges = Some (i2, (n2, (g, sc2))) → k1 = k2.
Proof.
  assert (Hnd : NoDup profiler_gauges.*2.*1) by by_decide.
  intros (H1 & <- & _)%list_find_Some (H2 & <- & _)%list_find_Some.
  assert (i1 = i2) as <-; [|by rewrite H1 in H2; injection H2].
  eapply (NoDup_lookup _ _ _ g Hnd); by rewrite !list_lookup_fmap, ?H1, ?H2.
Qed.

Lemma within_counters (l : list (string * double)) : NoDup l.*1 →
  within profiler_gauges.*2.*1 (l ≫= λ e,
    match list_find (λ c, c.1 = e.1) profiler_gauges with
    | Some (_, (_, (gauge, sc))) => [((gauge, labels), Plain (Flt (scale sc e.2)))]
    | None => []
    end).
Proof.
  induction l as [|[k v] l IH]; [intros _; apply within_nil|].
  rewrite fmap_cons. intros [Hk Hl]%NoDup_cons. specialize (IH Hl). cbn [mbind list_bind fst snd].
  destruct (list_find (λ c, c.1 = k) profiler_gauges) as [[i [n [g sc]]]|] eqn:Hf; [|exact IH].
  destruct IH as [Hg Hn]. cbn [app]. split.
  - constructor; [|exact Hg]. cbn [fst]. apply list_find_Some in Hf as (Hi & _).
    apply list_elem_of_fmap. exists (g, sc). split; [done|]. apply list_elem_of_fmap.
    exists (n, (g, sc)). split; [done|]. by eapply list_elem_of_lookup_2.
  - rewrite fmap_cons. apply NoDup_cons. split; [|exact Hn]. cbn [fst].
    intros (e & He & (q & H2 & Hq)%list_elem_of_bind)%list_elem_of_fmap.
    destruct (list_find (λ c, c.1 = q.1) profiler_gauges) as [[i' [n' [g' sc']]]|] eqn:Hf';
      [|by apply elem_of_nil in H2].
    apply list_elem_of_singleton in H2 as ->. cbn in He. injection He as <-.
    apply Hk. rewrite (counter_gauge_inj _ _ _ _ _ _ _ _ _ Hf Hf').
    exact (list_elem_of_fmap_2 fst _ _ Hq).
Qed.

Lemma within_profiler p : within (profiler_gauges.*2.*1 ++ ["gpuOccElapsed"]) (profiler_table labels p).
Proof.
  unfold profiler_table. destruct p as [p|].
  2:{ eapply within_weaken; [|apply within_nil]. apply list_subseteq_nil. }
  apply within_app; [|apply within_counters, NoDup_fst_map_to_list|].
  - intros g Hg ->%list_elem_of_singleton. revert Hg. by_decide.
  - destruct (p !! "GRBM_GUI_ACTIVE"), (p !! "MeanOccupancyPerActiveCU"); try apply within_nil.
    destruct (SFeqb _ _); [apply within_nil|]. apply within_single. by left.
Qed.

(** *** The whole table *)

Definition xcc_gauges : list string :=
  [ "gpuGfxBelowHostLimitPowerAcc"; "gpuGfxBelowHostLimitTHMAcc"; "gpuGfxLowUtilizationAcc";
    "gpuGfxBelowHostLimitTotalAcc"; "gpuGfxBelowHostLimitPowerPercent"; "gpuGfxBelowHostLimitTHMPercent";
    "gpuGfxLowUtilizationPercent"; "gpuGfxBelowHostLimitTotalPercent" ].

Lemma within_filtered_as G l : l.*1.*1 = G → NoDup G → within G (filtered labels l).
Proof. intros <-. apply within_filtered. Qed.

Ltac filtered_keys := eapply within_filtered_as; [reflexivity|by_decide].

Lemma within_temperature t :
  within ["gpuEdgeTemp"; "gpuJunctionTemp"; "gpuMemoryTemp"; "gpuHBMTemp"] (temperature_table imp labels t).
Proof.
  apply (within_app ["gpuEdgeTemp"; "gpuJunctionTemp"; "gpuMemoryTemp"] ["gpuHBMTemp"]);
    [set_solver|filtered_keys|apply within_parts].
Qed.

Lemma within_usage u :
  within ["gpuGFXActivity"; "gpuUMCActivity"; "gpuMMAActivity"; "gpuVCNActivity"; "gpuJPEGActivity";
          "gpuGfxBusyInst"; "gpuVcnBusyInst"; "gpuJpegBusyInst"] (usage_table imp labels u).
Proof.
  pose proof (within_concat [["gpuGFXActivity"; "gpuUMCActivity"; "gpuMMAActivity"]; ["gpuVCNActivity"];
    ["gpuJPEGActivity"]; ["gpuGfxBusyInst"]; ["gpuVcnBusyInst"]; ["gpuJpegBusyInst"]]) as H.
  unfold usage_table. rewrite <- (app_nil_r (uint_parts imp labels "xcc_index" "gpuJpegBusyInst" _ _)).
  apply (H [_; _; _; _; _; _]); [|by_decide].
  repeat apply Forall2_cons_2; try apply Forall2_nil_2; try apply within_parts. filtered_keys.
Qed.

Definition violation_gauges : list string :=
  [ "gpuCurrAccCtr"; "gpuProcHRA"; "gpuPPTRA"; "gpuSTRA"; "gpuVRTRA"; "gpuHBMTRA"; "gpuProcHRPercent";
    "gpuPPTRPercent"; "gpuSTRPercent"; "gpuVRTRPercent"; "gpuHBMTRPercent" ].

Lemma within_violations v : within (violation_gauges ++ xcc_gauges) (violation_table imp labels v).
Proof.
  pose proof (within_concat (violation_gauges :: ((λ g, [g]) <$> xcc_gauges))) as H.
  unfold violation_table. rewrite <- (app_nil_r (uint_parts imp labels "xcc_index" "gpuGfxBelowHostLimitTotalPercent" _ _)).
  apply (H [_; _; _; _; _; _; _; _; _]); [|by_decide].
  apply Forall2_cons_2; [filtered_keys|].
  unfold xcc_gauges. cbn [fmap list_fmap]. repeat apply Forall2_cons_2; try apply Forall2_nil_2; apply within_parts.
Qed.

Definition vram_gauges : list string :=
  [ "gpuTotalVisibleVram"; "gpuUsedVisibleVram"; "gpuFreeVisibleVram"; "gpuTotalGTT"; "gpuUsedGTT"; "gpuFreeGTT" ].
Definition vram_sizes : list string := ["gpuTotalVram"; "gpuUsedVram"; "gpuFreeVram"].

Lemma within_vram u st : within (vram_gauges ++ vram_sizes) (vram_table imp labels u st).
Proof.
  unfold vram_table. cbv zeta. apply within_app.
  - apply Forall_forall. by_decide.
  - destruct u; [filtered_keys|apply within_nil].
  - case_decide; [apply within_nil|filtered_keys].
Qed.

(** The gauges of a GPU, by the part of the message. *)
Definition ecc_gauges : list string :=
  (ecc_exports_1 (umc_stats 0) ++ ecc_exports_2 (umc_stats 0) ++ ecc_exports_3 (umc_stats 0)).*1.*1.
Definition neighbor_gauges : list string := (xgmi_neighbor_exports (umc_stats 0)).*1.*1.
Definition pcie_gauges : list string :=
  ["gpuPCIeReplayCount"; "gpuPCIeRecoveryCount"; "gpuPCIeReplayRolloverCount"; "gpuPCIeNACKSentCount";
   "gpuPCIeNACKReceivedCount"; "gpuPcieRx"; "gpuPcieTx"; "gpuPcieBidirBandwidth"].

Definition table_gauges : list (list string) :=
  [ ["gpuHealth"]; ["gpuPackagePower"; "gpuAvgPkgPower"];
    ["gpuEdgeTemp"; "gpuJunctionTemp"; "gpuMemoryTemp"; "gpuHBMTemp"];
    ["gpuGFXActivity"; "gpuUMCActivity"; "gpuMMAActivity"; "gpuVCNActivity"; "gpuJPEGActivity";
     "gpuGfxBusyInst"; "gpuVcnBusyInst"; "gpuJpegBusyInst"];
    ["gpuVoltage"; "gpuGFXVoltage"; "gpuMemVoltage"]; ["gpuPCIeSpeed"; "gpuPCIeMaxSpeed"; "gpuPCIeBandwidth"];
    pcie_gauges; ["gpuEnergyConsumed"]; clock_gauges; ["gpuPowerUsage"]; ["gpuVramMaxBandwidth"];
    ecc_gauges; neighbor_gauges; vram_gauges ++ vram_sizes; link_gauges; violation_gauges ++ xcc_gauges;
    ["gpuAfidErrors"]; ["gpuProcessCuOcc"]; profiler_gauges.*2.*1 ++ ["gpuOccElapsed"] ].

(** The table in the order of [table_gauges]: the health, and the rest. *)
Lemma within_sections states cper p status stats : processes_ok (ProcessStatus status) →
  ∃ rest, table imp gpuid labels states cper p status stats = health_table gpuid labels states ++ concat rest ∧
    Forall2 within table_gauges (health_table gpuid labels states :: rest).
Proof.
  intros Hp. unfold table. rewrite <- (app_nil_r (profiler_table labels p)).
  eexists [_; _; _; _; _; _; _; _; _; _; _; _; _; _; _; _; _; _]. split; [reflexivity|].
  unfold table_gauges. repeat apply Forall2_cons_2; try apply Forall2_nil_2;
    try (lazymatch goal with |- within _ (table_opt _ _) => apply within_opt; intros ? end);
    try (unfold filtered1; filtered_keys).
  - apply within_health.
  - apply within_temperature.
  - apply within_usage.
  - apply within_clock.
  - apply within_vram.
  - apply within_links.
  - apply within_violations.
  - apply within_afid.
  - by apply within_processes.
  - apply within_profiler.
Qed.

Lemma within_table states cper p status stats : processes_ok (ProcessStatus status) →
  within (concat table_gauges) (table imp gpuid labels states cper p status stats).
Proof.
  intros Hp. destruct (within_sections states cper p status stats Hp) as (rest & -> & Hr).
  apply (within_concat table_gauges (_ :: rest)); [done|by_decide].
Qed.

(** The gauge of the health is written by the health. *)
Lemma health_entry states cper p status stats L x : processes_ok (ProcessStatus status) →
  (("gpuHealth", L), x) ∈ table imp gpuid labels states cper p status stats ↔
  (("gpuHealth", L), x) ∈ health_table gpuid labels states.
Proof.
  intros Hp. destruct (within_sections states cper p status stats Hp) as (rest & -> & Hr).
  rewrite elem_of_app. split; [|by left]. intros [?|Hin]; [done|exfalso].
  inversion Hr as [|? ? ? ? _ Hrest]; subst.
  destruct (within_concat _ _ Hrest) as [Hg _]; [by_decide|].
  rewrite Forall_forall in Hg. specialize (Hg _ Hin). revert Hg. by_decide.
Qed.
End keys.

(** ** The labels fit the gauges *)

Lemma ascii_dec n : 0 <= n → ascii_string (dec n) = true.
Proof.
  intros Hn. eapply string_forall_impl; [|by apply dec_digits]. intros c. unfold is_digit, digit_value.
  intros Hc. apply Nat.ltb_lt. destruct (decide _) as [Hd|Hd] in Hc; [lia|]. by apply bool_decide_eq_true in Hc as [].
Qed.

Lemma ascii_dec_any n : ascii_string (dec n) = true.
Proof.
  destruct (decide (0 <= n)) as [Hn|Hn]; [by apply ascii_dec|]. unfold dec. rewrite decide_True by lia.
  change (ascii_string (dec_nonneg (- n)) = true).
  pose proof (ascii_dec (- n) ltac:(lia)) as H. unfold dec in H. by rewrite decide_False in H by lia.
Qed.

Lemma ascii_map f s : (∀ c, (nat_of_ascii c < 128)%nat → (nat_of_ascii (f c) < 128)%nat) →
  ascii_string s = true → ascii_string (string_map f s) = true.
Proof.
  intros Hf. unfold ascii_string. induction s as [|c s IH]; [done|]. cbn [string_forall string_map].
  rewrite !andb_true_iff, !Nat.ltb_lt. intros [Hc Hs]. split; [by apply Hf|by apply IH].
Qed.

Lemma ascii_lower s : ascii_string s = true → ascii_string (ToLower s) = true.
Proof.
  apply ascii_map. intros c. unfold lower_byte.
  destruct (Nat.leb_spec 65 (nat_of_ascii c)), (Nat.leb_spec (nat_of_ascii c) 90); cbn [andb]; try done.
  intros _. rewrite nat_ascii_embedding by lia. lia.
Qed.

Lemma ascii_strip p s r : strip_prefix p s = Some r → ascii_string s = true → ascii_string r = true.
Proof.
  revert s. induction p as [|c p IH]; intros s; cbn [strip_prefix]; [by intros [= ->]|].
  destruct s as [|d s]; [done|]. case_decide; [|done]. intros Hr. unfold ascii_string. cbn [string_forall].
  intros [_ Hs]%andb_true_iff. by apply (IH s).
Qed.

Lemma ascii_normalized s p : ascii_string s = true → ascii_string (NormalizeStringWithoutPrefix s p) = true.
Proof.
  intros Hs. apply ascii_lower. unfold TrimPrefix. destruct (strip_prefix p s) eqn:Hp; [|done].
  cbn [default]. by eapply ascii_strip.
Qed.

Lemma ascii_enum names v : Forall (λ n, ascii_string n = true) names → ascii_string (enum_String names v) = true.
Proof.
  intros Hn. unfold enum_String. case_decide; [apply ascii_dec_any|].
  destruct (names !! Z.to_nat v) as [n|] eqn:Hl; cbn [default]; [|apply ascii_dec_any].
  rewrite Forall_forall in Hn. apply Hn. by eapply list_elem_of_lookup_2.
Qed.

Section fits.
Context (imp : Z → double → Z) (gpuid : string) (labels : Labels).

(** The labels of the GPU and the index labels of the gauge. *)
Definition fits (e : entry) : Prop :=
  ∃ index vs, gauge_index e.1.1 = Some index ∧ length vs = length index ∧
    Forall (λ v, ascii_string v = true) vs ∧ e.1.2 = list_to_map (zip index vs) ∪ labels.

Lemma fits_plain g p : gauge_index g = Some [] → fits ((g, labels), p).
Proof. intros Hg. exists [], []. split_and!; [done..|]. cbn. by rewrite (left_id_L ∅ (∪)). Qed.

Lemma fits_one g key v p : gauge_index g = Some [key] → ascii_string v = true →
  fits ((g, <[key := v]> labels), p).
Proof.
  intros Hg Hv. exists [key], [v]. split_and!; [done|done|by repeat constructor|]. cbn.
  by rewrite insert_union_singleton_l.
Qed.

Lemma fits_two g k1 k2 v1 v2 p : gauge_index g = Some [k1; k2] → k1 ≠ k2 →
  ascii_string v1 = true → ascii_string v2 = true → fits ((g, <[k2 := v2]> (<[k1 := v1]> labels)), p).
Proof.
  intros Hg Hne H1 H2. exists [k1; k2], [v1; v2]. split_and!; [done|done|by repeat constructor|].
  cbn. apply map_eq. intros k. rewrite insert_empty.
  rewrite lookup_union. destruct (decide (k = k1)) as [->|].
  - by rewrite lookup_insert_ne, !lookup_insert_eq, union_Some_l.
  - rewrite (lookup_insert_ne {[k2 := v2]}) by done. destruct (decide (k = k2)) as [->|].
    + by rewrite lookup_insert_eq, lookup_singleton_eq, union_Some_l.
    + rewrite lookup_singleton_ne by done. by rewrite !lookup_insert_ne, (left_id_L None (∪)).
Qed.

Lemma fits_filtered l : Forall (λ e, gauge_index e.1.1 = Some []) l → Forall fits (filtered labels l).
Proof. intros H. apply Forall_fmap. eapply Forall_impl; [exact H|]. intros e He. by apply fits_plain. Qed.

Lemma fits_rounds {A} (f : nat → A → list entry) l : (∀ j x, Forall fits (f j x)) → Forall fits (concat (imap f l)).
Proof.
  intros H. apply Forall_concat, Forall_forall. intros x (j & y & -> & _)%elem_of_lookup_imap. apply H.
Qed.

Lemma fits_parts {A} key gauge good (val : A → sample) l : gauge_index gauge = Some [key] →
  Forall fits (parts labels key gauge good val l).
Proof.
  intros Hg. unfold parts. destruct l as [|x l]; [constructor|]. destruct (good x); [|constructor].
  apply fits_rounds. intros j y. destruct (good y); repeat constructor. apply fits_one; [done|apply ascii_dec_any].
Qed.

Lemma fits_part gauge L w x : (∀ p, fits ((gauge, L), p)) → Forall fits (part imp gauge L w x).
Proof. intros. unfold part. destruct (applicable imp w x); by repeat constructor. Qed.

Lemma fits_opt {A} (t : A → list entry) x : (∀ a, Forall fits (t a)) → Forall fits (table_opt t x).
Proof. intros H. destruct x; [apply H|constructor]. Qed.

Ltac plain_gauges := apply fits_filtered; repeat constructor.

Lemma fits_clock l : Forall fits (clock_table imp labels l).
Proof.
  apply fits_rounds. intros j c. set (t := NormalizeStringWithoutPrefix _ _).
  assert (ascii_string t = true) by (apply ascii_normalized, ascii_enum; by repeat constructor).
  rewrite !Forall_app. split_and!; apply fits_part; intros p; apply fits_two; try done; apply ascii_dec_any.
Qed.

Lemma fits_links l : Forall fits (xgmi_link_table imp labels l).
Proof.
  apply fits_rounds. intros j c. rewrite !Forall_app.
  split_and!; apply fits_part; intros p; apply fits_one; try done; apply ascii_dec_any.
Qed.

Lemma fits_afid c : Forall fits (afid_table labels c).
Proof.
  unfold afid_table. destruct c as [c|]; [|constructor]. rewrite <- concat_imap_single. apply fits_rounds.
  intros j x. repeat constructor. apply fits_two; [done|done|by destruct (Severity c)|apply ascii_dec_any].
Qed.

Lemma fits_processes l : Forall fits (process_table imp labels l).
Proof.
  apply Forall_forall. intros e (q & He & _)%list_elem_of_bind. revert e He. apply Forall_forall.
  case_decide; [constructor|]. apply fits_part. intros p. apply fits_one; [done|apply ascii_dec_any].
Qed.

Lemma fits_profiler p : Forall fits (profiler_table labels p).
Proof.
  unfold profiler_table. destruct p as [p|]; [|constructor]. apply Forall_app. split.
  - apply Forall_forall. intros e (q & He & _)%list_elem_of_bind. revert e He. apply Forall_forall.
    destruct (list_find _ _) as [[i [k' [g sc]]]|] eqn:Hf; [|constructor]. repeat constructor.
    apply fits_plain. apply list_find_Some in Hf as (Hi%list_elem_of_lookup_2 & _).
    assert (Forall (λ e, gauge_index e.2.1 = Some []) profiler_gauges) as Hall
      by (by_decide).
    rewrite Forall_forall in Hall. exact (Hall _ Hi).
  - destruct (p !! "GRBM_GUI_ACTIVE"), (p !! "MeanOccupancyPerActiveCU"); try constructor.
    destruct (SFeqb _ _); repeat constructor. by apply fits_plain.
Qed.

Lemma fits_table states cper p status stats :
  Forall fits (table imp gpuid labels states cper p status stats).
Proof.
  unfold table. rewrite !Forall_app. split_and!;
    try (lazymatch goal with |- Forall _ (table_opt _ _) => apply fits_opt; intros ? end);
    try (unfold filtered1; plain_gauges).
  - unfold health_table. destruct (states !! gpuid); repeat constructor. by apply fits_plain.
  - apply Forall_app. split; [plain_gauges|by apply fits_parts].
  - unfold usage_table. rewrite !Forall_app. split_and!; try (by apply fits_parts). plain_gauges.
  - apply fits_clock.
  - unfold vram_table. cbv zeta. apply Forall_app. split.
    + destruct (VRAMUsage stats); [plain_gauges|constructor].
    + case_decide; [constructor|plain_gauges].
  - apply fits_links.
  - unfold violation_table. rewrite !Forall_app. split_and!; try (by apply fits_parts). plain_gauges.
  - apply fits_afid.
  - apply fits_processes.
  - apply fits_profiler.
Qed.
End fits.
