(* ===== verification/GpuFields.v ===== *)
(** Which gauge a reading goes to, and under which name the filter asks for
    it: the calls of a GPU against the table of fields. *)

From S2P Require Import Prelude RocpSdk Format GoStd ExporterUtils RocpClient Scheduler GpuMessages.
From S2P Require Import GpuAgent Config LabelConfig MetricFields FieldConfig GpuReadings GpuTable GpuTableProofs GpuKeys.
From Stdlib Require Import Ascii.
Local Open Scope Z_scope.

(** The fields with the gauges they are registered with. *)
Definition registered : list (string * string) := (λ f, (f.1, Metric f.2)) <$> fieldMetricsMap.

Definition call_registered (c : call) : Prop :=
  match c with
  | CExport g f _ | CExportIndexed g f _ => (f, g) ∈ registered
  | CSet g _ | CSetIndexed g _ => g ∈ registered.*2
  | CMark f => f ∈ registered.*1
  | CIndex k _ | CDropIndex k => k ∈ index_keys
  end.
#[export] Instance call_registered_dec c : Decision (call_registered c).
Proof. unfold call_registered. destruct c; apply _. Defined.

Lemma field_registered f : f ∈ fieldMetricsMap → f.1 ∈ registered.*1.
Proof.
  intros Hf. apply list_elem_of_fmap. exists (f.1, Metric f.2). split; [done|].
  apply list_elem_of_fmap. by exists f.
Qed.

Lemma counters_registered : Forall (λ e, e.2.1 ∈ registered.*2) profiler_gauges.
Proof. by_decide. Qed.

Section registered.
Context (imp : Z → double → Z) (gpuid : string).

Abbreviation ok := (Forall call_registered).

Lemma one_ok c : call_registered c → ok [c].
Proof. intros H. apply Forall_cons_2; [done|constructor]. Qed.

Lemma export_all_ok l : Forall (λ e, (e.1.2, e.1.1) ∈ registered) l → ok (export_all l).
Proof. intros H. apply Forall_fmap. exact H. Qed.

Lemma mark_zero_ok v f : f ∈ registered.*1 → ok (mark_zero v f).
Proof. intros H. unfold mark_zero. destruct (IsNonZeroValue v); [constructor|by apply one_ok]. Qed.

Lemma export_nonzero_ok g f v : (f, g) ∈ registered → ok (export_nonzero g f v).
Proof.
  intros H. unfold export_nonzero. apply Forall_app. split; [|by apply one_ok].
  apply mark_zero_ok. exact (list_elem_of_fmap_2 fst _ _ H).
Qed.

Lemma index_loop_ok {A} key bad good on_bad (set : A → call) l : ∀ j,
  key ∈ index_keys → ok on_bad → (∀ x, call_registered (set x)) →
  ok (index_loop key bad good on_bad set j l).
Proof.
  induction l as [|x l IH]; intros j Hk Hb Hs; cbn [index_loop]; [constructor|].
  constructor; [done|]. destruct (bool_decide (j = 0) && bad x); [done|]. apply Forall_app. split; [|by apply IH].
  destruct (good x); [by apply one_ok|constructor].
Qed.

Lemma activity_loop_ok key gauge on_empty on_bad l : key ∈ index_keys → ok on_empty → ok on_bad →
  gauge ∈ registered.*2 → ok (activity_loop imp key gauge on_empty on_bad l).
Proof.
  intros Hk He Hb Hg. unfold activity_loop. apply Forall_app. split; [by destruct (decide (l = []))|].
  by apply index_loop_ok.
Qed.

Lemma violation_loop_ok gauge field l : field ∈ registered.*1 → gauge ∈ registered.*2 →
  ok (violation_loop imp gauge field l).
Proof. intros Hf Hg. apply index_loop_ok; [by_decide|by apply one_ok|done]. Qed.

Lemma set_applicable_ok g w x : g ∈ registered.*2 → ok (set_applicable imp g w x).
Proof. intros Hg. unfold set_applicable. destruct (applicable imp w x); [by apply one_ok|constructor]. Qed.

Lemma rounds_ok {A} (f : nat → A → list call) l : (∀ j x, ok (f j x)) → ok (concat (imap f l)).
Proof.
  intros H. apply Forall_concat, Forall_forall. intros x (j & y & -> & _)%elem_of_lookup_imap. apply H.
Qed.

Lemma optional_ok {A} (f : A → list call) x : (∀ a, ok (f a)) → ok (optional f x).
Proof. intros H. destruct x; [apply H|constructor]. Qed.

(** Calls with closed names. *)
Local Ltac names := repeat first
  [ apply Forall_nil_2 | apply Forall_cons_2; [cbn [call_registered fst snd]; by_decide|]
  | apply Forall_app; split ].
Local Ltac section_ok := repeat first
  [ apply export_nonzero_ok; by_decide | apply export_all_ok; names | apply mark_zero_ok; by_decide
  | apply activity_loop_ok; [by_decide|names|names|by_decide]
  | apply violation_loop_ok; by_decide | apply set_applicable_ok; by_decide
  | apply Forall_app; split | progress names ].

Lemma temperature_ok t : ok (temperature_calls imp t).
Proof.
  unfold temperature_calls. section_ok.
  - case_decide; names.
  - apply index_loop_ok; [by_decide|names|intros; cbn; by_decide].
Qed.

Lemma clock_ok l : ok (clock_calls imp l).
Proof.
  unfold clock_calls. destruct l; [names|]. apply Forall_app. split; [|names].
  apply rounds_ok. intros j c. unfold clock_loop. section_ok.
Qed.

Lemma vram_ok u st : ok (vram_calls imp u st).
Proof.
  unfold vram_calls. apply Forall_app. split; [destruct u; section_ok|]. cbv zeta. case_decide; section_ok.
Qed.

Lemma links_ok l : ok (xgmi_link_calls imp l).
Proof.
  unfold xgmi_link_calls. destruct l as [|x l]; [constructor|]. rewrite !Forall_app. split_and!.
  - apply rounds_ok. intros j y. unfold link_loop. constructor; [cbn; by_decide|]. section_ok.
  - names.
  - case_match; names.
  - case_match; names.
Qed.

Lemma afid_ok c : ok (afid_calls c).
Proof.
  unfold afid_calls. destruct c as [c|]; [|constructor]. constructor; [cbn; by_decide|]. apply Forall_app.
  split; [apply rounds_ok; intros; names|names].
Qed.

Lemma process_ok l : ok (process_calls imp l).
Proof.
  unfold process_calls. destruct l as [[|p l]|]; [constructor| |constructor]. apply Forall_app. split; [|names].
  apply Forall_forall. intros c (q & Hc & _)%list_elem_of_bind. revert c Hc. apply Forall_forall.
  unfold process_loop. case_decide; [constructor|]. case_match; names.
Qed.

Lemma missing_ok fields p : ok (missing_counters fields p).
Proof.
  apply Forall_forall. unfold missing_counters. intros c (f & Hf & Hc)%list_elem_of_omap. revert Hc.
  case_match; [|done]. intros [= <-]. by apply field_registered.
Qed.

Lemma counter_calls_ok k v : ok (counter_call k v).
Proof.
  unfold counter_call. destruct (list_find _ _) as [[i [k' [g sc]]]|] eqn:Hfind; [|constructor].
  apply list_find_Some in Hfind as (Hi%list_elem_of_lookup_2 & _). apply one_ok. cbn [call_registered].
  pose proof counters_registered as Hall. rewrite Forall_forall in Hall. apply (Hall _ Hi).
Qed.

Lemma occupancy_ok p : ok (occupancy_elapsed p).
Proof. unfold occupancy_elapsed. repeat case_match; names. Qed.

Lemma profiler_ok fields p : ok (profiler_calls fields p).
Proof.
  unfold profiler_calls. destruct p as [p|]; [|constructor]. rewrite !Forall_app.
  split_and!; [apply missing_ok| |apply occupancy_ok].
  apply Forall_forall. intros c (e & Hc & _)%list_elem_of_bind. revert c Hc. apply Forall_forall, counter_calls_ok.
Qed.
Lemma health_ok states : ok (health_calls gpuid states).
Proof. unfold health_calls. case_match; names. Qed.

Lemma readings_ok states fields cper p status stats :
  ok (readings imp gpuid states fields cper p status stats).
Proof.
  unfold readings. rewrite !Forall_app. split_and!;
    try (lazymatch goal with |- Forall _ (optional _ _) => apply optional_ok; intros ? end);
    first [ apply health_ok | apply temperature_ok | apply clock_ok | apply vram_ok | apply links_ok | apply afid_ok
          | apply process_ok | apply profiler_ok | idtac ].
  - unfold power_calls. section_ok.
  - unfold usage_calls. section_ok.
  - unfold voltage_calls. section_ok.
  - unfold pcie_status_calls. apply Forall_app. split; [|section_ok]. case_match; names.
  - section_ok.
  - section_ok.
  - section_ok.
  - names.
  - unfold ecc_calls. section_ok.
  - section_ok.
  - unfold violation_calls. section_ok.
Qed.
End registered.

(** ** A GPU with all readings *)

Definition full_stats : GPUStats :=
  MkStats 1 1 (Some (MkTemperature d_one d_one d_one [d_one])) (Some (MkUsage 1 1 1 [1] [1] [1] [1] [1]))
    (Some (MkVoltage 1 1 1)) (Some (MkPCIeStats 1 1 1 1 1 1 1 1)) d_one
    1 1 1 1 1 1 1 1 1 1 1 1 1 1 1 1 1 1 1 1 1 1 1 1 1 1 1 1 1 1 1 1 1 1 1 1 1 1 1 1 1 1 1
    1 1 1 1 1 1 1 1 1 1 1 1 (Some (MkVRAMUsage 1 1 1 1 1 1 1 1 1)) [MkLink 1 1]
    (Some (MkViolations 1 1 1 1 1 1 1 1 1 1 1 [1] [1] [1] [1] [1] [1] [1] [1]))
    1 1 1 1 1 1 1 1 1 1 1 1 1 1 1 1 1 1 1 1.

Definition full_status : GPUStatus :=
  MkStatus 0 (Some (MkPCIe "0000:0a:00.0" 32 32 64)) 0 0 128 0 "" "" "" "" "" "" [] 0 [MkClock 3 1 1 1]
    (Some (MkVRAM 2 1)) (Some [MkProcess 7 1]).

Definition full_counters : gmap string double :=
  list_to_map ((λ e, (e.1, d_one)) <$> profiler_gauges).

Definition full_table (imp : Z → double → Z) : list entry :=
  table imp "0" ∅ {[ "0" := "healthy" ]} (Some (MkCPEREntry "r" CPER_SEVERITY_FATAL "" [1])) (Some full_counters)
    full_status full_stats.

(** The gauges with a series that has a value. *)
Definition valued (imp : Z → double → Z) (l : list entry) : list string :=
  omap (λ e : entry, match value_of imp ∅ "0" e.2 with Some _ => Some e.1.1 | None => None end) l.

(** C16: No reading goes to a gauge of another field, and no field is
    forgotten: whatever the agent reports, each call of an export that
    passes the filter asks it for the field its gauge is registered with,
    each value is set on a registered gauge, each mark is that of a field,
    and only the index labels are added or removed; and there are readings
    under which every gauge but the total of the node has a series with a
    value. *)
Theorem readings_registered (imp : Z → double → Z) :
  (∀ gpuid states fields cper p status stats,
     Forall call_registered (readings imp gpuid states fields cper p status stats)) ∧
  (∀ f g, (f, g) ∈ registered → g = "gpuNodesTotal" ∨ g ∈ valued imp (full_table imp)).
Proof.
  split.
  - intros. apply readings_ok.
  - assert (Hall : Forall (λ p, p.2 = "gpuNodesTotal" ∨ p.2 ∈ valued imp (full_table imp)) registered) by by_decide.
    rewrite Forall_forall in Hall. intros f g Hin. apply (Hall _ Hin).
Qed.
