(* ===== verification/GpuScrape.v ===== *)
(** A scrape of the GPU metrics: [ResetMetrics], [getMetricsAll],
    [updateGPUInfoToMetrics], [UpdateStaticMetrics] and [InitConfigs] of the
    GPU client, [src/pkg/amdgpu/gpuagent/gpuagent_gpu.go] and
    [gpuagent_gpu_metrics.go], with everything they keep.

    [None] is the end of the process.  The counters of the profiler are
    fetched in a goroutine of their own, which touches nothing else; that the
    request is cancelled before they are there is an input. *)

From S2P Require Import Prelude RocpSdk Format GoStd Json ExporterUtils RocpClient ProfilerMetrics Scheduler.
From S2P Require Import GpuMessages GpuAgent Config Selector NodeLabeller GpuHealth FieldLogger LabelConfig.
From S2P Require Import MetricFields FieldConfig GpuReadings.
From Stdlib Require Import Ascii.
Local Open Scope Z_scope.

(** The fields of [GPUAgentGPUClient]: those of the health, the filter, the
    gauges, and the settings. *)
Record GPUClient : Type := MkGPUClient {
  health : GPUAgentGPUClient GpuProfiler;
  client_fl : fieldLogger;
  client_gauges : Gauges;
  client_labels : label_config;
  exportFieldMap : gmap string bool;
  gpuSelectorMap : gset Z;
  k8PodInfoMap : gmap string K8sPodInfo;
  enableProfileMetrics : bool;
  enableAfidMetrics : bool;
}.

Definition set_metrics (s : metrics) (c : GPUClient) : GPUClient :=
  MkGPUClient (health c) (fl s) (gauges s) (client_labels c) (exportFieldMap c) (gpuSelectorMap c)
    (k8PodInfoMap c) (enableProfileMetrics c) (enableAfidMetrics c).
Definition set_client_health (h : GPUAgentGPUClient GpuProfiler) (c : GPUClient) : GPUClient :=
  MkGPUClient h (client_fl c) (client_gauges c) (client_labels c) (exportFieldMap c) (gpuSelectorMap c)
    (k8PodInfoMap c) (enableProfileMetrics c) (enableAfidMetrics c).
Definition set_pods (m : gmap string K8sPodInfo) (c : GPUClient) : GPUClient :=
  MkGPUClient (health c) (client_fl c) (client_gauges c) (client_labels c) (exportFieldMap c)
    (gpuSelectorMap c) m (enableProfileMetrics c) (enableAfidMetrics c).
Definition set_client_fl (f : fieldLogger) (c : GPUClient) : GPUClient :=
  MkGPUClient (health c) f (client_gauges c) (client_labels c) (exportFieldMap c) (gpuSelectorMap c)
    (k8PodInfoMap c) (enableProfileMetrics c) (enableAfidMetrics c).

(** The labels a gauge was created with. *)
Definition gauge_names (s : label_config) (g : string) : option (list string) :=
  match list_find (λ p, p.1 = g) GpuMetrics with
  | Some (_, (_, o)) =>
      Some (match metric_labels o with
            | GpuLabels index => index ++ GetExportLabels s
            | NodeLabels => GetExporterNonGPULabels s
            end)
  | None => None
  end.

(** What one scrape meets: the monitor's inputs, the run of the profiler,
    whether the request is cancelled, the pods. *)
Record scrape_input : Type := MkScrape {
  agent : poll;
  enableGPUMonitoring : bool;
  profiler : outcome;
  profiler_now : Z; profiler_later : Z;
  cancelled : bool;
  enabledK8sApi : bool;
  k8sClient : bool;
  pods : gmap string K8sPodInfo + string;
}.

Inductive scrape_error : Type :=
  | AgentError (err : string)
  | ApiError (status : Z)
  | ContextError.

Section scrape.
Context (imp : Z → double → Z) (ParseInLocation : string → option Z).
Context (ParseFloat : string → option double) (ValidString : string → bool).
Context (GetDeviceNameFromRenderID : string → string) (hostname : string).

Definition accepts (s : label_config) (g : string) (labels : Labels) : bool :=
  match gauge_names s g with Some names => With ValidString names labels | None => false end.

Definition gpu_labels (c : GPUClient) (wls : gmap string Workload) (gpu : option GPU)
    (partitionMap : gmap string GPU) : option Labels :=
  populateLabelsFromGPU (client_labels c) hostname (gpuIDMap (health c)) (k8PodInfoMap c) wls gpu partitionMap.

Definition updateGPUInfoToMetrics (wls : gmap string Workload) (partitionMap : gmap string GPU)
    (pmetrics : gmap string (gmap string double)) (cper : gmap string CPEREntry) (c : GPUClient) (gpu : GPU)
    : option GPUClient :=
  status ← Status gpu;
  if exporterEnabledGPU (gpuSelectorMap c) (Index status) then
    labels ← gpu_labels c wls (Some gpu) partitionMap;
    stats ← Stats gpu;
    let gpuid := dec (Index status) in
    s ← foldM (exec imp (accepts (client_labels c)) gpuid labels)
          (MkMetrics (client_fl c) (client_gauges c) labels)
          (readings imp gpuid (Health <$> healthState (health c)) (exportFieldMap c)
             (cper !! getGPUUUID gpu) (pmetrics !! getGPURenderId gpu) status stats);
    Some (set_metrics s c)
  else Some c.

Definition FetchPodInfoForNode (i : scrape_input) (podInfoEnabled : bool)
    : gmap string K8sPodInfo * option string :=
  if enabledK8sApi i then
    if k8sClient i then
      if podInfoEnabled then match pods i with inl m => (m, None) | inr err => (∅, Some err) end
      else (∅, None)
    else (∅, Some "k8s scheduler client is nil")
  else (∅, None).

(** The metrics of the profiler, none after an error, and its new state. *)
Definition profiler_run (i : scrape_input) (c : GPUClient) : gmap string (gmap string double) * GPUClient :=
  let '(pmetrics, err, rpc) :=
    getProfilerMetrics d_zero ParseFloat (enableGPUMonitoring i) (enableProfileMetrics c)
      (profiler_now i) (profiler_later i) (profiler i) (rocpclient (health c)) in
  let h := health c in
  (match err with Some _ => ∅ | None => pmetrics end,
   set_client_health (MkClient rpc (healthState h) (mockEccField h) (gCache h) (gpuIDMap h)
     (computeNodeHealthState h)) c).

(** The total of the node, then every GPU. *)
Definition publish (wls : gmap string Workload) (partitionMap : gmap string GPU)
    (pmetrics : gmap string (gmap string double)) (cper : gmap string CPEREntry) (gpus : list GPU)
    (c : GPUClient) : option GPUClient :=
  nonGpuLabels ← gpu_labels c ∅ None ∅;
  s ← set_gauge (accepts (client_labels c)) "gpuNodesTotal" nonGpuLabels (Int (Z.of_nat (length gpus)))
        (MkMetrics (client_fl c) (client_gauges c) nonGpuLabels);
  foldM (updateGPUInfoToMetrics wls partitionMap pmetrics cper) (set_metrics s c) gpus.

Definition getMetricsAll (i : scrape_input) (c : GPUClient) : option (option scrape_error * GPUClient) :=
  let p := agent i in
  let '(pmetrics, c) := profiler_run i c in
  '(resp, cache) ← getGPUs (now p) (now' p) (later p) (gpuGet p) (gCache (health c));
  let c := set_client_health (set_gCache cache (health c)) c in
  match resp with
  | inr err => Some (Some (AgentError err), c)
  | inl (resp, partitionMap) =>
      if decide (ApiStatus resp ≠ 0) then Some (Some (ApiError (ApiStatus resp)), c)
      else
        let cper := match getLatestCPER ParseInLocation (enableAfidMetrics c) cache with
                    | inl (Some m) => m
                    | _ => ∅
                    end in
        if cancelled i then Some (Some ContextError, c)
        else
          let c := set_pods (FetchPodInfoForNode i (podInfoEnabled (client_labels c))).1 c in
          c ← publish (wls p) partitionMap pmetrics cper (Response resp) c;
          Some (None, c)
  end.

Definition ResetMetrics (c : GPUClient) : GPUClient :=
  MkGPUClient (health c) (client_fl c)
    (foldl (λ g f, <[Metric f.2 := ∅]> g) (client_gauges c) fieldMetricsMap)
    (client_labels c) (exportFieldMap c) (gpuSelectorMap c) (k8PodInfoMap c) (enableProfileMetrics c)
    (enableAfidMetrics c).

(** What [UpdateMetrics] of the metrics handler does to the client. *)
Definition scrape (i : scrape_input) (c : GPUClient) : option (option scrape_error * GPUClient) :=
  getMetricsAll i (ResetMetrics c).

(** Loading a configuration: [InitConfigs], then [UpdateStaticMetrics], whose
    part on health and metadata is in [GpuHealth]; both parts work on one
    answer of the agent. *)
Definition InitConfigs (fuel : nat) (i : scrape_input) (IsCperEnabled : bool) (c : GPUClient)
    : option (GPUClient * list string) :=
  let h := cfg (agent i) in
  let config := GPUConfig (GetConfig h) in
  sel ← initGPUSelectorConfig fuel (match config with Some g => Selector g | None => "" end) (gpuSelectorMap c);
  let '(fields, rpc, registered) :=
    InitConfigs_fields (enableGPUMonitoring i) h hostname (rocpclient (health c)) in
  let hc := health c in
  Some (MkGPUClient
    (MkClient rpc (healthState hc) (mockEccField hc) (gCache hc) (gpuIDMap hc) (computeNodeHealthState hc))
    (Reset (client_fl c)) ∅ (InitConfigs_labels config (client_labels c)) fields sel ∅
    (initProfilerMetrics config hostname) (initAfidMetrics (initFieldConfig config) IsCperEnabled), registered).

Definition UpdateStaticMetrics (i : scrape_input) (c : GPUClient) : option (option string * GPUClient) :=
  let p := agent i in
  '(resp, _) ← getGPUs (now p) (now' p) (later p) (gpuGet p) (gCache (health c));
  '(err, h) ← GpuHealth.UpdateStaticMetrics imp GetDeviceNameFromRenderID p (health c);
  let c := set_client_health h c in
  match err, resp with
  | None, inl (resp, partitionMap) =>
      let '(pmetrics, c) := profiler_run i c in
      let c := set_pods (FetchPodInfoForNode i (podInfoEnabled (client_labels c))).1 c in
      c ← publish (wls p) partitionMap pmetrics ∅ (Response resp) c;
      Some (None, set_client_fl (SetFilterDone (client_fl c)) c)
  | _, _ => Some (err, c)
  end.
End scrape.
