(* ===== verification/GpuScrapeProofs.v ===== *)
(** A scrape writes exactly the tables of the GPUs it exports. *)

From S2P Require Import Prelude RocpSdk Format GoStd Json ExporterUtils RocpClient ProfilerMetrics Scheduler.
From S2P Require Import GpuMessages GpuAgent Config Selector NodeLabeller GpuHealth FieldLogger LabelConfig.
From S2P Require Import LabelProofs MetricFields FieldConfig GpuReadings GpuTable GpuTableProofs GpuRun GpuKeys.
From S2P Require Import GpuScrape.
From Stdlib Require Import Ascii.
Local Open Scope Z_scope.

(** ** Gauges and their labels *)

Definition index_known (g : string * gauge_opts) : Prop :=
  match metric_labels g.2 with
  | GpuLabels index => NoDup index ∧ Forall (λ k, k ∈ index_keys) index
  | NodeLabels => True
  end.
#[export] Instance index_known_dec g : Decision (index_known g).
Proof. unfold index_known. case_match; apply _. Defined.

Lemma gauge_index_spec s g index : gauge_index g = Some index →
  gauge_names s g = Some (index ++ GetExportLabels s) ∧ NoDup index ∧ (∀ k, k ∈ index → k ∈ index_keys).
Proof.
  unfold gauge_index, gauge_names. destruct (list_find _ GpuMetrics) as [[i [n o]]|] eqn:Hf; [|done].
  apply list_find_Some in Hf as (Hi%list_elem_of_lookup_2 & _).
  assert (Hall : Forall index_known GpuMetrics) by (by_decide).
  rewrite Forall_forall in Hall. specialize (Hall _ Hi). unfold index_known in Hall. cbn [snd] in Hall.
  destruct (metric_labels o) as [index'|]; [|done]. intros [= ->]. split; [done|].
  split; [apply Hall|]. intros k. revert k. apply Forall_forall, Hall.
Qed.

(** ** Reading a table *)

Section put.
Context (imp : Z → double → Z) (gpuid : string) (unsupported : gset string).

Abbreviation put := (put imp gpuid unsupported).
Abbreviation value_of := (value_of imp unsupported gpuid).

Lemma put_absent l g L old : (g, L) ∉ l.*1 → put l g L old = old.
Proof.
  intros Hn. unfold GpuRun.put. assert (omap (hit imp gpuid unsupported g L) l = []) as ->; [|done].
  induction l as [|e l IH]; [done|]. rewrite fmap_cons, not_elem_of_cons in Hn. destruct Hn as [Hne Hn].
  cbn [omap list_omap]. unfold hit at 1. rewrite decide_False by done. by apply IH.
Qed.

Lemma put_present l g L p old : NoDup l.*1 → ((g, L), p) ∈ l →
  put l g L old = from_option Some old (value_of p).
Proof.
  intros Hnd (l1 & l2 & ->)%list_elem_of_split. rewrite fmap_app, fmap_cons in Hnd.
  apply NoDup_app in Hnd as (_ & Hd & [Hn2 _]%NoDup_cons).
  change (((g, L), p) :: l2) with ([((g, L), p)] ++ l2). rewrite !put_app.
  rewrite (put_absent l2) by done. rewrite (put_absent l1) by (intros H; apply (Hd _ H); by left).
  unfold GpuRun.put. cbn [omap list_omap]. unfold hit. cbn [fst snd]. rewrite decide_True by done.
  by destruct (value_of p).
Qed.
End put.

(** ** One GPU *)

Definition gpu_wf (gpu : GPU) : Prop :=
  readable gpu ∧ is_Some (Stats gpu) ∧ (∀ st, Status gpu = Some st → processes_ok (ProcessStatus st)).

(** Settings under which no label clashes. *)
Definition settings_ok (s : label_config) : Prop :=
  labels_ok s ∧ (∀ k, k ∈ index_keys → k ∉ GetExportLabels s) ∧
  extraPodLabelsMap s !! "gpu_id" = None ∧ customLabelMap s !! "hostname" = None.

Section scrape.
Context (imp : Z → double → Z) (ValidString : string → bool) (hostname : string).
Context (Hascii : ∀ s, ascii_string s = true → ValidString s = true).

Abbreviation valid_labels := (map_Forall (λ _ v, ValidString v = true)).

Lemma fits_accepted s labels e : labels_ok s → (∀ k, k ∈ index_keys → k ∉ GetExportLabels s) →
  (∀ k, is_Some (labels !! k) ↔ k ∈ GetExportLabels s) → valid_labels labels →
  fits labels e → accepts ValidString s e.1.1 e.1.2 = true.
Proof.
  intros Hs Hfree Hdom Hval (index & vs & Hg & Hlen & Hvs & ->).
  destruct (gauge_index_spec s _ _ Hg) as (Hn & Hnd & Hin). unfold accepts. rewrite Hn.
  apply (indexed_labels ValidString (GetExportLabels s) labels index vs).
  - by apply NoDup_GetExportLabels.
  - done.
  - intros k v Hk. by apply (Hval k v).
  - done.
  - done.
  - eapply Forall_impl; [exact Hvs|]. intros v Hv. by apply Hascii.
  - intros i Hi. by apply Hfree, Hin.
Qed.

Section publish.
Context (wls : gmap string Workload) (pm : gmap string GPU) (pmetrics : gmap string (gmap string double)).
Context (cper : gmap string CPEREntry) (c0 : GPUClient).

Abbreviation unsup := (unsupportedFieldMap (client_fl c0)).
Abbreviation labels_for gpu := (gpu_labels hostname c0 wls (Some gpu) pm).

(** What the export of one GPU writes. *)
Definition gpu_table (gpu : GPU) (labels : Labels) (st : GPUStatus) (stats : GPUStats) : list entry :=
  table imp (dec (Index st)) labels (Health <$> healthState (health c0)) (cper !! getGPUUUID gpu)
    (pmetrics !! getGPURenderId gpu) st stats.

(** A series of a GPU that is exported, and its value. *)
Definition publishes (gpu : GPU) (g : string) (L : Labels) (x : sample) : Prop :=
  ∃ st stats labels p, Status gpu = Some st ∧ Stats gpu = Some stats ∧
    exporterEnabledGPU (gpuSelectorMap c0) (Index st) = true ∧ labels_for gpu = Some labels ∧
    ((g, L), p) ∈ gpu_table gpu labels st stats ∧ value_of imp unsup (dec (Index st)) p = Some x.

Context (Hset : settings_ok (client_labels c0)).

Lemma series_gpu_id gpu labels st stats g L p : Status gpu = Some st → labels_for gpu = Some labels →
  ((g, L), p) ∈ gpu_table gpu labels st stats → L !! "gpu_id" = Some (dec (Index st)).
Proof.
  intros Hst Hl Hin. pose proof (fits_table imp (dec (Index st)) labels (Health <$> healthState (health c0))
    (cper !! getGPUUUID gpu) (pmetrics !! getGPURenderId gpu) st stats) as Hf.
  rewrite Forall_forall in Hf. destruct (Hf _ Hin) as (index & vs & Hg & Hlen & _ & HL). cbn [fst snd] in HL, Hg.
  destruct (gauge_index_spec (client_labels c0) _ _ Hg) as (_ & _ & Hk). rewrite HL.
  rewrite lookup_union_r.
  - destruct Hset as (Hok & _ & He & _). rewrite (gpu_id_label _ _ _ _ _ _ _ _ Hok He Hl).
    unfold getGPUInstanceIDString. by rewrite Hst.
  - apply not_elem_of_list_to_map. rewrite fst_zip by lia. intros Hi%Hk. revert Hi.
    by_decide.
Qed.

(** Every series of a GPU is accepted by its gauge. *)
Lemma table_takes gpu labels st stats : labels_for gpu = Some labels → valid_labels labels →
  index_free labels ∧
  Forall (takes imp (accepts ValidString (client_labels c0))) (gpu_table gpu labels st stats).
Proof.
  intros Hl Hval. destruct Hset as (Hok & Hfree & _).
  pose proof (populate_dom _ _ _ _ _ _ _ _ Hok Hl : ∀ k, _ ↔ k ∈ GetExportLabels _) as Hdom. split.
  - apply Forall_forall. intros k Hk. apply eq_None_not_Some. rewrite Hdom. by apply Hfree.
  - eapply Forall_impl; [apply fits_table|]. intros e He. right. by apply (fits_accepted _ labels).
Qed.

Lemma update_spec gpu s : gpu_wf gpu → map_Forall (λ _, readable) pm → map_Forall (λ _, typed) wls →
  (∀ labels, labels_for gpu = Some labels → valid_labels labels) →
  steady unsup s →
  ∃ s', updateGPUInfoToMetrics imp ValidString hostname wls pm pmetrics cper (set_metrics s c0) gpu =
      Some (set_metrics s' c0) ∧ steady unsup s' ∧
    ∀ g L, (∃ x, publishes gpu g L x ∧ series (gauges s') g L = Some x) ∨
           ((∀ x, ¬ publishes gpu g L x) ∧ series (gauges s') g L = series (gauges s) g L).
Proof.
  intros (Hread & [stats Hstats] & Hproc) Hpm Hwls Hval Hs. pose proof Hread as [_ [st Hst]].
  unfold updateGPUInfoToMetrics. rewrite Hst. cbn [mbind option_bind gpuSelectorMap set_metrics].
  destruct (exporterEnabledGPU (gpuSelectorMap c0) (Index st)) eqn:Hsel.
  2:{ exists s. split; [done|]. split; [done|]. intros g L. right. split; [|done].
      intros x (st' & stats' & labels & p & Hst' & _ & Hsel' & _). congruence. }
  destruct (populate_total (client_labels c0) hostname (gpuIDMap (health c0)) (k8PodInfoMap c0) wls gpu pm
    (proj1 Hset) Hread Hpm Hwls) as [labels Hl].
  change (gpu_labels hostname (set_metrics s c0) wls (Some gpu) pm) with (labels_for gpu).
  assert (Hlab : labels_for gpu = Some labels) by exact Hl. rewrite Hlab, Hstats. cbn [mbind option_bind].
  destruct (table_takes gpu labels st stats Hlab (Hval _ Hlab)) as [Hif Hacc].
  set (t := gpu_table gpu labels st stats).
  destruct (run_table imp (accepts ValidString (client_labels c0)) (dec (Index st)) labels unsup
    (Health <$> healthState (health c0)) (exportFieldMap c0) (cper !! getGPUUUID gpu)
    (pmetrics !! getGPURenderId gpu) st stats (MkMetrics (fl s) (gauges s) labels) Hif Hs eq_refl Hacc)
    as (s' & Hrun & Hs' & Hg).
  exists s'. split.
  { cbn [client_fl client_gauges client_labels health exportFieldMap set_metrics]. by rewrite Hrun. }
split; [done|]. intros g L. rewrite Hg. cbn [gauges].
  destruct (within_table imp (dec (Index st)) labels (Health <$> healthState (health c0))
    (cper !! getGPUUUID gpu) (pmetrics !! getGPURenderId gpu) st stats (Hproc _ Hst)) as [_ Hnd].
  assert (Honly : ∀ x, publishes gpu g L x → ∃ p, ((g, L), p) ∈ t ∧ value_of imp unsup (dec (Index st)) p = Some x).
  { intros x (st' & stats' & labels' & p & Hst' & Hstats' & _ & Hlab' & Hin & Hv).
    replace st' with st in * by congruence. replace stats' with stats in * by congruence.
    replace labels' with labels in * by congruence. by exists p. }
  destruct (decide ((g, L) ∈ t.*1)) as [Hin|Hnin].
  - apply list_elem_of_fmap in Hin as ([k p] & Hk & Hin). cbn in Hk. subst k.
    fold t in Hnd. rewrite (put_present _ _ _ t _ _ p); [|done|done].
    destruct (value_of imp unsup (dec (Index st)) p) as [x|] eqn:Hv.
    + left. exists x. split; [|done]. by exists st, stats, labels, p.
    + right. split; [|done]. intros x (p' & Hin' & Hv')%Honly.
      pose proof (put_present imp (dec (Index st)) unsup t g L p None Hnd Hin) as E.
      rewrite (put_present imp (dec (Index st)) unsup t g L p' None Hnd Hin'), Hv, Hv' in E. done.
  - right. split; [|by apply put_absent]. intros x (p & Hin & _)%Honly. apply Hnin.
    exact (list_elem_of_fmap_2 fst _ _ Hin).
Qed.

(** GPUs with different numbers publish different series. *)
Lemma publishes_apart gpu1 gpu2 g L x1 x2 :
  publishes gpu1 g L x1 → publishes gpu2 g L x2 →
  getGPUInstanceIDString gpu1 = getGPUInstanceIDString gpu2.
Proof.
  intros (st1 & stats1 & labels1 & p1 & Hst1 & _ & _ & Hl1 & Hin1 & _).
  intros (st2 & stats2 & labels2 & p2 & Hst2 & _ & _ & Hl2 & Hin2 & _).
  pose proof (series_gpu_id _ _ _ _ _ _ _ Hst1 Hl1 Hin1) as H1.
  pose proof (series_gpu_id _ _ _ _ _ _ _ Hst2 Hl2 Hin2) as H2.
  unfold getGPUInstanceIDString. rewrite Hst1, Hst2. congruence.
Qed.

Lemma publishes_functional gpu g L x1 x2 : gpu_wf gpu →
  publishes gpu g L x1 → publishes gpu g L x2 → x1 = x2.
Proof.
  intros (_ & _ & Hproc).
  intros (st1 & stats1 & labels1 & p1 & Hst1 & Hs1 & _ & Hl1 & Hin1 & Hv1).
  intros (st2 & stats2 & labels2 & p2 & Hst2 & Hs2 & _ & Hl2 & Hin2 & Hv2).
  replace st2 with st1 in * by congruence. replace stats2 with stats1 in * by congruence.
  replace labels2 with labels1 in * by congruence.
  destruct (within_table imp (dec (Index st1)) labels1 (Health <$> healthState (health c0))
    (cper !! getGPUUUID gpu) (pmetrics !! getGPURenderId gpu) st1 stats1 (Hproc _ Hst1)) as [_ Hnd].
  pose proof (put_present imp (dec (Index st1)) unsup _ g L p1 None Hnd Hin1) as E1.
  pose proof (put_present imp (dec (Index st1)) unsup _ g L p2 None Hnd Hin2) as E2.
  rewrite Hv1 in E1. rewrite Hv2 in E2. cbn [from_option] in E1, E2. rewrite E1 in E2. by injection E2.
Qed.

(** All GPUs, one after the other. *)
Lemma publish_gpus gpus : ∀ s, Forall gpu_wf gpus → NoDup (getGPUInstanceIDString <$> gpus) →
  map_Forall (λ _, readable) pm → map_Forall (λ _, typed) wls →
  Forall (λ gpu, ∀ labels, labels_for gpu = Some labels → valid_labels labels) gpus →
  steady unsup s →
  ∃ s', foldM (updateGPUInfoToMetrics imp ValidString hostname wls pm pmetrics cper) (set_metrics s c0) gpus =
      Some (set_metrics s' c0) ∧ steady unsup s' ∧
    ∀ g L, (∃ gpu x, gpu ∈ gpus ∧ publishes gpu g L x ∧ series (gauges s') g L = Some x) ∨
           ((∀ gpu x, gpu ∈ gpus → ¬ publishes gpu g L x) ∧ series (gauges s') g L = series (gauges s) g L).
Proof.
  induction gpus as [|gpu gpus IH]; intros s Hwf Hnd Hpm Hwls Hval Hs.
  { exists s. split; [done|]. split; [done|]. intros g L. right. split; [by intros ? ? ?%elem_of_nil|done]. }
  apply Forall_cons in Hwf as [Hgpu Hwf], Hval as [Hv Hval].
  rewrite fmap_cons in Hnd. apply NoDup_cons in Hnd as [Hni Hnd].
  destruct (update_spec gpu s Hgpu Hpm Hwls Hv Hs) as (s1 & Hu & Hs1 & Hg1).
  destruct (IH s1 Hwf Hnd Hpm Hwls Hval Hs1) as (s2 & Hr & Hs2 & Hg2).
  exists s2. cbn [foldM]. rewrite Hu. cbn [mbind option_bind]. split; [done|]. split; [done|].
  intros g L. destruct (Hg2 g L) as [(gpu' & x & Hin & Hp & Hx)|[Hno2 ->]].
  { left. exists gpu', x. split; [by right|done]. }
  destruct (Hg1 g L) as [(x & Hp & Hx)|[Hno1 ->]].
  - left. exists gpu, x. split; [by left|done].
  - right. split; [|done]. intros gpu' x [->|Hin]%elem_of_cons; [by apply Hno1|by apply Hno2].
Qed.

End publish.
End scrape.
