(* ===== verification/GpuLoad.v ===== *)
(** What the load of a configuration does to the filter: the calls of a GPU
    mark fields, and the marks of all GPUs are what [SetFilterDone] freezes. *)

From S2P Require Import Prelude RocpSdk Format GoStd Json ExporterUtils RocpClient ProfilerMetrics Scheduler.
From S2P Require Import GpuMessages GpuAgent Config Selector NodeLabeller GpuHealth FieldLogger LabelConfig.
From S2P Require Import LabelProofs MetricFields FieldConfig GpuReadings GpuTable GpuTableProofs GpuRun GpuKeys.
From S2P Require Import GpuScrape GpuScrapeProofs.
From Stdlib Require Import Ascii.
Local Open Scope Z_scope.

(** The filter after marks. *)
Definition marked (keys : list string) (fl : fieldLogger) : fieldLogger :=
  if filterDone fl then fl else MkFieldLogger (list_to_set keys ∪ unsupportedFieldMap fl) false.

Lemma marked_nil fl : marked [] fl = fl.
Proof. unfold marked. destruct fl as [u []]; [done|]. cbn. by rewrite (left_id_L ∅ (∪)). Qed.

Lemma unmarked fl : fl = marked [] fl.
Proof. by rewrite marked_nil. Qed.

Lemma marked_app k1 k2 fl : marked (k1 ++ k2) fl = marked k2 (marked k1 fl).
Proof.
  unfold marked. destruct fl as [u []]; [done|]. cbn [filterDone unsupportedFieldMap]. f_equal.
  rewrite list_to_set_app_L. set_solver.
Qed.

Lemma marked_one k fl : filterDone fl = false → marked [k] fl = MkFieldLogger ({[k]} ∪ unsupportedFieldMap fl) false.
Proof. intros Hd. unfold marked. rewrite Hd. f_equal. cbn. by rewrite (right_id_L ∅ (∪)). Qed.

Lemma marked_in k fl : k ∈ unsupportedFieldMap fl → marked [k] fl = fl.
Proof.
  intros Hk. unfold marked. destruct fl as [u []]; [done|]. cbn in *. f_equal. set_solver.
Qed.

(** ** The calls of one GPU *)

Section calls.
Context (imp : Z → double → Z) (accepts : string → Labels → bool) (gpuid : string) (labels : Labels).

(** The fields a call marks while a configuration is being loaded. *)
Definition call_marks (c : call) : list string :=
  match c with
  | CMark f => [f]
  | CExport g f v | CExportIndexed g f v => if published imp v then [] else [f]
  | _ => []
  end.

Definition marks (l : list call) : list string := l ≫= call_marks.

Lemma log_marks f fl : logUnsupportedField gpuid f fl = marked [field_key gpuid f] fl.
Proof. unfold logUnsupportedField. destruct (filterDone fl) eqn:Hd; [unfold marked; by rewrite Hd|by rewrite marked_one]. Qed.

Lemma export_marks g f L v s : numeric v → takes imp accepts ((g, L), Filtered f v) →
  ∃ s', export imp accepts gpuid g f L v s = Some s' ∧ labelsWithIndex s' = labelsWithIndex s ∧
    fl s' = marked (field_key gpuid <$> (if published imp v then [] else [f])) (fl s).
Proof.
  unfold takes, export, logWithValidateAndExport, checkUnsupportedFields. cbn [fst snd]. intros Hn Ha.
  case_bool_decide as Hf; cbn [mbind option_bind].
  { rewrite bool_decide_eq_true_2 by done. eexists. split; [done|]. split; [done|]. cbn [fl].
    destruct (published imp v); [apply unmarked|]. symmetry; by apply marked_in. }
  assert (ValidateAndExport imp ∅ (Some L) v =
    if IsValueApplicable imp v then z ← NormalizeUint64 imp v; Some (ErrorNone, {[L := z]})
    else Some (ErrorNotApplicable, ∅)) as -> by by destruct v.
  unfold published in *. destruct (IsValueApplicable imp v).
  - destruct (normalize_numeric imp v Hn) as [z Hz]. rewrite Hz in *. cbn [mbind option_bind fmap option_fmap option_map].
    destruct Ha as [Ha|Ha]; [done|]. rewrite Ha, orb_true_r. eexists. split; [done|]. split; [done|].
    apply unmarked.
  - cbn [mbind option_bind]. rewrite bool_decide_eq_true_2 by done. cbn [orb]. eexists. split; [done|].
    split; [done|]. apply log_marks.
Qed.

Lemma exec_marks c lwi s : labelsWithIndex s = lwi → Forall numeric_entry (written labels lwi c) →
  Forall (takes imp accepts) (written labels lwi c) →
  ∃ s', exec imp accepts gpuid labels s c = Some s' ∧ labelsWithIndex s' = index_step lwi c ∧
    fl s' = marked (field_key gpuid <$> call_marks c) (fl s).
Proof.
  intros Hl Hn Ha. destruct c as [f|g f v|g f v|g x|g x|k v|k]; cbn [exec written index_step call_marks] in *;
    try (apply Forall_cons in Hn as [Hn _]; apply Forall_cons in Ha as [Ha _]); rewrite ?Hl.
  - eexists. split; [done|]. split; [done|]. apply log_marks.
  - destruct (export_marks g f labels v s Hn Ha) as (s' & -> & Hi & Hg). exists s'. split; [done|]. by rewrite Hi.
  - destruct (export_marks g f lwi v s Hn Ha) as (s' & -> & Hi & Hg). exists s'. split; [done|]. by rewrite Hi.
  - destruct Ha as [[]|Ha]. cbn in Ha. unfold set_gauge. rewrite Ha. eexists. split; [done|]. split; [done|].
    apply unmarked.
  - destruct Ha as [[]|Ha]. cbn in Ha. unfold set_gauge. rewrite Ha. eexists. split; [done|]. split; [done|].
    apply unmarked.
  - eexists. split; [done|]. split; [done|]. apply unmarked.
  - eexists. split; [done|]. split; [done|]. apply unmarked.
Qed.

Lemma run_marks l : ∀ lwi s, labelsWithIndex s = lwi → Forall numeric_entry (resolve labels lwi l) →
  Forall (takes imp accepts) (resolve labels lwi l) →
  ∃ s', foldM (exec imp accepts gpuid labels) s l = Some s' ∧
    fl s' = marked (field_key gpuid <$> marks l) (fl s).
Proof.
  induction l as [|c l IH]; intros lwi s Hl; cbn [resolve foldM].
  { intros _ _. exists s. split; [done|apply unmarked]. }
  rewrite !Forall_app. intros [Hn1 Hn2] [Ha1 Ha2].
  destruct (exec_marks c lwi s Hl Hn1 Ha1) as (s1 & -> & Hl1 & Hf1). cbn [mbind option_bind].
  destruct (IH _ s1 Hl1 Hn2 Ha2) as (s2 & -> & Hf2). exists s2. split; [done|].
  unfold marks. cbn [mbind list_bind]. by rewrite fmap_app, marked_app, <- Hf1.
Qed.

(** A filter that is done stays as it is, whatever is written. *)
Lemma exec_done s c s' : filterDone (fl s) = true → exec imp accepts gpuid labels s c = Some s' → fl s' = fl s.
Proof.
  intros Hd. assert (Hexp : ∀ g f L v, export imp accepts gpuid g f L v s = Some s' → fl s' = fl s).
  { intros g f L v. unfold export, logWithValidateAndExport. destruct (checkUnsupportedFields _ _ _).
    { cbn [mbind option_bind]. case_match; [by intros [= <-]|done]. }
    destruct (ValidateAndExport _ _ _ _) as [[err m]|]; [|done]. cbn [mbind option_bind].
    case_match; [|done]. intros [= <-]. cbn [fl]. destruct err; [done| |done].
    unfold logUnsupportedField. by rewrite Hd. }
  assert (Hset : ∀ g L x, set_gauge accepts g L x s = Some s' → fl s' = fl s).
  { intros g L x. unfold set_gauge. case_match; [by intros [= <-]|done]. }
  destruct c; cbn [exec]; eauto; intros [= <-]; [|done..].
  cbn [fl]. unfold markUnsupportedFields. by rewrite Hd.
Qed.

Lemma run_done l : ∀ s s', filterDone (fl s) = true → foldM (exec imp accepts gpuid labels) s l = Some s' →
  fl s' = fl s.
Proof.
  induction l as [|c l IH]; intros s s' Hd; cbn [foldM]; [by intros [= <-]|].
  destruct (exec _ _ _ _ s c) as [s1|] eqn:He; [|done]. cbn [mbind option_bind]. intros Hr.
  pose proof (exec_done s c s1 Hd He) as H1. rewrite (IH s1 s'); [done| |done]. by rewrite H1.
Qed.
End calls.

(** ** All GPUs *)

Section load.
Context (imp : Z → double → Z) (ValidString : string → bool) (hostname : string).
Context (Hascii : ∀ s, ascii_string s = true → ValidString s = true).
Context (wls : gmap string Workload) (pm : gmap string GPU) (pmetrics : gmap string (gmap string double)).
Context (cper : gmap string CPEREntry) (c0 : GPUClient).

Abbreviation valid_labels := (map_Forall (λ _ v, ValidString v = true)).
Abbreviation labels_for gpu := (gpu_labels hostname c0 wls (Some gpu) pm).

(** The fields of a GPU the load marks. *)
Definition gpu_marks (gpu : GPU) : list string :=
  match Status gpu, Stats gpu with
  | Some st, Some stats =>
      if exporterEnabledGPU (gpuSelectorMap c0) (Index st) then
        marks imp (readings imp (dec (Index st)) (Health <$> healthState (health c0)) (exportFieldMap c0)
          (cper !! getGPUUUID gpu) (pmetrics !! getGPURenderId gpu) st stats)
      else []
  | _, _ => []
  end.

Definition gpu_mark_keys (gpu : GPU) : list string := field_key (getGPUInstanceIDString gpu) <$> gpu_marks gpu.

Context (Hset : settings_ok (client_labels c0)).

Lemma update_marks gpu s : gpu_wf gpu → map_Forall (λ _, readable) pm → map_Forall (λ _, typed) wls →
  (∀ labels, labels_for gpu = Some labels → valid_labels labels) →
  ∃ s', updateGPUInfoToMetrics imp ValidString hostname wls pm pmetrics cper (set_metrics s c0) gpu =
      Some (set_metrics s' c0) ∧ fl s' = marked (gpu_mark_keys gpu) (fl s).
Proof.
  intros (Hread & [stats Hstats] & Hproc) Hpm Hwls Hval. pose proof Hread as [_ [st Hst]].
  unfold updateGPUInfoToMetrics, gpu_mark_keys, gpu_marks, getGPUInstanceIDString.
  rewrite Hst, Hstats. cbn [mbind option_bind gpuSelectorMap set_metrics].
  destruct (exporterEnabledGPU (gpuSelectorMap c0) (Index st)) eqn:Hsel.
  2:{ exists s. split; [done|]. apply unmarked. }
  destruct (populate_total (client_labels c0) hostname (gpuIDMap (health c0)) (k8PodInfoMap c0) wls gpu pm
    (proj1 Hset) Hread Hpm Hwls) as [labels Hl].
  change (gpu_labels hostname (set_metrics s c0) wls (Some gpu) pm) with (labels_for gpu).
  assert (Hlab : labels_for gpu = Some labels) by exact Hl. rewrite Hlab. cbn [mbind option_bind].
  destruct (table_takes imp ValidString hostname Hascii wls pm pmetrics cper c0 Hset gpu labels st stats Hlab
    (Hval _ Hlab)) as [Hif Hacc].
  destruct (readings_take imp (accepts ValidString (client_labels c0)) (dec (Index st)) labels
    (Health <$> healthState (health c0)) (exportFieldMap c0) (cper !! getGPUUUID gpu)
    (pmetrics !! getGPURenderId gpu) st stats Hif Hacc) as [Hn Ht].
  destruct (run_marks imp (accepts ValidString (client_labels c0)) (dec (Index st)) labels _ labels
    (MkMetrics (fl s) (gauges s) labels) eq_refl Hn Ht) as (s' & Hrun & Hf).
  exists s'. split; [|done].
  cbn [client_fl client_gauges client_labels health exportFieldMap set_metrics]. by rewrite Hrun.
Qed.

Lemma update_all_marks gpus : ∀ s, Forall gpu_wf gpus →
  map_Forall (λ _, readable) pm → map_Forall (λ _, typed) wls →
  Forall (λ gpu, ∀ labels, labels_for gpu = Some labels → valid_labels labels) gpus →
  ∃ s', foldM (updateGPUInfoToMetrics imp ValidString hostname wls pm pmetrics cper) (set_metrics s c0) gpus =
      Some (set_metrics s' c0) ∧ fl s' = marked (gpus ≫= gpu_mark_keys) (fl s).
Proof.
  induction gpus as [|gpu gpus IH]; intros s Hwf Hpm Hwls Hval.
  { exists s. split; [done|]. apply unmarked. }
  apply Forall_cons in Hwf as [Hgpu Hwf], Hval as [Hv Hval].
  destruct (update_marks gpu s Hgpu Hpm Hwls Hv) as (s1 & Hu & Hs1).
  destruct (IH s1 Hwf Hpm Hwls Hval) as (s2 & Hr & Hs2).
  exists s2. cbn [foldM]. rewrite Hu. cbn [mbind option_bind]. split; [done|].
  cbn [mbind list_bind]. rewrite marked_app, <- Hs1. exact Hs2.
Qed.

(** A scrape leaves a filter that is done as it is. *)
Lemma update_done c gpu c' : filterDone (client_fl c) = true →
  updateGPUInfoToMetrics imp ValidString hostname wls pm pmetrics cper c gpu = Some c' → client_fl c' = client_fl c.
Proof.
  intros Hd. unfold updateGPUInfoToMetrics. destruct (Status gpu) as [st|]; [|done]. cbn [mbind option_bind].
  case_match; [|by intros [= <-]]. destruct (gpu_labels _ _ _ _ _) as [labels|]; [|done]. cbn [mbind option_bind].
  destruct (Stats gpu) as [stats|]; [|done]. cbn [mbind option_bind].
  destruct (foldM _ _ _) as [s|] eqn:Hr; [|done]. cbn [mbind option_bind]. intros [= <-]. cbn [client_fl set_metrics].
  by apply run_done in Hr.
Qed.

Lemma update_all_done gpus : ∀ c c', filterDone (client_fl c) = true →
  foldM (updateGPUInfoToMetrics imp ValidString hostname wls pm pmetrics cper) c gpus = Some c' →
  client_fl c' = client_fl c.
Proof.
  induction gpus as [|gpu gpus IH]; intros c c' Hd; cbn [foldM]; [by intros [= <-]|].
  destruct (updateGPUInfoToMetrics _ _ _ _ _ _ _ c gpu) as [c1|] eqn:Hu; [|done]. cbn [mbind option_bind].
  intros Hr. pose proof (update_done _ _ _ Hd Hu) as H1. rewrite (IH c1 c'); [done| |done]. by rewrite H1.
Qed.
End load.
