(* ===== verification/GpuScrapeTheorems.v ===== *)
(** What a scrape publishes, and what it leaves. *)

From S2P Require Import Prelude RocpSdk Format GoStd Json ExporterUtils RocpClient ProfilerMetrics Scheduler.
From S2P Require Import GpuMessages GpuAgent Config Selector NodeLabeller GpuHealth FieldLogger LabelConfig.
From S2P Require Import LabelProofs MetricFields FieldConfig GpuReadings GpuTable GpuTableProofs GpuRun GpuKeys.
From S2P Require Import GpuHealthTheorems GpuScrape GpuScrapeProofs GpuLoad.
From Stdlib Require Import Ascii.
Local Open Scope Z_scope.

Definition gauge_members : list string := GpuMetrics.*1.

Lemma reset_empty c g L : g ∈ gauge_members → series (client_gauges (ResetMetrics c)) g L = None.
Proof.
  intros Hg. assert (Hall : Forall (λ g, g ∈ (λ f, Metric f.2) <$> fieldMetricsMap) gauge_members)
    by (by_decide).
  rewrite Forall_forall in Hall. specialize (Hall g Hg). cbn [ResetMetrics client_gauges].
  unfold series. enough (foldl (λ g f, <[Metric f.2 := ∅]> g) (client_gauges c) fieldMetricsMap !! g = Some ∅) as ->
    by (cbn; by rewrite lookup_empty).
  revert Hall. generalize fieldMetricsMap, (client_gauges c). intros l. induction l as [|f l IH] using rev_ind.
  { intros m Hin. by apply elem_of_nil in Hin. }
  intros m. rewrite fmap_app, elem_of_app, foldl_app. cbn [foldl]. intros Hin.
  destruct (decide (Metric f.2 = g)) as [<-|Hne]; [by rewrite lookup_insert_eq|].
  rewrite lookup_insert_ne by done. apply IH. destruct Hin as [?|Hin]; [done|].
  by apply list_elem_of_singleton in Hin.
Qed.

Lemma note_partitions_readable gpus : ∀ m m', Forall readable gpus → map_Forall (λ _, readable) m →
  note_partitions m gpus = Some m' → map_Forall (λ _, readable) m'.
Proof.
  induction gpus as [|gpu gpus IH]; intros m m' Hg Hm; cbn [note_partitions]; [by intros [= <-]|].
  apply Forall_cons in Hg as [Hr Hg]. pose proof Hr as [_ [st Hst]]. unfold note_partition. rewrite Hst.
  cbn [mbind option_bind]. destruct (PCIeBusId st); cbn [mbind option_bind]; [|by apply IH].
  case_decide; cbn [mbind option_bind]; apply IH; try done. by apply map_Forall_insert_2.
Qed.

Lemma getGPUs_partitions n n' l get c resp pm cache :
  getGPUs n n' l get c = Some (inl (resp, pm), cache) → note_partitions ∅ (Response resp) = Some pm.
Proof.
  unfold getGPUs. destruct (cacheRead _ _ _ _ _) as [[res|err] c']; [|done].
  destruct (note_partitions ∅ (Response res)) eqn:Hn; [|done]. cbn [mbind option_bind]. by intros [= <- <- _].
Qed.

Lemma publishes_not_total imp hostname wls pm pmetrics cper c0 gpu L x :
  ¬ publishes imp hostname wls pm pmetrics cper c0 gpu "gpuNodesTotal" L x.
Proof.
  intros (st & stats & labels & p & _ & _ & _ & _ & Hin & _).
  pose proof (fits_table imp (dec (Index st)) labels (Health <$> healthState (health c0))
    (cper !! getGPUUUID gpu) (pmetrics !! getGPURenderId gpu) st stats) as Hf.
  rewrite Forall_forall in Hf. by destruct (Hf _ Hin) as (index & vs & Hg & _).
Qed.

Section theorems.
Context (imp : Z → double → Z) (ParseInLocation : string → option Z).
Context (ParseFloat : string → option double) (ValidString : string → bool).
Context (GetDeviceNameFromRenderID : string → string) (hostname : string).

Abbreviation scrape := (scrape imp ParseInLocation ParseFloat ValidString hostname).
Abbreviation valid_labels := (map_Forall (λ _ v, ValidString v = true)).

(** The client when the GPUs are published, with the metrics of the profiler:
    the profiler has run, the cache holds the answer, the pods were asked for. *)
Definition ready (i : scrape_input) (cache : gpuCache) (c : GPUClient)
    : gmap string (gmap string double) * GPUClient :=
  let '(pmetrics, c) := profiler_run ParseFloat i c in
  let c := set_client_health (set_gCache cache (health c)) c in
  (pmetrics, set_pods (FetchPodInfoForNode i (podInfoEnabled (client_labels c))).1 c).

Definition publishing (i : scrape_input) (cache : gpuCache) (c : GPUClient) := ready i cache (ResetMetrics c).

Definition latest_records (cache : gpuCache) (c : GPUClient) : gmap string CPEREntry :=
  match getLatestCPER ParseInLocation (enableAfidMetrics c) cache with inl (Some m) => m | _ => ∅ end.

Lemma ready_settings i cache c : let c0 := (ready i cache c).2 in
  client_labels c0 = client_labels c ∧ client_fl c0 = client_fl c ∧ client_gauges c0 = client_gauges c ∧
  healthState (health c0) = healthState (health c) ∧ gpuSelectorMap c0 = gpuSelectorMap c ∧
  computeNodeHealthState (health c0) = computeNodeHealthState (health c).
Proof. unfold ready, profiler_run. by destruct (getProfilerMetrics _ _ _ _ _ _ _ _) as [[pm err] rpc]. Qed.

Lemma scrape_answer i c resp pm cache :
  getGPUs (now (agent i)) (now' (agent i)) (later (agent i)) (gpuGet (agent i)) (gCache (health c)) =
    Some (inl (resp, pm), cache) →
  ApiStatus resp = 0 → cancelled i = false →
  scrape i c =
    c' ← publish imp ValidString hostname (wls (agent i)) pm (publishing i cache c).1 (latest_records cache c)
           (Response resp) (publishing i cache c).2;
    Some (None, c').
Proof.
  intros Hg Hs Hc. unfold GpuScrape.scrape, getMetricsAll, publishing, ready, latest_records, profiler_run.
  destruct (getProfilerMetrics _ _ _ _ _ _ _ _) as [[pmx err] rpc]. cbn [set_client_health health gCache].
  cbn [ResetMetrics health]. rewrite Hg. cbn [mbind option_bind]. rewrite decide_False by lia. by rewrite Hc.
Qed.

(** ** Publishing an answer *)

Section publish.
Context (Hascii : ∀ s, ascii_string s = true → ValidString s = true).

(** An answer of the agent the exporter can handle, and texts in UTF-8. *)
Record input_ok (wls : gmap string Workload) (gpus : list GPU) (pm : gmap string GPU) (c0 : GPUClient) : Prop := {
  in_gpus : Forall gpu_wf gpus;
  in_ids : NoDup (getGPUInstanceIDString <$> gpus);
  in_wls : map_Forall (λ _, typed) wls;
  in_hostname : ValidString hostname = true;
  in_custom : valid_labels (customLabelMap (client_labels c0));
  in_labels : Forall (λ gpu, ∀ labels, gpu_labels hostname c0 wls (Some gpu) pm = Some labels →
    valid_labels labels) gpus;
}.

(** The series of the total of the node. *)
Definition node_series (c : GPUClient) (L : Labels) : Prop :=
  ∀ k, L !! k = match customLabelMap (client_labels c) !! k with
                | Some v => Some v
                | None => if decide (k = "hostname") then Some hostname else None
                end.

Lemma node_total c0 (gpus : list GPU) : settings_ok (client_labels c0) → ValidString hostname = true →
  valid_labels (customLabelMap (client_labels c0)) →
  ∃ nl s, gpu_labels hostname c0 ∅ None ∅ = Some nl ∧ node_series c0 nl ∧
    set_gauge (accepts ValidString (client_labels c0)) "gpuNodesTotal" nl (Int (Z.of_nat (length gpus)))
      (MkMetrics (client_fl c0) (client_gauges c0) nl) = Some s ∧
    fl s = client_fl c0 ∧
    ∀ g L, series (gauges s) g L = if decide ((g, L) = ("gpuNodesTotal", nl))
                              then Some (Int (Z.of_nat (length gpus))) else series (client_gauges c0) g L.
Proof.
  intros (Hok & _ & _ & Hh) Hvh Hvc.
  destruct (populate_node (client_labels c0) hostname (gpuIDMap (health c0)) (k8PodInfoMap c0) Hok)
    as (nl & Hnl & Hk).
  assert (Hacc : accepts ValidString (client_labels c0) "gpuNodesTotal" nl = true).
  { change (With ValidString (GetExporterNonGPULabels (client_labels c0)) nl = true).
    eapply (node_gauge _ _ hostname); [done|apply (ok_custom _ Hok)| |done].
    intros k v. rewrite Hk. destruct (customLabelMap (client_labels c0) !! k) as [w|] eqn:Hc.
    - intros [= <-]. by apply (Hvc k).
    - case_decide; [by intros [= <-]|done]. }
  exists nl. unfold set_gauge. rewrite Hacc. eexists. split; [done|].
  split; [exact Hk|]. split; [done|]. split; [done|]. intros g L. cbn [gauges]. unfold series.
  case_decide as He.
  - injection He as -> ->. rewrite lookup_insert_eq. cbn. by rewrite lookup_insert_eq.
  - destruct (decide (g = "gpuNodesTotal")) as [->|Hne].
    + rewrite lookup_insert_eq. cbn [mbind option_bind]. rewrite lookup_insert_ne by congruence.
      by destruct (client_gauges c0 !! "gpuNodesTotal").
    + by rewrite lookup_insert_ne.
Qed.

(** The series after an answer was published into empty gauges. *)
Lemma publish_exactly wls gpus pm pmetrics cper c0 : filterDone (client_fl c0) = true →
  settings_ok (client_labels c0) → input_ok wls gpus pm c0 → map_Forall (λ _, readable) pm →
  (∀ g L, g ∈ gauge_members → series (client_gauges c0) g L = None) →
  ∃ c', publish imp ValidString hostname wls pm pmetrics cper gpus c0 = Some c' ∧ client_fl c' = client_fl c0 ∧
    ∀ g L x, g ∈ gauge_members →
      series (client_gauges c') g L = Some x ↔
      (g = "gpuNodesTotal" ∧ node_series c0 L ∧ x = Int (Z.of_nat (length gpus))) ∨
      ∃ gpu, gpu ∈ gpus ∧ publishes imp hostname wls pm pmetrics cper c0 gpu g L x.
Proof.
  intros Hdone Hset [Hwf Hids Hwls Hvh Hvc Hvl] Hpm Hempty.
  destruct (node_total c0 gpus Hset Hvh Hvc) as (nl & s & Hnl & Hns & Hs1 & Hfl & Hg1).
  destruct (publish_gpus imp ValidString hostname Hascii wls pm pmetrics cper c0 Hset gpus s Hwf Hids Hpm Hwls Hvl)
    as (s' & Hrun & [Hd Hu] & Hg2); [split; by rewrite Hfl|].
  unfold publish. rewrite Hnl. cbn [mbind option_bind]. rewrite Hs1. cbn [mbind option_bind]. rewrite Hrun.
  exists (set_metrics s' c0). split; [done|]. split.
  { cbn [client_fl set_metrics]. destruct (fl s'), (client_fl c0). cbn in *. congruence. }
  intros g L x Hg. cbn [client_gauges set_metrics]. specialize (Hg1 g L). rewrite (Hempty g L Hg) in Hg1.
  destruct (Hg2 g L) as [(gpu & y & Hgpu & Hp & Hx)|[Hno Hx]]; rewrite Hx.
  - split.
    + intros [= <-]. right. by exists gpu.
    + intros [(-> & _)|(gpu' & Hgpu' & Hp')]; [by destruct (publishes_not_total _ _ _ _ _ _ _ _ _ _ Hp)|].
      f_equal. assert (gpu' = gpu) as ->.
      { pose proof (publishes_apart _ _ _ _ _ _ _ Hset _ _ _ _ _ _ Hp' Hp) as Hid.
        apply list_elem_of_lookup in Hgpu as [n1 H1], Hgpu' as [n2 H2].
        assert (n1 = n2) as <- by (eapply NoDup_lookup; [exact Hids|by rewrite list_lookup_fmap, H1|
          by rewrite list_lookup_fmap, H2, <- Hid]). congruence. }
      rewrite Forall_forall in Hwf. by apply (publishes_functional _ _ _ _ _ _ _ _ _ _ _ _ (Hwf _ Hgpu) Hp Hp').
  - rewrite Hg1. case_decide as He.
    + injection He as -> ->. split.
      * intros [= <-]. by left.
      * intros [(_ & _ & ->)|(gpu & Hgpu & Hp)]; [done|]. by destruct (Hno gpu x Hgpu).
    + split; [done|]. intros [(-> & HL & _)|(gpu & Hgpu & Hp)]; [|by destruct (Hno gpu x Hgpu)].
      destruct He. f_equal. apply map_eq. intros k. by rewrite (HL k), (Hns k).
Qed.

(** Publishing leaves the states of the GPUs as they are. *)
Lemma publish_health_kept wls gpus pm pmetrics cper c0 c' :
  publish imp ValidString hostname wls pm pmetrics cper gpus c0 = Some c' → health c' = health c0.
Proof.
  unfold publish. destruct (gpu_labels _ _ _ _ _) as [nl|]; [|done]. cbn [mbind option_bind].
  destruct (set_gauge _ _ _ _ _) as [s|]; [|done]. cbn [mbind option_bind].
  change (health c0) with (health (set_metrics s c0)). generalize (set_metrics s c0). clear.
  induction gpus as [|gpu gpus IH]; intros c; cbn [foldM]; [by intros [= <-]|].
  destruct (updateGPUInfoToMetrics _ _ _ _ _ _ _ c gpu) as [c1|] eqn:Hu; [|done]. cbn [mbind option_bind].
  intros ->%IH. revert Hu. unfold updateGPUInfoToMetrics.
  destruct (Status gpu) as [st|]; [|done]. cbn [mbind option_bind]. case_match; [|by intros [= <-]].
  destruct (gpu_labels _ _ _ _ _) as [labels|]; [|done]. cbn [mbind option_bind].
  destruct (Stats gpu) as [stats|]; [|done]. cbn [mbind option_bind].
  destruct (foldM _ _ _) as [s1|]; [|done]. cbn [mbind option_bind]. intros Hc. by injection Hc as <-.
Qed.

(** The filter after an answer was published. *)
Lemma publish_marks wls gpus pm pmetrics cper c0 : settings_ok (client_labels c0) →
  input_ok wls gpus pm c0 → map_Forall (λ _, readable) pm →
  ∃ c', publish imp ValidString hostname wls pm pmetrics cper gpus c0 = Some c' ∧
    client_fl c' = marked (gpus ≫= gpu_mark_keys imp pmetrics cper c0) (client_fl c0).
Proof.
  intros Hset [Hwf Hids Hwls Hvh Hvc Hvl] Hpm.
  destruct (node_total c0 gpus Hset Hvh Hvc) as (nl & s & Hnl & _ & Hs1 & Hfl & _).
  destruct (update_all_marks imp ValidString hostname Hascii wls pm pmetrics cper c0 Hset gpus s Hwf Hpm Hwls Hvl)
    as (s' & Hrun & Hm).
  unfold publish. rewrite Hnl. cbn [mbind option_bind]. rewrite Hs1. cbn [mbind option_bind]. rewrite Hrun.
  exists (set_metrics s' c0). split; [done|]. cbn [client_fl set_metrics]. by rewrite Hm, Hfl.
Qed.

Lemma partitions_ok n n' l get c resp pm cache : getGPUs n n' l get c = Some (inl (resp, pm), cache) →
  Forall gpu_wf (Response resp) → map_Forall (λ _, readable) pm.
Proof.
  intros Hg Hwf. apply (note_partitions_readable (Response resp) ∅); [|apply map_Forall_empty|].
  - eapply Forall_impl; [exact Hwf|]. by intros gpu [? _].
  - by eapply getGPUs_partitions.
Qed.
End publish.

(** ** Scrapes *)

(** C2: A scrape publishes exactly the readings of the answer of the agent.
    If the loading of the configuration is over, the configured labels do
    not clash and the answer is well formed, the scrape succeeds, leaves the
    filter as it is, and afterwards a series of a gauge has a value if and
    only if it is the total of the node (with the number of GPUs), or a
    series of the table of an exported GPU of the answer whose reading is
    applicable and whose field was not marked during the load; the value is
    the one of the table.  Nothing of the scrape before is left, no series
    has the value of another GPU or of another part of one. *)
Theorem scrape_publishes_exactly i c resp pm cache
    (Hascii : ∀ s, ascii_string s = true → ValidString s = true)
    (Hgpus : getGPUs (now (agent i)) (now' (agent i)) (later (agent i)) (gpuGet (agent i)) (gCache (health c)) =
             Some (inl (resp, pm), cache))
    (Hstatus : ApiStatus resp = 0) (Hcancel : cancelled i = false)
    (Hdone : filterDone (client_fl c) = true) (Hset : settings_ok (client_labels c))
    (Hin : input_ok (wls (agent i)) (Response resp) pm (publishing i cache c).2) :
  let c0 := (publishing i cache c).2 in
  ∃ c', scrape i c = Some (None, c') ∧ client_fl c' = client_fl c ∧
    ∀ g L x, g ∈ gauge_members →
      series (client_gauges c') g L = Some x ↔
      (g = "gpuNodesTotal" ∧ node_series c0 L ∧ x = Int (Z.of_nat (length (Response resp)))) ∨
      ∃ gpu, gpu ∈ Response resp ∧
        publishes imp hostname (wls (agent i)) pm (publishing i cache c).1 (latest_records cache c) c0 gpu g L x.
Proof.
  intros c0. subst c0. rewrite (scrape_answer i c resp pm cache Hgpus Hstatus Hcancel).
  destruct (ready_settings i cache (ResetMetrics c)) as (Hl & Hf & Hg & _).
  destruct (publish_exactly Hascii (wls (agent i)) (Response resp) pm (publishing i cache c).1
    (latest_records cache c) (publishing i cache c).2) as (c' & -> & Hf' & Hser).
  - unfold publishing. by rewrite Hf.
  - unfold publishing. by rewrite Hl.
  - done.
  - eapply partitions_ok; [exact Hgpus|apply Hin].
  - intros g L Hm. unfold publishing. rewrite Hg. by apply reset_empty.
  - exists c'. split; [done|]. split; [|done]. rewrite Hf'. exact Hf.
Qed.

(** What ends a scrape before anything is published. *)
Definition answer_error (i : scrape_input) (r : (GPUGetResponse * gmap string GPU) + string)
    : option scrape_error :=
  match r with
  | inr err => Some (AgentError err)
  | inl (resp, _) =>
      if decide (ApiStatus resp ≠ 0) then Some (ApiError (ApiStatus resp))
      else if cancelled i then Some ContextError else None
  end.

(** C15: A scrape that fails publishes nothing: if the agent does not answer,
    answers with a status other than success, or the request is cancelled
    while the counters are collected, the scrape returns that error and no
    gauge has a series left, not even the total of the node or the health of
    a GPU; the filter, the states of the GPUs and the settings are as
    before, and the cache holds what the answer left in it. *)
Theorem failed_scrape_empty i c r cache err
    (Hgpus : getGPUs (now (agent i)) (now' (agent i)) (later (agent i)) (gpuGet (agent i)) (gCache (health c)) =
             Some (r, cache))
    (Herr : answer_error i r = Some err) :
  ∃ c', scrape i c = Some (Some err, c') ∧
    (∀ g L, g ∈ gauge_members → series (client_gauges c') g L = None) ∧
    client_fl c' = client_fl c ∧ client_labels c' = client_labels c ∧
    healthState (health c') = healthState (health c) ∧ gCache (health c') = cache.
Proof.
  unfold GpuScrape.scrape, getMetricsAll, profiler_run.
  destruct (getProfilerMetrics _ _ _ _ _ _ _ _) as [[pmx perr] rpc]. cbn [set_client_health health gCache].
  cbn [ResetMetrics health]. rewrite Hgpus. cbn [mbind option_bind].
  assert (Hleft : ∀ c', client_gauges c' = client_gauges (ResetMetrics c) →
    ∀ g L, g ∈ gauge_members → series (client_gauges c') g L = None).
  { intros c' -> g L Hg. by apply reset_empty. }
  destruct r as [[resp pm]|e]; cbn [answer_error] in Herr.
  - case_decide.
    + injection Herr as <-. eexists. split; [done|]. split; [by apply Hleft|done].
    + destruct (cancelled i); [|done]. injection Herr as <-. eexists. split; [done|]. split; [by apply Hleft|done].
  - injection Herr as <-. eexists. split; [done|]. split; [by apply Hleft|done].
Qed.

(** ** The gauge of the health *)

Definition exported (c : GPUClient) (gpu : GPU) : Prop :=
  ∃ st, Status gpu = Some st ∧ exporterEnabledGPU (gpuSelectorMap c) (Index st) = true.

Lemma publishes_health wls pm pmetrics cper c0 gpu L x : gpu_wf gpu →
  publishes imp hostname wls pm pmetrics cper c0 gpu "gpuHealth" L x ↔
  exported c0 gpu ∧ gpu_labels hostname c0 wls (Some gpu) pm = Some L ∧
  ∃ b : bool, lamps (abs (health c0)) !! getGPUInstanceIDString gpu = Some b ∧ x = Int (if b then 1 else 0).
Proof.
  intros (_ & [stats Hstats] & Hproc). unfold publishes, exported, getGPUInstanceIDString. cbn [abs lamps].
  setoid_rewrite lookup_fmap. split.
  - intros (st & stats' & labels & p & Hst & _ & Hsel & Hlab & Hin & Hv). rewrite Hst.
    apply health_entry in Hin; [|by apply Hproc]. unfold health_table in Hin.
    rewrite lookup_fmap in Hin. destruct (healthState (health c0) !! dec (Index st)) as [s|]; [|by apply elem_of_nil in Hin].
    apply list_elem_of_singleton in Hin as [= -> ->]. injection Hv as <-.
    split; [by exists st|]. split; [done|]. exists (bool_decide (Health s = HEALTHY)). split; [done|].
    unfold HEALTHY. by repeat case_decide || case_bool_decide.
  - intros ((st & Hst & Hsel) & Hlab & b & Hb & ->). rewrite Hst in Hb.
    destruct (healthState (health c0) !! dec (Index st)) as [s|] eqn:Hs; [|done]. injection Hb as <-.
    exists st, stats, L, (Plain (Int (if bool_decide (Health s = HEALTHY) then 1 else 0))). split_and!; try done.
    unfold gpu_table. apply health_entry; [by apply Hproc|]. unfold health_table. rewrite lookup_fmap, Hs.
    apply list_elem_of_singleton. unfold HEALTHY. by repeat case_decide || case_bool_decide.
Qed.

(** C12: What the exporter tells Prometheus about the health of a GPU is what
    the monitor last found out: after a scrape that succeeds, the gauge
    [gpu_health] has exactly one series for every exported GPU of the answer
    that has a lamp on the board, under the labels of the GPU; it is 1 if the
    lamp is on and 0 if it is off. *)
Theorem health_gauge_shows_board i c resp pm cache
    (Hascii : ∀ s, ascii_string s = true → ValidString s = true)
    (Hgpus : getGPUs (now (agent i)) (now' (agent i)) (later (agent i)) (gpuGet (agent i)) (gCache (health c)) =
             Some (inl (resp, pm), cache))
    (Hstatus : ApiStatus resp = 0) (Hcancel : cancelled i = false)
    (Hdone : filterDone (client_fl c) = true) (Hset : settings_ok (client_labels c))
    (Hin : input_ok (wls (agent i)) (Response resp) pm (publishing i cache c).2) :
  ∃ c', scrape i c = Some (None, c') ∧ lamps (abs (health c')) = lamps (abs (health c)) ∧
    ∀ L x, series (client_gauges c') "gpuHealth" L = Some x ↔
      ∃ gpu (b : bool), gpu ∈ Response resp ∧ exported c gpu ∧
        gpu_labels hostname (publishing i cache c).2 (wls (agent i)) (Some gpu) pm = Some L ∧
        lamps (abs (health c)) !! getGPUInstanceIDString gpu = Some b ∧ x = Int (if b then 1 else 0).
Proof.
  rewrite (scrape_answer i c resp pm cache Hgpus Hstatus Hcancel).
  destruct (ready_settings i cache (ResetMetrics c)) as (Hl & Hf & Hg & Hh & Hsel & _).
  destruct (publish_exactly Hascii (wls (agent i)) (Response resp) pm (publishing i cache c).1
    (latest_records cache c) (publishing i cache c).2) as (c' & Hpub & Hf' & Hser).
  - unfold publishing. by rewrite Hf.
  - unfold publishing. by rewrite Hl.
  - done.
  - eapply partitions_ok; [exact Hgpus|apply Hin].
  - intros g L Hm. unfold publishing. rewrite Hg. by apply reset_empty.
  - rewrite Hpub. cbn [mbind option_bind]. exists c'. split; [done|].
    assert (Hlamps : lamps (abs (health (publishing i cache c).2)) = lamps (abs (health c))).
    { unfold abs, publishing. cbn [lamps]. by rewrite Hh. }
    split; [by rewrite <- Hlamps, (publish_health_kept _ _ _ _ _ _ _ Hpub)|].
    intros L x. rewrite Hser by (apply (bool_decide_unpack _); vm_compute; reflexivity).
    assert (Hex : ∀ gpu, exported (publishing i cache c).2 gpu ↔ exported c gpu).
    { intros gpu. unfold exported, publishing. by rewrite Hsel. }
    destruct Hin as [Hwf _ _ _ _ _]. rewrite Forall_forall in Hwf. split.
    + intros [(? & _)|(gpu & Hgpu & Hp)]; [done|].
      apply publishes_health in Hp as (He & Hlab & b & Hb & ->); [|by apply Hwf].
      exists gpu, b. rewrite <- Hex, <- Hlamps. done.
    + intros (gpu & b & Hgpu & He & Hlab & Hb & ->). right. exists gpu. split; [done|].
      apply publishes_health; [by apply Hwf|]. rewrite Hex, Hlamps. split; [done|]. split; [done|]. by exists b.
Qed.
End theorems.

(** ** An instance

    Two GPUs, of which the second has an uncorrectable error in its memory;
    the monitor has found it unhealthy. *)

Definition vs0 : string → bool := λ _, true.
Definition pf0 : string → option double := λ _, None.

Definition states0 : States :=
  {[ "0" := MkState "0" "" HEALTHY "" []; "1" := MkState "1" "" UNHEALTHY "" [] ]}.

Definition scrape_client (fl : fieldLogger) : GPUClient :=
  MkGPUClient (MkClient None states0 ∅ (MkCache None None 0) ∅ true) fl ∅ (InitConfigs_labels None NewLabels)
    ∅ ∅ ∅ false false.

Definition scrape_of (r : GPUGetResponse + string) : scrape_input :=
  MkScrape (poll_of 0 r) false Canceled 0 0 false false false (inl ∅).

Definition resp0 : GPUGetResponse := MkGetResponse 0 two_gpus.
Definition cache0 : gpuCache := MkCache (Some resp0) None 0.

Lemma default_settings_ok : settings_ok (InitConfigs_labels None NewLabels).
Proof.
  split; [apply init_labels_ok, empty_lower_keys|]. split; [|done].
  intros k. revert k. apply Forall_forall. by_decide.
Qed.

Lemma gpu_n_wf n c st : gpu_wf (gpu_n n c st).
Proof.
  split; [split; by eexists|]. split; [by eexists|]. intros s [= <-]. split; constructor.
Qed.

Lemma two_gpus_ok c0 pm : customLabelMap (client_labels c0) = ∅ → input_ok vs0 "node1" ∅ two_gpus pm c0.
Proof.
  intros Hc. split; [|by_decide|apply map_Forall_empty|done|by rewrite Hc|].
  - unfold two_gpus. apply Forall_cons_2; [apply gpu_n_wf|]. apply Forall_cons_2; [apply gpu_n_wf|constructor].
  - apply Forall_forall. intros gpu _ labels _. by intros k v _.
Qed.

Definition pm0 : gmap string GPU := default ∅ (note_partitions ∅ two_gpus).

Lemma gpus_answer fl :
  getGPUs 0 0 0 (inl resp0) (gCache (health (scrape_client fl))) = Some (inl (resp0, pm0), cache0).
Proof.
  assert (Hc : cacheRead 0 0 0 (inl resp0) (gCache (health (scrape_client fl))) = (inl resp0, cache0)) by reflexivity.
  assert (Hp : note_partitions ∅ two_gpus = Some pm0).
  { unfold pm0. destruct (note_partitions ∅ two_gpus) eqn:He; [done|]. vm_compute in He. discriminate He. }
  unfold getGPUs. rewrite Hc. change (Response resp0) with two_gpus. rewrite Hp. reflexivity.
Qed.

(** The labels of the instance exist, and say which GPU they belong to. *)
Lemma labels_exist n c st (c0 : GPUClient) : settings_ok (client_labels c0) → map_Forall (λ _, readable) pm0 →
  ∃ L, gpu_labels "node1" c0 ∅ (Some (gpu_n n c st)) pm0 = Some L ∧ L !! "gpu_id" = Some (dec n).
Proof.
  intros (Hok & _ & He & _) Hpm. destruct (gpu_n_wf n c st) as [Hr _].
  destruct (populate_total (client_labels c0) "node1" (gpuIDMap (health c0)) (k8PodInfoMap c0) ∅ _ pm0
    Hok Hr Hpm (map_Forall_empty _)) as [L HL].
  exists L. split; [exact HL|]. exact (gpu_id_label _ _ _ _ _ _ _ _ Hok He HL).
Qed.

Lemma pm0_readable : map_Forall (λ _, readable) pm0.
Proof.
  eapply (partitions_ok _ _ _ _ _ resp0); [apply (gpus_answer NewFieldLogger)|].
  apply (two_gpus_ok (scrape_client NewFieldLogger) pm0). reflexivity.
Qed.

Definition scraping := scrape imp0 parse0 pf0 vs0 "node1".
Definition publishing0 (fl : fieldLogger) := publishing pf0 (scrape_of (inl resp0)) cache0 (scrape_client fl).

Lemma publishing0_settings fl : client_labels (publishing0 fl).2 = InitConfigs_labels None NewLabels ∧
  client_fl (publishing0 fl).2 = fl ∧ gpuSelectorMap (publishing0 fl).2 = ∅.
Proof.
  destruct (ready_settings pf0 (scrape_of (inl resp0)) cache0 (ResetMetrics (scrape_client fl)))
    as (Hl & Hf & _ & _ & Hs & _). split; [exact Hl|]. split; [exact Hf|exact Hs].
Qed.

(** The uncorrectable error of the second GPU is published. *)
Lemma scrape_publishes_exactly_witness :
  ∃ c' L, scraping (scrape_of (inl resp0)) (scrape_client (MkFieldLogger ∅ true)) = Some (None, c') ∧
    L !! "gpu_id" = Some "1" ∧ series (client_gauges c') "gpuEccUncorrectUMC" L = Some (Int 1).
Proof.
  destruct (publishing0_settings (MkFieldLogger ∅ true)) as (Hl & Hf & Hs).
  destruct (scrape_publishes_exactly imp0 parse0 pf0 vs0 "node1" (scrape_of (inl resp0))
    (scrape_client (MkFieldLogger ∅ true)) resp0 pm0 cache0 (λ _ _, eq_refl) (gpus_answer _) eq_refl eq_refl eq_refl
    default_settings_ok (two_gpus_ok _ _ ltac:(by rewrite Hl))) as (c' & Hc & _ & Hser).
  destruct (labels_exist 1 "b"%char faulty_stats (publishing0 (MkFieldLogger ∅ true)).2) as (L & HL & Hid).
  { rewrite Hl. apply default_settings_ok. }
  { apply pm0_readable. }
  exists c', L. split; [exact Hc|]. split; [exact Hid|].
  apply (Hser "gpuEccUncorrectUMC" L (Int 1)); [by_decide|]. right. exists (gpu_n 1 "b"%char faulty_stats).
  split; [by right; left|]. eexists _, _, L, (Filtered "GPU_ECC_UNCORRECT_UMC" (Uint64 1)).
  split; [reflexivity|]. split; [reflexivity|]. split; [by vm_compute|]. split; [exact HL|]. split.
  - unfold gpu_table, table. rewrite !elem_of_app. do 11 right. left. apply list_elem_of_fmap.
    exists ("gpuEccUncorrectUMC", "GPU_ECC_UNCORRECT_UMC", Uint64 1). split; [reflexivity|].
    rewrite !elem_of_app. right; left. unfold ecc_exports_2. repeat first [by left | right].
  - vm_compute. reflexivity.
Defined.

Lemma failed_scrape_empty_witness :
  ∃ c', scraping (scrape_of (inr "connection refused")) (scrape_client NewFieldLogger) =
      Some (Some (AgentError "connection refused"), c') ∧
    ∀ L, series (client_gauges c') "gpuHealth" L = None.
Proof.
  destruct (failed_scrape_empty imp0 parse0 pf0 vs0 "node1" (scrape_of (inr "connection refused"))
    (scrape_client NewFieldLogger) (inr "connection refused") (MkCache None None 0)
    (AgentError "connection refused") eq_refl eq_refl) as (c' & Hc & Hs & _).
  exists c'. split; [exact Hc|]. intros L. apply Hs. by_decide.
Defined.

Lemma health_gauge_shows_board_witness :
  ∃ c' L, scraping (scrape_of (inl resp0)) (scrape_client (MkFieldLogger ∅ true)) = Some (None, c') ∧
    L !! "gpu_id" = Some "1" ∧ series (client_gauges c') "gpuHealth" L = Some (Int 0).
Proof.
  destruct (publishing0_settings (MkFieldLogger ∅ true)) as (Hl & Hf & Hs).
  destruct (health_gauge_shows_board imp0 parse0 pf0 vs0 "node1" (scrape_of (inl resp0))
    (scrape_client (MkFieldLogger ∅ true)) resp0 pm0 cache0 (λ _ _, eq_refl) (gpus_answer _) eq_refl eq_refl eq_refl
    default_settings_ok (two_gpus_ok _ _ ltac:(by rewrite Hl))) as (c' & Hc & _ & Hser).
  destruct (labels_exist 1 "b"%char faulty_stats (publishing0 (MkFieldLogger ∅ true)).2) as (L & HL & Hid).
  { rewrite Hl. apply default_settings_ok. }
  { apply pm0_readable. }
  exists c', L. split; [exact Hc|]. split; [exact Hid|].
  apply Hser. exists (gpu_n 1 "b"%char faulty_stats), false. split; [by right; left|].
  split; [eexists; split; [reflexivity|by vm_compute]|]. split; [exact HL|]. split; [vm_compute|]; reflexivity.
Defined.
