(* ===== verification/GpuLoadTheorems.v ===== *)
(** What the load of a configuration fixes for the scrapes after it. *)

From S2P Require Import Prelude RocpSdk Format GoStd Json ExporterUtils RocpClient ProfilerMetrics Scheduler.
From S2P Require Import GpuMessages GpuAgent Config Selector NodeLabeller GpuHealth FieldLogger LabelConfig.
From S2P Require Import LabelProofs MetricFields FieldConfig GpuReadings GpuTable GpuTableProofs GpuRun GpuKeys.
From S2P Require Import GpuHealthTheorems GpuScrape GpuScrapeProofs GpuLoad GpuScrapeTheorems.
From Stdlib Require Import Ascii.
Local Open Scope Z_scope.

Section theorems.
Context (imp : Z → double → Z) (ParseInLocation : string → option Z).
Context (ParseFloat : string → option double) (ValidString : string → bool).
Context (GetDeviceNameFromRenderID : string → string) (hostname : string).

Abbreviation scrape := (scrape imp ParseInLocation ParseFloat ValidString hostname).
Abbreviation UpdateStaticMetrics := (UpdateStaticMetrics imp ParseFloat ValidString GetDeviceNameFromRenderID hostname).

(** The client and the metrics of the profiler when a load publishes; [h] is
    what the load made of the metadata and the health. *)
Definition loading (i : scrape_input) (h : GPUAgentGPUClient GpuProfiler) (c : GPUClient) :=
  ready ParseFloat i (gCache h) (set_client_health h c).

Lemma load_answer i c resp pm cache h :
  getGPUs (now (agent i)) (now' (agent i)) (later (agent i)) (gpuGet (agent i)) (gCache (health c)) =
    Some (inl (resp, pm), cache) →
  GpuHealth.UpdateStaticMetrics imp GetDeviceNameFromRenderID (agent i) (health c) = Some (None, h) →
  UpdateStaticMetrics i c =
    c' ← publish imp ValidString hostname (wls (agent i)) pm (loading i h c).1 ∅ (Response resp) (loading i h c).2;
    Some (None, set_client_fl (SetFilterDone (client_fl c')) c').
Proof.
  intros Hg Hh. unfold GpuScrape.UpdateStaticMetrics. rewrite Hg, Hh. cbn [mbind option_bind].
  unfold loading, ready, profiler_run. destruct (getProfilerMetrics _ _ _ _ _ _ _ _) as [[pmx err] rpc]. done.
Qed.

(** Scrapes one after the other; what each returns does not matter. *)
Definition scrapes (c : GPUClient) (l : list scrape_input) : option GPUClient :=
  foldM (λ c i, snd <$> scrape i c) c l.

Lemma publish_done wls gpus pm pmetrics cper c0 c' : filterDone (client_fl c0) = true →
  publish imp ValidString hostname wls pm pmetrics cper gpus c0 = Some c' → client_fl c' = client_fl c0.
Proof.
  intros Hd. unfold publish. destruct (gpu_labels _ _ _ _ _) as [nl|]; [|done]. cbn [mbind option_bind].
  unfold set_gauge. case_match; [|done]. cbn [mbind option_bind]. intros Hr.
  by eapply update_all_done in Hr.
Qed.

Lemma scrape_done i c r c' : filterDone (client_fl c) = true → scrape i c = Some (r, c') →
  client_fl c' = client_fl c.
Proof.
  intros Hd. unfold GpuScrape.scrape, getMetricsAll, profiler_run.
  destruct (getProfilerMetrics _ _ _ _ _ _ _ _) as [[pmx perr] rpc].
  destruct (getGPUs _ _ _ _ _) as [[[[resp pm]|e] cache]|]; cbn [mbind option_bind]; [|by intros [= <- <-]|done].
  case_decide; [by intros [= <- <-]|]. destruct (cancelled i); [by intros [= <- <-]|].
  destruct (publish _ _ _ _ _ _ _ _ _) as [c1|] eqn:Hp; [|done]. cbn [mbind option_bind]. intros [= <- <-].
  by apply publish_done in Hp.
Qed.

Lemma scrapes_done l : ∀ c c', filterDone (client_fl c) = true → scrapes c l = Some c' →
  client_fl c' = client_fl c.
Proof.
  induction l as [|i l IH]; intros c c' Hd; unfold scrapes; cbn [foldM]; [by intros [= <-]|].
  destruct (scrape i c) as [[r c1]|] eqn:Hs; [|done]. cbn [fmap option_fmap option_map mbind option_bind snd].
  intros Hr. pose proof (scrape_done _ _ _ _ Hd Hs) as H1. rewrite (IH c1 c'); [done| |done]. by rewrite H1.
Qed.

(** C7: The load of a configuration decides which fields of which GPU are
    exported until the next load.  A load that gets an answer succeeds and
    ends the loading; the filter then holds exactly the marks of this answer,
    nothing of the configuration before: a field of a GPU is in it if and
    only if the GPU is exported and its readings made one of the calls that
    mark the field (an inapplicable or, where it is tested, a zero reading,
    an empty list).  Any number of scrapes after it, failed or not, leave
    the filter as it is. *)
Theorem load_sets_filter fuel i IsCperEnabled c c1 registered resp pm cache h
    (Hascii : ∀ s, ascii_string s = true → ValidString s = true)
    (Hinit : InitConfigs hostname fuel i IsCperEnabled c = Some (c1, registered))
    (Hgpus : getGPUs (now (agent i)) (now' (agent i)) (later (agent i)) (gpuGet (agent i)) (gCache (health c1)) =
             Some (inl (resp, pm), cache))
    (Hhealth : GpuHealth.UpdateStaticMetrics imp GetDeviceNameFromRenderID (agent i) (health c1) = Some (None, h))
    (Hset : settings_ok (client_labels c1))
    (Hin : input_ok ValidString hostname (wls (agent i)) (Response resp) pm (loading i h c1).2) :
  ∃ c2, UpdateStaticMetrics i c1 = Some (None, c2) ∧ filterDone (client_fl c2) = true ∧
    (∀ k, k ∈ unsupportedFieldMap (client_fl c2) ↔
       ∃ gpu f, gpu ∈ Response resp ∧ f ∈ gpu_marks imp (loading i h c1).1 ∅ (loading i h c1).2 gpu ∧
                k = field_key (getGPUInstanceIDString gpu) f) ∧
    ∀ l c3, scrapes c2 l = Some c3 → client_fl c3 = client_fl c2.
Proof.
  rewrite (load_answer i c1 resp pm cache h Hgpus Hhealth).
  destruct (ready_settings ParseFloat i (gCache h) (set_client_health h c1)) as (Hl & Hf & _).
  destruct (publish_marks imp ValidString hostname Hascii (wls (agent i)) (Response resp) pm
    (loading i h c1).1 ∅ (loading i h c1).2) as (c' & -> & Hm).
  { unfold loading. by rewrite Hl. }
  { done. }
  { eapply partitions_ok; [exact Hgpus|apply Hin]. }
  cbn [mbind option_bind]. eexists. split; [done|]. split; [done|]. split.
  - intros k. cbn [client_fl set_client_fl SetFilterDone unsupportedFieldMap].
    assert (Hc1 : client_fl c1 = Reset (client_fl c)).
    { revert Hinit. unfold InitConfigs. destruct (initGPUSelectorConfig _ _ _); [|done]. cbn [mbind option_bind].
      destruct (InitConfigs_fields _ _ _ _) as [[fields rpc] reg]. by intros [= <- _]. }
    rewrite Hm, (Hf : client_fl (loading i h c1).2 = client_fl c1), Hc1.
    unfold marked. cbn [Reset filterDone unsupportedFieldMap]. rewrite (right_id_L ∅ (∪)), elem_of_list_to_set.
    rewrite list_elem_of_bind. unfold gpu_mark_keys. split.
    + intros (gpu & (f & -> & Hf')%list_elem_of_fmap & Hg). by exists gpu, f.
    + intros (gpu & f & Hg & Hf' & ->). exists gpu. split; [by apply list_elem_of_fmap_2|done].
  - intros l c3. by apply scrapes_done.
Qed.
End theorems.

(** The load of the default configuration for the two GPUs: their package
    power is zero, so it is not exported any more. *)

Definition load_input : scrape_input := scrape_of (inl resp0).
Definition init0 : option (GPUClient * list string) :=
  InitConfigs "node1" 10 load_input false (scrape_client NewFieldLogger).
Definition loaded : GPUClient * list string := default (scrape_client NewFieldLogger, []) init0.

Definition static0 := GpuHealth.UpdateStaticMetrics imp0 name0 (agent load_input) (health loaded.1).
Definition loaded_health : GPUAgentGPUClient GpuProfiler := from_option snd (health loaded.1) static0.

Lemma init0_ok : init0 = Some (loaded.1, loaded.2).
Proof.
  assert (Hi : bool_decide (is_Some init0) = true) by (vm_compute; reflexivity).
  apply bool_decide_eq_true in Hi as [[c1 r] Hi]. unfold loaded. rewrite Hi. reflexivity.
Qed.

Lemma static0_ok : static0 = Some (None, loaded_health).
Proof.
  assert (Hs : bool_decide (fst <$> static0 = Some None) = true) by (vm_compute; reflexivity).
  apply bool_decide_eq_true in Hs. unfold loaded_health. revert Hs. generalize static0.
  intros [[e h]|] Hs; [|discriminate Hs]. injection Hs as ->. reflexivity.
Qed.

Lemma load_sets_filter_witness :
  ∃ c2, UpdateStaticMetrics imp0 pf0 vs0 name0 "node1" load_input loaded.1 = Some (None, c2) ∧
    field_key "0" "GPU_PACKAGE_POWER" ∈ unsupportedFieldMap (client_fl c2).
Proof.
  destruct (load_sets_filter imp0 parse0 pf0 vs0 name0 "node1" 10 load_input false (scrape_client NewFieldLogger)
    loaded.1 loaded.2 resp0 pm0 cache0 loaded_health (λ _ _, eq_refl) init0_ok) as (c2 & Hc & _ & Hk & _).
  - apply (gpus_answer NewFieldLogger).
  - apply static0_ok.
  - split; [apply init_labels_ok, init_labels_ok, empty_lower_keys|]. split; [|done].
    intros k. revert k. apply Forall_forall. by_decide.
  - apply two_gpus_ok. reflexivity.
  - exists c2. split; [exact Hc|]. apply Hk.
    exists (gpu_n 0 "a"%char healthy_stats), "GPU_PACKAGE_POWER". split; [by left|]. split; [by_decide|reflexivity].
Defined.
