(* ===== verification/Exporter.v ===== *)
(** The process around the GPU client: requests for metrics and reloads of
    the configuration, [src/pkg/exporter/exporter.go] ([prometheusMiddleware],
    [startServer], [stopServer]) and [src/pkg/exporter/metricsutil/metrics.go]
    ([InitConfig], [UpdateMetrics]).

    A transition system: every request is a thread of its own, a label is one
    step of a thread.  Between two steps any other thread can run, so a
    request that clears the gauges and one that reads them can meet, if
    nothing prevents it.  Only the GPU client is registered; a client works
    on its own state in [UpdateMetrics].  Requests for other pages touch
    nothing here. *)

From S2P Require Import Prelude RocpSdk Format GoStd Json ExporterUtils RocpClient ProfilerMetrics Scheduler.
From S2P Require Import GpuMessages GpuAgent Config Selector NodeLabeller GpuHealth FieldLogger LabelConfig.
From S2P Require Import MetricFields FieldConfig GpuReadings GpuHealthTheorems GpuScrape GpuScrapeTheorems.
From Stdlib Require Import Ascii.
Local Open Scope Z_scope.

(** Where a request is: before [Lock], before the reset of the gauges, before
    the update, before the handler of the registry. *)
Inductive phase : Type := Waiting | Locked | Cleared | Updated.
#[export] Instance phase_eq_dec : EqDecision phase.
Proof. solve_decision. Defined.

Record exporter : Type := MkExporter {
  conf : ConfigHandler;                 (* runConf *)
  gpu : GPUClient;
  registry : list string;               (* the gauges registered by the last load *)
  serving : bool;                       (* the server accepts connections *)
  mu : option nat;                      (* who holds prometheusMiddlewareMu *)
  requests : gmap nat phase;            (* requests in flight *)
  dropped : gset nat;                   (* requests whose connection was closed *)
  responses : list (nat * Gauges);
}.

Inductive label : Type :=
  | Arrive (r : nat)
  | Lock (r : nat)
  | Clear (r : nat)
  | Update (r : nat) (i : scrape_input)
  | Respond (r : nat)
  | Shutdown            (* returns: no request of this server is in flight *)
  | ForceClose          (* after a shutdown that timed out *)
  | Start (read : option MetricConfig) (fuel : nat) (i : scrape_input) (IsCperEnabled : bool).

Definition set_cfg (h : ConfigHandler) (i : scrape_input) : scrape_input :=
  let p := agent i in
  MkScrape (MkPoll (wls p) (now p) (now' p) (later p) (gpuGet p) (enableSriov p) (simEnabled p) (eventsDisable p)
      (eventGet p) (clock p) h)
    (enableGPUMonitoring i) (profiler i) (profiler_now i) (profiler_later i) (cancelled i) (enabledK8sApi i)
    (k8sClient i) (pods i).

(** What the handler of the registry shows: the registered gauges. *)
Definition gather (registry : list string) (c : GPUClient) : Gauges :=
  filter (λ p, p.1 ∈ registry) (client_gauges c).

Section exporter.
Context (imp : Z → double → Z) (ParseInLocation : string → option Z).
Context (ParseFloat : string → option double) (ValidString : string → bool).
Context (GetDeviceNameFromRenderID : string → string) (hostname : string).

Definition set_request (r : nat) (p : phase) (mu' : option nat) (c : GPUClient) (e : exporter) : exporter :=
  MkExporter (conf e) c (registry e) (serving e) mu' (<[r := p]> (requests e)) (dropped e) (responses e).

(** Whether a thread can take a step; [Lock] waits until the mutex is free. *)
Definition enabled (l : label) (e : exporter) : bool :=
  match l with
  | Arrive r => serving e && bool_decide (requests e !! r = None ∧ r ∉ dropped e ∧ r ∉ (responses e).*1)
  | Lock r => bool_decide (requests e !! r = Some Waiting ∧ mu e = None)
  | Clear r => bool_decide (requests e !! r = Some Locked)
  | Update r _ => bool_decide (requests e !! r = Some Cleared)
  | Respond r => bool_decide (requests e !! r = Some Updated)
  | Shutdown => serving e && bool_decide (dom (requests e) ⊆ dropped e)
  | ForceClose => serving e
  | Start _ _ _ _ => negb (serving e)
  end.

(** [mh.InitConfig] and the start of a new server.  Errors of the load are
    logged only. *)
Definition start (read : option MetricConfig) (fuel : nat) (i : scrape_input) (IsCperEnabled : bool)
    (e : exporter) : option exporter :=
  let h := RefreshConfig read (conf e) in
  let i := set_cfg h i in
  '(c, registered) ← InitConfigs hostname fuel i IsCperEnabled (gpu e);
  '(_, c) ← UpdateStaticMetrics imp ParseFloat ValidString GetDeviceNameFromRenderID hostname i c;
  Some (MkExporter h c registered true (mu e) (requests e) (dropped e) (responses e)).

(** A step; [None]: the process ends. *)
Definition step (l : label) (e : exporter) : option exporter :=
  match l with
  | Arrive r => Some (set_request r Waiting (mu e) (gpu e) e)
  | Lock r => Some (set_request r Locked (Some r) (gpu e) e)
  | Clear r => Some (set_request r Cleared (mu e) (ResetMetrics (gpu e)) e)
  | Update r i =>
      '(_, c) ← getMetricsAll imp ParseInLocation ParseFloat ValidString hostname i (gpu e);
      Some (set_request r Updated (mu e) c e)
  | Respond r =>
      Some (MkExporter (conf e) (gpu e) (registry e) (serving e) None (delete r (requests e)) (dropped e)
        (if decide (r ∈ dropped e) then responses e
         else responses e ++ [(r, gather (registry e) (gpu e))]))
  | Shutdown | ForceClose =>
      Some (MkExporter (conf e) (gpu e) (registry e) false (mu e) (requests e)
        (dom (requests e) ∪ dropped e) (responses e))
  | Start read fuel i cper => start read fuel i cper e
  end.

(** The runs, with their steps in order. *)
Inductive steps (e0 : exporter) : list label → exporter → Prop :=
  | steps_refl : steps e0 [] e0
  | steps_snoc ls e l e' : steps e0 ls e → enabled l e = true → step l e = Some e' → steps e0 (ls ++ [l]) e'.

(** No request yet. *)
Definition fresh (e : exporter) : Prop :=
  requests e = ∅ ∧ mu e = None ∧ responses e = [].

(** ** The mutex *)

Definition lock_ok (e : exporter) : Prop :=
  (∀ r p, requests e !! r = Some p → p ≠ Waiting → mu e = Some r) ∧
  (∀ r, mu e = Some r → ∃ p, requests e !! r = Some p ∧ p ≠ Waiting).

Lemma start_threads read fuel i cper e e' : start read fuel i cper e = Some e' →
  mu e' = mu e ∧ requests e' = requests e ∧ dropped e' = dropped e ∧ responses e' = responses e ∧ serving e' = true.
Proof.
  unfold start. destruct (InitConfigs _ _ _ _ _) as [[c reg]|]; [|done]. cbn [mbind option_bind].
  destruct (UpdateStaticMetrics _ _ _ _ _ _ _) as [[err c']|]; [|done]. cbn [mbind option_bind].
  by intros [= <-].
Qed.

(** The request of a label moves on with the mutex in its hand. *)
Lemma move_lock e r p q c : lock_ok e → requests e !! r = Some p → p ≠ Waiting → q ≠ Waiting →
  lock_ok (set_request r q (mu e) c e).
Proof.
  intros [H1 H2] Hr Hp Hq. pose proof (H1 r p Hr Hp) as Hmu. split; cbn [requests mu set_request].
  - intros r' p' [(-> & _)|(Hne & Hr')]%lookup_insert_Some Hp'; [done|by eapply H1].
  - intros r' Hmu'. rewrite Hmu in Hmu'. injection Hmu' as <-. exists q. by rewrite lookup_insert_eq.
Qed.

Lemma step_lock l e e' : lock_ok e → enabled l e = true → step l e = Some e' → lock_ok e'.
Proof.
  intros Hok. destruct l as [r|r|r|r i|r| | |read fuel i cper]; cbn [enabled step].
  - rewrite andb_true_iff, bool_decide_eq_true. intros (_ & Hr & _) [= <-]. destruct Hok as [H1 H2].
    split; cbn [requests mu set_request].
    + intros r' p' [(-> & <-)|(Hne & Hr')]%lookup_insert_Some Hp'; [done|by eapply H1].
    + intros r' Hmu. destruct (H2 r' Hmu) as (p & Hp & Hw). exists p.
      rewrite lookup_insert_ne by congruence. done.
  - rewrite bool_decide_eq_true. intros (Hr & Hmu) [= <-]. destruct Hok as [H1 H2].
    split; cbn [requests mu set_request].
    + intros r' p' [(-> & <-)|(Hne & Hr')]%lookup_insert_Some Hp'; [done|].
      pose proof (H1 r' p' Hr' Hp'). congruence.
    + intros r' [= <-]. exists Locked. by rewrite lookup_insert_eq.
  - rewrite bool_decide_eq_true. intros Hr [= <-]. by eapply move_lock.
  - rewrite bool_decide_eq_true. intros Hr. destruct (getMetricsAll _ _ _ _ _ _ _) as [[err c]|]; [|done].
    cbn [mbind option_bind]. intros [= <-]. by eapply move_lock.
  - rewrite bool_decide_eq_true. intros Hr [= <-]. destruct Hok as [H1 H2].
    pose proof (H1 r _ Hr ltac:(done)) as Hmu. split; cbn [requests mu]; [|done].
    intros r' p' (Hne & Hr')%lookup_delete_Some Hp'. pose proof (H1 r' p' Hr' Hp'). congruence.
  - intros _ [= <-]. exact Hok.
  - intros _ [= <-]. exact Hok.
  - intros _ Hs. apply start_threads in Hs as (Hm & Hr & _). unfold lock_ok. by rewrite Hm, Hr.
Qed.

(** ** What a request finds *)

Abbreviation scrape := (scrape imp ParseInLocation ParseFloat ValidString hostname).

(** Since request [r] got the mutex, in a state of this run, the registry is
    the same, and the client became what [Q] says. *)
Definition since_lock (e0 : exporter) (ls : list label) (e : exporter) (r : nat)
    (Q : GPUClient → GPUClient → Prop) : Prop :=
  ∃ ls1 e1, steps e0 ls1 e1 ∧ ls1 `prefix_of` ls ∧ requests e1 !! r = Some Locked ∧
    registry e = registry e1 ∧ Q (gpu e1) (gpu e).

(** The response is what one scrape of the client publishes, alone. *)
Definition exact_response (e0 : exporter) (ls : list label) (r : nat) (resp : Gauges) : Prop :=
  ∃ ls1 e1 i err c, steps e0 ls1 e1 ∧ ls1 `prefix_of` ls ∧ Update r i ∈ ls ∧
    scrape i (gpu e1) = Some (err, c) ∧ resp = gather (registry e1) c.

Record tracked (e0 : exporter) (ls : list label) (e : exporter) : Prop := {
  tr_lock : lock_ok e;
  tr_serving : serving e = false → dom (requests e) ⊆ dropped e;
  tr_cleared r : requests e !! r = Some Cleared → r ∉ dropped e →
    since_lock e0 ls e r (λ c d, d = ResetMetrics c);
  tr_updated r : requests e !! r = Some Updated → r ∉ dropped e →
    since_lock e0 ls e r (λ c d, ∃ i err, Update r i ∈ ls ∧ scrape i c = Some (err, d));
  tr_responses : Forall (λ p, exact_response e0 ls p.1 p.2) (responses e);
  tr_once : NoDup (responses e).*1 ∧ ∀ r, is_Some (requests e !! r) → r ∉ (responses e).*1;
}.

Lemma since_lock_mono e0 ls l e e' r (Q Q' : GPUClient → GPUClient → Prop) :
  since_lock e0 ls e r Q → gpu e' = gpu e → registry e' = registry e →
  (∀ c d, Q c d → Q' c d) → since_lock e0 (ls ++ l) e' r Q'.
Proof.
  intros (ls1 & e1 & Hs & Hp & Hr & Hreg & HQ) Hg He HQ'. exists ls1, e1.
  split; [done|]. split; [by apply prefix_app_r|]. split; [done|]. rewrite Hg, He. auto.
Qed.

Lemma exact_mono e0 ls l (p : nat * Gauges) : exact_response e0 ls p.1 p.2 → exact_response e0 (ls ++ l) p.1 p.2.
Proof.
  intros (ls1 & e1 & i & err & c & Hs & Hp & Hu & Hc & Hr). exists ls1, e1, i, err, c.
  split; [done|]. split; [by apply prefix_app_r|]. split; [apply elem_of_app; by left|done].
Qed.

(** A step that leaves client and registry alone, and no request further. *)
Lemma tracked_idle e0 ls l e e' : tracked e0 ls e → lock_ok e' → gpu e' = gpu e → registry e' = registry e →
  dropped e ⊆ dropped e' → responses e' = responses e →
  (serving e' = false → dom (requests e') ⊆ dropped e') →
  (∀ r p, requests e' !! r = Some p → p = Cleared ∨ p = Updated → requests e !! r = Some p) →
  (∀ r, is_Some (requests e' !! r) → r ∉ (responses e).*1) →
  tracked e0 (ls ++ l) e'.
Proof.
  intros [H1 H2 H3 H4 H5 H6] Hlock Hg Hreg Hd Hresp Hserv Hreq Hnew. split.
  - done.
  - done.
  - intros r Hr Hn. apply (since_lock_mono _ ls _ e _ _ (λ c d, d = ResetMetrics c)); [|done..].
    apply H3; [apply Hreq; auto|set_solver].
  - intros r Hr Hn. apply (since_lock_mono _ ls _ e _ _ (λ c d, ∃ i err, Update r i ∈ ls ∧ scrape i c = Some (err, d)));
      [|done..|].
    + apply H4; [apply Hreq; auto|set_solver].
    + intros c d (i & err & Hu & Hs). exists i, err. split; [apply elem_of_app; by left|done].
  - rewrite Hresp. eapply Forall_impl; [exact H5|]. intros p. apply exact_mono.
  - rewrite Hresp. destruct H6. done.
Qed.

(** The request of a label that has the mutex is the only one past [Lock]. *)
Lemma holder_alone e r p r' p' : lock_ok e → requests e !! r = Some p → p ≠ Waiting →
  requests e !! r' = Some p' → p' ≠ Waiting → r' = r.
Proof. intros [H1 _] Hr Hp Hr' Hp'. pose proof (H1 _ _ Hr Hp). pose proof (H1 _ _ Hr' Hp'). congruence. Qed.

Lemma snoc_In (l : label) ls : l ∈ ls ++ [l].
Proof. apply elem_of_app. right. by left. Qed.

(** A step of the holder of the mutex to [q], with the client it leaves. *)
Lemma tracked_holder e0 ls l e r p q c : tracked e0 ls e → requests e !! r = Some p → p ≠ Waiting → q ≠ Waiting →
  (q = Cleared → r ∉ dropped e →
     since_lock e0 (ls ++ [l]) (set_request r q (mu e) c e) r (λ c d, d = ResetMetrics c)) →
  (q = Updated → r ∉ dropped e →
     since_lock e0 (ls ++ [l]) (set_request r q (mu e) c e) r
       (λ c d, ∃ i err, Update r i ∈ ls ++ [l] ∧ scrape i c = Some (err, d))) →
  tracked e0 (ls ++ [l]) (set_request r q (mu e) c e).
Proof.
  intros [H1 H2 H3 H4 H5 H6] Hr Hp Hq HC HU.
  assert (Halone : ∀ r' p', requests (set_request r q (mu e) c e) !! r' = Some p' → p' ≠ Waiting → r' = r ∧ p' = q).
  { cbn [requests set_request]. intros r' p' [(-> & <-)|(Hne & Hr')]%lookup_insert_Some Hp'; [done|].
    destruct Hne. symmetry. by eapply holder_alone. }
  split.
  - by eapply move_lock.
  - cbn. intros Hs. rewrite dom_insert_lookup_L by (by eexists). by apply H2.
  - intros r' Hr' Hn. destruct (Halone r' _ Hr' ltac:(done)) as [-> <-]. by apply HC.
  - intros r' Hr' Hn. destruct (Halone r' _ Hr' ltac:(done)) as [-> <-]. by apply HU.
  - eapply Forall_impl; [exact H5|]. intros x. apply exact_mono.
  - destruct H6 as [Hnd Hnew]. split; [done|]. cbn. intros r' [p' Hr']. apply lookup_insert_Some in Hr' as [[-> _]|[_ Hr']];
      apply Hnew; by eexists.
Qed.

(** The response: the client is as the scrape of this request left it. *)
Lemma tracked_respond e0 ls e r e' : tracked e0 ls e → lock_ok e' → enabled (Respond r) e = true →
  step (Respond r) e = Some e' → tracked e0 (ls ++ [Respond r]) e'.
Proof.
  intros [H1 H2 H3 H4 H5 [H6 H7]] Hlock He Hs. cbn [enabled step] in He, Hs.
  injection Hs as <-. apply bool_decide_eq_true in He. split; cbn [serving requests dropped responses].
  + done.
  + intros Hs. rewrite dom_delete_L. set_solver.
  + intros r' [Hne Hr']%lookup_delete_Some Hn. destruct Hne. symmetry.
    by apply (holder_alone e r Updated r' Cleared).
  + intros r' [Hne Hr']%lookup_delete_Some Hn. destruct Hne. symmetry.
    by apply (holder_alone e r Updated r' Updated).
  + assert (Hold : Forall (λ p, exact_response e0 (ls ++ [Respond r]) p.1 p.2) (responses e)).
    { eapply Forall_impl; [exact H5|]. intros x. apply exact_mono. }
    case_decide as Hd; [done|]. apply Forall_app. split; [done|]. apply Forall_singleton. cbn [fst snd].
    destruct (H4 r He Hd) as (ls1 & e1 & Hs1 & Hp & Hr1 & -> & i & err & Hu & Hc).
    exists ls1, e1, i, err, (gpu e). split; [done|]. split; [by apply prefix_app_r|].
    split; [apply elem_of_app; by left|]. done.
  + assert (Hr : r ∉ (responses e).*1) by (apply H7; by eexists).
    case_decide; [split; [done|]; intros r' [p [_ Hr']%lookup_delete_Some]; apply H7; by eexists|].
    rewrite fmap_app. split.
    * apply NoDup_app. split; [done|]. split; [|apply NoDup_singleton]. intros x Hx ->%list_elem_of_singleton. done.
    * intros r' [p [Hne Hr']%lookup_delete_Some] [Hin| ->%list_elem_of_singleton]%elem_of_app; [|done].
      by apply (H7 r'); [eexists|].
Qed.

(** A load: every request still in flight was dropped. *)
Lemma tracked_start e0 ls read fuel i cper e e' : tracked e0 ls e → lock_ok e' →
  enabled (Start read fuel i cper) e = true → step (Start read fuel i cper) e = Some e' →
  tracked e0 (ls ++ [Start read fuel i cper]) e'.
Proof.
  intros [H1 H2 H3 H4 H5 [H6 H7]] Hlock He Hs. cbn [enabled step] in He, Hs.
  apply negb_true_iff in He. pose proof (H2 He) as Hsub. apply start_threads in Hs as (Hm & Hr & Hd & Hresp & Hsv).
  split.
  + done.
  + congruence.
  + intros r Hr' Hn. destruct Hn. rewrite Hd. apply Hsub. rewrite <- Hr. by apply elem_of_dom_2 in Hr'.
  + intros r Hr' Hn. destruct Hn. rewrite Hd. apply Hsub. rewrite <- Hr. by apply elem_of_dom_2 in Hr'.
  + rewrite Hresp. eapply Forall_impl; [exact H5|]. intros x. apply exact_mono.
  + rewrite Hresp, Hr. done.
Qed.

Lemma tracked_step e0 ls l e e' : steps e0 ls e → tracked e0 ls e → enabled l e = true → step l e = Some e' →
  tracked e0 (ls ++ [l]) e'.
Proof.
  intros Hrun Ht He Hs. pose proof (step_lock l e e' (tr_lock _ _ _ Ht) He Hs) as Hlock.
  pose proof Ht as [H1 H2 H3 H4 H5 [H6 H7]].
  destruct l as [r|r|r|r i|r| | |read fuel i cper]; cbn [enabled step] in He, Hs.
  - injection Hs as <-. apply andb_true_iff in He as [Hserv (Hr & Hd & Hn)%bool_decide_eq_true].
    eapply tracked_idle; [exact Ht|done|done|done|done|done| | |]; cbn [set_request serving requests].
    + intros Hs. congruence.
    + intros r' p [(-> & <-)|[_ ?]]%lookup_insert_Some [|]; done.
    + intros r' [p [(-> & _)|[_ Hr']]%lookup_insert_Some]; [done|apply H7; by eexists].
  - injection Hs as <-. apply bool_decide_eq_true in He as [Hr Hmu].
    eapply tracked_idle; [exact Ht|done|done|done|done|done| | |]; cbn [set_request serving requests dropped].
    + intros Hs. rewrite dom_insert_lookup_L by (by eexists). by apply H2.
    + intros r' p [(-> & <-)|[_ ?]]%lookup_insert_Some [|]; done.
    + intros r' [p [(-> & _)|[_ Hr']]%lookup_insert_Some]; apply H7; by eexists.
  - injection Hs as <-. apply bool_decide_eq_true in He.
    apply (tracked_holder _ _ _ _ _ Locked); [done..| |done]. intros _ Hn. exists ls, e.
    split; [done|]. split; [by apply prefix_app_r|]. done.
  - apply bool_decide_eq_true in He. destruct (getMetricsAll _ _ _ _ _ i (gpu e)) as [[err c]|] eqn:Hg; [|done].
    injection Hs as <-. apply (tracked_holder _ _ _ _ _ Cleared); [done..|]. intros _ Hn.
    destruct (H3 r He Hn) as (ls1 & e1 & Hs1 & Hp & Hr1 & Hreg & Hc). exists ls1, e1.
    split; [done|]. split; [by apply prefix_app_r|]. split; [done|]. split; [done|].
    exists i, err. split; [apply snoc_In|]. cbn [gpu set_request]. unfold GpuScrape.scrape. by rewrite <- Hc.
  - by eapply tracked_respond.
  - injection Hs as <-. eapply tracked_idle; [exact Ht|done|done|done|set_solver|done| | |]; cbn [serving requests dropped].
    + intros _. set_solver.
    + done.
    + done.
  - injection Hs as <-. eapply tracked_idle; [exact Ht|done|done|done|set_solver|done| | |]; cbn [serving requests dropped].
    + intros _. set_solver.
    + done.
    + done.
  - by eapply tracked_start.
Qed.

Lemma steps_tracked e0 ls e : fresh e0 → steps e0 ls e → tracked e0 ls e.
Proof.
  intros (Hr & Hm & Hp). induction 1 as [|ls e l e' Hrun IH He Hs]; [|by eapply tracked_step].
  split.
  - split; intros r; [rewrite Hr; intros p; by rewrite lookup_empty|by rewrite Hm].
  - rewrite Hr, dom_empty_L. set_solver.
  - intros r. by rewrite Hr, lookup_empty.
  - intros r. by rewrite Hr, lookup_empty.
  - rewrite Hp. constructor.
  - rewrite Hp. split; [constructor|]. intros r _ ?%elem_of_nil. done.
Qed.

(** C6: However many requests for metrics run at the same time, and however
    they interleave with one another and with reloads of the configuration,
    every response that reaches a client shows what one scrape of the GPU
    client publishes from the gauges it has itself emptied, filtered by the
    fields registered when the request got the mutex: no request reads gauges
    another one has emptied or half filled, and no request is answered twice.
    A request whose connection was closed by force may run on into the next
    load, but is not answered. *)
Theorem responses_exact e0 ls e (Hfresh : fresh e0) (Hrun : steps e0 ls e) :
  (∀ r resp, (r, resp) ∈ responses e → exact_response e0 ls r resp) ∧ NoDup (responses e).*1.
Proof.
  destruct (steps_tracked e0 ls e Hfresh Hrun) as [_ _ _ _ H5 [H6 _]]. split; [|done].
  rewrite Forall_forall in H5. intros r resp Hin. apply (H5 _ Hin).
Qed.

(** ** Every request ends *)

(** The steps a request has left. *)
Definition work (p : phase) : nat :=
  match p with Waiting => 4 | Locked => 3 | Cleared => 2 | Updated => 1 end.

Definition todo (e : exporter) : nat := map_fold (λ _ p n, (work p + n)%nat) 0%nat (requests e).

(** A step of a request that has arrived. *)
Definition serves (l : label) : Prop :=
  match l with Lock _ | Clear _ | Update _ _ | Respond _ => True | _ => False end.

Lemma todo_split (m : gmap nat phase) r p : m !! r = Some p →
  map_fold (λ _ p n, (work p + n)%nat) 0%nat m =
  (work p + map_fold (λ _ p n, (work p + n)%nat) 0%nat (delete r m))%nat.
Proof.
  intros Hr. rewrite <- (insert_delete_id m r p) at 1 by done.
  apply (map_fold_insert_L (λ _ p n, (work p + n)%nat)); [intros; lia|by rewrite lookup_delete_eq].
Qed.

Lemma todo_move (m : gmap nat phase) r p q : m !! r = Some p →
  (map_fold (λ _ p n, (work p + n)%nat) 0%nat (<[r := q]> m) + work p)%nat =
  (map_fold (λ _ p n, (work p + n)%nat) 0%nat m + work q)%nat.
Proof.
  intros Hr. rewrite (todo_split m r p Hr), (todo_split (<[r := q]> m) r q) by apply lookup_insert_eq.
  rewrite delete_insert_eq. lia.
Qed.

Lemma todo_bound (m : gmap nat phase) : (map_fold (λ _ p n, (work p + n)%nat) 0%nat m <= 4 * size m)%nat.
Proof.
  induction m as [|r p m Hr IH] using map_ind; [done|].
  rewrite (map_fold_insert_L (λ _ p n, (work p + n)%nat)) by (done || (intros; lia)).
  rewrite map_size_insert_None by done. destruct p; cbn [work]; lia.
Qed.

Lemma step_todo l e e' : serves l → enabled l e = true → step l e = Some e' → todo e = S (todo e').
Proof.
  unfold todo. destruct l as [r|r|r|r i|r| | |read fuel i cper]; cbn [serves enabled step]; try done; intros _.
  - intros [Hr _]%bool_decide_eq_true [= <-]. pose proof (todo_move _ _ _ Locked Hr). cbn [requests set_request work] in *. lia.
  - intros Hr%bool_decide_eq_true [= <-]. pose proof (todo_move _ _ _ Cleared Hr). cbn [requests set_request work] in *. lia.
  - intros Hr%bool_decide_eq_true. destruct (getMetricsAll _ _ _ _ _ i (gpu e)) as [[err c]|]; [|done].
    cbn [mbind option_bind]. intros [= <-]. pose proof (todo_move _ _ _ Updated Hr). cbn [requests set_request work] in *. lia.
  - intros Hr%bool_decide_eq_true [= <-]. pose proof (todo_split _ _ _ Hr). cbn [requests work] in *. lia.
Qed.

(** Some request can go on. *)
Definition can_serve (e : exporter) : Prop := ∃ r, ∀ i, ∃ l, serves l ∧ enabled l e = true ∧
  (l = Lock r ∨ l = Clear r ∨ l = Update r i ∨ l = Respond r).

Lemma lock_progress e : lock_ok e → requests e ≠ ∅ → can_serve e.
Proof.
  intros [H1 H2] Hne. destruct (mu e) as [r|] eqn:Hmu.
  - destruct (H2 r eq_refl) as (p & Hp & Hw). exists r. intros i. destruct p; [done| | |].
    + exists (Clear r). split; [done|]. split; [|auto]. by apply bool_decide_eq_true.
    + exists (Update r i). split; [done|]. split; [|auto]. by apply bool_decide_eq_true.
    + exists (Respond r). split; [done|]. split; [|auto]. by apply bool_decide_eq_true.
  - apply map_choose in Hne as (r & p & Hr). exists r. intros i. exists (Lock r). split; [done|]. split; [|auto].
    apply bool_decide_eq_true. split; [|done]. destruct p; [done|..]; pose proof (H1 _ _ Hr ltac:(done)); congruence.
Qed.

(** C21: Every request ends.  In no state the process can reach are all
    requests blocked: while one is in flight, some request can take its next
    step, whatever the agent answers.  And the requests in flight take at
    most four steps each: without new requests and reloads, any run in which
    no step ends the process stops after them, with all requests gone. *)
Theorem requests_end e0 ls e (Hfresh : fresh e0) (Hrun : steps e0 ls e) :
  (requests e ≠ ∅ → can_serve e) ∧
  ∀ ls' e', Forall serves ls' → steps e ls' e' →
    (length ls' <= 4 * size (requests e))%nat ∧ (¬ can_serve e' → requests e' = ∅).
Proof.
  pose proof (tr_lock _ _ _ (steps_tracked e0 ls e Hfresh Hrun)) as Hok. split; [by apply lock_progress|].
  intros ls' e' Hserves Hsteps. assert (lock_ok e' ∧ (length ls' + todo e')%nat = todo e) as [Hok' Hlen].
  { induction Hsteps as [|ls' e1 l e' Hsteps IH He Hs]; [done|]. apply Forall_app in Hserves as [Hs1 [Hl _]%Forall_cons].
    destruct (IH Hs1) as [Hok1 Hl1]. split; [by eapply step_lock|].
    pose proof (step_todo l e1 e' Hl He Hs). rewrite length_app. cbn [length]. lia. }
  split.
  - pose proof (todo_bound (requests e)). unfold todo in Hlen. lia.
  - intros Hno. destruct (decide (requests e' = ∅)) as [|Hne]; [done|]. by destruct Hno; apply lock_progress.
Qed.

(** The run of given steps. *)
Definition exec_steps : exporter → list label → option exporter :=
  foldM (λ e l, if enabled l e then step l e else None).

Lemma steps_exec l : ∀ e e', exec_steps e l = Some e' → steps e l e'.
Proof.
  unfold exec_steps. induction l as [|x l IH] using rev_ind; intros e e'; [intros [= <-]; constructor|].
  rewrite foldM_app. destruct (foldM _ e l) as [e1|] eqn:Hl; [|done]. cbn [mbind option_bind foldM].
  destruct (enabled x e1) eqn:He; [|done]. destruct (step x e1) as [e2|] eqn:Hs; [|done]. intros [= <-].
  econstructor; [by apply IH|done..].
Qed.
End exporter.

(** ** An instance: two requests that overlap *)

Definition idle0 : exporter :=
  MkExporter handler0 (scrape_client (MkFieldLogger ∅ true)) ["gpuNodesTotal"; "gpuHealth"] true None ∅ ∅ [].

Definition overlap : list label :=
  [Arrive 0; Lock 0; Arrive 1; Clear 0; Update 0 (scrape_of (inl (MkGetResponse 0 []))); Respond 0;
   Lock 1; Clear 1; Update 1 (scrape_of (inr "connection refused")); Respond 1].

Abbreviation exec0 := (exec_steps imp0 parse0 pf0 vs0 name0 "node1").
Abbreviation steps0 := (steps imp0 parse0 pf0 vs0 name0 "node1").

Definition after_overlap : exporter := default idle0 (exec0 idle0 overlap).

Lemma overlap_run : steps0 idle0 overlap after_overlap.
Proof.
  apply steps_exec, present_some. vm_compute. reflexivity.
Qed.

Lemma idle0_fresh : fresh idle0.
Proof. done. Qed.

Lemma responses_exact_witness :
  (responses after_overlap).*1 = [0%nat; 1%nat] ∧
  Forall (λ p, exact_response imp0 parse0 pf0 vs0 name0 "node1" idle0 overlap p.1 p.2) (responses after_overlap).
Proof.
  split; [vm_compute; reflexivity|]. apply Forall_forall. intros [r resp] Hin.
  exact (proj1 (responses_exact imp0 parse0 pf0 vs0 name0 "node1" idle0 overlap after_overlap
    idle0_fresh overlap_run) r resp Hin).
Defined.

(** Halfway one request has the mutex and the other waits. *)
Definition halfway : exporter := default idle0 (exec0 idle0 (take 4 overlap)).

Lemma halfway_run : steps0 idle0 (take 4 overlap) halfway.
Proof.
  apply steps_exec, present_some. vm_compute. reflexivity.
Qed.

Lemma requests_end_witness : size (requests halfway) = 2%nat ∧ can_serve halfway ∧
  ∀ ls e, Forall serves ls → steps0 halfway ls e → (length ls <= 8)%nat.
Proof.
  destruct (requests_end imp0 parse0 pf0 vs0 name0 "node1" idle0 (take 4 overlap) halfway idle0_fresh halfway_run)
    as [Hp Hl].
  assert (Hs : size (requests halfway) = 2%nat) by (vm_compute; reflexivity). split; [exact Hs|]. split.
  - apply Hp. intros He. rewrite He in Hs. discriminate Hs.
  - intros ls e Hf Hr. destruct (Hl ls e Hf Hr) as [Hlen _]. rewrite Hs in Hlen. exact Hlen.
Defined.
