(* ===== verification/Reload.v ===== *)
(** When the configuration is loaded again: the watcher of its directory in
    [foreverWatcher] of [src/pkg/exporter/exporter.go].

    A transition system in time.  Other programs write the file; the kernel
    queues an event for each change of the directory once it is watched; the
    loop takes events and, three seconds after the last one, stops the server
    and starts it again with what is in the file then.  While the server is
    stopped and started the loop takes no events.  A stop can fail: the
    server is still there after a shutdown that timed out and a close that
    returned an error, and then nothing is loaded. *)

From S2P Require Import Prelude RocpClient.
Local Open Scope Z_scope.

Definition debounceDuration : Z := 3 * second.

Section reload.
Context {A : Type}.   (* what is in the file *)

Record watcher : Type := MkWatcher {
  file : A;
  loaded : A;
  watching : bool;        (* watcher.Add has been called *)
  pending : nat;          (* events the loop has not taken *)
  debounce : option Z;    (* when the timer fires, if it runs *)
  reloading : bool;       (* the server is stopped, the file not read yet *)
  now : Z;
}.

Inductive event : Type :=
  | Write (f : A)
  | Watch
  | Notify                  (* an event that creates, writes, removes or renames *)
  | Fire (stopped : bool)   (* the timer; whether the server could be stopped *)
  | Load.

(** A step at time [t]; [None]: it cannot happen now. *)
Definition step (t : Z) (ev : event) (w : watcher) : option watcher :=
  if decide (t < now w) then None else
  match ev with
  | Write f =>
      Some (MkWatcher f (loaded w) (watching w) (if watching w then S (pending w) else pending w)
        (debounce w) (reloading w) t)
  | Watch => Some (MkWatcher (file w) (loaded w) true (pending w) (debounce w) (reloading w) t)
  | Notify =>
      match pending w, reloading w with
      | S n, false =>
          Some (MkWatcher (file w) (loaded w) (watching w) n (Some (t + debounceDuration)) false t)
      | _, _ => None
      end
  | Fire stopped =>
      match debounce w, reloading w with
      | Some d, false =>
          if decide (d <= t)
          then Some (MkWatcher (file w) (loaded w) (watching w) (pending w) None stopped t) else None
      | _, _ => None
      end
  | Load =>
      if reloading w
      then Some (MkWatcher (file w) (file w) (watching w) (pending w) (debounce w) false t) else None
  end.

(** After [startServer] and the start of the loop at time [t]: the file was
    read; the timer runs although nothing has changed. *)
Definition started (f : A) (t : Z) : watcher := MkWatcher f f false 0 (Some (t + debounceDuration)) false t.

Inductive run (w : watcher) : list (Z * event) → watcher → Prop :=
  | run_refl : run w [] w
  | run_snoc l w1 t ev w2 : run w l w1 → step t ev w1 = Some w2 → run w (l ++ [(t, ev)]) w2.

(** No event, no timer, no reload. *)
Definition quiescent (w : watcher) : Prop := pending w = 0%nat ∧ debounce w = None ∧ reloading w = false.

(** The directory is watched when the timer fires, and the server stops. *)
Definition reload_ok (l : list (Z * event)) : Prop :=
  ∀ l1 t b l2, l = l1 ++ (t, Fire b) :: l2 → b = true ∧ ∃ t', (t', Watch) ∈ l1.

(** ** What a difference between the file and the configuration means *)

Definition due (w : watcher) : Prop :=
  loaded w = file w ∨ (0 < pending w)%nat ∨ is_Some (debounce w) ∨ reloading w = true.

Lemma reload_ok_init l ev : reload_ok (l ++ [ev]) → reload_ok l.
Proof. intros H l1 t b l2 ->. apply (H l1 t b (l2 ++ [ev])). by rewrite <- app_assoc. Qed.

Lemma watch_seen f t0 l w : run (started f t0) l w → (∃ t, (t, Watch) ∈ l) → watching w = true.
Proof.
  induction 1 as [|l w1 t ev w2 _ IH Hs]; [by intros [t ?%elem_of_nil]|].
  intros [t' [Hin|He%list_elem_of_singleton]%elem_of_app].
  - revert Hs. unfold step. case_decide; [done|]. pose proof (IH (ex_intro _ t' Hin)) as Hw.
    destruct ev; repeat case_match; try done; intros [= <-]; done.
  - injection He as <- <-. revert Hs. unfold step. case_decide; [done|]. by intros [= <-].
Qed.

(** Before the timer fires for the first time it runs. *)
Lemma first_timer f t0 l w : run (started f t0) l w → (∀ t b, (t, Fire b) ∉ l) → is_Some (debounce w).
Proof.
  induction 1 as [|l w1 t ev w2 _ IH Hs]; [by eexists|]. intros Hno.
  destruct IH as [d Hd]; [intros t' b Hin; apply (Hno t' b), elem_of_app; by left|].
  revert Hs. unfold step. case_decide; [done|]. destruct ev as [| | |b|].
  - intros [= <-]. by eexists.
  - intros [= <-]. by eexists.
  - repeat case_match; try done. intros [= <-]. by eexists.
  - destruct (Hno t b). apply elem_of_app. right. by left.
  - case_match; [|done]. intros [= <-]. by eexists.
Qed.

Lemma step_now t ev w w' : step t ev w = Some w' → now w <= t ∧ now w' = t.
Proof.
  unfold step. case_decide; [done|]. intros Hs. split; [lia|]. revert Hs.
  destruct ev; repeat case_match; try done; by intros [= <-].
Qed.

Lemma run_due f t0 l w : run (started f t0) l w → reload_ok l → due w.
Proof.
  induction 1 as [|l w1 t ev w2 Hrun IH Hs]; intros Hok; [by left|].
  pose proof (IH (reload_ok_init _ _ Hok)) as Hdue.
  assert (Htimer : watching w1 = false → is_Some (debounce w1)).
  { intros Hw. apply (first_timer f t0 l); [done|]. intros t' b (l1 & l2 & ->)%list_elem_of_split.
    destruct (Hok l1 t' b (l2 ++ [(t, ev)])) as [_ [t'' Hin]]; [by rewrite <- app_assoc|].
    rewrite (watch_seen f t0 _ _ Hrun) in Hw; [done|]. exists t''. apply elem_of_app. by left. }
  revert Hs. unfold step, due in *. case_decide; [done|]. destruct ev as [f'| | |b|].
  - intros [= <-]. cbn. right. destruct (watching w1) eqn:Hw; [left; lia|right; left; by apply Htimer].
  - intros [= <-]. done.
  - repeat case_match; try done. intros [= <-]. right. right. left. by eexists.
  - repeat case_match; try done. intros [= <-]. cbn. right. right. right.
    by destruct (Hok l t b []).
  - case_match; [|done]. intros [= <-]. by left.
Qed.

(** ** The steps that lead to rest *)

Definition settles (ev : event) : Prop := match ev with Notify | Fire _ | Load => True | _ => False end.

Definition unrest (w : watcher) : nat :=
  3 * pending w + (if debounce w then 2 else 0) + (if reloading w then 1 else 0).

Lemma settle_step t ev w w' : settles ev → step t ev w = Some w' → (unrest w' < unrest w)%nat.
Proof.
  unfold step, unrest. case_decide; [done|]. destruct ev as [f'| | |b|]; try done; intros _;
    repeat case_match; try done; intros [= <-]; cbn; repeat case_match; simplify_eq; lia.
Qed.

(** C9: The running configuration becomes what is in the file.  If the
    directory is watched before the timer fires for the first time and every
    stop of the server succeeds, then whenever no event waits, the timer does
    not run and no reload is under way, the configuration is the content of
    the file, whenever and how often it was written, also between the first
    reading and the start of the watch.  Until then a step that leads there
    is possible, and without new writes there are at most three for each
    waiting event and three more. *)
Theorem reload_converges f t0 l w (Hrun : run (started f t0) l w) (Hok : reload_ok l) :
  (quiescent w → loaded w = file w) ∧
  (¬ quiescent w → ∃ t ev w', settles ev ∧ step t ev w = Some w') ∧
  ∀ l' w', Forall (λ s, settles s.2) l' → run w l' w' → (length l' <= 3 * pending w + 3)%nat.
Proof.
  pose proof (run_due f t0 l w Hrun Hok) as Hdue. split_and!.
  - intros (Hp & Hd & Hr). destruct Hdue as [?|[?|[[? ?]|?]]]; [done|lia|congruence|congruence].
  - intros Hq. destruct (reloading w) eqn:Hr.
    { exists (now w), Load. unfold step. rewrite decide_False by lia. rewrite Hr. by eexists. }
    destruct (pending w) as [|n] eqn:Hp.
    + destruct (debounce w) as [d|] eqn:Hd; [|by destruct Hq].
      exists (Z.max d (now w)), (Fire true). unfold step. rewrite decide_False by lia. rewrite Hd, Hr.
      rewrite decide_True by lia. by eexists.
    + exists (now w), Notify. unfold step. rewrite decide_False by lia. rewrite Hp, Hr. by eexists.
  - intros l' w' Hset Hrun'. assert ((length l' + unrest w' <= unrest w)%nat) as H.
    { induction Hrun' as [|l' w1 t ev w2 _ IH Hs]; [cbn; lia|]. apply Forall_app in Hset as [H1 [H2 _]%Forall_cons].
      specialize (IH H1). pose proof (settle_step _ _ _ _ H2 Hs). rewrite length_app. cbn [length]. lia. }
    unfold unrest in H. destruct (debounce w), (reloading w); lia.
Qed.

(** ** How often *)

(** The timer and the events before it. *)
Record timed (t0 : Z) (l : list (Z * event)) (w : watcher) : Prop := {
  ti_t0 : t0 <= now w;
  ti_past : Forall (λ s, s.1 <= now w) l;
  ti_start d : debounce w = Some d → t0 + debounceDuration <= d;
  ti_notify d t : debounce w = Some d → (t, Notify) ∈ l → t + debounceDuration <= d;
  ti_fire d l1 t b l2 : debounce w = Some d → l = l1 ++ (t, Fire b) :: l2 → ∃ t', t <= t' ∧ (t', Notify) ∈ l2;
}.

(** A step that leaves the timer, or stops it. *)
Lemma timed_keep t0 l w t ev w' : timed t0 l w → now w <= t → now w' = t →
  (debounce w' = debounce w ∨ debounce w' = None) → ev ≠ Notify → (∀ b, ev = Fire b → debounce w' = None) →
  timed t0 (l ++ [(t, ev)]) w'.
Proof.
  intros [H0 H1 H2 H3 H4] Hle Hnow Hd Hn Hf. split.
  - lia.
  - apply Forall_app. split; [|apply Forall_singleton; cbn; lia]. eapply Forall_impl; [exact H1|]. cbn. lia.
  - intros d Hd'. apply H2. destruct Hd; congruence.
  - intros d t' Hd' [Hin|[= -> Hev]%list_elem_of_singleton]%elem_of_app; [|congruence].
    apply H3; [destruct Hd; congruence|done].
  - intros d l1 t' b l2 Hd' Heq. destruct l2 as [|s l2 _] using rev_ind.
    + apply app_inj_tail in Heq as [_ [= _ ->]]. rewrite (Hf b eq_refl) in Hd'. done.
    + rewrite app_comm_cons, app_assoc in Heq. apply app_inj_tail in Heq as [Heq _].
      destruct (H4 d l1 t' b l2 ltac:(destruct Hd; congruence) Heq) as (t'' & ? & ?).
      exists t''. split; [done|]. apply elem_of_app. by left.
Qed.

Lemma run_timed f t0 l w : run (started f t0) l w → timed t0 l w.
Proof.
  induction 1 as [|l w1 t ev w2 Hrun IH Hs].
  { split; [done|constructor| | |].
    - intros d [= <-]. lia.
    - intros d t _ ?%elem_of_nil. done.
    - intros d l1 t b l2 _ Heq. by destruct l1. }
  destruct (step_now _ _ _ _ Hs) as [Hle Hnow]. revert Hs. unfold step. case_decide; [done|].
  destruct ev as [f'| | |b|].
  - intros [= <-]. apply (timed_keep _ _ w1); try done. by left.
  - intros [= <-]. apply (timed_keep _ _ w1); try done. by left.
  - repeat case_match; try done. intros [= <-]. pose proof IH as [I0 I1 I2 I3 I4].
    assert (Hpast : Forall (λ s, s.1 <= t) l) by (eapply Forall_impl; [exact I1|]; cbn; lia).
    split; cbn [debounce now].
    + lia.
    + apply Forall_app. split; [done|by apply Forall_singleton].
    + intros d [= <-]. lia.
    + intros d t' [= <-] [Hin|[= ->]%list_elem_of_singleton]%elem_of_app; [|lia].
      rewrite Forall_forall in Hpast. specialize (Hpast _ Hin). cbn in Hpast. lia.
    + intros d l1 t' b l2 _ Heq. destruct l2 as [|s l2 _] using rev_ind.
      * by apply app_inj_tail in Heq as [_ [=]].
      * rewrite app_comm_cons, app_assoc in Heq. apply app_inj_tail in Heq as [-> <-].
        exists t. split; [|apply elem_of_app; right; by left].
        rewrite Forall_forall in Hpast. apply (Hpast (t', Fire b)), elem_of_app. right. by left.
  - repeat case_match; try done. intros [= <-]. apply (timed_keep _ _ w1); try done. by right.
  - case_match; [|done]. intros [= <-]. apply (timed_keep _ _ w1); try done. by left.
Qed.

Lemma run_split w l1 l2 w2 : run w (l1 ++ l2) w2 → ∃ w1, run w l1 w1.
Proof.
  remember (l1 ++ l2) as l eqn:Heq. intros Hrun. revert l2 Heq.
  induction Hrun as [|l w1 t ev w2 Hrun IH Hs]; intros l2 Heq.
  { exists w. by destruct l1; [constructor|]. }
  destruct l2 as [|s l2 _] using rev_ind.
  - rewrite app_nil_r in Heq. subst l1. exists w2. by econstructor.
  - rewrite app_assoc in Heq. apply app_inj_tail in Heq as [-> _]. by apply (IH l2).
Qed.

Lemma fire_timed f t0 l1 t b l2 w : run (started f t0) (l1 ++ (t, Fire b) :: l2) w →
  ∃ w1 d, timed t0 l1 w1 ∧ debounce w1 = Some d ∧ d <= t.
Proof.
  intros Hrun. replace (l1 ++ (t, Fire b) :: l2) with ((l1 ++ [(t, Fire b)]) ++ l2) in Hrun by by rewrite <- app_assoc.
  destruct (run_split _ _ _ _ Hrun) as [w' Hrun'].
  inversion Hrun' as [He|l w1 t' ev w2 Hrun1 Hs He]; [by destruct l1|].
  apply app_inj_tail in He as [-> [= -> ->]]. revert Hs. unfold step. case_decide; [done|].
  repeat case_match; try done. intros _. eexists w1, _. split; [by eapply run_timed|done].
Qed.

(** Changes of the directory are gathered.  A reload begins at least
    three seconds after every event taken before it and three seconds after
    the start, and between two reloads an event was taken: a burst of events
    with less than three seconds between them causes one reload, and two
    reloads begin at least three seconds apart, whether the stops succeed or
    not. *)
Theorem reloads_spaced f t0 l1 t b l2 w (Hrun : run (started f t0) (l1 ++ (t, Fire b) :: l2) w) :
  t0 + debounceDuration <= t ∧
  (∀ t', (t', Notify) ∈ l1 → t' + debounceDuration <= t) ∧
  (∀ l3 t' b' l4, l1 = l3 ++ (t', Fire b') :: l4 →
     t' + debounceDuration <= t ∧ ∃ t'', t' <= t'' ∧ (t'', Notify) ∈ l4).
Proof.
  destruct (fire_timed _ _ _ _ _ _ _ Hrun) as (w1 & d & [I0 I1 I2 I3 I4] & Hd & Ht). split_and!.
  - specialize (I2 d Hd). lia.
  - intros t' Hin. specialize (I3 d t' Hd Hin). lia.
  - intros l3 t' b' l4 Heq. destruct (I4 d l3 t' b' l4 Hd Heq) as (t'' & Hle & Hin). split; [|by exists t''].
    assert ((t'', Notify) ∈ l1) as Hin' by (rewrite Heq; apply elem_of_app; right; by right).
    specialize (I3 d t'' Hd Hin'). lia.
Qed.

(** The run of given steps. *)
Lemma run_exec l : ∀ w w', foldM (λ w s, step s.1 s.2 w) w l = Some w' → run w l w'.
Proof.
  induction l as [|[t ev] l IH] using rev_ind; intros w w'; [intros [= <-]; constructor|].
  rewrite foldM_app. destruct (foldM _ w l) as [w1|] eqn:Hl; [|done]. cbn [mbind option_bind foldM fst snd].
  destruct (step t ev w1) as [w2|] eqn:Hs; [|done]. intros [= <-]. econstructor; [by apply IH|done].
Qed.

(** A server that cannot be stopped keeps its configuration: the event is
    gone, nothing loads the file. *)
Lemma failed_stop_loses f g t0 :
  ∃ l w, run (started f t0) l w ∧ quiescent w ∧ file w = g ∧ loaded w = f.
Proof.
  exists [(t0, Watch); (t0, Write g); (t0, Notify); (t0 + debounceDuration, Fire false)].
  exists (MkWatcher g f true 0 None false (t0 + debounceDuration)). split; [|done]. apply run_exec.
  cbn [foldM fst snd]. unfold step, started. cbn [mbind option_bind now debounce pending reloading watching file loaded].
  unfold debounceDuration, second. repeat (rewrite decide_False by lia; cbn).
  by rewrite decide_True by lia.
Qed.
End reload.

(** ** An instance: the file is written twice, a second apart. *)

Definition edits : list (Z * event (A:=Z)) :=
  [(0, Watch); (1 * second, Write 1); (1 * second, Notify); (2 * second, Write 2); (2 * second, Notify);
   (5 * second, Fire true); (6 * second, Load)].

Definition edited : watcher := MkWatcher 2 2 true 0 None false (6 * second).

Lemma edits_run : run (started 0 0) edits edited.
Proof. apply run_exec. vm_compute. reflexivity. Qed.

Lemma edits_ok : reload_ok edits.
Proof.
  intros l1 t b l2 Heq. destruct l1 as [|e1 l1]; [discriminate Heq|]. injection Heq as <- Heq.
  do 4 (destruct l1 as [|? l1]; [discriminate Heq|injection Heq as _ Heq]).
  destruct l1 as [|? l1]; [injection Heq as _ <- _; split; [done|]; exists 0; by left|]. injection Heq as _ Heq.
  destruct l1 as [|? l1]; [discriminate Heq|]. injection Heq as _ Heq. by destruct l1.
Qed.

Lemma reload_converges_witness : quiescent edited ∧ loaded edited = 2 ∧ loaded edited = file edited.
Proof.
  assert (Hq : quiescent edited) by done. split; [exact Hq|]. split; [reflexivity|].
  exact (proj1 (reload_converges 0 0 edits edited edits_run edits_ok) Hq).
Defined.

Lemma reloads_spaced_witness : run (started 0 0) edits edited ∧ 2 * second + debounceDuration <= 5 * second.
Proof.
  split; [exact edits_run|].
  apply (proj1 (proj2 (reloads_spaced 0 0
    [(0, Watch); (1 * second, Write 1); (1 * second, Notify); (2 * second, Write 2); (2 * second, Notify)]
    (5 * second) true [(6 * second, Load)] edited edits_run))). do 4 right. by left.
Defined.
