(* ===== verification/Events.v ===== *)
(** The service that emits Kubernetes events, [src/pkg/events/service.go]: a
    bounded queue, one goroutine that delivers, callers that wait, and the
    stop.

    A transition system.  A label is a step of the dispatcher or of a caller;
    what the Kubernetes API answers comes with the label.  The queue takes an
    event or it does not, nobody waits for it.  A delivery goes through
    [emitToK8s] in steps of its own: it reads [rbacDisabled], begins the call
    of the API, gets the answer, sets [rbacDisabled] and sends the error.  The
    dispatcher and every caller that found the queue full deliver at the same
    time, so another delivery can do any of its steps between two of these.
    [accepted] and [handled] record, for the statements, what was put into the
    queue and what the dispatcher has finished. *)

From S2P Require Import Prelude.

Definition queueSize : nat := 64.

(** An event; [waiter] is the caller that waits for the delivery. *)
Record eventEnvelope : Type := MkEnvelope { reason : string; msg : string; waiter : option nat }.

(** The answer of the API. *)
Inductive api_result : Type := Created | Forbidden | ApiFailed (err : string).

(** What a caller of [emitWarningSync] gets. *)
Inductive sync_result : Type := Delivered (err : option string) | TimedOut.

(** Where a delivery is in [emitToK8s] and [deliver]. *)
Inductive phase : Type :=
  | Entered                               (* before the checks *)
  | Passed                                (* the checks were passed, not yet called *)
  | Calling                               (* [createFn] runs *)
  | Answered (r : api_result)
  | Finished (err : option string).       (* [emitToK8s] has returned *)

(** An event that is being delivered. *)
Record delivery : Type := MkDelivery { envelope : eventEnvelope; at_phase : phase }.

Inductive goroutine : Type := Selecting | Delivering (d : delivery) | Exited.

Record eventService : Type := MkService {
  k8sClient : bool;
  queue : list eventEnvelope;
  stopCh : bool;                         (* closed *)
  rbacDisabled : bool;
  dispatcher : goroutine;
  direct : gmap nat delivery;            (* callers that deliver themselves *)
  errCh : gmap nat (option string);      (* one place for each waiting caller *)
  waiting : gset nat;                    (* callers in emitWarningSync *)
  returned : gmap nat sync_result;
  calls : list eventEnvelope;            (* of the API *)
  accepted : list eventEnvelope;
  handled : list eventEnvelope;
}.

Definition newEventService (k8sClient : bool) : eventService :=
  MkService k8sClient [] false false Selecting ∅ ∅ ∅ ∅ [] [] [].

Inductive label : Type :=
  | EmitWarning (reason msg : string)
  | EmitWarningSync (caller : nat) (reason msg : string)
  | Take                                  (* an event from the queue *)
  (* the steps of a delivery: the dispatcher's ([None]) or a caller's own *)
  | Load (by_ : option nat)               (* the checks *)
  | Create (by_ : option nat)             (* the call begins *)
  | Answer (by_ : option nat) (r : api_result)
  | Latch (by_ : option nat)              (* what the answer does *)
  | Send (by_ : option nat)               (* the error is passed on *)
  | Return (caller : nat)                 (* the error came *)
  | Timeout (caller : nat)
  | Stop                                  (* close(stopCh) *)
  | Exit.                                 (* stopped and nothing left *)

(** What [emitToK8s] returns for an answer, and whether it sets [rbacDisabled]. *)
Definition emit_error (r : api_result) : option string :=
  match r with ApiFailed err => Some err | _ => None end.
Definition emit_forbidden (r : api_result) : bool :=
  match r with Forbidden => true | _ => false end.

(** [env.errCh <- err] of [deliver]. *)
Definition send (e : eventEnvelope) (err : option string) (m : gmap nat (option string)) : gmap nat (option string) :=
  match waiter e with Some c => <[c := err]> m | None => m end.

Definition set_queue q s := MkService (k8sClient s) q (stopCh s) (rbacDisabled s) (dispatcher s) (direct s)
  (errCh s) (waiting s) (returned s) (calls s) (accepted s) (handled s).
Definition set_dispatcher g s := MkService (k8sClient s) (queue s) (stopCh s) (rbacDisabled s) g (direct s)
  (errCh s) (waiting s) (returned s) (calls s) (accepted s) (handled s).
Definition set_direct m s := MkService (k8sClient s) (queue s) (stopCh s) (rbacDisabled s) (dispatcher s) m
  (errCh s) (waiting s) (returned s) (calls s) (accepted s) (handled s).
Definition set_callers w m s := MkService (k8sClient s) (queue s) (stopCh s) (rbacDisabled s) (dispatcher s)
  (direct s) (errCh s) w m (calls s) (accepted s) (handled s).
Definition set_stopCh s := MkService (k8sClient s) (queue s) true (rbacDisabled s) (dispatcher s) (direct s)
  (errCh s) (waiting s) (returned s) (calls s) (accepted s) (handled s).

(** [s.queue <- env], if there is room. *)
Definition enqueue (e : eventEnvelope) (s : eventService) : eventService :=
  MkService (k8sClient s) (queue s ++ [e]) (stopCh s) (rbacDisabled s) (dispatcher s) (direct s) (errCh s)
    (waiting s) (returned s) (calls s) (accepted s ++ [e]) (handled s).

(** [createFn] is called. *)
Definition log_call (e : eventEnvelope) (s : eventService) : eventService :=
  MkService (k8sClient s) (queue s) (stopCh s) (rbacDisabled s) (dispatcher s) (direct s) (errCh s) (waiting s)
    (returned s) (calls s ++ [e]) (accepted s) (handled s).
(** [s.rbacDisabled.CompareAndSwap(0, 1)], if the answer calls for it. *)
Definition latch (r : api_result) (s : eventService) : eventService :=
  MkService (k8sClient s) (queue s) (stopCh s) (rbacDisabled s || emit_forbidden r) (dispatcher s) (direct s)
    (errCh s) (waiting s) (returned s) (calls s) (accepted s) (handled s).
Definition send_error (e : eventEnvelope) (err : option string) (s : eventService) : eventService :=
  MkService (k8sClient s) (queue s) (stopCh s) (rbacDisabled s) (dispatcher s) (direct s) (send e err (errCh s))
    (waiting s) (returned s) (calls s) (accepted s) (handled s).

Definition log_handled (e : eventEnvelope) (s : eventService) : eventService :=
  MkService (k8sClient s) (queue s) (stopCh s) (rbacDisabled s) (dispatcher s) (direct s) (errCh s) (waiting s)
    (returned s) (calls s) (accepted s) (handled s ++ [e]).

(** The delivery of the dispatcher, or the caller's own. *)
Definition delivering (w : option nat) (s : eventService) : option delivery :=
  match w with
  | None => match dispatcher s with Delivering d => Some d | _ => None end
  | Some c => direct s !! c
  end.
Definition go_on (w : option nat) (e : eventEnvelope) (p : phase) (s : eventService) : eventService :=
  match w with
  | None => set_dispatcher (Delivering (MkDelivery e p)) s
  | Some c => set_direct (<[c := MkDelivery e p]> (direct s)) s
  end.
Definition finish (w : option nat) (e : eventEnvelope) (s : eventService) : eventService :=
  match w with
  | None => log_handled e (set_dispatcher Selecting s)
  | Some c => set_direct (delete c (direct s)) s
  end.

(** The checks at the start of [emitToK8s]. *)
Definition check_phase (s : eventService) : phase :=
  if negb (k8sClient s) then Finished None else if rbacDisabled s then Finished None else Passed.

(** A step; [None]: it is not possible.  A caller has a number of its own. *)
Definition step (l : label) (s : eventService) : option eventService :=
  match l with
  | EmitWarning r m =>
      if decide (length (queue s) < queueSize)%nat then Some (enqueue (MkEnvelope r m None) s)
      else Some s
  | EmitWarningSync c r m =>
      if decide (c ∈ waiting s ∨ is_Some (returned s !! c)) then None else
      let e := MkEnvelope r m (Some c) in
      let s := set_callers ({[c]} ∪ waiting s) (returned s) s in
      if decide (length (queue s) < queueSize)%nat then Some (enqueue e s)
      else Some (set_direct (<[c := MkDelivery e Entered]> (direct s)) s)
  | Take =>
      match dispatcher s, queue s with
      | Selecting, e :: q => Some (set_dispatcher (Delivering (MkDelivery e Entered)) (set_queue q s))
      | _, _ => None
      end
  | Load w =>
      d ← delivering w s;
      match at_phase d with Entered => Some (go_on w (envelope d) (check_phase s) s) | _ => None end
  | Create w =>
      d ← delivering w s;
      match at_phase d with Passed => Some (log_call (envelope d) (go_on w (envelope d) Calling s)) | _ => None end
  | Answer w r =>
      d ← delivering w s;
      match at_phase d with Calling => Some (go_on w (envelope d) (Answered r) s) | _ => None end
  | Latch w =>
      d ← delivering w s;
      match at_phase d with
      | Answered r => Some (latch r (go_on w (envelope d) (Finished (emit_error r)) s))
      | _ => None
      end
  | Send w =>
      d ← delivering w s;
      match at_phase d with
      | Finished err => Some (send_error (envelope d) err (finish w (envelope d) s))
      | _ => None
      end
  | Return c =>
      if decide (c ∈ waiting s) then
        err ← errCh s !! c; Some (set_callers (waiting s ∖ {[c]}) (<[c := Delivered err]> (returned s)) s)
      else None
  | Timeout c =>
      if decide (c ∈ waiting s ∧ direct s !! c = None)
      then Some (set_callers (waiting s ∖ {[c]}) (<[c := TimedOut]> (returned s)) s) else None
  | Stop => if stopCh s then None else Some (set_stopCh s)
  | Exit =>
      match dispatcher s, queue s, stopCh s with
      | Selecting, [], true => Some (set_dispatcher Exited s)
      | _, _, _ => None
      end
  end.

Inductive steps (s0 : eventService) : list label → eventService → Prop :=
  | steps_refl : steps s0 [] s0
  | steps_snoc ls s l s' : steps s0 ls s → step l s = Some s' → steps s0 (ls ++ [l]) s'.

(** ** Order *)

Definition current (s : eventService) : list eventEnvelope :=
  match dispatcher s with Delivering d => [envelope d] | _ => [] end.

Definition in_order (s : eventService) : Prop :=
  accepted s = handled s ++ current s ++ queue s ∧ (length (queue s) <= queueSize)%nat.

Lemma enqueue_order e s : in_order s → (length (queue s) < queueSize)%nat → in_order (enqueue e s).
Proof.
  intros [Ha Hq] Hl. split; cbn [enqueue accepted handled queue].
  - rewrite Ha. unfold current. cbn [enqueue dispatcher]. by rewrite <- !app_assoc.
  - rewrite length_app. cbn. lia.
Qed.

(** What a step of a delivery does to it. *)
Inductive delivers (s : eventService) (w : option nat) (d : delivery) : eventService → Prop :=
  | d_load : at_phase d = Entered → delivers s w d (go_on w (envelope d) (check_phase s) s)
  | d_create : at_phase d = Passed → delivers s w d (log_call (envelope d) (go_on w (envelope d) Calling s))
  | d_answer r : at_phase d = Calling → delivers s w d (go_on w (envelope d) (Answered r) s)
  | d_latch r : at_phase d = Answered r → delivers s w d (latch r (go_on w (envelope d) (Finished (emit_error r)) s))
  | d_send err : at_phase d = Finished err →
      delivers s w d (send_error (envelope d) err (finish w (envelope d) s)).

Definition deliverer (l : label) : option (option nat) :=
  match l with Load w | Create w | Answer w _ | Latch w | Send w => Some w | _ => None end.

Lemma step_delivers l w s s' : deliverer l = Some w → step l s = Some s' →
  ∃ d, delivering w s = Some d ∧ delivers s w d s'.
Proof.
  destruct l; try done; intros [= ->]; cbn [step]; destruct (delivering w s) as [d|]; try done;
    cbn [mbind option_bind]; destruct (at_phase d) eqn:Hp; try done; intros [= <-]; exists d;
    split; first [done|by constructor].
Qed.

Lemma delivers_order s w d s' : delivering w s = Some d → delivers s w d s' → in_order s → in_order s'.
Proof.
  intros Hd Hs [Ha Hq]. unfold in_order, current in *.
  destruct w as [c|]; cbn [delivering] in Hd; [by destruct Hs|].
  destruct (dispatcher s) as [|d'|]; [done| |done]. injection Hd as ->.
  destruct Hs; cbn in *; rewrite <- ?app_assoc; done.
Qed.

(** The steps that are not a delivery's. *)
Lemma other_order l s s' : deliverer l = None → step l s = Some s' → in_order s → in_order s'.
Proof.
  destruct l as [r m|c r m| |w|w|w r|w|w|c|c| |]; try done; intros _; cbn [step]; intros Hl Hs; revert Hl.
  - case_decide; intros [= <-]; [by apply enqueue_order|done].
  - case_decide; [done|]. case_decide; intros [= <-]; [by apply enqueue_order|exact Hs].
  - destruct (dispatcher s) eqn:Hd, (queue s) as [|e q] eqn:Hq; try done. intros [= <-].
    destruct Hs as [Ha Hl]. unfold in_order, current in *. rewrite Hd, Hq in *. cbn in *. split; [done|lia].
  - case_decide; [|done]. destruct (errCh s !! c); [|done]. intros [= <-]. exact Hs.
  - case_decide; [|done]. intros [= <-]. exact Hs.
  - destruct (stopCh s); [done|]. intros [= <-]. exact Hs.
  - destruct (dispatcher s) eqn:Hd, (queue s) as [|e q] eqn:Hq, (stopCh s); try done. intros [= <-].
    destruct Hs as [Ha Hl]. unfold in_order, current in *. rewrite Hd, Hq in *. cbn. by rewrite Hq.
Qed.

Lemma step_order l s s' : in_order s → step l s = Some s' → in_order s'.
Proof.
  intros Hs Hl. destruct (deliverer l) as [w|] eqn:Hw; [|by eapply other_order].
  destruct (step_delivers _ _ _ _ Hw Hl) as (d & Hd & Hdel). by eapply delivers_order.
Qed.

Lemma steps_order b ls s : steps (newEventService b) ls s → in_order s.
Proof. induction 1; [split; [done|cbn; lia]|by eapply step_order]. Qed.

(** ** Calls of the API *)

(** The events of the deliveries that have passed the checks and not yet
    called the API. *)
Definition about_to_call (d : delivery) : list eventEnvelope :=
  match at_phase d with Passed => [envelope d] | _ => [] end.
Definition passed_direct (m : gmap nat delivery) : list eventEnvelope :=
  map_to_list m ≫= λ cd, about_to_call cd.2.
Definition passed (s : eventService) : list eventEnvelope :=
  match dispatcher s with Delivering d => about_to_call d | _ => [] end ++ passed_direct (direct s).

Lemma passed_insert_new m c d : m !! c = None → passed_direct (<[c := d]> m) ≡ₚ about_to_call d ++ passed_direct m.
Proof. intros Hm. unfold passed_direct. by rewrite map_to_list_insert. Qed.

Lemma passed_delete m c d : m !! c = Some d → passed_direct m ≡ₚ about_to_call d ++ passed_direct (delete c m).
Proof. intros Hm. rewrite <- (insert_delete_id m c d) at 1 by done. apply passed_insert_new, lookup_delete_eq. Qed.

Lemma passed_insert m c d : passed_direct (<[c := d]> m) ≡ₚ about_to_call d ++ passed_direct (delete c m).
Proof. rewrite <- insert_delete_eq. apply passed_insert_new, lookup_delete_eq. Qed.

(** The rest of the deliveries. *)
Definition passed_others (w : option nat) (s : eventService) : list eventEnvelope :=
  match w with
  | None => passed_direct (direct s)
  | Some c => match dispatcher s with Delivering d => about_to_call d | _ => [] end ++
              passed_direct (delete c (direct s))
  end.

Lemma passed_split w s d : delivering w s = Some d → passed s ≡ₚ about_to_call d ++ passed_others w s.
Proof.
  destruct w as [c|]; cbn [delivering passed_others]; unfold passed.
  - intros Hd. rewrite (passed_delete _ _ _ Hd). by rewrite Permutation_app_swap_app.
  - destruct (dispatcher s); try done. by intros [= ->].
Qed.

Lemma passed_go_on w e p s d : delivering w s = Some d →
  passed (go_on w e p s) ≡ₚ about_to_call (MkDelivery e p) ++ passed_others w s.
Proof.
  destruct w as [c|]; cbn [delivering passed_others go_on]; unfold passed; cbn [set_direct set_dispatcher direct dispatcher];
    intros _; [|done].
  rewrite passed_insert. by rewrite Permutation_app_swap_app.
Qed.

Lemma passed_finish w e s : delivering w s ≠ None → passed (finish w e s) ≡ₚ passed_others w s.
Proof. by destruct w as [c|]. Qed.

(** What a step may call: nothing off the cluster, and once [rbacDisabled] is
    set only what was about to be called. *)
Definition calls_from (s s' : eventService) : Prop :=
  k8sClient s' = k8sClient s ∧ (rbacDisabled s = true → rbacDisabled s' = true) ∧
  (k8sClient s = false ∨ rbacDisabled s = true → ∃ l, calls s' = calls s ++ l ∧ l ++ passed s' ⊆+ passed s).

Lemma delivers_calls s w d s' : delivering w s = Some d → delivers s w d s' → calls_from s s'.
Proof.
  intros Hd Hs. pose proof (passed_split w s d Hd) as Hp. unfold calls_from.
  assert (Hk : ∀ e p, k8sClient (go_on w e p s) = k8sClient s ∧ rbacDisabled (go_on w e p s) = rbacDisabled s ∧
            calls (go_on w e p s) = calls s) by (by destruct w).
  assert (Hf : ∀ e, k8sClient (finish w e s) = k8sClient s ∧ rbacDisabled (finish w e s) = rbacDisabled s ∧
            calls (finish w e s) = calls s) by (by destruct w).
  assert (Hpf : ∀ e, passed (finish w e s) ≡ₚ passed_others w s) by (intros; apply passed_finish; by rewrite Hd).
  assert (Hpg : ∀ e p, passed (go_on w e p s) ≡ₚ about_to_call (MkDelivery e p) ++ passed_others w s)
    by (intros; by eapply passed_go_on).
  destruct Hs as [Hph|Hph|r Hph|r Hph|err Hph]; unfold about_to_call at 1 in Hp; rewrite Hph in Hp; cbn [app] in Hp.
  - destruct (Hk (envelope d) (check_phase s)) as (-> & -> & ->). split_and!; [done|done|]. intros Hoff.
    exists []. rewrite app_nil_r. split; [done|]. cbn [app]. rewrite Hpg, Hp. unfold check_phase.
    destruct Hoff as [->| ->]; [done|]. by destruct (k8sClient s).
  - unfold log_call at 1 2 3. cbn [k8sClient rbacDisabled calls].
    destruct (Hk (envelope d) Calling) as (-> & -> & ->). split_and!; [done|done|]. intros _.
    exists [envelope d]. split; [done|]. change (passed (log_call _ ?s)) with (passed s). rewrite Hpg, Hp. done.
  - destruct (Hk (envelope d) (Answered r)) as (-> & -> & ->). split_and!; [done|done|]. intros _.
    exists []. rewrite app_nil_r. split; [done|]. by rewrite Hp, Hpg.
  - unfold latch at 1 2 3. cbn [k8sClient rbacDisabled calls].
    destruct (Hk (envelope d) (Finished (emit_error r))) as (-> & -> & ->). split_and!; [done|by intros ->|]. intros _.
    exists []. rewrite app_nil_r. split; [done|]. change (passed (latch _ ?s)) with (passed s). by rewrite Hp, Hpg.
  - unfold send_error at 1 2 3. cbn [k8sClient rbacDisabled calls].
    destruct (Hf (envelope d)) as (-> & -> & ->). split_and!; [done|done|]. intros _.
    exists []. rewrite app_nil_r. split; [done|]. change (passed (send_error _ _ ?s)) with (passed s). by rewrite Hp, Hpf.
Qed.

Lemma same_calls s s' : k8sClient s' = k8sClient s → rbacDisabled s' = rbacDisabled s → calls s' = calls s →
  passed s' ⊆+ passed s → calls_from s s'.
Proof.
  intros H1 H2 H3 H4. split_and!; [done|congruence|]. intros _. exists []. by rewrite app_nil_r.
Qed.

Lemma passed_delete_sub m c : passed_direct (delete c m) ⊆+ passed_direct m.
Proof.
  destruct (m !! c) as [d|] eqn:Hc; [|by rewrite delete_id].
  rewrite (passed_delete _ _ _ Hc). by apply submseteq_inserts_l.
Qed.

Lemma other_calls l s s' : deliverer l = None → step l s = Some s' → calls_from s s'.
Proof.
  destruct l as [r m|c r m| |w|w|w r|w|w|c|c| |]; try done; intros _; cbn [step].
  - case_decide; intros [= <-]; by apply same_calls.
  - case_decide; [done|]. case_decide; intros [= <-]; [by apply same_calls|]. apply same_calls; try done.
    unfold passed. cbn. apply submseteq_app; [done|]. rewrite passed_insert. cbn. apply passed_delete_sub.
  - destruct (dispatcher s) eqn:Hd, (queue s) as [|e q]; try done. intros [= <-]. apply same_calls; try done.
    unfold passed. by rewrite Hd.
  - case_decide; [|done]. destruct (errCh s !! c); [|done]. intros [= <-]. by apply same_calls.
  - case_decide; [|done]. intros [= <-]. by apply same_calls.
  - destruct (stopCh s); [done|]. intros [= <-]. by apply same_calls.
  - destruct (dispatcher s) eqn:Hd, (queue s), (stopCh s); try done. intros [= <-]. apply same_calls; try done.
    unfold passed. by rewrite Hd.
Qed.

Lemma step_calls l s s' : step l s = Some s' → calls_from s s'.
Proof.
  intros Hl. destruct (deliverer l) as [w|] eqn:Hw; [|by eapply other_calls].
  destruct (step_delivers _ _ _ _ Hw Hl) as (d & Hd & Hdel). by eapply delivers_calls.
Qed.

Lemma steps_calls s ls s' : steps s ls s' → calls_from s s'.
Proof.
  induction 1 as [|ls s1 l s2 _ (IH1 & IH2 & IH3) Hs]; [by apply same_calls|].
  destruct (step_calls _ _ _ Hs) as (H1 & H2 & H3). split_and!; [congruence|auto|].
  intros Hoff. destruct (IH3 Hoff) as (l1 & Hc1 & Hp1). destruct H3 as (l2 & Hc2 & Hp2).
  { rewrite IH1. destruct Hoff; auto. }
  exists (l1 ++ l2). rewrite Hc2, Hc1, <- !app_assoc. split; [done|].
  etrans; [|exact Hp1]. by apply submseteq_app.
Qed.

(** Off the cluster no delivery passes the checks. *)
Lemma off_cluster ls s : steps (newEventService false) ls s → calls s = [].
Proof.
  intros Hs. destruct (proj2 (proj2 (steps_calls _ _ _ Hs)) (or_introl eq_refl)) as (l & -> & Hl).
  apply submseteq_nil_r, app_eq_nil in Hl as [-> _]. done.
Qed.

Lemma late_calls s ls s' : rbacDisabled s = true → steps s ls s' →
  ∃ l, calls s' = calls s ++ l ∧ l ⊆+ passed s.
Proof.
  intros Hr Hs. destruct (proj2 (proj2 (steps_calls _ _ _ Hs)) (or_intror Hr)) as (l & Hc & Hp).
  exists l. split; [done|]. etrans; [|exact Hp]. by apply submseteq_inserts_r.
Qed.

(** C28: The dispatcher handles the queued events in the order in which the
    queue took them, none twice and none left out: in every state under every
    interleaving of emitters, waiting callers, the dispatcher and the stop,
    what the queue has taken is what was handled, what is being delivered and
    what waits, in this order, and at most 64 wait.  An emission never
    blocks.  Off the cluster the API is never called.  Once [rbacDisabled] is
    set, because the API answered that events are forbidden, the only calls
    that still begin are those of deliveries that had read the flag before it
    was set, one for each of them; no later delivery calls the API.  ([late]
    below is a run in which such a call begins.) *)
Theorem events_in_order b ls s (Hrun : steps (newEventService b) ls s) :
  accepted s = handled s ++ current s ++ queue s ∧ (length (queue s) <= queueSize)%nat ∧
  (∀ r m, is_Some (step (EmitWarning r m) s)) ∧
  (b = false → calls s = []) ∧
  ∀ ls' s', rbacDisabled s = true → steps s ls' s' → ∃ l, calls s' = calls s ++ l ∧ l ⊆+ passed s.
Proof.
  destruct (steps_order _ _ _ Hrun) as [Ha Hl]. split; [done|]. split; [done|]. split_and!.
  - intros r m. cbn [step]. case_decide; by eexists.
  - intros ->. by eapply off_cluster.
  - intros ls' s'. apply late_calls.
Qed.

(** ** The stop *)

(** Steps of the dispatcher. *)
Definition dispatches (l : label) : Prop :=
  match l with Take | Load None | Create None | Answer None _ | Latch None | Send None | Exit => True | _ => False end.

(** What the dispatcher has left before it can exit. *)
Definition phase_left (p : phase) : nat :=
  match p with Entered => 5 | Passed => 4 | Calling => 3 | Answered _ => 2 | Finished _ => 1 end.
Definition backlog (s : eventService) : nat :=
  6 * length (queue s) +
  match dispatcher s with Selecting => 1 | Delivering d => S (phase_left (at_phase d)) | Exited => 0 end.

(** The next step, whatever the API answers. *)
Definition can_dispatch (s : eventService) : Prop :=
  is_Some (step Take s) ∨ is_Some (step Exit s) ∨ is_Some (step (Load None) s) ∨ is_Some (step (Create None) s) ∨
  (∀ r, is_Some (step (Answer None r) s)) ∨ is_Some (step (Latch None) s) ∨ is_Some (step (Send None) s).

Lemma delivers_backlog s d s' : dispatcher s = Delivering d → delivers s None d s' → (backlog s' < backlog s)%nat.
Proof.
  intros Hd Hs. unfold backlog. rewrite Hd.
  destruct Hs as [Hp|Hp|r Hp|r Hp|err Hp]; rewrite Hp; cbn; try lia.
  unfold check_phase. destruct (k8sClient s), (rbacDisabled s); cbn; lia.
Qed.

Lemma delivers_stopped s d s' : delivers s None d s' →
  stopCh s' = stopCh s ∧ accepted s' = accepted s ∧ dispatcher s' ≠ Exited.
Proof. by destruct 1. Qed.

Lemma dispatches_deliverer l w : dispatches l → deliverer l = Some w → w = None.
Proof. destruct l as [| | |[]|[]|[]|[]|[]| | | |]; cbn; congruence || done. Qed.

Lemma step_dispatched l s s' : dispatches l → step l s = Some s' →
  (backlog s' < backlog s)%nat ∧ stopCh s' = stopCh s ∧ accepted s' = accepted s ∧
  (dispatcher s' = Exited → queue s' = []).
Proof.
  intros Hl Hs. destruct (deliverer l) as [w|] eqn:Hw.
  { pose proof (dispatches_deliverer _ _ Hl Hw) as ->. destruct (step_delivers _ _ _ _ Hw Hs) as (d & Hd & Hdel).
    cbn in Hd. destruct (dispatcher s) as [|d'|] eqn:Hdi; try done. injection Hd as ->.
    destruct (delivers_stopped _ _ _ Hdel) as (H1 & H2 & H3). split_and!; [by eapply delivers_backlog|done..]. }
  unfold backlog. revert Hs. destruct l; try done; cbn [step].
  - destruct (dispatcher s), (queue s) as [|e q]; try done. intros [= <-]. cbn. split_and!; [lia|done..].
  - destruct (dispatcher s), (queue s) eqn:Hq, (stopCh s) eqn:Hst; try done. intros [= <-]. cbn. rewrite Hq.
    split_and!; [cbn; lia|done..].
Qed.

Lemma dispatch_progress s : stopCh s = true → dispatcher s ≠ Exited → can_dispatch s.
Proof.
  intros Hst Hd. unfold can_dispatch. cbn [step delivering].
  destruct (dispatcher s) as [|d|]; [| |done]; cbn [mbind option_bind].
  - destruct (queue s); [right; left|left]; [rewrite Hst|]; by eexists.
  - destruct (at_phase d) as [| | |r|err].
    + right; right; left. by eexists.
    + do 3 right; left. by eexists.
    + do 4 right; left. intros r. by eexists.
    + do 5 right; left. by eexists.
    + do 6 right. by eexists.
Qed.

(** C29: A stop ends and loses nothing that was queued before it.  Once the
    channel is closed the dispatcher, while it has not exited, can always
    take its next step, whatever the API answers; without new events it
    exits after at most six steps for each waiting event and six more, and
    then every event the queue ever took has been handled. *)
Theorem stop_drains b ls s (Hrun : steps (newEventService b) ls s) (Hstop : stopCh s = true)
    (Hrunning : dispatcher s ≠ Exited) :
  ∀ ls' s', Forall dispatches ls' → steps s ls' s' →
    (length ls' <= 6 * length (queue s) + 6)%nat ∧
    (dispatcher s' ≠ Exited → can_dispatch s') ∧
    (dispatcher s' = Exited → handled s' = accepted s).
Proof.
  intros ls' s' Hd Hs.
  assert ((length ls' + backlog s' <= backlog s)%nat ∧ stopCh s' = true ∧ accepted s' = accepted s ∧
          in_order s' ∧ (dispatcher s' = Exited → queue s' = [])) as (Hl & Hst & Ha & Ho & Hq).
  { induction Hs as [|ls' s1 l s' Hs IH Hl].
    { split_and!; try done; by eapply steps_order. }
    apply Forall_app in Hd as [Hd [Hdl _]%Forall_cons]. destruct (IH Hd) as (H1 & H2 & H3 & H4 & _).
    destruct (step_dispatched _ _ _ Hdl Hl) as (H5 & H6 & H7 & H8). rewrite length_app. cbn [length].
    split_and!; [lia|congruence|congruence|by eapply step_order|done]. }
  split_and!.
  - unfold backlog in Hl. destruct (dispatcher s) as [|[e []]|]; cbn [at_phase phase_left] in Hl; lia || done.
  - by apply dispatch_progress.
  - intros He. rewrite <- Ha. destruct Ho as [-> _]. unfold current. rewrite He, (Hq He). by rewrite app_nil_r.
Qed.

(** ** An instance: two events and a stop, in a cluster that forbids events *)

Lemma service_exec l : ∀ s s', foldM (λ s l, step l s) s l = Some s' → steps s l s'.
Proof.
  induction l as [|x l IH] using rev_ind; intros s s'; [intros [= <-]; constructor|].
  rewrite foldM_app. destruct (foldM _ s l) as [s1|] eqn:Hl; [|done]. cbn [mbind option_bind foldM].
  destruct (step x s1) as [s2|] eqn:Hs; [|done]. intros [= <-]. econstructor; [by apply IH|done].
Qed.

Definition ran (s : eventService) (l : list label) : eventService := default s (foldM (λ s l, step l s) s l).

Definition emissions : list label :=
  [EmitWarning "AgentUnreachable" "a"; EmitWarningSync 0 "ConfigWatcherFailed" "b"; Take; Stop;
   Load None; Create None; Answer None Forbidden; Latch None; Send None].

Definition emitted : eventService := ran (newEventService true) emissions.

Lemma emissions_run : steps (newEventService true) emissions emitted.
Proof. apply service_exec, present_some. vm_compute. reflexivity. Qed.

Definition draining : list label := [Take; Load None; Send None; Exit].
Definition drained : eventService := ran emitted draining.

Lemma drain_run : steps emitted draining drained.
Proof. apply service_exec, present_some. vm_compute. reflexivity. Qed.

Lemma stop_drains_witness :
  dispatcher drained = Exited ∧ handled drained = accepted emitted ∧ length (accepted emitted) = 2%nat.
Proof.
  destruct (stop_drains true emissions emitted emissions_run eq_refl ltac:(discriminate)
    draining drained ltac:(repeat constructor) drain_run) as (_ & _ & Hh).
  split; [reflexivity|]. split; [exact (Hh eq_refl)|reflexivity].
Defined.

(** ** An instance: a call that begins after events were forbidden

    The queue is full, so a caller delivers itself.  It has read the flag when
    the answer to the dispatcher's call sets it; then it calls. *)

Definition crowd : list label :=
  EmitWarning "AgentUnreachable" "" :: Take :: repeat (EmitWarning "ProfilerDisabled" "") queueSize ++
  [EmitWarningSync 0 "ConfigWatcherFailed" "b"; Load (Some 0%nat); Load None; Create None; Answer None Forbidden;
   Latch None].

Definition forbidden : eventService := ran (newEventService true) crowd.
Definition late : list label := [Create (Some 0%nat); Answer (Some 0%nat) Created; Latch (Some 0%nat);
  Send (Some 0%nat); Send None; Take; Load None; Send None].

Lemma crowd_run : steps (newEventService true) crowd forbidden.
Proof. apply service_exec, present_some. vm_compute. reflexivity. Qed.

Lemma late_run : steps forbidden late (ran forbidden late).
Proof. apply service_exec, present_some. vm_compute. reflexivity. Qed.

Lemma events_in_order_witness :
  rbacDisabled forbidden = true ∧ length (calls forbidden) = 1%nat ∧ length (calls (ran forbidden late)) = 2%nat ∧
  length (queue forbidden) = queueSize ∧
  (∃ l, calls (ran forbidden late) = calls forbidden ++ l ∧ l ⊆+ [MkEnvelope "ConfigWatcherFailed" "b" (Some 0%nat)]).
Proof.
  destruct (events_in_order true crowd forbidden crowd_run) as (_ & _ & _ & _ & Hc).
  split_and!; [vm_compute; reflexivity..|]. exact (Hc late (ran forbidden late) eq_refl late_run).
Defined.
