(* ===== verification/TestResults.v ===== *)
(** The results of the test runner: the data of
    [src/pkg/testrunner/interface/types.go], the verdict over all iterations
    ([getOverallResult] of [src/pkg/testrunner/testrunner.go]), what RVS and
    AGFHC report for each GPU ([rvs.go], [agfhc.go]).

    Go visits the entries of a map in any order.  A loop over maps is a loop
    over a list that holds the entries in the order of this visit; the
    theorems hold for every such list. *)

From S2P Require Import Prelude Format GoStd.
From Stdlib Require Import Ascii.
Local Open Scope Z_scope.

Inductive TestResult : Type := Success | Failure | Skipped | Cancelled | Timedout | Queued.

Inductive CommandStatus : Type := TestRunning | TestCompleted | TestNotStarted | TestTimedOut.

#[export] Instance TestResult_eq_dec : EqDecision TestResult.
Proof. solve_decision. Defined.
#[export] Instance CommandStatus_eq_dec : EqDecision CommandStatus.
Proof. solve_decision. Defined.

Definition CommandStatus_String (cs : CommandStatus) : string :=
  match cs with
  | TestRunning => "running"
  | TestCompleted => "completed"
  | TestNotStarted => "not_started"
  | TestTimedOut => "timed_out"
  end.

(** GPU to action to result. *)
Abbreviation TestResults := (gmap string TestResult).
Abbreviation SuitesResults := (gmap string TestResults).

Record IterationResult : Type := MkIteration {
  Number : Z;
  SuitesResult : SuitesResults;
  Status : CommandStatus;
}.

(** Some GPU has this result for some action. *)
Definition reported (res : SuitesResults) (r : TestResult) : Prop :=
  ∃ gpu acts action, res !! gpu = Some acts ∧ acts !! action = Some r.

(** [l] is the results in the order of a visit of the map and of its maps. *)
Definition visit (res : SuitesResults) (l : list TestResult) : Prop := ∀ r, r ∈ l ↔ reported res r.

(** One such order, to evaluate. *)
Definition results_of (res : SuitesResults) : list TestResult :=
  concat ((λ s : string * TestResults, (map_to_list s.2).*2) <$> map_to_list res).

Lemma results_of_visit res : visit res (results_of res).
Proof.
  intros r. unfold results_of, reported. rewrite list_elem_of_In, in_concat. split.
  - intros (l & Hl & Hr). apply list_elem_of_In, list_elem_of_fmap in Hl as ([gpu acts] & -> & Hg).
    apply list_elem_of_In, list_elem_of_fmap in Hr as ([action r'] & -> & Ha).
    apply elem_of_map_to_list in Hg, Ha. by exists gpu, acts, action.
  - intros (gpu & acts & action & Hg & Ha). exists (map_to_list acts).*2.
    split; apply list_elem_of_In, list_elem_of_fmap.
    + exists (gpu, acts). split; [done|]. by apply elem_of_map_to_list.
    + exists (action, r). split; [done|]. by apply elem_of_map_to_list.
Qed.

(** ** The verdict *)

Record found : Type := MkFound {
  foundEmptyResultIteration : bool;
  foundTimedoutIteration : bool;
  foundSkippedIteration : bool;
  foundPassedIteration : bool;
  foundQueuedIteration : bool;
}.

(** One result in the inner loop; [None] returns [Failure] at once. *)
Definition see (f : found) (r : TestResult) : option found :=
  let '(MkFound e t s p q) := f in
  match r with
  | Failure => None
  | Timedout => Some (MkFound e true s p q)
  | Skipped => Some (MkFound e t true p q)
  | Success => Some (MkFound e t s true q)
  | Queued => Some (MkFound e t s p true)
  | Cancelled => Some f
  end.

Definition failed_suite (validIDs : list string) : SuitesResults :=
  list_to_map ((λ gpuID, (gpuID, {["result" := Failure]})) <$> validIDs).

(** The end of an iteration: its results are replaced when it has none. *)
Definition close_iteration (validIDs : list string) (f : found) (it : IterationResult) : found * IterationResult :=
  let '(MkFound e t s p q) := f in
  if decide (Status it = TestTimedOut) then (MkFound e true s p q, it)
  else if decide (size (SuitesResult it) = 0%nat)
       then (MkFound true t s p q, MkIteration (Number it) (failed_suite validIDs) (Status it))
       else (f, it).

(** The outer loop, with what it leaves in the iterations. *)
Fixpoint overall_loop (validIDs : list string) (f : found) (its : list (IterationResult * list TestResult)) :
    option found * list IterationResult :=
  match its with
  | [] => (Some f, [])
  | (it, l) :: rest =>
      match foldM see f l with
      | None => (None, it :: rest.*1)
      | Some f =>
          let '(f, it) := close_iteration validIDs f it in
          let '(r, its) := overall_loop validIDs f rest in (r, it :: its)
      end
  end.

Definition verdict (f : found) : TestResult :=
  if foundEmptyResultIteration f then Failure
  else if foundTimedoutIteration f then Timedout
  else if foundQueuedIteration f then Queued
  else if negb (foundPassedIteration f) && foundSkippedIteration f then Skipped
  else Success.

Definition getOverallResult (its : list (IterationResult * list TestResult)) (validIDs : list string) :
    TestResult * list IterationResult :=
  let '(r, its) := overall_loop validIDs (MkFound false false false false false) its in
  (match r with Some f => verdict f | None => Failure end, its).

(** What [logResults] asks of the results of one iteration. *)
Definition checkFailure (res : SuitesResults) : bool :=
  bool_decide (size res = 0%nat) || bool_decide (Failure ∈ results_of res).

(** [testResult[gpu][name] = r]. *)
Definition put (m : SuitesResults) (w : string * string * TestResult) : SuitesResults :=
  let '(gpu, name, r) := w in <[gpu := <[name := r]> (default ∅ (m !! gpu))]> m.

Definition look (m : SuitesResults) (gpu name : string) : option TestResult := m !! gpu ≫= (.!! name).

(** ** RVS: [rvs.go] *)

Record RvsGPUTestResult : Type := MkRvs { GPUID : string; Pass : string }.

Definition getTestResultEnum (val : string) : TestResult := if decide (val = "true") then Success else Failure.

(** The results of [parseRvsTestResult] once the file is read: the tests of
    all suites with their GPUs, in the order of the visit. *)
Definition rvs_writes (tests : list (string * list RvsGPUTestResult)) : list (string * string * TestResult) :=
  '(name, test) ← tests;
  gpu ← test;
  if decide (String.length (Pass gpu) = 0%nat) then []
  else [(GPUID gpu, name, getTestResultEnum (Pass gpu))].

Definition parseRvsTestResult (tests : list (string * list RvsGPUTestResult)) : SuitesResults :=
  foldl put ∅ (rvs_writes tests).

(** ** AGFHC: [agfhc.go] *)

Record TestResultInfo : Type := MkInfo { Test : string; State : string; Subject : string }.

(** [^GPU-\d+] matches a prefix. *)
Definition IsValidGPUID (subject : string) : bool :=
  match strip_prefix "GPU-" subject with
  | Some (String c _) => is_digit c
  | _ => false
  end.

Fixpoint failed_subjects (failed : gset string) (l : list string) : gset string * bool :=
  match l with
  | [] => (failed, false)
  | failedSubject :: l =>
      if IsValidGPUID failedSubject then failed_subjects ({[failedSubject]} ∪ failed) l else (failed, true)
  end.

Definition failedDeviceIDs (subject : string) : gset string * bool :=
  if decide (String.length subject = 0%nat) then (∅, false) else failed_subjects ∅ (Split ":" subject).

Definition mapToTestResultEnum (gpuID result subject : string) : TestResult :=
  if decide ("passed" = ToLower result) then Success
  else if decide ("failed" = ToLower result) then
    let '(failedDevices, overallFailed) := failedDeviceIDs subject in
    if negb overallFailed && bool_decide (0 < size failedDevices)%nat then
      if decide (gpuID ∈ failedDevices) then Failure else Success
    else Failure
  else if decide ("skipped" = ToLower result) then Skipped
  else if decide ("queued" = ToLower result) then Queued
  else Failure.

Fixpoint TrimLeft0 (s : string) : string :=
  match s with String c s' => if decide (c = "0"%char) then TrimLeft0 s' else s | EmptyString => "" end.

(** [None]: the index is out of range, the program panics. *)
Definition removeLeadingZeros (id : string) : option string :=
  part ← Split "-" id !! 1%nat;
  Some (if decide (TrimLeft0 part = "") then "0" else TrimLeft0 part).

(** The devices of the arguments, each with the results in the order of the
    visit. *)
Definition parseAgfhcTestResult (devices : list (string * list TestResultInfo)) : option SuitesResults :=
  foldM (λ m '(id, infos),
    gpuID ← removeLeadingZeros id;
    Some (foldl put m ((λ i, (gpuID, Test i, mapToTestResultEnum id (State i) (Subject i))) <$> infos)))
    ∅ devices.

Definition AppendTimedoutTestSummary (existing : list IterationResult) (ids : list string) : list IterationResult :=
  foldl (λ res id, res ++ [MkIteration (wrap 32 (Z.of_nat (length res) + 1))
    {[id := {["result" := Timedout]}]} TestTimedOut]) existing ids.

(** *** The specification *)

(** An iteration that says nothing although it was not cut off. *)
Definition silent (it : IterationResult) : Prop :=
  Status it ≠ TestTimedOut ∧ SuitesResult it = ∅.

Definition shows (its : list IterationResult) (r : TestResult) : Prop :=
  ∃ it, it ∈ its ∧ reported (SuitesResult it) r.

Definition cut_off (its : list IterationResult) : Prop := ∃ it, it ∈ its ∧ Status it = TestTimedOut.

(** The verdict by what occurs in the iterations, worst first. *)
Definition overall_spec (its : list IterationResult) (r : TestResult) : Prop :=
  let failed := shows its Failure ∨ ∃ it, it ∈ its ∧ silent it in
  let timed := shows its Timedout ∨ cut_off its in
  match r with
  | Failure => failed
  | Timedout => ¬ failed ∧ timed
  | Queued => ¬ failed ∧ ¬ timed ∧ shows its Queued
  | Skipped => ¬ failed ∧ ¬ timed ∧ ¬ shows its Queued ∧ ¬ shows its Success ∧ shows its Skipped
  | Success => ¬ failed ∧ ¬ timed ∧ ¬ shows its Queued ∧ (shows its Success ∨ ¬ shows its Skipped)
  | Cancelled => False
  end.

(** What the flags say of the iterations seen so far. *)
Definition flag (b : bool) (P : Prop) : Prop := b = true ↔ P.

Lemma flag_decides b P : flag b P → if b then P else ¬ P.
Proof. unfold flag. destruct b; naive_solver. Qed.

Record flags (E T S Pa Q : Prop) (f : found) : Prop := {
  fl_empty : flag (foundEmptyResultIteration f) E;
  fl_timed : flag (foundTimedoutIteration f) T;
  fl_skip : flag (foundSkippedIteration f) S;
  fl_pass : flag (foundPassedIteration f) Pa;
  fl_queue : flag (foundQueuedIteration f) Q;
}.

Lemma flags_self f : flags (foundEmptyResultIteration f = true) (foundTimedoutIteration f = true)
  (foundSkippedIteration f = true) (foundPassedIteration f = true) (foundQueuedIteration f = true) f.
Proof. by split. Qed.

Lemma flags_iff E T S Pa Q E' T' S' Pa' Q' f : flags E T S Pa Q f →
  (E ↔ E') → (T ↔ T') → (S ↔ S') → (Pa ↔ Pa') → (Q ↔ Q') → flags E' T' S' Pa' Q' f.
Proof. intros [] ? ? ? ? ?. split; unfold flag in *; tauto. Qed.

Lemma see_all l f E T S Pa Q : flags E T S Pa Q f →
  match foldM see f l with
  | None => Failure ∈ l
  | Some f' => Failure ∉ l ∧ flags E (T ∨ Timedout ∈ l) (S ∨ Skipped ∈ l) (Pa ∨ Success ∈ l) (Q ∨ Queued ∈ l) f'
  end.
Proof.
  revert f E T S Pa Q. induction l as [|r l IH]; intros f E T S Pa Q Hf; cbn [foldM].
  - split; [apply not_elem_of_nil|]. eapply flags_iff; [exact Hf|..]; rewrite ?elem_of_nil; tauto.
  - assert (Hsee : match see f r with
      | None => r = Failure
      | Some f' => r ≠ Failure ∧
          flags E (T ∨ Timedout = r) (S ∨ Skipped = r) (Pa ∨ Success = r) (Q ∨ Queued = r) f'
      end).
    { destruct f, r; cbn; try done; (split; [done|]); destruct Hf; split; unfold flag in *; cbn in *;
        intuition congruence. }
    destruct (see f r) as [f'|]; cbn [mbind option_bind]; [|subst r; by left].
    destruct Hsee as [Hr Hf']. specialize (IH f' _ _ _ _ _ Hf'). destruct (foldM see f' l) as [f''|].
    + destruct IH as [Hn Hf'']. split; [by rewrite not_elem_of_cons|].
      eapply flags_iff; [exact Hf''|..]; rewrite ?elem_of_cons; tauto.
    + by right.
Qed.

Lemma shows_cons it its r : shows (it :: its) r ↔ reported (SuitesResult it) r ∨ shows its r.
Proof. unfold shows. setoid_rewrite elem_of_cons. naive_solver. Qed.

Lemma cut_off_cons it its : cut_off (it :: its) ↔ Status it = TestTimedOut ∨ cut_off its.
Proof. unfold cut_off. setoid_rewrite elem_of_cons. naive_solver. Qed.

Definition some_silent (its : list IterationResult) : Prop := ∃ it, it ∈ its ∧ silent it.

Lemma some_silent_cons it its : some_silent (it :: its) ↔ silent it ∨ some_silent its.
Proof. unfold some_silent. setoid_rewrite elem_of_cons. naive_solver. Qed.

Lemma close_flags ids f it f' it' E T S Pa Q : flags E T S Pa Q f → close_iteration ids f it = (f', it') →
  flags (E ∨ silent it) (T ∨ Status it = TestTimedOut) S Pa Q f'.
Proof.
  unfold close_iteration, silent. destruct f as [e t s p q]. intros Hf. case_decide as Ht; [|case_decide as Hn].
  - intros [= <- <-]. destruct Hf; split; unfold flag in *; cbn in *; intuition congruence.
  - intros [= <- <-]. apply map_size_empty_inv in Hn.
    destruct Hf; split; unfold flag in *; cbn in *; intuition congruence.
  - intros [= <- <-]. assert (SuitesResult it ≠ ∅) by (intros Hm; apply Hn; by rewrite Hm).
    destruct Hf; split; unfold flag in *; cbn in *; intuition congruence.
Qed.

Lemma overall_flags ids its f E T S Pa Q : Forall (λ p, visit (SuitesResult p.1) p.2) its → flags E T S Pa Q f →
  match (overall_loop ids f its).1 with
  | None => shows its.*1 Failure
  | Some f' => ¬ shows its.*1 Failure ∧
      flags (E ∨ some_silent its.*1) (T ∨ shows its.*1 Timedout ∨ cut_off its.*1) (S ∨ shows its.*1 Skipped)
        (Pa ∨ shows its.*1 Success) (Q ∨ shows its.*1 Queued) f'
  end.
Proof.
  intros Hv. revert f E T S Pa Q. induction Hv as [|[it l] its Hit _ IH]; intros f E T S Pa Q Hf.
  - cbn. split; [intros (it & ?%elem_of_nil & _); done|].
    eapply flags_iff; [exact Hf|..]; unfold some_silent, shows, cut_off; setoid_rewrite elem_of_nil; naive_solver.
  - cbn [overall_loop]. rewrite fmap_cons. cbn [fst]. cbn [fst snd] in Hit.
    pose proof (see_all l f E T S Pa Q Hf) as Hsee. destruct (foldM see f l) as [f1|].
    + destruct Hsee as [Hn Hf1]. destruct (close_iteration ids f1 it) as [f2 it2] eqn:Hc.
      pose proof (close_flags _ _ _ _ _ _ _ _ _ _ Hf1 Hc) as Hf2. specialize (IH f2 _ _ _ _ _ Hf2).
      destruct (overall_loop ids f2 its) as [r its']. cbn [fst] in *. rewrite (Hit Failure) in Hn.
      destruct r as [f3|]; [|apply shows_cons; by right]. destruct IH as [Hn' Hf3]. split.
      { rewrite shows_cons. tauto. }
      eapply flags_iff; [exact Hf3|..]; rewrite ?shows_cons, ?some_silent_cons, ?cut_off_cons, ?(Hit _); tauto.
    + cbn [fst]. apply shows_cons. left. by apply Hit.
Qed.

(** The cases of the specification exclude one another. *)
Lemma overall_spec_unique its r1 r2 : overall_spec its r1 → overall_spec its r2 → r1 = r2.
Proof. unfold overall_spec. destruct r1, r2; try done; tauto. Qed.

(** C14: The verdict over the iterations, whatever order Go visits the maps
    in: failed exactly if some action of some GPU failed or some iteration
    that was not cut off reports nothing; else timed out if an action or an
    iteration was; else queued if an action was; else skipped if actions
    were and none passed; else passed, also if there is no iteration at
    all. *)
Theorem overall_result its validIDs (Hv : Forall (λ p, visit (SuitesResult p.1) p.2) its) r :
  (getOverallResult its validIDs).1 = r ↔ overall_spec its.*1 r.
Proof.
  unfold getOverallResult. destruct (overall_loop _ _ its) as [o its'] eqn:Ho.
  pose proof (overall_flags validIDs its (MkFound false false false false false) False False False False False Hv) as H.
  rewrite Ho in H. cbn [fst] in *. specialize (H ltac:(split; by split)).
  unfold overall_spec. fold (some_silent its.*1).
  set (F := shows its.*1 Failure) in *. set (N := some_silent its.*1) in *.
  assert (Hex : ∃ r0, overall_spec its.*1 r0 ∧ match o with Some f => verdict f | None => Failure end = r0).
  { unfold overall_spec. fold (some_silent its.*1). fold F N. destruct o as [f|]; [|exists Failure; tauto].
    exists (verdict f). split; [|done]. destruct H as [Hn [He%flag_decides Ht%flag_decides Hs%flag_decides Hp%flag_decides Hq%flag_decides]].
    destruct f as [[] [] [] [] []]; cbn in *; tauto. }
  destruct Hex as (r0 & Hr0 & ->). split; [by intros <-|]. intros Hr. by apply (overall_spec_unique its.*1).
Qed.

Lemma overall_result_witness :
  let it1 := MkIteration 1 {["0" := {["gst" := Success]}; "1" := {["gst" := Skipped]}]} TestCompleted in
  let it2 := MkIteration 2 ∅ TestCompleted in
  getOverallResult [(it1, [Skipped; Success]); (it2, [])] ["0"] =
    (Failure, [it1; MkIteration 2 {["0" := {["result" := Failure]}]} TestCompleted]) ∧
  overall_spec [it1; it2] Failure.
Proof.
  intros it1 it2. split; [by vm_compute|].
  apply (overall_result [(it1, results_of (SuitesResult it1)); (it2, results_of (SuitesResult it2))] ["0"]); [|by vm_compute].
  apply Forall_cons_2; [apply results_of_visit|]. apply Forall_singleton, results_of_visit.
Defined.

(** *** What is left in the iterations *)

Definition filled (validIDs : list string) (it : IterationResult) : IterationResult :=
  (close_iteration validIDs (MkFound false false false false false) it).2.

Lemma close_filled ids f it : (close_iteration ids f it).2 = filled ids it.
Proof. unfold filled, close_iteration. destruct f. by repeat case_decide. Qed.

(** Every silent iteration gets a failure for each device, up to the first
    iteration with a failed action; that one and those after it stay as they
    are. *)
Lemma overall_iterations ids its : Forall (λ p, visit (SuitesResult p.1) p.2) its →
  ∃ its1 its2, its.*1 = its1 ++ its2 ∧ (getOverallResult its ids).2 = (filled ids <$> its1) ++ its2 ∧
    (its2 = [] ∨ ∃ it its2', its2 = it :: its2' ∧ reported (SuitesResult it) Failure).
Proof.
  intros Hv. unfold getOverallResult.
  assert (H : ∀ f, ∃ its1 its2, its.*1 = its1 ++ its2 ∧ (overall_loop ids f its).2 = (filled ids <$> its1) ++ its2 ∧
    (its2 = [] ∨ ∃ it its2', its2 = it :: its2' ∧ reported (SuitesResult it) Failure)).
  { induction Hv as [|[it l] its Hit _ IH]; intros f.
    - exists [], []. split_and!; [done|done|by left].
    - cbn [overall_loop]. rewrite fmap_cons. cbn [fst snd] in *.
      pose proof (see_all l f _ _ _ _ _ (flags_self f)) as Hsee.
      destruct (foldM see f l) as [f1|].
      + pose proof (close_filled ids f1 it) as Hfill. destruct (close_iteration ids f1 it) as [f2 it2]. cbn in Hfill. subst it2.
        destruct (IH f2) as (its1 & its2 & H1 & H2 & H3). destruct (overall_loop ids f2 its) as [r its'].
        cbn [snd] in *. exists (it :: its1), its2. rewrite H1, H2. split_and!; [done|done|done].
      + exists [], (it :: its.*1). split_and!; [done|done|]. right. exists it, its.*1. split; [done|]. by apply Hit. }
  destruct (H (MkFound false false false false false)) as (its1 & its2 & ? & H2 & ?).
  exists its1, its2. destruct (overall_loop ids _ its). by cbn in *.
Qed.

(** ** RVS and AGFHC *)

Lemma look_put m gpu name r gpu' name' :
  look (put m (gpu, name, r)) gpu' name' =
    if decide (gpu = gpu' ∧ name = name') then Some r else look m gpu' name'.
Proof.
  unfold look, put. destruct (decide (gpu = gpu')) as [<-|Hg].
  - rewrite lookup_insert_eq. cbn [mbind option_bind]. destruct (decide (name = name')) as [<-|Hn].
    + by rewrite lookup_insert_eq, decide_True.
    + rewrite lookup_insert_ne, decide_False by naive_solver. by destruct (m !! gpu).
  - by rewrite lookup_insert_ne, decide_False by naive_solver.
Qed.

(** The last write to a place decides. *)
Lemma look_puts ws m gpu name :
  look (foldl put m ws) gpu name =
    default (look m gpu name) (Some <$> last (omap (λ '(g, n, r), if decide (g = gpu ∧ n = name) then Some r else None) ws)).
Proof.
  induction ws as [|[[g n] r] ws IH] using rev_ind; [done|].
  rewrite foldl_app, omap_app. cbn [foldl]. rewrite look_put, IH. cbn [omap list_omap].
  case_decide; [by rewrite last_snoc|by rewrite app_nil_r].
Qed.

Lemma look_puts_None ws m gpu name : (∀ r, (gpu, name, r) ∉ ws) → look (foldl put m ws) gpu name = look m gpu name.
Proof.
  intros Hno. rewrite look_puts. destruct (last _) as [r|] eqn:Hl; [|done].
  apply last_Some in Hl as [l Hl].
  assert (Hin : r ∈ omap (λ '(g, n, r), if decide (g = gpu ∧ n = name) then Some r else None) ws).
  { rewrite Hl. apply elem_of_app. right. by left. }
  apply list_elem_of_omap in Hin as ([[g n] r'] & Hin & Hr). case_decide as Hd; [|done].
  destruct Hd as [-> ->]. by destruct (Hno r').
Qed.

(** A place written once. *)
Lemma look_puts_Some ws m gpu name r : NoDup ((λ '(g, n, _), (g, n)) <$> ws) → (gpu, name, r) ∈ ws →
  look (foldl put m ws) gpu name = Some r.
Proof.
  intros Hnd (ws1 & ws2 & ->)%list_elem_of_split. rewrite foldl_app. cbn [foldl].
  rewrite look_puts_None; [by rewrite look_put, decide_True|]. intros r' Hin.
  rewrite fmap_app, fmap_cons in Hnd. apply NoDup_app in Hnd as (_ & _ & [Hnot _]%NoDup_cons).
  apply Hnot. apply list_elem_of_fmap. by exists (gpu, name, r').
Qed.

(** Who a failed test is blamed on. *)
Definition blamed (id subject : string) : Prop :=
  subject = "" ∨ id ∈ Split ":" subject ∨ ∃ s, s ∈ Split ":" subject ∧ IsValidGPUID s = false.

Lemma failed_subjects_spec l acc :
  match failed_subjects acc l with
  | (_, true) => ∃ s, s ∈ l ∧ IsValidGPUID s = false
  | (failed, false) => failed = acc ∪ list_to_set l ∧ ∀ s, s ∈ l → IsValidGPUID s = true
  end.
Proof.
  revert acc. induction l as [|s l IH]; intros acc; cbn [failed_subjects].
  - split; [set_solver|by intros ? ?%elem_of_nil].
  - destruct (IsValidGPUID s) eqn:Hs; [|exists s; split; [by left|done]].
    specialize (IH ({[s]} ∪ acc)). destruct (failed_subjects _ l) as [failed []].
    + destruct IH as (s' & ? & ?). exists s'. split; [by right|done].
    + destruct IH as [-> Hv]. split; [set_solver|]. by intros s' [->|?]%elem_of_cons; [|apply Hv].
Qed.

Lemma failed_blame id result subject : ToLower result = "failed" →
  mapToTestResultEnum id result subject = Failure ∧ blamed id subject ∨
  mapToTestResultEnum id result subject = Success ∧ ¬ blamed id subject.
Proof.
  intros Hr. unfold mapToTestResultEnum, failedDeviceIDs, blamed. rewrite Hr.
  rewrite decide_False, decide_True by done. destruct subject as [|c s] eqn:Hs; [left; split; [done|by left]|].
  rewrite decide_False by done. rewrite <- Hs. pose proof (failed_subjects_spec (Split ":" subject) ∅) as H.
  pose proof (Split_nonempty ":" subject) as Hne.
  destruct (failed_subjects _ _) as [failed []]; cbn [negb andb].
  - left. split; [done|]. by right; right.
  - destruct H as [-> Hv]. rewrite bool_decide_eq_true_2.
    2:{ assert (size (∅ ∪ list_to_set (Split ":" subject) : gset string) ≠ 0%nat); [|lia].
      destruct (Split ":" subject) as [|x l]; [done|]. apply size_non_empty_iff. set_solver. }
    case_decide as Hin; [left|right]; (split; [done|]).
    + right. left. set_solver.
    + intros [->|[?|(x & Hx & Hf)]]; [done|set_solver|]. rewrite Hv in Hf by done. done.
Qed.

Abbreviation agfhc_step := (λ (m : SuitesResults) '(id, infos),
  gpuID ← removeLeadingZeros id;
  Some (foldl put m ((λ i, (gpuID, Test i, mapToTestResultEnum id (State i) (Subject i))) <$> infos))).

Lemma agfhc_others n name devices m m' : (∀ id infos, (id, infos) ∈ devices → removeLeadingZeros id ≠ Some n) →
  foldM agfhc_step m devices = Some m' → look m' n name = look m n name.
Proof.
  revert m. induction devices as [|[id infos] devices IH]; intros m Hno; [by intros [= ->]|]. cbn [foldM].
  destruct (removeLeadingZeros id) as [n'|] eqn:Hn; [|done]. cbn [mbind option_bind]. intros ->%IH.
  - apply look_puts_None. intros r (i & [= <- _ _] & _)%list_elem_of_fmap.
    by apply (Hno id infos); [left|].
  - intros id' infos' Hin. apply (Hno id' infos'). by right.
Qed.

Lemma agfhc_look devices res id infos i n : parseAgfhcTestResult devices = Some res →
  NoDup ((λ d, removeLeadingZeros d.1) <$> devices) → (id, infos) ∈ devices → removeLeadingZeros id = Some n →
  NoDup (Test <$> infos) → i ∈ infos → look res n (Test i) = Some (mapToTestResultEnum id (State i) (Subject i)).
Proof.
  intros Hp Hids (d1 & d2 & ->)%list_elem_of_split Hn Htests Hi. unfold parseAgfhcTestResult in Hp.
  rewrite foldM_app in Hp. destruct (foldM _ ∅ d1) as [m|]; [|done]. cbn [mbind option_bind foldM] in Hp.
  rewrite Hn in Hp. cbn [mbind option_bind] in Hp. rewrite (agfhc_others n (Test i) d2 _ _) with (2 := Hp).
  - apply look_puts_Some; [|apply list_elem_of_fmap; by exists i].
    rewrite <- list_fmap_compose. change (NoDup ((λ j, (n, Test j)) <$> infos)).
    rewrite (list_fmap_compose Test (pair n)). apply NoDup_fmap_2; [|done]. by intros ? ? [=].
  - intros id' infos' Hin. rewrite fmap_app, fmap_cons in Hids.
    apply NoDup_app in Hids as (_ & _ & [Hnot _]%NoDup_cons). cbn [fst] in Hnot. rewrite Hn in Hnot.
    intros Heq. apply Hnot, list_elem_of_fmap. exists (id', infos'). by rewrite <- Heq.
Qed.



(** RVS: a GPU has the result of the last entry with a verdict, for each
    name; entries without one are left out. *)
Lemma rvs_results tests gpu name :
  look (parseRvsTestResult tests) gpu name =
    last (omap (λ '(g, n, r), if decide (g = gpu ∧ n = name) then Some r else None) (rvs_writes tests)).
Proof. unfold parseRvsTestResult. rewrite look_puts. by destruct (last _). Qed.
