(* ===== verification/TestHandler.v ===== *)
(** One test: [TestHandler] of [src/pkg/testrunner/interface/types.go].

    [StartTest] starts the goroutine of [runTest], which starts the command
    once per iteration; a goroutine per iteration waits for the process,
    tells [runTest] over [iterationDoneChan] and cancels the context;
    [StopTest], if it is called, cancels it too and waits for the end on
    [doneChan].  Both channels have no buffer: a send and its receive are one
    step.  [cancelCtx] reads the stored cancel function three times without a
    lock, and each read is a step of its own: it looks whether there is one,
    calls the one that is stored by then, which is that of the latest
    iteration, and clears it.  If another [cancelCtx] has cleared it after the
    look, the call is one of a nil function and the program panics.

    The goroutines are interleaved.  What the environment does is in the
    labels: whether a process can be started, when it ends, what the parser
    makes of its output, when a context expires. *)

From S2P Require Import Prelude TestResults.
Local Open Scope Z_scope.

(** Where [runTest] is; iterations are counted from 1 in 32 bits. *)
Inductive main : Type :=
  | Setup (i : Z)      (* the head of the loop *)
  | Starting (i : Z)   (* before [process.Start] *)
  | Waiting (i : Z)    (* the select *)
  | Reaping (i : Z)    (* the context was done; receives from [iterationDoneChan] *)
  | Closing            (* [iterationDoneChan] is closed; sends on [doneChan] *)
  | Returned.

#[export] Instance main_eq_dec : EqDecision main.
Proof. solve_decision. Defined.

(** The goroutine of an iteration. *)
Inductive waiter : Type :=
  | Proc      (* in [process.Wait] *)
  | Exited    (* sends on [iterationDoneChan] *)
  | Sent      (* calls [cancelCtx] *)
  | Checked   (* has seen a function to call *)
  | Called    (* about to clear the function it called *)
  | Gone.

(** [StopTest]. *)
Inductive stopper : Type :=
  | NoStop
  | Stopping     (* has read the process, sets [stopTest] *)
  | StopSet      (* calls [cancelCtx] *)
  | StopChecked | StopCalled
  | StopWaits    (* receives from [doneChan] *)
  | Stopped.

Record handler : Type := MkHandler {
  runTest : main;
  waiters : gmap Z waiter;
  live : gset Z;             (* contexts that are not done *)
  cancelFunc : option Z;     (* of which context *)
  process_ok : bool;         (* [th.process.Process] is not nil *)
  stopTest : bool;
  StopTest : stopper;
  IterResults : list IterationResult;
  crashed : bool;
}.

Definition set_main m h := MkHandler m (waiters h) (live h) (cancelFunc h) (process_ok h) (stopTest h) (StopTest h) (IterResults h) (crashed h).
Definition set_waiter j w h := MkHandler (runTest h) (<[j := w]> (waiters h)) (live h) (cancelFunc h) (process_ok h) (stopTest h) (StopTest h) (IterResults h) (crashed h).
Definition set_live l h := MkHandler (runTest h) (waiters h) l (cancelFunc h) (process_ok h) (stopTest h) (StopTest h) (IterResults h) (crashed h).
Definition set_cancel c h := MkHandler (runTest h) (waiters h) (live h) c (process_ok h) (stopTest h) (StopTest h) (IterResults h) (crashed h).
Definition set_process b h := MkHandler (runTest h) (waiters h) (live h) (cancelFunc h) b (stopTest h) (StopTest h) (IterResults h) (crashed h).
Definition set_stop b s h := MkHandler (runTest h) (waiters h) (live h) (cancelFunc h) (process_ok h) b s (IterResults h) (crashed h).
Definition add_result r h := MkHandler (runTest h) (waiters h) (live h) (cancelFunc h) (process_ok h) (stopTest h) (StopTest h) (IterResults h ++ [r]) (crashed h).
Definition crash h := MkHandler (runTest h) (waiters h) (live h) (cancelFunc h) (process_ok h) (stopTest h) (StopTest h) (IterResults h) true.

Inductive label : Type :=
  | Next                                   (* the loop: a new command and context, or the end *)
  | StartOk (i : Z) | StartFail (i : Z)
  | Exit (j : Z)                           (* the process of [j] ends *)
  | Expire (j : Z)                         (* the timeout of context [j] *)
  | Finish (j : Z) (res : SuitesResults)   (* [iterationDoneChan], in the select *)
  | CtxDone                                (* [ctx.Done()] in the select *)
  | Reap (j : Z) (res : SuitesResults)     (* [iterationDoneChan], after [ctx.Done()] *)
  | Look (j : Z) | Cancel (j : Z) | Clear (j : Z)   (* [cancelCtx] of the goroutine of [j] *)
  | Stop                                   (* [StopTest] reads the process *)
  | StopFlag | StopLook | StopCancel | StopClear | StopReceive
  | Done.                                  (* the test runner receives from [Done()] *)

Section handler.
Context (iterations : Z) (stopOnFailure : bool).

(** [logResults], and what [runTest] does after it. *)
Definition logResults (i : Z) (status : CommandStatus) (res : SuitesResults) (h : handler) : handler * bool :=
  (add_result (MkIteration i res status) h,
   stopOnFailure && (checkFailure res || bool_decide (status = TestTimedOut))).

Definition next_iteration (i : Z) (h : handler) : handler := set_main (Setup (u32 (i + 1))) h.

(** [cancelCtx] looks whether there is a function, and calls it; [None]: there
    is none, a call of nil. *)
Definition cancelCtx_look (h : handler) : bool := present (cancelFunc h).
Definition cancelCtx_call (h : handler) : option handler :=
  c ← cancelFunc h; Some (set_live (live h ∖ {[c]}) h).

Definition step (lb : label) (h : handler) : option handler :=
  if crashed h then None else
  match lb with
  | Next =>
      match runTest h with
      | Setup i =>
          Some (if decide (i <= iterations)
                then set_main (Starting i) (set_process false (set_cancel (Some i) (set_live ({[i]} ∪ live h) h)))
                else set_main Closing h)
      | _ => None
      end
  | StartOk i =>
      if decide (runTest h = Starting i)
      then Some (set_main (Waiting i) (set_process true (set_waiter i Proc h))) else None
  | StartFail i => if decide (runTest h = Starting i) then Some (next_iteration i h) else None
  | Exit j => match waiters h !! j with Some Proc => Some (set_waiter j Exited h) | _ => None end
  | Expire j => if decide (j ∈ live h) then Some (set_live (live h ∖ {[j]}) h) else None
  | Finish j res =>
      match runTest h, waiters h !! j with
      | Waiting i, Some Exited =>
          let '(h, err) := logResults i TestCompleted res (set_waiter j Sent h) in
          Some (if err then set_main Closing h else next_iteration i h)
      | _, _ => None
      end
  | CtxDone =>
      match runTest h with
      | Waiting i => if decide (i ∈ live h) then None else Some (set_main (Reaping i) h)
      | _ => None
      end
  | Reap j res =>
      match runTest h, waiters h !! j with
      | Reaping i, Some Exited =>
          let '(h, err) := logResults i TestTimedOut res (set_waiter j Sent h) in
          Some (if err then set_main Closing h else if stopTest h then set_main Closing h else next_iteration i h)
      | _, _ => None
      end
  | Look j =>
      match waiters h !! j with
      | Some Sent => Some (set_waiter j (if cancelCtx_look h then Checked else Gone) h)
      | _ => None
      end
  | Cancel j =>
      match waiters h !! j with
      | Some Checked => Some (match cancelCtx_call h with Some h => set_waiter j Called h | None => crash h end)
      | _ => None
      end
  | Clear j =>
      match waiters h !! j with
      | Some Called => Some (set_cancel None (set_waiter j Gone h))
      | _ => None
      end
  | Stop =>
      match StopTest h with
      | NoStop => Some (if process_ok h then set_stop (stopTest h) Stopping h else crash h)
      | _ => None
      end
  | StopFlag =>
      match StopTest h with Stopping => Some (set_stop true StopSet h) | _ => None end
  | StopLook =>
      match StopTest h with
      | StopSet => Some (set_stop (stopTest h) (if cancelCtx_look h then StopChecked else StopWaits) h)
      | _ => None
      end
  | StopCancel =>
      match StopTest h with
      | StopChecked =>
          Some (match cancelCtx_call h with Some h => set_stop (stopTest h) StopCalled h | None => crash h end)
      | _ => None
      end
  | StopClear =>
      match StopTest h with StopCalled => Some (set_stop (stopTest h) StopWaits (set_cancel None h)) | _ => None end
  | StopReceive =>
      match StopTest h, runTest h with
      | StopWaits, Closing => Some (set_stop (stopTest h) Stopped (set_main Returned h))
      | _, _ => None
      end
  | Done =>
      match StopTest h, runTest h with
      | NoStop, Closing => Some (set_main Returned h)
      | _, _ => None
      end
  end.

(** After [StartTest]. *)
Definition StartTest : option handler :=
  if decide (iterations = 0) then None
  else Some (MkHandler (Setup 1) ∅ ∅ None false false NoStop [] false).

Inductive run (h0 : handler) : list label → handler → Prop :=
  | run_refl : run h0 [] h0
  | run_snoc l h lb h' : run h0 l h → step lb h = Some h' → run h0 (l ++ [lb]) h'.

Fixpoint steps (l : list label) (h : handler) : option handler :=
  match l with [] => Some h | lb :: l => step lb h ≫= steps l end.

Lemma steps_snoc l lb h : steps (l ++ [lb]) h = steps l h ≫= step lb.
Proof.
  revert h. induction l as [|lb' l IH]; intros h; cbn [steps app].
  - cbn. destruct (step lb h); done.
  - destruct (step lb' h); [apply IH|done].
Qed.

Lemma steps_run l h h' : steps l h = Some h' → run h l h'.
Proof.
  revert h'. induction l as [|lb l IH] using rev_ind; intros h'.
  - intros [= <-]. constructor.
  - rewrite steps_snoc. destruct (steps l h) as [h1|] eqn:Hs; [|done]. intros Hl. econstructor; [by apply IH|done].
Qed.

(** ** What is always so *)

Definition past (w : waiter) : Prop := match w with Proc | Exited => False | _ => True end.

(** The iteration whose process may still run. *)
Definition active (m : main) : option Z := match m with Waiting i | Reaping i => Some i | _ => None end.

(** The iteration [runTest] is at. *)
Definition current (m : main) : option Z :=
  match m with Setup i | Starting i | Waiting i | Reaping i => Some i | _ => None end.

Record inv (h : handler) : Prop := {
  in_current i : current (runTest h) = Some i →
    1 <= i ∧ (if decide (runTest h = Setup i) then i <= iterations + 1 else i <= iterations);
  in_waiter j w : waiters h !! j = Some w → 1 <= j ∧ (past w ∨ active (runTest h) = Some j);
  in_before i j w : current (runTest h) = Some i → waiters h !! j = Some w → j < i ∨ active (runTest h) = Some j;
  in_active i : active (runTest h) = Some i → ∃ w, waiters h !! i = Some w ∧ ¬ past w;
  in_stop : StopTest h = Stopped → runTest h = Returned;
}.

Context (Hn : 1 <= iterations < 2 ^ 32 - 1).

Lemma inv_start h : StartTest = Some h → inv h.
Proof.
  unfold StartTest. case_decide; [done|]. intros [= <-]. split; cbn; try done.
  - intros i [= <-]. rewrite decide_True by done. lia.
Qed.

Lemma next_index i h : inv h → current (runTest h) = Some i → runTest h ≠ Setup i → u32 (i + 1) = i + 1.
Proof.
  intros Hi Hc Hs. destruct (in_current h Hi i Hc) as [? H]. rewrite decide_False in H by done.
  apply wrap_id. change (2 ^ 32) with 4294967296 in *. lia.
Qed.

(** Only the process of the iteration [runTest] waits for is not past. *)
Lemma exited_active h j w : inv h → waiters h !! j = Some w → ¬ past w → active (runTest h) = Some j.
Proof. intros Hi Hj Hw. by destruct (in_waiter h Hi j w Hj) as [_ [?|?]]. Qed.

Lemma active_current m i : active m = Some i → current m = Some i ∧ m ≠ Setup i.
Proof. by destruct m; intros [= ->]. Qed.

(** After the results of iteration [i] are logged. *)
Lemma inv_logged h i r m : inv h → active (runTest h) = Some i → waiters h !! i = Some Exited →
  m = Closing ∨ m = Setup (u32 (i + 1)) → inv (set_main m (add_result r (set_waiter i Sent h))).
Proof.
  intros Hi Ha Hw Hm. destruct (active_current _ _ Ha) as [Hc Hs]. pose proof (next_index i h Hi Hc Hs) as Hnext.
  destruct (in_current h Hi i Hc) as [H1 H2]. rewrite decide_False in H2 by done.
  assert (Hactive : active m = None) by (by destruct Hm as [->| ->]).
  split; cbn.
  - intros k Hk. destruct Hm as [->| ->]; [done|]. rewrite Hnext in *. injection Hk as <-.
    rewrite decide_True by done. lia.
  - intros k w [[<- <-]|[Hne Hk]]%lookup_insert_Some; [split; [lia|by left]|].
    destruct (in_waiter h Hi k w Hk) as [? [?|Hact]]; [by split; [|left]|congruence].
  - intros k k' w Hk Hin. left. destruct Hm as [->| ->]; [done|]. rewrite Hnext in *. injection Hk as <-.
    apply lookup_insert_Some in Hin as [[<- _]|[Hne Hin]]; [lia|].
    destruct (in_before h Hi i k' w Hc Hin); [lia|congruence].
  - intros k Hk. congruence.
  - intros Hstop. pose proof (in_stop h Hi Hstop) as Hr. by rewrite Hr in Ha.
Qed.

(** A step of another goroutine: [runTest] stays, waiters only get past. *)
Lemma inv_other h h' : inv h → runTest h' = runTest h → StopTest h' = StopTest h →
  (∀ j w', waiters h' !! j = Some w' → ∃ w, waiters h !! j = Some w ∧ (past w' ↔ past w)) →
  (∀ j w, waiters h !! j = Some w → is_Some (waiters h' !! j)) → inv h'.
Proof.
  intros Hi Hm Hst Hw Hdom. split; rewrite ?Hm, ?Hst.
  - apply (in_current h Hi).
  - intros j w' (w & Hj & Hp)%Hw. rewrite Hp. by apply (in_waiter h Hi).
  - intros i j w' Hc (w & Hj & _)%Hw. by apply (in_before h Hi i j w).
  - intros i (w & Hj & Hp)%(in_active h Hi). destruct (Hdom i w Hj) as [w' Hw']. exists w'. split; [done|].
    destruct (Hw i w' Hw') as (w2 & ? & ?). by simplify_eq; intuition.
  - apply (in_stop h Hi).
Qed.

Lemma inv_waiter h j w w' : inv h → waiters h !! j = Some w → (past w' ↔ past w) → inv (set_waiter j w' h).
Proof.
  intros Hi Hj Hp. apply (inv_other h); try done; cbn.
  - intros k w2 [[<- <-]|[_ Hk]]%lookup_insert_Some; [by exists w|by exists w2].
  - intros k w2 Hk. destruct (decide (j = k)) as [<-|Hne]; [by rewrite lookup_insert_eq|by rewrite lookup_insert_ne].
Qed.

Lemma inv_same h h' : inv h → runTest h' = runTest h → StopTest h' = StopTest h →
  waiters h' = waiters h → inv h'.
Proof. intros Hi ? ? Hw. apply (inv_other h); try done; rewrite Hw; eauto. Qed.

Lemma inv_next h i : inv h → runTest h = Setup i → inv
  (if decide (i <= iterations)
   then set_main (Starting i) (set_process false (set_cancel (Some i) (set_live ({[i]} ∪ live h) h)))
   else set_main Closing h).
Proof.
  intros Hi Hm. destruct (in_current h Hi i) as [H1 H2]; [by rewrite Hm|].
  clear H2. assert (Hall : ∀ j w, waiters h !! j = Some w → 1 <= j ∧ j < i ∧ past w).
  { intros j w Hj. destruct (in_waiter h Hi j w Hj) as [? Hp]. rewrite Hm in Hp. destruct Hp as [?|?]; [|done].
    split_and!; [done| |done]. destruct (in_before h Hi i j w) as [?|Ha]; [by rewrite Hm|done|done|rewrite Hm in Ha; done]. }
  case_decide; split; cbn; try done.
  - intros k [= <-]. by split.
  - intros j w Hj. destruct (Hall j w Hj) as (? & ? & ?). by split; [|left].
  - intros k j w [= <-] Hj. left. by apply (Hall j w).
  - intros Hs. by rewrite (in_stop h Hi Hs) in Hm.
  - intros j w Hj. destruct (Hall j w Hj) as (? & ? & ?). by split; [|left].
  - intros Hs. by rewrite (in_stop h Hi Hs) in Hm.
Qed.

Lemma inv_start_ok h i : inv h → runTest h = Starting i → inv (set_main (Waiting i) (set_process true (set_waiter i Proc h))).
Proof.
  intros Hi Hm. destruct (in_current h Hi i) as [H1 H2]; [by rewrite Hm|]. rewrite Hm in H2. cbn in H2.
  split; cbn; try done.
  - intros k [= <-]. by split.
  - intros j w [[<- <-]|[Hne Hj]]%lookup_insert_Some; [by split; [|right]|].
    destruct (in_waiter h Hi j w Hj) as [? Hp]. rewrite Hm in Hp. destruct Hp; [|done]. by split; [|left].
  - intros k j w [= <-] [[<- <-]|[Hne Hj]]%lookup_insert_Some; [by right|]. left.
    destruct (in_before h Hi i j w) as [?|Ha]; [by rewrite Hm|done|done|rewrite Hm in Ha; done].
  - intros k [= <-]. exists Proc. rewrite lookup_insert_eq. split; [done|intros []].
  - intros Hs. by rewrite (in_stop h Hi Hs) in Hm.
Qed.

Lemma inv_start_fail h i : inv h → runTest h = Starting i → inv (next_iteration i h).
Proof.
  intros Hi Hm. pose proof (next_index i h Hi) as Hnext. rewrite Hm in Hnext. specialize (Hnext eq_refl ltac:(done)).
  destruct (in_current h Hi i) as [H1 H2]; [by rewrite Hm|]. rewrite Hm in H2. rewrite decide_False in H2 by done.
  unfold next_iteration. rewrite Hnext. split; cbn; try done.
  - intros k [= <-]. rewrite decide_True by done. lia.
  - intros j w Hj. destruct (in_waiter h Hi j w Hj) as [? Hp]. rewrite Hm in Hp. destruct Hp; [|done]. by split; [|left].
  - intros k j w [= <-] Hj. left.
    destruct (in_before h Hi i j w) as [?|Ha]; [by rewrite Hm|done|lia|by rewrite Hm in Ha].
  - intros Hs. by rewrite (in_stop h Hi Hs) in Hm.
Qed.

Lemma inv_stop h h' : inv h → runTest h' = runTest h ∨ (runTest h = Closing ∧ runTest h' = Returned) → waiters h' = waiters h →
  (StopTest h' = Stopped → runTest h' = Returned) → inv h'.
Proof.
  intros Hi Hm Hw Hr. assert (current (runTest h') = current (runTest h) ∧ active (runTest h') = active (runTest h)) as [Hc Ha].
  { destruct Hm as [->|[-> ->]]; done. }
  split; rewrite ?Hw, ?Hc, ?Ha; try apply (in_waiter h Hi); try apply (in_before h Hi); try apply (in_active h Hi); try done.
  intros i Hi'. destruct Hm as [->|[Hm _]]; [by apply (in_current h Hi)|]. by rewrite Hm in Hi'.
Qed.

Lemma inv_step lb h h' : inv h → step lb h = Some h' → inv h'.
Proof.
  intros Hi. unfold step. destruct (crashed h); [done|]. destruct lb as [|i|i|j|j|j res| |j res|j|j|j| | | | | | |].
  - destruct (runTest h) as [i| | | | |] eqn:Hm; try done. intros [= <-]. by apply inv_next.
  - case_decide; [|done]. intros [= <-]. by apply inv_start_ok.
  - case_decide; [|done]. intros [= <-]. by apply inv_start_fail.
  - destruct (waiters h !! j) as [[]|] eqn:Hj; try done. intros [= <-]. by apply (inv_waiter h j Proc).
  - case_decide; [|done]. intros [= <-]. by apply (inv_same h).
  - destruct (runTest h) as [| |i| | |] eqn:Hm; try done. destruct (waiters h !! j) as [[]|] eqn:Hj; try done.
    pose proof (exited_active h j Exited Hi Hj ltac:(intros [])) as Ha. rewrite Hm in Ha. injection Ha as <-.
    unfold logResults. intros [= <-]. case_match; apply inv_logged; rewrite ?Hm; auto.
  - destruct (runTest h) as [| |i| | |] eqn:Hm; try done. case_decide; [done|]. intros [= <-].
    destruct Hi as [H1 H2 H3 H4 H5]. rewrite Hm in *. split; cbn; auto. by intros ?%H5.
  - destruct (runTest h) as [| | |i| |] eqn:Hm; try done. destruct (waiters h !! j) as [[]|] eqn:Hj; try done.
    pose proof (exited_active h j Exited Hi Hj ltac:(intros [])) as Ha. rewrite Hm in Ha. injection Ha as <-.
    unfold logResults. intros [= <-]. repeat case_match; apply inv_logged; rewrite ?Hm; auto.
  - destruct (waiters h !! j) as [[]|] eqn:Hj; try done. intros [= <-].
    apply (inv_waiter h j Sent); [done..|]. by destruct (cancelCtx_look h).
  - destruct (waiters h !! j) as [[]|] eqn:Hj; try done. unfold cancelCtx_call. destruct (cancelFunc h); intros [= <-].
    + cbn. apply (inv_waiter _ j Checked); [by apply (inv_same h)|done|done].
    + by apply (inv_same h).
  - destruct (waiters h !! j) as [[]|] eqn:Hj; try done. intros [= <-].
    apply (inv_same (set_waiter j Gone h)); try done. by apply (inv_waiter h j Called).
  - destruct (StopTest h) eqn:Hst; try done. destruct (process_ok h); intros [= <-].
    + apply (inv_stop h); try done. by left.
    + by apply (inv_same h).
  - destruct (StopTest h) eqn:Hst; try done. intros [= <-]. apply (inv_stop h); try done. by left.
  - destruct (StopTest h) eqn:Hst; try done. intros [= <-]. apply (inv_stop h); try done; [by left|].
    by destruct (cancelCtx_look h).
  - destruct (StopTest h) eqn:Hst; try done. unfold cancelCtx_call. destruct (cancelFunc h); intros [= <-].
    + apply (inv_stop h); try done. by left.
    + by apply (inv_same h).
  - destruct (StopTest h) eqn:Hst; try done. intros [= <-]. apply (inv_stop h); try done. by left.
  - destruct (StopTest h) eqn:Hst; try done. destruct (runTest h) eqn:Hm; try done. intros [= <-].
    apply (inv_stop h); try done. by right.
  - destruct (StopTest h) eqn:Hst; try done. destruct (runTest h) eqn:Hm; try done. intros [= <-].
    destruct Hi as [H1 H2 H3 H4 H5]. rewrite Hm in *. split; cbn; auto.
Qed.

Lemma run_inv h0 l h : StartTest = Some h0 → run h0 l h → inv h.
Proof. intros H0. induction 1; [by apply inv_start|by eapply inv_step]. Qed.

(** ** What is recorded *)

Definition tried (lb : label) : option Z := match lb with StartOk i | StartFail i => Some i | _ => None end.
Definition ran (lb : label) : option Z := match lb with StartOk i => Some i | _ => None end.

(** A result that ends the test if it stops on failures. *)
Definition bad (r : IterationResult) : Prop := checkFailure (SuitesResult r) = true ∨ Status r = TestTimedOut.

(** The last result made [runTest] return. *)
Definition ended_early (h : handler) : Prop :=
  ∃ l r, IterResults h = l ++ [r] ∧
    (stopOnFailure = true ∧ bad r ∨ stopTest h = true ∧ Status r = TestTimedOut).

(** How many iterations were tried. *)
Definition count (m : main) : option Z :=
  match m with
  | Setup i | Starting i => Some (i - 1)
  | Waiting i | Reaping i => Some i
  | Closing | Returned => None
  end.

Record traced (l : list label) (h : handler) : Prop := {
  tr_tried k : count (runTest h) = Some k → omap tried l = seqZ 1 k;
  tr_closed : count (runTest h) = None →
    ∃ k, omap tried l = seqZ 1 k ∧ k <= iterations ∧ (k = iterations ∨ ended_early h);
  tr_ran : omap ran l = (Number <$> IterResults h) ++ option_list (active (runTest h));
  tr_good : stopOnFailure = true → count (runTest h) ≠ None → Forall (λ r, ¬ bad r) (IterResults h);
  tr_good_init l' r : stopOnFailure = true → IterResults h = l' ++ [r] → Forall (λ r, ¬ bad r) l';
}.

Lemma seqZ_snoc k : 0 <= k → seqZ 1 (k + 1) = seqZ 1 k ++ [k + 1].
Proof. intros Hk. rewrite seqZ_app by lia. f_equal. by rewrite (Z.add_comm 1 k). Qed.

(** A step that starts nothing and records nothing. *)
Lemma traced_other l h lb h' : traced l h → tried lb = None → ran lb = None → IterResults h' = IterResults h →
  (stopTest h = true → stopTest h' = true) → count (runTest h') = count (runTest h) →
  active (runTest h') = active (runTest h) → traced (l ++ [lb]) h'.
Proof.
  intros [H1 H2 H3 H4 H5] Ht Hr Hres Hstop Hc Ha.
  assert (Htr : omap tried (l ++ [lb]) = omap tried l) by (rewrite omap_app; cbn; by rewrite Ht, app_nil_r).
  assert (Hrn : omap ran (l ++ [lb]) = omap ran l) by (rewrite omap_app; cbn; by rewrite Hr, app_nil_r).
  split; rewrite ?Htr, ?Hrn, ?Hres, ?Hc, ?Ha; try done.
  intros Hn0. destruct (H2 Hn0) as (k & ? & ? & Hk). exists k. split_and!; [done|done|].
  destruct Hk as [?|(l' & r & ? & Hk)]; [by left|right]. exists l', r. rewrite Hres. split; [done|].
  destruct Hk as [?|[? ?]]; [by left|right; auto].
Qed.

(** A step that records the result of iteration [i] and goes on, or not. *)
Lemma traced_logged l h lb h' i r : traced l h → inv h → active (runTest h) = Some i → tried lb = None → ran lb = None →
  Number r = i → IterResults h' = IterResults h ++ [r] → stopTest h' = stopTest h →
  (runTest h' = Closing ∧ (stopOnFailure = true ∧ bad r ∨ stopTest h = true ∧ Status r = TestTimedOut) ∨
   runTest h' = Setup (u32 (i + 1)) ∧ (stopOnFailure = true → ¬ bad r)) → traced (l ++ [lb]) h'.
Proof.
  intros [H1 H2 H3 H4 H5] Hi Ha Ht Hr Hnum Hres Hstop Hm. destruct (active_current _ _ Ha) as [Hc Hs].
  pose proof (next_index i h Hi Hc Hs) as Hnext. rewrite Hnext in Hm.
  destruct (in_current h Hi i Hc) as [Hi1 Hi2]. rewrite decide_False in Hi2 by done.
  assert (Htr : omap tried (l ++ [lb]) = omap tried l) by (rewrite omap_app; cbn; by rewrite Ht, app_nil_r).
  assert (Hrn : omap ran (l ++ [lb]) = omap ran l) by (rewrite omap_app; cbn; by rewrite Hr, app_nil_r).
  assert (Hcount : count (runTest h) = Some i) by (revert Ha; by destruct (runTest h); intros [= ->]).
  assert (Hact : active (runTest h') = None) by (by destruct Hm as [[-> _]|[-> _]]).
  split; rewrite ?Htr, ?Hrn, ?Hres, ?Hact; try done.
  - intros k Hk. destruct Hm as [[Hm _]|[Hm _]]; rewrite Hm in Hk; [done|]. injection Hk as <-.
    replace (i + 1 - 1) with i by lia. by apply H1.
  - intros Hk. destruct Hm as [[_ He]|[Hm _]]; [|by rewrite Hm in Hk]. exists i. split_and!; [by apply H1|done|].
    right. exists (IterResults h), r. rewrite Hres, Hstop. split; [done|]. exact He.
  - rewrite H3, Ha, fmap_app, app_nil_r. cbn. by rewrite Hnum.
  - intros Hsf Hk. destruct Hm as [[Hm _]|[_ Hg]]; [by rewrite Hm in Hk|]. apply Forall_app. split.
    + apply H4; [done|congruence].
    + apply Forall_singleton. auto.
  - intros l' r' Hsf Heq. apply app_inj_tail in Heq as [<- _]. apply H4; [done|congruence].
Qed.

Lemma bad_checked r : checkFailure (SuitesResult r) || bool_decide (Status r = TestTimedOut) = true ↔ bad r.
Proof. unfold bad. by rewrite orb_true_iff, bool_decide_eq_true. Qed.

Lemma traced_step l h lb h' : traced l h → inv h → step lb h = Some h' → traced (l ++ [lb]) h'.
Proof.
  intros Ht Hi. unfold step. destruct (crashed h); [done|]. destruct lb as [|i|i|j|j|j res| |j res|j|j|j| | | | | | |].
  - destruct (runTest h) as [i| | | | |] eqn:Hm; try done. intros [= <-].
    destruct (in_current h Hi i) as [H1 H2]; [by rewrite Hm|]. rewrite decide_True in H2 by done.
    destruct (decide (i <= iterations)).
    + apply (traced_other l h); try done; by rewrite Hm.
    + assert (i - 1 = iterations) as Hlast by lia. destruct Ht as [T1 T2 T3 T4 T5]. rewrite Hm in *.
      split; cbn; rewrite ?omap_app; cbn; rewrite ?app_nil_r; try done.
      * intros _. exists iterations. rewrite (T1 (i - 1) eq_refl), Hlast. split_and!; [done|lia|by left].
      * by rewrite T3; cbn; rewrite app_nil_r.
  - case_decide as Hm; [|done]. intros [= <-]. destruct (in_current h Hi i) as [H1 _]; [by rewrite Hm|].
    destruct Ht as [T1 T2 T3 T4 T5]. rewrite Hm in *. split; cbn; rewrite ?omap_app; cbn; try done.
    + intros k [= <-]. rewrite (T1 (i - 1) eq_refl). rewrite <- (Z.sub_add 1 i) at 3. 
      rewrite seqZ_snoc by lia. by rewrite Z.sub_add.
    + by rewrite T3; cbn; rewrite app_nil_r.
    + intros Hsf _. by apply T4.
  - case_decide as Hm; [|done]. intros [= <-]. destruct (in_current h Hi i) as [H1 _]; [by rewrite Hm|].
    pose proof (next_index i h Hi) as Hnext. rewrite Hm in Hnext. specialize (Hnext eq_refl ltac:(done)).
    destruct Ht as [T1 T2 T3 T4 T5]. unfold next_iteration. rewrite Hnext, Hm in *.
    split; cbn; rewrite ?omap_app; cbn; try done.
    + intros k [= <-]. rewrite (T1 (i - 1) eq_refl). replace (i + 1 - 1) with (i - 1 + 1) by lia.
      rewrite seqZ_snoc by lia. by rewrite Z.sub_add.
    + by rewrite T3, !app_nil_r.
    + intros Hsf _. by apply T4.
  - destruct (waiters h !! j) as [[]|]; try done. intros [= <-]. by apply (traced_other l h).
  - case_decide; [|done]. intros [= <-]. by apply (traced_other l h).
  - destruct (runTest h) as [| |i| | |] eqn:Hm; try done. destruct (waiters h !! j) as [[]|] eqn:Hj; try done.
    unfold logResults. intros [= <-].
    apply (traced_logged l h _ _ i (MkIteration i res TestCompleted)); try done; [by rewrite Hm|by case_match..|].
    pose proof (bad_checked (MkIteration i res TestCompleted)) as Hb. cbn [SuitesResult Status] in Hb.
    destruct stopOnFailure eqn:Hsf; cbn [andb]; [|right; by split]. destruct (_ || _) eqn:Hf; [left|right].
    + split; [done|]. left. split; [done|]. by apply Hb.
    + split; [done|]. intros _ Hbad. by apply Hb in Hbad.
  - destruct (runTest h) as [| |i| | |] eqn:Hm; try done. case_decide; [done|]. intros [= <-].
    apply (traced_other l h); try done; by rewrite Hm.
  - destruct (runTest h) as [| | |i| |] eqn:Hm; try done. destruct (waiters h !! j) as [[]|] eqn:Hj; try done.
    unfold logResults. intros [= <-].
    apply (traced_logged l h _ _ i (MkIteration i res TestTimedOut)); try done; [by rewrite Hm|by repeat case_match..|].
    cbn [stopTest add_result set_waiter]. rewrite orb_true_r.
    destruct stopOnFailure eqn:Hsf; cbn [andb].
    + left. split; [done|]. left. split; [done|]. by right.
    + destruct (stopTest h) eqn:Hst; [left|right]; by auto.
  - destruct (waiters h !! j) as [[]|]; try done. intros [= <-]. by apply (traced_other l h).
  - destruct (waiters h !! j) as [[]|]; try done. unfold cancelCtx_call.
    destruct (cancelFunc h); intros [= <-]; by apply (traced_other l h).
  - destruct (waiters h !! j) as [[]|]; try done. intros [= <-]. by apply (traced_other l h).
  - destruct (StopTest h); try done. destruct (process_ok h); intros [= <-]; by apply (traced_other l h).
  - destruct (StopTest h); try done. intros [= <-]. by apply (traced_other l h).
  - destruct (StopTest h); try done. intros [= <-]. by apply (traced_other l h).
  - destruct (StopTest h); try done. unfold cancelCtx_call.
    destruct (cancelFunc h); intros [= <-]; by apply (traced_other l h).
  - destruct (StopTest h); try done. intros [= <-]. by apply (traced_other l h).
  - destruct (StopTest h); try done. destruct (runTest h) eqn:Hm; try done. intros [= <-].
    apply (traced_other l h); try done; by rewrite Hm.
  - destruct (StopTest h); try done. destruct (runTest h) eqn:Hm; try done. intros [= <-].
    apply (traced_other l h); try done; by rewrite Hm.
Qed.

Lemma traced_start h : StartTest = Some h → traced [] h.
Proof. unfold StartTest. case_decide; [done|]. intros [= <-]. split; cbn; try done.
  - by intros k [= <-].
  - intros l' r _ Heq. by destruct l'.
Qed.

Lemma run_traced h0 l h : StartTest = Some h0 → run h0 l h → traced l h.
Proof. intros H0. induction 1; [by apply traced_start|]. eapply traced_step; [done|by eapply run_inv|done]. Qed.

(** ** What a timeout means *)

Definition nexts (l : list label) : Z := Z.of_nat (length (omap (λ lb, match lb with Next => Some () | _ => None end) l)).

(** What can make the context of iteration [i] done: its timeout, [StopTest],
    or the goroutine of an earlier iteration that calls [cancelCtx] only when
    iteration [i] has stored its own function. *)
Definition cause (i : Z) (l : list label) : Prop :=
  Expire i ∈ l ∨ Stop ∈ l ∨ ∃ j l1 l2, l = l1 ++ Cancel j :: l2 ∧ 1 <= j < i ∧ i <= nexts l1.

Lemma cause_snoc i l lb : cause i l → cause i (l ++ [lb]).
Proof.
  intros [?|[?|(j & l1 & l2 & -> & ?)]]; [left|right; left|right; right].
  - apply elem_of_app. by left.
  - apply elem_of_app. by left.
  - exists j, l1, (l2 ++ [lb]). split; [|done]. by rewrite <- app_assoc.
Qed.

Lemma nexts_snoc l lb : nexts (l ++ [lb]) = nexts l + match lb with Next => 1 | _ => 0 end.
Proof. unfold nexts. rewrite omap_app, length_app. destruct lb; cbn; lia. Qed.

Record caused (l : list label) (h : handler) : Prop := {
  ca_nexts i : current (runTest h) = Some i → nexts l = if decide (runTest h = Setup i) then i - 1 else i;
  ca_stop : StopTest h ≠ NoStop → Stop ∈ l;
  ca_live i : current (runTest h) = Some i → runTest h ≠ Setup i → i ∉ live h → cause i l;
  ca_reaping i : runTest h = Reaping i → cause i l;
  ca_results r : r ∈ IterResults h → Status r = TestTimedOut → cause (Number r) l;
}.

(** A step of another goroutine. *)
Lemma caused_other l h lb h' : caused l h → lb ≠ Next → runTest h' = runTest h → IterResults h' = IterResults h →
  (StopTest h' ≠ NoStop → StopTest h ≠ NoStop ∨ lb = Stop) →
  (∀ i, current (runTest h) = Some i → runTest h ≠ Setup i → i ∉ live h' → i ∉ live h ∨ cause i (l ++ [lb])) →
  caused (l ++ [lb]) h'.
Proof.
  intros [H1 H2 H3 H4 H5] Hlb Hm Hres Hs Hl. split; rewrite ?Hm, ?Hres.
  - intros i Hc. rewrite nexts_snoc, (H1 i Hc). destruct lb; try done; lia.
  - intros Hst. apply elem_of_app. destruct (Hs Hst) as [?| ->]; [left; auto|right; by left].
  - intros i Hc Hi Hni. destruct (Hl i Hc Hi Hni) as [?|?]; [|done]. apply cause_snoc. auto.
  - intros i Hi. apply cause_snoc. auto.
  - intros r Hr Ht. apply cause_snoc. auto.
Qed.

Lemma caused_logged l h lb h' i r : caused l h → inv h → active (runTest h) = Some i → lb ≠ Next → Number r = i →
  IterResults h' = IterResults h ++ [r] → StopTest h' = StopTest h →
  (Status r = TestTimedOut → runTest h = Reaping i) →
  runTest h' = Closing ∨ runTest h' = Setup (u32 (i + 1)) → caused (l ++ [lb]) h'.
Proof.
  intros [H1 H2 H3 H4 H5] Hi Ha Hlb Hnum Hres Hst Hre Hm. destruct (active_current _ _ Ha) as [Hc Hs].
  rewrite (next_index i h Hi Hc Hs) in Hm. split; rewrite ?Hres, ?Hst.
  - intros k Hk. destruct Hm as [Hm|Hm]; rewrite Hm in *; [done|]. injection Hk as <-.
    rewrite decide_True by done. pose proof (H1 i Hc) as Hx. rewrite decide_False in Hx by done.
    rewrite nexts_snoc, Hx. destruct lb; try done; lia.
  - intros ?. apply elem_of_app. left. auto.
  - intros k Hk Hne. destruct Hm as [Hm|Hm]; rewrite Hm in *; [done|]. by injection Hk as <-.
  - intros k Hk. destruct Hm as [Hm|Hm]; by rewrite Hm in Hk.
  - intros r' [Hr'| ->%list_elem_of_singleton]%elem_of_app Ht; apply cause_snoc; [auto|].
    rewrite Hnum. auto.
Qed.

Ltac unchanged :=
  eapply caused_other; [eassumption|discriminate|reflexivity|reflexivity|..]; cbn; auto;
    try solve [congruence | intros _; left; congruence].

Lemma caused_step l h lb h' : caused l h → inv h → step lb h = Some h' → caused (l ++ [lb]) h'.
Proof.
  intros Hca Hi. unfold step. destruct (crashed h); [done|]. destruct lb as [|i|i|j|j|j res| |j res|j|j|j| | | | | | |].
  - destruct (runTest h) as [i| | | | |] eqn:Hm; try done. intros [= <-].
    destruct Hca as [H1 H2 H3 H4 H5]. rewrite Hm in *. specialize (H1 i eq_refl). rewrite decide_True in H1 by done.
    assert (Hst : StopTest h ≠ NoStop → Stop ∈ l ++ [Next]) by (intros ?; apply elem_of_app; left; auto).
    assert (Hr : ∀ r, r ∈ IterResults h → Status r = TestTimedOut → cause (Number r) (l ++ [Next])).
    { intros r ? ?. apply cause_snoc. auto. }
    destruct (decide (i <= iterations)); split; cbn; try done.
    + intros k [= <-]. rewrite nexts_snoc, decide_False by done. lia.
    + intros k [= <-] _. set_solver.
  - case_decide as Hm; [|done]. intros [= <-]. destruct Hca as [H1 H2 H3 H4 H5]. rewrite Hm in *.
    split; cbn; try done.
    + intros k [= <-]. rewrite nexts_snoc, (H1 i eq_refl), !decide_False by done. lia.
    + intros ?. apply elem_of_app. left. auto.
    + intros k [= <-] _ Hl. apply cause_snoc. by apply H3.
    + intros r ? ?. apply cause_snoc. auto.
  - case_decide as Hm; [|done]. intros [= <-]. pose proof (next_index i h Hi) as Hnext. rewrite Hm in Hnext.
    specialize (Hnext eq_refl ltac:(done)). destruct Hca as [H1 H2 H3 H4 H5]. rewrite Hm in *.
    unfold next_iteration. rewrite Hnext. split; cbn; try done.
    + intros k [= <-]. rewrite nexts_snoc, (H1 i eq_refl), decide_False, decide_True by done. lia.
    + intros ?. apply elem_of_app. left. auto.
    + by intros k [= <-] ?.
    + intros r ? ?. apply cause_snoc. auto.
  - destruct (waiters h !! j) as [[]|]; try done. intros [= <-]. unchanged.
  - case_decide; [|done]. intros [= <-]. unchanged. intros i _ _ Hl.
    destruct (decide (i = j)) as [->|]; [right|left; set_solver]. left. apply elem_of_app. right. by left.
  - destruct (runTest h) as [| |i| | |] eqn:Hm; try done. destruct (waiters h !! j) as [[]|] eqn:Hj; try done.
    unfold logResults. intros [= <-].
    apply (caused_logged l h _ _ i (MkIteration i res TestCompleted)); try done; [by rewrite Hm|by case_match..|].
    case_match; auto.
  - destruct (runTest h) as [| |i| | |] eqn:Hm; try done. case_decide as Hl; [done|]. intros [= <-].
    destruct Hca as [H1 H2 H3 H4 H5]. rewrite Hm in *. specialize (H3 i eq_refl ltac:(done) Hl).
    split; cbn; try done.
    + intros k [= <-]. rewrite nexts_snoc, (H1 i eq_refl), !decide_False by done. lia.
    + intros ?. apply elem_of_app. left. auto.
    + intros k [= <-] _ _. by apply cause_snoc.
    + intros k [= <-]. by apply cause_snoc.
    + intros r ? ?. apply cause_snoc. auto.
  - destruct (runTest h) as [| | |i| |] eqn:Hm; try done. destruct (waiters h !! j) as [[]|] eqn:Hj; try done.
    unfold logResults. intros [= <-].
    apply (caused_logged l h _ _ i (MkIteration i res TestTimedOut)); try done; [by rewrite Hm|by repeat case_match..|].
    repeat case_match; auto.
  - destruct (waiters h !! j) as [[]|] eqn:Hj; try done. intros [= <-]. unchanged.
  - destruct (waiters h !! j) as [[]|] eqn:Hj; try done. unfold cancelCtx_call.
    destruct (cancelFunc h) as [c|]; cbn; intros [= <-]; unchanged. intros i Hc Hs Hl.
    destruct (decide (i = c)) as [->|]; [right|left; set_solver]. right; right. exists j, l, [].
    destruct (in_waiter h Hi j Checked Hj) as [? Hp]. pose proof (ca_nexts l h Hca c Hc) as Hx.
    rewrite decide_False in Hx by done. split_and!; [done|done| |lia].
    destruct (in_before h Hi c j Checked Hc Hj) as [?|Ha]; [done|].
    destruct (in_active h Hi j Ha) as (w & Hw & Hnp). by simplify_eq; destruct Hnp.
  - destruct (waiters h !! j) as [[]|]; try done. intros [= <-]. unchanged.
  - destruct (StopTest h) eqn:Hst; try done. destruct (process_ok h); intros [= <-]; unchanged.
  - destruct (StopTest h) eqn:Hst; try done. intros [= <-]. unchanged.
  - destruct (StopTest h) eqn:Hst; try done. intros [= <-]. unchanged.
  - destruct (StopTest h) eqn:Hst; try done. unfold cancelCtx_call.
    assert (Hin : ∀ i, cause i (l ++ [StopCancel])).
    { intros i. right. left. apply elem_of_app. left. apply (ca_stop l h Hca). by rewrite Hst. }
    destruct (cancelFunc h); intros [= <-]; unchanged.
  - destruct (StopTest h) eqn:Hst; try done. intros [= <-]. unchanged.
  - destruct (StopTest h) eqn:Hst; try done. destruct (runTest h) eqn:Hm; try done. intros [= <-].
    destruct Hca as [H1 H2 H3 H4 H5]. split; cbn; try done.
    + intros _. apply elem_of_app. left. apply H2. by rewrite Hst.
    + intros r ? ?. apply cause_snoc. auto.
  - destruct (StopTest h) eqn:Hst; try done. destruct (runTest h) eqn:Hm; try done. intros [= <-].
    destruct Hca as [H1 H2 H3 H4 H5]. split; cbn; try done.
    + intros r ? ?. apply cause_snoc. auto.
Qed.

Lemma caused_start h : StartTest = Some h → caused [] h.
Proof.
  unfold StartTest. case_decide; [done|]. intros [= <-]. split; cbn; try done.
  - by intros i [= <-].
  - by intros i [= <-].
  - by intros r ?%elem_of_nil.
Qed.

Lemma run_caused h0 l h : StartTest = Some h0 → run h0 l h → caused l h.
Proof. intros H0. induction 1; [by apply caused_start|]. eapply caused_step; [done|by eapply run_inv|done]. Qed.
End handler.
