(* ===== verification/TestHandlerTheorems.v ===== *)
(** One test, under every interleaving of its goroutines: that it ends, what
    it records, what a recorded timeout means, and what the verdict of
    [TestResults] makes of it. *)

From S2P Require Import Prelude TestResults TestHandler.
Local Open Scope Z_scope.

(** ** The number of steps *)

Definition waiter_weight (w : waiter) : nat :=
  match w with Proc => 5 | Exited => 4 | Sent => 3 | Checked => 2 | Called => 1 | Gone => 0 end.

Definition waiters_weight (m : gmap Z waiter) : nat := sum_list_with waiter_weight (map_to_list m).*2.

Lemma weight_new m i w : m !! i = None → waiters_weight (<[i := w]> m) = (waiter_weight w + waiters_weight m)%nat.
Proof. intros Hi. unfold waiters_weight. by rewrite map_to_list_insert. Qed.

Lemma weight_update m i w w' : m !! i = Some w →
  (waiters_weight (<[i := w']> m) + waiter_weight w = waiters_weight m + waiter_weight w')%nat.
Proof.
  intros Hi. rewrite <- (insert_delete_id m i w Hi) at 2. rewrite <- insert_delete_eq.
  rewrite !weight_new by apply lookup_delete_eq. lia.
Qed.

Section theorems.
Context (iterations : Z) (stopOnFailure : bool) (Hn : 1 <= iterations < 2 ^ 32 - 1).

Abbreviation step := (TestHandler.step iterations stopOnFailure).
Abbreviation run := (TestHandler.run iterations stopOnFailure).
Abbreviation StartTest := (TestHandler.StartTest iterations).

Definition main_weight (m : main) : Z :=
  match m with
  | Setup i => 9 * (iterations + 1 - i) + 2
  | Starting i => 9 * (iterations - i) + 9
  | Waiting i => 9 * (iterations - i) + 3
  | Reaping i => 9 * (iterations - i) + 2
  | Closing => 1
  | Returned => 0
  end.

Definition stop_weight (s : stopper) : Z :=
  match s with
  | NoStop => 6 | Stopping => 5 | StopSet => 4 | StopChecked => 3 | StopCalled => 2 | StopWaits => 1 | Stopped => 0
  end.

Definition measure (h : handler) : Z :=
  main_weight (runTest h) + Z.of_nat (waiters_weight (waiters h)) + Z.of_nat (size (live h)) +
  stop_weight (StopTest h) + Z.b2z (negb (crashed h)).

Lemma live_grows (l : gset Z) i : (size ({[i]} ∪ l) <= 1 + size l)%nat.
Proof. rewrite size_union_alt, size_singleton. pose proof (subseteq_size (l ∖ {[i]}) l ltac:(set_solver)). lia. Qed.

Lemma live_shrinks (l : gset Z) i : (size (l ∖ {[i]}) <= size l)%nat.
Proof. apply subseteq_size. set_solver. Qed.

Lemma live_drops (l : gset Z) i : i ∈ l → (size (l ∖ {[i]}) < size l)%nat.
Proof. intros Hi. apply subset_size. set_solver. Qed.

Lemma main_weight_nonneg h : inv iterations h → 0 <= main_weight (runTest h).
Proof.
  intros Hi. pose proof (in_current _ h Hi) as H. destruct (runTest h) as [i|i|i|i| |]; cbn in *; try lia;
    destruct (H i eq_refl) as [_ Hb]; [rewrite decide_True in Hb by done|rewrite decide_False in Hb by done..]; lia.
Qed.

Lemma measure_nonneg h : inv iterations h → 0 <= measure h.
Proof.
  intros Hi. pose proof (main_weight_nonneg h Hi). unfold measure.
  destruct (StopTest h), (crashed h); cbn; lia.
Qed.

(** An iteration that is left costs what is left of it. *)
Lemma leave_weight h i m : inv iterations h → active (runTest h) = Some i → m = Closing ∨ m = Setup (u32 (i + 1)) →
  main_weight m <= main_weight (runTest h).
Proof.
  intros Hi Ha Hm. destruct (active_current _ _ Ha) as [Hc Hs]. pose proof (next_index _ Hn i h Hi Hc Hs) as Hnext.
  destruct (in_current _ h Hi i Hc) as [_ Hb]. rewrite decide_False in Hb by done. rewrite Hnext in Hm.
  destruct (runTest h); try done; injection Ha as ->; destruct Hm as [->| ->]; cbn; lia.
Qed.

Lemma handler_step_measure lb h h' : inv iterations h → step lb h = Some h' → measure h' < measure h.
Proof.
  intros Hi. unfold TestHandler.step, measure. destruct (crashed h) eqn:Hcr; [done|].
  assert (Hlog : ∀ i j m r, active (runTest h) = Some i → waiters h !! j = Some Exited →
    m = Closing ∨ m = Setup (u32 (i + 1)) → measure (set_main m (add_result r (set_waiter j Sent h))) < measure h).
  { intros i j m r Ha Hj Hm. unfold measure. cbn. pose proof (leave_weight h i m Hi Ha Hm).
    pose proof (weight_update _ j Exited Sent Hj) as Hw. cbn in Hw. lia. }
  unfold measure in Hlog. rewrite Hcr in Hlog. destruct lb as [|i|i|j|j|j res| |j res|j|j|j| | | | | | |].
  - destruct (runTest h) as [i| | | | |] eqn:Hm; try done. intros [= <-]. pose proof (live_grows (live h) i).
    destruct (decide (i <= iterations)); cbn; rewrite ?Hcr; cbn; [lia|].
    destruct (in_current _ h Hi i) as [_ Hb]; [by rewrite Hm|]. rewrite decide_True in Hb by done. lia.
  - case_decide as Hm; [|done]. intros [= <-]. cbn. rewrite Hm, Hcr, weight_new; [cbn; lia|].
    destruct (waiters h !! i) as [w|] eqn:Hw; [|done].
    destruct (in_before _ h Hi i i w) as [?|Ha]; [by rewrite Hm|done|lia|by rewrite Hm in Ha].
  - case_decide as Hm; [|done]. intros [= <-]. pose proof (next_index _ Hn i h Hi) as Hnext. rewrite Hm in Hnext.
    unfold next_iteration. rewrite (Hnext eq_refl ltac:(done)). cbn. rewrite Hm, Hcr. cbn. lia.
  - destruct (waiters h !! j) as [[]|] eqn:Hj; try done. intros [= <-]. cbn. rewrite Hcr. cbn.
    pose proof (weight_update _ j Proc Exited Hj) as Hw. cbn in *. lia.
  - case_decide as Hl; [|done]. intros [= <-]. cbn. rewrite Hcr. cbn. pose proof (live_drops _ _ Hl). lia.
  - destruct (runTest h) as [| |i| | |] eqn:Hm; try done. destruct (waiters h !! j) as [[]|] eqn:Hj; try done.
    unfold logResults. intros [= <-]. case_match; apply (Hlog i); auto.
  - destruct (runTest h) as [| |i| | |] eqn:Hm; try done. case_decide; [done|]. intros [= <-]. cbn. rewrite Hcr. cbn. lia.
  - destruct (runTest h) as [| | |i| |] eqn:Hm; try done. destruct (waiters h !! j) as [[]|] eqn:Hj; try done.
    unfold logResults. intros [= <-]. repeat case_match; apply (Hlog i); auto.
  - destruct (waiters h !! j) as [[]|] eqn:Hj; try done. intros [= <-]. cbn. rewrite Hcr. cbn.
    pose proof (weight_update _ j Sent (if cancelCtx_look h then Checked else Gone) Hj) as Hw.
    destruct (cancelCtx_look h); cbn in *; lia.
  - destruct (waiters h !! j) as [[]|] eqn:Hj; try done. unfold cancelCtx_call.
    destruct (cancelFunc h) as [c|]; cbn; intros [= <-]; cbn; rewrite ?Hcr; cbn; [|lia].
    pose proof (weight_update _ j Checked Called Hj) as Hw. pose proof (live_shrinks (live h) c). cbn in *. lia.
  - destruct (waiters h !! j) as [[]|] eqn:Hj; try done. intros [= <-]. cbn. rewrite Hcr. cbn.
    pose proof (weight_update _ j Called Gone Hj) as Hw. cbn in *. lia.
  - destruct (StopTest h) eqn:Hst; try done. destruct (process_ok h); intros [= <-]; cbn; rewrite ?Hcr, ?Hst; cbn; lia.
  - destruct (StopTest h) eqn:Hst; try done. intros [= <-]. cbn. rewrite Hcr. cbn. lia.
  - destruct (StopTest h) eqn:Hst; try done. intros [= <-]. cbn. rewrite Hcr. destruct (cancelCtx_look h); cbn; lia.
  - destruct (StopTest h) eqn:Hst; try done. unfold cancelCtx_call.
    destruct (cancelFunc h) as [c|]; cbn; intros [= <-]; cbn; rewrite ?Hcr, ?Hst; cbn;
      [pose proof (live_shrinks (live h) c)|]; lia.
  - destruct (StopTest h) eqn:Hst; try done. intros [= <-]. cbn. rewrite Hcr. cbn. lia.
  - destruct (StopTest h) eqn:Hst; try done. destruct (runTest h) eqn:Hm; try done. intros [= <-]. cbn. rewrite Hcr. cbn. lia.
  - destruct (StopTest h) eqn:Hst; try done. destruct (runTest h) eqn:Hm; try done. intros [= <-]. cbn.
    rewrite Hcr, Hst. cbn. lia.
Qed.

Lemma run_measure h0 l h : StartTest = Some h0 → run h0 l h → Z.of_nat (length l) + measure h <= 9 * iterations + 9.
Proof.
  intros H0. induction 1 as [|l h lb h' Hrun IH Hs].
  - revert H0. unfold TestHandler.StartTest. case_decide; [done|]. intros [= <-].
    unfold measure. cbn. change (size ∅) with 0%nat. change (waiters_weight ∅) with 0%nat. lia.
  - pose proof (handler_step_measure lb h h' (run_inv _ _ Hn _ _ _ H0 Hrun) Hs). rewrite length_app. cbn. lia.
Qed.

(** A step that is not up to a timeout or a call of [StopTest]. *)
Definition own (lb : label) : Prop := lb ≠ Stop ∧ ∀ j, lb ≠ Expire j.

Lemma can_go_on h : inv iterations h → crashed h = false → runTest h ≠ Returned → ∃ lb h', own lb ∧ step lb h = Some h'.
Proof.
  intros Hi Hcr Hm. unfold TestHandler.step. rewrite Hcr.
  destruct (runTest h) as [i|i|i|i| |] eqn:Hr; [| | | | |done].
  - exists Next. eexists. split; [by split|]. done.
  - exists (StartFail i). eexists. split; [by split|]. by rewrite decide_True.
  - destruct (in_active _ h Hi i) as (w & Hw & Hp); [by rewrite Hr|]. destruct w; try (by destruct Hp).
    + exists (Exit i). eexists. split; [by split|]. by rewrite Hw.
    + exists (Finish i ∅). eexists. split; [by split|]. by rewrite Hw.
  - destruct (in_active _ h Hi i) as (w & Hw & Hp); [by rewrite Hr|]. destruct w; try (by destruct Hp).
    + exists (Exit i). eexists. split; [by split|]. by rewrite Hw.
    + exists (Reap i ∅). eexists. split; [by split|]. by rewrite Hw.
  - destruct (StopTest h) eqn:Hst.
    + exists Done. eexists. split; [by split|]. done.
    + exists StopFlag. eexists. split; [by split|]. done.
    + exists StopLook. eexists. split; [by split|]. done.
    + exists StopCancel. eexists. split; [by split|]. done.
    + exists StopClear. eexists. split; [by split|]. done.
    + exists StopReceive. eexists. split; [by split|]. done.
    + pose proof (in_stop _ h Hi Hst). congruence.
Qed.

(** A step that panics: [StopTest] finds no process, or a [cancelCtx] calls
    the function it has seen and another one has cleared it meanwhile. *)
Definition panics (h : handler) (lb : label) : Prop :=
  lb = Stop ∧ process_ok h = false ∨
  cancelFunc h = None ∧ ((∃ j, lb = Cancel j ∧ waiters h !! j = Some Checked) ∨ lb = StopCancel ∧ StopTest h = StopChecked).

Lemma step_crash lb h h' : step lb h = Some h' → crashed h' = true → panics h lb.
Proof.
  unfold TestHandler.step, panics. destruct (crashed h) eqn:Hcr; [done|].
  destruct lb as [|i|i|j|j|j res| |j res|j|j|j| | | | | | |]; unfold logResults;
    try solve [repeat case_match; intros [= <-]; cbn; congruence].
  - destruct (waiters h !! j) as [[]|] eqn:Hj; try done. unfold cancelCtx_call.
    destruct (cancelFunc h); cbn; intros [= <-]; cbn; [congruence|eauto 8].
  - destruct (StopTest h) eqn:Hst; try done. destruct (process_ok h); intros [= <-]; cbn; [congruence|by left].
  - destruct (StopTest h) eqn:Hst; try done. unfold cancelCtx_call.
    destruct (cancelFunc h); cbn; intros [= <-]; cbn; [congruence|auto].
Qed.

Lemma run_crash h0 l h : StartTest = Some h0 → run h0 l h → crashed h = true →
  ∃ l1 lb h1, l = l1 ++ [lb] ∧ run h0 l1 h1 ∧ panics h1 lb.
Proof.
  intros H0 Hrun Hcr. destruct Hrun as [|l h1 lb h Hrun Hs].
  - revert H0 Hcr. unfold TestHandler.StartTest. case_decide; [done|]. by intros [= <-].
  - exists l, lb, h1. split_and!; [done..|by eapply step_crash].
Qed.

(** One goroutine that cancels, and no [StopTest]. *)
Record alone (h : handler) : Prop := {
  al_stop : StopTest h = NoStop;
  al_one j w : waiters h !! j = Some w → j = 1;
  al_checked w : waiters h !! 1 = Some w → w = Checked → cancelFunc h ≠ None;
  al_crashed : crashed h = false;
}.

Lemma alone_waiter h j w w' : alone h → waiters h !! j = Some w →
  (w' = Checked → cancelFunc h ≠ None) → alone (set_waiter j w' h).
Proof.
  intros [H1 H2 H3 H4] Hj Hw. pose proof (H2 j w Hj) as ->. split; cbn; [done| | |done].
  - intros k w2 [[<- _]|[_ Hk]]%lookup_insert_Some; [done|by eapply H2].
  - intros w2. rewrite lookup_insert_eq. intros [= <-]. done.
Qed.

Lemma alone_same h h' : alone h → StopTest h' = StopTest h → waiters h' = waiters h →
  (cancelFunc h ≠ None → cancelFunc h' ≠ None) → crashed h' = crashed h → alone h'.
Proof.
  intros [H1 H2 H3 H4] Hst Hw Hc Hcr. split; rewrite ?Hst, ?Hw, ?Hcr; [done|done| |done]. intros w Hj Hk. eauto.
Qed.

Lemma alone_step lb h h' : iterations = 1 → lb ≠ Stop → inv iterations h → alone h → step lb h = Some h' → alone h'.
Proof.
  intros H1 Hlb Hi Ha. pose proof (al_stop h Ha) as Hst. unfold TestHandler.step. rewrite (al_crashed h Ha).
  destruct lb as [|i|i|j|j|j res| |j res|j|j|j| | | | | | |]; try done; rewrite ?Hst; try done.
  - destruct (runTest h) as [i| | | | |]; try done. intros [= <-]. case_decide; by apply (alone_same h).
  - case_decide as Hm; [|done]. intros [= <-].
    assert (i = 1) as ->.
    { destruct (in_current _ h Hi i) as [? Hb]; [by rewrite Hm|].
      rewrite decide_False in Hb by (by rewrite Hm). lia. }
    destruct Ha as [A1 A2 A3 A4]. split; cbn; [done| | |done].
    + intros k w [[<- _]|[_ Hk]]%lookup_insert_Some; [done|by eapply A2].
    + intros w. rewrite lookup_insert_eq. by intros [= <-].
  - case_decide; [|done]. intros [= <-]. by apply (alone_same h).
  - destruct (waiters h !! j) as [[]|] eqn:Hj; try done. intros [= <-]. by apply (alone_waiter h j Proc).
  - case_decide; [|done]. intros [= <-]. by apply (alone_same h).
  - destruct (runTest h); try done. destruct (waiters h !! j) as [[]|] eqn:Hj; try done. unfold logResults.
    intros [= <-]. case_match; (apply (alone_same (set_waiter j Sent h)); try done; by apply (alone_waiter h j Exited)).
  - destruct (runTest h); try done. case_decide; [done|]. intros [= <-]. by apply (alone_same h).
  - destruct (runTest h); try done. destruct (waiters h !! j) as [[]|] eqn:Hj; try done. unfold logResults.
    intros [= <-]. repeat case_match; (apply (alone_same (set_waiter j Sent h)); try done; by apply (alone_waiter h j Exited)).
  - destruct (waiters h !! j) as [[]|] eqn:Hj; try done. intros [= <-]. apply (alone_waiter h j Sent); [done|done|].
    unfold cancelCtx_look. by destruct (cancelFunc h).
  - destruct (waiters h !! j) as [[]|] eqn:Hj; try done. pose proof (al_one h Ha j _ Hj) as ->.
    pose proof (al_checked h Ha _ Hj eq_refl). unfold cancelCtx_call.
    destruct (cancelFunc h) as [c|] eqn:Hc; cbn; intros [= <-]; [|done].
    apply (alone_same (set_waiter 1 Called h)); try done. by apply (alone_waiter h 1 Checked).
  - destruct (waiters h !! j) as [[]|] eqn:Hj; try done. pose proof (al_one h Ha j _ Hj) as ->. intros [= <-].
    destruct (alone_waiter h 1 Called Gone Ha Hj ltac:(done)) as [A1 A2 A3 A4]. split; cbn in *; try done.
    intros w. rewrite lookup_insert_eq. by intros [= <-].
  - destruct (runTest h); try done. intros [= <-]. by apply (alone_same h).
Qed.

Lemma run_alone h0 l h : iterations = 1 → StartTest = Some h0 → run h0 l h → Stop ∉ l → alone h.
Proof.
  intros H1 H0. induction 1 as [|l h lb h' Hrun IH Hs].
  - intros _. revert H0. unfold TestHandler.StartTest. case_decide; [done|]. by intros [= <-].
  - rewrite not_elem_of_app, list_elem_of_singleton. intros [Hl Hlb].
    apply (alone_step lb h); [done|congruence|by eapply run_inv|by apply IH|done].
Qed.


(** C19: What a test that has ended has recorded: exactly one result for each
    iteration whose process could be started, in this order; iterations are
    tried from the first on, all of them unless the last result is a failure
    and the test stops on failures, or is a timeout and [StopTest] was
    called; and a test that stops on failures has started nothing after a
    result that counts as one. *)
Theorem results_complete h0 l h (H0 : StartTest = Some h0) (Hrun : run h0 l h) (Hend : runTest h = Returned) :
  Number <$> IterResults h = omap ran l ∧
  (∃ k, omap tried l = seqZ 1 k ∧ k <= iterations ∧ (k = iterations ∨ ended_early stopOnFailure h)) ∧
  (stopOnFailure = true → ∀ l' r, IterResults h = l' ++ [r] → Forall (λ r, ¬ bad r) l').
Proof.
  destruct (run_traced _ _ Hn _ _ _ H0 Hrun) as [_ H2 H3 _ H5]. rewrite Hend in *. split_and!.
  - rewrite H3. cbn. by rewrite app_nil_r.
  - by apply H2.
  - intros Hsf l' r. by apply H5.
Qed.

(** C22: A result is recorded as timed out only if the timeout of its own
    iteration passed, or [StopTest] was called, or - and nothing in the code
    prevents this - the goroutine of an earlier iteration called [cancelCtx]
    after the iteration had stored its own cancel function.  With a single
    iteration the last cannot be. *)
Theorem timeouts_caused h0 l h r (H0 : StartTest = Some h0) (Hrun : run h0 l h) (Hr : r ∈ IterResults h)
    (Ht : Status r = TestTimedOut) :
  cause (Number r) l ∧ (iterations = 1 → Expire 1 ∈ l ∨ Stop ∈ l).
Proof.
  pose proof (ca_results _ _ (run_caused _ _ Hn _ _ _ H0 Hrun) r Hr Ht) as Hc. split; [done|]. intros H1.
  assert (Hone : Number r = 1).
  { destruct (run_traced _ _ Hn _ _ _ H0 Hrun) as [T1 T2 T3 _ _]. pose proof (run_inv _ _ Hn _ _ _ H0 Hrun) as Hi.
    assert (Hin : Number r ∈ omap ran l).
    { rewrite T3. apply elem_of_app. left. apply list_elem_of_fmap. by exists r. }
    assert (Hin' : Number r ∈ omap tried l).
    { apply list_elem_of_omap in Hin as (lb & Hlb & Hlb'). apply list_elem_of_omap. exists lb. split; [done|]. by destruct lb. }
    assert (Hk : ∃ k, omap tried l = seqZ 1 k ∧ k <= iterations).
    { destruct (count (runTest h)) as [k|] eqn:Hk; [|destruct (T2 eq_refl) as (k & ? & ? & _); by exists k].
      exists k. split; [by apply T1|]. pose proof (in_current _ h Hi) as Hb.
      destruct (runTest h) as [i|i|i|i| |]; try done; injection Hk as <-; destruct (Hb i eq_refl) as [_ Hle];
        [rewrite decide_True in Hle by done|rewrite decide_False in Hle by done..]; lia. }
    destruct Hk as (k & Hk & Hle). rewrite Hk in Hin'. apply elem_of_seqZ in Hin'. lia. }
  rewrite Hone in Hc. destruct Hc as [?|[?|(j & _ & _ & _ & ? & _)]]; [by left|by right|lia].
Qed.

(** A test none of whose processes could be started has no results, and the
    verdict is that it passed. *)
Theorem unstartable_test_passes h0 l h validIDs (H0 : StartTest = Some h0) (Hrun : run h0 l h)
    (Hend : runTest h = Returned) (Hno : ∀ i, StartOk i ∉ l) :
  (getOverallResult ((λ r, (r, results_of (SuitesResult r))) <$> IterResults h) validIDs).1 = Success.
Proof.
  destruct (run_traced _ _ Hn _ _ _ H0 Hrun) as [_ _ H3 _ _]. rewrite Hend in H3. cbn in H3. rewrite app_nil_r in H3.
  assert (Hnil : omap ran l = []).
  { destruct (omap ran l) as [|i x] eqn:Ho; [done|]. assert (Hin : i ∈ omap ran l) by (rewrite Ho; by left).
    apply list_elem_of_omap in Hin as (lb & Hlb & Hr). destruct lb; try done. injection Hr as ->. by destruct (Hno i). }
  rewrite Hnil in H3. by destruct (IterResults h).
Qed.
End theorems.

(** ** Runs *)

Definition fresh : handler := MkHandler (Setup 1) ∅ ∅ None false false NoStop [] false.

Definition after (n : Z) (sof : bool) (l : list label) : handler := default fresh (steps n sof l fresh).

Lemma after_run n sof l : present (steps n sof l fresh) = true → run n sof fresh l (after n sof l).
Proof. intros Hp. apply steps_run. by apply present_some. Qed.

Definition passing : SuitesResults := {["0" := {["gst" := Success]}]}.
Definition failing : SuitesResults := {["0" := {["gst" := Failure]}]}.

(** The goroutine of the first iteration is slow: it cancels the second. *)
Definition late_run : list label :=
  [Next; StartOk 1; Exit 1; Finish 1 passing; Next; StartOk 2; Look 1; Cancel 1; Clear 1; CtxDone; Exit 2;
   Reap 2 passing; Look 2; Next; Done].

(** [StopTest] cancels the context when the process has just ended, and the
    select takes the end of the process. *)
Definition deaf_run : list label :=
  [Next; StartOk 1; Exit 1; Stop; StopFlag; StopLook; StopCancel; StopClear; Finish 1 passing; Next; StartOk 2; Exit 2; Finish 2 passing;
   Next; StartOk 3; Exit 3; Finish 3 passing; Next; StopReceive].

(** Two iterations that pass and take no time make a test that timed out. *)
Lemma late_cancel_times_out :
  let h := after 2 false late_run in
  runTest h = Returned ∧ (Status <$> IterResults h) = [TestCompleted; TestTimedOut] ∧
  (SuitesResult <$> IterResults h) = [passing; passing] ∧
  (getOverallResult ((λ r, (r, results_of (SuitesResult r))) <$> IterResults h) []).1 = Timedout.
Proof. intros h. split_and!; by_decide. Qed.

(** A test that is stopped runs all its iterations to the end. *)
Lemma stop_not_heard :
  let h := after 3 false deaf_run in
  runTest h = Returned ∧ stopTest h = true ∧ Number <$> IterResults h = [1; 2; 3].
Proof. intros h. split_and!; by_decide. Qed.

(** The goroutines of two iterations cancel at the same time: the second
    clears the function the first has seen.  No timeout, no [StopTest]. *)
Definition race_run : list label :=
  [Next; StartOk 1; Exit 1; Finish 1 passing; Next; StartOk 2; Look 1; Exit 2; Finish 2 passing; Look 2; Cancel 2;
   Clear 2; Cancel 1].

(** The same with [StopTest] and the goroutine of the iteration it stops. *)
Definition stop_race_run : list label :=
  [Next; StartOk 1; Stop; StopFlag; StopLook; Exit 1; Finish 1 failing; Look 1; Cancel 1; Clear 1; StopCancel].


Lemma results_complete_witness :
  let l := [Next; StartOk 1; Exit 1; Finish 1 failing; Done] in
  let h := after 2 true l in
  Number <$> IterResults h = omap ran l ∧
  (∃ k, omap tried l = seqZ 1 k ∧ k <= 2 ∧ (k = 2 ∨ ended_early true h)) ∧
  (true = true → ∀ l' r, IterResults h = l' ++ [r] → Forall (λ r, ¬ bad r) l').
Proof.
  intros l h. apply (results_complete 2 true ltac:(done) fresh); [done| |by vm_compute]. apply after_run. vm_compute. reflexivity.
Defined.

Lemma timeouts_caused_witness : cause 2 late_run ∧ (2 = 1 → Expire 1 ∈ late_run ∨ Stop ∈ late_run).
Proof.
  apply (timeouts_caused 2 false ltac:(done) fresh late_run (after 2 false late_run) (MkIteration 2 passing TestTimedOut)).
  - done.
  - apply after_run. vm_compute. reflexivity.
  - apply list_elem_of_In. vm_compute. by right; left.
  - done.
Defined.

Lemma unstartable_test_passes_witness :
  let h := after 1 true [Next; StartFail 1; Next; Done] in
  (getOverallResult ((λ r, (r, results_of (SuitesResult r))) <$> IterResults h) ["0"]).1 = Success.
Proof.
  intros h. apply (unstartable_test_passes 1 true ltac:(done) fresh [Next; StartFail 1; Next; Done]); [done| |done|].
  - apply after_run. vm_compute. reflexivity.
  - intros i. rewrite !elem_of_cons, elem_of_nil. naive_solver.
Defined.
