(* ===== verification/TestStatus.v ===== *)
(** The status file of the test runner and the goroutines that use it:
    [LoadRunnerStatus], [SaveRunnerStatus], [removeIDsWithExistingTest] and
    [transformRunnerStatus] of [src/pkg/testrunner/utils.go]; [TriggerTest],
    [watchGPUState], [cleanupHealthyGPUTestStatus], [testGPU],
    [updateStatusDBAfterTestRun], [exitOnFailure] and [manualTestGPU] of
    [src/pkg/testrunner/testrunner.go].

    Loading and saving hold a lock each, but nothing is held from a load to
    the save of what was made of it: these are separate steps of the
    transition system, between which other goroutines can step.  The file
    system does not fail once the file is there.  A goroutine that cannot get
    its test started ends the program. *)

From S2P Require Import Prelude GoStd GpuHealth TestResults.

Abbreviation Statuses := (gmap string string).

(** The file; [Garbage] is one that cannot be parsed, as an empty one. *)
Inductive status_file : Type := Missing | Garbage | Stored (m : Statuses).

(** What is loaded is the map of the object: nil if the file cannot be read,
    and if the map was empty, since an empty map is not written. *)
Definition LoadRunnerStatus (f : status_file) : option Statuses :=
  match f with
  | Stored m => if decide (m = ∅) then None else Some m
  | _ => None
  end.

Definition SaveRunnerStatus (m : option Statuses) : status_file := Stored (default ∅ m).

(** What is recorded. *)
Definition recorded (f : status_file) : Statuses := default ∅ (LoadRunnerStatus f).

Definition running : string := CommandStatus_String TestRunning.
Definition completed : string := CommandStatus_String TestCompleted.

Inductive TestTrigger : Type := AUTO_UNHEALTHY_GPU_WATCH | PRE_START_JOB_CHECK | MANUAL.

(** ** The operations *)

(** The devices without a test, the object, and the file, which is created
    when it is missing. *)
Definition removeIDsWithExistingTest (f : status_file) (ids : list string) (isRerun : bool) :
    list string * Statuses * status_file :=
  (filter (λ id, recorded f !! id = None ∨ isRerun = true) ids, recorded f,
   match f with Missing => Garbage | _ => f end).

Definition mark (status : string) (ids : list string) (m : Statuses) : Statuses :=
  foldl (λ m id, <[id := status]> m) m ids.

(** [None]: an assignment to an entry of a nil map, a panic. *)
Definition updateStatusDBAfterTestRun (t : TestTrigger) (ids : list string) (status : string)
    (m : option Statuses) : option (option Statuses) :=
  match t with
  | MANUAL | PRE_START_JOB_CHECK => Some ((λ m, foldl (λ m id, delete id m) m ids) <$> m)
  | AUTO_UNHEALTHY_GPU_WATCH =>
      match m, ids with
      | None, _ :: _ => None
      | _, _ => Some (mark status ids <$> m)
      end
  end.

(** The object, and whether it is written. *)
Definition cleanupHealthyGPUTestStatus (ids : list string) (m : option Statuses) : option Statuses * bool :=
  match m with
  | None => (None, true)
  | Some m =>
      foldl (λ '(o, writeBack) healthyID,
        match o with
        | Some m =>
            match m !! healthyID with
            | Some status =>
                if decide (status ≠ running) then (Some (delete healthyID m), true) else (Some m, writeBack)
            | None => (Some m, writeBack)
            end
        | None => (None, writeBack)
        end) (Some m, false) ids
  end.

(** [transformRunnerStatus] for the entries in the order of the visit. *)
Definition transform_entry (kfdIDToIndex gpuIndexToKFDID : gmap string string) (new : Statuses) (e : string * string) :
    Statuses :=
  let '(id, status) := e in
  match gpuIndexToKFDID !! id, kfdIDToIndex !! id with
  | Some _, _ => <[id := status]> new
  | None, Some index => <[index := status]> new
  | None, None => new
  end.

Definition transformRunnerStatus (kfdIDToIndex gpuIndexToKFDID : gmap string string) (entries : list (string * string)) :
    status_file :=
  SaveRunnerStatus (Some (foldl (transform_entry kfdIDToIndex gpuIndexToKFDID) ∅ entries)).

(** What [watchGPUState] makes of the file at its start: the file, and the
    devices whose test is run again. *)
Definition known (kfdIDToIndex gpuIndexToKFDID : gmap string string) (id : string) : Prop :=
  is_Some (gpuIndexToKFDID !! id) ∨ is_Some (kfdIDToIndex !! id).

#[export] Instance known_dec a b id : Decision (known a b id).
Proof. unfold known. apply _. Defined.

Definition recover (kfdIDToIndex gpuIndexToKFDID : gmap string string) (f : status_file)
    (entries : list (string * string)) : status_file * list string :=
  let expired := filter (λ e, ¬ known kfdIDToIndex gpuIndexToKFDID e.1) entries in
  (if decide (expired = []) then f
   else SaveRunnerStatus (Some (foldl (λ m e, delete e.1 m) (recorded f) expired)),
   (filter (λ e, known kfdIDToIndex gpuIndexToKFDID e.1 ∧ e.2 = running) entries).*1).

(** ** The answer of the exporter's health service

    [GPUState] is the message of [GpuHealth]. *)

Definition EqualFold (a b : string) : bool := bool_decide (ToLower a = ToLower b).

Definition healthyGPUIDs (states : list GPUState) : list string :=
  ID <$> filter (λ s, EqualFold (Health s) "HEALTHY" = true) states.

Definition unHealthyGPUIDs (states : list GPUState) : list string :=
  ID <$> filter (λ s, EqualFold (Health s) "HEALTHY" = false ∧ AssociatedWorkload s = []) states.

(** ** The goroutines of the automatic trigger *)

(** A run of [testGPU]. *)
Inductive task : Type :=
  | Spawned (ids : list string) (isRerun : bool)
  | Checked (validIDs : list string) (statusObj : Statuses)   (* loaded; before [StartTest] *)
  | Begun (validIDs : list string) (statusObj : Statuses)     (* the test runs; before the save *)
  | Testing (validIDs : list string)                          (* in the select *)
  | Ended (validIDs : list string)                            (* before the load *)
  | Updating (validIDs : list string) (statusObj : option Statuses)  (* loaded; before the save *)
  | Over.

Inductive watcher : Type :=
  | Idle
  | Cleaning (ids : list string)           (* before the load *)
  | Cleaned (ids : list string) (statusObj : option Statuses). (* before the save *)

Record runner : Type := MkRunner {
  file : status_file;
  tasks : list task;
  watch : watcher;
  panicked : bool;
}.

Inductive label : Type :=
  | Poll (states : list GPUState)   (* the watcher gets an answer *)
  | CleanLoad | CleanSave           (* the watcher *)
  | Check (i : nat)                 (* task [i] loads *)
  | Begin (i : nat)                 (* its test starts *)
  | Save (i : nat)
  | End (i : nat)                   (* its test is over, or too long *)
  | Reload (i : nat)                (* it loads again *)
  | Update (i : nat).               (* and saves *)

Definition set_task (i : nat) (t : task) (s : runner) : runner :=
  MkRunner (file s) (<[i := t]> (tasks s)) (watch s) (panicked s).

Definition set_file (f : status_file) (s : runner) : runner := MkRunner f (tasks s) (watch s) (panicked s).

Section runner.
Context (GetAllGPUIndexes : list string).

Definition step (lb : label) (s : runner) : option runner :=
  if panicked s then None else
  match lb with
  | Poll states =>
      match watch s with
      | Idle =>
          Some (MkRunner (file s)
            (if decide (unHealthyGPUIDs states = []) then tasks s
             else tasks s ++ [Spawned (unHealthyGPUIDs states) false])
            (Cleaning (healthyGPUIDs states)) false)
      | _ => None
      end
  | CleanLoad =>
      match watch s with
      | Cleaning ids =>
          let '(o, writeBack) := cleanupHealthyGPUTestStatus ids (LoadRunnerStatus (file s)) in
          Some (MkRunner (file s) (tasks s) (if writeBack : bool then Cleaned ids o else Idle) false)
      | _ => None
      end
  | CleanSave =>
      match watch s with
      | Cleaned _ o => Some (MkRunner (SaveRunnerStatus o) (tasks s) Idle false)
      | _ => None
      end
  | Check i =>
      match tasks s !! i with
      | Some (Spawned ids isRerun) =>
          let '(validIDs, statusObj, f) := removeIDsWithExistingTest (file s) ids isRerun in
          let validIDs := if isRerun then ids else validIDs in
          Some (set_file f (set_task i
            (if decide (ids ≠ [] ∧ validIDs = []) then Over else Checked validIDs statusObj) s))
      | _ => None
      end
  | Begin i =>
      match tasks s !! i with
      | Some (Checked validIDs statusObj) =>
          let validIDs := if decide (validIDs = []) then GetAllGPUIndexes else validIDs in
          Some (set_task i (Begun validIDs (mark running validIDs statusObj)) s)
      | _ => None
      end
  | Save i =>
      match tasks s !! i with
      | Some (Begun validIDs statusObj) =>
          Some (set_file (SaveRunnerStatus (Some statusObj)) (set_task i (Testing validIDs) s))
      | _ => None
      end
  | End i =>
      match tasks s !! i with
      | Some (Testing validIDs) => Some (set_task i (Ended validIDs) s)
      | _ => None
      end
  | Reload i =>
      match tasks s !! i with
      | Some (Ended validIDs) => Some (set_task i (Updating validIDs (LoadRunnerStatus (file s))) s)
      | _ => None
      end
  | Update i =>
      match tasks s !! i with
      | Some (Updating validIDs statusObj) =>
          match updateStatusDBAfterTestRun AUTO_UNHEALTHY_GPU_WATCH validIDs completed statusObj with
          | Some o => Some (set_file (SaveRunnerStatus o) (set_task i Over s))
          | None => Some (MkRunner (file s) (tasks s) (watch s) true)
          end
      | _ => None
      end
  end.

(** The start: the file of an earlier run is transformed and read; the
    entries come in the orders of two visits.  A file that cannot be read
    ends the program ([None]). *)
Inductive started (kfdIDToIndex gpuIndexToKFDID : gmap string string) (f : status_file) : runner → Prop :=
  | started_intro m l1 l2 f1 f2 ids :
      f = Stored m → l1 ≡ₚ map_to_list m →
      transformRunnerStatus kfdIDToIndex gpuIndexToKFDID l1 = f1 →
      l2 ≡ₚ map_to_list (recorded f1) →
      recover kfdIDToIndex gpuIndexToKFDID f1 l2 = (f2, ids) →
      started kfdIDToIndex gpuIndexToKFDID f
        (MkRunner f2 (if decide (ids = []) then [] else [Spawned ids true]) Idle false).

(** From a load to the save of what was made of it. *)
Definition busy (t : task) : Prop :=
  match t with Checked _ _ | Begun _ _ | Updating _ _ => True | _ => False end.

Definition watch_busy (w : watcher) : Prop := match w with Cleaned _ _ => True | _ => False end.

Definition quiet (s : runner) : Prop := (∀ i t, tasks s !! i = Some t → ¬ busy t) ∧ ¬ watch_busy (watch s).

Definition loads (lb : label) : Prop := match lb with CleanLoad | Check _ | Reload _ => True | _ => False end.

(** Runs; in a [calm] one nobody loads while another is between its load and
    its save. *)
Inductive run (calm : bool) (s0 : runner) : list label → runner → Prop :=
  | run_refl : run calm s0 [] s0
  | run_snoc l s lb s' : run calm s0 l s → (calm = true → loads lb → quiet s) → step lb s = Some s' →
      run calm s0 (l ++ [lb]) s'.
End runner.

(** The devices whose test runs. *)
Definition under_test (t : task) : list string :=
  match t with Begun ids _ | Testing ids => ids | _ => [] end.

(** ** The other triggers: one test, then the program ends *)

(** How the test of [testGPU] ends. *)
Inductive outcome : Type :=
  | TooLong                    (* the timeout of [testGPU] *)
  | Verdict (r : TestResult)   (* of [getOverallResult] *)
  | Signal.

(** The file and the exit status after [testGPU] on [ids]; [None]: it
    returned because every device has a test. *)
Definition testGPU_once (all : list string) (t : TestTrigger) (f : status_file) (ids : list string) (isRerun : bool)
    (o : outcome) : status_file * Z :=
  let '(validIDs, statusObj, f) := removeIDsWithExistingTest f ids isRerun in
  let validIDs := if isRerun then ids else validIDs in
  if decide (ids ≠ [] ∧ validIDs = []) then (f, 0%Z)
  else
    let validIDs := if decide (validIDs = []) then all else validIDs in
    let f := SaveRunnerStatus (Some (mark running validIDs statusObj)) in
    let update status :=
      match updateStatusDBAfterTestRun t validIDs status (LoadRunnerStatus f) with
      | Some o => SaveRunnerStatus o
      | None => f
      end in
    match o with
    | Signal => (update running, 1%Z)
    | TooLong | Verdict Failure | Verdict Timedout =>
        (* [exitOnFailure] *)
        match t with
        | MANUAL | PRE_START_JOB_CHECK => (if decide (validIDs = []) then f else update completed, 1%Z)
        | AUTO_UNHEALTHY_GPU_WATCH => (update completed, 0%Z)
        end
    | Verdict _ => (update completed, 0%Z)
    end.

Definition manualTestGPU (all : list string) (t : TestTrigger) (f : status_file) (DeviceIDs : list string)
    (entries : list string) (o : outcome) : status_file * Z :=
  if decide (all = []) then (f, 1%Z)
  else if decide (0 < size (recorded f))%nat then testGPU_once all t f entries true o
  else testGPU_once all t f DeviceIDs false o.
