(* ===== verification/TestStatusProofs.v ===== *)
(** What holds of the status file and the tests in every calm run. *)

From S2P Require Import Prelude GoStd GpuHealth TestResults TestStatus.

(** ** The operations *)

Lemma recorded_save o : recorded (SaveRunnerStatus o) = default ∅ o.
Proof. unfold recorded, SaveRunnerStatus. cbn. case_decide as Hm; [by rewrite Hm|done]. Qed.

Lemma recorded_load f : recorded f = default ∅ (LoadRunnerStatus f).
Proof. done. Qed.

Lemma marked_lookup st ids m id : mark st ids m !! id = if decide (id ∈ ids) then Some st else m !! id.
Proof.
  unfold mark. revert m. induction ids as [|x ids IH]; intros m; cbn [foldl].
  - by rewrite decide_False by apply not_elem_of_nil.
  - rewrite IH. destruct (decide (id ∈ ids)) as [Hin|Hin].
    + rewrite decide_True by by right. done.
    + destruct (decide (id = x)) as [->|Hne].
      * by rewrite lookup_insert_eq, decide_True by by left.
      * rewrite lookup_insert_ne by done. rewrite decide_False; [done|]. by intros [?|?]%elem_of_cons.
Qed.

Lemma delete_all_lookup (ids : list string) (m : Statuses) id :
  foldl (λ m id, delete id m) m ids !! id = if decide (id ∈ ids) then None else m !! id.
Proof.
  revert m. induction ids as [|x ids IH]; intros m; cbn [foldl].
  - by rewrite decide_False by apply not_elem_of_nil.
  - rewrite IH. destruct (decide (id ∈ ids)) as [Hin|Hin].
    + rewrite decide_True by by right. done.
    + destruct (decide (id = x)) as [->|Hne].
      * by rewrite lookup_delete_eq, decide_True by by left.
      * rewrite lookup_delete_ne by done. rewrite decide_False; [done|]. by intros [?|?]%elem_of_cons.
Qed.

(** The entries [cleanupHealthyGPUTestStatus] leaves. *)
Lemma cleanup_lookup ids f id :
  default ∅ (cleanupHealthyGPUTestStatus ids (LoadRunnerStatus f)).1 !! id =
    if decide (id ∈ ids ∧ recorded f !! id ≠ Some running) then None else recorded f !! id.
Proof.
  unfold recorded. destruct (LoadRunnerStatus f) as [m|]; cbn [cleanupHealthyGPUTestStatus fst].
  2:{ change (default ∅ None) with (∅ : Statuses). rewrite lookup_empty. by case_decide. }
  change (default ∅ (Some m)) with m.
  match goal with |- context [foldl ?g _ ids] => set (body := g) end.
  assert (H : ∀ m w, ∃ m' w', foldl body (Some m, w) ids = (Some m', w') ∧
    m' !! id = if decide (id ∈ ids ∧ m !! id ≠ Some running) then None else m !! id).
  { clear m. induction ids as [|x ids IH]; intros m w; cbn [foldl].
    - exists m, w. split; [done|]. rewrite decide_False; [done|]. by intros [?%elem_of_nil _].
    - assert (Hb : ∃ m1 w1, body (Some m, w) x = (Some m1, w1) ∧
        m1 !! id = if decide (id = x ∧ m !! id ≠ Some running) then None else m !! id).
      { unfold body. destruct (m !! x) as [st|] eqn:Hx; [destruct (decide (st ≠ running)) as [Hst|Hst]|].
        - exists (delete x m), true. split; [done|]. destruct (decide (id = x)) as [->|Hne].
          + rewrite lookup_delete_eq, decide_True; [done|]. split; [done|]. congruence.
          + rewrite lookup_delete_ne, decide_False by naive_solver. done.
        - exists m, w. split; [done|]. rewrite decide_False; [done|]. apply dec_stable in Hst. intros [-> ?]. congruence.
        - exists m, w. split; [done|]. destruct (decide (id = x ∧ m !! id ≠ Some running)) as [[-> Hd]|Hd]; [by rewrite Hx|reflexivity]. }
      destruct Hb as (m1 & w1 & -> & Hm1). destruct (IH m1 w1) as (m' & w' & -> & Hm'). exists m', w'. split; [done|].
      rewrite Hm'. clear Hm'.
      destruct (decide (id = x)) as [->|Hne]; [destruct (decide (m !! x = Some running)) as [Hr|Hr]|].
      + rewrite decide_False in Hm1 by naive_solver. rewrite Hm1, !decide_False by naive_solver. done.
      + rewrite decide_True in Hm1 by done. rewrite Hm1, (decide_True (P := x ∈ x :: ids ∧ _)) by (split; [by left|done]).
        by destruct (decide _).
      + rewrite decide_False in Hm1 by naive_solver. rewrite Hm1. apply decide_ext. rewrite elem_of_cons. naive_solver. }
  destruct (H m false) as (m' & w' & -> & Hm'). exact Hm'.
Qed.

Lemma transform_lookup kfd idx entries i st :
  foldl (transform_entry kfd idx) ∅ entries !! i = Some st →
  ∃ id, (id, st) ∈ entries ∧ (id = i ∧ is_Some (idx !! id) ∨ idx !! id = None ∧ kfd !! id = Some i).
Proof.
  induction entries as [|[id st'] entries IH] using rev_ind; [done|].
  rewrite foldl_app. cbn [foldl transform_entry]. setoid_rewrite elem_of_app. intros H.
  assert (Hold : foldl (transform_entry kfd idx) ∅ entries !! i = Some st →
    ∃ id0, ((id0, st) ∈ entries ∨ (id0, st) ∈ [(id, st')]) ∧
      (id0 = i ∧ is_Some (idx !! id0) ∨ idx !! id0 = None ∧ kfd !! id0 = Some i)) by naive_solver.
  destruct (idx !! id) as [k|] eqn:Hidx; [|destruct (kfd !! id) as [i'|] eqn:Hk].
  - destruct (decide (i = id)) as [->|Hne]; [|rewrite lookup_insert_ne in H by done; auto].
    rewrite lookup_insert_eq in H. injection H as ->. exists id. split; [right; by left|]. left. split; [done|]. by exists k.
  - destruct (decide (i = i')) as [->|Hne]; [|rewrite lookup_insert_ne in H by done; auto].
    rewrite lookup_insert_eq in H. injection H as ->. exists id. split; [right; by left|]. by right.
  - auto.
Qed.

(** Entries none of which is a KFD identifier: those of known indexes stay. *)
Lemma transform_indexes kfd idx entries m i : entries ≡ₚ map_to_list m →
  (∀ id st, m !! id = Some st → idx !! id = None → kfd !! id = None) →
  foldl (transform_entry kfd idx) ∅ entries !! i = (if decide (is_Some (idx !! i)) then m !! i else None).
Proof.
  intros Hp Hk. assert (Hm : ∀ id st, (id, st) ∈ entries ↔ m !! id = Some st).
  { intros id st. rewrite Hp. apply elem_of_map_to_list. }
  assert (Hnd : NoDup entries.*1) by (rewrite Hp; apply NoDup_fst_map_to_list).
  clear Hp. assert (Hin : ∀ id st, (id, st) ∈ entries → idx !! id = None → kfd !! id = None).
  { intros id st Hid. apply (Hk id st). by apply Hm. }
  assert (H : ∀ st, foldl (transform_entry kfd idx) ∅ entries !! i = Some st ↔ (i, st) ∈ entries ∧ is_Some (idx !! i)).
  { clear Hm Hk. induction entries as [|[id st'] entries IH] using rev_ind.
    - intros st. cbn [foldl]. rewrite lookup_empty, elem_of_nil. naive_solver.
    - intros st. rewrite fmap_app in Hnd. apply NoDup_app in Hnd as (Hnd & Hdis & _).
      assert (Hnot : ∀ st, (id, st) ∉ entries).
      { intros st0 Hid. apply (Hdis id); [apply list_elem_of_fmap; by exists (id, st0)|by left]. }
      rewrite foldl_app, elem_of_app, list_elem_of_singleton. cbn [foldl transform_entry].
      assert (IH' : foldl (transform_entry kfd idx) ∅ entries !! i = Some st ↔ (i, st) ∈ entries ∧ is_Some (idx !! i)).
      { apply IH; [done|]. intros id0 st0 Hid. apply (Hin id0 st0), elem_of_app. by left. }
      clear IH.
      destruct (idx !! id) as [k|] eqn:Hidx.
      + destruct (decide (i = id)) as [->|Hne].
        * rewrite lookup_insert_eq, Hidx. split; [intros [= ->]; split; [by right|by eexists]|].
          intros [[Hc|[= ->]] _]; [by destruct (Hnot st)|done].
        * rewrite lookup_insert_ne by done. rewrite IH'. split; [tauto|]. by intros [[?|[= -> ->]] ?].
      + assert (Hkid : kfd !! id = None) by (apply (Hin id st'); [apply elem_of_app; right; by left|done]).
        rewrite Hkid, IH'. split; [tauto|]. intros [[?|[= -> ->]] [x Hx]]; [by split; [|exists x]|congruence]. }
  apply option_eq. intros st. rewrite H, Hm. case_decide; naive_solver.
Qed.

Lemma delete_entries_lookup (l : list (string * string)) (m : Statuses) id :
  foldl (λ m e, delete e.1 m) m l !! id = if decide (id ∈ l.*1) then None else m !! id.
Proof.
  rewrite <- delete_all_lookup. revert m. induction l as [|e l IH]; intros m; [done|]. cbn [foldl]. rewrite fmap_cons. apply IH.
Qed.

(** What the start reads and removes. *)
Lemma recover_spec kfd idx f entries f' ids : entries ≡ₚ map_to_list (recorded f) →
  recover kfd idx f entries = (f', ids) →
  (∀ id, recorded f' !! id = if decide (known kfd idx id) then recorded f !! id else None) ∧
  (∀ id, id ∈ ids ↔ recorded f' !! id = Some running).
Proof.
  intros Hp. unfold recover. intros [= <- <-].
  assert (Hm : ∀ id st, (id, st) ∈ entries ↔ recorded f !! id = Some st).
  { intros id st. rewrite Hp. apply elem_of_map_to_list. }
  assert (Hrec : ∀ id, recorded (if decide (filter (λ e, ¬ known kfd idx e.1) entries = []) then f
      else SaveRunnerStatus (Some (foldl (λ m e, delete e.1 m) (recorded f) (filter (λ e, ¬ known kfd idx e.1) entries)))) !! id =
    if decide (known kfd idx id) then recorded f !! id else None).
  { intros id. assert (Hex : id ∈ (filter (λ e, ¬ known kfd idx e.1) entries).*1 ↔ is_Some (recorded f !! id) ∧ ¬ known kfd idx id).
    { rewrite list_elem_of_fmap. split.
      - intros ([id' st] & -> & [Hn Hin]%list_elem_of_filter). cbn in *. split; [|done]. exists st. by apply Hm.
      - intros [[st Hst] Hn]. exists (id, st). split; [done|]. apply list_elem_of_filter. split; [done|]. by apply Hm. }
    destruct (decide (filter _ entries = [])) as [He|He].
    - rewrite He in Hex. case_decide as Hk; [done|]. destruct (recorded f !! id) as [st|] eqn:Hst; [|done].
      exfalso. apply (not_elem_of_nil id). apply Hex. split; [by eexists|done].
    - rewrite recorded_save. change (default ∅ (Some ?x)) with x. rewrite delete_entries_lookup.
      destruct (decide (id ∈ _)) as [Hin|Hin]; [apply Hex in Hin as [_ Hin]; by rewrite decide_False|].
      case_decide as Hk; [done|]. destruct (recorded f !! id) as [st|] eqn:Hst; [|done].
      destruct Hin. apply Hex. split; [by eexists|done]. }
  split; [exact Hrec|]. intros id. rewrite Hrec, list_elem_of_fmap. split.
  - intros ([id' st] & -> & [[Hk Hst] Hin]%list_elem_of_filter). cbn in *. subst st. rewrite decide_True by done. by apply Hm.
  - destruct (decide (known kfd idx id)) as [Hk|Hk]; [|done]. intros Hr. exists (id, running). split; [done|]. apply list_elem_of_filter.
    split; [by split|]. by apply Hm.
Qed.

(** ** The invariant of calm runs *)

(** The devices a task has taken, or takes again. *)
Definition claims (t : task) : list string :=
  match t with
  | Spawned ids true | Checked ids _ | Begun ids _ | Testing ids | Ended ids | Updating ids _ => ids
  | _ => []
  end.

(** Its devices are recorded as running. *)
Definition held (t : task) : Prop :=
  match t with Spawned _ true | Testing _ | Ended _ | Updating _ _ => True | _ => False end.

(** The object a task is about to save fits the file. *)
Definition fits (f : status_file) (t : task) : Prop :=
  let free_or_own ids :=
    (∀ id, id ∈ ids → recorded f !! id = None) ∨ (∀ id, id ∈ ids → recorded f !! id = Some running) in
  match t with
  | Spawned ids _ => ids ≠ []
  | Checked ids o => ids ≠ [] ∧ o = recorded f ∧ free_or_own ids
  | Begun ids o => ids ≠ [] ∧ o = mark running ids (recorded f) ∧ free_or_own ids
  | Testing ids | Ended ids => ids ≠ []
  | Updating ids o => ids ≠ [] ∧ o = LoadRunnerStatus f
  | Over => True
  end.

Record inv (s : runner) : Prop := {
  iv_panicked : panicked s = false;
  iv_disjoint i j ti tj id : tasks s !! i = Some ti → tasks s !! j = Some tj → id ∈ claims ti → id ∈ claims tj → i = j;
  iv_held i t id : tasks s !! i = Some t → held t → id ∈ claims t → recorded (file s) !! id = Some running;
  iv_fits i t : tasks s !! i = Some t → fits (file s) t;
  iv_clean ids o : watch s = Cleaned ids o → cleanupHealthyGPUTestStatus ids (LoadRunnerStatus (file s)) = (o, true);
  iv_busy i j ti tj : tasks s !! i = Some ti → tasks s !! j = Some tj → busy ti → busy tj → i = j;
  iv_busy_watch i t : tasks s !! i = Some t → busy t → ¬ watch_busy (watch s);
  iv_running id : recorded (file s) !! id = Some running → ∃ i t, tasks s !! i = Some t ∧ id ∈ claims t;
}.

Lemma claims_held t id : id ∈ claims t → ¬ busy t → held t.
Proof. destruct t as [? []| | | | | |]; cbn; try done; by intros ?%elem_of_nil. Qed.

(** A task moves on in the same file, with the same devices or with devices
    it has found free. *)
Lemma inv_task s i t t' : inv s → tasks s !! i = Some t →
  claims t' = claims t ∧ (held t' → held t) ∨
    quiet s ∧ claims t = [] ∧ ¬ held t' ∧ (∀ id, id ∈ claims t' → recorded (file s) !! id = None) →
  fits (file s) t' → (busy t' → busy t ∨ quiet s) → inv (set_task i t' s).
Proof.
  intros [H1 H2 H3 H4 H5 H6 H7 H8] Hi Hc Hf Hb.
  assert (Hlook : ∀ j u, <[i := t']> (tasks s) !! j = Some u → j = i ∧ u = t' ∨ j ≠ i ∧ tasks s !! j = Some u).
  { intros j u [(<- & <- & _)|[Hne Hj]]%list_lookup_insert_Some; auto. }
  assert (Hfree : ∀ j u id, j ≠ i → tasks s !! j = Some u → id ∈ claims t' → id ∈ claims u → False).
  { intros j u id Hne Hj Hin Hu. destruct Hc as [[Hc _]|(Hq & _ & _ & Hno)].
    - rewrite Hc in Hin. apply Hne. by apply (H2 j i u t id).
    - specialize (Hno id Hin). rewrite (H3 j u id Hj) in Hno; [done| |done].
      eapply claims_held; [done|]. by apply (proj1 Hq j). }
  split; cbn [file tasks watch panicked set_task]; try done.
  - intros j k tj tk id [[-> ->]|[? Hj]]%Hlook [[-> ->]|[? Hk]]%Hlook Hcj Hck; [done| | |by apply (H2 j k tj tk id)].
    + by destruct (Hfree k tk id).
    + by destruct (Hfree j tj id).
  - intros j u id [[-> ->]|[? Hj]]%Hlook Hu Hin; [|by apply (H3 j u)].
    destruct Hc as [[Hc Hh]|(_ & _ & Hh & _)]; [|done]. apply (H3 i t); [done|auto|by rewrite <- Hc].
  - intros j u [[-> ->]|[? Hj]]%Hlook; [done|by apply (H4 j)].
  - intros j k tj tk [[-> ->]|[? Hj]]%Hlook [[-> ->]|[? Hk]]%Hlook Hbj Hbk; [done| | |by apply (H6 j k tj tk)].
    + destruct (Hb Hbj) as [Hbt|Hq]; [by apply (H6 i k t tk)|]. by destruct (proj1 Hq k tk Hk).
    + destruct (Hb Hbk) as [Hbt|Hq]; [by apply (H6 j i tj t)|]. by destruct (proj1 Hq j tj Hj).
  - intros j u [[-> ->]|[? Hj]]%Hlook Hbu; [|by apply (H7 j u)].
    destruct (Hb Hbu) as [Hbt|Hq]; [by apply (H7 i t)|apply Hq].
  - intros id (j & u & Hj & Hin)%H8. destruct (decide (j = i)) as [->|Hne].
    + exists i, t'. rewrite list_lookup_insert_eq by (by eapply lookup_lt_Some). split; [done|].
      rewrite Hi in Hj. injection Hj as <-.
      destruct Hc as [[Hc _]|(_ & Hnil & _)]; [by rewrite Hc|]. rewrite Hnil in Hin. by apply elem_of_nil in Hin.
    + exists j, u. by rewrite list_lookup_insert_ne.
Qed.

(** Only what is loaded from the file matters. *)
Lemma inv_file s f : inv s → LoadRunnerStatus f = LoadRunnerStatus (file s) → inv (set_file f s).
Proof.
  intros [H1 H2 H3 H4 H5 H6 H7 H8] Hf. assert (Hr : recorded f = recorded (file s)) by (unfold recorded; by rewrite Hf).
  split; cbn [file tasks watch panicked set_file]; rewrite ?Hr, ?Hf; try done.
  intros i t Hi. pose proof (H4 i t Hi) as Ht. destruct t; cbn in *; rewrite ?Hr, ?Hf in *; done.
Qed.

(** The save that ends the busy part of task [i]: others see a file in which
    what they hold is as before. *)
Lemma inv_save s i t t' o : inv s → tasks s !! i = Some t → busy t → ¬ busy t' →
  (∀ id, id ∈ claims t' → id ∈ claims t) → (t' = Over ∨ held t' ∧ claims t' ≠ [] ∧ fits (SaveRunnerStatus o) t') →
  (∀ id, id ∈ claims t' → default ∅ o !! id = Some running) →
  (∀ id, id ∈ claims t → id ∉ claims t' → default ∅ o !! id ≠ Some running) →
  (∀ id, id ∉ claims t → default ∅ o !! id = recorded (file s) !! id) →
  inv (set_file (SaveRunnerStatus o) (set_task i t' s)).
Proof.
  intros [H1 H2 H3 H4 H5 H6 H7 H8] Hi Hb Hb' Hsub Hkind Hrun Hnot Hother.
  assert (Hlook : ∀ j u, <[i := t']> (tasks s) !! j = Some u → j = i ∧ u = t' ∨ j ≠ i ∧ tasks s !! j = Some u).
  { intros j u [(<- & <- & _)|[Hne Hj]]%list_lookup_insert_Some; auto. }
  assert (Hidle : ∀ j u, j ≠ i → tasks s !! j = Some u → ¬ busy u).
  { intros j u Hne Hj Hbu. apply Hne. by eapply H6. }
  split; cbn [file tasks watch panicked set_file set_task]; rewrite ?recorded_save; try done.
  - intros j k tj tk id [[-> ->]|[? Hj]]%Hlook [[-> ->]|[? Hk]]%Hlook Hcj Hck; [done| | |by apply (H2 j k tj tk id)].
    + by apply (H2 i k t tk id); auto.
    + by apply (H2 j i tj t id); auto.
  - intros j u id [[-> ->]|[Hne Hj]]%Hlook Hu Hin; [by apply Hrun|].
    rewrite Hother; [by apply (H3 j u)|]. intros Hin'. apply Hne. by apply (H2 j i u t id).
  - intros j u [[-> ->]|[Hne Hj]]%Hlook.
    + destruct Hkind as [->|(_ & _ & ?)]; done.
    + pose proof (H4 j u Hj) as Hf. pose proof (Hidle j u Hne Hj) as Hbu. destruct u; try done; by destruct Hbu.
  - intros ids o' Hw. pose proof (H7 i t Hi Hb) as Hwb. rewrite Hw in Hwb. by destruct Hwb.
  - intros j k tj tk [[-> ->]|[? Hj]]%Hlook [[-> ->]|[? Hk]]%Hlook Hbj Hbk; try done. by apply (H6 j k tj tk).
  - intros j u [[-> ->]|[? Hj]]%Hlook Hbu; [done|by apply (H7 j u)].
  - intros id Hid. destruct (decide (id ∈ claims t')) as [Hin|Hin].
    + exists i, t'. split; [|done]. apply list_lookup_insert_eq. by eapply lookup_lt_Some.
    + destruct (decide (id ∈ claims t)) as [Ht|Ht]; [by destruct (Hnot id Ht Hin)|]. rewrite Hother in Hid by done.
      destruct (H8 id Hid) as (j & u & Hj & Hju). exists j, u. split; [|done].
      rewrite list_lookup_insert_ne; [done|]. intros ->. by simplify_eq.
Qed.

(** A step of the watcher that leaves what the tasks hold. *)
Lemma inv_watch s f ts w : inv s →
  (∀ i t, ts !! i = Some t → tasks s !! i = Some t ∨ ∃ ids, t = Spawned ids false ∧ ids ≠ []) →
  (∀ i t, tasks s !! i = Some t → ts !! i = Some t) →
  (f = file s ∨ (∀ i t, tasks s !! i = Some t → ¬ busy t) ∧ ∀ id, recorded f !! id = Some running ↔ recorded (file s) !! id = Some running) →
  (∀ ids o, w = Cleaned ids o → cleanupHealthyGPUTestStatus ids (LoadRunnerStatus f) = (o, true)) →
  (watch_busy w → ∀ i t, tasks s !! i = Some t → ¬ busy t) →
  inv (MkRunner f ts w false).
Proof.
  intros [H1 H2 H3 H4 H5 H6 H7 H8] Hnew Hold Hf Hclean Hw.
  assert (Hrun : ∀ id, recorded f !! id = Some running ↔ recorded (file s) !! id = Some running).
  { destruct Hf as [->|[_ ?]]; done. }
  split; cbn; try done.
  - intros i j ti tj id [Hi|(ids & -> & _)]%Hnew [Hj|(ids' & -> & _)]%Hnew Hci Hcj; try (by apply elem_of_nil in Hci);
      try (by apply elem_of_nil in Hcj). by apply (H2 i j ti tj id).
  - intros i t id [Hi|(ids & -> & _)]%Hnew Ht Hin; [|done]. apply Hrun. by apply (H3 i t).
  - intros i t [Hi|(ids & -> & ?)]%Hnew; [|done]. destruct Hf as [->|[Hq _]]; [by eapply H4|].
    pose proof (H4 i t Hi). pose proof (Hq i t Hi) as Hb. destruct t; try done; by destruct Hb.
  - intros i j ti tj [Hi|(ids & -> & _)]%Hnew [Hj|(ids' & -> & _)]%Hnew; try done. by apply (H6 i j ti tj).
  - intros i t [Hi|(ids & -> & _)]%Hnew Hb; [|done]. intros Hwb. by destruct (Hw Hwb i t Hi).
  - intros id (i & t & Hi & Hin)%Hrun%H8. exists i, t. split; [by apply Hold|done].
Qed.

Lemma status_inv_start kfd idx f s : started kfd idx f s → inv s.
Proof.
  intros [m l1 l2 f1 f2 ids _ _ _ Hl2 Hrec]. destruct (recover_spec _ _ _ _ _ _ Hl2 Hrec) as [_ Hids].
  assert (Hts : ∀ i t, (if decide (ids = []) then [] else [Spawned ids true]) !! i = Some t →
    i = 0%nat ∧ t = Spawned ids true ∧ ids ≠ []).
  { intros i t. case_decide; [done|]. intros Hi. apply list_lookup_singleton_Some in Hi as [-> <-]. done. }
  split; cbn [file tasks watch panicked]; try done.
  - intros i j ti tj id (-> & _)%Hts (-> & _)%Hts _ _. done.
  - intros i t id (_ & -> & _)%Hts _ Hin. by apply Hids.
  - intros i t (_ & -> & ?)%Hts. done.
  - intros i j ti tj (-> & _)%Hts (-> & _)%Hts _ _. done.
  - by intros i t _ _ [].
  - intros id Hid%Hids. exists 0%nat, (Spawned ids true). rewrite decide_False; [done|]. intros ->. by apply elem_of_nil in Hid.
Qed.

Section runs.
Context (GetAllGPUIndexes : list string).

Abbreviation step := (TestStatus.step GetAllGPUIndexes).
Abbreviation run := (TestStatus.run GetAllGPUIndexes).

Lemma inv_check s i ids b : inv s → quiet s → tasks s !! i = Some (Spawned ids b) →
  let valid := if b then ids else filter (λ id, recorded (file s) !! id = None ∨ b = true) ids in
  inv (set_task i (if decide (ids ≠ [] ∧ valid = []) then Over else Checked valid (recorded (file s))) s).
Proof.
  intros Hi Hq Ht valid. pose proof (iv_fits s Hi i _ Ht) as Hne. cbn in Hne.
  destruct (decide (ids ≠ [] ∧ valid = [])) as [[_ Hv]|Hv].
  - eapply inv_task; [done|done| |done|done]. destruct b; [by destruct Hne|]. by left.
  - assert (valid ≠ []) by tauto. destruct b; eapply inv_task; try done.
    + by left.
    + cbn. split_and!; [done|done|]. right. intros id Hin. by apply (iv_held s Hi i _ id Ht).
    + by right.
    + right. split_and!; [done|done|intros []|]. cbn. by intros id [[?|?] _]%list_elem_of_filter.
    + cbn. split_and!; [done|done|]. left. by intros id [[?|?] _]%list_elem_of_filter.
    + by right.
Qed.

Lemma inv_saved s i ids o : inv s → tasks s !! i = Some (Begun ids o) →
  inv (set_file (SaveRunnerStatus (Some o)) (set_task i (Testing ids) s)).
Proof.
  intros Hi Ht. destruct (iv_fits s Hi i _ Ht) as (Hne & -> & _).
  eapply inv_save; try done; cbn [claims]; try (by auto).
  - right. by split_and!.
  - intros id Hin. change (default ∅ (Some ?x)) with x. by rewrite marked_lookup, decide_True.
  - intros id Hin. change (default ∅ (Some ?x)) with x. by rewrite marked_lookup, decide_False.
Qed.

(** The devices of a test that is over are in the file it loads. *)
Lemma updating_loaded s i ids o : inv s → tasks s !! i = Some (Updating ids o) →
  ∃ m, o = Some m ∧ m = recorded (file s) ∧ updateStatusDBAfterTestRun AUTO_UNHEALTHY_GPU_WATCH ids completed o =
    Some (Some (mark completed ids m)).
Proof.
  intros Hi Ht. destruct (iv_fits s Hi i _ Ht) as [Hne ->]. destruct ids as [|x ids]; [done|].
  pose proof (iv_held s Hi i _ x Ht I ltac:(by left)) as Hx. unfold recorded in *.
  destruct (LoadRunnerStatus (file s)) as [m|]; [by exists m|].
  change (default ∅ None) with (∅ : Statuses) in Hx. by rewrite lookup_empty in Hx.
Qed.

Lemma inv_updated s i ids m : inv s → tasks s !! i = Some (Updating ids (Some m)) → m = recorded (file s) →
  inv (set_file (SaveRunnerStatus (Some (mark completed ids m))) (set_task i Over s)).
Proof.
  intros Hi Ht ->. eapply inv_save; try done; cbn [claims]; try (intros id ?%elem_of_nil; done).
  - intros [].
  - by left.
  - intros id Hin _. change (default ∅ (Some ?x)) with x. by rewrite marked_lookup, decide_True.
  - intros id Hin. change (default ∅ (Some ?x)) with x. by rewrite marked_lookup, decide_False.
Qed.

Lemma inv_status_step lb s s' : inv s → (loads lb → quiet s) → step lb s = Some s' → inv s'.
Proof.
  intros Hi Hq. unfold TestStatus.step. rewrite (iv_panicked s Hi). destruct lb as [states| | |i|i|i|i|i|i].
  - destruct (watch s) eqn:Hw; try done. intros [= <-]. apply (inv_watch s); try done; [| |by left].
    + intros i t. case_decide; [by left|]. intros [?|[_ ?]]%lookup_app_Some; [by left|right].
      apply list_lookup_singleton_Some in H0 as [_ <-]. by eexists.
    + intros i t Ht. case_decide; [done|]. by apply lookup_app_l_Some.
  - destruct (watch s) as [|ids|] eqn:Hw; try done.
    destruct (cleanupHealthyGPUTestStatus ids (LoadRunnerStatus (file s))) as [o w] eqn:Hc. intros [= <-].
    apply (inv_watch s); try done; [by left|by left| |].
    + intros ids' o'. destruct w; [|done]. by intros [= <- <-].
    + intros _. apply Hq. done.
  - destruct (watch s) as [| |ids o] eqn:Hw; try done. intros [= <-]. apply (inv_watch s); try done; [by left|].
    right. split.
    + intros i t Ht Hb. pose proof (iv_busy_watch s Hi i t Ht Hb) as Hn. by rewrite Hw in Hn.
    + intros id. rewrite recorded_save. pose proof (cleanup_lookup ids (file s) id) as Hl.
      rewrite (iv_clean s Hi ids o Hw) in Hl. cbn [fst] in Hl. rewrite Hl. case_decide; naive_solver.
  - destruct (tasks s !! i) as [[ids b| | | | | |]|] eqn:Ht; try done. unfold removeIDsWithExistingTest. intros [= <-].
    apply inv_file; [by apply inv_check; [|apply Hq|]|].
    cbn [file set_task]. by destruct (file s).
  - destruct (tasks s !! i) as [[|ids o| | | | |]|] eqn:Ht; try done. intros [= <-].
    destruct (iv_fits s Hi i _ Ht) as (Hne & -> & Hown). rewrite decide_False by done.
    eapply inv_task; [done|done|by left|by split_and!|by left].
  - destruct (tasks s !! i) as [[| |ids o| | | |]|] eqn:Ht; try done. intros [= <-]. by apply inv_saved.
  - destruct (tasks s !! i) as [[| | |ids| | |]|] eqn:Ht; try done. intros [= <-].
    pose proof (iv_fits s Hi i _ Ht). eapply inv_task; [done|done|by left|done|done].
  - destruct (tasks s !! i) as [[| | | |ids| |]|] eqn:Ht; try done. intros [= <-].
    pose proof (iv_fits s Hi i _ Ht). eapply inv_task; [done|done|by left|done|]. right. by apply Hq.
  - destruct (tasks s !! i) as [[| | | | |ids o|]|] eqn:Ht; try done.
    destruct (updating_loaded s i ids o Hi Ht) as (m & -> & Hm & ->). intros [= <-]. by apply inv_updated.
Qed.

Lemma run_status_inv kfd idx f s0 l s : started kfd idx f s0 → run true s0 l s → inv s.
Proof. intros H0. induction 1; [by eapply status_inv_start|eapply inv_status_step; eauto]. Qed.
End runs.
