(* ===== verification/TestStatusTheorems.v ===== *)
(** The tests of the GPUs: what the status file promises when nobody loads it
    between another's load and save, what is lost when somebody does, what a
    restart finds, and the tests that are run once. *)

From S2P Require Import Prelude GoStd GpuHealth TestResults TestStatus TestStatusProofs.

Section theorems.
Context (GetAllGPUIndexes : list string).

Abbreviation step := (TestStatus.step GetAllGPUIndexes).
Abbreviation run := (TestStatus.run GetAllGPUIndexes).

Lemma under_test_claims t id : id ∈ under_test t → id ∈ claims t.
Proof. destruct t; cbn; try done; by intros ?%elem_of_nil. Qed.

(** C4: One test per GPU.  From any start on any file, however often the
    exporter is asked and whatever it answers, as long as nobody loads the
    status file between another's load and save: the program does not panic,
    no GPU is in two tests that run at the same time, and every GPU in a test
    whose start was saved is recorded as running. *)
Theorem tests_exclusive kfd idx f s0 l s (H0 : started kfd idx f s0) (Hrun : run true s0 l s) :
  panicked s = false ∧
  (∀ i j ti tj id, tasks s !! i = Some ti → tasks s !! j = Some tj → id ∈ under_test ti → id ∈ under_test tj → i = j) ∧
  (∀ i ids id, tasks s !! i = Some (Testing ids) → id ∈ ids → recorded (file s) !! id = Some running).
Proof.
  pose proof (run_status_inv GetAllGPUIndexes _ _ _ _ _ _ H0 Hrun) as Hi. split_and!.
  - apply (iv_panicked s Hi).
  - intros i j ti tj id Hti Htj Hci Hcj. apply (iv_disjoint s Hi i j ti tj id); auto using under_test_claims.
  - intros i ids id Ht Hin. by apply (iv_held s Hi i (Testing ids)).
Qed.

(** What the watcher cleans is the last answer. *)
Lemma last_poll calm kfd idx f s0 l s ids : started kfd idx f s0 → run calm s0 l s →
  watch s = Cleaning ids ∨ (∃ o, watch s = Cleaned ids o) →
  ∃ l1 states l2, l = l1 ++ Poll states :: l2 ∧ (∀ st, Poll st ∉ l2) ∧ ids = healthyGPUIDs states.
Proof.
  intros H0 Hrun. induction Hrun as [|l s lb s' Hrun IH Hq Hs].
  - destruct H0. cbn. by intros [?|[? ?]].
  - assert (Hkeep : (∀ st, lb ≠ Poll st) → (watch s' = Cleaning ids ∨ (∃ o, watch s' = Cleaned ids o) →
        watch s = Cleaning ids ∨ ∃ o, watch s = Cleaned ids o) →
      watch s' = Cleaning ids ∨ (∃ o, watch s' = Cleaned ids o) →
      ∃ l1 states l2, l ++ [lb] = l1 ++ Poll states :: l2 ∧ (∀ st, Poll st ∉ l2) ∧ ids = healthyGPUIDs states).
    { intros Hlb Hw (l1 & states & l2 & -> & Hno & ->)%Hw%IH. exists l1, states, (l2 ++ [lb]).
      rewrite <- app_assoc. split_and!; [done| |done].
      intros st [?|Heq%list_elem_of_singleton]%elem_of_app; [by apply (Hno st)|by apply (Hlb st)]. }
    revert Hs. unfold TestStatus.step. destruct (panicked s); [done|]. destruct lb as [states| | |i|i|i|i|i|i].
    { destruct (watch s); try done. intros [= <-]. cbn. intros [[= <-]|[? ?]]; [|done].
      exists l, states, []. split_and!; [done|by intros ? ?%elem_of_nil|done]. }
    all: intros Hs; apply Hkeep; [done|]; revert Hs.
    1: { destruct (watch s) as [|ids'|]; try done. destruct (cleanupHealthyGPUTestStatus _ _) as [o []]; intros [= <-]; cbn.
         - intros [?|[? [= -> _]]]; [done|by left].
         - by intros [?|[? ?]]. }
    1: { destruct (watch s); try done. intros [= <-]. cbn. by intros [?|[? ?]]. }
    all: destruct (tasks s !! i) as [[]|]; try done; try (by intros [= <-]).
    destruct (updateStatusDBAfterTestRun _ _ _ _); by intros [= <-].
Qed.

(** C13: How a recorded status changes.  In such a run a step changes the
    status of a GPU in three ways only: from none to running, when the start
    of its test is saved; from running to completed, when the end of its test
    is; and from anything but running to none, when the last answer of the
    exporter has shown the GPU healthy. *)
Theorem status_lifecycle kfd idx f s0 l s lb s' id (H0 : started kfd idx f s0) (Hrun : run true s0 l s)
    (Hq : loads lb → quiet s) (Hs : step lb s = Some s') (Hch : recorded (file s') !! id ≠ recorded (file s) !! id) :
  (∃ i ids o, lb = Save i ∧ tasks s !! i = Some (Begun ids o) ∧ id ∈ ids ∧
    recorded (file s) !! id = None ∧ recorded (file s') !! id = Some running) ∨
  (∃ i ids o, lb = Update i ∧ tasks s !! i = Some (Updating ids o) ∧ id ∈ ids ∧
    recorded (file s) !! id = Some running ∧ recorded (file s') !! id = Some completed) ∨
  (lb = CleanSave ∧ recorded (file s) !! id ≠ Some running ∧ recorded (file s') !! id = None ∧
    ∃ l1 states l2, l = l1 ++ Poll states :: l2 ∧ (∀ st, Poll st ∉ l2) ∧ id ∈ healthyGPUIDs states).
Proof.
  pose proof (run_status_inv GetAllGPUIndexes _ _ _ _ _ _ H0 Hrun) as Hi. revert Hs. unfold TestStatus.step.
  rewrite (iv_panicked s Hi). destruct lb as [states| | |i|i|i|i|i|i].
  - destruct (watch s); try done. by intros [= <-].
  - destruct (watch s); try done. destruct (cleanupHealthyGPUTestStatus _ _). by intros [= <-].
  - destruct (watch s) as [| |ids o] eqn:Hw; try done. intros [= <-]. right; right. cbn [file] in *. revert Hch.
    rewrite recorded_save. pose proof (cleanup_lookup ids (file s) id) as Hl. rewrite (iv_clean s Hi ids o Hw) in Hl.
    cbn [fst] in Hl. rewrite Hl. case_decide as Hd; [|done]. intros _. destruct Hd as [Hin Hr]. split_and!; try done.
    destruct (last_poll true _ _ _ _ _ _ ids H0 Hrun) as (l1 & states & l2 & ? & ? & ->); [right; by eexists|].
    by exists l1, states, l2.
  - destruct (tasks s !! i) as [[]|]; try done. unfold removeIDsWithExistingTest. intros [= <-].
    destruct Hch. cbn [file set_file set_task]. by destruct (file s).
  - destruct (tasks s !! i) as [[]|]; try done. by intros [= <-].
  - destruct (tasks s !! i) as [[| |ids o| | | |]|] eqn:Ht; try done. intros [= <-]. left. exists i, ids, o.
    destruct (iv_fits s Hi i _ Ht) as (_ & -> & Hown). revert Hch. cbn [file set_file]. rewrite recorded_save.
    change (default ∅ (Some ?x)) with x. rewrite marked_lookup. case_decide as Hin; [|done]. intros Hne. split_and!; try done.
    destruct Hown as [Hfree|Hr]; [by apply Hfree|]. by rewrite Hr in Hne.
  - destruct (tasks s !! i) as [[]|]; try done. by intros [= <-].
  - destruct (tasks s !! i) as [[]|]; try done. by intros [= <-].
  - destruct (tasks s !! i) as [[| | | | |ids o|]|] eqn:Ht; try done.
    destruct (updating_loaded s i ids o Hi Ht) as (m & -> & -> & ->). intros [= <-]. right; left. exists i, ids, (Some (recorded (file s))).
    revert Hch. cbn [file set_file]. rewrite recorded_save. change (default ∅ (Some ?x)) with x. rewrite marked_lookup.
    case_decide as Hin; [|done]. intros _. split_and!; try done. by apply (iv_held s Hi i _ id Ht).
Qed.

(** C20: A restart, at any moment of such a run, on a machine where no recorded
    GPU without an index is a KFD identifier: a GPU whose test was saved as
    begun and not yet saved as over is tested again at once if it still has
    an index; and only GPUs are that some test had taken. *)
Theorem restart_reruns kfd idx f s0 l s kfd' idx' s' (H0 : started kfd idx f s0) (Hrun : run true s0 l s)
    (Hre : started kfd' idx' (file s) s')
    (Hk : ∀ id, is_Some (recorded (file s) !! id) → idx' !! id = None → kfd' !! id = None) id :
  let again := ∃ ids, tasks s' = [Spawned ids true] ∧ id ∈ ids in
  (again → is_Some (idx' !! id) ∧ ∃ i t, tasks s !! i = Some t ∧ id ∈ claims t) ∧
  (∀ i t, is_Some (idx' !! id) → tasks s !! i = Some t → held t → id ∈ claims t → again).
Proof.
  pose proof (run_status_inv GetAllGPUIndexes _ _ _ _ _ _ H0 Hrun) as Hi.
  inversion Hre as [m l1 l2 f1 f2 ids Hf Hl1 Hf1 Hl2 Hrec Heq].
  destruct (recover_spec _ _ _ _ _ _ Hl2 Hrec) as [Hlook Hids].
  assert (Hm : ∀ id, recorded (file s) !! id = m !! id).
  { intros id'. rewrite Hf. unfold recorded, LoadRunnerStatus. destruct (decide (m = ∅)) as [->|]; done. }
  assert (Hrunning : id ∈ ids ↔ is_Some (idx' !! id) ∧ recorded (file s) !! id = Some running).
  { rewrite Hids, Hlook, <- Hf1. unfold transformRunnerStatus. rewrite recorded_save. change (default ∅ (Some ?x)) with x.
    rewrite (transform_indexes kfd' idx' l1 m id Hl1), Hm.
    2:{ intros id' st Hst. apply Hk. rewrite Hm, Hst. by eexists. }
    unfold known. destruct (decide (is_Some (idx' !! id) ∨ is_Some (kfd' !! id))), (decide (is_Some (idx' !! id))); naive_solver. }
  assert (Hagain : (∃ ids, tasks s' = [Spawned ids true] ∧ id ∈ ids) ↔ id ∈ ids).
  { rewrite <- Heq. cbn [tasks]. destruct (decide (ids = [])) as [->|Hne]; [|naive_solver].
    split; [by intros (? & ? & _)|by intros ?%elem_of_nil]. }
  cbn zeta. rewrite Heq, Hagain, Hrunning. split.
  - intros [? Hr]. split; [done|]. exact (iv_running s Hi id Hr).
  - intros i t ? Ht Hh Hin. apply Hagain, Hrunning. split; [done|]. by apply (iv_held s Hi i t).
Qed.
End theorems.

(** ** The tests that are run once *)

Definition failed_outcome (o : outcome) : bool :=
  match o with TooLong | Signal | Verdict Failure | Verdict Timedout => true | _ => false end.

(** The file after the update of a test on [ids] that had recorded [m]. *)
Lemma once_updated t ids m status : t ≠ AUTO_UNHEALTHY_GPU_WATCH → (∀ id, id ∉ ids → m !! id = None) →
  let f := SaveRunnerStatus (Some (mark running ids m)) in
  recorded match updateStatusDBAfterTestRun t ids status (LoadRunnerStatus f) with
    | Some o => SaveRunnerStatus o | None => f end = ∅.
Proof.
  intros Ht Hm f. assert (H : ∀ o, o = (λ m, foldl (λ m id, delete id m) m ids) <$> LoadRunnerStatus f →
    recorded (SaveRunnerStatus o) = ∅).
  { intros o ->. rewrite recorded_save. apply map_eq. intros id. rewrite lookup_empty.
    destruct (LoadRunnerStatus f) as [m'|] eqn:Hl; cbn [fmap option_fmap option_map]; [|apply lookup_empty].
    change (default ∅ (Some ?x)) with x. rewrite delete_all_lookup. case_decide as Hin; [done|].
    assert (m' = mark running ids m) as ->.
    { revert Hl. unfold f, SaveRunnerStatus, LoadRunnerStatus. change (default ∅ (Some ?x)) with x. case_decide; [done|]. by intros [= <-]. }
    rewrite marked_lookup, decide_False by done. by apply Hm. }
  destruct t; [done| |]; by apply H.
Qed.

(** C23: A test of a trigger that runs once, on a machine with GPUs, whatever
    its outcome, a timeout and a signal included: afterwards nothing is
    recorded, and the exit status is 1 exactly if the test was too long, was
    interrupted, failed or timed out.  So the next run tests what it is
    configured to test. *)
Theorem manual_contract all t f DeviceIDs entries o (Ht : t ≠ AUTO_UNHEALTHY_GPU_WATCH) (Hall : all ≠ [])
    (He : entries ≡ₚ (map_to_list (recorded f)).*1) :
  let '(f', status) := manualTestGPU all t f DeviceIDs entries o in
  recorded f' = ∅ ∧ (status = if failed_outcome o then 1 else 0)%Z.
Proof.
  assert (Hent : ∀ id, id ∈ entries ↔ is_Some (recorded f !! id)).
  { intros id. rewrite He, list_elem_of_fmap. split.
    - intros ([id' st] & -> & Hin%elem_of_map_to_list). by exists st.
    - intros [st Hst]. exists (id, st). split; [done|]. by apply elem_of_map_to_list. }
  assert (Honce : ∀ ids b, (recorded f = ∅ ∧ b = false ∨ b = true ∧ entries = ids ∧ recorded f ≠ ∅) →
    let '(f', status) := testGPU_once all t f ids b o in
    recorded f' = ∅ ∧ (status = if failed_outcome o then 1 else 0)%Z).
  { intros ids b Hb. unfold testGPU_once, removeIDsWithExistingTest.
    set (valid := if b then ids else filter _ ids). assert (Hvalid : valid = ids).
    { unfold valid. destruct Hb as [[Hr ->]|(-> & _ & _)]; [|done]. apply filter_id, Forall_forall.
      intros id _. left. by rewrite Hr, lookup_empty. }
    rewrite Hvalid, decide_False by tauto.
    set (ids' := if decide (ids = []) then all else ids). assert (Hne : ids' ≠ []).
    { unfold ids'. by case_decide. }
    assert (Hm : ∀ id, id ∉ ids' → recorded f !! id = None).
    { intros id Hid. destruct Hb as [[Hr _]|(_ & <- & Hr)]; [by rewrite Hr, lookup_empty|].
      unfold ids' in Hid. destruct (decide (entries = [])) as [Hn|_].
      - destruct (recorded f !! id) eqn:Hl; [|done]. assert (Hin : id ∈ entries) by (apply Hent; by eexists).
        rewrite Hn in Hin. by apply elem_of_nil in Hin.
      - destruct (recorded f !! id) eqn:Hl; [|done]. destruct Hid. apply Hent. by eexists. }
    pose proof (λ st, once_updated t ids' (recorded f) st Ht Hm) as Hup. cbn zeta in Hup.
    destruct o as [|[]|]; cbn zeta; try (split; [apply Hup|done]);
      (destruct t; [done| |]; rewrite decide_False by done; (split; [apply Hup|done])). }
  unfold manualTestGPU. rewrite decide_False by done. destruct (decide (0 < size (recorded f))%nat) as [Hs|Hs].
  - apply (Honce entries true). right. split_and!; [done|done|]. intros Hr. rewrite Hr, map_size_empty in Hs. lia.
  - apply (Honce DeviceIDs false). left. split; [|done]. apply map_size_empty_inv. lia.
Qed.

(** ** Runs *)

Definition stored (f : status_file) : option Statuses := match f with Stored m => Some m | _ => None end.

(** A start with one order of the visits. *)
Definition restart (kfd idx : gmap string string) (m : Statuses) : runner :=
  let f1 := transformRunnerStatus kfd idx (map_to_list m) in
  let r := recover kfd idx f1 (map_to_list (recorded f1)) in
  MkRunner r.1 (if decide (r.2 = []) then [] else [Spawned r.2 true]) Idle false.

Lemma restart_started kfd idx f m : stored f = Some m → started kfd idx f (restart kfd idx m).
Proof.
  destruct f; try done. intros [= ->].
  by eapply started_intro; [done|done|done|done|apply surjective_pairing].
Qed.

Definition busyb (t : task) : bool := match t with Checked _ _ | Begun _ _ | Updating _ _ => true | _ => false end.

Definition quietb (s : runner) : bool :=
  forallb (λ t, negb (busyb t)) (tasks s) && match watch s with Cleaned _ _ => false | _ => true end.

Lemma quietb_quiet s : quietb s = true → quiet s.
Proof.
  unfold quietb. intros [Ht Hw]%andb_prop. rewrite forallb_forall in Ht. split.
  - intros i t Hi Hb. specialize (Ht t). rewrite <- list_elem_of_In in Ht.
    specialize (Ht ltac:(by eapply list_elem_of_lookup_2)). by destruct t.
  - intros Hb. by destruct (watch s).
Qed.

Definition loadsb (lb : label) : bool := match lb with CleanLoad | Check _ | Reload _ => true | _ => false end.

Fixpoint steps (all : list string) (calm : bool) (l : list label) (s : runner) : option runner :=
  match l with
  | [] => Some s
  | lb :: l => if calm && loadsb lb && negb (quietb s) then None else step all lb s ≫= steps all calm l
  end.

Lemma status_steps_snoc all calm l lb s : steps all calm (l ++ [lb]) s = steps all calm l s ≫= steps all calm [lb].
Proof.
  revert s. induction l as [|lb' l IH]; intros s; [done|]. cbn [steps app]. destruct (_ && _ && _); [done|].
  destruct (step all lb' s); [apply IH|done].
Qed.

Lemma status_steps_run all calm l s s' : steps all calm l s = Some s' → run all calm s l s'.
Proof.
  revert s'. induction l as [|lb l IH] using rev_ind; intros s'; [intros [= <-]; constructor|].
  rewrite status_steps_snoc. destruct (steps all calm l s) as [s1|] eqn:Hs; [|done]. cbn [mbind option_bind steps].
  destruct (_ && _ && _) eqn:Hc; [done|]. destruct (step all lb s1) as [s2|] eqn:Hs2; [|done]. intros [= <-].
  econstructor; [by apply IH| |done]. intros -> Hl. apply quietb_quiet. destruct (quietb s1); [done|]. by destruct lb.
Qed.

Definition after (all : list string) (calm : bool) (l : list label) (s : runner) : runner :=
  default s (steps all calm l s).

Lemma after_status_run all calm l s : present (steps all calm l s) = true → run all calm s l (after all calm l s).
Proof. intros Hp. apply status_steps_run. by apply present_some. Qed.

Definition idx2 : gmap string string := {["0" := "100"; "1" := "101"]}.
Definition kfd2 : gmap string string := {["100" := "0"; "101" := "1"]}.
Definition ill (id : string) : GPUState := MkState id "" "unhealthy" "" [].

(** An interrupted test of GPU 1 is run again; then GPU 0 is tested too. *)
Definition start1 : runner := restart kfd2 idx2 {["1" := running]}.
Definition run1 : list label := [Check 0; Begin 0; Save 0; Poll [ill "0"; ill "1"]; CleanLoad; Check 1; Begin 1].

Lemma tests_exclusive_witness :
  let s := after ["0"; "1"] true (run1 ++ [Save 1]) start1 in
  panicked s = false ∧
  (∀ i j ti tj id, tasks s !! i = Some ti → tasks s !! j = Some tj → id ∈ under_test ti → id ∈ under_test tj → i = j) ∧
  (∀ i ids id, tasks s !! i = Some (Testing ids) → id ∈ ids → recorded (file s) !! id = Some running).
Proof.
  intros s. apply (tests_exclusive ["0"; "1"] kfd2 idx2 (Stored {["1" := running]}) start1 (run1 ++ [Save 1])).
  - by apply restart_started.
  - apply after_status_run. by_compute.
Defined.

Lemma status_lifecycle_witness :
  let s := after ["0"; "1"] true run1 start1 in
  let s' := after ["0"; "1"] true [Save 1] s in
  (∃ i ids o, Save 1 = Save i ∧ tasks s !! i = Some (Begun ids o) ∧ "0" ∈ ids ∧
    recorded (file s) !! "0" = None ∧ recorded (file s') !! "0" = Some running) ∨
  (∃ i ids o, Save 1 = Update i ∧ tasks s !! i = Some (Updating ids o) ∧ "0" ∈ ids ∧
    recorded (file s) !! "0" = Some running ∧ recorded (file s') !! "0" = Some completed) ∨
  (Save 1 = CleanSave ∧ recorded (file s) !! "0" ≠ Some running ∧ recorded (file s') !! "0" = None ∧
    ∃ l1 states l2, run1 = l1 ++ Poll states :: l2 ∧ (∀ st, Poll st ∉ l2) ∧ "0" ∈ healthyGPUIDs states).
Proof.
  intros s s'. apply (status_lifecycle ["0"; "1"] kfd2 idx2 (Stored {["1" := running]}) start1 run1 s (Save 1) s').
  - by apply restart_started.
  - apply after_status_run. by_compute.
  - intros [].
  - apply (present_some s). by_compute.
  - by_decide.
Defined.

Lemma restart_reruns_witness :
  let s := after ["0"; "1"] true (run1 ++ [Save 1]) start1 in
  let s' := restart kfd2 idx2 (default ∅ (stored (file s))) in
  let again := ∃ ids, tasks s' = [Spawned ids true] ∧ "0" ∈ ids in
  (again → is_Some (idx2 !! "0") ∧ ∃ i t, tasks s !! i = Some t ∧ "0" ∈ claims t) ∧
  (∀ i t, is_Some (idx2 !! "0") → tasks s !! i = Some t → held t → "0" ∈ claims t → again).
Proof.
  intros s s'. apply (restart_reruns ["0"; "1"] kfd2 idx2 (Stored {["1" := running]}) start1 (run1 ++ [Save 1]) s kfd2 idx2).
  - by apply restart_started.
  - apply after_status_run. by_compute.
  - apply restart_started. apply present_some. by_compute.
  - intros id Hid Hn. assert (Hdom : Forall (λ e, is_Some (idx2 !! e.1)) (map_to_list (recorded (file s)))) by by_decide.
    destruct Hid as [st Hst]. rewrite Forall_forall in Hdom.
    destruct (Hdom (id, st)) as [k Hk]; [by apply elem_of_map_to_list|]. cbn in Hk. congruence.
Defined.

Lemma manual_contract_witness :
  let '(f', status) := manualTestGPU ["0"; "1"] MANUAL (Stored {["1" := running]}) ["0"] ["1"] (Verdict Failure) in
  recorded f' = ∅ ∧ (status = if failed_outcome (Verdict Failure) then 1 else 0)%Z.
Proof. apply manual_contract; [done|done|]. by_decide. Defined.

(** The start of a test is saved between the load and the save of the
    watcher, which found the file empty. *)
Definition lost_run : list label := [Poll [ill "0"]; CleanLoad; Check 0; Begin 0; Save 0; CleanSave].

(** Without that discipline, which nothing in the code enforces, an update
    is lost: on a node with one unhealthy GPU and an empty status file the
    watcher overwrites the start of the first test; the next answer starts a
    second test on the same GPU while the first is running, and the end of
    the first, which finds nothing recorded, is a panic. *)
Theorem lost_update :
  let s0 := restart kfd2 idx2 ∅ in
  started kfd2 idx2 (Stored ∅) s0 ∧
  (∃ s, run ["0"; "1"] false s0 (lost_run ++ [Poll [ill "0"]; CleanLoad; CleanSave; Check 1; Begin 1]) s ∧
    (under_test <$> tasks s) = [["0"]; ["0"]]) ∧
  (∃ s, run ["0"; "1"] false s0 (lost_run ++ [End 0; Reload 0; Update 0]) s ∧ panicked s = true).
Proof.
  intros s0. split_and!.
  - by apply restart_started.
  - eexists. split; [apply after_status_run; by_compute|by_decide].
  - eexists. split; [apply after_status_run; by_compute|by_decide].
Qed.
