(* ===== verification/TestConfig.v ===== *)
(** The configuration of the test runner: the messages of
    [src/pkg/testrunner/proto/config.proto]; [readCfg], [setConfigDefaults],
    [normalizeConfig], [validateCfg], [getTestParameters],
    [findGPUModelFolder] and [setTestRunner] of
    [src/pkg/testrunner/testrunner.go].

    Pointers are options.  A map that is only visited, and then built anew
    with keys in upper case, is the list of its entries in the order of the
    visit: of two keys that differ in case only, the last one visited stays.
    The file system and the tools answer as arguments. *)

From S2P Require Import Prelude GoStd TestStatus.
Local Open Scope Z_scope.

Record TestParameter : Type := MkParameter {
  Recipe : option string;
  TimeoutSeconds : option Z;
  Iterations : option Z;
  StopOnFailure : option bool;
  DeviceIDs : list string;
  Framework : option string;
  Arguments : option string;
}.

Record TestLogsExportConfig : Type := MkExport { Provider : string; BucketName : string; SecretName : string }.

Record TestParameters : Type := MkParameters {
  TestCases : list (option TestParameter);
  LogsExportConfig : list TestLogsExportConfig;
}.

(** As read: entries in the order of the visit; values can be null. *)
Abbreviation TriggerEntries := (list (string * option TestParameters)).
Abbreviation LocationEntries := (list (string * option TriggerEntries)).
Abbreviation TestRunnerConfig := (list (string * option LocationEntries)).

(** After [normalizeConfig]. *)
Abbreviation TestTriggerConfig := (gmap string (option TestParameters)).
Abbreviation TestCategoryConfig := (gmap string TestTriggerConfig).
Abbreviation NormalizedConfig := (gmap string TestCategoryConfig).

(** ** Defaults *)

Definition RVS : string := "RVS".
Definition AGFHC : string := "AGFHC".
Definition GlobalTestTriggerKeyword : string := "global".
Definition DefaultRVSRecipeName : string := "gst_single".
Definition DefaultAGFHCRecipeName : string := "all_lvl1".
Definition DefaultTestCaseTimeoutInSeconds : Z := 3600.
Definition DefaultIterations : Z := 1.
Definition DefaultStopOnFailure : bool := true.

Definition or_default {A} (d : A) (o : option A) : option A := match o with None => Some d | _ => o end.

Definition default_case (testCase : TestParameter) : TestParameter :=
  let framework := default RVS (Framework testCase) in
  MkParameter
    (match Recipe testCase with
     | None =>
         if decide (framework = RVS) then Some DefaultRVSRecipeName
         else if decide (framework = AGFHC) then Some DefaultAGFHCRecipeName else None
     | r => r
     end)
    (or_default DefaultTestCaseTimeoutInSeconds (TimeoutSeconds testCase))
    (or_default DefaultIterations (Iterations testCase))
    (or_default DefaultStopOnFailure (StopOnFailure testCase))
    (DeviceIDs testCase) (Some framework) (Arguments testCase).

Definition default_params (p : TestParameters) : TestParameters :=
  MkParameters (map (option_map default_case) (TestCases p)) (LogsExportConfig p).

Definition default_values {A B} (f : A → B) (entries : list (string * option A)) : list (string * option B) :=
  map (λ e, (e.1, option_map f e.2)) entries.

Definition setConfigDefaults : TestRunnerConfig → TestRunnerConfig :=
  default_values (default_values (default_values default_params)).

(** ** Keys *)

Definition normalize_triggers (t : TriggerEntries) : TestTriggerConfig :=
  foldl (λ m '(trigger, params), <[ToUpper trigger := params]> m) ∅ t.

Definition normalize_locations (c : LocationEntries) : TestCategoryConfig :=
  foldl (λ m '(location, t), match t with Some t => <[location := normalize_triggers t]> m | None => m end) ∅ c.

Definition normalizeConfig (cfg : TestRunnerConfig) : NormalizedConfig :=
  foldl (λ m '(category, c), match c with Some c => <[ToUpper category := normalize_locations c]> m | None => m end)
    ∅ cfg.

(** ** The default configuration *)

Definition default_test : TestParameters :=
  MkParameters [Some (MkParameter (Some "gst_single") (Some 3600) (Some 1) (Some true) [] (Some RVS) None)] [].

Definition defaultGlobalTestRunnerConfig : TestRunnerConfig :=
  [("GPU_HEALTH_CHECK", Some [(GlobalTestTriggerKeyword, Some
     [("AUTO_UNHEALTHY_GPU_WATCH", Some default_test); ("PRE_START_JOB_CHECK", Some default_test);
      ("MANUAL", Some default_test)])])].

(** What became of the file. *)
Inductive config_file : Type :=
  | Unreadable                       (* cannot be opened or read *)
  | Invalid                          (* cannot be parsed *)
  | Parsed (cfg : TestRunnerConfig).

(** [None]: the program exits with status 1. *)
Definition readCfg (f : config_file) : option NormalizedConfig :=
  match f with
  | Unreadable => Some (normalizeConfig defaultGlobalTestRunnerConfig)
  | Invalid => None
  | Parsed cfg => Some (normalizeConfig (setConfigDefaults cfg))
  end.

(** ** The folder of the recipes of a GPU model *)

(** What [baseDir/gpuModel] is, and the entries of [baseDir] with whether
    they are directories; [None]: no such file, or no answer. *)
Definition findGPUModelFolder (exact : option bool) (entries : option (list (string * bool))) (gpuModel : string) : string :=
  match exact with
  | Some true => gpuModel
  | Some false => ""
  | None => default "" (fst <$> (head (filter (λ e, e.2 = true ∧ EqualFold e.1 gpuModel = true) (default [] entries))))
  end.

Definition MI350XAlias : string := "gfx950-dlc".
Definition MI355XAlias : string := "gfx950".

(** ** Validation *)

Inductive validation (A : Type) : Type := Ok (a : A) | Exit1 | Panic.
Arguments Ok {A} a. Arguments Exit1 {A}. Arguments Panic {A}.

Section validate.
Context (hostName testCategory testTrigger : string).
Context (gpuModel : option string).      (* [getGPUModelTestRecipeDir] *)
Context (find : string → string).        (* [findGPUModelFolder] in the folder of RVS *)
Context (rvs_recipe agfhc_recipe : string → string → bool).  (* whether model/recipe is a file *)

(** The first test case of the trigger at a location. *)
Definition location_case (t : TestTriggerConfig) : validation TestParameter :=
  match t !! testTrigger with
  | None => Exit1
  | Some None => Panic
  | Some (Some params) => match TestCases params with Some c :: _ => Ok c | _ => Exit1 end
  end.

(** The folder name RVS uses. *)
Definition rvs_folder : string :=
  let m := default "" gpuModel in
  let m :=
    if decide (m = "MI350X") then (if decide (find m = "") then MI350XAlias else find m)
    else if decide (m = "MI355X") then (if decide (find m = "") then MI355XAlias else find m)
    else m in
  if decide (default "" gpuModel = "") then "" else find m.

(** [Some]: the name of the folder that is kept, if it is changed. *)
Definition check_recipe (c : TestParameter) : option (option string) :=
  let framework := ToUpper (default "" (Framework c)) in
  let recipe := default "" (Recipe c) in
  if decide (framework = RVS) then
    if rvs_recipe rvs_folder recipe
    then Some (if decide (default "" gpuModel = "") then None else Some rvs_folder) else None
  else if decide (framework = AGFHC) then
    let m := ToLower (default "" gpuModel) in
    if decide (default "" gpuModel = "") then None
    else if agfhc_recipe m recipe then Some (Some m) else None
  else Some None.

Record valid : Type := MkValid {
  testLocation : string;
  testCase : TestParameter;
  testCfgGPUModelName : option string;
}.

Definition validateCfg (cfg : NormalizedConfig) : validation valid :=
  match cfg !! testCategory with
  | None => Exit1
  | Some category =>
      let at_location loc t :=
        match location_case t with
        | Ok c =>
            match check_recipe c with
            | None => Exit1
            | Some m =>
                if decide (default 0 (Iterations c) = 0) then Exit1
                else if decide (default 0 (TimeoutSeconds c) = 0) then Exit1
                else Ok (MkValid loc c m)
            end
        | Exit1 => Exit1
        | Panic => Panic
        end in
      match category !! hostName, category !! GlobalTestTriggerKeyword with
      | Some t, _ => at_location hostName t
      | None, Some t => at_location GlobalTestTriggerKeyword t
      | None, None => Exit1
      end
  end.

Definition getTestParameters (cfg : NormalizedConfig) (loc : string) : option TestParameters :=
  category ← cfg !! testCategory;
  t ← category !! loc;
  mjoin (t !! testTrigger).

(** The kind of runner, or the exit of [setTestRunner]. *)
Inductive TestRunnerType : Type := RVSRunner | AGFHCRunner.

Definition runner_type (c : TestParameter) : option TestRunnerType :=
  let framework := ToUpper (default "" (Framework c)) in
  if decide (framework = RVS) then Some RVSRunner
  else if decide (framework = AGFHC) then Some AGFHCRunner else None.
End validate.

(** ** What holds *)

(** A configuration that is accepted can be used: the parameters of the
    trigger are found at the location chosen - that of the host if the
    configuration has it, else the global one - their first test case is
    there, runs at least once with a timeout, and its recipe is a file of the
    framework it names, if that is RVS or AGFHC in any case. *)
Theorem accepted_config host category trigger model find rvs agfhc cfg v
    (Hv : validateCfg host category trigger model find rvs agfhc cfg = Ok v) :
  (∃ params rest, getTestParameters category trigger cfg (testLocation v) = Some params ∧
    TestCases params = Some (testCase v) :: rest) ∧
  testLocation v = (if decide (is_Some (cfg !! category ≫= λ c, c !! host)) then host else GlobalTestTriggerKeyword) ∧
  (∃ n t, Iterations (testCase v) = Some n ∧ n ≠ 0 ∧ TimeoutSeconds (testCase v) = Some t ∧ t ≠ 0) ∧
  (runner_type (testCase v) = Some RVSRunner →
    rvs (rvs_folder model find) (default "" (Recipe (testCase v))) = true) ∧
  (runner_type (testCase v) = Some AGFHCRunner →
    ∃ m, model = Some m ∧ m ≠ "" ∧ agfhc (ToLower m) (default "" (Recipe (testCase v))) = true).
Proof.
  revert Hv. unfold validateCfg, getTestParameters. destruct (cfg !! category) as [cat|]; [|done]. cbn [mbind option_bind].
  assert (H : ∀ loc t, cat !! loc = Some t →
    match location_case trigger t with
    | Ok c => match check_recipe model find rvs agfhc c with
              | None => Exit1
              | Some m => if decide (default 0 (Iterations c) = 0) then Exit1
                          else if decide (default 0 (TimeoutSeconds c) = 0) then Exit1 else Ok (MkValid loc c m)
              end
    | Exit1 => Exit1
    | Panic => Panic
    end = Ok v →
    testLocation v = loc ∧ (∃ params rest, mjoin (t !! trigger) = Some params ∧ TestCases params = Some (testCase v) :: rest) ∧
    (∃ n t, Iterations (testCase v) = Some n ∧ n ≠ 0 ∧ TimeoutSeconds (testCase v) = Some t ∧ t ≠ 0) ∧
    is_Some (check_recipe model find rvs agfhc (testCase v))).
  { intros loc t Ht. unfold location_case. destruct (t !! trigger) as [[params|]|]; try done.
    destruct (TestCases params) as [|[c|] rest] eqn:Hc; try done. destruct (check_recipe _ _ _ _ c) as [m|] eqn:Hr; [|done].
    destruct (decide (default 0 (Iterations c) = 0)) as [|Hi]; [done|].
    destruct (decide (default 0 (TimeoutSeconds c) = 0)) as [|Hs]; [done|]. intros [= <-]. cbn [testLocation testCase].
    split_and!; [done|by exists params, rest| |by rewrite Hr].
    destruct (Iterations c) as [n|]; [|done]. destruct (TimeoutSeconds c) as [s|]; [|done]. by exists n, s. }
  assert (Hrec : is_Some (check_recipe model find rvs agfhc (testCase v)) →
    (runner_type (testCase v) = Some RVSRunner → rvs (rvs_folder model find) (default "" (Recipe (testCase v))) = true) ∧
    (runner_type (testCase v) = Some AGFHCRunner →
      ∃ m, model = Some m ∧ m ≠ "" ∧ agfhc (ToLower m) (default "" (Recipe (testCase v))) = true)).
  { unfold check_recipe, runner_type. intros [m Hm]. case_decide; [split; [|done]|case_decide; [split; [done|]|done]].
    - intros _. by destruct (rvs _ _).
    - intros _. destruct model as [m'|]; [|done]. cbn [default from_option] in *. case_decide; [done|]. exists m'.
      split_and!; [done|done|]. by destruct (agfhc _ _). }
  destruct (cat !! host) as [t|] eqn:Hh; [|destruct (cat !! GlobalTestTriggerKeyword) as [t|] eqn:Hg; [|done]].
  - intros Hok. destruct (H host t Hh Hok) as (-> & Hp & Hn & Hr). rewrite Hh, decide_True by by eexists.
    specialize (Hrec Hr). by destruct Hrec.
  - intros Hok. destruct (H _ t Hg Hok) as (-> & Hp & Hn & Hr). rewrite Hg, decide_False by (by intros [? ?]).
    specialize (Hrec Hr). by destruct Hrec.
Qed.

(** A folder with one recipe, for one model. *)
Definition one_recipe (m r : string) : bool := bool_decide (m = "MI300X") && bool_decide (r = "gst_single").

Lemma accepted_config_witness :
  let cfg := normalizeConfig defaultGlobalTestRunnerConfig in
  let v := MkValid "global" (MkParameter (Some "gst_single") (Some 3600) (Some 1) (Some true) [] (Some RVS) None) (Some "MI300X") in
  (∃ params rest, getTestParameters "GPU_HEALTH_CHECK" "MANUAL" cfg (testLocation v) = Some params ∧
    TestCases params = Some (testCase v) :: rest) ∧
  testLocation v = (if decide (is_Some (cfg !! "GPU_HEALTH_CHECK" ≫= λ c, c !! "node")) then "node" else GlobalTestTriggerKeyword) ∧
  (∃ n t, Iterations (testCase v) = Some n ∧ n ≠ 0 ∧ TimeoutSeconds (testCase v) = Some t ∧ t ≠ 0) ∧
  (runner_type (testCase v) = Some RVSRunner →
    one_recipe (rvs_folder (Some "MI300X") (λ m, m)) (default "" (Recipe (testCase v))) = true) ∧
  (runner_type (testCase v) = Some AGFHCRunner → ∃ m, Some "MI300X" = Some m ∧ m ≠ "" ∧ false = true).
Proof.
  intros cfg v. apply (accepted_config "node" "GPU_HEALTH_CHECK" "MANUAL" (Some "MI300X") (λ m, m)
    one_recipe (λ _ _, false) cfg v).
  vm_compute. reflexivity.
Defined.

(** A test case keeps what is given and has a value for every field the
    validation reads but the recipe: that stays unset if the framework is
    given and is not exactly the name of one, although the rest of the code
    reads it in any case. *)
Lemma defaults_recipe c : Recipe (default_case c) = None ↔
  Recipe c = None ∧ ∃ f, Framework c = Some f ∧ f ≠ RVS ∧ f ≠ AGFHC.
Proof.
  unfold default_case. cbn [Recipe]. destruct (Recipe c); [naive_solver|].
  destruct (Framework c) as [f|]; cbn [default from_option].
  - repeat case_decide; naive_solver.
  - split; [done|]. by intros [_ (? & ? & _)].
Qed.

Lemma defaults_keep c :
  (∀ r, Recipe c = Some r → Recipe (default_case c) = Some r) ∧
  Framework (default_case c) = Some (default RVS (Framework c)) ∧
  Iterations (default_case c) = Some (default DefaultIterations (Iterations c)) ∧
  TimeoutSeconds (default_case c) = Some (default DefaultTestCaseTimeoutInSeconds (TimeoutSeconds c)) ∧
  StopOnFailure (default_case c) = Some (default DefaultStopOnFailure (StopOnFailure c)).
Proof. unfold default_case. cbn. split_and!; [by intros r ->|done|by destruct (Iterations c)|by destruct (TimeoutSeconds c)|by destruct (StopOnFailure c)]. Qed.

(** The framework is read in any case, except where the default recipe is
    chosen: a test case that names RVS in capitals and no recipe runs the
    default recipe; one that names it in small letters is run by RVS too, but
    with no recipe at all. *)
Theorem framework_case c f (Hf : Framework c = Some f) (Hr : Recipe c = None) (Hu : ToUpper f = RVS) :
  runner_type (default_case c) = Some RVSRunner ∧
  Recipe (default_case c) = if decide (f = RVS) then Some DefaultRVSRecipeName else None.
Proof.
  unfold runner_type, default_case. rewrite Hf, Hr. cbn [Framework Recipe default from_option id].
  rewrite decide_True by done. split; [done|]. case_decide; [done|]. rewrite decide_False; [done|].
  intros ->. by vm_compute in Hu.
Qed.

Lemma framework_case_witness :
  let c := MkParameter None None None None [] (Some "rvs") None in
  runner_type (default_case c) = Some RVSRunner ∧
  Recipe (default_case c) = if decide ("rvs" = RVS) then Some DefaultRVSRecipeName else None.
Proof. intros c. by apply (framework_case c "rvs"). Defined.

(** A folder that is found is a directory with the name of the model, up to
    case. *)
Lemma folder_found exact entries m :
  let f := findGPUModelFolder exact entries m in
  f = "" ∨ EqualFold f m = true ∧ (exact = Some true ∧ f = m ∨ (f, true) ∈ default [] entries).
Proof.
  unfold findGPUModelFolder. destruct exact as [[]|]; [right|by left|].
  - split; [|by left]. unfold EqualFold. by apply bool_decide_eq_true.
  - destruct (filter _ (default [] entries)) as [|[n d] l] eqn:Hl; [by left|right]. cbn.
    assert (Hin : (n, d) ∈ filter (λ e, e.2 = true ∧ EqualFold e.1 m = true) (default [] entries)) by (rewrite Hl; by left).
    apply list_elem_of_filter in Hin as [[Hd Hm] Hin]. cbn in *. subst d. by split; [|right].
Qed.
