(* ===== verification/HealthService.v ===== *)
(** The health service the exporter offers over gRPC:
    [src/pkg/amdgpu/metricsserver/metrics_svc.go], the interface of its
    clients ([health_interface.go]), how the GPU client implements it
    ([gpuagent.go], [gpuagent_health.go]), and what the test runner makes of
    its answers.

    Every call of the service holds its lock.  The transport is left out: an
    answer reaches the caller as it is, or the call fails. *)

From S2P Require Import Prelude GoStd RocpClient NodeLabeller GpuAgent GpuHealth GpuHealthProofs GpuHealthTheorems.
From S2P Require Import TestStatus.

(** What the service asks of a client: its states or an error, and the
    injection of an error, which can panic ([None]). *)
Class HealthInterface (C : Type) : Type := {
  GetGPUHealthStates : C → States + string;
  client_SetError : string → list string → list Z → C → option C;
}.

(** ** The clients of the agent

    [GPUAgentClient] asks the first of its clients that is one for GPUs. *)

Inductive agent_client (P : Type) : Type :=
  | GPUDevice (ga : GPUAgentGPUClient P)
  | OtherDevice.
Arguments GPUDevice {P} ga.
Arguments OtherDevice {P}.

Definition GetHealthStates_result {P} (ga : GPUAgentGPUClient P) : States + string :=
  match GetHealthStates ga with
  | Some m => inl m
  | None => inr "health status not available"
  end.

Fixpoint agent_GetGPUHealthStates {P} (clients : list (agent_client P)) : States + string :=
  match clients with
  | GPUDevice ga :: _ => GetHealthStates_result ga
  | OtherDevice :: clients => agent_GetGPUHealthStates clients
  | [] => inl ∅
  end.

Fixpoint agent_SetError {P} (id : string) (fields : list string) (counts : list Z) (clients : list (agent_client P)) :
    option (list (agent_client P)) :=
  match clients with
  | GPUDevice ga :: clients => ga ← SetError id fields counts ga; Some (GPUDevice ga :: clients)
  | c :: clients => cs ← agent_SetError id fields counts clients; Some (c :: cs)
  | [] => Some []
  end.

#[export] Instance agent_HealthInterface {P} : HealthInterface (list (agent_client P)) := {
  GetGPUHealthStates := agent_GetGPUHealthStates;
  client_SetError := agent_SetError;
}.

(** ** The service *)

Section service.
Context {C : Type} `{HealthInterface C}.
Context (visit : States → list GPUState).   (* the order in which a map is visited *)

Record MetricsSvcImpl : Type := MkSvc { enableDebugAPI : bool; clients : list C }.

Definition NewMetricsServer (enableDebugAPI : bool) : MetricsSvcImpl := MkSvc enableDebugAPI [].

Definition RegisterHealthClient (client : C) (m : MetricsSvcImpl) : MetricsSvcImpl :=
  MkSvc (enableDebugAPI m) (clients m ++ [client]).

(** The loop over the clients, with what each of them adds to the answer. *)
Fixpoint collect (add : States → list GPUState) (clients : list C) (resp : list GPUState) : list GPUState + string :=
  match clients with
  | [] => inl resp
  | client :: clients =>
      match GetGPUHealthStates client with
      | inl gpuStateMap => collect add clients (resp ++ add gpuStateMap)
      | inr err => inr err
      end
  end.

Definition List (m : MetricsSvcImpl) : list GPUState + string := collect visit (clients m) [].

Definition GetGPUState (IDs : list string) (m : MetricsSvcImpl) : list GPUState + string :=
  collect (λ gpuStateMap, omap (gpuStateMap !!.) IDs) (clients m) [].

(** The loop of [SetError]; the errors of the clients are dropped. *)
Fixpoint set_all (id : string) (fields : list string) (counts : list Z) (clients : list C) : option (list C) :=
  match clients with
  | [] => Some []
  | c :: clients =>
      c ← client_SetError id fields counts c;
      cs ← set_all id fields counts clients;
      Some (c :: cs)
  end.

Definition SetError_call (id : string) (fields : list string) (counts : list Z) (m : MetricsSvcImpl) :
    option (option string * MetricsSvcImpl) :=
  if enableDebugAPI m then
    if decide (length fields = length counts) then
      cs ← set_all id fields counts (clients m);
      Some (None, MkSvc (enableDebugAPI m) cs)
    else Some (Some "invalid request, fields must be set", m)
  else Some (Some "invalid function error", m).
End service.
Arguments MetricsSvcImpl C : clear implicits.

(** ** What the test runner is told *)

Section follow.
Context {P : Type} (imp : Z → RocpSdk.double → Z) (ParseInLocation : string → option Z).
Context (GetDeviceNameFromRenderID : string → string).
Context (visit : States → list GPUState) (Hvisit : ∀ m, visit m ≡ₚ (map_to_list m).*2).

Abbreviation reachable := (GpuHealthTheorems.reachable (P := P) imp ParseInLocation GetDeviceNameFromRenderID).

(** The service with the agent as its client. *)
Definition service (before after : list (agent_client P)) (ga : GPUAgentGPUClient P) (debug : bool) :
    MetricsSvcImpl (list (agent_client P)) :=
  RegisterHealthClient (before ++ GPUDevice ga :: after) (NewMetricsServer debug).

Lemma agent_states before after (ga : GPUAgentGPUClient P) : Forall (λ c, c = OtherDevice) before →
  GetGPUHealthStates (before ++ GPUDevice ga :: after) = GetHealthStates_result ga.
Proof. intros Hb. cbn. induction Hb as [|c before -> _ IH]; [done|]. exact IH. Qed.

Lemma List_service before after ga debug : Forall (λ c, c = OtherDevice) before →
  List visit (service before after ga debug) =
    if decide (healthState ga = ∅) then inr "health status not available" else inl (visit (healthState ga)).
Proof.
  intros Hb. unfold List, service, RegisterHealthClient, NewMetricsServer. cbn [clients app collect].
  rewrite agent_states by done. unfold GetHealthStates_result, GetHealthStates. by case_decide.
Qed.

Lemma visited (ga : GPUAgentGPUClient P) k s : map_Forall state_ok (healthState ga) → s ∈ visit (healthState ga) ∧ ID s = k ↔ healthState ga !! k = Some s.
Proof.
  intros Hok. rewrite Hvisit, list_elem_of_fmap. split.
  - intros [([k' s'] & -> & Hin%elem_of_map_to_list) <-]. cbn in *. by destruct (Hok k' s' Hin) as [-> _].
  - intros Hk. split; [|by destruct (Hok k s Hk)]. exists (k, s). split; [done|]. by apply elem_of_map_to_list.
Qed.

(** The two names differ whatever case they are written in. *)
Lemma healthy_names h : h = HEALTHY ∨ h = UNHEALTHY → EqualFold h "HEALTHY" = bool_decide (h = HEALTHY).
Proof. by intros [->| ->]. Qed.

(** C10: From the agent to the test runner.  In every state the health monitor
    can reach, the health service fails exactly while no GPU is known, and
    otherwise the test runner, asking it, finds healthy exactly the GPUs
    whose lamp is on, and to be tested exactly those whose lamp is off and
    that no workload uses; no GPU is named twice; and asking for single GPUs
    gives the states of those that are known. *)
Theorem tests_follow_board ga before after debug (Hga : reachable ga) (Hb : Forall (λ c, c = OtherDevice) before) :
  let svc := service before after ga debug in
  ((∃ err, List visit svc = inr err) ↔ lamps (abs ga) = ∅) ∧
  (∀ states, List visit svc = inl states →
    (∀ k, k ∈ healthyGPUIDs states ↔ lamps (abs ga) !! k = Some true) ∧
    (∀ k, k ∈ unHealthyGPUIDs states ↔
      lamps (abs ga) !! k = Some false ∧ AssociatedWorkload <$> healthState ga !! k = Some []) ∧
    NoDup (healthyGPUIDs states ++ unHealthyGPUIDs states) ∧
    ∀ IDs, GetGPUState IDs svc = inl (omap (healthState ga !!.) IDs)).
Proof.
  cbn zeta. pose proof (proj1 (reachable_ok _ _ _ ga Hga)) as Hok. rewrite List_service by done.
  assert (Hlamp : ∀ k b, lamps (abs ga) !! k = Some b ↔ ∃ s, healthState ga !! k = Some s ∧ EqualFold (Health s) "HEALTHY" = b).
  { intros k b. cbn. rewrite lookup_fmap, fmap_Some. split; intros (s & Hs & Hbs); exists s; (split; [done|]);
      destruct (Hok k s Hs) as (_ & _ & Hh); rewrite (healthy_names _ Hh) in *; done. }
  split.
  - cbn. rewrite fmap_empty_iff. case_decide; [|by split; [intros [? ?]|]]. split; [done|]. intros _. by eexists.
  - intros states. case_decide as Hne; [done|]. intros [= <-].
    assert (Hv : ∀ (Q : GPUState → Prop) `{∀ s, Decision (Q s)} k,
      k ∈ ID <$> filter Q (visit (healthState ga)) ↔ ∃ s, healthState ga !! k = Some s ∧ Q s).
    { intros Q HQ k. rewrite list_elem_of_fmap. setoid_rewrite list_elem_of_filter. split.
      - intros (s & -> & Hq & Hin). exists s. split; [by apply visited|done].
      - intros (s & [Hin Hk]%visited & Hq); [|done]. by exists s. }
    split_and!.
    + intros k. unfold healthyGPUIDs. rewrite Hv, Hlamp. done.
    + intros k. unfold unHealthyGPUIDs. rewrite Hv, Hlamp. setoid_rewrite fmap_Some. naive_solver.
    + assert (Hnd : NoDup (ID <$> visit (healthState ga))).
      { rewrite (Permutation_map ID (Hvisit (healthState ga))).
        assert (ID <$> (map_to_list (healthState ga)).*2 = (map_to_list (healthState ga)).*1) as Heq.
        { rewrite <- list_fmap_compose. apply list_fmap_ext. intros i [k s] Hi. cbn.
          apply list_elem_of_lookup_2, elem_of_map_to_list in Hi. by destruct (Hok k s Hi). }
        change (map ID ?l) with (ID <$> l). rewrite Heq. apply NoDup_fst_map_to_list. }
      unfold healthyGPUIDs, unHealthyGPUIDs. apply NoDup_app. split_and!.
      * eapply sublist_NoDup; [exact Hnd|]. apply fmap_sublist, sublist_filter.
      * intros k. rewrite !Hv. intros (s & Hs & Hh) (s' & Hs' & Hh' & _). congruence.
      * eapply sublist_NoDup; [exact Hnd|]. apply fmap_sublist, sublist_filter.
    + intros IDs. unfold GetGPUState, service, RegisterHealthClient, NewMetricsServer. cbn [clients app collect].
      rewrite agent_states by done. unfold GetHealthStates_result, GetHealthStates. by rewrite decide_False.
Qed.

(** The client would panic on fewer counts than fields; the service does not
    let such a request through. *)
Lemma agent_SetError_total id fields counts (cs : list (agent_client P)) : length fields = length counts →
  is_Some (agent_SetError id fields counts cs).
Proof.
  intros Hl. induction cs as [|[ga|] cs [cs' IH]]; [by eexists| |]; cbn [agent_SetError].
  - unfold SetError. destruct (set_fields_total fields counts (default ∅ (mockEccField ga !! id)) ltac:(lia)) as [m ->]. by eexists.
  - rewrite IH. by eexists.
Qed.

(** The injection of errors never ends the process: whatever is sent and
    whatever clients are registered, the service answers; with the debug
    interface switched off or with fields and counts of different numbers
    with an error and no change, else without one, and the service keeps its
    clients. *)
Theorem injection_safe id fields counts (m : MetricsSvcImpl (list (agent_client P))) :
  ∃ err m', SetError_call id fields counts m = Some (err, m') ∧
    (err = None ↔ enableDebugAPI m = true ∧ length fields = length counts) ∧
    (err ≠ None → m' = m) ∧
    length (clients m') = length (clients m) ∧ enableDebugAPI m' = enableDebugAPI m.
Proof.
  unfold SetError_call. destruct (enableDebugAPI m) eqn:Hd; [|do 2 eexists; split_and!; try done; naive_solver].
  case_decide as Hl; [|do 2 eexists; split_and!; try done; naive_solver].
  assert (Hall : ∃ cs', set_all id fields counts (clients m) = Some cs' ∧ length cs' = length (clients m)).
  { induction (clients m) as [|c cs (cs' & IH & Hlen)]; [by eexists|]. cbn [set_all client_SetError agent_HealthInterface].
    destruct (agent_SetError_total id fields counts c Hl) as [c' ->]. cbn [mbind option_bind]. rewrite IH. eexists.
    split; [done|]. cbn. by rewrite Hlen. }
  destruct Hall as (cs' & -> & Hlen). do 2 eexists. split_and!; try done.
Qed.
End follow.

(** The order in which [map_to_list] has the entries. *)
Definition in_order (m : States) : list GPUState := (map_to_list m).*2.

Lemma tests_follow_board_witness :
  let svc := service [OtherDevice] [] ga0 false in
  (((∃ err, List in_order svc = inr err) ↔ lamps (abs ga0) = ∅) ∧
  (∀ states, List in_order svc = inl states →
    (∀ k, k ∈ healthyGPUIDs states ↔ lamps (abs ga0) !! k = Some true) ∧
    (∀ k, k ∈ unHealthyGPUIDs states ↔
      lamps (abs ga0) !! k = Some false ∧ AssociatedWorkload <$> healthState ga0 !! k = Some []) ∧
    NoDup (healthyGPUIDs states ++ unHealthyGPUIDs states) ∧
    ∀ IDs, GetGPUState IDs svc = inl (omap (healthState ga0 !!.) IDs))) ∧
  ∃ states, List in_order svc = inl states ∧ healthyGPUIDs states = ["0"] ∧ unHealthyGPUIDs states = ["1"].
Proof.
  split.
  - apply (tests_follow_board imp0 parse0 name0 in_order (λ m, Permutation_refl _) ga0 [OtherDevice] [] false).
    + apply ga0_reachable.
    + by apply Forall_singleton.
  - eexists. split_and!; vm_compute; reflexivity.
Defined.
