(* ===== verification/NicAgent.v ===== *)
(** The NICs: their static data and their health.  [getNICs] and
    [getPCIeAddress] of [src/pkg/amdnic/nicagent/nicagent_metrics.go],
    [NIC] and its lookups of [nic_metrics_interface.go],
    [GetNICHealthStates] and [getAdminStatus] of [nicagent_health.go],
    [sendNodeLabelUpdate] of [nicagent.go], and the health service for NICs
    ([src/pkg/amdnic/metricsserver/metrics_svc.go]).

    The tools ([nicctl], [lspci]) answer as functions of the command, with
    data already parsed or with an error.  Maps that are visited are lists in
    the order of the visit. *)

From S2P Require Import Prelude Format GoStd Config NodeLabeller.
From Stdlib Require Import Ascii.

(** What a Go function does: it returns, with an error, or it panics. *)
Inductive go (A : Type) : Type := Ret (a : A) | Err (err : string) | Panics.
Arguments Ret {A} a. Arguments Err {A} err. Arguments Panics {A}.

(** ** The data of a card *)

Record Port : Type := MkPort { port_Index : string; port_UUID : string; port_Name : string; MACAddress : string }.

Record Lif : Type := MkLif {
  lif_Index : string;
  lif_UUID : string;
  lif_Name : string;
  PCIeAddress : string;
  IsPF : bool;
}.

Record NIC : Type := MkNIC {
  Index : string;
  UUID : string;
  ProductName : string;
  SerialNumber : string;
  EthBDF : string;
  FirmwareVersion : string;
  Ports : gmap string Port;
  Lifs : gmap string Lif;
  sriovConfiguredOnHost : bool;
}.

Definition set_ports (p : gmap string Port) (n : NIC) : NIC :=
  MkNIC (Index n) (UUID n) (ProductName n) (SerialNumber n) (EthBDF n) (FirmwareVersion n) p (Lifs n)
    (sriovConfiguredOnHost n).
Definition set_lifs (l : gmap string Lif) (sriov : bool) (n : NIC) : NIC :=
  MkNIC (Index n) (UUID n) (ProductName n) (SerialNumber n) (EthBDF n) (FirmwareVersion n) (Ports n) l sriov.

(** The lookups have the NIC as a pointer: a missing one panics ([None]). *)
Definition GetPortName (visit : gmap string Port → list Port) (n : option NIC) : option string :=
  n ← n; Some (default "" (port_Name <$> head (visit (Ports n)))).
Definition GetPortIndex (visit : gmap string Port → list Port) (n : option NIC) : option string :=
  n ← n; Some (default "" (port_Index <$> head (visit (Ports n)))).
Definition GetPortPcieAddr (n : option NIC) : option string := EthBDF <$> n.
Definition GetLifName (n : option NIC) (uuid : string) : option string :=
  n ← n; Some (default "" (lif_Name <$> Lifs n !! uuid)).
Definition GetLifPcieAddr (n : option NIC) (uuid : string) : option string :=
  n ← n; Some (default "" (PCIeAddress <$> Lifs n !! uuid)).

(** The answers of [nicctl], as far as they are read. *)
Record card_reply : Type := MkCard {
  card_ID : string;
  card_ProductName : string;
  card_SerialNumber : string;
  card_EthBDF : string;
  card_FirmwareVersion : string;
}.
Record port_reply : Type := MkPortReply { pr_ID : string; pr_Name : string; pr_MAC : string }.
Record lif_reply : Type := MkLifReply { lr_ID : string; lr_Name : string }.

(** [strings.TrimSpace] on ASCII. *)
Definition is_space (c : ascii) : bool :=
  let n := nat_of_ascii c in bool_decide (n = 32 ∨ 9 ≤ n ≤ 13).
Fixpoint TrimLeftSpace (s : string) : string :=
  match s with String c s' => if is_space c then TrimLeftSpace s' else s | EmptyString => "" end.
Definition TrimSpace (s : string) : string := String.rev (TrimLeftSpace (String.rev (TrimLeftSpace s))).

Section getNICs.
Context (show_card : list card_reply + string).
Context (show_port : string → list (string * list port_reply) + string).
Context (show_lif : string → list (string * list lif_reply) + string).
Context (lspci : string → string + string).   (* [lspci | grep _ | awk '{print $1}'] *)

(** Bus and device of an address, joined by a dot. *)
Definition pfPartialBDF (ethBDF : string) : option string :=
  match Split ":" ethBDF with
  | _ :: bus :: rest :: _ => Some (bus +:+ "." +:+ default "" (head (Split "." rest)))
  | _ => None
  end.

Definition getPCIeAddress (ethBDF : string) : string + string :=
  match pfPartialBDF ethBDF with
  | None => inr ("invalid ethBDF format: " +:+ ethBDF)
  | Some bdf =>
      match lspci bdf with
      | inr err => inr err
      | inl out =>
          match Split newline (TrimSpace out) with
          | _ :: pcieAddr :: _ => inl ("0000:" +:+ pcieAddr)
          | _ => inr "could not find PCIe address for VF"
          end
      end
  end.

Definition card_nic (index : nat) (c : card_reply) : NIC :=
  MkNIC (dec (Z.of_nat index)) (card_ID c) (card_ProductName c) (card_SerialNumber c) (card_EthBDF c)
    (card_FirmwareVersion c) ∅ ∅ false.

Definition add_port (m : gmap string Port) '((i, p) : nat * port_reply) : gmap string Port :=
  <[pr_ID p := MkPort (dec (Z.of_nat i)) (pr_ID p) (pr_Name p) (pr_MAC p)]> m.

Definition indexed {A} (l : list A) : list (nat * A) := imap pair l.

(** The ports of one reply; [None]: a card that is not known, a panic. *)
Definition add_ports (nics : gmap string NIC) '((id, ports) : string * list port_reply) : option (gmap string NIC) :=
  match nics !! id with
  | Some nic => Some (<[id := set_ports (foldl add_port ∅ (indexed ports)) nic]> nics)
  | None => None
  end.

Definition card_step (nics : gmap string NIC) '((index, c) : nat * card_reply) : option (gmap string NIC) :=
  let nics := <[card_ID c := card_nic index c]> nics in
  match show_port (card_ID c) with
  | inr _ => Some nics
  | inl reply => foldM add_ports nics reply
  end.

(** One LIF: the first is the PF; a VF has the address [lspci] gives, if any,
    and tells that there is one on the host. *)
Definition add_lif (bdf : string) '((lifs, sriov) : gmap string Lif * bool) '((i, l) : nat * lif_reply) :
    gmap string Lif * bool :=
  let lif addr pf := MkLif (dec (Z.of_nat i)) (lr_ID l) (lr_Name l) addr pf in
  if decide (i = 0) then (<[lr_ID l := lif bdf true]> lifs, sriov)
  else match getPCIeAddress bdf with
       | inl addr =>
           if decide (addr = "") then (<[lr_ID l := lif "" false]> lifs, sriov)
           else (<[lr_ID l := lif addr false]> lifs, true)
       | inr _ => (<[lr_ID l := lif "" false]> lifs, sriov)
       end.

Definition add_lifs (nics : gmap string NIC) '((id, lifs) : string * list lif_reply) : option (gmap string NIC) :=
  match nics !! id with
  | Some nic =>
      let '(m, sriov) := foldl (add_lif (EthBDF nic)) (∅, sriovConfiguredOnHost nic) (indexed lifs) in
      Some (<[id := set_lifs m sriov nic]> nics)
  | None => None
  end.

Definition lif_step (nics : gmap string NIC) (c : card_reply) : option (gmap string NIC) :=
  match show_lif (card_ID c) with
  | inr _ => Some nics
  | inl reply => foldM add_lifs nics reply
  end.

Definition getNICs : go (gmap string NIC) :=
  match show_card with
  | inr err => Err err
  | inl cards =>
      match (nics ← foldM card_step ∅ (indexed cards); foldM lif_step nics cards) with
      | Some nics => Ret nics
      | None => Panics
      end
  end.
End getNICs.

(** ** Health *)

Record NICState : Type := MkNICState { nic_Device : string; nic_Health : string; nic_UUID : string }.

Definition is_healthy (s : NICState) : Prop := nic_Health s = HEALTHY.
#[export] Instance is_healthy_dec s : Decision (is_healthy s).
Proof. unfold is_healthy. apply _. Defined.

Section health.
(** [nicctl show lif -l <uuid> -j]: the admin states of the LIFs of each card
    of the answer. *)
Context (show_lif_uuid : string → list (list string) + string).

(** The first LIF of the first card; no such element is a panic. *)
Definition getAdminStatus (lifUUID : string) : go string :=
  match show_lif_uuid lifUUID with
  | inr err => Err err
  | inl ((AdminState :: _) :: _) => Ret AdminState
  | inl _ => Panics
  end.

(** A LIF that is not left out. *)
Definition considered (nic : NIC) (lif : Lif) : bool :=
  negb (bool_decide (PCIeAddress lif = "") || (IsPF lif && sriovConfiguredOnHost nic)).

(** The health of an admin state; empty for any other state. *)
Definition admin_health (adminState : string) : string :=
  if decide (adminState = "up") then HEALTHY else if decide (adminState = "down") then UNHEALTHY else "".

(** The loops over the cards and their LIFs, in the order of the visit. *)
Fixpoint health_loop (l : list (NIC * Lif)) (nicHealthMap : gmap string NICState) : go (gmap string NICState) :=
  match l with
  | [] => Ret nicHealthMap
  | (nic, lif) :: l =>
      if considered nic lif then
        match getAdminStatus (lif_UUID lif) with
        | Ret adminState =>
            health_loop l (<[PCIeAddress lif := MkNICState (PCIeAddress lif) (admin_health adminState) (lif_UUID lif)]>
              nicHealthMap)
        | Err err => Err err
        | Panics => Panics
        end
      else health_loop l nicHealthMap
  end.

(** Addresses as parts of labels. *)
Definition label_device (nicPCIeAddr : string) : string := ReplaceByte "." "_" (ReplaceByte ":" "_" nicPCIeAddr).

(** [sendNodeLabelUpdate]: the states that are not healthy, the entries in the
    order of the visit. *)
Definition unhealthy_nics (entries : list (string * NICState)) : gmap string string :=
  foldl (λ m e, if decide (is_healthy e.2) then m else <[label_device e.1 := nic_Health e.2]> m) ∅ entries.

Definition NICHealthLabelPrefix : string := "metricsexporter.amd.com.nic".

Definition sendNodeLabelUpdate (isKubernetes : bool) (nodeName : string) (k8sApiClient : bool)
    (get : gmap string string + string) (update : option string) (entries : list (string * NICState)) :
    option string * option label_update :=
  if isKubernetes then
    if decide (nodeName = "") then (Some "node name not found", None)
    else if k8sApiClient then
      (None, Some (UpdateHealthLabel (Some (NewNodeHealthLabellerConfig NICHealthLabelPrefix)) get update
        (unhealthy_nics entries)))
    else (None, None)
  else (None, None).

(** Whether the agent has a client for [nicctl], and whether it is active. *)
Inductive nicctl : Type := NoClient | Inactive | Active.
#[export] Instance nicctl_eq_dec : EqDecision nicctl.
Proof. solve_decision. Defined.

(** The states, or the error, and what the labels were given; [visit] is the
    order of the LIFs, [entries] that of the states.  The error of
    [sendNodeLabelUpdate] is only logged. *)
Definition GetNICHealthStates (settings : NICHealthCheckConfig) (client : nicctl) (nics : gmap string NIC)
    (visit : gmap string NIC → list (NIC * Lif)) (entries : gmap string NICState → list (string * NICState))
    (send : list (string * NICState) → option string * option label_update) :
    go (gmap string NICState) * option label_update :=
  if InterfaceAdminDownAsUnhealthy settings then
    if decide (nics = ∅) then (Ret ∅, None)
    else if decide (client = Inactive) then (Err "nicctl client is not active", None)
    else match health_loop (visit nics) ∅ with
         | Ret m => (Ret m, (send (entries m)).2)
         | r => (r, None)
         end
  else (Ret ∅, None).

(** The service: the states of all clients, in the order of the visits. *)
Fixpoint List (visit : gmap string NICState → list NICState) (clients : list (go (gmap string NICState)))
    (resp : list NICState) : go (list NICState) :=
  match clients with
  | [] => Ret resp
  | Ret m :: clients => List visit clients (resp ++ visit m)
  | Err err :: _ => Err err
  | Panics :: _ => Panics
  end.
End health.
