(* ===== verification/NicTheorems.v ===== *)
(** The NICs: what [getNICs] finds, which states the health of the NICs has
    and what the labels of the node say of them. *)

From S2P Require Import Prelude Format GoStd Config NodeLabeller NicAgent.
From Stdlib Require Import Ascii.

Lemma set_of_list_size (l : list string) : (size (list_to_set l : gset string) <= length l)%nat.
Proof.
  induction l as [|x l IH]; cbn [list_to_set length]; [by rewrite size_empty|].
  rewrite size_union_alt, size_singleton. pose proof (subseteq_size (list_to_set l ∖ {[x]}) (list_to_set l : gset string) ltac:(set_solver)).
  lia.
Qed.

(** ** The static data *)

Section cards.
Context (show_card : list card_reply + string).
Context (show_port : string → list (string * list port_reply) + string).
Context (show_lif : string → list (string * list lif_reply) + string).
Context (lspci : string → string + string).

(** The lookups of a card: everything is filed under its own identifier; a
    PF has the address of the card, a VF that of [lspci] or none. *)
Record nic_ok (id : string) (nic : NIC) : Prop := {
  nic_filed : UUID nic = id;
  port_filed : ∀ k p, Ports nic !! k = Some p → port_UUID p = k;
  lif_filed : ∀ k l, Lifs nic !! k = Some l → lif_UUID l = k;
  lif_address : ∀ k l, Lifs nic !! k = Some l →
    if IsPF l then PCIeAddress l = EthBDF nic
    else PCIeAddress l = "" ∨
      getPCIeAddress lspci (EthBDF nic) = inl (PCIeAddress l) ∧ sriovConfiguredOnHost nic = true;
}.

Abbreviation nics_ok := (map_Forall nic_ok).

Lemma card_nic_ok i c : nic_ok (card_ID c) (card_nic i c).
Proof. split; [done|..]; intros k ?; cbn; by rewrite lookup_empty. Qed.

Lemma ports_filed ports k p : foldl add_port ∅ ports !! k = Some p → port_UUID p = k.
Proof.
  induction ports as [|[i q] ports IH] using rev_ind; cbn; [by rewrite lookup_empty|].
  rewrite foldl_snoc. cbn. destruct (decide (pr_ID q = k)) as [->|].
  - rewrite lookup_insert_eq. by intros [= <-].
  - by rewrite lookup_insert_ne.
Qed.

Lemma add_ports_ok nics r nics' : nics_ok nics → add_ports nics r = Some nics' → nics_ok nics' ∧ dom nics' = dom nics.
Proof.
  intros Hok. destruct r as [id ports]. cbn. destruct (nics !! id) as [nic|] eqn:Hn; [|done]. intros [= <-]. split.
  - apply map_Forall_insert_2; [|done]. destruct (Hok id nic Hn) as [Hid _ Hf Ha].
    split; try done. cbn. intros k p. apply ports_filed.
  - rewrite dom_insert_L. apply elem_of_dom_2 in Hn. set_solver.
Qed.

(** What the fold over the LIFs of a card keeps. *)
Definition lifs_ok (bdf : string) (st : gmap string Lif * bool) : Prop :=
  ∀ k l, st.1 !! k = Some l → lif_UUID l = k ∧
    if IsPF l then PCIeAddress l = bdf
    else PCIeAddress l = "" ∨ getPCIeAddress lspci bdf = inl (PCIeAddress l) ∧ st.2 = true.

Lemma add_lif_ok bdf st r : lifs_ok bdf st → lifs_ok bdf (add_lif lspci bdf st r).
Proof.
  intros Hok. destruct st as [lifs sriov], r as [i q]. unfold add_lif.
  assert (Hins : ∀ l b, lif_UUID l = lr_ID q → (sriov = true → b = true) →
    (if IsPF l then PCIeAddress l = bdf
     else PCIeAddress l = "" ∨ getPCIeAddress lspci bdf = inl (PCIeAddress l) ∧ b = true) →
    lifs_ok bdf (<[lr_ID q := l]> lifs, b)).
  { intros l b Hid Hb Hl k l'. cbn. destruct (decide (lr_ID q = k)) as [<-|Hne].
    - rewrite lookup_insert_eq. by intros [= <-].
    - rewrite lookup_insert_ne by done. intros Hk. destruct (Hok k l' Hk) as [? Ha]. split; [done|].
      cbn in Ha. destruct (IsPF l'); [done|]. destruct Ha as [?|[? ?]]; [by left|right; auto]. }
  destruct (decide (i = 0)); [by apply Hins|].
  destruct (getPCIeAddress lspci bdf) as [addr|err] eqn:Ha; [case_decide as He|]; apply Hins; try done; cbn; auto.
Qed.

Lemma add_lifs_ok nics r nics' : nics_ok nics → add_lifs lspci nics r = Some nics' → nics_ok nics' ∧ dom nics' = dom nics.
Proof.
  intros Hok. destruct r as [id lifs]. cbn. destruct (nics !! id) as [nic|] eqn:Hn; [|done].
  destruct (Hok id nic Hn) as [Hid Hp _ _].
  assert (Hl : lifs_ok (EthBDF nic) (foldl (add_lif lspci (EthBDF nic)) (∅, sriovConfiguredOnHost nic) (indexed lifs))).
  { induction (indexed lifs) as [|x l IH] using rev_ind; [intros k ?; cbn; by rewrite lookup_empty|].
    rewrite foldl_snoc. by apply add_lif_ok. }
  destruct (foldl _ _ _) as [m sriov]. intros [= <-]. split.
  - apply map_Forall_insert_2; [|done]. split; try done; cbn; intros k l Hk; by apply Hl in Hk as [? ?].
  - rewrite dom_insert_L. apply elem_of_dom_2 in Hn. set_solver.
Qed.

Lemma foldM_keeps {A} (f : gmap string NIC → A → option (gmap string NIC)) l nics nics' :
  (∀ a n n', nics_ok n → f n a = Some n' → nics_ok n' ∧ dom n' = dom n) →
  nics_ok nics → foldM f nics l = Some nics' → nics_ok nics' ∧ dom nics' = dom nics.
Proof.
  intros Hf. revert nics. induction l as [|a l IH]; intros nics Hok; cbn [foldM]; [by intros [= <-]|].
  destruct (f nics a) as [n|] eqn:Hn; [|done]. destruct (Hf a nics n Hok Hn) as [Hok' Hd].
  cbn [mbind option_bind]. rewrite <- Hd. by apply IH.
Qed.

Lemma card_step_ok nics r nics' : nics_ok nics → card_step show_port nics r = Some nics' →
  nics_ok nics' ∧ dom nics' = {[card_ID r.2]} ∪ dom nics.
Proof.
  intros Hok. destruct r as [i c]. cbn. rewrite <- dom_insert_L with (i := card_ID c) (x := card_nic i c).
  assert (nics_ok (<[card_ID c := card_nic i c]> nics)) as Hok' by (apply map_Forall_insert_2; [apply card_nic_ok|done]).
  destruct (show_port (card_ID c)) as [reply|]; [|by intros [= <-]].
  intros H. exact (foldM_keeps _ _ _ _ (λ a n n', add_ports_ok n a n') Hok' H).
Qed.

Lemma lif_step_ok nics c nics' : nics_ok nics → lif_step show_lif lspci nics c = Some nics' →
  nics_ok nics' ∧ dom nics' = dom nics.
Proof.
  intros Hok. unfold lif_step. destruct (show_lif (card_ID c)) as [reply|]; [|by intros [= <-]].
  intros H. exact (foldM_keeps _ _ _ _ (λ a n n', add_lifs_ok n a n') Hok H).
Qed.

Lemma cards_dom cards nics nics' : nics_ok nics → foldM (card_step show_port) nics cards = Some nics' →
  nics_ok nics' ∧ dom nics' = dom nics ∪ list_to_set (card_ID <$> cards.*2).
Proof.
  revert nics. induction cards as [|r cards IH]; intros nics Hok; cbn [foldM]; [intros [= <-]; set_solver|].
  destruct (card_step show_port nics r) as [n|] eqn:Hn; [|done]. destruct (card_step_ok nics r n Hok Hn) as [Hok' Hd].
  cbn [mbind option_bind]. intros H. destruct (IH n Hok' H) as [? Hd']. split; [done|]. rewrite Hd', Hd. set_solver.
Qed.

Lemma indexed_snd {A} (l : list A) : (indexed l).*2 = l.
Proof. unfold indexed. rewrite fmap_imap. apply list_eq. intros i. rewrite list_lookup_imap. by destruct (l !! i). Qed.

Lemma lif_steps_ok cards nics nics' : nics_ok nics → foldM (lif_step show_lif lspci) nics cards = Some nics' →
  nics_ok nics' ∧ dom nics' = dom nics.
Proof. intros Hok. apply foldM_keeps; [|done]. intros a n n'. apply lif_step_ok. Qed.

(** Every tool answers about the card it is asked about only. *)
Definition to_the_point {A} (show : string → list (string * A) + string) : Prop :=
  ∀ id reply, show id = inl reply → Forall (λ r, r.1 = id) reply.

Lemma foldM_goes {A} (f : gmap string NIC → A → option (gmap string NIC)) (P : A → Prop) id l nics :
  (∀ a n, P a → id ∈ dom n → ∃ n', f n a = Some n' ∧ dom n' = dom n) → Forall P l → id ∈ dom nics →
  ∃ nics', foldM f nics l = Some nics' ∧ dom nics' = dom nics.
Proof.
  intros Hf Hl. revert nics. induction Hl as [|a l Ha Hl IH]; intros nics Hid; cbn [foldM]; [by eexists|].
  destruct (Hf a nics Ha Hid) as (n & -> & Hd). cbn [mbind option_bind]. rewrite <- Hd. apply IH. by rewrite Hd.
Qed.

Lemma add_ports_goes nics id ports : id ∈ dom nics → ∃ n', add_ports nics (id, ports) = Some n' ∧ dom n' = dom nics.
Proof.
  intros Hid. cbn. pose proof Hid as [nic ->]%elem_of_dom. eexists. split; [done|]. rewrite dom_insert_L. set_solver.
Qed.

Lemma add_lifs_goes nics id lifs : id ∈ dom nics → ∃ n', add_lifs lspci nics (id, lifs) = Some n' ∧ dom n' = dom nics.
Proof.
  intros Hid. cbn. pose proof Hid as [nic ->]%elem_of_dom. destruct (foldl _ _ _). eexists. split; [done|].
  rewrite dom_insert_L. set_solver.
Qed.

Lemma cards_go cards nics : to_the_point show_port →
  ∃ nics', foldM (card_step show_port) nics cards = Some nics' ∧ dom nics' = dom nics ∪ list_to_set (card_ID <$> cards.*2).
Proof.
  intros Hp. revert nics. induction cards as [|[i c] cards IH]; intros nics; cbn [foldM]; [eexists; split; [done|set_solver]|].
  assert (∃ n, card_step show_port nics (i, c) = Some n ∧ dom n = {[card_ID c]} ∪ dom nics) as (n & -> & Hd).
  { cbn. rewrite <- dom_insert_L with (x := card_nic i c). destruct (show_port (card_ID c)) as [reply|] eqn:Hs; [|by eexists].
    eapply (foldM_goes _ (λ r, r.1 = card_ID c) (card_ID c)); [|by apply Hp|rewrite dom_insert_L; set_solver].
    intros [id ports] n Hr Hin. cbn in Hr. subst id. by apply add_ports_goes. }
  cbn [mbind option_bind]. destruct (IH n) as (n' & -> & Hd'). exists n'. split; [done|]. rewrite Hd', Hd. set_solver.
Qed.

Lemma lifs_go cards nics : to_the_point show_lif → Forall (λ c, card_ID c ∈ dom nics) cards →
  is_Some (foldM (lif_step show_lif lspci) nics cards).
Proof.
  intros Hp Hc. revert nics Hc. induction cards as [|c cards IH]; intros nics Hc; cbn [foldM]; [by eexists|].
  apply Forall_cons in Hc as [Hc Hcs].
  assert (∃ n, lif_step show_lif lspci nics c = Some n ∧ dom n = dom nics) as (n & -> & Hd).
  { unfold lif_step. destruct (show_lif (card_ID c)) as [reply|] eqn:Hs; [|by eexists].
    eapply (foldM_goes _ (λ r, r.1 = card_ID c) (card_ID c)); [|by apply Hp|done].
    intros [id lifs] n Hr Hin. cbn in Hr. subst id. by apply add_lifs_goes. }
  cbn [mbind option_bind]. apply IH. by rewrite Hd.
Qed.

(** The static data of the cards: if [nicctl] lists no cards, its error; else
    the cards of the list, each under its identifier with its ports and LIFs
    under theirs, the PF with the address of the card and every VF with the
    one address [lspci] gives for the card, or none.  A panic needs an answer
    about a card that was not asked about. *)
Theorem static_data :
  match show_card, getNICs show_card show_port show_lif lspci with
  | inr err, r => r = Err err
  | inl cards, Ret nics => nics_ok nics ∧ dom nics = list_to_set (card_ID <$> cards)
  | inl _, Err _ => False
  | inl _, Panics => ¬ (to_the_point show_port ∧ to_the_point show_lif)
  end.
Proof.
  unfold getNICs. destruct show_card as [cards|err]; [|done].
  destruct (foldM (card_step show_port) ∅ (indexed cards)) as [n1|] eqn:H1; cbn [mbind option_bind].
  - destruct (cards_dom _ _ _ (map_Forall_empty _) H1) as [Hok1 Hd1]. rewrite indexed_snd, dom_empty_L, union_empty_l_L in Hd1.
    destruct (foldM (lif_step show_lif lspci) n1 cards) as [n2|] eqn:H2.
    + destruct (lif_steps_ok _ _ _ Hok1 H2) as [Hok2 Hd2]. split; [done|]. by rewrite Hd2.
    + intros [_ Hl]. destruct (lifs_go cards n1 Hl) as [? Hs]; [|by rewrite H2 in Hs].
      apply Forall_forall. intros c Hc. rewrite Hd1. apply elem_of_list_to_set, list_elem_of_fmap. by exists c.
  - intros [Hp _]. destruct (cards_go (indexed cards) ∅ Hp) as (n & Hn & _). by rewrite H1 in Hn.
Qed.
End cards.

(** ** Health *)

(** The LIFs of all cards. *)
Definition lif_of (nics : gmap string NIC) (nic : NIC) (lif : Lif) : Prop :=
  ∃ id k, nics !! id = Some nic ∧ Lifs nic !! k = Some lif.

(** [visit] goes over every LIF, in some order. *)
Definition visits (nics : gmap string NIC) (l : list (NIC * Lif)) : Prop := ∀ nic lif, (nic, lif) ∈ l ↔ lif_of nics nic lif.

(** One such order, to evaluate. *)
Definition all_lifs (nics : gmap string NIC) : list (NIC * Lif) :=
  concat ((λ n, pair n <$> (map_to_list (Lifs n)).*2) <$> (map_to_list nics).*2).

Lemma all_lifs_visits nics : visits nics (all_lifs nics).
Proof.
  intros nic lif. unfold all_lifs, lif_of. rewrite list_elem_of_In, in_concat. split.
  - intros (l & Hl & Hr). apply list_elem_of_In, list_elem_of_fmap in Hl as (n & -> & Hn).
    apply list_elem_of_fmap in Hn as ([id n'] & -> & Hn%elem_of_map_to_list).
    apply list_elem_of_In, list_elem_of_fmap in Hr as (x & [= -> ->] & Hx).
    apply list_elem_of_fmap in Hx as ([k x'] & -> & Hx%elem_of_map_to_list). by exists id, k.
  - intros (id & k & Hn & Hl). exists (pair nic <$> (map_to_list (Lifs nic)).*2).
    split; apply list_elem_of_In, list_elem_of_fmap.
    + exists nic. split; [done|]. apply list_elem_of_fmap. exists (id, nic). split; [done|]. by apply elem_of_map_to_list.
    + exists lif. split; [done|]. apply list_elem_of_fmap. exists (k, lif). split; [done|]. by apply elem_of_map_to_list.
Qed.

(** The address a card is known by: that of its VFs once one is on the host. *)
Definition card_address (lspci : string → string + string) (nic : NIC) : string :=
  if sriovConfiguredOnHost nic then match getPCIeAddress lspci (EthBDF nic) with inl a => a | inr _ => "" end
  else EthBDF nic.

Lemma considered_address lspci id nic k lif : nic_ok lspci id nic → Lifs nic !! k = Some lif →
  considered nic lif = true → PCIeAddress lif = card_address lspci nic ∧ PCIeAddress lif ≠ "".
Proof.
  intros Hok Hl. pose proof (lif_address _ _ _ Hok k lif Hl) as Ha. unfold considered, card_address.
  rewrite negb_true_iff, orb_false_iff, bool_decide_eq_false. intros [Hne Hp]. split; [|done].
  destruct (IsPF lif); cbn in Hp; [by rewrite Hp|]. destruct Ha as [|[-> ->]]; done.
Qed.

Section states.
Context (show_lif_uuid : string → list (list string) + string).
Abbreviation getAdminStatus := (NicAgent.getAdminStatus show_lif_uuid).

(** The state a LIF gives the address. *)
Definition gives (addr : string) (p : NIC * Lif) : option NICState :=
  if considered p.1 p.2 && bool_decide (PCIeAddress p.2 = addr) then
    match getAdminStatus (lif_UUID p.2) with
    | Ret a => Some (MkNICState addr (admin_health a) (lif_UUID p.2))
    | _ => None
    end
  else None.

Lemma health_loop_spec l m0 :
  match health_loop show_lif_uuid l m0 with
  | Ret m =>
      (∀ p, p ∈ l → considered p.1 p.2 = true → ∃ a, getAdminStatus (lif_UUID p.2) = Ret a) ∧
      ∀ addr, m !! addr = match last (omap (gives addr) l) with Some s => Some s | None => m0 !! addr end
  | r => ∃ p, p ∈ l ∧ considered p.1 p.2 = true ∧
      match r, getAdminStatus (lif_UUID p.2) with Err e, Err e' => e = e' | Panics, Panics => True | _, _ => False end
  end.
Proof.
  revert m0. induction l as [|[nic lif] l IH]; intros m0; cbn [health_loop].
  { split; [by intros ? ?%elem_of_nil|done]. }
  assert (Hother : considered nic lif = false → match health_loop show_lif_uuid l m0 with
    | Ret m => (∀ p, p ∈ (nic, lif) :: l → considered p.1 p.2 = true → ∃ a, getAdminStatus (lif_UUID p.2) = Ret a) ∧
        ∀ addr, m !! addr = match last (omap (gives addr) ((nic, lif) :: l)) with Some s => Some s | None => m0 !! addr end
    | r => ∃ p, p ∈ (nic, lif) :: l ∧ considered p.1 p.2 = true ∧
        match r, getAdminStatus (lif_UUID p.2) with Err e, Err e' => e = e' | Panics, Panics => True | _, _ => False end
    end).
  { intros Hc. specialize (IH m0). destruct (health_loop _ l m0) as [m|e|].
    - destruct IH as [H1 H2]. split.
      + intros p [->|Hp]%elem_of_cons; [cbn; by rewrite Hc|by apply H1].
      + intros addr. cbn [omap list_omap]. unfold gives at 1. cbn [fst snd]. rewrite Hc. apply H2.
    - destruct IH as (p & Hp & ?). exists p. split; [by right|done].
    - destruct IH as (p & Hp & ?). exists p. split; [by right|done]. }
  destruct (considered nic lif) eqn:Hc; [clear Hother|by apply Hother].
  destruct (getAdminStatus (lif_UUID lif)) as [a|e|] eqn:Ha.
  - specialize (IH (<[PCIeAddress lif := MkNICState (PCIeAddress lif) (admin_health a) (lif_UUID lif)]> m0)).
    destruct (health_loop _ l _) as [m|e|].
    + destruct IH as [H1 H2]. split.
      * intros p [->|Hp]%elem_of_cons; [by exists a|by apply H1].
      * intros addr. rewrite H2. cbn [omap list_omap]. unfold gives at 2. cbn [fst snd]. rewrite Hc, Ha. cbn [andb].
        case_bool_decide as Hd.
        -- rewrite last_cons. destruct (last _); [done|]. by rewrite <- Hd, lookup_insert_eq.
        -- destruct (last _); [done|]. by rewrite lookup_insert_ne.
    + destruct IH as (p & Hp & ?). exists p. split; [by right|done].
    + destruct IH as (p & Hp & ?). exists p. split; [by right|done].
  - exists (nic, lif). split_and!; [by left|done|]. cbn [snd]. by rewrite Ha.
  - exists (nic, lif). split_and!; [by left|done|]. cbn [snd]. by rewrite Ha.
Qed.

Lemma last_omap {A B} (f : A → option B) l b : last (omap f l) = Some b →
  ∃ l1 a l2, l = l1 ++ a :: l2 ∧ f a = Some b ∧ ∀ a', a' ∈ l2 → f a' = None.
Proof.
  induction l as [|a l IH] using rev_ind; [done|]. rewrite omap_app. cbn [omap list_omap].
  destruct (f a) as [b'|] eqn:Hf.
  - rewrite last_snoc. intros [= ->]. exists l, a, []. split_and!; [done|done|]. by intros ? ?%elem_of_nil.
  - rewrite app_nil_r. intros (l1 & a1 & l2 & -> & Ha & Hl2)%IH. exists l1, a1, (l2 ++ [a]).
    split_and!; [by rewrite <- app_assoc|done|].
    intros a' [Hin| ->%list_elem_of_singleton]%elem_of_app; [by apply Hl2|done].
Qed.

(** The LIF that gives an address its state: the last one visited of those
    that are not left out and have the address. *)
Lemma given l addr s : (∀ p, p ∈ l → considered p.1 p.2 = true → ∃ a, getAdminStatus (lif_UUID p.2) = Ret a) →
  last (omap (gives addr) l) = Some s →
  ∃ l1 nic lif l2 a, l = l1 ++ (nic, lif) :: l2 ∧ considered nic lif = true ∧ PCIeAddress lif = addr ∧
    getAdminStatus (lif_UUID lif) = Ret a ∧ s = MkNICState addr (admin_health a) (lif_UUID lif) ∧
    ∀ p, p ∈ l2 → considered p.1 p.2 = true → PCIeAddress p.2 ≠ addr.
Proof.
  intros Hans (l1 & [nic lif] & l2 & -> & Hg & Hl2)%last_omap. unfold gives in Hg.
  cbn [fst snd] in Hg. destruct (considered nic lif) eqn:Hc; [|done]. cbn [andb] in Hg. case_bool_decide; [|done].
  destruct (getAdminStatus (lif_UUID lif)) as [a| |] eqn:Ha; [|done..]. injection Hg as <-.
  exists l1, nic, lif, l2, a. split_and!; try done. intros p Hp Hpc Haddr. specialize (Hl2 p Hp).
  destruct (Hans p) as [a' Ha']; [apply elem_of_app; right; by right|done|].
  unfold gives in Hl2. by rewrite Hpc, bool_decide_eq_true_2, Ha' in Hl2.
Qed.

Lemma not_given l addr : (∀ p, p ∈ l → considered p.1 p.2 = true → ∃ a, getAdminStatus (lif_UUID p.2) = Ret a) →
  last (omap (gives addr) l) = None ↔ ∀ p, p ∈ l → considered p.1 p.2 = true → PCIeAddress p.2 ≠ addr.
Proof.
  intros Hans. rewrite last_None. split.
  - intros Hn p Hp Hc Ha. destruct (Hans p Hp Hc) as [a Hr]. destruct p as [nic lif]. cbn in *.
    assert (Hin : MkNICState addr (admin_health a) (lif_UUID lif) ∈ omap (gives addr) l).
    { apply list_elem_of_omap. exists (nic, lif). split; [done|]. unfold gives. cbn. by rewrite Hc, bool_decide_eq_true_2, Hr. }
    rewrite Hn in Hin. by apply elem_of_nil in Hin.
  - intros Hno. destruct (omap (gives addr) l) as [|s r] eqn:Ho; [done|].
    assert (Hin : s ∈ omap (gives addr) l) by (rewrite Ho; by left).
    apply list_elem_of_omap in Hin as (p & Hp & Hg). unfold gives in Hg. destruct (considered p.1 p.2) eqn:Hc; [|done].
    case_bool_decide as Ha; [|done]. by destruct (Hno p Hp Hc).
Qed.

Context (lspci : string → string + string) (nics : gmap string NIC) (Hok : map_Forall (nic_ok lspci) nics).
Context (visit : gmap string NIC → list (NIC * Lif)) (Hvisit : visits nics (visit nics)).

Lemma states_loop m : health_loop show_lif_uuid (visit nics) ∅ = Ret m →
  (∀ nic lif, lif_of nics nic lif → considered nic lif = true → ∃ a, getAdminStatus (lif_UUID lif) = Ret a) ∧
  (∀ addr, is_Some (m !! addr) ↔ ∃ nic lif, lif_of nics nic lif ∧ considered nic lif = true ∧ PCIeAddress lif = addr) ∧
  (∀ addr s, m !! addr = Some s → ∃ l1 nic lif l2 a, visit nics = l1 ++ (nic, lif) :: l2 ∧
    lif_of nics nic lif ∧ considered nic lif = true ∧ PCIeAddress lif = addr ∧
    getAdminStatus (lif_UUID lif) = Ret a ∧ s = MkNICState addr (admin_health a) (lif_UUID lif) ∧
    ∀ p, p ∈ l2 → considered p.1 p.2 = true → PCIeAddress p.2 ≠ addr).
Proof.
  intros Hm. pose proof (health_loop_spec (visit nics) ∅) as H. rewrite Hm in H. destruct H as [Hans Hlook].
  assert (Hlook' : ∀ addr, m !! addr = last (omap (gives addr) (visit nics))).
  { intros addr. rewrite Hlook. destruct (last _); [done|apply lookup_empty]. }
  clear Hlook. split_and!.
  - intros nic lif Hl Hc. by apply (Hans (nic, lif)); [apply Hvisit|].
  - intros addr. rewrite Hlook'. split.
    + intros [s Hl]. apply (given _ _ _ Hans) in Hl as (l1 & nic & lif & l2 & a & Hv & ? & ? & _).
      exists nic, lif. split; [|done]. apply Hvisit. rewrite Hv. apply elem_of_app. right. by left.
    + intros (nic & lif & Hl & Hc & Ha). destruct (last (omap (gives addr) (visit nics))) eqn:Hl'; [by eexists|].
      by destruct (proj1 (not_given _ addr Hans) Hl' (nic, lif) (proj2 (Hvisit nic lif) Hl) Hc).
  - intros addr s. rewrite Hlook'. intros Hl.
    apply (given _ _ _ Hans) in Hl as (l1 & nic & lif & l2 & a & Hv & ?). exists l1, nic, lif, l2, a. split; [done|].
    split; [|done]. apply Hvisit. rewrite Hv. apply elem_of_app. right. by left.
Qed.

Lemma states_size m : health_loop show_lif_uuid (visit nics) ∅ = Ret m → (size m <= size nics)%nat.
Proof.
  intros (_ & Hdom & _)%states_loop. rewrite <- size_dom.
  transitivity (size (list_to_set (card_address lspci <$> (map_to_list nics).*2) : gset string)).
  - apply subseteq_size. intros addr [nic [lif [[id [k [Hn Hl]]] [Hc Ha]]]]%elem_of_dom%Hdom.
    apply elem_of_list_to_set, list_elem_of_fmap. exists nic. split.
    + rewrite <- Ha. by eapply considered_address; [by apply (Hok id)| |].
    + apply list_elem_of_fmap. exists (id, nic). split; [done|]. by apply elem_of_map_to_list.
  - etransitivity; [apply set_of_list_size|]. rewrite !length_fmap. by rewrite length_map_to_list.
Qed.
End states.

(** ** Addresses in labels *)

Definition pci_part (s : string) : Prop :=
  string_forall (λ c, bool_decide (c ≠ ":"%char ∧ c ≠ "."%char ∧ c ≠ "_"%char ∧ c ≠ newline)) s = true.

(** Domain, bus, device and function, as [0000:84:00.1]. *)
Definition pci_address (addr : string) : Prop :=
  ∃ d b s f, pci_part d ∧ pci_part b ∧ pci_part s ∧ pci_part f ∧ addr = d +:+ ":" +:+ b +:+ ":" +:+ s +:+ "." +:+ f.

Lemma string_map_app f s t : string_map f (s +:+ t) = string_map f s +:+ string_map f t.
Proof.
  induction s as [|c s IH]; [done|].
  change (String (f c) (string_map f (s +:+ t)) = String (f c) (string_map f s +:+ string_map f t)). by rewrite IH.
Qed.

Lemma part_replaced s : pci_part s → label_device s = s ∧
  string_forall (λ c, bool_decide (c ≠ "_"%char)) s = true ∧ string_forall (λ c, bool_decide (c ≠ newline)) s = true.
Proof.
  unfold pci_part, label_device, ReplaceByte. induction s as [|c s IH]; [done|]. cbn [string_forall string_map].
  rewrite !andb_true_iff, !bool_decide_eq_true. intros [(H1 & H2 & H3 & H4) Hs]. destruct (IH Hs) as (-> & H5 & H6).
  rewrite (decide_False (P := c = ":"%char)) by done. by rewrite decide_False.
Qed.

Lemma label_device_parts d b s f : pci_part d → pci_part b → pci_part s → pci_part f →
  label_device (d +:+ ":" +:+ b +:+ ":" +:+ s +:+ "." +:+ f) = intercalate "_" [d; b; s; f].
Proof.
  intros (Hd & _)%part_replaced (Hb & _)%part_replaced (Hs & _)%part_replaced (Hf & _)%part_replaced.
  unfold label_device, ReplaceByte in *. rewrite !string_map_app, Hd, Hb, Hs, Hf. done.
Qed.

Lemma label_device_inj a1 a2 : pci_address a1 → pci_address a2 → label_device a1 = label_device a2 → a1 = a2.
Proof.
  intros (d & b & s & f & Hd & Hb & Hs & Hf & ->) (d' & b' & s' & f' & Hd' & Hb' & Hs' & Hf' & ->).
  rewrite !label_device_parts by done. intros Heq.
  assert (Hplain : ∀ a b c d, pci_part a → pci_part b → pci_part c → pci_part d →
    Forall (λ s, string_forall (λ c, bool_decide (c ≠ "_"%char)) s = true) [a; b; c; d]).
  { intros ???? (_ & ? & _)%part_replaced (_ & ? & _)%part_replaced (_ & ? & _)%part_replaced (_ & ? & _)%part_replaced.
    by repeat constructor. }
  apply (f_equal (Split "_")) in Heq. rewrite !Split_intercalate in Heq by auto.
  by injection Heq as -> -> -> ->.
Qed.

Lemma label_device_ok a : pci_address a → device_ok (label_device a).
Proof.
  intros (d & b & s & f & Hd & Hb & Hs & Hf & ->). rewrite label_device_parts by done.
  apply part_replaced in Hd as (_ & _ & Hd), Hb as (_ & _ & Hb), Hs as (_ & _ & Hs), Hf as (_ & _ & Hf).
  split; cbn [intercalate].
  - intros Heq%(f_equal String.length). rewrite string_app_length in Heq. cbn in Heq. lia.
  - repeat (rewrite string_forall_app || cbn [string_forall]). by rewrite Hd, Hb, Hs, Hf.
Qed.

(** The states of [sendNodeLabelUpdate], whatever the order of the entries. *)
Lemma unhealthy_nics_lookup entries d h : NoDup (label_device <$> entries.*1) →
  unhealthy_nics entries !! d = Some h ↔ ∃ e, e ∈ entries ∧ ¬ is_healthy e.2 ∧ label_device e.1 = d ∧ nic_Health e.2 = h.
Proof.
  unfold unhealthy_nics. induction entries as [|e entries IH] using rev_ind.
  { intros _. cbn. rewrite lookup_empty. split; [done|]. by intros (? & ?%elem_of_nil & _). }
  rewrite foldl_snoc, !fmap_app. intros (Hnd & Hnot & _)%NoDup_app. specialize (IH Hnd). revert IH.
  generalize (foldl (λ (m : gmap string string) (e : string * NICState),
    if decide (is_healthy e.2) then m else <[label_device e.1 := nic_Health e.2]> m) ∅ entries). intros m IH.
  assert (Hold : label_device e.1 = d → m !! d = Some h → False).
  { intros Hd (e' & He' & _ & Hd' & _)%IH. apply (Hnot d).
    - rewrite <- Hd'. by do 2 apply list_elem_of_fmap_2.
    - rewrite <- Hd. by left. }
  setoid_rewrite elem_of_app. setoid_rewrite list_elem_of_singleton.
  assert (Hskip : (¬ is_healthy e.2 → label_device e.1 ≠ d) → m !! d = Some h ↔
    ∃ e', (e' ∈ entries ∨ e' = e) ∧ ¬ is_healthy e'.2 ∧ label_device e'.1 = d ∧ nic_Health e'.2 = h).
  { intros Hne. rewrite IH. split.
    - intros (e' & Hin & ?). exists e'. by split; [left|].
    - intros (e' & [Hin| ->] & Hu & Hd & ?); [by exists e'|]. by destruct (Hne Hu). }
  destruct (decide (is_healthy e.2)) as [Hh|Hh]; [by apply Hskip|].
  destruct (decide (label_device e.1 = d)) as [<-|Hne].
  - rewrite lookup_insert_eq. split.
    + intros [= <-]. exists e. by split_and!; [right|..].
    + intros (e' & [Hin| ->] & Hn & Hd & <-); [|done]. destruct (Hold eq_refl). apply IH. by exists e'.
  - rewrite lookup_insert_ne by done. by apply Hskip.
Qed.

Section theorems.
Context (show_card : list card_reply + string).
Context (show_port : string → list (string * list port_reply) + string).
Context (show_lif : string → list (string * list lif_reply) + string).
Context (lspci : string → string + string).
Context (show_lif_uuid : string → list (list string) + string).

Lemma getNICs_ok nics : getNICs show_card show_port show_lif lspci = Ret nics → map_Forall (nic_ok lspci) nics.
Proof.
  intros Hg. pose proof (static_data show_card show_port show_lif lspci) as H. rewrite Hg in H.
  destruct show_card; [by destruct H|done].
Qed.

Context (visit : gmap string NIC → list (NIC * Lif)).
Context (entries : gmap string NICState → list (string * NICState)) (Hentries : ∀ m, entries m ≡ₚ map_to_list m).
Context (nics : gmap string NIC) (Hg : getNICs show_card show_port show_lif lspci = Ret nics).
Context (Hvisit : visits nics (visit nics)).

Abbreviation status := (getAdminStatus show_lif_uuid).

(** A LIF that is not left out. *)
Definition counted (nic : NIC) (lif : Lif) : Prop := lif_of nics nic lif ∧ considered nic lif = true.

(** C25: The health of the NICs, for the cards [getNICs] has found.  Switched
    off there are no states and the labels are left alone.  Otherwise the
    states are an error, with the labels left alone, exactly if there are
    cards and [nicctl] is inactive, and then whatever the queries would say,
    or if the query of some LIF that counts fails, or its answer has none: an
    error of that query, or a panic.  If not, there is a state for exactly the
    addresses of the LIFs that count, the one [nicctl] reports for the last
    LIF visited with that address: healthy when it is up, unhealthy when it
    is down, empty for anything else; and the labels are given exactly these
    states.  There is at most one state for each card: the VFs of a card
    have one address. *)
Theorem nic_states settings client send :
  let '(r, sent) := GetNICHealthStates show_lif_uuid settings client nics visit entries send in
  if InterfaceAdminDownAsUnhealthy settings then
    match r with
    | Ret m =>
        (nics = ∅ ∨ client ≠ Inactive) ∧
        (∀ nic lif, counted nic lif → ∃ a, status (lif_UUID lif) = Ret a) ∧
        (∀ addr, is_Some (m !! addr) ↔ ∃ nic lif, counted nic lif ∧ PCIeAddress lif = addr) ∧
        (∀ addr s, m !! addr = Some s → ∃ l1 nic lif l2 a, visit nics = l1 ++ (nic, lif) :: l2 ∧
          counted nic lif ∧ PCIeAddress lif = addr ∧
          status (lif_UUID lif) = Ret a ∧ s = MkNICState addr (admin_health a) (lif_UUID lif) ∧
          ∀ nic' lif', (nic', lif') ∈ l2 → counted nic' lif' → PCIeAddress lif' ≠ addr) ∧
        (size m <= size nics)%nat ∧
        sent = if decide (nics = ∅) then None else (send (entries m)).2
    | _ =>
        sent = None ∧ nics ≠ ∅ ∧
        if decide (client = Inactive) then r = Err "nicctl client is not active"
        else ∃ nic lif, counted nic lif ∧
          match r, status (lif_UUID lif) with Err e, Err e' => e = e' | Panics, Panics => True | _, _ => False end
    end
  else r = Ret ∅ ∧ sent = None.
Proof.
  pose proof (getNICs_ok nics Hg) as Hok. unfold GetNICHealthStates, counted.
  destruct (InterfaceAdminDownAsUnhealthy settings); [|done]. destruct (decide (nics = ∅)) as [Hn|Hn].
  { assert (Hnone : ∀ nic lif, ¬ lif_of nics nic lif).
    { intros nic lif (id & k & Hl & _). by rewrite Hn, lookup_empty in Hl. }
    split_and!; [by left| | | |rewrite map_size_empty; lia|done].
    - by intros nic lif [?%Hnone _].
    - intros addr. rewrite lookup_empty, is_Some_alt. split; [done|]. by intros (nic & lif & [?%Hnone _] & _).
    - intros addr s. by rewrite lookup_empty. }
  destruct (decide (client = Inactive)) as [->|Hc]; [done|].
  pose proof (health_loop_spec show_lif_uuid (visit nics) ∅) as H.
  destruct (health_loop show_lif_uuid (visit nics) ∅) as [m|e|] eqn:Hm.
  - destruct (states_loop show_lif_uuid nics visit Hvisit m Hm) as (Hans & Hdom & Hval).
    split_and!; [by right| | | | |done].
    + intros nic lif [? ?]. by apply Hans with nic.
    + intros addr. rewrite Hdom. naive_solver.
    + intros addr s (l1 & nic & lif & l2 & a & ? & ? & ? & ? & ? & ? & Hl2)%Hval. exists l1, nic, lif, l2, a.
      split_and!; try done. intros nic' lif' Hin [_ Hcs]. by apply (Hl2 (nic', lif')).
    + eapply states_size; [exact Hok|exact Hvisit|exact Hm].
  - destruct H as ([nic lif] & Hin%Hvisit & Hcs & Ha). split; [done|]. split; [done|]. by exists nic, lif.
  - destruct H as ([nic lif] & Hin%Hvisit & Hcs & Ha). split; [done|]. split; [done|]. by exists nic, lif.
Qed.

(** The labels of the node, for any cards, if the LIFs that count have PCI addresses and
    the API accepts the update: they report exactly the states that are not
    healthy, each under its own address, and every other label is kept. *)
Theorem nic_labels settings client nodeName labels m
    (Hpci : ∀ nic lif, counted nic lif → pci_address (PCIeAddress lif))
    (Hset : InterfaceAdminDownAsUnhealthy settings = true) (Hnics : nics ≠ ∅) (Hnode : nodeName ≠ "")
    (Hm : (GetNICHealthStates show_lif_uuid settings client nics visit entries
             (sendNodeLabelUpdate true nodeName true (inl labels) None)).1 = Ret m) :
  ∃ u, (GetNICHealthStates show_lif_uuid settings client nics visit entries
          (sendNodeLabelUpdate true nodeName true (inl labels) None)).2 = Some u ∧
    let cfg := NewNodeHealthLabellerConfig NICHealthLabelPrefix in
    let labels' := labels_after labels u in
    (∀ d h, ParseNodeHealthLabel cfg labels' !! d = Some h ↔
      ∃ addr s, m !! addr = Some s ∧ ¬ is_healthy s ∧ d = label_device addr ∧ h = nic_Health s) ∧
    (∀ key, is_health_label cfg key = false → labels' !! key = labels !! key).
Proof.
  revert Hm. unfold GetNICHealthStates. rewrite Hset, decide_False by done.
  destruct (decide (client = Inactive)) as [|Hc]; [done|].
  destruct (health_loop show_lif_uuid (visit nics) ∅) as [m'| |] eqn:Hm; [|done..]. intros [= ->].
  destruct (states_loop show_lif_uuid nics visit Hvisit m Hm) as (_ & Hdom & _).
  assert (Hok : ∀ addr, is_Some (m !! addr) → pci_address addr).
  { intros addr (nic & lif & Hl & Hcs & <-)%Hdom. by apply (Hpci nic). }
  assert (Hent : ∀ addr s, (addr, s) ∈ entries m ↔ m !! addr = Some s).
  { intros addr s. rewrite Hentries. apply elem_of_map_to_list. }
  unfold sendNodeLabelUpdate. rewrite decide_False by done. cbn [fst snd]. eexists. split; [done|]. cbv zeta.
  assert (Hnd : NoDup (label_device <$> (entries m).*1)).
  { apply NoDup_fmap_2_strong; [|rewrite Hentries; apply NoDup_fst_map_to_list].
    intros a1 a2 H1 H2. apply label_device_inj; apply Hok.
    - apply list_elem_of_fmap in H1 as ([a s] & -> & Hin%Hent). by eexists.
    - apply list_elem_of_fmap in H2 as ([a s] & -> & Hin%Hent). by eexists. }
  pose proof (λ d h, unhealthy_nics_lookup (entries m) d h Hnd) as Hlook.
  assert (Hrep : reportable (unhealthy_nics (entries m))).
  { intros d h ([addr s] & Hin%Hent & Hn & <- & <-)%Hlook. split; [|done]. apply label_device_ok, Hok. by eexists. }
  destruct (health_labels_written (NewNodeHealthLabellerConfig NICHealthLabelPrefix) labels None _ Hrep) as (Hw & Hkeep & _).
  split; [|exact Hkeep]. intros d h. destruct (Hw eq_refl) as [-> _]. rewrite Hlook. split.
  - intros ([addr s] & Hin%Hent & Hn & <- & <-). by exists addr, s.
  - intros (addr & s & Hs & Hn & -> & ->). exists (addr, s). by rewrite Hent.
Qed.
End theorems.

(** ** Two cards

    The first has a PF and two VFs on the host, of which [lspci] gives the
    address of the first only. *)

Definition cards0 : list card_reply :=
  [MkCard "c0" "Pollara" "S0" "0000:84:00.0" "1.117"; MkCard "c1" "Pollara" "S1" "0000:85:00.0" "1.117"].
Definition show_port0 (id : string) : list (string * list port_reply) + string :=
  inl [(id, [MkPortReply "p0" "eth1/1" "04:90:81:00:00:01"])].
Definition show_lif0 (id : string) : list (string * list lif_reply) + string :=
  if decide (id = "c0") then inl [("c0", [MkLifReply "pf0" "eth0"; MkLifReply "vf1" "eth1"; MkLifReply "vf2" "eth2"])]
  else inl [(id, [MkLifReply "pf1" "eth3"])].
Definition lspci0 (bdf : string) : string + string :=
  inl (if decide (bdf = "84.00") then intercalate newline ["84:00.0"; "84:00.1"; "84:00.2"; ""] else "85:00.0").
Definition show_lif_uuid0 (uuid : string) : list (list string) + string :=
  inl [[if decide (uuid ∈ ["pf0"; "vf1"]) then "up" else "down"]].

Definition ret_or {A} (d : A) (r : go A) : A := match r with Ret a => a | _ => d end.
Definition returns {A} (r : go A) : bool := match r with Ret _ => true | _ => false end.
Lemma returns_ret {A} (d : A) r : returns r = true → r = Ret (ret_or d r).
Proof. by destruct r. Qed.

Definition nics0 : gmap string NIC := ret_or ∅ (getNICs (inl cards0) show_port0 show_lif0 lspci0).

Lemma nics0_got : getNICs (inl cards0) show_port0 show_lif0 lspci0 = Ret nics0.
Proof. apply returns_ret. by_compute. Qed.

Definition states0 (visit : gmap string NIC → list (NIC * Lif)) : gmap string NICState :=
  ret_or ∅ (GetNICHealthStates show_lif_uuid0 (MkNICHealth true) Active nics0 visit map_to_list (λ _, (None, None))).1.

(** The two VFs are one entry, and the order of the visit decides whether it
    is healthy. *)
Lemma order_decides :
  nic_Health <$> states0 (λ n, rev (all_lifs n)) !! "0000:84:00.1" = Some HEALTHY ∧
  nic_Health <$> states0 all_lifs !! "0000:84:00.1" = Some UNHEALTHY ∧
  (map_to_list (states0 all_lifs)).*1 ≡ₚ ["0000:84:00.1"; "0000:85:00.0"].
Proof. split_and!; by_decide. Qed.

(** An answer without a LIF is a panic. *)
Lemma empty_answer_panics :
  (GetNICHealthStates (λ _, inl []) (MkNICHealth true) Active nics0 all_lifs map_to_list (λ _, (None, None))).1 = Panics.
Proof. by vm_compute. Qed.

Lemma nic_states_witness :
  let send := sendNodeLabelUpdate true "n1" true (inl ∅) None in
  let '(r, sent) := GetNICHealthStates show_lif_uuid0 (MkNICHealth true) Active nics0 all_lifs map_to_list send in
  match r with
  | Ret m =>
      (∀ addr, is_Some (m !! addr) ↔ ∃ nic lif, counted nics0 nic lif ∧ PCIeAddress lif = addr) ∧
      (size m <= size nics0)%nat ∧
      sent = if decide (nics0 = ∅) then None else (send (map_to_list m)).2
  | _ => False
  end.
Proof.
  pose proof (nic_states (inl cards0) show_port0 show_lif0 lspci0 show_lif_uuid0 all_lifs map_to_list nics0 nics0_got
    (all_lifs_visits nics0) (MkNICHealth true) Active (sendNodeLabelUpdate true "n1" true (inl ∅) None)) as H.
  assert (Hr : returns (GetNICHealthStates show_lif_uuid0 (MkNICHealth true) Active nics0 all_lifs map_to_list
    (sendNodeLabelUpdate true "n1" true (inl ∅) None)).1 = true) by by_compute.
  cbv zeta. destruct (GetNICHealthStates _ _ _ _ _ _ _) as [[m|e|] sent]; [|discriminate Hr..].
  destruct H as (_ & _ & H1 & _ & H2 & H3). split; [exact H1|]. split; [exact H2|exact H3].
Defined.

Lemma nics0_addresses nic lif : counted nics0 nic lif → pci_address (PCIeAddress lif).
Proof.
  intros [Hl%all_lifs_visits Hc].
  assert (H : Forall (λ p, considered p.1 p.2 = true → PCIeAddress p.2 = "0000:84:00.1" ∨ PCIeAddress p.2 = "0000:85:00.0")
    (all_lifs nics0)) by by_decide.
  rewrite Forall_forall in H. destruct (H _ Hl Hc) as [Ha|Ha]; cbn [snd] in Ha; rewrite Ha.
  - by exists "0000", "84", "00", "1".
  - by exists "0000", "85", "00", "0".
Qed.

Definition labels0 : gmap string string :=
  {["kubernetes.io/hostname" := "n1"; "metricsexporter.amd.com.nic.0000_86_00_0.state" := "unhealthy"]}.

Definition health0 := GetNICHealthStates show_lif_uuid0 (MkNICHealth true) Active nics0 all_lifs map_to_list
  (sendNodeLabelUpdate true "n1" true (inl labels0) None).

Lemma nic_labels_witness :
  ∃ u, health0.2 = Some u ∧
    let cfg := NewNodeHealthLabellerConfig NICHealthLabelPrefix in
    let labels' := labels_after labels0 u in
    (∀ d h, ParseNodeHealthLabel cfg labels' !! d = Some h ↔
      ∃ addr s, ret_or ∅ health0.1 !! addr = Some s ∧ ¬ is_healthy s ∧ d = label_device addr ∧ h = nic_Health s) ∧
    (∀ key, is_health_label cfg key = false → labels' !! key = labels0 !! key).
Proof.
  apply (nic_labels show_lif_uuid0 all_lifs map_to_list (λ m, Permutation_refl _) nics0 (all_lifs_visits nics0)
    (MkNICHealth true) Active "n1" labels0).
  - apply nics0_addresses.
  - reflexivity.
  - by_decide.
  - done.
  - apply returns_ret. by_compute.
Defined.

(** What is on the node afterwards. *)
Lemma labels0_after : ParseNodeHealthLabel (NewNodeHealthLabellerConfig NICHealthLabelPrefix)
    (default ∅ (labels_after labels0 <$> health0.2)) =
  {["0000_84_00_1" := UNHEALTHY; "0000_85_00_0" := UNHEALTHY]}.
Proof. by_decide. Qed.
