(* ===== verification/NicLabels.v ===== *)
(** The labels of the NIC metrics, [src/pkg/amdnic/nicagent/]: which labels a
    configuration enables ([initLabelConfigs], [initCustomLabels],
    [initPodExtraLabels]), the names the gauges are created with
    ([GetExportLabels], [GetNetworkDeviceLabels], [initPrometheusMetrics]),
    the labels of a NIC, of its ports, LIFs and queue pairs, and of a network
    device ([nicagent_metrics.go], [nicctl_client.go]).

    The record of the settings and what a gauge accepts are those of
    [LabelConfig]: the NIC agent keeps them in variables of the package. *)

From S2P Require Import Prelude Format GoStd Scheduler Config LabelConfig NicAgent.

(** ** Names *)

Inductive NICMetricLabel : Type := NIC_UUID | NIC_ID | FIRMWARE_VERSION.

Definition NICMetricLabel_String (l : NICMetricLabel) : string :=
  match l with NIC_UUID => "NIC_UUID" | NIC_ID => "NIC_ID" | FIRMWARE_VERSION => "FIRMWARE_VERSION" end.

Definition NICMetricLabel_name : list string := NICMetricLabel_String <$> [NIC_UUID; NIC_ID; FIRMWARE_VERSION].
Definition nic_label_names : list string := MetricLabel_name ++ NICMetricLabel_name.

Definition mandatoryLables : list string :=
  [NICMetricLabel_String NIC_ID; MetricLabel_String SERIAL_NUMBER; MetricLabel_String HOSTNAME].

(** [KubernetesLabels] of [scheduler/k8s.go]. *)
Definition KubernetesLabels : list string :=
  [MetricLabel_String POD; MetricLabel_String NAMESPACE; MetricLabel_String CONTAINER].

Definition LabelPortName : string := "port_name".
Definition LabelPortID : string := "port_id".
Definition LabelRdmaDevName : string := "rdma_dev_name".
Definition LabelPcieBusId : string := "pcie_bus_id".
Definition LabelEthIntfName : string := "eth_intf_name".
Definition LabelEthIntfAlias : string := "eth_intf_alias".
Definition LabelQPID : string := "qp_id".

Definition workloadLabels : list string := ToLower <$> KubernetesLabels.

(** ** Loading a configuration *)

Record NICMetricConfig : Type := MkNICConfig {
  nic_Labels : list string;
  nic_CustomLabels : list (string * string);
  nic_ExtraPodLabels : list (string * string);
}.

Definition initCustomLabels (config : option NICMetricConfig) : gmap string string :=
  match config with
  | None => ∅
  | Some c => (foldl (take_label MaxSupportedCustomLabels (ToLower <$> mandatoryLables)) (∅, 0) (nic_CustomLabels c)).1
  end.

Definition default_labels : gmap string bool :=
  foldl (λ m name, <[name := true]> m) (list_to_map ((λ name, (name, false)) <$> nic_label_names)) mandatoryLables.

(** Labels of Kubernetes are enabled on Kubernetes only. *)
Definition enable_label (isKubernetes : bool) (m : gmap string bool) (name : string) : gmap string bool :=
  let name := ToUpper name in
  match m !! name with
  | Some _ => if decide (name ∈ KubernetesLabels ∧ isKubernetes = false) then m else <[name := true]> m
  | None => m
  end.

Definition initLabelConfigs (isKubernetes : bool) (config : option NICMetricConfig) : gmap string bool :=
  match config with
  | None => default_labels
  | Some c => foldl (enable_label isKubernetes) default_labels (nic_Labels c)
  end.

(** The part of [InitConfigs] that is about labels. *)
Definition InitConfigs_labels (isKubernetes : bool) (config : option NICMetricConfig) (s : label_config) : label_config :=
  let custom := initCustomLabels config in
  let exported := initLabelConfigs isKubernetes config in
  let info := podInfoEnabled s || bool_decide (exported !! MetricLabel_String POD_UUID = Some true) in
  match config with
  | None => MkLabels exported custom (extraPodLabelsMap s) info
  | Some c =>
      let extra := NormalizeExtraPodLabels (nic_ExtraPodLabels c) in
      MkLabels exported custom extra (info || bool_decide (extra ≠ ∅))
  end.

(** ** The names the gauges are created with *)

Definition GetExporterNonNICLabels (s : label_config) : list string :=
  ToLower (MetricLabel_String HOSTNAME) :: (ToLower <$> (map_to_list (customLabelMap s)).*1).

(** The set is that of the existing labels, before any is added. *)
Definition appendLabelsWithoutDuplicates (existingLabels newLabels : list string) : list string :=
  existingLabels ++ filter (λ l, l ∉ existingLabels) newLabels.

(** [GetExportLabels] is the same function as that of the GPU agent. *)
Definition labelsWithWorkload (s : label_config) : list string :=
  appendLabelsWithoutDuplicates (GetExportLabels s) workloadLabels.

Definition GetNetworkDeviceLabels (s : label_config) : list string :=
  labelsWithWorkload s ++ [LabelEthIntfName; LabelEthIntfAlias; LabelRdmaDevName; LabelPcieBusId].

Definition port_gauge (s : label_config) : list string := [LabelPortName; LabelPortID; LabelPcieBusId] ++ GetExportLabels s.
Definition lif_gauge (s : label_config) : list string :=
  [LabelPortName; LabelEthIntfName; LabelPcieBusId] ++ labelsWithWorkload s.
Definition qp_gauge (s : label_config) : list string :=
  [LabelEthIntfName; LabelPcieBusId; LabelQPID] ++ labelsWithWorkload s.
Definition lif_qp_gauge (s : label_config) : list string := [LabelEthIntfName; LabelPcieBusId] ++ labelsWithWorkload s.

(** ** The labels *)

(** A device of the network. *)
Record NetDevice : Type := MkNetDevice {
  IntfName : string;
  IntfAlias : string;
  RoceDevName : string;
  PCIeBusId : string;
  PodName : string;
}.

Section labels.
Context (s : label_config) (hostname : string).
Context (k8PodInfoMap : gmap string K8sPodInfo) (nics : gmap string NIC).
Context (ports : gmap string Port → list Port).   (* the order of the visit *)

Definition isExtraOrCustomLabel (key : string) : Prop :=
  is_Some (extraPodLabelsMap s !! key) ∨ is_Some (customLabelMap s !! key).
#[export] Instance isExtraOrCustomLabel_dec key : Decision (isExtraOrCustomLabel key).
Proof. unfold isExtraOrCustomLabel. apply _. Defined.

Definition add_custom (labels : gmap string string) : gmap string string :=
  foldl (λ m e, <[e.1 := e.2]> m) labels (map_to_list (customLabelMap s)).

Definition populateNonNICLabels : gmap string string :=
  add_custom (foldl (λ m ckey, <[ToLower ckey := if decide (ckey = ToLower (MetricLabel_String HOSTNAME)) then hostname else ""]> m)
    ∅ (GetExporterNonNICLabels s)).

(** The value of a label of a NIC, which may be missing. *)
Definition nic_value (nic : option NIC) (ckey : string) : string :=
  let field f := match nic with Some n => f n | None => "" end in
  if decide (ckey = NICMetricLabel_String NIC_UUID) then field UUID
  else if decide (ckey = NICMetricLabel_String NIC_ID) then field Index
  else if decide (ckey = NICMetricLabel_String FIRMWARE_VERSION) then field FirmwareVersion
  else if decide (ckey = MetricLabel_String SERIAL_NUMBER) then field SerialNumber
  else if decide (ckey = MetricLabel_String HOSTNAME) then hostname
  else "".

Definition populateLabelsFromNIC (uuid : string) : gmap string string :=
  let nic := nics !! uuid in
  let labels := foldl (λ m e, if decide (e.2 = true ∧ ¬ isExtraOrCustomLabel e.1)
    then <[ToLower e.1 := nic_value nic e.1]> m else m) ∅ (map_to_list (exportLabels s)) in
  let labels := match nic with
    | Some _ => foldl (λ m e, <[ToLower e.1 := ""]> m) labels (map_to_list (extraPodLabelsMap s))
    | None => labels
    end in
  add_custom labels.

Definition no_workload : gmap string string :=
  {["pod" := ""; "namespace" := ""; "container" := ""]}.

(** [None]: the workload is a job, a panic. *)
Definition getAssociatedWorkloadLabelsForPcieAddr (pcieAddr : string) (workloads : gmap string Workload) :
    option (gmap string string) :=
  match workloads !! pcieAddr with
  | None => Some no_workload
  | Some wl =>
      match Info wl with
      | InfoPod podInfo =>
          let labels := <["container" := Container podInfo]> (<["namespace" := Namespace podInfo]>
            (<["pod" := Pod podInfo]> no_workload)) in
          let podLabels := GetPodLabels (Some podInfo) k8PodInfoMap in
          Some (foldl (λ m e, <[ToLower e.1 := default "" (podLabels !! e.2)]> m) labels (map_to_list (extraPodLabelsMap s)))
      | InfoJob _ => None
      end
  end.

Definition getAssociatedWorkloadLabels (nicID lifID : string) (workloads : gmap string Workload) :
    option (gmap string string) :=
  match nics !! nicID ≫= λ nic, Lifs nic !! lifID with
  | Some lif =>
      if decide (PCIeAddress lif = "") then Some no_workload
      else getAssociatedWorkloadLabelsForPcieAddr (PCIeAddress lif) workloads
  | None => Some no_workload
  end.

(** *** Ports, LIFs and queue pairs

    [UpdatePortStats], [UpdateLifStats] and [UpdateQPStats] of
    [nicctl_client.go], as far as the labels go.  The map of labels of a card
    is shared by its LIFs, and is cloned for the queue pairs; [None]: panic. *)

Definition port_labels (labels : gmap string string) (nicID : string) : option (gmap string string) :=
  portName ← GetPortName ports (nics !! nicID);
  portID ← GetPortIndex ports (nics !! nicID);
  addr ← GetPortPcieAddr (nics !! nicID);
  Some (<[LabelPcieBusId := addr]> (<[LabelPortID := portID]> (<[LabelPortName := portName]> labels))).

Definition lif_labels (workloads : gmap string Workload) (nicID : string) (labels : gmap string string)
    (lifID : string) : option (gmap string string) :=
  wl ← getAssociatedWorkloadLabels nicID lifID workloads;
  lifName ← GetLifName (nics !! nicID) lifID;
  portName ← GetPortName ports (nics !! nicID);
  addr ← GetLifPcieAddr (nics !! nicID) lifID;
  Some (<[LabelPcieBusId := addr]> (<[LabelPortName := portName]> (<[LabelEthIntfName := lifName]> (wl ∪ labels)))).

(** The labels the gauges of the LIFs of a card are set with. *)
Fixpoint lif_sweep (workloads : gmap string Workload) (nicID : string) (labels : gmap string string)
    (lifs : list string) : option (list (gmap string string)) :=
  match lifs with
  | [] => Some []
  | lifID :: lifs =>
      labels ← lif_labels workloads nicID labels lifID;
      rest ← lif_sweep workloads nicID labels lifs;
      Some (labels :: rest)
  end.

Definition UpdateLifStats_labels (workloads : gmap string Workload) (lifStats : list (string * list string)) :
    option (list (list (gmap string string))) :=
  mapM (λ e, lif_sweep workloads e.1 (populateLabelsFromNIC e.1) e.2) lifStats.

Definition lif_qp_labels (workloads : gmap string Workload) (nicID lifID : string) : option (gmap string string) :=
  wl ← getAssociatedWorkloadLabels nicID lifID workloads;
  lifName ← GetLifName (nics !! nicID) lifID;
  addr ← GetLifPcieAddr (nics !! nicID) lifID;
  Some (<[LabelPcieBusId := addr]> (<[LabelEthIntfName := lifName]> (wl ∪ populateLabelsFromNIC nicID))).

Definition qp_labels (workloads : gmap string Workload) (nicID lifID qpID : string) : option (gmap string string) :=
  labels ← lif_qp_labels workloads nicID lifID; Some (<[LabelQPID := qpID]> labels).

(** *** Devices of the network *)

(** The last NIC, in the order of the visit, with a LIF of that name. *)
Definition device_nic (visit : list NIC) (intfName : string) : option NIC :=
  foldl (λ nic n, if existsb (λ e, bool_decide (lif_Name e.2 = intfName)) (map_to_list (Lifs n)) then Some n else nic)
    None visit.

(** [None]: no value, the label is left out. *)
Definition device_value (nic : option NIC) (netDev : NetDevice) (podInfo : option PodResourceInfo)
    (key : string) : option string :=
  let field f := match nic with Some n => f n | None => "" end in
  let pod f := match podInfo with Some p => f p | None => "" end in
  if decide (key = ToLower (MetricLabel_String HOSTNAME)) then Some hostname
  else if decide (key = ToLower (MetricLabel_String SERIAL_NUMBER)) then Some (field SerialNumber)
  else if decide (key = ToLower (NICMetricLabel_String NIC_UUID)) then Some (field UUID)
  else if decide (key = ToLower (NICMetricLabel_String NIC_ID)) then Some (field Index)
  else if decide (key = ToLower (NICMetricLabel_String FIRMWARE_VERSION)) then Some (field FirmwareVersion)
  else if decide (key = ToLower (MetricLabel_String POD)) then Some (pod Pod)
  else if decide (key = ToLower (MetricLabel_String POD_UUID)) then Some (GetPodUID podInfo k8PodInfoMap)
  else if decide (key = ToLower (MetricLabel_String CONTAINER)) then Some (pod Container)
  else if decide (key = ToLower (MetricLabel_String NAMESPACE)) then Some (pod Namespace)
  else if decide (key = LabelEthIntfName) then Some (IntfName netDev)
  else if decide (key = LabelEthIntfAlias) then Some (IntfAlias netDev)
  else if decide (key = LabelRdmaDevName) then Some (RoceDevName netDev)
  else if decide (key = LabelPcieBusId) then Some (PCIeBusId netDev)
  else None.

Definition add_device_label (nic : option NIC) (netDev : NetDevice) (podInfo : option PodResourceInfo)
    (labelMap : gmap string string) (key : string) : gmap string string :=
  if decide (isExtraOrCustomLabel key) then labelMap
  else match device_value nic netDev podInfo key with Some v => <[key := v]> labelMap | None => labelMap end.

Definition populateLabelsForNetDevice (visit : list NIC) (netDev : NetDevice) (podInfo : option PodResourceInfo) :
    gmap string string :=
  let nic := device_nic visit (IntfName netDev) in
  let labelMap := foldl (add_device_label nic netDev podInfo) ∅ (GetNetworkDeviceLabels s) in
  let podLabels := GetPodLabels podInfo k8PodInfoMap in
  add_custom (foldl (λ m e, <[ToLower e.1 := default "" (podLabels !! e.2)]> m) labelMap
    (map_to_list (extraPodLabelsMap s))).
End labels.
