(* ===== verification/NicLabelProofs.v ===== *)
(** The labels of the NIC metrics and the gauges they are set on: which
    configurations make an export panic, and what the LIFs of a card that
    share a map of labels leave to each other. *)

From S2P Require Import Prelude Format GoStd Scheduler Config LabelConfig LabelProofs NicAgent NicLabels.

(** ** Loading keeps the maps in order *)

Lemma nic_label_names_upper name : name ∈ nic_label_names → ToUpper name = name ∧ ToLower name ≠ name.
Proof. revert name. apply Forall_forall. by_decide. Qed.

Lemma nic_label_names_inj a b : a ∈ nic_label_names → b ∈ nic_label_names → ToLower a = ToLower b → a = b.
Proof.
  intros [Ha _]%nic_label_names_upper [Hb _]%nic_label_names_upper He.
  by rewrite <- Ha, <- Hb, <- (ToUpper_ToLower a), He, ToUpper_ToLower.
Qed.

Definition nic_exported_ok (m : gmap string bool) : Prop :=
  (∀ k b, m !! k = Some b → k ∈ nic_label_names) ∧ ∀ k, k ∈ mandatoryLables → m !! k = Some true.

Record nic_labels_ok (s : label_config) : Prop := {
  nic_ok_exported : nic_exported_ok (exportLabels s);
  nic_ok_custom : lower_keys (ToLower <$> mandatoryLables) MaxSupportedCustomLabels (customLabelMap s);
  nic_ok_extra : lower_keys [] MaxSupportedPodLabels (extraPodLabelsMap s);
}.

Lemma nic_enable_ok isK8s m name : nic_exported_ok m → nic_exported_ok (enable_label isK8s m name).
Proof.
  intros [Hk Hm]. unfold enable_label. destruct (m !! ToUpper name) as [b0|] eqn:Hn; [|done].
  case_decide; [done|]. split.
  - intros k b [(<- & _)|(_ & H')]%lookup_insert_Some; [by eapply Hk|by eapply Hk].
  - intros k Hin. destruct (decide (ToUpper name = k)) as [->|]; [by rewrite lookup_insert_eq|].
    rewrite lookup_insert_ne by done. by apply Hm.
Qed.

Lemma nic_default_ok : nic_exported_ok default_labels.
Proof.
  assert (Hd : Forall (λ p, p.1 ∈ nic_label_names) (map_to_list default_labels) ∧
               Forall (λ k, default_labels !! k = Some true) mandatoryLables).
  { split; by_decide. }
  destruct Hd as [Hk Hm]. rewrite Forall_forall in Hk. split; [|by apply Forall_forall].
  intros k b H%elem_of_map_to_list. apply (Hk _ H).
Qed.

Lemma nic_init_ok isK8s config s : lower_keys [] MaxSupportedPodLabels (extraPodLabelsMap s) →
  nic_labels_ok (InitConfigs_labels isK8s config s).
Proof.
  intros Hs. assert (He : nic_exported_ok (initLabelConfigs isK8s config)).
  { destruct config as [c|]; [|apply nic_default_ok]. unfold initLabelConfigs.
    generalize nic_default_ok. generalize default_labels.
    induction (nic_Labels c) as [|x l IH]; intros m Hm; [done|]. cbn. by apply IH, nic_enable_ok. }
  assert (Hc : lower_keys (ToLower <$> mandatoryLables) MaxSupportedCustomLabels (initCustomLabels config)).
  { destruct config as [c|]; [|apply empty_lower_keys]. apply take_labels_ok; [done| |lia].
    rewrite map_size_empty. lia. }
  unfold InitConfigs_labels. destruct config as [c|]; (split; [exact He|exact Hc|cbn]); [|done].
  apply take_labels_ok; [done| |lia]. rewrite map_size_empty. lia.
Qed.

(** The configurations of a run, one after the other. *)
Definition nic_load_labels (isK8s : bool) (configs : list (option NICMetricConfig)) : label_config :=
  foldl (λ s c, InitConfigs_labels isK8s c s) NewLabels configs.

Lemma nic_load_ok isK8s configs : configs ≠ [] → nic_labels_ok (nic_load_labels isK8s configs).
Proof.
  induction configs as [|c configs IH] using rev_ind; [done|]. intros _.
  unfold nic_load_labels. rewrite foldl_app. cbn. apply nic_init_ok.
  destruct configs as [|c0 configs]; [apply empty_lower_keys|]. by apply IH.
Qed.

(** ** The names of the gauges *)

Lemma elem_of_append_labels l ks k : k ∈ appendLabelsWithoutDuplicates l ks ↔ k ∈ l ∨ k ∈ ks.
Proof.
  unfold appendLabelsWithoutDuplicates. rewrite elem_of_app, list_elem_of_filter.
  destruct (decide (k ∈ l)); tauto.
Qed.

Section names.
Context (s : label_config) (Hs : nic_labels_ok s).

Lemma nic_enabled_known name : name ∈ enabled_names s → name ∈ nic_label_names.
Proof. intros Hn%elem_of_enabled. by eapply (nic_ok_exported s Hs). Qed.

Lemma NoDup_nic_labels : NoDup (GetExportLabels s).
Proof. apply (NoDup_export_labels nic_label_names); [apply nic_label_names_inj|apply nic_enabled_known]. Qed.

Lemma NoDup_with_workload : NoDup (labelsWithWorkload s).
Proof.
  apply NoDup_app. split; [apply NoDup_nic_labels|]. split.
  - intros k Hk Hin%list_elem_of_filter. by destruct Hin.
  - apply NoDup_filter. by_decide.
Qed.

(** A name of the configuration is in upper case, a custom label or an extra
    label of the pods is not. *)
Lemma enabled_not_extra name : name ∈ enabled_names s → ¬ isExtraOrCustomLabel s name.
Proof.
  intros [_ Hne]%nic_enabled_known%nic_label_names_upper [[v Hv]|[v Hv]].
  - by apply (proj1 (nic_ok_extra s Hs)) in Hv as [? _].
  - by apply (proj1 (nic_ok_custom s Hs)) in Hv as [? _].
Qed.

Lemma extra_or_custom_exported k : isExtraOrCustomLabel s k → k ∈ GetExportLabels s.
Proof. rewrite elem_of_GetExportLabels. unfold isExtraOrCustomLabel. tauto. Qed.

(** The maps of the configuration are copied as they are. *)
Lemma add_custom_lookup (labels : gmap string string) k :
  add_custom s labels !! k = match customLabelMap s !! k with Some v => Some v | None => labels !! k end.
Proof. apply (foldl_insert_entries (A := string) (λ e, e.1) (λ e, e.2)). done. Qed.

Lemma add_extra_lookup (g : string → string) (labels : gmap string string) k :
  foldl (λ m e, <[ToLower e.1 := g e.2]> m) labels (map_to_list (extraPodLabelsMap s)) !! k =
  match extraPodLabelsMap s !! k with Some l => Some (g l) | None => labels !! k end.
Proof.
  apply (foldl_insert_entries (A := string) (λ e, ToLower e.1) (λ e, g e.2)).
  intros k' v Hv. apply (proj1 (nic_ok_extra s Hs) k' v Hv).
Qed.

Lemma is_Some_or_else {A B} (g : A → B) (x : option A) (o : option B) (P : Prop) : (is_Some o ↔ P) →
  is_Some (match x with Some v => Some (g v) | None => o end) ↔ is_Some x ∨ P.
Proof.
  intros H. destruct x; [split; [by left|by eexists]|]. rewrite H. split; [by right|by intros [[? ?]|]].
Qed.

(** A fold that sets labels with some value: only the names matter. *)
Lemma fold_labels_dom {B} (f : gmap string string → B → gmap string string) (P : B → string → Prop) l m k :
  (∀ m e, is_Some (f m e !! k) ↔ is_Some (m !! k) ∨ P e k) →
  is_Some (foldl f m l !! k) ↔ is_Some (m !! k) ∨ ∃ e, e ∈ l ∧ P e k.
Proof.
  intros Hf. revert m. induction l as [|e l IH]; intros m; cbn [foldl].
  { split; [tauto|]. intros [H|(e & H%not_elem_of_nil & _)]; done. }
  rewrite IH, Hf. setoid_rewrite elem_of_cons. naive_solver.
Qed.

(** ** The labels of a card *)

Section card.
Context (hostname : string) (k8PodInfoMap : gmap string K8sPodInfo) (nics : gmap string NIC).
Context (ports : gmap string Port → list Port).

(** A known card has every exported label. *)
Lemma nic_labels_dom uuid : is_Some (nics !! uuid) → ∀ k,
  is_Some (populateLabelsFromNIC s hostname nics uuid !! k) ↔ k ∈ GetExportLabels s.
Proof.
  intros [n Hn] k. unfold populateLabelsFromNIC. rewrite Hn, add_custom_lookup, elem_of_GetExportLabels.
  rewrite (add_extra_lookup (λ _, "")).
  rewrite (is_Some_or_else id _ _ (is_Some (extraPodLabelsMap s !! k) ∨ k ∈ ToLower <$> enabled_names s)); [tauto|].
  apply (is_Some_or_else (λ _, "")).
  rewrite (fold_labels_dom _ (λ e key, key = ToLower e.1 ∧ e.2 = true ∧ ¬ isExtraOrCustomLabel s e.1)).
  - rewrite lookup_empty, list_elem_of_fmap. setoid_rewrite elem_of_enabled. split.
    + intros [[? ?]|([name b] & Hin%elem_of_map_to_list & -> & Hb & _)]; [done|]. cbn in *. subst b. by exists name.
    + intros (name & -> & Hin). right. exists (name, true). cbn. split; [by apply elem_of_map_to_list|].
      split_and!; try done. apply enabled_not_extra. by apply elem_of_enabled.
  - intros m [name b]. cbn. case_decide as Hd; [|split; [by left|intros [?|(_ & ?)]; tauto]].
    rewrite lookup_insert_is_Some'. split; [intros [<-|?]; [by right|by left]|intros [?|[-> _]]; [by right|by left]].
Qed.

(** *** The workload of a LIF *)

Definition lif_workload (workloads : gmap string Workload) (nicID lifID : string) : option Workload :=
  nic ← nics !! nicID;
  lif ← Lifs nic !! lifID;
  if decide (PCIeAddress lif = "") then None else workloads !! PCIeAddress lif.

Abbreviation assoc := (getAssociatedWorkloadLabels s k8PodInfoMap nics).
Definition is_pod (w : Workload) : Prop := ∃ p, Info w = InfoPod p.

Lemma assoc_none workloads nicID lifID : lif_workload workloads nicID lifID = None →
  assoc nicID lifID workloads = Some no_workload.
Proof.
  unfold lif_workload, getAssociatedWorkloadLabels, getAssociatedWorkloadLabelsForPcieAddr.
  destruct (nics !! nicID) as [n|]; cbn [mbind option_bind]; [|done].
  destruct (Lifs n !! lifID) as [l|]; cbn [mbind option_bind]; [|done].
  destruct (decide _); [done|]. by intros ->.
Qed.

Lemma assoc_some workloads nicID lifID w : lif_workload workloads nicID lifID = Some w →
  (is_pod w ↔ is_Some (assoc nicID lifID workloads)) ∧
  ∀ wl k, assoc nicID lifID workloads = Some wl →
    is_Some (wl !! k) ↔ k ∈ workloadLabels ∨ is_Some (extraPodLabelsMap s !! k).
Proof.
  unfold lif_workload, getAssociatedWorkloadLabels, getAssociatedWorkloadLabelsForPcieAddr.
  destruct (nics !! nicID) as [n|]; cbn [mbind option_bind]; [|done].
  destruct (Lifs n !! lifID) as [l|]; cbn [mbind option_bind]; [|done].
  destruct (decide _); [done|]. intros ->.
  destruct (Info w) as [p|j] eqn:Hi; (split; [split|]).
  - intros _. by eexists.
  - intros _. by exists p.
  - intros wl k [= <-].
    rewrite (add_extra_lookup (λ l, default "" (GetPodLabels (Some p) k8PodInfoMap !! l))).
    rewrite (is_Some_or_else _ _ _ (k ∈ workloadLabels)); [tauto|].
    change workloadLabels with ["pod"; "namespace"; "container"]. unfold no_workload.
    rewrite !lookup_insert_is_Some', lookup_singleton_is_Some, !elem_of_cons, elem_of_nil.
    split; intros; destruct_or?; subst; tauto.
  - intros [p Hp]. by rewrite Hi in Hp.
  - by intros [? ?].
  - done.
Qed.

Lemma no_workload_dom k : is_Some (no_workload !! k) ↔ k ∈ workloadLabels.
Proof.
  change workloadLabels with ["pod"; "namespace"; "container"]. unfold no_workload.
  rewrite !lookup_insert_is_Some', lookup_singleton_is_Some, !elem_of_cons, elem_of_nil.
  split; intros; destruct_or?; subst; tauto.
Qed.

(** Every workload of the LIFs of a card is a pod. *)
Definition pods_only (workloads : gmap string Workload) : Prop := map_Forall (λ _, is_pod) workloads.

Lemma lif_workload_pod workloads nicID lifID w : pods_only workloads →
  lif_workload workloads nicID lifID = Some w → is_pod w.
Proof.
  unfold lif_workload. intros Hp.
  destruct (nics !! nicID) as [n|]; cbn [mbind option_bind]; [|done].
  destruct (Lifs n !! lifID) as [l|]; cbn [mbind option_bind]; [|done].
  destruct (decide _); [done|]. apply Hp.
Qed.

Lemma assoc_total workloads nicID lifID : pods_only workloads → ∃ wl,
  assoc nicID lifID workloads = Some wl ∧ (∀ k, k ∈ workloadLabels → is_Some (wl !! k)) ∧
  ∀ k, is_Some (wl !! k) → k ∈ labelsWithWorkload s.
Proof.
  intros Hp. unfold labelsWithWorkload. setoid_rewrite elem_of_append_labels.
  destruct (lif_workload workloads nicID lifID) as [w|] eqn:Hw.
  - destruct (assoc_some _ _ _ _ Hw) as [Hs' Hk].
    destruct (proj1 Hs' (lif_workload_pod _ _ _ _ Hp Hw)) as [wl Hwl]. exists wl. split; [done|].
    split; intros k; rewrite (Hk wl k Hwl); [by left|]. rewrite elem_of_GetExportLabels. tauto.
  - exists no_workload. split; [by apply assoc_none|]. setoid_rewrite no_workload_dom. tauto.
Qed.

(** *** The gauges of a card *)

(** Labels between those of the configuration and those of a gauge. *)
Definition between (index : list string) (labels : gmap string string) : Prop :=
  ∀ k, (k ∈ GetExportLabels s → is_Some (labels !! k)) ∧ (is_Some (labels !! k) → k ∈ index ++ labelsWithWorkload s).

Lemma base_between index nicID : is_Some (nics !! nicID) →
  between index (populateLabelsFromNIC s hostname nics nicID).
Proof.
  intros Hn k. rewrite nic_labels_dom by done. split; [done|]. intros Hk.
  apply elem_of_app. right. by apply elem_of_append_labels; left.
Qed.

Lemma with_workload_dom workloads nicID lifID wl index labels k : between index labels →
  (∀ k, k ∈ workloadLabels → is_Some (wl !! k)) → (∀ k, is_Some (wl !! k) → k ∈ labelsWithWorkload s) →
  assoc nicID lifID workloads = Some wl →
  k ∈ index ∨ is_Some ((wl ∪ labels) !! k) ↔ k ∈ index ++ labelsWithWorkload s.
Proof.
  intros Hb H1 H2 _. destruct (Hb k) as [Hb1 Hb2]. rewrite lookup_union_is_Some, elem_of_app in *.
  unfold labelsWithWorkload in *. rewrite elem_of_append_labels in *. specialize (H2 k).
  rewrite elem_of_append_labels in H2. pose proof (H1 k). tauto.
Qed.

Lemma lif_labels_total workloads nicID labels lifID : pods_only workloads → is_Some (nics !! nicID) →
  between [LabelPortName; LabelEthIntfName; LabelPcieBusId] labels →
  ∃ m, lif_labels s k8PodInfoMap nics ports workloads nicID labels lifID = Some m ∧
    ∀ k, is_Some (m !! k) ↔ k ∈ lif_gauge s.
Proof.
  intros Hp [n Hn] Hb. destruct (assoc_total workloads nicID lifID Hp) as (wl & Hwl & H1 & H2).
  unfold lif_labels. rewrite Hwl, Hn. cbn. eexists. split; [done|]. intros k.
  unfold lif_gauge. rewrite <- (with_workload_dom _ _ _ _ _ _ k Hb H1 H2 Hwl).
  rewrite !lookup_insert_is_Some', !elem_of_cons, elem_of_nil. 
  split; intros; destruct_or?; subst; tauto.
Qed.

Lemma lif_qp_labels_total workloads nicID lifID : pods_only workloads → is_Some (nics !! nicID) →
  ∃ m, lif_qp_labels s hostname k8PodInfoMap nics workloads nicID lifID = Some m ∧
    ∀ k, is_Some (m !! k) ↔ k ∈ lif_qp_gauge s.
Proof.
  intros Hp Hn. destruct (assoc_total workloads nicID lifID Hp) as (wl & Hwl & H1 & H2).
  pose proof (base_between [LabelEthIntfName; LabelPcieBusId] nicID Hn) as Hb.
  unfold lif_qp_labels. rewrite Hwl. destruct Hn as [n Hn]. rewrite Hn. cbn. eexists. split; [done|]. intros k.
  unfold lif_qp_gauge. rewrite <- (with_workload_dom _ _ _ _ _ _ k Hb H1 H2 Hwl).
  rewrite !lookup_insert_is_Some', !elem_of_cons, elem_of_nil.
  split; intros; destruct_or?; subst; tauto.
Qed.

Lemma port_labels_total nicID labels : is_Some (nics !! nicID) →
  (∀ k, k ∈ GetExportLabels s → is_Some (labels !! k)) → (∀ k, is_Some (labels !! k) → k ∈ port_gauge s) →
  ∃ m, port_labels nics ports labels nicID = Some m ∧ ∀ k, is_Some (m !! k) ↔ k ∈ port_gauge s.
Proof.
  intros [n Hn] H1 H2. unfold port_labels. rewrite Hn. cbn. eexists. split; [done|]. intros k.
  specialize (H1 k). specialize (H2 k). unfold port_gauge in *. rewrite elem_of_app in *.
  rewrite !lookup_insert_is_Some', !elem_of_cons, elem_of_nil in *.
  split; intros; destruct_or?; subst; tauto.
Qed.

(** The labels of every LIF of a card, whatever the ones before it left. *)
Lemma lif_sweep_total workloads nicID labels lifs : pods_only workloads → is_Some (nics !! nicID) →
  between [LabelPortName; LabelEthIntfName; LabelPcieBusId] labels →
  ∃ ms, lif_sweep s k8PodInfoMap nics ports workloads nicID labels lifs = Some ms ∧ length ms = length lifs ∧
    Forall (λ m, ∀ k, is_Some (m !! k) ↔ k ∈ lif_gauge s) ms.
Proof.
  intros Hp Hn. revert labels. induction lifs as [|lifID lifs IH]; intros labels Hb; [by exists []|].
  cbn [lif_sweep]. destruct (lif_labels_total workloads nicID labels lifID Hp Hn Hb) as (m & -> & Hm).
  cbn [mbind option_bind]. destruct (IH m) as (ms & -> & Hlen & Hms).
  { intros k. rewrite Hm. unfold lif_gauge. rewrite elem_of_app. unfold labelsWithWorkload.
    rewrite elem_of_append_labels. tauto. }
  exists (m :: ms). cbn. split; [done|]. split; [by rewrite Hlen|by constructor].
Qed.

(** *** The gauge of the node *)

Lemma non_nic_lookup k : populateNonNICLabels s hostname !! k =
  match customLabelMap s !! k with
  | Some v => Some v
  | None => if decide (k = "hostname") then Some hostname else None
  end.
Proof.
  unfold populateNonNICLabels. rewrite add_custom_lookup.
  destruct (customLabelMap s !! k) eqn:Hc; [done|].
  assert (Hl : ∀ l (m : gmap string string), k ∉ ToLower <$> l →
    foldl (λ m ckey, <[ToLower ckey :=
      if decide (ckey = ToLower (MetricLabel_String HOSTNAME)) then hostname else ""]> m) m l !! k = m !! k).
  { induction l as [|x l IH]; intros m Hx; [done|]. cbn in *. rewrite IH by set_solver.
    apply lookup_insert_ne. set_solver. }
  unfold GetExporterNonNICLabels. cbn [foldl]. rewrite Hl.
  - change (ToLower (ToLower (MetricLabel_String HOSTNAME))) with "hostname".
    rewrite decide_True by done. case_decide; [subst; by rewrite lookup_insert_eq|].
    by rewrite lookup_insert_ne.
  - intros (x & -> & (y & -> & ([z v] & -> & Hin%elem_of_map_to_list)%list_elem_of_fmap)%list_elem_of_fmap)%list_elem_of_fmap.
    cbn [fst] in Hc. destruct (proj1 (nic_ok_custom s Hs) _ _ Hin) as [Hz _]. by rewrite !Hz, Hin in Hc.
Qed.

Lemma hostname_not_custom : customLabelMap s !! "hostname" = None.
Proof.
  destruct (customLabelMap s !! "hostname") as [v|] eqn:Hv; [|done].
  destruct (proj1 (nic_ok_custom s Hs) _ _ Hv) as [_ []]. by_decide.
Qed.

(** *** Devices of the network *)

Definition device_names : list string := [LabelEthIntfName; LabelEthIntfAlias; LabelRdmaDevName; LabelPcieBusId].

Lemma add_device_dom nic netDev podInfo m key k :
  is_Some (add_device_label s hostname k8PodInfoMap nic netDev podInfo m key !! k) ↔
  is_Some (m !! k) ∨ (k = key ∧ ¬ isExtraOrCustomLabel s key ∧
                      is_Some (device_value hostname k8PodInfoMap nic netDev podInfo key)).
Proof.
  unfold add_device_label. case_decide; [tauto|].
  destruct (device_value _ _ _ _ _ key) as [v|].
  - rewrite lookup_insert_is_Some'. split; [intros [<-|?]; [right|by left]|intros [?|[-> _]]; [by right|by left]].
    split_and!; [done..|by eexists].
  - split; [by left|]. by intros [?|(_ & _ & [? ?])].
Qed.

Lemma device_labels_dom visit netDev podInfo k :
  is_Some (populateLabelsForNetDevice s hostname k8PodInfoMap visit netDev podInfo !! k) ↔
  isExtraOrCustomLabel s k ∨ (k ∈ GetNetworkDeviceLabels s ∧
    is_Some (device_value hostname k8PodInfoMap (device_nic visit (IntfName netDev)) netDev podInfo k)).
Proof.
  unfold populateLabelsForNetDevice. rewrite add_custom_lookup.
  rewrite (add_extra_lookup (λ l, default "" (GetPodLabels podInfo k8PodInfoMap !! l))).
  rewrite (is_Some_or_else id _ _ _ (is_Some_or_else _ _ _ _ (fold_labels_dom _ (λ e k', k' = e ∧
    ¬ isExtraOrCustomLabel s e ∧ is_Some (device_value hostname k8PodInfoMap _ netDev podInfo e)) _ _ _
    (λ m e, add_device_dom _ _ _ m e k)))).
  rewrite lookup_empty. unfold isExtraOrCustomLabel.
  split.
  - intros [?|[?|[[? ?]|(e & Hin & -> & _ & Hv)]]]; [tauto..|done|by right].
  - destruct (decide (isExtraOrCustomLabel s k)) as [H|H]; unfold isExtraOrCustomLabel in H; [tauto|].
    intros [?|[Hin Hv]]; [tauto|]. right. right. right. by exists k.
Qed.

(** The labels [populateLabelsForNetDevice] has no value for. *)
Definition unfilled : list string := MetricLabel_String <$>
  [CLUSTER_NAME; JOB_ID; JOB_USER; JOB_PARTITION; CARD_SERIES; CARD_MODEL; CARD_VENDOR; DRIVER_VERSION; VBIOS_VERSION].

Lemma device_value_label nic netDev podInfo name : name ∈ nic_label_names →
  is_Some (device_value hostname k8PodInfoMap nic netDev podInfo (ToLower name)) ↔ name ∉ unfilled.
Proof.
  intros Hin.
  assert (Hf : Forall (λ name, bool_decide (name ∈ unfilled) = true ∧
      device_value hostname k8PodInfoMap nic netDev podInfo (ToLower name) = None ∨
    bool_decide (name ∈ unfilled) = false ∧
      is_Some (device_value hostname k8PodInfoMap nic netDev podInfo (ToLower name))) nic_label_names).
  { unfold nic_label_names. repeat apply Forall_cons_2; try apply Forall_nil_2;
      first [left; split; reflexivity|right; split; [reflexivity|by eexists]]. }
  rewrite Forall_forall in Hf. destruct (Hf name Hin) as [[Hb Hv]|[Hb Hv]].
  - apply bool_decide_eq_true in Hb. rewrite Hv. split; [by intros [? ?]|done].
  - by apply bool_decide_eq_false in Hb.
Qed.

(** Every label a device is to have is filled, or is an enabled one without a
    value. *)
Lemma device_value_names nic netDev podInfo k : k ∈ GetNetworkDeviceLabels s →
  isExtraOrCustomLabel s k ∨ is_Some (device_value hostname k8PodInfoMap nic netDev podInfo k) ∨
  ∃ name, name ∈ unfilled ∧ exportLabels s !! name = Some true ∧ k = ToLower name.
Proof.
  unfold GetNetworkDeviceLabels, labelsWithWorkload.
  rewrite elem_of_app, elem_of_append_labels, elem_of_GetExportLabels.
  intros [[[(name & -> & Hn)%list_elem_of_fmap|He]|Hw]|Hd].
  - pose proof (nic_enabled_known name Hn) as Hk. destruct (decide (name ∈ unfilled)).
    + right. right. exists name. split; [done|]. split; [by apply elem_of_enabled|done].
    + right. left. by apply device_value_label.
  - by left.
  - right. left. change workloadLabels with ["pod"; "namespace"; "container"] in Hw.
    repeat (apply elem_of_cons in Hw as [->|Hw]; [by eexists|]). by apply not_elem_of_nil in Hw.
  - right. left. repeat (apply elem_of_cons in Hd as [->|Hd]; [by eexists|]). by apply not_elem_of_nil in Hd.
Qed.

(** The gauges of the devices accept their labels unless a configured label
    has the name of an index, or an enabled label has no value. *)
Lemma device_gauge ValidString visit netDev podInfo :
  let labels := populateLabelsForNetDevice s hostname k8PodInfoMap visit netDev podInfo in
  (∀ k v, labels !! k = Some v → ValidString v = true) →
  With ValidString (GetNetworkDeviceLabels s) labels = true ↔
  (∀ i, i ∈ device_names → i ∉ labelsWithWorkload s) ∧
  ∀ name, name ∈ unfilled → exportLabels s !! name = Some true → isExtraOrCustomLabel s (ToLower name).
Proof.
  intros labels Hval.
  assert (Hsub : ∀ k, is_Some (labels !! k) → k ∈ GetNetworkDeviceLabels s).
  { intros k [Hk%extra_or_custom_exported|[Hk _]]%device_labels_dom; [|done].
    apply elem_of_app. left. by apply elem_of_append_labels; left. }
  assert (Hnd : NoDup device_names) by by_decide.
  split.
  - intros Hw. split.
    + intros i Hi Hin. revert i Hin Hi. apply (halves_disjoint _ _ labels); [apply NoDup_with_workload|done|done|].
      by apply With_size in Hw.
    + intros name Hun Hon. assert (Hk : is_Some (labels !! ToLower name)).
      { unfold With in Hw. apply andb_true_iff in Hw as [_ Hw]. rewrite forallb_forall in Hw.
        apply (bool_decide_eq_true _). apply Hw, list_elem_of_In, elem_of_app. left.
        apply elem_of_append_labels; left. apply elem_of_GetExportLabels. left.
        apply list_elem_of_fmap. exists name. split; [done|]. by apply elem_of_enabled. }
      apply device_labels_dom in Hk as [Hk|[_ Hk]]; [done|].
      apply device_value_label in Hk; [done|]. by eapply (nic_ok_exported s Hs).
  - intros [Hdis Hfill]. apply With_spec; [| |done].
    + apply NoDup_app. split; [apply NoDup_with_workload|]. split; [|done]. intros i H1 H2. by apply (Hdis i).
    + intros k. split; [apply Hsub|]. intros Hin. apply device_labels_dom.
      destruct (device_value_names (device_nic visit (IntfName netDev)) netDev podInfo k Hin)
        as [He|[Hv|(name & Hun & Hon & ->)]]; [by left|by right|]. left. by apply Hfill.
Qed.

(** *** What LIFs leave to each other *)

Lemma lif_sweep_step workloads nicID labels lifs ms i lifID prev m :
  lif_sweep s k8PodInfoMap nics ports workloads nicID labels lifs = Some ms →
  lifs !! i = Some lifID → (labels :: ms) !! i = Some prev → ms !! i = Some m →
  lif_labels s k8PodInfoMap nics ports workloads nicID prev lifID = Some m.
Proof.
  revert labels ms i. induction lifs as [|x lifs IH]; intros labels ms i; [done|]. cbn [lif_sweep].
  destruct (lif_labels _ _ _ _ _ _ labels x) as [m0|] eqn:H0; cbn [mbind option_bind]; [|done].
  destruct (lif_sweep _ _ _ _ _ _ m0 lifs) as [rest|] eqn:Hr; cbn [mbind option_bind]; [|done].
  intros [= <-]. destruct i as [|i]; cbn.
  - by intros [= <-] [= <-] [= <-].
  - intros. by eapply IH.
Qed.

(** The labels every LIF sets for itself. *)
Definition lif_own : list string := [LabelPortName; LabelEthIntfName; LabelPcieBusId] ++ workloadLabels.

Lemma lif_labels_lookup workloads nicID labels labels' lifID m m' wl :
  assoc nicID lifID workloads = Some wl →
  lif_labels s k8PodInfoMap nics ports workloads nicID labels lifID = Some m →
  lif_labels s k8PodInfoMap nics ports workloads nicID labels' lifID = Some m' →
  ∀ k, m !! k = if decide (k ∈ [LabelPortName; LabelEthIntfName; LabelPcieBusId] ∨ is_Some (wl !! k))
                then m' !! k else labels !! k.
Proof.
  unfold lif_labels. intros ->. cbn [mbind option_bind].
  destruct (GetLifName _ _); [|done]. cbn [mbind option_bind].
  destruct (GetPortName _ _); [|done]. cbn [mbind option_bind].
  destruct (GetLifPcieAddr _ _); [|done]. cbn [mbind option_bind].
  intros [= <-] [= <-] k.
  destruct (decide (k = LabelPcieBusId)) as [->|H1];
    [by rewrite decide_True by (left; by_decide); rewrite !lookup_insert_eq|].
  rewrite !(lookup_insert_ne _ LabelPcieBusId) by done.
  destruct (decide (k = LabelPortName)) as [->|H2];
    [by rewrite decide_True by (left; by_decide); rewrite !lookup_insert_eq|].
  rewrite !(lookup_insert_ne _ LabelPortName) by done.
  destruct (decide (k = LabelEthIntfName)) as [->|H3];
    [by rewrite decide_True by (left; by_decide); rewrite !lookup_insert_eq|].
  rewrite !(lookup_insert_ne _ LabelEthIntfName) by done. rewrite !lookup_union.
  case_decide as Hd.
  - destruct Hd as [Hd|[v ->]]; [set_solver|]. by destruct (labels !! k), (labels' !! k).
  - destruct (wl !! k) as [v|]; [destruct Hd; right; by eexists|]. by rewrite !(left_id_L None _).
Qed.

(** Only the extra labels of the pods are left over. *)
Lemma lif_sweep_clean workloads nicID labels lifs ms : pods_only workloads →
  lif_sweep s k8PodInfoMap nics ports workloads nicID labels lifs = Some ms →
  Forall (λ m, ∀ k, k ∉ lif_own → extraPodLabelsMap s !! k = None → m !! k = labels !! k) ms.
Proof.
  intros Hp. revert labels ms. induction lifs as [|x lifs IH]; intros labels ms; cbn [lif_sweep];
    [intros [= <-]; constructor|].
  destruct (lif_labels _ _ _ _ _ _ labels x) as [m|] eqn:H0; cbn [mbind option_bind]; [|done].
  destruct (lif_sweep _ _ _ _ _ _ m lifs) as [rest|] eqn:Hr; cbn [mbind option_bind]; [|done].
  intros [= <-].
  assert (Hm : ∀ k, k ∉ lif_own → extraPodLabelsMap s !! k = None → m !! k = labels !! k).
  { intros k Hk He. unfold lif_own in Hk. rewrite elem_of_app in Hk.
    destruct (assoc_total workloads nicID x Hp) as (wl & Hwl & _ & _).
    rewrite (lif_labels_lookup _ _ _ _ _ _ _ _ Hwl H0 H0).
    rewrite decide_False; [done|]. intros [Hi|Hw]; [tauto|]. 
    destruct (lif_workload workloads nicID x) as [w|] eqn:Hl.
    - apply (proj2 (assoc_some _ _ _ _ Hl) wl k Hwl) in Hw as [?|Hw]; [tauto|]. rewrite He in Hw. by destruct Hw.
    - rewrite (assoc_none _ _ _ Hl) in Hwl. injection Hwl as <-. apply no_workload_dom in Hw. tauto. }
  constructor; [done|]. eapply Forall_impl; [apply (IH _ _ Hr)|]. intros m' H' k Hk He. by rewrite H', Hm.
Qed.

(** A LIF with a workload has its own labels; one without keeps the extra
    labels of the pods as the LIF before it left them. *)
Lemma lif_sweep_labels workloads nicID labels lifs ms i lifID prev m c : pods_only workloads →
  lif_sweep s k8PodInfoMap nics ports workloads nicID labels lifs = Some ms →
  lifs !! i = Some lifID → (labels :: ms) !! i = Some prev → ms !! i = Some m →
  lif_labels s k8PodInfoMap nics ports workloads nicID labels lifID = Some c →
  (is_Some (lif_workload workloads nicID lifID) → m = c) ∧
  (lif_workload workloads nicID lifID = None → ∀ k,
     m !! k = if decide (is_Some (extraPodLabelsMap s !! k) ∧ k ∉ lif_own) then prev !! k else c !! k).
Proof.
  intros Hp Hsw Hl Hprev Hm Hc. pose proof (lif_sweep_step _ _ _ _ _ _ _ _ _ Hsw Hl Hprev Hm) as Hstep.
  assert (Hsame : ∀ k, k ∉ lif_own → extraPodLabelsMap s !! k = None → prev !! k = labels !! k).
  { pose proof (lif_sweep_clean _ _ _ _ _ Hp Hsw) as Hall. destruct i as [|i]; [by injection Hprev as ->|].
    rewrite Forall_forall in Hall. apply Hall. by eapply (list_elem_of_lookup_2 ms i). }
  destruct (assoc_total workloads nicID lifID Hp) as (wl & Hwl & Hwk & _).
  pose proof (lif_labels_lookup _ _ _ _ _ _ _ _ Hwl Hstep Hc) as Hk.
  pose proof (lif_labels_lookup _ _ _ _ _ _ _ _ Hwl Hc Hc) as Hck.
  unfold lif_own in *. setoid_rewrite elem_of_app in Hsame.
  split.
  - intros [w Hw]. pose proof (proj2 (assoc_some _ _ _ _ Hw)) as Hdom. apply map_eq. intros k. rewrite Hk.
    case_decide as Hd; [done|]. rewrite Hck, decide_False by done. specialize (Hdom wl k Hwl).
    apply Hsame; [tauto|]. apply eq_None_not_Some. tauto.
  - intros Hn k. rewrite (assoc_none _ _ _ Hn) in Hwl. injection Hwl as <-. rewrite Hk.
    pose proof (no_workload_dom k) as Hnd.
    pose proof (elem_of_app [LabelPortName; LabelEthIntfName; LabelPcieBusId] workloadLabels k) as Happ.
    destruct (decide (k ∈ _ ∨ is_Some (no_workload !! k))) as [Hd|Hd].
    + rewrite decide_False; [done|]. tauto.
    + destruct (extraPodLabelsMap s !! k) as [v|] eqn:He.
      * rewrite decide_True; [done|]. split; [by eexists|tauto].
      * rewrite decide_False by (by intros [[? ?] _]). rewrite Hck, decide_False by done. apply Hsame; [tauto|done].
Qed.
End card.
End names.
