(* ===== verification/NicLabelTheorems.v ===== *)
(** Which configurations of the NIC metrics make an export panic, and which
    labels of a LIF come from another one. *)

From S2P Require Import Prelude Format GoStd Scheduler Config LabelConfig LabelProofs NicAgent NicLabels NicLabelProofs.

Definition valid_strings (ValidString : string → bool) (labels : gmap string string) : Prop :=
  ∀ k v, labels !! k = Some v → ValidString v = true.

(** No index of a gauge is a configured label. *)
Definition apart (index names : list string) : Prop := ∀ i, i ∈ index → i ∉ names.

Section theorems.
Context (isK8s : bool) (configs : list (option NICMetricConfig)) (hostname : string).
Context (pods : gmap string K8sPodInfo) (nics : gmap string NIC) (ports : gmap string Port → list Port).
Context (workloads : gmap string Workload).

(** C26: Which settings make an export of the NIC metrics panic.  After any
    sequence of configurations, the labels of a known card, whose LIFs serve
    pods, can be determined.  The gauges of its ports, of its LIFs (whatever
    the earlier ones left in the map they share) and of its queue pairs accept
    them iff no enabled, custom, extra or workload label has the name of one
    of their own labels; the gauge of the node always accepts its labels.
    The gauges of the network devices accept theirs iff, besides, every
    enabled label has a value: with one of nine labels of [MetricLabel]
    enabled, and no custom or extra label of its name, [With] panics.  The
    statistics of a card that is not known panic. *)
Theorem nic_gauges ValidString nicID lifs (Hconfigs : configs ≠ []) (Hnic : is_Some (nics !! nicID))
    (Hpods : pods_only workloads) :
  let s := nic_load_labels isK8s configs in
  let base := populateLabelsFromNIC s hostname nics nicID in
  let accepts names labels (P : Prop) := valid_strings ValidString labels → (With ValidString names labels = true ↔ P) in
  (∃ m, port_labels nics ports base nicID = Some m ∧
     accepts (port_gauge s) m (apart [LabelPortName; LabelPortID; LabelPcieBusId] (GetExportLabels s))) ∧
  (∃ ms, lif_sweep s pods nics ports workloads nicID base lifs = Some ms ∧ length ms = length lifs ∧
     ∀ m, m ∈ ms →
       accepts (lif_gauge s) m (apart [LabelPortName; LabelEthIntfName; LabelPcieBusId] (labelsWithWorkload s))) ∧
  (∀ lifID qpID, ∃ m m',
     lif_qp_labels s hostname pods nics workloads nicID lifID = Some m ∧
     accepts (lif_qp_gauge s) m (apart [LabelEthIntfName; LabelPcieBusId] (labelsWithWorkload s)) ∧
     qp_labels s hostname pods nics workloads nicID lifID qpID = Some m' ∧
     accepts (qp_gauge s) m' (apart [LabelEthIntfName; LabelPcieBusId; LabelQPID] (labelsWithWorkload s))) ∧
  accepts (GetExporterNonNICLabels s) (populateNonNICLabels s hostname) True ∧
  (∀ visit netDev podInfo,
     accepts (GetNetworkDeviceLabels s) (populateLabelsForNetDevice s hostname pods visit netDev podInfo)
       (apart device_names (labelsWithWorkload s) ∧
        ∀ name, name ∈ unfilled → exportLabels s !! name = Some true → isExtraOrCustomLabel s (ToLower name))) ∧
  (∀ nicID' labels lifID, nics !! nicID' = None →
     lif_labels s pods nics ports workloads nicID' labels lifID = None ∧ port_labels nics ports labels nicID' = None).
Proof.
  intros s base accepts. pose proof (nic_load_ok isK8s configs Hconfigs : nic_labels_ok s) as Hs.
  pose proof (NoDup_with_workload s Hs) as Hnd. split_and!.
  - destruct (port_labels_total s nics ports nicID base Hnic) as (m & Hm & Hdom).
    + intros k. by apply (nic_labels_dom s Hs).
    + intros k Hk%(nic_labels_dom s Hs); [|done]. apply elem_of_app. by right.
    + exists m. split; [done|]. intros Hv. apply gauge_accepts; [by_decide|apply (NoDup_nic_labels s Hs)|done|done].
  - destruct (lif_sweep_total s Hs pods nics ports workloads nicID base lifs Hpods Hnic) as (ms & Hms & Hlen & Hdom).
    { by apply (base_between s Hs). }
    exists ms. split; [done|]. split; [done|]. rewrite Forall_forall in Hdom. intros m Hin Hv.
    apply gauge_accepts; [by_decide|done|by apply Hdom|done].
  - intros lifID qpID.
    destruct (lif_qp_labels_total s Hs hostname pods nics workloads nicID lifID Hpods Hnic) as (m & Hm & Hdom).
    exists m, (<[LabelQPID := qpID]> m). split; [done|]. split.
    { intros Hv. apply gauge_accepts; [by_decide|done..]. }
    split; [by unfold qp_labels; rewrite Hm|]. intros Hv. apply gauge_accepts; [by_decide|done| |done].
    intros k. rewrite lookup_insert_is_Some', Hdom. unfold lif_qp_gauge.
    rewrite !elem_of_app, !elem_of_cons. clear. naive_solver.
  - intros Hv. split; [done|]. intros _.
    eapply (node_gauge _ s hostname); [apply (non_nic_lookup s Hs)|apply (nic_ok_custom s Hs)|done|].
    apply (hostname_not_custom s Hs).
  - intros visit netDev podInfo Hv. by apply (device_gauge s Hs).
  - intros nicID' labels lifID Hn. unfold lif_labels, port_labels. rewrite Hn. cbn.
    split; [|done]. by destruct (getAssociatedWorkloadLabels _ _ _ _ _ _).
Qed.

(** C27: What the LIFs of a card leave to each other.  [UpdateLifStats] sets
    the labels of the LIFs of a card one after the other in one map.  A LIF
    with a workload gets the labels it would have with a map of its own, and
    so does one without a workload, except for the extra labels of the pods,
    which stay what they were for the LIF before it: they name the pod of
    another LIF. *)
Theorem lif_labels_shared nicID lifs ms i lifID prev m (Hconfigs : configs ≠ []) (Hpods : pods_only workloads) :
  let s := nic_load_labels isK8s configs in
  let base := populateLabelsFromNIC s hostname nics nicID in
  lif_sweep s pods nics ports workloads nicID base lifs = Some ms →
  lifs !! i = Some lifID → (base :: ms) !! i = Some prev → ms !! i = Some m →
  ∃ alone, lif_labels s pods nics ports workloads nicID base lifID = Some alone ∧
    (is_Some (lif_workload nics workloads nicID lifID) → m = alone) ∧
    (lif_workload nics workloads nicID lifID = None → ∀ k,
       m !! k = if decide (is_Some (extraPodLabelsMap s !! k) ∧ k ∉ lif_own) then prev !! k else alone !! k).
Proof.
  intros s base Hsw Hl Hprev Hm. pose proof (nic_load_ok isK8s configs Hconfigs : nic_labels_ok s) as Hs.
  pose proof (lif_sweep_step _ _ _ _ _ _ _ _ _ _ _ _ _ Hsw Hl Hprev Hm) as Hstep.
  assert (is_Some (lif_labels s pods nics ports workloads nicID base lifID)) as [alone Ha].
  { revert Hstep. unfold lif_labels. destruct (getAssociatedWorkloadLabels _ _ _ _ _ _); [|done]. cbn [mbind option_bind].
    destruct (GetLifName _ _); [|done]. cbn [mbind option_bind].
    destruct (GetPortName _ _); [|done]. cbn [mbind option_bind].
    destruct (GetLifPcieAddr _ _); [|done]. by eexists. }
  exists alone. split; [done|]. by eapply (lif_sweep_labels s Hs).
Qed.
End theorems.

(** ** Instances *)

(** A card with two LIFs, of which the first serves a pod. *)
Definition shared_nic : NIC :=
  MkNIC "0" "c1" "Pollara" "S1" "0000:84:00.0" "1.117" {["p1" := MkPort "0" "p1" "eth1/1" "00:11"]}
    {["l1" := MkLif "0" "l1" "ens1" "0000:84:00.1" false; "l2" := MkLif "1" "l2" "ens2" "0000:84:00.2" false]} true.
Definition shared_nics : gmap string NIC := {["c1" := shared_nic]}.
Definition port_order (m : gmap string Port) : list Port := (map_to_list m).*2.

Definition training : PodResourceInfo := MkPod "train-0" "ml" "worker".
Definition training_workloads : gmap string Workload := {["0000:84:00.1" := MkWorkload Kubernetes (InfoPod training)]}.
Definition training_pods : gmap string K8sPodInfo :=
  {[PodUniqueKey_String (MkKey "train-0" "ml") := MkPodInfo "u1" {["app.kubernetes.io/name" := "train"]}]}.

Definition shared_configs (labels : list string) (custom : list (string * string)) : list (option NICMetricConfig) :=
  [Some (MkNICConfig labels custom [("app", "app.kubernetes.io/name")])].
Definition shared_settings labels custom : label_config := nic_load_labels true (shared_configs labels custom).

Lemma training_pods_only : pods_only training_workloads.
Proof. apply map_Forall_singleton. by exists training. Qed.

Definition device0 : NetDevice := MkNetDevice "ens1" "" "ionic_0" "0000:84:00.1" "train-0".
Definition device_accepted (labels : list string) (custom : list (string * string)) : bool :=
  let s := shared_settings labels custom in
  With (λ _, true) (GetNetworkDeviceLabels s)
    (populateLabelsForNetDevice s "n1" training_pods [shared_nic] device0 (Some training)).

(** The settings that panic and those that do not. *)
Lemma device_settings :
  device_accepted [] [] = true ∧ device_accepted ["card_model"] [] = false ∧
  device_accepted ["card_model"] [("card_model", "x")] = true ∧ device_accepted [] [("PCIE_BUS_ID", "x")] = false.
Proof. by_decide. Qed.

Lemma nic_gauges_witness :
  let s := shared_settings ["CARD_MODEL"] [] in
  ∃ ms, lif_sweep s training_pods shared_nics port_order training_workloads "c1"
      (populateLabelsFromNIC s "n1" shared_nics "c1") ["l1"; "l2"] = Some ms ∧
    (∀ m, m ∈ ms → With (λ _, true) (lif_gauge s) m = true) ∧
    With (λ _, true) (GetNetworkDeviceLabels s)
      (populateLabelsForNetDevice s "n1" training_pods [shared_nic] device0 (Some training)) ≠ true.
Proof.
  intros s.
  destruct (nic_gauges true (shared_configs ["CARD_MODEL"] []) "n1" training_pods shared_nics port_order
    training_workloads (λ _, true) "c1" ["l1"; "l2"]) as (_ & (ms & Hms & _ & Hg) & _ & _ & Hd & _).
  - discriminate.
  - by exists shared_nic.
  - apply training_pods_only.
  - change (nic_load_labels true (shared_configs ["CARD_MODEL"] [])) with s in Hms, Hg, Hd.
    exists ms. split; [exact Hms|]. split.
    + intros m Hm. apply (Hg m Hm); [by intros|]. unfold apart. apply Forall_forall. by_decide.
    + intros Hw.
      destruct (proj1 (Hd [shared_nic] device0 (Some training) (λ _ _ _, eq_refl)) Hw) as [_ Hv].
      specialize (Hv "CARD_MODEL"). revert Hv.
      assert (Hx : "CARD_MODEL" ∈ unfilled ∧ exportLabels s !! "CARD_MODEL" = Some true ∧
        ¬ isExtraOrCustomLabel s (ToLower "CARD_MODEL")) by by_decide.
      tauto.
Defined.

(** The metrics of a LIF without a pod name the one of the other LIF. *)
Lemma lif_labels_shared_witness :
  let s := shared_settings [] [] in
  let base := populateLabelsFromNIC s "n1" shared_nics "c1" in
  ∃ m1 m2 alone, lif_sweep s training_pods shared_nics port_order training_workloads "c1" base ["l1"; "l2"] = Some [m1; m2] ∧
    lif_labels s training_pods shared_nics port_order training_workloads "c1" base "l2" = Some alone ∧
    m2 !! "app" = m1 !! "app" ∧ m1 !! "app" = Some "train" ∧ alone !! "app" = Some "" ∧ m2 !! "pod" = alone !! "pod".
Proof.
  intros s base.
  assert (Hr : ∃ m1 m2, lif_sweep s training_pods shared_nics port_order training_workloads "c1" base ["l1"; "l2"] =
    Some [m1; m2] ∧ m1 !! "app" = Some "train").
  { assert (H : ∀ r, (ms ← r; '(m1, m2) ← match ms with [m1; m2] => Some (m1, m2) | _ => None end;
        (m1 : gmap string string) !! "app" : option string) = Some "train" →
      ∃ m1 m2 : gmap string string, r = Some [m1; m2] ∧ m1 !! "app" = Some "train").
    { intros [[|m1 [|m2 [|]]]|]; try done. intros H. by exists m1, m2. }
    apply H. by_compute. }
  destruct Hr as (m1 & m2 & Hsw & Ht). exists m1, m2.
  destruct (lif_labels_shared true (shared_configs [] []) "n1" training_pods shared_nics port_order training_workloads
    "c1" ["l1"; "l2"] [m1; m2] 1 "l2" m1 m2) as (alone & Ha & _ & Hk).
  - discriminate.
  - apply training_pods_only.
  - exact Hsw.
  - reflexivity.
  - reflexivity.
  - reflexivity.
  - exists alone. split; [exact Hsw|]. split; [exact Ha|].
    assert (Hn : lif_workload shared_nics training_workloads "c1" "l2" = None) by by_compute.
    assert (Happ : alone !! "app" = Some "").
    { assert (H : ((.!! "app") <$> lif_labels s training_pods shared_nics port_order training_workloads "c1" base "l2") =
        Some (Some "")) by by_compute.
      change (nic_load_labels true (shared_configs [] [])) with s in Ha. fold base in Ha. rewrite Ha in H.
      by injection H. }
    split; [rewrite (Hk Hn "app"); apply decide_True; by_decide|].
    split; [exact Ht|]. split; [exact Happ|]. rewrite (Hk Hn "pod"). apply decide_False. by_decide.
Defined.
